(* ===== verification/_CoqProject ===== *)
-Q . S2P
Prelude.v
PyStr.v
Json.v
PyFloat.v
Hash.v
Clock.v
Url.v
Config.v
Identity.v
AuthDb.v
AuthStore.v
OAuthStore.v
AuthSystem.v
Regex.v
RegexFacts.v
Samples.v
OAuthFacts.v
AuthFacts.v
OAuthEndpoint.v
EndpointFacts.v
AuthGate.v
GateFacts.v
Scope.v
Threads.v
Normalize.v
ConvStore.v
ConvFacts.v
ConvTheorems.v
ConvSpec.v
Append.v
AuditLog.v
IngestFacts.v
LineageFacts.v
Sensitive.v
SensitiveFacts.v
FactValidation.v
FactExtract.v
ExtractFacts.v
Graph.v
FactStore.v
FactFacts.v
GraphFacts.v
Chunks.v
ChunkFacts.v
Summaries.v
Ingest.v
PipelineFacts.v
QueryPlan.v
QueryPlanFacts.v
Ranking.v
RankingFacts.v
FactTimeline.v
FactSearch.v
Search.v
SearchFacts.v
Pydantic.v
Context.v
ContextFacts.v
FactAnswer.v
Handoff.v
Ask.v
AskFacts.v
HandoffFacts.v
HandoffStore.v
HandoffStoreFacts.v
ImportBase.v
ImportJsonl.v
ImportPi.v
ImportPiFacts.v
ImportDocs.v
ImportHermes.v
Importers.v
ImportFacts.v
ImportService.v
ImportServiceFacts.v
ConnectOAuth.v
ConnectFacts.v
Mcp.v
McpFacts.v
ExternalOidc.v
