(* ===== verification/Prelude.v ===== *)
(** * A verification development for the AI memory hub

    The hub stores the conversations of AI assistants, derives facts, a memory
    graph, summaries and embedded chunks from them, and serves them over HTTP to
    callers that authenticate with bearer tokens, with OAuth access tokens it
    issues itself, or with tokens of an external OIDC provider.  This library
    models the part of it that decides: who a caller is, what the caller may see,
    what is taken in, and what the stores hold after each operation.  The
    definitions keep the names of the code; file names below are relative to
    [src/memory/].

    ** Parts and the files that model them

    - [Prelude]: exceptions, the result and state monads, preorder reasoning on
      runs ([moves]), SQL tables as lists of rows, automation.
    - [PyStr], [Json], [Hash], [Clock], [Regex]: the Python and SQLite values the
      code computes with: strings, JSON values, their texts and parser, SHA-256,
      HMAC, PBKDF2, base64, calendar dates, [datetime.fromisoformat], and a
      backtracking matcher for the patterns of the module [re].
    - [Url]: the functions of [urllib.parse] and [ipaddress] the code uses.
    - [Config] ([config.py]): the configuration fields the handlers read.
    - [Identity], [AuthDb], [AuthStore], [OAuthStore]
      ([backend/metadata_store.py]): validators; the tables of users, projects,
      memberships, bearer tokens, identities, sessions, OAuth clients, codes,
      refresh tokens, families and provider states; every operation on them.
    - [AuthSystem]: the operations as one step relation, with its invariant.
    - [OAuthEndpoint] ([api/oauth_authorization.py], [api/connect_service.py]):
      the token and revocation endpoints.
    - [ConnectOAuth] ([api/oauth_authorization.py], [api/connect_oauth.py],
      [api/connect_service.py], [api/connect_ui.py]): registration of clients,
      the requests of the authorization page and their decision, signing in with
      a provider, sessions and logging out.
    - [AuthGate] ([auth.py], [api/connect_security.py]): the middleware.
    - [ExternalOidc] ([api/external_oidc.py]): the validator of the access tokens
      of an external provider, with its caches.
    - [Scope], [Threads], [Normalize], [Append]
      ([ingestion/mvp_ingestion.py], [ingestion/thread_models.py]): visibility
      and filters, thread metadata, the normal form of a payload, appends to
      stored conversations, parent lineages.
    - [ConvStore] ([backend/metadata_store.py]): chunk identities, conversations,
      their message and chunk rows, their index state.
    - [Sensitive] ([ingestion/mvp_ingestion.py]): the detection of sensitive
      content, with the patterns of the code.
    - [FactValidation], [FactExtract] ([ingestion/mvp_ingestion.py],
      [ingestion/fact_validation.py]): the validation and normal form of a fact;
      the facts and topics read from a conversation.
    - [Graph] ([advanced_memory.py]): the entities and relationships read from a
      conversation.
    - [FactStore] ([backend/metadata_store.py]): facts, their confirmation and
      supersession, and the relationships of the memory graph.
    - [Chunks] ([ingestion/tokenizer.py],
      [ingestion/mvp_ingestion.py], [backend/vector_store.py]): token windows,
      chunks, their index manifest, embedding batches, the in-memory vector store.
    - [Summaries] ([ingestion/mvp_ingestion.py], [ingestion/summary_models.py]):
      the generated summaries and their table.
    - [Ingest] ([ingestion/mvp_ingestion.py]): the pipeline over all of these.
    - [AuditLog] ([ingestion/mvp_ingestion.py] and the store): the audit trail
      and project access.
    - [PyFloat]: binary64 numbers and the comparison of sort keys.
    - [QueryPlan] ([ingestion/query_planning.py]): the filters, intent and terms
      read from a query, and the proposal of a planner.
    - [Ranking] ([backend/log_safety.py],
      [advanced_memory.py], [ingestion/retrieval_ranking.py]): the redaction of
      secrets, the relevance of a memory, fusion and reranking.
    - [FactTimeline], [FactSearch] ([ingestion/fact_timeline.py],
      [ingestion/mvp_ingestion.py]): timelines, the search of facts and of the
      graph, profiles.
    - [Search] ([backend/contracts.py], [backend/vector_store.py],
      [ingestion/mvp_ingestion.py]): vector filters and the search of the
      in-memory store; search and retrieval.
    - [Context], [FactAnswer], [Ask] ([ingestion/mvp_ingestion.py]): the context
      of an answer within a token budget, answers from facts, the arbitration of
      facts and rows, and [ask] itself.
    - [Handoff], [Pydantic], [HandoffStore] ([ingestion/mvp_ingestion.py],
      [handoff_models.py], [backend/handoff_records.py],
      [backend/metadata_store.py]): the handoff packets that [ask] generates, the
      validation of models field by field, and the stored handoff records.
    - [ImportBase], [ImportJsonl], [ImportPi], [ImportDocs], [ImportHermes],
      [Importers] ([importers/]): the importers of the session formats of other
      tools: shared helpers; Claude Code, Codex, Copilot CLI and DeepSeek
      harness; the Pi family and its graph of entries; Gemini, OpenCode,
      DeepSeek shares, Droid Exec and pasted text; Hermes and the schema
      override; Qwen Code, the activity history of Copilot with the reader of
      [csv], and the registry.
    - [ImportService] ([api/import_service.py], [import_outcomes.py],
      [ingestion/save_intent.py], [api/server.py], [backend/redaction.py]): the
      fields of an import request, the save intent, receipts and counters, and
      the insert and import routes over the interface
      [ImportService.IngestionAgent], which the pipeline implements
      ([ImportService.pipeline_agent]).
    - [Mcp] ([interfaces/mcp_server.py], [interfaces/mcp_response_format.py]):
      the tools of the MCP server with the checks of their arguments, their
      policies and the scope they need, their errors and log notifications, the
      concise form of their answers, the pages of a search and the resources, over
      the interface [Mcp.HubAgent], which the hub implements ([Mcp.hub_agent]).
    - [Samples]: a small instance on which the witnesses run.

    ** How the parts interact

    A request passes [AuthGate.gate], which reads the identity tables
    ([AuthDb]) through the operations of [AuthStore]; the token endpoint calls
    those of [OAuthStore].  A browser registers a client, asks for a code, signs in
    with a provider and approves ([ConnectOAuth]); the code it is redirected with
    is what [OAuthEndpoint] exchanges.  [Ingest.ingest_messages] normalises a payload
    ([Normalize]), stamps it with owner and project ([Scope]), holds it back when
    [Sensitive] finds something in it, compares it with the conversation of its
    thread ([Append]) and writes it with [ConvStore]; then it derives facts,
    graph and summaries, cuts the chunks, has them embedded and writes their
    index state.  [Search.search] plans its query ([QueryPlan]), collects
    candidates from the vectors, the texts, the facts
    ([FactSearch]) and the graph, and hands them to [Ranking].  [Ask.ask] looks
    for facts first ([FactAnswer]), then searches, cuts what it found to the token
    budget ([Context]), weighs it against the facts, and answers with the rows, or
    with a packet of claims ([Handoff]).  [ImportService.memory_import] reads a
    file with an importer of the registry ([Importers]), validates every
    conversation and then ingests them one by one, with a receipt for each.
    An assistant reaches the same operations through the tools of [Mcp].
    The state [Ingest.World] puts the stores side by side:
    conversations with the identity tables ([ConvStore.on_auth]), facts and
    graph, summaries, vectors; [AuditLog.HubDb] adds the audit trail.  A store
    is explicit: an operation is a function from a store to a result and a store,
    a transaction ([Prelude.transaction]) drops the writes of a body that
    raises, and a statement is one [exec], [exec_r] or [query].

    ** What the theorems show

    - [OAuthFacts], [AuthFacts]: single use of codes and refresh tokens over
      every later history, revocation of families and tokens, quotas, issued
      tokens authenticate, role checks, default projects, identities.
    - [EndpointFacts]: PKCE, rotation, detection of replays.
    - [ConnectFacts]: codes are issued for requests that a session approved, a
      redirect leads to the hub, to a configured provider or to an address of this
      machine that a client registered, a callback is answered once, an approval
      and a sign-in go through.
    - [ExternalOidc]: an accepted external token is one of the provider's, and a
      validation costs a bounded number of requests.
    - [GateFacts]: the gate is sound, scopes are bounded by the stored grant.
    - [ConvFacts], [ConvTheorems]: the invariant of the conversation store and
      reading back, duplicates, compare-and-swap, message rows, index state;
      [ConvSpec]: the store refines a map from identifiers to conversations.
    - [IngestFacts]: the normal form, its stability, snapshots, the exactness of
      reusing an incoming identity.
    - [LineageFacts]: lineages are authorised and acyclic, the
      trail records every refusal.
    - [RegexFacts], [SensitiveFacts]: the matcher against a denotational reading
      of patterns; content that is found, and where nothing is looked for.
    - [ExtractFacts]: extracted facts quote the conversation and are validated.
    - [FactFacts], [GraphFacts]: what an insertion confirms and supersedes, live
      facts are found, conflict groups stay settled, extracted graphs are well
      formed.
    - [ChunkFacts]: windows cover the tokens, batches partition the chunks within
      the limits of the provider.
    - [PipelineFacts]: the newest facts make the profile, a stored summary is
      read back, only clean or approved content is derived from, an
      indexing run ends with everything indexed or everything failed, a settled
      conversation and a refused decision change nothing.
    - [QueryPlanFacts]: what the caller says wins over what the text says, which
      wins over what a planner proposes; a planner that fails changes nothing.
    - [RankingFacts]: fusion, and how little a reranker can do.
    - [FactTimeline]: the latest entries of a timeline are the newest.
    - [SearchFacts]: a search and a retrieval show only what the caller may see,
      the widening of a search ends, result modes cite every chunk once.
    - [ContextFacts], [AskFacts]: the context of an answer
      keeps its budget and cites its rows, the overlap of two windows is the
      longest one, an answer shows only what the caller may see and cites what it
      shows.
    - [HandoffFacts], [HandoffStoreFacts]: claims cite the citations of their
      packet; stored records stay consistent, are read back, and are superseded
      at most once.
    - [ImportPiFacts]: the active path of an accepted graph is found.
      [ImportFacts]: what an importer returns is fit for ingestion, for every
      importer of the registry; an activity history is complete and sorted.
      [ImportServiceFacts]: the answer of an import accounts for every
      conversation, a refused import inserts nothing, conflicts do not stop an
      import, validation refuses what ingestion would refuse.
    - [McpFacts]: a writing tool needs the write scope, a read-only one keeps the
      memory, a search shows only what its caller may see and its pages cover the
      rows, concise answers are bounded and account for what they omit, every
      answer is an envelope without content hashes.

    Theorems and examples that state defects: expiry is compared by date only
    ([AuthFacts.expired_code_redeemed_same_day]), a non-ASCII token raises
    ([GateFacts.non_ascii_token_raises]), a missing parent is shown in the
    local default project ([LineageFacts.missing_parent_listed]), two
    conflicting relationships of one batch supersede each other
    ([FactFacts.conflicting_batch_supersedes_itself]), a payload can approve
    itself ([SensitiveFacts.own_approval_disables_detection]), the
    graph of an ingested conversation carries no project and no search of a
    project finds it ([GraphFacts.ingested_graph_not_found]), a message that only
    punctuates what the user owns makes the graph extraction raise
    ([GraphFacts.blank_name_raises]), a truncated summary is longer than its
    limit ([PipelineFacts.truncated_summary_length]), a query with an unusual gap
    in the name of a source raises ([QueryPlanFacts.unusual_gap_raises]), and so
    does a filtered search that meets more than 500 memories
    ([SearchFacts.many_candidates_raise]).  A blank row shifts the citations of a
    handoff ([HandoffFacts.HandoffSamples.blank_row_shifts_citations]), a sharp s
    cuts a claim ([HandoffFacts.HandoffSamples.sharp_s_cuts_claim]), an unrelated
    message conflicts with a fact
    ([AskFacts.AskSamples.unrelated_message_conflicts]), a correction with a blank
    is not one ([AskFacts.AskSamples.correction_with_blank]).  A record with a
    padded identifier cannot be read, a replacement given at creation is not
    linked, an identifier in use escapes as a database error
    ([HandoffStoreFacts.StoreSamples]).  An import keeps a private title in its
    metadata, and a role that is a list is a type error
    ([ImportFacts.ImportSamples]).  A redirection address that ends with a bare
    number sign hides the code from its client
    ([ConnectFacts.Flow.empty_fragment_swallows_code]), and a blank client
    identifier is an internal error of the authorization page
    ([ConnectFacts.Flow.blank_client_escapes]).  A detailed answer of the tool
    [memory_ask] keeps content hashes in its structured evidence
    ([McpFacts.McpSamples.detailed_answer_keeps_hashes]), and a tool announced as
    read-only rewrites index states
    ([McpFacts.McpSamples.retrieve_repairs_index]).  Every external token that
    names an unknown key costs the provider a request
    ([ExternalOidc.OidcSamples.strangers_cost_requests]).

    ** Parameters and bounds

    - [Hash.HashLib]: the digests are a class with the laws the validators rely
      on (a digest is 64 hexadecimal characters); [Hash] has an executable
      instance; [Samples] a cheap one.
    - [ConnectOAuth.WebClient]: the HTTP client and the validator of the tokens of
      a sign-in provider, which may answer anything; [ExternalOidc.OidcClient] the
      same for an external provider, with an answer for each request.
    - [OAuthEndpoint.JwtLib]: the JWT encoder; [AuthGate]'s [external_oidc]: the
      external validator; the tokenizer, the embedding provider, the vector store
      ([Chunks.VectorStore], [Search.VectorSearch]) and the external fact
      extractor of [FactExtract] and [Ingest]; the query planner of
      [QueryPlan] and the reranker of [Ranking], which may answer anything.  Random
      identifiers and the clock are arguments.
    - The dates that pydantic reads ([HandoffStore]); the JSON schemas of the
      importers ([ImportBase.SchemaValidator]; what the importers rely on, that a
      valid record has the fields that are read from it, is
      [ImportFacts.SchemaContract]); the identifiers of [uuid5]; the multipart parser and the
      reading of the schema field of an import request.
    - Characters are code points below 256; a value that the model does not
      cover raises [OutsideModel].  A JSON number is an integer or a canonical
      decimal text ([Json]); where the code computes with floats, the text is read
      as a binary64 number ([PyFloat], on the Standard Library's [SpecFloat]).
    - The scanners of [Json] and [Normalize.splitlines] run on fuel one more
      than the length of their text, which every step shortens; the matcher of
      [Regex] on a fuel its facts bound; the windows of [Chunks] on the number of
      tokens, since a window starts past the last one; the lineage walks at most
      their own bounds of 16 and 1024 steps; the retries of an append the three
      of the code; the widening of a search twelve attempts, which
      [SearchFacts.widening_stops] shows to be enough.

    ** Not modelled

    The PostgreSQL and MongoDB stores and the clients of vector databases (the
    same contracts over third-party databases), the pages rendered for a browser,
    the discovery of importable sessions in the file system, the remaining HTTP
    routes, the texts of the prompts and descriptions of the MCP server and its
    health resource, the command line, metrics and benchmarks.  Requests that run
    concurrently with an import are not interleaved with it: its insertions follow
    each other in one run. *)
From Stdlib Require Import ZArith Lia Ascii Sorted.
From stdpp Require Export base tactics strings gmap numbers list list_relations list_misc list_tactics.

#[global] Arguments String.append !_ _ / : simpl nomatch.

(** ** Python exceptions and the two effects of the code *)

(** The exceptions the modelled code raises, with their messages.
    [OutsideModel] marks an input the model does not cover. *)
Inductive exc : Type :=
| ValueError (msg : string)
| TypeError (msg : string)
| KeyError (key : string)
| RuntimeError (msg : string)
| OverflowError (msg : string)
| AttributeError (msg : string)
| PermissionError (msg : string)
| IntegrityError (msg : string)
| ConcurrentAppendError (msg : string)
| NotSupportedError (msg : string)
| IndexError (msg : string)
| OAuthClientQuotaExceeded (msg : string)
| OAuthProviderStateQuotaExceeded (msg : string)
| OAuthError (error description : string)
| HTTPException (status_code : Z) (detail : string)
| CsvError (msg : string)
| JsonSchemaError (msg : string)
| SaveIntentError (msg error_code : string)
| ImportRequestError (status_code : Z) (msg : string)
| OutsideModel.

Inductive result (A : Type) : Type :=
| Ok (a : A)
| Raise (e : exc).
Arguments Ok {A} a.
Arguments Raise {A} e.

(** A computation over a store [S]; an exception keeps the store it leaves. *)
Definition M (S A : Type) : Type := S → result A * S.

#[export] Instance exc_eq_dec : EqDecision exc.
Proof. solve_decision. Defined.
#[export] Instance result_eq_dec `{EqDecision A} : EqDecision (result A).
Proof. solve_decision. Defined.

#[export] Instance result_ret : MRet result := λ A a, Ok a.
#[export] Instance result_bind : MBind result := λ A B f m,
  match m with Ok a => f a | Raise e => Raise e end.
#[export] Instance result_fmap : FMap result := λ A B f m,
  match m with Ok a => Ok (f a) | Raise e => Raise e end.
#[export] Instance M_ret {S} : MRet (M S) := λ A a s, (Ok a, s).
#[export] Instance M_bind {S} : MBind (M S) := λ A B f m s,
  match m s with
  | (Ok a, s') => f a s'
  | (Raise e, s') => (Raise e, s')
  end.

Definition raise {S A} (e : exc) : M S A := λ s, (Raise e, s).
Definition lift {S A} (r : result A) : M S A := λ s, (r, s).
Definition get_state {S} : M S S := λ s, (Ok s, s).
Definition put_state {S} (s : S) : M S unit := λ _, (Ok tt, s).

(** One statement: a write, a write that a constraint may refuse, a read. *)
Definition exec {S} (f : S → S) : M S unit := λ s, (Ok tt, f s).
Definition exec_r {S} (f : S → result S) : M S unit := λ s,
  match f s with Ok s' => (Ok tt, s') | Raise e => (Raise e, s) end.
Definition query {S A} (f : S → A) : M S A := λ s, (Ok (f s), s).

(** [with conn: ...]: the statements of one transaction run on the store and
    are committed together; an exception rolls every one of them back. *)
Definition transaction {S A} (body : M S A) : M S A := λ s,
  match body s with
  | (Ok a, s') => (Ok a, s')
  | (Raise e, _) => (Raise e, s)
  end.

(** [if c: raise e] *)
Definition guard_err (c : bool) (e : exc) : result unit :=
  if c then Raise e else Ok tt.

(** [for x in xs: body] over a result: the accumulator is threaded, the first
    exception ends the loop. *)
Fixpoint fold_result {A B} (f : B → A → result B) (acc : B) (xs : list A) : result B :=
  match xs with
  | [] => Ok acc
  | x :: xs' => acc' ← f acc x; fold_result f acc' xs'
  end.

Fixpoint map_result {A B} (f : A → result B) (xs : list A) : result (list B) :=
  match xs with
  | [] => Ok []
  | x :: xs' => y ← f x; ys ← map_result f xs'; Ok (y :: ys)
  end.

Definition from_option_err {A} (e : exc) (o : option A) : result A :=
  match o with Some a => Ok a | None => Raise e end.

(** [sorted(xs, key=...)] and [ORDER BY]: a stable insertion sort. *)
Fixpoint insert_by {A} (le : A → A → bool) (x : A) (xs : list A) : list A :=
  match xs with
  | [] => [x]
  | y :: ys => if le x y then x :: xs else y :: insert_by le x ys
  end.
Definition sort_by {A} (le : A → A → bool) (xs : list A) : list A := foldr (insert_by le) [] xs.

Lemma insert_by_perm {A} (le : A → A → bool) x xs : insert_by le x xs ≡ₚ x :: xs.
Proof.
  induction xs as [|y ys IH]; cbn; [done|]. case_match; [done|].
  rewrite IH. apply perm_swap.
Qed.
Lemma sort_by_perm {A} (le : A → A → bool) xs : sort_by le xs ≡ₚ xs.
Proof. induction xs as [|x xs IH]; cbn; [done|]. by rewrite insert_by_perm, IH. Qed.

Lemma insert_by_sorted {A} (le : A → A → bool) x xs : (∀ a b, le a b = false → le b a = true) →
  Sorted (λ a b, le a b = true) xs → Sorted (λ a b, le a b = true) (insert_by le x xs).
Proof.
  intros Ht. induction xs as [|y ys IH]; cbn; intros Hs; [by repeat constructor|].
  apply Sorted_inv in Hs as [Hs Hy]. destruct (le x y) eqn:E; [by repeat constructor|].
  constructor; [by apply IH|]. apply Ht in E.
  destruct ys as [|z zs]; cbn; [by constructor|]. apply HdRel_inv in Hy. by destruct (le x z); constructor.
Qed.
Lemma sort_by_sorted {A} (le : A → A → bool) xs : (∀ a b, le a b = false → le b a = true) →
  Sorted (λ a b, le a b = true) (sort_by le xs).
Proof. intros Ht. induction xs; [constructor|]. by apply insert_by_sorted. Qed.

(** ** Reasoning about effectful computations *)

(** [moves R m]: every run of [m], also one that raises, takes its store along
    the preorder [R].  A frame property, an invariant and a monotonicity
    property are three choices of [R]. *)
Definition moves {S A} (R : S → S → Prop) (m : M S A) : Prop := ∀ s, R s (m s).2.

Section moves.
Context {S : Type} (R : S → S → Prop) `{!PreOrder R}.

Lemma moves_ret {A} (a : A) : moves R (mret a).
Proof. intros s. cbn. reflexivity. Qed.
Lemma moves_raise {A} e : moves R (raise (A:=A) e).
Proof. intros s. cbn. reflexivity. Qed.
Lemma moves_lift {A} (r : result A) : moves R (lift r).
Proof. intros s. cbn. reflexivity. Qed.
Lemma moves_query {A} (f : S → A) : moves R (query f).
Proof. intros s. cbn. reflexivity. Qed.
Lemma moves_exec f : (∀ s, R s (f s)) → moves R (exec f).
Proof. intros Hf s. cbn. apply Hf. Qed.
Lemma moves_exec_r f : (∀ s s', f s = Ok s' → R s s') → moves R (exec_r f).
Proof.
  intros Hf s. unfold exec_r. destruct (f s) as [s'|e] eqn:E; cbn; [by apply Hf|reflexivity].
Qed.
Lemma moves_bind_at {A B} (m : M S A) (f : A → M S B) s :
  R s (m s).2 → (∀ a, moves R (f a)) → R s ((m ≫= f) s).2.
Proof.
  intros Hm Hf. unfold mbind, M_bind.
  destruct (m s) as [[a|e] s']; cbn in *; [|done].
  etrans; [exact Hm|apply Hf].
Qed.
Lemma moves_bind {A B} (m : M S A) (f : A → M S B) :
  moves R m → (∀ a, moves R (f a)) → moves R (m ≫= f).
Proof. intros Hm Hf s. by apply moves_bind_at. Qed.
(** A validation, the success of which the rest relies on. *)
Lemma moves_checked {A B} (r : result A) (f : A → M S B) :
  (∀ a, r = Ok a → moves R (f a)) → moves R (lift r ≫= f).
Proof.
  intros Hf s. unfold mbind, M_bind, lift. destruct r as [a|e]; cbn; [by apply Hf|reflexivity].
Qed.
(** A read, the value of which the rest relies on. *)
Lemma moves_read {A B} (g : S → A) (f : A → M S B) :
  (∀ s, R s ((f (g s)) s).2) → moves R (query g ≫= f).
Proof. intros Hf s. apply Hf. Qed.
Lemma moves_transaction {A} (m : M S A) : moves R m → moves R (transaction m).
Proof.
  intros Hm s. specialize (Hm s). unfold transaction.
  destruct (m s) as [[a|e] s']; cbn in *; [done|reflexivity].
Qed.
Lemma moves_run {A} (m : M S A) s r s' : moves R m → m s = (r, s') → R s s'.
Proof. intros Hm E. specialize (Hm s). by rewrite E in Hm. Qed.
End moves.

Create HintDb moves discriminated.

(** Keeping a predicate and keeping a projection are preorders. *)
Definition keeps {S} (I : S → Prop) : S → S → Prop := λ s s', I s → I s'.
#[export] Instance keeps_preorder {S} (I : S → Prop) : PreOrder (keeps I).
Proof. split; unfold keeps; [by intros ?|intros ???; auto]. Qed.
Definition same {S T} (f : S → T) : S → S → Prop := λ s s', f s' = f s.
#[export] Instance same_preorder {S T} (f : S → T) : PreOrder (same f).
Proof. split; unfold same; [by intros ?|intros ???; congruence]. Qed.

(** Walk down a computation, leaving the writes. *)
Ltac moves_step :=
  match goal with
  | |- moves _ (_ ≫= _) => apply moves_bind; [apply _| |intros ?]
  | |- moves _ (mret _) => apply moves_ret; apply _
  | |- moves _ (lift _) => apply moves_lift; apply _
  | |- moves _ (raise _) => apply moves_raise; apply _
  | |- moves _ (query _) => apply moves_query; apply _
  | |- moves _ (transaction _) => apply moves_transaction; [apply _|]
  | |- moves _ (exec _) => apply moves_exec; [apply _ ..|]; intros ?
  | |- moves _ (exec_r _) => apply moves_exec_r; [apply _ ..|]; intros ?? ?
  | |- moves _ (match ?x with _ => _ end) => destruct x
  | |- moves _ (let x := _ in _) => cbv zeta
  end.
Ltac walk := repeat first [moves_step | progress auto with moves nocore].

(** What a computation that returned did. *)
Lemma bind_run {S A B} (m : M S A) (f : A → M S B) s b s' :
  (m ≫= f) s = (Ok b, s') ↔ ∃ a s1, m s = (Ok a, s1) ∧ f a s1 = (Ok b, s').
Proof.
  unfold mbind, M_bind. destruct (m s) as [[a|e] s1]; naive_solver.
Qed.
Lemma transaction_run {S A} (m : M S A) s a s' :
  transaction m s = (Ok a, s') ↔ m s = (Ok a, s').
Proof. unfold transaction. destruct (m s) as [[?|?] ?]; naive_solver. Qed.
Lemma transaction_raise {S A} (m : M S A) s e s' : transaction m s = (Raise e, s') → s' = s.
Proof. unfold transaction. destruct (m s) as [[]]; naive_solver. Qed.
Lemma lift_run {S A} (r : result A) (s : S) a s' :
  lift r s = (Ok a, s') ↔ r = Ok a ∧ s' = s.
Proof. unfold lift. destruct r; naive_solver. Qed.
Lemma ret_run {S A} (x : A) (s : S) a s' :
  (mret x : M S A) s = (Ok a, s') ↔ x = a ∧ s' = s.
Proof. unfold mret, M_ret. naive_solver. Qed.
Lemma query_run {S A} (f : S → A) s a s' :
  query f s = (Ok a, s') ↔ a = f s ∧ s' = s.
Proof. unfold query. naive_solver. Qed.
Lemma exec_run {S} (f : S → S) s a s' :
  exec f s = (Ok a, s') ↔ s' = f s.
Proof. unfold exec. destruct a. naive_solver. Qed.
Lemma exec_r_run {S} (f : S → result S) s a s' :
  exec_r f s = (Ok a, s') ↔ f s = Ok s'.
Proof. unfold exec_r. destruct a, (f s); naive_solver. Qed.

(** ** SQL tables: rows in rowid order *)

Section tables.
Context {R : Type}.
Implicit Types (p : R → bool) (f : R → R) (t : list R).

(** [SELECT ... WHERE p] *)
Definition tbl_select p t : list R := List.filter p t.
(** [SELECT ... WHERE p] followed by [fetchone] *)
Definition tbl_find p t : option R := List.find p t.
(** [SELECT COUNT( * ) ... WHERE p] *)
Definition tbl_count p t : Z := Z.of_nat (length (tbl_select p t)).
(** [UPDATE ... SET f WHERE p] and its [rowcount] is [tbl_count p] *)
Definition tbl_update p f t : list R := map (λ r, if p r then f r else r) t.
(** [DELETE ... WHERE p] *)
Definition tbl_delete p t : list R := List.filter (λ r, negb (p r)) t.
(** [INSERT ... ON CONFLICT(key) DO UPDATE SET f], [p] selecting the row with
    the conflicting key. *)
Definition tbl_upsert p (r : R) f t : list R :=
  if existsb p t then tbl_update p f t else t ++ [r].
(** [INSERT ... ON CONFLICT(key) DO NOTHING] *)
Definition tbl_insert_ignore p (r : R) t : list R :=
  if existsb p t then t else t ++ [r].
(** [INSERT] into a table whose unique keys [p] compares. *)
Definition tbl_insert p (r : R) (msg : string) t : result (list R) :=
  if existsb p t then Raise (IntegrityError msg) else Ok (t ++ [r]).

Lemma elem_of_tbl_select p t r : r ∈ tbl_select p t ↔ r ∈ t ∧ p r = true.
Proof. unfold tbl_select. rewrite !list_elem_of_In, filter_In. done. Qed.

Lemma tbl_find_Some p t r : tbl_find p t = Some r → r ∈ t ∧ p r = true.
Proof. unfold tbl_find. rewrite list_elem_of_In. apply find_some. Qed.

Lemma tbl_find_None p t r : tbl_find p t = None → r ∈ t → p r = false.
Proof. unfold tbl_find. rewrite list_elem_of_In. intros H. apply (find_none p t H). Qed.

Lemma elem_of_tbl_update p f t r :
  r ∈ tbl_update p f t ↔ ∃ r0, r0 ∈ t ∧ r = if p r0 then f r0 else r0.
Proof.
  unfold tbl_update. rewrite list_elem_of_In, in_map_iff.
  setoid_rewrite list_elem_of_In. naive_solver.
Qed.

Lemma elem_of_tbl_delete p t r : r ∈ tbl_delete p t ↔ r ∈ t ∧ p r = false.
Proof.
  unfold tbl_delete. rewrite !list_elem_of_In, filter_In, negb_true_iff. done.
Qed.

Lemma elem_of_tbl_upsert p r0 f t r :
  r ∈ tbl_upsert p r0 f t →
  r = r0 ∨ (r ∈ t ∧ p r = false) ∨ ∃ r1, r1 ∈ t ∧ p r1 = true ∧ r = f r1.
Proof.
  unfold tbl_upsert. case_match.
  - rewrite elem_of_tbl_update. intros (r1 & Hr1 & ->).
    destruct (p r1) eqn:E; naive_solver.
  - rewrite elem_of_app, list_elem_of_singleton. intros [Hin| ->]; [|by left].
    right; left. split; [done|].
    destruct (p r) eqn:E; [|done].
    assert (existsb p t = true) by (apply existsb_exists; exists r; by rewrite <-list_elem_of_In).
    congruence.
Qed.

Lemma existsb_false_elem p t r : existsb p t = false → r ∈ t → p r = false.
Proof.
  intros H Hr. destruct (p r) eqn:E; [|done].
  assert (existsb p t = true); [|congruence].
  apply existsb_exists. exists r. by rewrite <-list_elem_of_In.
Qed.

Lemma tbl_update_length p f t : length (tbl_update p f t) = length t.
Proof. apply length_map. Qed.

(** The count of rows a predicate selects does not grow under an update that
    never makes a row satisfy it. *)
Lemma tbl_count_update_le (q p : R → bool) f t :
  (∀ r, r ∈ t → p r = true → q (f r) = true → q r = true) →
  (tbl_count q (tbl_update p f t) ≤ tbl_count q t)%Z.
Proof.
  unfold tbl_count, tbl_select. intros Hf. apply inj_le.
  induction t as [|r t IH]; cbn; [lia|].
  assert (IH' : length (List.filter q (tbl_update p f t)) ≤ length (List.filter q t)).
  { apply IH. intros r' Hr'. apply Hf. by right. }
  specialize (Hf r ltac:(by left)).
  unfold tbl_update in IH'.
  destruct (p r) eqn:Ep.
  - destruct (q (f r)) eqn:Eqf, (q r) eqn:Eq; cbn; try lia.
  - destruct (q r); cbn; lia.
Qed.

Lemma tbl_count_app q t1 t2 : tbl_count q (t1 ++ t2) = (tbl_count q t1 + tbl_count q t2)%Z.
Proof. unfold tbl_count, tbl_select. rewrite List.filter_app, length_app. lia. Qed.

Lemma tbl_find_update_same (p q : R → bool) f t :
  (∀ r, r ∈ t → q (f r) = q r) →
  tbl_find q (tbl_update p f t) = (λ r, if p r then f r else r) <$> tbl_find q t.
Proof.
  unfold tbl_find, tbl_update. intros Hq.
  induction t as [|r t IH]; cbn; [done|].
  rewrite IH by (intros r' ?; apply Hq; by right).
  specialize (Hq r ltac:(by left)).
  destruct (p r) eqn:E; cbn; [rewrite Hq|]; destruct (q r) eqn:E'; cbn; rewrite ?E; done.
Qed.

Lemma Forall_tbl_update (P : R → Prop) p f t :
  Forall P t → (∀ r, P r → p r = true → P (f r)) → Forall P (tbl_update p f t).
Proof.
  rewrite !Forall_forall. intros Ht Hf r.
  rewrite elem_of_tbl_update. intros (r0 & Hr0 & ->).
  destruct (p r0) eqn:E; eauto.
Qed.

Lemma Forall_tbl_update_in (P : R → Prop) p f t :
  Forall P t → (∀ r, r ∈ t → P r → p r = true → P (f r)) → Forall P (tbl_update p f t).
Proof.
  rewrite !Forall_forall. intros Ht Hf r.
  rewrite elem_of_tbl_update. intros (r0 & Hr0 & ->).
  destruct (p r0) eqn:E; eauto.
Qed.

Lemma Forall_tbl_delete (P : R → Prop) p t : Forall P t → Forall P (tbl_delete p t).
Proof. rewrite !Forall_forall. intros Ht r. rewrite elem_of_tbl_delete. naive_solver. Qed.

Lemma Forall_tbl_insert_ignore (P : R → Prop) p r t :
  Forall P t → P r → Forall P (tbl_insert_ignore p r t).
Proof.
  unfold tbl_insert_ignore. intros. case_match; [done|].
  apply Forall_app. auto.
Qed.
(** *** Unique keys *)

Definition unique_key {K} (key : R → K) t : Prop := NoDup (map key t).

Lemma unique_update {K} (key : R → K) p f t :
  (∀ r, key (f r) = key r) → unique_key key t → unique_key key (tbl_update p f t).
Proof.
  unfold unique_key, tbl_update. intros Hf Ht. rewrite map_map.
  rewrite (map_ext _ key); [done|]. intros r. by destruct (p r).
Qed.
Lemma unique_delete {K} (key : R → K) p t :
  unique_key key t → unique_key key (tbl_delete p t).
Proof.
  unfold unique_key, tbl_delete. induction t as [|r t IH]; cbn; [done|].
  intros [Hr Ht]%NoDup_cons. destruct (p r); cbn; [by apply IH|].
  apply NoDup_cons. split; [|by apply IH].
  intros Hin. apply Hr. revert Hin. rewrite !list_elem_of_In, !in_map_iff.
  intros (r' & E & [? _]%filter_In). by exists r'.
Qed.
Lemma unique_snoc {K} (key : R → K) p r t :
  existsb p t = false → (∀ r', key r' = key r → p r' = true) →
  unique_key key t → unique_key key (t ++ [r]).
Proof.
  unfold unique_key. intros Hp Hk Ht. rewrite map_app. cbn.
  apply NoDup_app. split; [done|]. split; [|apply NoDup_singleton].
  intros k. rewrite list_elem_of_In, in_map_iff, list_elem_of_singleton.
  intros (r' & <- & Hr') E. specialize (Hk _ E).
  rewrite <-list_elem_of_In in Hr'. pose proof (existsb_false_elem _ _ _ Hp Hr'). congruence.
Qed.
Lemma unique_upsert {K} (key : R → K) p r f t :
  (∀ r', key (f r') = key r') → (∀ r', key r' = key r → p r' = true) →
  unique_key key t → unique_key key (tbl_upsert p r f t).
Proof.
  intros Hf Hk Ht. unfold tbl_upsert. destruct (existsb p t) eqn:E.
  - by apply unique_update.
  - by eapply unique_snoc.
Qed.
Lemma unique_insert_ignore {K} (key : R → K) p r t :
  (∀ r', key r' = key r → p r' = true) →
  unique_key key t → unique_key key (tbl_insert_ignore p r t).
Proof.
  intros Hk Ht. unfold tbl_insert_ignore. destruct (existsb p t) eqn:E; [done|].
  by eapply unique_snoc.
Qed.
Lemma tbl_insert_Ok p r msg t t' :
  tbl_insert p r msg t = Ok t' ↔ existsb p t = false ∧ t' = t ++ [r].
Proof. unfold tbl_insert. destruct (existsb p t); naive_solver. Qed.
Lemma unique_insert {K} (key : R → K) p r msg t t' :
  tbl_insert p r msg t = Ok t' → (∀ r', key r' = key r → p r' = true) →
  unique_key key t → unique_key key t'.
Proof. rewrite tbl_insert_Ok. intros [? ->] ??. by eapply unique_snoc. Qed.

(** Two rows with one key are one row. *)
Lemma unique_eq {K} (key : R → K) t r r' :
  unique_key key t → r ∈ t → r' ∈ t → key r = key r' → r = r'.
Proof.
  unfold unique_key. induction t as [|x t IH]; cbn; [by intros _ ?%not_elem_of_nil|].
  intros [Hx Ht]%NoDup_cons. rewrite !elem_of_cons.
  rewrite list_elem_of_In, in_map_iff in Hx. setoid_rewrite <-list_elem_of_In in Hx.
  intros [->|Hr] [->|Hr'] E; [done| | |by auto].
  - exfalso. apply Hx. by exists r'.
  - exfalso. apply Hx. by exists r.
Qed.
Lemma existsb_elem p t : existsb p t = true ↔ ∃ r, r ∈ t ∧ p r = true.
Proof. rewrite existsb_exists. by setoid_rewrite list_elem_of_In. Qed.
Lemma existsb_update p (q : R → bool) f t :
  (∀ r, p (f r) = p r) → existsb p (tbl_update q f t) = existsb p t.
Proof.
  intros Hf. unfold tbl_update. induction t as [|r t IH]; cbn; [done|].
  rewrite IH. by destruct (q r); rewrite ?Hf.
Qed.
Lemma existsb_snoc_mono p t r : existsb p t = true → existsb p (t ++ [r]) = true.
Proof. intros H. by rewrite existsb_app, H. Qed.
Lemma existsb_insert_ignore_mono p (q : R → bool) r t :
  existsb p t = true → existsb p (tbl_insert_ignore q r t) = true.
Proof. unfold tbl_insert_ignore. case_match; [done|]. apply existsb_snoc_mono. Qed.
Lemma tbl_find_unique {K} (key : R → K) p t r :
  unique_key key t → (∀ r', p r' = true → key r' = key r) → r ∈ t → p r = true →
  tbl_find p t = Some r.
Proof.
  intros Hu Hk Hr Hp. destruct (tbl_find p t) as [r'|] eqn:E.
  - apply tbl_find_Some in E as [Hr' Hp']. f_equal. symmetry.
    eapply unique_eq; [done..|]. symmetry. by apply Hk.
  - apply (tbl_find_None p t r) in E; [congruence|done].
Qed.
Lemma tbl_find_is_None p t : (∀ r, r ∈ t → p r = false) → tbl_find p t = None.
Proof.
  intros Hp. destruct (tbl_find p t) as [r|] eqn:E; [|done].
  apply tbl_find_Some in E as [Hr E]. rewrite Hp in E; done.
Qed.
Lemma tbl_find_existsb p t : existsb p t = match tbl_find p t with Some _ => true | None => false end.
Proof. unfold tbl_find. induction t as [|r t IH]; cbn; [done|]. by destruct (p r). Qed.
Lemma tbl_find_snoc p t r : existsb p t = false → p r = true → tbl_find p (t ++ [r]) = Some r.
Proof.
  unfold tbl_find. intros Hn Hr. induction t as [|x t IH]; cbn in *; [by rewrite Hr|].
  apply orb_false_iff in Hn as [-> Hn]. auto.
Qed.
(** The row an upsert leaves under its key. *)
Lemma tbl_find_upsert p r f t :
  (∀ r', p (f r') = p r') → p r = true →
  tbl_find p (tbl_upsert p r f t) = Some (match tbl_find p t with Some r' => f r' | None => r end).
Proof.
  intros Hf Hr. unfold tbl_upsert. rewrite tbl_find_existsb. destruct (tbl_find p t) as [r'|] eqn:E.
  - rewrite tbl_find_update_same by (intros; apply Hf). rewrite E. cbn.
    apply tbl_find_Some in E as [_ ->]. done.
  - apply tbl_find_snoc; [|done]. by rewrite tbl_find_existsb, E.
Qed.
(** An upsert under one key leaves the rows another query finds. *)
Lemma tbl_find_upsert_other p q r f t :
  q r = false → (∀ r', p r' = true → q r' = false ∧ q (f r') = false) →
  tbl_find q (tbl_upsert p r f t) = tbl_find q t.
Proof.
  intros Hq Hp. unfold tbl_upsert, tbl_find, tbl_update. case_match.
  - clear H. induction t as [|x t IH]; cbn; [done|]. rewrite IH. destruct (p x) eqn:E; [|done].
    by destruct (Hp x E) as [-> ->].
  - induction t as [|x t IH]; cbn in *; [by rewrite Hq|]. apply orb_false_iff in H as [_ ?]. by rewrite IH.
Qed.
Lemma tbl_find_insert_ignore p r t :
  p r = true → tbl_find p (tbl_insert_ignore p r t) = Some (default r (tbl_find p t)).
Proof.
  intros Hr. unfold tbl_insert_ignore. rewrite tbl_find_existsb. destruct (tbl_find p t) eqn:E; [done|].
  apply tbl_find_snoc; [|done]. by rewrite tbl_find_existsb, E.
Qed.
Lemma tbl_find_only p t r :
  r ∈ t → p r = true → (∀ r', r' ∈ t → p r' = true → r' = r) → tbl_find p t = Some r.
Proof.
  intros Hr Hp Ho. destruct (tbl_find p t) as [r'|] eqn:E.
  - apply tbl_find_Some in E as [??]. f_equal. by apply Ho.
  - apply (tbl_find_None p t r) in E; [congruence|done].
Qed.
Lemma tbl_find_ext p q t : (∀ r, p r = q r) → tbl_find p t = tbl_find q t.
Proof. intros Hpq. unfold tbl_find. induction t as [|r t IH]; cbn; [done|]. by rewrite Hpq, IH. Qed.
(** A further condition on the row of a key. *)
Lemma tbl_find_and {K} (key : R → K) p q t r :
  unique_key key t → (∀ r r', p r = true → p r' = true → key r = key r') →
  tbl_find p t = Some r → tbl_find (λ x, p x && q x) t = if q r then Some r else None.
Proof.
  intros Hu Hp [Hr Hpr]%tbl_find_Some. destruct (q r) eqn:Hq.
  - apply (tbl_find_unique key); [done| |done|by rewrite Hpr, Hq].
    intros r' [Hr' _]%andb_true_iff. by apply Hp.
  - apply tbl_find_is_None. intros r' Hr'. destruct (p r') eqn:Hpr'; [|done].
    assert (r' = r) as ->; [|done]. eapply (unique_eq key); [done..|by apply Hp].
Qed.
Lemma tbl_update_none p f t : existsb p t = false → tbl_update p f t = t.
Proof.
  unfold tbl_update. induction t as [|x t IH]; cbn; [done|].
  intros [-> H]%orb_false_iff. by rewrite IH.
Qed.
Lemma tbl_count_cons q r t : tbl_count q (r :: t) = ((if q r then 1 else 0) + tbl_count q t)%Z.
Proof. unfold tbl_count, tbl_select. cbn. destruct (q r); cbn; lia. Qed.
Lemma tbl_count_nonneg q t : (0 ≤ tbl_count q t)%Z.
Proof. unfold tbl_count. lia. Qed.
(** An update of one row changes a count by at most one. *)
Lemma tbl_count_update_one {K} (key : R → K) p q f t :
  unique_key key t → (∀ r r', p r = true → p r' = true → key r = key r') →
  (tbl_count q (tbl_update p f t) ≤ tbl_count q t + 1)%Z.
Proof.
  intros Hu Hp. induction t as [|r t IH]; [done|].
  unfold unique_key in Hu. cbn in Hu. apply NoDup_cons in Hu as [Hr Hu].
  change (tbl_update p f (r :: t)) with ((if p r then f r else r) :: tbl_update p f t).
  rewrite !tbl_count_cons. destruct (p r) eqn:E.
  - rewrite tbl_update_none; [destruct (q (f r)), (q r); lia|].
    destruct (existsb p t) eqn:Ex; [|done]. exfalso. apply existsb_elem in Ex as (r' & Hr' & Hpr').
    apply Hr. rewrite list_elem_of_In, in_map_iff. exists r'. rewrite <-list_elem_of_In. auto.
  - specialize (IH Hu). destruct (q r); lia.
Qed.
Lemma tbl_count_upsert_one {K} (key : R → K) p q r f t :
  unique_key key t → (∀ r r', p r = true → p r' = true → key r = key r') →
  (tbl_count q (tbl_upsert p r f t) ≤ tbl_count q t + 1)%Z.
Proof.
  intros Hu Hp. unfold tbl_upsert. case_match; [by eapply tbl_count_update_one|].
  rewrite tbl_count_app, tbl_count_cons. unfold tbl_count at 2. cbn. destruct (q r); lia.
Qed.
End tables.
#[global] Arguments tbl_find : simpl never.
#[global] Arguments tbl_update : simpl never.
#[global] Arguments tbl_upsert : simpl never.
#[global] Arguments tbl_insert_ignore : simpl never.
#[global] Arguments tbl_select : simpl never.
#[global] Arguments tbl_count : simpl never.

(** ** Automation *)

(** Case analysis on every [match] and [if], keeping the equations. *)
Ltac split_matches := repeat (case_match; simplify_eq/=).

(** Unfold the result monad in hypotheses and goal. *)
Ltac simpl_monad :=
  cbn [mbind mret result_bind result_ret M_bind M_ret] in *;
  unfold mbind, mret, result_bind, result_ret, M_bind, M_ret, raise, lift,
    get_state, put_state, exec, exec_r, query, guard_err in *; cbn in *.

(** Decompose [m ← e; k = Ok _] hypotheses. *)
Lemma bind_Ok {A B} (m : result A) (f : A → result B) b :
  (m ≫= f) = Ok b ↔ ∃ a, m = Ok a ∧ f a = Ok b.
Proof. destruct m; cbn; naive_solver. Qed.

Ltac inv_run :=
  repeat match goal with
  | H : (_ ≫= _) _ = (Ok _, _) |- _ => apply (proj1 (bind_run _ _ _ _ _)) in H as (? & ? & ? & H)
  | H : transaction _ _ = (Ok _, _) |- _ => apply (proj1 (transaction_run _ _ _ _)) in H
  | H : lift _ _ = (Ok _, _) |- _ => apply (proj1 (lift_run _ _ _ _)) in H as [H ->]
  | H : mret _ _ = (Ok _, _) |- _ => apply (proj1 (ret_run _ _ _ _)) in H as [? ->]; subst
  | H : query _ _ = (Ok _, _) |- _ => apply (proj1 (query_run _ _ _ _)) in H as [? ->]; subst
  | H : exec _ _ = (Ok _, _) |- _ => apply (proj1 (exec_run _ _ _ _)) in H; subst
  | H : exec_r _ _ = (Ok _, _) |- _ => apply (proj1 (exec_r_run _ _ _ _)) in H; cbv beta in H
  | H : raise _ _ = (Ok _, _) |- _ => discriminate H
  end.

Ltac inv_ok :=
  repeat match goal with
  | H : (_ ≫= _) = Ok _ |- _ => apply bind_Ok in H as (? & ? & H)
  | H : mret _ = Ok _ |- _ => injection H as H
  | H : Ok _ = Ok _ |- _ => injection H as H
  | H : Raise _ = Ok _ |- _ => discriminate H
  | H : guard_err ?c _ = Ok _ |- _ => unfold guard_err in H; destruct c eqn:?
  end.

(** ** Lists and loops over results *)

Lemma elem_of_flat_map {A B} (f : A → list B) l y : y ∈ flat_map f l ↔ ∃ x, x ∈ l ∧ y ∈ f x.
Proof.
  rewrite list_elem_of_In, in_flat_map. setoid_rewrite list_elem_of_In. done.
Qed.
Lemma elem_of_map {A B} (f : A → B) l y : y ∈ map f l ↔ ∃ x, x ∈ l ∧ y = f x.
Proof. rewrite list_elem_of_In, in_map_iff. setoid_rewrite <-list_elem_of_In. naive_solver. Qed.
Lemma elem_of_filter_b {A} (f : A → bool) l (x : A) : x ∈ List.filter f l ↔ x ∈ l ∧ f x = true.
Proof. rewrite !list_elem_of_In. apply filter_In. Qed.
Lemma existsb_eqb_elem x l : existsb (String.eqb x) l = true ↔ x ∈ l.
Proof.
  induction l as [|y l IH]; cbn; [split; [done|by intros ?%elem_of_nil]|]. rewrite orb_true_iff, IH, String.eqb_eq, elem_of_cons. done.
Qed.
Lemma existsb_eqb_not_elem x l : existsb (String.eqb x) l = false ↔ x ∉ l.
Proof. rewrite <-existsb_eqb_elem. by destruct (existsb _ _). Qed.
(** An invariant of a fold *)
Lemma fold_result_inv {A B} (P : B → Prop) (f : B → A → result B) xs : ∀ b b',
  (∀ b x b', P b → f b x = Ok b' → P b') → P b → fold_result f b xs = Ok b' → P b'.
Proof.
  induction xs as [|x xs IH]; cbn; intros b b' Hf Hb Hr; [by injection Hr as <-|].
  apply bind_Ok in Hr as (c & Hc & Hr). eauto.
Qed.
Lemma fold_result_fails {A B} (f : B → A → result B) xs : ∀ b e, fold_result f b xs = Raise e → ∃ b x, x ∈ xs ∧ f b x = Raise e.
Proof.
  induction xs as [|x xs IH]; cbn; intros b e Hf; [discriminate|]. destruct (f b x) as [c|e'] eqn:E; cbn in Hf.
  - destruct (IH _ _ Hf) as (b' & y & Hy & Hfy). exists b', y. split; [by apply list_elem_of_further|done].
  - injection Hf as ->. exists b, x. split; [apply list_elem_of_here|done].
Qed.
Lemma map_result_fails {A B} (f : A → result B) xs e : map_result f xs = Raise e → ∃ x, x ∈ xs ∧ f x = Raise e.
Proof.
  induction xs as [|x xs IH]; cbn; intros Hf; [discriminate|]. destruct (f x) as [c|e'] eqn:E; cbn in Hf.
  - destruct (map_result f xs); [discriminate|]. destruct (IH Hf) as (y & Hy & Hfy). exists y. split; [by apply list_elem_of_further|done].
  - injection Hf as ->. exists x. split; [apply list_elem_of_here|done].
Qed.
Lemma map_result_Forall2 {A B} (f : A → result B) l : ∀ ys, map_result f l = Ok ys → Forall2 (λ x y, f x = Ok y) l ys.
Proof.
  induction l as [|x l IH]; cbn; intros ys Hl; [by simplify_eq|].
  apply bind_Ok in Hl as (y & Hy & Hl). apply bind_Ok in Hl as (ys' & Hl & E). simplify_eq. constructor; auto.
Qed.
Lemma map_result_Ok {A B} (f : A → result B) xs : Forall (λ x, ∃ y, f x = Ok y) xs →
  ∃ ys, map_result f xs = Ok ys.
Proof. induction 1 as [|x xs [y Hy] _ [ys IH]]; cbn; [by eexists|]. rewrite Hy. cbn. rewrite IH. by eexists. Qed.
Lemma map_result_elem {A B} (f : A → result B) xs ys : map_result f xs = Ok ys →
  ∀ y, y ∈ ys ↔ ∃ x, x ∈ xs ∧ f x = Ok y.
Proof.
  revert ys. induction xs as [|x xs IH]; cbn; intros ys Hys y.
  - inv_ok. subst. split; [by intros ?%elem_of_nil|]. by intros (x & ?%elem_of_nil & _).
  - apply bind_Ok in Hys as (y0 & Hy0 & Hys). apply bind_Ok in Hys as (ys0 & Hys0 & [= <-]).
    rewrite elem_of_cons, (IH _ Hys0). split.
    + intros [->|(x0 & Hx0 & Hy)]; [exists x|exists x0]; split; try done; [by left|by right].
    + intros (x0 & [->|Hx0]%elem_of_cons & Hy); [left; congruence|right; by exists x0].
Qed.
Lemma map_result_drop {A B} (f : A → result B) n : ∀ l ys,
  map_result f l = Ok ys → map_result f (drop n l) = Ok (drop n ys).
Proof.
  induction n as [|n IH]; intros l ys Hl; [by rewrite !drop_0|].
  destruct l as [|x l]; cbn in *; [by simplify_eq|].
  apply bind_Ok in Hl as (y & _ & Hl). apply bind_Ok in Hl as (ys' & Hl & E). simplify_eq. by apply IH.
Qed.
Lemma map_result_app {A B} (f : A → result B) l1 l2 ys1 ys2 :
  map_result f l1 = Ok ys1 → map_result f l2 = Ok ys2 → map_result f (l1 ++ l2) = Ok (ys1 ++ ys2).
Proof.
  revert ys1. induction l1 as [|x l1 IH]; intros ys1 H1 H2; cbn in *; [by simplify_eq|].
  apply bind_Ok in H1 as (y & Hy & H1). apply bind_Ok in H1 as (ys' & Hl & E). simplify_eq.
  rewrite Hy. cbn. by rewrite (IH ys').
Qed.
Lemma map_result_length {A B} (f : A → result B) l ys : map_result f l = Ok ys → length ys = length l.
Proof.
  revert ys. induction l as [|x l IH]; intros ys Hl; cbn in *; [by simplify_eq|].
  apply bind_Ok in Hl as (y & Hy & Hl). apply bind_Ok in Hl as (ys' & Hl & E). simplify_eq. cbn. by f_equal; apply IH.
Qed.

(** Boolean conjunctions, disjunctions and string tests to propositions. *)
Ltac prop_bool :=
  repeat match goal with
  | H : (_ && _)%bool = true |- _ => apply andb_true_iff in H as [? ?]
  | H : (_ || _)%bool = false |- _ => apply orb_false_iff in H as [? ?]
  | H : negb _ = true |- _ => apply negb_true_iff in H
  | H : negb _ = false |- _ => apply negb_false_iff in H
  | H : String.eqb _ _ = true |- _ => apply String.eqb_eq in H
  | H : String.eqb _ _ = false |- _ => apply String.eqb_neq in H
  | H : bool_decide _ = true |- _ => apply bool_decide_eq_true in H
  | H : bool_decide _ = false |- _ => apply bool_decide_eq_false in H
  end.

Create HintDb hub discriminated.
#[export] Hint Resolve unique_update unique_delete unique_insert_ignore unique_upsert : hub.
#[export] Hint Resolve Forall_tbl_update Forall_tbl_delete Forall_tbl_insert_ignore : hub.
