(* ===== verification/PyStr.v ===== *)
(** * Python strings

    A Python [str] is a [string]: one [ascii] per code point, so the model covers
    the code points U+0000 to U+00FF (Latin-1) and is exact on them; the methods
    below are those the modelled code calls.  [bytes] are [string]s as well. *)
From Stdlib Require Import ZArith Lia Ascii DecimalString Sorted.
From S2P Require Import Prelude.

Definition ord (c : ascii) : Z := Z.of_N (N_of_ascii c).
Definition chr (z : Z) : ascii := ascii_of_N (Z.to_N z).
Definition char_in (lo hi : Z) (c : ascii) : bool := (lo <=? ord c)%Z && (ord c <=? hi)%Z.

Fixpoint str_list (s : string) : list ascii :=
  match s with
  | EmptyString => []
  | String c s' => c :: str_list s'
  end.
Fixpoint list_str (l : list ascii) : string :=
  match l with
  | [] => EmptyString
  | c :: l' => String c (list_str l')
  end.

Definition str_len (s : string) : Z := Z.of_nat (String.length s).
Definition char_str (c : ascii) : string := String c EmptyString.
(** The double quote, written as a code point. *)
Definition dquote : ascii := ascii_of_nat 34.

(** [c.isspace()] *)
Definition is_space (c : ascii) : bool :=
  char_in 9 13 c || char_in 28 32 c || (ord c =? 133)%Z || (ord c =? 160)%Z.
(** [c in "0123456789"] *)
Definition is_decimal (c : ascii) : bool := char_in 48 57 c.
(** [c.isdigit()]: the decimal digits and the superscripts one, two, three. *)
Definition is_digit_char (c : ascii) : bool :=
  is_decimal c || (ord c =? 178)%Z || (ord c =? 179)%Z || (ord c =? 185)%Z.
Definition is_upper_ascii (c : ascii) : bool := char_in 65 90 c.
Definition is_lower_ascii (c : ascii) : bool := char_in 97 122 c.
Definition is_alpha_ascii (c : ascii) : bool := is_upper_ascii c || is_lower_ascii c.
Definition is_alnum_ascii (c : ascii) : bool := is_alpha_ascii c || is_decimal c.

(** [c.lower()] *)
Definition lower_char (c : ascii) : ascii :=
  if is_upper_ascii c || (char_in 192 222 c && negb (ord c =? 215)%Z)
  then chr (ord c + 32) else c.

Fixpoint smap (f : ascii → ascii) (s : string) : string :=
  match s with
  | EmptyString => EmptyString
  | String c s' => String (f c) (smap f s')
  end.
Definition lower (s : string) : string := smap lower_char s.

Fixpoint sall (p : ascii → bool) (s : string) : bool :=
  match s with
  | EmptyString => true
  | String c s' => p c && sall p s'
  end.

(** [s.isdigit()] *)
Definition isdigit (s : string) : bool :=
  match s with EmptyString => false | _ => sall is_digit_char s end.

(** [s.lstrip(chars)], [s.rstrip(chars)], [s.strip(chars)], the set as a test. *)
Fixpoint lstrip_by (p : ascii → bool) (s : string) : string :=
  match s with
  | EmptyString => EmptyString
  | String c s' => if p c then lstrip_by p s' else s
  end.
Fixpoint rstrip_by (p : ascii → bool) (s : string) : string :=
  match s with
  | EmptyString => EmptyString
  | String c s' =>
      match rstrip_by p s' with
      | EmptyString => if p c then EmptyString else char_str c
      | r => String c r
      end
  end.
Definition strip_by (p : ascii → bool) (s : string) : string := rstrip_by p (lstrip_by p s).
Definition strip (s : string) : string := strip_by is_space s.
(** Membership of a character in a literal set. *)
Fixpoint in_chars (set : string) (c : ascii) : bool :=
  match set with
  | EmptyString => false
  | String d set' => Ascii.eqb c d || in_chars set' c
  end.

(** [s.split(sep)] for a one-character separator: never empty. *)
Fixpoint split_on (sep : ascii) (s : string) : list string :=
  match s with
  | EmptyString => [EmptyString]
  | String c s' =>
      if Ascii.eqb c sep then EmptyString :: split_on sep s'
      else match split_on sep s' with
           | w :: ws => String c w :: ws
           | [] => [char_str c]
           end
  end.

(** [s.split()]: maximal runs of non-space characters; [w] is the run read so far. *)
Fixpoint split_ws_aux (w : string) (s : string) : list string :=
  match s with
  | EmptyString => match w with EmptyString => [] | _ => [w] end
  | String c s' =>
      if is_space c
      then match w with EmptyString => split_ws_aux EmptyString s'
           | _ => w :: split_ws_aux EmptyString s' end
      else split_ws_aux (w +:+ char_str c) s'
  end.
Definition split_ws (s : string) : list string := split_ws_aux EmptyString s.

(** [sep.join(xs)] *)
Definition join (sep : string) (xs : list string) : string := String.concat sep xs.

Fixpoint startswith (p s : string) : bool :=
  match p, s with
  | EmptyString, _ => true
  | String c p', String d s' => Ascii.eqb c d && startswith p' s'
  | String _ _, EmptyString => false
  end.

(** [sub in s] *)
Fixpoint contains (sub s : string) : bool :=
  startswith sub s || match s with EmptyString => false | String _ s' => contains sub s' end.

(** [s[:n]] and [s[n:]] *)
Fixpoint stake (n : nat) (s : string) : string :=
  match n, s with
  | S n', String c s' => String c (stake n' s')
  | _, _ => EmptyString
  end.
Fixpoint sdrop (n : nat) (s : string) : string :=
  match n, s with
  | S n', String _ s' => sdrop n' s'
  | _, _ => s
  end.

(** [s.replace(old, new)] for a non-empty [old]; [skip] characters of a match
    already replaced are dropped. *)
Fixpoint replace_aux (old new : string) (skip : nat) (s : string) : string :=
  match s with
  | EmptyString => EmptyString
  | String c s' =>
      match skip with
      | S k => replace_aux old new k s'
      | O => if startswith old s
             then new +:+ replace_aux old new (Nat.pred (String.length old)) s'
             else String c (replace_aux old new O s')
      end
  end.
Definition replace (old new s : string) : string := replace_aux old new 0 s.

(** [str(n)] for an int. *)
Definition str_of_N (n : N) : string := NilEmpty.string_of_uint (N.to_uint n).
Definition str_of_Z (z : Z) : string :=
  match z with
  | Z0 => "0"
  | Zpos p => str_of_N (Npos p)
  | Zneg p => "-" +:+ str_of_N (Npos p)
  end.

(** The value of a digit in base 10 or 16. *)
Definition digit_val (c : ascii) : option Z :=
  if is_decimal c then Some (ord c - 48)%Z
  else if char_in 97 102 c then Some (ord c - 87)%Z
  else if char_in 65 70 c then Some (ord c - 55)%Z
  else None.

(** The digits of an int literal, single underscores allowed between digits. *)
Fixpoint int_digits (base : Z) (acc : Z) (after_digit : bool) (s : string) : option Z :=
  match s with
  | EmptyString => if after_digit then Some acc else None
  | String c s' =>
      if Ascii.eqb c "_"%char
      then if after_digit then int_digits base acc false s' else None
      else match digit_val c with
           | Some d => if (d <? base)%Z then int_digits base (acc * base + d)%Z true s' else None
           | None => None
           end
  end.

Definition int_sign (s : string) : bool * string :=
  match s with
  | String c s' =>
      if Ascii.eqb c "-"%char then (true, s')
      else if Ascii.eqb c "+"%char then (false, s') else (false, s)
  | EmptyString => (false, EmptyString)
  end.

(** [int(s)] and [int(s, 16)]; the second accepts a [0x] prefix. *)
Definition int_of_str (s : string) : option Z :=
  let (neg, body) := int_sign (strip s) in
  z ← int_digits 10 0 false body; Some (if neg then (- z)%Z else z).
Definition int16_of_str (s : string) : option Z :=
  let (neg, body) := int_sign (strip s) in
  let body' := if startswith "0x" body || startswith "0X" body
               then match sdrop 2 body with
                    | String c r => if Ascii.eqb c "_"%char then r else String c r
                    | r => r end
               else body in
  z ← int_digits 16 0 false body'; Some (if neg then (- z)%Z else z).

(** [s.encode("utf-8")] *)
Definition utf8_char (c : ascii) : string :=
  if (ord c <? 128)%Z then char_str c
  else String (chr (192 + Z.shiftr (ord c) 6)) (char_str (chr (128 + Z.land (ord c) 63))).
Fixpoint utf8_encode (s : string) : string :=
  match s with
  | EmptyString => EmptyString
  | String c s' => utf8_char c +:+ utf8_encode s'
  end.
Definition utf8_len (s : string) : Z := str_len (utf8_encode s).

(** First-occurrence deduplication, as [dict.fromkeys] or a [seen] set gives. *)
Fixpoint dedup_acc (seen : list string) (xs : list string) : list string :=
  match xs with
  | [] => []
  | x :: xs' => if bool_decide (x ∈ seen) then dedup_acc seen xs' else x :: dedup_acc (x :: seen) xs'
  end.
Definition dedup (xs : list string) : list string := dedup_acc [] xs.

(** [sorted(xs)] on strings. *)
Definition sorted_strs (xs : list string) : list string := sort_by String.leb xs.

(** ** Lemmas *)

Lemma str_app_nil_r s : s +:+ "" = s.
Proof. induction s; cbn; congruence. Qed.
Lemma str_app_assoc a b c : a +:+ (b +:+ c) = (a +:+ b) +:+ c.
Proof. induction a; cbn; congruence. Qed.
Lemma str_app_length a b : String.length (a +:+ b) = String.length a + String.length b.
Proof. induction a; cbn; congruence. Qed.
Lemma str_app_inj_l a b c : a +:+ b = a +:+ c → b = c.
Proof. induction a; cbn; [done|]. intros [=]. auto. Qed.
#[export] Hint Rewrite str_app_nil_r str_app_length : hub.

Lemma lstrip_by_idem p s : lstrip_by p (lstrip_by p s) = lstrip_by p s.
Proof. induction s as [|c s IH]; cbn; [done|]. destruct (p c) eqn:E; cbn; rewrite ?E; done. Qed.

Lemma rstrip_by_idem p s : rstrip_by p (rstrip_by p s) = rstrip_by p s.
Proof.
  induction s as [|c s IH]; cbn; [done|].
  destruct (rstrip_by p s) as [|d r] eqn:E.
  - destruct (p c) eqn:Ec; cbn; rewrite ?Ec; done.
  - change (rstrip_by p (String c (String d r)))
      with (match rstrip_by p (String d r) with
            | EmptyString => if p c then EmptyString else char_str c
            | r => String c r end).
    by rewrite IH.
Qed.

(** A stripped string starts with no stripped character. *)
Definition lclean (p : ascii → bool) (s : string) : bool :=
  match s with EmptyString => true | String c _ => negb (p c) end.

Lemma lclean_lstrip p s : lclean p (lstrip_by p s) = true.
Proof. induction s as [|c s IH]; cbn; [done|]. destruct (p c) eqn:E; cbn; [done|]. by rewrite E. Qed.
Lemma lstrip_lclean p s : lclean p s = true → lstrip_by p s = s.
Proof. destruct s as [|c s]; cbn; [done|]. by intros ->%negb_true_iff. Qed.
Lemma lclean_rstrip p s : lclean p s = true → lclean p (rstrip_by p s) = true.
Proof.
  destruct s as [|c s]; [done|]. intros H. cbn in *.
  destruct (rstrip_by p s); [|done].
  apply negb_true_iff in H. rewrite H. cbn. by rewrite H.
Qed.

Lemma strip_by_idem p s : strip_by p (strip_by p s) = strip_by p s.
Proof.
  unfold strip_by.
  rewrite (lstrip_lclean p (rstrip_by p (lstrip_by p s))).
  - apply rstrip_by_idem.
  - apply lclean_rstrip, lclean_lstrip.
Qed.

Lemma strip_idem s : strip (strip s) = strip s.
Proof. apply strip_by_idem. Qed.

Lemma lstrip_by_length p s : String.length (lstrip_by p s) <= String.length s.
Proof. induction s as [|c s IH]; cbn; [done|]. destruct (p c); cbn; lia. Qed.
Lemma rstrip_by_length p s : String.length (rstrip_by p s) <= String.length s.
Proof.
  induction s as [|c s IH]; cbn; [done|].
  destruct (rstrip_by p s); cbn in *; [destruct (p c); cbn|]; lia.
Qed.
Lemma strip_length s : String.length (strip s) <= String.length s.
Proof. unfold strip, strip_by. etrans; [apply rstrip_by_length|apply lstrip_by_length]. Qed.

Lemma sall_app p a b : sall p (a +:+ b) = sall p a && sall p b.
Proof. induction a as [|c a IH]; cbn; [done|]. by rewrite IH, andb_assoc. Qed.

Lemma elem_of_dedup_acc x xs : ∀ seen, x ∈ dedup_acc seen xs ↔ x ∈ xs ∧ x ∉ seen.
Proof.
  induction xs as [|y xs IH]; intros seen; cbn; [set_solver|].
  case_bool_decide; [rewrite IH; set_solver|].
  rewrite elem_of_cons, IH. destruct (decide (x = y)); set_solver.
Qed.
Lemma elem_of_dedup x xs : x ∈ dedup xs ↔ x ∈ xs.
Proof. unfold dedup. rewrite elem_of_dedup_acc. set_solver. Qed.
Lemma NoDup_dedup_acc xs : ∀ seen, NoDup (dedup_acc seen xs).
Proof.
  induction xs as [|y xs IH]; intros seen; cbn; [constructor|].
  case_bool_decide; [done|]. constructor; [|done].
  rewrite elem_of_dedup_acc. set_solver.
Qed.
Lemma NoDup_dedup xs : NoDup (dedup xs).
Proof. apply NoDup_dedup_acc. Qed.

Lemma dedup_acc_id xs : ∀ seen, NoDup xs → (∀ x, x ∈ xs → x ∉ seen) → dedup_acc seen xs = xs.
Proof.
  induction xs as [|y xs IH]; intros seen Hnd Hs; cbn; [done|].
  apply NoDup_cons in Hnd as [Hy Hnd].
  rewrite bool_decide_eq_false_2 by (apply Hs; left). f_equal.
  apply IH; [done|]. intros x Hx. specialize (Hs x ltac:(by right)). set_solver.
Qed.
Lemma dedup_id xs : NoDup xs → dedup xs = xs.
Proof. intros. apply dedup_acc_id; set_solver. Qed.

Lemma sorted_strs_perm xs : sorted_strs xs ≡ₚ xs.
Proof. apply sort_by_perm. Qed.

Lemma leb_total a b : String.leb a b = false → String.leb b a = true.
Proof.
  unfold String.leb. rewrite (String.compare_antisym a b).
  by destruct (String.compare b a).
Qed.

Definition str_sorted : list string → Prop := Sorted (λ a b, String.leb a b = true).

Lemma sorted_strs_sorted xs : str_sorted (sorted_strs xs).
Proof. apply sort_by_sorted, leb_total. Qed.
Lemma sorted_strs_id xs : str_sorted xs → sorted_strs xs = xs.
Proof.
  unfold str_sorted, sorted_strs. induction xs as [|x xs IH]; intros Hs; [done|].
  apply Sorted_inv in Hs as [Hs Hx]. change (insert_by String.leb x (sort_by String.leb xs) = x :: xs). rewrite IH by done.
  destruct xs as [|y ys]; cbn; [done|]. apply HdRel_inv in Hx. by rewrite Hx.
Qed.
