(* ===== verification/Json.v ===== *)
(** * Dynamic values and JSON text

    The dynamic values of the code ([dict], [list], [str], [int], [bool],
    [None]), the dict operations in insertion order, [str] and [repr] of a
    value, [json.dumps(..., separators=(",", ":"), ensure_ascii=False)] and
    [json.loads].  A float is kept as its decimal text: of the texts with a
    fraction, [json_loads] reads those that are the [repr] of their value
    ([float_text]) and raises [OutsideModel] on the others, on exponents and on
    an escape above U+00FF. *)
From Stdlib Require Import ZArith Lia Ascii DecimalString DecimalFacts DecimalN.
From S2P Require Import Prelude PyStr.

Unset Elimination Schemes.
Inductive value : Type :=
| VNone
| VBool (b : bool)
| VInt (z : Z)
| VFloat (t : string)
| VStr (s : string)
| VList (l : list value)
| VDict (d : list (string * value)).
Set Elimination Schemes.

Notation dict := (list (string * value)).

Definition value_rect_F (P : value → Prop)
  (HN : P VNone) (HB : ∀ b, P (VBool b)) (HI : ∀ z, P (VInt z)) (HF : ∀ t, P (VFloat t)) (HS : ∀ s, P (VStr s))
  (HL : ∀ l, Forall P l → P (VList l))
  (HD : ∀ d, Forall (λ kv, P kv.2) d → P (VDict d)) : ∀ v, P v :=
  fix go v := match v with
  | VNone => HN | VBool b => HB b | VInt z => HI z | VFloat t => HF t | VStr s => HS s
  | VList l => HL l ((fix gol l : Forall P l := match l with
      | [] => Forall_nil_2 _
      | x :: xs => Forall_cons_2 _ _ _ (go x) (gol xs) end) l)
  | VDict d => HD d ((fix god d : Forall (λ kv, P kv.2) d := match d with
      | [] => Forall_nil_2 _
      | kv :: d' => Forall_cons_2 _ _ _ (go kv.2) (god d') end) d)
  end.
Definition value_ind := value_rect_F.

(** ** Dicts in insertion order *)

Section dicts.
Context {A : Type}.
Implicit Types d : list (string * A).

(** [d.get(k)] *)
Fixpoint dict_get (k : string) d : option A :=
  match d with
  | [] => None
  | (k', v) :: d' => if String.eqb k k' then Some v else dict_get k d'
  end.
(** [k in d] *)
Definition dict_has (k : string) d : bool :=
  match dict_get k d with Some _ => true | None => false end.
(** [d[k] = v]: in place when the key is present, else at the end. *)
Fixpoint dict_set (k : string) (v : A) d : list (string * A) :=
  match d with
  | [] => [(k, v)]
  | (k', v') :: d' => if String.eqb k k' then (k', v) :: d' else (k', v') :: dict_set k v d'
  end.
(** [d.pop(k, None)] *)
Fixpoint dict_pop (k : string) d : list (string * A) :=
  match d with
  | [] => []
  | (k', v) :: d' => if String.eqb k k' then d' else (k', v) :: dict_pop k d'
  end.
(** [d.setdefault(k, v)] as a statement *)
Definition dict_setdefault (k : string) (v : A) d : list (string * A) :=
  if dict_has k d then d else dict_set k v d.
(** [d.update(e)] *)
Definition dict_update d (e : list (string * A)) : list (string * A) :=
  foldl (λ acc kv, dict_set kv.1 kv.2 acc) d e.
Definition dict_keys d : list string := d.*1.

Lemma dict_get_set k k' v d :
  dict_get k (dict_set k' v d) = if String.eqb k k' then Some v else dict_get k d.
Proof.
  induction d as [|[k0 v0] d IH]; cbn.
  - by destruct (String.eqb k k').
  - destruct (String.eqb k' k0) eqn:E; cbn.
    + apply String.eqb_eq in E as <-. by destruct (String.eqb k k').
    + rewrite IH. destruct (String.eqb k k0) eqn:E'; [|done].
      apply String.eqb_eq in E' as <-. rewrite String.eqb_sym in E. by rewrite E.
Qed.
Lemma dict_get_set_eq k v d : dict_get k (dict_set k v d) = Some v.
Proof. by rewrite dict_get_set, String.eqb_refl. Qed.
Lemma dict_get_set_ne k k' v d : k ≠ k' → dict_get k (dict_set k' v d) = dict_get k d.
Proof. intros H%String.eqb_neq. by rewrite dict_get_set, H. Qed.

Lemma dict_update_absent (e : list (string * A)) k : k ∉ map fst e → ∀ d, dict_get k (dict_update d e) = dict_get k d.
Proof.
  induction e as [|[k' v'] e IH]; intros Hk d; [done|]. change (dict_update d ((k', v') :: e)) with (dict_update (dict_set k' v' d) e).
  cbn in Hk. apply not_elem_of_cons in Hk as [Hne Hk]. by rewrite IH, dict_get_set_ne.
Qed.

Lemma dict_keys_set k v d :
  dict_keys (dict_set k v d) = if dict_has k d then dict_keys d else dict_keys d ++ [k].
Proof.
  unfold dict_has. induction d as [|[k0 v0] d IH]; cbn; [done|].
  destruct (String.eqb k k0) eqn:E; cbn; [done|].
  unfold dict_keys in IH. rewrite IH. by destruct (dict_get k d).
Qed.
Lemma dict_get_None k d : dict_get k d = None ↔ k ∉ dict_keys d.
Proof.
  induction d as [|[k0 v0] d IH]; cbn; [set_solver|].
  destruct (String.eqb k k0) eqn:E; prop_bool; [set_solver|].
  rewrite IH. set_solver.
Qed.
Lemma dict_set_NoDup k v d : NoDup (dict_keys d) → NoDup (dict_keys (dict_set k v d)).
Proof.
  intros H. rewrite dict_keys_set. unfold dict_has.
  destruct (dict_get k d) eqn:E; [done|].
  apply NoDup_app. split; [done|]. split; [|apply NoDup_singleton].
  intros x Hx ->%list_elem_of_singleton. by apply dict_get_None in E.
Qed.
Lemma dict_set_new k v d : k ∉ dict_keys d → dict_set k v d = d ++ [(k, v)].
Proof.
  induction d as [|[k0 v0] d IH]; cbn; [done|]. intros H.
  destruct (String.eqb k k0) eqn:E; prop_bool; [set_solver|].
  rewrite IH; set_solver.
Qed.
Lemma dict_get_pop k k' d :
  NoDup (dict_keys d) →
  dict_get k (dict_pop k' d) = if String.eqb k k' then None else dict_get k d.
Proof.
  induction d as [|[k0 v0] d IH]; cbn; intros Hnd.
  - by destruct (String.eqb k k').
  - apply NoDup_cons in Hnd as [Hk0 Hnd].
    destruct (String.eqb k' k0) eqn:E; cbn.
    + apply String.eqb_eq in E as ->. destruct (String.eqb k k0) eqn:E'; [|done].
      apply String.eqb_eq in E' as ->. by apply dict_get_None.
    + rewrite (IH Hnd). destruct (String.eqb k k0) eqn:E'; [|done].
      apply String.eqb_eq in E' as ->. rewrite String.eqb_sym in E. by rewrite E.
Qed.
End dicts.
#[export] Hint Rewrite @dict_get_set_eq : hub.
#[export] Hint Resolve dict_set_NoDup : hub.

(** [d.get(k)] on a value read as [None] when absent. *)
Definition vget (k : string) (d : dict) : value := default VNone (dict_get k d).
(** [d.get(k, dflt)] *)
Definition vget_or (k : string) (dflt : value) (d : dict) : value := default dflt (dict_get k d).
(** [isinstance(v, dict)] and the rest *)
Definition as_dict (v : value) : option dict := match v with VDict d => Some d | _ => None end.
Definition as_list (v : value) : option (list value) := match v with VList l => Some l | _ => None end.
Definition as_str (v : value) : option string := match v with VStr s => Some s | _ => None end.
Definition is_none (v : value) : bool := match v with VNone => true | _ => false end.
(** [bool(v)] *)
Definition truthy (v : value) : bool :=
  match v with
  | VNone => false | VBool b => b | VInt z => negb (z =? 0)%Z
  | VFloat t => negb (sall (in_chars "-.0") t)
  | VStr s => negb (String.eqb s "") | VList l => match l with [] => false | _ => true end
  | VDict d => match d with [] => false | _ => true end
  end.
Definition opt_str (o : option string) : value := match o with Some s => VStr s | None => VNone end.

(** ** [str(v)] and [repr(v)] *)

Definition hex_digit (n : Z) : ascii := if (n <? 10)%Z then chr (48 + n) else chr (87 + n).
Definition hex2 (n : Z) : string := String (hex_digit (n / 16)) (char_str (hex_digit (n mod 16))).

(** A character of [repr(s)] between quotes [q]. *)
Definition repr_char (q : ascii) (c : ascii) : string :=
  if Ascii.eqb c q || Ascii.eqb c "\"%char then String "\" (char_str c)
  else if (ord c =? 10)%Z then "\n" else if (ord c =? 13)%Z then "\r"
  else if (ord c =? 9)%Z then "\t"
  else if char_in 0 31 c || char_in 127 160 c || (ord c =? 173)%Z then "\x" +:+ hex2 (ord c)
  else char_str c.
Fixpoint sflat (f : ascii → string) (s : string) : string :=
  match s with EmptyString => EmptyString | String c s' => f c +:+ sflat f s' end.
Definition repr_str (s : string) : string :=
  let q := if in_chars s "'"%char && negb (in_chars s dquote) then dquote else "'"%char in
  char_str q +:+ sflat (repr_char q) s +:+ char_str q.

Fixpoint py_repr (v : value) : string :=
  match v with
  | VNone => "None"
  | VBool b => if b then "True" else "False"
  | VInt z => str_of_Z z
  | VFloat t => t
  | VStr s => repr_str s
  | VList l => "[" +:+ join ", " (map py_repr l) +:+ "]"
  | VDict d => "{" +:+ join ", " (map (λ kv, repr_str kv.1 +:+ ": " +:+ py_repr kv.2) d) +:+ "}"
  end.
Definition py_str (v : value) : string := match v with VStr s => s | _ => py_repr v end.

(** ** [json.dumps] *)

Section dumps.
(** [ensure_ascii] *)
Variable ensure_ascii : bool.

Definition esc_char (c : ascii) : string :=
  if Ascii.eqb c dquote then String "\" (char_str dquote)
  else if Ascii.eqb c "\"%char then "\\"
  else if (ord c =? 10)%Z then "\n" else if (ord c =? 13)%Z then "\r"
  else if (ord c =? 9)%Z then "\t" else if (ord c =? 8)%Z then "\b"
  else if (ord c =? 12)%Z then "\f"
  else if (ord c <? 32)%Z || (ensure_ascii && (127 <=? ord c)%Z) then "\u00" +:+ hex2 (ord c)
  else char_str c.
Definition json_str (s : string) : string := String dquote (sflat esc_char s +:+ char_str dquote).

Fixpoint json_dumps_with (v : value) : string :=
  match v with
  | VNone => "null"
  | VBool b => if b then "true" else "false"
  | VInt z => str_of_Z z
  | VFloat t => t
  | VStr s => json_str s
  | VList l => String "[" (join "," (map json_dumps_with l) +:+ "]")
  | VDict d => String "{" (join "," (map (λ kv, json_str kv.1 +:+ String ":" (json_dumps_with kv.2)) d) +:+ "}")
  end.

(** ** [json.loads] *)

Definition json_error {A} : result A := Raise (ValueError "JSONDecodeError").
Definition is_json_ws (c : ascii) : bool :=
  (ord c =? 32)%Z || (ord c =? 9)%Z || (ord c =? 10)%Z || (ord c =? 13)%Z.
Definition skip_ws (s : string) : string := lstrip_by is_json_ws s.

Definition hex4 (a b c d : ascii) : option Z :=
  x ← digit_val a; y ← digit_val b; z ← digit_val c; w ← digit_val d;
  Some (((x * 16 + y) * 16 + z) * 16 + w)%Z.

(** The body of a string literal, after the opening quote. *)
Fixpoint scan_string (s : string) : result (string * string) :=
  match s with
  | EmptyString => json_error
  | String c s' =>
      if Ascii.eqb c dquote then Ok (EmptyString, s')
      else if Ascii.eqb c "\"%char then
        match s' with
        | EmptyString => json_error
        | String e s'' =>
            let simple (ch : ascii) := '(r, rest) ← scan_string s''; Ok (String ch r, rest) in
            if Ascii.eqb e dquote then simple dquote
            else if Ascii.eqb e "\"%char then simple "\"%char
            else if Ascii.eqb e "/"%char then simple "/"%char
            else if Ascii.eqb e "b"%char then simple (chr 8)
            else if Ascii.eqb e "f"%char then simple (chr 12)
            else if Ascii.eqb e "n"%char then simple (chr 10)
            else if Ascii.eqb e "r"%char then simple (chr 13)
            else if Ascii.eqb e "t"%char then simple (chr 9)
            else if Ascii.eqb e "u"%char then
              match s'' with
              | String h1 (String h2 (String h3 (String h4 s4))) =>
                  match hex4 h1 h2 h3 h4 with
                  | Some z => if (z <? 256)%Z
                              then '(r, rest) ← scan_string s4; Ok (String (chr z) r, rest)
                              else Raise OutsideModel
                  | None => json_error
                  end
              | _ => json_error
              end
            else json_error
        end
      else if (ord c <? 32)%Z then json_error
      else '(r, rest) ← scan_string s'; Ok (String c r, rest)
  end.

(** The longest prefix of decimal digits. *)
Fixpoint span_digits (s : string) : string * string :=
  match s with
  | String c s' => if is_decimal c then let (d, r) := span_digits s' in (String c d, r)
                   else (EmptyString, s)
  | EmptyString => (EmptyString, EmptyString)
  end.
Definition uint_str_to_N (s : string) : option N :=
  N.of_uint <$> NilEmpty.uint_of_string s.

(** The decimal texts [repr] gives: no superfluous zero, at most 15 digits, and
    no value so small that it is written with an exponent. *)
Definition plain_int (ds : string) : bool :=
  match ds with
  | EmptyString => false
  | String c r => negb (Ascii.eqb c "0"%char) || String.eqb r ""
  end.
Definition plain_fraction (ds fs : string) : bool :=
  (String.eqb fs "0" || negb (String.eqb fs "") && negb (in_chars "0" (default "0"%char (last (str_list fs)))))
  && (str_len ds + str_len fs <=? 15)%Z
  && (negb (String.eqb ds "0") || negb (startswith "0000" fs)).
Definition float_text (t : string) : bool :=
  let body := match t with String c t' => if Ascii.eqb c "-"%char then t' else t | EmptyString => t end in
  let (ds, rest) := span_digits body in
  match rest with
  | String c fs =>
      Ascii.eqb c "."%char && sall is_decimal fs && plain_int ds && plain_fraction ds fs
  | EmptyString => false
  end.

Definition int_value (neg : bool) (ds rest : string) : result (value * string) :=
  match uint_str_to_N ds with
  | Some n => Ok (VInt (if neg then (- Z.of_N n)%Z else Z.of_N n), rest)
  | None => json_error end.
(** The fraction and the exponent after the integer digits [ds]. *)
Definition scan_fraction (neg : bool) (ds rest : string) : result (value * string) :=
  match rest with
  | String c r =>
      if in_chars "eE" c then Raise OutsideModel else
      if Ascii.eqb c "."%char then
        let (fs, r') := span_digits r in
        if String.eqb fs "" then int_value neg ds rest else
        if match r' with String e _ => in_chars "eE" e | EmptyString => false end then Raise OutsideModel else
        let t := (if neg then "-" else "") +:+ (ds +:+ String "." fs) in
        if float_text t then Ok (VFloat t, r') else Raise OutsideModel
      else int_value neg ds rest
  | EmptyString => int_value neg ds rest
  end.
Definition scan_number (s : string) : result (value * string) :=
  let (neg, body) := match s with
                     | String c s' => if Ascii.eqb c "-"%char then (true, s') else (false, s)
                     | EmptyString => (false, s) end in
  let (ds, rest) := span_digits body in
  (* a leading zero ends the integer part *)
  let (ds', rest') := match ds with
                      | String c (String _ _ as r) =>
                          if Ascii.eqb c "0"%char then (char_str c, r +:+ rest) else (ds, rest)
                      | _ => (ds, rest) end in
  match ds' with
  | EmptyString => if startswith "NaN" s || startswith "Infinity" s || startswith "-Infinity" s
                   then Raise OutsideModel else json_error
  | _ => scan_fraction neg ds' rest'
  end.

(** [scan_once] and the array and object loops; every call of [scan_value]
    consumes at least one character, so the text's length is enough fuel. *)
Fixpoint scan_value (fuel : nat) (s : string) : result (value * string) :=
  match fuel with
  | O => Raise (RuntimeError "fuel")
  | S n =>
      match s with
      | EmptyString => json_error
      | String c s' =>
          if Ascii.eqb c dquote then '(r, rest) ← scan_string s'; Ok (VStr r, rest)
          else if Ascii.eqb c "{"%char then
            match skip_ws s' with
            | String e r => if Ascii.eqb e "}"%char then Ok (VDict [], r) else scan_pairs n [] (String e r)
            | EmptyString => json_error
            end
          else if Ascii.eqb c "["%char then
            match skip_ws s' with
            | String e r => if Ascii.eqb e "]"%char then Ok (VList [], r) else scan_items n [] (String e r)
            | EmptyString => json_error
            end
          else if startswith "null" s then Ok (VNone, sdrop 4 s)
          else if startswith "true" s then Ok (VBool true, sdrop 4 s)
          else if startswith "false" s then Ok (VBool false, sdrop 5 s)
          else scan_number s
      end
  end
with scan_items (fuel : nat) (acc : list value) (s : string) : result (value * string) :=
  match fuel with
  | O => Raise (RuntimeError "fuel")
  | S n =>
      '(v, r) ← scan_value n s;
      match skip_ws r with
      | String c r' =>
          if Ascii.eqb c "]"%char then Ok (VList (acc ++ [v]), r')
          else if Ascii.eqb c ","%char then scan_items n (acc ++ [v]) (skip_ws r')
          else json_error
      | EmptyString => json_error
      end
  end
with scan_pairs (fuel : nat) (acc : dict) (s : string) : result (value * string) :=
  match fuel with
  | O => Raise (RuntimeError "fuel")
  | S n =>
      match s with
      | String q s1 =>
          if Ascii.eqb q dquote then
            '(k, r0) ← scan_string s1;
            match skip_ws r0 with
            | String col r1 =>
                if Ascii.eqb col ":"%char then
                  '(v, r) ← scan_value n (skip_ws r1);
                  match skip_ws r with
                  | String c r' =>
                      if Ascii.eqb c "}"%char then Ok (VDict (dict_set k v acc), r')
                      else if Ascii.eqb c ","%char then scan_pairs n (dict_set k v acc) (skip_ws r')
                      else json_error
                  | EmptyString => json_error
                  end
                else json_error
            | EmptyString => json_error
            end
          else json_error
      | EmptyString => json_error
      end
  end.

Definition json_loads (s : string) : result value :=
  let s' := skip_ws s in
  '(v, rest) ← scan_value (S (String.length s')) s';
  match skip_ws rest with EmptyString => Ok v | _ => json_error end.

(** A value whose dicts have no repeated key and whose floats are written as
    [repr] writes them, as every Python value is. *)
Fixpoint wf_value (v : value) : Prop :=
  match v with
  | VFloat t => float_text t = true
  | VList l => foldr (λ x P, wf_value x ∧ P) True l
  | VDict d => NoDup (dict_keys d) ∧ foldr (λ kv P, wf_value kv.2 ∧ P) True d
  | _ => True
  end.

(** What may follow a value inside a JSON text. *)
Definition follow_ok (rest : string) : bool :=
  match rest with
  | EmptyString => true
  | String c _ => negb (is_decimal c || in_chars ".eE" c)
  end.
(** The first characters of the texts [json_dumps_with] writes. *)
Definition head_ok (c : ascii) : bool :=
  Ascii.eqb c dquote || in_chars "{[ntf-" c || is_decimal c.

(** ** The round trip *)

(** Case analysis on the 256 characters. *)
Ltac by_char c := destruct c as [[] [] [] [] [] [] [] []]; first [reflexivity | discriminate].

Lemma scan_esc_char c tail :
  scan_string (esc_char c +:+ tail) = ('(r, rest) ← scan_string tail; Ok (String c r, rest)).
Proof. unfold esc_char. destruct ensure_ascii; by_char c. Qed.

Lemma scan_string_esc s rest :
  scan_string (sflat esc_char s +:+ String dquote rest) = Ok (s, rest).
Proof.
  induction s as [|c s IH]; [done|]. cbn [sflat].
  by rewrite <-str_app_assoc, scan_esc_char, IH.
Qed.

Lemma span_digits_uint d rest :
  follow_ok rest = true →
  span_digits (NilEmpty.string_of_uint d +:+ rest) = (NilEmpty.string_of_uint d, rest).
Proof.
  intros Hr. induction d; cbn; [|by rewrite IHd..].
  destruct rest as [|c r]; [done|]. cbn in *. by destruct (is_decimal c).
Qed.

Lemma N_to_uint_norm n : N.to_uint n = Decimal.unorm (N.to_uint n).
Proof. rewrite <-DecimalN.Unsigned.to_of. by rewrite DecimalN.Unsigned.of_to. Qed.

Lemma uint_str_round n : uint_str_to_N (str_of_N n) = Some n.
Proof.
  unfold uint_str_to_N, str_of_N. rewrite NilEmpty.usu. cbn.
  by rewrite DecimalN.Unsigned.of_to.
Qed.

(** The digits of an int: non-empty, and no leading zero before another digit. *)
Lemma str_of_N_shape n :
  ∃ c r, str_of_N n = String c r ∧ is_decimal c = true ∧
    (Ascii.eqb c "0"%char = true → r = EmptyString).
Proof.
  unfold str_of_N. rewrite N_to_uint_norm. unfold Decimal.unorm.
  pose proof (DecimalFacts.nzhead_nonzero (N.to_uint n)) as Hz.
  destruct (Decimal.nzhead (N.to_uint n)) eqn:E; cbn; try (do 2 eexists; split_and!; [done..|]; done).
  by destruct (Hz u).
Qed.

Definition digit_head (s : string) : bool := match s with String c _ => is_decimal c | EmptyString => false end.
Lemma span_digits_app ds rest : sall is_decimal ds = true → digit_head rest = false →
  span_digits (ds +:+ rest) = (ds, rest).
Proof.
  intros Hds Hr. induction ds as [|c ds IH]; cbn.
  - destruct rest as [|c rest]; [done|]. cbn in *. by rewrite Hr.
  - cbn in Hds. apply andb_true_iff in Hds as [Hc Hds]. by rewrite Hc, (IH Hds).
Qed.
Lemma scan_number_shape (neg : bool) ds rest :
  sall is_decimal ds = true → plain_int ds = true → digit_head rest = false →
  scan_number ((if neg then "-" else "") +:+ (ds +:+ rest)) = scan_fraction neg ds rest.
Proof.
  intros Hds Hp Hr. pose proof (span_digits_app ds rest Hds Hr) as Hs.
  destruct ds as [|c r]; [done|]. cbn in Hds. apply andb_true_iff in Hds as [Hc Hds].
  assert (Hneg : Ascii.eqb c "-"%char = false) by (revert Hc; clear; by_char c).
  unfold scan_number. destruct neg; cbn [String.append]; [|rewrite Hneg].
  all: change (String c (r +:+ rest)) with (String c r +:+ rest); try rewrite Ascii.eqb_refl.
  all: rewrite Hs; destruct r as [|c' r]; [done|].
  all: cbn in Hp; rewrite orb_false_r in Hp; apply negb_true_iff in Hp; by rewrite Hp.
Qed.
Lemma uint_decimal d : sall is_decimal (NilEmpty.string_of_uint d) = true.
Proof. induction d; cbn; done. Qed.
Lemma scan_number_digits n rest (neg : bool) :
  follow_ok rest = true →
  scan_number ((if neg then "-" else "") +:+ (str_of_N n +:+ rest))
  = Ok (VInt (if neg then (- Z.of_N n)%Z else Z.of_N n), rest).
Proof.
  intros Hr. rewrite scan_number_shape.
  - unfold scan_fraction, int_value. rewrite uint_str_round. destruct rest as [|e rest]; [done|]. cbn in Hr.
    destruct e as [[] [] [] [] [] [] [] []]; first [reflexivity | discriminate].
  - apply uint_decimal.
  - destruct (str_of_N_shape n) as (c & r & -> & Hd & H0). cbn.
    destruct (Ascii.eqb c "0"%char); [by rewrite H0|done].
  - destruct rest as [|c rest]; [done|]. cbn in Hr |- *. by destruct (is_decimal c).
Qed.
(** A decimal text is its sign, its integer part, a point and its fraction. *)
Lemma float_text_shape t : float_text t = true → ∃ (neg : bool) ds fs,
  t = (if neg then "-" else "") +:+ (ds +:+ String "." fs) ∧ sall is_decimal ds = true ∧ sall is_decimal fs = true ∧
  plain_int ds = true ∧ plain_fraction ds fs = true.
Proof.
  assert (Hspan : ∀ b, b = (span_digits b).1 +:+ (span_digits b).2 ∧ sall is_decimal (span_digits b).1 = true).
  { induction b as [|c b [IH1 IH2]]; cbn; [done|]. destruct (is_decimal c) eqn:E; [|done].
    destruct (span_digits b) as [d r]; cbn in *. rewrite E. split; [by f_equal|done]. }
  unfold float_text. set (body := match t with String c t' => if Ascii.eqb c "-"%char then t' else t | EmptyString => t end).
  assert (∃ neg : bool, t = (if neg then "-" else "") +:+ body) as [neg Ht].
  { unfold body. destruct t as [|c t]; [by exists false|]. destruct (Ascii.eqb c "-"%char) eqn:E; [|by exists false].
    exists true. by apply Ascii.eqb_eq in E as ->. }
  destruct (Hspan body) as [Hb Hd]. destruct (span_digits body) as [ds [|c fs]]; cbn in *; [done|].
  intros [[[Hc Hfs]%andb_true_iff Hi]%andb_true_iff Hf]%andb_true_iff. apply Ascii.eqb_eq in Hc as ->.
  exists neg, ds, fs. by rewrite <-Hb.
Qed.
Lemma scan_number_float t rest : float_text t = true → follow_ok rest = true →
  scan_number (t +:+ rest) = Ok (VFloat t, rest).
Proof.
  intros Ht Hr. destruct (float_text_shape t Ht) as (neg & ds & fs & Et & Hds & Hfs & Hi & Hf). rewrite Et.
  rewrite <-!str_app_assoc. cbn [String.append]. rewrite scan_number_shape by done. unfold scan_fraction.
  change (in_chars "eE" ".") with false. cbv iota. rewrite Ascii.eqb_refl.
  assert (Hdr : digit_head rest = false).
  { destruct rest as [|c rest]; [done|]. cbn in Hr |- *. by destruct (is_decimal c). }
  rewrite (span_digits_app fs rest Hfs Hdr).
  assert (String.eqb fs "" = false) as -> by (by destruct fs).
  assert (match rest with String e _ => in_chars "eE" e | EmptyString => false end = false) as ->.
  { destruct rest as [|e rest]; [done|]. cbn in Hr |- *. destruct e as [[] [] [] [] [] [] [] []]; first [reflexivity | discriminate]. }
  by rewrite <-Et, Ht.
Qed.

Lemma scan_number_int z rest :
  follow_ok rest = true → scan_number (str_of_Z z +:+ rest) = Ok (VInt z, rest).
Proof.
  intros Hr. destruct z as [|p|p].
  - apply (scan_number_digits 0%N rest false Hr).
  - apply (scan_number_digits (Npos p) rest false Hr).
  - pose proof (scan_number_digits (Npos p) rest true Hr) as H. cbn in *.
    exact H.
Qed.

Lemma float_head t : float_text t = true → ∃ c r, t = String c r ∧ head_ok c = true.
Proof.
  intros (neg & ds & fs & -> & Hds & _ & Hi & _)%float_text_shape. destruct neg; cbn; [by do 2 eexists|].
  destruct ds as [|c ds]; [done|]. cbn in *. apply andb_true_iff in Hds as [Hc _].
  do 2 eexists. split; [done|]. unfold head_ok. by rewrite Hc, orb_true_r.
Qed.
Lemma json_dumps_with_head v : wf_value v → ∃ c r, json_dumps_with v = String c r ∧ head_ok c = true.
Proof.
  intros Hwf. destruct v as [|[]|[|p|p]|t|s|l|d]; cbn [json_dumps_with str_of_Z]; try (by do 2 eexists); [|by apply float_head].
  destruct (str_of_N_shape (Npos p)) as (c & r & -> & Hd & _).
  do 2 eexists. split; [done|]. unfold head_ok. by rewrite Hd, orb_true_r.
Qed.

Lemma head_ok_facts c : head_ok c = true →
  is_json_ws c = false ∧ Ascii.eqb c "]"%char = false ∧ Ascii.eqb c "}"%char = false.
Proof. destruct c as [[] [] [] [] [] [] [] []]; vm_compute; intuition congruence. Qed.

Lemma skip_ws_dumps v rest : wf_value v → skip_ws (json_dumps_with v +:+ rest) = json_dumps_with v +:+ rest.
Proof.
  intros Hwf. destruct (json_dumps_with_head v Hwf) as (c & r & -> & H). unfold skip_ws. cbn.
  apply head_ok_facts in H as [-> _]. done.
Qed.

Lemma scan_value_int z n rest :
  follow_ok rest = true → scan_value (S n) (str_of_Z z +:+ rest) = Ok (VInt z, rest).
Proof.
  intros Hr. rewrite <-(scan_number_int z rest Hr).
  destruct z as [|p|p]; [done| |done].
  cbn [str_of_Z]. destruct (str_of_N_shape (Npos p)) as (c & r & -> & Hd & _).
  revert Hd. clear. cbn [String.append scan_value].
  destruct c as [[] [] [] [] [] [] [] []]; try discriminate; reflexivity.
Qed.

Lemma scan_value_float t n rest :
  float_text t = true → follow_ok rest = true → scan_value (S n) (t +:+ rest) = Ok (VFloat t, rest).
Proof.
  intros Ht Hr. rewrite <-(scan_number_float t rest Ht Hr).
  destruct (float_text_shape t Ht) as (neg & ds & fs & -> & Hds & _ & Hi & _). destruct neg; [done|].
  destruct ds as [|c ds]; [done|]. cbn in Hds. apply andb_true_iff in Hds as [Hd _].
  revert Hd. clear. cbn [String.append scan_value].
  destruct c as [[] [] [] [] [] [] [] []]; try discriminate; reflexivity.
Qed.

(** What the induction gives for a value. *)
Definition scans (v : value) : Prop := wf_value v ∧ ∀ n rest,
  String.length (json_dumps_with v) < n → follow_ok rest = true →
  scan_value n (json_dumps_with v +:+ rest) = Ok (v, rest).

Lemma json_dumps_with_nonempty v : wf_value v → 0 < String.length (json_dumps_with v).
Proof. intros Hwf. destruct (json_dumps_with_head v Hwf) as (c & r & -> & _). cbn. lia. Qed.

Lemma join_cons2 sep x y ys : join sep (x :: y :: ys) = x +:+ (sep +:+ join sep (y :: ys)).
Proof. done. Qed.

Lemma scan_items_dumps l : ∀ x acc n rest,
  Forall scans (x :: l) →
  S (String.length (join "," (map json_dumps_with (x :: l)))) < n →
  scan_items n acc (join "," (map json_dumps_with (x :: l)) +:+ String "]" rest)
  = Ok (VList (acc ++ x :: l), rest).
Proof.
  induction l as [|y l IH]; intros x acc [|n] rest Hl Hn; [lia| |lia|].
  - apply Forall_cons in Hl as [[_ Hx] _]. cbn in Hn. cbn [map join String.concat scan_items].
    rewrite Hx by (cbn; lia || done). done.
  - apply Forall_cons in Hl as [[Wx Hx] Hl]. cbn [map] in Hn |- *. rewrite join_cons2 in Hn |- *.
    rewrite !str_app_length in Hn. cbn [String.length] in Hn.
    assert (Wy : wf_value y) by (apply Forall_cons in Hl as [[? _] _]; done).
    pose proof (json_dumps_with_nonempty x Wx). cbn [scan_items].
    rewrite <-!str_app_assoc. rewrite Hx by (cbn; lia || done).
    change (json_dumps_with y :: map json_dumps_with l) with (map json_dumps_with (y :: l)).
    cbn [mbind result_bind String.append].
    assert (Hw : skip_ws (join "," (map json_dumps_with (y :: l)) +:+ String "]" rest)
                 = join "," (map json_dumps_with (y :: l)) +:+ String "]" rest).
    { destruct l as [|z l]; cbn [map]; [by apply skip_ws_dumps|].
      rewrite join_cons2, <-str_app_assoc. by apply skip_ws_dumps. }
    transitivity (scan_items n (acc ++ [x]) (skip_ws (join "," (map json_dumps_with (y :: l)) +:+ String "]" rest))); [done|].
    rewrite Hw. rewrite (IH y (acc ++ [x]) n rest Hl) by (cbn [map]; lia).
    by rewrite <-app_assoc.
Qed.

Lemma scan_pairs_dumps d : ∀ k v acc n rest,
  Forall (λ kv, scans kv.2) ((k, v) :: d) →
  NoDup (dict_keys (acc ++ (k, v) :: d)) →
  let text := join "," (map (λ kv, json_str kv.1 +:+ String ":" (json_dumps_with kv.2)) ((k, v) :: d)) in
  S (String.length text) < n →
  scan_pairs n acc (text +:+ String "}" rest) = Ok (VDict (acc ++ (k, v) :: d), rest).
Proof.
  induction d as [|[k' v'] d IH]; intros k v acc [|n] rest Hd Hnd text Hn; [lia| |lia|]; subst text.
  all: apply Forall_cons in Hd as [[Wv Hv] Hd]; cbn in Hv, Wv.
  all: assert (Hset : dict_set k v acc = acc ++ [(k, v)]) by
    (apply dict_set_new; unfold dict_keys in Hnd; rewrite fmap_app in Hnd;
     apply NoDup_app in Hnd as (_ & Hnd & _); intros Hin; apply (Hnd k Hin); by left).
  - cbn [map join String.concat fst snd] in *. unfold json_str in *. cbn [scan_pairs String.append char_str].
    rewrite !str_app_length in Hn. cbn [String.length] in Hn.
    rewrite <-!str_app_assoc. cbn [String.append char_str]. rewrite Ascii.eqb_refl.
    rewrite scan_string_esc. cbn [mbind result_bind].
    transitivity ('(w, r) ← scan_value n (skip_ws (json_dumps_with v +:+ String "}" rest));
      match skip_ws r with
      | String c r' => if Ascii.eqb c "}"%char then Ok (VDict (dict_set k w acc), r')
          else if Ascii.eqb c ","%char then scan_pairs n (dict_set k w acc) (skip_ws r') else json_error
      | EmptyString => json_error end); [done|].
    rewrite skip_ws_dumps, Hv by (lia || done). cbn. by rewrite Hset.
  - cbn [map] in Hn |- *. rewrite join_cons2 in Hn |- *. cbn [fst snd] in Hn |- *.
    change ((json_str k' +:+ String ":" (json_dumps_with v')) ::
      map (λ kv, json_str kv.1 +:+ String ":" (json_dumps_with kv.2)) d)
      with (map (λ kv, json_str kv.1 +:+ String ":" (json_dumps_with kv.2)) ((k', v') :: d)) in Hn |- *.
    set (tail := join "," (map (λ kv, json_str kv.1 +:+ String ":" (json_dumps_with kv.2)) ((k', v') :: d))) in Hn |- *.
    unfold json_str in Hn |- *. rewrite !str_app_length in Hn. cbn [String.length] in Hn.
    rewrite !str_app_length in Hn. cbn [String.length] in Hn.
    rewrite <-!str_app_assoc. cbn [scan_pairs String.append char_str]. rewrite Ascii.eqb_refl.
    rewrite <-!str_app_assoc. cbn [String.append char_str]. rewrite scan_string_esc. cbn [mbind result_bind].
    assert (Hw : skip_ws (tail +:+ String "}" rest) = tail +:+ String "}" rest) by
      (unfold tail; destruct d; cbn [map]; rewrite ?join_cons2; done).
    transitivity ('(w, r) ← scan_value n (skip_ws (json_dumps_with v +:+ String "," (tail +:+ String "}" rest)));
      match skip_ws r with
      | String c r' => if Ascii.eqb c "}"%char then Ok (VDict (dict_set k w acc), r')
          else if Ascii.eqb c ","%char then scan_pairs n (dict_set k w acc) (skip_ws r') else json_error
      | EmptyString => json_error end); [done|].
    rewrite skip_ws_dumps, Hv by (lia || done).
    transitivity (scan_pairs n (dict_set k v acc) (skip_ws (tail +:+ String "}" rest))); [done|].
    rewrite Hw, Hset.
    transitivity (Ok (VDict ((acc ++ [(k, v)]) ++ (k', v') :: d), rest)); [|by rewrite <-app_assoc].
    apply IH; [done|by rewrite <-app_assoc|fold tail; lia].
Qed.

Lemma wf_list l : wf_value (VList l) ↔ Forall wf_value l.
Proof. cbn. induction l as [|x l IH]; cbn; [done|]. by rewrite Forall_cons, IH. Qed.
Lemma wf_dict d : wf_value (VDict d) ↔ NoDup (dict_keys d) ∧ Forall (λ kv, wf_value kv.2) d.
Proof.
  cbn. apply and_iff_compat_l.
  induction d as [|x d IH]; cbn; [done|]. by rewrite Forall_cons, IH.
Qed.

Lemma scans_all v : wf_value v → scans v.
Proof.
  intros Hwf. split; [done|]. revert Hwf.
  induction v as [|b|z|t|s|l IH|d IH] using value_ind; intros Hwf [|n] rest Hn Hr; try (cbn in Hn; lia).
  - done.
  - by destruct b.
  - by apply scan_value_int.
  - by apply scan_value_float.
  - cbn [json_dumps_with]. unfold json_str. cbn [String.append scan_value]. rewrite Ascii.eqb_refl.
    rewrite <-str_app_assoc. cbn [String.append char_str]. by rewrite scan_string_esc.
  - apply wf_list in Hwf. destruct l as [|x l]; [done|].
    assert (Hl : Forall scans (x :: l)) by (revert IH Hwf; rewrite !Forall_forall; intros IH Hwf y Hy; split; auto).
    cbn [json_dumps_with] in Hn |- *. cbn [String.length] in Hn. rewrite str_app_length in Hn. cbn [String.length] in Hn.
    transitivity (scan_items n [] (join "," (map json_dumps_with (x :: l)) +:+ String "]" rest)).
    + cbn [String.append]. rewrite <-str_app_assoc. cbn [String.append].
      assert (Hh : ∃ c r, join "," (map json_dumps_with (x :: l)) = String c r ∧ head_ok c = true).
      { apply Forall_cons in Hwf as [Wx _]. destruct (json_dumps_with_head x Wx) as (c & r & Hc & H). destruct l; cbn [map].
        - cbn. rewrite Hc. by exists c, r.
        - rewrite join_cons2, Hc. by eexists c, _. }
      destruct Hh as (c & r & -> & Hh). apply head_ok_facts in Hh as (Hw & Hb & _).
      cbn. unfold skip_ws. cbn. by rewrite Hw, Hb.
    + apply (scan_items_dumps l x [] n rest Hl). lia.
  - apply wf_dict in Hwf as [Hnd Hwf]. destruct d as [|[k v] d]; [done|].
    assert (Hd : Forall (λ kv, scans kv.2) ((k, v) :: d)) by (revert IH Hwf; rewrite !Forall_forall; intros IH Hwf y Hy; split; auto).
    cbn [json_dumps_with] in Hn |- *. cbn [String.length] in Hn. rewrite str_app_length in Hn. cbn [String.length] in Hn.
    transitivity (scan_pairs n [] (join "," (map (λ kv, json_str kv.1 +:+ String ":" (json_dumps_with kv.2)) ((k, v) :: d)) +:+ String "}" rest)).
    + cbn [String.append]. rewrite <-str_app_assoc. by destruct d.
    + apply (scan_pairs_dumps d k v [] n rest Hd Hnd). lia.
Qed.

(** Reading back the text written for a value gives that value. *)
Lemma loads_dumps_with v : wf_value v → json_loads (json_dumps_with v) = Ok v.
Proof.
  intros Hwf. unfold json_loads.
  pose proof (skip_ws_dumps v "" Hwf) as Hw. rewrite str_app_nil_r in Hw. rewrite Hw.
  pose proof (proj2 (scans_all v Hwf) (S (String.length (json_dumps_with v))) "") as Hs.
  rewrite str_app_nil_r in Hs. by rewrite Hs by (lia || done).
Qed.
End dumps.

(** [json.dumps(v, separators=(",", ":"), ensure_ascii=False)] *)
Definition json_dumps (v : value) : string := json_dumps_with false v.
(** [json.dumps(v, separators=(",", ":"))] *)
Definition json_dumps_ascii (v : value) : string := json_dumps_with true v.

Lemma loads_dumps v : wf_value v → json_loads (json_dumps v) = Ok v.
Proof. apply loads_dumps_with. Qed.
Lemma loads_dumps_ascii v : wf_value v → json_loads (json_dumps_ascii v) = Ok v.
Proof. apply loads_dumps_with. Qed.
#[export] Hint Rewrite loads_dumps loads_dumps_ascii using done : hub.

(** Writing into and reading from a well-formed dict. *)
Lemma wf_dict_set k v d : wf_value (VDict d) → wf_value v → wf_value (VDict (dict_set k v d)).
Proof.
  rewrite !wf_dict. intros [Hn Hd] Hv. split; [by apply dict_set_NoDup|]. clear Hn.
  induction Hd as [|[k0 v0] d Hkv Hd IH]; cbn; [repeat constructor; done|].
  case_match; constructor; done.
Qed.
Lemma wf_dict_get k v d : wf_value (VDict d) → dict_get k d = Some v → wf_value v.
Proof.
  rewrite wf_dict. intros [_ Hd]. induction Hd as [|[k0 v0] d Hkv Hd IH]; cbn; [done|].
  case_match; [by intros [= <-]|done].
Qed.
Lemma wf_vget k d : wf_value (VDict d) → wf_value (vget k d).
Proof.
  intros Hd. unfold vget. destruct (dict_get k d) eqn:E; [by eapply wf_dict_get|done].
Qed.
Lemma wf_as_dict v : wf_value v → wf_value (VDict (default [] (as_dict v))).
Proof. destruct v; cbn; try done; by split; [apply NoDup_nil_2|]. Qed.
#[export] Hint Resolve wf_dict_set wf_vget wf_as_dict : hub.

(** Other keys survive a removal; writing what is there changes nothing. *)
Lemma dict_get_pop_ne {A} k k' (d : list (string * A)) : k ≠ k' → dict_get k (dict_pop k' d) = dict_get k d.
Proof.
  intros Hk. induction d as [|[k0 v0] d IH]; cbn; [done|].
  destruct (String.eqb k' k0) eqn:E; cbn.
  - apply String.eqb_eq in E as <-. by apply String.eqb_neq in Hk as ->.
  - by rewrite IH.
Qed.
Lemma dict_pop_absent {A} k (d : list (string * A)) : dict_get k d = None → dict_pop k d = d.
Proof.
  induction d as [|[k0 v0] d IH]; cbn; [done|]. destruct (String.eqb k k0); [done|]. intros Hd. by rewrite IH.
Qed.
Lemma dict_set_same {A} k (v : A) d : dict_get k d = Some v → dict_set k v d = d.
Proof.
  induction d as [|[k0 v0] d IH]; cbn; [done|]. destruct (String.eqb k k0) eqn:E.
  - apply String.eqb_eq in E as <-. by intros [= ->].
  - intros Hd. by rewrite IH.
Qed.
Lemma vget_Some k d v : vget k d = v → v ≠ VNone → dict_get k d = Some v.
Proof. unfold vget. destruct (dict_get k d); cbn; congruence. Qed.
Lemma dict_pop_NoDup {A} k (d : list (string * A)) : NoDup (dict_keys d) → NoDup (dict_keys (dict_pop k d)).
Proof.
  induction d as [|[k0 v0] d IH]; cbn; [done|]. intros [Hk Hd]%NoDup_cons.
  destruct (String.eqb k k0); [done|]. cbn. apply NoDup_cons. split; [|by apply IH].
  intros Hin. apply Hk. clear -Hin. induction d as [|[k1 v1] d IH]; cbn in *; [done|].
  destruct (String.eqb k k1); [by right|]. cbn in Hin. apply elem_of_cons in Hin as [->|?]; [by left|right; auto].
Qed.
Lemma dict_get_elem {A} (d : list (string * A)) k v : NoDup (dict_keys d) → (k, v) ∈ d → dict_get k d = Some v.
Proof.
  unfold dict_keys. induction d as [|[k0 v0] d IH]; cbn; [by intros _ ?%elem_of_nil|].
  intros [Hk Hn]%NoDup_cons [[= -> ->]|Hin]%elem_of_cons; [by rewrite String.eqb_refl|].
  destruct (String.eqb k k0) eqn:E; [|by apply IH]. apply String.eqb_eq in E as ->. exfalso. apply Hk.
  apply list_elem_of_fmap. by exists (k0, v).
Qed.
Lemma dict_get_in {A} (d : list (string * A)) k v : dict_get k d = Some v → (k, v) ∈ d.
Proof.
  induction d as [|[k0 v0] d IH]; cbn; [done|]. destruct (String.eqb k k0) eqn:E; [|set_solver].
  apply String.eqb_eq in E as ->. intros [= ->]. by left.
Qed.
