(* ===== verification/PyFloat.v ===== *)
(** * Python floats

    A Python [float] is an IEEE 754 binary64 number, here a [spec_float] of the
    Standard Library with its executable operations.  Sort keys mix floats,
    integers and strings; they are ordered as Python orders tuples. *)
From Stdlib Require Import ZArith Lia Ascii Sorted SpecFloat.
From S2P Require Import Prelude PyStr Json.
Local Open Scope Z_scope.

Notation float := spec_float.
Definition fadd : float → float → float := SFadd 53 1024.
Definition fsub : float → float → float := SFsub 53 1024.
Definition fmul : float → float → float := SFmul 53 1024.
Definition fdiv : float → float → float := SFdiv 53 1024.
Definition fsqrt : float → float := SFsqrt 53 1024.
Definition fneg : float → float := SFopp.
Definition feq : float → float → bool := SFeqb.
Definition flt : float → float → bool := SFltb.
Definition fle : float → float → bool := SFleb.
Definition is_nan (f : float) : bool := match f with S754_nan => true | _ => false end.
(** [math.isfinite(f)] *)
Definition is_finite (f : float) : bool := match f with S754_zero _ | S754_finite _ _ _ => true | _ => false end.
Definition fzero : float := S754_zero false.
(** an integer as a float, of any size *)
Definition float_near (z : Z) : float := binary_normalize 53 1024 z 0 false.
(** [float(z)] *)
Definition float_of_int (z : Z) : result float :=
  if is_finite (float_near z) then Ok (float_near z) else Raise (OverflowError "int too large to convert to float").
(** The float next to [m / 10^k], as a decimal literal denotes it. *)
Definition decimal (m : Z) (k : nat) : float :=
  match m with
  | Z0 => fzero
  | Zpos p => SFdiv 53 1024 (S754_finite false p 0) (S754_finite false (Z.to_pos (10 ^ Z.of_nat k)) 0)
  | Zneg p => SFdiv 53 1024 (S754_finite true p 0) (S754_finite false (Z.to_pos (10 ^ Z.of_nat k)) 0)
  end.
(** The float of a decimal text. *)
Definition float_of_text (t : string) : result float :=
  let (neg, body) := match t with
                     | String c t' => if Ascii.eqb c "-"%char then (true, t') else (false, t)
                     | EmptyString => (false, t) end in
  let (ds, rest) := span_digits body in
  match rest with
  | String "."%char fs =>
      match uint_str_to_N (ds +:+ fs) with
      | Some n => let f := decimal (Z.of_N n) (String.length fs) in Ok (if neg then fneg f else f)
      | None => Raise OutsideModel
      end
  | _ => Raise OutsideModel
  end.
Definition zfill (width : nat) (t : string) : string := list_str (replicate (width - String.length t) "0"%char) +:+ t.
(** The exact decimal text of a float: an odd mantissa below the point takes as
    many digits as its exponent, and the last one is a five. *)
Fixpoint odd_part (m : positive) (e : Z) : positive * Z :=
  match m with xO m' => if e <? 0 then odd_part m' (e + 1) else (m, e) | _ => (m, e) end.
Definition exact_text (f : float) : string :=
  match f with
  | S754_zero s => if s then "-0.0" else "0.0"
  | S754_infinity s => if s then "-inf" else "inf"
  | S754_nan => "nan"
  | S754_finite s m e =>
      let '(m, e) := odd_part m e in
      (if s then "-" else "")
      +:+ (if 0 <=? e then str_of_Z (Z.pos m * 2 ^ e) +:+ ".0"
           else let n := Z.pos m * 5 ^ (- e) in
                str_of_Z (n / 10 ^ (- e)) +:+ "." +:+ zfill (Z.to_nat (- e)) (str_of_Z (n mod 10 ^ (- e))))
  end.
(** [max(a, b)], [min(a, b)]: the first argument unless the second is beyond it *)
Definition fmax (a b : float) : float := if flt a b then b else a.
Definition fmin (a b : float) : float := if flt b a then b else a.

Example halves : decimal 5 1 = fdiv (float_near 1) (float_near 2).
Proof. vm_compute. reflexivity. Qed.
(** 1 / 61 is 0x1.0c9714fbcda3bp-6 *)
Example reciprocal : fdiv (float_near 1) (float_near 61) = S754_finite false 0x10c9714fbcda3b (-58).
Proof. vm_compute. reflexivity. Qed.
Example literal : float_of_text "-0.35" = Ok (S754_finite true 0x16666666666666 (-54)).
Proof. vm_compute. reflexivity. Qed.

#[global] Arguments fadd : simpl never.
#[global] Arguments fsub : simpl never.
#[global] Arguments fmul : simpl never.
#[global] Arguments fdiv : simpl never.
#[global] Arguments fneg : simpl never.
Example exact_texts : map (λ f, float_of_text (exact_text f)) [decimal 1 1; decimal 125 2; float_near 7; fneg (decimal 35 2)]
  = [Ok (decimal 1 1); Ok (decimal 125 2); Ok (float_near 7); Ok (fneg (decimal 35 2))].
Proof. vm_compute. reflexivity. Qed.
#[global] Arguments float_near : simpl never.

(** ** Order *)

Lemma fcompare_antisym a b : SFcompare b a = CompOpp <$> SFcompare a b.
Proof.
  assert (Hm : ∀ p q, Pos.compare_cont Eq q p = CompOpp (Pos.compare_cont Eq p q)) by exact Pos.compare_antisym.
  destruct a as [[]|[]| |[] m e], b as [[]|[]| |[] m' e']; try reflexivity; cbn;
    rewrite (Z.compare_antisym e e'), (Hm m m'); destruct (e ?= e'); try done; by destruct (Pos.compare_cont Eq m m').
Qed.
Lemma fcompare_total a b : is_nan a = false → is_nan b = false → is_Some (SFcompare a b).
Proof. destruct a as [| | |], b as [| | |]; cbn; try done; eauto. Qed.
Lemma fcompare_refl a : is_nan a = false → SFcompare a a = Some Eq.
Proof.
  destruct a as [|[]| |[] m e]; try done; intros _; cbn; rewrite Z.compare_refl;
    change (Pos.compare_cont Eq m m) with (Pos.compare m m); by rewrite Pos.compare_refl.
Qed.

Lemma flt_asym a b : flt a b = true → flt b a = false.
Proof. unfold flt, SFltb. rewrite (fcompare_antisym a b). by destruct (SFcompare a b) as [[]|]. Qed.
Lemma flt_irrefl a : flt a a = false.
Proof. destruct (flt a a) eqn:E; [|done]. by rewrite (flt_asym _ _ E) in E. Qed.
(** [max(low, min(high, x))] stays between its bounds, also for a NaN. *)
Lemma clamped low high x : flt high low = false →
  flt (fmax low (fmin high x)) low = false ∧ flt high (fmax low (fmin high x)) = false.
Proof.
  intros Hlh. unfold fmin. destruct (flt x high) eqn:Ex; unfold fmax.
  - destruct (flt low x) eqn:El; [|by rewrite flt_irrefl]. by rewrite (flt_asym _ _ El), (flt_asym _ _ Ex).
  - destruct (flt low high) eqn:El; by rewrite ?flt_irrefl.
Qed.

(** ** Sort keys *)

(** A component of a key; [SFcompare] of a NaN is [None]: it is neither equal to
    a float nor less, and so is the tuple. *)
Inductive key_item := KFloat (f : float) | KInt (z : Z) | KStr (s : string).
Definition item_compare (a b : key_item) : option comparison :=
  match a, b with
  | KFloat x, KFloat y => SFcompare x y
  | KInt x, KInt y => Some (x ?= y)
  | KStr x, KStr y => Some (String.compare x y)
  | _, _ => None
  end.
(** [a < b] of tuples: the first components that differ decide. *)
Fixpoint key_lt (a b : list key_item) : bool :=
  match a, b with
  | x :: a', y :: b' =>
      match item_compare x y with
      | Some Eq => key_lt a' b'
      | Some Lt => true
      | _ => false
      end
  | [], _ :: _ => true
  | _, [] => false
  end.
(** [sorted(xs, key=...)], which only asks [<]. *)
Definition sorted_on {A} (key : A → list key_item) (xs : list A) : list A :=
  sort_by (λ a b, negb (key_lt (key b) (key a))) xs.

(** Keys of one shape without NaN are totally ordered. *)
Definition same_kind (a b : key_item) : bool :=
  match a, b with
  | KFloat x, KFloat y => negb (is_nan x) && negb (is_nan y)
  | KInt _, KInt _ | KStr _, KStr _ => true
  | _, _ => false
  end.
Definition comparable (a b : list key_item) : Prop := Forall2 (λ x y, same_kind x y = true) a b.

Lemma item_compare_total a b : same_kind a b = true → is_Some (item_compare a b).
Proof.
  destruct a, b; cbn; try done; eauto. intros [Hx%negb_true_iff Hy%negb_true_iff]%andb_prop. by apply fcompare_total.
Qed.
Lemma item_compare_antisym a b : item_compare b a = CompOpp <$> item_compare a b.
Proof.
  destruct a, b; cbn; try done; [apply fcompare_antisym| |].
  - by rewrite Z.compare_antisym.
  - by rewrite String.compare_antisym.
Qed.
Lemma key_lt_asym a b : key_lt a b = true → key_lt b a = false.
Proof.
  revert b. induction a as [|x a IH]; intros [|y b]; cbn; try done.
  rewrite (item_compare_antisym x y). destruct (item_compare x y) as [[]|]; cbn; try done. apply IH.
Qed.
(** The list is sorted, without a condition on the keys. *)
Lemma sorted_on_sorted {A} (key : A → list key_item) xs : Sorted (λ a b, key_lt (key b) (key a) = false) (sorted_on key xs).
Proof.
  assert (Hs : Sorted (λ a b, negb (key_lt (key b) (key a)) = true) (sorted_on key xs)).
  { apply sort_by_sorted. intros a b Hf. apply negb_false_iff in Hf. by rewrite (key_lt_asym _ _ Hf). }
  induction Hs as [|a l Hs IH Hd]; constructor; [done|]. destruct Hd; constructor. by apply negb_true_iff.
Qed.
Lemma sorted_on_perm {A} (key : A → list key_item) xs : sorted_on key xs ≡ₚ xs.
Proof. apply sort_by_perm. Qed.
