(* ===== verification/Hash.v ===== *)
(** * Hashes and encodings of the standard library

    [hashlib.sha256], [hashlib.pbkdf2_hmac("sha256", ...)] and
    [base64.urlsafe_b64encode] / [urlsafe_b64decode], on bytes written as
    [string]s.  The client components take the two hashes through the
    interface [HashLib], whose laws they use; [hashlib] is the instance the
    code runs with, and the witnesses may take a cheaper one. *)
From Stdlib Require Import ZArith Lia Ascii.
From S2P Require Import Prelude PyStr Json.
Local Open Scope Z_scope.

(** ** SHA-256 on 32-bit words *)

Definition w32 (z : Z) : Z := z mod 4294967296.
Definition rotr (n x : Z) : Z := Z.lor (Z.shiftr x n) (w32 (Z.shiftl x (32 - n))).
Definition not32 (x : Z) : Z := Z.lxor x 4294967295.

Definition sha_k : list Z :=
  [1116352408; 1899447441; 3049323471; 3921009573; 961987163; 1508970993; 2453635748; 2870763221;
   3624381080; 310598401; 607225278; 1426881987; 1925078388; 2162078206; 2614888103; 3248222580;
   3835390401; 4022224774; 264347078; 604807628; 770255983; 1249150122; 1555081692; 1996064986;
   2554220882; 2821834349; 2952996808; 3210313671; 3336571891; 3584528711; 113926993; 338241895;
   666307205; 773529912; 1294757372; 1396182291; 1695183700; 1986661051; 2177026350; 2456956037;
   2730485921; 2820302411; 3259730800; 3345764771; 3516065817; 3600352804; 4094571909; 275423344;
   430227734; 506948616; 659060556; 883997877; 958139571; 1322822218; 1537002063; 1747873779;
   1955562222; 2024104815; 2227730452; 2361852424; 2428436474; 2756734187; 3204031479; 3329325298].
Definition sha_h0 : list Z :=
  [1779033703; 3144134277; 1013904242; 2773480762; 1359893119; 2600822924; 528734635; 1541459225].

(** The message schedule, kept reversed: the head is the latest word. *)
Definition sha_next (w : list Z) : Z :=
  let x := nth 14 w 0 in
  let y := nth 1 w 0 in
  let s0 := Z.lxor (Z.lxor (rotr 7 x) (rotr 18 x)) (Z.shiftr x 3) in
  let s1 := Z.lxor (Z.lxor (rotr 17 y) (rotr 19 y)) (Z.shiftr y 10) in
  w32 (nth 15 w 0 + s0 + nth 6 w 0 + s1).
Fixpoint sha_schedule (n : nat) (w : list Z) : list Z :=
  match n with O => w | S n' => sha_schedule n' (sha_next w :: w) end.

Definition sha_round (st : list Z) (kw : Z * Z) : list Z :=
  match st with
  | [a; b; c; d; e; f; g; h] =>
      let s1 := Z.lxor (Z.lxor (rotr 6 e) (rotr 11 e)) (rotr 25 e) in
      let ch := Z.lxor (Z.land e f) (Z.land (not32 e) g) in
      let t1 := w32 (h + s1 + ch + kw.1 + kw.2) in
      let s0 := Z.lxor (Z.lxor (rotr 2 a) (rotr 13 a)) (rotr 22 a) in
      let maj := Z.lxor (Z.lxor (Z.land a b) (Z.land a c)) (Z.land b c) in
      [w32 (t1 + w32 (s0 + maj)); a; b; c; w32 (d + t1); e; f; g]
  | _ => st
  end.
Definition sha_compress (h : list Z) (block : list Z) : list Z :=
  let w := rev (sha_schedule 48 (rev block)) in
  zip_with (λ x y, w32 (x + y)) h (foldl sha_round h (zip sha_k w)).

Definition be32 (z : Z) : list Z :=
  [Z.shiftr z 24; Z.land (Z.shiftr z 16) 255; Z.land (Z.shiftr z 8) 255; Z.land z 255].
Fixpoint words (n : nat) (bs : list Z) : list Z :=
  match n, bs with
  | S n', a :: b :: c :: d :: r => (Z.shiftl a 24 + Z.shiftl b 16 + Z.shiftl c 8 + d) :: words n' r
  | _, _ => []
  end.
Fixpoint sha_blocks (n : nat) (h : list Z) (bs : list Z) : list Z :=
  match n with
  | O => h
  | S n' => sha_blocks n' (sha_compress h (words 16 bs)) (drop 64 bs)
  end.
Definition sha_pad (bs : list Z) : list Z :=
  let len := Z.of_nat (length bs) in
  let zeros := Z.to_nat ((55 - len) mod 64) in
  bs ++ [128] ++ replicate zeros 0 ++ be32 (Z.shiftr (len * 8) 32) ++ be32 (w32 (len * 8)).
Definition sha256_bytes (bs : list Z) : list Z :=
  let p := sha_pad bs in
  sha_blocks (Nat.div (length p) 64) sha_h0 p ≫= be32.

Definition bytes_of (s : string) : list Z := map ord (str_list s).
Definition bytes_str (bs : list Z) : string := list_str (map chr bs).
Fixpoint hex_of (bs : list Z) : string :=
  match bs with [] => EmptyString | b :: r => hex2 b +:+ hex_of r end.

(** ** HMAC and PBKDF2 *)

Definition xor_pad (b : Z) (key : list Z) : list Z := map (λ x, Z.lxor b x) key.
Definition hmac_sha256 (key msg : list Z) : list Z :=
  let k0 := if 64 <? Z.of_nat (length key) then sha256_bytes key else key in
  let k := k0 ++ replicate (64 - length k0)%nat 0 in
  sha256_bytes (xor_pad 92 k ++ sha256_bytes (xor_pad 54 k ++ msg)).

Definition pbkdf2_step (key : list Z) (uu : list Z * list Z) : list Z * list Z :=
  let u := hmac_sha256 key uu.1 in (u, zip_with Z.lxor uu.2 u).
(** The first 32-byte block, cut to [dklen] bytes. *)
Definition pbkdf2_hmac_sha256 (password salt : string) (iterations : N) (dklen : nat) : list Z :=
  let key := bytes_of password in
  let u1 := hmac_sha256 key (bytes_of salt ++ be32 1) in
  take dklen (N.iter (N.pred iterations) (pbkdf2_step key) (u1, u1)).2.

(** ** Base 64, URL-safe alphabet *)

Definition b64_char (n : Z) : ascii :=
  if n <? 26 then chr (65 + n) else if n <? 52 then chr (71 + n)
  else if n <? 62 then chr (n - 4) else if n =? 62 then "-"%char else "_"%char.
Fixpoint b64url_nopad (bs : list Z) : string :=
  match bs with
  | a :: b :: c :: r =>
      String (b64_char (Z.shiftr a 2))
        (String (b64_char (Z.lor (Z.shiftl (Z.land a 3) 4) (Z.shiftr b 4)))
          (String (b64_char (Z.lor (Z.shiftl (Z.land b 15) 2) (Z.shiftr c 6)))
            (String (b64_char (Z.land c 63)) (b64url_nopad r))))
  | [a; b] =>
      String (b64_char (Z.shiftr a 2))
        (String (b64_char (Z.lor (Z.shiftl (Z.land a 3) 4) (Z.shiftr b 4)))
          (char_str (b64_char (Z.shiftl (Z.land b 15) 2))))
  | [a] => String (b64_char (Z.shiftr a 2)) (char_str (b64_char (Z.shiftl (Z.land a 3) 4)))
  | [] => EmptyString
  end.

(** ** The interface the components use *)

(** A 64-character lower-case hexadecimal string. *)
Definition is_hex_char (c : ascii) : bool := is_decimal c || char_in 97 102 c.
Definition is_hex_digest (s : string) : bool := (str_len s =? 64) && sall is_hex_char s.

Class HashLib := {
  (** [hashlib.sha256(s).hexdigest()] *)
  sha256_hex : string → string;
  (** [hashlib.pbkdf2_hmac("sha256", password, salt, 210_000, dklen).hex()] *)
  pbkdf2_hex : string → string → nat → string;
  (** [hmac.new(key, msg, hashlib.sha256).digest()] *)
  hmac_sha256_raw : string → string → string;
  sha256_hex_digest : ∀ s, is_hex_digest (sha256_hex s) = true;
  pbkdf2_hex_digest : ∀ p s, is_hex_digest (pbkdf2_hex p s 32) = true;
}.

Definition hashlib_sha256_hex (s : string) : string := hex_of (sha256_bytes (bytes_of s)).
Definition _PBKDF2_SHA256_ITERATIONS : N := 210000.
Definition hashlib_pbkdf2_hex (password salt : string) (dklen : nat) : string :=
  hex_of (pbkdf2_hmac_sha256 password salt _PBKDF2_SHA256_ITERATIONS dklen).

(** ** The digests are 32 bytes, and print as 64 hexadecimal digits *)

Definition byte (b : Z) : Prop := 0 ≤ b < 256.
Definition word32 (w : Z) : Prop := 0 ≤ w < 4294967296.

Lemma w32_word z : word32 (w32 z).
Proof. apply Z.mod_pos_bound. done. Qed.

Lemma be32_bytes w : word32 w → Forall byte (be32 w).
Proof.
  intros [Hl Hu]. unfold be32.
  assert (Hland : ∀ x, byte (Z.land x 255)).
  { intros x. change 255 with (Z.ones 8). rewrite Z.land_ones by done. apply Z.mod_pos_bound. done. }
  repeat constructor; try apply Hland; rewrite ?Z.shiftr_div_pow2 by done.
  - apply Z.div_pos; lia.
  - apply Z.div_lt_upper_bound; lia.
Qed.

Lemma sha_round_length st kw : length st = 8%nat → length (sha_round st kw) = 8%nat.
Proof. intros H. do 9 (destruct st as [|? st]; try done). Qed.
Lemma sha_rounds_length kws : ∀ st, length st = 8%nat → length (foldl sha_round st kws) = 8%nat.
Proof. induction kws as [|kw kws IH]; intros st H; cbn; [done|]. by apply IH, sha_round_length. Qed.

Definition sha_state (h : list Z) : Prop := length h = 8%nat ∧ Forall word32 h.

Lemma sha_compress_state h block : sha_state h → sha_state (sha_compress h block).
Proof.
  intros [Hlen _]. unfold sha_compress. split.
  - rewrite length_zip_with, sha_rounds_length by done. lia.
  - apply Forall_forall. intros w Hw. apply elem_of_lookup_zip_with in Hw as (? & ? & ? & -> & _).
    apply w32_word.
Qed.
Lemma sha_blocks_state n : ∀ h bs, sha_state h → sha_state (sha_blocks n h bs).
Proof. induction n; intros; cbn; [done|]. by apply IHn, sha_compress_state. Qed.
Lemma sha_h0_state : sha_state sha_h0.
Proof. split; [done|]. unfold sha_h0, word32. repeat (constructor; [lia|]). constructor. Qed.

Lemma be32_all_length l : length (l ≫= be32) = (4 * length l)%nat.
Proof. induction l; cbn in *; lia. Qed.

(** A digest is 32 bytes. *)
Definition digest (bs : list Z) : Prop := length bs = 32%nat ∧ Forall byte bs.
Lemma sha256_digest bs : digest (sha256_bytes bs).
Proof.
  unfold sha256_bytes. set (p := sha_pad bs).
  destruct (sha_blocks_state (Nat.div (length p) 64) sha_h0 p sha_h0_state) as [Hl Hw].
  split; [rewrite be32_all_length, Hl; done|].
  clear Hl. induction Hw as [|w l Hw1 Hw IH]; [done|].
  change (Forall byte (be32 w ++ (l ≫= be32))).
  apply Forall_app. split; [by apply be32_bytes|done].
Qed.

Lemma zip_xor_digest a b : digest a → digest b → digest (zip_with Z.lxor a b).
Proof.
  intros [La Ha] [Lb Hb]. split; [rewrite length_zip_with; lia|].
  apply Forall_forall. intros z Hz. apply elem_of_lookup_zip_with in Hz as (i & x & y & -> & Hx & Hy).
  pose proof (Forall_lookup_1 _ _ _ _ Ha Hx) as [Hx0 Hx1].
  pose proof (Forall_lookup_1 _ _ _ _ Hb Hy) as [Hy0 Hy1].
  assert (0 ≤ Z.lxor x y) by (by apply Z.lxor_nonneg).
  split; [done|]. destruct (Z.eq_dec (Z.lxor x y) 0) as [->|]; [done|].
  apply Z.log2_lt_cancel. eapply Z.le_lt_trans; [by apply Z.log2_lxor|].
  change (Z.log2 256) with 8.
  assert (∀ u, 0 ≤ u < 256 → Z.log2 u < 8).
  { intros u Hu. destruct (Z.eq_dec u 0) as [->|]; [done|]. apply Z.log2_lt_pow2; lia. }
  apply Z.max_lub_lt; auto.
Qed.

Lemma pbkdf2_digest p s n : digest (pbkdf2_hmac_sha256 p s n 32).
Proof.
  unfold pbkdf2_hmac_sha256. set (key := bytes_of p).
  set (u1 := hmac_sha256 key _).
  assert (H1 : digest u1) by apply sha256_digest.
  assert (H : digest (N.iter (N.pred n) (pbkdf2_step key) (u1, u1)).2).
  { apply (N.iter_invariant (N.pred n) _ (pbkdf2_step key) (λ uu, digest uu.2)); [|done].
    intros [u acc] Hacc. cbn. apply zip_xor_digest; [done|apply sha256_digest]. }
  destruct H as [Hl Hf]. rewrite take_ge by lia. done.
Qed.

Lemma hex2_hex b : byte b → ∃ c d, hex2 b = String c (char_str d) ∧ is_hex_char c = true ∧ is_hex_char d = true.
Proof.
  intros [Hl Hu]. unfold hex2. do 2 eexists. split; [done|].
  assert (Hd : ∀ n, 0 ≤ n < 16 → is_hex_char (hex_digit n) = true).
  { intros n Hn. assert (n ∈ [0;1;2;3;4;5;6;7;8;9;10;11;12;13;14;15]) as Hin.
    { rewrite !elem_of_cons. lia. }
    clear Hn. revert n Hin. apply Forall_forall. repeat constructor. }
  split; apply Hd; [split; [apply Z.div_pos; lia|apply Z.div_lt_upper_bound; lia]|].
  apply Z.mod_pos_bound. done.
Qed.

Lemma hex_of_digest bs : digest bs → is_hex_digest (hex_of bs) = true.
Proof.
  intros [Hl Hf]. unfold is_hex_digest, str_len.
  assert (H : sall is_hex_char (hex_of bs) = true ∧ String.length (hex_of bs) = (2 * length bs)%nat).
  { clear Hl. induction Hf as [|b l Hb Hf [IH1 IH2]]; cbn [hex_of]; [done|].
    destruct (hex2_hex b Hb) as (c & d & -> & Hc & Hd). cbn. rewrite Hc, Hd, IH1, IH2. split; [done|].
    cbn. lia. }
  destruct H as [-> ->]. by rewrite Hl.
Qed.

#[export] Instance hashlib : HashLib := {|
  sha256_hex := hashlib_sha256_hex;
  pbkdf2_hex := hashlib_pbkdf2_hex;
  hmac_sha256_raw := λ key msg, bytes_str (hmac_sha256 (bytes_of key) (bytes_of msg));
  sha256_hex_digest := λ s, hex_of_digest _ (sha256_digest _);
  pbkdf2_hex_digest := λ p s, hex_of_digest _ (pbkdf2_digest _ _ _);
|}.

Example sha256_abc : hashlib_sha256_hex "abc" =
  "ba7816bf8f01cfea414140de5dae2223b00361a396177a9cb410ff61f20015ad".
Proof. vm_compute. reflexivity. Qed.
