(* ===== verification/Clock.v ===== *)
(** * Instants and their texts

    An instant is the number of seconds since 1970-01-01T00:00:00Z; the code
    drops microseconds wherever it formats one.  The texts are those of SQLite's
    [CURRENT_TIMESTAMP], of [datetime.isoformat()] in UTC and of the code's
    [..Z] form; [fromisoformat] is [datetime.fromisoformat], whose week dates
    are outside the model. *)
From Stdlib Require Import ZArith Lia Ascii.
From S2P Require Import Prelude PyStr Json.
Local Open Scope Z_scope.

Definition instant := Z.

(** ** The proleptic Gregorian calendar *)

(** Days since 1970-01-01 to (year, month, day). *)
Definition civil_of_days (days : Z) : Z * Z * Z :=
  let z := days + 719468 in
  let era := z / 146097 in
  let doe := z mod 146097 in
  let yoe := (doe - doe / 1460 + doe / 36524 - doe / 146096) / 365 in
  let doy := doe - (365 * yoe + yoe / 4 - yoe / 100) in
  let mp := (5 * doy + 2) / 153 in
  let d := doy - (153 * mp + 2) / 5 + 1 in
  let m := if mp <? 10 then mp + 3 else mp - 9 in
  ((yoe + era * 400 + (if m <=? 2 then 1 else 0))%Z, m, d).
Definition days_of_civil (y m d : Z) : Z :=
  let y' := if m <=? 2 then y - 1 else y in
  let era := y' / 400 in
  let yoe := y' mod 400 in
  let doy := (153 * (if 2 <? m then m - 3 else m + 9) + 2) / 5 + d - 1 in
  era * 146097 + (yoe * 365 + yoe / 4 - yoe / 100 + doy) - 719468.
Definition is_leap (y : Z) : bool := (y mod 4 =? 0) && (negb (y mod 100 =? 0) || (y mod 400 =? 0)).
Definition days_in_month (y m : Z) : Z :=
  if (m =? 2) then (if is_leap y then 29 else 28)
  else if (m =? 4) || (m =? 6) || (m =? 9) || (m =? 11) then 30 else 31.

(** ** Texts *)

Definition digit_char (n : Z) : ascii := chr (48 + n mod 10).
(** [w] decimal digits, zero padded. *)
Fixpoint pad (w : nat) (n : Z) : string :=
  match w with
  | O => EmptyString
  | S w' => String (digit_char (n / 10 ^ Z.of_nat w')) (pad w' n)
  end.
Definition date_text (t : instant) : string :=
  let '(y, m, d) := civil_of_days (t / 86400) in
  pad 4 y +:+ "-" +:+ pad 2 m +:+ "-" +:+ pad 2 d.
Definition clock_text (t : instant) : string :=
  let s := t mod 86400 in
  pad 2 (s / 3600) +:+ ":" +:+ pad 2 (s / 60 mod 60) +:+ ":" +:+ pad 2 (s mod 60).

(** [CURRENT_TIMESTAMP]: [YYYY-MM-DD HH:MM:SS] *)
Definition sql_timestamp (t : instant) : string := date_text t +:+ " " +:+ clock_text t.
(** [datetime.now(UTC).replace(microsecond=0).isoformat()] *)
Definition isoformat (t : instant) : string := date_text t +:+ "T" +:+ clock_text t +:+ "+00:00".
(** the same with [.replace("+00:00", "Z")] *)
Definition iso_z (t : instant) : string := date_text t +:+ "T" +:+ clock_text t +:+ "Z".

(** ** [datetime.fromisoformat] *)

(** Wall-clock microseconds since the epoch, and the UTC offset in microseconds
    of an aware datetime. *)
Record datetime := mk_datetime { dt_wall : Z; dt_offset : option Z }.

Definition iso_error {A} : result A := Raise (ValueError "Invalid isoformat string").
Definition digit_of (c : ascii) : option Z := if is_decimal c then Some (ord c - 48) else None.
Definition two_digits (s : string) : option (Z * string) :=
  match s with
  | String a (String b r) => x ← digit_of a; y ← digit_of b; Some (x * 10 + y, r)
  | _ => None
  end.
Definition eat (c : ascii) (s : string) : option string :=
  match s with String d r => if Ascii.eqb c d then Some r else None | EmptyString => None end.

(** The digits of a fraction: the first six count, the rest are skipped. *)
Fixpoint fraction (w : nat) (s : string) : option Z :=
  match s with
  | EmptyString => Some 0
  | String c r =>
      d ← digit_of c;
      match w with
      | O => _ ← fraction O r; Some 0
      | S w' => f ← fraction w' r; Some (d * 10 ^ Z.of_nat w' + f)
      end
  end.

(** [HH[:?MM[:?SS[{.,}f+]]]] in microseconds, with the components. *)
Definition hms (s : string) : option (Z * Z * Z * Z) :=
  '(h, r) ← two_digits s;
  match r with
  | EmptyString => Some (h, 0, 0, 0)
  | String c _ =>
      let has_sep := Ascii.eqb c ":"%char in
      let skip (s : string) := if has_sep then eat ":" s else Some s in
      let frac (s : string) : option Z :=
        match s with
        | EmptyString => Some 0
        | String p f => if in_chars ".," p then match f with EmptyString => None | _ => fraction 6 f end
                        else None
        end in
      r1 ← skip r; '(m, r2) ← two_digits r1;
      match r2 with
      | EmptyString => Some (h, m, 0, 0)
      | String _ _ =>
          r3 ← skip r2; '(s0, r4) ← two_digits r3; f ← frac r4; Some (h, m, s0, f)
      end
  end.

(** The position of the first time-zone character: [-], else [+], else [Z]. *)
Fixpoint split_first (c : ascii) (s : string) : option (string * string) :=
  match s with
  | EmptyString => None
  | String d r => if Ascii.eqb c d then Some (EmptyString, r)
                  else '(a, b) ← split_first c r; Some (String d a, b)
  end.
Definition us_of (h m s f : Z) : Z := ((h * 60 + m) * 60 + s) * 1000000 + f.

Definition tz_offset (sign : Z) (s : string) : option Z :=
  '(h, m, s0, f) ← hms s;
  if (m <? 60) && (s0 <? 60) && (us_of h m s0 f <? us_of 24 0 0 0) then Some (sign * us_of h m s0 f) else None.
Definition iso_time (s : string) : option (Z * option Z) :=
  '(body, off) ← match split_first "-" s with
    | Some (a, b) => o ← tz_offset (-1) b; Some (a, Some o)
    | None => match split_first "+" s with
      | Some (a, b) => o ← tz_offset 1 b; Some (a, Some o)
      | None => match split_first "Z" s with
        | Some (a, EmptyString) => Some (a, Some 0)
        | Some _ => None
        | None => Some (s, None)
        end end end;
  '(h, m, s0, f) ← hms body;
  if (m <? 60) && (s0 <? 60) && ((h <? 24) || ((h =? 24) && (m =? 0) && (s0 =? 0) && (f =? 0)))
  then Some (us_of h m s0 f, off) else None.

Definition iso_date (s : string) : option Z :=
  '(yh, r1) ← two_digits s; '(yl, r2) ← two_digits r1;
  let y := yh * 100 + yl in
  '(m, d) ← match eat "-" r2 with
    | Some r3 => '(m, r4) ← two_digits r3; r5 ← eat "-" r4; '(d, r6) ← two_digits r5;
                 match r6 with EmptyString => Some (m, d) | _ => None end
    | None => '(m, r3) ← two_digits r2; '(d, r4) ← two_digits r3;
              match r4 with EmptyString => Some (m, d) | _ => None end
    end;
  if (1 <=? y) && (1 <=? m) && (m <=? 12) && (1 <=? d) && (d <=? days_in_month y m)
  then Some (days_of_civil y m d) else None.

Definition fromisoformat (s : string) : result datetime :=
  if str_len s <? 7 then iso_error else
  if startswith "W" (sdrop 4 s) || startswith "-W" (sdrop 4 s) then Raise OutsideModel else
  let n := if startswith "-" (sdrop 4 s) then 10%nat else 8%nat in
  match iso_date (stake n s) with
  | None => iso_error
  | Some days =>
      match sdrop (S n) s with
      | EmptyString => Ok (mk_datetime (days * 86400000000) None)
      | t => match iso_time t with
             | Some (us, off) => Ok (mk_datetime (days * 86400000000 + us) off)
             | None => iso_error
             end
      end
  end.

(** The instant of a datetime in microseconds, a naive one read as UTC. *)
Definition utc_us (d : datetime) : Z := dt_wall d - default 0 (dt_offset d).

#[global] Arguments date_text : simpl never.
#[global] Arguments clock_text : simpl never.
#[global] Arguments sql_timestamp : simpl never.
#[global] Arguments isoformat : simpl never.
#[global] Arguments iso_z : simpl never.

(** ** Text order *)

(** [a > b] on SQLite TEXT values (BINARY collation). *)
Definition text_gt (a b : string) : bool := String.ltb b a.

Lemma pad_length w n : String.length (pad w n) = w.
Proof. revert n. induction w; intros n; cbn; auto. Qed.

Lemma date_text_length t : String.length (date_text t) = 10%nat.
Proof.
  unfold date_text. destruct (civil_of_days _) as [[y m] d].
  rewrite !str_app_length, !pad_length. done.
Qed.

Lemma str_compare_app a b x y :
  String.length a = String.length b →
  String.compare (a +:+ x) (b +:+ y) =
  match String.compare a b with Eq => String.compare x y | c => c end.
Proof.
  revert b. induction a as [|c a IH]; intros [|d b] [=]; cbn; [done|].
  destruct (Ascii.compare c d); auto.
Qed.

Lemma str_compare_refl a : String.compare a a = Eq.
Proof. pose proof (String.compare_antisym a a) as H. by destruct (String.compare a a). Qed.

(** Comparing an ISO text with SQLite's clock only compares the two dates: the
    character after the date is [T] on one side and a blank on the other. *)
Lemma text_gt_iso_sql e now :
  text_gt (isoformat e) (sql_timestamp now)
  = negb (text_gt (date_text now) (date_text e)).
Proof.
  unfold text_gt, isoformat, sql_timestamp, String.ltb.
  rewrite str_compare_app by (by rewrite !date_text_length).
  generalize (date_text e) (date_text now). intros de dn.
  rewrite (String.compare_antisym de dn).
  by destruct (String.compare dn de).
Qed.

Example iso_example : isoformat 1784109900 = "2026-07-15T10:05:00+00:00".
Proof. vm_compute. reflexivity. Qed.
Example parse_example : utc_us <$> fromisoformat "2026-07-15T10:05:00+00:00" = Ok 1784109900000000.
Proof. vm_compute. reflexivity. Qed.
