(* ===== verification/Url.v ===== *)
(** * URLs and internet addresses

    What the code uses of Python's [urllib.parse] and [ipaddress]: the parts of a
    URL, its host and port, addresses of both versions, and the encoding and
    decoding of forms.  An address is the number that the text denotes. *)
From Stdlib Require Import ZArith Lia Ascii.
From S2P Require Import Prelude PyStr Json Hash Clock.
Local Open Scope Z_scope.

(** ** Texts *)

(** [text.partition(sep)] without the separator, and [text.rpartition(sep)]: the
    parts around the last separator, [None] without one. *)
Definition partition (sep : ascii) (s : string) : string * string := default (s, "") (split_first sep s).
Fixpoint split_last (sep : ascii) (s : string) : option (string * string) :=
  match s with
  | EmptyString => None
  | String c r =>
      match split_last sep r with
      | Some (a, b) => Some (String c a, b)
      | None => if Ascii.eqb c sep then Some ("", r) else None
      end
  end.
Definition after_last (sep : ascii) (s : string) : string := match split_last sep s with Some (_, b) => b | None => s end.
Definition has_char (c : ascii) (s : string) : bool := negb (sall (λ d, negb (Ascii.eqb d c)) s).
Fixpoint span_until (p : ascii → bool) (s : string) : string * string :=
  match s with
  | EmptyString => ("", "")
  | String c r => if p c then ("", s) else let '(a, b) := span_until p r in (String c a, b)
  end.
Fixpoint sfilter (p : ascii → bool) (s : string) : string :=
  match s with
  | EmptyString => EmptyString
  | String c r => if p c then String c (sfilter p r) else sfilter p r
  end.

(** ** Addresses *)

Definition is_hex_digit (c : ascii) : bool := is_decimal c || char_in 65 70 c || char_in 97 102 c.
(** [IPv4Address._parse_octet] *)
Definition parse_octet (s : string) : option Z :=
  if negb (String.eqb s "") && sall is_decimal s && (str_len s <=? 3) && (String.eqb s "0" || negb (startswith "0" s))
  then z ← int_digits 10 0 false s; if 255 <? z then None else Some z
  else None.
Definition octets_value (l : list Z) : Z := fold_left (λ a b, a * 256 + b) l 0.
Definition ipv4_address (s : string) : option Z :=
  let octets := split_on "."%char s in
  if Nat.eqb (length octets) 4 then octets_value <$> mapM parse_octet octets else None.

(** [IPv6Address._parse_hextet] *)
Definition parse_hextet (s : string) : option Z :=
  if negb (String.eqb s "") && sall is_hex_digit s && (str_len s <=? 4) then int_digits 16 0 false s else None.
(** An address in the notation of version 4 as the last part stands for two. *)
Definition ipv6_parts (s : string) : option (list (string + Z)) :=
  let parts := split_on ":"%char s in
  let final := List.last parts "" in
  if Nat.ltb (length parts) 3 then None else
  if has_char "."%char final
  then z ← ipv4_address final; Some (map inl (removelast parts) ++ [inr (Z.shiftr z 16); inr (Z.land z 65535)])
  else Some (map inl parts).
Definition blank_part (p : string + Z) : bool := match p with inl "" => true | _ => false end.
Definition part_value (p : string + Z) : option Z := match p with inl s => parse_hextet s | inr z => Some z end.
(** The positions of an empty part between the first and the last. *)
Definition skips (parts : list (string + Z)) : list nat :=
  List.filter (λ i, match parts !! i with Some p => blank_part p | None => false end) (seq 1 (length parts - 2)).
(** The parts on one side of [::], where an empty end is allowed on its own. *)
Definition side (at_end : list (string + Z) → option (string + Z)) (parts : list (string + Z)) : option (list (string + Z)) :=
  match at_end parts with
  | Some p => if blank_part p then (if Nat.eqb (length parts) 1 then Some [] else None) else Some parts
  | None => None
  end.
Definition ipv6_value (parts : list (string + Z)) : option Z :=
  let hextets_value := fold_left (λ a b, a * 65536 + b) in
  if Nat.ltb 9 (length parts) then None else
  match skips parts with
  | [] => if Nat.eqb (length parts) 8 then l ← mapM part_value parts; Some (hextets_value l 0) else None
  | [i] =>
      hi ← side head (take i parts);
      lo ← side last (drop (S i) parts);
      if Nat.ltb 7 (length hi + length lo) then None else
      hi_values ← mapM part_value hi;
      lo_values ← mapM part_value lo;
      Some (hextets_value (hi_values ++ replicate (8 - (length hi + length lo)) 0 ++ lo_values) 0)
  | _ => None
  end.
(** [IPv6Address]: a scope may follow behind a per cent sign. *)
Definition ipv6_address (s : string) : option Z :=
  if has_char "/"%char s then None else
  match split_first "%"%char s with
  | Some (_, scope) => if String.eqb scope "" || has_char "%"%char scope then None else ipv6_parts (partition "%"%char s).1 ≫= ipv6_value
  | None => ipv6_parts s ≫= ipv6_value
  end.
(** [ipaddress.ip_address(s)] *)
Inductive ip := IPv4Address (value : Z) | IPv6Address (value : Z).
Definition ip_address (s : string) : option ip :=
  match ipv4_address s with
  | Some z => Some (IPv4Address z)
  | None => IPv6Address <$> ipv6_address s
  end.
(** [address.is_loopback]; an address of version 4 in one of version 6 counts. *)
Definition is_loopback_v4 (z : Z) : bool := Z.shiftr z 24 =? 127.
Definition is_loopback (a : ip) : bool :=
  match a with
  | IPv4Address z => is_loopback_v4 z
  | IPv6Address z => if Z.shiftr z 32 =? 65535 then is_loopback_v4 (Z.land z 4294967295) else z =? 1
  end.

(** ** The parts of a URL *)

Record SplitResult := mk_url { url_scheme : string; url_netloc : string; url_path : string; url_query : string; url_fragment : string }.
Definition url_error {A} : result A := Raise (ValueError "Invalid IPv6 URL").
Definition c0_or_space (c : ascii) : bool := ord c <=? 32.
Definition unsafe_byte (c : ascii) : bool := in_chars (char_str (chr 9) +:+ char_str (chr 13) +:+ char_str (chr 10)) c.
Definition scheme_char (c : ascii) : bool := is_alnum_ascii c || in_chars "+-." c.
Definition split_scheme (url : string) : string * string :=
  match split_first ":"%char url with
  | Some (String c r, rest) => if is_alpha_ascii c && sall scheme_char (String c r) then (lower (String c r), rest) else ("", url)
  | _ => ("", url)
  end.
(** [_check_bracketed_host]: of the future addresses only the look matters. *)
Definition ipv_future (hostname : string) : bool :=
  match split_first "."%char (sdrop 1 hostname) with
  | Some (version, rest) => negb (String.eqb version "") && sall is_hex_digit version && match rest with String c _ => negb (Ascii.eqb c (chr 10)) | _ => false end
  | None => false
  end.
Definition bracketed_host (hostname : string) : result unit :=
  if startswith "v" hostname then guard_err (negb (ipv_future hostname)) (ValueError "IPvFuture address is invalid")
  else match ip_address hostname with
       | Some (IPv6Address _) => Ok tt
       | Some (IPv4Address _) => Raise (ValueError "An IPv4 address cannot be in brackets")
       | None => Raise (ValueError (repr_str hostname +:+ " does not appear to be an IPv4 or IPv6 address"))
       end.
Definition bracketed_netloc (netloc : string) : result unit :=
  match split_first "["%char (after_last "@"%char netloc) with
  | Some (before, bracketed) =>
      if negb (String.eqb before "") then url_error else
      let '(hostname, port) := partition "]"%char bracketed in
      if negb (String.eqb port "") && negb (startswith ":" port) then url_error else bracketed_host hostname
  | None => bracketed_host (partition ":"%char (after_last "@"%char netloc)).1
  end.
(** [urlsplit(url)]; the normal forms of the characters below 256 hold no
    delimiter, so that the check of the location never refuses it. *)
Definition urlsplit (url : string) : result SplitResult :=
  let url := sfilter (λ c, negb (unsafe_byte c)) (lstrip_by c0_or_space url) in
  let '(scheme, url) := split_scheme url in
  '(netloc, url) ← (if startswith "//" url then
      let '(netloc, rest) := span_until (in_chars "/?#") (sdrop 2 url) in
      let opened := has_char "["%char netloc in
      let closed := has_char "]"%char netloc in
      _ ← guard_err (xorb opened closed) (ValueError "Invalid IPv6 URL");
      _ ← (if opened then bracketed_netloc netloc else Ok tt);
      Ok (netloc, rest)
    else Ok ("", url));
  let '(url, fragment) := partition "#"%char url in
  let '(path, query) := partition "?"%char url in
  Ok (mk_url scheme netloc path query fragment).

Definition userinfo (u : SplitResult) : string * string :=
  match split_last "@"%char (url_netloc u) with Some (info, _) => partition ":"%char info | None => ("", "") end.
Definition url_username (u : SplitResult) : string := (userinfo u).1.
Definition url_password (u : SplitResult) : string := (userinfo u).2.
Definition hostinfo (u : SplitResult) : string * string :=
  let info := after_last "@"%char (url_netloc u) in
  match split_first "["%char info with
  | Some (_, bracketed) => let '(hostname, port) := partition "]"%char bracketed in (hostname, (partition ":"%char port).2)
  | None => partition ":"%char info
  end.
(** [parsed.hostname or ""], the zone of an address as it is *)
Definition url_hostname (u : SplitResult) : string :=
  match split_first "%"%char (hostinfo u).1 with
  | Some (host, zone) => lower host +:+ "%" +:+ zone
  | None => lower (hostinfo u).1
  end.
(** [parsed.port] *)
Definition url_port (u : SplitResult) : result (option Z) :=
  let port := (hostinfo u).2 in
  if String.eqb port "" then Ok None else
  if negb (sall is_decimal port) then Raise (ValueError ("Port could not be cast to integer value as " +:+ repr_str port)) else
  match int_digits 10 0 false port with
  | Some z => if z <=? 65535 then Ok (Some z) else Raise (ValueError "Port out of range 0-65535")
  | None => Raise OutsideModel
  end.

(** ** Forms *)

Definition upper_hex (c : ascii) : string :=
  let digit n := if n <? 10 then chr (48 + n) else chr (55 + n) in
  String "%"%char (String (digit (ord c / 16)) (char_str (digit (ord c mod 16)))).
Definition quote_plus (s : string) : string :=
  sflat (λ c, if is_alnum_ascii c || in_chars "_.-~" c then char_str c else if Ascii.eqb c " "%char then "+" else upper_hex c) (utf8_encode s).
(** [urlencode(fields)] *)
Definition urlencode (fields : list (string * string)) : string :=
  join "&" (map (λ kv, quote_plus kv.1 +:+ "=" +:+ quote_plus kv.2) fields).
