(* ===== verification/Config.v ===== *)
(** * The API configuration ([memory/config.py])

    The fields of [APIConfig] and its nested models that the modelled handlers
    read, with the process environment the secrets fall back to. *)
From Stdlib Require Import ZArith Lia Ascii.
From S2P Require Import Prelude PyStr.
Local Open Scope Z_scope.

(** [config.api.oauth] *)
Record OAuthConfig := mk_oauth_config {
  authorization_servers : list string; resource : string; issuer : string;
  jwt_secret : string; jwt_secret_env : string; client_registration_ttl_seconds : Z;
  refresh_token_ttl_seconds : Z; scopes_supported : list string }.
(** [config.api.oidc] *)
Record OIDCResourceServerConfig := mk_oidc_config {
  oidc_issuer : string; oidc_audience : string; oidc_client_id : string;
  username_claim : string; email_claim : string; display_name_claim : string;
  groups_claim : string; roles_claim : string;
  allowed_domains : list string; allowed_groups : list string; allowed_roles : list string;
  role_scopes : list (string * list string); oidc_scopes_supported : list string;
  clock_skew_seconds : Z }.
(** A provider of [config.api.connect.passport] *)
Record PassportProviderConfig := mk_provider_config {
  pp_enabled : bool; pp_label : string; client_id_env : string; client_secret_env : string;
  callback_url : string; authorization_url : string; token_url : string; pp_issuer : string;
  discovery_url : string; jwks_url : string; oidc_algorithms : list string; pp_scopes : list string;
  pp_allowed_domains : list string; pp_allowed_emails : list string }.
Record PassportConfig := mk_passport_config {
  pp_providers : list string; provider_google : PassportProviderConfig; provider_meta : PassportProviderConfig; provider_x : PassportProviderConfig }.
(** [config.api.connect] *)
Record ConnectUIConfig := mk_connect_config {
  session_cookie_name : string; session_secret_value : string; session_secret_env : string;
  session_ttl_seconds : Z; token_ttl_seconds : Z; passport : PassportConfig }.
(** [config.api] *)
Record HubConfig := mk_hub_config {
  api_host : string; api_port : Z; api_auth : string; public_base_url : string;
  oauth : OAuthConfig; oidc : OIDCResourceServerConfig; connect : ConnectUIConfig;
  (** [os.environ] *)
  environ : list (string * string) }.

(** [os.environ.get(name, "")] *)
Definition environ_get (name : string) (config : HubConfig) : string :=
  match List.find (λ kv, String.eqb kv.1 name) (environ config) with Some kv => kv.2 | None => "" end.

(** [a or b] on texts *)
Definition or_str (a b : string) : string := if String.eqb a "" then b else a.

(** [str.rstrip("/")] *)
Fixpoint rstrip_slash (s : string) : string :=
  match s with
  | EmptyString => EmptyString
  | String c r => match rstrip_slash r with
                  | EmptyString => if Ascii.eqb c "/"%char then EmptyString else char_str c
                  | r' => String c r'
                  end
  end.

Definition oauth_jwt_secret (config : HubConfig) : string :=
  or_str (jwt_secret (oauth config)) (environ_get (jwt_secret_env (oauth config)) config).

Definition session_secret (config : HubConfig) : string :=
  or_str (session_secret_value (connect config)) (environ_get (session_secret_env (connect config)) config).

Definition mcp_url_for_config (config : HubConfig) : string :=
  if negb (String.eqb (resource (oauth config)) "") then rstrip_slash (resource (oauth config))
  else (if negb (String.eqb (public_base_url config) "") then rstrip_slash (public_base_url config)
        else "http://" +:+ api_host config +:+ ":" +:+ str_of_Z (api_port config)) +:+ "/mcp".
