(* ===== verification/Identity.v ===== *)
(** * Identifiers, secrets and scopes ([memory/backend/metadata_store.py])

    The validators and hash functions at the end of the metadata store: every
    identifier a store operation receives goes through one of them. *)
From Stdlib Require Import ZArith Lia Ascii.
From S2P Require Import Prelude PyStr Json Hash.
Local Open Scope Z_scope.

Definition LOCAL_DEFAULT_PROJECT_ID : string := "local-default".
Definition PROJECT_ROLE_ADMIN : string := "admin".
Definition PROJECT_ROLE_WRITER : string := "writer".
Definition PROJECT_ROLE_READER : string := "reader".
Definition PROJECT_ROLE_ORDER : list (string * Z) :=
  [(PROJECT_ROLE_READER, 1); (PROJECT_ROLE_WRITER, 2); (PROJECT_ROLE_ADMIN, 3)].

(** The process environment the store reads. *)
Class Environ := { AMH_TOKEN_HASH_SECRET : option string }.

Definition or_default (dflt : string) (o : option string) : string :=
  match o with Some s => if String.eqb s "" then dflt else s | None => dflt end.

(** ** Validators *)

Definition _validate_token_lookup (token_id : string) : result string :=
  let value := strip token_id in
  if String.eqb value "" then Raise (ValueError "token_id must be non-empty") else
  if 128 <? str_len value then Raise (ValueError "token_id exceeds max length 128") else
  Ok value.

Definition _validate_owner_id (owner_id : string) : result string :=
  let value := strip owner_id in
  if String.eqb value "" then Raise (ValueError "owner_id must be non-empty") else
  if 128 <? str_len value then Raise (ValueError "owner_id exceeds max length 128") else
  Ok value.

(** [fullmatch(r"[head][tail]*")] for two character classes. *)
Definition head_tail_match (head tail : ascii → bool) (s : string) : bool :=
  match s with EmptyString => false | String c s' => head c && sall tail s' end.
(** [^[A-Za-z0-9][A-Za-z0-9._:-]{0,127}$] *)
Definition _PROJECT_ID_RE (s : string) : bool :=
  head_tail_match is_alnum_ascii (λ c, is_alnum_ascii c || in_chars "._:-" c) s
  && (str_len s <=? 128).

Definition _validate_project_id (project_id : string) : result string :=
  let value := strip project_id in
  if String.eqb value "" then Raise (ValueError "project_id must be non-empty") else
  if 128 <? str_len value then Raise (ValueError "project_id exceeds max length 128") else
  if negb (_PROJECT_ID_RE value) then
    Raise (ValueError "project_id must start with an alphanumeric character and contain only alphanumeric characters, dots, underscores, colons, or hyphens")
  else Ok value.

Definition _validate_project_role (role : string) : result string :=
  let value := lower (strip role) in
  if negb (dict_has value PROJECT_ROLE_ORDER)
  then Raise (ValueError "project role must be one of: admin, writer, reader")
  else Ok value.

Definition _validate_oauth_provider (provider : string) : result string :=
  let value := lower (strip provider) in
  if String.eqb value "" then Raise (ValueError "oauth provider must be non-empty") else
  if 64 <? str_len value then Raise (ValueError "oauth provider exceeds max length 64") else
  if negb (head_tail_match (λ c, is_lower_ascii c || is_decimal c)
             (λ c, is_lower_ascii c || is_decimal c || in_chars "_-" c) value)
  then Raise (ValueError "oauth provider contains unsupported characters")
  else Ok value.

Definition _validate_oauth_subject (provider_subject : string) : result string :=
  let value := strip provider_subject in
  if String.eqb value "" then Raise (ValueError "oauth provider subject must be non-empty") else
  if 255 <? str_len value then Raise (ValueError "oauth provider subject exceeds max length 255") else
  Ok value.

Definition _normalize_email (email : option string) : option string :=
  match email with
  | None => None
  | Some e => let value := lower (strip e) in if String.eqb value "" then None else Some value
  end.

(** [(?:pbkdf2-sha256|hmac-sha256|sha256):[a-f0-9]{64}] *)
Definition is_secret_hash (s : string) : bool :=
  existsb (λ p, startswith p s && is_hex_digest (sdrop (String.length p) s))
    ["pbkdf2-sha256:"; "hmac-sha256:"; "sha256:"].

Definition _validate_secret_hash (value field_name : string) : result string :=
  let normalized := strip value in
  if String.eqb normalized "" then Raise (ValueError (field_name +:+ " must be non-empty")) else
  if 255 <? str_len normalized then Raise (ValueError (field_name +:+ " exceeds max length 255")) else
  if negb (is_secret_hash normalized)
  then Raise (ValueError (field_name +:+ " must be a supported secret hash"))
  else Ok normalized.

(** ** Hashes of secrets *)

Section hashes.
Context `{HashLib} `{Environ}.

Definition _hash_bearer_token (token : string) : result string :=
  if String.eqb token "" then Raise (ValueError "bearer token must be a non-empty string") else
  let salt := "ai-memory-hub:bearer-token:" +:+ or_default "default" AMH_TOKEN_HASH_SECRET in
  Ok ("pbkdf2-sha256:" +:+ pbkdf2_hex (utf8_encode token) (utf8_encode salt) 32).

Definition _hash_oauth_ephemeral_secret (token purpose : string) : result string :=
  if String.eqb token "" then Raise (ValueError "OAuth ephemeral secret must be a non-empty string") else
  let secret := or_default "default" AMH_TOKEN_HASH_SECRET in
  Ok ("sha256:" +:+ sha256_hex (utf8_encode
    ("ai-memory-hub:oauth:" +:+ purpose +:+ ":" +:+ secret +:+ ":" +:+ token))).

Definition _default_project_id (owner_id : string) : string :=
  "private-" +:+ pbkdf2_hex (utf8_encode owner_id) "ai-memory-hub:default-project-id" 16.

Definition _oauth_user_id (provider provider_subject : string) : string :=
  "user_" +:+ pbkdf2_hex (utf8_encode provider_subject)
    (utf8_encode ("ai-memory-hub:oauth-user-id:" +:+ provider)) 16.
End hashes.

(** ** The token id a bearer token carries *)

Definition b64_val (c : ascii) : option Z :=
  if is_upper_ascii c then Some (ord c - 65) else if is_lower_ascii c then Some (ord c - 71)
  else if is_decimal c then Some (ord c + 4)
  else if Ascii.eqb c "+"%char || Ascii.eqb c "-"%char then Some 62
  else if Ascii.eqb c "/"%char || Ascii.eqb c "_"%char then Some 63 else None.
(** [binascii.a2b_base64] as [b64decode] calls it: characters outside the
    alphabet are skipped; [quad] is the position in the group, [left] its
    pending bits, [pads] the run of [=] read. *)
Fixpoint a2b_base64 (quad left pads : Z) (s : string) : option string :=
  match s with
  | EmptyString => if quad =? 0 then Some EmptyString else None
  | String c r =>
      if Ascii.eqb c "="%char then
        if (2 <=? quad) && (4 <=? quad + (pads + 1)) then Some EmptyString
        else a2b_base64 quad left (if 2 <=? quad then pads + 1 else pads) r
      else match b64_val c with
      | None => a2b_base64 quad left pads r
      | Some v =>
          if quad =? 0 then a2b_base64 1 v 0 r
          else let out := if quad =? 1 then Z.lor (Z.shiftl left 2) (Z.shiftr v 4)
                          else if quad =? 2 then Z.lor (Z.shiftl left 4) (Z.shiftr v 2)
                          else Z.lor (Z.shiftl left 6) v in
               let left' := if quad =? 1 then Z.land v 15 else if quad =? 2 then Z.land v 3 else 0 in
               o ← a2b_base64 ((quad + 1) mod 4) left' 0 r; Some (String (chr (Z.land out 255)) o)
      end
  end.
(** [base64.urlsafe_b64decode(s)] *)
Definition urlsafe_b64decode (s : string) : result string :=
  if sall (λ c, ord c <? 128) s
  then from_option_err (ValueError "binascii.Error") (a2b_base64 0 0 0 s)
  else Raise (ValueError "string argument should contain only ASCII characters").
(** [json.loads(bytes)], for ASCII bytes: anything else is outside the model. *)
Definition json_loads_bytes (b : string) : result value :=
  if sall (λ c, (0 <? ord c) && (ord c <? 128)) b then json_loads b else Raise OutsideModel.

Definition _token_id_from_bearer_token (token : string) : result (option string) :=
  match split_on "." token with
  | [_; part; _] =>
      let padding := list_str (replicate (Z.to_nat ((- str_len part) mod 4)) "="%char) in
      match (b ← urlsafe_b64decode (part +:+ padding); json_loads_bytes b) with
      | Raise (ValueError _) => Ok None
      | Raise e => Raise e
      | Ok (VDict payload) =>
          match vget "jti" payload with
          | VStr jti => if startswith "tok_" jti && (str_len jti <=? 128) then Ok (Some jti) else Ok None
          | _ => Ok None
          end
      | Ok _ => Ok None
      end
  | _ => Ok None
  end.

Definition _token_prefix (token : string) : string := stake 12 token.

(** ** Scopes *)

Definition nonempty_strips (xs : list string) : list string :=
  List.filter (λ s, negb (String.eqb s "")) (map strip xs).
Definition _normalize_token_scopes (scopes : option (list string)) : result (list string) :=
  let values := default ["memory:read"; "memory:write"] scopes in
  match sorted_strs (dedup (nonempty_strips values)) with
  | [] => Raise (ValueError "token scopes must not be empty")
  | normalized => Ok normalized
  end.
Definition scopes_json (scopes : list string) : string := json_dumps_ascii (VList (map VStr scopes)).

(** The stored column is NULL or a text. *)
Definition _parse_token_scopes (value : option string) : result (list string) :=
  match value with
  | None => Ok ["memory:read"; "memory:write"]
  | Some text =>
      if String.eqb text "" then Ok ["memory:read"; "memory:write"] else
      match json_loads text with
      | Raise (ValueError _) => _normalize_token_scopes (Some (split_ws text))
      | Raise e => Raise e
      | Ok (VList items) => _normalize_token_scopes (Some (map py_str items))
      | Ok parsed => _normalize_token_scopes (Some (split_ws (py_str parsed)))
      end
  end.

(** ** UUIDs *)

(** [uuid.UUID(text)] accepts the text. *)
Definition is_uuid (text : string) : bool :=
  let hex := replace "uuid:" "" (replace "urn:" "" text) in
  let hex := replace "-" "" (strip_by (in_chars "{}") hex) in
  (str_len hex =? 32) &&
  match int16_of_str hex with
  | Some z => (0 <=? z) && (z <? 2 ^ 128)
  | None => false
  end.

Definition _validate_memory_id (memory_id : value) : result string :=
  let value := py_str memory_id in
  if is_uuid value then Ok value else Raise (ValueError "memory_id must be a valid UUID").

(** ** Lemmas *)

(** A validator that strips, then tests, accepts its own result unchanged. *)
Ltac validator_idem :=
  intros; repeat (case_match; simplify_eq/=); rewrite ?strip_idem in *; repeat (case_match; simplify_eq/=); congruence.

Lemma _validate_token_lookup_idem t v : _validate_token_lookup t = Ok v → _validate_token_lookup v = Ok v.
Proof. unfold _validate_token_lookup. validator_idem. Qed.
Lemma _validate_owner_id_idem t v : _validate_owner_id t = Ok v → _validate_owner_id v = Ok v.
Proof. unfold _validate_owner_id. validator_idem. Qed.
Lemma _validate_project_id_idem t v : _validate_project_id t = Ok v → _validate_project_id v = Ok v.
Proof. unfold _validate_project_id. validator_idem. Qed.
Lemma _validate_secret_hash_idem f t v : _validate_secret_hash t f = Ok v → _validate_secret_hash v f = Ok v.
Proof. unfold _validate_secret_hash. validator_idem. Qed.

Lemma _validate_project_id_shape p v :
  _validate_project_id p = Ok v →
  v = strip p ∧ _PROJECT_ID_RE v = true.
Proof. unfold _validate_project_id. intros. repeat (case_match; simplify_eq/=). by prop_bool. Qed.

Lemma elem_of_nonempty_strips x xs : x ∈ nonempty_strips xs ↔ x ≠ "" ∧ ∃ y, y ∈ xs ∧ x = strip y.
Proof.
  unfold nonempty_strips. rewrite list_elem_of_In, filter_In, in_map_iff, negb_true_iff, String.eqb_neq.
  setoid_rewrite list_elem_of_In. naive_solver.
Qed.

(** Normalised scopes: no repetition, none empty, each a stripped input. *)
Lemma _normalize_token_scopes_spec scopes out :
  _normalize_token_scopes scopes = Ok out →
  out ≠ [] ∧ NoDup out ∧
  ∀ s, s ∈ out ↔ s ≠ "" ∧ ∃ y, y ∈ default ["memory:read"; "memory:write"] scopes ∧ s = strip y.
Proof.
  unfold _normalize_token_scopes. set (vals := default _ scopes).
  pose proof (sorted_strs_perm (dedup (nonempty_strips vals))) as Hp.
  destruct (sorted_strs _) as [|x xs]; [done|]. intros [= <-]. split; [done|]. split.
  - rewrite Hp. apply NoDup_dedup.
  - intros s. rewrite Hp, elem_of_dedup. apply elem_of_nonempty_strips.
Qed.

Lemma wf_str_list xs : wf_value (VList (map VStr xs)).
Proof. apply wf_list. induction xs; cbn; constructor; done. Qed.

Lemma map_str_VStr xs : map py_str (map VStr xs) = xs.
Proof. induction xs; cbn; congruence. Qed.

Lemma nonempty_strips_id xs :
  Forall (λ s, s ≠ "" ∧ strip s = s) xs → nonempty_strips xs = xs.
Proof.
  unfold nonempty_strips. induction 1 as [|x xs [Hne Hs] H IH]; cbn; [done|].
  rewrite Hs. apply String.eqb_neq in Hne. rewrite Hne. cbn. by rewrite IH.
Qed.

(** Normalised scopes are a fixed point, so they survive the stored column. *)
Lemma _normalize_token_scopes_idem scopes out :
  _normalize_token_scopes scopes = Ok out → _normalize_token_scopes (Some out) = Ok out.
Proof.
  intros Hn. pose proof (_normalize_token_scopes_spec _ _ Hn) as (Hne & Hnd & Hin).
  unfold _normalize_token_scopes in *.
  assert (Hs : sorted_strs (dedup (nonempty_strips (default ["memory:read"; "memory:write"] scopes))) = out).
  { destruct (sorted_strs _); by simplify_eq. }
  assert (nonempty_strips out = out) as Hid.
  2: { change (default ["memory:read"; "memory:write"] (Some out)) with out. rewrite Hid, dedup_id, sorted_strs_id; [by destruct out|rewrite <-Hs; apply sorted_strs_sorted|done]. }
  apply nonempty_strips_id.
  apply Forall_forall. intros s [Hs0 (y & _ & ->)]%Hin. split; [done|apply strip_idem].
Qed.

Lemma _parse_token_scopes_roundtrip scopes out :
  _normalize_token_scopes scopes = Ok out →
  _parse_token_scopes (Some (scopes_json out)) = Ok out.
Proof.
  intros Hn. unfold _parse_token_scopes.
  assert (String.eqb (scopes_json out) "" = false) as -> by (unfold scopes_json; done).
  unfold scopes_json. rewrite loads_dumps_ascii by apply wf_str_list.
  rewrite map_str_VStr. by eapply _normalize_token_scopes_idem.
Qed.
