(* ===== verification/AuthDb.v ===== *)
(** * The identity tables of the SQLite metadata store

    One record per table of [_init_db] that identity and authorization use, a
    column that may be NULL as an [option]; a table is its rows in rowid order
    and the database the product of the tables.  Row setters are the SET
    clauses the store executes. *)
From Stdlib Require Import ZArith Lia.
From S2P Require Import Prelude PyStr Json Hash Clock Identity.

Record user := mk_user {
  u_id : string; u_display_name : option string; u_created_at : string; u_disabled_at : option string }.

Record auth_token := mk_auth_token {
  at_token_hash : string; at_token_id : option string; at_owner_id : string;
  at_display_name : option string; at_token_prefix : option string; at_scopes : option string;
  at_created_at : string; at_last_used_at : option string; at_expires_at : option string;
  at_revoked_at : option string }.

Record oauth_identity := mk_oauth_identity {
  oi_provider : string; oi_provider_subject : string; oi_user_id : string;
  oi_username : option string; oi_email : option string; oi_display_name : option string;
  oi_created_at : string; oi_last_login_at : string }.

Record web_session := mk_web_session {
  ws_session_id_hash : string; ws_user_id : string; ws_csrf_token_hash : string;
  ws_created_at : string; ws_last_seen_at : string; ws_expires_at : string;
  ws_revoked_at : option string }.

Record oauth_client_row := mk_oauth_client_row {
  oc_client_id : string; oc_client_name : string; oc_redirect_uris : string;
  oc_created_at : string; oc_expires_at : string; oc_revoked_at : option string }.

Record refresh_token := mk_refresh_token {
  rt_hash : string; rt_family : string; rt_client_id : string; rt_owner_id : string;
  rt_scopes : string; rt_resource : string; rt_access_token_id : option string;
  rt_created_at : string; rt_expires_at : string; rt_consumed_at : option string;
  rt_revoked_at : option string }.

Record refresh_family := mk_refresh_family { rf_family : string; rf_revoked_at : string }.

Record auth_code := mk_auth_code {
  ac_hash : string; ac_client_id : string; ac_owner_id : string; ac_redirect_uri : string;
  ac_challenge : string; ac_resource : string; ac_scope : string; ac_created_at : string;
  ac_expires_at : string; ac_consumed_at : option string }.

Record provider_state := mk_provider_state {
  ps_hash : string; ps_provider : string; ps_browser : string; ps_nonce : string;
  ps_verifier : string; ps_data : string; ps_created_at : string; ps_expires_at : string;
  ps_consumed_at : option string }.

Record project := mk_project {
  p_id : string; p_owner_id : option string; p_name : string; p_description : option string;
  p_is_default : bool; p_created_at : string; p_updated_at : string; p_archived_at : option string }.

Record membership := mk_membership {
  pm_project_id : string; pm_user_id : string; pm_role : string;
  pm_created_at : string; pm_updated_at : string }.

Record AuthDb := mk_db {
  users : list user;
  auth_tokens : list auth_token;
  oauth_identities : list oauth_identity;
  web_sessions : list web_session;
  oauth_clients : list oauth_client_row;
  oauth_refresh_tokens : list refresh_token;
  oauth_refresh_token_families : list refresh_family;
  oauth_authorization_codes : list auth_code;
  oauth_provider_states : list provider_state;
  projects : list project;
  project_memberships : list membership }.

Definition empty_db : AuthDb := mk_db [] [] [] [] [] [] [] [] [] [] [].

Definition on_users (f : list user → list user) (d : AuthDb) : AuthDb :=
  let (a, b, c, e, g, h, i, j, k, l, m) := d in mk_db (f a) b c e g h i j k l m.
Definition on_tokens (f : list auth_token → list auth_token) (d : AuthDb) : AuthDb :=
  let (a, b, c, e, g, h, i, j, k, l, m) := d in mk_db a (f b) c e g h i j k l m.
Definition on_identities (f : list oauth_identity → list oauth_identity) (d : AuthDb) : AuthDb :=
  let (a, b, c, e, g, h, i, j, k, l, m) := d in mk_db a b (f c) e g h i j k l m.
Definition on_sessions (f : list web_session → list web_session) (d : AuthDb) : AuthDb :=
  let (a, b, c, e, g, h, i, j, k, l, m) := d in mk_db a b c (f e) g h i j k l m.
Definition on_clients (f : list oauth_client_row → list oauth_client_row) (d : AuthDb) : AuthDb :=
  let (a, b, c, e, g, h, i, j, k, l, m) := d in mk_db a b c e (f g) h i j k l m.
Definition on_refresh (f : list refresh_token → list refresh_token) (d : AuthDb) : AuthDb :=
  let (a, b, c, e, g, h, i, j, k, l, m) := d in mk_db a b c e g (f h) i j k l m.
Definition on_families (f : list refresh_family → list refresh_family) (d : AuthDb) : AuthDb :=
  let (a, b, c, e, g, h, i, j, k, l, m) := d in mk_db a b c e g h (f i) j k l m.
Definition on_codes (f : list auth_code → list auth_code) (d : AuthDb) : AuthDb :=
  let (a, b, c, e, g, h, i, j, k, l, m) := d in mk_db a b c e g h i (f j) k l m.
Definition on_states (f : list provider_state → list provider_state) (d : AuthDb) : AuthDb :=
  let (a, b, c, e, g, h, i, j, k, l, m) := d in mk_db a b c e g h i j (f k) l m.
Definition on_projects (f : list project → list project) (d : AuthDb) : AuthDb :=
  let (a, b, c, e, g, h, i, j, k, l, m) := d in mk_db a b c e g h i j k (f l) m.
Definition on_memberships (f : list membership → list membership) (d : AuthDb) : AuthDb :=
  let (a, b, c, e, g, h, i, j, k, l, m) := d in mk_db a b c e g h i j k l (f m).

(** ** The SET clauses *)

(** [COALESCE(a, b)] *)
Definition coalesce {A} (a b : option A) : option A := match a with Some _ => a | None => b end.

Definition set_user_display (name : option string) (u : user) : user :=
  mk_user (u_id u) name (u_created_at u) (u_disabled_at u).
Definition set_user_enabled (name : option string) (u : user) : user :=
  mk_user (u_id u) name (u_created_at u) None.

Definition set_token_revoked (now : string) (t : auth_token) : auth_token :=
  mk_auth_token (at_token_hash t) (at_token_id t) (at_owner_id t) (at_display_name t)
    (at_token_prefix t) (at_scopes t) (at_created_at t) (at_last_used_at t) (at_expires_at t) (Some now).
Definition set_token_used (now : string) (t : auth_token) : auth_token :=
  mk_auth_token (at_token_hash t) (at_token_id t) (at_owner_id t) (at_display_name t)
    (at_token_prefix t) (at_scopes t) (at_created_at t) (Some now) (at_expires_at t) (at_revoked_at t).
(** the DO UPDATE of [create_auth_token] *)
Definition set_token_reissued (new t : auth_token) : auth_token :=
  mk_auth_token (at_token_hash t) (coalesce (at_token_id t) (at_token_id new)) (at_owner_id new)
    (at_display_name new) (at_token_prefix new) (at_scopes new) (at_created_at t) (at_last_used_at t)
    (at_expires_at new) None.

Definition set_identity_login (new : oauth_identity) (now : string) (i : oauth_identity) : oauth_identity :=
  mk_oauth_identity (oi_provider i) (oi_provider_subject i) (oi_user_id i)
    (coalesce (oi_username new) (oi_username i)) (coalesce (oi_email new) (oi_email i))
    (coalesce (oi_display_name new) (oi_display_name i)) (oi_created_at i) now.

Definition set_session_renewed (new s : web_session) : web_session :=
  mk_web_session (ws_session_id_hash s) (ws_user_id new) (ws_csrf_token_hash new)
    (ws_created_at s) (ws_last_seen_at s) (ws_expires_at new) None.
Definition set_session_seen (now : string) (s : web_session) : web_session :=
  mk_web_session (ws_session_id_hash s) (ws_user_id s) (ws_csrf_token_hash s)
    (ws_created_at s) now (ws_expires_at s) (ws_revoked_at s).
Definition set_session_revoked (now : string) (s : web_session) : web_session :=
  mk_web_session (ws_session_id_hash s) (ws_user_id s) (ws_csrf_token_hash s)
    (ws_created_at s) (ws_last_seen_at s) (ws_expires_at s) (Some now).

Definition set_client_registered (new c : oauth_client_row) : oauth_client_row :=
  mk_oauth_client_row (oc_client_id c) (oc_client_name new) (oc_redirect_uris new)
    (oc_created_at c) (oc_expires_at new) None.

Definition set_refresh_consumed (now : string) (r : refresh_token) : refresh_token :=
  mk_refresh_token (rt_hash r) (rt_family r) (rt_client_id r) (rt_owner_id r) (rt_scopes r)
    (rt_resource r) (rt_access_token_id r) (rt_created_at r) (rt_expires_at r) (Some now) (rt_revoked_at r).
Definition set_refresh_revoked (now : string) (r : refresh_token) : refresh_token :=
  mk_refresh_token (rt_hash r) (rt_family r) (rt_client_id r) (rt_owner_id r) (rt_scopes r)
    (rt_resource r) (rt_access_token_id r) (rt_created_at r) (rt_expires_at r) (rt_consumed_at r) (Some now).

Definition set_code_consumed (now : string) (c : auth_code) : auth_code :=
  mk_auth_code (ac_hash c) (ac_client_id c) (ac_owner_id c) (ac_redirect_uri c) (ac_challenge c)
    (ac_resource c) (ac_scope c) (ac_created_at c) (ac_expires_at c) (Some now).

Definition set_state_consumed (now : string) (s : provider_state) : provider_state :=
  mk_provider_state (ps_hash s) (ps_provider s) (ps_browser s) (ps_nonce s) (ps_verifier s)
    (ps_data s) (ps_created_at s) (ps_expires_at s) (Some now).

Definition set_project_default (now : string) (p : project) : project :=
  mk_project (p_id p) (p_owner_id p) (p_name p) (p_description p) true
    (p_created_at p) now (p_archived_at p).
Definition set_project_upserted (new : project) (now : string) (p : project) : project :=
  mk_project (p_id p) (p_owner_id new) (p_name new) (p_description new) (p_is_default new)
    (p_created_at p) now (p_archived_at p).

Definition set_membership_role (role now : string) (m : membership) : membership :=
  mk_membership (pm_project_id m) (pm_user_id m) role (pm_created_at m) now.

(** ** Unique indexes beyond the primary keys *)

(** [idx_auth_tokens_token_id] *)
Definition tokens_unique (t : list auth_token) : bool := bool_decide (NoDup (omap at_token_id t)).
(** [idx_projects_default_owner] and [idx_projects_default_local] *)
Definition projects_unique (t : list project) : bool :=
  bool_decide (NoDup (map p_owner_id (List.filter p_is_default t))).

(** A column value as a test. *)
Definition null {A} (o : option A) : bool := match o with None => true | Some _ => false end.
Definition opt_is (s : string) (o : option string) : bool :=
  match o with Some x => String.eqb x s | None => false end.
