(* ===== verification/AuthStore.v ===== *)
(** * The identity and authorization operations of the SQLite store

    The operations of [SQLiteMetadataStore] on users, projects, bearer tokens,
    web sessions and the OAuth records, in the order of the source.  Each takes
    the clock's instant [now] (SQLite's [CURRENT_TIMESTAMP] is its text) and
    runs its statements in one [transaction]; random identifiers are
    arguments. *)
From Stdlib Require Import ZArith Lia.
From S2P Require Import Prelude PyStr Json Hash Clock Identity AuthDb.

(** ** What the operations return *)

Record user_info := mk_user_info {
  ui_id : string; ui_display_name : option string; ui_created_at : string; ui_disabled_at : option string }.
Record token_info := mk_token_info {
  ti_token_id : string; ti_owner_id : string; ti_display_name : option string;
  ti_token_prefix : option string; ti_created_at : string; ti_expires_at : option string;
  ti_revoked_at : option string; ti_scopes : list string; ti_last_used_at : option string }.
Record auth_context := mk_auth_context {
  cx_owner_id : string; cx_token_id : option string; cx_scopes : list string }.
Record client_info := mk_client_info {
  ci_client_id : string; ci_client_name : string; ci_redirect_uris : value;
  ci_created_at : string; ci_expires_at : string; ci_revoked_at : option string }.
Record refresh_info := mk_refresh_info {
  ri_hash : string; ri_family : string; ri_client_id : string; ri_owner_id : string;
  ri_scopes : list string; ri_resource : string; ri_access_token_id : option string;
  ri_created_at : string; ri_expires_at : string; ri_consumed_at : option string;
  ri_revoked_at : option string }.

Definition _user_from_row (u : user) : user_info :=
  mk_user_info (u_id u) (u_display_name u) (u_created_at u) (u_disabled_at u).
(** [str(row["token_id"])]: a NULL id reads as the text None. *)
Definition _token_from_row (t : auth_token) : result token_info :=
  scopes ← _parse_token_scopes (at_scopes t);
  Ok (mk_token_info (default "None" (at_token_id t)) (at_owner_id t) (at_display_name t)
        (at_token_prefix t) (at_created_at t) (at_expires_at t) (at_revoked_at t) scopes
        (at_last_used_at t)).
Definition _oauth_client_from_row (c : oauth_client_row) : result client_info :=
  uris ← json_loads (oc_redirect_uris c);
  Ok (mk_client_info (oc_client_id c) (oc_client_name c) uris (oc_created_at c)
        (oc_expires_at c) (oc_revoked_at c)).
Definition _oauth_refresh_token_from_row (r : refresh_token) : result refresh_info :=
  scopes ← _parse_token_scopes (Some (rt_scopes r));
  Ok (mk_refresh_info (rt_hash r) (rt_family r) (rt_client_id r) (rt_owner_id r) scopes
        (rt_resource r) (rt_access_token_id r) (rt_created_at r) (rt_expires_at r)
        (rt_consumed_at r) (rt_revoked_at r)).

(** A row read with [fetchone], converted. *)
Definition one_row {R A} (f : R → result A) (o : option R) : result (option A) :=
  match o with None => Ok None | Some r => a ← f r; Ok (Some a) end.
(** The row the statement just wrote; [RuntimeError] when it is missing. *)
Definition written {R} (msg : string) (o : option R) : M AuthDb R :=
  lift (from_option_err (RuntimeError msg) o).

Section store.
Context `{HashLib} `{Environ}.
Variable now : instant.
Notation ts := (sql_timestamp now).
Notation DB := (M AuthDb).

(** ** Projects and memberships *)

Definition is_user (u : string) (r : user) : bool := String.eqb (u_id r) u.
Definition is_project (p : string) (r : project) : bool := String.eqb (p_id r) p.
Definition is_membership (p u : string) (r : membership) : bool :=
  String.eqb (pm_project_id r) p && String.eqb (pm_user_id r) u.

(** [INSERT INTO users ... ON CONFLICT(id) DO NOTHING] *)
Definition ensure_user (owner : string) : DB unit :=
  exec (on_users (tbl_insert_ignore (is_user owner) (mk_user owner (Some owner) ts None))).
(** [... DO UPDATE SET display_name = COALESCE(excluded.display_name, users.display_name)] *)
Definition upsert_user (owner : string) (name : option string) : DB unit :=
  exec (on_users (λ t, tbl_upsert (is_user owner) (mk_user owner name ts None)
    (λ u, set_user_display (coalesce name (u_display_name u)) u) t)).

(** A write to [projects], refused when it breaks a unique index. *)
Definition write_projects (f : list project → list project) : DB unit :=
  exec_r (λ d, if projects_unique (f (projects d)) then Ok (on_projects f d)
               else Raise (IntegrityError "UNIQUE constraint failed: projects")).

Definition _upsert_project_membership (project_id user_id role : string) : DB unit :=
  exec (on_memberships (tbl_upsert (is_membership project_id user_id)
    (mk_membership project_id user_id role ts ts) (set_membership_role role ts))).

Definition _ensure_default_project (owner_id : option string) : DB string :=
  match owner_id with
  | None =>
      _ ← write_projects (tbl_upsert (is_project LOCAL_DEFAULT_PROJECT_ID)
            (mk_project LOCAL_DEFAULT_PROJECT_ID None "Local Default" None true ts ts None)
            (set_project_default ts));
      mret LOCAL_DEFAULT_PROJECT_ID
  | Some owner =>
      _ ← ensure_user owner;
      row ← query (λ d, tbl_find (λ p, opt_is owner (p_owner_id p) && p_is_default p
                                       && null (p_archived_at p)) (projects d));
      project_id ← match row with
        | Some p => mret (p_id p)
        | None =>
            let project_id := _default_project_id owner in
            _ ← write_projects (tbl_upsert (is_project project_id)
                  (mk_project project_id (Some owner) "Private Default" None true ts ts None)
                  (set_project_default ts));
            mret project_id
        end;
      _ ← _upsert_project_membership project_id owner PROJECT_ROLE_ADMIN;
      mret project_id
  end.

Definition _get_project_row (project_id : string) : DB (option project) :=
  query (λ d, tbl_find (λ p, is_project project_id p && null (p_archived_at p)) (projects d)).

Definition ensure_default_project (owner_id : option string) : DB project :=
  owner ← match owner_id with
    | Some o => o' ← lift (_validate_owner_id o); mret (Some o')
    | None => mret None end;
  row ← transaction (project_id ← _ensure_default_project owner; _get_project_row project_id);
  written "default project could not be resolved" row.

Definition create_project (project_id owner_id : string) (name description : option string)
    (is_default : bool) : DB project :=
  project ← lift (_validate_project_id project_id);
  owner ← lift (_validate_owner_id owner_id);
  row ← transaction (
    _ ← ensure_user owner;
    let new := mk_project project (Some owner) (or_default project name) description is_default
                 ts ts None in
    _ ← write_projects (tbl_upsert (is_project project) new (set_project_upserted new ts));
    _ ← _upsert_project_membership project owner PROJECT_ROLE_ADMIN;
    _get_project_row project);
  written "project could not be created" row.

Definition add_project_member (project_id user_id role : string) : DB unit :=
  project ← lift (_validate_project_id project_id);
  user ← lift (_validate_owner_id user_id);
  normalized_role ← lift (_validate_project_role role);
  transaction (
    _ ← ensure_user user;
    _upsert_project_membership project user normalized_role).

(** the unarchived project of a membership, as the JOIN finds it *)
Definition live_project (d : AuthDb) (project_id : string) : bool :=
  existsb (λ p, is_project project_id p && null (p_archived_at p)) (projects d).

Definition role_rank (role : string) : result Z :=
  from_option_err (KeyError role) (dict_get role PROJECT_ROLE_ORDER).

Definition project_has_role (project_id : string) (user_id : option string) (role : string) : DB bool :=
  project ← lift (_validate_project_id project_id);
  required ← lift (_validate_project_role role);
  match user_id with
  | None => mret (String.eqb project LOCAL_DEFAULT_PROJECT_ID)
  | Some u =>
      user ← lift (_validate_owner_id u);
      row ← query (λ d, tbl_find (λ m, is_membership project user m && live_project d (pm_project_id m))
                          (project_memberships d));
      match row with
      | None => mret false
      | Some m => held ← lift (role_rank (pm_role m)); needed ← lift (role_rank required);
                  mret (Z.leb needed held)
      end
  end.

(** [ORDER BY is_default DESC, name ASC] *)
Definition project_order (a b : project) : bool :=
  match p_is_default a, p_is_default b with
  | true, false => true
  | false, true => false
  | _, _ => String.leb (p_name a) (p_name b)
  end.
(** Each project with the role of the membership it is listed by. *)
Definition list_projects (user_id : option string) : DB (list (project * option string)) :=
  match user_id with
  | None =>
      rows ← query (λ d, sort_by project_order
        (tbl_select (λ p, is_project LOCAL_DEFAULT_PROJECT_ID p && null (p_archived_at p)) (projects d)));
      mret ((λ p, (p, None)) <$> rows)
  | Some u =>
      user ← lift (_validate_owner_id u);
      query (λ d, sort_by (λ a b, project_order a.1 b.1)
        (p ← tbl_select (λ p, null (p_archived_at p)) (projects d);
         m ← tbl_select (is_membership (p_id p) user) (project_memberships d);
         [(p, Some (pm_role m))]))
  end.

(** Each membership with the user's display name, [ORDER BY role, user_id]. *)
Definition list_project_members (project_id : string) : DB (list (membership * option string)) :=
  project ← lift (_validate_project_id project_id);
  query (λ d, sort_by (λ a b,
      match String.compare (pm_role a.1) (pm_role b.1) with
      | Lt => true | Gt => false | Eq => String.leb (pm_user_id a.1) (pm_user_id b.1) end)
    (m ← tbl_select (λ m, String.eqb (pm_project_id m) project && live_project d project)
           (project_memberships d);
     u ← tbl_select (is_user (pm_user_id m)) (users d);
     [(m, u_display_name u)])).

(** ** Users and bearer tokens *)

Definition list_users : DB (list user_info) :=
  rows ← query (λ d, sort_by (λ a b, String.leb (u_id a) (u_id b)) (users d));
  mret (_user_from_row <$> rows).

Definition create_user (user_id : string) (display_name : option string) : DB user_info :=
  owner ← lift (_validate_owner_id user_id);
  row ← transaction (
    _ ← exec (on_users (λ t, tbl_upsert (is_user owner) (mk_user owner display_name ts None)
          (λ u, set_user_enabled (coalesce display_name (u_display_name u)) u) t));
    _ ← _ensure_default_project (Some owner);
    query (λ d, tbl_find (is_user owner) (users d)));
  u ← written "user could not be created" row;
  mret (_user_from_row u).

Definition is_token (h : string) (t : auth_token) : bool := String.eqb (at_token_hash t) h.

(** The upsert on [token_hash], refused by [idx_auth_tokens_token_id]. *)
Definition write_tokens (f : list auth_token → list auth_token) : DB unit :=
  exec_r (λ d, if tokens_unique (f (auth_tokens d)) then Ok (on_tokens f d)
               else Raise (IntegrityError "UNIQUE constraint failed: auth_tokens.token_id")).

Definition create_auth_token (owner_id token : string)
    (display_name token_display_name expires_at : option string) (scopes : option (list string))
    (new_token_id : string) : DB token_info :=
  owner ← lift (_validate_owner_id owner_id);
  token_hash ← lift (_hash_bearer_token token);
  jti ← lift (_token_id_from_bearer_token token);
  let token_id := default new_token_id jti in
  scopes' ← lift (_normalize_token_scopes scopes);
  row ← transaction (
    _ ← upsert_user owner display_name;
    _ ← _ensure_default_project (Some owner);
    let new := mk_auth_token token_hash (Some token_id) owner token_display_name
                 (Some (_token_prefix token)) (Some (scopes_json scopes')) ts None expires_at None in
    _ ← write_tokens (tbl_upsert (is_token token_hash) new (set_token_reissued new));
    r ← query (λ d, tbl_find (is_token token_hash) (auth_tokens d));
    mret r);
  t ← written "auth token could not be created" row;
  lift (_token_from_row t).

(** [expires_at > CURRENT_TIMESTAMP], a comparison of two texts *)
Definition unexpired (expires_at : string) : bool := text_gt expires_at ts.

Definition token_live (d : AuthDb) (h : string) (t : auth_token) : bool :=
  is_token h t && null (at_revoked_at t)
  && existsb (λ u, is_user (at_owner_id t) u && null (u_disabled_at u)) (users d)
  && match at_expires_at t with None => true | Some e => unexpired e end.

Definition auth_context_for_token (token : string) : DB (option auth_context) :=
  token_hash ← lift (_hash_bearer_token token);
  row ← transaction (
    row ← query (λ d, tbl_find (token_live d token_hash) (auth_tokens d));
    match row with
    | Some t => _ ← exec (on_tokens (tbl_update (is_token token_hash) (set_token_used ts))); mret (Some t)
    | None => mret None
    end);
  match row with
  | None => mret None
  | Some t => scopes ← lift (_parse_token_scopes (at_scopes t));
              mret (Some (mk_auth_context (at_owner_id t) (at_token_id t) scopes))
  end.

Definition owner_for_token (token : string) : DB (option string) :=
  context ← auth_context_for_token token;
  mret (cx_owner_id <$> context).

Definition list_auth_tokens (owner_id : string) : DB (list token_info) :=
  owner ← lift (_validate_owner_id owner_id);
  rows ← query (λ d, sort_by (λ a b,
      match String.compare (at_created_at a) (at_created_at b) with
      | Gt => true | Lt => false
      | Eq => match at_token_id a, at_token_id b with
              | None, _ => true | Some _, None => false
              | Some x, Some y => String.leb x y end
      end) (tbl_select (λ t, String.eqb (at_owner_id t) owner) (auth_tokens d)));
  lift (map_result _token_from_row rows).

Definition revoke_auth_token (token_id : string) : DB (option token_info) :=
  handle ← lift (_validate_token_lookup token_id);
  row ← transaction (
    row ← query (λ d, tbl_find (λ t, opt_is handle (at_token_id t)) (auth_tokens d));
    match row with
    | None => mret None
    | Some t =>
        _ ← exec (on_tokens (tbl_update (is_token (at_token_hash t)) (set_token_revoked ts)));
        query (λ d, tbl_find (is_token (at_token_hash t)) (auth_tokens d))
    end);
  lift (one_row _token_from_row row).

(** ** OAuth identities and web sessions *)

Definition is_identity (p s : string) (i : oauth_identity) : bool :=
  String.eqb (oi_provider i) p && String.eqb (oi_provider_subject i) s.

(** [a or b] on optional texts *)
Definition str_or (a b : option string) : option string :=
  match a with Some s => if String.eqb s "" then b else a | None => b end.

Definition find_or_create_oauth_identity (provider provider_subject : string)
    (user_id username email display_name : option string) : DB oauth_identity :=
  provider_name ← lift (_validate_oauth_provider provider);
  subject ← lift (_validate_oauth_subject provider_subject);
  let normalized_email := _normalize_email email in
  owner_id ← match user_id with
    | Some u => lift (_validate_owner_id u)
    | None => mret (_oauth_user_id provider_name subject) end;
  row ← transaction (
    _ ← upsert_user owner_id (str_or (str_or display_name username) normalized_email);
    _ ← _ensure_default_project (Some owner_id);
    let new := mk_oauth_identity provider_name subject owner_id username normalized_email
                 display_name ts ts in
    _ ← exec (on_identities (tbl_upsert (is_identity provider_name subject) new (set_identity_login new ts)));
    query (λ d, tbl_find (is_identity provider_name subject) (oauth_identities d)));
  written "oauth identity could not be created" row.

Definition is_session (h : string) (s : web_session) : bool := String.eqb (ws_session_id_hash s) h.

Definition create_web_session (session_id_hash user_id csrf_token_hash expires_at : string) : DB web_session :=
  session_hash ← lift (_validate_secret_hash session_id_hash "session_id_hash");
  csrf_hash ← lift (_validate_secret_hash csrf_token_hash "csrf_token_hash");
  owner ← lift (_validate_owner_id user_id);
  row ← transaction (
    let new := mk_web_session session_hash owner csrf_hash ts ts expires_at None in
    _ ← exec (on_sessions (tbl_upsert (is_session session_hash) new (set_session_renewed new)));
    query (λ d, tbl_find (is_session session_hash) (web_sessions d)));
  written "web session could not be created" row.

Definition web_session_for_hash (session_id_hash : string) : DB (option web_session) :=
  session_hash ← lift (_validate_secret_hash session_id_hash "session_id_hash");
  transaction (
    row ← query (λ d, tbl_find (λ s, is_session session_hash s && null (ws_revoked_at s)
                                     && unexpired (ws_expires_at s)) (web_sessions d));
    match row with
    | Some s => _ ← exec (on_sessions (tbl_update (is_session session_hash) (set_session_seen ts)));
                mret (Some s)
    | None => mret None
    end).

Definition revoke_web_session (session_id_hash : string) : DB bool :=
  session_hash ← lift (_validate_secret_hash session_id_hash "session_id_hash");
  transaction (
    let p s := is_session session_hash s && null (ws_revoked_at s) in
    count ← query (λ d, tbl_count p (web_sessions d));
    _ ← exec (on_sessions (tbl_update p (set_session_revoked ts)));
    mret (Z.ltb 0 count)).
End store.
