(* ===== verification/OAuthStore.v ===== *)
(** * The OAuth records of the SQLite store

    Dynamic clients, authorization codes, provider states and refresh tokens
    with their families: the single-use and revocation machinery behind the
    token endpoint. *)
From Stdlib Require Import ZArith Lia.
From S2P Require Import Prelude PyStr Json Hash Clock Identity AuthDb AuthStore.
Local Open Scope Z_scope.

(** What redeeming an authorization code returns. *)
Record code_info := mk_code_info {
  co_client_id : string; co_owner_id : string; co_redirect_uri : string; co_challenge : string;
  co_resource : string; co_scope : string; co_created_at : string; co_expires_at : string }.
Definition code_from_row (c : auth_code) : code_info :=
  mk_code_info (ac_client_id c) (ac_owner_id c) (ac_redirect_uri c) (ac_challenge c)
    (ac_resource c) (ac_scope c) (ac_created_at c) (ac_expires_at c).

Section oauth_store.
Context `{HashLib} `{Environ}.
Variable now : instant.
Notation ts := (sql_timestamp now).
Notation DB := (M AuthDb).

(** ** Dynamic clients *)

Definition is_client (c : string) (r : oauth_client_row) : bool := String.eqb (oc_client_id r) c.
Definition client_active (r : oauth_client_row) : bool :=
  null (oc_revoked_at r) && unexpired now (oc_expires_at r).

Definition create_oauth_client (client_id client_name : string) (redirect_uris : list string)
    (expires_at : string) (max_active_clients : Z) : DB client_info :=
  handle ← lift (_validate_token_lookup client_id);
  let uris_json := json_dumps_ascii (VList (map VStr redirect_uris)) in
  row ← transaction (
    active_count ← query (λ d, tbl_count client_active (oauth_clients d));
    _ ← lift (guard_err (max_active_clients <=? active_count)
                (OAuthClientQuotaExceeded "active OAuth client quota exceeded"));
    let new := mk_oauth_client_row handle (or_default "MCP client" (Some client_name)) uris_json
                 ts expires_at None in
    _ ← exec (on_clients (tbl_upsert (is_client handle) new (set_client_registered new)));
    query (λ d, tbl_find (is_client handle) (oauth_clients d)));
  c ← written "oauth client could not be created" row;
  lift (_oauth_client_from_row c).

Definition oauth_client (client_id : string) : DB (option client_info) :=
  handle ← lift (_validate_token_lookup client_id);
  row ← query (λ d, tbl_find (λ c, is_client handle c && client_active c) (oauth_clients d));
  lift (one_row _oauth_client_from_row row).

(** ** Authorization codes *)

Definition is_code (h : string) (c : auth_code) : bool := String.eqb (ac_hash c) h.

Definition create_oauth_authorization_code (code client_id owner_id redirect_uri code_challenge
    resource scope expires_at : string) : DB unit :=
  code_hash ← lift (_hash_bearer_token code);
  client ← lift (_validate_token_lookup client_id);
  owner ← lift (_validate_owner_id owner_id);
  transaction (exec_r (λ d,
    t ← tbl_insert (is_code code_hash)
          (mk_auth_code code_hash client owner redirect_uri code_challenge resource scope ts
             expires_at None)
          "UNIQUE constraint failed: oauth_authorization_codes.code_hash"
          (oauth_authorization_codes d);
    Ok (on_codes (λ _, t) d))).

(** the WHERE clause of the redeeming UPDATE *)
Definition code_matches (code_hash client_id redirect_uri code_challenge : string) (c : auth_code) : bool :=
  is_code code_hash c && String.eqb (ac_client_id c) client_id
  && String.eqb (ac_redirect_uri c) redirect_uri && String.eqb (ac_challenge c) code_challenge
  && null (ac_consumed_at c) && unexpired now (ac_expires_at c).

Definition consume_oauth_authorization_code (code client_id redirect_uri code_challenge : string)
    : DB (option code_info) :=
  code_hash ← lift (_hash_bearer_token code);
  transaction (
    let p := code_matches code_hash client_id redirect_uri code_challenge in
    row ← query (λ d, tbl_find p (oauth_authorization_codes d));
    _ ← exec (on_codes (tbl_update p (set_code_consumed ts)));
    mret (code_from_row <$> row)).

(** ** Provider states *)

Definition is_state (h : string) (s : provider_state) : bool := String.eqb (ps_hash s) h.
Definition state_active (s : provider_state) : bool :=
  null (ps_consumed_at s) && unexpired now (ps_expires_at s).
Definition state_stale (s : provider_state) : bool :=
  negb (null (ps_consumed_at s)) || negb (unexpired now (ps_expires_at s)).

Definition create_oauth_provider_state (state provider browser_session_id nonce code_verifier : string)
    (state_data : dict) (expires_at : string) (max_active_states max_global_active_states : Z)
    : DB unit :=
  state_hash ← lift (_hash_oauth_ephemeral_secret state "state");
  browser_hash ← lift (_hash_oauth_ephemeral_secret browser_session_id "browser-session");
  let state_json := json_dumps_ascii (VDict state_data) in
  transaction (
    _ ← exec (on_states (tbl_delete state_stale));
    global_active_count ← query (λ d, tbl_count state_active (oauth_provider_states d));
    _ ← lift (guard_err (max_global_active_states <=? global_active_count)
          (OAuthProviderStateQuotaExceeded "global active OAuth provider state quota exceeded"));
    active_count ← query (λ d,
      tbl_count (λ s, String.eqb (ps_browser s) browser_hash && state_active s) (oauth_provider_states d));
    _ ← lift (guard_err (max_active_states <=? active_count)
          (OAuthProviderStateQuotaExceeded "active OAuth provider state quota exceeded"));
    exec_r (λ d,
      t ← tbl_insert (is_state state_hash)
            (mk_provider_state state_hash provider browser_hash nonce code_verifier state_json ts
               expires_at None)
            "UNIQUE constraint failed: oauth_provider_states.state_hash"
            (oauth_provider_states d);
      Ok (on_states (λ _, t) d))).

Definition state_matches (state_hash provider browser_hash : string) (s : provider_state) : bool :=
  is_state state_hash s && String.eqb (ps_provider s) provider
  && String.eqb (ps_browser s) browser_hash && state_active s.

Definition consume_oauth_provider_state (state provider browser_session_id : string) : DB (option dict) :=
  state_hash ← lift (_hash_oauth_ephemeral_secret state "state");
  browser_hash ← lift (_hash_oauth_ephemeral_secret browser_session_id "browser-session");
  row ← transaction (
    let p := state_matches state_hash provider browser_hash in
    row ← query (λ d, tbl_find p (oauth_provider_states d));
    _ ← exec (on_states (tbl_update p (set_state_consumed ts)));
    mret row);
  match row with
  | None => mret None
  | Some s =>
      state_data ← lift (json_loads (ps_data s));
      match state_data with
      | VDict data => mret (Some (dict_update data
          [("nonce", VStr (ps_nonce s)); ("code_verifier", VStr (ps_verifier s));
           ("created_at", VStr (ps_created_at s)); ("expires_at", VStr (ps_expires_at s))]))
      | _ => mret None
      end
  end.

(** ** Refresh tokens and their families *)

Definition is_refresh (h : string) (r : refresh_token) : bool := String.eqb (rt_hash r) h.
Definition in_family (f : string) (r : refresh_token) : bool := String.eqb (rt_family r) f.
Definition is_family (f : string) (r : refresh_family) : bool := String.eqb (rf_family r) f.
Definition has_token_id (i : string) (t : auth_token) : bool := opt_is i (at_token_id t).
(** [token_id IN (SELECT access_token_id ... WHERE p AND access_token_id IS NOT NULL)] *)
Definition linked (p : refresh_token → bool) (d : AuthDb) (t : auth_token) : bool :=
  existsb (λ r, p r && match rt_access_token_id r with Some i => has_token_id i t | None => false end)
    (oauth_refresh_tokens d).

Definition create_oauth_refresh_token (refresh token_family_id client_id owner_id : string)
    (scopes : list string) (resource : string) (access_token_id : option string) (expires_at : string)
    : DB refresh_info :=
  token_hash ← lift (_hash_bearer_token refresh);
  family_id ← lift (_validate_token_lookup token_family_id);
  client ← lift (_validate_token_lookup client_id);
  owner ← lift (_validate_owner_id owner_id);
  scopes' ← lift (_normalize_token_scopes (Some scopes));
  row ← transaction (
    _ ← ensure_user now owner;
    _ ← _ensure_default_project now (Some owner);
    family_revoked ← query (λ d, existsb (is_family family_id) (oauth_refresh_token_families d));
    _ ← exec_r (λ d,
      t ← tbl_insert (is_refresh token_hash)
            (mk_refresh_token token_hash family_id client owner (scopes_json scopes') resource
               access_token_id ts expires_at None
               (if family_revoked then Some (isoformat now) else None))
            "UNIQUE constraint failed: oauth_refresh_tokens.refresh_token_hash"
            (oauth_refresh_tokens d);
      Ok (on_refresh (λ _, t) d));
    _ ← match access_token_id with
        | Some i => if family_revoked && negb (String.eqb i "")
                    then exec (on_tokens (tbl_update (has_token_id i) (set_token_revoked ts)))
                    else mret tt
        | None => mret tt end;
    query (λ d, tbl_find (is_refresh token_hash) (oauth_refresh_tokens d)));
  r ← written "oauth refresh token could not be created" row;
  lift (_oauth_refresh_token_from_row r).

Definition oauth_refresh_token (refresh : string) : DB (option refresh_info) :=
  token_hash ← lift (_hash_bearer_token refresh);
  row ← query (λ d, tbl_find (is_refresh token_hash) (oauth_refresh_tokens d));
  lift (one_row _oauth_refresh_token_from_row row).

(** the WHERE clause of the consuming UPDATE *)
Definition refresh_live (token_hash : string) (r : refresh_token) : bool :=
  is_refresh token_hash r && null (rt_consumed_at r) && null (rt_revoked_at r)
  && unexpired now (rt_expires_at r).

Definition consume_oauth_refresh_token (refresh : string) : DB (option refresh_info) :=
  token_hash ← lift (_hash_bearer_token refresh);
  row ← transaction (
    let p := refresh_live token_hash in
    row ← query (λ d, tbl_find p (oauth_refresh_tokens d));
    _ ← exec (on_refresh (tbl_update p (set_refresh_consumed ts)));
    mret (set_refresh_consumed ts <$> row));
  lift (one_row _oauth_refresh_token_from_row row).

Definition revoke_oauth_refresh_token_family (token_family_id : string) : DB bool :=
  family_id ← lift (_validate_token_lookup token_family_id);
  transaction (
    _ ← exec (on_families (tbl_insert_ignore (is_family family_id) (mk_refresh_family family_id ts)));
    _ ← exec (λ d, on_tokens (tbl_update (linked (in_family family_id) d) (set_token_revoked ts)) d);
    let p r := in_family family_id r && null (rt_revoked_at r) in
    count ← query (λ d, tbl_count p (oauth_refresh_tokens d));
    _ ← exec (on_refresh (tbl_update p (set_refresh_revoked ts)));
    mret (0 <? count)).

(** the refresh tokens issued with an access token, and the families they are in *)
Definition issued_with (i : string) (r : refresh_token) : bool := opt_is i (rt_access_token_id r).
Definition family_issued_with (i : string) (d : AuthDb) (r : refresh_token) : bool :=
  existsb (λ r', issued_with i r' && in_family (rt_family r') r) (oauth_refresh_tokens d).

Definition revoke_oauth_authorization_for_access_token (access_token : string) : DB bool :=
  token_hash ← lift (_hash_bearer_token access_token);
  transaction (
    row ← query (λ d, tbl_find (is_token token_hash) (auth_tokens d));
    match row with
    | None => mret false
    | Some t =>
        let token_id := default "None" (at_token_id t) in
        family ← query (λ d, tbl_find (issued_with token_id) (oauth_refresh_tokens d));
        match family with
        | None => mret false
        | Some _ =>
            _ ← exec (on_tokens (tbl_update (λ t, is_token token_hash t && null (at_revoked_at t))
                                   (set_token_revoked ts)));
            _ ← exec (λ d, on_tokens (tbl_update
                  (λ t, linked (family_issued_with token_id d) d t && null (at_revoked_at t))
                  (set_token_revoked ts)) d);
            _ ← exec (λ d, on_refresh (tbl_update
                  (λ r, family_issued_with token_id d r && null (rt_revoked_at r))
                  (set_refresh_revoked ts)) d);
            mret true
        end
    end).

Definition revoke_oauth_refresh_token (refresh : string) : DB bool :=
  record ← oauth_refresh_token refresh;
  match record with
  | None => mret false
  | Some r => revoke_oauth_refresh_token_family (ri_family r)
  end.
End oauth_store.
