(* ===== verification/AuthSystem.v ===== *)
(** * The identity store as a transition system

    Every writing operation of the identity and OAuth tables is a transition of
    [AuthDb]; a history is a sequence of them, each at its own instant, and the
    reachable databases are those of the histories of the empty one.  The
    invariant [auth_inv] (unique keys, one default project per owner, revoked
    refresh families closed) holds in all of them. *)
From Stdlib Require Import ZArith Lia.
From S2P Require Import Prelude PyStr Json Hash Clock Identity AuthDb AuthStore OAuthStore.

Inductive auth_op :=
| OpEnsureProject (owner : option string)
| OpCreateProject (id owner : string) (name description : option string) (is_default : bool)
| OpAddMember (project user role : string)
| OpCreateUser (user : string) (name : option string)
| OpCreateToken (owner token : string) (name token_name expires : option string)
    (scopes : option (list string)) (fresh : string)
| OpUseToken (token : string)
| OpRevokeToken (token_id : string)
| OpIdentity (provider subject : string) (user username email name : option string)
| OpCreateSession (session user csrf expires : string)
| OpUseSession (session : string)
| OpRevokeSession (session : string)
| OpCreateClient (id name : string) (uris : list string) (expires : string) (quota : Z)
| OpCreateCode (code client owner uri challenge resource scope expires : string)
| OpConsumeCode (code client uri challenge : string)
| OpCreateState (state provider browser nonce verifier : string) (data : dict) (expires : string)
    (quota global_quota : Z)
| OpConsumeState (state provider browser : string)
| OpCreateRefresh (refresh family client owner : string) (scopes : list string) (resource : string)
    (access : option string) (expires : string)
| OpConsumeRefresh (refresh : string)
| OpRevokeFamily (family : string)
| OpRevokeAuthorization (access : string)
| OpRevokeRefresh (refresh : string).

Section system.
Context `{HashLib} `{Environ}.

(** The database an operation leaves, whether it returned or raised. *)
Definition op_step (now : instant) (o : auth_op) (d : AuthDb) : AuthDb :=
  match o with
  | OpEnsureProject a => (ensure_default_project now a d).2
  | OpCreateProject a b c e g => (create_project now a b c e g d).2
  | OpAddMember a b c => (add_project_member now a b c d).2
  | OpCreateUser a b => (create_user now a b d).2
  | OpCreateToken a b c e g h i => (create_auth_token now a b c e g h i d).2
  | OpUseToken a => (auth_context_for_token now a d).2
  | OpRevokeToken a => (revoke_auth_token now a d).2
  | OpIdentity a b c e g h => (find_or_create_oauth_identity now a b c e g h d).2
  | OpCreateSession a b c e => (create_web_session now a b c e d).2
  | OpUseSession a => (web_session_for_hash now a d).2
  | OpRevokeSession a => (revoke_web_session now a d).2
  | OpCreateClient a b c e g => (create_oauth_client now a b c e g d).2
  | OpCreateCode a b c e g h i j => (create_oauth_authorization_code now a b c e g h i j d).2
  | OpConsumeCode a b c e => (consume_oauth_authorization_code now a b c e d).2
  | OpCreateState a b c e g h i j k => (create_oauth_provider_state now a b c e g h i j k d).2
  | OpConsumeState a b c => (consume_oauth_provider_state now a b c d).2
  | OpCreateRefresh a b c e g h i j => (create_oauth_refresh_token now a b c e g h i j d).2
  | OpConsumeRefresh a => (consume_oauth_refresh_token now a d).2
  | OpRevokeFamily a => (revoke_oauth_refresh_token_family now a d).2
  | OpRevokeAuthorization a => (revoke_oauth_authorization_for_access_token now a d).2
  | OpRevokeRefresh a => (revoke_oauth_refresh_token now a d).2
  end.

Inductive auth_step : AuthDb → AuthDb → Prop :=
| auth_step_op now o d : auth_step d (op_step now o d).
Definition auth_steps : AuthDb → AuthDb → Prop := rtc auth_step.
Definition reachable (d : AuthDb) : Prop := auth_steps empty_db d.

(** A preorder that every operation respects holds along every history. *)
Definition respected (R : AuthDb → AuthDb → Prop) : Prop := ∀ now o d, R d (op_step now o d).

Lemma respected_steps R `{!PreOrder R} d d' : respected R → auth_steps d d' → R d d'.
Proof.
  intros HR. induction 1 as [|d1 d2 d3 [now o d] _ IH]; [reflexivity|].
  etrans; [apply HR|done].
Qed.

(** ** The invariant *)

Definition membership_key (m : membership) : string * string := (pm_project_id m, pm_user_id m).
Definition identity_key (i : oauth_identity) : string * string := (oi_provider i, oi_provider_subject i).
Definition families_closed (fs : list refresh_family) (ts : list refresh_token) : Prop :=
  ∀ r, r ∈ ts → existsb (is_family (rt_family r)) fs = true → is_Some (rt_revoked_at r).

(** A refresh token's family identifier and scopes column are as validation and
    normalisation leave them. *)
Definition refresh_row_ok (r : refresh_token) : Prop :=
  _validate_token_lookup (rt_family r) = Ok (rt_family r) ∧
  _validate_token_lookup (rt_client_id r) = Ok (rt_client_id r) ∧
  _validate_owner_id (rt_owner_id r) = Ok (rt_owner_id r) ∧
  ∃ sc, _normalize_token_scopes (Some sc) = Ok sc ∧ rt_scopes r = scopes_json sc.
Definition role_ok (m : membership) : Prop := dict_has (pm_role m) PROJECT_ROLE_ORDER = true.
Definition enabled (u : user) : Prop := u_disabled_at u = None.

Record auth_inv (d : AuthDb) : Prop := mk_auth_inv {
  inv_users : unique_key u_id (users d);
  inv_enabled : Forall enabled (users d);
  inv_tokens : unique_key at_token_hash (auth_tokens d);
  inv_token_ids : NoDup (omap at_token_id (auth_tokens d));
  inv_identities : unique_key identity_key (oauth_identities d);
  inv_sessions : unique_key ws_session_id_hash (web_sessions d);
  inv_clients : unique_key oc_client_id (oauth_clients d);
  inv_refresh : unique_key rt_hash (oauth_refresh_tokens d);
  inv_refresh_rows : Forall refresh_row_ok (oauth_refresh_tokens d);
  inv_families : unique_key rf_family (oauth_refresh_token_families d);
  inv_codes : unique_key ac_hash (oauth_authorization_codes d);
  inv_states : unique_key ps_hash (oauth_provider_states d);
  inv_projects : unique_key p_id (projects d);
  inv_defaults : NoDup (map p_owner_id (List.filter p_is_default (projects d)));
  inv_memberships : unique_key membership_key (project_memberships d);
  inv_roles : Forall role_ok (project_memberships d);
  inv_closed : families_closed (oauth_refresh_token_families d) (oauth_refresh_tokens d) }.

Lemma empty_inv : auth_inv empty_db.
Proof. constructor; try apply NoDup_nil_2; [by constructor..|]. by intros r ?%not_elem_of_nil. Qed.

Ltac inv_table := intros [] [] **; constructor; cbn in *; auto.

Lemma on_users_inv f d : auth_inv d → unique_key u_id (f (users d)) → Forall enabled (f (users d)) →
  auth_inv (on_users f d).
Proof. revert d; inv_table. Qed.
Lemma on_tokens_inv f d : auth_inv d → unique_key at_token_hash (f (auth_tokens d)) →
  NoDup (omap at_token_id (f (auth_tokens d))) → auth_inv (on_tokens f d).
Proof. revert d; inv_table. Qed.
Lemma on_identities_inv f d : auth_inv d → unique_key identity_key (f (oauth_identities d)) →
  auth_inv (on_identities f d).
Proof. revert d; inv_table. Qed.
Lemma on_sessions_inv f d : auth_inv d → unique_key ws_session_id_hash (f (web_sessions d)) →
  auth_inv (on_sessions f d).
Proof. revert d; inv_table. Qed.
Lemma on_clients_inv f d : auth_inv d → unique_key oc_client_id (f (oauth_clients d)) →
  auth_inv (on_clients f d).
Proof. revert d; inv_table. Qed.
Lemma on_refresh_inv f d : auth_inv d → unique_key rt_hash (f (oauth_refresh_tokens d)) →
  Forall refresh_row_ok (f (oauth_refresh_tokens d)) →
  families_closed (oauth_refresh_token_families d) (f (oauth_refresh_tokens d)) →
  auth_inv (on_refresh f d).
Proof. revert d; inv_table. Qed.
Lemma on_codes_inv f d : auth_inv d → unique_key ac_hash (f (oauth_authorization_codes d)) →
  auth_inv (on_codes f d).
Proof. revert d; inv_table. Qed.
Lemma on_states_inv f d : auth_inv d → unique_key ps_hash (f (oauth_provider_states d)) →
  auth_inv (on_states f d).
Proof. revert d; inv_table. Qed.
Lemma on_projects_inv f d : auth_inv d → unique_key p_id (f (projects d)) →
  NoDup (map p_owner_id (List.filter p_is_default (f (projects d)))) → auth_inv (on_projects f d).
Proof. revert d; inv_table. Qed.
Lemma on_memberships_inv f d : auth_inv d → unique_key membership_key (f (project_memberships d)) →
  Forall role_ok (f (project_memberships d)) → auth_inv (on_memberships f d).
Proof. revert d; inv_table. Qed.

Lemma omap_update {R} (g : R → option string) p f (t : list R) :
  (∀ r, g (f r) = g r) → omap g (tbl_update p f t) = omap g t.
Proof.
  intros Hf. unfold tbl_update. induction t as [|r t IH]; cbn; [done|].
  rewrite IH. by destruct (p r); rewrite ?Hf.
Qed.
(** The tables the user and project bookkeeping of an operation leaves alone. *)
Definition oauth_tables (d : AuthDb) :=
  (auth_tokens d, oauth_refresh_tokens d, oauth_refresh_token_families d,
   oauth_authorization_codes d, oauth_provider_states d, oauth_clients d, web_sessions d,
   oauth_identities d).
Lemma ensure_user_frame now o : moves (same oauth_tables) (ensure_user now o).
Proof. unfold ensure_user. walk. by destruct s. Qed.
Lemma upsert_user_frame now o n : moves (same oauth_tables) (upsert_user now o n).
Proof. unfold upsert_user. walk. by destruct s. Qed.
Lemma ensure_default_frame now o : moves (same oauth_tables) (_ensure_default_project now o).
Proof.
  unfold _ensure_default_project, ensure_user, write_projects, _upsert_project_membership. walk;
    repeat (case_match; simplify_eq); match goal with |- same _ ?s _ => by destruct s end.
Qed.

(** ** Every operation is a sequence of these statements *)

Inductive statement : AuthDb → AuthDb → Prop :=
| st_users f d : (unique_key u_id (users d) → unique_key u_id (f (users d))) →
    (Forall enabled (users d) → Forall enabled (f (users d))) →
    statement d (on_users f d)
| st_identities f d :
    (unique_key identity_key (oauth_identities d) → unique_key identity_key (f (oauth_identities d))) →
    statement d (on_identities f d)
| st_sessions f d :
    (unique_key ws_session_id_hash (web_sessions d) → unique_key ws_session_id_hash (f (web_sessions d))) →
    statement d (on_sessions f d)
| st_clients f d :
    (unique_key oc_client_id (oauth_clients d) → unique_key oc_client_id (f (oauth_clients d))) →
    statement d (on_clients f d)
| st_memberships f d :
    (unique_key membership_key (project_memberships d) →
     unique_key membership_key (f (project_memberships d))) →
    (Forall role_ok (project_memberships d) → Forall role_ok (f (project_memberships d))) →
    statement d (on_memberships f d)
| st_states f d :
    (unique_key ps_hash (oauth_provider_states d) → unique_key ps_hash (f (oauth_provider_states d))) →
    statement d (on_states f d)
| st_projects f d : (unique_key p_id (projects d) → unique_key p_id (f (projects d))) →
    projects_unique (f (projects d)) = true → statement d (on_projects f d)
| st_token_issue new d :
    tokens_unique (tbl_upsert (is_token (at_token_hash new)) new (set_token_reissued new) (auth_tokens d)) = true →
    statement d (on_tokens (tbl_upsert (is_token (at_token_hash new)) new (set_token_reissued new)) d)
| st_token_used p ts d : statement d (on_tokens (tbl_update p (set_token_used ts)) d)
| st_token_revoke p ts d : statement d (on_tokens (tbl_update p (set_token_revoked ts)) d)
| st_code_insert c d : existsb (is_code (ac_hash c)) (oauth_authorization_codes d) = false →
    statement d (on_codes (λ t, t ++ [c]) d)
| st_code_consume p ts d : statement d (on_codes (tbl_update p (set_code_consumed ts)) d)
| st_refresh_insert r d : existsb (is_refresh (rt_hash r)) (oauth_refresh_tokens d) = false →
    (existsb (is_family (rt_family r)) (oauth_refresh_token_families d) = true → is_Some (rt_revoked_at r)) →
    refresh_row_ok r → statement d (on_refresh (λ t, t ++ [r]) d)
| st_refresh_consume p ts d : statement d (on_refresh (tbl_update p (set_refresh_consumed ts)) d)
| st_refresh_revoke p ts d : statement d (on_refresh (tbl_update p (set_refresh_revoked ts)) d)
| st_family_revoke f ts d :
    statement d (on_refresh (tbl_update (λ r, in_family f r && null (rt_revoked_at r)) (set_refresh_revoked ts))
      (on_families (tbl_insert_ignore (is_family f) (mk_refresh_family f ts)) d)).
Definition statements : AuthDb → AuthDb → Prop := rtc statement.
#[export] Instance statements_preorder : PreOrder statements := rtc_po.

Lemma statement_run d d' : statement d d' → statements d d'.
Proof. apply rtc_once. Qed.
Lemma on_codes_const f d : on_codes (λ _, f (oauth_authorization_codes d)) d = on_codes f d.
Proof. by destruct d. Qed.
Lemma on_states_const f d : on_states (λ _, f (oauth_provider_states d)) d = on_states f d.
Proof. by destruct d. Qed.
Lemma on_refresh_const f d : on_refresh (λ _, f (oauth_refresh_tokens d)) d = on_refresh f d.
Proof. by destruct d. Qed.

(** The side conditions of the statements: the keys the writes keep. *)
Ltac keys :=
  first [ apply unique_upsert | apply unique_insert_ignore | apply unique_update | apply unique_delete ];
  try done; unfold is_user, is_project, is_membership, is_identity, is_session, is_client,
    membership_key, identity_key; cbn; intros ?; rewrite ?String.eqb_refl; intros;
  simplify_eq/=; rewrite ?andb_true_iff, ?String.eqb_eq; auto; try congruence.
Lemma enabled_insert_ignore p r t : enabled r → Forall enabled t → Forall enabled (tbl_insert_ignore p r t).
Proof. auto with hub. Qed.
Lemma enabled_upsert p r f t : enabled r → (∀ u, enabled u → enabled (f u)) → Forall enabled t →
  Forall enabled (tbl_upsert p r f t).
Proof.
  intros Hr Hf Ht. unfold tbl_upsert. case_match; [by apply Forall_tbl_update; auto|].
  apply Forall_app. auto.
Qed.
Ltac stmt := apply statement_run; first
  [ apply st_users; [keys | first [apply enabled_insert_ignore | apply enabled_upsert]; done]
  | constructor; keys | constructor; fail].

Section now.
Variable now : instant.

Lemma ensure_user_st o : moves statements (ensure_user now o).
Proof. unfold ensure_user. walk. stmt. Qed.
Lemma upsert_user_st o n : moves statements (upsert_user now o n).
Proof. unfold upsert_user. walk. stmt. Qed.
Lemma write_projects_st f :
  (∀ t, unique_key p_id t → unique_key p_id (f t)) → moves statements (write_projects f).
Proof.
  intros Hf. unfold write_projects. walk. case_match; simplify_eq. apply statement_run.
  constructor; auto.
Qed.
Lemma upsert_membership_st p u r :
  dict_has r PROJECT_ROLE_ORDER = true → moves statements (_upsert_project_membership now p u r).
Proof.
  intros Hr. unfold _upsert_project_membership. walk. apply statement_run, st_memberships; [keys|].
  intros Ht. unfold tbl_upsert. case_match; [by apply Forall_tbl_update|].
  apply Forall_app. split; [done|by repeat constructor].
Qed.
Lemma upsert_admin_st p u : moves statements (_upsert_project_membership now p u PROJECT_ROLE_ADMIN).
Proof. by apply upsert_membership_st. Qed.
#[local] Hint Resolve ensure_user_st upsert_user_st upsert_admin_st : moves.

Lemma ensure_default_st o : moves statements (_ensure_default_project now o).
Proof. unfold _ensure_default_project. walk; apply write_projects_st; intros; keys. Qed.
#[local] Hint Resolve ensure_default_st : moves.

Lemma ensure_default_project_st o : moves statements (ensure_default_project now o).
Proof. unfold ensure_default_project, _get_project_row, written. walk. Qed.
Lemma create_project_st a b c e g : moves statements (create_project now a b c e g).
Proof.
  unfold create_project, _get_project_row, written. walk. apply write_projects_st. intros. keys.
Qed.
Lemma add_project_member_st a b c : moves statements (add_project_member now a b c).
Proof.
  unfold add_project_member. do 2 (moves_step; [by walk|]).
  apply moves_checked; [apply _|]. intros r Hr. walk. apply upsert_membership_st.
  unfold _validate_project_role in Hr. destruct (dict_has _ _) eqn:E; by simplify_eq/=.
Qed.
Lemma create_user_st a b : moves statements (create_user now a b).
Proof. unfold create_user, written. walk. stmt. Qed.
Lemma create_auth_token_st a b c e g h i : moves statements (create_auth_token now a b c e g h i).
Proof.
  unfold create_auth_token, write_tokens, written. walk. case_match; simplify_eq.
  apply statement_run.
  by apply (st_token_issue (mk_auth_token _ _ _ _ _ _ _ _ _ _)).
Qed.
Lemma auth_context_st a : moves statements (auth_context_for_token now a).
Proof. unfold auth_context_for_token. walk. apply statement_run. constructor. Qed.
Lemma revoke_auth_token_st a : moves statements (revoke_auth_token now a).
Proof. unfold revoke_auth_token. walk. apply statement_run. constructor. Qed.
Lemma identity_st a b c e g h : moves statements (find_or_create_oauth_identity now a b c e g h).
Proof. unfold find_or_create_oauth_identity, written. walk. stmt. Qed.
Lemma create_session_st a b c e : moves statements (create_web_session now a b c e).
Proof. unfold create_web_session, written. walk. stmt. Qed.
Lemma use_session_st a : moves statements (web_session_for_hash now a).
Proof. unfold web_session_for_hash. walk. stmt. Qed.
Lemma revoke_session_st a : moves statements (revoke_web_session now a).
Proof. unfold revoke_web_session. walk. stmt. Qed.
Lemma create_client_st a b c e g : moves statements (create_oauth_client now a b c e g).
Proof. unfold create_oauth_client, written. walk. stmt. Qed.
Lemma create_code_st a b c e g h i j :
  moves statements (create_oauth_authorization_code now a b c e g h i j).
Proof.
  unfold create_oauth_authorization_code. walk. inv_ok.
  match goal with H : tbl_insert _ _ _ _ = _ |- _ => apply tbl_insert_Ok in H as [? ->] end.
  subst. rewrite (on_codes_const (λ t, t ++ _)). apply statement_run. by apply st_code_insert.
Qed.
Lemma consume_code_st a b c e : moves statements (consume_oauth_authorization_code now a b c e).
Proof. unfold consume_oauth_authorization_code. walk. stmt. Qed.
Lemma create_state_st a b c e g h i j k :
  moves statements (create_oauth_provider_state now a b c e g h i j k).
Proof.
  unfold create_oauth_provider_state. walk; [stmt|]. inv_ok.
  match goal with H : tbl_insert _ _ _ _ = _ |- _ => apply tbl_insert_Ok in H as [? ->] end.
  subst. rewrite (on_states_const (λ t, t ++ _)). apply statement_run. constructor.
  intros. eapply unique_snoc; [done| |done]. unfold is_state. cbn. intros ? ->. apply String.eqb_refl.
Qed.
Lemma consume_state_st a b c : moves statements (consume_oauth_provider_state now a b c).
Proof. unfold consume_oauth_provider_state. walk. stmt. Qed.
Lemma consume_refresh_st a : moves statements (consume_oauth_refresh_token now a).
Proof. unfold consume_oauth_refresh_token. walk. stmt. Qed.

(** What revoking a family writes, the reads of the transaction resolved. *)
Lemma revoke_family_run a f d :
  _validate_token_lookup a = Ok f →
  revoke_oauth_refresh_token_family now a d =
  (Ok (Z.ltb 0 (tbl_count (λ r, in_family f r && null (rt_revoked_at r)) (oauth_refresh_tokens d))),
   on_refresh (tbl_update (λ r, in_family f r && null (rt_revoked_at r)) (set_refresh_revoked (sql_timestamp now)))
     (on_tokens (tbl_update (linked (in_family f) d) (set_token_revoked (sql_timestamp now)))
        (on_families (tbl_insert_ignore (is_family f) (mk_refresh_family f (sql_timestamp now))) d))).
Proof.
  intros E. unfold revoke_oauth_refresh_token_family. rewrite E. by destruct d.
Qed.
Lemma revoke_family_st a : moves statements (revoke_oauth_refresh_token_family now a).
Proof.
  intros d. destruct (_validate_token_lookup a) as [f|e] eqn:E.
  - rewrite (revoke_family_run _ _ _ E). cbn [snd].
    trans (on_tokens (tbl_update (linked (in_family f) d) (set_token_revoked (sql_timestamp now))) d).
    + stmt.
    + apply statement_run.
      pose proof (st_family_revoke f (sql_timestamp now)
        (on_tokens (tbl_update (linked (in_family f) d) (set_token_revoked (sql_timestamp now))) d)) as Hs.
      by destruct d.
  - unfold revoke_oauth_refresh_token_family. rewrite E. reflexivity.
Qed.
Lemma revoke_authorization_st a : moves statements (revoke_oauth_authorization_for_access_token now a).
Proof. unfold revoke_oauth_authorization_for_access_token. walk; stmt. Qed.
Lemma oauth_refresh_token_st a : moves statements (oauth_refresh_token a).
Proof. unfold oauth_refresh_token. walk. Qed.
#[local] Hint Resolve oauth_refresh_token_st revoke_family_st : moves.
Lemma revoke_refresh_st a : moves statements (revoke_oauth_refresh_token now a).
Proof. unfold revoke_oauth_refresh_token. walk. Qed.
Lemma create_refresh_st a b c e g h i j :
  moves statements (create_oauth_refresh_token now a b c e g h i j).
Proof.
  unfold create_oauth_refresh_token, written. moves_step; [by walk|].
  apply moves_checked; [apply _|]. intros f Hf. apply moves_checked; [apply _|]. intros cl Hcl.
  apply moves_checked; [apply _|]. intros o Ho. apply moves_checked; [apply _|]. intros sc Hsc. moves_step; [|by walk]. moves_step.
  do 2 (moves_step; [by walk|]). apply moves_read. intros s.
  apply moves_bind_at; [apply _| |intros []; walk; stmt].
  unfold exec_r. case_match; cbn; [|reflexivity].
  destruct (tbl_insert _ _ _ _) as [t|] eqn:Ht; simplify_eq/=. apply tbl_insert_Ok in Ht as [Hk ->].
  rewrite (on_refresh_const (λ t, t ++ _)). apply statement_run, st_refresh_insert; [done| |].
  - cbn. intros ->. by eexists.
  - split; cbn; [by eapply _validate_token_lookup_idem|].
    split; [by eapply _validate_token_lookup_idem|]. split; [by eapply _validate_owner_id_idem|].
    exists sc. split; [|done].
    by eapply _normalize_token_scopes_idem.
Qed.

#[local] Hint Resolve ensure_default_project_st create_project_st add_project_member_st
  create_user_st create_auth_token_st auth_context_st revoke_auth_token_st identity_st
  create_session_st use_session_st revoke_session_st create_client_st create_code_st
  consume_code_st create_state_st consume_state_st consume_refresh_st revoke_authorization_st
  revoke_refresh_st create_refresh_st : moves.
Lemma op_statements o d : statements d (op_step now o d).
Proof.
  destruct o; cbn [op_step];
    match goal with |- statements _ (?m _).2 => assert (Hm : moves statements m) by auto with moves nocore end;
    apply Hm.
Qed.
End now.

Lemma statement_respected R `{!PreOrder R} :
  (∀ d d', statement d d' → R d d') → respected R.
Proof.
  intros HR now o d. induction (op_statements now o d); [reflexivity|].
  etrans; [by apply HR|done].
Qed.

(** ** The invariant holds in every reachable database *)

Lemma omap_snoc_NoDup (t : list auth_token) : tokens_unique t = true ↔ NoDup (omap at_token_id t).
Proof. apply bool_decide_eq_true. Qed.

Lemma closed_update fs p f ts :
  (∀ r, rt_family (f r) = rt_family r ∧ (is_Some (rt_revoked_at r) → is_Some (rt_revoked_at (f r)))) →
  families_closed fs ts → families_closed fs (tbl_update p f ts).
Proof.
  intros Hf Hc r. rewrite elem_of_tbl_update. intros (r0 & Hr0 & ->). specialize (Hc r0 Hr0).
  destruct (Hf r0) as [Hfam Hrev]. destruct (p r0); [|done]. rewrite Hfam. auto.
Qed.

Lemma statement_inv d d' : statement d d' → keeps auth_inv d d'.
Proof.
  intros [] Hi; try (pose proof (inv_users _ Hi); pose proof (inv_tokens _ Hi)).
  - apply on_users_inv; auto using inv_enabled.
  - apply on_identities_inv; auto using inv_identities.
  - apply on_sessions_inv; auto using inv_sessions.
  - apply on_clients_inv; auto using inv_clients.
  - apply on_memberships_inv; auto using inv_memberships, inv_roles.
  - apply on_states_inv; auto using inv_states.
  - apply on_projects_inv; auto using inv_projects. by apply bool_decide_eq_true_1 in H2.
  - apply on_tokens_inv; [done| |by apply bool_decide_eq_true_1 in H1].
    apply unique_upsert; [done| |done]. unfold is_token. intros ? ->. apply String.eqb_refl.
  - apply on_tokens_inv; [done|by apply unique_update|]. rewrite omap_update by done. apply Hi.
  - apply on_tokens_inv; [done|by apply unique_update|]. rewrite omap_update by done. apply Hi.
  - apply on_codes_inv; [done|]. eapply unique_snoc; [done| |apply Hi].
    unfold is_code. intros ? ->. apply String.eqb_refl.
  - apply on_codes_inv; [done|]. apply unique_update; [done|apply Hi].
  - apply on_refresh_inv; [done| | |].
    + eapply unique_snoc; [done| |apply Hi]. unfold is_refresh. intros ? ->. apply String.eqb_refl.
    + apply Forall_app. split; [apply Hi|]. by constructor; [|constructor].
    + intros r' [Hr'| ->%list_elem_of_singleton]%elem_of_app; [by apply Hi|done].
  - apply on_refresh_inv; [done|apply unique_update; [done|apply Hi]|by apply Forall_tbl_update; [apply Hi|]|].
    apply closed_update; [done|apply Hi].
  - apply on_refresh_inv; [done|apply unique_update; [done|apply Hi]|by apply Forall_tbl_update; [apply Hi|]|].
    apply closed_update; [by eexists|apply Hi].
  - destruct d0 as [a b c e g h i j k l m], Hi; constructor; cbn in *; auto.
    + by apply unique_update.
    + by apply Forall_tbl_update.
    + apply unique_insert_ignore; [|done]. unfold is_family. cbn. intros ? ->. apply String.eqb_refl.
    + intros r. rewrite elem_of_tbl_update. intros (r0 & Hr0 & ->).
      destruct (in_family f r0) eqn:Ef, (rt_revoked_at r0) eqn:Er; cbn; rewrite ?Er; try (intros; by eexists).
      intros Hfam. rewrite <-Er. apply (inv_closed0 r0 Hr0). revert Hfam. unfold tbl_insert_ignore.
      case_match; [done|]. rewrite existsb_app, orb_true_iff. intros [?|Hx]; [done|]. exfalso.
      unfold is_family in Hx. cbn in Hx. rewrite orb_false_r in Hx. unfold in_family in Ef.
      rewrite String.eqb_sym in Hx. congruence.
Qed.

Lemma op_inv : respected (keeps auth_inv).
Proof. apply statement_respected; [apply _|]. apply statement_inv. Qed.
Lemma reachable_inv d : reachable d → auth_inv d.
Proof. intros Hd. eapply (respected_steps (keeps auth_inv)); [apply op_inv|done|apply empty_inv]. Qed.
End system.
