(* ===== verification/Regex.v ===== *)
(** * Regular expressions (the part of Python's [re] the code uses)

    Patterns are written as in the source and parsed by [re_compile]; [outcomes]
    lists the ways an expression can match at a place in the order in which
    backtracking finds them, so the first one is the match Python reports.
    Characters are code points below 256, with the flag IGNORECASE as the only
    flag. *)
From Stdlib Require Import ZArith Lia Ascii.
From S2P Require Import Prelude PyStr.

(** ** Expressions *)

Inductive cls_item :=
| CRange (lo hi : ascii)
| CSpace (positive : bool) | CDigit (positive : bool) | CWord (positive : bool).
Inductive regex :=
| REps
| RCls (negated : bool) (items : list cls_item)
| RSeq (a b : regex) | RAlt (a b : regex)
| RRep (greedy : bool) (least : nat) (most : option nat) (a : regex)
| RGroup (name : string) (a : regex)
| RWordBoundary | RStart | REnd
| RLook (positive : bool) (a : regex)
| RLookBehind (positive negated : bool) (items : list cls_item).
Record pattern := mk_pattern { p_ignore_case : bool; p_regex : regex }.

(** [c.isalnum()] on the code points below 256, and [\w] *)
Definition is_alnum (c : ascii) : bool :=
  is_alnum_ascii c || (ord c =? 170)%Z || (ord c =? 181)%Z || (ord c =? 186)%Z
  || (ord c =? 178)%Z || (ord c =? 179)%Z || (ord c =? 185)%Z || char_in 188 190 c
  || (char_in 192 255 c && negb (ord c =? 215)%Z && negb (ord c =? 247)%Z).
Definition is_word (c : ascii) : bool := is_alnum c || Ascii.eqb c "_"%char.
(** [c.upper()] of a lower-case letter, when it is one code point below 256 *)
Definition upper_char (c : ascii) : ascii :=
  if is_lower_ascii c || (char_in 224 254 c && negb (ord c =? 247)%Z) then chr (ord c - 32) else c.

Definition item_match (c : ascii) (i : cls_item) : bool :=
  match i with
  | CRange lo hi => char_in (ord lo) (ord hi) c
  | CSpace p => Bool.eqb p (is_space c)
  | CDigit p => Bool.eqb p (is_decimal c)
  | CWord p => Bool.eqb p (is_word c)
  end.
Definition cls_match (ignore_case negated : bool) (items : list cls_item) (c : ascii) : bool :=
  let here c := existsb (item_match c) items in
  xorb negated (if ignore_case then here (lower_char c) || here (upper_char (lower_char c)) else here c).

(** ** Matching *)

(** A place in a text: what is before it, last character first, and after it,
    with the spans of the named groups matched so far. *)
Record place := mk_place { before : list ascii; after : list ascii; groups : list (string * (nat * nat)) }.
Definition pos (s : place) : nat := length (before s).
Definition word_at (l : list ascii) : bool := match l with c :: _ => is_word c | [] => false end.

(** The iterations of a repetition.  After the least number of iterations one
    that consumes nothing is the last, so [fuel] beyond the least number and the
    length of the text is never used. *)
Fixpoint repeats (f : place → list place) (greedy : bool) (fuel least : nat) (most : option nat) (s : place) : list place :=
  match fuel with
  | O => []
  | S n =>
      let more :=
        match most with
        | Some O => []
        | _ => flat_map (λ s',
                 if Nat.eqb least 0 && Nat.eqb (pos s') (pos s) then [s']
                 else repeats f greedy n (Nat.pred least) (Nat.pred <$> most) s') (f s)
        end in
      if negb (Nat.eqb least 0) then more else if greedy then more ++ [s] else s :: more
  end.

Section matching.
Variable ignore_case : bool.

Fixpoint outcomes (r : regex) (s : place) : list place :=
  match r with
  | REps => [s]
  | RCls negated items =>
      match after s with
      | c :: rest => if cls_match ignore_case negated items c then [mk_place (c :: before s) rest (groups s)] else []
      | [] => []
      end
  | RSeq a b => flat_map (outcomes b) (outcomes a s)
  | RAlt a b => outcomes a s ++ outcomes b s
  | RRep greedy least most a =>
      repeats (outcomes a) greedy (S (least + length (after s))) least most s
  | RGroup name a =>
      map (λ e, mk_place (before e) (after e) ((name, (pos s, pos e)) :: groups e)) (outcomes a s)
  | RWordBoundary => if xorb (word_at (before s)) (word_at (after s)) then [s] else []
  | RStart => match before s with [] => [s] | _ => [] end
  | REnd => match after s with
            | [] => [s]
            | [c] => if (ord c =? 10)%Z then [s] else []
            | _ => [] end
  | RLook positive a =>
      if Bool.eqb positive (match outcomes a s with [] => false | _ => true end) then [s] else []
  | RLookBehind positive negated items =>
      if Bool.eqb positive (match before s with c :: _ => cls_match ignore_case negated items c | [] => false end)
      then [s] else []
  end.
End matching.

Record re_match := mk_match { m_start : nat; m_end : nat; m_groups : list (string * (nat * nat)) }.
Definition at_start (s : string) : place := mk_place [] (str_list s) [].
Definition found (start : nat) (e : place) : re_match := mk_match start (pos e) (groups e).

(** The first match at or after a place; [must] excludes an empty one there. *)
Fixpoint scan_from (p : pattern) (must : bool) (b a : list ascii) : option (nat * place) :=
  match List.find (λ e, negb (must && Nat.eqb (pos e) (length b)))
          (outcomes (p_ignore_case p) (p_regex p) (mk_place b a [])) with
  | Some e => Some (length b, e)
  | None => match a with
            | [] => None
            | c :: a' => scan_from p false (c :: b) a'
            end
  end.
(** [pattern.search(s)], [pattern.finditer(s)], [pattern.match(s)], [pattern.fullmatch(s)] *)
Definition re_search (p : pattern) (s : string) : option re_match :=
  '(i, e) ← scan_from p false [] (str_list s); Some (found i e).
(** Two matches never start at one place unless the first is empty, which
    bounds their number. *)
Fixpoint matches_from (fuel : nat) (p : pattern) (must : bool) (b a : list ascii) : list re_match :=
  match fuel with
  | O => []
  | S n => match scan_from p must b a with
           | Some (i, e) => found i e :: matches_from n p (Nat.eqb (pos e) i) (before e) (after e)
           | None => []
           end
  end.
Definition re_finditer (p : pattern) (s : string) : list re_match :=
  matches_from (2 * String.length s + 2) p false [] (str_list s).
Definition re_match_start (p : pattern) (s : string) : option re_match :=
  match outcomes (p_ignore_case p) (p_regex p) (at_start s) with e :: _ => Some (found 0 e) | [] => None end.
Definition re_fullmatch (p : pattern) (s : string) : option re_match :=
  e ← List.find (λ e, match after e with [] => true | _ => false end)
        (outcomes (p_ignore_case p) (p_regex p) (at_start s));
  Some (found 0 e).

(** [s[i:j]] *)
Definition slice (i j : nat) (s : string) : string := stake (j - i) (sdrop i s).
(** [match.group(0)], [match.group(name)] *)
Definition group0 (s : string) (m : re_match) : string := slice (m_start m) (m_end m) s.
Fixpoint gassoc (name : string) (l : list (string * (nat * nat))) : option (nat * nat) :=
  match l with [] => None | (k, x) :: l' => if String.eqb name k then Some x else gassoc name l' end.
Definition group_opt (name : string) (s : string) (m : re_match) : option string :=
  '(i, j) ← gassoc name (m_groups m); Some (slice i j s).
Definition group (name : string) (s : string) (m : re_match) : string := default "" (group_opt name s m).
(** [pattern.sub(repl, s)] for a text without escapes *)
Fixpoint sub_from (repl s : string) (last : nat) (ms : list re_match) : string :=
  match ms with
  | [] => sdrop last s
  | m :: ms' => slice last (m_start m) s +:+ repl +:+ sub_from repl s (m_end m) ms'
  end.
Definition re_sub (p : pattern) (repl s : string) : string := sub_from repl s 0 (re_finditer p s).
(** [re.split(pattern, s, maxsplit=1)[0]] *)
Definition re_split_head (p : pattern) (s : string) : string :=
  match re_search p s with Some m => stake (m_start m) s | None => s end.
(** [pattern.findall(s)] without groups *)
Definition re_findall (p : pattern) (s : string) : list string := map (group0 s) (re_finditer p s).

(** ** Pattern texts *)

Definition rlit (c : ascii) : regex := RCls false [CRange c c].
Definition class_escape (c : ascii) : list cls_item :=
  if Ascii.eqb c "s"%char then [CSpace true] else if Ascii.eqb c "S"%char then [CSpace false]
  else if Ascii.eqb c "d"%char then [CDigit true] else if Ascii.eqb c "D"%char then [CDigit false]
  else if Ascii.eqb c "w"%char then [CWord true] else if Ascii.eqb c "W"%char then [CWord false]
  else let d := if Ascii.eqb c "n"%char then chr 10 else if Ascii.eqb c "t"%char then chr 9
                else if Ascii.eqb c "r"%char then chr 13 else c in [CRange d d].
Definition escape (c : ascii) : regex :=
  if Ascii.eqb c "b"%char then RWordBoundary else RCls false (class_escape c).

(** The items of a class after its opening bracket and caret. *)
Fixpoint parse_class (fuel : nat) (l : list ascii) : option (list cls_item * list ascii) :=
  match fuel with
  | O => None
  | S n =>
      match l with
      | "]"%char :: rest => Some ([], rest)
      | "\"%char :: c :: rest => '(its, r) ← parse_class n rest; Some (class_escape c ++ its, r)
      | lo :: "-"%char :: hi :: rest =>
          if Ascii.eqb hi "]"%char then Some ([CRange lo lo; CRange "-" "-"], rest)
          else '(its, r) ← parse_class n rest; Some (CRange lo hi :: its, r)
      | c :: rest => '(its, r) ← parse_class n rest; Some (CRange c c :: its, r)
      | [] => None
      end
  end.
Fixpoint parse_nat (acc : option nat) (l : list ascii) : option nat * list ascii :=
  match l with
  | c :: rest =>
      match is_decimal c with
      | true => parse_nat (Some (10 * default 0 acc + Z.to_nat (ord c - 48))) rest
      | false => (acc, l)
      end
  | [] => (acc, l)
  end.
(** [\{m\}], [\{m,\}], [\{m,n\}] after the brace *)
Definition parse_bounds (l : list ascii) : option (nat * option nat * list ascii) :=
  match parse_nat None l with
  | (Some m, "}"%char :: rest) => Some (m, Some m, rest)
  | (Some m, ","%char :: rest) =>
      match parse_nat None rest with
      | (n, "}"%char :: rest') => Some (m, n, rest')
      | _ => None
      end
  | _ => None
  end.
Definition parse_lazy (l : list ascii) : bool * list ascii :=
  match l with "?"%char :: rest => (false, rest) | _ => (true, l) end.
Definition parse_quantifier (a : regex) (l : list ascii) : option (regex * list ascii) :=
  let rep least most rest := let (greedy, rest') := parse_lazy rest in Some (RRep greedy least most a, rest') in
  match l with
  | "*"%char :: rest => rep 0 None rest
  | "+"%char :: rest => rep 1 None rest
  | "?"%char :: rest => rep 0 (Some 1) rest
  | "{"%char :: rest => '(m, n, rest') ← parse_bounds rest; rep m n rest'
  | _ => Some (a, l)
  end.
(** A group name up to the closing angle bracket. *)
Fixpoint parse_name (l : list ascii) : option (string * list ascii) :=
  match l with
  | ">"%char :: rest => Some (EmptyString, rest)
  | c :: rest => '(s, r) ← parse_name rest; Some (String c s, r)
  | [] => None
  end.

Fixpoint parse_alternatives (fuel : nat) (l : list ascii) : option (regex * list ascii) :=
  match fuel with
  | O => None
  | S n =>
      '(a, rest) ← parse_sequence n l;
      match rest with
      | "|"%char :: rest' => '(b, r) ← parse_alternatives n rest'; Some (RAlt a b, r)
      | _ => Some (a, rest)
      end
  end
with parse_sequence (fuel : nat) (l : list ascii) : option (regex * list ascii) :=
  match fuel with
  | O => None
  | S n =>
      match l with
      | [] => Some (REps, l)
      | "|"%char :: _ | ")"%char :: _ => Some (REps, l)
      | _ =>
          '(a, rest) ← parse_atom n l;
          '(q, rest') ← parse_quantifier a rest;
          '(b, r) ← parse_sequence n rest';
          Some (RSeq q b, r)
      end
  end
with parse_atom (fuel : nat) (l : list ascii) : option (regex * list ascii) :=
  match fuel with
  | O => None
  | S n =>
      let grouped rest wrap :=
        '(a, r) ← parse_alternatives n rest;
        match r with ")"%char :: r' => w ← wrap a; Some (w, r') | _ => None end in
      let behind positive a :=
        match a with RSeq (RCls negated items) REps => Some (RLookBehind positive negated items) | _ => None end in
      match l with
      | "("%char :: "?"%char :: ":"%char :: rest => grouped rest Some
      | "("%char :: "?"%char :: "="%char :: rest => grouped rest (λ a, Some (RLook true a))
      | "("%char :: "?"%char :: "!"%char :: rest => grouped rest (λ a, Some (RLook false a))
      | "("%char :: "?"%char :: "<"%char :: "="%char :: rest => grouped rest (behind true)
      | "("%char :: "?"%char :: "<"%char :: "!"%char :: rest => grouped rest (behind false)
      | "("%char :: "?"%char :: "P"%char :: "<"%char :: rest =>
          '(name, rest') ← parse_name rest; grouped rest' (λ a, Some (RGroup name a))
      | "("%char :: "?"%char :: _ => None
      | "("%char :: rest => grouped rest Some
      | "["%char :: "^"%char :: rest => '(its, r) ← parse_class n rest; Some (RCls true its, r)
      | "["%char :: rest => '(its, r) ← parse_class n rest; Some (RCls false its, r)
      | "\"%char :: c :: rest => Some (escape c, rest)
      | "."%char :: rest => Some (RCls true [CRange (chr 10) (chr 10)], rest)
      | "^"%char :: rest => Some (RStart, rest)
      | "$"%char :: rest => Some (REnd, rest)
      | c :: rest => Some (rlit c, rest)
      | [] => None
      end
  end.
Definition parse_regex (s : string) : option regex :=
  match parse_alternatives (3 * String.length s + 3) (str_list s) with
  | Some (r, []) => Some r
  | _ => None
  end.

(** [re.compile(text)], [re.compile(text, re.IGNORECASE)]; the text must parse. *)
Definition compiled (ignore_case : bool) (text : string) (ok : parse_regex text ≠ None) : pattern :=
  mk_pattern ignore_case (default REps (parse_regex text)).
Notation re_compile text := (compiled false text ltac:(by vm_compute)) (only parsing).
Notation re_compile_i text := (compiled true text ltac:(by vm_compute)) (only parsing).
