(* ===== verification/RegexFacts.v ===== *)
(** * What a regular expression matches

    The backtracking matcher finds exactly the matches of the declarative
    meaning of an expression, a search finds the leftmost one, and the fuel of
    repetitions and of [finditer] is enough. *)
From Stdlib Require Import ZArith Lia Ascii.
From S2P Require Import Prelude PyStr Regex.

(** ** The meaning of an expression *)

(** Iterations of a relation between places: at least [least], at most [most];
    beyond the least number an iteration that consumes nothing is the last. *)
Inductive iterates (R : place → place → Prop) : nat → option nat → place → place → Prop :=
| it_stop most s : iterates R 0 most s s
| it_last most s e : most ≠ Some 0 → R s e → pos e = pos s → iterates R 0 most s e
| it_more least most s s' e : most ≠ Some 0 → R s s' → least ≠ 0 ∨ pos s' ≠ pos s →
    iterates R (Nat.pred least) (Nat.pred <$> most) s' e → iterates R least most s e.

Section denotes.
Variable ic : bool.

Fixpoint denotes (r : regex) (s e : place) : Prop :=
  match r with
  | REps => e = s
  | RCls negated items => ∃ c rest, after s = c :: rest ∧ cls_match ic negated items c = true ∧
      e = mk_place (c :: before s) rest (groups s)
  | RSeq a b => ∃ m, denotes a s m ∧ denotes b m e
  | RAlt a b => denotes a s e ∨ denotes b s e
  | RRep _ least most a => iterates (denotes a) least most s e
  | RGroup name a => ∃ m, denotes a s m ∧ e = mk_place (before m) (after m) ((name, (pos s, pos m)) :: groups m)
  | RWordBoundary => e = s ∧ word_at (before s) ≠ word_at (after s)
  | RStart => e = s ∧ before s = []
  | REnd => e = s ∧ (after s = [] ∨ after s = [chr 10])
  | RLook positive a => e = s ∧ ((∃ m, denotes a s m) ↔ positive = true)
  | RLookBehind positive negated items => e = s ∧
      ((∃ c rest, before s = c :: rest ∧ cls_match ic negated items c = true) ↔ positive = true)
  end.

(** A match consumes a part of the text. *)
Definition advances (s e : place) : Prop := ∃ m, after s = m ++ after e ∧ before e = rev m ++ before s.
#[export] Instance advances_preorder : PreOrder advances.
Proof.
  split; [intros s; by exists []|]. intros a b c (m & H1 & H2) (n & H3 & H4). exists (m ++ n).
  by rewrite H1, H3, H4, H2, rev_app_distr, <-!app_assoc.
Qed.
Lemma iterates_advances R : (∀ s e, R s e → advances s e) →
  ∀ least most s e, iterates R least most s e → advances s e.
Proof. intros HR least most s e. induction 1; [done|by apply HR|]. etrans; [by apply HR|done]. Qed.
Lemma denotes_advances r : ∀ s e, denotes r s e → advances s e.
Proof.
  induction r; cbn; intros s e H.
  - by subst.
  - destruct H as (c & rest & Ha & _ & ->). by exists [c].
  - destruct H as (m & H1 & H2). etrans; [by apply IHr1|by apply IHr2].
  - destruct H; [by apply IHr1|by apply IHr2].
  - by eapply iterates_advances.
  - destruct H as (m & H & ->). destruct (IHr _ _ H) as (x & H1 & H2). by exists x.
  - by destruct H as [-> _].
  - by destruct H as [-> _].
  - by destruct H as [-> _].
  - by destruct H as [-> _].
  - by destruct H as [-> _].
Qed.
Lemma advances_length s e : advances s e → pos s ≤ pos e ∧ pos s + length (after s) = pos e + length (after e).
Proof. intros (m & H1 & H2). unfold pos. rewrite H1, H2, !length_app, length_rev. lia. Qed.

(** ** The matcher *)


Lemma and_dep (P Q R : Prop) : (P → (Q ↔ R)) → P ∧ Q ↔ P ∧ R.
Proof. tauto. Qed.
Lemma repeats_spec f R greedy : (∀ s e, e ∈ f s ↔ R s e) → (∀ s e, R s e → advances s e) →
  ∀ fuel least most s e, least + length (after s) < fuel →
  e ∈ repeats f greedy fuel least most s ↔ iterates R least most s e.
Proof.
  intros Hf HR. induction fuel as [|n IH]; intros least most s e Hn; [lia|]. cbn [repeats].
  set (more := match most with Some 0 => [] | _ => flat_map _ _ end).
  assert (Hmore : e ∈ more ↔ (most ≠ Some 0 ∧ ∃ s', R s s' ∧
    (least = 0 ∧ pos s' = pos s ∧ e = s' ∨
     (least ≠ 0 ∨ pos s' ≠ pos s) ∧ iterates R (Nat.pred least) (Nat.pred <$> most) s' e))).
  { assert (Hbody : e ∈ flat_map (λ s', if Nat.eqb least 0 && Nat.eqb (pos s') (pos s) then [s']
                     else repeats f greedy n (Nat.pred least) (Nat.pred <$> most) s') (f s) ↔
      ∃ s', R s s' ∧ (least = 0 ∧ pos s' = pos s ∧ e = s' ∨
        (least ≠ 0 ∨ pos s' ≠ pos s) ∧ iterates R (Nat.pred least) (Nat.pred <$> most) s' e)).
    { rewrite elem_of_flat_map. apply exist_proper. intros s'. rewrite Hf.
      apply and_dep. intros Hs'. destruct (advances_length _ _ (HR _ _ Hs')) as [Hp Hl].
      destruct (Nat.eqb_spec least 0) as [E1|E1], (Nat.eqb_spec (pos s') (pos s)) as [E2|E2]; cbn [andb].
      - rewrite list_elem_of_singleton. naive_solver.
      - rewrite IH by (unfold pos in *; lia). naive_solver.
      - rewrite IH by (unfold pos in *; lia). naive_solver.
      - rewrite IH by (unfold pos in *; lia). naive_solver. }
    unfold more. destruct most as [[|k]|].
    - split; [by intros ?%elem_of_nil|by intros [? _]].
    - rewrite Hbody. naive_solver.
    - rewrite Hbody. naive_solver. }
  assert (Hit : iterates R least most s e ↔ (least = 0 ∧ e = s) ∨ e ∈ more).
  { rewrite Hmore. split.
    - inversion 1; subst; [by left|right; split; [done|]; eexists; split; [done|by left]|].
      right. split; [done|]. eexists. split; [done|]. by right.
    - intros [[-> ->]|(Hm & s' & Hs' & [(-> & Hp & ->)|[Hor Hi]])]; [constructor|by apply it_last|by eapply it_more]. }
  rewrite Hit. clear Hit Hmore. destruct (Nat.eqb_spec least 0) as [E|E]; cbn [negb].
  - destruct greedy; rewrite ?elem_of_app, ?elem_of_cons, ?elem_of_nil; naive_solver.
  - naive_solver.
Qed.

(** The matcher lists exactly the matches of the meaning. *)
Lemma outcomes_spec r : ∀ s e, e ∈ outcomes ic r s ↔ denotes r s e.
Proof.
  induction r as [| negated items | a IHa b IHb | a IHa b IHb | greedy least most a IHa | name a IHa | | | | positive a IHa | positive negated items];
    intros s e; cbn [outcomes denotes].
  - by rewrite list_elem_of_singleton.
  - destruct (after s) as [|c rest]; [split; [by intros ?%elem_of_nil|naive_solver]|].
    destruct (cls_match _ _ _ c) eqn:E.
    + rewrite list_elem_of_singleton. naive_solver.
    + split; [by intros ?%elem_of_nil|]. intros (c' & rest' & [= -> ->] & H & _). congruence.
  - rewrite elem_of_flat_map. apply exist_proper. intros m. by rewrite IHa, IHb.
  - by rewrite elem_of_app, IHa, IHb.
  - apply repeats_spec; [done|apply denotes_advances|lia].
  - rewrite elem_of_map. apply exist_proper. intros m. by rewrite IHa.
  - destruct (word_at (before s)), (word_at (after s)); cbn; rewrite ?list_elem_of_singleton, ?elem_of_nil; naive_solver.
  - destruct (before s); rewrite ?list_elem_of_singleton, ?elem_of_nil; naive_solver.
  - destruct (after s) as [|c [|c' rest]].
    + rewrite list_elem_of_singleton. naive_solver.
    + destruct (Z.eqb_spec (ord c) 10) as [E|E].
      * assert (c = chr 10) as -> by (revert E; clear; destruct c as [[] [] [] [] [] [] [] []]; done).
        rewrite list_elem_of_singleton. naive_solver.
      * rewrite elem_of_nil. split; [done|]. intros [_ [?|[= ->]]]; [done|]. by apply E.
    + rewrite elem_of_nil. naive_solver.
  - assert (Hm : (∃ m, denotes a s m) ↔ outcomes ic a s ≠ []).
    { setoid_rewrite <-IHa. destruct (outcomes ic a s) as [|m l]; [split; [|done]; by intros [? ?%elem_of_nil]|].
      split; [done|]. intros _. exists m. by left. }
    rewrite Hm. destruct (outcomes ic a s), positive; cbn; rewrite ?list_elem_of_singleton, ?elem_of_nil; naive_solver.
  - assert (Hm : (∃ c rest, before s = c :: rest ∧ cls_match ic negated items c = true) ↔
      match before s with c :: _ => cls_match ic negated items c | [] => false end = true).
    { destruct (before s) as [|c rest]; [split; [by intros (? & ? & ? & _)|done]|]. naive_solver. }
    rewrite Hm. clear Hm. generalize (match before s with c :: _ => cls_match ic negated items c | [] => false end).
    intros b. destruct b, positive; cbn;
      rewrite ?list_elem_of_singleton, ?elem_of_nil; intuition congruence.
Qed.
End denotes.

(** ** Searching *)

(** The place [i] characters into a text. *)
Definition place_at (s : string) (i : nat) : place :=
  mk_place (rev (take i (str_list s))) (drop i (str_list s)) [].
(** [p] matches the part of [s] from [i] to [j]. *)
Definition occurs (p : pattern) (s : string) (i j : nat) : Prop :=
  i ≤ String.length s ∧ ∃ e, denotes (p_ignore_case p) (p_regex p) (place_at s i) e ∧ pos e = j.

Lemma str_list_length s : length (str_list s) = String.length s.
Proof. induction s; cbn; congruence. Qed.
Lemma find_None_elem {A} (p : A → bool) l : List.find p l = None ↔ ∀ x, x ∈ l → p x = false.
Proof.
  split.
  - intros H x Hx. rewrite list_elem_of_In in Hx. by eapply find_none.
  - intros H. destruct (List.find p l) as [x|] eqn:E; [|done]. apply find_some in E as [Hx E].
    rewrite <-list_elem_of_In in Hx. rewrite H in E; done.
Qed.

(** A scan from place [i] of a text: the result is the leftmost match. *)
Lemma scan_from_spec p s : ∀ i must, i ≤ String.length s →
  match scan_from p must (rev (take i (str_list s))) (drop i (str_list s)) with
  | Some (k, e) => i ≤ k ∧ k ≤ String.length s ∧
      denotes (p_ignore_case p) (p_regex p) (place_at s k) e ∧ (k = i → must = true → pos e ≠ i) ∧
      ∀ k' j, i ≤ k' → k' < k → occurs p s k' j → k' = i ∧ must = true ∧ j = i
  | None => ∀ k' j, i ≤ k' → occurs p s k' j → k' = i ∧ must = true ∧ j = i
  end.
Proof.
  assert (H : ∀ n i must, i + n = String.length s →
    match scan_from p must (rev (take i (str_list s))) (drop i (str_list s)) with
    | Some (k, e) => i ≤ k ∧ k ≤ String.length s ∧
        denotes (p_ignore_case p) (p_regex p) (place_at s k) e ∧ (k = i → must = true → pos e ≠ i) ∧
        ∀ k' j, i ≤ k' → k' < k → occurs p s k' j → k' = i ∧ must = true ∧ j = i
    | None => ∀ k' j, i ≤ k' → occurs p s k' j → k' = i ∧ must = true ∧ j = i
    end); [|intros i must Hi; apply (H (String.length s - i)); lia].
  induction n as [|n IH]; intros i must Hi.
  all: assert (Hlen : length (rev (take i (str_list s))) = i) by (rewrite length_rev, length_take, str_list_length; lia).
  all: assert (Hhere : ∀ o, o = List.find (λ e, negb (must && Nat.eqb (pos e) (length (rev (take i (str_list s))))))
      (outcomes (p_ignore_case p) (p_regex p) (mk_place (rev (take i (str_list s))) (drop i (str_list s)) [])) →
      match o with
      | Some e => denotes (p_ignore_case p) (p_regex p) (place_at s i) e ∧ (must = true → pos e ≠ i)
      | None => ∀ j, occurs p s i j → must = true ∧ j = i
      end).
  1, 3: intros [e|] Eo; symmetry in Eo.
  1, 3: apply find_some in Eo as [He Eo]; rewrite <-list_elem_of_In, outcomes_spec in He; split; [done|];
        intros ->; rewrite Hlen in Eo; cbn in Eo; by apply negb_true_iff, Nat.eqb_neq in Eo.
  1, 2: intros j (_ & e & He & Hj); rewrite find_None_elem in Eo; specialize (Eo e);
        rewrite outcomes_spec, Hlen in Eo; specialize (Eo He); apply negb_false_iff, andb_true_iff in Eo as [-> Eo];
        apply Nat.eqb_eq in Eo; lia.
  - unfold scan_from. rewrite drop_ge in * by (rewrite str_list_length; lia). fold scan_from.
    specialize (Hhere _ eq_refl). cbn [scan_from].
    destruct (List.find _ _) as [e|]; [rewrite Hlen|].
    + destruct Hhere as [He Hm]. split_and!; [lia|lia|done|by auto|]. intros; lia.
    + intros k' j Hk Ho. assert (k' = i) as -> by (destruct Ho; lia). split; [done|]. by apply Hhere.
  - specialize (Hhere _ eq_refl).
    destruct (drop i (str_list s)) as [|c a] eqn:Ed.
    { apply (f_equal length) in Ed. rewrite length_drop, str_list_length in Ed. cbn in Ed. lia. }
    cbn [scan_from]. destruct (List.find _ _) as [e|]; [rewrite Hlen|].
    + destruct Hhere as [He Hm]. split_and!; [lia|lia|done|by auto|]. intros; lia.
    + assert (Hlook : str_list s !! i = Some c) by (by rewrite <-(Nat.add_0_r i), <-lookup_drop, Ed).
      assert (Hnext : c :: rev (take i (str_list s)) = rev (take (S i) (str_list s)) ∧ a = drop (S i) (str_list s)).
      { rewrite (take_S_r _ _ _ Hlook), rev_app_distr. split; [done|].
        assert (drop (S i) (str_list s) = drop 1 (drop i (str_list s))) as -> by (rewrite drop_drop; f_equal; lia).
        by rewrite Ed. }
      destruct Hnext as [-> ->]. specialize (IH (S i) false ltac:(lia)).
      destruct (scan_from _ _ _ _) as [[k e]|].
      * destruct IH as (? & ? & ? & ? & Hb). split_and!; [lia|done|done|lia|].
        intros k' j Hk1 Hk2 Ho. destruct (decide (k' = i)) as [->|].
        { split; [done|]. by apply Hhere. }
        destruct (Hb k' j) as (? & ? & ?); [lia|done|done|done].
      * intros k' j Hk Ho. destruct (decide (k' = i)) as [->|]; [split; [done|]; by apply Hhere|].
        destruct (IH k' j) as (? & ? & ?); [lia|done|done].
Qed.

Lemma place_advances s i e : i ≤ String.length s → advances (place_at s i) e →
  before e = rev (take (pos e) (str_list s)) ∧ after e = drop (pos e) (str_list s) ∧ i ≤ pos e ∧ pos e ≤ String.length s.
Proof.
  intros Hi (m & Ha & Hb). unfold pos. rewrite Hb. cbn in Ha |- *. rewrite length_app, !length_rev, length_take, str_list_length.
  rewrite (Nat.min_l i) by done.
  assert (Ed : str_list s = take i (str_list s) ++ m ++ after e) by (rewrite <-Ha; by rewrite take_drop).
  assert (Hl : String.length s = i + length m + length (after e)).
  { rewrite <-str_list_length, Ed, !length_app, length_take, str_list_length. lia. }
  set (x := take i (str_list s)) in *.
  assert (Hx : length x = i) by (unfold x; rewrite length_take, str_list_length; lia).
  rewrite (Nat.add_comm (length m)). rewrite Ed, !app_assoc. split_and!; try lia.
  - rewrite take_app_length' by (rewrite length_app; lia). by rewrite rev_app_distr.
  - by rewrite drop_app_length' by (rewrite length_app; lia).
Qed.
Lemma occurs_bounds p s i j : occurs p s i j → i ≤ j ∧ j ≤ String.length s.
Proof. intros (Hi & e & He & <-). apply denotes_advances in He. by apply place_advances in He as (_ & _ & ? & ?). Qed.

Lemma place_0 s : place_at s 0 = at_start s.
Proof. unfold place_at, at_start. by rewrite take_0, drop_0. Qed.
Lemma re_search_spec p s :
  match re_search p s with
  | Some m => occurs p s (m_start m) (m_end m) ∧ ∀ i j, i < m_start m → ¬ occurs p s i j
  | None => ∀ i j, ¬ occurs p s i j
  end.
Proof.
  pose proof (scan_from_spec p s 0 false ltac:(lia)) as H. rewrite take_0, drop_0 in H. cbn in H.
  unfold re_search. destruct (scan_from _ _ _ _) as [[k e]|]; cbn.
  - destruct H as (_ & Hk & He & _ & Hb). split; [by split; [|exists e]|]. intros i j Hi Ho.
    by destruct (Hb i j) as (_ & ? & _); [lia|done|done|].
  - intros i j Ho. by destruct (H i j) as (_ & ? & _); [lia|done|].
Qed.

Lemma matches_from_spec p s : ∀ fuel i must, i ≤ String.length s →
  (∀ m, m ∈ matches_from fuel p must (rev (take i (str_list s))) (drop i (str_list s)) →
     i ≤ m_start m ∧ occurs p s (m_start m) (m_end m)) ∧
  (2 * (String.length s - i) + (if must then 0 else 1) < fuel → ∀ k j, i ≤ k → k < j → occurs p s k j →
     ∃ m, m ∈ matches_from fuel p must (rev (take i (str_list s))) (drop i (str_list s)) ∧
          m_start m ≤ k ∧ (k < m_end m ∨ m_start m = k)).
Proof.
  induction fuel as [|n IH]; intros i must Hi; cbn [matches_from].
  { split; [by intros m ?%elem_of_nil|lia]. }
  pose proof (scan_from_spec p s i must Hi) as H.
  destruct (scan_from _ _ _ _) as [[k0 e]|].
  - destruct H as (Hk & Hk' & He & Hm & Hb).
    destruct (place_advances s k0 e Hk' (denotes_advances _ _ _ _ He)) as (-> & -> & Hp & Hp').
    destruct (IH (pos e) (Nat.eqb (pos e) k0) Hp') as [IH1 IH2]. split.
    + intros m [->|Hin]%elem_of_cons; [split; [done|]; split; [done|]; by exists e|].
      apply IH1 in Hin as [? ?]. split; [lia|done].
    + intros Hn k j Hk1 Hkj Ho. destruct (decide (k < k0)) as [Hlt|Hge].
      { destruct (Hb k j Hk1 Hlt Ho) as (-> & _ & ->). lia. }
      destruct (decide (k = k0)) as [->|Hne]; [exists (found k0 e); split; [by left|]; cbn; lia|].
      destruct (decide (k < pos e)) as [|Hpe]; [exists (found k0 e); split; [by left|]; cbn; lia|].
      destruct (IH2 ltac:(destruct (Nat.eqb_spec (pos e) k0); destruct must; try lia) k j ltac:(lia) Hkj Ho) as (m & Hin & ?).
      exists m. split; [by right|done].
  - split; [by intros m ?%elem_of_nil|]. intros _ k j Hk Hkj Ho. destruct (H k j Hk Ho) as (-> & _ & ->). lia.
Qed.
Lemma finditer_occurs p s m : m ∈ re_finditer p s → occurs p s (m_start m) (m_end m).
Proof.
  unfold re_finditer. intros Hm. destruct (matches_from_spec p s (2 * String.length s + 2) 0 false ltac:(lia)) as [H _].
  rewrite take_0, drop_0 in H. cbn in H. by apply H in Hm as [_ ?].
Qed.
(** No place is skipped: an occurrence starts at or inside a match that is listed. *)
Lemma finditer_complete p s k j : k < j → occurs p s k j →
  ∃ m, m ∈ re_finditer p s ∧ m_start m ≤ k ∧ (k < m_end m ∨ m_start m = k).
Proof.
  intros Hkj Ho. unfold re_finditer.
  destruct (matches_from_spec p s (2 * String.length s + 2) 0 false ltac:(lia)) as [_ H].
  rewrite take_0, drop_0 in H. cbn in H. apply (H ltac:(lia) k j); [lia|done|done].
Qed.
