(* ===== verification/Samples.v ===== *)
(** * A small instance for running the store

    A cheap stand-in for the hash functions (the first bytes of the text, in
    hexadecimal) that satisfies the laws of [HashLib], an environment and a few
    databases built by the operations: the witnesses of the theorems run on
    them. *)
From Stdlib Require Import ZArith Lia Ascii.
From S2P Require Import Prelude PyStr Json Hash Clock Config Identity AuthDb AuthStore OAuthStore AuthSystem.

Definition sample_hex (s : string) : string := hex_of (take 32 (bytes_of s ++ replicate 32 0%Z)).

Lemma bytes_of_byte s : Forall byte (bytes_of s).
Proof.
  unfold bytes_of. apply Forall_forall. intros z Hz. rewrite list_elem_of_In, in_map_iff in Hz.
  destruct Hz as (c & <- & _). unfold ord, byte. destruct c as [[] [] [] [] [] [] [] []]; cbn; lia.
Qed.
Lemma sample_hex_digest s : is_hex_digest (sample_hex s) = true.
Proof.
  apply hex_of_digest. split.
  - rewrite length_take, length_app, length_replicate. lia.
  - apply Forall_take, Forall_app. split; [apply bytes_of_byte|]. apply Forall_replicate. done.
Qed.

Module Sample.
#[export] Instance sample_hashlib : HashLib := {|
  sha256_hex := sample_hex;
  pbkdf2_hex := λ p _ _, sample_hex p;
  hmac_sha256_raw := λ key msg, stake 6 msg +:+ stake 6 key;
  sha256_hex_digest := sample_hex_digest;
  pbkdf2_hex_digest := λ p _, sample_hex_digest p;
|}.
#[export] Instance sample_environ : Environ := {| AMH_TOKEN_HASH_SECRET := None |}.

Definition sample_provider : PassportProviderConfig :=
  mk_provider_config true "Google" "GOOGLE_CLIENT_ID" "GOOGLE_CLIENT_SECRET" "" "https://accounts.google.com/o/oauth2/v2/auth"
    "https://oauth2.googleapis.com/token" "https://accounts.google.com" "" "https://accounts.google.com/jwks" ["RS256"]
    ["openid"; "email"; "profile"] [] [].
Definition sample_config : HubConfig :=
  mk_hub_config "localhost" 8000 "oauth_resource_server" "http://localhost:8000"
    (mk_oauth_config [] "" "" "jwt-secret" "AMH_OAUTH_JWT_SECRET" 3600 86400 ["memory:read"; "memory:write"])
    (mk_oidc_config "" "" "" "preferred_username" "email" "name" "groups" "roles" [] [] [] [] ["memory:read"] 60)
    (mk_connect_config "amh_session" "session-secret" "AMH_SESSION_SECRET" 43200 3600
       (mk_passport_config ["google"] sample_provider sample_provider sample_provider))
    [("GOOGLE_CLIENT_ID", "hub-client"); ("GOOGLE_CLIENT_SECRET", "hub-secret")].

(** noon, 15 July 2026 *)
Definition noon : instant := 1784116800%Z.

(** The database after one operation on another, every step of a history. *)
Definition after (o : auth_op) (d : AuthDb) : AuthDb := op_step noon o d.
Lemma reachable_after o d : reachable d → reachable (after o d).
Proof. intros Hd. eapply rtc_r; [exact Hd|constructor]. Qed.
Lemma reachable_empty : reachable empty_db.
Proof. apply rtc_refl. Qed.
Lemma one_step o d : auth_steps d (after o d).
Proof. apply rtc_once. constructor. Qed.

(** Alice's authorization code, her refresh token with its access token, and a
    browser session. *)
Definition db_code : AuthDb :=
  after (OpCreateCode "c1" "cli" "alice" "http://localhost/cb" "ch" "res" "memory:read" "2026-07-16T12:00:00+00:00") empty_db.
Definition db_token : AuthDb :=
  after (OpCreateToken "alice" "t1" None None None (Some ["memory:read"]) "tok_1") empty_db.
Definition db_refresh : AuthDb :=
  after (OpCreateRefresh "r1" "fam" "cli" "alice" ["memory:read"] "res" (Some "tok_1") "2026-07-16T12:00:00+00:00") db_token.

Lemma db_code_reachable : reachable db_code.
Proof. apply reachable_after, reachable_empty. Qed.
Lemma db_token_reachable : reachable db_token.
Proof. apply reachable_after, reachable_empty. Qed.
Lemma db_refresh_reachable : reachable db_refresh.
Proof. apply reachable_after, db_token_reachable. Qed.
End Sample.
