(* ===== verification/OAuthFacts.v ===== *)
(** * Guarantees of the OAuth records

    Single use of authorization codes and refresh tokens, the binding of a code
    to its grant, revocation of refresh-token families and the quotas, over
    every history of the store. *)
From Stdlib Require Import ZArith Lia.
From S2P Require Import Prelude PyStr Json Hash Clock Identity AuthDb AuthStore OAuthStore AuthSystem Samples.

Section facts.
Context `{HashLib} `{Environ}.

(** ** Authorization codes *)

Lemma consume_code_run now code client uri challenge h d :
  _hash_bearer_token code = Ok h →
  consume_oauth_authorization_code now code client uri challenge d =
  (Ok (code_from_row <$> tbl_find (code_matches now h client uri challenge) (oauth_authorization_codes d)),
   on_codes (tbl_update (code_matches now h client uri challenge) (set_code_consumed (sql_timestamp now))) d).
Proof. intros E. unfold consume_oauth_authorization_code. by rewrite E. Qed.

(** The code with hash [h] exists and has been redeemed. *)
Definition code_spent (h : string) (d : AuthDb) : Prop :=
  existsb (is_code h) (oauth_authorization_codes d) = true ∧
  ∀ c, c ∈ oauth_authorization_codes d → is_code h c = true → null (ac_consumed_at c) = false.

(** The columns an issued code never changes. *)
Definition grant (c : auth_code) : code_info := code_from_row c.
Definition code_granted (h : string) (g : code_info) (d : AuthDb) : Prop :=
  existsb (is_code h) (oauth_authorization_codes d) = true ∧
  ∀ c, c ∈ oauth_authorization_codes d → is_code h c = true → grant c = g.

Lemma is_code_insert h c t :
  existsb (is_code (ac_hash c)) t = false → existsb (is_code h) t = true → is_code h c = false.
Proof.
  intros Hn (r & Hr & Hh)%existsb_elem. unfold is_code in *. apply String.eqb_eq in Hh as <-.
  pose proof (existsb_false_elem _ _ _ Hn Hr) as Hne. cbn in Hne. by rewrite String.eqb_sym.
Qed.

Lemma code_spent_statement h d d' : statement d d' → keeps (code_spent h) d d'.
Proof.
  intros [] Hs; destruct d0; cbn in *; try exact Hs; destruct Hs as [Hex Hall]; cbn in *; split; cbn.
  - by apply existsb_snoc_mono.
  - intros x [Hx| ->%list_elem_of_singleton]%elem_of_app; [by apply Hall|].
    intros Hh. erewrite is_code_insert in Hh; done.
  - by rewrite existsb_update.
  - intros x (r & Hr & ->)%elem_of_tbl_update. destruct (p r); [done|]. by apply Hall.
Qed.
Lemma code_granted_statement h g d d' : statement d d' → keeps (code_granted h g) d d'.
Proof.
  intros [] Hs; destruct d0; cbn in *; try exact Hs; destruct Hs as [Hex Hall]; cbn in *; split; cbn.
  - by apply existsb_snoc_mono.
  - intros x [Hx| ->%list_elem_of_singleton]%elem_of_app; [by apply Hall|].
    intros Hh. erewrite is_code_insert in Hh; done.
  - by rewrite existsb_update.
  - intros x (r & Hr & ->)%elem_of_tbl_update. destruct (p r); intros Hh; by apply (Hall r).
Qed.

Lemma keeps_steps I d d' :
  (∀ d d', statement d d' → keeps I d d') → auth_steps d d' → I d → I d'.
Proof.
  intros HI. apply (respected_steps (keeps I)). by apply statement_respected; [apply _|].
Qed.

Lemma consume_code_spent now code client uri challenge h d info d' :
  auth_inv d → _hash_bearer_token code = Ok h →
  consume_oauth_authorization_code now code client uri challenge d = (Ok (Some info), d') →
  code_spent h d'.
Proof.
  intros Hi Hh. rewrite (consume_code_run _ _ _ _ _ _ _ Hh). intros [= Hf <-].
  apply fmap_Some in Hf as (c & [Hc Hm]%tbl_find_Some & ->).
  assert (Hch : is_code h c = true) by (unfold code_matches in Hm; prop_bool; done).
  destruct d; unfold code_spent; cbn in *. split.
  - rewrite existsb_update by done. apply existsb_elem. eauto.
  - intros x (r & Hr & ->)%elem_of_tbl_update. destruct (code_matches _ _ _ _ _ r) eqn:Em; [done|].
    intros Hrh. exfalso. assert (r = c) as ->; [|congruence].
    eapply (unique_eq ac_hash); [apply Hi|done..|].
    unfold is_code in *. prop_bool. congruence.
Qed.

(** C19: an authorization code is redeemed at most once.  Once a redemption has
    succeeded, in every database any further operations can lead to, redeeming
    the same code again - by any client, with any redirect URI and any PKCE
    verifier, at any time - returns nothing. *)
Theorem authorization_code_single_use now code client uri challenge d info d' d'' now2 client2 uri2 challenge2 :
  reachable d →
  consume_oauth_authorization_code now code client uri challenge d = (Ok (Some info), d') →
  auth_steps d' d'' →
  (consume_oauth_authorization_code now2 code client2 uri2 challenge2 d'').1 = Ok None.
Proof.
  intros Hd%reachable_inv Hc Hs.
  destruct (_hash_bearer_token code) as [h|e] eqn:Hh.
  2:{ unfold consume_oauth_authorization_code in Hc. rewrite Hh in Hc. done. }
  pose proof (consume_code_spent _ _ _ _ _ _ _ _ _ Hd Hh Hc) as Hsp.
  apply (keeps_steps _ _ _ (code_spent_statement h) Hs) in Hsp as [_ Hsp].
  rewrite (consume_code_run _ _ _ _ _ _ _ Hh). cbn [fst].
  rewrite tbl_find_is_None; [done|]. intros c Hc'. specialize (Hsp c Hc').
  unfold code_matches. destruct (is_code h c); [|done].
  rewrite Hsp by done. cbn. by rewrite andb_false_r.
Qed.

Lemma create_code_run now code client owner uri challenge resource scope expires d d' :
  create_oauth_authorization_code now code client owner uri challenge resource scope expires d = (Ok tt, d') →
  ∃ h c o, _hash_bearer_token code = Ok h ∧ _validate_token_lookup client = Ok c ∧ _validate_owner_id owner = Ok o ∧
    existsb (is_code h) (oauth_authorization_codes d) = false ∧
    d' = on_codes (λ t, t ++ [mk_auth_code h c o uri challenge resource scope (sql_timestamp now) expires None]) d.
Proof.
  unfold create_oauth_authorization_code. intros Hc. inv_run. inv_ok.
  match goal with H : tbl_insert _ _ _ _ = _ |- _ => apply tbl_insert_Ok in H as [? ->] end.
  subst. rewrite (on_codes_const (λ t, t ++ _)). eexists _, _, _. split_and!; first [reflexivity | eassumption].
Qed.

(** A redeemed authorization code yields exactly the grant it was issued
    for, and only to the client, redirect URI and PKCE challenge it was issued
    to, whatever happened to the store in between. *)
Theorem authorization_code_bound now code client owner uri challenge resource scope expires d d1 d2 d3
    now2 client2 uri2 challenge2 info :
  create_oauth_authorization_code now code client owner uri challenge resource scope expires d = (Ok tt, d1) →
  auth_steps d1 d2 →
  consume_oauth_authorization_code now2 code client2 uri2 challenge2 d2 = (Ok (Some info), d3) →
  _validate_token_lookup client = Ok client2 ∧ uri2 = uri ∧ challenge2 = challenge ∧
  unexpired now2 expires = true ∧ _validate_owner_id owner = Ok (co_owner_id info) ∧
  info = mk_code_info client2 (co_owner_id info) uri challenge resource scope (sql_timestamp now) expires.
Proof.
  intros (h & c & o & Hh & Hc & Ho & Hnew & ->)%create_code_run Hs.
  set (row := mk_auth_code h c o uri challenge resource scope (sql_timestamp now) expires None) in *.
  assert (Hg : code_granted h (grant row) (on_codes (λ t, t ++ [row]) d)).
  { destruct d; split; cbn in *.
    - rewrite existsb_app. cbn. unfold is_code. rewrite String.eqb_refl. cbn. by rewrite orb_true_r.
    - intros x [Hx| ->%list_elem_of_singleton]%elem_of_app; [|done].
      intros Hxh. pose proof (existsb_false_elem _ _ _ Hnew Hx). congruence. }
  apply (keeps_steps _ _ _ (code_granted_statement h _) Hs) in Hg as [_ Hg].
  rewrite (consume_code_run _ _ _ _ _ _ _ Hh). intros [= Hf _].
  apply fmap_Some in Hf as (x & [Hx Hm]%tbl_find_Some & ->).
  unfold code_matches in Hm. prop_bool. specialize (Hg x Hx ltac:(done)).
  unfold grant, code_from_row in *. subst row. cbn in *. simplify_eq.
  repeat split; congruence.
Qed.

(** ** Refresh tokens *)

Lemma consume_refresh_run now token h d :
  _hash_bearer_token token = Ok h →
  consume_oauth_refresh_token now token d =
  (one_row _oauth_refresh_token_from_row
     (set_refresh_consumed (sql_timestamp now) <$> tbl_find (refresh_live now h) (oauth_refresh_tokens d)),
   on_refresh (tbl_update (refresh_live now h) (set_refresh_consumed (sql_timestamp now))) d).
Proof. intros E. unfold consume_oauth_refresh_token. by rewrite E. Qed.

(** The refresh token with hash [h] exists and is consumed or revoked. *)
Definition refresh_spent (h : string) (d : AuthDb) : Prop :=
  existsb (is_refresh h) (oauth_refresh_tokens d) = true ∧
  ∀ r, r ∈ oauth_refresh_tokens d → is_refresh h r = true →
    null (rt_consumed_at r) && null (rt_revoked_at r) = false.

Lemma is_refresh_insert h r t :
  existsb (is_refresh (rt_hash r)) t = false → existsb (is_refresh h) t = true → is_refresh h r = false.
Proof.
  intros Hn (r' & Hr & Hh)%existsb_elem. unfold is_refresh in *. apply String.eqb_eq in Hh as <-.
  pose proof (existsb_false_elem _ _ _ Hn Hr) as Hne. cbn in Hne. by rewrite String.eqb_sym.
Qed.

Lemma refresh_spent_statement h d d' : statement d d' → keeps (refresh_spent h) d d'.
Proof.
  intros [] Hs; destruct d0; cbn in *; try exact Hs; destruct Hs as [Hex Hall]; cbn in *; split; cbn.
  1: by apply existsb_snoc_mono.
  2, 4, 6: by rewrite existsb_update.
  - intros x [Hx| ->%list_elem_of_singleton]%elem_of_app; [by apply Hall|].
    intros Hh. erewrite is_refresh_insert in Hh; done.
  - intros x (r & Hr & ->)%elem_of_tbl_update. destruct (p r); [done|]. by apply Hall.
  - intros x (r & Hr & ->)%elem_of_tbl_update. destruct (p r); [|by apply Hall].
    intros _. cbn. by rewrite andb_false_r.
  - intros x (r & Hr & ->)%elem_of_tbl_update. destruct (in_family _ _ && _); [|by apply Hall].
    intros _. cbn. by rewrite andb_false_r.
Qed.

Lemma refresh_spent_consume now token h d :
  _hash_bearer_token token = Ok h → refresh_spent h d →
  (consume_oauth_refresh_token now token d).1 = Ok None.
Proof.
  intros Hh [_ Hall]. rewrite (consume_refresh_run _ _ _ _ Hh). cbn [fst].
  rewrite tbl_find_is_None; [done|]. intros r Hr. specialize (Hall r Hr).
  unfold refresh_live. destruct (is_refresh h r); [|done]. cbn. by rewrite Hall.
Qed.

Lemma refresh_spent_update now h d r :
  auth_inv d → tbl_find (refresh_live now h) (oauth_refresh_tokens d) = Some r →
  refresh_spent h (on_refresh (tbl_update (refresh_live now h) (set_refresh_consumed (sql_timestamp now))) d).
Proof.
  intros Hi [Hr Hl]%tbl_find_Some.
  assert (Hrh : is_refresh h r = true) by (unfold refresh_live in Hl; prop_bool; done).
  destruct d; unfold refresh_spent; cbn in *. split.
  - rewrite existsb_update by done. apply existsb_elem. eauto.
  - intros x (r' & Hr' & ->)%elem_of_tbl_update. destruct (refresh_live now h r') eqn:Em; [done|].
    intros Hrh'. exfalso. assert (r' = r) as ->; [|congruence].
    eapply (unique_eq rt_hash); [apply Hi|done..|].
    unfold is_refresh in *. prop_bool. congruence.
Qed.

(** C20: a refresh token is consumed at most once: after a consumption that
    returned its record, every later consumption of the same token, in every
    database further operations lead to, returns nothing. *)
Theorem refresh_token_single_use now token d info d' d'' now2 :
  reachable d →
  consume_oauth_refresh_token now token d = (Ok (Some info), d') →
  auth_steps d' d'' →
  (consume_oauth_refresh_token now2 token d'').1 = Ok None.
Proof.
  intros Hi%reachable_inv Hc Hs.
  destruct (_hash_bearer_token token) as [h|e] eqn:Hh.
  2:{ unfold consume_oauth_refresh_token in Hc. rewrite Hh in Hc. done. }
  eapply refresh_spent_consume; [done|].
  eapply (keeps_steps _ _ _ (refresh_spent_statement h) Hs).
  rewrite (consume_refresh_run _ _ _ _ Hh) in Hc. injection Hc as Hf <-.
  destruct (tbl_find _ _) as [r|] eqn:Hfind; [|done].
  by eapply refresh_spent_update.
Qed.

(** ** Families of refresh tokens *)

Definition family_revoked (f : string) (d : AuthDb) : Prop :=
  existsb (is_family f) (oauth_refresh_token_families d) = true.

Lemma family_revoked_statement f d d' : statement d d' → keeps (family_revoked f) d d'.
Proof.
  intros [] Hs; destruct d0; cbn in *; try exact Hs; unfold family_revoked in *; cbn in *.
  by apply existsb_insert_ignore_mono.
Qed.

Lemma revoke_family_revoked now f b d d' :
  revoke_oauth_refresh_token_family now f d = (Ok b, d') →
  ∃ f', _validate_token_lookup f = Ok f' ∧ family_revoked f' d'.
Proof.
  intros Hr. destruct (_validate_token_lookup f) as [f'|e] eqn:Hf.
  2:{ unfold revoke_oauth_refresh_token_family in Hr. rewrite Hf in Hr. done. }
  exists f'. split; [done|]. rewrite (revoke_family_run _ _ _ _ Hf) in Hr. injection Hr as _ <-.
  destruct d; unfold family_revoked; cbn. unfold tbl_insert_ignore. case_match; [done|].
  rewrite existsb_app. cbn. unfold is_family. rewrite String.eqb_refl. cbn. by rewrite orb_true_r.
Qed.

Lemma one_row_Ok {R A} (g : R → result A) o a :
  one_row g o = Ok (Some a) → ∃ r, o = Some r ∧ g r = Ok a.
Proof. destruct o as [r|]; cbn; [|done]. destruct (g r) eqn:E; cbn; naive_solver. Qed.

Lemma refresh_info_row r i : _oauth_refresh_token_from_row r = Ok i →
  ri_family i = rt_family r ∧ ri_revoked_at i = rt_revoked_at r ∧ ri_hash i = rt_hash r ∧
  ri_owner_id i = rt_owner_id r ∧ ri_client_id i = rt_client_id r.
Proof. unfold _oauth_refresh_token_from_row. intros Hr. inv_ok. subst. done. Qed.

(** C36: a revoked family stays dead.  In every database reachable after a
    family was revoked, all its refresh tokens - those issued later included -
    are revoked, and none of them can be consumed. *)
Theorem revoked_family_stays_dead now f b d d' d'' :
  reachable d →
  revoke_oauth_refresh_token_family now f d = (Ok b, d') →
  auth_steps d' d'' →
  ∃ f', _validate_token_lookup f = Ok f' ∧
    (∀ r, r ∈ oauth_refresh_tokens d'' → rt_family r = f' → is_Some (rt_revoked_at r)) ∧
    (∀ now2 token i, (consume_oauth_refresh_token now2 token d'').1 = Ok (Some i) → ri_family i ≠ f').
Proof.
  intros Hd Hr Hs.
  assert (Hi : auth_inv d'').
  { eapply (keeps_steps auth_inv); [apply statement_inv|exact Hs|].
    assert (Hd' : d' = op_step now (OpRevokeFamily f) d) by (cbn; by rewrite Hr).
    rewrite Hd'. apply op_inv. by apply reachable_inv. }
  apply revoke_family_revoked in Hr as (f' & Hf & Hrev).
  exists f'. split; [done|].
  assert (Hdead : ∀ r, r ∈ oauth_refresh_tokens d'' → rt_family r = f' → is_Some (rt_revoked_at r)).
  { intros r Hr <-. apply (inv_closed _ Hi); [done|].
    by apply (keeps_steps _ _ _ (family_revoked_statement _) Hs). }
  split; [done|]. intros now2 token i Hc ->%eq_sym.
  destruct (_hash_bearer_token token) as [h|e] eqn:Hh.
  2:{ unfold consume_oauth_refresh_token in Hc. rewrite Hh in Hc. done. }
  rewrite (consume_refresh_run _ _ _ _ Hh) in Hc. cbn in Hc.
  apply one_row_Ok in Hc as (r & Hfind & Hrow). apply refresh_info_row in Hrow as (Hfam & _).
  apply fmap_Some in Hfind as (r0 & [Hr0 Hl]%tbl_find_Some & ->).
  destruct (Hdead r0 Hr0) as [ts Hts]; [by rewrite Hfam|].
  unfold refresh_live in Hl. prop_bool. by rewrite Hts in *.
Qed.

(** ** Access tokens linked to a revoked family *)

Lemma auth_context_run now token h d :
  _hash_bearer_token token = Ok h →
  auth_context_for_token now token d =
  match tbl_find (token_live now d h) (auth_tokens d) with
  | Some t => (scopes ← _parse_token_scopes (at_scopes t);
               Ok (Some (mk_auth_context (at_owner_id t) (at_token_id t) scopes)),
               on_tokens (tbl_update (is_token h) (set_token_used (sql_timestamp now))) d)
  | None => (Ok None, d)
  end.
Proof.
  intros E. unfold auth_context_for_token. rewrite E.
  unfold mbind, M_bind, lift, transaction, query, exec, mret, M_ret. cbn.
  destruct (tbl_find _ _) as [t|]; [|done]. by destruct (_parse_token_scopes (at_scopes t)).
Qed.

Lemma auth_context_revoked now token h d :
  _hash_bearer_token token = Ok h →
  (∀ t, t ∈ auth_tokens d → at_token_hash t = h → is_Some (at_revoked_at t)) →
  auth_context_for_token now token d = (Ok None, d).
Proof.
  intros Hh Hall. rewrite (auth_context_run _ _ _ _ Hh).
  rewrite tbl_find_is_None; [done|]. intros t Ht. unfold token_live.
  destruct (is_token h t) eqn:E; [|done]. unfold is_token in E. prop_bool.
  destruct (Hall t Ht E) as [x ->]. done.
Qed.

(** Revoking a refresh family cuts off its access tokens: a bearer token
    issued together with any refresh token of the family no longer
    authenticates, at any instant. *)
Theorem revoke_family_revokes_access now now2 f f' b d d' r t token i :
  reachable d →
  revoke_oauth_refresh_token_family now f d = (Ok b, d') →
  _validate_token_lookup f = Ok f' →
  r ∈ oauth_refresh_tokens d → rt_family r = f' → rt_access_token_id r = Some i →
  t ∈ auth_tokens d → at_token_id t = Some i → _hash_bearer_token token = Ok (at_token_hash t) →
  auth_context_for_token now2 token d' = (Ok None, d').
Proof.
  intros Hd%reachable_inv Hrev Hf Hr Hrf Hra Ht Hti Hh.
  eapply auth_context_revoked; [done|]. clear Hh.
  rewrite (revoke_family_run _ _ _ _ Hf) in Hrev. injection Hrev as _ <-.
  destruct d as [users tokens idents sess clients refs fams codes states projs mems]. cbn in *.
  intros x (x0 & Hx0 & ->)%elem_of_tbl_update Hxh.
  assert (x0 = t) as ->.
  { eapply (unique_eq at_token_hash); [apply Hd|done..|].
    destruct (linked _ _ x0); done. }
  match goal with |- context [linked ?p ?d t] => assert (linked p d t = true) as -> end; [|by eexists].
  unfold linked. apply existsb_elem. exists r. split; [done|].
  unfold in_family, has_token_id, opt_is. by rewrite Hra, Hti, Hrf, !String.eqb_refl.
Qed.

(** The row a refresh token is stored as. *)
Definition refresh_row (now : instant) (h f client owner : string) (scopes : list string)
    (resource : string) (access : option string) (expires : string) (revoked : bool) : refresh_token :=
  mk_refresh_token h f client owner (scopes_json scopes) resource access (sql_timestamp now) expires
    None (if revoked then Some (isoformat now) else None).

(** What a successful creation did: the tables [oauth_tables] of the database
    [dx] are those of [d]. *)
Lemma create_refresh_run now token f client owner scopes resource access expires d info d' :
  create_oauth_refresh_token now token f client owner scopes resource access expires d = (Ok info, d') →
  ∃ h f' c o sc dx, _hash_bearer_token token = Ok h ∧ _validate_token_lookup f = Ok f' ∧
    _validate_token_lookup client = Ok c ∧ _validate_owner_id owner = Ok o ∧
    _normalize_token_scopes (Some scopes) = Ok sc ∧ same oauth_tables d dx ∧
    let revoked := existsb (is_family f') (oauth_refresh_token_families d) in
    let row := refresh_row now h f' c o sc resource access expires revoked in
    existsb (is_refresh h) (oauth_refresh_tokens d) = false ∧
    _oauth_refresh_token_from_row row = Ok info ∧
    d' = (match access with
          | Some i => if revoked && negb (String.eqb i "")
                      then on_tokens (tbl_update (has_token_id i) (set_token_revoked (sql_timestamp now)))
                      else id
          | None => id end) (on_refresh (λ t, t ++ [row]) dx).
Proof.
  unfold create_oauth_refresh_token, written. intros Hc. inv_run. inv_ok.
  repeat match goal with
  | H : ensure_user _ _ _ = _ |- _ => apply (moves_run _ _ _ _ _ (ensure_user_frame _ _)) in H
  | H : _ensure_default_project _ _ _ = _ |- _ =>
      apply (moves_run _ _ _ _ _ (ensure_default_frame _ _)) in H
  | H : tbl_insert _ _ _ _ = _ |- _ => apply tbl_insert_Ok in H as [Hnew ->]
  | H : from_option_err _ ?o = Ok ?r |- _ => destruct o eqn:Hfind; [injection H as ->|discriminate H]
  end.
  match goal with H1 : same _ d ?s, H2 : same _ ?s ?s' |- _ =>
    assert (Hsame : same oauth_tables d s') by (etrans; eauto); clear H1 H2; rename s' into dx end.
  pose proof Hsame as Hs. injection Hs as _ Hsr Hsf _ _ _ _ _. rewrite Hsf, Hsr in *.
  eexists _, _, _, _, _, dx. do 6 (split; [eassumption|]). cbn zeta. split; [done|].
  match goal with H : on_refresh (λ _, _) dx = ?x |- _ =>
    rewrite <-Hsr, (on_refresh_const (λ t, t ++ _)) in H; subst x end.
  match goal with |- context [refresh_row ?a ?b ?c ?d ?e ?f ?g ?h ?i ?j] =>
    set (row := refresh_row a b c d e f g h i j) end.
  match goal with |- _ ∧ ?d' = ?g (on_refresh _ _) => assert (Hd' : d' = g (on_refresh (λ t, t ++ [row]) dx)) end.
  { destruct access as [i|]; [destruct (_ && _)|]; inv_run; done. }
  split; [|done]. rewrite Hd' in Hfind. revert Hfind.
  match goal with |- tbl_find _ (oauth_refresh_tokens (?g ?y)) = _ → _ =>
    assert (oauth_refresh_tokens (g y) = oauth_refresh_tokens dx ++ [row]) as -> end.
  { destruct dx, access as [i|]; [destruct (_ && _)|]; done. }
  rewrite tbl_find_snoc; [by intros [= ->]|by rewrite Hsr|]. apply String.eqb_refl.
Qed.

(** Rotation cannot resurrect a family: a refresh token created in a family
    that has been revoked is returned revoked, and the access token issued with
    it is revoked by the same transaction. *)
Theorem refresh_in_revoked_family now token f client owner scopes resource access expires d info d' :
  create_oauth_refresh_token now token f client owner scopes resource (Some access) expires d = (Ok info, d') →
  family_revoked (ri_family info) d → access ≠ "" →
  is_Some (ri_revoked_at info) ∧
  ∀ t, t ∈ auth_tokens d' → at_token_id t = Some access → is_Some (at_revoked_at t).
Proof.
  intros (h & f' & c & o & sc & dx & _ & _ & _ & _ & _ & Hs & Hn & Hrow & ->)%create_refresh_run Hrev Hne.
  apply refresh_info_row in Hrow as (Hfam & -> & _). cbn in Hfam. rewrite Hfam in Hrev.
  unfold family_revoked in Hrev. rewrite Hrev. cbn. split; [by eexists|].
  apply String.eqb_neq in Hne as ->. cbn. intros t Ht Hid.
  assert (Ht' : t ∈ tbl_update (has_token_id access) (set_token_revoked (sql_timestamp now)) (auth_tokens dx))
    by (by destruct dx).
  apply elem_of_tbl_update in Ht' as (t0 & _ & ->).
  destruct (has_token_id access t0) eqn:E; [by eexists|]. unfold has_token_id in E.
  rewrite Hid in E. cbn in E. by rewrite String.eqb_refl in E.
Qed.

(** ** Quotas *)

Lemma count_snoc {R} (p : R → bool) t r :
  tbl_count p (t ++ [r]) = (tbl_count p t + if p r then 1 else 0)%Z.
Proof. rewrite tbl_count_app. unfold tbl_count, tbl_select. cbn. by destruct (p r). Qed.

Lemma state_stale_active now s : state_stale now s = negb (state_active now s).
Proof. unfold state_stale, state_active. by rewrite negb_andb. Qed.

Lemma create_state_run now state provider browser nonce verifier data expires quota global d d' :
  create_oauth_provider_state now state provider browser nonce verifier data expires quota global d = (Ok tt, d') →
  ∃ h b row kept, _hash_oauth_ephemeral_secret state "state" = Ok h ∧
    _hash_oauth_ephemeral_secret browser "browser-session" = Ok b ∧
    row = mk_provider_state h provider b nonce verifier (json_dumps_ascii (VDict data)) (sql_timestamp now) expires None ∧
    kept = tbl_delete (state_stale now) (oauth_provider_states d) ∧
    existsb (is_state h) kept = false ∧
    (tbl_count (state_active now) kept < global)%Z ∧
    (tbl_count (λ s, String.eqb (ps_browser s) b && state_active now s) kept < quota)%Z ∧
    d' = on_states (λ _, kept ++ [row]) d.
Proof.
  unfold create_oauth_provider_state. intros Hc. inv_run. inv_ok.
  match goal with H : tbl_insert _ _ _ _ = _ |- _ => apply tbl_insert_Ok in H as [Hnew ->] end.
  match goal with H : _ = d' |- _ => subst d' end.
  eexists _, _, _, _. split; [eassumption|]. split; [eassumption|].
  split; [reflexivity|]. split; [reflexivity|]. destruct d; cbn in *.
  rewrite !Z.leb_gt in *. done.
Qed.

(** The sign-in quotas hold after every successful start of a sign-in: at
    most [max_global] pending states are active, at most [max] of them for the
    browser, and no consumed or expired state but the new one is kept. *)
Theorem provider_state_quota now state provider browser nonce verifier data expires max max_global d d' :
  create_oauth_provider_state now state provider browser nonce verifier data expires max max_global d = (Ok tt, d') →
  ∃ b, _hash_oauth_ephemeral_secret browser "browser-session" = Ok b ∧
    (tbl_count (state_active now) (oauth_provider_states d') ≤ max_global)%Z ∧
    (tbl_count (λ s, String.eqb (ps_browser s) b && state_active now s) (oauth_provider_states d') ≤ max)%Z ∧
    ∀ s, s ∈ oauth_provider_states d' → state_active now s = true ∨
         _hash_oauth_ephemeral_secret state "state" = Ok (ps_hash s).
Proof.
  intros (h & b & row & kept & Hh & Hb & Hrow & Hkept & _ & Hg & Hq & ->)%create_state_run.
  exists b. split; [done|]. destruct d; cbn in *.
  rewrite !count_snoc.
  split; [destruct (state_active now row); lia|]. split; [destruct (String.eqb _ _ && _); lia|].
  intros s [Hs| ->%list_elem_of_singleton]%elem_of_app.
  - left. subst kept. apply elem_of_tbl_delete in Hs as [_ Hs].
    rewrite state_stale_active in Hs. by prop_bool.
  - right. by subst row.
Qed.

(** The row a registration writes, and what reading it back returns when the
    client was first created at [created]. *)
Definition client_row (now : instant) (h name : string) (uris : list string) (expires : string) :=
  mk_oauth_client_row h (or_default "MCP client" (Some name)) (json_dumps_ascii (VList (map VStr uris)))
    (sql_timestamp now) expires None.
Definition registered_info (h name : string) (uris : list string) (created expires : string) : client_info :=
  mk_client_info h (or_default "MCP client" (Some name)) (VList (map VStr uris)) created expires None.

Lemma client_find_upsert now h name uris expires t :
  let new := client_row now h name uris expires in
  ∃ created, tbl_find (is_client h) (tbl_upsert (is_client h) new (set_client_registered new) t) = Some
    (mk_oauth_client_row h (oc_client_name new) (oc_redirect_uris new) created expires None).
Proof.
  intros new. rewrite tbl_find_upsert; [|done|apply String.eqb_refl].
  destruct (tbl_find (is_client h) t) as [c|] eqn:E; [|by eexists].
  apply tbl_find_Some in E as [_ E]. unfold is_client in E. prop_bool.
  exists (oc_created_at c). unfold set_client_registered. by rewrite E.
Qed.

Lemma client_from_row h name uris created expires now :
  _oauth_client_from_row (mk_oauth_client_row h (oc_client_name (client_row now h name uris expires))
     (oc_redirect_uris (client_row now h name uris expires)) created expires None)
  = Ok (registered_info h name uris created expires).
Proof. unfold _oauth_client_from_row. cbn [oc_redirect_uris client_row]. by rewrite loads_dumps_ascii by apply wf_str_list. Qed.

Lemma create_client_run now id h name uris expires max_active d :
  _validate_token_lookup id = Ok h →
  create_oauth_client now id name uris expires max_active d =
  if Z.leb max_active (tbl_count (client_active now) (oauth_clients d))
  then (Raise (OAuthClientQuotaExceeded "active OAuth client quota exceeded"), d)
  else let new := client_row now h name uris expires in
       let d' := on_clients (tbl_upsert (is_client h) new (set_client_registered new)) d in
       (c ← from_option_err (RuntimeError "oauth client could not be created")
              (tbl_find (is_client h) (oauth_clients d')); _oauth_client_from_row c, d').
Proof.
  intros E. unfold create_oauth_client, written. rewrite E.
  unfold mbind, M_bind, lift, transaction, query, guard_err, exec. cbv beta iota zeta.
  destruct (Z.leb _ _); [done|]. fold (client_row now h name uris expires).
  destruct (tbl_find _ _); done.
Qed.

(** Dynamic client registration: it is refused, leaving the store as it was,
    exactly when the quota of active clients is used up; otherwise it succeeds
    within the quota, the redirect URIs survive their JSON column, and the
    registered client is found again exactly until its expiry. *)
Theorem oauth_client_registration now now2 id h name uris expires max_active d :
  reachable d → _validate_token_lookup id = Ok h →
  let active := tbl_count (client_active now) (oauth_clients d) in
  let run := create_oauth_client now id name uris expires max_active d in
  ((max_active ≤ active)%Z → run = (Raise (OAuthClientQuotaExceeded "active OAuth client quota exceeded"), d)) ∧
  ((active < max_active)%Z → ∃ created d', run = (Ok (registered_info h name uris created expires), d') ∧
     (tbl_count (client_active now) (oauth_clients d') ≤ max_active)%Z ∧
     oauth_client now2 id d' =
       (Ok (if unexpired now2 expires then Some (registered_info h name uris created expires) else None), d')).
Proof.
  intros Hi%reachable_inv Hv active run. unfold run. rewrite (create_client_run _ _ _ _ _ _ _ _ Hv). fold active.
  destruct (Z.leb_spec max_active active) as [Hq|Hq]; split; [done|lia|lia|]. intros _. cbn zeta.
  set (new := client_row now h name uris expires).
  destruct (client_find_upsert now h name uris expires (oauth_clients d)) as [created Hf]. fold new in Hf.
  set (d' := on_clients _ d).
  assert (Hc : oauth_clients d' = tbl_upsert (is_client h) new (set_client_registered new) (oauth_clients d))
    by by destruct d.
  exists created, d'. rewrite Hc, Hf. split_and!.
  - cbn [from_option_err mbind result_bind]. unfold new. by rewrite client_from_row.
  - assert (Hle : (tbl_count (client_active now) (tbl_upsert (is_client h) new (set_client_registered new) (oauth_clients d))
        ≤ active + 1)%Z); [|lia].
    eapply (tbl_count_upsert_one oc_client_id); [apply Hi|]. unfold is_client. intros. prop_bool. congruence.
  - unfold oauth_client. rewrite Hv.
    unfold mbind, M_bind, lift, query. cbv beta iota zeta. rewrite Hc. f_equal.
    rewrite (tbl_find_and oc_client_id (is_client h) (client_active now2) _ _) with (3 := Hf).
    + unfold client_active. cbn [null oc_revoked_at oc_expires_at andb].
      destruct (unexpired now2 expires); [|done]. cbn [one_row]. unfold new. by rewrite client_from_row.
    + apply unique_upsert; [done| |apply Hi]. unfold is_client. intros ? ->. apply String.eqb_refl.
    + unfold is_client. intros. prop_bool. congruence.
Qed.
End facts.

(** ** The theorems on concrete histories *)

Import Sample.

Lemma authorization_code_single_use_witness :
  ∃ info d', consume_oauth_authorization_code noon "c1" "cli" "http://localhost/cb" "ch" db_code = (Ok (Some info), d') ∧
  (consume_oauth_authorization_code noon "c1" "cli" "http://localhost/cb" "ch" (after (OpRevokeFamily "fam") d')).1 = Ok None.
Proof.
  eexists _, _. split; [vm_compute; reflexivity|].
  eapply (authorization_code_single_use noon "c1" "cli" "http://localhost/cb" "ch" db_code);
   [apply db_code_reachable|vm_compute; reflexivity|apply one_step].
Defined.

Lemma authorization_code_bound_witness :
  ∃ d1 d2 info,
    create_oauth_authorization_code noon "c2" "cli" "bob" "http://localhost/b" "ch2" "res" "" "2026-07-15T12:05:00+00:00" db_code = (Ok tt, d1) ∧
    consume_oauth_authorization_code noon "c2" "cli" "http://localhost/b" "ch2" d1 = (Ok (Some info), d2) ∧
    unexpired noon "2026-07-15T12:05:00+00:00" = true ∧ info =
      mk_code_info "cli" (co_owner_id info) "http://localhost/b" "ch2" "res" "" (sql_timestamp noon) "2026-07-15T12:05:00+00:00".
Proof.
  eexists _, _, _. split; [vm_compute; reflexivity|]. split; [vm_compute; reflexivity|].
  edestruct (authorization_code_bound noon "c2" "cli" "bob" "http://localhost/b" "ch2" "res" "" "2026-07-15T12:05:00+00:00" db_code)
    with (now2 := noon) (client2 := "cli") (uri2 := "http://localhost/b") (challenge2 := "ch2")
    as (_ & _ & _ & Hu & _ & Hinfo); [vm_compute; reflexivity|apply rtc_refl|vm_compute; reflexivity|].
  split; [exact Hu|exact Hinfo].
Defined.

Lemma refresh_token_single_use_witness :
  ∃ info d', consume_oauth_refresh_token noon "r1" db_refresh = (Ok (Some info), d') ∧
  (consume_oauth_refresh_token noon "r1" (after (OpUseToken "t1") d')).1 = Ok None.
Proof.
  eexists _, _. split; [vm_compute; reflexivity|].
  eapply (refresh_token_single_use noon "r1" db_refresh);
   [apply db_refresh_reachable|vm_compute; reflexivity|apply one_step].
Defined.

Lemma revoked_family_stays_dead_witness :
  ∃ d', revoke_oauth_refresh_token_family noon "fam" db_refresh = (Ok true, d') ∧
  let d'' := after (OpCreateRefresh "r2" "fam" "cli" "alice" ["memory:read"] "res" None "2026-07-16T12:00:00+00:00") d' in
  length (oauth_refresh_tokens d'') = 2 ∧
  ∀ r, r ∈ oauth_refresh_tokens d'' → rt_family r = "fam" → is_Some (rt_revoked_at r).
Proof.
  eexists. split; [vm_compute; reflexivity|]. split; [vm_compute; reflexivity|].
  edestruct (revoked_family_stays_dead noon "fam" true db_refresh) as (f & Hf & Hdead & _);
    [apply db_refresh_reachable|vm_compute; reflexivity|apply one_step|].
  injection Hf as <-. exact Hdead.
Defined.

Lemma revoke_family_revokes_access_witness :
  ∃ d', revoke_oauth_refresh_token_family noon "fam" db_refresh = (Ok true, d') ∧
  (auth_context_for_token noon "t1" db_refresh).1 = Ok (Some (mk_auth_context "alice" (Some "tok_1") ["memory:read"])) ∧
  auth_context_for_token noon "t1" d' = (Ok None, d').
Proof.
  eexists. split; [vm_compute; reflexivity|]. split; [vm_compute; reflexivity|].
  eapply (revoke_family_revokes_access noon noon "fam" "fam" true db_refresh _
    (default (mk_refresh_token "" "" "" "" "" "" None "" "" None None) (head (oauth_refresh_tokens db_refresh)))
    (default (mk_auth_token "" None "" None None None "" None None None) (head (auth_tokens db_refresh))) "t1" "tok_1").
  - apply db_refresh_reachable.
  - vm_compute; reflexivity.
  - vm_compute; reflexivity.
  - vm_compute. left.
  - vm_compute; reflexivity.
  - vm_compute; reflexivity.
  - vm_compute. left.
  - vm_compute; reflexivity.
  - vm_compute; reflexivity.
Defined.

Lemma refresh_in_revoked_family_witness :
  let d := after (OpRevokeFamily "fam") db_token in
  ∃ info d', create_oauth_refresh_token noon "r2" "fam" "cli" "alice" ["memory:read"] "res" (Some "tok_1")
    "2026-07-16T12:00:00+00:00" d = (Ok info, d') ∧ is_Some (ri_revoked_at info).
Proof.
  eexists _, _. split; [vm_compute; reflexivity|].
  eapply (refresh_in_revoked_family noon "r2" "fam" "cli" "alice" ["memory:read"] "res" "tok_1"
    "2026-07-16T12:00:00+00:00" (after (OpRevokeFamily "fam") db_token));
    [vm_compute; reflexivity|vm_compute; reflexivity|discriminate].
Defined.

Lemma provider_state_quota_witness :
  ∃ d', create_oauth_provider_state noon "s1" "google" "browser" "n" "v" [] "2026-07-16T12:00:00+00:00" 5 100 empty_db
    = (Ok tt, d') ∧ (tbl_count (state_active noon) (oauth_provider_states d') ≤ 100)%Z.
Proof.
  eexists. split; [vm_compute; reflexivity|].
  edestruct (provider_state_quota noon "s1" "google" "browser" "n" "v" [] "2026-07-16T12:00:00+00:00" 5 100 empty_db)
    as (b & _ & Hg & _); [vm_compute; reflexivity|exact Hg].
Defined.

Lemma oauth_client_registration_witness :
  ∃ created d', create_oauth_client noon "cli" "App" ["http://localhost/cb"] "2026-07-16T12:00:00+00:00" 1 empty_db
     = (Ok (registered_info "cli" "App" ["http://localhost/cb"] created "2026-07-16T12:00:00+00:00"), d') ∧
   (tbl_count (client_active noon) (oauth_clients d') ≤ 1)%Z.
Proof.
  destruct (oauth_client_registration noon noon "cli" "cli" "App" ["http://localhost/cb"] "2026-07-16T12:00:00+00:00" 1
    empty_db reachable_empty eq_refl) as [_ Hok].
  destruct Hok as (created & d' & Hrun & Hq & _); [vm_compute; reflexivity|].
  exists created, d'. split; [exact Hrun|exact Hq].
Defined.
