(* ===== verification/AuthFacts.v ===== *)
(** * Guarantees of users, projects, bearer tokens and web sessions *)
From Stdlib Require Import ZArith Lia.
From S2P Require Import Prelude PyStr Json Hash Clock Identity AuthDb AuthStore OAuthStore AuthSystem Samples OAuthFacts.

Section facts.
Context `{HashLib} `{Environ}.

(** ** Users *)

Definition user_exists (o : string) (d : AuthDb) : Prop := existsb (is_user o) (users d) = true.

Lemma upsert_user_exists now o n d u d' : upsert_user now o n d = (Ok u, d') → user_exists o d'.
Proof.
  unfold upsert_user. intros ->%exec_run. unfold user_exists. destruct d; cbn.
  rewrite tbl_find_existsb, tbl_find_upsert; [done|done|apply String.eqb_refl].
Qed.
Lemma ensure_default_users now w o : moves (keeps (user_exists o)) (_ensure_default_project now w).
Proof.
  unfold _ensure_default_project, ensure_user, write_projects, _upsert_project_membership. walk;
    repeat (case_match; simplify_eq);
    match goal with |- keeps _ ?s _ => destruct s; unfold keeps, user_exists; cbn; auto end.
  apply existsb_insert_ignore_mono.
Qed.

(** ** Bearer tokens *)

(** What a successful issue did, [dx] being the database after the user and
    project bookkeeping of the same transaction. *)
Lemma create_token_run now owner token name tname expires scopes fresh d info d' :
  create_auth_token now owner token name tname expires scopes fresh d = (Ok info, d') →
  ∃ o h j sc dx, _validate_owner_id owner = Ok o ∧ _hash_bearer_token token = Ok h ∧
    _token_id_from_bearer_token token = Ok j ∧ _normalize_token_scopes scopes = Ok sc ∧
    statements d dx ∧ same oauth_tables d dx ∧ user_exists o dx ∧
    let new := mk_auth_token h (Some (default fresh j)) o tname (Some (_token_prefix token))
                 (Some (scopes_json sc)) (sql_timestamp now) None expires None in
    d' = on_tokens (tbl_upsert (is_token h) new (set_token_reissued new)) dx ∧
    ∃ t, tbl_find (is_token h) (tbl_upsert (is_token h) new (set_token_reissued new) (auth_tokens dx)) = Some t ∧
         _token_from_row t = Ok info.
Proof.
  unfold create_auth_token, write_tokens, written. intros Hc. inv_run. inv_ok.
  repeat match goal with H : (if ?c then _ else _) = Ok _ |- _ => destruct c; [|discriminate H] end.
  simplify_eq.
  match goal with H : upsert_user _ _ _ _ = _, H' : _ensure_default_project _ _ _ = _ |- _ =>
    pose proof (upsert_user_exists _ _ _ _ _ _ H) as Hu;
    apply (moves_run _ _ _ _ _ (ensure_default_users _ _ _) H') in Hu;
    pose proof (moves_run _ _ _ _ _ (upsert_user_frame _ _ _) H) as Hf1;
    pose proof (moves_run _ _ _ _ _ (ensure_default_frame _ _) H') as Hf2;
    apply (moves_run _ _ _ _ _ (upsert_user_st _ _ _)) in H;
    apply (moves_run _ _ _ _ _ (ensure_default_st _ _)) in H';
    pose proof (PreOrder_Transitive _ _ _ H H') as Hst;
    pose proof (PreOrder_Transitive _ _ _ Hf1 Hf2) as Hf
  end.
  eexists _, _, _, _, _. do 4 (split; [eassumption|]). do 3 (split; [eassumption|]).
  split; [reflexivity|].
  match goal with H : from_option_err _ ?o = Ok ?r |- _ => destruct o eqn:Hfind; [injection H as ->|discriminate H] end.
  eexists. split; [|eassumption].
  match type of Hfind with tbl_find _ (auth_tokens (on_tokens _ ?d)) = _ => destruct d end. exact Hfind.
Qed.

Lemma statements_keep I d d' :
  (∀ d d', statement d d' → keeps I d d') → statements d d' → I d → I d'.
Proof. intros HI. induction 1 as [|??? Hst ? IH]; [done|]. intros Hd. apply IH. by eapply HI. Qed.

Lemma token_info_scopes t info : _token_from_row t = Ok info →
  _parse_token_scopes (at_scopes t) = Ok (ti_scopes info) ∧
  ti_token_id info = default "None" (at_token_id t) ∧ ti_owner_id info = at_owner_id t.
Proof. unfold _token_from_row. intros Hr. inv_ok. by subst. Qed.

(** An issued bearer token authenticates as the owner it was issued to, with
    the normalised scopes it was issued with and under the identifier that was
    returned, until its expiry test fails - also when the token was known, and
    even revoked, before. *)
Theorem issued_token_authenticates now now2 owner token name tname expires scopes fresh d info d' :
  reachable d →
  create_auth_token now owner token name tname expires scopes fresh d = (Ok info, d') →
  ∃ o sc id, _validate_owner_id owner = Ok o ∧ _normalize_token_scopes scopes = Ok sc ∧
    ti_owner_id info = o ∧ ti_scopes info = sc ∧ ti_revoked_at info = None ∧
    default "None" id = ti_token_id info ∧
    (auth_context_for_token now2 token d').1 =
      Ok (if match expires with None => true | Some e => unexpired now2 e end
          then Some (mk_auth_context o id sc) else None).
Proof.
  intros Hi%reachable_inv (o & h & j & sc & dx & Ho & Hh & _ & Hsc & Hst & Hsame & Hu & Hrun)%create_token_run.
  set (new := mk_auth_token h _ o _ _ _ _ _ _ _) in Hrun. cbn zeta in Hrun.
  destruct Hrun as [-> (t & Hfind & Hinfo)].
  apply (statements_keep auth_inv _ _ statement_inv Hst) in Hi.
  pose proof Hfind as Hfind'. rewrite tbl_find_upsert in Hfind' by (done || apply String.eqb_refl).
  assert (Ht : at_owner_id t = o ∧ at_scopes t = Some (scopes_json sc) ∧ at_revoked_at t = None ∧ at_expires_at t = expires).
  { injection Hfind' as <-. by destruct (tbl_find _ _). }
  destruct Ht as (Hto & Hts & Htr & Hte).
  pose proof (token_info_scopes _ _ Hinfo) as (Hsc' & Hid & Hown).
  assert (Hrev : ti_revoked_at info = at_revoked_at t).
  { unfold _token_from_row in Hinfo. inv_ok. by subst. }
  exists o, sc, (at_token_id t). rewrite Hown, Hrev, Htr.
  rewrite Hts in Hsc'. rewrite (_parse_token_scopes_roundtrip _ _ Hsc) in Hsc'. injection Hsc' as <-.
  do 6 (split; [done|]).
  rewrite (auth_context_run _ _ _ _ Hh).
  set (d' := on_tokens _ dx).
  assert (Htok : auth_tokens d' = tbl_upsert (is_token h) new (set_token_reissued new) (auth_tokens dx)) by by destruct dx.
  assert (Husr : users d' = users dx) by by destruct dx.
  set (q := λ t', null (at_revoked_at t') && existsb (λ u, is_user (at_owner_id t') u && null (u_disabled_at u)) (users d')
                && match at_expires_at t' with None => true | Some e => unexpired now2 e end).
  assert (Hlive : tbl_find (token_live now2 d' h) (auth_tokens d') = if q t then Some t else None).
  { rewrite Htok, <-(tbl_find_and at_token_hash (is_token h) q _ _) with (3 := Hfind).
    - apply tbl_find_ext. intros r. unfold token_live, q. by rewrite !andb_assoc.
    - apply unique_upsert; [done| |apply Hi]. unfold is_token. intros ? ->. apply String.eqb_refl.
    - unfold is_token. intros. prop_bool. congruence. }
  rewrite Hlive. unfold q. rewrite Htr, Hte, Hto, Husr. cbn [null andb].
  assert (existsb (λ u, is_user o u && null (u_disabled_at u)) (users dx) = true) as ->.
  { apply existsb_elem in Hu as (u & Hin & Huo). apply existsb_elem. exists u. split; [done|].
    rewrite Huo. pose proof (proj1 (Forall_forall _ _) (inv_enabled _ Hi) u Hin) as He.
    unfold enabled in He. by rewrite He. }
  cbn [andb]. destruct (match expires with None => _ | Some _ => _ end); [|done].
  rewrite Hts, (_parse_token_scopes_roundtrip _ _ Hsc). cbn. by rewrite Hto.
Qed.

Lemma opt_is_Some i o : opt_is i o = true ↔ o = Some i.
Proof. destruct o as [x|]; cbn; [|done]. rewrite String.eqb_eq. naive_solver. Qed.

Lemma token_ids_unique t1 t2 ts i :
  NoDup (omap at_token_id ts) → t1 ∈ ts → t2 ∈ ts → at_token_id t1 = Some i → at_token_id t2 = Some i → t1 = t2.
Proof.
  induction ts as [|t ts IH]; [by intros _ ?%not_elem_of_nil|].
  intros Hnd. rewrite !elem_of_cons. cbn in Hnd.
  assert (Hin : ∀ x, x ∈ ts → at_token_id x = Some i → i ∈ omap at_token_id ts).
  { intros x Hx Hxi. apply list_elem_of_omap. by exists x. }
  destruct (at_token_id t) as [k|] eqn:Ek.
  - apply NoDup_cons in Hnd as [Hk Hnd].
    intros [->|H1] [->|H2] E1 E2; [done| | |by auto]; exfalso; apply Hk; simplify_eq; eauto.
  - intros [->|H1] [->|H2] E1 E2; [done|congruence|congruence|by auto].
Qed.

(** Revoking by identifier: the token whose identifier was revoked no longer
    authenticates, at any instant, and every other token's row is unchanged. *)
Theorem revoked_token_rejected now now2 id d info d' t token :
  reachable d →
  revoke_auth_token now id d = (Ok (Some info), d') →
  _validate_token_lookup id = Ok (default "None" (at_token_id t)) →
  t ∈ auth_tokens d → is_Some (at_token_id t) → _hash_bearer_token token = Ok (at_token_hash t) →
  auth_context_for_token now2 token d' = (Ok None, d') ∧
  (∀ t', t' ∈ auth_tokens d → t' ≠ t → t' ∈ auth_tokens d').
Proof.
  intros Hi%reachable_inv Hr Hv Ht [i Hti] Hh. rewrite Hti in Hv. cbn in Hv.
  unfold revoke_auth_token in Hr. rewrite Hv in Hr. inv_run. simplify_eq.
  destruct (tbl_find _ (auth_tokens d)) as [t0|] eqn:E; [|inv_run; discriminate].
  pose proof (tbl_find_Some _ _ _ E) as [Ht0 Hid%opt_is_Some].
  assert (t0 = t) as -> by (eapply token_ids_unique; [apply Hi|done..]).
  inv_run. split.
  - eapply auth_context_revoked; [done|]. destruct d; cbn in *.
    intros ? (t0 & Hx0 & ->)%elem_of_tbl_update. unfold is_token.
    destruct (String.eqb_spec (at_token_hash t0) (at_token_hash t)) as [|Hne]; [by eexists|done].
  - destruct d; cbn in *. intros t' Ht' Hne. apply elem_of_tbl_update. exists t'. split; [done|].
    unfold is_token. destruct (String.eqb_spec (at_token_hash t') (at_token_hash t)) as [He|]; [|done].
    exfalso. apply Hne. eapply (unique_eq at_token_hash); [apply Hi|done..].
Qed.

(** ** Web sessions *)

Lemma session_run now session h d :
  _validate_secret_hash session "session_id_hash" = Ok h →
  web_session_for_hash now session d =
  match tbl_find (λ s, is_session h s && null (ws_revoked_at s) && unexpired now (ws_expires_at s)) (web_sessions d) with
  | Some s => (Ok (Some s), on_sessions (tbl_update (is_session h) (set_session_seen (sql_timestamp now))) d)
  | None => (Ok None, d)
  end.
Proof.
  intros E. unfold web_session_for_hash. rewrite E.
  unfold mbind, M_bind, lift, transaction, query, exec, mret, M_ret. cbv beta iota zeta.
  by destruct (tbl_find _ _).
Qed.

(** Signing out ends the session: after a session is revoked no lookup finds
    it, and revoking it again changes nothing and reports so. *)
Theorem revoked_session_gone now now2 session b d d' :
  revoke_web_session now session d = (Ok b, d') →
  web_session_for_hash now2 session d' = (Ok None, d') ∧
  revoke_web_session now2 session d' = (Ok false, d').
Proof.
  unfold revoke_web_session. intros Hr. inv_run.
  match goal with H : _validate_secret_hash _ _ = Ok ?x |- _ => rename x into h; rename H into Hv end.
  set (p := λ s, is_session h s && null (ws_revoked_at s)).
  set (d' := on_sessions _ d).
  assert (Hd' : web_sessions d' = tbl_update p (set_session_revoked (sql_timestamp now)) (web_sessions d))
    by by destruct d.
  assert (Hnone : ∀ s, s ∈ web_sessions d' → p s = false).
  { rewrite Hd'. intros s (s0 & _ & ->)%elem_of_tbl_update. destruct (p s0) eqn:E; [|done].
    unfold p. cbn. by rewrite andb_false_r. }
  split.
  - rewrite (session_run _ _ _ _ Hv). rewrite tbl_find_is_None; [done|].
    intros s Hs. specialize (Hnone s Hs). unfold p in Hnone. by rewrite Hnone.
  - rewrite Hv. unfold mbind, M_bind, lift, transaction, query, exec, mret, M_ret. cbv beta iota zeta.
    fold p.
    assert (Hex : existsb p (web_sessions d') = false).
    { rewrite tbl_find_existsb. by rewrite tbl_find_is_None. }
    assert (on_sessions (tbl_update p (set_session_revoked (sql_timestamp now2))) d' = d') as ->.
    { clearbody d'. destruct d'; cbn in *. by rewrite tbl_update_none. }
    f_equal. f_equal. unfold tbl_count, tbl_select.
    assert (List.filter p (web_sessions d') = []) as ->; [|done].
    clear -Hnone. induction (web_sessions d') as [|s t IH]; [done|]. cbn.
    rewrite Hnone by (by left). apply IH. intros; apply Hnone; by right.
Qed.

(** ** Projects and roles *)

Lemma role_known r v : _validate_project_role r = Ok v → ∃ n, role_rank v = Ok n.
Proof.
  unfold _validate_project_role, role_rank, dict_has. intros Hr.
  destruct (dict_get _ _) eqn:E; simplify_eq/=. rewrite E. by eexists.
Qed.

(** The membership row that decides a user's role in a project. *)
Definition member_row (d : AuthDb) (p u : string) : option membership :=
  tbl_find (is_membership p u) (project_memberships d).

Lemma has_role_eval d p user role pid need :
  auth_inv d → _validate_project_id p = Ok pid → _validate_project_role role = Ok need →
  ∃ n, role_rank need = Ok n ∧
  project_has_role p user role d =
  (match user with
   | None => Ok (String.eqb pid LOCAL_DEFAULT_PROJECT_ID)
   | Some u => uid ← _validate_owner_id u;
       Ok (live_project d pid && match member_row d pid uid with
           | Some m => match role_rank (pm_role m) with Ok k => Z.leb n k | Raise _ => false end
           | None => false end)
   end, d).
Proof.
  intros Hi Hp Hr. destruct (role_known _ _ Hr) as [n Hn].
  exists n. split; [done|]. unfold project_has_role. rewrite Hp, Hr.
  unfold mbind, M_bind, result_bind, lift, query, mret, M_ret. cbv beta iota zeta.
  destruct user as [u|]; [|done]. destruct (_validate_owner_id u) as [uid|]; [|done].
  assert (Hm : tbl_find (λ m, is_membership pid uid m && live_project d (pm_project_id m)) (project_memberships d)
    = if live_project d pid then member_row d pid uid else None).
  { unfold member_row. destruct (live_project d pid) eqn:Hl.
    - apply tbl_find_ext. intros m. unfold is_membership.
      destruct (String.eqb_spec (pm_project_id m) pid) as [->|]; [|done]. rewrite Hl. by rewrite andb_true_r.
    - apply tbl_find_is_None. intros m _. unfold is_membership.
      destruct (String.eqb_spec (pm_project_id m) pid) as [->|]; [|done]. rewrite Hl. by rewrite andb_false_r. }
  rewrite Hm. destruct (live_project d pid); [|done]. cbn [andb].
  destruct (member_row d pid uid) as [m|] eqn:E; [|done].
  unfold member_row in E. apply tbl_find_Some in E as [Hin _].
  pose proof (proj1 (Forall_forall _ _) (inv_roles _ Hi) m Hin) as Hk. unfold role_ok, dict_has in Hk.
  unfold role_rank at 1 3. destruct (dict_get (pm_role m) _) as [k|]; [|done]. cbn. by rewrite Hn.
Qed.

(** Authorization is decided by the membership alone: in a reachable
    database a user holds a required role in a project exactly when the project
    is not archived and the user's single membership there has a role of at
    least that rank; a caller without a user only holds the local project. *)
Theorem project_has_role_decides d p user role pid need :
  reachable d → _validate_project_id p = Ok pid → _validate_project_role role = Ok need →
  ∃ n, role_rank need = Ok n ∧
  project_has_role p user role d =
  (match user with
   | None => Ok (String.eqb pid LOCAL_DEFAULT_PROJECT_ID)
   | Some u => uid ← _validate_owner_id u;
       Ok (live_project d pid && match member_row d pid uid with
           | Some m => match role_rank (pm_role m) with Ok k => Z.leb n k | Raise _ => false end
           | None => false end)
   end, d).
Proof. intros Hi%reachable_inv. by apply has_role_eval. Qed.

Definition default_of (o : string) (p : project) : bool :=
  opt_is o (p_owner_id p) && p_is_default p && null (p_archived_at p).

Lemma ensure_default_run now owner d p d' :
  ensure_default_project now (Some owner) d = (Ok p, d') →
  ∃ o pid, _validate_owner_id owner = Ok o ∧
    tbl_find (λ p, is_project pid p && null (p_archived_at p)) (projects d') = Some p ∧
    (∃ m, member_row d' pid o = Some m ∧ pm_role m = PROJECT_ROLE_ADMIN) ∧
    match tbl_find (default_of o) (projects d) with
    | Some p0 => pid = p_id p0 ∧ projects d' = projects d
    | None => pid = _default_project_id o ∧
        projects d' = tbl_upsert (is_project pid)
          (mk_project pid (Some o) "Private Default" None true (sql_timestamp now) (sql_timestamp now) None)
          (set_project_default (sql_timestamp now)) (projects d)
    end.
Proof.
  unfold ensure_default_project, written, _ensure_default_project, _get_project_row,
    _upsert_project_membership, ensure_user, write_projects. intros Hc. inv_run.
  match goal with H : _validate_owner_id _ = Ok ?x |- _ => rename x into o end.
  match goal with H : from_option_err _ ?o = Ok ?r |- _ => destruct o eqn:Hfind; [injection H as ->|discriminate H] end.
  fold (default_of o) in *.
  match goal with H : context [match tbl_find ?p (projects (on_users ?f d)) with _ => _ end] |- _ =>
    replace (projects (on_users f d)) with (projects d) in H by (by destruct d);
    change p with (default_of o) in H end.
  exists o.
  destruct (tbl_find (default_of o) (projects d)) as [p0|] eqn:E; inv_run;
    repeat match goal with H : (if ?c then _ else _) = Ok _ |- _ => destruct c; [injection H as <-|discriminate H] end;
    eexists; (split; [done|]); (split; [exact Hfind|]);
    destruct d; cbn; (split; [|done]);
    unfold member_row; cbn.
  all: rewrite tbl_find_upsert;
    [| done | unfold is_membership; cbn; by rewrite !String.eqb_refl].
  all: eexists; (split; [done|]).
  all: case_match; done.
Qed.

Lemma ensure_default_project_inv now o d : auth_inv d → auth_inv (ensure_default_project now o d).2.
Proof. apply (op_inv now (OpEnsureProject o) d). Qed.

(** The project id derived from an owner is not another owner's project. *)
Definition default_id_free (o : string) (d : AuthDb) : Prop :=
  ∀ q, q ∈ projects d → p_id q = _default_project_id o → p_owner_id q = Some o.

Lemma ensured_default now owner d p d' o :
  reachable d → _validate_owner_id owner = Ok o → default_id_free o d →
  ensure_default_project now (Some owner) d = (Ok p, d') →
  auth_inv d' ∧ default_of o p = true ∧ p ∈ projects d' ∧ tbl_find (default_of o) (projects d') = Some p ∧
  ∃ m, member_row d' (p_id p) o = Some m ∧ pm_role m = PROJECT_ROLE_ADMIN.
Proof.
  intros Hi%reachable_inv Hv Hfree Hrun.
  assert (Hi' : auth_inv d').
  { assert (Hd' : d' = (ensure_default_project now (Some owner) d).2) by by rewrite Hrun.
    rewrite Hd'. by apply ensure_default_project_inv. }
  apply ensure_default_run in Hrun as (o' & pid & Hv' & Hfind & Hm & Hcase).
  rewrite Hv in Hv'. injection Hv' as <-.
  pose proof (tbl_find_Some _ _ _ Hfind) as [Hin Hp]. unfold is_project in Hp. prop_bool. subst pid.
  assert (Hdef : default_of o p = true).
  { unfold default_of.
    match goal with H : null (p_archived_at p) = true |- _ => rewrite H, andb_true_r end.
    destruct (tbl_find (default_of o) (projects d)) as [p0|] eqn:E.
    - destruct Hcase as [Hid Hps]. apply tbl_find_Some in E as [Hin0 Hd0].
      rewrite Hps in Hin. assert (p = p0) as -> by (eapply (unique_eq p_id); [apply Hi|done..]).
      unfold default_of in Hd0. by apply andb_true_iff in Hd0 as [-> _].
    - destruct Hcase as [Hid Hps]. rewrite Hps in Hin.
      apply elem_of_tbl_upsert in Hin as [->|[[Hin Hne]|(q & Hq & Hqp & ->)]].
      + cbn. by rewrite String.eqb_refl.
      + unfold is_project in Hne. by rewrite String.eqb_refl in Hne.
      + cbn. unfold is_project in Hqp. prop_bool. rewrite (Hfree q Hq) by congruence. cbn.
        by rewrite String.eqb_refl. }
  do 3 (split; [done|]). split; [|done].
  apply tbl_find_only; [done..|]. intros q Hq Hqd.
  unfold default_of in Hdef, Hqd. prop_bool.
  repeat match goal with H : opt_is _ _ = true |- _ => apply opt_is_Some in H end.
  eapply (unique_eq p_owner_id (List.filter p_is_default (projects d')));
    [apply (inv_defaults _ Hi')|apply list_elem_of_In, filter_In; by rewrite <-list_elem_of_In ..|congruence].
Qed.

Lemma ensure_default_found now owner o d p :
  _validate_owner_id owner = Ok o → tbl_find (default_of o) (projects d) = Some p →
  tbl_find (λ q, is_project (p_id p) q && null (p_archived_at q)) (projects d) = Some p →
  (ensure_default_project now (Some owner) d).1 = Ok p ∧
  projects (ensure_default_project now (Some owner) d).2 = projects d.
Proof.
  intros Hv Hd Hf.
  unfold ensure_default_project, written, _ensure_default_project, _get_project_row,
    _upsert_project_membership, ensure_user. rewrite Hv.
  unfold mbind, M_bind, lift, transaction, query, exec, mret, M_ret. cbv beta iota zeta.
  fold (default_of o). destruct d. cbn in *. rewrite Hd. cbn. by rewrite Hf.
Qed.

Lemma role_rank_admin r v n : _validate_project_role r = Ok v → role_rank v = Ok n → (n ≤ 3)%Z.
Proof.
  unfold _validate_project_role. destruct (dict_has _ _); [|done]. intros [= <-]. unfold role_rank.
  cbn. repeat (case_match; [intros [= <-]; lia|]). done.
Qed.

(** Every owner has one private default project.  Resolving it succeeds with
    an unarchived default project owned by the owner, on which the owner holds
    every role; resolving it again, at any later time, gives the same project
    and leaves the projects unchanged. *)
Theorem default_project_settled now now2 owner d p d' o role need :
  reachable d → _validate_owner_id owner = Ok o → default_id_free o d →
  ensure_default_project now (Some owner) d = (Ok p, d') →
  _validate_project_id (p_id p) = Ok (p_id p) → _validate_project_role role = Ok need →
  p_owner_id p = Some o ∧ p_is_default p = true ∧ p_archived_at p = None ∧
  (project_has_role (p_id p) (Some owner) role d').1 = Ok true ∧
  (ensure_default_project now2 (Some owner) d').1 = Ok p ∧
  projects (ensure_default_project now2 (Some owner) d').2 = projects d'.
Proof.
  intros Hd Hv Hfree Hrun Hpid Hneed.
  destruct (ensured_default _ _ _ _ _ _ Hd Hv Hfree Hrun) as (Hi & Hdef & Hin & Hfind & m & Hm & Hrole).
  pose proof Hdef as Hdef'. unfold default_of in Hdef'. prop_bool.
  assert (Ho : p_owner_id p = Some o) by by apply opt_is_Some.
  assert (Ha : p_archived_at p = None) by by destruct (p_archived_at p).
  do 3 (split; [done|]). split.
  - destruct (has_role_eval d' (p_id p) (Some owner) role _ _ Hi Hpid Hneed) as (n & Hn & ->).
    rewrite Hv. cbn [mbind result_bind fst]. rewrite Hm, Hrole. cbn [role_rank].
    pose proof (role_rank_admin _ _ _ Hneed Hn).
    assert (live_project d' (p_id p) = true) as ->.
    { apply existsb_elem. exists p. unfold is_project. by rewrite String.eqb_refl, Ha. }
    cbn. by destruct (Z.leb_spec n 3); [|lia].
  - eapply ensure_default_found; [done..|].
    apply (tbl_find_unique p_id); [apply Hi| |done|unfold is_project; by rewrite String.eqb_refl, Ha].
    unfold is_project. intros. by prop_bool.
Qed.

(** ** Sign-in identities *)

Lemma identity_run now provider subject user username email name d i d' :
  find_or_create_oauth_identity now provider subject user username email name d = (Ok i, d') →
  ∃ p s o, _validate_oauth_provider provider = Ok p ∧ _validate_oauth_subject subject = Ok s ∧
    (match user with Some u => _validate_owner_id u | None => Ok (_oauth_user_id p s) end) = Ok o ∧
    let new := mk_oauth_identity p s o username (_normalize_email email) name (sql_timestamp now) (sql_timestamp now) in
    oauth_identities d' = tbl_upsert (is_identity p s) new (set_identity_login new (sql_timestamp now)) (oauth_identities d) ∧
    tbl_find (is_identity p s) (oauth_identities d') = Some i.
Proof.
  unfold find_or_create_oauth_identity, written. intros Hc. inv_run.
  match goal with H1 : _validate_oauth_provider _ = Ok ?p, H2 : _validate_oauth_subject _ = Ok ?s, H : _ d = (Ok ?o, ?x) |- _ =>
    assert (match user with Some u => _validate_owner_id u | None => Ok (_oauth_user_id p s) end = Ok o ∧ x = d)
      as [Ho ->] by (destruct user; inv_run; done) end.
  repeat match goal with
  | H : upsert_user _ _ _ _ = _ |- _ => apply (moves_run _ _ _ _ _ (upsert_user_frame _ _ _)) in H; injection H as _ _ _ _ _ _ _ Hf1
  | H : _ensure_default_project _ _ _ = _ |- _ =>
      apply (moves_run _ _ _ _ _ (ensure_default_frame _ _)) in H; injection H as _ _ _ _ _ _ _ Hf2
  end.
  match goal with H : from_option_err _ ?o = Ok ?r |- _ => destruct o eqn:Hfind; [injection H as ->|discriminate H] end.
  eexists _, _, _. split; [eassumption|]. split; [eassumption|].
  split.
  { exact Ho. }
  split; [|exact Hfind].
  match goal with |- oauth_identities (on_identities ?f ?y) = _ =>
    transitivity (f (oauth_identities y)); [by destruct y|] end.
  by rewrite Hf2, Hf1.
Qed.

(** A sign-in never rebinds an identity: once a provider's subject is linked
    to a user, signing in again - with any profile, or naming another user -
    returns the same user, and another subject's link is left alone. *)
Theorem identity_never_rebound now provider subject user username email name d i0 i d' p s :
  reachable d →
  _validate_oauth_provider provider = Ok p → _validate_oauth_subject subject = Ok s →
  find_or_create_oauth_identity now provider subject user username email name d = (Ok i, d') →
  i0 ∈ oauth_identities d →
  (identity_key i0 = (p, s) → oi_user_id i = oi_user_id i0) ∧
  (identity_key i0 ≠ (p, s) → i0 ∈ oauth_identities d').
Proof.
  intros Hi%reachable_inv Hp Hs (p' & s' & o & Hp' & Hs' & _ & Htab & Hfind)%identity_run Hin.
  simplify_eq. rewrite Hp in Hp'; injection Hp' as <-. rewrite Hs in Hs'; injection Hs' as <-.
  assert (Hkey : is_identity p s i0 = true ↔ identity_key i0 = (p, s)).
  { unfold is_identity, identity_key. rewrite andb_true_iff, !String.eqb_eq. naive_solver. }
  split; intros Hk.
  - assert (Hf0 : tbl_find (is_identity p s) (oauth_identities d) = Some i0).
    { apply (tbl_find_unique identity_key); [apply Hi| |done|by apply Hkey].
      unfold is_identity. intros r ?. prop_bool. rewrite Hk. unfold identity_key. congruence. }
    rewrite Htab, tbl_find_upsert, Hf0 in Hfind; [by injection Hfind as <-|done|].
    unfold is_identity. cbn. by rewrite !String.eqb_refl.
  - rewrite Htab. unfold tbl_upsert. case_match; [|apply elem_of_app; by left].
    apply elem_of_tbl_update. exists i0. split; [done|].
    destruct (is_identity p s i0) eqn:E; [|done]. exfalso. by apply Hk, Hkey.
Qed.

(** ** Expiry *)

Lemma same_day_text t1 t2 : (t1 / 86400 = t2 / 86400)%Z → date_text t1 = date_text t2.
Proof. unfold date_text. by intros ->. Qed.

(** Expiry has the granularity of a UTC day.  An instant is compared as the
    ISO text of the caller with SQLite's CURRENT_TIMESTAMP, so only the dates
    are compared: an authorization code issued with the 300 second lifetime is
    still redeemed at any later instant of the UTC day its lifetime ended in. *)
Theorem expired_code_redeemed_same_day issued now code client owner uri challenge resource scope d d' client' :
  _validate_token_lookup client = Ok client' →
  create_oauth_authorization_code issued code client owner uri challenge resource scope
    (isoformat (issued + 300)%Z) d = (Ok tt, d') →
  (issued + 300 < now)%Z → (now / 86400 = (issued + 300) / 86400)%Z →
  ∃ info d'', consume_oauth_authorization_code now code client' uri challenge d' = (Ok (Some info), d'').
Proof.
  intros Hcl (h & c & o & Hh & Hc & _ & Hnew & ->)%create_code_run _ Hday.
  rewrite Hcl in Hc. injection Hc as <-.
  rewrite (consume_code_run _ _ _ _ _ _ _ Hh).
  set (row := mk_auth_code _ _ _ _ _ _ _ _ _ _).
  assert (Hm : code_matches now h client' uri challenge row = true).
  { unfold code_matches, is_code, row. cbn. rewrite !String.eqb_refl. cbn.
    unfold unexpired. rewrite text_gt_iso_sql. rewrite (same_day_text _ _ Hday).
    unfold text_gt, String.ltb. by rewrite str_compare_refl. }
  destruct (tbl_find _ _) as [r|] eqn:E; [by do 2 eexists|].
  apply (tbl_find_None _ _ row) in E; [congruence|].
  destruct d; cbn. apply elem_of_app. right. by left.
Qed.
End facts.

(** ** The theorems on concrete histories *)

Import Sample.

Lemma issued_token_authenticates_witness :
  ∃ info d', create_auth_token noon "alice" "t9" None None None (Some ["memory:read "; "memory:read"]) "tok_9" db_token
    = (Ok info, d') ∧ ∃ id sc, default "None" id = ti_token_id info ∧
    (auth_context_for_token noon "t9" d').1 = Ok (Some (mk_auth_context "alice" id sc)).
Proof.
  eexists _, _. split; [vm_compute; reflexivity|].
  edestruct (issued_token_authenticates noon noon "alice" "t9" None None None (Some ["memory:read "; "memory:read"])
    "tok_9" db_token) as (o & sc & id & Ho & _ & _ & _ & _ & Hid & Hcx);
    [apply db_token_reachable|vm_compute; reflexivity|].
  injection Ho as <-. exists id, sc. split; [exact Hid|exact Hcx].
Defined.

Lemma revoked_token_rejected_witness :
  ∃ info d', revoke_auth_token noon "tok_1" db_token = (Ok (Some info), d') ∧
  auth_context_for_token noon "t1" d' = (Ok None, d').
Proof.
  eexists _, _. split; [vm_compute; reflexivity|].
  edestruct (revoked_token_rejected noon noon "tok_1" db_token)
    with (t := default (mk_auth_token "" None "" None None None "" None None None) (head (auth_tokens db_token)))
         (token := "t1") as [Hcx _].
  - apply db_token_reachable.
  - vm_compute; reflexivity.
  - vm_compute; reflexivity.
  - vm_compute. left.
  - vm_compute. eexists; reflexivity.
  - vm_compute; reflexivity.
  - exact Hcx.
Defined.

Definition sample_session : string :=
  "pbkdf2-sha256:0123456789abcdef0123456789abcdef0123456789abcdef0123456789abcdef".
Lemma revoked_session_gone_witness :
  let d := after (OpCreateSession sample_session "alice" sample_session "2026-07-16T12:00:00+00:00") empty_db in
  ∃ d', revoke_web_session noon sample_session d = (Ok true, d') ∧
  web_session_for_hash noon sample_session d' = (Ok None, d').
Proof.
  eexists. split; [vm_compute; reflexivity|].
  edestruct (revoked_session_gone noon noon sample_session true
    (after (OpCreateSession sample_session "alice" sample_session "2026-07-16T12:00:00+00:00") empty_db)) as [Hn _];
    [vm_compute; reflexivity|exact Hn].
Defined.

Lemma project_has_role_decides_witness :
  let d := after (OpAddMember "proj" "bob" "writer") (after (OpCreateProject "proj" "alice" None None false) empty_db) in
  project_has_role "proj" (Some "bob") "reader" d = (Ok true, d) ∧
  project_has_role "proj" (Some "bob") "admin" d = (Ok false, d).
Proof.
  intros d. assert (Hd : reachable d) by (apply reachable_after, reachable_after, reachable_empty).
  destruct (project_has_role_decides d "proj" (Some "bob") "reader" "proj" "reader" Hd eq_refl eq_refl) as (n & Hn & Hr).
  destruct (project_has_role_decides d "proj" (Some "bob") "admin" "proj" "admin" Hd eq_refl eq_refl) as (n' & Hn' & Hr').
  injection Hn as <-. injection Hn' as <-. rewrite Hr, Hr'. split; vm_compute; reflexivity.
Defined.

Lemma default_project_settled_witness :
  ∃ p d', ensure_default_project noon (Some "alice") empty_db = (Ok p, d') ∧
  (project_has_role (p_id p) (Some "alice") "admin" d').1 = Ok true ∧
  (ensure_default_project noon (Some "alice") d').1 = Ok p.
Proof.
  eexists _, _. split; [vm_compute; reflexivity|].
  edestruct (default_project_settled noon noon "alice" empty_db)
    with (o := "alice") (role := "admin") (need := "admin") as (_ & _ & _ & Hr & Hp & _).
  - apply reachable_empty.
  - vm_compute; reflexivity.
  - intros q Hq. exfalso. inversion Hq.
  - vm_compute; reflexivity.
  - vm_compute; reflexivity.
  - vm_compute; reflexivity.
  - split; [exact Hr|exact Hp].
Defined.

Lemma identity_never_rebound_witness :
  let d := after (OpIdentity "google" "sub" None None (Some "a@x") None) empty_db in
  ∃ i0 i d', oauth_identities d = [i0] ∧
  find_or_create_oauth_identity noon "Google" "sub" (Some "mallory") None None None d = (Ok i, d') ∧
  oi_user_id i = oi_user_id i0.
Proof.
  eexists _, _, _. split; [vm_compute; reflexivity|]. split; [vm_compute; reflexivity|].
  edestruct (identity_never_rebound noon "Google" "sub" (Some "mallory") None None None
    (after (OpIdentity "google" "sub" None None (Some "a@x") None) empty_db))
    with (p := "google") (s := "sub") as [Hsame _].
  - apply reachable_after, reachable_empty.
  - vm_compute; reflexivity.
  - vm_compute; reflexivity.
  - vm_compute; reflexivity.
  - vm_compute. left.
  - apply Hsame. vm_compute; reflexivity.
Defined.

(** Issued at noon for five minutes, redeemed at eleven in the evening. *)
Lemma expired_code_redeemed_same_day_witness :
  ∃ d', create_oauth_authorization_code noon "c3" "cli" "alice" "http://localhost/cb" "ch" "" "" (isoformat (noon + 300)%Z)
     empty_db = (Ok tt, d') ∧
  ∃ info d'', consume_oauth_authorization_code (noon + 39600)%Z "c3" "cli" "http://localhost/cb" "ch" d' = (Ok (Some info), d'').
Proof.
  eexists. split; [vm_compute; reflexivity|].
  eapply (expired_code_redeemed_same_day noon (noon + 39600)%Z "c3" "cli" "alice" "http://localhost/cb" "ch" "" "" empty_db);
    [vm_compute; reflexivity|vm_compute; reflexivity|vm_compute; reflexivity|vm_compute; reflexivity].
Defined.
