(* ===== verification/OAuthEndpoint.v ===== *)
(** * The OAuth token endpoint ([memory/api/oauth_authorization.py])

    The token, refresh and revoke handlers over the store.  The service and
    agent layers between them forward every call to the store operation of the
    same name (and append to the audit log, another table); random secrets are
    the record [fresh]; the JWT library is a parameter. *)
From Stdlib Require Import ZArith Lia Ascii.
From S2P Require Import Prelude PyStr Json Hash Clock Config Identity AuthDb AuthStore OAuthStore.
Local Open Scope Z_scope.

Definition READ_SCOPE : string := "memory:read".
Definition WRITE_SCOPE : string := "memory:write".
Definition AUTHORIZATION_CODE_TTL_SECONDS : Z := 300.

(** [joserfc.jwt.encode({"alg": "HS256", "typ": "JWT"}, payload, key)] *)
Class JwtLib := { jwt_encode : dict → string → string }.

(** The secrets one token response draws. *)
Record fresh := mk_fresh {
  fresh_jti_hex : string; fresh_token_id : string; fresh_refresh : string; fresh_family : string }.

Inductive response := JSONResponse (status : Z) (body : value).

Definition utc_after (now : instant) (seconds : Z) : string := isoformat (now + seconds).

Definition or_scopes (scopes : list string) : list string :=
  match scopes with [] => [READ_SCOPE; WRITE_SCOPE] | _ => scopes end.

Definition _normalize_scopes (scopes : list string) : list string := or_scopes (nonempty_strips scopes).
Definition _scopes_from_scope_value (value : string) : list string := _normalize_scopes (split_ws value).

Definition _validate_requested_scopes (value : string) (config : HubConfig) : result unit :=
  guard_err (existsb (λ scope, negb (existsb (String.eqb scope) (scopes_supported (oauth config)))) (split_ws value))
    (OAuthError "invalid_scope" "One or more requested scopes are not supported").

(** [^[A-Za-z0-9._~-]{43,128}$] and [^[A-Za-z0-9_-]{43}$], [fullmatch]ed *)
Definition PKCE_VERIFIER_PATTERN (s : string) : bool :=
  sall (λ c, is_alnum_ascii c || in_chars "._~-" c) s && (43 <=? str_len s) && (str_len s <=? 128).
Definition PKCE_CHALLENGE_PATTERN (s : string) : bool :=
  sall (λ c, is_alnum_ascii c || in_chars "_-" c) s && (str_len s =? 43).

(** The bytes of a hexadecimal digest. *)
Definition hex_val (c : ascii) : Z := if is_decimal c then ord c - 48 else ord c - 87.
Fixpoint unhex (s : string) : list Z :=
  match s with
  | String a (String b r) => 16 * hex_val a + hex_val b :: unhex r
  | _ => []
  end.
Definition _pkce_challenge `{HashLib} (verifier : string) : string :=
  b64url_nopad (unhex (sha256_hex verifier)).

(** The clock is read at whole seconds; a week date is outside the model. *)
Definition _timestamp_is_expired (now : instant) (v : value) : result bool :=
  match v with
  | VNone => Ok false
  | VInt z => Ok (z <=? now)
  | VFloat _ => Raise OutsideModel
  | VBool b => Ok ((if b then 1 else 0) <=? now)
  | _ => match fromisoformat (replace "Z" "+00:00" (py_str v)) with
         | Ok parsed => Ok (utc_us parsed <=? now * 1000000)
         | Raise (ValueError _) => Ok true
         | Raise e => Raise e
         end
  end.

(** The payload of a token, an empty one when it cannot be read. *)
Definition jwt_payload (token : string) : result dict :=
  match split_on "." token with
  | [_; part; _] =>
      let padding := list_str (replicate (Z.to_nat ((- str_len part) mod 4)) "="%char) in
      match (b ← urlsafe_b64decode (part +:+ padding); json_loads_bytes b) with
      | Ok (VDict payload) => Ok payload
      | Ok _ => Ok []
      | Raise (ValueError _) => Ok []
      | Raise e => Raise e
      end
  | _ => Ok []
  end.

(** [str(form.get(key) or "")]: the fields of a posted form are texts. *)
Definition form_str (key : string) (form : list (string * string)) : string :=
  default "" (dict_get key form).

Section endpoint.
Context `{HashLib} `{Environ} `{JwtLib}.
Variable now : instant.
Variable config : HubConfig.
Notation DB := (M AuthDb).

Definition hub_token_payload (owner_id : string) (scopes : list string) (jti_hex : string) : dict :=
  [("sub", VStr owner_id); ("iss", VStr (rstrip_slash (public_base_url config)));
   ("aud", VStr (mcp_url_for_config config)); ("resource", VStr (mcp_url_for_config config));
   ("scope", VStr (join " " (or_scopes scopes))); ("iat", VInt now);
   ("exp", VInt (now + token_ttl_seconds (connect config))); ("jti", VStr ("tok_" +:+ jti_hex))].
Definition issue_hub_token (owner_id : string) (scopes : list string) (jti_hex : string) : string :=
  jwt_encode (hub_token_payload owner_id scopes jti_hex) (oauth_jwt_secret config).

(** The compensation of a half-issued pair: its own failure is only logged. *)
Definition _revoke_failed_access_token (token_id : string) : DB unit :=
  λ d, (Ok tt, (revoke_auth_token now token_id d).2).

(** [try: m except Exception: handler; raise] *)
Definition on_exception {A} (m : DB A) (handler : DB unit) : DB A := λ d,
  match m d with
  | (Ok a, d') => (Ok a, d')
  | (Raise e, d') => (Raise e, (handler d').2)
  end.

Definition token_body (access refresh : string) (scopes : list string) (resource jti : string) : value :=
  VDict [("access_token", VStr access); ("token_type", VStr "Bearer");
         ("expires_in", VInt (token_ttl_seconds (connect config))); ("refresh_token", VStr refresh);
         ("refresh_token_expires_in", VInt (refresh_token_ttl_seconds (oauth config)));
         ("scope", VStr (join " " scopes)); ("resource", VStr resource); ("jti", VStr jti)].

Definition _issue_access_and_refresh_tokens (f : fresh) (client_id owner_id resource : string)
    (scopes : list string) (token_family_id : option string) : DB response :=
  let normalized_scopes := _normalize_scopes scopes in
  let issued_token := issue_hub_token owner_id normalized_scopes (fresh_jti_hex f) in
  token_record ← create_auth_token now owner_id issued_token None (Some "MCP OAuth client")
    (Some (utc_after now (token_ttl_seconds (connect config)))) (Some normalized_scopes) (fresh_token_id f);
  access_token_id ← (if String.eqb (ti_token_id token_record) ""
    then payload ← lift (jwt_payload issued_token);
         mret (if truthy (vget "jti" payload) then py_str (vget "jti" payload) else "")
    else mret (ti_token_id token_record));
  let refresh_token := "amh_refresh_" +:+ fresh_refresh f in
  let family_id := or_default ("amh_family_" +:+ fresh_family f) token_family_id in
  _ ← on_exception
    (create_oauth_refresh_token now refresh_token family_id client_id owner_id normalized_scopes
       resource (Some access_token_id) (utc_after now (refresh_token_ttl_seconds (oauth config))))
    (_revoke_failed_access_token access_token_id);
  mret (JSONResponse 200 (token_body issued_token refresh_token normalized_scopes resource access_token_id)).

Definition invalid_refresh {A} : DB A := raise (OAuthError "invalid_grant" "Refresh token is invalid").

Definition _refresh_token_response (f : fresh) (form : list (string * string)) : DB response :=
  let refresh_token := form_str "refresh_token" form in
  let client_id := form_str "client_id" form in
  if String.eqb refresh_token "" then invalid_refresh else
  record ← oauth_refresh_token refresh_token;
  match record with
  | None => invalid_refresh
  | Some r =>
      if negb (String.eqb (ri_client_id r) client_id) then invalid_refresh else
      if negb (null (ri_revoked_at r)) || negb (null (ri_consumed_at r)) then
        _ ← revoke_oauth_refresh_token_family now (ri_family r); invalid_refresh
      else
      expired ← lift (_timestamp_is_expired now (VStr (ri_expires_at r)));
      if (expired : bool) then raise (OAuthError "invalid_grant" "Refresh token is expired") else
      consumed ← consume_oauth_refresh_token now refresh_token;
      match consumed with
      | Some c =>
          if null (ri_consumed_at c) then
            _ ← revoke_oauth_refresh_token_family now (ri_family r); invalid_refresh
          else _issue_access_and_refresh_tokens f client_id (ri_owner_id r) (ri_resource r)
                 (ri_scopes r) (Some (ri_family r))
      | None => _ ← revoke_oauth_refresh_token_family now (ri_family r); invalid_refresh
      end
  end.

(** The [authorization_code] branch. *)
Definition authorization_code_response (f : fresh) (form : list (string * string)) : DB response :=
  let verifier := form_str "code_verifier" form in
  if negb (PKCE_VERIFIER_PATTERN verifier)
  then raise (OAuthError "invalid_grant" "PKCE verification failed") else
  record ← consume_oauth_authorization_code now (form_str "code" form) (form_str "client_id" form)
    (form_str "redirect_uri" form) (_pkce_challenge verifier);
  match record with
  | None => raise (OAuthError "invalid_grant"
              "Authorization code is invalid, expired, or does not match request")
  | Some c => _issue_access_and_refresh_tokens f (co_client_id c) (co_owner_id c) (co_resource c)
                (_scopes_from_scope_value (co_scope c)) None
  end.

(** [except HTTPException: return _oauth_error_response(exc)] *)
Definition _oauth_error_response (m : DB response) : DB response := λ d,
  match m d with
  | (Raise (OAuthError error description), d') =>
      (Ok (JSONResponse 400 (VDict [("error", VStr error); ("error_description", VStr description)])), d')
  | r => r
  end.

Definition oauth_token (f : fresh) (form : list (string * string)) : DB response :=
  _oauth_error_response
    match dict_get "grant_type" form with
    | Some grant_type =>
        if String.eqb grant_type "refresh_token" then _refresh_token_response f form
        else if String.eqb grant_type "authorization_code" then authorization_code_response f form
        else raise (OAuthError "unsupported_grant_type" "Only authorization_code and refresh_token are supported")
    | None => raise (OAuthError "unsupported_grant_type" "Only authorization_code and refresh_token are supported")
    end.

Definition oauth_revoke (form : list (string * string)) : DB response :=
  let token := form_str "token" form in
  let empty := JSONResponse 200 (VDict []) in
  if String.eqb token "" then mret empty else
  revoked ← revoke_oauth_refresh_token now token;
  if (revoked : bool) then mret empty else
  revoked ← revoke_oauth_authorization_for_access_token now token;
  if (revoked : bool) then mret empty else
  payload ← lift (jwt_payload token);
  match vget "jti" payload with
  | VStr token_id =>
      if String.eqb token_id "" then mret empty
      else _ ← revoke_auth_token now token_id; mret empty
  | _ => mret empty
  end.
End endpoint.
