(* ===== verification/EndpointFacts.v ===== *)
(** * Guarantees of the OAuth token endpoint *)
From Stdlib Require Import ZArith Lia.
From S2P Require Import Prelude PyStr Json Hash Clock Config Identity AuthDb AuthStore OAuthStore AuthSystem Samples OAuthFacts AuthFacts OAuthEndpoint.

Section facts.
Context `{HashLib} `{Environ} `{JwtLib}.

Lemma refresh_row_info r :
  refresh_row_ok r → ∃ sc, _normalize_token_scopes (Some sc) = Ok sc ∧ rt_scopes r = scopes_json sc ∧
  _oauth_refresh_token_from_row r = Ok (mk_refresh_info (rt_hash r) (rt_family r) (rt_client_id r)
    (rt_owner_id r) sc (rt_resource r) (rt_access_token_id r) (rt_created_at r) (rt_expires_at r)
    (rt_consumed_at r) (rt_revoked_at r)).
Proof.
  intros (_ & _ & _ & sc & Hsc & Hr). exists sc. split; [done|]. split; [done|].
  unfold _oauth_refresh_token_from_row. rewrite Hr. by rewrite (_parse_token_scopes_roundtrip _ _ Hsc).
Qed.

(** Looking a refresh token up. *)
Lemma oauth_refresh_token_run token h d :
  _hash_bearer_token token = Ok h →
  oauth_refresh_token token d =
  (one_row _oauth_refresh_token_from_row (tbl_find (is_refresh h) (oauth_refresh_tokens d)), d).
Proof. intros Hh. unfold oauth_refresh_token. by rewrite Hh. Qed.

Lemma find_refresh d r :
  auth_inv d → r ∈ oauth_refresh_tokens d →
  tbl_find (is_refresh (rt_hash r)) (oauth_refresh_tokens d) = Some r.
Proof.
  intros Hi Hr. apply (tbl_find_unique rt_hash); [apply Hi| |done|apply String.eqb_refl].
  unfold is_refresh. intros. by prop_bool.
Qed.

(** Replay detection.  Presenting a refresh token that was already consumed
    or revoked is answered with invalid_grant and revokes its whole family:
    afterwards every refresh token of the family is revoked and the family is
    closed for good. *)
Theorem refresh_replay_revokes_family now config f form d r token :
  reachable d → form_str "refresh_token" form = token →
  _hash_bearer_token token = Ok (rt_hash r) → r ∈ oauth_refresh_tokens d →
  form_str "client_id" form = rt_client_id r →
  is_Some (rt_consumed_at r) ∨ is_Some (rt_revoked_at r) →
  ∃ d', _refresh_token_response now config f form d =
          (Raise (OAuthError "invalid_grant" "Refresh token is invalid"), d') ∧
    family_revoked (rt_family r) d' ∧
    ∀ r', r' ∈ oauth_refresh_tokens d' → rt_family r' = rt_family r → is_Some (rt_revoked_at r').
Proof.
  intros Hi%reachable_inv Htok Hh Hr Hcl Hspent.
  pose proof (proj1 (Forall_forall _ _) (inv_refresh_rows _ Hi) r Hr) as Hrow.
  destruct (refresh_row_info r Hrow) as (sc & Hsc & _ & Hinfo).
  destruct (revoke_oauth_refresh_token_family now (rt_family r) d) as [[b|e] d'] eqn:Hrev.
  2:{ rewrite (revoke_family_run _ _ _ _ (proj1 Hrow)) in Hrev. done. }
  pose proof (revoke_family_revoked _ _ _ _ _ Hrev) as (f' & Hf' & Hdead).
  rewrite (proj1 Hrow) in Hf'. injection Hf' as <-.
  assert (Hi' : auth_inv d').
  { assert (Hd' : d' = op_step now (OpRevokeFamily (rt_family r)) d) by (cbn; by rewrite Hrev).
    rewrite Hd'. by apply op_inv. }
  exists d'. split; [|split; [done|]].
  - unfold _refresh_token_response. rewrite Htok, Hcl.
    destruct (String.eqb_spec token "") as [->|Hne].
    { unfold _hash_bearer_token in Hh. done. }
    unfold mbind at 1, M_bind at 1. rewrite (oauth_refresh_token_run _ _ _ Hh), (find_refresh _ _ Hi Hr).
    cbn [one_row]. rewrite Hinfo. cbn [mbind result_bind ri_client_id ri_revoked_at ri_consumed_at ri_family].
    rewrite String.eqb_refl. cbn [negb].
    assert (negb (null (rt_revoked_at r)) || negb (null (rt_consumed_at r)) = true) as ->.
    { destruct Hspent as [[? ->]|[? ->]]; [by rewrite orb_true_r|done]. }
    unfold mbind, M_bind. by rewrite Hrev.
  - intros r' Hr' Hfam. apply (inv_closed _ Hi'); [done|]. by rewrite Hfam.
Qed.

(** What issuing a pair of tokens did. *)
Lemma issue_run now config f client owner resource scopes family d resp d' :
  _issue_access_and_refresh_tokens now config f client owner resource scopes family d = (Ok resp, d') →
  let sc := _normalize_scopes scopes in
  let access := issue_hub_token now config owner sc (fresh_jti_hex f) in
  let refresh := "amh_refresh_" +:+ fresh_refresh f in
  ∃ tinfo rinfo d1 jti,
    create_auth_token now owner access None (Some "MCP OAuth client")
      (Some (utc_after now (token_ttl_seconds (connect config)))) (Some sc) (fresh_token_id f) d = (Ok tinfo, d1) ∧
    create_oauth_refresh_token now refresh (or_default ("amh_family_" +:+ fresh_family f) family)
      client owner sc resource (Some jti) (utc_after now (refresh_token_ttl_seconds (oauth config))) d1 = (Ok rinfo, d') ∧
    (ti_token_id tinfo ≠ "" → jti = ti_token_id tinfo) ∧
    resp = JSONResponse 200 (token_body config access refresh sc resource jti).
Proof.
  unfold _issue_access_and_refresh_tokens. intros Hrun. cbn zeta in *.
  apply (proj1 (bind_run _ _ _ _ _)) in Hrun as (tinfo & d1 & Ht & Hrun).
  apply (proj1 (bind_run _ _ _ _ _)) in Hrun as (jti & d1' & Hj & Hrun).
  apply (proj1 (bind_run _ _ _ _ _)) in Hrun as (rinfo & d2 & Hr & Hrun).
  apply ret_run in Hrun as [<- ->].
  assert (d1' = d1 ∧ (ti_token_id tinfo ≠ "" → jti = ti_token_id tinfo)) as [-> Hjti].
  { destruct (String.eqb_spec (ti_token_id tinfo) "") as [E|E]; inv_run; (split; [done|]); intros; congruence. }
  unfold on_exception in Hr.
  destruct (create_oauth_refresh_token _ _ _ _ _ _ _ _ _ _) as [[?|?] ?] eqn:E; simplify_eq.
  do 4 eexists. eauto.
Qed.

Lemma _normalize_scopes_id sc : _normalize_token_scopes (Some sc) = Ok sc → _normalize_scopes sc = sc.
Proof.
  intros Hn. pose proof (_normalize_token_scopes_spec _ _ Hn) as (Hne & _ & Hin).
  unfold _normalize_scopes. rewrite nonempty_strips_id; [by destruct sc|].
  apply Forall_forall. intros s [Hs (y & _ & ->)]%Hin. split; [done|apply strip_idem].
Qed.

Lemma _normalize_scopes_idem xs : _normalize_scopes (_normalize_scopes xs) = _normalize_scopes xs.
Proof.
  unfold _normalize_scopes at 2 3. destruct (nonempty_strips xs) as [|y ys] eqn:E; [done|].
  cbn [or_scopes]. unfold _normalize_scopes. rewrite nonempty_strips_id; [done|].
  rewrite <-E. apply Forall_forall. intros s (Hs & z & _ & ->)%elem_of_nonempty_strips.
  split; [done|apply strip_idem].
Qed.

Lemma token_lookup_nonempty s : _validate_token_lookup s = Ok s → String.eqb s "" = false.
Proof. destruct s; [done|]. done. Qed.

Lemma spent_after_consume now token h d info d' :
  auth_inv d → _hash_bearer_token token = Ok h →
  consume_oauth_refresh_token now token d = (Ok (Some info), d') →
  refresh_spent h d' ∧ ∃ r, tbl_find (refresh_live now h) (oauth_refresh_tokens d) = Some r.
Proof.
  intros Hi Hh Hc. rewrite (consume_refresh_run _ _ _ _ Hh) in Hc. injection Hc as Hf <-.
  destruct (tbl_find _ _) as [r|] eqn:Hfind; [|done]. split; [|by eexists].
  by eapply refresh_spent_update.
Qed.

(** Rotation.  A refresh that succeeds was made with a live refresh token of
    the named client; that token is spent, and the response's refresh token is
    stored in the same family, for the same client, owner and resource and with
    exactly the same scopes: a refresh never widens a grant. *)
Theorem refresh_rotation now config f form d resp d' :
  reachable d → _refresh_token_response now config f form d = (Ok resp, d') →
  ∃ h r r', _hash_bearer_token (form_str "refresh_token" form) = Ok h ∧
    r ∈ oauth_refresh_tokens d ∧ refresh_live now h r = true ∧ rt_client_id r = form_str "client_id" form ∧
    refresh_spent h d' ∧
    r' ∈ oauth_refresh_tokens d' ∧ _hash_bearer_token ("amh_refresh_" +:+ fresh_refresh f) = Ok (rt_hash r') ∧
    rt_family r' = rt_family r ∧ rt_client_id r' = rt_client_id r ∧ rt_owner_id r' = rt_owner_id r ∧
    rt_resource r' = rt_resource r ∧ rt_scopes r' = rt_scopes r.
Proof.
  intros Hi%reachable_inv. unfold _refresh_token_response.
  destruct (String.eqb_spec (form_str "refresh_token" form) "") as [|Hne]; [done|].
  destruct (_hash_bearer_token (form_str "refresh_token" form)) as [h|e] eqn:Hh.
  2:{ unfold _hash_bearer_token in Hh. apply String.eqb_neq in Hne. by rewrite Hne in Hh. }
  intros Hrun. apply (proj1 (bind_run _ _ _ _ _)) in Hrun as (rec & d1 & Hrec & Hrun).
  rewrite (oauth_refresh_token_run _ _ _ Hh) in Hrec. injection Hrec as Hrec <-.
  destruct rec as [info|]; [|done]. apply one_row_Ok in Hrec as (r & Hfind & Hinfo).
  pose proof (tbl_find_Some _ _ _ Hfind) as [Hr Hrh].
  pose proof (proj1 (Forall_forall _ _) (inv_refresh_rows _ Hi) r Hr) as Hrow.
  destruct (refresh_row_info r Hrow) as (sc & Hsc & Hrsc & Hinfo').
  rewrite Hinfo in Hinfo'. injection Hinfo' as ->. cbn in Hrun.
  destruct (String.eqb_spec (rt_client_id r) (form_str "client_id" form)) as [Hcl|]; [|done]. cbn in Hrun.
  destruct (negb (null (rt_revoked_at r)) || negb (null (rt_consumed_at r))).
  { inv_run. done. }
  apply (proj1 (bind_run _ _ _ _ _)) in Hrun as (x & d1 & [_ ->]%lift_run & Hrun). destruct x; [done|].
  apply (proj1 (bind_run _ _ _ _ _)) in Hrun as (c & d2 & Hc & Hrun).
  destruct c as [c|]; [|by inv_run]. destruct (null (ri_consumed_at c)); [by inv_run|].
  destruct (spent_after_consume _ _ _ _ _ _ Hi Hh Hc) as (Hspent & r1 & Hr1).
  apply tbl_find_Some in Hr1 as [Hr1 Hlive].
  assert (r1 = r) as ->.
  { eapply (unique_eq rt_hash); [apply Hi|done..|]. unfold refresh_live, is_refresh in *. prop_bool. congruence. }
  apply issue_run in Hrun as (tinfo & rinfo & d3 & jti & Htok & Hnew & _).
  rewrite (_normalize_scopes_id _ Hsc) in Htok, Hnew.
  apply (moves_run _ _ _ _ _ (create_auth_token_st _ _ _ _ _ _ _ _)) in Htok.
  pose proof (moves_run _ _ _ _ _ (create_refresh_st _ _ _ _ _ _ _ _ _) Hnew) as Hst.
  apply create_refresh_run in Hnew as (h' & fam & cl & o & sc' & dx & Hh' & Hfam & Hcl' & Ho & Hsc' & _ & _ & _ & Hd').
  destruct Hrow as (Hrf & Hrc & Hro & _).
  rewrite <-Hcl in Hcl'. unfold or_default in Hfam. rewrite (token_lookup_nonempty _ Hrf) in Hfam.
  rewrite Hrf in Hfam. rewrite Hrc in Hcl'. rewrite Hro in Ho. rewrite Hsc in Hsc'.
  simplify_eq. eexists _, r, _. do 4 (split; [done|]).
  split. { eapply (statements_keep (refresh_spent h)); [apply refresh_spent_statement|exact Hst|].
           eapply (statements_keep (refresh_spent h)); [apply refresh_spent_statement|exact Htok|done]. }
  split.
  { match goal with |- _ ∈ oauth_refresh_tokens (?g (on_refresh ?u dx)) =>
      assert (oauth_refresh_tokens (g (on_refresh u dx)) = u (oauth_refresh_tokens dx)) as -> end.
    { destruct dx; by case_match. }
    apply elem_of_app. right. by apply list_elem_of_singleton. }
  unfold refresh_row. cbn. rewrite Hcl. done.
Qed.

(** PKCE.  The token endpoint issues tokens for an authorization code only
    when the posted verifier has the required form and its SHA-256 challenge,
    the client and the redirect URI are those of an unredeemed, unexpired code;
    the new refresh token belongs to that code's client and owner, and the code
    is spent. *)
Theorem authorization_code_grant now config f form d resp d' :
  reachable d → authorization_code_response now config f form d = (Ok resp, d') →
  ∃ h c r, _hash_bearer_token (form_str "code" form) = Ok h ∧ c ∈ oauth_authorization_codes d ∧
    PKCE_VERIFIER_PATTERN (form_str "code_verifier" form) = true ∧
    code_matches now h (form_str "client_id" form) (form_str "redirect_uri" form)
      (_pkce_challenge (form_str "code_verifier" form)) c = true ∧
    code_spent h d' ∧
    r ∈ oauth_refresh_tokens d' ∧ _hash_bearer_token ("amh_refresh_" +:+ fresh_refresh f) = Ok (rt_hash r) ∧
    _validate_token_lookup (ac_client_id c) = Ok (rt_client_id r) ∧
    _validate_owner_id (ac_owner_id c) = Ok (rt_owner_id r) ∧ rt_resource r = ac_resource c ∧
    ∃ sc, _normalize_token_scopes (Some (_scopes_from_scope_value (ac_scope c))) = Ok sc ∧ rt_scopes r = scopes_json sc.
Proof.
  intros Hi%reachable_inv. unfold authorization_code_response.
  destruct (PKCE_VERIFIER_PATTERN _) eqn:Hpkce; [cbn [negb]|done].
  intros Hrun. apply (proj1 (bind_run _ _ _ _ _)) in Hrun as (rec & d1 & Hc & Hrun).
  destruct rec as [info|]; [|done].
  destruct (_hash_bearer_token (form_str "code" form)) as [h|e] eqn:Hh.
  2:{ unfold consume_oauth_authorization_code in Hc. by rewrite Hh in Hc. }
  pose proof (consume_code_spent _ _ _ _ _ _ _ _ _ Hi Hh Hc) as Hsp.
  rewrite (consume_code_run _ _ _ _ _ _ _ Hh) in Hc. injection Hc as Hf _.
  apply fmap_Some in Hf as (c & [Hc Hm]%tbl_find_Some & ->). cbn in Hrun.
  apply issue_run in Hrun as (tinfo & rinfo & d3 & jti & Htok & Hnew & _).
  apply (moves_run _ _ _ _ _ (create_auth_token_st _ _ _ _ _ _ _ _)) in Htok.
  pose proof (moves_run _ _ _ _ _ (create_refresh_st _ _ _ _ _ _ _ _ _) Hnew) as Hst.
  apply create_refresh_run in Hnew as (h' & fam & cl & o & sc' & dx & Hh' & _ & Hcl' & Ho & Hsc' & _ & _ & _ & ->).
  eexists h, c, _. do 4 (split; [done|]).
  split. { eapply (statements_keep (code_spent h)); [apply code_spent_statement|exact Hst|].
           eapply (statements_keep (code_spent h)); [apply code_spent_statement|exact Htok|done]. }
  split.
  { match goal with |- _ ∈ oauth_refresh_tokens (?g (on_refresh ?u dx)) =>
      assert (oauth_refresh_tokens (g (on_refresh u dx)) = u (oauth_refresh_tokens dx)) as -> end.
    { destruct dx; by case_match. }
    apply elem_of_app. right. by apply list_elem_of_singleton. }
  unfold refresh_row. cbn. do 4 (split; [done|]). exists sc'. split; [|done].
  unfold _scopes_from_scope_value in *. by rewrite _normalize_scopes_idem in Hsc'.
Qed.
End facts.

(** ** The theorems on concrete requests *)

Import Sample.
(** A stand-in for the JWT library: three parts, the middle one not a payload. *)
#[local] Instance sample_jwt : JwtLib := {| jwt_encode := λ p _, "h.p." +:+ py_str (vget "jti" p) |}.
Definition sample_fresh : fresh := mk_fresh "00" "tok_2" "r2" "fam2".
Definition sample_verifier : string := "0123456789012345678901234567890123456789abc".
Definition refresh_form : list (string * string) :=
  [("grant_type", "refresh_token"); ("refresh_token", "r1"); ("client_id", "cli")].
Definition code_form : list (string * string) :=
  [("grant_type", "authorization_code"); ("code", "c9"); ("client_id", "cli");
   ("redirect_uri", "http://localhost/cb"); ("code_verifier", sample_verifier)].

Lemma refresh_replay_revokes_family_witness :
  let d := after (OpConsumeRefresh "r1") db_refresh in
  ∃ d', _refresh_token_response noon sample_config sample_fresh refresh_form d =
    (Raise (OAuthError "invalid_grant" "Refresh token is invalid"), d') ∧ family_revoked "fam" d'.
Proof.
  intros d.
  edestruct (refresh_replay_revokes_family noon sample_config sample_fresh refresh_form d)
    with (r := default (mk_refresh_token "" "" "" "" "" "" None "" "" None None) (head (oauth_refresh_tokens d)))
         (token := "r1") as (d' & Hrun & Hfam & _).
  - apply reachable_after, db_refresh_reachable.
  - vm_compute; reflexivity.
  - vm_compute; reflexivity.
  - vm_compute. left.
  - vm_compute; reflexivity.
  - left. vm_compute. eexists; reflexivity.
  - exists d'. split; [exact Hrun|exact Hfam].
Defined.

Lemma refresh_rotation_witness :
  ∃ resp d' r r', _refresh_token_response noon sample_config sample_fresh refresh_form db_refresh = (Ok resp, d') ∧
  r ∈ oauth_refresh_tokens db_refresh ∧ r' ∈ oauth_refresh_tokens d' ∧ rt_family r' = rt_family r ∧
  rt_owner_id r' = rt_owner_id r ∧ rt_scopes r' = rt_scopes r.
Proof.
  destruct (_refresh_token_response noon sample_config sample_fresh refresh_form db_refresh) as [[resp|e] d'] eqn:E;
    [|vm_compute in E; discriminate E].
  destruct (refresh_rotation noon sample_config sample_fresh refresh_form db_refresh resp d' db_refresh_reachable E)
    as (h & r & r' & _ & Hr & _ & _ & _ & Hr' & _ & Hf & _ & Ho & _ & Hs).
  exists resp, d', r, r'. repeat split; assumption.
Defined.

Lemma authorization_code_grant_witness :
  let d := after (OpCreateCode "c9" "cli" "alice" "http://localhost/cb" (_pkce_challenge sample_verifier) "res"
    "memory:read" "2026-07-16T12:00:00+00:00") empty_db in
  ∃ resp d', authorization_code_response noon sample_config sample_fresh code_form d = (Ok resp, d') ∧
  ∃ r, r ∈ oauth_refresh_tokens d' ∧ _validate_owner_id "alice" = Ok (rt_owner_id r).
Proof.
  intros d.
  destruct (authorization_code_response noon sample_config sample_fresh code_form d) as [[resp|e] d'] eqn:E;
    [|vm_compute in E; discriminate E].
  assert (Hd : reachable d) by apply reachable_after, reachable_empty.
  destruct (authorization_code_grant noon sample_config sample_fresh code_form d resp d' Hd E)
    as (h & c & r & _ & Hc & _ & _ & _ & Hr & _ & _ & Ho & _).
  exists resp, d'. split; [reflexivity|]. exists r. split; [exact Hr|].
  assert (oauth_authorization_codes d = [c]) as Hcs.
  { revert Hc. vm_compute (oauth_authorization_codes d). intros Hc. apply list_elem_of_singleton in Hc as ->. reflexivity. }
  rewrite <-Ho. vm_compute in Hcs. injection Hcs as <-. reflexivity.
Defined.
