(* ===== verification/AuthGate.v ===== *)
(** * The authorization gate ([memory/auth.py], [memory/api/connect_security.py])

    The middleware every HTTP request passes: public paths, bearer tokens, hub
    issued JWTs, the Connect session of an upload, required scopes, and the two
    error responses.  The gate's state is the identity database and the
    middleware's cache of external profiles; the validator of external OIDC
    tokens ([memory/api/external_oidc.py]) is an argument. *)
From Stdlib Require Import ZArith Lia Ascii.
From S2P Require Import Prelude PyStr Json Hash Clock Config Identity AuthDb AuthStore.
Local Open Scope Z_scope.

Definition PUBLIC_PATHS : list string :=
  ["/"; "/connect"; "/connect/import"; "/auth/google"; "/auth/google/callback"; "/auth/logout"; "/health";
   "/authorize"; "/oauth/authorize"; "/oauth/authorize/approve"; "/oauth/authorize/deny"; "/oauth/register";
   "/oauth/token"; "/oauth/revoke"; "/ready"; "/register"; "/token";
   "/.well-known/oauth-authorization-server"; "/.well-known/oauth-protected-resource"].
Definition READ_SCOPE : string := "memory:read".
Definition WRITE_SCOPE : string := "memory:write".
Definition AUTH_CONFIG_PATH : string :=
  "api.auth / api.oauth.scopes_supported / MCP client Authorization bearer token".
Definition AUTH_RECONNECT_HINT : string :=
  "Grant the ai-memory-hub MCP auth token the missing scope by reconnecting through the MCP OAuth/Connect flow or updating the bearer-token scopes in the MCP client/server auth configuration.".
Definition MCP_CLIENT_APPROVAL_HINT : string :=
  "Client tool approval only approves the local MCP call; it does not add bearer-token or OAuth scopes.".
Definition CONNECT_CSRF_HEADER : string := "x-ai-memory-hub-csrf".

(** A frozenset of texts, as its members without repetition. *)
Notation scope_set := (list string).
Definition sorted_set (s : scope_set) : list string := sorted_strs (dedup s).
Definition mem (x : string) (s : scope_set) : bool := existsb (String.eqb x) s.
Definition set_minus (a b : scope_set) : scope_set := List.filter (λ x, negb (mem x b)) a.

Record AuthContext := mk_AuthContext {
  owner_id : option string; token_id : option string; scopes : scope_set; auth_mode : string }.
Record AccessTokenClaims := mk_claims {
  claims_owner_id : string; claims_token_id : option string; claims_scopes : scope_set;
  claims_issuer : option string }.
(** [ExternalOIDCClaims] *)
Record ExternalOIDCClaims := mk_oidc_claims {
  ext_owner_id : string; ext_provider : string; ext_subject : string; ext_token_id : option string;
  ext_scopes : scope_set; ext_username : option string; ext_email : option string;
  ext_display_name : option string }.

(** What a handler reads of a request; header names are in lower case. *)
Record Request := mk_request {
  rq_method : string; rq_path : string; rq_headers : list (string * string);
  rq_query : list (string * string); rq_cookies : list (string * string) }.

(** A response of the gate, or the call of the next handler under a context. *)
Inductive outcome :=
| CallNext (auth : option AuthContext)
| Refused (status : Z) (body : dict) (headers : list (string * string)).

Definition profile : Type := option string * option string * option string.
Record GateState := mk_gate { gate_db : AuthDb; gate_profiles : list (string * profile) }.
(** A store operation, called by the gate. *)
Definition on_db {A} (m : M AuthDb A) : M GateState A := λ s,
  let (r, d) := m (gate_db s) in (r, mk_gate d (gate_profiles s)).

(** ** Requests *)

(** [value.partition(" ")] *)
Fixpoint partition_space (s : string) : string * string :=
  match s with
  | EmptyString => (EmptyString, EmptyString)
  | String c r => if Ascii.eqb c " "%char then (EmptyString, r)
                  else let (a, b) := partition_space r in (String c a, b)
  end.

Definition extract_bearer_token (request : Request) : option string :=
  match dict_get "authorization" (rq_headers request) with
  | None => None
  | Some value =>
      if String.eqb value "" then None else
      let (scheme, token) := partition_space value in
      if negb (String.eqb (lower scheme) "bearer") || String.eqb (strip token) "" then None
      else Some (strip token)
  end.

Definition _is_public_path (path : string) : bool :=
  mem path PUBLIC_PATHS || startswith "/connect/static/" path
  || startswith "/.well-known/oauth-authorization-server/" path || startswith "/auth/" path
  || startswith "/.well-known/oauth-protected-resource/" path.

Definition _is_mcp_path (path : string) : bool := String.eqb path "/mcp" || startswith "/mcp/" path.

Definition required_scopes_for_request (request : Request) : scope_set :=
  let path := rq_path request in
  if _is_mcp_path path then [READ_SCOPE]
  else if mem path ["/memory/import"; "/memory/insert"; "/memory/facts/supersede";
                    "/memory/pending/approve"; "/memory/pending/reject"] then [WRITE_SCOPE]
  else if startswith "/memory/" path then [READ_SCOPE]
  else [].

Definition _has_query_access_token (request : Request) : bool :=
  dict_has "access_token" (rq_query request) || dict_has "token" (rq_query request).

Definition _has_required_scopes (actual required : scope_set) : bool :=
  forallb (λ x, mem x actual) required.

(** ** Error responses *)

Section errors.
Variable config : HubConfig.

Definition resource_server : bool := mem (api_auth config) ["oauth_resource_server"; "oidc_resource_server"].

Definition _resource_metadata_url (path : string) : string :=
  rstrip_slash (public_base_url config) +:+ "/.well-known/oauth-protected-resource"
  +:+ (if _is_mcp_path path then "/mcp" else "").

Definition _challenge_scopes_for_request (request : Request) (required : scope_set) : scope_set :=
  if resource_server && _is_mcp_path (rq_path request) then
    let configured := if String.eqb (api_auth config) "oidc_resource_server"
      then oidc_scopes_supported (oidc config) else scopes_supported (oauth config) in
    match nonempty_strips configured with [] => required | supported => supported end
  else required.

Definition build_www_authenticate_challenge (request : Request) (error : option string)
    (challenge_scopes : scope_set) : string :=
  "Bearer realm=" +:+ char_str dquote +:+ "ai-memory-hub" +:+ char_str dquote
  +:+ match error with
      | Some e => if String.eqb e "" then "" else ", error=" +:+ char_str dquote +:+ e +:+ char_str dquote
      | None => "" end
  +:+ match challenge_scopes with
      | [] => "" | _ => ", scope=" +:+ char_str dquote +:+ join " " (sorted_set challenge_scopes) +:+ char_str dquote end
  +:+ (if resource_server
       then ", resource_metadata=" +:+ char_str dquote +:+ _resource_metadata_url (rq_path request) +:+ char_str dquote else "").

Definition _auth_error_message (request : Request) (error_code : string) (required granted : scope_set) : string :=
  let surface := if _is_mcp_path (rq_path request) then "MCP" else "HTTP API" in
  let required_text := or_str (join ", " (sorted_set required)) "no additional scopes" in
  if String.eqb error_code "insufficient_scope" then
    let missing := or_str (join ", " (sorted_set (set_minus required granted))) required_text in
    surface +:+ " request is authenticated but missing required scope(s): " +:+ missing +:+ ". "
    +:+ MCP_CLIENT_APPROVAL_HINT +:+ " " +:+ AUTH_RECONNECT_HINT
  else if String.eqb error_code "invalid_token" then
    surface +:+ " request used an invalid, expired, or unrecognized bearer token. Reconnect through the MCP OAuth/Connect flow or configure a valid bearer token with required scope(s): "
    +:+ required_text +:+ "."
  else
    surface +:+ " request requires an Authorization: Bearer token with required scope(s): "
    +:+ required_text +:+ ". Do not pass access tokens in query parameters. " +:+ AUTH_RECONNECT_HINT.

Definition str_values (xs : list string) : value := VList (map VStr xs).

Definition _auth_error_body (request : Request) (detail error_code : string) (required granted : scope_set) : dict :=
  [("detail", VStr detail); ("error_code", VStr error_code);
   ("error_message", VStr (_auth_error_message request error_code required granted));
   ("auth_mode", VStr (api_auth config)); ("required_scopes", str_values (sorted_set required));
   ("auth_config_path", VStr AUTH_CONFIG_PATH); ("auth_config_hint", VStr AUTH_RECONNECT_HINT)]
  ++ match granted with
     | [] => []
     | _ => [("granted_scopes", str_values (sorted_set granted));
             ("missing_scopes", str_values (sorted_set (set_minus required granted)))]
     end
  ++ (if resource_server then [("resource_metadata", VStr (_resource_metadata_url (rq_path request)))] else []).

Definition _auth_error_headers (error_code : string) (required granted : scope_set) : list (string * string) :=
  [("X-Ai-Memory-Hub-Error-Code", error_code);
   ("X-Ai-Memory-Hub-Required-Scopes", join " " (sorted_set required))]
  ++ match sorted_set (set_minus required granted) with
     | [] => [] | missing => [("X-Ai-Memory-Hub-Missing-Scopes", join " " missing)] end.

Definition _unauthorized (request : Request) (error : string) : outcome :=
  let required := required_scopes_for_request request in
  Refused 401 (_auth_error_body request "Unauthorized" error required [])
    (("WWW-Authenticate", build_www_authenticate_challenge request (Some error)
        (_challenge_scopes_for_request request required)) :: _auth_error_headers error required []).

Definition _forbidden (request : Request) (required granted : scope_set) : outcome :=
  Refused 403 (_auth_error_body request "Forbidden" "insufficient_scope" required granted)
    (("WWW-Authenticate", build_www_authenticate_challenge request (Some "insufficient_scope") required)
     :: _auth_error_headers "insufficient_scope" required granted).
End errors.

(** ** Hub-issued access tokens *)

Section tokens.
Context `{HashLib}.
Variable now : instant.
Variable config : HubConfig.

(** Every error of decoding one part is caught. *)
Definition _base64url_decode (value : string) : option string :=
  match urlsafe_b64decode (value +:+ list_str (replicate (Z.to_nat ((- str_len value) mod 4)) "="%char)) with
  | Ok b => Some b
  | Raise _ => None
  end.

(** The signing input is encoded as ASCII outside the handler of errors. *)
Definition _decode_hs256_jwt (token secret : string) : result (option dict) :=
  if String.eqb secret "" then Ok None else
  match split_on "." token with
  | [part0; part1; part2] =>
      let signing_input := part0 +:+ "." +:+ part1 in
      _ ← guard_err (negb (sall (λ c, ord c <? 128) signing_input))
            (ValueError "'ascii' codec can't encode characters");
      let expected := hmac_sha256_raw (utf8_encode secret) signing_input in
      match _base64url_decode part2 with
      | None => Ok None
      | Some actual =>
          if negb (String.eqb expected actual) then Ok None else
          match _base64url_decode part0, _base64url_decode part1 with
          | Some header_raw, Some payload_raw =>
              match (h ← json_loads_bytes header_raw; p ← json_loads_bytes payload_raw; Ok (h, p)) with
              | Raise (ValueError _) => Ok None
              | Raise e => Raise e
              | Ok (VDict header, VDict payload) =>
                  match vget "alg" header with
                  | VStr alg => Ok (if String.eqb alg "HS256" then Some payload else None)
                  | _ => Ok None
                  end
              | Ok _ => Ok None
              end
          | _, _ => Ok None
          end
      end
  | _ => Ok None
  end.

(** [str(v) if v is not None else None] *)
Definition str_opt (v : value) : option string := if is_none v then None else Some (py_str v).

(** [isinstance(value, int)], booleans included *)
Definition as_int (v : value) : option Z :=
  match v with VInt z => Some z | VBool b => Some (if b then 1 else 0) | _ => None end.

Definition _validate_time_claims (claims : dict) : bool :=
  match as_int (vget "exp" claims) with
  | None => false
  | Some exp =>
      if exp <=? now then false else
      match as_int (vget "nbf" claims) with
      | Some nbf => negb (now <? nbf)
      | None => true
      end
  end.

Definition _claim_matches_resource (claims : dict) (resource : string) : bool :=
  existsb (λ key, match vget key claims with
    | VStr v => String.eqb v resource
    | VList items => existsb (λ item, String.eqb (py_str item) resource) items
    | _ => false
    end) ["aud"; "resource"].

Definition _scopes_from_claims (claims : dict) : scope_set :=
  match vget "scope" claims with
  | VStr scope => dedup (split_ws scope)
  | _ => match vget "scopes" claims with
         | VList items => dedup (List.filter (λ s, negb (String.eqb (strip s) "")) (map py_str items))
         | _ => []
         end
  end.

Definition _oauth_resource : string :=
  or_str (resource (oauth config)) (rstrip_slash (public_base_url config) +:+ "/mcp").

Definition validate_oauth_access_token (token : string) : result (option AccessTokenClaims) :=
  decoded ← _decode_hs256_jwt token (oauth_jwt_secret config);
  match decoded with
  | None => Ok None
  | Some claims =>
      if negb (_validate_time_claims claims) then Ok None else
      if negb (String.eqb (issuer (oauth config)) "")
         && negb (match vget "iss" claims with VStr i => String.eqb i (issuer (oauth config)) | _ => false end)
      then Ok None else
      if negb (_claim_matches_resource claims _oauth_resource) then Ok None else
      match vget "sub" claims with
      | VStr sub => if String.eqb (strip sub) "" then Ok None else
          Ok (Some (mk_claims (strip sub) (str_opt (vget "jti" claims)) (_scopes_from_claims claims)
                      (str_opt (vget "iss" claims))))
      | _ => Ok None
      end
  end.

Definition _is_hub_issued_claim (claims : AccessTokenClaims) : bool :=
  let hub := rstrip_slash (public_base_url config) in
  negb (String.eqb hub "") && opt_is hub (claims_issuer claims).
End tokens.

(** ** Connect sessions *)

Section connect.
Context `{HashLib}.
Variable config : HubConfig.

Definition hash_secret (value purpose : string) : string :=
  "pbkdf2-sha256:" +:+ pbkdf2_hex (utf8_encode value)
    (utf8_encode ("ai-memory-hub:" +:+ purpose +:+ ":" +:+ session_secret config)) 32.

Definition csrf_matches (session : web_session) (csrf_token : string) : bool :=
  negb (String.eqb csrf_token "")
  && String.eqb (ws_csrf_token_hash session) (hash_secret csrf_token "connect-csrf").
End connect.

(** ** The middleware *)

Section gate.
Context `{HashLib} `{Environ}.
Variable now : instant.
Variable config : HubConfig.
(** [ExternalOIDCValidator.validate] *)
Variable external_oidc : string → result (option ExternalOIDCClaims).
Notation Gate := (M GateState).

Definition authenticate_bearer_token_context (token : string) : M AuthDb (option auth_context) :=
  context ← auth_context_for_token now token;
  match context with
  | Some c => mret (Some c)
  | None =>
      owner ← owner_for_token now token;
      mret ((λ o, mk_auth_context o None [READ_SCOPE; WRITE_SCOPE]) <$> owner)
  end.

Definition _context_scopes (c : auth_context) : scope_set :=
  dedup (List.filter (λ s, negb (String.eqb (strip s) "")) (cx_scopes c)).

Definition _authenticate_connect_session (request : Request) : Gate (option AuthContext) :=
  if negb (String.eqb (api_auth config) "oauth_resource_server")
     || negb (String.eqb (rq_method request) "POST") || negb (String.eqb (rq_path request) "/memory/import")
  then mret None else
  match dict_get (session_cookie_name (connect config)) (rq_cookies request) with
  | None => mret None
  | Some session_id =>
      if String.eqb session_id "" then mret None else
      session ← on_db (web_session_for_hash now (hash_secret config session_id "connect-session"));
      match session with
      | None => mret None
      | Some s =>
          if negb (csrf_matches config s (default "" (dict_get CONNECT_CSRF_HEADER (rq_headers request))))
          then mret None else
          if String.eqb (ws_user_id s) "" then mret None else
          mret (Some (mk_AuthContext (Some (ws_user_id s)) None [WRITE_SCOPE] "connect_session"))
      end
  end.

Definition profile_eqb (a b : profile) : bool := bool_decide (a = b).
Definition _sync_external_oidc_identity (claims : ExternalOIDCClaims) : Gate unit :=
  let p := (ext_username claims, ext_email claims, ext_display_name claims) in
  state ← get_state;
  if (match dict_get (ext_owner_id claims) (gate_profiles state) with
      | Some q => profile_eqb q p | None => false end)
  then mret tt else
  identity ← on_db (find_or_create_oauth_identity now (ext_provider claims) (ext_subject claims)
    (Some (ext_owner_id claims)) (ext_username claims) (ext_email claims) (ext_display_name claims));
  if negb (String.eqb (oi_user_id identity) (ext_owner_id claims))
  then raise (RuntimeError "external OIDC identity owner mismatch") else
  exec (λ s, mk_gate (gate_db s) (dict_set (ext_owner_id claims) p (gate_profiles s))).

Definition _authenticate (token : string) : Gate (option AuthContext) :=
  if String.eqb (api_auth config) "bearer_token" then
    context ← on_db (authenticate_bearer_token_context token);
    mret ((λ c, mk_AuthContext (Some (cx_owner_id c)) (cx_token_id c) (dedup (cx_scopes c)) "bearer_token") <$> context)
  else if String.eqb (api_auth config) "oidc_resource_server" then
    claims ← lift (external_oidc token);
    match claims with
    | None => mret None
    | Some c => _ ← _sync_external_oidc_identity c;
        mret (Some (mk_AuthContext (Some (ext_owner_id c)) (ext_token_id c) (ext_scopes c) "oidc_resource_server"))
    end
  else
    claims ← lift (validate_oauth_access_token now config token);
    match claims with
    | None => mret None
    | Some c =>
        stored ← on_db (authenticate_bearer_token_context token);
        if _is_hub_issued_claim config c then
          match stored with
          | None => mret None
          | Some s =>
              if negb (String.eqb (cx_owner_id s) (claims_owner_id c)) then mret None else
              mret (Some (mk_AuthContext (Some (claims_owner_id c)) (coalesce (cx_token_id s) (claims_token_id c))
                (List.filter (λ x, mem x (claims_scopes c)) (_context_scopes s)) "oauth_resource_server"))
          end
        else mret (Some (mk_AuthContext (Some (claims_owner_id c)) (claims_token_id c) (claims_scopes c)
                           "oauth_resource_server"))
    end.

Definition dispatch (request : Request) : Gate outcome :=
  if _is_public_path (rq_path request) then mret (CallNext None) else
  if _has_query_access_token request then mret (_unauthorized config request "invalid_request") else
  let required := required_scopes_for_request request in
  let token := extract_bearer_token request in
  auth ← match token with
    | Some t => _authenticate t
    | None => _authenticate_connect_session request
    end;
  match auth with
  | None => mret (_unauthorized config request (match token with Some _ => "invalid_token" | None => "invalid_request" end))
  | Some a =>
      if negb (_has_required_scopes (scopes a) required)
      then mret (_forbidden config request required (scopes a))
      else mret (CallNext (Some a))
  end.

(** [install_auth_middleware]: without authentication there is no gate. *)
Definition gate (request : Request) : Gate outcome :=
  if String.eqb (api_auth config) "none" then mret (CallNext None) else dispatch request.
End gate.
