(* ===== verification/GateFacts.v ===== *)
(** * Guarantees of the authorization gate *)
From Stdlib Require Import ZArith Lia Ascii.
From S2P Require Import Prelude PyStr Json Hash Clock Config Identity AuthDb AuthStore OAuthStore AuthSystem Samples OAuthFacts AuthFacts AuthGate.

Section facts.
Context `{HashLib} `{Environ}.
Variable external_oidc : string → result (option ExternalOIDCClaims).

Lemma on_db_run {A} (m : M AuthDb A) s r s' :
  on_db m s = (r, s') ↔ ∃ d, m (gate_db s) = (r, d) ∧ s' = mk_gate d (gate_profiles s).
Proof. unfold on_db. destruct (m (gate_db s)) as [r' d]. naive_solver. Qed.

Lemma has_required_scopes actual required :
  _has_required_scopes actual required = true ↔ ∀ x, x ∈ required → x ∈ actual.
Proof.
  unfold _has_required_scopes. rewrite forallb_forall. setoid_rewrite <-list_elem_of_In.
  assert (Hm : ∀ x, mem x actual = true ↔ x ∈ actual).
  { intros x. unfold mem. rewrite existsb_elem. split.
    - intros (y & Hy & ->%String.eqb_eq). done.
    - intros Hx. exists x. split; [done|apply String.eqb_refl]. }
  naive_solver.
Qed.

(** What [dispatch] did with a request that is not public. *)
Lemma dispatch_run now config request s o s' :
  _is_public_path (rq_path request) = false →
  dispatch now config external_oidc request s = (Ok o, s') →
  (_has_query_access_token request = true ∧ o = _unauthorized config request "invalid_request" ∧ s' = s) ∨
  (_has_query_access_token request = false ∧ ∃ auth,
    (match extract_bearer_token request with
     | Some t => _authenticate now config external_oidc t
     | None => _authenticate_connect_session now config request end) s = (Ok auth, s') ∧
    match auth with
    | None => o = _unauthorized config request
                    (match extract_bearer_token request with Some _ => "invalid_token" | None => "invalid_request" end)
    | Some a => if _has_required_scopes (scopes a) (required_scopes_for_request request) then o = CallNext (Some a)
                else o = _forbidden config request (required_scopes_for_request request) (scopes a)
    end).
Proof.
  intros Hp. unfold dispatch. rewrite Hp. destruct (_has_query_access_token request).
  { intros [<- ->]%ret_run. by left. }
  intros Hrun. right. split; [done|].
  apply (proj1 (bind_run _ _ _ _ _)) in Hrun as (auth & s1 & Ha & Hrun).
  exists auth. destruct auth as [a|].
  - destruct (_has_required_scopes _ _); cbn [negb] in Hrun; apply ret_run in Hrun as [<- ->]; done.
  - apply ret_run in Hrun as [<- ->]; done.
Qed.

(** C1: the gate is sound.  Whatever the authentication mode, a request to a
    path that is not public reaches its handler only under an authentication
    context whose scopes contain every scope the path requires, and never when
    it carries an access token in its query. *)
Theorem gate_sound now config request s a s' :
  _is_public_path (rq_path request) = false →
  dispatch now config external_oidc request s = (Ok (CallNext a), s') →
  _has_query_access_token request = false ∧
  ∃ ctx, a = Some ctx ∧ ∀ x, x ∈ required_scopes_for_request request → x ∈ scopes ctx.
Proof.
  intros Hp [(_ & Ho & _)|(Hq & auth & _ & Ho)]%(dispatch_run _ _ _ _ _ _ Hp); [done|].
  split; [done|]. destruct auth as [ctx|]; [|done].
  destruct (_has_required_scopes _ _) eqn:Hs; [|done]. injection Ho as ->.
  exists ctx. split; [done|]. by apply has_required_scopes.
Qed.

(** ** Signed tokens *)

(** An accepted access token is authentic: it has three parts, its signature
    is the HMAC of the first two under the non-empty configured secret, its
    payload is not expired, names the hub's resource as audience, and the owner
    is the payload's stripped, non-empty subject. *)
Theorem accepted_token_signed now config token c :
  validate_oauth_access_token now config token = Ok (Some c) →
  ∃ p0 p1 p2 payload claims sub exp, split_on "." token = [p0; p1; p2] ∧ oauth_jwt_secret config ≠ "" ∧
    _base64url_decode p2 = Some (hmac_sha256_raw (utf8_encode (oauth_jwt_secret config)) (p0 +:+ "." +:+ p1)) ∧
    _base64url_decode p1 = Some payload ∧ json_loads_bytes payload = Ok (VDict claims) ∧
    as_int (vget "exp" claims) = Some exp ∧ (now < exp)%Z ∧
    _claim_matches_resource claims (_oauth_resource config) = true ∧
    vget "sub" claims = VStr sub ∧ claims_owner_id c = strip sub ∧ strip sub ≠ "" ∧
    claims_scopes c = _scopes_from_claims claims.
Proof.
  unfold validate_oauth_access_token. intros Hv. apply bind_Ok in Hv as (decoded & Hd & Hv).
  destruct decoded as [claims|]; [|done].
  destruct (_validate_time_claims now claims) eqn:Ht; [cbn [negb] in Hv|done].
  destruct (_ && _) in Hv; [done|].
  destruct (_claim_matches_resource claims (_oauth_resource config)) eqn:Hr; [cbn [negb] in Hv|done].
  destruct (vget "sub" claims) as [| | | |sub| |] eqn:Hsub; try done.
  destruct (String.eqb_spec (strip sub) "") as [|Hne]; [done|]. injection Hv as <-.
  unfold _decode_hs256_jwt in Hd.
  destruct (String.eqb_spec (oauth_jwt_secret config) "") as [|Hsec]; [done|].
  destruct (split_on "." token) as [|p0 [|p1 [|p2 [|]]]] eqn:Hsp; try done.
  apply bind_Ok in Hd as ([] & _ & Hd). cbv zeta in Hd.
  destruct (_base64url_decode p2) as [actual|] eqn:Hp2; [|done].
  destruct (String.eqb_spec (hmac_sha256_raw (utf8_encode (oauth_jwt_secret config)) (p0 +:+ "." +:+ p1)) actual)
    as [<-|]; [cbn [negb] in Hd|done].
  destruct (_base64url_decode p0) as [hr|] eqn:Hp0; [|done].
  destruct (_base64url_decode p1) as [pr|] eqn:Hp1; [|done].
  destruct (json_loads_bytes hr) as [hv|[]] eqn:Hh; try done.
  destruct (json_loads_bytes pr) as [pv|[]] eqn:Hpl; try done. cbn in Hd.
  destruct hv as [| | | | | |header]; try done. destruct pv as [| | | | | |payload]; try done.
  destruct (vget "alg" header); try done. destruct (String.eqb _ _); [|done]. injection Hd as ->.
  unfold _validate_time_claims in Ht. destruct (as_int (vget "exp" claims)) as [exp|] eqn:Hexp; [|done].
  destruct (Z.leb_spec exp now); [done|].
  exists p0, p1, p2, pr, claims, sub, exp. split_and!; done.
Qed.

(** A token with a character outside ASCII in its header or payload is not
    refused but raises: the signing input is encoded outside the handler of
    decoding errors, so the request fails with an internal error. *)
Theorem non_ascii_token_raises now config request s token p0 p1 p2 :
  api_auth config = "oauth_resource_server" → oauth_jwt_secret config ≠ "" →
  _is_public_path (rq_path request) = false → _has_query_access_token request = false →
  extract_bearer_token request = Some token → split_on "." token = [p0; p1; p2] →
  sall (λ c, Z.ltb (ord c) 128) (p0 +:+ "." +:+ p1) = false →
  dispatch now config external_oidc request s = (Raise (ValueError "'ascii' codec can't encode characters"), s).
Proof.
  intros Hmode Hsec Hp Hq Htok Hsp Hascii. unfold dispatch. rewrite Hp, Hq, Htok.
  unfold _authenticate. rewrite Hmode. cbn [String.eqb Ascii.eqb Bool.eqb].
  unfold validate_oauth_access_token, _decode_hs256_jwt. apply String.eqb_neq in Hsec. rewrite Hsec, Hsp.
  rewrite Hascii. done.
Qed.

(** ** Revocation reaches the gate *)

(** The fallback of the context lookup asks the same store again. *)
Lemma authenticate_context_run now token h d :
  _hash_bearer_token token = Ok h →
  authenticate_bearer_token_context now token d = auth_context_for_token now token d.
Proof.
  intros Hh. unfold authenticate_bearer_token_context, owner_for_token, mbind, M_bind.
  rewrite (auth_context_run _ _ _ _ Hh). destruct (tbl_find _ _) as [t|] eqn:E.
  - by destruct (_parse_token_scopes (at_scopes t)).
  - by rewrite (auth_context_run _ _ _ _ Hh), E.
Qed.

Lemma authenticate_context_revoked now token h d :
  _hash_bearer_token token = Ok h →
  (∀ t, t ∈ auth_tokens d → at_token_hash t = h → is_Some (at_revoked_at t)) →
  authenticate_bearer_token_context now token d = (Ok None, d).
Proof.
  intros Hh Hall. rewrite (authenticate_context_run _ _ _ _ Hh). by apply (auth_context_revoked now token h d).
Qed.

(** Revocation is effective.  A bearer token all whose store rows are revoked
    is answered with 401 and changes nothing: always in bearer-token mode, and
    in OAuth mode whenever the token is a valid one issued by the hub. *)
Theorem revoked_token_refused now config request s token h c :
  (api_auth config = "bearer_token" ∨
   api_auth config = "oauth_resource_server" ∧ validate_oauth_access_token now config token = Ok (Some c) ∧
   _is_hub_issued_claim config c = true) →
  _is_public_path (rq_path request) = false → _has_query_access_token request = false →
  extract_bearer_token request = Some token → _hash_bearer_token token = Ok h →
  (∀ t, t ∈ auth_tokens (gate_db s) → at_token_hash t = h → is_Some (at_revoked_at t)) →
  dispatch now config external_oidc request s = (Ok (_unauthorized config request "invalid_token"), s).
Proof.
  intros Hmode Hp Hq Htok Hh Hall. unfold dispatch. rewrite Hp, Hq, Htok.
  assert (Hdb : on_db (authenticate_bearer_token_context now token) s = (Ok None, s)).
  { apply on_db_run. exists (gate_db s). split; [|by destruct s]. by eapply authenticate_context_revoked. }
  assert (Ha : _authenticate now config external_oidc token s = (Ok None, s)).
  { unfold _authenticate. destruct Hmode as [->|(-> & Hv & Hhub)]; cbn [String.eqb Ascii.eqb Bool.eqb].
    - unfold mbind, M_bind. by rewrite Hdb.
    - rewrite Hv. unfold mbind, M_bind, lift. rewrite Hdb, Hhub. done. }
  unfold mbind, M_bind. by rewrite Ha.
Qed.

(** A hub-issued token never exceeds its grant: when the gate lets a request
    through in OAuth mode with a token the hub issued, the store holds a live
    token of that owner, and the granted scopes are both in the signed claims
    and among the scopes the store parses for that token. *)
Theorem hub_token_scopes_bounded now config request s ctx s' token c :
  api_auth config = "oauth_resource_server" → _is_public_path (rq_path request) = false →
  extract_bearer_token request = Some token →
  validate_oauth_access_token now config token = Ok (Some c) → _is_hub_issued_claim config c = true →
  dispatch now config external_oidc request s = (Ok (CallNext (Some ctx)), s') →
  ∃ h t sc, _hash_bearer_token token = Ok h ∧ t ∈ auth_tokens (gate_db s) ∧ token_live now (gate_db s) h t = true ∧
    _parse_token_scopes (at_scopes t) = Ok sc ∧ owner_id ctx = Some (at_owner_id t) ∧
    claims_owner_id c = at_owner_id t ∧
    ∀ x, x ∈ scopes ctx → x ∈ claims_scopes c ∧ x ∈ sc.
Proof.
  intros Hmode Hp Htok Hv Hhub [(_ & ? & _)|(_ & auth & Ha & Ho)]%(dispatch_run _ _ _ _ _ _ Hp); [done|].
  rewrite Htok in Ha. unfold _authenticate in Ha. rewrite Hmode, Hv in Ha. cbn [String.eqb Ascii.eqb Bool.eqb] in Ha.
  apply (proj1 (bind_run _ _ _ _ _)) in Ha as (c' & s1 & [Hc ->]%lift_run & Ha). injection Hc as <-.
  apply (proj1 (bind_run _ _ _ _ _)) in Ha as (stored & s1 & Hst & Ha). rewrite Hhub in Ha.
  apply on_db_run in Hst as (d & Hst & ->).
  destruct stored as [cx|]; [|by apply ret_run in Ha as [<- _]].
  destruct (String.eqb_spec (cx_owner_id cx) (claims_owner_id c)) as [Hown|]; cbn [negb] in Ha;
    apply ret_run in Ha as [<- _]; [|done].
  destruct (_has_required_scopes _ _); [|done]. injection Ho as ->.
  destruct (_hash_bearer_token token) as [h|e] eqn:Hh.
  2:{ apply (proj1 (bind_run _ _ _ _ _)) in Hst as (cx' & d1 & Hcx & _).
      unfold auth_context_for_token in Hcx. by rewrite Hh in Hcx. }
  rewrite (authenticate_context_run _ _ _ _ Hh), (auth_context_run _ _ _ _ Hh) in Hst.
  destruct (tbl_find _ _) as [t|] eqn:Hfind; [|done].
  destruct (_parse_token_scopes (at_scopes t)) as [sc|] eqn:Hsc; [|done]. injection Hst as <- _.
  apply tbl_find_Some in Hfind as [Hin Hlive].
  exists h, t, sc. cbn in *. rewrite <-Hown. repeat (split; [done|]).
  intros x. rewrite list_elem_of_In, filter_In, <-list_elem_of_In. intros [Hx Hc]. split.
  - unfold mem in Hc. apply existsb_elem in Hc as (y & Hy & ->%String.eqb_eq). done.
  - unfold _context_scopes in Hx. rewrite elem_of_dedup in Hx.
    rewrite list_elem_of_In, filter_In, <-list_elem_of_In in Hx. by destruct Hx.
Qed.

(** The Connect session is good for an upload only: without a bearer token a
    request to a protected path is let through only in OAuth mode, for POST
    /memory/import, under a live session of the cookie with the matching CSRF
    token, and then with the write scope alone. *)
Theorem connect_session_only_imports now config request s ctx s' :
  _is_public_path (rq_path request) = false → extract_bearer_token request = None →
  dispatch now config external_oidc request s = (Ok (CallNext (Some ctx)), s') →
  api_auth config = "oauth_resource_server" ∧ rq_method request = "POST" ∧ rq_path request = "/memory/import" ∧
  scopes ctx = [WRITE_SCOPE] ∧
  ∃ cookie ses, dict_get (session_cookie_name (connect config)) (rq_cookies request) = Some cookie ∧
    ses ∈ web_sessions (gate_db s) ∧ _validate_secret_hash (hash_secret config cookie "connect-session") "session_id_hash" = Ok (ws_session_id_hash ses) ∧
    ws_revoked_at ses = None ∧ unexpired now (ws_expires_at ses) = true ∧
    csrf_matches config ses (default "" (dict_get CONNECT_CSRF_HEADER (rq_headers request))) = true ∧
    owner_id ctx = Some (ws_user_id ses).
Proof.
  intros Hp Htok [(_ & ? & _)|(_ & auth & Ha & Ho)]%(dispatch_run _ _ _ _ _ _ Hp); [done|].
  rewrite Htok in Ha. unfold _authenticate_connect_session in Ha.
  destruct auth as [a|]; [|done]. destruct (_has_required_scopes _ _); [|done]. injection Ho as ->.
  destruct (_ || _) eqn:Hreq in Ha; [by apply ret_run in Ha as [? _]|]. prop_bool.
  destruct (dict_get (session_cookie_name _) _) as [cookie|] eqn:Hck; [|by apply ret_run in Ha as [? _]].
  destruct (String.eqb cookie ""); [by apply ret_run in Ha as [? _]|].
  apply (proj1 (bind_run _ _ _ _ _)) in Ha as (ses & s1 & Hses & Ha).
  destruct ses as [ses|]; [|by apply ret_run in Ha as [? _]].
  destruct (csrf_matches config ses _) eqn:Hcsrf; cbn [negb] in Ha; [|by apply ret_run in Ha as [? _]].
  destruct (String.eqb (ws_user_id ses) ""); apply ret_run in Ha as [Ha _]; [done|]. injection Ha as <-.
  apply on_db_run in Hses as (d & Hses & _).
  destruct (_validate_secret_hash (hash_secret config cookie "connect-session") "session_id_hash") as [h|] eqn:Hv.
  2:{ unfold web_session_for_hash in Hses. by rewrite Hv in Hses. }
  rewrite (session_run _ _ _ _ Hv) in Hses. destruct (tbl_find _ _) as [x|] eqn:Hfind; [|done].
  injection Hses as -> _. apply tbl_find_Some in Hfind as [Hin Hs]. unfold is_session in Hs. prop_bool.
  repeat match goal with H : negb _ = false |- _ => apply negb_false_iff in H end. prop_bool.
  do 4 (split; [done|]). exists cookie, ses. subst h. do 3 (split; [done|]).
  split; [by destruct (ws_revoked_at ses)|done].
Qed.
End facts.

(** ** The theorems on concrete requests *)

Import Sample.

Definition sample_jwt_text (payload : dict) : string :=
  let enc v := b64url_nopad (bytes_of (json_dumps v)) in
  let input := enc (VDict [("alg", VStr "HS256")]) +:+ "." +:+ enc (VDict payload) in
  input +:+ "." +:+ b64url_nopad (bytes_of (hmac_sha256_raw (utf8_encode "jwt-secret") input)).
Definition sample_token : string := Eval vm_compute in sample_jwt_text
  [("sub", VStr "alice"); ("iss", VStr "http://localhost:8000"); ("aud", VStr "http://localhost:8000/mcp");
   ("scope", VStr "memory:read memory:write"); ("exp", VInt (noon + 3600)); ("jti", VStr "tok_j")].
Definition no_oidc (_ : string) : result (option ExternalOIDCClaims) := Ok None.
Definition sample_request (meth path auth : string) : Request :=
  mk_request meth path [("authorization", auth)] [] [].
Definition token_config : HubConfig :=
  mk_hub_config "localhost" 8000 "bearer_token" "" (oauth sample_config) (oidc sample_config) (connect sample_config) [].
Definition hub_db : AuthDb :=
  after (OpCreateToken "alice" sample_token None None None (Some ["memory:read"]) "tok_j") empty_db.

Lemma gate_sound_witness :
  ∃ ctx s', dispatch noon token_config no_oidc (sample_request "GET" "/memory/list" "Bearer t1") (mk_gate db_token [])
    = (Ok (CallNext (Some ctx)), s') ∧ scopes ctx = ["memory:read"] ∧
  ∃ ctx', Some ctx = Some ctx' ∧ ∀ x, x ∈ [READ_SCOPE] → x ∈ scopes ctx'.
Proof.
  eexists _, _. split; [vm_compute; reflexivity|]. split; [vm_compute; reflexivity|].
  edestruct (gate_sound no_oidc noon token_config (sample_request "GET" "/memory/list" "Bearer t1") (mk_gate db_token []))
    as [_ Hctx]; [vm_compute; reflexivity|vm_compute; reflexivity|exact Hctx].
Defined.

Lemma accepted_token_signed_witness :
  ∃ c, validate_oauth_access_token noon sample_config sample_token = Ok (Some c) ∧ claims_owner_id c = "alice" ∧
  ∃ sub, claims_owner_id c = strip sub ∧ strip sub ≠ "".
Proof.
  eexists. split; [vm_compute; reflexivity|]. split; [vm_compute; reflexivity|].
  edestruct (accepted_token_signed noon sample_config sample_token)
    as (p0 & p1 & p2 & payload & claims & sub & exp & _ & _ & _ & _ & _ & _ & _ & _ & _ & Hsub & Hne & _);
    [vm_compute; reflexivity|].
  exists sub. split; [exact Hsub|exact Hne].
Defined.

Lemma non_ascii_token_raises_witness :
  dispatch noon sample_config no_oidc (sample_request "GET" "/memory/list" ("Bearer a.b" +:+ char_str (chr 233) +:+ ".c"))
    (mk_gate empty_db []) = (Raise (ValueError "'ascii' codec can't encode characters"), mk_gate empty_db []).
Proof.
  eapply (non_ascii_token_raises no_oidc noon sample_config _ _ ("a.b" +:+ char_str (chr 233) +:+ ".c") "a" ("b" +:+ char_str (chr 233)) "c").
  - vm_compute; reflexivity.
  - vm_compute; discriminate.
  - vm_compute; reflexivity.
  - vm_compute; reflexivity.
  - vm_compute; reflexivity.
  - vm_compute; reflexivity.
  - vm_compute; reflexivity.
Defined.

Lemma revoked_token_refused_witness :
  let s := mk_gate (after (OpRevokeToken "tok_1") db_token) [] in
  let request := sample_request "GET" "/memory/list" "Bearer t1" in
  dispatch noon token_config no_oidc request s = (Ok (_unauthorized token_config request "invalid_token"), s).
Proof.
  eapply (revoked_token_refused no_oidc noon token_config _ _ "t1") with (c := mk_claims "" None [] None).
  - left. reflexivity.
  - vm_compute; reflexivity.
  - vm_compute; reflexivity.
  - vm_compute; reflexivity.
  - vm_compute; reflexivity.
  - intros t Ht _. vm_compute in Ht. apply list_elem_of_singleton in Ht as ->. eexists; reflexivity.
Defined.

Lemma hub_token_scopes_bounded_witness :
  ∃ ctx s', dispatch noon sample_config no_oidc (sample_request "GET" "/memory/list" ("Bearer " +:+ sample_token))
    (mk_gate hub_db []) = (Ok (CallNext (Some ctx)), s') ∧ scopes ctx = ["memory:read"] ∧ owner_id ctx = Some "alice".
Proof.
  eexists _, _. split; [vm_compute; reflexivity|]. split; [vm_compute; reflexivity|].
  edestruct (hub_token_scopes_bounded no_oidc noon sample_config
    (sample_request "GET" "/memory/list" ("Bearer " +:+ sample_token)) (mk_gate hub_db []))
    with (token := sample_token) as (h & t & sc & _ & Ht & _ & _ & Hown & _).
  - vm_compute; reflexivity.
  - vm_compute; reflexivity.
  - vm_compute; reflexivity.
  - vm_compute; reflexivity.
  - vm_compute; reflexivity.
  - vm_compute; reflexivity.
  - rewrite Hown. vm_compute in Ht. apply list_elem_of_singleton in Ht as ->. reflexivity.
Defined.

Definition session_hash (cookie : string) : string := hash_secret sample_config cookie "connect-session".
Definition csrf_hash (token : string) : string := hash_secret sample_config token "connect-csrf".
Lemma connect_session_only_imports_witness :
  let d := after (OpCreateSession (session_hash "cookie") "alice" (csrf_hash "csrf") "2026-07-16T12:00:00+00:00") empty_db in
  let request := mk_request "POST" "/memory/import" [(CONNECT_CSRF_HEADER, "csrf")] [] [("amh_session", "cookie")] in
  ∃ ctx s', dispatch noon sample_config no_oidc request (mk_gate d []) = (Ok (CallNext (Some ctx)), s') ∧
  scopes ctx = [WRITE_SCOPE].
Proof.
  eexists _, _. split; [vm_compute; reflexivity|].
  edestruct (connect_session_only_imports no_oidc noon sample_config
    (mk_request "POST" "/memory/import" [(CONNECT_CSRF_HEADER, "csrf")] [] [("amh_session", "cookie")])
    (mk_gate (after (OpCreateSession (session_hash "cookie") "alice" (csrf_hash "csrf") "2026-07-16T12:00:00+00:00") empty_db) []))
    as (_ & _ & _ & Hsc & _).
  - vm_compute; reflexivity.
  - vm_compute; reflexivity.
  - vm_compute; reflexivity.
  - exact Hsc.
Defined.
