(* ===== verification/Scope.v ===== *)
(** * Ownership, visibility and filters of memories ([memory/ingestion/mvp_ingestion.py])

    Who may see a conversation or a fact: the owner and project it is stamped
    with, its review status, and the filters of a search. *)
From Stdlib Require Import ZArith Lia Ascii.
From S2P Require Import Prelude PyStr Json Hash Clock Identity.
Local Open Scope Z_scope.

Definition _MEMORY_STATUS_ACTIVE : string := "active".
Definition _MEMORY_STATUS_ALL : string := "all".
Definition _MEMORY_STATUS_VALUES : list string := ["active"; "pending_review"; "quarantined"; "rejected"; "all"].

(** [ThreadMetadataKey] and [HandoffProvenanceKey] *)
Definition THREAD_ID : string := "thread_id".
Definition UPSTREAM_THREAD_ID : string := "upstream_thread_id".
Definition PARENT_CONVERSATION_ID : string := "parent_conversation_id".
Definition RELATED_CONVERSATION_IDS : string := "related_conversation_ids".
Definition SOURCE_CLIENT : string := "source_client".
Definition SOURCE_SESSION_ID : string := "source_session_id".

(** [conversation.get("metadata", {})] of an object, when it is an object. *)
Definition metadata_of (conversation : value) : option dict :=
  match conversation with
  | VDict c => as_dict (vget_or "metadata" (VDict []) c)
  | _ => None
  end.
(** [str(v) if v is not None else None] of a metadata field *)
Definition metadata_field (k : string) (conversation : value) : option string :=
  metadata ← metadata_of conversation;
  match vget k metadata with VNone => None | v => Some (py_str v) end.

Definition _conversation_hash (conversation : dict) : option string :=
  metadata ← metadata_of (VDict conversation); as_str (vget "conversation_hash" metadata).
Definition _owner_id_from_conversation : value → option string := metadata_field "owner_id".
Definition _project_id_from_conversation : value → option string := metadata_field "project_id".
Definition _memory_status (conversation : value) : string :=
  default _MEMORY_STATUS_ACTIVE (metadata_field "memory_status" conversation).
Definition _conversation_is_active (conversation : value) : bool :=
  String.eqb (_memory_status conversation) _MEMORY_STATUS_ACTIVE.

Definition _conversation_owner_matches (conversation : value) (owner_id : option string) : bool :=
  match owner_id with
  | None => true
  | Some _ => bool_decide (_owner_id_from_conversation conversation = owner_id)
  end.
Definition _conversation_project_matches (conversation : value) (project_id : option string) : bool :=
  match project_id with
  | None => true
  | Some p =>
      match _project_id_from_conversation conversation with
      | None => String.eqb p LOCAL_DEFAULT_PROJECT_ID
      | Some q => String.eqb q p
      end
  end.

Definition _validate_memory_status_filter (memory_status : option string) : result string :=
  let normalized := lower (match memory_status with
    | Some s => if String.eqb s "" then _MEMORY_STATUS_ACTIVE else s
    | None => _MEMORY_STATUS_ACTIVE end) in
  if existsb (String.eqb normalized) _MEMORY_STATUS_VALUES then Ok normalized
  else Raise (ValueError ("memory_status must be one of: " +:+ join ", " (sorted_strs _MEMORY_STATUS_VALUES))).

Definition _conversation_authorized (conversation : value) (owner_id project_id : option string) : bool :=
  match project_id with
  | Some _ => _conversation_project_matches conversation project_id
  | None => _conversation_owner_matches conversation owner_id && _conversation_project_matches conversation project_id
  end.
Definition _conversation_allowed (conversation : value) (owner_id project_id : option string) : bool :=
  _conversation_authorized conversation owner_id project_id && _conversation_is_active conversation.
Definition _conversation_visible (conversation : value) (owner_id project_id memory_status : option string) : result bool :=
  if negb (_conversation_authorized conversation owner_id project_id) then Ok false else
  status_filter ← _validate_memory_status_filter memory_status;
  if String.eqb status_filter _MEMORY_STATUS_ALL then Ok true else
  Ok (String.eqb (_memory_status conversation) status_filter).

Definition _lineage_parent_id (conversation : value) : option string :=
  match conversation with
  | VDict c =>
      match vget "metadata" c with
      | VDict metadata => let v := vget PARENT_CONVERSATION_ID metadata in
                          if truthy v then Some (py_str v) else None
      | _ => None
      end
  | _ => None
  end.

(** ** Stamps *)

(** [metadata = conversation.get("metadata")], replaced by an empty object when
    it is none; [metadata[k] = v]. *)
Definition stamp (k v : string) (conversation : dict) : dict :=
  dict_set "metadata" (VDict (dict_set k (VStr v) (default [] (as_dict (vget "metadata" conversation))))) conversation.
Definition _stamp_owner (conversation : dict) (owner_id : option string) : result dict :=
  match owner_id with
  | None => Ok conversation
  | Some o => v ← _validate_owner_id o; Ok (stamp "owner_id" v conversation)
  end.
Definition _stamp_project (conversation : dict) (project_id : string) : result dict :=
  v ← _validate_project_id project_id; Ok (stamp "project_id" v conversation).

Section hashes.
Context `{HashLib}.

Definition newline : string := char_str (chr 10).
Definition _project_scoped_conversation_hash (conversation_hash : string) (project_id : option string) : string :=
  match project_id with
  | None => conversation_hash
  | Some p => "sha256:" +:+ sha256_hex (utf8_encode (p +:+ newline +:+ conversation_hash))
  end.
Definition _scope_conversation_hash (conversation : dict) (project_id : option string) : dict :=
  match project_id with
  | None => conversation
  | Some _ =>
      match metadata_of (VDict conversation) with
      | Some metadata =>
          match vget "conversation_hash" metadata with
          | VStr h => dict_set "metadata" (VDict (dict_set "conversation_hash"
                        (VStr (_project_scoped_conversation_hash h project_id)) metadata)) conversation
          | _ => conversation
          end
      | None => conversation
      end
  end.
End hashes.

(** ** Dates *)

Definition min_utc : Z := days_of_civil 1 1 1 * 86400000000.
Definition max_utc : Z := days_of_civil 10000 1 1 * 86400000000.
(** The instant in microseconds. *)
Definition _aware_utc (value : datetime) : result Z :=
  let u := utc_us value in
  if (min_utc <=? u) && (u <? max_utc) then Ok u else Raise (OverflowError "date value out of range").

(** [value.replace("Z", "+00:00")] parsed; a ValueError is the field's error. *)
Definition parse_iso (value error : string) : result datetime :=
  match fromisoformat (replace "Z" "+00:00" value) with
  | Raise (ValueError _) => Raise (ValueError error)
  | r => r
  end.
Definition _parse_filter_datetime (value : option string) (field_name : string) : result (option Z) :=
  match value with
  | None => Ok None
  | Some v =>
      if String.eqb v "" then Ok None else
      parsed ← parse_iso v (field_name +:+ " must be an ISO-8601 datetime");
      u ← _aware_utc parsed; Ok (Some u)
  end.
Definition _validate_datetime_string (v : value) (field_name : string) : result value :=
  match v with
  | VStr s => _ ← parse_iso s (field_name +:+ " must be an ISO-8601 datetime"); Ok v
  | _ => Raise (ValueError (field_name +:+ " must be an ISO-8601 datetime string"))
  end.

Definition _datetime_in_range (value : string) (date_from date_to : option string) (field_name : string) : result bool :=
  lower ← _parse_filter_datetime date_from "date_from";
  upper ← _parse_filter_datetime date_to "date_to";
  match lower, upper with
  | None, None => Ok true
  | _, _ =>
      if String.eqb value "" then Ok false else
      parsed ← _parse_filter_datetime (Some value) field_name;
      match parsed with
      | None => Ok false
      | Some p =>
          if match lower with Some l => p <? l | None => false end then Ok false else
          Ok (negb match upper with Some u => u <? p | None => false end)
      end
  end.

(** ** Filters *)

Record ConversationFilters := mk_filters {
  f_source : option string; f_date_from : option string; f_date_to : option string; f_tags : list string;
  f_thread_id : option string; f_handoff_only : bool;
  f_source_client : option string; f_source_session_id : option string }.
(** [str(s) if s else None] *)
Definition nonempty (s : option string) : option string :=
  match s with Some t => if String.eqb t "" then None else s | None => None end.
Definition from_options (source date_from date_to : option string) (tags : list string) (thread_id : option string)
    (handoff_only : bool) (source_client source_session_id : option string) : ConversationFilters :=
  mk_filters (nonempty source) (nonempty date_from) (nonempty date_to)
    (List.filter (λ t, negb (String.eqb t "")) tags) (nonempty thread_id) handoff_only
    (nonempty source_client) (nonempty source_session_id).
Definition has_filters (f : ConversationFilters) : bool :=
  let set (o : option string) := match nonempty o with Some _ => true | None => false end in
  set (f_source f) || set (f_date_from f) || set (f_date_to f)
  || match f_tags f with [] => false | _ => true end || set (f_thread_id f) || f_handoff_only f
  || set (f_source_client f) || set (f_source_session_id f).

(** [not filter or (isinstance(metadata, dict) and str(metadata.get(k, "")) == filter)] *)
Definition metadata_filter (k : string) (wanted : option string) (metadata : option dict) : bool :=
  match nonempty wanted with
  | None => true
  | Some w => match metadata with
              | Some m => String.eqb (py_str (vget_or k (VStr "") m)) w
              | None => false
              end
  end.
Definition tags_match (wanted : list string) (metadata : option dict) : bool :=
  match wanted with
  | [] => true
  | _ => match vget_or "tags" (VList []) (default [] metadata) with
         | VList tags => forallb (λ t, existsb (λ v, match v with VStr s => String.eqb s t | _ => false end) tags) wanted
         | _ => false
         end
  end.
Definition _conversation_matches_filters (conversation : value) (filters : ConversationFilters) : result bool :=
  match conversation with
  | VDict c =>
      let metadata := metadata_of conversation in
      if match nonempty (f_source filters) with
         | Some s => negb (String.eqb (py_str (vget_or "source" (VStr "") c)) s) | None => false end
      then Ok false else
      if f_handoff_only filters && negb (match metadata with Some m => truthy (vget "handoff_at" m) | None => false end)
      then Ok false else
      if negb (metadata_filter THREAD_ID (f_thread_id filters) metadata) then Ok false else
      if negb (metadata_filter SOURCE_CLIENT (f_source_client filters) metadata) then Ok false else
      if negb (metadata_filter SOURCE_SESSION_ID (f_source_session_id filters) metadata) then Ok false else
      in_range ← _datetime_in_range (py_str (vget_or "timestamp" (VStr "") c))
                   (f_date_from filters) (f_date_to filters) "conversation.timestamp";
      if negb in_range then Ok false else Ok (tags_match (f_tags filters) metadata)
  | _ => Ok false
  end.

(** ** Facts *)

Definition _fact_owner_matches (fact : value) (owner_id : option string) : bool :=
  match owner_id with
  | None => true
  | Some o => match fact with
              | VDict f => String.eqb (py_str (vget_or "owner_id" (VStr "") f)) o
              | _ => false end
  end.
Definition _fact_project_matches (fact : value) (project_id : option string) : bool :=
  match project_id with
  | None => true
  | Some p => match fact with
              | VDict f =>
                  let fact_project_id := vget "project_id" f in
                  if is_none fact_project_id && String.eqb p LOCAL_DEFAULT_PROJECT_ID then true
                  else String.eqb (py_str fact_project_id) p
              | _ => false end
  end.
Definition _fact_allowed (fact : value) (owner_id project_id : option string) : bool :=
  match project_id with
  | Some _ => _fact_project_matches fact project_id
  | None => _fact_owner_matches fact owner_id && _fact_project_matches fact project_id
  end.
