(* ===== verification/Threads.v ===== *)
(** * Thread metadata ([memory/ingestion/thread_models.py])

    The two validated models of a conversation's metadata, their normalisation
    in place and the merge of an appended conversation's thread fields.  A field
    that fails its declaration raises a ValidationError, here a [ValueError]
    whose text is the model's name. *)
From Stdlib Require Import ZArith Lia Ascii.
From S2P Require Import Prelude PyStr Json Hash Clock Identity Scope.
Local Open Scope Z_scope.

Record ThreadMetadata := mk_thread {
  thread_id : option string; upstream_thread_id : option string;
  parent_conversation_id : option string; related_conversation_ids : list string }.
Record HandoffProvenanceMetadata := mk_provenance {
  source_client : option string; source_session_id : option string }.

(** ** Fields *)

(** A [str | None] field with its "before" validator, which strips texts and
    maps blank ones to None, and its maximal length. *)
Definition _blank_strings_to_none (v : value) : value :=
  match v with
  | VStr s => if String.eqb (strip s) "" then VNone else VStr (strip s)
  | v => v
  end.
Definition optional_text (model : string) (max_length : Z) (v : value) : result (option string) :=
  match _blank_strings_to_none v with
  | VNone => Ok None
  | VStr s => if max_length <? str_len s then Raise (ValueError model) else Ok (Some s)
  | _ => Raise (ValueError model)
  end.

Definition _validate_uuid (v : string) : result unit :=
  guard_err (negb (is_uuid v)) (ValueError "conversation reference ids must be valid UUIDs").
Definition _validate_parent_conversation_id (v : option string) : result (option string) :=
  match v with Some p => _ ← _validate_uuid p; Ok v | None => Ok None end.

Definition add_related (related : list string) (item : value) : result (list string) :=
  match item with
  | VStr s =>
      let related_id := strip s in
      if String.eqb related_id "" then Ok related else
      _ ← _validate_uuid related_id;
      Ok (if existsb (String.eqb related_id) related then related else related ++ [related_id])
  | _ => Raise (ValueError "metadata.related_conversation_ids must be a list of strings")
  end.
Definition _validate_related_conversation_ids (v : value) : result (list string) :=
  match v with
  | VNone => Ok []
  | VList items => fold_result add_related [] items
  | _ => Raise (ValueError "ThreadMetadata")
  end.

(** The errors of a model are one ValidationError. *)
Definition validated {A} (model : string) (r : result A) : result A :=
  match r with Raise (ValueError _) => Raise (ValueError model) | r => r end.

Definition thread_metadata_from_mapping (metadata : dict) : result ThreadMetadata :=
  validated "ThreadMetadata" (
    t ← optional_text "ThreadMetadata" 512 (vget THREAD_ID metadata);
    u ← optional_text "ThreadMetadata" 256 (vget UPSTREAM_THREAD_ID metadata);
    p0 ← optional_text "ThreadMetadata" 128 (vget PARENT_CONVERSATION_ID metadata);
    p ← _validate_parent_conversation_id p0;
    r ← _validate_related_conversation_ids (vget RELATED_CONVERSATION_IDS metadata);
    Ok (mk_thread t u p r)).

(** [^[A-Za-z0-9][A-Za-z0-9._-]*$] *)
Definition source_client_pattern (s : string) : bool :=
  head_tail_match is_alnum_ascii (λ c, is_alnum_ascii c || in_chars "._-" c) s.
Definition _reject_control_characters (v : option string) : result (option string) :=
  match v with
  | Some s => _ ← guard_err (negb (sall (λ c, negb ((ord c <? 32) || (ord c =? 127))) s))
                    (ValueError "metadata.source_session_id must not contain control characters");
              Ok v
  | None => Ok None
  end.
Definition handoff_provenance_from_mapping (metadata : dict) : result HandoffProvenanceMetadata :=
  validated "HandoffProvenanceMetadata" (
    c ← optional_text "HandoffProvenanceMetadata" 128 (vget SOURCE_CLIENT metadata);
    _ ← guard_err (match c with Some s => negb (source_client_pattern s) | None => false end)
          (ValueError "HandoffProvenanceMetadata");
    s0 ← optional_text "HandoffProvenanceMetadata" 512 (vget SOURCE_SESSION_ID metadata);
    s ← _reject_control_characters s0;
    Ok (mk_provenance c s)).

(** ** Updates of the metadata *)

Definition field_update (k : string) (v : option string) : dict :=
  match v with Some s => [(k, VStr s)] | None => [] end.
Definition to_metadata_update (t : ThreadMetadata) : dict :=
  field_update THREAD_ID (thread_id t) ++ field_update UPSTREAM_THREAD_ID (upstream_thread_id t)
  ++ field_update PARENT_CONVERSATION_ID (parent_conversation_id t)
  ++ match related_conversation_ids t with
     | [] => [] | l => [(RELATED_CONVERSATION_IDS, VList (map VStr l))] end.
Definition provenance_update (p : HandoffProvenanceMetadata) : dict :=
  field_update SOURCE_CLIENT (source_client p) ++ field_update SOURCE_SESSION_ID (source_session_id p).

Definition thread_keys : list string :=
  [THREAD_ID; UPSTREAM_THREAD_ID; PARENT_CONVERSATION_ID; RELATED_CONVERSATION_IDS].
Definition provenance_keys : list string := [SOURCE_CLIENT; SOURCE_SESSION_ID].
(** [for key in Keys: metadata.pop(key, None)] then [metadata.update(...)] *)
Definition replace_keys (keys : list string) (update metadata : dict) : dict :=
  dict_update (foldl (λ m k, dict_pop k m) metadata keys) update.

Definition _derived_thread_id (source upstream : string) : string :=
  (if String.eqb (strip source) "" then "unknown" else strip source) +:+ ":" +:+ upstream.

(** [metadata[k] = v] for the object the conversation carries *)
Definition on_metadata (conversation metadata : dict) : dict :=
  dict_set "metadata" (VDict metadata) conversation.
Definition _normalize_thread_metadata (conversation : dict) : result dict :=
  match vget "metadata" conversation with
  | VDict metadata =>
      t ← thread_metadata_from_mapping metadata;
      let t' := match thread_id t, upstream_thread_id t with
        | None, Some u => mk_thread (Some (_derived_thread_id (py_str (vget_or "source" (VStr "") conversation)) u))
                            (upstream_thread_id t) (parent_conversation_id t) (related_conversation_ids t)
        | _, _ => t end in
      Ok (on_metadata conversation (replace_keys thread_keys (to_metadata_update t') metadata))
  | _ => Ok conversation
  end.
Definition _normalize_handoff_provenance (conversation : dict) : result dict :=
  match vget "metadata" conversation with
  | VDict metadata =>
      p ← handoff_provenance_from_mapping metadata;
      Ok (on_metadata conversation (replace_keys provenance_keys (provenance_update p) metadata))
  | _ => Ok conversation
  end.

Fixpoint unique_from (seen : list string) (values : list string) : list string :=
  match values with
  | [] => []
  | v :: values' => if negb (String.eqb v "") && negb (existsb (String.eqb v) seen)
                    then v :: unique_from (v :: seen) values' else unique_from seen values'
  end.
Definition _unique_strings (values : list string) : list string := unique_from [] values.

Definition strings_of (v : value) : list string :=
  match v with VList l => omap as_str l | _ => [] end.
Definition merge_key (incoming target : dict) (k : string) : dict :=
  if negb (dict_has k target) then
    match vget k incoming with VStr s => dict_set k (VStr s) target | _ => target end
  else target.
Definition _merge_thread_metadata (target incoming : dict) : dict :=
  let target := foldl (merge_key incoming) target [THREAD_ID; UPSTREAM_THREAD_ID; PARENT_CONVERSATION_ID] in
  match strings_of (vget RELATED_CONVERSATION_IDS target) ++ strings_of (vget RELATED_CONVERSATION_IDS incoming) with
  | [] => target
  | related => dict_set RELATED_CONVERSATION_IDS (VList (map VStr (_unique_strings related))) target
  end.
