(* ===== verification/Normalize.v ===== *)
(** * Normalisation of ingested conversations ([memory/ingestion/mvp_ingestion.py])

    From a payload to the canonical conversation: roles, texts, message hashes,
    the ordered conversation hash, defaults and limits. *)
From Stdlib Require Import ZArith Lia Ascii.
From S2P Require Import Prelude PyStr Json Hash Clock Identity Scope Threads.
Local Open Scope Z_scope.

Definition _MAX_MESSAGES : Z := 10000.
Definition _MAX_MESSAGE_BYTES : Z := 1000000.
Definition _MAX_PAYLOAD_BYTES : Z := 25000000.
Definition _MAX_RAW_TRANSCRIPT_BYTES : Z := 5000000.
Definition _MAX_METADATA_BYTES : Z := 1000000.
Definition _MAX_METADATA_SUMMARY_CHARS : Z := 2000.

Definition _ROLE_ALIASES : list (string * string) :=
  [("human", "user"); ("user_message", "user"); ("ai", "assistant"); ("bot", "assistant");
   ("assistant_message", "assistant")].

(** ** Messages *)

Definition _normalize_role (role : value) : result string :=
  let v := lower (strip (py_str role)) in
  let v := default v (dict_get v _ROLE_ALIASES) in
  if String.eqb v "user" || String.eqb v "assistant" then Ok v
  else Raise (ValueError ("unknown message role: " +:+ py_str role)).

(** [text.strip(feff CR LF)]: U+FEFF is outside the model's characters. *)
Definition is_crlf (c : ascii) : bool := (ord c =? 13) || (ord c =? 10).
Definition at_index (index : Z) (what : string) : string := "messages[" +:+ str_of_Z index +:+ "]" +:+ what.
Definition _normalize_text (text : value) (index : Z) : result string :=
  match text with
  | VStr t =>
      let v := strip_by is_crlf t in
      if String.eqb (strip v) "" then Raise (ValueError (at_index index ".text must be non-empty")) else
      if _MAX_MESSAGE_BYTES <? utf8_len v then Raise (ValueError "message exceeds max_message_bytes") else
      Ok v
  | _ => Raise (ValueError (at_index index ".text must be a string"))
  end.

Section hashes.
Context `{HashLib}.

Definition sha256_message (role text : string) : string :=
  "sha256:" +:+ sha256_hex (utf8_encode (role +:+ newline +:+ text)).
Definition hash_ordered_hashes (hashes : list string) : string :=
  "sha256:" +:+ sha256_hex (utf8_encode (join newline hashes)).
(** [str(message["hash"])] *)
Definition message_hash (message : value) : result string :=
  match message with
  | VDict m => match dict_get "hash" m with Some h => Ok (py_str h) | None => Raise (KeyError "hash") end
  | _ => Raise (TypeError "string indices must be integers")
  end.
Definition hash_ordered_messages (messages : list value) : result string :=
  hashes ← map_result message_hash messages; Ok (hash_ordered_hashes hashes).

(** The message without its aliases, with its text under [text]. *)
Definition with_text (m : dict) : dict :=
  dict_pop "content"
    (if negb (dict_has "text" m) && dict_has "content" m then dict_set "text" (vget "content" m) m else m).
Definition _normalize_message (message : value) (index : Z) : result dict :=
  match message with
  | VDict m =>
      let normalized := with_text m in
      role ← _normalize_role (vget "role" normalized);
      text ← _normalize_text (vget "text" normalized) index;
      let computed_hash := sha256_message role text in
      _ ← guard_err (match vget "hash" normalized with
                     | VNone => false | VStr h => negb (String.eqb h computed_hash) | _ => true end)
            (ValueError (at_index index ".hash does not match server-computed hash"));
      Ok (dict_set "hash" (VStr computed_hash) (dict_set "text" (VStr text) (dict_set "role" (VStr role) normalized)))
  | _ => Raise (ValueError (at_index index " must be an object"))
  end.

(** The loop over the messages, with the hashes seen. *)
Fixpoint normalize_from (index : Z) (seen : list string) (messages : list value) : result (list dict) :=
  match messages with
  | [] => Ok []
  | item :: rest =>
      message ← _normalize_message item index;
      let h := py_str (vget "hash" message) in
      if existsb (String.eqb h) seen then normalize_from (index + 1) seen rest
      else out ← normalize_from (index + 1) (h :: seen) rest; Ok (message :: out)
  end.
Definition _normalize_messages (messages : list value) : result (list dict) :=
  out ← normalize_from 0 [] messages;
  match out with
  | [] => Raise (ValueError "messages must contain at least one non-empty message")
  | _ => Ok out
  end.

(** ** Raw transcripts *)

(** [str.splitlines()] *)
Definition is_line_end (c : ascii) : bool :=
  char_in 10 13 c || char_in 28 30 c || (ord c =? 133).
Fixpoint splitlines_aux (fuel : nat) (line s : string) : list string :=
  match fuel with
  | O => []
  | S fuel' =>
      match s with
      | EmptyString => match line with EmptyString => [] | _ => [line] end
      | String c r =>
          if is_line_end c then
            let r' := match r with
              | String d r' => if (ord c =? 13) && (ord d =? 10) then r' else r
              | EmptyString => r end in
            line :: splitlines_aux fuel' EmptyString r'
          else splitlines_aux fuel' (line +:+ char_str c) r
      end
  end.
Definition splitlines (s : string) : list string := splitlines_aux (S (String.length s)) EmptyString s.

(** [^(User|Assistant):\s?( .* )$], ignoring case: the role and the text *)
Definition transcript_line (line : string) : option (string * string) :=
  let after (n : nat) (r : string) : string :=
    match sdrop n line with
    | String c t => if is_space c then t else String c t
    | EmptyString => EmptyString end in
  if startswith "user:" (lower line) then Some (stake 4 line, after 5%nat line)
  else if startswith "assistant:" (lower line) then Some (stake 9 line, after 10%nat line)
  else None.

Definition transcript_step (messages : list (string * string)) (line : string) : result (list (string * string)) :=
  match transcript_line line with
  | Some (who, text) => role ← _normalize_role (VStr who); Ok (messages ++ [(role, text)])
  | None =>
      match last messages with
      | None => _ ← guard_err (negb (String.eqb (strip line) ""))
                      (ValueError "ambiguous raw transcript before first speaker boundary"); Ok []
      | Some (role, text) => Ok (removelast messages ++ [(role, text +:+ newline +:+ line)])
      end
  end.
Definition _parse_strict_transcript (text : string) : result (list (string * string)) :=
  _ ← guard_err (_MAX_RAW_TRANSCRIPT_BYTES <? utf8_len text)
        (ValueError "raw transcript exceeds max_raw_transcript_bytes");
  messages ← fold_result transcript_step [] (splitlines text);
  match messages with
  | [] => Raise (ValueError "raw transcript did not contain any speaker boundaries")
  | _ => Ok messages
  end.

(** ** Payloads *)

Definition _coerce_payload (payload : value) (strict_transcript : bool) : result dict :=
  match payload with
  | VDict p =>
      if dict_has "messages" p || dict_has "conversation" p || dict_has "content" p || dict_has "tags" p then
        if dict_has "content" p && negb (dict_has "messages" p) && negb (dict_has "conversation" p) then
          match vget "content" p with
          | VList l => Ok (dict_pop "content" (dict_set "messages" (VList l) p))
          | _ => Ok p
          end
        else Ok p
      else Raise (ValueError "ambiguous input: object must include messages, conversation, content, or tags")
  | VStr s =>
      if negb strict_transcript then Raise (ValueError "raw transcript input requires strict_transcript=True") else
      messages ← _parse_strict_transcript s;
      Ok [("messages", VList (map (λ m, VDict [("role", VStr m.1); ("text", VStr m.2)]) messages))]
  | _ => Raise (ValueError "ambiguous input: expected object or strict raw transcript string")
  end.

Definition _enforce_payload_limits (payload : dict) : result unit :=
  _ ← guard_err (_MAX_PAYLOAD_BYTES <? utf8_len (json_dumps (VDict payload))) (ValueError "payload exceeds max_payload_bytes");
  _ ← guard_err (match vget "messages" payload with VList l => _MAX_MESSAGES <? Z.of_nat (length l) | _ => false end)
        (ValueError "payload exceeds max_messages");
  guard_err (match vget "metadata" payload with
             | VDict m => _MAX_METADATA_BYTES <? utf8_len (json_dumps (VDict m)) | _ => false end)
    (ValueError "metadata exceeds max_metadata_bytes").

Definition _normalize_source (source : value) : result string :=
  match source with
  | VStr s =>
      let v := strip s in
      if String.eqb v "" then Raise (ValueError "source must be non-empty") else
      if 128 <? str_len v then Raise (ValueError "source exceeds max length 128") else Ok v
  | _ => Raise (ValueError "source must be a string")
  end.

Definition _normalize_metadata_summary (metadata : dict) : result dict :=
  match dict_get "summary" metadata with
  | None => Ok metadata
  | Some (VStr s) =>
      let summary := join " " (split_ws (strip s)) in
      if String.eqb summary "" then Ok (dict_pop "summary" metadata) else
      if _MAX_METADATA_SUMMARY_CHARS <? str_len summary
      then Raise (ValueError "metadata.summary exceeds max length of 2000 characters")
      else Ok (dict_set "summary" (VStr summary) metadata)
  | Some _ => Raise (ValueError "metadata.summary must be a string")
  end.

(** [v = d.pop(k, None)]; [if v is not None and k not in metadata: metadata[k] = v] *)
Definition lift_key (k : string) (dm : dict * dict) : dict * dict :=
  let v := vget k dm.1 in
  (dict_pop k dm.1, if negb (is_none v) && negb (dict_has k dm.2) then dict_set k v dm.2 else dm.2).

Section normalize.
Variable now : instant.
(** [str(uuid4())] *)
Variable new_id : string.

Definition messages_step (normalized : dict) : result dict :=
  let n := match vget "conversation" normalized with
    | VList l => if dict_has "messages" normalized then normalized else dict_set "messages" (VList l) normalized
    | _ => normalized end in
  let n := dict_pop "conversation" n in
  match vget "messages" n with
  | VList l => ms ← _normalize_messages l; Ok (dict_set "messages" (VList (map VDict ms)) n)
  | _ => Ok n
  end.
Definition fields_step (source : option string) (n : dict) : result dict :=
  let n := dict_setdefault "id" (VStr new_id) n in
  let n := dict_setdefault "source" (VStr (match nonempty source with Some s => s | None => "unknown" end)) n in
  s ← _normalize_source (vget "source" n);
  let n := dict_set "source" (VStr s) n in
  let n := dict_setdefault "timestamp" (VStr (iso_z now)) n in
  t ← _validate_datetime_string (vget "timestamp" n) "timestamp";
  Ok (dict_set "timestamp" t n).
Definition metadata_step (metadata : dict) : result dict :=
  let m := match vget "saved_at" metadata with
    | VStr s => if dict_has "imported_at" metadata then metadata else dict_set "imported_at" (VStr s) metadata
    | _ => metadata end in
  m ← _normalize_metadata_summary m;
  let m := dict_setdefault "imported_at" (VStr (iso_z now)) m in
  t ← _validate_datetime_string (vget "imported_at" m) "metadata.imported_at";
  Ok (dict_set "updated_at" (VStr (iso_z now)) (dict_set "imported_at" t m)).
Definition hashes_step (n metadata : dict) : result dict :=
  match vget "messages" n with
  | VList messages =>
      hashes ← map_result message_hash messages;
      ordered ← hash_ordered_messages messages;
      Ok (dict_set "conversation_hash" (VStr ordered)
            (dict_set "message_hashes" (VList (map VStr hashes)) metadata))
  | _ => Raise (ValueError "ambiguous input: messages must be an array")
  end.

Definition normalize_conversation_json (payload : value) (source : option string) (strict_transcript : bool) : result dict :=
  p ← _coerce_payload payload strict_transcript;
  _ ← _enforce_payload_limits p;
  let dm := lift_key THREAD_ID (lift_key "tags" (p, default [] (as_dict (vget "metadata" p)))) in
  n ← messages_step dm.1;
  n ← fields_step source n;
  m ← metadata_step dm.2;
  m ← hashes_step n m;
  n ← _normalize_thread_metadata (dict_set "metadata" (VDict m) n);
  n ← _normalize_handoff_provenance n;
  _ ← _enforce_payload_limits n;
  Ok n.
End normalize.
End hashes.
