(* ===== verification/ConvStore.v ===== *)
(** * The conversation tables of the SQLite store ([memory/backend/metadata_store.py])

    The chunk records kept in [metadata.index_chunks], their identities and the
    update of their index state; conversations with their unique indexes, the
    child rows of messages and chunks, and the operations that insert, append,
    look up and index.  The payload column is the JSON text of the conversation.
    The store shares its users and projects with [AuthDb]. *)
From Stdlib Require Import ZArith Lia Ascii.
From S2P Require Import Prelude PyStr Json Hash Clock Identity AuthDb AuthStore.
Local Open Scope Z_scope.

(** * Index chunks of a conversation payload *)

Inductive IndexState := PENDING | INDEXED | FAILED.
#[export] Instance IndexState_eq_dec : EqDecision IndexState.
Proof. solve_decision. Defined.
(** [state.value], and [IndexState(str(state))] *)
Definition state_value (s : IndexState) : string :=
  match s with PENDING => "pending_index" | INDEXED => "indexed" | FAILED => "indexing_failed" end.
Definition normalize_index_state (state : string) : result IndexState :=
  if String.eqb state "pending_index" then Ok PENDING
  else if String.eqb state "indexed" then Ok INDEXED
  else if String.eqb state "indexing_failed" then Ok FAILED
  else Raise (ValueError (state +:+ " is not a valid IndexState")).

(** [int(v)]: [None] when the conversion raises TypeError or ValueError. *)
Definition py_int (v : value) : option Z :=
  match v with
  | VInt z => Some z
  | VFloat t => match split_on "." t with whole :: _ => int_of_str whole | [] => None end
  | VBool b => Some (if b then 1 else 0)
  | VStr s => int_of_str s
  | _ => None
  end.

(** [int(part)] after [part.isdigit()], which also accepts superscript digits. *)
Definition digits_int (s : string) : result (option Z) :=
  if isdigit s then
    match int_of_str s with
    | Some z => Ok (Some z)
    | None => Raise (ValueError ("invalid literal for int() with base 10: " +:+ s))
    end
  else Ok None.
Definition _chunk_index_from_chunk_id (chunk_id : string) : result (option Z) :=
  match split_on ":" chunk_id with
  | _ :: part :: _ => digits_int part
  | _ => Ok None
  end.
Definition _chunk_index_from_payload (chunk : dict) : option Z :=
  match vget "chunk_index" chunk with VNone => None | v => py_int v end.

(** [IndexChunkIdentitySet] *)
Record IndexChunkIdentitySet := mk_identity_set { chunk_ids : list string; chunk_indexes : list Z }.
Definition from_chunk_ids (ids : list string) : result IndexChunkIdentitySet :=
  let ids := dedup (List.filter (λ i, negb (String.eqb i "")) ids) in
  indexes ← map_result _chunk_index_from_chunk_id ids;
  Ok (mk_identity_set ids (omap id indexes)).
Definition matches (targets : IndexChunkIdentitySet) (chunk : dict) : bool :=
  let chunk_id := py_str (vget_or "chunk_id" (VStr "") chunk) in
  if negb (String.eqb chunk_id "") then existsb (String.eqb chunk_id) (chunk_ids targets)
  else match _chunk_index_from_payload chunk with
       | Some i => existsb (Z.eqb i) (chunk_indexes targets)
       | None => false
       end.

(** The first chunk id of each chunk index. *)
Fixpoint zassoc {A} (i : Z) (l : list (Z * A)) : option A :=
  match l with [] => None | (j, a) :: l' => if Z.eqb i j then Some a else zassoc i l' end.
Definition index_chunk_ids_by_chunk_index (ids : list string) : result (list (Z * string)) :=
  fold_result (λ out id,
    index ← _chunk_index_from_chunk_id id;
    match index with
    | Some i => match zassoc i out with Some _ => Ok out | None => Ok (out ++ [(i, id)]) end
    | None => Ok out
    end) [] ids.

Definition update_chunk (targets : IndexChunkIdentitySet) (chunk_id_by_index : list (Z * string))
    (state : IndexState) (chunk : dict) : dict :=
  if matches targets chunk then
    let chunk' :=
      if truthy (vget "chunk_id" chunk) then chunk else
      match _chunk_index_from_payload chunk with
      | Some i => match zassoc i chunk_id_by_index with
                  | Some id => dict_set "chunk_id" (VStr id) chunk
                  | None => chunk
                  end
      | None => chunk
      end in
    dict_set "index_state" (VStr (state_value state)) chunk'
  else chunk.

Definition update_index_chunks_payload (conversation_json : dict) (ids : list string) (state : IndexState) : result dict :=
  let metadata := default [] (as_dict (vget "metadata" conversation_json)) in
  match vget "index_chunks" metadata with
  | VList chunks =>
      targets ← from_chunk_ids ids;
      chunk_id_by_index ← index_chunk_ids_by_chunk_index ids;
      let updated := map (λ item, match item with
        | VDict chunk => VDict (update_chunk targets chunk_id_by_index state chunk)
        | _ => item end) chunks in
      Ok (dict_set "metadata" (VDict (dict_set "index_chunks" (VList updated) metadata)) conversation_json)
  | _ => Ok (dict_set "metadata" (VDict metadata) conversation_json)
  end.

(** * The conversation tables of the SQLite store *)

Record conv_row := mk_conv_row {
  c_id : string; c_source : string; c_timestamp : string; c_title : option string;
  c_hash : option string; c_project : string; c_thread : option string; c_session : option string;
  c_payload : string; c_created_at : string }.
Record msg_row := mk_msg_row {
  m_conv : string; m_index : Z; m_role : string; m_text : string; m_hash : string }.
Record chunk_row := mk_chunk_row {
  k_id : string; k_conv : string; k_index : Z; k_hash : string; k_role : string; k_text : string;
  k_state : string }.
Record ConvDb := mk_conv_db {
  auth_db : AuthDb; conversations : list conv_row; messages : list msg_row; chunks : list chunk_row }.

Definition on_convs (f : list conv_row → list conv_row) (d : ConvDb) : ConvDb :=
  mk_conv_db (auth_db d) (f (conversations d)) (messages d) (chunks d).
Definition on_msgs (f : list msg_row → list msg_row) (d : ConvDb) : ConvDb :=
  mk_conv_db (auth_db d) (conversations d) (f (messages d)) (chunks d).
Definition on_chunks (f : list chunk_row → list chunk_row) (d : ConvDb) : ConvDb :=
  mk_conv_db (auth_db d) (conversations d) (messages d) (f (chunks d)).
(** An operation on the shared identity tables. *)
Definition on_auth {A} (m : M AuthDb A) : M ConvDb A := λ d,
  let (r, a) := m (auth_db d) in (r, mk_conv_db a (conversations d) (messages d) (chunks d)).

(** [idx_conversations_project_hash], [idx_conversations_project_imported_session] and the key *)
Definition keyed (f : conv_row → option string) (r : conv_row) : option (string * string) :=
  (λ x, (c_project r, x)) <$> f r.
Definition convs_unique (t : list conv_row) : bool :=
  bool_decide (NoDup (omap (keyed c_hash) t)) && bool_decide (NoDup (omap (keyed c_session) t)).

(** ** Fields of a conversation *)

Definition _MAX_SOURCE_LEN : Z := 128.
Definition _MAX_TIMESTAMP_LEN : Z := 128.
Definition _MAX_TITLE_LEN : Z := 1024.
Definition _MAX_GET_MANY_IDS : Z := 500.

(** [d[k]] *)
Definition item (k : string) (d : dict) : result value := from_option_err (KeyError k) (dict_get k d).
(** [metadata = d.get("metadata", {}); metadata.get(k)] as a text *)
Definition metadata_text (k : string) (conversation_json : dict) : option string :=
  match vget_or "metadata" (VDict []) conversation_json with
  | VDict metadata => match vget k metadata with VNone => None | v => Some (py_str v) end
  | _ => None
  end.
Definition _conversation_hash : dict → option string := metadata_text "conversation_hash".
Definition _upstream_thread_id : dict → option string := metadata_text "upstream_thread_id".
Definition _imported_session_identity : dict → option string := metadata_text "imported_session_identity".
Definition _project_id : dict → option string := metadata_text "project_id".
Definition _owner_id_from_payload : dict → option string := metadata_text "owner_id".

Definition _validate_field_lengths (source timestamp : string) (title : value) : result unit :=
  _ ← guard_err (_MAX_SOURCE_LEN <? str_len source) (ValueError "source exceeds max length 128");
  _ ← guard_err (_MAX_TIMESTAMP_LEN <? str_len timestamp) (ValueError "timestamp exceeds max length 128");
  guard_err (negb (is_none title) && (_MAX_TITLE_LEN <? str_len (py_str title)))
    (ValueError "title exceeds max length 1024").

(** A value bound to a TEXT column. *)
Definition sql_text (v : value) : result (option string) :=
  match v with
  | VNone => Ok None
  | VStr s => Ok (Some s)
  | VInt z => Ok (Some (str_of_Z z))
  | VBool b => Ok (Some (if b then "1" else "0"))
  | _ => Raise OutsideModel
  end.

(** The conversation after the mutation. *)
Definition _stamp_project_id (payload : dict) (project_id : string) : dict :=
  let metadata := default [] (as_dict (vget "metadata" payload)) in
  dict_set "metadata" (VDict (dict_set "project_id" (VStr project_id) metadata)) payload.

Section store.
Context `{HashLib} `{Environ}.
Variable now : instant.
Notation ts := (sql_timestamp now).
Notation DB := (M ConvDb).

(** The project of a conversation, and the conversation stamped with it. *)
Definition _ensure_payload_project (conversation_json : dict) : result (string * dict) :=
  match _project_id conversation_json with
  | Some p => project_id ← _validate_project_id p; Ok (project_id, conversation_json)
  | None =>
      let project_id := match _owner_id_from_payload conversation_json with
        | Some owner => if String.eqb owner "" then LOCAL_DEFAULT_PROJECT_ID else _default_project_id owner
        | None => LOCAL_DEFAULT_PROJECT_ID end in
      Ok (project_id, _stamp_project_id conversation_json project_id)
  end.
Definition _ensure_project_for_payload (conversation_json : dict) : DB unit :=
  _ ← on_auth (_ensure_default_project now (_owner_id_from_payload conversation_json)); mret tt.

(** ** Child rows *)

Definition message_of (v : value) : result (string * string * string) :=
  match v with
  | VDict m => h ← item "hash" m; r ← item "role" m; t ← item "text" m; Ok (py_str h, py_str r, py_str t)
  | _ => Raise (TypeError "string indices must be integers")
  end.
Definition messages_of (conversation_json : dict) : list value :=
  match vget_or "messages" (VList []) conversation_json with VList l => l | _ => [] end.

(** [enumerate(xs)] from [i] *)
Fixpoint enumerate {A} (i : Z) (xs : list A) : list (Z * A) :=
  match xs with [] => [] | x :: xs' => (i, x) :: enumerate (i + 1) xs' end.

Definition fallback_chunk (id : string) (im : Z * value) : result dict :=
  '(h, r, t) ← message_of im.2;
  Ok [("chunk_id", VStr (id +:+ ":" +:+ str_of_Z im.1 +:+ ":" +:+ h)); ("chunk_index", VInt im.1);
      ("message_hash", VStr h); ("role", VStr r); ("text", VStr t);
      ("index_state", VStr (state_value PENDING))].
(** [_index_chunks]: the recorded chunks when they are all objects, else one per message. *)
Definition _index_chunks (conversation_json : dict) : result (list dict) :=
  let recorded := match vget_or "metadata" (VDict []) conversation_json with
    | VDict metadata => match vget "index_chunks" metadata with VList l => mapM as_dict l | _ => None end
    | _ => None end in
  match recorded with
  | Some l => Ok l
  | None => id ← item "id" conversation_json;
            map_result (fallback_chunk (py_str id)) (enumerate 0 (messages_of conversation_json))
  end.

Definition insert_message (id : string) (im : Z * value) : DB unit :=
  '(h, r, t) ← lift (message_of im.2);
  exec (on_msgs (tbl_insert_ignore
    (λ m, String.eqb (m_conv m) id && (Z.eqb (m_index m) im.1 || String.eqb (m_hash m) h))
    (mk_msg_row id im.1 r t h))).

(** [int(chunk["chunk_index"])], the row, its CHECK and its replacement of the
    rows it conflicts with. *)
Definition chunk_conflict (id cid : string) (i : Z) (k : chunk_row) : bool :=
  String.eqb (k_id k) cid || String.eqb (k_conv k) id && Z.eqb (k_index k) i.
Definition chunk_of (id : string) (chunk : dict) : result chunk_row :=
  cid ← item "chunk_id" chunk;
  index ← item "chunk_index" chunk;
  i ← from_option_err (ValueError "invalid chunk_index") (py_int index);
  h ← item "message_hash" chunk;
  r ← item "role" chunk;
  t ← item "text" chunk;
  Ok (mk_chunk_row (py_str cid) id i (py_str h) (py_str r) (py_str t)
        (py_str (vget_or "index_state" (VStr (state_value PENDING)) chunk))).
Definition replace_chunk (id : string) (chunk : dict) : DB unit :=
  k ← lift (chunk_of id chunk);
  exec_r (λ d,
    match normalize_index_state (k_state k) with
    | Ok _ => Ok (on_chunks (λ t, tbl_delete (chunk_conflict id (k_id k) (k_index k)) t ++ [k]) d)
    | Raise _ => Raise (IntegrityError "CHECK constraint failed: index_state")
    end).

Fixpoint each {A} (f : A → DB unit) (xs : list A) : DB unit :=
  match xs with [] => mret tt | x :: xs' => _ ← f x; each f xs' end.

Definition _replace_child_rows (conversation_json : dict) : DB unit :=
  raw ← lift (item "id" conversation_json);
  id ← lift (_validate_memory_id raw);
  _ ← exec (on_msgs (tbl_delete (λ m, String.eqb (m_conv m) id)));
  _ ← exec (on_chunks (tbl_delete (λ k, String.eqb (k_conv k) id)));
  _ ← each (insert_message id) (enumerate 0 (messages_of conversation_json));
  index_chunks ← lift (_index_chunks conversation_json);
  each (replace_chunk id) index_chunks.

(** ** Writing conversations *)

Definition is_conv (id : string) (r : conv_row) : bool := String.eqb (c_id r) id.
Definition write_convs (f : list conv_row → list conv_row) : DB unit :=
  exec_r (λ d, if convs_unique (f (conversations d)) then Ok (on_convs f d)
               else Raise (IntegrityError "UNIQUE constraint failed: conversations")).

(** The row a conversation is written as. *)
Definition conv_row_of (conversation_json : dict) : result conv_row :=
  raw ← item "id" conversation_json;
  memory_id ← _validate_memory_id raw;
  let source := py_str (vget_or "source" (VStr "") conversation_json) in
  let timestamp := py_str (vget_or "timestamp" (VStr "") conversation_json) in
  let title := vget "title" conversation_json in
  _ ← _validate_field_lengths source timestamp title;
  '(project_id, stamped) ← _ensure_payload_project conversation_json;
  title_text ← sql_text title;
  Ok (mk_conv_row memory_id source timestamp title_text (_conversation_hash stamped) project_id
        (_upstream_thread_id stamped) (_imported_session_identity stamped) (json_dumps (VDict stamped)) ts).
(** The conversation as the store leaves it to its caller. *)
Definition stamped (conversation_json : dict) : dict :=
  match _ensure_payload_project conversation_json with Ok (_, s) => s | Raise _ => conversation_json end.

(** the DO UPDATE of [insert]: everything but the key and the creation time *)
Definition set_conv (new r : conv_row) : conv_row :=
  mk_conv_row (c_id r) (c_source new) (c_timestamp new) (c_title new) (c_hash new) (c_project new)
    (c_thread new) (c_session new) (c_payload new) (c_created_at r).

Definition insert (conversation_json : dict) : DB string :=
  new ← lift (conv_row_of conversation_json);
  transaction (
    _ ← _ensure_project_for_payload (stamped conversation_json);
    _ ← write_convs (tbl_upsert (is_conv (c_id new)) new (set_conv new));
    _ ← _replace_child_rows (stamped conversation_json);
    mret (c_id new)).

(** ** Lookups *)

Definition payload_of (row : option conv_row) : result (option value) :=
  match row with None => Ok None | Some r => v ← json_loads (c_payload r); Ok (Some v) end.
(** the row a query with [ORDER BY created_at ASC LIMIT 1] returns *)
Definition oldest (rows : list conv_row) : option conv_row :=
  head (sort_by (λ a b, String.leb (c_created_at a) (c_created_at b)) rows).

Definition get (memory_id : value) : DB (option value) :=
  id ← lift (_validate_memory_id memory_id);
  row ← query (λ d, tbl_find (is_conv id) (conversations d));
  lift (payload_of row).

Definition get_by_conversation_hash (conversation_hash project_id : option string) : DB (option value) :=
  match conversation_hash with
  | None => mret None
  | Some h =>
      if String.eqb h "" then mret None else
      row ← query (λ d, tbl_find (λ r, opt_is h (c_hash r) &&
        match project_id with Some p => String.eqb (c_project r) p | None => true end) (conversations d));
      lift (payload_of row)
  end.

Definition get_by_upstream_thread (source upstream_thread_id : string) (project_id : option string) : DB (option value) :=
  row ← query (λ d, oldest (tbl_select (λ r, String.eqb (c_source r) source
    && opt_is upstream_thread_id (c_thread r)
    && match project_id with Some p => String.eqb (c_project r) p | None => true end) (conversations d)));
  lift (payload_of row).

Definition get_by_imported_session (imported_session_identity project_id : string) : DB (option value) :=
  project ← lift (_validate_project_id project_id);
  row ← query (λ d, oldest (tbl_select (λ r, opt_is imported_session_identity (c_session r)
    && String.eqb (c_project r) project) (conversations d)));
  lift (payload_of row).

Definition _resolve_insert_new_conflict (memory_id : string)
    (conversation_hash imported_session_identity : option string) (project_id : string) : DB (string * bool) :=
  by_hash ← get_by_conversation_hash conversation_hash (Some project_id);
  by_session ← match by_hash, imported_session_identity with
    | None, Some s => if String.eqb s "" || String.eqb project_id "" then mret None
                      else get_by_imported_session s project_id
    | e, _ => mret e end;
  existing ← match by_session with None => get (VStr memory_id) | e => mret e end;
  match existing with
  | None => raise (IntegrityError "conversation insert conflict could not be resolved")
  | Some (VDict e) =>
      let same_hash := bool_decide (_conversation_hash e = conversation_hash) in
      let same_imported_session := negb (null imported_session_identity)
        && bool_decide (_imported_session_identity e = imported_session_identity) in
      if same_imported_session && negb same_hash
      then raise (ValueError "imported_session_conflict: snapshot reconciliation required") else
      if negb same_hash || negb (bool_decide (_project_id e = Some project_id))
      then raise (ValueError "unauthorized_update: conversation id already exists") else
      id ← lift (item "id" e);
      mret (py_str id, false)
  | Some _ => raise OutsideModel
  end.

(** [try: with conn: ... except IntegrityError: return resolve(...)] *)
Definition on_integrity_error {A} (m handler : DB A) : DB A := λ d,
  match m d with
  | (Raise (IntegrityError _), d') => handler d'
  | r => r
  end.
(** The id, and whether the conversation was created. *)
Definition insert_new (conversation_json : dict) : DB (string * bool) :=
  new ← lift (conv_row_of conversation_json);
  on_integrity_error
    (transaction (
      _ ← _ensure_project_for_payload (stamped conversation_json);
      _ ← exec_r (λ d,
        t ← tbl_insert (is_conv (c_id new)) new "UNIQUE constraint failed: conversations.id" (conversations d);
        if convs_unique t then Ok (on_convs (λ _, t) d)
        else Raise (IntegrityError "UNIQUE constraint failed: conversations"));
      _ ← _replace_child_rows (stamped conversation_json);
      mret (c_id new, true)))
    (_resolve_insert_new_conflict (c_id new) (c_hash new) (c_session new) (c_project new)).

(** the SET clause of the conditional append *)
Definition set_appended (new r : conv_row) : conv_row :=
  mk_conv_row (c_id r) (c_source new) (c_timestamp new) (c_title new) (c_hash new) (c_project new)
    (c_thread new) (c_session r) (c_payload new) (c_created_at r).

Definition append_messages (conversation_json : dict) (expected_conversation_hash : option string) : DB string :=
  match expected_conversation_hash with
  | None => insert conversation_json
  | Some expected =>
      new ← lift (conv_row_of conversation_json);
      transaction (
        _ ← _ensure_project_for_payload (stamped conversation_json);
        let p r := is_conv (c_id new) r && opt_is expected (c_hash r) in
        rowcount ← query (λ d, tbl_count p (conversations d));
        _ ← write_convs (tbl_update p (set_appended new));
        _ ← lift (guard_err (negb (rowcount =? 1)) (ConcurrentAppendError "conversation changed during append"));
        _ ← _replace_child_rows (stamped conversation_json);
        mret (c_id new))
  end.

Fixpoint batch_insert_each (conversations : list dict) : DB (list string) :=
  match conversations with
  | [] => mret []
  | conversation_json :: rest =>
      new ← lift (conv_row_of conversation_json);
      _ ← _ensure_project_for_payload (stamped conversation_json);
      _ ← write_convs (tbl_upsert (is_conv (c_id new)) new (set_conv new));
      _ ← _replace_child_rows (stamped conversation_json);
      ids ← batch_insert_each rest;
      mret (c_id new :: ids)
  end.
Definition batch_insert (conversations : list dict) : DB (list string) :=
  transaction (batch_insert_each conversations).

(** ** Index state *)

Definition is_fully_indexed (conversation_id : value) : DB bool :=
  id ← lift (_validate_memory_id conversation_id);
  query (λ d,
    let total := tbl_count (λ k, String.eqb (k_conv k) id) (chunks d) in
    let indexed := tbl_count (λ k, String.eqb (k_conv k) id && String.eqb (k_state k) (state_value INDEXED)) (chunks d) in
    negb (total =? 0) && (total =? indexed)).

Definition set_chunk_state (state : IndexState) (k : chunk_row) : chunk_row :=
  mk_chunk_row (k_id k) (k_conv k) (k_index k) (k_hash k) (k_role k) (k_text k) (state_value state).
Definition set_payload (p : string) (r : conv_row) : conv_row :=
  mk_conv_row (c_id r) (c_source r) (c_timestamp r) (c_title r) (c_hash r) (c_project r)
    (c_thread r) (c_session r) p (c_created_at r).

Definition _sync_index_chunk_payload_state (memory_id : string) (ids : list string) (state : IndexState) : DB unit :=
  row ← query (λ d, tbl_find (is_conv memory_id) (conversations d));
  match row with
  | None => mret tt
  | Some r =>
      payload ← lift (json_loads (c_payload r));
      match payload with
      | VDict payload =>
          updated ← lift (update_index_chunks_payload payload ids state);
          exec (on_convs (tbl_update (is_conv memory_id) (set_payload (json_dumps (VDict updated)))))
      | _ => raise OutsideModel
      end
  end.

Definition _mark_chunks_state (memory_id : value) (ids : list string) (state : IndexState) : DB unit :=
  id ← lift (_validate_memory_id memory_id);
  transaction (
    _ ← each (λ chunk_id, exec (on_chunks (tbl_update
          (λ k, String.eqb (k_conv k) id && String.eqb (k_id k) chunk_id) (set_chunk_state state)))) ids;
    _sync_index_chunk_payload_state id ids state).
Definition mark_chunks_indexed (memory_id : value) (ids : list string) : DB unit :=
  _mark_chunks_state memory_id ids INDEXED.
Definition mark_chunks_indexing_failed (memory_id : value) (ids : list string) : DB unit :=
  _mark_chunks_state memory_id ids FAILED.

(** ** Reading many *)

Definition get_many (ids : list value) : DB (list (string * value)) :=
  if Z.of_nat (length ids) =? 0 then mret [] else
  _ ← lift (guard_err (_MAX_GET_MANY_IDS <? Z.of_nat (length ids)) (ValueError ("Too many ids requested: " +:+ str_of_Z (Z.of_nat (length ids)) +:+ " > 500")));
  validated ← lift (map_result _validate_memory_id ids);
  rows ← query (λ d, tbl_select (λ r, existsb (String.eqb (c_id r)) validated) (conversations d));
  lift (map_result (λ r, v ← json_loads (c_payload r); Ok (c_id r, v)) rows).

(** [ORDER BY created_at ASC, id ASC] *)
Definition conv_order (a b : conv_row) : bool :=
  match String.compare (c_created_at a) (c_created_at b) with
  | Lt => true | Gt => false | Eq => String.leb (c_id a) (c_id b) end.
Definition list_conversations (limit : option Z) (project_id : option string) : DB (list value) :=
  project ← match project_id with
    | Some p => p' ← lift (_validate_project_id p); mret (Some p') | None => mret None end;
  rows ← query (λ d, sort_by conv_order (tbl_select (λ r,
    match project with Some p => String.eqb (c_project r) p | None => true end) (conversations d)));
  lift (map_result (λ r, json_loads (c_payload r))
    (match limit with
     | Some n => if n <? 0 then rows else take (Z.to_nat n) rows
     | None => rows end)).
End store.
