(* ===== verification/ConvFacts.v ===== *)
(** * Guarantees of the conversation store

    Its invariant over every history of operations, reading back what was
    written, duplicates, the compare-and-swap of appends, and the index state. *)
From Stdlib Require Import ZArith Lia Ascii.
From S2P Require Import Prelude PyStr Json Hash Clock Config Identity AuthDb AuthStore OAuthStore AuthSystem Samples ConvStore.

Inductive conv_op :=
| OpInsert (c : dict)
| OpInsertNew (c : dict)
| OpAppend (c : dict) (expected : option string)
| OpBatch (cs : list dict)
| OpMark (id : value) (ids : list string) (state : IndexState).
(** The conversations of an operation are Python dicts: no key twice. *)
Definition op_wf (o : conv_op) : Prop :=
  match o with
  | OpInsert c | OpInsertNew c | OpAppend c _ => wf_value (VDict c)
  | OpBatch cs => Forall (λ c, wf_value (VDict c)) cs
  | OpMark _ _ _ => True
  end.

(** The payload of a row is the JSON text of a conversation, and the columns
    that the lookups search are that conversation's fields. *)
Definition project_column (p e : option string) : Prop :=
  p = e ∨ ∃ x y, p = Some x ∧ e = Some y ∧ _validate_project_id y = Ok x.
Record row_of (e : dict) (r : conv_row) : Prop := mk_row_of {
  row_wf : wf_value (VDict e);
  row_payload : c_payload r = json_dumps (VDict e);
  row_id : py_str <$> dict_get "id" e = Some (c_id r);
  row_source : c_source r = py_str (vget_or "source" (VStr "") e);
  row_hash : c_hash r = _conversation_hash e;
  row_thread : c_thread r = _upstream_thread_id e;
  row_project : project_column (Some (c_project r)) (_project_id e);
  row_uuid : _validate_memory_id (VStr (c_id r)) = Ok (c_id r) }.
Definition row_ok (r : conv_row) : Prop := ∃ e, row_of e r.

Section facts.
Context `{HashLib} `{Environ}.

Definition conv_step (now : instant) (o : conv_op) (d : ConvDb) : ConvDb :=
  match o with
  | OpInsert c => (insert now c d).2
  | OpInsertNew c => (insert_new now c d).2
  | OpAppend c e => (append_messages now c e d).2
  | OpBatch cs => (batch_insert now cs d).2
  | OpMark i ids s => (_mark_chunks_state i ids s d).2
  end.
Inductive conv_reachable : ConvDb → Prop :=
| conv_empty : conv_reachable (mk_conv_db empty_db [] [] [])
| conv_next now o d : op_wf o → conv_reachable d → conv_reachable (conv_step now o d).

(** ** The invariant *)

Definition chunk_state_ok (k : chunk_row) : Prop := ∃ s, k_state k = state_value s.
Record conv_inv (d : ConvDb) : Prop := mk_conv_inv {
  inv_rows : Forall row_ok (conversations d);
  inv_ids : unique_key c_id (conversations d);
  inv_hashes : NoDup (omap (keyed c_hash) (conversations d));
  inv_imported : NoDup (omap (keyed c_session) (conversations d));
  inv_messages : unique_key (λ m, (m_conv m, m_index m)) (messages d);
  inv_message_hashes : unique_key (λ m, (m_conv m, m_hash m)) (messages d);
  inv_chunk_ids : unique_key k_id (chunks d);
  inv_chunk_indexes : unique_key (λ k, (k_conv k, k_index k)) (chunks d);
  inv_chunk_states : Forall chunk_state_ok (chunks d) }.

Lemma normalize_state_value s st : normalize_index_state s = Ok st → s = state_value st.
Proof.
  unfold normalize_index_state. repeat (case_match; [intros [= <-]; by prop_bool|]). done.
Qed.
Lemma normalize_index_state_value st : normalize_index_state (state_value st) = Ok st.
Proof. by destruct st. Qed.

Ltac conv_table := intros [] [] **; constructor; cbn in *; auto.
Lemma on_convs_inv f d : conv_inv d → Forall row_ok (f (conversations d)) → unique_key c_id (f (conversations d)) →
  NoDup (omap (keyed c_hash) (f (conversations d))) → NoDup (omap (keyed c_session) (f (conversations d))) →
  conv_inv (on_convs f d).
Proof. revert d; conv_table. Qed.
Lemma on_msgs_inv f d : conv_inv d → unique_key (λ m, (m_conv m, m_index m)) (f (messages d)) →
  unique_key (λ m, (m_conv m, m_hash m)) (f (messages d)) → conv_inv (on_msgs f d).
Proof. revert d; conv_table. Qed.
Lemma on_chunks_inv f d : conv_inv d → unique_key k_id (f (chunks d)) →
  unique_key (λ k, (k_conv k, k_index k)) (f (chunks d)) → Forall chunk_state_ok (f (chunks d)) →
  conv_inv (on_chunks f d).
Proof. revert d; conv_table. Qed.

Lemma on_auth_inv {A} (m : M AuthDb A) : moves (keeps conv_inv) (on_auth m).
Proof. intros d Hd. unfold on_auth. destruct (m (auth_db d)) as [r a]. destruct Hd; by constructor. Qed.

Lemma convs_unique_spec t : convs_unique t = true ↔
  NoDup (omap (keyed c_hash) t) ∧ NoDup (omap (keyed c_session) t).
Proof. unfold convs_unique. rewrite andb_true_iff, !bool_decide_eq_true. done. Qed.

Lemma write_convs_inv f :
  (∀ t, Forall row_ok t → Forall row_ok (f t)) →
  (∀ t, unique_key c_id t → unique_key c_id (f t)) → moves (keeps conv_inv) (write_convs f).
Proof.
  intros Hr Hf. unfold write_convs. walk. intros Hi. destruct (convs_unique _) eqn:E; simplify_eq.
  apply convs_unique_spec in E as [??]. apply on_convs_inv; auto; [apply Hr, Hi|apply Hf, Hi].
Qed.

Lemma each_moves {A} R `{!PreOrder R} (f : A → M ConvDb unit) xs :
  (∀ x, moves R (f x)) → moves R (each f xs).
Proof.
  intros Hf. induction xs as [|x xs IH]; cbn; [by apply moves_ret|].
  apply moves_bind; [apply _|done|done].
Qed.

Lemma insert_message_inv id im : moves (keeps conv_inv) (insert_message id im).
Proof.
  unfold insert_message. walk. intros Hi. apply on_msgs_inv; [done| |].
  - apply unique_insert_ignore; [|apply Hi]. cbn. intros ? [= -> ->]. by rewrite String.eqb_refl, Z.eqb_refl.
  - apply unique_insert_ignore; [|apply Hi]. cbn. intros ? [= -> ->].
    by rewrite !String.eqb_refl, orb_true_r.
Qed.

Lemma unique_replace {K} (key : chunk_row → K) p k t :
  (∀ r, key r = key k → p r = true) → unique_key key t → unique_key key (tbl_delete p t ++ [k]).
Proof.
  intros Hp Ht. eapply (unique_snoc key p); [|done|by apply unique_delete].
  rewrite tbl_find_existsb. rewrite tbl_find_is_None; [done|].
  intros r. rewrite elem_of_tbl_delete. tauto.
Qed.

Lemma chunk_of_conv id c k : chunk_of id c = Ok k → k_conv k = id.
Proof. unfold chunk_of. intros Hk. inv_ok. by subst. Qed.

Lemma replace_chunk_inv id c : moves (keeps conv_inv) (replace_chunk id c).
Proof.
  unfold replace_chunk. apply moves_checked; [apply _|]. intros k Hk%chunk_of_conv.
  apply moves_exec_r; [apply _|]. intros d d' Hd Hi.
  destruct (normalize_index_state (k_state k)) as [st|] eqn:Hst; [|done].
  injection Hd as <-. apply normalize_state_value in Hst. apply on_chunks_inv; [done| | |].
  - apply unique_replace; [|apply Hi]. unfold chunk_conflict. intros r ->. by rewrite String.eqb_refl.
  - apply unique_replace; [|apply Hi]. unfold chunk_conflict. intros r [= -> ->].
    by rewrite Hk, String.eqb_refl, Z.eqb_refl, orb_true_r.
  - apply Forall_app. split; [apply Forall_tbl_delete, Hi|]. repeat constructor. by exists st.
Qed.

Lemma replace_child_rows_inv c : moves (keeps conv_inv) (_replace_child_rows c).
Proof.
  unfold _replace_child_rows.
  walk; try apply each_moves; try apply _; intros;
    try apply insert_message_inv; try apply replace_chunk_inv.
  - intros Hi. apply on_msgs_inv; [done|apply unique_delete, Hi..].
  - intros Hi. apply on_chunks_inv; [done|apply unique_delete, Hi..|apply Forall_tbl_delete, Hi].
Qed.

Hint Resolve replace_child_rows_inv : moves.
Lemma ensure_project_inv now c : moves (keeps conv_inv) (_ensure_project_for_payload now c).
Proof. unfold _ensure_project_for_payload. apply moves_bind; [apply _|apply on_auth_inv|]. intros ?. walk. Qed.
Hint Resolve ensure_project_inv : moves.


(** *** The rows a conversation is written as *)

Lemma stamp_wf c p : wf_value (VDict c) → wf_value (VDict (_stamp_project_id c p)).
Proof. 
  intros Hc. apply wf_dict_set; [done|]. apply wf_dict_set; [by apply wf_as_dict, wf_vget|done].
Qed.
Lemma stamp_get k c p : k ≠ "metadata" → dict_get k (_stamp_project_id c p) = dict_get k c.
Proof. apply dict_get_set_ne. Qed.
Lemma stamp_metadata k c p : metadata_text k (_stamp_project_id c p) =
  if String.eqb k "project_id" then Some p else metadata_text k c.
Proof.
  unfold metadata_text, _stamp_project_id, vget_or, vget. rewrite dict_get_set_eq. cbn.
  rewrite dict_get_set. destruct (String.eqb k "project_id"); [done|].
  by destruct (dict_get "metadata" c) as [[]|].
Qed.
Lemma ensure_payload_project_spec c p s : _ensure_payload_project c = Ok (p, s) →
  (s = c ∧ ∃ y, _project_id c = Some y ∧ _validate_project_id y = Ok p) ∨ s = _stamp_project_id c p.
Proof.
  unfold _ensure_payload_project. destruct (_project_id c) as [y|] eqn:E.
  - intros Hv. inv_ok. simplify_eq. left. eauto.
  - intros [= <- <-]. auto.
Qed.
Lemma ensure_payload_project_column c p s : _ensure_payload_project c = Ok (p, s) →
  project_column (Some p) (_project_id s).
Proof.
  intros [[-> (y & ? & ?)]| ->]%ensure_payload_project_spec; [right; eauto|left].
  unfold _project_id. by rewrite stamp_metadata.
Qed.
Lemma ensure_payload_project_get k c p s : k ≠ "metadata" →
  _ensure_payload_project c = Ok (p, s) → dict_get k s = dict_get k c.
Proof. intros Hk [[-> _]| ->]%ensure_payload_project_spec; [done|by apply stamp_get]. Qed.
Lemma ensure_payload_project_wf c p s : wf_value (VDict c) → _ensure_payload_project c = Ok (p, s) →
  wf_value (VDict s).
Proof. intros Hc [[-> _]| ->]%ensure_payload_project_spec; [done|by apply stamp_wf]. Qed.
Lemma stamped_wf c : wf_value (VDict c) → wf_value (VDict (stamped c)).
Proof.
  intros Hc. unfold stamped. destruct (_ensure_payload_project c) as [[p s]|] eqn:E; [|done].
  by eapply ensure_payload_project_wf.
Qed.

Lemma memory_id_str v i : _validate_memory_id v = Ok i → py_str v = i.
Proof. unfold _validate_memory_id. case_match; [by intros [= ->]|done]. Qed.
Lemma memory_id_ok v i : _validate_memory_id v = Ok i → _validate_memory_id (VStr i) = Ok i.
Proof. intros E. pose proof (memory_id_str _ _ E) as <-. exact E. Qed.

Lemma conv_row_of_spec now c r : conv_row_of now c = Ok r → wf_value (VDict c) → row_of (stamped c) r.
Proof.
  unfold conv_row_of. intros Hr Hc. inv_ok. destruct x2 as [p s]. inv_ok. subst r.
  match goal with H : _ensure_payload_project _ = _ |- _ => rename H into Hp end.
  assert (stamped c = s) as -> by (unfold stamped; by rewrite Hp).
  split; cbn; [by eapply ensure_payload_project_wf|done| | |done|done|by eapply ensure_payload_project_column|by eapply memory_id_ok].
  - erewrite ensure_payload_project_get; [|done|done].
    unfold item in *. destruct (dict_get "id" c); cbn in *; simplify_eq. cbn. f_equal. by apply memory_id_str.
  - unfold vget_or. by rewrite (ensure_payload_project_get "source" _ _ _ ltac:(done) Hp).
Qed.
Lemma row_of_moved e new r : row_of e new → c_id r = c_id new → row_of e (set_conv new r).
Proof. intros [] Hr. split; cbn; rewrite ?Hr; done. Qed.

Lemma set_conv_rows new t : row_ok new → Forall row_ok t → Forall row_ok (tbl_upsert (is_conv (c_id new)) new (set_conv new) t).
Proof.
  intros [e He] Ht. apply Forall_forall. intros r Hr.
  apply elem_of_tbl_upsert in Hr as [->|[[Hr _]|(r1 & _ & E & ->)]];
    [by exists e|rewrite Forall_forall in Ht; by apply Ht|].
  exists e. apply row_of_moved; [done|]. by apply String.eqb_eq in E.
Qed.
Lemma set_appended_rows new x t : row_ok new →
  Forall row_ok t → Forall row_ok (tbl_update (λ r, is_conv (c_id new) r && opt_is x (c_hash r)) (set_appended new) t).
Proof.
  intros [e He] Ht. apply Forall_tbl_update; [done|]. intros r _ E. prop_bool. exists e.
  assert (c_id r = c_id new) by by apply String.eqb_eq. destruct He. split; cbn; try done; congruence.
Qed.

Lemma upsert_conv_inv new : row_ok new →
  moves (keeps conv_inv) (write_convs (tbl_upsert (is_conv (c_id new)) new (set_conv new))).
Proof.
  intros Hn. apply write_convs_inv; [intros t; by apply set_conv_rows|].
  intros t. apply unique_upsert; [done|].
  intros r' E. unfold is_conv. rewrite E. apply String.eqb_refl.
Qed.
Lemma append_conv_inv new x : row_ok new → moves (keeps conv_inv)
  (write_convs (tbl_update (λ r, is_conv (c_id new) r && opt_is x (c_hash r)) (set_appended new))).
Proof.
  intros Hn. apply write_convs_inv; [intros t; by apply set_appended_rows|].
  intros t. by apply unique_update.
Qed.
Hint Resolve upsert_conv_inv append_conv_inv : moves.

Lemma on_integrity_error_moves {A} R `{!PreOrder R} (m h : M ConvDb A) :
  moves R m → moves R h → moves R (on_integrity_error m h).
Proof.
  intros Hm Hh d. specialize (Hm d). unfold on_integrity_error.
  destruct (m d) as [[a|[]] d']; cbn in *; try done. etrans; [exact Hm|apply Hh].
Qed.

Lemma get_moves R `{!PreOrder R} v : moves R (get v).
Proof. unfold get. walk. Qed.
Lemma get_by_hash_moves R `{!PreOrder R} h p : moves R (get_by_conversation_hash h p).
Proof. unfold get_by_conversation_hash. walk. Qed.
Lemma get_by_session_moves R `{!PreOrder R} h p : moves R (get_by_imported_session h p).
Proof. unfold get_by_imported_session. walk. Qed.
Lemma resolve_moves R `{!PreOrder R} i h s p : moves R (_resolve_insert_new_conflict i h s p).
Proof.
  unfold _resolve_insert_new_conflict.
  walk; auto using get_moves, get_by_hash_moves, get_by_session_moves.
Qed.

Lemma conv_row_of_ok now c r : conv_row_of now c = Ok r → wf_value (VDict c) → row_ok r.
Proof. intros. eexists. by eapply conv_row_of_spec. Qed.
Hint Resolve conv_row_of_ok : moves.

Lemma insert_inv now c : wf_value (VDict c) → moves (keeps conv_inv) (insert now c).
Proof. intros Hc. unfold insert. apply moves_checked; [apply _|]. intros new Hn. walk. eauto with moves. Qed.
Lemma unique_conv_snoc new msg t t' : tbl_insert (is_conv (c_id new)) new msg t = Ok t' →
  unique_key c_id t → unique_key c_id t'.
Proof.
  intros Ht. eapply unique_insert; [exact Ht|]. intros r' E. unfold is_conv. rewrite E. apply String.eqb_refl.
Qed.
Lemma insert_new_inv now c : wf_value (VDict c) → moves (keeps conv_inv) (insert_new now c).
Proof.
  intros Hc. unfold insert_new. apply moves_checked; [apply _|]. intros new Hn.
  apply on_integrity_error_moves; [apply _| |apply resolve_moves, _].
  walk. intros Hi.
  destruct (tbl_insert _ _ _ _) as [t|] eqn:Ht; [|done]. cbn in *.
  destruct (convs_unique t) eqn:E; simplify_eq. apply convs_unique_spec in E as [??].
  apply on_convs_inv; [done| |by eapply unique_conv_snoc, Hi|done..].
  apply tbl_insert_Ok in Ht as [_ ->]. apply Forall_app. split; [apply Hi|].
  repeat constructor. by eapply conv_row_of_ok.
Qed.
Hint Resolve insert_inv insert_new_inv : moves.
Lemma append_messages_inv now c e : wf_value (VDict c) → moves (keeps conv_inv) (append_messages now c e).
Proof.
  intros Hc. unfold append_messages. destruct e as [x|]; [|auto with moves].
  apply moves_checked; [apply _|]. intros new Hn. walk. eauto with moves.
Qed.
Lemma batch_insert_inv now cs : Forall (λ c, wf_value (VDict c)) cs → moves (keeps conv_inv) (batch_insert now cs).
Proof.
  intros Hcs. unfold batch_insert. walk. induction Hcs as [|c cs Hc _ IH]; cbn; [walk|].
  apply moves_checked; [apply _|]. intros new Hn. walk. eauto with moves.
Qed.

(** *** The index state in the payload *)

Lemma update_chunk_wf t l s ch : wf_value (VDict ch) → wf_value (VDict (update_chunk t l s ch)).
Proof.
  intros Hc. unfold update_chunk. case_match; [|done]. apply wf_dict_set; [|done].
  repeat case_match; try done. by apply wf_dict_set.
Qed.
Lemma update_payload_metadata k p ids st p' : update_index_chunks_payload p ids st = Ok p' →
  k ≠ "index_chunks" → metadata_text k p' = metadata_text k p.
Proof.
  unfold update_index_chunks_payload, metadata_text, vget_or, vget. intros Hp Hk.
  destruct (dict_get "metadata" p) as [[| | | | | |m]|] eqn:Hm; cbn in Hp; simplify_eq; rewrite ?dict_get_set_eq; try done.
  destruct (dict_get "index_chunks" m) as [[| | | | |l|]|]; cbn in Hp; inv_ok; subst p'; rewrite ?dict_get_set_eq; cbn; try done.
  by rewrite dict_get_set_ne.
Qed.
Lemma update_payload_get k p ids st p' : update_index_chunks_payload p ids st = Ok p' →
  k ≠ "metadata" → dict_get k p' = dict_get k p.
Proof.
  unfold update_index_chunks_payload. intros Hp Hk.
  destruct (vget _ (default _ _)); inv_ok; subst p'; by apply dict_get_set_ne.
Qed.
Lemma update_payload_wf p ids st p' : update_index_chunks_payload p ids st = Ok p' →
  wf_value (VDict p) → wf_value (VDict p').
Proof.
  unfold update_index_chunks_payload. intros Hp Hw.
  assert (Hm : wf_value (VDict (default [] (as_dict (vget "metadata" p))))) by by apply wf_as_dict, wf_vget.
  pose proof (wf_vget "index_chunks" _ Hm) as Hl.
  destruct (vget _ (default _ _)) as [| | | | |l|]; inv_ok; subst p'; try (by apply wf_dict_set).
  apply wf_dict_set; [done|]. apply wf_dict_set; [done|]. apply wf_list in Hl. apply wf_list.
  apply Forall_forall. intros v. rewrite list_elem_of_In, in_map_iff. intros (v0 & <- & Hv0).
  rewrite <-list_elem_of_In in Hv0. rewrite Forall_forall in Hl. specialize (Hl _ Hv0).
  destruct v0; try done. by apply update_chunk_wf.
Qed.
Lemma update_payload_row e ids st e' r : update_index_chunks_payload e ids st = Ok e' →
  row_of e r → row_of e' (set_payload (json_dumps (VDict e')) r).
Proof.
  intros Hu []. split; cbn.
  - by eapply update_payload_wf.
  - done.
  - by rewrite (update_payload_get "id" _ _ _ _ Hu).
  - unfold vget_or in *. by rewrite (update_payload_get "source" _ _ _ _ Hu).
  - unfold _conversation_hash in *. by rewrite (update_payload_metadata _ _ _ _ _ Hu).
  - unfold _upstream_thread_id in *. by rewrite (update_payload_metadata _ _ _ _ _ Hu).
  - unfold _project_id in *. by rewrite (update_payload_metadata _ _ _ _ _ Hu).
  - done.
Qed.

Lemma set_chunk_state_inv p st d : conv_inv d → conv_inv (on_chunks (tbl_update p (set_chunk_state st)) d).
Proof.
  intros Hi. apply on_chunks_inv; [done|by apply unique_update, Hi..|].
  apply Forall_tbl_update; [apply Hi|]. intros. by exists st.
Qed.
Lemma keyed_set_payload f p s t : (∀ r, f (set_payload s r) = f r) →
  omap (keyed f) (tbl_update p (set_payload s) t) = omap (keyed f) t.
Proof.
  intros Hf. unfold tbl_update. induction t as [|r t IH]; cbn; [done|].
  rewrite IH. unfold keyed. by destruct (p r); rewrite ?Hf.
Qed.
Lemma conv_unique_row d i r r' : conv_inv d → r ∈ conversations d → is_conv i r = true →
  r' ∈ conversations d → is_conv i r' = true → r' = r.
Proof.
  intros Hi Hr Er%String.eqb_eq Hr' Er'%String.eqb_eq.
  eapply (unique_eq c_id); [apply Hi|done..|congruence].
Qed.
Lemma sync_payload_inv i ids st : moves (keeps conv_inv) (_sync_index_chunk_payload_state i ids st).
Proof.
  unfold _sync_index_chunk_payload_state. apply moves_read. intros d. intros Hi.
  destruct (tbl_find _ _) as [r|] eqn:Hr; [|done].
  apply tbl_find_Some in Hr as [Hr Er]. pose proof (inv_rows d Hi) as Hrows.
  rewrite Forall_forall in Hrows. destruct (Hrows r Hr) as [e He].
  pose proof He as []. rewrite row_payload0, (loads_dumps _ row_wf0). unfold mbind, M_bind, lift. cbn.
  destruct (update_index_chunks_payload e ids st) as [e'|] eqn:Hu; cbn; [|done].
  apply on_convs_inv; [done| |by apply unique_update, Hi|by rewrite keyed_set_payload; [apply Hi|]..].
  apply Forall_tbl_update_in; [apply Hi|]. intros r' Hr' _ Er'.
  rewrite (conv_unique_row d i r r') by done. exists e'. by eapply update_payload_row.
Qed.
Hint Resolve sync_payload_inv : moves.
Lemma mark_chunks_state_inv i ids st : moves (keeps conv_inv) (_mark_chunks_state i ids st).
Proof.
  unfold _mark_chunks_state. walk. apply each_moves; [apply _|]. intros x.
  walk. intros ?. by apply set_chunk_state_inv.
Qed.

Lemma conv_step_inv now o d : op_wf o → conv_inv d → conv_inv (conv_step now o d).
Proof.
  destruct o; cbn; intros Hw; [by apply insert_inv|by apply insert_new_inv|by apply append_messages_inv
    |by apply batch_insert_inv|apply mark_chunks_state_inv].
Qed.
Lemma empty_conv_inv : conv_inv (mk_conv_db empty_db [] [] []).
Proof. split; cbn; try apply NoDup_nil_2; constructor. Qed.
Lemma conv_reachable_inv d : conv_reachable d → conv_inv d.
Proof. induction 1 as [|now o d Hw _ IH]; [apply empty_conv_inv|by apply conv_step_inv]. Qed.
End facts.
