(* ===== verification/ConvTheorems.v ===== *)
(** * Theorems about the conversation store

    Reading back what was written, duplicates in one project, the
    compare-and-swap of appends, the message rows and the index state. *)
From Stdlib Require Import ZArith Lia Ascii.
From S2P Require Import Prelude PyStr Json Hash Clock Config Identity AuthDb AuthStore OAuthStore AuthSystem Samples ConvStore ConvFacts.
Local Open Scope Z_scope.

Section facts.
Context `{HashLib} `{Environ}.
Implicit Types (d : ConvDb) (c : dict) (now : instant).

(** ** Frames of the statements *)

Lemma on_auth_conversations {A} (m : M AuthDb A) : moves (same conversations) (on_auth m).
Proof. intros d. unfold on_auth. by destruct (m (auth_db d)). Qed.
Lemma on_auth_messages {A} (m : M AuthDb A) : moves (same messages) (on_auth m).
Proof. intros d. unfold on_auth. by destruct (m (auth_db d)). Qed.
Lemma ensure_project_same {T} (f : ConvDb → T) now c :
  (∀ A (m : M AuthDb A), moves (same f) (on_auth m)) → moves (same f) (_ensure_project_for_payload now c).
Proof. intros Hf. unfold _ensure_project_for_payload. apply moves_bind; [apply _|apply Hf|]. intros ?. walk. Qed.
Lemma child_rows_conversations c : moves (same conversations) (_replace_child_rows c).
Proof.
  unfold _replace_child_rows, insert_message, replace_chunk.
  walk; try done; try (apply each_moves; [apply _|intros x; walk; try done]).
  all: repeat case_match; simplify_eq; done.
Qed.
Lemma write_convs_run f d r d' : write_convs f d = (r, d') →
  r = Ok tt ∧ d' = on_convs f d ∧ convs_unique (f (conversations d)) = true
  ∨ (∃ msg, r = Raise (IntegrityError msg)) ∧ d' = d.
Proof. unfold write_convs, exec_r. destruct (convs_unique _) eqn:E; intros [= <- <-]; eauto 10. Qed.

(** What the store reads back under an id. *)
Lemma payload_row e r : row_of e r → payload_of (Some r) = Ok (Some (VDict e)).
Proof. intros []. unfold payload_of. by rewrite row_payload, loads_dumps. Qed.
Lemma get_row d v i e r : _validate_memory_id v = Ok i →
  tbl_find (is_conv i) (conversations d) = Some r → row_of e r →
  get v d = (Ok (Some (VDict e)), d).
Proof.
  intros Hi Hr He. unfold get, mbind, M_bind, query, lift. rewrite Hi, Hr. by rewrite (payload_row e).
Qed.
Lemma conv_row_of_id now c new : conv_row_of now c = Ok new → _validate_memory_id (VStr (c_id new)) = Ok (c_id new).
Proof.
  unfold conv_row_of. intros Hr. inv_ok. destruct x2 as [p s]. inv_ok. subst new. by eapply memory_id_ok.
Qed.
Lemma is_conv_refl r : is_conv (c_id r) r = true.
Proof. apply String.eqb_refl. Qed.

Lemma child_rows_unit (u : unit) : u = tt.
Proof. by destruct u. Qed.
Lemma ensure_project_run now c d u d1 : _ensure_project_for_payload now c d = (Ok u, d1) →
  conversations d1 = conversations d ∧ messages d1 = messages d ∧ chunks d1 = chunks d.
Proof.
  intros Hr. unfold _ensure_project_for_payload in Hr. inv_run.
  match goal with H : on_auth _ _ = _ |- _ => unfold on_auth in H; case_match; by simplify_eq end.
Qed.
Lemma conv_row_of_item now c new : conv_row_of now c = Ok new →
  ∃ v, item "id" c = Ok v ∧ _validate_memory_id v = Ok (c_id new).
Proof. unfold conv_row_of. intros Hr. inv_ok. destruct x2 as [p s]. inv_ok. subst new. by eexists. Qed.
(** The steps of an insertion that returned. *)
Lemma insert_run now c d id d' : insert now c d = (Ok id, d') → ∃ new d1,
  conv_row_of now c = Ok new ∧ c_id new = id ∧
  conversations d1 = tbl_upsert (is_conv id) new (set_conv new) (conversations d) ∧
  messages d1 = messages d ∧ chunks d1 = chunks d ∧ _replace_child_rows (stamped c) d1 = (Ok tt, d').
Proof.
  unfold insert. intros Hi.
  apply (proj1 (bind_run _ _ _ _ _)) in Hi as (new & s & Hn & Hi). apply (proj1 (lift_run _ _ _ _)) in Hn as [Hn ->].
  apply (proj1 (transaction_run _ _ _ _)) in Hi.
  apply (proj1 (bind_run _ _ _ _ _)) in Hi as (? & d1 & He & Hi). apply ensure_project_run in He as (E1 & E2 & E3).
  apply (proj1 (bind_run _ _ _ _ _)) in Hi as (? & d2 & Hw & Hi).
  apply write_convs_run in Hw as [(_ & -> & _)|[[? ?] _]]; [|done].
  apply (proj1 (bind_run _ _ _ _ _)) in Hi as ([] & d3 & Hw & Hi).
  apply (proj1 (ret_run _ _ _ _)) in Hi as [<- ->].
  exists new, (on_convs (tbl_upsert (is_conv (c_id new)) new (set_conv new)) d1). cbn. by rewrite E1.
Qed.
Lemma child_rows_keep c d r d' : _replace_child_rows c d = (r, d') → conversations d' = conversations d.
Proof. apply (moves_run (same conversations)), child_rows_conversations. Qed.
(** The row an upsert of a conversation leaves is that conversation's. *)
Lemma upsert_row c new t : row_of c new → ∃ r, row_of c r ∧
  tbl_find (is_conv (c_id new)) (tbl_upsert (is_conv (c_id new)) new (set_conv new) t) = Some r.
Proof.
  intros Hc. rewrite tbl_find_upsert; [|done|apply is_conv_refl].
  destruct (tbl_find _ _) as [r0|] eqn:Hr0; eexists; (split; [|done]); [|done].
  apply row_of_moved; [done|]. apply tbl_find_Some in Hr0 as [_ Er]. by apply String.eqb_eq.
Qed.

Lemma conv_row_of_memory_id now c new i : conv_row_of now c = Ok new → is_conv i new = true → i = c_id new.
Proof. intros _ E. by apply String.eqb_eq in E. Qed.

(** What [insert] writes is what [get] reads: after an insertion that returned
    an id, the store answers that id with the conversation the caller holds, its
    project included, and every other id as before. *)
Theorem insert_get now c d id d' : wf_value (VDict c) →
  insert now c d = (Ok id, d') →
  get (VStr id) d' = (Ok (Some (VDict (stamped c))), d') ∧
  ∀ other, py_str other ≠ id → (get other d').1 = (get other d).1.
Proof.
  intros Hc (new & d1 & Hn & <- & Hd1 & _ & _ & Hch)%insert_run. apply child_rows_keep in Hch. split.
  - destruct (upsert_row (stamped c) new (conversations d)) as (r & Hr & Hf); [by eapply conv_row_of_spec|].
    eapply get_row; [by eapply conv_row_of_id| |exact Hr]. by rewrite Hch, Hd1.
  - intros v Hv. unfold get, mbind, M_bind, query, lift.
    destruct (_validate_memory_id v) as [j|] eqn:Hj; [|done]. apply memory_id_str in Hj as <-.
    rewrite Hch, Hd1, tbl_find_upsert_other; [done| |].
    + apply String.eqb_neq. congruence.
    + unfold is_conv. intros r' E%String.eqb_eq. cbn. rewrite E. split; apply String.eqb_neq; congruence.
Qed.

(** In every reachable store the ids are unique, no project holds two
    conversations with one hash or one imported session, and every row is read
    back as a well-formed conversation whose id, source, hash, upstream thread
    and project are the row's searched columns. *)
Theorem stored_conversations_consistent d : conv_reachable d →
  unique_key c_id (conversations d) ∧ convs_unique (conversations d) = true ∧
  ∀ r, r ∈ conversations d → ∃ e, row_of e r ∧ get (VStr (c_id r)) d = (Ok (Some (VDict e)), d).
Proof.
  intros Hi%conv_reachable_inv. pose proof Hi as []. split_and!; [done|by apply convs_unique_spec|].
  intros r Hr. rewrite Forall_forall in inv_rows. destruct (inv_rows r Hr) as [e He]. exists e. split; [done|].
  eapply get_row; [apply He| |exact He]. eapply (tbl_find_unique c_id); [done| |done|apply is_conv_refl].
  intros r' E. by apply String.eqb_eq.
Qed.

(** ** Duplicates *)

(** A lookup answers with the payload of a row. *)
Definition answers (d : ConvDb) (m : M ConvDb (option value)) : Prop :=
  ∀ v, (m d).1 = Ok (Some v) → ∃ r, r ∈ conversations d ∧ payload_of (Some r) = Ok (Some v).
Lemma answers_find d p : answers d (row ← query (λ d, tbl_find p (conversations d)); lift (payload_of row)).
Proof.
  intros v. unfold mbind, M_bind, query, lift. cbv beta iota. destruct (tbl_find p (conversations d)) as [r|] eqn:E; [|done].
  apply tbl_find_Some in E as [??]. eauto.
Qed.
Lemma oldest_elem rows r : oldest rows = Some r → r ∈ rows.
Proof.
  unfold oldest. intros Hr. rewrite <-(sort_by_perm (λ a b, String.leb (c_created_at a) (c_created_at b))).
  destruct (sort_by _ _); simplify_eq/=. by left.
Qed.
Lemma answers_oldest d p :
  answers d (row ← query (λ d, oldest (tbl_select p (conversations d))); lift (payload_of row)).
Proof.
  intros v. unfold mbind, M_bind, query, lift. cbv beta iota. destruct (oldest _) as [r|] eqn:E; [|done].
  apply oldest_elem, elem_of_tbl_select in E as [??]. eauto.
Qed.
Lemma answers_lift {A} d (x : result A) f : (∀ a, answers d (f a)) → answers d (lift x ≫= f).
Proof. intros Hf v. unfold mbind, M_bind, lift. destruct x; [apply Hf|done]. Qed.
Lemma answers_get d v : answers d (get v).
Proof. apply answers_lift. intros i. apply answers_find. Qed.
Lemma answers_hash d h p : answers d (get_by_conversation_hash h p).
Proof.
  unfold get_by_conversation_hash. destruct h as [h|]; [|done]. destruct (String.eqb h ""); [done|].
  apply answers_find.
Qed.
Lemma answers_session d s p : answers d (get_by_imported_session s p).
Proof. apply answers_lift. intros i. apply answers_oldest. Qed.

Lemma answers_row d m v : conv_inv d → answers d m → (m d).1 = Ok (Some v) →
  ∃ e r, v = VDict e ∧ r ∈ conversations d ∧ row_of e r.
Proof.
  intros Hi Ha (r & Hr & Hp)%Ha. pose proof (inv_rows d Hi) as Hrows. rewrite Forall_forall in Hrows.
  destruct (Hrows r Hr) as [e He]. rewrite (payload_row e) in Hp by done. injection Hp as <-. eauto.
Qed.
(** The existing conversation that a refused insertion resolves to. *)
Definition existing_conversation (d : ConvDb) (id : string) (h : option string) (p : string) : Prop :=
  ∃ e r, r ∈ conversations d ∧ row_of e r ∧ c_id r = id ∧ _conversation_hash e = h ∧ _project_id e = Some p.
Lemma resolve_run i h s p d id b d' : conv_inv d →
  _resolve_insert_new_conflict i h s p d = (Ok (id, b), d') →
  d' = d ∧ b = false ∧ existing_conversation d id h p.
Proof.
  intros Hi Hr.
  assert (d' = d) as ->.
  { symmetry. refine (moves_run eq _ _ _ _ (resolve_moves eq _ _ _ _) Hr). }
  split; [done|]. unfold _resolve_insert_new_conflict in Hr.
  apply (proj1 (bind_run _ _ _ _ _)) in Hr as (v1 & d1 & H1 & Hr).
  assert (d = d1) as <- by (refine (moves_run eq _ _ _ _ (get_by_hash_moves eq _ _) H1)).
  apply (proj1 (bind_run _ _ _ _ _)) in Hr as (v2 & d2 & H2 & Hr).
  assert (d = d2 ∧ (∀ v, v2 = Some v → ∃ e r, v = VDict e ∧ r ∈ conversations d ∧ row_of e r)) as [<- Hv2].
  { assert (Hh : ∀ v, v1 = Some v → ∃ e r, v = VDict e ∧ r ∈ conversations d ∧ row_of e r).
    { intros v ->. eapply answers_row; [done|apply answers_hash|by rewrite H1]. }
    destruct v1 as [v|]; [apply ret_run in H2 as [<- ->]; eauto|].
    destruct s as [s|]; [|apply ret_run in H2 as [<- ->]; eauto].
    destruct (_ || _); [apply ret_run in H2 as [<- ->]; eauto|].
    split; [refine (moves_run eq _ _ _ _ (get_by_session_moves eq _ _) H2)|].
    intros v ->. eapply answers_row; [done|apply answers_session|by rewrite H2]. }
  apply (proj1 (bind_run _ _ _ _ _)) in Hr as (v3 & d3 & H3 & Hr).
  assert (d = d3 ∧ (∀ v, v3 = Some v → ∃ e r, v = VDict e ∧ r ∈ conversations d ∧ row_of e r)) as [<- Hv3].
  { destruct v2 as [v|]; [apply ret_run in H3 as [<- ->]; eauto|].
    split; [refine (moves_run eq _ _ _ _ (get_moves eq _) H3)|].
    intros v ->. eapply answers_row; [done|apply answers_get|by rewrite H3]. }
  destruct v3 as [v|]; [|done]. destruct (Hv3 v eq_refl) as (e & r & -> & Hrow & He).
  destruct (_ && _); [done|]. destruct (_ || _) eqn:Ec; [done|]. prop_bool.
  apply (proj1 (bind_run _ _ _ _ _)) in Hr as (vid & d4 & Hid & Hr).
  apply lift_run in Hid as [Hid ->]. apply ret_run in Hr as [[= <- <-] _].
  split; [done|]. exists e, r. split_and!; try done.
  destruct He. unfold item in Hid. destruct (dict_get "id" e); cbn in *; simplify_eq. done.
Qed.
Lemma integrity_error_run {A} (m h : M ConvDb A) d r d' : on_integrity_error m h d = (r, d') →
  m d = (r, d') ∨ ∃ msg d1, m d = (Raise (IntegrityError msg), d1) ∧ h d1 = (r, d').
Proof. unfold on_integrity_error. destruct (m d) as [[a|[]] d1]; naive_solver. Qed.

(** The steps of an insertion that created its conversation. *)
Lemma insert_new_run now c d id b d' : insert_new now c d = (Ok (id, b), d') → conv_inv d → ∃ new,
  conv_row_of now c = Ok new ∧
  ((b = true ∧ c_id new = id ∧ ∃ d1,
     existsb (is_conv id) (conversations d) = false ∧
     conversations d1 = conversations d ++ [new] ∧ convs_unique (conversations d ++ [new]) = true ∧
     _replace_child_rows (stamped c) d1 = (Ok tt, d')) ∨
   (b = false ∧ d' = d ∧ existing_conversation d id (c_hash new) (c_project new))).
Proof.
  unfold insert_new. intros Hi Hinv. apply (proj1 (bind_run _ _ _ _ _)) in Hi as (new & s & Hn & Hi).
  apply lift_run in Hn as [Hn ->]. exists new. split; [done|].
  apply integrity_error_run in Hi as [Hi|(msg & d1 & Ht & Hi)].
  - left. apply (proj1 (transaction_run _ _ _ _)) in Hi.
    apply (proj1 (bind_run _ _ _ _ _)) in Hi as (? & d1 & He & Hi). apply ensure_project_run in He as (E1 & _ & _).
    apply (proj1 (bind_run _ _ _ _ _)) in Hi as ([] & d2 & Hw & Hi).
    apply (proj1 (bind_run _ _ _ _ _)) in Hi as ([] & d3 & Hch & Hi). apply ret_run in Hi as [[= <- <-] ->].
    apply exec_r_run in Hw. apply bind_Ok in Hw as (t & Ht & Hw). apply tbl_insert_Ok in Ht as [Hx ->].
    rewrite E1 in *. destruct (convs_unique _) eqn:Hu; [|done]. injection Hw as <-.
    split_and!; [done..|]. exists (on_convs (λ _, conversations d ++ [new]) d1). by split_and!.
  - right. apply transaction_raise in Ht as ->. apply resolve_run in Hi as (-> & -> & ?); auto.
Qed.
Lemma omap_elem {A B} (f : A → option B) (l : list A) x y : x ∈ l → f x = Some y → y ∈ omap f l.
Proof. intros Hx Hy. apply list_elem_of_omap. eauto. Qed.
Lemma snoc_unique_hash t new r h : convs_unique (t ++ [new]) = true → r ∈ t →
  c_hash r = Some h → c_hash new = Some h → c_project r ≠ c_project new.
Proof.
  intros [Hu _]%convs_unique_spec Hr Er En Ep. rewrite omap_app in Hu. apply NoDup_app in Hu as (_ & Hu & _).
  apply (Hu (c_project r, h)).
  - eapply omap_elem; [done|]. unfold keyed. by rewrite Er.
  - apply (omap_elem _ _ new); [by left|]. unfold keyed. rewrite En. cbn. by rewrite Ep.
Qed.

Lemma conv_row_of_project now c new p s : conv_row_of now c = Ok new → _ensure_payload_project c = Ok (p, s) →
  c_project new = p ∧ c_hash new = _conversation_hash s ∧ stamped c = s.
Proof.
  unfold conv_row_of, stamped. intros Hr Hp. rewrite Hp in Hr |- *. inv_ok. cbn in *. inv_ok. simplify_eq. inv_ok. by subst.
Qed.

Lemma insert_new_raise now c d e d' : insert_new now c d = (Raise e, d') → d' = d.
Proof.
  unfold insert_new, mbind at 1, M_bind at 1, lift. destruct (conv_row_of now c) as [new|]; [|by intros [= _ <-]].
  intros [Ht%transaction_raise|(msg & d1 & ->%transaction_raise & Hr)]%integrity_error_run; [done|].
  symmetry. refine (moves_run eq _ _ _ _ (resolve_moves eq _ _ _ _) Hr).
Qed.

(** C22: in every reachable store, [insert_new] either creates the conversation, and
    then its id was unused, no conversation of its project had its hash, and [get]
    reads it back; or it answers the id of a stored conversation with the same
    hash and project and leaves the store as it was; or it raises, and leaves the
    store as it was. *)
Theorem insert_new_spec now c p s d r d' : conv_reachable d → wf_value (VDict c) →
  _ensure_payload_project c = Ok (p, s) → insert_new now c d = (r, d') →
  match r with
  | Ok (id, true) =>
      (get (VStr id) d).1 = Ok None ∧
      (∀ x, x ∈ conversations d → c_project x = p → c_hash x = _conversation_hash s → _conversation_hash s = None) ∧
      get (VStr id) d' = (Ok (Some (VDict s)), d')
  | Ok (id, false) => d' = d ∧ ∃ e, get (VStr id) d = (Ok (Some (VDict e)), d) ∧
      _conversation_hash e = _conversation_hash s ∧ _project_id e = Some p
  | Raise _ => d' = d
  end.
Proof.
  intros Hd Hc Hp Hi. pose proof (conv_reachable_inv d Hd) as Hinv. destruct r as [[id b]|e].
  - apply insert_new_run in Hi as (new & Hn & Hi); [|done].
    destruct (conv_row_of_project _ _ _ _ _ Hn Hp) as (Ep & Eh & Es).
    pose proof (conv_row_of_spec _ _ _ Hn Hc) as Hrow. rewrite Es in Hrow.
    destruct Hi as [(-> & <- & d1 & Hx & Hd1 & Hu & Hch)|(-> & -> & e & x & Hx & He & <- & Hh & Hpe)].
    + apply child_rows_keep in Hch. split_and!.
      * unfold get, mbind, M_bind, query, lift. rewrite (row_uuid _ _ Hrow).
        rewrite tbl_find_existsb in Hx. by destruct (tbl_find _ _).
      * intros x Hx' Epx Ehx. rewrite <-Eh in *. destruct (c_hash new) as [h|] eqn:E; [|done].
        exfalso. eapply snoc_unique_hash; [done..|congruence].
      * eapply get_row; [apply Hrow| |done]. rewrite Hch, Hd1. apply tbl_find_snoc; [done|apply is_conv_refl].
    + split; [done|]. exists e. split_and!; [|congruence..].
      eapply get_row; [apply He| |done].
      eapply (tbl_find_unique c_id); [apply Hinv| |done|apply is_conv_refl].
      intros r' E. by apply String.eqb_eq.
  - by apply insert_new_raise in Hi.
Qed.

(** ** Appending *)

Lemma append_run now c h d id d' : append_messages now c (Some h) d = (Ok id, d') → conv_inv d → wf_value (VDict c) →
  (∃ r e, row_of e r ∧ c_hash r = Some h ∧ tbl_find (is_conv id) (conversations d) = Some r) ∧
  (∃ v, item "id" c = Ok v ∧ py_str v = id) ∧
  ∃ r', row_of (stamped c) r' ∧ tbl_find (is_conv id) (conversations d') = Some r'.
Proof.
  intros Hr Hi Hc. unfold append_messages in Hr.
  apply (proj1 (bind_run _ _ _ _ _)) in Hr as (new & s & Hn & Hr). apply lift_run in Hn as [Hn ->].
  apply (proj1 (transaction_run _ _ _ _)) in Hr.
  apply (proj1 (bind_run _ _ _ _ _)) in Hr as (? & d1 & He & Hr). apply ensure_project_run in He as (E1 & _ & _).
  cbv zeta in Hr. apply (proj1 (bind_run _ _ _ _ _)) in Hr as (n & s & Hq & Hr). apply query_run in Hq as [-> ->].
  apply (proj1 (bind_run _ _ _ _ _)) in Hr as (? & d2 & Hw & Hr).
  apply write_convs_run in Hw as [(_ & -> & _)|[[? ?] _]]; [|done].
  apply (proj1 (bind_run _ _ _ _ _)) in Hr as (? & s & Hg & Hr). apply lift_run in Hg as [Hg ->].
  apply (proj1 (bind_run _ _ _ _ _)) in Hr as ([] & d3 & Hch & Hr). apply ret_run in Hr as [<- ->].
  apply child_rows_keep in Hch. cbn in Hch. rewrite E1 in *.
  unfold guard_err in Hg. destruct (_ =? 1) eqn:Hone; [|done]. apply Z.eqb_eq in Hone.
  set (p := λ r, is_conv (c_id new) r && opt_is h (c_hash r)) in *.
  assert (Hp : ∃ r, r ∈ conversations d ∧ p r = true).
  { unfold tbl_count in Hone. destruct (tbl_select p (conversations d)) as [|r l] eqn:E; [done|].
    exists r. apply elem_of_tbl_select. rewrite E. by left. }
  destruct Hp as (r & Hr & Hpr). pose proof Hpr as Hpr'. unfold p in Hpr'. apply andb_true_iff in Hpr' as [Hid Hh].
  assert (Hf : tbl_find (is_conv (c_id new)) (conversations d) = Some r).
  { eapply (tbl_find_unique c_id); [apply Hi| |done|done].
    intros r' E%String.eqb_eq. apply String.eqb_eq in Hid. congruence. }
  split; [|split].
  - pose proof (inv_rows d Hi) as Hrows. rewrite Forall_forall in Hrows. destruct (Hrows r Hr) as [e He].
    exists r, e. split_and!; [done| |done]. unfold opt_is in Hh. destruct (c_hash r); [|done].
    apply String.eqb_eq in Hh. by subst.
  - apply conv_row_of_item in Hn as (v & Hv & E). exists v. split; [done|]. by apply memory_id_str.
  - exists (set_appended new r). split.
    + pose proof (conv_row_of_spec _ _ _ Hn Hc) as []. apply String.eqb_eq in Hid.
      split; cbn; try done; rewrite ?Hid; done.
    + rewrite Hch. rewrite tbl_find_update_same by done. rewrite Hf. cbn. by rewrite Hpr.
Qed.

Lemma append_raise now c h d e d' : append_messages now c (Some h) d = (Raise e, d') → d' = d.
Proof.
  unfold append_messages, mbind at 1, M_bind at 1, lift. destruct (conv_row_of now c) as [new|]; [|by intros [= _ <-]].
  apply transaction_raise.
Qed.
Lemma find_read d i e r : row_of e r → tbl_find (is_conv i) (conversations d) = Some r →
  get (VStr i) d = (Ok (Some (VDict e)), d).
Proof.
  intros He Hf. eapply get_row; [|done|done]. apply tbl_find_Some in Hf as [_ E%String.eqb_eq]. subst i. apply He.
Qed.
Lemma row_of_inj e e' r : row_of e r → row_of e' r → e = e'.
Proof. intros He He'. apply payload_row in He, He'. congruence. Qed.

(** C21: in every reachable store, a conditional append compares and swaps: when it
    returns, the stored conversation had the expected hash and is replaced by the
    appended one; when it raises, the store is as it was. *)
Theorem append_compare_and_swap now c h d r d' : conv_reachable d → wf_value (VDict c) →
  append_messages now c (Some h) d = (r, d') →
  match r with
  | Ok id => (∃ e, get (VStr id) d = (Ok (Some (VDict e)), d) ∧ _conversation_hash e = Some h) ∧
             get (VStr id) d' = (Ok (Some (VDict (stamped c))), d')
  | Raise _ => d' = d
  end.
Proof.
  intros Hd Hc Hr. destruct r as [id|e]; [|by eapply append_raise].
  apply append_run in Hr as ((r & e & He & Hh & Hf) & _ & r' & Hr' & Hf'); [|by apply conv_reachable_inv|done].
  split; [|by eapply find_read]. exists e. split; [by eapply find_read|]. by rewrite <-(row_hash _ _ He).
Qed.

(** No update is lost: once an append has changed the hash of a conversation,
    a second append that was prepared on the former hash raises and changes
    nothing. *)
Theorem append_no_lost_update now1 now2 c1 c2 h d id d1 : conv_reachable d →
  wf_value (VDict c1) → wf_value (VDict c2) →
  append_messages now1 c1 (Some h) d = (Ok id, d1) → _conversation_hash (stamped c1) ≠ Some h →
  py_str <$> dict_get "id" c2 = Some id →
  ∃ e, append_messages now2 c2 (Some h) d1 = (Raise e, d1).
Proof.
  intros Hd H1 H2 Hr Hne Hid. pose proof (conv_reachable_inv _ Hd) as Hi.
  assert (Hi1 : conv_inv d1) by exact (moves_run (keeps conv_inv) _ _ _ _ (append_messages_inv _ _ _ H1) Hr Hi).
  apply append_run in Hr as (_ & _ & r' & Hr' & Hf'); [|done..].
  destruct (append_messages now2 c2 (Some h) d1) as [[id2|e] d2] eqn:E2;
    [|apply append_raise in E2 as ->; by exists e].
  exfalso. apply append_run in E2 as ((r & e & He & Hh & Hf) & (v & Hv & <-) & _); [|done..].
  unfold item in Hv. destruct (dict_get "id" c2); cbn in *; simplify_eq.
  apply Hne. rewrite <-(row_hash _ _ Hr'). congruence.
Qed.

(** ** Message rows *)

(** The rows of the messages from position [i] on: a message that repeats an
    earlier hash gets none. *)
Fixpoint message_rows (id : string) (i : Z) (seen : list string) (ms : list (string * string * string)) : list msg_row :=
  match ms with
  | [] => []
  | (h, r, t) :: ms' =>
      if bool_decide (h ∈ seen) then message_rows id (i + 1) seen ms'
      else mk_msg_row id i r t h :: message_rows id (i + 1) (h :: seen) ms'
  end.

Definition of_conv (id : string) (m : msg_row) : bool := String.eqb (m_conv m) id.
Lemma message_conflict t id i h (seen : list string) :
  (∀ m, m ∈ t → m_conv m = id → m_index m < i) →
  (∀ h, h ∈ seen ↔ ∃ m, m ∈ t ∧ m_conv m = id ∧ m_hash m = h) →
  existsb (λ m, String.eqb (m_conv m) id && (Z.eqb (m_index m) i || String.eqb (m_hash m) h)) t
    = bool_decide (h ∈ seen).
Proof.
  intros Hlt Hseen. destruct (existsb _ _) eqn:Ex; symmetry; case_bool_decide as Hh; try done; exfalso.
  - apply Hh, Hseen. apply existsb_elem in Ex as (m & Hin & Em). apply andb_true_iff in Em as [Ec Ei].
    apply String.eqb_eq in Ec. apply orb_true_iff in Ei as [Ei|Eh%String.eqb_eq]; [|eauto].
    apply Z.eqb_eq in Ei. specialize (Hlt m Hin Ec). lia.
  - apply Hseen in Hh as (m & Hin & Em & Eh). pose proof (existsb_false_elem _ _ _ Ex Hin) as E.
    cbn in E. rewrite Em, Eh, !String.eqb_refl, orb_true_r in E. done.
Qed.
Lemma insert_messages_run id l : ∀ i seen d d',
  each (insert_message id) (enumerate i l) d = (Ok tt, d') →
  (∀ m, m ∈ messages d → m_conv m = id → m_index m < i) →
  (∀ h, h ∈ seen ↔ ∃ m, m ∈ messages d ∧ m_conv m = id ∧ m_hash m = h) →
  ∃ ms, map_result message_of l = Ok ms ∧ messages d' = messages d ++ message_rows id i seen ms.
Proof.
  induction l as [|v l IH]; cbn; intros i seen d d' Hr Hlt Hseen.
  { apply ret_run in Hr as [_ ->]. exists []. by rewrite app_nil_r. }
  apply (proj1 (bind_run _ _ _ _ _)) in Hr as (? & d1 & Hm & Hr).
  unfold insert_message in Hm. apply (proj1 (bind_run _ _ _ _ _)) in Hm as ([[h r] t] & s & Hv & Hm).
  apply lift_run in Hv as [Hv ->]. cbn in Hv, Hm. rewrite Hv. apply exec_run in Hm.
  set (new := mk_msg_row id i r t h) in *.
  assert (Hd1 : messages d1 = if bool_decide (h ∈ seen) then messages d else messages d ++ [new]).
  { subst d1. cbn. unfold tbl_insert_ignore. by rewrite (message_conflict _ _ _ _ seen). }
  clear Hm. destruct (bool_decide (h ∈ seen)) eqn:Eh.
  - destruct (IH (i + 1) seen d1 d' Hr) as (ms & Hms & E).
    + rewrite Hd1. intros m Hin Em. specialize (Hlt m Hin Em). lia.
    + by rewrite Hd1.
    + exists ((h, r, t) :: ms). cbn. rewrite Hms, Eh. split; [done|]. congruence.
  - destruct (IH (i + 1) (h :: seen) d1 d' Hr) as (ms & Hms & E).
    + rewrite Hd1. intros m [Hin| ->%list_elem_of_singleton]%elem_of_app Em; [specialize (Hlt m Hin Em)|cbn]; lia.
    + intros h'. rewrite elem_of_cons, Hseen, Hd1. setoid_rewrite elem_of_app. setoid_rewrite list_elem_of_singleton.
      split; [intros [->|(m & ? & ? & ?)]; [by exists new; auto|by exists m; auto]|].
      intros (m & [?| ->] & ? & ?); [right; eauto|by left].
    + exists ((h, r, t) :: ms). cbn. rewrite Hms, Eh. split; [done|]. by rewrite E, Hd1, <-app_assoc.
Qed.
Lemma replace_chunk_messages id l : moves (same messages) (each (replace_chunk id) l).
Proof.
  apply each_moves; [apply _|]. intros x. unfold replace_chunk. walk. repeat case_match; by simplify_eq.
Qed.
Lemma child_rows_messages c d d' id v : _replace_child_rows c d = (Ok tt, d') →
  item "id" c = Ok v → _validate_memory_id v = Ok id →
  ∃ ms, map_result message_of (messages_of c) = Ok ms ∧
    messages d' = tbl_delete (of_conv id) (messages d) ++ message_rows id 0 [] ms.
Proof.
  intros Hr Hid Hv. unfold _replace_child_rows in Hr. rewrite Hid in Hr.
  apply (proj1 (bind_run _ _ _ _ _)) in Hr as (? & s & Ha & Hr). apply lift_run in Ha as [[= <-] ->].
  apply (proj1 (bind_run _ _ _ _ _)) in Hr as (? & s & Ha & Hr). rewrite Hv in Ha. apply lift_run in Ha as [[= <-] ->].
  apply (proj1 (bind_run _ _ _ _ _)) in Hr as ([] & d1 & Ha & Hr). apply exec_run in Ha.
  apply (proj1 (bind_run _ _ _ _ _)) in Hr as ([] & d2 & Hb & Hr). apply exec_run in Hb.
  apply (proj1 (bind_run _ _ _ _ _)) in Hr as ([] & d3 & Hm & Hr).
  apply (proj1 (bind_run _ _ _ _ _)) in Hr as (l & d4 & Hl & Hr). apply lift_run in Hl as [_ ->].
  apply (moves_run (same messages) _ _ _ _ (replace_chunk_messages id l)) in Hr. rewrite Hr.
  assert (E : messages d2 = tbl_delete (of_conv id) (messages d)) by by subst.
  rewrite <-E. clear Ha Hb. apply insert_messages_run; [done| |]; rewrite E; clear.
  - intros m [_ Em]%elem_of_tbl_delete Ec. unfold of_conv in Em. rewrite Ec, String.eqb_refl in Em. done.
  - intros h. split; [by intros ?%not_elem_of_nil|]. intros (m & [_ Em]%elem_of_tbl_delete & Ec & _).
    unfold of_conv in Em. rewrite Ec, String.eqb_refl in Em. done.
Qed.

(** An insertion replaces the message rows of its conversation by one row per
    message, in order and numbered by position, a repeated message hash getting
    none; the message rows of every other conversation stay. *)
Theorem insert_message_rows now c d id d' : insert now c d = (Ok id, d') →
  ∃ ms, map_result message_of (messages_of c) = Ok ms ∧
    messages d' = tbl_delete (of_conv id) (messages d) ++ message_rows id 0 [] ms.
Proof.
  intros (new & d1 & Hn & <- & _ & Hm & _ & Hch)%insert_run.
  apply conv_row_of_item in Hn as (v & Hv & Hid). rewrite <-Hm.
  assert (Hs : ∀ k, k ≠ "metadata" → dict_get k (stamped c) = dict_get k c).
  { intros k Hk. unfold stamped. destruct (_ensure_payload_project c) as [[p s]|] eqn:E; [|done].
    by eapply ensure_payload_project_get. }
  destruct (child_rows_messages _ _ _ (c_id new) v Hch) as (ms & Hms & E); [|done|].
  - unfold item in *. by rewrite Hs.
  - exists ms. split; [|done]. rewrite <-Hms. unfold messages_of, vget_or. by rewrite Hs.
Qed.

(** ** Index state *)

Definition marked (id : string) (ids : list string) (k : chunk_row) : bool :=
  String.eqb (k_conv k) id && bool_decide (k_id k ∈ ids).
Definition mark_chunks (id : string) (ids : list string) (st : IndexState) : list chunk_row → list chunk_row :=
  tbl_update (marked id ids) (set_chunk_state st).

Lemma mark_each_run id st ids : ∀ d d',
  each (λ i, exec (on_chunks (tbl_update (λ k, String.eqb (k_conv k) id && String.eqb (k_id k) i) (set_chunk_state st)))) ids d
    = (Ok tt, d') →
  conversations d' = conversations d ∧ chunks d' = mark_chunks id ids st (chunks d).
Proof.
  induction ids as [|x ids IH]; cbn; intros d d' Hr.
  - apply ret_run in Hr as [_ ->]. split; [done|]. unfold mark_chunks, tbl_update.
    rewrite <-(map_id (chunks d)) at 1. apply map_ext. intros k. unfold marked. by rewrite andb_false_r.
  - apply (proj1 (bind_run _ _ _ _ _)) in Hr as (u & d1 & Hx & Hr). apply exec_run in Hx as ->.
    apply IH in Hr as [-> ->]. cbn. split; [done|]. unfold mark_chunks, tbl_update. rewrite map_map.
    apply map_ext. intros k. unfold marked. cbn.
    destruct (String.eqb (k_conv k) id) eqn:Ec; cbn; rewrite ?Ec; cbn; [|done].
    destruct (String.eqb (k_id k) x) eqn:E; cbn; rewrite ?Ec; cbn; [apply String.eqb_eq in E as <-|apply String.eqb_neq in E].
    + rewrite (bool_decide_eq_true_2 (k_id k ∈ k_id k :: ids)) by by left. by destruct (bool_decide _).
    + by rewrite (bool_decide_ext (k_id k ∈ x :: ids) (k_id k ∈ ids)) by set_solver.
Qed.
Lemma sync_chunks i ids st : moves (same chunks) (_sync_index_chunk_payload_state i ids st).
Proof. unfold _sync_index_chunk_payload_state. walk; done. Qed.
Lemma mark_run v i ids st d d' : _mark_chunks_state v ids st d = (Ok tt, d') → _validate_memory_id v = Ok i →
  ∃ d1, conversations d1 = conversations d ∧ chunks d1 = mark_chunks i ids st (chunks d) ∧ chunks d' = chunks d1 ∧
    _sync_index_chunk_payload_state i ids st d1 = (Ok tt, d').
Proof.
  unfold _mark_chunks_state. intros Hr Hv. rewrite Hv in Hr.
  apply (proj1 (bind_run _ _ _ _ _)) in Hr as (? & s & Ha & Hr). apply lift_run in Ha as [[= <-] ->].
  apply (proj1 (transaction_run _ _ _ _)) in Hr.
  apply (proj1 (bind_run _ _ _ _ _)) in Hr as ([] & d1 & Hm & Hr). apply mark_each_run in Hm as [??].
  exists d1. split_and!; [done..| |done]. refine (moves_run (same chunks) _ _ _ _ (sync_chunks _ _ _) Hr).
Qed.

Lemma tbl_count_0 {R} (p : R → bool) t : tbl_count p t = 0 ↔ ∀ r, r ∈ t → p r = false.
Proof.
  induction t as [|x t IH]; [split; [by intros _ r ?%not_elem_of_nil|done]|].
  pose proof (tbl_count_nonneg p t). rewrite tbl_count_cons. setoid_rewrite elem_of_cons.
  destruct (p x) eqn:Ep.
  - split; [lia|]. intros Hx. rewrite Hx in Ep; [done|by left].
  - rewrite Z.add_0_l, IH. split; [intros Hx r [->|Hr]; auto|auto].
Qed.
Lemma tbl_count_and {R} (p q : R → bool) t :
  tbl_count p t = tbl_count (λ r, p r && q r) t ↔ ∀ r, r ∈ t → p r = true → q r = true.
Proof.
  assert (Hle : ∀ l, tbl_count (λ r, p r && q r) l ≤ tbl_count p l).
  { induction l as [|x l IH]; [done|]. rewrite !tbl_count_cons. destruct (p x), (q x); cbn; lia. }
  induction t as [|x t IH]; [split; [by intros _ r ?%not_elem_of_nil|done]|].
  rewrite !tbl_count_cons. specialize (Hle t). setoid_rewrite elem_of_cons.
  destruct (p x) eqn:Ep, (q x) eqn:Eq; cbn.
  2: { split; [lia|]. intros Hx. exfalso. specialize (Hx x (or_introl eq_refl) Ep). congruence. }
  all: rewrite Z.add_cancel_l, IH; split; [intros Hx r [->|Hr] ?; [congruence|auto]|intros Hx r Hr; apply Hx; by right].
Qed.
Lemma is_fully_indexed_spec v i d : _validate_memory_id v = Ok i →
  ∃ b, is_fully_indexed v d = (Ok b, d) ∧
    (b = true ↔ (∃ k, k ∈ chunks d ∧ k_conv k = i) ∧
                ∀ k, k ∈ chunks d → k_conv k = i → k_state k = state_value INDEXED).
Proof.
  intros Hv. unfold is_fully_indexed. rewrite Hv. eexists. split; [done|]. cbv zeta.
  rewrite andb_true_iff, negb_true_iff, Z.eqb_neq, Z.eqb_eq, tbl_count_and, tbl_count_0.
  setoid_rewrite String.eqb_eq. setoid_rewrite String.eqb_neq. split; (intros [H1 H2]; split; [|done]).
  - destruct (existsb (λ k, String.eqb (k_conv k) i) (chunks d)) eqn:E.
    + apply existsb_elem in E as (k & ? & ?%String.eqb_eq). eauto.
    + exfalso. apply H1. intros k Hk. by apply String.eqb_neq, (existsb_false_elem _ _ _ E).
  - destruct H1 as (k & Hk & Ek). intros Hn. by apply (Hn k).
Qed.

(** Marking chunks as indexed decides [is_fully_indexed]: afterwards the
    conversation counts as fully indexed exactly when it has a chunk and each of
    its chunks was either marked now or indexed before. *)
Theorem mark_chunks_indexed_decides v i ids d d' : _validate_memory_id v = Ok i →
  mark_chunks_indexed v ids d = (Ok tt, d') →
  ∃ b, is_fully_indexed v d' = (Ok b, d') ∧
    (b = true ↔ (∃ k, k ∈ chunks d ∧ k_conv k = i) ∧
       ∀ k, k ∈ chunks d → k_conv k = i → k_id k ∈ ids ∨ k_state k = state_value INDEXED).
Proof.
  intros Hv Hm. destruct (mark_run _ _ _ _ _ _ Hm Hv) as (d1 & _ & E1 & E2 & _). rewrite E1 in E2. clear E1 Hm.
  destruct (is_fully_indexed_spec v i d' Hv) as (b & Hb & Hiff). exists b. split; [done|].
  rewrite Hiff, E2. unfold mark_chunks. setoid_rewrite elem_of_tbl_update. split.
  - intros [(k' & (k & Hk & ->) & Ek) Hall]. split.
    + exists k. split; [done|]. by destruct (marked i ids k).
    + intros k2 Hk2 Ec. specialize (Hall _ (ex_intro _ k2 (conj Hk2 eq_refl))).
      unfold marked in Hall. rewrite Ec, String.eqb_refl in Hall. cbn in Hall.
      destruct (bool_decide (k_id k2 ∈ ids)) eqn:Ei; [left; by apply bool_decide_eq_true_1 in Ei|right; auto].
  - intros [(k & Hk & Ek) Hall]. split.
    + eexists. split; [by exists k|]. by destruct (marked i ids k).
    + intros k' (k2 & Hk2 & ->) Ec. destruct (marked i ids k2) eqn:Em; [done|].
      destruct (Hall k2 Hk2 Ec) as [Hin|]; [|done]. exfalso. unfold marked in Em.
      rewrite Ec, String.eqb_refl, bool_decide_eq_true_2 in Em; done.
Qed.
End facts.

(** ** A small store *)

Module Conv.
Import Sample.
Definition empty_conv : ConvDb := mk_conv_db empty_db [] [] [].
Definition id1 := "11111111111141118111111111111111".
Definition msg (h t : string) : value := VDict [("role", VStr "user"); ("text", VStr t); ("hash", VStr h)].
Definition conv (h : string) (ms : list value) : dict :=
  [("id", VStr id1); ("source", VStr "chatgpt"); ("messages", VList ms);
   ("metadata", VDict [("conversation_hash", VStr h)])].
Definition one : dict := conv "H1" [msg "h1" "hello"; msg "h2" "world"; msg "h1" "hello"].
Definition two : dict := conv "H2" [msg "h1" "hello"; msg "h2" "world"; msg "h3" "again"].
Definition stored : ConvDb := conv_step noon (OpInsert one) empty_conv.

Lemma conv_wf h ms : Forall wf_value ms → wf_value (VDict (conv h ms)).
Proof.
  intros Hms. apply wf_dict. split; [compute_done|].
  apply Forall_cons; split; [exact I|]. apply Forall_cons; split; [exact I|].
  apply Forall_cons; split; [by apply wf_list|]. apply Forall_cons; split; [|constructor].
  split; [compute_done|done].
Qed.
Lemma msg_wf h t : wf_value (msg h t).
Proof. split; [compute_done|done]. Qed.
Lemma one_wf : wf_value (VDict one).
Proof. apply conv_wf. repeat (apply Forall_cons; split; [apply msg_wf|]). constructor. Qed.
Lemma two_wf : wf_value (VDict two).
Proof. apply conv_wf. repeat (apply Forall_cons; split; [apply msg_wf|]). constructor. Qed.
Lemma stored_reachable : conv_reachable stored.
Proof. constructor; [apply one_wf|constructor]. Qed.

Lemma insert_get_witness :
  ∃ d', insert noon one empty_conv = (Ok id1, d') ∧ (get (VStr id1) d').1 = Ok (Some (VDict (stamped one))).
Proof.
  eexists. split; [vm_compute; reflexivity|].
  edestruct (insert_get noon one empty_conv id1) as [Hg _]; [apply one_wf|vm_compute; reflexivity|].
  rewrite Hg. reflexivity.
Defined.

Lemma stored_conversations_consistent_witness :
  convs_unique (conversations stored) = true ∧
  ∀ r, r ∈ conversations stored → ∃ e, row_of e r ∧ get (VStr (c_id r)) stored = (Ok (Some (VDict e)), stored).
Proof. apply (stored_conversations_consistent stored), stored_reachable. Defined.

Lemma insert_new_spec_witness :
  (insert_new noon (dict_set "id" (VStr "2111111111114111811111111111111f") one) stored).1 = Ok (id1, false) ∧
  ∃ e, get (VStr id1) stored = (Ok (Some (VDict e)), stored) ∧ _conversation_hash e = Some "H1".
Proof.
  split; [vm_compute; reflexivity|].
  edestruct (insert_new_spec noon (dict_set "id" (VStr "2111111111114111811111111111111f") one) "local-default"
    (stamped (dict_set "id" (VStr "2111111111114111811111111111111f") one)) stored (Ok (id1, false)))
    as [_ (e & Hg & Hh & _)].
  - apply stored_reachable.
  - apply wf_dict_set; [apply one_wf|exact I].
  - vm_compute; reflexivity.
  - vm_compute; reflexivity.
  - exists e. split; [exact Hg|]. rewrite Hh. vm_compute; reflexivity.
Defined.

Lemma append_compare_and_swap_witness :
  (append_messages noon two (Some "H1") stored).1 = Ok id1 ∧
  ∃ d', get (VStr id1) d' = (Ok (Some (VDict (stamped two))), d').
Proof.
  split; [vm_compute; reflexivity|]. eexists.
  edestruct (append_compare_and_swap noon two "H1" stored (Ok id1)) as [_ Hg];
    [apply stored_reachable|apply two_wf|vm_compute; reflexivity|exact Hg].
Defined.

Lemma append_no_lost_update_witness :
  ∃ d1, append_messages noon two (Some "H1") stored = (Ok id1, d1) ∧
  ∃ e, append_messages noon one (Some "H1") d1 = (Raise e, d1).
Proof.
  eexists. split; [vm_compute; reflexivity|].
  eapply (append_no_lost_update noon noon two one "H1" stored id1).
  - apply stored_reachable.
  - apply two_wf.
  - apply one_wf.
  - vm_compute; reflexivity.
  - vm_compute. discriminate.
  - vm_compute; reflexivity.
Defined.

Lemma insert_message_rows_witness :
  ∃ d', insert noon one stored = (Ok id1, d') ∧ messages d' =
    [mk_msg_row id1 0 "user" "hello" "h1"; mk_msg_row id1 1 "user" "world" "h2"].
Proof.
  eexists. split; [vm_compute; reflexivity|].
  edestruct (insert_message_rows noon one stored id1) as (ms & Hms & Hd); [vm_compute; reflexivity|].
  rewrite Hd. vm_compute in Hms. injection Hms as <-. vm_compute. reflexivity.
Defined.

Lemma mark_chunks_indexed_decides_witness :
  let ids := map k_id (chunks stored) in
  ∃ d', mark_chunks_indexed (VStr id1) ids stored = (Ok tt, d') ∧ is_fully_indexed (VStr id1) d' = (Ok true, d').
Proof.
  intros ids. eexists. split; [vm_compute; reflexivity|].
  edestruct (mark_chunks_indexed_decides (VStr id1) id1 ids stored) as (b & Hb & Hiff);
    [vm_compute; reflexivity|vm_compute; reflexivity|].
  rewrite Hb. f_equal. f_equal. apply Hiff. split.
  - eexists. split; [left|vm_compute; reflexivity].
  - intros k Hk _. left. unfold ids. rewrite list_elem_of_In, in_map_iff. exists k.
    split; [reflexivity|]. by rewrite <-list_elem_of_In.
Defined.
End Conv.
