(* ===== verification/ConvSpec.v ===== *)
(** * The abstract conversation store

    A finite map from ids to conversations, the operations of the store as
    relations on it, and the theorem that the tables of [ConvStore] implement
    them over every history of operations. *)
From Stdlib Require Import ZArith Lia Ascii.
From S2P Require Import Prelude PyStr Json Hash Clock Config Identity AuthDb AuthStore OAuthStore AuthSystem Samples ConvStore ConvFacts ConvTheorems.
Local Open Scope Z_scope.

(** ** The specification *)

(** What an operation answers: the ids it wrote, the id it found instead, that
    it marked its chunks, or an exception. *)
Inductive outcome :=
| Wrote (ids : list string)
| Existing (id : string)
| Marked
| Raised (e : exc).

Notation cmap := (gmap string dict).

Section spec.
Context `{HashLib} `{Environ}.

(** The id a conversation is written under. *)
Definition id_of (c : dict) : option string :=
  match item "id" c with
  | Ok v => match _validate_memory_id v with Ok i => Some i | Raise _ => None end
  | Raise _ => None
  end.
(** Another conversation of a valid project has the content hash. *)
Definition taken (σ : cmap) (c : dict) : Prop :=
  ∃ j e h p, σ !! j = Some e ∧ _conversation_hash e = Some h ∧ _conversation_hash c = Some h ∧
    _project_id e = Some p ∧ _project_id c = Some p ∧ _validate_project_id p = Ok p.
Definition put (σ : cmap) (idc : string * dict) : cmap := <[idc.1 := stamped idc.2]> σ.

Inductive spec_step : conv_op → cmap → outcome → cmap → Prop :=
| spec_raised o σ e : spec_step o σ (Raised e) σ
| spec_insert c id σ : id_of c = Some id → spec_step (OpInsert c) σ (Wrote [id]) (put σ (id, c))
| spec_created c id σ : id_of c = Some id → σ !! id = None → ¬ taken σ (stamped c) →
    spec_step (OpInsertNew c) σ (Wrote [id]) (put σ (id, c))
| spec_existing c id e σ : σ !! id = Some e → _conversation_hash e = _conversation_hash (stamped c) →
    spec_step (OpInsertNew c) σ (Existing id) σ
| spec_replace c id σ : id_of c = Some id → spec_step (OpAppend c None) σ (Wrote [id]) (put σ (id, c))
| spec_append c id e h σ : id_of c = Some id → σ !! id = Some e → _conversation_hash e = Some h →
    spec_step (OpAppend c (Some h)) σ (Wrote [id]) (put σ (id, c))
| spec_batch cs ids σ : map id_of cs = map Some ids →
    spec_step (OpBatch cs) σ (Wrote ids) (foldl put σ (zip ids cs))
| spec_mark v i ids st e e' σ : _validate_memory_id v = Ok i → σ !! i = Some e →
    update_index_chunks_payload e ids st = Ok e' → spec_step (OpMark v ids st) σ Marked (<[i := e']> σ)
| spec_mark_absent v i ids st σ : _validate_memory_id v = Ok i → σ !! i = None →
    spec_step (OpMark v ids st) σ Marked σ.

(** A history of operations, each with the time it runs at, and its outcomes. *)
Inductive spec_runs : list (instant * conv_op) → cmap → list outcome → cmap → Prop :=
| spec_done σ : spec_runs [] σ [] σ
| spec_then now o ops σ out σ1 outs σ2 : spec_step o σ out σ1 → spec_runs ops σ1 outs σ2 →
    spec_runs ((now, o) :: ops) σ (out :: outs) σ2.

(** ** The implementation *)

Definition outcome_of {A} (f : A → outcome) (r : result A) : outcome :=
  match r with Ok a => f a | Raise e => Raised e end.
Definition conv_run (now : instant) (o : conv_op) (d : ConvDb) : outcome * ConvDb :=
  match o with
  | OpInsert c => let (r, d') := insert now c d in (outcome_of (λ i, Wrote [i]) r, d')
  | OpInsertNew c => let (r, d') := insert_new now c d in
      (outcome_of (λ p, if p.2 : bool then Wrote [p.1] else Existing p.1) r, d')
  | OpAppend c e => let (r, d') := append_messages now c e d in (outcome_of (λ i, Wrote [i]) r, d')
  | OpBatch cs => let (r, d') := batch_insert now cs d in (outcome_of Wrote r, d')
  | OpMark i ids s => let (r, d') := _mark_chunks_state i ids s d in (outcome_of (λ _, Marked) r, d')
  end.
Fixpoint run_ops (ops : list (instant * conv_op)) (d : ConvDb) : list outcome * ConvDb :=
  match ops with
  | [] => ([], d)
  | (now, o) :: ops =>
      let (out, d1) := conv_run now o d in let (outs, d2) := run_ops ops d1 in (out :: outs, d2)
  end.

(** The map a store stands for. *)
Definition stored_pair (r : conv_row) : option (string * dict) :=
  match json_loads (c_payload r) with Ok (VDict e) => Some (c_id r, e) | _ => None end.
Definition view (d : ConvDb) : cmap := list_to_map (omap stored_pair (conversations d)).

(** ** The simulation *)

Lemma stored_pair_row e r : row_of e r → stored_pair r = Some (c_id r, e).
Proof. intros []. unfold stored_pair. by rewrite row_payload, loads_dumps. Qed.
Lemma view_find d : conv_inv d → ∀ i e,
  view d !! i = Some e ↔ ∃ r, tbl_find (is_conv i) (conversations d) = Some r ∧ row_of e r.
Proof.
  intros Hi i e. pose proof (inv_rows d Hi) as Hrows. pose proof (inv_ids d Hi) as Hu. unfold view.
  revert Hrows Hu. induction (conversations d) as [|r t IH]; intros Hrows Hu.
  - cbn. rewrite lookup_empty. split; [done|]. by intros (r & ? & _).
  - apply Forall_cons in Hrows as [[e0 He0] Hrows]. unfold unique_key in Hu. cbn in Hu. apply NoDup_cons in Hu as [_ Hu].
    change (omap stored_pair (r :: t)) with
      (match stored_pair r with Some y => y :: omap stored_pair t | None => omap stored_pair t end).
    rewrite (stored_pair_row _ _ He0). cbn [list_to_map foldr]. unfold tbl_find. cbn [find].
    destruct (is_conv i r) eqn:E.
    + apply String.eqb_eq in E as <-. cbn. rewrite lookup_insert_eq. split.
      * intros [= ->]. eauto.
      * intros (r' & [= <-] & He). f_equal. by eapply row_of_inj.
    + cbn. rewrite lookup_insert_ne by (by apply String.eqb_neq). apply IH; auto.
Qed.
Lemma find_row d i r : conv_inv d → tbl_find (is_conv i) (conversations d) = Some r → ∃ e, row_of e r ∧ view d !! i = Some e.
Proof.
  intros Hi Hf. pose proof Hf as [Hr _]%tbl_find_Some. pose proof (inv_rows d Hi) as Hrows.
  rewrite Forall_forall in Hrows. destruct (Hrows r Hr) as [e He]. exists e. split; [done|]. apply view_find; eauto.
Qed.
Lemma view_absent d i : conv_inv d → view d !! i = None ↔ tbl_find (is_conv i) (conversations d) = None.
Proof.
  intros Hi. split; intros Hn.
  - destruct (tbl_find _ _) eqn:E; [|done]. apply find_row in E as (e & _ & He); [|done]. congruence.
  - destruct (view d !! i) eqn:E; [|done]. apply view_find in E as (r & ? & _); [|done]. congruence.
Qed.
(** A change of the row of one id is a write of the map. *)
Lemma view_write d d' i e : conv_inv d → conv_inv d' →
  (∃ r, tbl_find (is_conv i) (conversations d') = Some r ∧ row_of e r) →
  (∀ j, j ≠ i → tbl_find (is_conv j) (conversations d') = tbl_find (is_conv j) (conversations d)) →
  view d' = <[i := e]> (view d).
Proof.
  intros Hi Hi' Hf Ho. apply map_eq. intros j. apply option_eq. intros x. destruct (decide (i = j)) as [<-|Hj].
  - rewrite lookup_insert_eq, view_find by done. destruct Hf as (r & Hr & He). split.
    + intros (r' & Hr' & He'). rewrite Hr' in Hr. injection Hr as ->. f_equal. by eapply row_of_inj.
    + intros [= <-]. eauto.
  - rewrite lookup_insert_ne, !view_find by done. by rewrite Ho by done.
Qed.
Lemma view_same d d' : conversations d' = conversations d → view d' = view d.
Proof. unfold view. by intros ->. Qed.
Lemma is_conv_ne i j r : i ≠ j → is_conv i r = true → is_conv j r = false.
Proof. intros Hn E%String.eqb_eq. apply String.eqb_neq. congruence. Qed.
Lemma valid_column p q y : project_column (Some q) y → y = Some p → _validate_project_id p = Ok p → q = p.
Proof. intros [Hq|(x & z & Hx & Hz & Hv)] Hy Hp; congruence. Qed.
Lemma find_snoc (q : conv_row → bool) new t : q new = false → tbl_find q (t ++ [new]) = tbl_find q t.
Proof.
  intros Hq. unfold tbl_find. induction t as [|x t IH]; cbn; [by rewrite Hq|]. by rewrite IH.
Qed.
Lemma find_update_other (p q : conv_row → bool) f t : (∀ r, p r = true → q r = false ∧ q (f r) = false) →
  tbl_find q (tbl_update p f t) = tbl_find q t.
Proof.
  intros Hp. unfold tbl_find, tbl_update. induction t as [|x t IH]; cbn; [done|]. rewrite IH.
  destruct (p x) eqn:Ex; [|done]. by destruct (Hp x Ex) as [-> ->].
Qed.
Lemma conv_row_of_id_of now c new : conv_row_of now c = Ok new → id_of c = Some (c_id new).
Proof. intros (v & Hv & Hi)%conv_row_of_item. unfold id_of. by rewrite Hv, Hi. Qed.
(** The upsert of one row. *)
Lemma view_upsert now c new d d' : conv_inv d → conv_inv d' → wf_value (VDict c) → conv_row_of now c = Ok new →
  conversations d' = tbl_upsert (is_conv (c_id new)) new (set_conv new) (conversations d) →
  view d' = put (view d) (c_id new, c).
Proof.
  intros Hi Hi' Hc Hn E. unfold put. cbn. apply view_write; [done|done| |].
  - rewrite E. destruct (upsert_row (stamped c) new (conversations d)) as (r & ? & ?); [by eapply conv_row_of_spec|eauto].
  - intros j Hj. rewrite E. apply tbl_find_upsert_other; [by apply String.eqb_neq|].
    intros r' Er. split; eapply is_conv_ne; [..|done|]; [done|done|exact Er].
Qed.

Lemma insert_simulated now c d r d' : conv_inv d → wf_value (VDict c) → insert now c d = (r, d') →
  spec_step (OpInsert c) (view d) (outcome_of (λ i, Wrote [i]) r) (view d').
Proof.
  intros Hi Hc Hr. pose proof (moves_run _ _ _ _ _ (insert_inv now c Hc) Hr Hi) as Hi'. destruct r as [id|e]; cbn.
  - apply insert_run in Hr as (new & d1 & Hn & <- & Hd1 & _ & _ & Hch%child_rows_keep).
    rewrite (view_upsert now c new d d') by (done || congruence). constructor. by eapply conv_row_of_id_of.
  - assert (d' = d) as ->; [|constructor]. revert Hr. unfold insert, mbind at 1, M_bind at 1, lift.
    destruct (conv_row_of now c); [apply transaction_raise|by intros [= _ <-]].
Qed.
Lemma insert_new_simulated now c d r d' : conv_inv d → wf_value (VDict c) → insert_new now c d = (r, d') →
  spec_step (OpInsertNew c) (view d) (outcome_of (λ p, if p.2 : bool then Wrote [p.1] else Existing p.1) r) (view d').
Proof.
  intros Hi Hc Hr. pose proof (moves_run _ _ _ _ _ (insert_new_inv now c Hc) Hr Hi) as Hi'.
  destruct r as [[id b]|e]; cbn; [|apply insert_new_raise in Hr as ->; constructor].
  apply insert_new_run in Hr as (new & Hn & Hr); [|done]. pose proof (conv_row_of_spec _ _ _ Hn Hc) as Hrow.
  destruct Hr as [(-> & <- & d1 & Hx & Hd1 & Hu & Hch%child_rows_keep)|(-> & -> & e & x & Hx & He & <- & Hh & _)].
  - assert (view d' = put (view d) (c_id new, c)) as ->.
    { unfold put. cbn. rewrite Hd1 in Hch. apply view_write; [done|done| |].
      - exists new. split; [|done]. rewrite Hch. apply tbl_find_snoc; [done|apply is_conv_refl].
      - intros j Hj. rewrite Hch. apply find_snoc. by apply String.eqb_neq. }
    constructor; [by eapply conv_row_of_id_of| |].
    + apply view_absent; [done|]. rewrite tbl_find_existsb in Hx. by destruct (tbl_find _ _).
    + intros (j & e & h & p & Hj & Hhe & Hhc & Hpe & Hpc & Hv).
      apply view_find in Hj as (r & [Hr _]%tbl_find_Some & Hre); [|done].
      destruct Hrow as [? ? ? ? Eh ? Ep ?], Hre as [? ? ? ? Eh' ? Ep' ?].
      eapply snoc_unique_hash; [done..| | |]; [by rewrite Eh'|by rewrite Eh|].
      by rewrite (valid_column _ _ _ Ep Hpc Hv), (valid_column _ _ _ Ep' Hpe Hv).
  - apply (spec_existing _ _ e); [|by rewrite Hh; apply Hrow]. apply view_find; [done|]. exists x. split; [|done].
    eapply (tbl_find_unique c_id); [apply Hi| |done|apply is_conv_refl]. intros r' E. by apply String.eqb_eq.
Qed.

Lemma append_writes now c h d id d' : append_messages now c (Some h) d = (Ok id, d') → ∃ new,
  conv_row_of now c = Ok new ∧ c_id new = id ∧
  conversations d' = tbl_update (λ r, is_conv id r && opt_is h (c_hash r)) (set_appended new) (conversations d).
Proof.
  unfold append_messages. intros Hr.
  apply (proj1 (bind_run _ _ _ _ _)) in Hr as (new & s & Hn & Hr). apply lift_run in Hn as [Hn ->].
  apply (proj1 (transaction_run _ _ _ _)) in Hr.
  apply (proj1 (bind_run _ _ _ _ _)) in Hr as (? & d1 & He & Hr). apply ensure_project_run in He as (E1 & _ & _).
  cbv zeta in Hr. apply (proj1 (bind_run _ _ _ _ _)) in Hr as (n & s & Hq & Hr). apply query_run in Hq as [-> ->].
  apply (proj1 (bind_run _ _ _ _ _)) in Hr as (? & d2 & Hw & Hr).
  apply write_convs_run in Hw as [(_ & -> & _)|[[? ?] _]]; [|done].
  apply (proj1 (bind_run _ _ _ _ _)) in Hr as (? & s & Hg & Hr). apply lift_run in Hg as [_ ->].
  apply (proj1 (bind_run _ _ _ _ _)) in Hr as ([] & d3 & Hch & Hr). apply ret_run in Hr as [<- ->].
  apply child_rows_keep in Hch. cbn in Hch. rewrite E1 in Hch. exists new. auto.
Qed.
Lemma append_simulated now c h d r d' : conv_inv d → wf_value (VDict c) → append_messages now c h d = (r, d') →
  spec_step (OpAppend c h) (view d) (outcome_of (λ i, Wrote [i]) r) (view d').
Proof.
  intros Hi Hc Hr. destruct h as [h|].
  - pose proof (moves_run _ _ _ _ _ (append_messages_inv now c (Some h) Hc) Hr Hi) as Hi'.
    destruct r as [id|e]; cbn; [|apply append_raise in Hr as ->; constructor].
    destruct (append_run _ _ _ _ _ _ Hr Hi Hc) as ((r & e & He & Hh & Hf) & _ & r' & He' & Hf').
    apply append_writes in Hr as (new & Hn & <- & Hd').
    assert (view d' = put (view d) (c_id new, c)) as ->.
    { unfold put. cbn. apply view_write; [done|done|by eauto|]. intros j Hj. rewrite Hd'. apply find_update_other.
      intros x [Ex _]%andb_true_iff. split; exact (is_conv_ne _ j _ (not_eq_sym Hj) Ex). }
    apply (spec_append _ _ e); [by eapply conv_row_of_id_of|apply view_find; eauto|]. destruct He. congruence.
  - apply (insert_simulated _ _ _ _ _ Hi Hc) in Hr. inversion Hr; subst; econstructor; eauto.
Qed.

Lemma batch_each_simulated now cs : ∀ d ids d', conv_inv d → Forall (λ c, wf_value (VDict c)) cs →
  batch_insert_each now cs d = (Ok ids, d') →
  map id_of cs = map Some ids ∧ view d' = foldl put (view d) (zip ids cs).
Proof.
  induction cs as [|c cs IH]; cbn [batch_insert_each]; intros d ids d' Hi Hcs Hr.
  - apply ret_run in Hr as [<- ->]. done.
  - apply Forall_cons in Hcs as [Hc Hcs].
    apply (proj1 (bind_run _ _ _ _ _)) in Hr as (new & s & Hn & Hr). apply lift_run in Hn as [Hn ->].
    apply (proj1 (bind_run _ _ _ _ _)) in Hr as (? & d1 & He & Hr).
    pose proof (moves_run _ _ _ _ _ (ensure_project_inv now _) He Hi) as Hi1. apply ensure_project_run in He as (E1 & _ & _).
    apply (proj1 (bind_run _ _ _ _ _)) in Hr as (? & d2 & Hw & Hr).
    assert (Hi2 : conv_inv d2).
    { refine (moves_run _ _ _ _ _ (upsert_conv_inv new _) Hw Hi1). exists (stamped c). by eapply conv_row_of_spec. }
    apply write_convs_run in Hw as [(_ & -> & _)|[[? ?] _]]; [|done].
    apply (proj1 (bind_run _ _ _ _ _)) in Hr as ([] & d3 & Hch & Hr).
    pose proof (moves_run _ _ _ _ _ (replace_child_rows_inv _) Hch Hi2) as Hi3. apply child_rows_keep in Hch.
    apply (proj1 (bind_run _ _ _ _ _)) in Hr as (ids' & d4 & Hb & Hr). apply ret_run in Hr as [<- ->].
    apply IH in Hb as [Hm ->]; [|done..]. cbn. split; [by rewrite Hm, (conv_row_of_id_of _ _ _ Hn)|].
    f_equal. apply (view_upsert now c new d d3); try done. rewrite Hch. cbn. by rewrite E1.
Qed.
Lemma batch_simulated now cs d r d' : conv_inv d → Forall (λ c, wf_value (VDict c)) cs → batch_insert now cs d = (r, d') →
  spec_step (OpBatch cs) (view d) (outcome_of Wrote r) (view d').
Proof.
  intros Hi Hcs Hr. destruct r as [ids|e]; cbn.
  - apply (proj1 (transaction_run _ _ _ _)) in Hr. apply batch_each_simulated in Hr as [? ->]; [|done..]. by constructor.
  - apply transaction_raise in Hr as ->. constructor.
Qed.
Lemma mark_simulated v ids st d r d' : conv_inv d → _mark_chunks_state v ids st d = (r, d') →
  spec_step (OpMark v ids st) (view d) (outcome_of (λ _, Marked) r) (view d').
Proof.
  intros Hi Hr. pose proof (moves_run _ _ _ _ _ (mark_chunks_state_inv v ids st) Hr Hi) as Hi'.
  destruct r as [[]|e]; cbn.
  - destruct (_validate_memory_id v) as [i|e] eqn:Hv; [|unfold _mark_chunks_state in Hr; by rewrite Hv in Hr].
    destruct (mark_run _ _ _ _ _ _ Hr Hv) as (d1 & E1 & _ & _ & Hs). clear Hr.
    unfold _sync_index_chunk_payload_state in Hs. apply (proj1 (bind_run _ _ _ _ _)) in Hs as (row & s & Hq & Hs).
    apply query_run in Hq as [-> ->]. rewrite E1 in Hs. destruct (tbl_find _ _) as [x|] eqn:Hf.
    + destruct (find_row _ _ _ Hi Hf) as (e & He & Hview). pose proof He as [Hwf Hp _ _ _ _ _ _].
      rewrite Hp, (loads_dumps _ Hwf) in Hs.
      apply (proj1 (bind_run _ _ _ _ _)) in Hs as (? & s & Ha & Hs). apply lift_run in Ha as [[= <-] ->].
      apply (proj1 (bind_run _ _ _ _ _)) in Hs as (e' & s & Hu & Hs). apply lift_run in Hu as [Hu ->].
      apply exec_run in Hs as ->. rewrite (view_write d _ i e' Hi Hi'); [by eapply spec_mark| |]; cbn [conversations on_convs]; rewrite E1.
      * rewrite tbl_find_update_same, Hf by done. cbn. pose proof Hf as [_ ->]%tbl_find_Some. eexists. split; [done|].
        by eapply update_payload_row.
      * intros j Hj. rewrite tbl_find_update_same by done. destruct (tbl_find (is_conv j) _) as [y|] eqn:Ey; cbn; [|done].
        apply tbl_find_Some in Ey as [_ Ey]. by rewrite (is_conv_ne j i y).
    + apply ret_run in Hs as [_ ->]. rewrite (view_same d d1) by done. apply (spec_mark_absent _ i); [done|]. by apply view_absent.
  - unfold _mark_chunks_state, mbind at 1, M_bind at 1, lift in Hr. destruct (_validate_memory_id v); [|injection Hr as _ <-; constructor].
    apply transaction_raise in Hr as ->. constructor.
Qed.
Lemma conv_run_simulated now o d : op_wf o → conv_inv d →
  conv_inv (conv_run now o d).2 ∧ spec_step o (view d) (conv_run now o d).1 (view (conv_run now o d).2).
Proof.
  intros Hw Hi. split.
  - pose proof (conv_step_inv now o d Hw Hi) as Hs. destruct o; cbn in Hs |- *;
      [destruct (insert _ _ _)|destruct (insert_new _ _ _)|destruct (append_messages _ _ _ _)|destruct (batch_insert _ _ _)
      |destruct (_mark_chunks_state _ _ _ _)]; exact Hs.
  - destruct o; cbn in Hw |- *;
      [destruct (insert _ _ _) eqn:E|destruct (insert_new _ _ _) eqn:E|destruct (append_messages _ _ _ _) eqn:E
      |destruct (batch_insert _ _ _) eqn:E|destruct (_mark_chunks_state _ _ _ _) eqn:E]; cbn;
      [eapply insert_simulated|eapply insert_new_simulated|eapply append_simulated|eapply batch_simulated|eapply mark_simulated]; done.
Qed.
Lemma run_ops_simulated ops : ∀ d, Forall (λ no, op_wf no.2) ops → conv_inv d →
  conv_inv (run_ops ops d).2 ∧ spec_runs ops (view d) (run_ops ops d).1 (view (run_ops ops d).2).
Proof.
  induction ops as [|[now o] ops IH]; cbn; intros d Hw Hi; [split; [done|constructor]|].
  apply Forall_cons in Hw as [Ho Hw]. destruct (conv_run_simulated now o d Ho Hi) as [Hi1 Hs].
  destruct (conv_run now o d) as [out d1]. destruct (IH d1 Hw Hi1) as [Hi2 Hss].
  destruct (run_ops ops d1) as [outs d2]. split; [done|]. by econstructor.
Qed.
Lemma view_get d i : conv_inv d → _validate_memory_id (VStr i) = Ok i →
  get (VStr i) d = (Ok (VDict <$> view d !! i), d).
Proof.
  intros Hi Hv. destruct (view d !! i) as [e|] eqn:E; cbn.
  - apply view_find in E as (r & Hr & He); [|done]. by eapply find_read.
  - apply view_absent in E; [|done]. unfold get, mbind, M_bind, query, lift. by rewrite Hv, E.
Qed.

(** C3: the tables of the store implement the abstract store: every history of
    insertions, conditional appends, batches and index-state marks from the empty
    tables, each returning or raising, is a history of the abstract map with the
    same outcomes (an operation that raises changes nothing, a new insertion needs a
    free id and an unused hash, an append needs the expected hash), and reading an
    id gives what the map holds for it. *)
Theorem conversation_store_refines ops : Forall (λ no, op_wf no.2) ops →
  let (outs, d) := run_ops ops (mk_conv_db empty_db [] [] []) in
  spec_runs ops ∅ outs (view d) ∧
  ∀ i, _validate_memory_id (VStr i) = Ok i → get (VStr i) d = (Ok (VDict <$> view d !! i), d).
Proof.
  intros Hw. destruct (run_ops_simulated ops (mk_conv_db empty_db [] [] []) Hw empty_conv_inv) as [Hi Hs].
  destruct (run_ops _ _) as [outs d]. split; [exact Hs|]. intros i Hv. by apply view_get.
Qed.
End spec.

Module Specs.
Import Sample Conv.
(** An insertion, a duplicate of it, an append that expects its hash, and one
    that lost the race. *)
Definition history : list (instant * conv_op) :=
  [(noon, OpInsertNew one); (noon, OpInsertNew one);
   (noon, OpAppend two (Some "H1")); (noon, OpAppend two (Some "H1"))].
Lemma conversation_store_refines_witness :
  (run_ops history empty_conv).1 =
    [Wrote [id1]; Existing id1; Wrote [id1]; Raised (ConcurrentAppendError "conversation changed during append")] ∧
  spec_runs history ∅ (run_ops history empty_conv).1 (view (run_ops history empty_conv).2).
Proof.
  split; [vm_compute; reflexivity|]. pose proof (conversation_store_refines history) as Hr.
  destruct (run_ops _ _) as [outs d]. apply Hr.
  repeat (apply Forall_cons; split; [first [exact one_wf|exact two_wf]|]). constructor.
Defined.
End Specs.
