(* ===== verification/Append.v ===== *)
(** * Lineages of memories and appends to them ([memory/ingestion/mvp_ingestion.py])

    The walk from a conversation to its ancestors: the bounded view returned to
    a caller, and the validation of the parent of a conversation to be stored (a
    missing conversation is the value None, as [store.get] returns it).  The
    comparison of an incoming snapshot with the stored conversation, the merged
    conversation, the lookup of the conversation a snapshot belongs to and the
    writes, over the SQLite store.  [allow_trusted_appends] is the runtime's
    configuration. *)
From Stdlib Require Import ZArith Lia Ascii.
From S2P Require Import Prelude PyStr Json Hash Clock Identity Scope Threads Normalize ConvStore.
Local Open Scope Z_scope.

(** * Parent lineage of memories *)

Definition _MAX_LINEAGE_DEPTH : Z := 16.
Definition _MAX_LINEAGE_VALIDATION_DEPTH : nat := 1024.

Record lineage_view := mk_view {
  lv_ancestors : list string; lv_truncated : bool; lv_missing_history : bool; lv_cycle_detected : bool }.

(** [store.get(id)] *)
Definition stored (id : string) : M ConvDb value := v ← get (VStr id); mret (default VNone v).
(** [str(conversation.get("id", ""))] of an object *)
Definition id_of (conversation : value) : string :=
  match conversation with VDict c => py_str (vget_or "id" (VStr "") c) | _ => "" end.

Section lineage.
Variables owner_id : option string.
Variable project_id : string.

(** The loop: each round stops or adds an ancestor, so at most
    [_MAX_LINEAGE_DEPTH] rounds run; [n] counts those left. *)
Fixpoint view_from (n : nat) (visited ancestors : list string) (parent_id : option string) : M ConvDb lineage_view :=
  let stop (missing cycle : bool) : lineage_view :=
    mk_view ancestors (match nonempty parent_id with
                       | Some _ => _MAX_LINEAGE_DEPTH <=? Z.of_nat (length ancestors) | None => false end)
      missing cycle in
  match n, nonempty parent_id with
  | S n', Some p =>
      if existsb (String.eqb p) visited then mret (stop false true) else
      parent ← stored p;
      if negb (_conversation_authorized parent owner_id (Some project_id)) then mret (stop true false) else
      view_from n' (p :: visited) (ancestors ++ [p]) (_lineage_parent_id parent)
  | _, _ => mret (stop false false)
  end.
Definition _lineage_view (conversation : dict) : M ConvDb lineage_view :=
  view_from (Z.to_nat _MAX_LINEAGE_DEPTH) [id_of (VDict conversation)] [] (_lineage_parent_id (VDict conversation)).

Fixpoint validate_from (n : nat) (visited : list string) (current : value) : M ConvDb unit :=
  match n with
  | O => raise (ValueError "lineage_depth_exceeded: lineage exceeds 1024 ancestors")
  | S n' =>
      let current_id := id_of current in
      if existsb (String.eqb current_id) visited
      then raise (ValueError "lineage_cycle: parent lineage contains a cycle") else
      match _lineage_parent_id current with
      | None => mret tt
      | Some ancestor_id =>
          next ← stored ancestor_id;
          if is_none next then raise (ValueError "lineage_history_missing: parent lineage is incomplete") else
          if negb (_conversation_authorized next owner_id (Some project_id))
          then raise (ValueError "lineage_history_not_accessible: parent lineage leaves the authorized project")
          else validate_from n' (current_id :: visited) next
      end
  end.
Definition _validate_lineage_parent (conversation : dict) : M ConvDb unit :=
  match _lineage_parent_id (VDict conversation) with
  | None => mret tt
  | Some parent_id =>
      let memory_id := id_of (VDict conversation) in
      if String.eqb parent_id memory_id
      then raise (ValueError "lineage_self_link: a memory cannot reference itself as parent") else
      parent ← stored parent_id;
      if is_none parent then raise (ValueError "lineage_parent_not_found: parent memory does not exist") else
      if negb (_conversation_authorized parent owner_id (Some project_id))
      then raise (ValueError "lineage_parent_not_accessible: parent memory is outside the authorized project")
      else validate_from _MAX_LINEAGE_VALIDATION_DEPTH [memory_id] parent
  end.
End lineage.

(** * Appending to stored conversations *)

Inductive _SnapshotRelation := EQUAL | APPEND | STALE.
Record _AppendDelta := mk_delta {
  relation : _SnapshotRelation; delta_messages : list value; incoming_covers_updated_history : bool }.

(** [str(message.get("hash", ""))] *)
Definition hash_or_blank (message : value) : result string :=
  match message with
  | VDict m => Ok (py_str (vget_or "hash" (VStr "") m))
  | _ => Raise (AttributeError "get")
  end.
Definition _detect_append_delta (existing incoming : dict) : result _AppendDelta :=
  match vget_or "messages" (VList []) existing, vget_or "messages" (VList []) incoming with
  | VList existing_messages, VList incoming_messages =>
      existing_hashes ← map_result hash_or_blank existing_messages;
      incoming_hashes ← map_result hash_or_blank incoming_messages;
      if bool_decide (existing_hashes = incoming_hashes) then Ok (mk_delta EQUAL [] true) else
      if bool_decide (take (length existing_hashes) incoming_hashes = existing_hashes)
      then Ok (mk_delta APPEND (drop (length existing_hashes) incoming_messages) true) else
      if bool_decide (take (length incoming_hashes) existing_hashes = incoming_hashes)
      then Ok (mk_delta STALE [] false) else
      Raise (ValueError "duplicate_conflict: same thread has divergent message history")
  | _, _ => Raise (ValueError "duplicate_conflict: stored or incoming messages are invalid")
  end.
Definition _detect_new_messages (existing incoming : dict) : result (list value) :=
  d ← _detect_append_delta existing incoming; Ok (delta_messages d).

Section append.
Context `{HashLib}.

(** The message hashes and conversation hash of the merged conversation. *)
Definition recomputed_identity (metadata : dict) (messages : list value) : result dict :=
  hashes ← map_result message_hash messages;
  ordered ← hash_ordered_messages messages;
  Ok (dict_set "conversation_hash"
        (VStr (_project_scoped_conversation_hash ordered (as_str (vget "project_id" metadata))))
        (dict_set "message_hashes" (VList (map VStr hashes)) metadata)).
Definition merged_identity (incoming_covers_updated_history : bool) (incoming_metadata : option dict)
    (metadata : dict) (messages : list value) : result dict :=
  match incoming_covers_updated_history, vget "message_hashes" (default [] incoming_metadata),
        vget "conversation_hash" (default [] incoming_metadata) with
  | true, VList hashes, VStr h =>
      if Z.of_nat (length hashes) =? Z.of_nat (length messages)
      then Ok (dict_set "conversation_hash" (VStr h) (dict_set "message_hashes" (VList hashes) metadata))
      else recomputed_identity metadata messages
  | _, _, _ => recomputed_identity metadata messages
  end.
Definition _append_conversation (existing incoming : dict) (new_messages : list value)
    (incoming_covers_updated_history : bool) : result dict :=
  metadata ← match vget_or "metadata" (VDict []) existing with VDict m => Ok m | _ => Raise OutsideModel end;
  let incoming_metadata := as_dict (vget_or "metadata" (VDict []) incoming) in
  messages ← match vget_or "messages" (VList []) existing with
    | VList l => Ok (l ++ new_messages) | _ => Raise OutsideModel end;
  updated_at ← match dict_get "metadata" incoming with
    | None => Raise (KeyError "metadata")
    | Some (VDict m) => from_option_err (KeyError "updated_at") (dict_get "updated_at" m)
    | Some _ => Raise (TypeError "indices must be integers")
    end;
  m ← merged_identity incoming_covers_updated_history incoming_metadata
        (dict_set "updated_at" updated_at metadata) messages;
  let m := match incoming_metadata with Some im => _merge_thread_metadata m im | None => m end in
  Ok (dict_set "metadata" (VDict m) (dict_set "messages" (VList messages) existing)).

(** ** The store *)

Context `{Environ}.
Variable now : instant.
Variable allow_trusted_appends : bool.

Definition allowed (owner_id project_id : option string) (candidate : option value) : option dict :=
  match candidate with
  | Some (VDict c) => if _conversation_allowed (VDict c) owner_id project_id then Some c else None
  | _ => None
  end.
Definition _lookup_same_thread (incoming : dict) (owner_id project_id : option string) : M ConvDb (option dict) :=
  let field k := match metadata_of (VDict incoming) with
    | Some m => nonempty (as_str (vget k m)) | None => None end in
  match field "imported_session_identity", project_id with
  | Some identity, Some p =>
      candidate ← get_by_imported_session identity p;
      mret (allowed owner_id project_id candidate)
  | _, _ =>
      if negb allow_trusted_appends then mret None else
      let memory_id := py_str (vget_or "id" (VStr "") incoming) in
      existing ← if String.eqb memory_id "" then mret None else get (VStr memory_id);
      match existing with
      | Some (VDict e) => mret (allowed owner_id project_id (Some (VDict e)))
      | _ =>
          match field UPSTREAM_THREAD_ID with
          | Some thread =>
              candidate ← get_by_upstream_thread (py_str (vget_or "source" (VStr "") incoming)) thread project_id;
              mret (allowed owner_id project_id candidate)
          | None => mret None
          end
      end
  end.

Definition _lookup_by_conversation_hash (conversation_hash project_id : option string) : M ConvDb (option value) :=
  match conversation_hash with
  | None => mret None
  | Some _ => get_by_conversation_hash conversation_hash project_id
  end.
Definition _insert_new_conversation (obj : dict) : M ConvDb (string * bool) := insert_new now obj.
Definition _persist_appended_conversation (existing updated : dict) : M ConvDb unit :=
  _ ← append_messages now updated (Scope._conversation_hash existing); mret tt.
End append.
