(* ===== verification/AuditLog.v ===== *)
(** * The audit trail and project access ([memory/backend/metadata_store.py],
      [memory/ingestion/mvp_ingestion.py])

    Audit events, their validation, storage and listing, and the resolution of
    the project a caller works in, which records every denial. *)
From Stdlib Require Import ZArith Lia Ascii.
From S2P Require Import Prelude PyStr Json Hash Clock Identity AuthDb AuthStore ConvStore.
Local Open Scope Z_scope.

Definition _MAX_AUDIT_METADATA_BYTES : Z := 8192.

Record audit_event := mk_event {
  ev_id : string; ev_type : string; ev_actor_id : option string; ev_project_id : option string;
  ev_memory_id : option string; ev_fact_id : option string; ev_request_id : option string;
  ev_source_surface : string; ev_outcome : string; ev_reason_code : option string;
  ev_metadata : string; ev_created_at : string }.

(** ** Fields *)

Definition _AUDIT_EVENT_RE (s : string) : bool :=
  head_tail_match is_lower_ascii (λ c, is_lower_ascii c || is_decimal c || in_chars "_.:-" c) s
  && (str_len s <=? 128).
Definition _validate_uuid_field (v : value) (field_name : string) : result string :=
  let text := strip (py_str v) in
  if is_uuid text then Ok text else Raise (ValueError (field_name +:+ " must be a valid UUID")).
Definition _validate_audit_token (v : value) (field_name : string) : result string :=
  let text := strip (py_str v) in
  if String.eqb text "" then Raise (ValueError (field_name +:+ " must be non-empty")) else
  if negb (_AUDIT_EVENT_RE text)
  then Raise (ValueError (field_name +:+ " must start with a lowercase letter and contain only lowercase letters, digits, dots, underscores, colons, or hyphens"))
  else Ok text.
Definition _validate_optional_audit_field (v : value) (field_name : string) : result (option string) :=
  match v with
  | VNone => Ok None
  | _ =>
      let text := strip (py_str v) in
      if String.eqb text "" then Ok None else
      if 128 <? str_len text then Raise (ValueError (field_name +:+ " exceeds max length 128")) else
      if contains (char_str (chr 13)) text || contains (char_str (chr 10)) text
      then Raise (ValueError (field_name +:+ " must not contain newlines")) else Ok (Some text)
  end.
Definition _validate_audit_limit (limit : Z) : result Z :=
  if (limit <? 1) || (1000 <? limit) then Raise (ValueError "audit event limit must be between 1 and 1000") else Ok limit.

Section audit.
Context `{HashLib} `{Environ}.
Variable now : instant.

Definition _validate_audit_timestamp (v : value) : result string :=
  match v with
  | VNone => Ok (iso_z now)
  | _ =>
      let text := strip (py_str v) in
      if 128 <? str_len text then Raise (ValueError "created_at exceeds max length 128") else
      match fromisoformat (replace "Z" "+00:00" text) with
      | Ok _ => Ok text
      | Raise (ValueError _) => Raise (ValueError "created_at must be an ISO-8601 datetime")
      | Raise e => Raise e
      end
  end.

(** [v or dflt] *)
Definition or_value (v dflt : value) : value := if truthy v then v else dflt.
Definition option_result {A B} (f : A → result B) (o : option A) : result (option B) :=
  match o with Some a => b ← f a; Ok (Some b) | None => Ok None end.
Definition some_text (v : value) : option string := if is_none v then None else Some (py_str v).

(** [new_id] is [str(uuid.uuid4())]. *)
Definition _prepare_audit_event (new_id : string) (event : dict) : result audit_event :=
  metadata ← match vget "metadata" event with
    | VNone => Ok []
    | VDict m => Ok m
    | _ => Raise (ValueError "audit event metadata must be an object")
    end;
  let metadata_payload := json_dumps (VDict metadata) in
  _ ← guard_err (_MAX_AUDIT_METADATA_BYTES <? utf8_len metadata_payload) (ValueError "audit event metadata exceeds max length");
  id ← _validate_uuid_field (or_value (vget "id" event) (VStr new_id)) "audit_event_id";
  type ← _validate_audit_token (vget "event_type" event) "event_type";
  actor ← option_result _validate_owner_id (some_text (vget "actor_id" event));
  project ← option_result _validate_project_id (some_text (vget "project_id" event));
  memory ← option_result (λ s, _validate_uuid_field (VStr s) "memory_id") (some_text (vget "memory_id" event));
  fact ← _validate_optional_audit_field (vget "fact_id" event) "fact_id";
  request ← _validate_optional_audit_field (vget "request_id" event) "request_id";
  surface ← _validate_audit_token (or_value (vget "source_surface" event) (VStr "service")) "source_surface";
  outcome ← _validate_audit_token (or_value (vget "outcome" event) (VStr "ok")) "outcome";
  reason ← _validate_optional_audit_field (vget "reason_code" event) "reason_code";
  created ← _validate_audit_timestamp (vget "created_at" event);
  Ok (mk_event id type actor project memory fact request surface outcome reason metadata_payload created).

(** ** The trail *)

(** The store with its table of audit events. *)
Record HubDb := mk_hub { conv_db : ConvDb; audit_events : list audit_event }.
Definition on_conv {A} (m : M ConvDb A) : M HubDb A := λ s,
  let (r, d) := m (conv_db s) in (r, mk_hub d (audit_events s)).

Definition is_event (id : string) (e : audit_event) : bool := String.eqb (ev_id e) id.
Definition append_audit_event (new_id : string) (event : dict) : M HubDb audit_event :=
  normalized ← lift (_prepare_audit_event new_id event);
  _ ← exec_r (λ s,
    t ← tbl_insert (is_event (ev_id normalized)) normalized "UNIQUE constraint failed: audit_events.id" (audit_events s);
    Ok (mk_hub (conv_db s) t));
  mret normalized.

(** [_audit_event_from_row] *)
Definition _audit_event_from_row (row : audit_event) : result dict :=
  m ← json_loads (ev_metadata row);
  Ok [("id", VStr (ev_id row)); ("event_type", VStr (ev_type row)); ("actor_id", opt_str (ev_actor_id row));
      ("project_id", opt_str (ev_project_id row)); ("memory_id", opt_str (ev_memory_id row));
      ("fact_id", opt_str (ev_fact_id row)); ("request_id", opt_str (ev_request_id row));
      ("source_surface", VStr (ev_source_surface row)); ("outcome", VStr (ev_outcome row));
      ("reason_code", opt_str (ev_reason_code row)); ("metadata", VDict (default [] (as_dict m)));
      ("created_at", VStr (ev_created_at row))].

(** [ORDER BY created_at DESC, id ASC] *)
Definition event_order (a b : audit_event) : bool :=
  match String.compare (ev_created_at b) (ev_created_at a) with
  | Lt => true | Gt => false | Eq => String.leb (ev_id a) (ev_id b) end.
Definition matches_clause (wanted field : option string) : bool :=
  match wanted with Some w => opt_is w field | None => true end.
Definition list_audit_events (event_type actor_id project_id memory_id fact_id : option string) (limit : Z)
    : M HubDb (list dict) :=
  type ← lift (option_result (λ s, _validate_audit_token (VStr s) "event_type") event_type);
  actor ← lift (option_result _validate_owner_id actor_id);
  project ← lift (option_result _validate_project_id project_id);
  memory ← lift (option_result (λ s, _validate_memory_id (VStr s)) memory_id);
  fact ← lift (option_result (λ s, _validate_optional_audit_field (VStr s) "fact_id") fact_id);
  n ← lift (_validate_audit_limit limit);
  rows ← query (λ s, take (Z.to_nat n) (sort_by event_order (tbl_select (λ e,
    matches_clause type (Some (ev_type e)) && matches_clause actor (ev_actor_id e)
    && matches_clause project (ev_project_id e) && matches_clause memory (ev_memory_id e)
    && match fact with
       | None => true
       | Some (Some f) => opt_is f (ev_fact_id e)
       | Some None => false
       end) (audit_events s))));
  lift (map_result _audit_event_from_row rows).

(** ** Recording *)

(** [AuditContext] *)
Record AuditContext := mk_audit_context { source_surface : string; request_id : option string }.
Variable context : AuditContext.
(** [str(uuid4())] of the event *)
Variable event_id : string.

(** An error while recording is logged, not raised. *)
Definition _record_audit_event (event_type : string) (owner_id project_id memory_id fact_id : option string)
    (outcome : string) (reason_code : option string) (metadata : dict) : M HubDb unit := λ s,
  let event := [("id", VStr event_id); ("event_type", VStr event_type); ("actor_id", opt_str owner_id);
    ("project_id", opt_str project_id); ("memory_id", opt_str memory_id); ("fact_id", opt_str fact_id);
    ("request_id", opt_str (request_id context)); ("source_surface", VStr (source_surface context));
    ("outcome", VStr outcome); ("reason_code", opt_str reason_code); ("metadata", VDict metadata);
    ("created_at", VStr (iso_z now))] in
  let (_, s') := append_audit_event event_id event s in (Ok tt, s').
Definition _audit_hash (v : string) : string := "sha256:" +:+ sha256_hex (utf8_encode v).

Definition denied (owner_id : option string) (project reason required_role : string) : M HubDb string :=
  _ ← _record_audit_event "project.access_denied" owner_id (Some project) None None "denied" (Some reason)
        [("required_role", VStr required_role)];
  raise (PermissionError "project access denied").
Definition _resolve_project (owner_id project_id : option string) (required_role : string) : M HubDb string :=
  match project_id with
  | None => p ← on_conv (on_auth (ensure_default_project now owner_id)); mret (p_id p)
  | Some pid =>
      project ← lift (_validate_project_id pid);
      match owner_id with
      | None =>
          if negb (String.eqb project LOCAL_DEFAULT_PROJECT_ID)
          then denied None project "anonymous_non_default_project" required_role
          else mret project
      | Some _ =>
          allowed ← on_conv (on_auth (project_has_role project owner_id required_role));
          if negb allowed then denied owner_id project "missing_project_role" required_role
          else mret project
      end
  end.
End audit.
