(* ===== verification/IngestFacts.v ===== *)
(** * Guarantees of normalisation and appending

    Canonical messages and hashes, stability under a second normalisation, the
    comparison of snapshots, and the reuse of an incoming identity. *)
From Stdlib Require Import ZArith Lia Ascii.
From S2P Require Import Prelude PyStr Json Hash Clock Config Identity AuthDb AuthStore OAuthStore AuthSystem Samples ConvStore Scope Threads Normalize Append.
Local Open Scope Z_scope.

#[local] Arguments _normalize_message : simpl never.

Section facts.
Context `{HashLib}.

(** ** Messages *)

(** A message with a known role, a clean text and the hash of both. *)
Definition canonical (m : dict) : Prop := ∃ role text,
  (role = "user" ∨ role = "assistant") ∧ strip_by is_crlf text = text ∧
  dict_get "role" m = Some (VStr role) ∧ dict_get "text" m = Some (VStr text) ∧
  dict_get "hash" m = Some (VStr (sha256_message role text)) ∧ dict_get "content" m = None.
Definition hash_of (m : dict) : string := py_str (vget "hash" m).

Lemma normalize_role_range v r : _normalize_role v = Ok r → r = "user" ∨ r = "assistant".
Proof.
  unfold _normalize_role. cbv zeta. destruct (_ || _) eqn:E; [|done]. intros [= <-].
  apply orb_true_iff in E as [E|E]; apply String.eqb_eq in E; auto.
Qed.
Lemma normalize_role_fix r : r = "user" ∨ r = "assistant" → _normalize_role (VStr r) = Ok r.
Proof. by intros [-> | ->]. Qed.
Lemma normalize_text_spec v i t : _normalize_text v i = Ok t →
  strip_by is_crlf t = t ∧ ∀ j, _normalize_text (VStr t) j = Ok t.
Proof.
  unfold _normalize_text. destruct v as [| | | |s| |]; try done. cbv zeta.
  destruct (String.eqb (strip (strip_by is_crlf s)) "") eqn:E1; [done|].
  destruct (_ <? _) eqn:E2; [done|]. intros [= <-]. rewrite strip_by_idem. split; [done|].
  intros j. by rewrite E1, E2.
Qed.
Lemma with_text_content m : NoDup (dict_keys m) → dict_get "content" (with_text m) = None.
Proof.
  intros Hm. unfold with_text. rewrite dict_get_pop; [done|]. case_match; [by apply dict_set_NoDup|done].
Qed.

Lemma normalize_message_canonical v i m : _normalize_message v i = Ok m → wf_value v →
  canonical m ∧ ∀ j, _normalize_message (VDict m) j = Ok m.
Proof.
  unfold _normalize_message. destruct v as [| | | | | |d]; try done. intros Hm [Hd _]. cbv zeta in Hm. inv_ok.
  rename x into role, x0 into text. subst m.
  match goal with H : _normalize_role _ = _ |- _ => rename H into Hr end.
  match goal with H : _normalize_text _ _ = _ |- _ => rename H into Ht end.
  apply normalize_role_range in Hr. apply normalize_text_spec in Ht as [Hs Ht].
  set (m := dict_set "hash" _ _).
  assert (Hrole : dict_get "role" m = Some (VStr role)) by (unfold m; by rewrite !dict_get_set).
  assert (Htext : dict_get "text" m = Some (VStr text)) by (unfold m; by rewrite !dict_get_set).
  assert (Hhash : dict_get "hash" m = Some (VStr (sha256_message role text))) by (unfold m; by rewrite !dict_get_set).
  assert (Hcont : dict_get "content" m = None).
  { unfold m. rewrite !dict_get_set_ne by done. by apply with_text_content. }
  split; [by exists role, text|]. intros j. cbv beta iota zeta.
  assert (with_text m = m) as ->.
  { unfold with_text, dict_has. rewrite Htext. cbn. by rewrite dict_pop_absent. }
  unfold vget. rewrite Hrole, Htext, Hhash. cbv [default id].
  unfold mbind, result_bind. rewrite normalize_role_fix by done. rewrite Ht, String.eqb_refl. cbn.
  by rewrite (dict_set_same "role"), (dict_set_same "text"), (dict_set_same "hash") by (rewrite ?dict_set_same; done).
Qed.

Lemma normalize_from_spec l : ∀ i seen out, normalize_from i seen l = Ok out → Forall wf_value l →
  Forall canonical out ∧ NoDup (map hash_of out) ∧ (∀ h, h ∈ map hash_of out → h ∉ seen) ∧
  ∀ j seen', (∀ h, h ∈ map hash_of out → h ∉ seen') → normalize_from j seen' (map VDict out) = Ok out.
Proof.
  induction l as [|v l IH]; cbn; intros i seen out Hn Hwf.
  { injection Hn as <-. split_and!; [constructor|apply NoDup_nil_2|by intros h ?%not_elem_of_nil|done]. }
  apply Forall_cons in Hwf as [Hv Hl]. apply bind_Ok in Hn as (m & Hm & Hn). cbv zeta in Hn.
  apply normalize_message_canonical in Hm as [Hc Hfix]; [|done].
  change (py_str (vget "hash" m)) with (hash_of m) in Hn.
  assert (Hseen : ∀ s, existsb (String.eqb (hash_of m)) s = bool_decide (hash_of m ∈ s)).
  { intros s. apply Bool.eq_iff_eq_true. rewrite existsb_exists, bool_decide_eq_true, list_elem_of_In.
    setoid_rewrite String.eqb_eq. naive_solver. }
  rewrite Hseen in Hn. case_bool_decide as Hin; [by eapply IH|].
  apply bind_Ok in Hn as (rest & Hr & Hn). injection Hn as <-.
  destruct (IH _ _ _ Hr Hl) as (Hcs & Hnd & Hns & Hre). cbn [map]. split_and!.
  - by constructor.
  - apply NoDup_cons. split; [|done]. intros Hx. apply Hns in Hx. apply Hx. by left.
  - intros h [->|Hh]%elem_of_cons; [done|]. specialize (Hns h Hh). set_solver.
  - intros j seen' Hs. cbn. rewrite Hfix. cbn. rewrite Hseen, bool_decide_eq_false_2 by (apply Hs; by left).
    rewrite Hre; [done|]. intros h Hh [->|Hx]%elem_of_cons; [|apply (Hs h); [by right|done]].
    apply Hns in Hh. apply Hh. by left.
Qed.

(** Normalising messages yields canonical ones: each has the role user or
    assistant, a clean text and the hash the server computes from the two, no two
    share a hash, there is at least one, and a second normalisation changes
    nothing. *)
Theorem normalize_messages_canonical l out : Forall wf_value l → _normalize_messages l = Ok out →
  out ≠ [] ∧ Forall canonical out ∧ NoDup (map hash_of out) ∧ _normalize_messages (map VDict out) = Ok out.
Proof.
  intros Hl Hn. apply bind_Ok in Hn as (o & Hn & Ho).
  destruct (normalize_from_spec _ _ _ _ Hn Hl) as (Hc & Hd & _ & Hre).
  destruct o as [|m o]; [done|]. injection Ho as <-. split_and!; [done..|].
  unfold _normalize_messages. rewrite Hre; [done|]. intros h _. apply not_elem_of_nil.
Qed.

(** ** Conversations *)

Lemma canonical_hash m : canonical m → message_hash (VDict m) = Ok (hash_of m).
Proof. intros (r & t & _ & _ & _ & _ & Hh & _). unfold message_hash, hash_of, vget. by rewrite Hh. Qed.
Lemma canonical_hashes ms : Forall canonical ms → map_result message_hash (map VDict ms) = Ok (map hash_of ms).
Proof. induction 1 as [|m ms Hm _ IH]; [done|]. cbn [map map_result]. by rewrite (canonical_hash m), IH. Qed.

Lemma replace_keys_get k keys upd m : k ∉ keys → k ∉ dict_keys upd → dict_get k (replace_keys keys upd m) = dict_get k m.
Proof.
  intros Hk Hu. unfold replace_keys, dict_update.
  assert (Hfold : ∀ a, dict_get k (foldl (λ acc kv, dict_set kv.1 kv.2 acc) a upd) = dict_get k a).
  { induction upd as [|[k0 v0] upd IH]; intros a; cbn in *; [done|].
    rewrite IH by set_solver. apply dict_get_set_ne. set_solver. }
  rewrite Hfold. revert m. induction keys as [|k0 keys IH]; intros m; cbn; [done|].
  rewrite IH by set_solver. apply dict_get_pop_ne. set_solver.
Qed.
Lemma thread_step_get n n' m : _normalize_thread_metadata n = Ok n' → vget "metadata" n = VDict m →
  (∀ k, k ≠ "metadata" → dict_get k n' = dict_get k n) ∧
  ∃ m', vget "metadata" n' = VDict m' ∧ ∀ k, k ∉ thread_keys → dict_get k m' = dict_get k m.
Proof.
  unfold _normalize_thread_metadata, on_metadata. intros Hn Hm. rewrite Hm in Hn.
  apply bind_Ok in Hn as (t & _ & Hn). cbv zeta in Hn. injection Hn as <-.
  split; [intros; by apply dict_get_set_ne|]. eexists. split; [unfold vget; by rewrite dict_get_set_eq|].
  intros k Hk. apply replace_keys_get; [done|]. unfold to_metadata_update, field_update.
  unfold thread_keys in Hk. repeat case_match; cbn; set_solver.
Qed.
Lemma provenance_step_get n n' m : _normalize_handoff_provenance n = Ok n' → vget "metadata" n = VDict m →
  (∀ k, k ≠ "metadata" → dict_get k n' = dict_get k n) ∧
  ∃ m', vget "metadata" n' = VDict m' ∧ ∀ k, k ∉ provenance_keys → dict_get k m' = dict_get k m.
Proof.
  unfold _normalize_handoff_provenance, on_metadata. intros Hn Hm. rewrite Hm in Hn.
  apply bind_Ok in Hn as (t & _ & Hn). injection Hn as <-.
  split; [intros; by apply dict_get_set_ne|]. eexists. split; [unfold vget; by rewrite dict_get_set_eq|].
  intros k Hk. apply replace_keys_get; [done|]. unfold provenance_update, field_update.
  unfold provenance_keys in Hk. repeat case_match; cbn; set_solver.
Qed.

Lemma wf_dict_pop k d : wf_value (VDict d) → wf_value (VDict (dict_pop k d)).
Proof.
  rewrite !wf_dict. intros [Hn Hd]. split; [by apply dict_pop_NoDup|]. clear Hn.
  induction Hd as [|[k0 v0] d Hkv Hd IH]; cbn; [done|]. case_match; [done|]. by constructor.
Qed.
Lemma setdefault_other {A} k k' (v : A) d : k ≠ k' → dict_get k (dict_setdefault k' v d) = dict_get k d.
Proof. intros. unfold dict_setdefault. case_match; [done|]. by apply dict_get_set_ne. Qed.
Lemma lift_key_wf k dm : wf_value (VDict dm.1) → wf_value (VDict (lift_key k dm).1).
Proof. apply wf_dict_pop. Qed.

Lemma coerce_payload_wf v b p : _coerce_payload v b = Ok p → wf_value v → wf_value (VDict p).
Proof.
  unfold _coerce_payload. destruct v as [| | | |s| |d]; try done; intros Hp Hw.
  - destruct b; [|done]. cbn in Hp. apply bind_Ok in Hp as (ms & _ & Hp). injection Hp as <-.
    split; [compute_done|]. split; [|done]. apply wf_list, Forall_forall.
    intros v. rewrite list_elem_of_In, in_map_iff. intros (m & <- & _). apply wf_dict. split; [compute_done|by repeat constructor].
  - destruct (_ || _); [|done]. destruct (_ && _); [|by injection Hp as <-].
    pose proof (wf_vget "content" _ Hw) as Hc.
    destruct (vget "content" d); injection Hp as <-; try done. apply wf_dict_pop. by apply wf_dict_set.
Qed.
Lemma messages_step_spec n n' l : messages_step n = Ok n' → wf_value (VDict n) → vget "messages" n' = VList l →
  ∃ l0 ms, Forall wf_value l0 ∧ _normalize_messages l0 = Ok ms ∧ l = map VDict ms.
Proof.
  unfold messages_step. cbv zeta. set (n1 := dict_pop _ _). intros Hn Hw Hl.
  assert (Hw1 : wf_value (VDict n1)).
  { apply wf_dict_pop. pose proof (wf_vget "conversation" _ Hw) as Hc.
    destruct (vget "conversation" n); try exact Hw. destruct (dict_has "messages" n); [exact Hw|].
    by apply wf_dict_set. }
  pose proof (wf_vget "messages" _ Hw1) as Hm.
  destruct (vget "messages" n1) as [| | | | |l0|] eqn:E; try (injection Hn as <-; congruence).
  apply bind_Ok in Hn as (ms & Hms & Hn). injection Hn as <-.
  unfold vget in Hl. rewrite dict_get_set_eq in Hl. injection Hl as <-.
  exists l0, ms. split_and!; [by apply wf_list|done..].
Qed.
Lemma fields_step_get now new_id source n n' k : fields_step now new_id source n = Ok n' →
  k ∉ ["id"; "source"; "timestamp"] → dict_get k n' = dict_get k n.
Proof.
  unfold fields_step. cbv zeta. intros Hn Hk. inv_ok. subst n'.
  rewrite !dict_get_set_ne by set_solver. rewrite setdefault_other by set_solver.
  rewrite dict_get_set_ne by set_solver. rewrite !setdefault_other by set_solver. done.
Qed.
Lemma metadata_step_updated now m m' : metadata_step now m = Ok m' → vget "updated_at" m' = VStr (iso_z now).
Proof. unfold metadata_step. cbv zeta. intros Hm. inv_ok. subst m'. unfold vget. by rewrite dict_get_set_eq. Qed.


(** ** Snapshots *)

Definition hashes_are (c : dict) (hs : list string) : Prop :=
  ∃ l, vget_or "messages" (VList []) c = VList l ∧ map_result hash_or_blank l = Ok hs.

(** The comparison of a snapshot with the stored conversation goes by the
    hash sequences: equal ones bring nothing; when the stored sequence is a
    proper prefix, the new messages are the rest of the snapshot, whose hashes
    complete the stored ones; a snapshot that is a proper prefix is stale; any
    other pair is a conflict. *)
Theorem detect_append_delta_spec existing incoming es ins : hashes_are existing es → hashes_are incoming ins →
  match _detect_append_delta existing incoming with
  | Ok (mk_delta EQUAL new covers) => ins = es ∧ new = [] ∧ covers = true
  | Ok (mk_delta APPEND new covers) => ∃ ns, ns ≠ [] ∧ ins = es ++ ns ∧ map_result hash_or_blank new = Ok ns ∧ covers = true
  | Ok (mk_delta STALE new covers) => ∃ rest, rest ≠ [] ∧ es = ins ++ rest ∧ new = [] ∧ covers = false
  | Raise e => (∃ msg, e = ValueError msg) ∧ (¬ ∃ ns, ins = es ++ ns) ∧ ¬ ∃ rest, es = ins ++ rest
  end.
Proof.
  intros (le & He & Hes) (li & Hi & His). unfold _detect_append_delta. rewrite He, Hi, Hes. cbn. rewrite His. cbn.
  case_bool_decide as Heq; [by subst|]. case_bool_decide as Hpre.
  - exists (drop (length es) ins).
    assert (E : ins = es ++ drop (length es) ins) by (rewrite <-(take_drop (length es) ins) at 1; by rewrite Hpre).
    split_and!; [|done| |done].
    + intros Hd. apply Heq. rewrite E, Hd, app_nil_r. done.
    + rewrite (map_result_length _ _ _ Hes) at 2. rewrite <-(map_result_length _ _ _ Hes). by apply map_result_drop.
  - case_bool_decide as Hst.
    + exists (drop (length ins) es).
      assert (E : es = ins ++ drop (length ins) es) by (rewrite <-(take_drop (length ins) es) at 1; by rewrite Hst).
      split_and!; [|done..]. intros Hd. apply Heq. rewrite E, Hd, app_nil_r. done.
    + split; [eauto|]. split; intros (x & E).
      * apply Hpre. rewrite E. apply take_app_length.
      * apply Hst. rewrite E. apply take_app_length.
Qed.

(** ** Reuse of the incoming identity *)

Lemma hashed_blank l : ∀ hs, map_result message_hash l = Ok hs → map_result hash_or_blank l = Ok hs.
Proof.
  induction l as [|v l IH]; cbn; intros hs Hl; [done|].
  apply bind_Ok in Hl as (h & Hh & Hl). apply bind_Ok in Hl as (hs' & Hl & E). injection E as <-.
  destruct v as [| | | | | |m]; try done. cbn in *. unfold vget_or.
  destruct (dict_get "hash" m); [|done]. cbn in *. injection Hh as ->. by rewrite (IH hs').
Qed.

(** The metadata of a conversation carries the identity of its messages, scoped
    to a project. *)
Definition carries_identity (c : dict) (project : option string) : Prop :=
  ∃ l hs m, vget_or "messages" (VList []) c = VList l ∧ map_result message_hash l = Ok hs ∧
    vget_or "metadata" (VDict []) c = VDict m ∧ vget "message_hashes" m = VList (map VStr hs) ∧
    vget "conversation_hash" m = VStr (_project_scoped_conversation_hash (hash_ordered_hashes hs) project).

(** Reusing the hashes of an incoming snapshot that covers the whole updated
    history gives the conversation that recomputing them from the merged messages
    gives: the shortcut of an append is exact. *)
Theorem append_identity_reused existing incoming delta le hes m :
  vget_or "messages" (VList []) existing = VList le → map_result message_hash le = Ok hes →
  vget_or "metadata" (VDict []) existing = VDict m →
  carries_identity incoming (as_str (vget "project_id" m)) →
  _detect_append_delta existing incoming = Ok delta → incoming_covers_updated_history delta = true →
  _append_conversation existing incoming (delta_messages delta) true =
  _append_conversation existing incoming (delta_messages delta) false.
Proof.
  intros Hle Hhes Hm (li & his & im & Hli & Hhis & Him & Hmh & Hch) Hd Hcov.
  unfold _append_conversation. rewrite Hm, Hle, Him. cbn [as_dict mbind result_bind].
  destruct (match dict_get "metadata" incoming with Some _ => _ | None => _ end) as [upd|e]; [|done].
  cbn [mbind result_bind].
  assert (Hall : map_result message_hash (le ++ delta_messages delta) = Ok his).
  { unfold _detect_append_delta in Hd. rewrite Hle, Hli in Hd.
    rewrite (hashed_blank _ _ Hhes), (hashed_blank _ _ Hhis) in Hd. cbn in Hd.
    case_bool_decide as E1; [injection Hd as <-; cbn; rewrite app_nil_r; by subst|].
    case_bool_decide as E2; [|case_bool_decide; [by injection Hd as <-|done]].
    injection Hd as <-. cbn. apply (map_result_drop _ (length hes)) in Hhis.
    rewrite <-(take_drop (length hes) his), E2. by apply map_result_app. }
  f_equal. unfold merged_identity. cbv [default id]. rewrite Hmh, Hch, length_map.
  rewrite (map_result_length _ _ _ Hall), Z.eqb_refl.
  unfold recomputed_identity, hash_ordered_messages. rewrite Hall. unfold mbind, result_bind.
  unfold vget. by rewrite (dict_get_set_ne "project_id").
Qed.
End facts.

(** ** Samples *)

Module Ingest.
Import Sample.
Definition raw (role key text : string) : value := VDict [("role", VStr role); (key, VStr text)].
Definition payload : value := VDict [("messages", VList [raw "Human" "content" "hello"; raw "ai" "text" "hi there"; raw "user" "text" "hello"])].
Lemma raw_wf role key text : key ≠ "role" → wf_value (raw role key text).
Proof.
  intros Hk. apply wf_dict. split; [|by repeat constructor]. cbn. apply NoDup_cons. split; [set_solver|apply NoDup_singleton].
Qed.
Lemma payload_wf : wf_value payload.
Proof.
  apply wf_dict. split; [compute_done|]. constructor; [|constructor]. apply wf_list.
  repeat (apply Forall_cons; split; [by apply raw_wf|]). constructor.
Qed.

Lemma normalize_messages_canonical_witness :
  ∃ out, _normalize_messages [raw "Human" "content" "hello"; raw "ai" "text" "hi there"] = Ok out ∧
  length out = 2%nat ∧ _normalize_messages (map VDict out) = Ok out.
Proof.
  eexists. split; [vm_compute; reflexivity|]. split; [reflexivity|].
  edestruct (normalize_messages_canonical [raw "Human" "content" "hello"; raw "ai" "text" "hi there"])
    as (_ & _ & _ & Hn); [|vm_compute; reflexivity|exact Hn].
  repeat (apply Forall_cons; split; [by apply raw_wf|]). constructor.
Defined.


Definition msg (h t : string) : value := VDict [("role", VStr "user"); ("text", VStr t); ("hash", VStr h)].
Definition convo (ms : list value) (hs : list string) : dict :=
  [("messages", VList ms);
   ("metadata", VDict [("project_id", VStr "proj"); ("message_hashes", VList (map VStr hs)); ("updated_at", VStr "now");
      ("conversation_hash", VStr (_project_scoped_conversation_hash (hash_ordered_hashes hs) (Some "proj")))])].
Definition short := convo [msg "h1" "a"] ["h1"].
Definition long := convo [msg "h1" "a"; msg "h2" "b"] ["h1"; "h2"].

Lemma detect_append_delta_spec_witness :
  ∃ ns, ["h1"; "h2"] = ["h1"] ++ ns ∧ _detect_append_delta short long = Ok (mk_delta APPEND [msg "h2" "b"] true).
Proof.
  pose proof (detect_append_delta_spec short long ["h1"] ["h1"; "h2"]) as Hs.
  assert (E : _detect_append_delta short long = Ok (mk_delta APPEND [msg "h2" "b"] true)) by (vm_compute; reflexivity).
  rewrite E in Hs. destruct Hs as (ns & _ & Hns & _ & _).
  - eexists; split; vm_compute; reflexivity.
  - eexists; split; vm_compute; reflexivity.
  - exists ns. split; [exact Hns|exact E].
Defined.

Lemma append_identity_reused_witness :
  _append_conversation short long [msg "h2" "b"] true = _append_conversation short long [msg "h2" "b"] false.
Proof.
  apply (append_identity_reused short long (mk_delta APPEND [msg "h2" "b"] true) [msg "h1" "a"] ["h1"]
    (default [] (as_dict (vget "metadata" short)))).
  - vm_compute; reflexivity.
  - vm_compute; reflexivity.
  - vm_compute; reflexivity.
  - eexists _, _, _. split_and!; vm_compute; reflexivity.
  - vm_compute; reflexivity.
  - reflexivity.
Defined.
End Ingest.
