(* ===== verification/LineageFacts.v ===== *)
(** * Guarantees of lineages, of the audit trail and of project access

    What a lineage view may show, that a validated lineage has no cycle, and how
    the view of the default project treats a missing parent.  The trail only
    grows, every refused access is recorded, an accepted one is backed by a
    membership, and a listing is a sorted selection. *)
From Stdlib Require Import ZArith Lia Ascii Sorted.
From S2P Require Import Prelude PyStr Json Hash Clock Config Identity AuthDb AuthStore OAuthStore AuthSystem Samples Scope ConvStore ConvFacts Append AuditLog.
Local Open Scope Z_scope.

(** * Guarantees of the lineage walks *)

(** ** Chains of parents *)

(** [chain d ok v ids vs]: from the conversation [v], following the parents [ids]
    through the store finds the conversations [vs], each accepted. *)
Inductive chain (d : ConvDb) (ok : value → Prop) : value → list string → list value → Prop :=
| chain_nil v : chain d ok v [] []
| chain_cons v p w ids vs :
    _lineage_parent_id v = Some p → (stored p d).1 = Ok w → ok w → chain d ok w ids vs →
    chain d ok v (p :: ids) (w :: vs).

Lemma stored_keeps p d r d' : stored p d = (r, d') → d' = d.
Proof.
  intros Hr. symmetry. refine (moves_run eq _ _ _ _ _ Hr). unfold stored.
  apply moves_bind; [apply _|apply get_moves; apply _|]. intros. apply moves_ret. apply _.
Qed.
Section facts.
Variables (owner : option string) (project : string).
Definition accepted (v : value) : Prop := _conversation_authorized v owner (Some project) = true.

(** The last conversation of a chain. *)
Definition end_of (v : value) (vs : list value) : value := default v (last vs).
Lemma end_of_cons v w vs : end_of v (w :: vs) = end_of w vs.
Proof. 
  unfold end_of. destruct vs as [|x vs]; [done|]. rewrite last_cons_cons. destruct (last (x :: vs)) eqn:E; [done|].
  by apply last_None in E.
Qed.

(** A walk that stops where it is. *)
Lemma stopped d n visited ancestors v view :
  lv_ancestors view = ancestors →
  ∃ ids vs, lv_ancestors view = ancestors ++ ids ∧ (length ids ≤ n)%nat ∧
    chain d accepted v ids vs ∧ NoDup ids ∧ (∀ p, p ∈ ids → p ∉ (visited : list string)).
Proof.
  intros ->. exists [], []. rewrite app_nil_r. cbn.
  split_and!; [done|lia|constructor|apply NoDup_nil_2|by intros p ?%not_elem_of_nil].
Qed.

Lemma view_from_spec d n : ∀ visited ancestors v view d',
  view_from owner project n visited ancestors (_lineage_parent_id v) d = (Ok view, d') →
  d' = d ∧ ∃ ids vs, lv_ancestors view = ancestors ++ ids ∧ (length ids ≤ n)%nat ∧
    chain d accepted v ids vs ∧ NoDup ids ∧ (∀ p, p ∈ ids → p ∉ visited).
Proof.
  induction n as [|n IH]; intros visited ancestors v view d' Hv.
  { apply ret_run in Hv as [<- ->]. split; [done|]. by apply stopped. }
  cbn [view_from] in Hv. cbv zeta in Hv. destruct (nonempty (_lineage_parent_id v)) as [p|] eqn:Ep;
    [|apply ret_run in Hv as [<- ->]; split; [done|]; by apply stopped].
  assert (Hp : _lineage_parent_id v = Some p) by (unfold nonempty in Ep; repeat case_match; simplify_eq; done).
  destruct (existsb (String.eqb p) visited) eqn:Ev; [apply ret_run in Hv as [<- ->]; split; [done|]; by apply stopped|].
  apply (proj1 (bind_run _ _ _ _ _)) in Hv as (w & d1 & Hw & Hv). pose proof (stored_keeps _ _ _ _ Hw) as ->.
  destruct (_conversation_authorized w owner (Some project)) eqn:Ea;
    [|apply ret_run in Hv as [<- ->]; split; [done|]; by apply stopped].
  apply IH in Hv as (-> & ids & vs & Ha & Hl & Hc & Hn & Hvis). split; [done|].
  exists (p :: ids), (w :: vs). split_and!.
  - rewrite Ha, <-app_assoc. done.
  - cbn. lia.
  - econstructor; [done|by rewrite Hw|done|done].
  - apply NoDup_cons. split; [|done]. intros Hin. apply Hvis in Hin. apply Hin. by left.
  - intros q [->|Hq]%elem_of_cons; [|apply Hvis in Hq; intros ?; apply Hq; by right].
    intros Hin. assert (existsb (String.eqb p) visited = true); [|congruence].
    apply existsb_exists. exists p. rewrite <-list_elem_of_In, String.eqb_refl. done.
Qed.

(** A lineage view changes nothing and shows the caller only the ids of
    conversations that the caller may read: its ancestors are the parents, in
    order, each found in the store and authorised, without repetition, the
    conversation itself excluded, at most sixteen. *)
Theorem lineage_view_sound c d view d' : _lineage_view owner project c d = (Ok view, d') →
  d' = d ∧ Z.of_nat (length (lv_ancestors view)) ≤ _MAX_LINEAGE_DEPTH ∧
  NoDup (id_of (VDict c) :: lv_ancestors view) ∧ ∃ vs, chain d accepted (VDict c) (lv_ancestors view) vs.
Proof.
  intros (-> & ids & vs & Ha & Hl & Hc & Hn & Hvis)%view_from_spec. cbn in Ha. rewrite Ha.
  split_and!; [done|unfold _MAX_LINEAGE_DEPTH in *; lia| |by exists vs].
  apply NoDup_cons. split; [|done]. intros Hin. apply Hvis in Hin. apply Hin. by left.
Qed.

(** ** Validation *)

Definition found (v : value) : Prop := is_none v = false ∧ accepted v.
Lemma validate_from_spec d n : ∀ visited v d',
  validate_from owner project n visited v d = (Ok tt, d') →
  d' = d ∧ ∃ ids vs, chain d found v ids vs ∧ (length ids < n)%nat ∧ _lineage_parent_id (end_of v vs) = None ∧
    NoDup (id_of v :: map id_of vs) ∧ ∀ i, i ∈ id_of v :: map id_of vs → i ∉ visited.
Proof.
  induction n as [|n IH]; intros visited v d' Hv; [done|]. cbn [validate_from] in Hv. cbv zeta in Hv.
  destruct (existsb (String.eqb (id_of v)) visited) eqn:Ev; [done|].
  assert (Hvis : id_of v ∉ visited).
  { intros Hin. assert (existsb (String.eqb (id_of v)) visited = true); [|congruence].
    apply existsb_exists. exists (id_of v). rewrite <-list_elem_of_In, String.eqb_refl. done. }
  destruct (_lineage_parent_id v) as [p|] eqn:Ep.
  - apply (proj1 (bind_run _ _ _ _ _)) in Hv as (w & d1 & Hw & Hv). pose proof (stored_keeps _ _ _ _ Hw) as ->.
    destruct (is_none w) eqn:Ew; [done|]. destruct (_conversation_authorized w owner (Some project)) eqn:Ea; [|done].
    apply IH in Hv as (-> & ids & vs & Hc & Hl & He & Hn & Hi). split; [done|].
    exists (p :: ids), (w :: vs). split_and!.
    + econstructor; [done|by rewrite Hw|by split|done].
    + cbn. lia.
    + by rewrite end_of_cons.
    + apply NoDup_cons. split; [|exact Hn]. intros Hin. apply Hi in Hin. apply Hin. by left.
    + intros i [->|Hin]%elem_of_cons; [done|]. apply Hi in Hin. intros ?. apply Hin. by right.
  - injection Hv as <-. split; [done|]. exists [], []. split_and!; [constructor|cbn; lia|done| |].
    + apply NoDup_cons. split; [apply not_elem_of_nil|apply NoDup_nil_2].
    + by intros i [->|?%not_elem_of_nil]%elem_of_cons.
Qed.

(** A conversation whose parent passes validation has a finite lineage
    without cycle: following its parents through the store meets stored,
    authorised conversations only, ends at one without a parent after at most
    1024 steps, and never meets an id twice nor the conversation's own id. *)
Theorem validated_lineage_acyclic c d d' : _validate_lineage_parent owner project c d = (Ok tt, d') →
  d' = d ∧ ∃ ids vs, chain d found (VDict c) ids vs ∧ (length ids ≤ _MAX_LINEAGE_VALIDATION_DEPTH)%nat ∧
    _lineage_parent_id (end_of (VDict c) vs) = None ∧ NoDup (id_of (VDict c) :: map id_of vs).
Proof.
  unfold _validate_lineage_parent. intros Hv. destruct (_lineage_parent_id (VDict c)) as [p|] eqn:Ep.
  - cbv zeta in Hv. destruct (String.eqb p _); [done|].
    apply (proj1 (bind_run _ _ _ _ _)) in Hv as (w & d1 & Hw & Hv). pose proof (stored_keeps _ _ _ _ Hw) as ->.
    destruct (is_none w) eqn:Ew; [done|]. destruct (_conversation_authorized w owner (Some project)) eqn:Ea; [|done].
    change (negb true) with false in Hv. cbv iota in Hv.
    apply validate_from_spec in Hv as (-> & ids & vs & Hc & Hl & He & Hn & Hi). split; [done|].
    exists (p :: ids), (w :: vs). split_and!.
    + econstructor; [done|by rewrite Hw|by split|done].
    + cbn [length]. lia.
    + by rewrite end_of_cons.
    + apply NoDup_cons. split; [|exact Hn]. intros Hin. apply Hi in Hin. apply Hin. by left.
  - injection Hv as <-. split; [done|]. exists [], []. split_and!; [constructor|cbn [length]; lia|done|].
    apply NoDup_cons. split; [apply not_elem_of_nil|apply NoDup_nil_2].
Qed.
End facts.

(** In the local default project a parent that is not stored is listed as an
    ancestor and the history counts as complete: a missing conversation passes
    the authorisation of that project. *)
Theorem missing_parent_listed owner c p d : _lineage_parent_id (VDict c) = Some p → p ≠ "" →
  p ≠ id_of (VDict c) → (get (VStr p) d).1 = Ok None →
  _lineage_view owner LOCAL_DEFAULT_PROJECT_ID c d = (Ok (mk_view [p] false false false), d).
Proof.
  intros Hp Hne Hid Hg. unfold _lineage_view. rewrite Hp.
  change (Z.to_nat _MAX_LINEAGE_DEPTH) with (S 15). cbn [view_from nonempty].
  apply String.eqb_neq in Hne as ->. cbn [existsb]. apply String.eqb_neq in Hid as ->. cbn [orb].
  assert (Hs : stored p d = (Ok VNone, d)).
  { unfold stored, mbind, M_bind. destruct (get (VStr p) d) as [r d'] eqn:E. cbn in Hg. subst r.
    assert (d = d') as <- by (refine (moves_run eq _ _ _ _ (get_moves eq _) E)). done. }
  unfold mbind at 1, M_bind at 1. rewrite Hs. done.
Qed.

(** ** Samples *)

Module Lineage_samples.
Import Sample.
Definition idA := "aaaaaaaaaaaa4111811111111111111a".
Definition idB := "bbbbbbbbbbbb4111811111111111111b".
Definition idC := "cccccccccccc4111811111111111111c".
Definition child (id h parent : string) : dict :=
  [("id", VStr id); ("source", VStr "chat"); ("messages", VList []);
   ("metadata", VDict ([("conversation_hash", VStr h); ("project_id", VStr "proj")] ++
      if String.eqb parent "" then [] else [(PARENT_CONVERSATION_ID, VStr parent)]))].
Definition family : ConvDb :=
  conv_step noon (OpInsert (child idB "hB" idA)) (conv_step noon (OpInsert (child idA "hA" "")) (mk_conv_db empty_db [] [] [])).

Lemma lineage_view_sound_witness :
  ∃ view, _lineage_view None "proj" (child idC "hC" idB) family = (Ok view, family) ∧
  lv_ancestors view = [idB; idA] ∧ NoDup (idC :: lv_ancestors view).
Proof.
  eexists. split; [vm_compute; reflexivity|]. split; [reflexivity|].
  edestruct (lineage_view_sound None "proj" (child idC "hC" idB) family) as (_ & _ & Hn & _);
    [vm_compute; reflexivity|exact Hn].
Defined.

Lemma validated_lineage_acyclic_witness :
  _validate_lineage_parent None "proj" (child idC "hC" idB) family = (Ok tt, family) ∧
  ∃ ids vs, chain family (found None "proj") (VDict (child idC "hC" idB)) ids vs ∧ NoDup (idC :: map id_of vs).
Proof.
  split; [vm_compute; reflexivity|].
  edestruct (validated_lineage_acyclic None "proj" (child idC "hC" idB) family) as (_ & ids & vs & Hc & _ & _ & Hn);
    [vm_compute; reflexivity|].
  exists ids, vs. split; [exact Hc|exact Hn].
Defined.

Lemma missing_parent_listed_witness :
  _lineage_view None LOCAL_DEFAULT_PROJECT_ID (child idC "hC" idB) (mk_conv_db empty_db [] [] [])
  = (Ok (mk_view [idB] false false false), mk_conv_db empty_db [] [] []).
Proof.
  apply (missing_parent_listed None (child idC "hC" idB) idB).
  - vm_compute; reflexivity.
  - discriminate.
  - discriminate.
  - vm_compute; reflexivity.
Defined.
End Lineage_samples.

(** * Guarantees of the audit trail and of project access *)

(** The trail of one store extends that of another. *)
Definition extends (s s' : HubDb) : Prop := ∃ l, audit_events s' = audit_events s ++ l.
#[export] Instance extends_preorder : PreOrder extends.
Proof.
  split; [intros s; exists []; by rewrite app_nil_r|].
  intros a b c [l Hl] [l' Hl']. exists (l ++ l'). by rewrite Hl', Hl, app_assoc.
Qed.

Section facts.
Context `{HashLib} `{Environ}.

Lemma on_conv_events {A} (m : M ConvDb A) s : audit_events (on_conv m s).2 = audit_events s.
Proof. unfold on_conv. by destruct (m (conv_db s)). Qed.
Lemma on_conv_extends {A} (m : M ConvDb A) : moves extends (on_conv m).
Proof. intros s. exists []. by rewrite on_conv_events, app_nil_r. Qed.
Lemma append_audit_extends now i e : moves extends (append_audit_event now i e).
Proof.
  unfold append_audit_event. walk. destruct (tbl_insert _ _ _ _) as [t|] eqn:E; [|done].
  apply tbl_insert_Ok in E as [_ ->]. cbn in *. simplify_eq. by eexists.
Qed.
Lemma record_extends now cx i ty o p m f oc r md : moves extends (_record_audit_event now cx i ty o p m f oc r md).
Proof.
  intros s. unfold _record_audit_event. cbv zeta.
  match goal with |- context [append_audit_event ?n ?a ?e s] => pose proof (append_audit_extends n a e s) as Hx end.
  by destruct (append_audit_event _ _ _ s).
Qed.
Lemma denied_extends now cx i o p r ro : moves extends (denied now cx i o p r ro).
Proof. unfold denied. apply moves_bind; [apply _|apply record_extends|intros; walk]. Qed.
Hint Resolve on_conv_extends append_audit_extends record_extends denied_extends : moves.

Lemma resolve_extends now cx i o p r : moves extends (_resolve_project now cx i o p r).
Proof. unfold _resolve_project. walk. Qed.

(** The audit trail only grows: recording an event and resolving a project
    leave the earlier events in place, in order. *)
Theorem audit_trail_grows now cx i s owner project role event :
  extends s (_resolve_project now cx i owner project role s).2 ∧
  extends s (append_audit_event now i event s).2.
Proof. split; [apply resolve_extends|apply append_audit_extends]. Qed.

(** ** Project access *)

Lemma on_conv_run {A} (m : M ConvDb A) s r s' : on_conv m s = (r, s') → m (conv_db s) = (r, conv_db s') ∧ audit_events s' = audit_events s.
Proof. unfold on_conv. destruct (m (conv_db s)). by intros [= <- <-]. Qed.
Lemma on_auth_run {A} (m : M AuthDb A) d r d' : on_auth m d = (r, d') → m (auth_db d) = (r, auth_db d').
Proof. unfold on_auth. destruct (m (auth_db d)). by intros [= <- <-]. Qed.
Lemma denied_raises now cx i o p r ro s a s' : denied now cx i o p r ro s ≠ (Ok a, s').
Proof. unfold denied. intros Hd. inv_run. Qed.

(** Whoever is given a named project may use it: the project is the local
    default one for a caller without identity, and otherwise the store grants
    the caller the required role in it; nothing is recorded. *)
Theorem resolved_project_granted now cx i owner pid role s p s' :
  _resolve_project now cx i owner (Some pid) role s = (Ok p, s') →
  _validate_project_id pid = Ok p ∧ audit_events s' = audit_events s ∧
  match owner with
  | None => p = LOCAL_DEFAULT_PROJECT_ID
  | Some _ => (project_has_role p owner role (auth_db (conv_db s))).1 = Ok true
  end.
Proof.
  unfold _resolve_project. intros Hr.
  apply (proj1 (bind_run _ _ _ _ _)) in Hr as (q & s1 & Hv & Hr). apply lift_run in Hv as [Hv ->].
  destruct owner as [o|].
  - apply (proj1 (bind_run _ _ _ _ _)) in Hr as (b & s1 & Ha & Hr). apply on_conv_run in Ha as [Ha He].
    apply on_auth_run in Ha. destruct b; [|by apply denied_raises in Hr].
    apply ret_run in Hr as [<- ->]. split_and!; [done..|]. by rewrite Ha.
  - destruct (String.eqb q LOCAL_DEFAULT_PROJECT_ID) eqn:E; [|by apply denied_raises in Hr].
    apply ret_run in Hr as [<- ->]. split_and!; [done..|]. by apply String.eqb_eq.
Qed.

(** The event of a refused access. *)
Definition denial (i : string) (t : string) (cx : AuditContext) (owner : option string) (project reason role : string) : audit_event :=
  mk_event i "project.access_denied" owner (Some project) None None None (source_surface cx) "denied" (Some reason)
    (json_dumps (VDict [("required_role", VStr role)])) t.

(** What recording an event needs: a fresh event id, an audit context and a
    clock whose texts the trail accepts. *)
Record recordable (now : instant) (cx : AuditContext) (i : string) (s : HubDb) : Prop := mk_recordable {
  rec_uuid : _validate_uuid_field (VStr i) "audit_event_id" = Ok i;
  rec_fresh : existsb (is_event i) (audit_events s) = false;
  rec_surface : _validate_audit_token (VStr (source_surface cx)) "source_surface" = Ok (source_surface cx);
  rec_request : _validate_optional_audit_field (opt_str (request_id cx)) "request_id" = Ok None;
  rec_clock : _validate_audit_timestamp now (VStr (iso_z now)) = Ok (iso_z now) }.
Definition project_roles : list string := ["admin"; "writer"; "reader"].

Lemma nonempty_truthy s : s ≠ "" → truthy (VStr s) = true.
Proof. intros Hs. cbn. by apply String.eqb_neq in Hs as ->. Qed.
Lemma audit_token_nonempty v f t : _validate_audit_token v f = Ok t → t ≠ "".
Proof. unfold _validate_audit_token. intros Ht ->. repeat case_match; simplify_eq; prop_bool; congruence. Qed.
Lemma uuid_nonempty i f : _validate_uuid_field (VStr i) f = Ok i → i ≠ "".
Proof. intros Hi ->. by vm_compute in Hi. Qed.
Lemma denial_metadata role : role ∈ project_roles →
  (_MAX_AUDIT_METADATA_BYTES <? utf8_len (json_dumps (VDict [("required_role", VStr role)]))) = false.
Proof. unfold project_roles. rewrite !elem_of_cons, elem_of_nil. intros [->|[->|[->|[]]]]; vm_compute; reflexivity. Qed.

Lemma denied_run now cx i o v p reason role s r s' :
  recordable now cx i s → role ∈ project_roles → _validate_project_id p = Ok p →
  option_result _validate_owner_id o = Ok v →
  reason ∈ ["anonymous_non_default_project"; "missing_project_role"] →
  denied now cx i o p reason role s = (r, s') →
  s' = mk_hub (conv_db s) (audit_events s ++ [denial i (iso_z now) cx v p reason role]).
Proof.
  intros [] Hrole Hp Hv Hreason Hd. unfold denied, _record_audit_event, mbind at 1, M_bind at 1 in Hd.
  cbv beta zeta in Hd.
  match type of Hd with context [append_audit_event now i ?e s] => set (event := e) in Hd end.
  assert (He : _prepare_audit_event now i event = Ok (denial i (iso_z now) cx v p reason role)).
  { unfold _prepare_audit_event.
    change (vget "metadata" event) with (VDict [("required_role", VStr role)]).
    change (vget "id" event) with (VStr i). change (vget "event_type" event) with (VStr "project.access_denied").
    change (vget "actor_id" event) with (opt_str o). change (vget "project_id" event) with (VStr p).
    change (vget "memory_id" event) with VNone. change (vget "fact_id" event) with VNone.
    change (vget "request_id" event) with (opt_str (request_id cx)).
    change (vget "source_surface" event) with (VStr (source_surface cx)).
    change (vget "outcome" event) with (VStr "denied"). change (vget "reason_code" event) with (VStr reason).
    change (vget "created_at" event) with (VStr (iso_z now)).
    unfold or_value. rewrite (nonempty_truthy i), (nonempty_truthy (source_surface cx)), (nonempty_truthy "denied")
      by (done || eapply uuid_nonempty, rec_uuid0 || eapply audit_token_nonempty, rec_surface0).
    rewrite rec_uuid0, rec_surface0, rec_request0, rec_clock0. unfold mbind, result_bind. cbv beta iota zeta.
    assert (Ho : option_result _validate_owner_id (some_text (opt_str o)) = Ok v) by (by destruct o).
    assert (Hpo : option_result _validate_project_id (some_text (VStr p)) = Ok (Some p)) by (cbn; by rewrite Hp).
    assert (Hre : _validate_optional_audit_field (VStr reason) "reason_code" = Ok (Some reason)).
    { revert Hreason. rewrite !elem_of_cons, elem_of_nil. intros [->|[->|[]]]; vm_compute; reflexivity. }
    rewrite denial_metadata, Ho, Hpo by done. cbv beta iota delta [guard_err].
    rewrite Hre. reflexivity. }
  unfold append_audit_event, mbind, M_bind, lift, exec_r in Hd. rewrite He in Hd.
  unfold tbl_insert in Hd. change (ev_id (denial i (iso_z now) cx v p reason role)) with i in Hd. rewrite rec_fresh0 in Hd.
  by injection Hd as _ <-.
Qed.

Lemma has_role_errors p o role d m : (project_has_role p o role d).1 ≠ Raise (PermissionError m).
Proof.
  unfold project_has_role, mbind, M_bind, lift, query, _validate_project_id, _validate_project_role, _validate_owner_id,
    role_rank, from_option_err. cbv zeta. repeat (case_match; cbn in *; simplify_eq; try done).
Qed.
Lemma has_role_owner p o role d b : (project_has_role p (Some o) role d).1 = Ok b → ∃ v, _validate_owner_id o = Ok v.
Proof.
  unfold project_has_role, mbind, M_bind, lift. destruct (_validate_project_id p); [|done].
  destruct (_validate_project_role role); [|done]. destruct (_validate_owner_id o); [eauto|done].
Qed.
Lemma has_role_keeps p o role : moves eq (project_has_role p o role).
Proof. unfold project_has_role. walk. Qed.

(** Every refused access to a named project leaves exactly one event in the
    trail, with the caller, the project, the reason and the role that was asked
    for, and changes nothing else. *)
Theorem refused_access_recorded now cx i owner pid role s msg s' :
  recordable now cx i s → role ∈ project_roles →
  _resolve_project now cx i owner (Some pid) role s = (Raise (PermissionError msg), s') →
  ∃ p v, _validate_project_id pid = Ok p ∧ option_result _validate_owner_id owner = Ok v ∧
    s' = mk_hub (conv_db s) (audit_events s ++ [denial i (iso_z now) cx v p
      (match owner with None => "anonymous_non_default_project" | Some _ => "missing_project_role" end) role]).
Proof.
  intros Hrec Hrole Hr. unfold _resolve_project, mbind at 1, M_bind at 1, lift in Hr.
  destruct (_validate_project_id pid) as [p|e] eqn:Hp.
  2: { injection Hr as -> _. unfold _validate_project_id in Hp. repeat case_match; simplify_eq. }
  pose proof (_validate_project_id_idem _ _ Hp) as Hpp. destruct owner as [o|].
  - unfold mbind, M_bind in Hr. destruct (on_conv _ s) as [rb s1] eqn:Hc.
    pose proof Hc as Hc'. apply on_conv_run in Hc' as [Hc1 Hev]. unfold on_auth in Hc1.
    destruct (project_has_role p (Some o) role (auth_db (conv_db s))) as [ra a] eqn:Ha.
    assert (auth_db (conv_db s) = a) as <- by (refine (moves_run eq _ _ _ _ (has_role_keeps _ _ _) Ha)).
    injection Hc1 as <- Hdb. destruct ra as [b|e].
    2: { injection Hr as -> _. destruct (has_role_errors p (Some o) role (auth_db (conv_db s)) msg). by rewrite Ha. }
    assert (s1 = s) as -> by (destruct s as [[] ?], s1; cbn in *; congruence).
    destruct b; [done|]. destruct (has_role_owner p o role (auth_db (conv_db s)) false) as [v Hv]; [by rewrite Ha|].
    assert (Hov : option_result _validate_owner_id (Some o) = Ok (Some v)) by (cbn; by rewrite Hv).
    exists p, (Some v). split_and!; [done..|]. eapply denied_run; [done..| |exact Hr]. right. left.
  - destruct (String.eqb p LOCAL_DEFAULT_PROJECT_ID); [done|]. exists p, None. split_and!; [done..|].
    eapply (denied_run _ _ _ None); [exact Hrec|exact Hrole|exact Hpp|reflexivity| |exact Hr]. left.
Qed.

(** ** Listing *)

Lemma event_order_total a b : event_order a b = false → event_order b a = true.
Proof.
  unfold event_order. rewrite (String.compare_antisym (ev_created_at a) (ev_created_at b)).
  destruct (String.compare (ev_created_at b) (ev_created_at a)); cbn; try done. apply leb_total.
Qed.

(** A listing of the trail reads it only: its rows are stored events that
    meet every clause given, newest first, at most as many as asked for and at
    most a thousand; with room for all of them none is missing. *)
Theorem audit_listing ty ac pr me fa n s rows s' : list_audit_events ty ac pr me fa n s = (Ok rows, s') →
  s' = s ∧ 1 ≤ n ≤ 1000 ∧ ∃ events rest, Forall2 (λ e r, _audit_event_from_row e = Ok r) events rows ∧
    Z.of_nat (length events) ≤ n ∧ Sorted (λ a b, event_order a b = true) (events ++ rest) ∧
    (∀ e, e ∈ events ++ rest → e ∈ audit_events s ∧
       ∀ t, ty = Some t → _validate_audit_token (VStr t) "event_type" = Ok (ev_type e)) ∧
    (Z.of_nat (length events) < n → rest = []).
Proof.
  unfold list_audit_events. intros Hl.
  apply (proj1 (bind_run _ _ _ _ _)) in Hl as (ty' & s1 & Hty & Hl). apply lift_run in Hty as [Hty ->].
  apply (proj1 (bind_run _ _ _ _ _)) in Hl as (ac' & s1 & Hac & Hl). apply lift_run in Hac as [_ ->].
  apply (proj1 (bind_run _ _ _ _ _)) in Hl as (pr' & s1 & Hpr & Hl). apply lift_run in Hpr as [_ ->].
  apply (proj1 (bind_run _ _ _ _ _)) in Hl as (me' & s1 & Hme & Hl). apply lift_run in Hme as [_ ->].
  apply (proj1 (bind_run _ _ _ _ _)) in Hl as (fa' & s1 & Hfa & Hl). apply lift_run in Hfa as [_ ->].
  apply (proj1 (bind_run _ _ _ _ _)) in Hl as (n' & s1 & Hn & Hl). apply lift_run in Hn as [Hn ->].
  apply (proj1 (bind_run _ _ _ _ _)) in Hl as (q & s1 & Hq & Hl). apply query_run in Hq as [-> ->].
  apply lift_run in Hl as [Hl ->].
  unfold _validate_audit_limit in Hn. destruct (_ || _) eqn:En; [done|]. injection Hn as <-.
  apply orb_false_iff in En as [E1%Z.ltb_ge E2%Z.ltb_ge].
  split; [done|]. split; [lia|]. set (all := sort_by _ _) in Hl.
  exists (take (Z.to_nat n) all), (drop (Z.to_nat n) all). rewrite take_drop. split_and!.
  - by apply map_result_Forall2.
  - rewrite length_take. lia.
  - apply sort_by_sorted, event_order_total.
  - intros e. unfold all. rewrite sort_by_perm. intros [He Hm]%elem_of_tbl_select. split; [done|].
    intros t ->. cbn in Hty. apply bind_Ok in Hty as (t' & Ht & [= <-]). prop_bool.
    rewrite Ht. match goal with Hc : matches_clause (Some t') _ = true |- _ => cbn in Hc; apply String.eqb_eq in Hc end.
    congruence.
  - rewrite length_take. intros Hlt. apply drop_ge. lia.
Qed.
End facts.

(** ** Samples *)

Module Audit_samples.
Import Sample.
Definition context : AuditContext := mk_audit_context "service" None.
Definition event_id : string := "eeeeeeeeeeee4111811111111111111e".
Definition hub : HubDb := mk_hub (mk_conv_db (after (OpCreateProject "proj" "alice" None None false) empty_db) [] [] []) [].

Lemma hub_recordable : recordable noon context event_id hub.
Proof. split; vm_compute; reflexivity. Qed.

Lemma resolved_project_granted_witness :
  ∃ s', _resolve_project noon context event_id (Some "alice") (Some "proj") "writer" hub = (Ok "proj", s') ∧
  (project_has_role "proj" (Some "alice") "writer" (auth_db (conv_db hub))).1 = Ok true.
Proof.
  eexists. split; [vm_compute; reflexivity|].
  edestruct (resolved_project_granted noon context event_id (Some "alice") "proj" "writer" hub "proj")
    as (_ & _ & Hg); [vm_compute; reflexivity|exact Hg].
Defined.

Lemma refused_access_recorded_witness :
  ∃ e, _resolve_project noon context event_id (Some "mallory") (Some "proj") "reader" hub =
    (Raise (PermissionError "project access denied"), mk_hub (conv_db hub) [e]) ∧ ev_actor_id e = Some "mallory".
Proof.
  edestruct (refused_access_recorded noon context event_id (Some "mallory") "proj" "reader" hub "project access denied")
    as (p & v & Hp & Hv & Hs').
  - apply hub_recordable.
  - right. right. left.
  - vm_compute; reflexivity.
  - eexists. split; [vm_compute; reflexivity|]. reflexivity.
Defined.

Lemma audit_listing_witness :
  let s := (_resolve_project noon context event_id (Some "mallory") (Some "proj") "reader" hub).2 in
  ∃ rows, list_audit_events (Some "project.access_denied") None None None None 10 s = (Ok rows, s) ∧ length rows = 1%nat ∧
  ∃ events rest, Forall2 (λ e r, _audit_event_from_row e = Ok r) events rows ∧ Sorted (λ a b, event_order a b = true) (events ++ rest).
Proof.
  intros s. eexists. split; [vm_compute; reflexivity|]. split; [reflexivity|].
  edestruct (audit_listing (Some "project.access_denied") None None None None 10 s)
    as (_ & _ & events & rest & Hf & _ & Hs & _); [vm_compute; reflexivity|].
  exists events, rest. split; [exact Hf|exact Hs].
Defined.
End Audit_samples.
