(* ===== verification/Sensitive.v ===== *)
(** * Detection of secrets and personal data ([memory/ingestion/mvp_ingestion.py])

    The patterns, the texts of a payload that are scanned, the findings and the
    checksum of payment cards. *)
From Stdlib Require Import ZArith Lia Ascii.
From S2P Require Import Prelude PyStr Json Hash Regex AuditLog.
Local Open Scope Z_scope.

Definition _MAX_SENSITIVE_FINDINGS : Z := 16.
Definition _SENSITIVE_SCAN_EXCLUDED_KEYS : list string :=
  ["id"; "conversation_id"; "chunk_id"; "conversation_hash"; "created_at"; "embedding_index"; "hash"; "imported_at";
   "imported_session_identity"; "index_chunks"; "message_hashes"; "message_index"; "owner_id";
   "parent_conversation_id"; "project_id"; "related_conversation_ids"; "timestamp"; "updated_at"; "upstream_thread_id"].
(** a quote of either kind, in a character class *)
Definition quotes : string := "['" +:+ char_str dquote +:+ "]".
Definition _SENSITIVE_CONTENT_PATTERNS : list (string * pattern) :=
  [("secret.private_key", re_compile_i "-----BEGIN [A-Z0-9 ]*PRIVATE KEY-----");
   ("secret.openai_api_key", re_compile "\bsk-(?:proj-)?[A-Za-z0-9_-]{16,}\b");
   ("secret.github_token", re_compile "\bgh[pousr]_[A-Za-z0-9_]{20,}\b");
   ("secret.slack_token", re_compile "\bxox[abprs]-[A-Za-z0-9-]{20,}\b");
   ("secret.aws_access_key_id", re_compile "\b(?:AKIA|ASIA)[0-9A-Z]{16}\b");
   ("secret.aws_secret_access_key",
      re_compile_i ("\baws_secret_access_key\s*[:=]\s*" +:+ quotes +:+ "?[A-Za-z0-9/+=]{40}\b"));
   ("secret.bearer_token", re_compile_i "\bBearer\s+[A-Za-z0-9._~+/=-]{20,}\b");
   ("secret.credential_url",
      re_compile_i "\b[A-Za-z][A-Za-z0-9+.-]{2,}://[^/\s:@]+:[^@\s/]{8,}@[^ \t\r\n]+");
   ("secret.named_credential",
      re_compile_i ("\b(?:api[_-]?key|access[_-]?token|refresh[_-]?token|password|secret|token)"
                    +:+ "\s*[:=]\s*" +:+ quotes +:+ "?[A-Za-z0-9][A-Za-z0-9._~+/=-]{15,}\b"));
   ("pii.ssn", re_compile "\b(?!000|666|9\d\d)\d{3}-(?!00)\d{2}-(?!0000)\d{4}\b");
   ("pii.passport_number",
      re_compile_i "\bpassport(?:[_ -]?(?:number|no)|\s*#)?\s*[:=]\s*[A-Z0-9]{6,9}\b")].
Definition _PAYMENT_CARD_RE : pattern := re_compile "(?<![A-Za-z0-9_-])(?:\d[ -]?){13,19}(?![A-Za-z0-9_-])".

(** ** The scanned texts *)

Definition key_separators : pattern := re_compile "[^A-Za-z0-9_-]+".
Definition _safe_sensitive_location_key (key : string) : string :=
  let normalized := strip_by (in_chars "_") (re_sub key_separators "_" (lower (strip key))) in
  let short := stake 48 normalized in
  if String.eqb short "" then "field" else short.
Fixpoint _sensitive_scan_strings (location : string) (v : value) : list (string * string) :=
  match v with
  | VStr s => [(location, s)]
  | VList l =>
      (fix items (index : Z) (l : list value) : list (string * string) :=
         match l with
         | [] => []
         | x :: l' => _sensitive_scan_strings (location +:+ "[" +:+ str_of_Z index +:+ "]") x ++ items (index + 1) l'
         end) 0 l
  | VDict d =>
      (fix fields (d : dict) : list (string * string) :=
         match d with
         | [] => []
         | (key, x) :: d' =>
             let key_name := _safe_sensitive_location_key key in
             (if existsb (String.eqb key_name) _SENSITIVE_SCAN_EXCLUDED_KEYS then []
              else _sensitive_scan_strings (location +:+ "." +:+ key_name) x) ++ fields d'
         end) d
  | _ => []
  end.

(** ** Payment cards *)

Definition digit_of (c : ascii) : Z := ord c - 48.
(** The digits of a text, last first. *)
Definition digits_reversed (s : string) : list Z :=
  rev (map digit_of (List.filter is_decimal (str_list s))).
(** [total] after the loop over the remaining digits *)
Fixpoint luhn_total (double : bool) (total : Z) (reversed : list Z) : Z :=
  match reversed with
  | [] => total
  | d :: rest =>
      let number := if double then (if 9 <? d * 2 then d * 2 - 9 else d * 2) else d in
      luhn_total (negb double) (total + number) rest
  end.
Definition _is_luhn_payment_card (text : string) : bool :=
  let digits := digits_reversed text in
  if negb ((13 <=? Z.of_nat (length digits)) && (Z.of_nat (length digits) <=? 19)) then false else
  if Nat.leb (length (remove_dups digits)) 1 then false else
  luhn_total false 0 digits mod 10 =? 0.

(** ** Findings *)

Record finding := mk_finding { reason_code : string; location : string; match_hash : string }.
Definition finding_dict (f : finding) : dict :=
  [("reason_code", VStr (reason_code f)); ("location", VStr (location f)); ("match_hash", VStr (match_hash f))].
#[export] Instance finding_eq_dec : EqDecision finding.
Proof. solve_decision. Defined.

(** The matches of a text in the order of the scan. *)
Definition pattern_matches (value : string) (entry : string * pattern) : list (string * string) :=
  map (λ m, (entry.1, group0 value m)) (re_finditer entry.2 value).
Definition card_matches (value : string) : list (string * string) :=
  map (λ t, ("pii.payment_card", t))
    (List.filter _is_luhn_payment_card (map (group0 value) (re_finditer _PAYMENT_CARD_RE value))).
Definition sensitive_matches (value : string) : list (string * string) :=
  flat_map (pattern_matches value) _SENSITIVE_CONTENT_PATTERNS ++ card_matches value.

Section findings.
Context `{HashLib}.

(** [seen] holds the keys of the findings: the finding itself is its key. *)
Definition _append_sensitive_finding (findings : list finding) (reason_code location match_text : string) : list finding :=
  let f := mk_finding reason_code location (_audit_hash match_text) in
  if bool_decide (f ∈ findings) then findings else findings ++ [f].
Fixpoint extend_with (location : string) (candidates : list (string * string)) (findings : list finding) : list finding :=
  match candidates with
  | [] => findings
  | (reason, text) :: rest =>
      let findings := _append_sensitive_finding findings reason location text in
      if _MAX_SENSITIVE_FINDINGS <=? Z.of_nat (length findings) then findings
      else extend_with location rest findings
  end.
Definition _extend_sensitive_findings (findings : list finding) (location value : string) : list finding :=
  extend_with location (sensitive_matches value) findings.
Fixpoint scan_all (texts : list (string * string)) (findings : list finding) : list finding :=
  match texts with
  | [] => findings
  | (location, value) :: rest =>
      let findings := _extend_sensitive_findings findings location value in
      if _MAX_SENSITIVE_FINDINGS <=? Z.of_nat (length findings) then findings else scan_all rest findings
  end.
Definition sensitive_content_approved (conversation_json : dict) : bool :=
  match vget "metadata" conversation_json with
  | VDict metadata => match vget "sensitive_content_approved" metadata with VBool b => b | _ => false end
  | _ => false
  end.
Definition _detect_sensitive_content (conversation_json : dict) : list finding :=
  if sensitive_content_approved conversation_json then []
  else scan_all (_sensitive_scan_strings "conversation" (VDict conversation_json)) [].
End findings.
