(* ===== verification/SensitiveFacts.v ===== *)
(** * Guarantees of the detection of sensitive content

    A payload that is not approved has findings exactly when one of its scanned
    texts contains a match, every finding describes a match, and the checksum of
    payment cards detects every wrong digit. *)
From Stdlib Require Import ZArith Lia Ascii.
From S2P Require Import Prelude PyStr Json Hash Clock Scope Threads Normalize IngestFacts Regex RegexFacts AuditLog Sensitive Samples.
Local Open Scope Z_scope.

(** ** The shortest match of an expression *)

Fixpoint shortest (r : regex) : nat :=
  match r with
  | RCls _ _ => 1
  | RSeq a b => shortest a + shortest b
  | RAlt a b => Nat.min (shortest a) (shortest b)
  | RRep _ least _ a => least * shortest a
  | RGroup _ a => shortest a
  | _ => 0
  end%nat.
Lemma iterates_shortest R n : (∀ s e, R s e → pos s + n ≤ pos e)%nat →
  ∀ least most s e, iterates R least most s e → (pos s + least * n ≤ pos e)%nat.
Proof.
  intros HR least most s e. induction 1 as [|? ? ? ? HR1|least most s s' e Hm Hs _ _ IH]; [lia|apply HR in HR1; lia|].
  apply HR in Hs. destruct least; cbn in *; lia.
Qed.
Lemma denotes_shortest ic r : ∀ s e, denotes ic r s e → (pos s + shortest r ≤ pos e)%nat.
Proof.
  induction r; cbn [denotes shortest]; intros s e H.
  - subst. lia.
  - destruct H as (c & rest & Ha & _ & ->). unfold pos; cbn. lia.
  - destruct H as (m & H1%IHr1 & H2%IHr2). lia.
  - destruct H as [H%IHr1|H%IHr2]; lia.
  - by eapply iterates_shortest.
  - destruct H as (m & H%IHr & ->). unfold pos in *; cbn. lia.
  - destruct H as [-> _]; lia.
  - destruct H as [-> _]; lia.
  - destruct H as [-> _]; lia.
  - destruct H as [-> _]; lia.
  - destruct H as [-> _]; lia.
Qed.
Lemma occurs_shortest p s i j : occurs p s i j → (i + shortest (p_regex p) ≤ j)%nat.
Proof.
  intros (Hi & e & He & <-). apply denotes_shortest in He. unfold pos in He at 1. cbn in He.
  rewrite length_rev, length_take, str_list_length in He. lia.
Qed.
Lemma finditer_nil p s : (0 < shortest (p_regex p))%nat → re_finditer p s = [] ↔ ∀ i j, ¬ occurs p s i j.
Proof.
  intros Hp. split.
  - intros E i j Ho. pose proof (occurs_shortest _ _ _ _ Ho) as Hij.
    destruct (finditer_complete p s i j ltac:(lia) Ho) as (m & Hm & _). rewrite E in Hm. by apply elem_of_nil in Hm.
  - intros H. destruct (re_finditer p s) as [|m l] eqn:E; [done|]. exfalso.
    apply (H (m_start m) (m_end m)), finditer_occurs. rewrite E. by left.
Qed.
Lemma patterns_consume reason p : (reason, p) ∈ _SENSITIVE_CONTENT_PATTERNS → (0 < shortest (p_regex p))%nat.
Proof.
  assert (H : Forall (λ e : string * pattern, 0 < shortest (p_regex e.2))%nat _SENSITIVE_CONTENT_PATTERNS)
    by (repeat constructor).
  rewrite Forall_forall in H. apply H.
Qed.

(** ** Findings *)

(** A text holds sensitive content: a match of a pattern, or a payment card
    among the leftmost digit groups. *)
Definition is_sensitive (s : string) : Prop :=
  (∃ reason p i j, (reason, p) ∈ _SENSITIVE_CONTENT_PATTERNS ∧ occurs p s i j) ∨
  ∃ m, m ∈ re_finditer _PAYMENT_CARD_RE s ∧ _is_luhn_payment_card (group0 s m) = true.

Lemma or_iffs (P Q R S : Prop) : (P ↔ Q) → (R ↔ S) → P ∨ R ↔ Q ∨ S.
Proof. tauto. Qed.
Lemma all_nil_or {A B} (f : A → list B) (l : list A) : (∀ x, x ∈ l → f x = []) ∨ ∃ x, x ∈ l ∧ f x ≠ [].
Proof.
  induction l as [|x l [IH|(y & Hy & Hf)]]; [left; by intros x ?%elem_of_nil| |right; exists y; split; [by right|done]].
  destruct (f x) eqn:E; [left|right; exists x; split; [by left|congruence]].
  intros y [->|Hy]%elem_of_cons; auto.
Qed.
(** The candidates of a text and where they come from. *)
Lemma sensitive_matches_spec s reason text : (reason, text) ∈ sensitive_matches s ↔
  (∃ p m, (reason, p) ∈ _SENSITIVE_CONTENT_PATTERNS ∧ m ∈ re_finditer p s ∧ text = group0 s m) ∨
  (reason = "pii.payment_card" ∧ ∃ m, m ∈ re_finditer _PAYMENT_CARD_RE s ∧ text = group0 s m ∧
   _is_luhn_payment_card text = true).
Proof.
  unfold sensitive_matches, card_matches, pattern_matches. rewrite elem_of_app, elem_of_flat_map, elem_of_map.
  apply or_iffs; split.
  - intros ([r p] & Hp & Hin). apply elem_of_map in Hin as (m & Hm & [= -> ->]). by exists p, m.
  - intros (p & m & Hp & Hm & ->). exists (reason, p). split; [done|]. apply elem_of_map. by exists m.
  - intros (t & Ht & [= -> ->]). split; [done|]. apply elem_of_filter_b in Ht as [Ht Hl].
    apply elem_of_map in Ht as (m & Hm & ->). by exists m.
  - intros (-> & m & Hm & -> & Hl). exists (group0 s m). split; [|done]. apply elem_of_filter_b. split; [|done].
    apply elem_of_map. by exists m.
Qed.
Lemma sensitive_matches_nil s : sensitive_matches s = [] ↔ ¬ is_sensitive s.
Proof.
  split.
  - intros E [(reason & p & i & j & Hp & Ho)|(m & Hm & Hl)].
    + destruct (re_finditer p s) as [|m l] eqn:Em.
      { by apply (proj1 (finditer_nil p s (patterns_consume _ _ Hp)) Em i j). }
      assert (H : (reason, group0 s m) ∈ sensitive_matches s).
      { apply sensitive_matches_spec. left. exists p, m. rewrite Em. split_and!; [done|by left|done]. }
      rewrite E in H. by apply elem_of_nil in H.
    + assert (H : ("pii.payment_card", group0 s m) ∈ sensitive_matches s).
      { apply sensitive_matches_spec. right. split; [done|]. by exists m. }
      rewrite E in H. by apply elem_of_nil in H.
  - intros Hn. destruct (sensitive_matches s) as [|[reason text] l] eqn:E; [done|]. exfalso. apply Hn.
    assert (H : (reason, text) ∈ sensitive_matches s) by (rewrite E; by left).
    apply sensitive_matches_spec in H as [(p & m & Hp & Hm & _)|(_ & m & Hm & -> & Hl)].
    + left. exists reason, p, (m_start m), (m_end m). split; [done|]. by apply finditer_occurs.
    + right. by exists m.
Qed.

Section facts.
Context `{HashLib}.
Implicit Types (fs : list finding).

Lemma append_finding_elem fs r l t f : f ∈ _append_sensitive_finding fs r l t ↔
  f ∈ fs ∨ f = mk_finding r l (_audit_hash t).
Proof.
  unfold _append_sensitive_finding. cbv zeta. case_bool_decide; [|rewrite elem_of_app, list_elem_of_singleton]; naive_solver.
Qed.
Lemma append_finding_length fs r l t :
  Z.of_nat (length (_append_sensitive_finding fs r l t)) ≤ Z.of_nat (length fs) + 1.
Proof. unfold _append_sensitive_finding. cbv zeta. case_bool_decide; rewrite ?length_app; cbn; lia. Qed.
Lemma append_finding_NoDup fs r l t : NoDup fs → NoDup (_append_sensitive_finding fs r l t).
Proof.
  unfold _append_sensitive_finding. cbv zeta. case_bool_decide; [done|]. intros Hn. apply NoDup_app.
  split; [done|]. split; [|apply NoDup_singleton]. by intros x Hx ->%list_elem_of_singleton.
Qed.

(** What one text adds to the findings. *)
Record adds (location : string) (candidates : list (string * string)) (fs fs' : list finding) : Prop := mk_adds {
  add_sound : ∀ f, f ∈ fs' → f ∈ fs ∨ ∃ reason text, (reason, text) ∈ candidates ∧ f = mk_finding reason location (_audit_hash text);
  add_keeps : ∀ f, f ∈ fs → f ∈ fs';
  add_some : candidates ≠ [] → fs' ≠ [];
  add_bound : Z.of_nat (length fs) < _MAX_SENSITIVE_FINDINGS → Z.of_nat (length fs') ≤ _MAX_SENSITIVE_FINDINGS;
  add_nodup : NoDup fs → NoDup fs' }.
Lemma extend_with_spec location candidates : ∀ fs, adds location candidates fs (extend_with location candidates fs).
Proof.
  induction candidates as [|[reason text] rest IH]; intros fs; cbn [extend_with].
  { split; [by left|done|done|lia|done]. }
  pose proof (append_finding_elem fs reason location text) as He.
  pose proof (append_finding_length fs reason location text) as Hl.
  pose proof (append_finding_NoDup fs reason location text) as Hn.
  set (fs1 := _append_sensitive_finding fs reason location text) in *.
  assert (Hsome : fs1 ≠ []).
  { intros E. assert (Hin : mk_finding reason location (_audit_hash text) ∈ fs1) by (apply He; by right).
    rewrite E in Hin. by apply elem_of_nil in Hin. }
  destruct (_MAX_SENSITIVE_FINDINGS <=? Z.of_nat (length fs1)) eqn:Em.
  - split; [|intros; apply He; by left|done|lia|done].
    intros f [?| ->]%He; [by left|right]. exists reason, text. split; [by left|done].
  - apply Z.leb_gt in Em. destruct (IH fs1) as [S K _ B N]. split.
    + intros f [Hf|(r & t & Ht & ->)]%S; [|right; exists r, t; split; [by right|done]].
      apply He in Hf as [?| ->]; [by left|right]. exists reason, text. split; [by left|done].
    + intros f Hf. apply K, He. by left.
    + intros _ E. apply Hsome. destruct fs1 as [|f l]; [done|].
      assert (Hin : f ∈ extend_with location rest (f :: l)) by (apply K; by left). rewrite E in Hin. by apply elem_of_nil in Hin.
    + intros _. by apply B.
    + auto.
Qed.

Lemma scan_all_spec texts : ∀ fs, Z.of_nat (length fs) < _MAX_SENSITIVE_FINDINGS → NoDup fs →
  let fs' := scan_all texts fs in
  (∀ f, f ∈ fs' → f ∈ fs ∨ ∃ location s reason text, (location, s) ∈ texts ∧ (reason, text) ∈ sensitive_matches s ∧
     f = mk_finding reason location (_audit_hash text)) ∧
  (∀ f, f ∈ fs → f ∈ fs') ∧ Z.of_nat (length fs') ≤ _MAX_SENSITIVE_FINDINGS ∧ NoDup fs' ∧
  (fs' = [] ↔ fs = [] ∧ ∀ location s, (location, s) ∈ texts → sensitive_matches s = []).
Proof.
  induction texts as [|[location s] rest IH]; intros fs Hl Hn; cbn [scan_all].
  { cbv zeta. split_and!; [by left|done|lia|done|]. split; [intros ->; split; [done|by intros ? ? ?%elem_of_nil]|by intros [-> _]]. }
  unfold _extend_sensitive_findings. destruct (extend_with_spec location (sensitive_matches s) fs) as [S K M B N].
  set (fs1 := extend_with location (sensitive_matches s) fs) in *.
  specialize (B Hl). specialize (N Hn).
  assert (Hs1 : fs1 = [] ↔ fs = [] ∧ sensitive_matches s = []).
  { split.
    - intros E. split.
      + destruct fs as [|f l]; [done|]. specialize (K f ltac:(by left)). rewrite E in K. by apply elem_of_nil in K.
      + destruct (sensitive_matches s) eqn:Ec; [done|]. exfalso. by apply M.
    - intros [-> Ec]. unfold fs1. by rewrite Ec. }
  assert (S1 : ∀ f, f ∈ fs1 → f ∈ fs ∨ ∃ location0 s0 reason text, (location0, s0) ∈ (location, s) :: rest ∧
    (reason, text) ∈ sensitive_matches s0 ∧ f = mk_finding reason location0 (_audit_hash text)).
  { intros f [?|(r & t & ? & ->)]%S; [by left|right]. exists location, s, r, t. split_and!; [by left|done|done]. }
  destruct (_MAX_SENSITIVE_FINDINGS <=? Z.of_nat (length fs1)) eqn:Em.
  - cbv zeta. split_and!; [done|done|lia|done|]. split.
    + intros E. apply Z.leb_le in Em. rewrite E in Em. cbn in Em. unfold _MAX_SENSITIVE_FINDINGS in Em. lia.
    + intros [-> Hall]. apply Hs1. split; [done|]. apply (Hall location). by left.
  - apply Z.leb_gt in Em. destruct (IH fs1 Em N) as (S2 & K2 & B2 & N2 & E2). cbv zeta.
    split_and!; [|auto|done|done|].
    + intros f [Hf|(l0 & s0 & r & t & ? & ? & ->)]%S2; [by apply S1|right].
      exists l0, s0, r, t. split_and!; [by right|done|done].
    + rewrite E2, Hs1. split.
      * intros [[-> H1] H2]. split; [done|]. intros l0 s0 [[= -> ->]|Hin]%elem_of_cons; [done|by eapply H2].
      * intros [-> Hall]. split; [split; [done|apply (Hall location); by left]|]. intros l0 s0 Hin. apply (Hall l0). by right.
Qed.

(** The texts of a payload that are scanned, with their locations. *)
Definition scanned (c : dict) : list (string * string) := _sensitive_scan_strings "conversation" (VDict c).

(** A payload has findings exactly when it is not marked as approved and one
    of its scanned texts contains sensitive content: no match is missed. *)
Theorem sensitive_content_detected c :
  _detect_sensitive_content c ≠ [] ↔
  sensitive_content_approved c = false ∧ ∃ location s, (location, s) ∈ scanned c ∧ is_sensitive s.
Proof.
  unfold _detect_sensitive_content. fold (scanned c). destruct (sensitive_content_approved c); [naive_solver|].
  destruct (scan_all_spec (scanned c) [] ltac:(done) ltac:(constructor)) as (S & _ & _ & _ & E). split.
  - intros Hf. split; [done|]. destruct (scan_all (scanned c) []) as [|f l]; [done|].
    destruct (S f ltac:(by left)) as [?%elem_of_nil|(location & s & r & t & Hin & Ht & _)]; [done|].
    exists location, s. split; [done|]. destruct (decide (sensitive_matches s = [])) as [En|En].
    { rewrite En in Ht. by apply elem_of_nil in Ht. }
    clear -Ht. apply sensitive_matches_spec in Ht as [(p & m & Hp & Hm & _)|(_ & m & Hm & -> & Hl)]; [left|right; by exists m].
    exists r, p, (m_start m), (m_end m). split; [done|]. by apply finditer_occurs.
  - intros [_ (location & s & Hin & Hs)] En. apply E in En as [_ En]. apply (En location s) in Hin.
    by apply sensitive_matches_nil in Hin.
Qed.

(** The findings of a payload are distinct, at most sixteen, and each one is
    the hash of a text that matches the pattern, or is the payment card, its
    reason names, at the location of a scanned text that contains it. *)
Theorem findings_sound c :
  Z.of_nat (length (_detect_sensitive_content c)) ≤ 16 ∧ NoDup (_detect_sensitive_content c) ∧
  ∀ f, f ∈ _detect_sensitive_content c → ∃ s i j, (location f, s) ∈ scanned c ∧
    match_hash f = _audit_hash (slice i j s) ∧
    ((∃ p, (reason_code f, p) ∈ _SENSITIVE_CONTENT_PATTERNS ∧ occurs p s i j) ∨
     (reason_code f = "pii.payment_card" ∧ occurs _PAYMENT_CARD_RE s i j ∧ _is_luhn_payment_card (slice i j s) = true)).
Proof.
  unfold _detect_sensitive_content. fold (scanned c). destruct (sensitive_content_approved c).
  { split_and!; [done|constructor|by intros f ?%elem_of_nil]. }
  destruct (scan_all_spec (scanned c) [] ltac:(done) ltac:(constructor)) as (S & _ & B & N & _).
  split_and!; [exact B|done|]. intros f Hf. destruct (S f Hf) as [?%elem_of_nil|(location & s & r & t & Hin & Ht & ->)]; [done|].
  apply sensitive_matches_spec in Ht as [(p & m & Hp & Hm & ->)|(-> & m & Hm & -> & Hl)];
    exists s, (m_start m), (m_end m); (split; [done|]; split; [done|]).
  - left. exists p. split; [done|]. by apply finditer_occurs.
  - right. split; [done|]. split; [by apply finditer_occurs|done].
Qed.
End facts.

(** ** The checksum of payment cards *)

Lemma luhn_total_acc double total l : luhn_total double total l = total + luhn_total double 0 l.
Proof.
  revert double total. induction l as [|d l IH]; intros double total; cbn; [lia|].
  rewrite IH, (IH _ (0 + _)). lia.
Qed.
Definition weight (double : bool) (d : Z) : Z := if double then (if 9 <? d * 2 then d * 2 - 9 else d * 2) else d.
(** The sum after [n] further digits: the doubling alternates. *)
Definition doubled (double : bool) (n : nat) : bool := xorb double (Nat.odd n).
Lemma luhn_total_app double a b :
  luhn_total double 0 (a ++ b) = luhn_total double 0 a + luhn_total (doubled double (length a)) 0 b.
Proof.
  revert double. induction a as [|d a IH]; intros double; cbn [app luhn_total length].
  - unfold doubled. cbn. by rewrite xorb_false_r.
  - rewrite luhn_total_acc, IH, (luhn_total_acc (negb double) (0 + _) a). unfold doubled. rewrite Nat.odd_succ, <-Nat.negb_odd.
    replace (xorb (negb double) (Nat.odd (length a))) with (xorb double (negb (Nat.odd (length a))))
      by (by destruct double, (Nat.odd (length a))). lia.
Qed.
Lemma weight_inj double d e : 0 ≤ d ≤ 9 → 0 ≤ e ≤ 9 → weight double d mod 10 = weight double e mod 10 → d = e.
Proof.
  intros Hd He. assert (d = 0 ∨ d = 1 ∨ d = 2 ∨ d = 3 ∨ d = 4 ∨ d = 5 ∨ d = 6 ∨ d = 7 ∨ d = 8 ∨ d = 9) as Hd' by lia.
  assert (e = 0 ∨ e = 1 ∨ e = 2 ∨ e = 3 ∨ e = 4 ∨ e = 5 ∨ e = 6 ∨ e = 7 ∨ e = 8 ∨ e = 9) as He' by lia.
  destruct_or! Hd'; destruct_or! He'; subst; destruct double; vm_compute; congruence.
Qed.
Lemma digits_reversed_range s d : d ∈ digits_reversed s → 0 ≤ d ≤ 9.
Proof.
  unfold digits_reversed. rewrite list_elem_of_In, <-in_rev, <-list_elem_of_In, elem_of_map. intros (c & Hc & ->).
  apply elem_of_filter_b in Hc as [_ Hc]. unfold is_decimal, char_in in Hc. unfold digit_of. lia.
Qed.

(** The checksum detects every single wrong digit: of two texts whose digits
    differ in one place only, at most one is taken for a payment card. *)
Theorem luhn_detects_wrong_digit s t a b x y :
  digits_reversed s = a ++ x :: b → digits_reversed t = a ++ y :: b → x ≠ y →
  _is_luhn_payment_card s = true → _is_luhn_payment_card t = false.
Proof.
  intros Hs Ht Hne Hl. destruct (_is_luhn_payment_card t) eqn:Hl'; [|done]. exfalso. apply Hne.
  assert (Hx : 0 ≤ x ≤ 9) by (apply (digits_reversed_range s); rewrite Hs; set_solver).
  assert (Hy : 0 ≤ y ≤ 9) by (apply (digits_reversed_range t); rewrite Ht; set_solver).
  unfold _is_luhn_payment_card in Hl, Hl'. cbv zeta in Hl, Hl'. rewrite Hs in Hl. rewrite Ht in Hl'.
  destruct (negb _); [done|]. destruct (Nat.leb _ _); [done|].
  destruct (negb _); [done|]. destruct (Nat.leb _ _); [done|].
  apply Z.eqb_eq in Hl, Hl'. rewrite luhn_total_app in Hl. rewrite luhn_total_app in Hl'. cbn [luhn_total] in Hl, Hl'.
  rewrite (luhn_total_acc _ _ b) in Hl. rewrite (luhn_total_acc _ _ b) in Hl'. fold (weight (doubled false (length a)) x) in Hl.
  fold (weight (doubled false (length a)) y) in Hl'.
  apply (weight_inj (doubled false (length a))); [done..|].
  set (A := luhn_total false 0 a) in *. set (B := luhn_total (negb _) 0 b) in *.
  set (X := weight _ x) in *. set (Y := weight _ y) in *.
  assert ((X - Y) mod 10 = 0) as Hd.
  { replace (X - Y) with ((A + (0 + X + B)) - (A + (0 + Y + B))) by lia. rewrite Zminus_mod, Hl, Hl'. done. }
  apply Z.mod_divide in Hd as [k Hk]; [|done]. replace X with (Y + k * 10) by lia. by rewrite Z.mod_add.
Qed.

Lemma luhn_detects_wrong_digit_witness :
  _is_luhn_payment_card "4111 1111 1111 1111" = true ∧ _is_luhn_payment_card "4111 1111 1171 1111" = false.
Proof.
  split; [vm_compute; reflexivity|].
  exact (luhn_detects_wrong_digit "4111 1111 1111 1111" "4111 1111 1171 1111" [1;1;1;1;1] [1;1;1;1;1;1;1;1;1;4] 1 7
    ltac:(vm_compute; reflexivity) ltac:(vm_compute; reflexivity) ltac:(done) ltac:(vm_compute; reflexivity)).
Defined.

(** ** A payload that approves itself *)

Lemma lift_key_meta k k' dm : k ≠ k' → dict_get k' (lift_key k dm).2 = dict_get k' dm.2.
Proof. intros. unfold lift_key. cbn. destruct (_ && _); [by apply dict_get_set_ne|done]. Qed.
Lemma metadata_step_get now m m' k : metadata_step now m = Ok m' → k ∉ ["summary"; "imported_at"; "updated_at"] →
  dict_get k m' = dict_get k m.
Proof.
  unfold metadata_step. cbv zeta. intros Hm Hk. apply bind_Ok in Hm as (m1 & H1 & Hm). apply bind_Ok in Hm as (t & _ & Hm).
  injection Hm as <-. rewrite !dict_get_set_ne by set_solver. rewrite setdefault_other by set_solver.
  set (m0 := match vget "saved_at" m with VStr _ => _ | _ => _ end) in H1.
  assert (dict_get k m0 = dict_get k m) as <-
    by (unfold m0; destruct (vget "saved_at" m); try done; destruct (dict_has _ _); [done|]; apply dict_get_set_ne; set_solver).
  unfold _normalize_metadata_summary in H1. destruct (dict_get "summary" m0) as [[]|]; try done; [|by injection H1 as <-].
  destruct (String.eqb _ _); [injection H1 as <-; apply dict_get_pop_ne; set_solver|].
  destruct (_ <? _); [done|]. injection H1 as <-. apply dict_get_set_ne. set_solver.
Qed.
Lemma coerce_metadata d b p : _coerce_payload (VDict d) b = Ok p → dict_get "metadata" p = dict_get "metadata" d.
Proof.
  unfold _coerce_payload. destruct (_ || _); [|done]. destruct (_ && _); [|by injection 1 as <-].
  destruct (vget "content" d); injection 1 as <-; try done. by rewrite dict_get_pop_ne, dict_get_set_ne.
Qed.
(** The keys of the metadata that normalisation never rewrites. *)
Definition rewritten_keys : list string :=
  ["tags"; THREAD_ID; "summary"; "imported_at"; "updated_at"; "message_hashes"; "conversation_hash"] ++ thread_keys ++ provenance_keys.
Lemma normalized_metadata_kept `{HashLib} now new_id d m source strict n k :
  normalize_conversation_json now new_id (VDict d) source strict = Ok n → dict_get "metadata" d = Some (VDict m) →
  k ∉ rewritten_keys → ∃ m', vget "metadata" n = VDict m' ∧ dict_get k m' = dict_get k m.
Proof.
  unfold normalize_conversation_json, rewritten_keys. intros Hn Hd Hk.
  apply bind_Ok in Hn as (p & Hp & Hn). apply coerce_metadata in Hp. rewrite Hd in Hp.
  apply bind_Ok in Hn as (u & _ & Hn). cbv zeta in Hn.
  apply bind_Ok in Hn as (n1 & _ & Hn). apply bind_Ok in Hn as (n2 & _ & Hn).
  apply bind_Ok in Hn as (m1 & Hm1 & Hn). apply bind_Ok in Hn as (m2 & Hm2 & Hn).
  apply bind_Ok in Hn as (n3 & H3 & Hn). apply bind_Ok in Hn as (n4 & H4 & Hn).
  apply bind_Ok in Hn as (u2 & _ & Hn). injection Hn as <-.
  apply thread_step_get with (m := m2) in H3 as [_ (m3 & Hm3 & Hk3)]; [|unfold vget; by rewrite dict_get_set_eq].
  apply provenance_step_get with (m := m3) in H4 as [_ (m4 & Hm4 & Hk4)]; [|done].
  exists m4. split; [done|]. rewrite Hk4, Hk3 by set_solver.
  unfold hashes_step in Hm2. destruct (vget "messages" n2); try done.
  apply bind_Ok in Hm2 as (hs & _ & Hm2). apply bind_Ok in Hm2 as (o & _ & Hm2). injection Hm2 as <-.
  rewrite !dict_get_set_ne by set_solver. apply metadata_step_get with (k := k) in Hm1; [|set_solver]. rewrite Hm1.
  rewrite !lift_key_meta by set_solver. cbn [snd]. unfold vget. by rewrite Hp.
Qed.

(** A payload whose own metadata says that its sensitive content is approved
    is never scanned: normalisation keeps the flag, and the detector then finds
    nothing, whatever the messages hold. *)
Theorem own_approval_disables_detection `{HashLib} now new_id d m source strict n :
  normalize_conversation_json now new_id (VDict d) source strict = Ok n →
  dict_get "metadata" d = Some (VDict m) → dict_get "sensitive_content_approved" m = Some (VBool true) →
  _detect_sensitive_content n = [].
Proof.
  intros Hn Hd Hm. destruct (normalized_metadata_kept _ _ _ _ _ _ _ "sensitive_content_approved" Hn Hd) as (m' & Hm' & Hk);
    [vm_compute; set_solver|].
  unfold _detect_sensitive_content, sensitive_content_approved. rewrite Hm'. unfold vget. by rewrite Hk, Hm.
Qed.

Module SelfApproved.
Import Sample.
Definition secret_text : string := "key AKIA0123456789ABCDEF".
Definition payload (metadata : dict) : dict :=
  [("messages", VList [VDict [("role", VStr "user"); ("text", VStr secret_text)]]); ("metadata", VDict metadata)].
Definition normalized (metadata : dict) : result dict :=
  normalize_conversation_json noon "11111111111141118111111111111111" (VDict (payload metadata)) (Some "chat") false.
Lemma own_approval_disables_detection_witness :
  (∃ n, normalized [] = Ok n ∧ length (_detect_sensitive_content n) = 1%nat) ∧
  (∃ n, normalized [("sensitive_content_approved", VBool true)] = Ok n ∧ _detect_sensitive_content n = []).
Proof.
  split; [eexists; split; [vm_compute; reflexivity|vm_compute; reflexivity]|].
  destruct (normalized [("sensitive_content_approved", VBool true)]) as [n|e] eqn:E;
    [|apply (f_equal (λ r, match r with Ok _ => true | Raise _ => false end)) in E; vm_compute in E; discriminate].
  exists n. split; [reflexivity|].
  exact (own_approval_disables_detection noon "11111111111141118111111111111111" _ _ (Some "chat") false n E eq_refl eq_refl).
Defined.
End SelfApproved.
