(* ===== verification/FactValidation.v ===== *)
(** * Validation and normal form of facts ([memory/ingestion/fact_validation.py],
    [memory/ingestion/mvp_ingestion.py])

    The classes of an assertion with their patterns, the bounds on what an
    external extractor may return, the calibrated confidence and the decision
    whether a candidate is kept; spelling, dates and names in the object of a
    fact, the quality of its source and the reason for its confidence. *)
From Stdlib Require Import ZArith Lia Ascii.
From S2P Require Import Prelude PyStr Json Clock Regex Scope.
Local Open Scope Z_scope.

(** * Validation of fact candidates *)

Inductive AssertionType := ASSERTED | NEGATED | HYPOTHETICAL | QUOTED | UNCERTAIN | TEMPORARY.
#[export] Instance AssertionType_eq_dec : EqDecision AssertionType.
Proof. solve_decision. Defined.
Definition assertion_value (a : AssertionType) : string :=
  match a with
  | ASSERTED => "asserted" | NEGATED => "negated" | HYPOTHETICAL => "hypothetical"
  | QUOTED => "quoted" | UNCERTAIN => "uncertain" | TEMPORARY => "temporary"
  end.
Inductive TemporalScope := SCOPE_ONGOING | SCOPE_TEMPORARY.
Definition scope_value (s : TemporalScope) : string :=
  match s with SCOPE_ONGOING => "ongoing" | SCOPE_TEMPORARY => "temporary" end.
Inductive ValidationStatus := LEGACY | VALIDATED.
Definition status_value (s : ValidationStatus) : string :=
  match s with LEGACY => "legacy" | VALIDATED => "validated" end.

(** ** Bounded models *)

(** An [int] field: pydantic also converts some numeric texts, floats and
    booleans, which are left out. *)
Definition int_field (v : value) : result (option Z) :=
  match v with
  | VInt z => Ok (Some z)
  | VNone | VList _ | VDict _ => Ok None
  | _ => Raise OutsideModel
  end.
Definition only_keys (allowed : list string) (d : dict) : bool :=
  forallb (λ k, existsb (String.eqb k) allowed) (dict_keys d).

Record EvidenceSpan := mk_span { message_index : Z; start : Z; end_ : Z }.
Definition validate_bounds (e : EvidenceSpan) : option EvidenceSpan :=
  if end_ e <=? start e then None else Some e.
(** [EvidenceSpan.model_validate(v)], [None] for a [ValueError] *)
Definition evidence_span (v : value) : result (option EvidenceSpan) :=
  match v with
  | VDict d =>
      if negb (only_keys ["message_index"; "start"; "end"] d) then Ok None else
      m ← int_field (vget "message_index" d);
      s ← int_field (vget "start" d);
      e ← int_field (vget "end" d);
      Ok (m ← m; s ← s; e ← e;
          if (0 <=? m) && (0 <=? s) && (0 <? e) then validate_bounds (mk_span m s e) else None)
  | _ => Ok None
  end.
Definition span_dict (message_index start end_ : Z) : dict :=
  [("message_index", VInt message_index); ("start", VInt start); ("end", VInt end_)].

Record ExternalFactCandidate := mk_candidate {
  x_subject : string; x_predicate : string; x_object : string; x_qualifiers : dict;
  x_source_message_indexes : list Z; x_evidence_span : EvidenceSpan;
  x_extractor_name : string; x_extractor_version : string; x_rule_identifier : string;
}.
(** A text field with its length bounds, stripped. *)
Definition strip_text (max_length : Z) (v : value) : option string :=
  match v with
  | VStr s =>
      if (1 <=? str_len s) && (str_len s <=? max_length) && negb (String.eqb (strip s) "") then Some (strip s) else None
  | _ => None
  end.
Definition unique_indexes (values : list Z) : option (list Z) :=
  if existsb (λ i, i <? 0) values then None
  else Some (rev (foldl (λ seen i, if existsb (Z.eqb i) seen then seen else i :: seen) [] values)).
Definition indexes_field (v : value) : result (option (list Z)) :=
  match v with
  | VList l =>
      if negb ((1 <=? Z.of_nat (length l)) && (Z.of_nat (length l) <=? 16)) then Ok None else
      zs ← map_result int_field l;
      Ok (zs ← mapM id zs; unique_indexes zs)
  | _ => Ok None
  end.
Definition bound_qualifiers (v : value) : option dict :=
  match v with
  | VDict d =>
      if (32 <? Z.of_nat (length d)) || (4096 <? utf8_len (json_dumps (VDict d))) then None else Some d
  | _ => None
  end.
Definition candidate_keys : list string :=
  ["subject"; "predicate"; "object"; "qualifiers"; "source_message_indexes"; "evidence_span";
   "extractor_name"; "extractor_version"; "rule_identifier"].
(** [ExternalFactCandidate.model_validate(raw)], [None] for a [ValueError] *)
Definition external_fact_candidate (raw : value) : result (option ExternalFactCandidate) :=
  match raw with
  | VDict d =>
      if negb (only_keys candidate_keys d) then Ok None else
      indexes ← indexes_field (vget "source_message_indexes" d);
      span ← evidence_span (vget "evidence_span" d);
      Ok (subject ← strip_text 160 (vget "subject" d);
          predicate ← strip_text 120 (vget "predicate" d);
          object ← strip_text 500 (vget "object" d);
          qualifiers ← bound_qualifiers (vget_or "qualifiers" (VDict []) d);
          indexes ← indexes; span ← span;
          name ← strip_text 80 (vget_or "extractor_name" (VStr "external") d);
          version ← strip_text 40 (vget_or "extractor_version" (VStr "unspecified") d);
          rule ← strip_text 120 (vget_or "rule_identifier" (VStr "external") d);
          if existsb (Z.eqb (message_index span)) indexes
          then Some (mk_candidate subject predicate object qualifiers indexes span name version rule) else None)
  | _ => Ok None
  end.

(** ** The class of an assertion *)

Definition _NEGATED_RE : pattern := re_compile_i
  "\b(?:do(?:es)?\s+not|don[']t|doesn[']t|didn[']t|never|no\s+longer|is\s+not|isn[']t|am\s+not|not)\b".
Definition _HYPOTHETICAL_RE : pattern := re_compile_i
  "\b(?:if|hypothetically|suppose|assuming|would|could|might|may\s+(?:be|have|own|prefer|like|use))\b".
Definition _UNCERTAIN_RE : pattern := re_compile_i
  "\b(?:maybe|perhaps|probably|possibly|I\s+(?:think|guess|suspect)|not\s+sure|unsure)\b".
Definition _TEMPORARY_RE : pattern := re_compile_i
  "\b(?:for\s+now|temporarily|temporary|today|this\s+(?:week|month)|until\b[^.?!\n]{0,80})".
Definition _CLAUSE_MODIFIER_START : string :=
  "(?:do(?:es)?\s+not|don[']t|doesn[']t|didn[']t|never|no\s+longer|" +:+
  "is\s+not|isn[']t|am\s+not|not|if|hypothetically|suppose|assuming|" +:+
  "would|could|might|may|maybe|perhaps|probably|possibly|for\s+now|temporarily)".
Definition _PRONOUN_CLAUSE_START : string :=
  "(?:i|we|you|he|she|they|it)\s+" +:+
  "(?:am|are|is|was|were|do|does|did|have|has|had|can|will|shall|" +:+
  "like|likes|liked|prefer|prefers|preferred|own|owns|owned|" +:+
  "use|uses|used|want|wants|wanted|need|needs|needed)".
Definition _NOUN_CLAUSE_START : string :=
  "(?:(?:the\s+)?(?:[a-z][\w'\-]*\s+){1,4}" +:+ "(?:is|are|was|were|has|have|had|does|do))".
Definition _LEADING_MODIFIER_ONLY_RE : pattern := re_compile_i
  ("(?:for\s+now|temporarily|temporary|today|this\s+(?:week|month)|" +:+
   "maybe|perhaps|probably|possibly|hypothetically|suppose|assuming|if\b[^,]*)").
Definition _CLAUSE_BOUNDARY_RE : pattern := re_compile_i
  ("[.?!;\n]+" +:+
   "|,?\s*\b(?:but|yet|while|although)\b\s*" +:+
   "|,\s*\bso\b\s*" +:+
   "|,\s*(?=(?:(?:and|or)\s+)?(?:" +:+ _CLAUSE_MODIFIER_START +:+ "|" +:+ _PRONOUN_CLAUSE_START +:+ "|" +:+
     _NOUN_CLAUSE_START +:+ ")\b)" +:+
   "|\s+\b(?:and|or)\b\s+(?=(?:" +:+ _CLAUSE_MODIFIER_START +:+ "|" +:+ _PRONOUN_CLAUSE_START +:+ ")\b)").

Fixpoint boundaries_from (text : string) (previous_end : nat) (matches : list re_match) : list re_match :=
  match matches with
  | [] => []
  | m :: rest =>
      let segment := strip (slice previous_end (m_start m) text) in
      if String.eqb (strip (group0 text m)) "," && bool_decide (re_fullmatch _LEADING_MODIFIER_ONLY_RE segment ≠ None)
      then boundaries_from text previous_end rest
      else m :: boundaries_from text (m_end m) rest
  end.
Definition _clause_boundaries (text : string) : list re_match :=
  boundaries_from text 0 (re_finditer _CLAUSE_BOUNDARY_RE text).

(** The opening and closing typographic quotes are not among the characters. *)
Definition _inside_quotes (clause : string) (position : nat) : bool :=
  Nat.odd (length (List.filter (Ascii.eqb dquote) (str_list (stake position clause)))).
Definition clause_start (boundaries : list re_match) (start : nat) : nat :=
  foldr Nat.max 0%nat (List.filter (λ e, Nat.leb e start) (map m_end boundaries)).
Definition clause_end (boundaries : list re_match) (end_ len : nat) : nat :=
  match List.filter (λ s, Nat.leb end_ s) (map m_start boundaries) with
  | [] => len
  | s :: rest => foldr Nat.min s rest
  end.
Definition searched (p : pattern) (s : string) : bool :=
  match re_search p s with Some _ => true | None => false end.
Definition classify_assertion (text : string) (span : nat * nat) : AssertionType :=
  let boundaries := _clause_boundaries text in
  let cs := clause_start boundaries span.1 in
  let ce := clause_end boundaries span.2 (String.length text) in
  let clause := slice cs ce text in
  if _inside_quotes clause (span.1 - cs) then QUOTED
  else if searched _NEGATED_RE clause then NEGATED
  else if searched _HYPOTHETICAL_RE clause then HYPOTHETICAL
  else if searched _UNCERTAIN_RE clause then UNCERTAIN
  else if searched _TEMPORARY_RE clause then TEMPORARY
  else ASSERTED.

(** ** Validation *)

Definition calibrate_confidence (assertion : AssertionType) (source_role source_quality : string)
    (client_auto_save : bool) : string * string * string :=
  if bool_decide (assertion = QUOTED) then ("0.3", "low", "Quoted evidence is retained as non-authoritative context.") else
  if bool_decide (assertion = UNCERTAIN) then ("0.4", "low", "The source statement expresses uncertainty.") else
  if String.eqb source_quality "inferred_from_conversation"
  then ("0.55", "medium", "Inferred from recurring conversation topics.") else
  if String.eqb source_role "assistant"
  then ("0.5", "medium", "Assistant-derived evidence requires user corroboration.") else
  if bool_decide (assertion = TEMPORARY) then ("0.6", "medium", "The source statement is explicitly temporary.") else
  if String.eqb source_quality "corrected_by_user" then ("0.98", "high", "Extracted from a direct user correction.") else
  if client_auto_save then ("0.65", "medium", "Extracted from client auto-save memory, so confidence is reduced.") else
  ("0.9", "high", "Extracted from a direct user statement.").

Definition _qualifier_value (qualifiers : dict) (key : string) : option string :=
  match dict_get key qualifiers with
  | None | Some VNone => None
  | Some v => if String.eqb (py_str v) "" then None else Some (py_str v)
  end.
(** [casefold()]; the one letter whose folding leaves the characters is kept. *)
Definition casefold (s : string) : string :=
  sflat (λ c, if ord c =? 223 then "ss" else char_str (lower_char c)) s.
Definition token_re : pattern := re_compile "[A-Za-z0-9][A-Za-z0-9_-]*".
Definition _tokens (v : string) : list string :=
  map casefold (List.filter (λ t, 3 <=? str_len t) (re_findall token_re v)).
(** [z in values], where an integer equals a boolean or a float of its value *)
Definition int_in (z : Z) (values : list value) : bool :=
  existsb (λ v, match v with
    | VInt i => i =? z
    | VBool b => Z.b2z b =? z
    | VFloat t => String.eqb t (str_of_Z z +:+ ".0") || ((z =? 0) && String.eqb t "-0.0")
    | _ => false end) values.
Definition text_of (k : string) (d : dict) : string := py_str (vget_or k (VStr "") d).

(** The texts the evidence must be in: the message of the span, if it is one of
    the given messages. *)
Definition evidence_message (messages : list value) (start_message_index : Z) (e : EvidenceSpan) : result (option dict) :=
  let local_index := message_index e - start_message_index in
  if (local_index <? 0) || (Z.of_nat (length messages) <=? local_index) then Ok None else
  match nth_error messages (Z.to_nat local_index) with
  | Some (VDict m) => Ok (Some m)
  | _ => Raise (AttributeError "get")
  end.
Definition evidence_text (text : string) (e : EvidenceSpan) : string :=
  slice (Z.to_nat (start e)) (Z.to_nat (end_ e)) text.
Definition evidence_supported (candidate extraction : dict) (e : EvidenceSpan) (text source_role : string) : bool :=
  negb ((str_len text <? end_ e) || String.eqb (strip (evidence_text text e)) "")
  && match vget "source_message_indexes" candidate with VList l => int_in (message_index e) l | _ => false end
  && (String.eqb (text_of "source_role" extraction) "" || String.eqb (text_of "source_role" extraction) source_role).
Definition trusted_assertion (extraction : dict) (text : string) (e : EvidenceSpan) : AssertionType :=
  let assertion := classify_assertion text (Z.to_nat (start e), Z.to_nat (end_ e)) in
  match vget "_trusted_correction" extraction with
  | VBool true => if startswith "correction:" (text_of "rule_identifier" extraction) then ASSERTED else assertion
  | _ => assertion
  end.
Definition object_supported (candidate extraction : dict) (text : string) (e : EvidenceSpan) : bool :=
  if String.eqb (py_str (vget "extractor_name" extraction)) "deterministic_rules" then true else
  match _tokens (text_of "object" candidate) with
  | [] => true
  | tokens => existsb (λ t, contains t (casefold (evidence_text text e))) tokens
  end.
Definition validated_fact (candidate qualifiers extraction : dict) (assertion : AssertionType) (source_role : string) : dict :=
  let scope := match assertion with TEMPORARY => SCOPE_TEMPORARY | _ => SCOPE_ONGOING end in
  let client_auto_save := bool_decide (_qualifier_value qualifiers "save_intent" = Some "client_auto_save") in
  let '(score, label, reason) :=
    calibrate_confidence assertion source_role (text_of "source_quality" candidate) client_auto_save in
  let extraction := dict_update (dict_pop "_trusted_correction" extraction)
    [("assertion_type", VStr (assertion_value assertion)); ("confidence_score", VFloat score);
     ("source_role", VStr source_role); ("temporal_scope", VStr (scope_value scope));
     ("validation_status", VStr (status_value VALIDATED))] in
  let qualifiers := dict_set "extraction" (VDict extraction) qualifiers in
  dict_set "confidence_reason" (VStr reason)
    (dict_set "confidence" (VStr label) (dict_set "qualifiers" (VDict qualifiers) candidate)).

Definition validate_fact_candidate (fact : dict) (messages : list value) (start_message_index : Z) : result (option dict) :=
  match vget "qualifiers" fact with
  | VDict qualifiers =>
      match vget "extraction" qualifiers with
      | VDict extraction =>
          evidence ← evidence_span (vget "evidence_span" extraction);
          match evidence with
          | None => Ok None
          | Some e =>
              message ← evidence_message messages start_message_index e;
              match message with
              | None => Ok None
              | Some m =>
                  let text := text_of "text" m in
                  let source_role := text_of "role" m in
                  if negb (evidence_supported fact extraction e text source_role) then Ok None else
                  let assertion := trusted_assertion extraction text e in
                  if bool_decide (assertion ∈ [NEGATED; HYPOTHETICAL]) then Ok None else
                  if negb (object_supported fact extraction text e) then Ok None else
                  Ok (Some (validated_fact fact qualifiers extraction assertion source_role))
              end
          end
      | _ => Ok None
      end
  | _ => Ok None
  end.

Definition public_extraction_keys : list string :=
  ["assertion_type"; "confidence_score"; "evidence_span"; "extractor_name"; "extractor_version";
   "rule_identifier"; "source_role"; "temporal_scope"; "validation_status"].
(** The fields of a set of keys, in no particular order: a dict is compared by
    its lookups. *)
Definition extraction_public_fields (qualifiers : value) : dict :=
  match qualifiers with
  | VDict q =>
      match vget "extraction" q with
      | VDict extraction =>
          omap (λ k, v ← dict_get k extraction; Some (k, v)) public_extraction_keys
      | _ => [("validation_status", VStr (status_value LEGACY))]
      end
  | _ => [("validation_status", VStr (status_value LEGACY))]
  end.

(** * The normal form and the quality of a fact *)

Definition _COMMON_FACT_SPELLING_CORRECTIONS : list (string * string) :=
  [("aniversary", "anniversary"); ("anniversery", "anniversary")].
Definition _MONTH_NAMES : list (string * string) :=
  [("january", "January"); ("february", "February"); ("march", "March"); ("april", "April"); ("may", "May");
   ("june", "June"); ("july", "July"); ("august", "August"); ("september", "September"); ("october", "October");
   ("november", "November"); ("december", "December")].
Definition _NAME_LIKE_PREDICATES : list string := ["creator"; "profile_name"].

Definition word_pattern (word : string) : pattern :=
  mk_pattern true (default REps (parse_regex ("\b" +:+ word +:+ "\b"))).
Fixpoint corrected_spelling (table : list (string * string)) (normalized : string) : string * list dict :=
  match table with
  | [] => (normalized, [])
  | (misspelled, corrected) :: rest =>
      if searched (word_pattern misspelled) normalized then
        let '(out, corrections) := corrected_spelling rest (re_sub (word_pattern misspelled) corrected normalized) in
        (out, [("raw", VStr misspelled); ("normalized", VStr corrected)] :: corrections)
      else corrected_spelling rest normalized
  end.
Definition _apply_common_spelling_corrections (v : string) : string * list dict :=
  corrected_spelling _COMMON_FACT_SPELLING_CORRECTIONS v.

Definition month_pattern : pattern := re_compile_i
  ("^(?P<month>january|february|march|april|may|june|july|august|september|october|november|december)\s+" +:+
   "(?P<day>\d{1,2})(?:st|nd|rd|th)?(?:,?\s+(?P<year>\d{4}))?$").
Definition iso_pattern : pattern := re_compile "^(?P<year>\d{4})-(?P<month>\d{2})-(?P<day>\d{2})$".
(** [int(s)] of a text of digits *)
Definition int_digits10 (s : string) : Z := default 0 (int_of_str s).
Definition date_dict (raw normalized : string) : dict :=
  [("raw", VStr raw); ("normalized", VStr normalized); ("precision", VStr "day")].
Definition month_date (v : string) (m : re_match) : string :=
  let month := default "" (dict_get (lower (group "month" v m)) _MONTH_NAMES) in
  let day := str_of_Z (int_digits10 (group "day" v m)) in
  match group_opt "year" v m with
  | Some year => month +:+ " " +:+ day +:+ ", " +:+ year
  | None => month +:+ " " +:+ day
  end.
Definition _normalize_fact_date (v : string) : string * option dict :=
  match re_match_start month_pattern v with
  | Some m => (month_date v m, Some (date_dict v (month_date v m)))
  | None =>
      match re_match_start iso_pattern v with
      | Some m =>
          let month_number := int_digits10 (group "month" v m) in
          match (if 1 <=? month_number then nth_error _MONTH_NAMES (Z.to_nat (month_number - 1)) else None) with
          | Some (_, month) =>
              let normalized := month +:+ " " +:+ str_of_Z (int_digits10 (group "day" v m)) +:+ ", " +:+ group "year" v m in
              (normalized, Some (date_dict v normalized))
          | None => (v, None)
          end
      | None => (v, None)
      end
  end.

Definition _is_name_like_fact (predicate : string) : bool := existsb (String.eqb predicate) _NAME_LIKE_PREDICATES.
(** [s.upper()] of a text of at most one character; two letters have capitals
    outside the characters. *)
Definition upper_first (c : ascii) : result string :=
  if ord c =? 223 then Ok "SS" else
  if (ord c =? 181) || (ord c =? 255) then Raise OutsideModel else Ok (char_str (upper_char c)).
Definition title_part (part : string) : result string :=
  match part with
  | EmptyString => Ok ""
  | String c rest => u ← upper_first c; Ok (u +:+ lower rest)
  end.
Definition _title_case_name (v : string) : result string :=
  parts ← map_result title_part (split_ws v); Ok (join " " parts).

Definition with_entry (k : string) (v : option value) (d : dict) : dict :=
  match v with Some v => dict_set k v d | None => d end.
Definition cased_name (predicate normalized : string) : result (string * option value) :=
  if _is_name_like_fact predicate then
    cased ← _title_case_name normalized;
    Ok (if String.eqb cased normalized then (normalized, None)
        else (cased, Some (VDict [("strategy", VStr "title_case_name"); ("raw", VStr normalized); ("normalized", VStr cased)])))
  else Ok (normalized, None).
Definition _normalize_fact_object (predicate object_value : string) : result (string * dict) :=
  let normalized := join " " (split_ws (strip object_value)) in
  let '(normalized, corrections) := _apply_common_spelling_corrections normalized in
  let normalization := match corrections with [] => [] | _ => [("spelling_corrections", VList (map VDict corrections))] end in
  let '(normalized, date_qualifier) := _normalize_fact_date normalized in
  let normalization := with_entry "date" (VDict <$> date_qualifier) normalization in
  '(normalized, casing) ← cased_name predicate normalized;
  let normalization := with_entry "casing" casing normalization in
  Ok (normalized, match normalization with
                  | [] => []
                  | _ => dict_set "object_normalized" (VStr normalized) (dict_set "object_raw" (VStr object_value) normalization)
                  end).
Definition _normalized_fact_object (fact : dict) : result string :=
  '(normalized, _) ← _normalize_fact_object (text_of "predicate" fact) (text_of "object" fact);
  Ok normalized.

(** ** Source quality *)

Definition _fact_qualifier_value (fact : dict) (key : string) : option string :=
  match _qualifier_value fact key with
  | Some direct => Some direct
  | None => match vget "qualifiers" fact with
            | VDict qualifiers => _qualifier_value qualifiers key
            | _ => None
            end
  end.
Definition _fact_save_intent_fields (fact : dict) : dict :=
  omap (λ k, v ← _fact_qualifier_value fact k; Some (k, VStr v)) ["save_intent"; "save_intent_source"].

Definition is_text (s : string) (v : value) : bool := match v with VStr t => String.eqb t s | _ => false end.
(** The assertion type and the source role that the qualifiers state. *)
Definition stated (qualifiers : value) : value * value :=
  match qualifiers with
  | VDict q => match vget "extraction" q with
               | VDict extraction => (vget "assertion_type" extraction, vget "source_role" extraction)
               | _ => (VNone, vget "source_role" q)
               end
  | _ => (VNone, VNone)
  end.
Definition _source_quality_for_fact (fact : dict) : string :=
  let '(assertion_type, source_role) := stated (vget "qualifiers" fact) in
  let corrects := match vget "qualifiers" fact with VDict q => truthy (vget "corrects" q) | _ => false end in
  if corrects && negb (is_text "assistant" source_role) then "corrected_by_user" else
  if is_text "recurring_topic" (vget "predicate" fact) then "inferred_from_conversation" else
  if is_text "quoted" assertion_type then "quoted_statement" else
  if is_text "uncertain" assertion_type then "uncertain_statement" else
  if is_text "assistant" source_role then "assistant_statement" else "direct_user_statement".
Definition _confidence_reason_for_fact (fact : dict) : string :=
  let source_quality :=
    if truthy (vget "source_quality" fact) then py_str (vget "source_quality" fact) else _source_quality_for_fact fact in
  if bool_decide (_fact_qualifier_value fact "save_intent" = Some "client_auto_save")
  then "Extracted from client auto-save memory, so confidence is reduced." else
  if String.eqb source_quality "corrected_by_user" then "Extracted from a direct user correction." else
  if String.eqb source_quality "direct_user_statement" then "Extracted from a direct user statement." else
  if String.eqb source_quality "assistant_statement" then "Extracted from an assistant statement." else
  if String.eqb source_quality "inferred_from_conversation" then "Inferred from recurring conversation topics." else
  "Extracted from stored conversation context.".
