(* ===== verification/FactExtract.v ===== *)
(** * Extraction of facts, topics and tags ([memory/ingestion/mvp_ingestion.py])

    The rules, corrections and topics that make fact candidates out of the texts
    of a conversation, the candidates of an external extractor, and their
    validation; the topics and the automatic tags of a conversation. *)
From Stdlib Require Import ZArith Lia Ascii.
From S2P Require Import Prelude PyStr Json Hash Clock Regex Scope Threads FactValidation.
Local Open Scope Z_scope.

(** * Extraction of facts from messages *)

(** ** Patterns *)

Definition _FACT_CORRECTION_ITEM : string := "(?P<item>[A-Za-z0-9][A-Za-z0-9 _-]{1,80})".
Definition _FACT_CORRECTION_NEW : string := "(?P<new>[^.?!\n,]+?)".
Definition _FACT_CORRECTION_OLD : string := "(?P<old>[^.?!\n]+)".
Definition _FACT_CORRECTION_RE : pattern := re_compile_i
  ("\b(?:(?:actually|no),?\s+|correction:\s+)?my\s+" +:+ _FACT_CORRECTION_ITEM +:+
   "\s+is\s+" +:+ _FACT_CORRECTION_NEW +:+ ",\s+not\s+" +:+ _FACT_CORRECTION_OLD).
Definition _FACT_REPLACES_CORRECTION_RE : pattern := re_compile_i
  ("\bcorrection:\s+" +:+ _FACT_CORRECTION_NEW +:+ "\s+replaces\s+" +:+ _FACT_CORRECTION_OLD +:+
   "\s+for\s+my\s+" +:+ _FACT_CORRECTION_ITEM).

Inductive _FactRuleName :=
| OWN | FAVORITE | LIKES | CREATOR | SUBJECT_CREATOR | COMMAND_NAME | INDEXING_STRATEGY | PROJECT_ATTRIBUTE
| PROJECT_ATTRIBUTE_CHANGE | PROFILE_NAME | PROFILE_IDENTITY | PROFILE_ROLE | PROFILE_LOCATION.
Definition rule_value (r : _FactRuleName) : string :=
  match r with
  | OWN => "own" | FAVORITE => "favorite" | LIKES => "likes" | CREATOR => "creator"
  | SUBJECT_CREATOR => "subject_creator" | COMMAND_NAME => "command_name"
  | INDEXING_STRATEGY => "indexing_strategy" | PROJECT_ATTRIBUTE => "project_attribute"
  | PROJECT_ATTRIBUTE_CHANGE => "project_attribute_change" | PROFILE_NAME => "profile_name"
  | PROFILE_IDENTITY => "profile_identity" | PROFILE_ROLE => "profile_role" | PROFILE_LOCATION => "profile_location"
  end.
Definition _FACT_RULES : list (_FactRuleName * pattern) :=
  [(OWN, re_compile_i "\bI\s+(?:have|own)\s+(?P<object>[^.?!\n]+)");
   (FAVORITE, re_compile_i ("\bMy\s+(?:favorite|preferred)\s+" +:+ "(?P<name>[A-Za-z0-9 _-]+?)\s+is\s+(?P<object>[^.?!\n]+)"));
   (LIKES, re_compile_i "\bI\s+(?:really\s+)?(?:like|enjoy|prefer)\s+(?P<object>[^.?!\n]+)");
   (CREATOR, re_compile_i "\bThe\s+creator\s+is\s+(?P<object>[^.?!\n]+)");
   (SUBJECT_CREATOR, re_compile_i "\b(?P<subject>[A-Z][A-Za-z0-9 _-]{1,80})\s+creator\s+is\s+(?P<object>[^.?!\n]+)");
   (COMMAND_NAME, re_compile_i "\bThe\s+command\s+name\s+is\s+(?P<object>[^.?!\n]+)");
   (INDEXING_STRATEGY, re_compile_i "\bThe\s+indexing\s+strategy\s+is\s+(?P<object>[^.?!\n]+)");
   (PROJECT_ATTRIBUTE, re_compile_i ("\b(?P<subject>[A-Z][A-Za-z0-9 _-]{1,80})\s+is\s+" +:+ "(?P<object>[^.?!\n]+)"));
   (PROJECT_ATTRIBUTE_CHANGE, re_compile_i
      ("\b(?P<subject>[A-Z][A-Za-z0-9 _-]{1,80})\s+" +:+ "(?:changes|changed)\s+to\s+(?P<object>[^.?!\n]+?)" +:+
       "(?:\s+on\s+\d{4}-\d{2}-\d{2})?(?=$|[.?!\n])"));
   (PROFILE_NAME, re_compile_i "\bMy\s+name\s+is\s+(?P<object>[^.?!\n]+)");
   (PROFILE_IDENTITY, re_compile_i "\bI\s+am\s+(?P<object>[^.?!\n]+)");
   (PROFILE_IDENTITY, re_compile_i "\bI'm\s+(?P<object>[^.?!\n]+)");
   (PROFILE_ROLE, re_compile_i "\bI\s+work\s+as\s+(?P<object>[^.?!\n]+)");
   (PROFILE_LOCATION, re_compile_i "\bI\s+live\s+in\s+(?P<object>[^.?!\n]+)")].
Definition _FACT_INLINE_CORRECTION_RE : pattern := re_compile_i ",\s+not\s+[^.?!\n]+".
Definition _NOISY_PROJECT_ATTRIBUTE_SUBJECT_TOKENS : list string :=
  ["favorite"; "favourite"; "preferred"; "question"; "remember"; "remeber"].
Definition _TOPIC_PATTERNS : list (string * pattern) :=
  [("python", re_compile_i "\bpython\b");
   ("javascript", re_compile_i "\b(javascript|js|node\.?js|typescript|ts)\b");
   ("sql", re_compile_i "\b(sql|sqlite|postgres|mysql|database|db)\b");
   ("api", re_compile_i "\b(api|rest|endpoint|http|json-rpc)\b");
   ("mcp", re_compile_i "\b(mcp|model context protocol)\b");
   ("docker", re_compile_i "\b(docker|container|kubernetes|k8s)\b");
   ("testing", re_compile_i "\b(test|tests|pytest|unit test|integration test)\b");
   ("machine-learning", re_compile_i "\b(ai|llm|rag|embedding|vector)\b");
   ("frontend", re_compile_i "\b(frontend|ui|css|html|react|vue|angular)\b");
   ("backend", re_compile_i "\b(backend|fastapi|flask|server)\b")].

(** ** Texts *)

Definition object_ends : ascii → bool := in_chars (" .?!'" +:+ newline +:+ char_str (chr 9) +:+ char_str dquote).
Definition _clean_fact_object (v : string) : string := strip_by object_ends v.
Definition save_request : pattern := re_compile_i ",\s*(?:save|remember|store|record)(?:\s+(?:it|this))?\b".
Definition _clean_profile_name (v : string) : string := strip (re_split_head save_request v).
Definition _query_tokens (q : string) (limit : option nat) : list string :=
  let tokens := map lower (List.filter (λ t, 2 <=? str_len t) (re_findall token_re q)) in
  match limit with Some n => take n tokens | None => tokens end.
Definition _normalize_predicate_part (v : string) : string :=
  let joined := join "_" (_query_tokens v (Some 8%nat)) in
  if String.eqb joined "" then "item" else joined.
Definition _project_subject (conversation : dict) : string :=
  let title := strip (if truthy (vget "title" conversation) then py_str (vget "title" conversation) else "") in
  if String.eqb title "" then "project" else title.
Definition _owned_item_predicate (object_value : string) : string := "owns_item".
Definition _owned_item_qualifiers (object_value : string) : dict :=
  match List.find (λ color, contains color (lower object_value)) ["cherry"; "tv yellow"; "black"; "white"; "blue"; "red"] with
  | Some color => [("color", VStr color)]
  | None => []
  end.
Definition _has_inline_correction (v : string) : bool := searched _FACT_INLINE_CORRECTION_RE v.
Definition _should_skip_project_attribute_fact (subject object_value : string) : bool :=
  existsb (String.eqb (lower subject)) ["i"; "my"; "the"; "this"]
  || _has_inline_correction object_value
  || existsb (λ t, existsb (String.eqb t) _NOISY_PROJECT_ATTRIBUTE_SUBJECT_TOKENS) (_query_tokens subject None).

(** ** Corrections *)

Record _FactCorrectionMatch := mk_correction { k_span : nat * nat; k_item : string; k_new_value : string; k_old_value : string }.
Definition _span_overlaps (span : nat * nat) (spans : list (nat * nat)) : bool :=
  existsb (λ other, Nat.ltb span.1 other.2 && Nat.ltb other.1 span.2) spans.
Definition span (m : re_match) : nat * nat := (m_start m, m_end m).
Definition add_correction (text : string) (corrections : list _FactCorrectionMatch) (m : re_match) : list _FactCorrectionMatch :=
  if _span_overlaps (span m) (map k_span corrections) then corrections
  else corrections ++ [mk_correction (span m) (_clean_fact_object (group "item" text m))
                         (_clean_fact_object (group "new" text m)) (_clean_fact_object (group "old" text m))].
Definition _fact_correction_matches (text : string) : list _FactCorrectionMatch :=
  sort_by (λ a b, Nat.leb (k_span a).1 (k_span b).1)
    (foldl (λ corrections p, foldl (add_correction text) corrections (re_finditer p text)) []
       [_FACT_CORRECTION_RE; _FACT_REPLACES_CORRECTION_RE]).
Definition _corrected_fact_shape (item new_value : string) : string * string :=
  let item := _clean_fact_object item in
  let new_value := _clean_fact_object new_value in
  match List.find (λ prefix, startswith prefix (lower item)) ["favorite "; "preferred "] with
  | Some prefix => ("favorite_" +:+ _normalize_predicate_part (strip (sdrop (String.length prefix) item)), new_value)
  | None => (_owned_item_predicate item, item +:+ " is " +:+ new_value)
  end.
Definition _fact_correction_qualifiers (correction : _FactCorrectionMatch) : dict :=
  [("item", VStr (k_item correction)); ("corrects", VStr (k_old_value correction))].

(** ** Facts *)

Record _extraction := mk_extraction {
  e_assertion_type : string; e_message_index : Z; e_span : nat * nat; e_extractor_name : string;
  e_extractor_version : string; e_rule_identifier : string; e_trusted_correction : bool;
}.
Definition _fact_extraction_metadata (text : string) (message_index : Z) (evidence_span : nat * nat)
    (rule_identifier extractor_name extractor_version : string) (trusted_correction : bool) : _extraction :=
  mk_extraction (assertion_value (classify_assertion text evidence_span)) message_index evidence_span extractor_name
    extractor_version rule_identifier trusted_correction.
Definition extraction_dict (e : _extraction) (source_role : string) : dict :=
  [("assertion_type", VStr (e_assertion_type e));
   ("evidence_span", VDict (span_dict (e_message_index e) (Z.of_nat (e_span e).1) (Z.of_nat (e_span e).2)));
   ("extractor_name", VStr (e_extractor_name e)); ("extractor_version", VStr (e_extractor_version e));
   ("rule_identifier", VStr (e_rule_identifier e)); ("source_role", VStr source_role)]
  ++ (if e_trusted_correction e then [("_trusted_correction", VBool true)] else []).
Definition _save_intent_qualifiers (conversation : dict) : dict :=
  match vget_or "metadata" (VDict []) conversation with
  | VDict metadata => omap (λ k, v ← _qualifier_value metadata k; Some (k, VStr v))
                        ["save_intent"; "save_intent_source"; "save_intent_evidence"]
  | _ => []
  end.

Section extraction.
Context `{HashLib}.
Variable now : instant.

Definition fact_id (subject predicate object_value source_id : string) (message_index : Z) : string :=
  "fact-" +:+ stake 32 (sha256_hex (utf8_encode (join newline [subject; predicate; object_value; source_id; str_of_Z message_index]))).
Definition fact_qualifiers (conversation qualifiers : dict) (source_role : string) (e : _extraction) : dict :=
  let q := if existsb (String.eqb source_role) ["user"; "assistant"]
           then dict_setdefault "source_role" (VStr source_role) qualifiers else qualifiers in
  let q := dict_set "extraction" (VDict (extraction_dict e source_role)) q in
  dict_update q (_save_intent_qualifiers conversation).
Definition _fact (conversation : dict) (subject predicate object_value : string) (message_index : Z)
    (source_message_indexes : list Z) (qualifiers : dict) (source_role : string) (e : _extraction) : result dict :=
  let source_id := text_of "id" conversation in
  let q := fact_qualifiers conversation qualifiers source_role e in
  '(object_normalized, normalization) ← _normalize_fact_object predicate object_value;
  let q := match normalization with [] => q | _ => dict_set "normalization" (VDict normalization) q end in
  let indexes := match source_message_indexes with [] => [message_index] | _ => source_message_indexes end in
  let fact :=
    [("id", VStr (fact_id subject predicate object_value source_id message_index)); ("subject", VStr subject);
     ("predicate", VStr predicate); ("object", VStr object_value); ("qualifiers", VDict q); ("confidence", VStr "medium");
     ("last_confirmed_at", VStr (iso_z now)); ("source_conversation_id", VStr source_id);
     ("owner_id", opt_str (_owner_id_from_conversation (VDict conversation)));
     ("project_id", opt_str (_project_id_from_conversation (VDict conversation)));
     ("source_message_indexes", VList (map VInt indexes)); ("created_at", VStr (iso_z now)); ("updated_at", VStr (iso_z now));
     ("superseded_by", VNone); ("superseded_at", VNone); ("deleted_at", VNone);
     ("object_raw", VStr object_value); ("object_normalized", VStr object_normalized)] in
  let fact := dict_set "source_quality" (VStr (_source_quality_for_fact fact)) fact in
  Ok (dict_set "confidence_reason" (VStr (_confidence_reason_for_fact fact)) fact).

Definition fact_key (fact : dict) : string * string * string :=
  (py_str (vget "subject" fact), py_str (vget "predicate" fact), py_str (vget "object" fact)).
Fixpoint dedupe_from (seen : list (string * string * string)) (facts : list dict) : list dict :=
  match facts with
  | [] => []
  | f :: rest => if bool_decide (fact_key f ∈ seen) then dedupe_from seen rest
                 else f :: dedupe_from (fact_key f :: seen) rest
  end.
Definition _dedupe_facts (facts : list dict) : list dict := dedupe_from [] facts.

(** ** The facts of one message *)

Section message.
Variable conversation : dict.
Variable text : string.
Variable index : Z.
Variable source_role : string.

Definition found_fact (rule_identifier : string) (evidence : nat * nat) (trusted : bool)
    (subject predicate object_value : string) (qualifiers : dict) : result dict :=
  _fact conversation subject predicate object_value index [] qualifiers source_role
    (_fact_extraction_metadata text index evidence rule_identifier "deterministic_rules" "1" trusted).
Definition correction_fact (correction : _FactCorrectionMatch) : result dict :=
  let '(predicate, object_value) := _corrected_fact_shape (k_item correction) (k_new_value correction) in
  found_fact "correction:direct" (k_span correction) true "user" predicate object_value (_fact_correction_qualifiers correction).

(** What a match of a rule states, if it is kept: subject, predicate, object and
    qualifiers. *)
Definition rule_statement (r : _FactRuleName) (m : re_match) : option (string * string * string * dict) :=
  let object_value := _clean_fact_object (group "object" text m) in
  match r with
  | OWN => Some ("user", _owned_item_predicate object_value, object_value, _owned_item_qualifiers object_value)
  | FAVORITE =>
      if _has_inline_correction object_value then None
      else Some ("user", "favorite_" +:+ _normalize_predicate_part (group "name" text m), object_value, [])
  | LIKES => Some ("user", "likes", object_value, [("preference", VStr "positive")])
  | SUBJECT_CREATOR => Some (strip (group "subject" text m), "creator", object_value, [])
  | CREATOR | COMMAND_NAME | INDEXING_STRATEGY => Some (_project_subject conversation, rule_value r, object_value, [])
  | PROFILE_NAME => Some ("user", rule_value r, _clean_profile_name object_value, [])
  | PROFILE_IDENTITY | PROFILE_ROLE | PROFILE_LOCATION => Some ("user", rule_value r, object_value, [])
  | PROJECT_ATTRIBUTE | PROJECT_ATTRIBUTE_CHANGE =>
      let subject := strip (group "subject" text m) in
      if _should_skip_project_attribute_fact subject object_value then None
      else Some (subject, "description", object_value, [])
  end.
Definition rule_facts (correction_spans : list (nat * nat)) (rule : _FactRuleName * pattern) : result (list dict) :=
  let statements := omap (λ m,
    if _span_overlaps (span m) correction_spans then None
    else s ← rule_statement rule.1 m; Some (span m, s)) (re_finditer rule.2 text) in
  map_result (λ '(evidence, (subject, predicate, object_value, qualifiers)),
    found_fact ("rule:" +:+ rule_value rule.1) evidence false subject predicate object_value qualifiers) statements.
Definition _extract_message_facts : result (list dict) :=
  let corrections := _fact_correction_matches text in
  corrected ← map_result correction_fact corrections;
  ruled ← map_result (rule_facts (map k_span corrections)) _FACT_RULES;
  Ok (_dedupe_facts (corrected ++ concat ruled)).
End message.

(** ** Topics *)

Definition message_text (message : value) : result string :=
  match message with
  | VDict m => Ok (text_of "text" m)
  | _ => Raise (AttributeError "get")
  end.
Definition infer_topics (messages : list value) : result (list string) :=
  texts ← map_result message_text messages;
  let text_blob := join " " texts in
  Ok (map fst (List.filter (λ entry, searched entry.2 text_blob) _TOPIC_PATTERNS)).
(** The first message with a match of the topic, from [offset] on. *)
Fixpoint topic_evidence (p : pattern) (offset : Z) (messages : list value) : option (Z * re_match * dict) :=
  match messages with
  | [] => None
  | VDict m :: rest =>
      match re_search p (text_of "text" m) with
      | Some found => Some (offset, found, m)
      | None => topic_evidence p (offset + 1) rest
      end
  | _ :: rest => topic_evidence p (offset + 1) rest
  end.
Definition topic_fact (conversation : dict) (messages : list value) (start_message_index : Z) (topic : string) : result (list dict) :=
  match p ← dict_get topic _TOPIC_PATTERNS; topic_evidence p 0 messages with
  | None => Ok []
  | Some (offset, m, message) =>
      f ← found_fact conversation (text_of "text" message) (start_message_index + offset) (text_of "role" message)
            ("topic:" +:+ topic) (span m) false "user" "recurring_topic" topic [("topic", VStr topic)];
      Ok [f]
  end.
Definition _topic_facts (conversation : dict) (messages : list value) (start_message_index : Z) : result (list dict) :=
  topics ← infer_topics messages;
  facts ← map_result (topic_fact conversation messages start_message_index) topics;
  Ok (concat facts).

(** ** External extractors *)

(** The extractor a deployment may configure. *)
Variable fact_extractor : option (dict → list value → result value).

Definition external_fact (conversation : dict) (messages : list value) (start_message_index : Z) (raw : value) : result (list dict) :=
  candidate ← external_fact_candidate raw;
  match candidate with
  | None => Ok []
  | Some x =>
      let count := Z.of_nat (length messages) in
      let relative_index := FactValidation.message_index (x_evidence_span x) in
      if existsb (λ i, count <=? i) (x_source_message_indexes x) || (count <=? relative_index) then Ok [] else
      match nth_error messages (Z.to_nat relative_index) with
      | Some (VDict message) =>
          let message_index := start_message_index + relative_index in
          let evidence := (Z.to_nat (FactValidation.start (x_evidence_span x)), Z.to_nat (end_ (x_evidence_span x))) in
          f ← _fact conversation (x_subject x) (x_predicate x) (x_object x) message_index
                (map (Z.add start_message_index) (x_source_message_indexes x)) (x_qualifiers x) (text_of "role" message)
                (_fact_extraction_metadata (text_of "text" message) message_index evidence (x_rule_identifier x)
                   (x_extractor_name x) (x_extractor_version x) false);
          Ok [f]
      | _ => Ok []
      end
  end.
Definition _external_extracted_facts (conversation : dict) (messages : list value) (start_message_index : Z) : result (list dict) :=
  match fact_extractor with
  | None => Ok []
  | Some extractor =>
      match extractor conversation messages with
      | Ok (VList raw_facts) =>
          facts ← map_result (external_fact conversation messages start_message_index) (take 100 raw_facts);
          Ok (concat facts)
      | _ => Ok []
      end
  end.

(** ** The facts of a conversation *)

Definition indexed_facts (conversation : dict) (indexed : Z * value) : result (list dict) :=
  match indexed.2 with
  | VDict m => _extract_message_facts conversation (text_of "text" m) indexed.1 (text_of "role" m)
  | _ => Ok []
  end.
Fixpoint indexed_from (index : Z) (messages : list value) : list (Z * value) :=
  match messages with [] => [] | m :: rest => (index, m) :: indexed_from (index + 1) rest end.
Definition fact_candidates (conversation : dict) (messages : list value) (start_message_index : Z) : result (list dict) :=
  facts ← map_result (indexed_facts conversation) (indexed_from start_message_index messages);
  topics ← _topic_facts conversation messages start_message_index;
  external ← _external_extracted_facts conversation messages start_message_index;
  Ok (concat facts ++ topics ++ external).
Definition extract_facts_from_messages (conversation : dict) (messages : list value) (start_message_index : Z) : result (list dict) :=
  candidates ← fact_candidates conversation messages start_message_index;
  validated ← map_result (λ f, validate_fact_candidate f messages start_message_index) candidates;
  Ok (_dedupe_facts (omap id validated)).
Definition extract_facts (conversation : dict) : result (list dict) :=
  extract_facts_from_messages conversation (match vget "messages" conversation with VList l => l | _ => [] end) 0.
End extraction.

(** * Topics and automatic tags *)

Definition _MAX_AUTO_TAGS : nat := 24.

(** The items of a loop over [obj.get("messages", [])]: a text gives its
    characters and a dict its keys. *)
Definition iterated (v : value) : result (list value) :=
  match v with
  | VList l => Ok l
  | VStr s => Ok (map (λ c, VStr (char_str c)) (str_list s))
  | VDict d => Ok (map VStr (dict_keys d))
  | _ => Raise (TypeError "object is not iterable")
  end.
Definition loop_messages (obj : dict) : result (list value) := iterated (vget_or "messages" (VList []) obj).

(** ** Topics *)

Fixpoint merge_topics (merged : list string) (topics : list string) : list string :=
  match topics with
  | [] => merged
  | t :: rest => merge_topics (if existsb (String.eqb t) merged then merged else merged ++ [t]) rest
  end.
Definition texts_of (l : list value) : list string := omap as_str l.
Definition enrich_topics (obj : dict) : result dict :=
  match vget "metadata" obj with
  | VDict metadata =>
      messages ← loop_messages obj;
      inferred ← infer_topics messages;
      match inferred, vget "topics" metadata with
      | [], VList existing => Ok (dict_set "metadata" (VDict (dict_set "topics" (VList (map VStr (merge_topics [] (texts_of existing)))) metadata)) obj)
      | [], _ => Ok obj
      | _, existing =>
          let kept := match existing with VList l => texts_of l | _ => [] end in
          Ok (dict_set "metadata" (VDict (dict_set "topics" (VList (map VStr (merge_topics (merge_topics [] kept) inferred))) metadata)) obj)
      end
  | _ => Ok obj
  end.

(** ** Tags *)

Definition tag_separators : pattern := re_compile "[^A-Za-z0-9:_-]+".
Definition repeated_dashes : pattern := re_compile "-{2,}".
Definition entity_names : pattern := re_compile "\b[A-Z][A-Za-z0-9]+(?:\s+[A-Z][A-Za-z0-9]+){1,4}\b".
Definition _normalize_auto_tag (v : string) : string :=
  let normalized := re_sub tag_separators "-" (lower (strip v)) in
  stake 80 (strip_by (in_chars "-_:") (re_sub repeated_dashes "-" normalized)).
(** [tag_sources]: the sources of each tag, both in order of first appearance *)
Definition _add_auto_tag (source : string) (tag_sources : list (string * list string)) (tag : string) : list (string * list string) :=
  let normalized := _normalize_auto_tag tag in
  if String.eqb normalized "" then tag_sources else
  let sources := default [] (dict_get normalized tag_sources) in
  dict_set normalized (if existsb (String.eqb source) sources then sources else sources ++ [source]) tag_sources.
Definition _auto_tags_from_source (obj : dict) : list string :=
  let source := strip (text_of "source" obj) in
  if String.eqb source "" then [] else ["source:" +:+ source].
Definition _auto_tags_from_topics (metadata : dict) : list string :=
  match vget "topics" metadata with VList l => texts_of l | _ => [] end.
Definition _auto_tags_from_entities (obj : dict) : result (list string) :=
  messages ← loop_messages obj;
  Ok ((match vget "title" obj with VStr t => [t] | _ => [] end)
      ++ flat_map (λ m, match m with
                        | VDict d => match vget "text" d with
                                     | VStr text => map (group0 text) (re_finditer entity_names text)
                                     | _ => [] end
                        | _ => [] end) messages).
Definition _manual_tag_set (metadata : dict) : list string :=
  match vget "tags" metadata with VList l => map _normalize_auto_tag (texts_of l) | _ => [] end.

Section enrich.
Context `{HashLib}.
Variable now : instant.
Variable fact_extractor : option (dict → list value → result value).

Definition _auto_tags_from_fact_predicates (obj : dict) : result (list string) :=
  facts ← extract_facts now fact_extractor obj;
  let predicates := map (λ f, py_str (vget "predicate" f)) (List.filter (λ f, truthy (vget "predicate" f)) facts) in
  Ok (map (λ p, "fact:" +:+ p) (sorted_strs (dedup predicates))).
Definition enrich_auto_tags (obj : dict) : result dict :=
  match vget "metadata" obj with
  | VDict metadata =>
      let tagged source tags tag_sources := foldl (_add_auto_tag source) tag_sources tags in
      let s := tagged "source" (_auto_tags_from_source obj) [] in
      let s := tagged "topic" (_auto_tags_from_topics metadata) s in
      entities ← _auto_tags_from_entities obj;
      let s := tagged "entity" entities s in
      predicates ← _auto_tags_from_fact_predicates obj;
      let tag_sources := tagged "fact_predicate" predicates s in
      let auto_tags := take _MAX_AUTO_TAGS
        (List.filter (λ t, negb (existsb (String.eqb t) (_manual_tag_set metadata))) (dict_keys tag_sources)) in
      let sources := map (λ t, (t, VList (map VStr (default [] (dict_get t tag_sources))))) auto_tags in
      Ok (dict_set "metadata" (VDict (dict_set "tag_sources" (VDict sources)
                                        (dict_set "auto_tags" (VList (map VStr auto_tags)) metadata))) obj)
  | _ => Ok obj
  end.
End enrich.
