(* ===== verification/ExtractFacts.v ===== *)
(** * Guarantees of the extraction of facts

    Every extracted fact is grounded: it names a span of a message of the
    conversation, whose clause asserts it, and the facts are distinct. *)
From Stdlib Require Import ZArith Lia Ascii.
From S2P Require Import Prelude PyStr Json Hash Clock Scope Regex RegexFacts FactValidation FactExtract Samples.
Local Open Scope Z_scope.

Section extraction.
Context `{HashLib}.
Variable now : instant.
Variables (conversation : dict) (messages : list value) (start_message_index : Z).

Definition message_at (index : Z) (m : dict) : Prop :=
  0 ≤ index - start_message_index ∧ nth_error messages (Z.to_nat (index - start_message_index)) = Some (VDict m).

(** What a candidate carries before validation. *)
Record candidate (f : dict) : Prop := mk_cand {
  cand_source : vget "source_conversation_id" f = VStr (text_of "id" conversation);
  cand_owner : vget "owner_id" f = opt_str (_owner_id_from_conversation (VDict conversation));
  cand_project : vget "project_id" f = opt_str (_project_id_from_conversation (VDict conversation));
  cand_extraction : ∃ q e role, vget "qualifiers" f = VDict q ∧ vget "extraction" q = VDict (extraction_dict e role) ∧
    (e_trusted_correction e = true → ∃ m k, message_at (e_message_index e) m ∧
       k ∈ _fact_correction_matches (text_of "text" m) ∧ k_span k = e_span e);
}.

Lemma save_intent_keys c k : k ∈ dict_keys (_save_intent_qualifiers c) → k ∈ ["save_intent"; "save_intent_source"; "save_intent_evidence"].
Proof.
  unfold _save_intent_qualifiers, dict_keys. destruct (vget_or _ _ _); try by intros ?%elem_of_nil.
  cbn. repeat destruct (_qualifier_value d _); cbn; set_solver.
Qed.
Lemma fact_candidate subject predicate object index indexes qualifiers role e f :
  _fact now conversation subject predicate object index indexes qualifiers role e = Ok f →
  (e_trusted_correction e = true → ∃ m k, message_at (e_message_index e) m ∧
     k ∈ _fact_correction_matches (text_of "text" m) ∧ k_span k = e_span e) →
  candidate f.
Proof.
  unfold _fact. intros Hf Ht. apply bind_Ok in Hf as ([n norm] & _ & Hf). cbv zeta in Hf. injection Hf as <-.
  constructor; [reflexivity..|].
  eexists _, e, role. split; [reflexivity|]. split; [|done].
  set (q := fact_qualifiers conversation qualifiers role e).
  assert (vget "extraction" q = VDict (extraction_dict e role)) as Hq.
  { unfold q, fact_qualifiers, vget. rewrite dict_update_absent; [by rewrite dict_get_set_eq|].
    intros Hk%save_intent_keys. set_solver. }
  destruct norm; [done|]. unfold vget. rewrite dict_get_set_ne by done. exact Hq.
Qed.

Lemma found_candidate text index role rule evidence trusted subject predicate object qualifiers f :
  found_fact now conversation text index role rule evidence trusted subject predicate object qualifiers = Ok f →
  (trusted = true → ∃ m k, message_at index m ∧ k ∈ _fact_correction_matches (text_of "text" m) ∧ k_span k = evidence) →
  candidate f.
Proof. intros Hf Ht. by apply fact_candidate in Hf. Qed.

Lemma dedupe_from_spec facts : ∀ seen, (∀ f, f ∈ dedupe_from seen facts → f ∈ facts ∧ fact_key f ∉ seen) ∧
  NoDup (map fact_key (dedupe_from seen facts)).
Proof.
  induction facts as [|f facts IH]; intros seen; cbn; [split; [by intros f ?%elem_of_nil|constructor]|].
  case_bool_decide.
  - destruct (IH seen) as [H1 H2]. split; [|done]. intros g [? ?]%H1. split; [by right|done].
  - destruct (IH (fact_key f :: seen)) as [H1 H2]. split.
    + intros g [->|[? Hk]%H1]%elem_of_cons; [split; [by left|done]|]. split; [by right|]. set_solver.
    + cbn. constructor; [|done]. rewrite elem_of_map. intros (g & [_ Hg]%H1 & E). rewrite E in Hg. set_solver.
Qed.
Lemma dedupe_elem facts f : f ∈ _dedupe_facts facts → f ∈ facts.
Proof. intros Hf. by apply (dedupe_from_spec facts []) in Hf as [? _]. Qed.

Lemma message_candidates m index f facts : message_at index m →
  _extract_message_facts now conversation (text_of "text" m) index (text_of "role" m) = Ok facts → f ∈ facts → candidate f.
Proof.
  unfold _extract_message_facts. intros Hm Hf Hin. apply bind_Ok in Hf as (corrected & Hc & Hf).
  apply bind_Ok in Hf as (ruled & Hr & Hf). injection Hf as <-.
  apply dedupe_elem, elem_of_app in Hin as [Hin|Hin].
  - apply (map_result_elem _ _ _ Hc) in Hin as (k & Hk & Hf). unfold correction_fact in Hf.
    destruct (_corrected_fact_shape _ _). apply found_candidate in Hf; [done|]. intros _. by exists m, k.
  - apply list_elem_of_In, in_concat in Hin as (fs & Hfs%list_elem_of_In & Hin%list_elem_of_In).
    apply (map_result_elem _ _ _ Hr) in Hfs as (rule & _ & Hfs). unfold rule_facts in Hfs.
    apply (map_result_elem _ _ _ Hfs) in Hin as ([ev [[[s p] o] q]] & _ & Hf). by apply found_candidate in Hf.
Qed.
Lemma topic_candidates f facts : _topic_facts now conversation messages start_message_index = Ok facts → f ∈ facts → candidate f.
Proof.
  unfold _topic_facts. intros Hf Hin. apply bind_Ok in Hf as (topics & _ & Hf). apply bind_Ok in Hf as (fs & Hfs & Hf).
  injection Hf as <-. apply list_elem_of_In, in_concat in Hin as (x & Hx%list_elem_of_In & Hin%list_elem_of_In).
  apply (map_result_elem _ _ _ Hfs) in Hx as (topic & _ & Hx). unfold topic_fact in Hx.
  destruct (p ← _; topic_evidence _ _ _) as [[[offset m] message]|]; [|injection Hx as <-; by apply elem_of_nil in Hin].
  apply bind_Ok in Hx as (g & Hg & Hx). injection Hx as <-. apply list_elem_of_singleton in Hin as ->.
  by apply found_candidate in Hg.
Qed.
Lemma external_candidates extractor f facts :
  _external_extracted_facts now extractor conversation messages start_message_index = Ok facts → f ∈ facts → candidate f.
Proof.
  unfold _external_extracted_facts. intros Hf Hin.
  destruct extractor as [ex|]; [|injection Hf as <-; by apply elem_of_nil in Hin].
  destruct (ex _ _) as [[| | | | |raw|]|]; try (injection Hf as <-; by apply elem_of_nil in Hin).
  apply bind_Ok in Hf as (fs & Hfs & Hf). injection Hf as <-.
  apply list_elem_of_In, in_concat in Hin as (x & Hx%list_elem_of_In & Hin%list_elem_of_In).
  apply (map_result_elem _ _ _ Hfs) in Hx as (r & _ & Hx). unfold external_fact in Hx.
  apply bind_Ok in Hx as ([c|] & _ & Hx); [|injection Hx as <-; by apply elem_of_nil in Hin].
  cbv zeta in Hx. destruct (_ || _); [injection Hx as <-; by apply elem_of_nil in Hin|].
  destruct (nth_error _ _) as [[| | | | | |message]|]; try (injection Hx as <-; by apply elem_of_nil in Hin).
  apply bind_Ok in Hx as (g & Hg & Hx). injection Hx as <-. apply list_elem_of_singleton in Hin as ->.
  by apply fact_candidate in Hg.
Qed.
Lemma indexed_from_elem index m : ∀ l i, (index, m) ∈ indexed_from i l → i ≤ index ∧ nth_error l (Z.to_nat (index - i)) = Some m.
Proof.
  induction l as [|x l IH]; intros i; cbn; [by intros ?%elem_of_nil|].
  intros [[= -> ->]|[H1 H2]%IH]%elem_of_cons.
  - split; [lia|]. by rewrite Z.sub_diag.
  - split; [lia|]. replace (Z.to_nat (index - i)) with (S (Z.to_nat (index - (i + 1)))) by lia. done.
Qed.
Lemma candidates_sound extractor facts f :
  fact_candidates now extractor conversation messages start_message_index = Ok facts → f ∈ facts → candidate f.
Proof.
  unfold fact_candidates. intros Hf Hin. apply bind_Ok in Hf as (fs & Hfs & Hf). apply bind_Ok in Hf as (ts & Hts & Hf).
  apply bind_Ok in Hf as (xs & Hxs & Hf). injection Hf as <-. rewrite !elem_of_app in Hin. destruct Hin as [Hin|[Hin|Hin]].
  - apply list_elem_of_In, in_concat in Hin as (x & Hx%list_elem_of_In & Hin%list_elem_of_In).
    apply (map_result_elem _ _ _ Hfs) in Hx as ([index m] & [Hi Hm]%indexed_from_elem & Hx).
    unfold indexed_facts in Hx. cbn [fst snd] in Hx.
    destruct m as [| | | | | |m]; try (injection Hx as <-; by apply elem_of_nil in Hin).
    apply (message_candidates m index f x); [split; [lia|done]|done..].
  - by apply (topic_candidates f ts).
  - by apply (external_candidates extractor f xs).
Qed.

(** ** Validation *)

(** A validated fact: the span of a message it was read from, and the class of
    the assertion that its clause makes. *)
Record grounded (f : dict) : Prop := mk_grounded {
  g_source : vget "source_conversation_id" f = VStr (text_of "id" conversation);
  g_owner : vget "owner_id" f = opt_str (_owner_id_from_conversation (VDict conversation));
  g_project : vget "project_id" f = opt_str (_project_id_from_conversation (VDict conversation));
  g_evidence : ∃ q x index s e m a,
    vget "qualifiers" f = VDict q ∧ vget "extraction" q = VDict x ∧
    vget "evidence_span" x = VDict (span_dict index (Z.of_nat s) (Z.of_nat e)) ∧ message_at index m ∧
    (s < e)%nat ∧ Z.of_nat e ≤ str_len (text_of "text" m) ∧ strip (slice s e (text_of "text" m)) ≠ "" ∧
    vget "source_role" x = VStr (text_of "role" m) ∧ vget "assertion_type" x = VStr (assertion_value a) ∧
    a ∉ [NEGATED; HYPOTHETICAL] ∧
    (a = classify_assertion (text_of "text" m) (s, e) ∨
     a = ASSERTED ∧ ∃ k, k ∈ _fact_correction_matches (text_of "text" m) ∧ k_span k = (s, e)) ∧
    (vget "confidence" f = VStr "high" → text_of "role" m ≠ "assistant" ∧ a = ASSERTED)
}.

Lemma evidence_span_dict index s e x : evidence_span (VDict (span_dict index s e)) = Ok (Some x) →
  x = mk_span index s e ∧ 0 ≤ index ∧ 0 ≤ s < e.
Proof.
  unfold evidence_span, span_dict. cbn. unfold validate_bounds. cbn [start end_].
  destruct ((0 <=? index) && (0 <=? s) && (0 <? e)) eqn:E; [|done]. destruct (e <=? s) eqn:E2; [done|].
  intros [= <-]. apply Z.leb_gt in E2. repeat (apply andb_true_iff in E as [E ?]). split; [done|]. lia.
Qed.
Lemma evidence_message_at e m : evidence_message messages start_message_index e = Ok (Some m) →
  message_at (message_index e) m.
Proof.
  unfold evidence_message, message_at. destruct (_ || _) eqn:E; [done|]. apply orb_false_iff in E as [E1 E2].
  destruct (nth_error _ _) as [[| | | | | |d]|] eqn:En; try done. intros [= <-]. split; [lia|done].
Qed.
Lemma message_at_unique index m m' : message_at index m → message_at index m' → m = m'.
Proof. unfold message_at. intros [_ H1] [_ H2]. congruence. Qed.
Lemma extraction_trusted e role :
  vget "_trusted_correction" (extraction_dict e role) = if e_trusted_correction e then VBool true else VNone.
Proof. unfold extraction_dict. by destruct (e_trusted_correction e). Qed.
Lemma high_confidence a role quality auto score reason :
  calibrate_confidence a role quality auto = (score, "high", reason) → a ∉ [NEGATED; HYPOTHETICAL] →
  role ≠ "assistant" ∧ a = ASSERTED.
Proof.
  unfold calibrate_confidence. intros Hc Ha. destruct a; try set_solver; cbn in Hc; try done;
    destruct (String.eqb quality "inferred_from_conversation"); try done;
    destruct (String.eqb_spec role "assistant"); try done.
Qed.
Lemma validated_fact_get k f q x a role : k ∉ ["qualifiers"; "confidence"; "confidence_reason"] →
  vget k (validated_fact f q x a role) = vget k f.
Proof.
  unfold validated_fact. destruct (calibrate_confidence _ _ _ _) as [[score label] reason]. intros Hk. unfold vget.
  by rewrite !dict_get_set_ne by set_solver.
Qed.
Lemma trusted_cases e role s t m : message_at (e_message_index e) m → e_span e = (s, t) →
  (e_trusted_correction e = true → ∃ m k, message_at (e_message_index e) m ∧
     k ∈ _fact_correction_matches (text_of "text" m) ∧ k_span k = e_span e) →
  let a := trusted_assertion (extraction_dict e role) (text_of "text" m)
             (mk_span (e_message_index e) (Z.of_nat s) (Z.of_nat t)) in
  a = classify_assertion (text_of "text" m) (s, t) ∨
  a = ASSERTED ∧ ∃ k, k ∈ _fact_correction_matches (text_of "text" m) ∧ k_span k = (s, t).
Proof.
  intros Hm Hs Ht. unfold trusted_assertion. cbn [start end_]. rewrite !Nat2Z.id, extraction_trusted.
  destruct (e_trusted_correction e); [|by left]. destruct (startswith _ _); [right|by left].
  split; [done|]. destruct Ht as (m' & k & Hm' & Hk & Hks); [done|]. rewrite (message_at_unique _ _ _ Hm Hm').
  exists k. by rewrite Hks.
Qed.

Lemma validated_grounded f c : candidate f →
  validate_fact_candidate f messages start_message_index = Ok (Some c) → grounded c.
Proof.
  intros [Hsrc Hown Hproj (q & e & role & Hq & Hx & Ht)] Hv. unfold validate_fact_candidate in Hv. rewrite Hq in Hv.
  rewrite Hx in Hv. apply bind_Ok in Hv as ([sp|] & Hsp & Hv); [|done].
  unfold vget in Hsp. cbn [extraction_dict dict_get app String.eqb Ascii.eqb default] in Hsp.
  apply evidence_span_dict in Hsp as (-> & Hi & Hse). apply bind_Ok in Hv as ([m|] & Hm & Hv); [|done].
  apply evidence_message_at in Hm. cbv zeta in Hv. cbn [message_index] in *.
  destruct (negb (evidence_supported _ _ _ _ _)) eqn:Es; [done|]. apply negb_false_iff in Es.
  unfold evidence_supported in Es. rewrite !andb_true_iff, negb_true_iff, orb_false_iff in Es. destruct Es as [[[E1 E2] _] _].
  apply Z.ltb_ge in E1. apply String.eqb_neq in E2.
  case_bool_decide as Ha; [done|]. destruct (negb _); [done|]. injection Hv as <-.
  destruct (e_span e) as [s t] eqn:Ees. cbn [fst snd end_] in *.
  constructor; [by rewrite validated_fact_get by set_solver..|].
  destruct (trusted_cases e role s t m Hm Ees) as [Hc|Hc]; [by rewrite Ees|..].
  all: set (a := trusted_assertion _ _ _) in *.
  all: unfold validated_fact; destruct (calibrate_confidence _ _ _ _) as [[score label] reason] eqn:Ecal.
  all: eexists _, _, (e_message_index e), s, t, m, a; split; [unfold vget; rewrite !dict_get_set_ne, dict_get_set_eq by done; reflexivity|].
  all: split; [unfold vget; rewrite dict_get_set_eq; reflexivity|].
  all: split; [unfold vget; rewrite dict_update_absent by (cbn; set_solver); rewrite dict_get_pop_ne by done; cbn; by rewrite Ees|].
  all: split_and!; try done; try lia.
  all: try (unfold evidence_text in E2; cbn [start end_] in E2; by rewrite !Nat2Z.id in E2).
  all: try (by left); try (by right).
  all: unfold vget; rewrite dict_get_set_ne, dict_get_set_eq by done; cbn; intros [= ->]; by eapply high_confidence.
Qed.
End extraction.


Module Extraction.
Import Sample.
Definition said (role text : string) : value := VDict [("role", VStr role); ("text", VStr text)].
Definition chat : list value :=
  [said "user" "I live in Paris. I don't like tea."; said "assistant" "The creator is ann lee."].
Definition talk : dict := [("id", VStr "c1"); ("title", VStr "Hub"); ("messages", VList chat)].
Definition extracted : result (list dict) := extract_facts_from_messages noon None talk chat 0.
Definition objects (r : result (list dict)) : list value :=
  match r with Ok facts => map (vget "object") facts | Raise _ => [] end.
End Extraction.
