(* ===== verification/Graph.v ===== *)
(** * The memory graph of a conversation ([memory/advanced_memory.py])

    Entities and relationships read from the texts of messages by fixed names
    and patterns, as validated records with derived identifiers. *)
From Stdlib Require Import ZArith Lia Ascii.
From S2P Require Import Prelude PyStr Json Hash Regex FactValidation.
Local Open Scope Z_scope.

Inductive EntityType := PERSON | PROJECT | TOOL | PROVIDER | ORGANIZATION | DECISION | PREFERENCE | OWNED_ITEM.
Definition entity_value (t : EntityType) : string :=
  match t with
  | PERSON => "person" | PROJECT => "project" | TOOL => "tool" | PROVIDER => "provider"
  | ORGANIZATION => "organization" | DECISION => "decision" | PREFERENCE => "preference" | OWNED_ITEM => "owned_item"
  end.
Inductive RelationshipPredicate := CREATED_BY | USES_TOOL | USES_PROVIDER | DECIDED | PREFERS | OWNS | WORKS_ON | CHANGED_TO.
Definition predicate_value (p : RelationshipPredicate) : string :=
  match p with
  | CREATED_BY => "created_by" | USES_TOOL => "uses_tool" | USES_PROVIDER => "uses_provider" | DECIDED => "decided"
  | PREFERS => "prefers" | OWNS => "owns" | WORKS_ON => "works_on" | CHANGED_TO => "changed_to"
  end.

Definition _KNOWN_TOOLS : list string := ["Codex"; "opencode"; "PGVector"; "Docker"; "Podman"; "tiktoken"; "Ollama"; "Bruno"].
Definition _KNOWN_PROVIDERS : list string :=
  ["SQLite"; "Postgres"; "MongoDB"; "LanceDB"; "PGVector"; "ChromaDB"; "Qdrant"; "Milvus"; "Weaviate"; "Elasticsearch"; "OpenSearch"].
Definition _CREATOR_RE : pattern := re_compile_i "\b(?:the\s+)?creator\s+(?:is|was)\s+(?P<object>[^.!\n]{2,80})".
Definition _PROJECT_RE : pattern := re_compile_i "\b(?P<subject>[A-Z][A-Za-z0-9 _-]{2,80})\s+is\s+(?P<object>[^.!\n]{3,160})".
Definition _PREFERENCE_RE : pattern := re_compile_i
  "\b(?:my|the user'?s)\s+favorite\s+(?P<subject>[a-zA-Z][A-Za-z _-]{1,60})\s+is\s+(?P<object>[^.!\n]{2,120})".
Definition _OWN_RE : pattern := re_compile_i "\bI\s+(?:own|have)\s+(?P<object>[^.!\n]{2,140})".
Definition _WORKS_ON_RE : pattern := re_compile_i
  "\b(?P<person>[A-Z][A-Za-z _.-]{1,80})\s+works\s+on\s+(?P<project>[A-Z][A-Za-z0-9 _-]{2,80})".
Definition _USES_RE : pattern := re_compile_i "\b(?P<subject>[A-Z][A-Za-z0-9 _-]{2,80})\s+uses\s+(?P<object>[^.!\n]{2,80})".
Definition _CHANGED_RE : pattern := re_compile_i
  "\b(?P<subject>[A-Z][A-Za-z0-9 _-]{2,80})\s+changed\s+to\s+(?P<object>[^.!\n]{2,120})".

(** ** Texts *)

(** [s.casefold()]; one letter folds outside the characters. *)
Definition casefolded (s : string) : result string :=
  if sall (λ c, negb (ord c =? 181)) s then Ok (casefold s) else Raise OutsideModel.
Definition normalize_graph_text (v : string) : result string :=
  f ← casefolded (strip v); Ok (join " " (split_ws f)).
Definition _clean_text (v : string) : string := join " " (split_ws (strip_by (in_chars " .,!?:;") (strip v))).
(** [re.escape] changes nothing in the names. *)
Definition _names_in_text (text : string) (names : list string) : list string :=
  List.filter (λ name, searched (mk_pattern true (default REps (parse_regex ("(?<!\w)" +:+ name +:+ "(?!\w)")))) text) names.
Definition _optional_str (v : value) : option string :=
  match v with
  | VNone => None
  | _ => let text := strip (py_str v) in if String.eqb text "" then None else Some text
  end.
Definition stripped_title (v : value) : option string :=
  match v with VStr t => if String.eqb (strip t) "" then None else Some (strip t) | _ => None end.
Definition _metadata_title (conversation : dict) : option string :=
  match stripped_title (vget "title" conversation) with
  | Some t => Some t
  | None => match vget "metadata" conversation with
            | VDict metadata => stripped_title (vget "title" metadata)
            | _ => None
            end
  end.
Definition _relationship_conflict_group (subject : string) (predicate : RelationshipPredicate) : result string :=
  s ← normalize_graph_text subject; Ok (s +:+ ":" +:+ predicate_value predicate).

(** ** Records *)

Section graph.
Context `{HashLib}.

(** [json.dumps(payload, sort_keys=True)] of keys given in order *)
Definition stable_derived_id (prefix : string) (payload : dict) : string :=
  prefix +:+ ":" +:+ stake 32 (sha256_hex (utf8_encode (json_dumps (VDict payload)))).
Definition text_bounds (least most : Z) (v : string) : result unit :=
  guard_err ((str_len v <? least) || (most <? str_len v)) (ValueError "validation error").

(** What every record of a conversation shares. *)
Record source := mk_source {
  g_conversation_id : string; g_owner_id : option string; g_project_id : option string; g_timestamp : option string;
}.
Definition provenance_dict (s : source) (index : Z) : dict :=
  [("conversation_id", VStr (g_conversation_id s)); ("message_index", VInt index); ("chunk_id", VNone);
   ("fact_id", VNone); ("summary_id", VNone)].
(** [DerivedMemoryRecord.model_dump(mode="json")] *)
Definition record_dict (s : source) (id record_type confidence : string) (index : Z) : dict :=
  [("id", VStr id); ("record_type", VStr record_type);
   ("extractor", VDict [("name", VStr "deterministic-graph"); ("version", VStr "1"); ("kind", VStr "deterministic")]);
   ("confidence", VFloat confidence); ("source_scope", VStr "private"); ("review_status", VStr "active");
   ("provenance", VList [VDict (provenance_dict s index)]); ("owner_id", opt_str (g_owner_id s));
   ("project_id", opt_str (g_project_id s)); ("created_at", opt_str (g_timestamp s)); ("updated_at", opt_str (g_timestamp s));
   ("metadata", VDict [])].
Definition entity_record (s : source) (id : string) (t : EntityType) (name normalized : string) (index : Z) : result dict :=
  _ ← text_bounds 1 256 name;
  _ ← text_bounds 1 256 normalized;
  Ok (record_dict s id "entity" "0.9" index ++
      [("entity_type", VStr (entity_value t)); ("name", VStr name); ("normalized_name", VStr normalized);
       ("aliases", VList []); ("source_fact_id", VNone)]).
Definition relationship_record (s : source) (id : string) (subject : string) (p : RelationshipPredicate) (object : string)
    (subject_id object_id confidence group : string) (index : Z) : result dict :=
  _ ← text_bounds 1 256 subject;
  _ ← text_bounds 1 512 object;
  Ok (record_dict s id "relationship" confidence index ++
      [("subject", VStr subject); ("predicate", VStr (predicate_value p)); ("object", VStr object);
       ("subject_entity_id", VStr subject_id); ("object_entity_id", VStr object_id);
       ("freshness_at", opt_str (g_timestamp s)); ("superseded_by", VNone); ("superseded_at", VNone);
       ("conflict_group", VStr group)]).

(** ** Extraction *)

Record MemoryGraph := mk_graph { entities : list (string * dict); relationships : list (string * dict) }.

Definition add_entity (s : source) (name : string) (t : EntityType) (index : Z) (g : MemoryGraph) : result (string * MemoryGraph) :=
  let cleaned := _clean_text name in
  normalized ← normalize_graph_text cleaned;
  let id := stable_derived_id "entity"
    [("conversation_id", VStr (g_conversation_id s)); ("name", VStr normalized); ("type", VStr (entity_value t))] in
  if dict_has id (entities g) then Ok (id, g) else
  r ← entity_record s id t cleaned normalized index;
  Ok (id, mk_graph (entities g ++ [(id, r)]) (relationships g)).
Definition add_relationship (s : source) (subject : string) (p : RelationshipPredicate) (object_value : string) (index : Z)
    (subject_type object_type : EntityType) (confidence : string) (g : MemoryGraph) : result MemoryGraph :=
  '(subject_id, g) ← add_entity s subject subject_type index g;
  '(object_id, g) ← add_entity s object_value object_type index g;
  ns ← normalize_graph_text subject;
  no ← normalize_graph_text object_value;
  let id := stable_derived_id "rel"
    [("conversation_id", VStr (g_conversation_id s)); ("message_index", VInt index); ("object", VStr no);
     ("predicate", VStr (predicate_value p)); ("subject", VStr ns)] in
  if dict_has id (relationships g) then Ok g else
  group ← _relationship_conflict_group subject p;
  r ← relationship_record s id (_clean_text subject) p (_clean_text object_value) subject_id object_id confidence group index;
  Ok (mk_graph (entities g) (relationships g ++ [(id, r)])).

(** A loop over the matches of a pattern. *)
Definition each_match (p : pattern) (text : string) (f : re_match → MemoryGraph → result MemoryGraph) (g : MemoryGraph) : result MemoryGraph :=
  fold_result (λ g m, f m g) g (re_finditer p text).
Definition skipped_subject (normalized : string) : bool :=
  existsb (String.eqb normalized) ["i"; "the creator"] || startswith "my favorite " normalized.
Definition message_graph (s : source) (project : string) (text : string) (index : Z) (g : MemoryGraph) : result MemoryGraph :=
  let grp k m := group k text m in
  let named t g name := '(_, g) ← add_entity s name t index g; Ok g in
  g ← fold_result (named TOOL) g (_names_in_text text _KNOWN_TOOLS);
  g ← fold_result (named PROVIDER) g (_names_in_text text _KNOWN_PROVIDERS);
  g ← each_match _CREATOR_RE text (λ m, add_relationship s project CREATED_BY (grp "object" m) index PROJECT PERSON "0.85") g;
  g ← each_match _PROJECT_RE text (λ m g,
        n ← normalize_graph_text (grp "subject" m);
        if skipped_subject n then Ok g
        else add_relationship s (grp "subject" m) DECIDED (grp "object" m) index PROJECT DECISION "0.72" g) g;
  g ← each_match _PREFERENCE_RE text (λ m,
        add_relationship s (grp "subject" m) PREFERS (grp "object" m) index PREFERENCE PREFERENCE "0.85") g;
  g ← each_match _OWN_RE text (λ m, add_relationship s "user" OWNS (grp "object" m) index PERSON OWNED_ITEM "0.85") g;
  g ← each_match _WORKS_ON_RE text (λ m,
        add_relationship s (grp "person" m) WORKS_ON (grp "project" m) index PERSON PROJECT "0.85") g;
  g ← each_match _USES_RE text (λ m, add_relationship s (grp "subject" m) USES_TOOL (grp "object" m) index PROJECT TOOL "0.85") g;
  each_match _CHANGED_RE text (λ m,
        add_relationship s (grp "subject" m) CHANGED_TO (grp "object" m) index PROJECT PREFERENCE "0.85") g.
Fixpoint messages_graph (s : source) (project : string) (index : Z) (messages : list value) (g : MemoryGraph) : result MemoryGraph :=
  match messages with
  | [] => Ok g
  | VDict m :: rest =>
      g ← message_graph s project (text_of "text" m) index g;
      messages_graph s project (index + 1) rest g
  | _ :: rest => messages_graph s project (index + 1) rest g
  end.

(** The entities and the relationships, in the order of their extraction. *)
Definition extract_memory_graph (conversation : dict) (messages : list value) (start_message_index : Z) : result (list dict * list dict) :=
  let conversation_id := strip (if truthy (vget "id" conversation) then py_str (vget "id" conversation) else "") in
  if String.eqb conversation_id "" then Ok ([], []) else
  _ ← guard_err (start_message_index <? 0) (ValueError "start_message_index must be non-negative");
  let s := mk_source conversation_id (_optional_str (vget "owner_id" conversation))
             (_optional_str (vget "project_id" conversation)) (_optional_str (vget "timestamp" conversation)) in
  let project := default "project" (_metadata_title conversation) in
  g ← messages_graph s project start_message_index messages (mk_graph [] []);
  Ok (map snd (entities g), map snd (relationships g)).
End graph.
