(* ===== verification/FactStore.v ===== *)
(** * The fact and graph tables of the SQLite store ([memory/backend/metadata_store.py])

    Facts extracted from conversations, their confirmation and supersession, and
    the entities and relationships of the memory graph. *)
From Stdlib Require Import ZArith Lia Ascii.
From S2P Require Import Prelude PyStr Json Hash Clock Identity AuthDb ConvStore.
Local Open Scope Z_scope.

Record fact_row := mk_fact {
  fr_id : string; fr_subject : string; fr_predicate : string; fr_object : string; fr_qualifiers : string;
  fr_confidence : string; fr_source : string; fr_owner : option string; fr_project : option string;
  fr_indexes : string; fr_created_at : string; fr_updated_at : string;
  fr_superseded_by : option string; fr_superseded_at : option string; fr_source_quality : option string;
  fr_confidence_reason : option string; fr_last_confirmed_at : option string;
  fr_object_raw : option string; fr_object_normalized : option string; fr_deleted_at : option string }.
Record entity_row := mk_entity {
  en_id : string; en_type : string; en_name : string; en_owner : option string; en_project : option string;
  en_review : string; en_payload : string; en_updated_at : option string }.
Record relationship_row := mk_relationship {
  re_id : string; re_subject : string; re_predicate : string; re_object : string;
  re_owner : option string; re_project : option string; re_review : string;
  re_superseded_by : option string; re_conflict_group : option string; re_payload : string;
  re_updated_at : option string }.
Record FactDb := mk_fact_db {
  facts : list fact_row; entities : list entity_row; relationships : list relationship_row }.

Definition on_facts (f : list fact_row → list fact_row) (d : FactDb) : FactDb :=
  mk_fact_db (f (facts d)) (entities d) (relationships d).
Definition on_entities (f : list entity_row → list entity_row) (d : FactDb) : FactDb :=
  mk_fact_db (facts d) (f (entities d)) (relationships d).
Definition on_relationships (f : list relationship_row → list relationship_row) (d : FactDb) : FactDb :=
  mk_fact_db (facts d) (entities d) (f (relationships d)).

(** ** SQL texts *)

(** [lower(x)] of SQLite and the case folding of its LIKE: ASCII only. *)
Definition sql_lower_char (c : ascii) : ascii := if is_upper_ascii c then chr (ord c + 32) else c.
Definition sql_lower (s : string) : string := smap sql_lower_char s.
(** [s LIKE p] *)
Fixpoint like (p s : string) : bool :=
  match p with
  | EmptyString => match s with EmptyString => true | _ => false end
  | String c p' =>
      if Ascii.eqb c "%"%char then
        (fix any (s : string) : bool :=
           like p' s || match s with EmptyString => false | String _ s' => any s' end) s
      else match s with
           | EmptyString => false
           | String d s' => (Ascii.eqb c "_"%char || Ascii.eqb (sql_lower_char c) (sql_lower_char d)) && like p' s'
           end
  end.

(** [str(d[k])] *)
Definition text_item (k : string) (d : dict) : result string := v ← item k d; Ok (py_str v).
(** [d.get(k)] bound to a TEXT column *)
Definition text_field (k : string) (d : dict) : result (option string) := sql_text (vget k d).

Notation DB := (M FactDb).

(** ** Facts *)

Definition is_fact (id : string) (r : fact_row) : bool := String.eqb (fr_id r) id.
(** live facts of one subject, predicate, owner and project *)
Definition same_scope (subject predicate : string) (owner project : option string) (r : fact_row) : bool :=
  String.eqb (fr_subject r) subject && String.eqb (fr_predicate r) predicate
  && bool_decide (fr_owner r = owner) && bool_decide (fr_project r = project)
  && null (fr_superseded_by r) && null (fr_deleted_at r).

Definition set_confirmed (confirmed updated : string) (r : fact_row) : fact_row :=
  mk_fact (fr_id r) (fr_subject r) (fr_predicate r) (fr_object r) (fr_qualifiers r) (fr_confidence r) (fr_source r)
    (fr_owner r) (fr_project r) (fr_indexes r) (fr_created_at r) updated (fr_superseded_by r) (fr_superseded_at r)
    (fr_source_quality r) (fr_confidence_reason r) (Some confirmed) (fr_object_raw r) (fr_object_normalized r)
    (fr_deleted_at r).
Definition set_superseded (by_id at_time updated : string) (r : fact_row) : fact_row :=
  mk_fact (fr_id r) (fr_subject r) (fr_predicate r) (fr_object r) (fr_qualifiers r) (fr_confidence r) (fr_source r)
    (fr_owner r) (fr_project r) (fr_indexes r) (fr_created_at r) updated (Some by_id) (Some at_time)
    (fr_source_quality r) (fr_confidence_reason r) (fr_last_confirmed_at r) (fr_object_raw r) (fr_object_normalized r)
    (fr_deleted_at r).
(** the DO UPDATE of an insertion: everything but the id and the creation time *)
Definition set_fact (new r : fact_row) : fact_row :=
  mk_fact (fr_id r) (fr_subject new) (fr_predicate new) (fr_object new) (fr_qualifiers new) (fr_confidence new)
    (fr_source new) (fr_owner new) (fr_project new) (fr_indexes new) (fr_created_at r) (fr_updated_at new)
    (fr_superseded_by new) (fr_superseded_at new) (fr_source_quality new) (fr_confidence_reason new)
    (fr_last_confirmed_at new) (fr_object_raw new) (fr_object_normalized new) (fr_deleted_at new).

Definition _refresh_matching_fact_confirmation (fact : dict) : DB unit :=
  match vget "source_quality" fact with
  | VStr q =>
      if negb (String.eqb q "direct_user_statement") then mret tt else
      confirmed ← lift (text_item "last_confirmed_at" fact);
      updated ← lift (text_item "updated_at" fact);
      subject ← lift (text_item "subject" fact);
      predicate ← lift (text_item "predicate" fact);
      object ← lift (text_item "object" fact);
      owner ← lift (text_field "owner_id" fact);
      project ← lift (text_field "project_id" fact);
      exec (on_facts (tbl_update
        (λ r, same_scope subject predicate owner project r && String.eqb (fr_object r) object)
        (set_confirmed confirmed updated)))
  | _ => mret tt
  end.

(** [qualifiers.get("corrects")], when it is true *)
Definition corrects (fact : dict) : option string :=
  match vget_or "qualifiers" (VDict []) fact with
  | VDict q => let v := vget "corrects" q in if truthy v then Some (py_str v) else None
  | _ => None
  end.
Definition _supersede_corrected_facts (fact : dict) : DB unit :=
  match corrects fact with
  | None => mret tt
  | Some c =>
      id ← lift (text_item "id" fact);
      updated ← lift (text_item "updated_at" fact);
      subject ← lift (text_item "subject" fact);
      predicate ← lift (text_item "predicate" fact);
      owner ← lift (text_field "owner_id" fact);
      project ← lift (text_field "project_id" fact);
      exec (on_facts (tbl_update
        (λ r, same_scope subject predicate owner project r
              && like ("%" +:+ lower c +:+ "%") (sql_lower (fr_object r)))
        (set_superseded id updated updated)))
  end.

Definition _fact_row (fact : dict) : result fact_row :=
  id ← text_item "id" fact;
  subject ← text_item "subject" fact;
  predicate ← text_item "predicate" fact;
  object ← text_item "object" fact;
  source ← text_item "source_conversation_id" fact;
  created ← text_item "created_at" fact;
  updated ← text_item "updated_at" fact;
  owner ← text_field "owner_id" fact;
  project ← text_field "project_id" fact;
  superseded_by ← text_field "superseded_by" fact;
  superseded_at ← text_field "superseded_at" fact;
  source_quality ← text_field "source_quality" fact;
  confidence_reason ← text_field "confidence_reason" fact;
  last_confirmed_at ← text_field "last_confirmed_at" fact;
  object_raw ← sql_text (vget_or "object_raw" (vget "object" fact) fact);
  object_normalized ← sql_text (vget_or "object_normalized" (vget "object" fact) fact);
  deleted_at ← text_field "deleted_at" fact;
  Ok (mk_fact id subject predicate object (json_dumps (vget_or "qualifiers" (VDict []) fact))
        (py_str (vget_or "confidence" (VStr "medium") fact)) source owner project
        (json_dumps_ascii (vget_or "source_message_indexes" (VList []) fact)) created updated
        superseded_by superseded_at source_quality confidence_reason last_confirmed_at
        object_raw object_normalized deleted_at).
Definition _fact_from_row (r : fact_row) : result dict :=
  qualifiers ← json_loads (fr_qualifiers r);
  indexes ← json_loads (fr_indexes r);
  Ok [("id", VStr (fr_id r)); ("subject", VStr (fr_subject r)); ("predicate", VStr (fr_predicate r));
      ("object", VStr (fr_object r)); ("qualifiers", qualifiers); ("confidence", VStr (fr_confidence r));
      ("source_conversation_id", VStr (fr_source r)); ("owner_id", opt_str (fr_owner r));
      ("project_id", opt_str (fr_project r)); ("source_message_indexes", indexes);
      ("created_at", VStr (fr_created_at r)); ("updated_at", VStr (fr_updated_at r));
      ("superseded_by", opt_str (fr_superseded_by r)); ("superseded_at", opt_str (fr_superseded_at r));
      ("source_quality", opt_str (fr_source_quality r)); ("confidence_reason", opt_str (fr_confidence_reason r));
      ("last_confirmed_at", opt_str (fr_last_confirmed_at r)); ("object_raw", opt_str (fr_object_raw r));
      ("object_normalized", opt_str (fr_object_normalized r)); ("deleted_at", opt_str (fr_deleted_at r))].

Definition insert_fact (fact : dict) : DB unit :=
  _ ← _refresh_matching_fact_confirmation fact;
  _ ← _supersede_corrected_facts fact;
  new ← lift (_fact_row fact);
  exec (on_facts (tbl_upsert (is_fact (fr_id new)) new (set_fact new))).
Fixpoint each_do {A} (f : A → DB unit) (xs : list A) : DB unit :=
  match xs with [] => mret tt | x :: xs' => _ ← f x; each_do f xs' end.
Definition insert_facts (fs : list dict) : DB unit :=
  match fs with [] => mret tt | _ => transaction (each_do insert_fact fs) end.

(** [ORDER BY updated_at DESC, id ASC] *)
Definition newest_first {R} (updated : R → option string) (id : R → string) (a b : R) : bool :=
  match updated a, updated b with
  | Some x, Some y => match String.compare y x with Lt => true | Gt => false | Eq => String.leb (id a) (id b) end
  | Some _, None => true
  | None, Some _ => false
  | None, None => String.leb (id a) (id b)
  end.
Definition given (wanted : option string) (field : option string) : bool :=
  match wanted with Some w => opt_is w field | None => true end.
Definition search_facts (subject predicate : option string) (include_superseded : bool) (project_id : option string)
    : DB (list dict) :=
  rows ← query (λ d, sort_by (newest_first (λ r, Some (fr_updated_at r)) fr_id) (tbl_select (λ r,
    null (fr_deleted_at r) && given subject (Some (fr_subject r)) && given predicate (Some (fr_predicate r))
    && given project_id (fr_project r) && (include_superseded || null (fr_superseded_by r))) (facts d)));
  lift (map_result _fact_from_row rows).
Definition profile_get (subject : string) (project_id : option string) : DB dict :=
  fs ← search_facts (Some subject) None false project_id;
  mret [("subject", VStr subject); ("facts", VList (map VDict fs))].

Section now.
Variable now : instant.
Definition supersede_fact (fact_id superseded_by : string) (project_id : option string) : DB bool :=
  let ts := sql_timestamp now in
  let p r := is_fact fact_id r && null (fr_deleted_at r) && given project_id (fr_project r) in
  count ← query (λ d, tbl_count p (facts d));
  _ ← exec (on_facts (tbl_update p (set_superseded superseded_by ts ts)));
  mret (0 <? count).
End now.

(** ** The graph *)

Definition set_entity (new r : entity_row) : entity_row :=
  mk_entity (en_id r) (en_type new) (en_name new) (en_owner new) (en_project new) (en_review new) (en_payload new)
    (en_updated_at new).
Definition upsert_entity (entity : dict) : DB unit :=
  id ← lift (text_item "id" entity);
  type ← lift (text_item "entity_type" entity);
  name ← lift (text_item "normalized_name" entity);
  owner ← lift (text_field "owner_id" entity);
  project ← lift (text_field "project_id" entity);
  updated ← lift (text_field "updated_at" entity);
  let new := mk_entity id type name owner project (py_str (vget_or "review_status" (VStr "active") entity))
               (json_dumps (VDict entity)) updated in
  exec (on_entities (tbl_upsert (λ r, String.eqb (en_id r) id) new (set_entity new))).

Definition is_relationship (id : string) (r : relationship_row) : bool := String.eqb (re_id r) id.
Definition set_relationship (new r : relationship_row) : relationship_row :=
  mk_relationship (re_id r) (re_subject new) (re_predicate new) (re_object new) (re_owner new) (re_project new)
    (re_review new) (re_superseded_by new) (re_conflict_group new) (re_payload new) (re_updated_at new).
Definition upsert_relationship (relationship : dict) : DB unit :=
  id ← lift (text_item "id" relationship);
  subject ← lift (text_item "subject" relationship);
  predicate ← lift (text_item "predicate" relationship);
  object ← lift (text_item "object" relationship);
  owner ← lift (text_field "owner_id" relationship);
  project ← lift (text_field "project_id" relationship);
  superseded_by ← lift (text_field "superseded_by" relationship);
  conflict_group ← lift (text_field "conflict_group" relationship);
  updated ← lift (text_field "updated_at" relationship);
  let new := mk_relationship id subject predicate object owner project
               (py_str (vget_or "review_status" (VStr "active") relationship))
               superseded_by conflict_group (json_dumps (VDict relationship)) updated in
  exec (on_relationships (tbl_upsert (is_relationship id) new (set_relationship new))).

(** [COALESCE(x, '')] *)
Definition blank (x : option string) : string := default "" x.
Definition conflicts (id object group : string) (owner project : option string) (r : relationship_row) : bool :=
  opt_is group (re_conflict_group r) && negb (String.eqb (re_id r) id) && null (re_superseded_by r)
  && negb (String.eqb (re_object r) object) && String.eqb (blank (re_owner r)) (blank owner)
  && String.eqb (blank (re_project r)) (blank project).
Definition set_replaced (by_id : string) (updated : option string) (r : relationship_row) : relationship_row :=
  mk_relationship (re_id r) (re_subject r) (re_predicate r) (re_object r) (re_owner r) (re_project r)
    (re_review r) (Some by_id) (re_conflict_group r) (re_payload r) updated.
Definition supersede_conflicting (relationship : dict) : DB unit :=
  let conflict_group := vget "conflict_group" relationship in
  if negb (truthy conflict_group) then mret tt else
  id ← lift (text_item "id" relationship);
  object ← lift (text_item "object" relationship);
  updated ← lift (text_field "updated_at" relationship);
  owner ← lift (text_field "owner_id" relationship);
  project ← lift (text_field "project_id" relationship);
  exec (on_relationships (tbl_update (conflicts id object (py_str conflict_group) owner project)
    (set_replaced id updated))).
Definition _supersede_conflicting_relationships (rs : list dict) : DB unit := each_do supersede_conflicting rs.
Definition upsert_graph_records (es rs : list dict) : DB unit :=
  transaction (
    _ ← each_do upsert_entity es;
    _ ← each_do upsert_relationship rs;
    _supersede_conflicting_relationships rs).

Definition reviewed (status : string) : bool :=
  String.eqb status "active" || String.eqb status "approved" || String.eqb status "needs_review".
(** [row["payload"]] with the column's successor *)
Definition _graph_relationship_from_row (r : relationship_row) : result dict :=
  payload ← json_loads (re_payload r);
  match payload with
  | VDict p => Ok (dict_set "superseded_by" (opt_str (re_superseded_by r)) p)
  | _ => Raise (TypeError "object does not support item assignment")
  end.
Definition search_graph_relationships (subject predicate owner_id project_id : option string)
    (include_superseded : bool) : DB (list dict) :=
  rows ← query (λ d, sort_by (newest_first re_updated_at re_id) (tbl_select (λ r,
    given subject (Some (re_subject r)) && given predicate (Some (re_predicate r))
    && given owner_id (re_owner r) && given project_id (re_project r)
    && (include_superseded || null (re_superseded_by r) && reviewed (re_review r))) (relationships d)));
  lift (map_result _graph_relationship_from_row rows).
