(* ===== verification/FactFacts.v ===== *)
(** * Guarantees of the fact and graph tables

    What an insertion does to the facts already stored, that live facts are
    found, and how relationships of one conflict group replace one another. *)
From Stdlib Require Import ZArith Lia Ascii Sorted.
From S2P Require Import Prelude PyStr Json Hash Clock Config Identity AuthDb AuthStore OAuthStore AuthSystem Samples ConvStore FactStore.
Local Open Scope Z_scope.

(** ** LIKE *)

Definition contains_text (p s : string) : Prop := ∃ a b, s = a +:+ p +:+ b.
(** A pattern text without wildcards. *)
Definition plain_char (c : ascii) : bool := negb (Ascii.eqb c "%"%char) && negb (Ascii.eqb c "_"%char).
Definition plain (p : string) : bool := forallb plain_char (str_list p).

Lemma append_nil_r s : s +:+ "" = s.
Proof. induction s as [|c s IH]; cbn; [done|]. by f_equal. Qed.
Lemma like_any s : like "%" s = true.
Proof. induction s as [|c s IH]; [done|]. cbn in *. done. Qed.
Lemma like_percent p s : like (String "%" p) s = true ↔ ∃ a b, s = a +:+ b ∧ like p b = true.
Proof.
  split.
  - induction s as [|c s IH]; cbn; rewrite orb_true_iff.
    + intros [Hp|?]; [|done]. by exists "", "".
    + intros [Hp|Hs]; [by exists "", (String c s)|].
      destruct IH as (a & b & -> & Hb); [done|]. by exists (String c a), b.
  - intros (a & b & -> & Hb). induction a as [|c a IH]; cbn.
    + destruct b; cbn; by rewrite Hb.
    + cbn in IH. by rewrite IH, orb_true_r.
Qed.
Lemma like_prefix p s : plain p = true →
  like (p +:+ "%") s = true ↔ ∃ m b, s = m +:+ b ∧ sql_lower m = sql_lower p.
Proof.
  revert s. induction p as [|c p IH]; intros s Hp.
  - cbn [String.append]. rewrite like_any. split; [|done]. by exists "", s.
  - cbn in Hp. apply andb_true_iff in Hp as [[Hc Hu]%andb_true_iff Hp]. prop_bool.
    cbn [String.append like]. rewrite Hc. destruct s as [|d s].
    + split; [done|]. intros ([|] & b & E & Hm); cbn in *; done.
    + rewrite Hu, orb_false_l, andb_true_iff, (IH s Hp), Ascii.eqb_eq. split.
      * intros [Hd (m & b & -> & Hm)]. exists (String d m), b. split; [done|]. unfold sql_lower in *. cbn. by rewrite Hd, Hm.
      * unfold sql_lower. intros ([|d' m] & b & E & Hm); cbn in *; [done|]. simplify_eq. split; [done|]. by exists m, b.
Qed.

Lemma sql_lower_char_idem c : sql_lower_char (sql_lower_char c) = sql_lower_char c.
Proof. destruct c as [[] [] [] [] [] [] [] []]; vm_compute; reflexivity. Qed.
Lemma sql_lower_app a b : sql_lower (a +:+ b) = sql_lower a +:+ sql_lower b.
Proof. unfold sql_lower. induction a as [|c a IH]; cbn; [done|]. by rewrite IH. Qed.
Lemma sql_lower_idem s : sql_lower (sql_lower s) = sql_lower s.
Proof. unfold sql_lower. induction s as [|c s IH]; cbn; [done|]. by rewrite IH, sql_lower_char_idem. Qed.
Lemma sql_lower_lower s : sql_lower (lower s) = lower s.
Proof.
  unfold sql_lower, lower. induction s as [|c s IH]; cbn; [done|]. rewrite IH. f_equal.
  destruct c as [[] [] [] [] [] [] [] []]; vm_compute; reflexivity.
Qed.
Lemma append_inj_length a b a' b' : a +:+ b = a' +:+ b' → String.length a = String.length a' → a = a' ∧ b = b'.
Proof.
  revert a'. induction a as [|c a IH]; intros [|c' a'] E Hl; cbn in *; try done.
  injection Hl as Hl. injection E as -> E. by destruct (IH a' E Hl) as [-> ->].
Qed.
Lemma sql_lower_length s : String.length (sql_lower s) = String.length s.
Proof. unfold sql_lower. induction s as [|c s IH]; cbn; [done|]. by rewrite IH. Qed.
(** [LIKE '%p%'] on lowered texts is the substring test, when [p] has no wildcard. *)
Lemma like_contains p s : plain p = true → sql_lower p = p →
  like ("%" +:+ p +:+ "%") (sql_lower s) = true ↔ contains_text p (sql_lower s).
Proof.
  intros Hp Hl. cbn [String.append]. rewrite like_percent. split.
  - intros (a & b & E & Hb). apply (like_prefix p b Hp) in Hb as (m & b' & -> & Hm).
    exists a, b'. rewrite E. f_equal. f_equal. rewrite Hl in Hm. rewrite <-Hm.
    pose proof (f_equal sql_lower E) as E'. rewrite sql_lower_idem, E, !sql_lower_app in E'.
    apply append_inj_length in E' as [_ E']; [|by rewrite sql_lower_length].
    by apply append_inj_length in E' as [E' _]; [|by rewrite sql_lower_length].
  - intros (a & b & E). exists a, (p +:+ b). split; [done|]. apply like_prefix; [done|]. by exists p, b.
Qed.

(** ** What an insertion does to the stored facts *)

Record row_fields (fact : dict) (new : fact_row) : Prop := mk_row_fields {
  rf_id : text_item "id" fact = Ok (fr_id new);
  rf_subject : text_item "subject" fact = Ok (fr_subject new);
  rf_predicate : text_item "predicate" fact = Ok (fr_predicate new);
  rf_object : text_item "object" fact = Ok (fr_object new);
  rf_updated : text_item "updated_at" fact = Ok (fr_updated_at new);
  rf_owner : text_field "owner_id" fact = Ok (fr_owner new);
  rf_project : text_field "project_id" fact = Ok (fr_project new);
  rf_superseded : text_field "superseded_by" fact = Ok (fr_superseded_by new);
  rf_deleted : text_field "deleted_at" fact = Ok (fr_deleted_at new);
  rf_qualifiers : fr_qualifiers new = json_dumps (vget_or "qualifiers" (VDict []) fact);
  rf_indexes : fr_indexes new = json_dumps_ascii (vget_or "source_message_indexes" (VList []) fact) }.
Lemma fact_row_fields fact new : _fact_row fact = Ok new → row_fields fact new.
Proof. unfold _fact_row. intros Hr. inv_ok. subst new. by split. Qed.

(** The facts a new one confirms, and those it corrects. *)
Definition confirms (fact : dict) (new r : fact_row) : bool :=
  match vget "source_quality" fact with VStr q => String.eqb q "direct_user_statement" | _ => false end
  && (same_scope (fr_subject new) (fr_predicate new) (fr_owner new) (fr_project new) r
      && String.eqb (fr_object r) (fr_object new)).
Definition replaces (fact : dict) (new r : fact_row) : bool :=
  match corrects fact with
  | Some c => same_scope (fr_subject new) (fr_predicate new) (fr_owner new) (fr_project new) r
              && like ("%" +:+ lower c +:+ "%") (sql_lower (fr_object r))
  | None => false
  end.
Definition confirm_row (fact : dict) (new r : fact_row) : fact_row :=
  if confirms fact new r then set_confirmed (py_str (vget "last_confirmed_at" fact)) (fr_updated_at new) r else r.
Definition replace_row (fact : dict) (new r : fact_row) : fact_row :=
  if replaces fact new r then set_superseded (fr_id new) (fr_updated_at new) (fr_updated_at new) r else r.

Lemma tbl_update_false {R} (f : R → R) t : tbl_update (λ _, false) f t = t.
Proof. unfold tbl_update. by rewrite map_id. Qed.
Lemma on_facts_id d : on_facts (λ t, t) d = d.
Proof. by destruct d. Qed.
Lemma text_item_vget k d s : text_item k d = Ok s → s = py_str (vget k d).
Proof. unfold text_item, item, vget. destruct (dict_get k d); cbn; congruence. Qed.

Ltac use_fields Hf :=
  destruct Hf as [Hid Hsub Hpre Hobj Hup Hown Hpro _ _ _ _];
  repeat match goal with H : ?x = Ok _, H' : ?x = Ok _ |- _ => rewrite H in H'; injection H' as H'; subst end.

Lemma refresh_run fact new d u d' : _fact_row fact = Ok new →
  _refresh_matching_fact_confirmation fact d = (Ok u, d') → d' = on_facts (map (confirm_row fact new)) d.
Proof.
  intros Hf%fact_row_fields Hr. unfold _refresh_matching_fact_confirmation in Hr.
  assert (Hno : (∀ r, confirms fact new r = false) → d = on_facts (map (confirm_row fact new)) d).
  { intros Hc. rewrite <-(on_facts_id d) at 1. unfold on_facts. f_equal. symmetry.
    rewrite <-(map_id (facts d)) at 2. apply map_ext. intros r. unfold confirm_row. by rewrite Hc. }
  destruct (vget "source_quality" fact) as [| | | |q| | ] eqn:Hq;
    try (apply ret_run in Hr as [_ ->]; apply Hno; intros r; unfold confirms; by rewrite Hq).
  destruct (String.eqb q "direct_user_statement") eqn:E; cbn [negb] in Hr.
  - inv_run. use_fields Hf.
    match goal with H : text_item "last_confirmed_at" _ = _ |- _ => apply text_item_vget in H; subst end.
    unfold on_facts, tbl_update. f_equal. apply map_ext. intros r. unfold confirm_row, confirms. by rewrite Hq, E.
  - apply ret_run in Hr as [_ ->]. apply Hno. intros r. unfold confirms. by rewrite Hq, E.
Qed.
Lemma replace_run fact new d u d' : _fact_row fact = Ok new →
  _supersede_corrected_facts fact d = (Ok u, d') → d' = on_facts (map (replace_row fact new)) d.
Proof.
  intros Hf%fact_row_fields Hr. unfold _supersede_corrected_facts in Hr.
  destruct (corrects fact) as [c|] eqn:Hc.
  - inv_run. use_fields Hf.
    unfold on_facts, tbl_update. f_equal. apply map_ext. intros r. unfold replace_row, replaces. by rewrite Hc.
  - apply ret_run in Hr as [_ ->]. rewrite <-(on_facts_id d) at 1. unfold on_facts. f_equal.
    symmetry.
    rewrite <-(map_id (facts d)) at 2. apply map_ext. intros r. unfold replace_row, replaces. by rewrite Hc.
Qed.
Lemma insert_fact_run fact d u d' : insert_fact fact d = (Ok u, d') → ∃ new, _fact_row fact = Ok new ∧
  d' = on_facts (tbl_upsert (is_fact (fr_id new)) new (set_fact new))
         (on_facts (map (λ r, replace_row fact new (confirm_row fact new r))) d).
Proof.
  unfold insert_fact. intros Hr.
  apply (proj1 (bind_run _ _ _ _ _)) in Hr as (u1 & d1 & H1 & Hr).
  apply (proj1 (bind_run _ _ _ _ _)) in Hr as (u2 & d2 & H2 & Hr).
  apply (proj1 (bind_run _ _ _ _ _)) in Hr as (new & d3 & H3 & Hr). apply lift_run in H3 as [Hn ->].
  apply exec_run in Hr. exists new. split; [done|]. apply (refresh_run _ _ _ _ _ Hn) in H1.
  apply (replace_run _ _ _ _ _ Hn) in H2. subst. destruct d; cbn. unfold on_facts; cbn. by rewrite map_map.
Qed.
Lemma insert_one fact d d' : insert_facts [fact] d = (Ok tt, d') → insert_fact fact d = (Ok tt, d').
Proof.
  unfold insert_facts. rewrite transaction_run. cbn. intros Hr. inv_run.
  match goal with H : insert_fact _ _ = (Ok ?u, _) |- _ => by destruct u end.
Qed.

Definition in_scope (new r : fact_row) : Prop :=
  fr_subject r = fr_subject new ∧ fr_predicate r = fr_predicate new ∧ fr_owner r = fr_owner new ∧
  fr_project r = fr_project new ∧ fr_superseded_by r = None ∧ fr_deleted_at r = None.
(** The fields no insertion of another fact changes. *)
Definition content (r : fact_row) :=
  (fr_id r, fr_subject r, fr_predicate r, fr_object r, fr_qualifiers r, fr_confidence r, fr_source r,
   fr_owner r, fr_project r, fr_indexes r, fr_created_at r, fr_deleted_at r).
Lemma same_scope_in_scope new r :
  same_scope (fr_subject new) (fr_predicate new) (fr_owner new) (fr_project new) r = true ↔ in_scope new r.
Proof.
  unfold same_scope, in_scope. rewrite !andb_true_iff, !String.eqb_eq, !bool_decide_eq_true.
  destruct (fr_superseded_by r), (fr_deleted_at r); cbn; naive_solver.
Qed.
Lemma confirm_content fact new r : content (confirm_row fact new r) = content r.
Proof. unfold confirm_row. by destruct (confirms fact new r). Qed.
Lemma replace_content fact new r : content (replace_row fact new r) = content r.
Proof. unfold replace_row. by destruct (replaces fact new r). Qed.
Lemma content_id r r' : content r' = content r → fr_id r' = fr_id r.
Proof. unfold content. congruence. Qed.
Lemma confirm_superseded fact new r : fr_superseded_by (confirm_row fact new r) = fr_superseded_by r.
Proof. unfold confirm_row. by destruct (confirms fact new r). Qed.
Lemma replaces_confirm fact new r : replaces fact new (confirm_row fact new r) = replaces fact new r.
Proof. unfold confirm_row, replaces. by destruct (confirms fact new r). Qed.
Lemma is_fact_refl i r : is_fact i r = true ↔ fr_id r = i.
Proof. apply String.eqb_eq. Qed.

Lemma find_map {R} (p : R → bool) f t : (∀ r, p (f r) = p r) → tbl_find p (map f t) = f <$> tbl_find p t.
Proof.
  intros Hf. unfold tbl_find. induction t as [|r t IH]; cbn; [done|]. rewrite Hf. by destruct (p r).
Qed.
Definition after_insert (fact : dict) (new r : fact_row) : fact_row := replace_row fact new (confirm_row fact new r).
Lemma after_content fact new r : content (after_insert fact new r) = content r.
Proof. unfold after_insert. by rewrite replace_content, confirm_content. Qed.
Lemma after_is_fact i fact new r : is_fact i (after_insert fact new r) = is_fact i r.
Proof. unfold is_fact. by rewrite (content_id _ _ (after_content fact new r)). Qed.
Lemma unique_after fact new t : unique_key fr_id t → unique_key fr_id (map (after_insert fact new) t).
Proof.
  unfold unique_key. rewrite map_map. rewrite (map_ext (λ r, fr_id (after_insert fact new r)) fr_id); [done|].
  intros r. apply content_id, after_content.
Qed.
Lemma insert_other i fact new d : i ≠ fr_id new →
  tbl_find (is_fact i) (tbl_upsert (is_fact (fr_id new)) new (set_fact new) (map (after_insert fact new) (facts d)))
  = after_insert fact new <$> tbl_find (is_fact i) (facts d).
Proof.
  intros Hi. rewrite tbl_find_upsert_other.
  - apply find_map. intros. apply after_is_fact.
  - apply String.eqb_neq. congruence.
  - intros r' Hr'%is_fact_refl. unfold is_fact. cbn. rewrite Hr'. split; apply String.eqb_neq; congruence.
Qed.
Lemma insert_new_row fact new d :
  tbl_find (is_fact (fr_id new)) (tbl_upsert (is_fact (fr_id new)) new (set_fact new) (map (after_insert fact new) (facts d)))
  = Some (set_fact new (default new (tbl_find (is_fact (fr_id new)) (facts d)))).
Proof.
  rewrite tbl_find_upsert; [|done|by apply is_fact_refl].
  rewrite find_map by (intros; apply after_is_fact).
  destruct (tbl_find _ (facts d)) as [r|]; cbn; [|by destruct new].
  pose proof (after_content fact new r) as Hc. unfold content in Hc. unfold set_fact.
  assert (fr_id (after_insert fact new r) = fr_id r) as -> by congruence.
  by assert (fr_created_at (after_insert fact new r) = fr_created_at r) as -> by congruence.
Qed.
Lemma unique_insert_fact fact new t : unique_key fr_id t →
  unique_key fr_id (tbl_upsert (is_fact (fr_id new)) new (set_fact new) (map (after_insert fact new) t)).
Proof. intros Ht. apply unique_upsert; [done|intros; by apply is_fact_refl|by apply unique_after]. Qed.
Lemma after_superseded fact new r : fr_superseded_by (after_insert fact new r) =
  if replaces fact new r then Some (fr_id new) else fr_superseded_by r.
Proof.
  unfold after_insert, replace_row. rewrite replaces_confirm. destruct (replaces fact new r); [done|].
  apply confirm_superseded.
Qed.
Lemma after_confirmed fact new r : confirms fact new r = true →
  fr_last_confirmed_at (after_insert fact new r) = Some (py_str (vget "last_confirmed_at" fact)).
Proof.
  intros Hc. unfold after_insert, replace_row. rewrite replaces_confirm. unfold confirm_row. rewrite Hc.
  by destruct (replaces fact new r).
Qed.


(** ** Reachable stores *)

Inductive fact_op :=
  | OpFacts (fs : list dict)
  | OpSupersede (fact_id by_id : string) (project : option string)
  | OpGraph (es rs : list dict).
Definition fact_op_wf (o : fact_op) : Prop :=
  match o with
  | OpFacts fs => Forall (λ f, wf_value (VDict f)) fs
  | OpSupersede _ _ _ => True
  | OpGraph es rs => Forall (λ r, wf_value (VDict r)) rs
  end.
Definition fact_step (now : instant) (o : fact_op) (d : FactDb) : FactDb :=
  match o with
  | OpFacts fs => (insert_facts fs d).2
  | OpSupersede i b p => (supersede_fact now i b p d).2
  | OpGraph es rs => (upsert_graph_records es rs d).2
  end.
Definition empty_facts : FactDb := mk_fact_db [] [] [].
Inductive fact_reachable : FactDb → Prop :=
  | fact_start : fact_reachable empty_facts
  | fact_next now o d : fact_op_wf o → fact_reachable d → fact_reachable (fact_step now o d).

(** The JSON columns of a fact hold JSON. *)
Definition fact_ok (r : fact_row) : Prop := ∃ q ix, wf_value q ∧ wf_value ix ∧
  fr_qualifiers r = json_dumps q ∧ fr_indexes r = json_dumps_ascii ix.
Definition relationship_ok (r : relationship_row) : Prop := ∃ p, wf_value (VDict p) ∧ re_payload r = json_dumps (VDict p).
Record fact_inv (d : FactDb) : Prop := mk_fact_inv {
  inv_ids : unique_key fr_id (facts d);
  inv_json : Forall fact_ok (facts d);
  inv_rel_ids : unique_key re_id (relationships d);
  inv_payloads : Forall relationship_ok (relationships d) }.

Lemma wf_vget_or k x d : wf_value (VDict d) → wf_value x → wf_value (vget_or k x d).
Proof. intros Hd Hx. unfold vget_or. destruct (dict_get k d) eqn:E; [by eapply wf_dict_get|done]. Qed.
Lemma fact_row_ok fact new : wf_value (VDict fact) → _fact_row fact = Ok new → fact_ok new.
Proof.
  intros Hwf Hn%fact_row_fields. exists (vget_or "qualifiers" (VDict []) fact), (vget_or "source_message_indexes" (VList []) fact).
  split_and!; [by apply wf_vget_or; [|split; [constructor|]]|by apply wf_vget_or|apply Hn|apply Hn].
Qed.
Lemma on_facts_inv f d : fact_inv d → unique_key fr_id (f (facts d)) → Forall fact_ok (f (facts d)) → fact_inv (on_facts f d).
Proof. intros [] ??. by split. Qed.
Lemma on_relationships_inv f d : fact_inv d → unique_key re_id (f (relationships d)) →
  Forall relationship_ok (f (relationships d)) → fact_inv (on_relationships f d).
Proof. intros [] ??. by split. Qed.
Lemma update_facts_inv p f d : (∀ r, fr_id (f r) = fr_id r) → (∀ r, fact_ok r → fact_ok (f r)) →
  fact_inv d → fact_inv (on_facts (tbl_update p f) d).
Proof. intros Hk Hf Hd. apply on_facts_inv; [done|apply unique_update|apply Forall_tbl_update]; auto; apply Hd. Qed.
Hint Resolve update_facts_inv : hub.
Lemma set_superseded_ok b t u r : fact_ok r → fact_ok (set_superseded b t u r).
Proof. done. Qed.
Lemma refresh_inv fact : moves (keeps fact_inv) (_refresh_matching_fact_confirmation fact).
Proof. unfold _refresh_matching_fact_confirmation. destruct (vget _ _); walk; intros Hd; by apply update_facts_inv. Qed.
Lemma replace_inv fact : moves (keeps fact_inv) (_supersede_corrected_facts fact).
Proof. unfold _supersede_corrected_facts. walk. intros Hd. by apply update_facts_inv. Qed.
Lemma upsert_fact_inv new : fact_ok new →
  moves (keeps fact_inv) (exec (on_facts (tbl_upsert (is_fact (fr_id new)) new (set_fact new)))).
Proof.
  intros Hn. apply moves_exec. intros d Hd. apply on_facts_inv; [done| |].
  - apply unique_upsert; [done|intros; by apply is_fact_refl|apply Hd].
  - apply Forall_forall. intros r Hr.
    apply elem_of_tbl_upsert in Hr as [->|[[Hr _]|(r1 & _ & _ & ->)]]; [done| |done].
    destruct Hd as [_ Hd _ _]. rewrite Forall_forall in Hd. by apply Hd.
Qed.
Lemma insert_fact_inv fact : wf_value (VDict fact) → moves (keeps fact_inv) (insert_fact fact).
Proof.
  intros Hwf. unfold insert_fact. apply moves_bind; [apply _|apply refresh_inv|]. intros _.
  apply moves_bind; [apply _|apply replace_inv|]. intros _.
  apply moves_checked; [apply _|]. intros new Hn. apply upsert_fact_inv. by eapply fact_row_ok.
Qed.
Lemma each_do_moves {A} R `{!PreOrder R} (f : A → M FactDb unit) xs :
  Forall (λ x, moves R (f x)) xs → moves R (each_do f xs).
Proof. induction 1; cbn; [apply moves_ret; apply _|]. apply moves_bind; [apply _|done|]. by intros. Qed.
Lemma insert_facts_inv fs : Forall (λ f, wf_value (VDict f)) fs → moves (keeps fact_inv) (insert_facts fs).
Proof.
  intros Hwf. unfold insert_facts. destruct fs as [|f fs]; [apply moves_ret; apply _|].
  apply moves_transaction; [apply _|]. apply each_do_moves; [apply _|].
  eapply Forall_impl; [exact Hwf|]. apply insert_fact_inv.
Qed.
Lemma supersede_inv now i b p : moves (keeps fact_inv) (supersede_fact now i b p).
Proof. unfold supersede_fact. cbv zeta. walk. intros Hd. by apply update_facts_inv. Qed.

Lemma upsert_entity_inv e : moves (keeps fact_inv) (upsert_entity e).
Proof. unfold upsert_entity. cbv zeta. walk. intros []. by split. Qed.
(** What one relationship does to the table. *)
Lemma upsert_relationship_run r d u d' : upsert_relationship r d = (Ok u, d') → ∃ new,
  text_item "id" r = Ok (re_id new) ∧ text_item "object" r = Ok (re_object new) ∧
  text_field "owner_id" r = Ok (re_owner new) ∧ text_field "project_id" r = Ok (re_project new) ∧
  text_field "superseded_by" r = Ok (re_superseded_by new) ∧
  text_field "conflict_group" r = Ok (re_conflict_group new) ∧ re_payload new = json_dumps (VDict r) ∧
  d' = on_relationships (tbl_upsert (is_relationship (re_id new)) new (set_relationship new)) d.
Proof. unfold upsert_relationship. intros Hr. inv_run. eexists (mk_relationship _ _ _ _ _ _ _ _ _ _ _). by split_and!. Qed.
Lemma set_relationship_new new r : re_id r = re_id new → set_relationship new r = new.
Proof. intros Hr. unfold set_relationship. rewrite Hr. by destruct new. Qed.
Lemma elem_of_upsert_relationship new r t :
  r ∈ tbl_upsert (is_relationship (re_id new)) new (set_relationship new) t → r = new ∨ r ∈ t ∧ re_id r ≠ re_id new.
Proof.
  unfold tbl_upsert. destruct (existsb _ t) eqn:E.
  - rewrite elem_of_tbl_update. intros (r0 & Hr0 & ->). destruct (is_relationship _ r0) eqn:Ei.
    + left. apply set_relationship_new. by apply String.eqb_eq.
    + right. split; [done|]. by apply String.eqb_neq.
  - rewrite elem_of_app, list_elem_of_singleton. intros [Hr| ->]; [right|by left]. split; [done|].
    pose proof (existsb_false_elem _ _ _ E Hr) as Hn. by apply String.eqb_neq.
Qed.
Lemma upsert_relationship_inv r : wf_value (VDict r) → moves (keeps fact_inv) (upsert_relationship r).
Proof.
  intros Hwf d Hd. destruct (upsert_relationship r d) as [[u|e] d'] eqn:E; cbn [snd].
  - apply upsert_relationship_run in E as (new & _ & _ & _ & _ & _ & _ & Hp & ->). apply on_relationships_inv; [done| |].
    + apply unique_upsert; [done| |apply Hd]. intros r' Hr'. by apply String.eqb_eq.
    + apply Forall_forall. intros r' [->|[Hr' _]]%elem_of_upsert_relationship; [by exists r|].
      destruct Hd as [_ _ _ Hd]. rewrite Forall_forall in Hd. by apply Hd.
  - assert (d' = d) as ->; [|done]. revert E. unfold upsert_relationship. simpl_monad.
    intros E. split_matches; done.
Qed.
Lemma conflicting_inv r : moves (keeps fact_inv) (supersede_conflicting r).
Proof.
  unfold supersede_conflicting. cbv zeta. walk. intros Hd. apply on_relationships_inv; [done| |].
  - apply unique_update; [done|apply Hd].
  - apply Forall_tbl_update; [apply Hd|done].
Qed.
Lemma upsert_graph_inv es rs : Forall (λ r, wf_value (VDict r)) rs → moves (keeps fact_inv) (upsert_graph_records es rs).
Proof.
  intros Hwf. unfold upsert_graph_records. apply moves_transaction; [apply _|].
  apply moves_bind; [apply _|apply each_do_moves; [apply _|]|intros _].
  { apply Forall_forall. intros. apply upsert_entity_inv. }
  apply moves_bind; [apply _|apply each_do_moves; [apply _|]|intros _].
  { eapply Forall_impl; [exact Hwf|]. apply upsert_relationship_inv. }
  apply each_do_moves; [apply _|]. apply Forall_forall. intros. apply conflicting_inv.
Qed.
Lemma fact_reachable_inv d : fact_reachable d → fact_inv d.
Proof.
  induction 1 as [|now o d Ho Hd IH].
  - split; cbn; constructor.
  - destruct o; cbn in *; [by apply insert_facts_inv|by apply supersede_inv|by apply upsert_graph_inv].
Qed.

(** ** Searching *)

Lemma from_row_ok r q ix : wf_value q → wf_value ix → fr_qualifiers r = json_dumps q → fr_indexes r = json_dumps_ascii ix →
  ∃ v, _fact_from_row r = Ok v ∧ vget "id" v = VStr (fr_id r) ∧ vget "subject" v = VStr (fr_subject r) ∧
  vget "predicate" v = VStr (fr_predicate r) ∧ vget "object" v = VStr (fr_object r) ∧ vget "qualifiers" v = q ∧
  vget "source_message_indexes" v = ix ∧ vget "project_id" v = opt_str (fr_project r).
Proof.
  intros Hq Hix Eq Eix. unfold _fact_from_row. rewrite Eq, Eix, loads_dumps, loads_dumps_ascii by done.
  eexists. split; [reflexivity|]. by split_and!.
Qed.
Definition visible (subject predicate project : option string) (superseded : bool) (r : fact_row) : bool :=
  null (fr_deleted_at r) && given subject (Some (fr_subject r)) && given predicate (Some (fr_predicate r))
  && given project (fr_project r) && (superseded || null (fr_superseded_by r)).
Lemma search_facts_run s p inc q d : fact_inv d → ∃ vs, search_facts s p inc q d = (Ok vs, d) ∧
  ∀ v, v ∈ vs ↔ ∃ r, r ∈ facts d ∧ visible s p q inc r = true ∧ _fact_from_row r = Ok v.
Proof.
  intros Hd. unfold search_facts. unfold mbind, M_bind, query, lift.
  change (λ r, null (fr_deleted_at r) && given s (Some (fr_subject r)) && given p (Some (fr_predicate r)) &&
    given q (fr_project r) && (inc || null (fr_superseded_by r))) with (visible s p q inc).
  set (rows := sort_by _ _).
  assert (Hrows : ∀ r, r ∈ rows ↔ r ∈ facts d ∧ visible s p q inc r = true).
  { intros r. unfold rows. by rewrite sort_by_perm, elem_of_tbl_select. }
  destruct (map_result_Ok _fact_from_row rows) as [vs Hvs].
  { apply Forall_forall. intros r [Hr _]%Hrows. destruct Hd as [_ Hd _ _]. rewrite Forall_forall in Hd.
    destruct (Hd r Hr) as (qu & ix & ? & ? & ? & ?). destruct (from_row_ok r qu ix) as (v & Hv & _); [done..|by exists v]. }
  exists vs. rewrite Hvs. split; [done|]. intros v. rewrite (map_result_elem _ _ _ Hvs). setoid_rewrite Hrows. naive_solver.
Qed.

(** A live fact that is inserted is found: a search for its subject, its
    predicate and its project, each given or not, answers, and lists it with its
    object and the qualifiers and message indexes it was inserted with. *)
Theorem inserted_fact_found fact d d' s p q inc : fact_reachable d → wf_value (VDict fact) →
  vget "superseded_by" fact = VNone → vget "deleted_at" fact = VNone →
  insert_facts [fact] d = (Ok tt, d') →
  (s = None ∨ s = Some (py_str (vget "subject" fact))) →
  (p = None ∨ p = Some (py_str (vget "predicate" fact))) →
  (q = None ∨ opt_str q = vget "project_id" fact) →
  ∃ l v, search_facts s p inc q d' = (Ok l, d') ∧ v ∈ l ∧
    vget "id" v = VStr (py_str (vget "id" fact)) ∧ vget "object" v = VStr (py_str (vget "object" fact)) ∧
    vget "qualifiers" v = vget_or "qualifiers" (VDict []) fact ∧
    vget "source_message_indexes" v = vget_or "source_message_indexes" (VList []) fact.
Proof.
  intros Hd Hwf Hlive Hkept Hr Hs Hp Hq. apply fact_reachable_inv in Hd.
  assert (Hd' : fact_inv d').
  { refine (moves_run _ _ _ _ _ (insert_facts_inv [fact] _) Hr Hd). by constructor. }
  apply insert_one, insert_fact_run in Hr as (new & Hn & ->).
  pose proof (fact_row_fields _ _ Hn) as Hf. destruct Hf as [Hid Hsub Hpre Hobj _ _ Hpro Hsup Hdel Hqu Hix].
  apply text_item_vget in Hid, Hsub, Hpre, Hobj. unfold text_field in Hpro, Hsup, Hdel.
  rewrite Hlive in Hsup. rewrite Hkept in Hdel. injection Hsup as Hsup. injection Hdel as Hdel.
  destruct (search_facts_run s p inc q _ Hd') as (l & Hl & Hin). exists l.
  pose proof (insert_new_row fact new d) as Hrow. set (r := set_fact new _) in Hrow.
  assert (Hwq : wf_value (vget_or "qualifiers" (VDict []) fact)) by (by apply wf_vget_or; [|split; [constructor|]]).
  assert (Hwi : wf_value (vget_or "source_message_indexes" (VList []) fact)) by by apply wf_vget_or.
  destruct (from_row_ok r _ _ Hwq Hwi Hqu Hix) as (v & Hv & Vid & _ & _ & Vobj & Vqu & Vix & _).
  exists v. split; [exact Hl|]. apply tbl_find_Some in Hrow as [Hrow Hri%is_fact_refl].
  split; [|rewrite Vid, Vobj, <-Hid, <-Hobj, Hri; done].
  apply Hin. exists r. split; [exact Hrow|]. split; [|done].
  unfold visible. cbn [fr_deleted_at fr_subject fr_predicate fr_project fr_superseded_by r set_fact].
  rewrite <-Hdel, <-Hsup. cbn [null]. rewrite orb_true_r, andb_true_r, !andb_true_iff.
  split_and!; [done| | |].
  - destruct Hs as [->| ->]; [done|]. rewrite <-Hsub. cbn. apply String.eqb_refl.
  - destruct Hp as [->| ->]; [done|]. rewrite <-Hpre. cbn. apply String.eqb_refl.
  - destruct Hq as [->|Hq]; [done|]. destruct q as [q|]; [|done]. rewrite <-Hq in Hpro. injection Hpro as Hpro.
    rewrite <-Hpro. cbn. apply String.eqb_refl.
Qed.

Definition can_supersede (i : string) (project : option string) (r : fact_row) : bool :=
  is_fact i r && null (fr_deleted_at r) && given project (fr_project r).
Lemma count_positive {R} (p : R → bool) t : (0 <? tbl_count p t) = existsb p t.
Proof.
  induction t as [|r t IH]; [done|]. rewrite tbl_count_cons. cbn [existsb]. pose proof (tbl_count_nonneg p t).
  destruct (p r); cbn; [apply Z.ltb_lt; lia|]. by rewrite Z.add_0_l.
Qed.
Lemma supersede_run now i by_id project d b d' : supersede_fact now i by_id project d = (Ok b, d') →
  b = existsb (can_supersede i project) (facts d) ∧
  d' = on_facts (tbl_update (can_supersede i project) (set_superseded by_id (sql_timestamp now) (sql_timestamp now))) d.
Proof. unfold supersede_fact. cbv zeta. intros Hr. rewrite <-count_positive. by injection Hr as <- <-. Qed.
Lemma given_spec (q f : option string) : given q f = true ↔ q = None ∨ f = q.
Proof.
  destruct q as [x|]; cbn; [|naive_solver]. destruct f as [y|]; cbn; [|naive_solver].
  rewrite String.eqb_eq. naive_solver.
Qed.
Lemma can_supersede_find i project t : unique_key fr_id t →
  existsb (can_supersede i project) t = true ↔
  ∃ r, tbl_find (is_fact i) t = Some r ∧ fr_deleted_at r = None ∧ (project = None ∨ fr_project r = project).
Proof.
  intros Hu. rewrite existsb_elem. split.
  - intros (r & Hr & [[Hi Hk]%andb_true_iff Hp]%andb_true_iff). exists r. split; [|split].
    + apply (tbl_find_unique fr_id); [done| |done|done]. intros r' Hr'%is_fact_refl. apply is_fact_refl in Hi. congruence.
    + by destruct (fr_deleted_at r).
    + by apply given_spec.
  - intros (r & [Hr Hi]%tbl_find_Some & Hk & Hp). exists r. split; [done|]. unfold can_supersede.
    rewrite Hi, Hk. by apply given_spec in Hp as ->.
Qed.
Lemma from_row_id r v : _fact_from_row r = Ok v → vget "id" v = VStr (fr_id r).
Proof. unfold _fact_from_row. intros Hv. inv_ok. by subst v. Qed.

(** Superseding a fact by id succeeds exactly when a fact with this id is
    stored, not deleted, in the given project if one is given; otherwise it
    changes nothing.  No other fact is affected, and a superseded fact is in no
    list of live facts. *)
Theorem supersede_fact_spec now i by_id project d b d' : fact_reachable d →
  supersede_fact now i by_id project d = (Ok b, d') →
  (b = true ↔ ∃ r, tbl_find (is_fact i) (facts d) = Some r ∧ fr_deleted_at r = None ∧
                   (project = None ∨ fr_project r = project)) ∧
  (b = false → d' = d) ∧
  (∀ j, j ≠ i → tbl_find (is_fact j) (facts d') = tbl_find (is_fact j) (facts d)) ∧
  (b = true → (∃ r', tbl_find (is_fact i) (facts d') = Some r' ∧ fr_superseded_by r' = Some by_id ∧
                     fr_superseded_at r' = Some (sql_timestamp now)) ∧
     ∀ s p q, ∃ l, search_facts s p false q d' = (Ok l, d') ∧ ∀ v, v ∈ l → vget "id" v ≠ VStr i).
Proof.
  intros Hd%fact_reachable_inv Hr.
  assert (Hd' : fact_inv d') by exact (moves_run _ _ _ _ _ (supersede_inv now i by_id project) Hr Hd).
  apply supersede_run in Hr as [-> ->]. set (p := can_supersede i project) in *.
  assert (Hfind : existsb p (facts d) = true ↔ ∃ r, tbl_find (is_fact i) (facts d) = Some r ∧ fr_deleted_at r = None ∧
                   (project = None ∨ fr_project r = project)) by (apply can_supersede_find, Hd).
  split; [done|]. split; [|split].
  - intros Hno. unfold on_facts. rewrite tbl_update_none by done. by destruct d.
  - intros j Hj. cbn. rewrite tbl_find_update_same by done. destruct (tbl_find (is_fact j) (facts d)) as [r|] eqn:E; [|done].
    apply tbl_find_Some in E as [_ E%is_fact_refl]. cbn. unfold p, can_supersede, is_fact.
    apply String.eqb_neq in Hj. by rewrite E, Hj.
  - intros (r & Hr & Hk & Hp)%Hfind.
    set (r' := set_superseded by_id (sql_timestamp now) (sql_timestamp now) r).
    assert (Hr' : tbl_find (is_fact i) (facts (on_facts (tbl_update p (set_superseded by_id (sql_timestamp now) (sql_timestamp now))) d)) = Some r').
    { cbn. rewrite tbl_find_update_same, Hr by done. cbn. apply tbl_find_Some in Hr as [_ Hr].
      unfold p, can_supersede. rewrite Hr, Hk. cbn. destruct Hp as [->|<-]; [done|]. by destruct (fr_project r); cbn; rewrite ?String.eqb_refl. }
    split; [by exists r'|]. intros s' p' q'. destruct (search_facts_run s' p' false q' _ Hd') as (l & Hl & Hin).
    exists l. split; [done|]. intros v (x & Hx & Hvis & Hv)%Hin Hvi.
    assert (Hxi : fr_id x = i) by (rewrite (from_row_id _ _ Hv) in Hvi; congruence).
    assert (x = r') as ->; [|unfold visible in Hvis; by rewrite andb_false_r in Hvis].
    apply tbl_find_Some in Hr' as [Hr' Hri%is_fact_refl]. eapply (unique_eq fr_id); [apply Hd'|done..|congruence].
Qed.

(** ** Conflict groups *)

(** What the extractor gives: a conflict group is a text or absent. *)
Definition typed (r : dict) : Prop := ∀ g, text_field "conflict_group" r = Ok (Some g) → vget "conflict_group" r = VStr g.
(** Two live relationships of one group, owner and project that disagree. *)
Definition conflict (a b : relationship_row) : Prop :=
  (∃ g, g ≠ "" ∧ re_conflict_group a = Some g ∧ re_conflict_group b = Some g) ∧
  blank (re_owner a) = blank (re_owner b) ∧ blank (re_project a) = blank (re_project b) ∧
  re_superseded_by a = None ∧ re_superseded_by b = None ∧ re_object a ≠ re_object b.
Definition settled (d : FactDb) : Prop := ∀ a b, a ∈ relationships d → b ∈ relationships d → ¬ conflict a b.
Lemma conflict_sym a b : conflict a b → conflict b a.
Proof. unfold conflict. naive_solver. Qed.

(** A stored row that was written from a relationship. *)
Record written (r : dict) (a : relationship_row) : Prop := mk_written {
  w_id : text_item "id" r = Ok (re_id a);
  w_object : text_item "object" r = Ok (re_object a);
  w_owner : text_field "owner_id" r = Ok (re_owner a);
  w_project : text_field "project_id" r = Ok (re_project a);
  w_superseded : text_field "superseded_by" r = Ok (re_superseded_by a);
  w_group : text_field "conflict_group" r = Ok (re_conflict_group a) }.

Lemma upsert_written r d u d' : upsert_relationship r d = (Ok u, d') → ∃ new, written r new ∧
  d' = on_relationships (tbl_upsert (is_relationship (re_id new)) new (set_relationship new)) d.
Proof. intros (new & ? & ? & ? & ? & ? & ? & _ & ?)%upsert_relationship_run. by exists new. Qed.
Lemma upsert_relationship_unique new t : unique_key re_id t →
  unique_key re_id (tbl_upsert (is_relationship (re_id new)) new (set_relationship new) t).
Proof. intros Ht. apply unique_upsert; [done| |done]. intros r' Hr'. by apply String.eqb_eq. Qed.
Lemma upserts_written rs : ∀ d u d', each_do upsert_relationship rs d = (Ok u, d') →
  (unique_key re_id (relationships d) → unique_key re_id (relationships d')) ∧
  ∀ a, a ∈ relationships d' → a ∈ relationships d ∨ ∃ r, r ∈ rs ∧ written r a.
Proof.
  induction rs as [|r rs IH]; cbn; intros d u d' Hr.
  - apply ret_run in Hr as [_ ->]. auto.
  - apply (proj1 (bind_run _ _ _ _ _)) in Hr as (u1 & d1 & H1 & Hr).
    apply upsert_written in H1 as (new & Hn & ->). apply IH in Hr as [Hu Ha]. split.
    + intros Hd. apply Hu. by apply upsert_relationship_unique.
    + intros a [Hin|(r' & Hr' & Hw)]%Ha; [|right; exists r'; split; [by right|done]].
      apply elem_of_upsert_relationship in Hin as [->|[Hin _]]; [|by left]. right. exists r. split; [by left|done].
Qed.

Definition conflicts_with (r : dict) (a : relationship_row) : Prop := ∃ i o g ow pr,
  text_item "id" r = Ok i ∧ text_item "object" r = Ok o ∧ vget "conflict_group" r = VStr g ∧ g ≠ "" ∧
  text_field "owner_id" r = Ok ow ∧ text_field "project_id" r = Ok pr ∧ conflicts i o g ow pr a = true.
Lemma mark_one_run r d u d' : supersede_conflicting r d = (Ok u, d') →
  ∀ a, a ∈ relationships d' → re_superseded_by a = None → a ∈ relationships d ∧ ¬ conflicts_with r a.
Proof.
  unfold supersede_conflicting. cbv zeta. intros Hr a Ha Hlive.
  destruct (truthy (vget "conflict_group" r)) eqn:Ht; cbn [negb] in Hr.
  - inv_run. cbn [relationships on_relationships] in Ha. apply elem_of_tbl_update in Ha as (a0 & Ha0 & ->).
    destruct (conflicts _ _ _ _ _ a0) eqn:Hc; [done|]. split; [done|].
    intros (i & o & g & ow & pr & Hi & Ho & Hg & _ & How & Hpr & Hc').
    rewrite Hg in Hc. cbn in Hc. simplify_eq. congruence.
  - apply ret_run in Hr as [_ ->]. split; [done|]. intros (i & o & g & ow & pr & _ & _ & Hg & Hne & _).
    rewrite Hg in Ht. cbn in Ht. apply String.eqb_neq in Hne. by rewrite Hne in Ht.
Qed.
Lemma marks_run rs : ∀ d u d', each_do supersede_conflicting rs d = (Ok u, d') →
  ∀ a, a ∈ relationships d' → re_superseded_by a = None →
  a ∈ relationships d ∧ ∀ r, r ∈ rs → ¬ conflicts_with r a.
Proof.
  induction rs as [|r rs IH]; cbn; intros d u d' Hr a Ha Hlive.
  - apply ret_run in Hr as [_ ->]. split; [done|]. by intros r ?%elem_of_nil.
  - apply (proj1 (bind_run _ _ _ _ _)) in Hr as (u1 & d1 & H1 & Hr).
    destruct (IH _ _ _ Hr a Ha Hlive) as [Ha1 Hrs]. destruct (mark_one_run _ _ _ _ H1 a Ha1 Hlive) as [Ha0 Hr0].
    split; [done|]. intros r' [->|Hr']%elem_of_cons; [done|by apply Hrs].
Qed.
Lemma written_conflicts r a b : typed r → written r a → re_id a ≠ re_id b → conflict a b → conflicts_with r b.
Proof.
  intros Ht [] Hne ((g & Hg & Ha & Hb) & Ho & Hp & _ & Hlive & Hobj).
  exists (re_id a), (re_object a), g, (re_owner a), (re_project a). rewrite Ha in w_group0.
  split_and!; try done; [by apply Ht|]. unfold conflicts. rewrite Hb, Hlive, <-Ho, <-Hp. cbn.
  rewrite !String.eqb_refl. cbn. apply andb_true_iff. split; [|done]. apply andb_true_iff. split; [|done].
  apply andb_true_iff; split; [apply andb_true_iff; split; [|done]|]; apply negb_true_iff, String.eqb_neq; congruence.
Qed.

Lemma entities_keep es : moves (same relationships) (each_do upsert_entity es).
Proof.
  apply each_do_moves; [apply _|]. apply Forall_forall. intros e _. unfold upsert_entity. cbv zeta. walk. done.
Qed.
Lemma upsert_graph_run es rs d d' : upsert_graph_records es rs d = (Ok tt, d') → ∃ d0 d1 u1 u2,
  relationships d0 = relationships d ∧ each_do upsert_relationship rs d0 = (Ok u1, d1) ∧
  each_do supersede_conflicting rs d1 = (Ok u2, d').
Proof.
  unfold upsert_graph_records. rewrite transaction_run. intros Hr.
  apply (proj1 (bind_run _ _ _ _ _)) in Hr as (u0 & d0 & H0 & Hr).
  apply (proj1 (bind_run _ _ _ _ _)) in Hr as (u1 & d1 & H1 & Hr).
  exists d0, d1, u1, tt. split; [|done]. exact (moves_run _ _ _ _ _ (entities_keep es) H0).
Qed.

(** Writing graph records, whatever the batch, never leaves two live
    relationships of one conflict group, owner and project with different
    objects. *)
Theorem graph_stays_settled es rs d : unique_key re_id (relationships d) → Forall typed rs →
  settled d → settled (upsert_graph_records es rs d).2.
Proof.
  intros Hu Ht Hd. destruct (upsert_graph_records es rs d) as [[[]|e] d'] eqn:Hr; cbn [snd].
  2: { by apply transaction_raise in Hr as ->. }
  apply upsert_graph_run in Hr as (d0 & d1 & u1 & u2 & E & H1 & H2).
  destruct (upserts_written _ _ _ _ H1) as [Hu1 Hw]. rewrite E in Hu1, Hw. specialize (Hu1 Hu).
  intros a b Ha Hb Hc. pose proof Hc as (_ & _ & _ & La & Lb & Hobj).
  destruct (marks_run _ _ _ _ H2 a Ha La) as [Ha1 Hna]. destruct (marks_run _ _ _ _ H2 b Hb Lb) as [Hb1 Hnb].
  assert (Hne : re_id a ≠ re_id b) by (intros Hid; apply Hobj; f_equal; by eapply (unique_eq re_id)).
  rewrite Forall_forall in Ht.
  destruct (Hw a Ha1) as [Ha0|(r & Hr & Hwa)].
  - destruct (Hw b Hb1) as [Hb0|(r & Hr & Hwb)]; [exact (Hd a b Ha0 Hb0 Hc)|].
    apply (Hna r Hr). eapply written_conflicts; [by apply Ht|done|done|by apply conflict_sym].
  - apply (Hnb r Hr). eapply written_conflicts; [by apply Ht|done|done|done].
Qed.

Lemma written_det r a new : written r a → text_item "id" r = Ok (re_id new) → re_id a = re_id new.
Proof. intros [] E. congruence. Qed.
Lemma mark_row_run r a d u d' : written r a → typed r → (∃ g, g ≠ "" ∧ re_conflict_group a = Some g) →
  supersede_conflicting r d = (Ok u, d') → ∃ g t, re_conflict_group a = Some g ∧
  d' = on_relationships (tbl_update (conflicts (re_id a) (re_object a) g (re_owner a) (re_project a)) (set_replaced (re_id a) t)) d.
Proof.
  intros [] Ht (g & Hg & Ha) Hr. rewrite Ha in w_group0. pose proof (Ht g w_group0) as Hv.
  unfold supersede_conflicting in Hr. cbv zeta in Hr. rewrite Hv in Hr. cbn [truthy py_str] in Hr.
  apply String.eqb_neq in Hg. rewrite Hg in Hr. cbn [negb] in Hr. inv_run.
  repeat match goal with H : ?x = Ok _, H' : ?x = Ok _ |- _ => rewrite H in H'; injection H' as H'; subst end.
  eexists g, _. split; [done|]. reflexivity.
Qed.
Lemma find_replaced j p t i rows : tbl_find (is_relationship j) (tbl_update p (set_replaced i t) rows) =
  (λ r, if p r then set_replaced i t r else r) <$> tbl_find (is_relationship j) rows.
Proof. by apply tbl_find_update_same. Qed.
Lemma find_written new rows : tbl_find (is_relationship (re_id new))
  (tbl_upsert (is_relationship (re_id new)) new (set_relationship new) rows) = Some new.
Proof.
  rewrite tbl_find_upsert; [|done|apply String.eqb_refl]. destruct (tbl_find _ rows) as [r|] eqn:E; [|done].
  apply tbl_find_Some in E as [_ E%String.eqb_eq]. by rewrite set_relationship_new.
Qed.
Lemma find_written_other j new rows : j ≠ re_id new → tbl_find (is_relationship j)
  (tbl_upsert (is_relationship (re_id new)) new (set_relationship new) rows) = tbl_find (is_relationship j) rows.
Proof.
  intros Hj. apply tbl_find_upsert_other; [apply String.eqb_neq; congruence|].
  intros r' Hr'%String.eqb_eq. unfold is_relationship. cbn. rewrite Hr'. split; apply String.eqb_neq; congruence.
Qed.

Lemma group_typed r g : vget "conflict_group" r = VStr g → typed r.
Proof. intros Hg x Hx. unfold text_field in Hx. rewrite Hg in *. by injection Hx as ->. Qed.
Lemma written_group r a g : written r a → vget "conflict_group" r = VStr g → re_conflict_group a = Some g.
Proof. intros [] Hg. unfold text_field in *. rewrite Hg in *. by injection w_group0. Qed.
Lemma written_live r a : written r a → vget "superseded_by" r = VNone → re_superseded_by a = None.
Proof. intros [] Hg. unfold text_field in *. rewrite Hg in *. by injection w_superseded0. Qed.
Lemma written_same_owner r1 r2 a1 a2 : written r1 a1 → written r2 a2 →
  vget "owner_id" r1 = vget "owner_id" r2 → vget "project_id" r1 = vget "project_id" r2 →
  re_owner a1 = re_owner a2 ∧ re_project a1 = re_project a2.
Proof. intros [] [] Ho Hp. unfold text_field in *. rewrite Ho in *. rewrite Hp in *. split; congruence. Qed.
Lemma conflicts_true a b g : re_conflict_group b = Some g → re_id b ≠ re_id a → re_superseded_by b = None →
  re_object b ≠ re_object a → re_owner b = re_owner a → re_project b = re_project a →
  conflicts (re_id a) (re_object a) g (re_owner a) (re_project a) b = true.
Proof.
  intros Hg Hi%String.eqb_neq Hs Ho%String.eqb_neq How Hp. unfold conflicts. rewrite Hg, Hs, Hi, Ho, How, Hp. cbn.
  by rewrite !String.eqb_refl.
Qed.
Lemma conflicts_self a g : conflicts (re_id a) (re_object a) g (re_owner a) (re_project a) a = false.
Proof. unfold conflicts. by rewrite String.eqb_refl, andb_false_r. Qed.
Lemma conflicts_dead i o g ow pr b t j : conflicts i o g ow pr (set_replaced j t b) = false.
Proof. unfold conflicts. cbn. by rewrite andb_false_r. Qed.

(** Two relationships of one conflict group with different objects that are
    written in one batch supersede one another: each ends with the id of the
    other in [superseded_by], and neither is live. *)
Theorem conflicting_batch_supersedes_itself r1 r2 i1 i2 g d d' :
  upsert_graph_records [] [r1; r2] d = (Ok tt, d') →
  text_item "id" r1 = Ok i1 → text_item "id" r2 = Ok i2 → i1 ≠ i2 →
  text_item "object" r1 ≠ text_item "object" r2 →
  vget "conflict_group" r1 = VStr g → vget "conflict_group" r2 = VStr g → g ≠ "" →
  vget "owner_id" r1 = vget "owner_id" r2 → vget "project_id" r1 = vget "project_id" r2 →
  vget "superseded_by" r1 = VNone → vget "superseded_by" r2 = VNone →
  (∃ a1, tbl_find (is_relationship i1) (relationships d') = Some a1 ∧ re_superseded_by a1 = Some i2) ∧
  (∃ a2, tbl_find (is_relationship i2) (relationships d') = Some a2 ∧ re_superseded_by a2 = Some i1).
Proof.
  intros Hr Hi1 Hi2 Hi Ho Hg1 Hg2 Hg How Hpr Hs1 Hs2.
  apply upsert_graph_run in Hr as (d0 & d1 & u1 & u2 & _ & H1 & H2). cbn [each_do] in H1, H2.
  apply (proj1 (bind_run _ _ _ _ _)) in H1 as (v1 & e1 & E1 & H1). apply upsert_written in E1 as (a1 & W1 & ->).
  apply (proj1 (bind_run _ _ _ _ _)) in H1 as (v2 & e2 & E2 & H1). apply upsert_written in E2 as (a2 & W2 & ->).
  apply ret_run in H1 as [_ ->].
  apply (proj1 (bind_run _ _ _ _ _)) in H2 as (v3 & e3 & E3 & H2).
  apply (proj1 (bind_run _ _ _ _ _)) in H2 as (v4 & e4 & E4 & H2). apply ret_run in H2 as [_ ->].
  pose proof (w_id _ _ W1) as I1. pose proof (w_id _ _ W2) as I2. rewrite Hi1 in I1. rewrite Hi2 in I2.
  injection I1 as ->. injection I2 as ->.
  pose proof (written_group _ _ _ W1 Hg1) as G1. pose proof (written_group _ _ _ W2 Hg2) as G2.
  apply (mark_row_run r1 a1) in E3 as (g1 & t1 & Eg1 & ->); [|done|by eapply group_typed|by exists g].
  apply (mark_row_run r2 a2) in E4 as (g2 & t2 & Eg2 & ->); [|done|by eapply group_typed|by exists g].
  rewrite G1 in Eg1. rewrite G2 in Eg2. injection Eg1 as <-. injection Eg2 as <-.
  rewrite (w_object _ _ W1), (w_object _ _ W2) in Ho.
  destruct (written_same_owner _ _ _ _ W1 W2 How Hpr) as [Hown Hproj].
  pose proof (written_live _ _ W1 Hs1) as L1. pose proof (written_live _ _ W2 Hs2) as L2.
  cbn [relationships on_relationships]. rewrite !find_replaced, find_written, find_written_other, find_written by congruence.
  cbn [fmap option_fmap option_map].
  rewrite conflicts_self, (conflicts_true a1 a2 g), (conflicts_true a2 a1 g) by congruence. rewrite conflicts_dead.
  split; by eexists.
Qed.

(** ** Samples *)

Module Fact_samples.
Import Sample.

Definition holiday (id object quality at_time : string) (qualifiers : dict) : dict :=
  [("id", VStr id); ("subject", VStr "user"); ("predicate", VStr "favorite_holiday"); ("object", VStr object);
   ("qualifiers", VDict qualifiers); ("source_conversation_id", VStr "conv-1"); ("project_id", VStr "project-a");
   ("source_message_indexes", VList [VInt 0]); ("created_at", VStr at_time); ("updated_at", VStr at_time);
   ("last_confirmed_at", VStr at_time); ("source_quality", VStr quality)].
Definition mistaken : dict := holiday "fact-1" "Aniversary day" "direct_user_statement" "2026-01-01T00:00:00Z" [].
Definition correction : dict :=
  holiday "fact-2" "anniversary" "corrected_by_user" "2026-01-02T00:00:00Z" [("corrects", VStr "aniversary")].
Definition with_mistake : FactDb := fact_step noon (OpFacts [mistaken]) empty_facts.
Definition uses (id object : string) : dict :=
  [("id", VStr id); ("subject", VStr "Hub"); ("predicate", VStr "uses_tool"); ("object", VStr object);
   ("project_id", VStr "project-a"); ("conflict_group", VStr "hub:uses_tool"); ("updated_at", VStr "2026-01-01T00:00:00Z")].
Definition with_tool : FactDb := fact_step noon (OpGraph [] [uses "rel-1" "Docker"]) empty_facts.

Lemma holiday_wf id object quality at_time q : wf_value (VDict q) → wf_value (VDict (holiday id object quality at_time q)).
Proof.
  intros Hq. split; [compute_done|]. cbn. split_and!; try done; apply Hq.
Qed.
Lemma mistaken_wf : wf_value (VDict mistaken).
Proof. apply holiday_wf. split; [constructor|done]. Qed.
Lemma correction_wf : wf_value (VDict correction).
Proof. apply holiday_wf. split; [compute_done|done]. Qed.
Lemma with_mistake_reachable : fact_reachable with_mistake.
Proof. apply fact_next; [|constructor]. constructor; [apply mistaken_wf|constructor]. Qed.
Lemma with_mistake_unique : unique_key fr_id (facts with_mistake).
Proof. apply fact_reachable_inv, with_mistake_reachable. Qed.

Lemma inserted_fact_found_witness :
  ∃ l v, search_facts (Some "user") None false (Some "project-a") (insert_facts [mistaken] empty_facts).2
         = (Ok l, (insert_facts [mistaken] empty_facts).2) ∧ v ∈ l ∧ vget "id" v = VStr "fact-1".
Proof.
  destruct (inserted_fact_found mistaken empty_facts (insert_facts [mistaken] empty_facts).2 (Some "user") None
    (Some "project-a") false fact_start mistaken_wf ltac:(done) ltac:(done) ltac:(vm_compute; reflexivity)
    ltac:(by right) ltac:(by left) ltac:(by right)) as (l & v & Hl & Hv & Hid & _).
  exists l, v. done.
Defined.
Lemma supersede_fact_spec_witness :
  (supersede_fact noon "fact-1" "fact-9" (Some "project-a") with_mistake).1 = Ok true ∧
  ∃ r, tbl_find (is_fact "fact-1") (facts with_mistake) = Some r ∧ fr_deleted_at r = None.
Proof.
  split; [vm_compute; reflexivity|].
  destruct (supersede_fact_spec noon "fact-1" "fact-9" (Some "project-a") with_mistake true
    (supersede_fact noon "fact-1" "fact-9" (Some "project-a") with_mistake).2
    with_mistake_reachable ltac:(vm_compute; reflexivity)) as [[Hb _] _].
  destruct (Hb eq_refl) as (r & Hr & Hk & _). by exists r.
Defined.
Lemma uses_typed id object : typed (uses id object).
Proof. apply (group_typed _ "hub:uses_tool"). done. Qed.
Lemma graph_stays_settled_witness :
  settled (upsert_graph_records [] [uses "rel-2" "Podman"] with_tool).2 ∧
  ∃ a, tbl_find (is_relationship "rel-1") (relationships (upsert_graph_records [] [uses "rel-2" "Podman"] with_tool).2) = Some a ∧
       re_superseded_by a = Some "rel-2".
Proof.
  split; [|eexists; split; vm_compute; reflexivity].
  apply (graph_stays_settled [] [uses "rel-2" "Podman"] with_tool).
  - vm_compute. compute_done.
  - constructor; [apply uses_typed|constructor].
  - intros a b Ha Hb (_ & _ & _ & _ & _ & Hne). apply Hne. vm_compute in Ha, Hb.
    apply list_elem_of_singleton in Ha as ->. apply list_elem_of_singleton in Hb as ->. done.
Defined.
Lemma conflicting_batch_supersedes_itself_witness :
  let d := (upsert_graph_records [] [uses "rel-1" "Docker"; uses "rel-2" "Podman"] empty_facts).2 in
  (search_graph_relationships None None None None false d).1 = Ok [] ∧
  ∃ a, tbl_find (is_relationship "rel-1") (relationships d) = Some a ∧ re_superseded_by a = Some "rel-2".
Proof.
  cbv zeta. split; [vm_compute; reflexivity|].
  exact (proj1 (conflicting_batch_supersedes_itself (uses "rel-1" "Docker") (uses "rel-2" "Podman") "rel-1" "rel-2"
    "hub:uses_tool" empty_facts (upsert_graph_records [] [uses "rel-1" "Docker"; uses "rel-2" "Podman"] empty_facts).2
    ltac:(vm_compute; reflexivity) eq_refl eq_refl ltac:(done) ltac:(done) eq_refl eq_refl ltac:(done)
    eq_refl eq_refl eq_refl eq_refl)).
Defined.
End Fact_samples.
