(* ===== verification/GraphFacts.v ===== *)
(** * Guarantees of the memory graph

    The extracted graph is well formed, its records carry only the owner and the
    project of the top level of a conversation, and a text without a name makes
    the extraction raise. *)
From Stdlib Require Import ZArith Lia Ascii.
From S2P Require Import Prelude PyStr Json Hash Clock Regex FactValidation FactStore FactFacts Graph.
Local Open Scope Z_scope.

Section graph.
Context `{HashLib}.

(** A record of a source: its owner and project, and the conversation it names. *)
Definition record_of (s : source) (id : string) (r : dict) : Prop :=
  vget "id" r = VStr id ∧ vget "owner_id" r = opt_str (g_owner_id s) ∧ vget "project_id" r = opt_str (g_project_id s) ∧
  ∃ index, vget "provenance" r = VList [VDict (provenance_dict s index)].
Definition named (k : string) (most : Z) (r : dict) : Prop :=
  ∃ n, vget k r = VStr n ∧ 1 ≤ str_len n ≤ most.
Record graph_wf (s : source) (g : MemoryGraph) : Prop := mk_graph_wf {
  wf_entity_ids : NoDup (dict_keys (entities g));
  wf_relationship_ids : NoDup (dict_keys (relationships g));
  wf_entities : ∀ id r, (id, r) ∈ entities g → record_of s id r ∧ named "name" 256 r ∧ named "normalized_name" 256 r;
  wf_relationships : ∀ id r, (id, r) ∈ relationships g → record_of s id r ∧ named "subject" 256 r ∧ named "object" 512 r ∧
    ∃ a b, vget "subject_entity_id" r = VStr a ∧ a ∈ dict_keys (entities g) ∧
           vget "object_entity_id" r = VStr b ∧ b ∈ dict_keys (entities g);
}.

Lemma record_dict_of s id t c index rest : record_of s id (record_dict s id t c index ++ rest).
Proof. split_and!; [reflexivity..|]. by exists index. Qed.
Lemma text_bounds_Ok least most v u : text_bounds least most v = Ok u → least ≤ str_len v ≤ most.
Proof. unfold text_bounds, guard_err. destruct (_ || _) eqn:E; [done|]. apply orb_false_iff in E as [? ?]. lia. Qed.
Lemma dict_has_keys {A} k (d : list (string * A)) : dict_has k d = true ↔ k ∈ dict_keys d.
Proof.
  unfold dict_has. pose proof (dict_get_None k d) as Hn. destruct (dict_get k d); split; try done.
  - intros _. destruct (decide (k ∈ dict_keys d)) as [|Hk]; [done|]. apply Hn in Hk. done.
  - intros Hk. by destruct (proj1 Hn eq_refl).
Qed.
Lemma keys_app {A} (d e : list (string * A)) : dict_keys (d ++ e) = dict_keys d ++ dict_keys e.
Proof. apply fmap_app. Qed.
Lemma keys_snoc_NoDup {A} k (v : A) d : dict_has k d = false → NoDup (dict_keys d) → NoDup (dict_keys (d ++ [(k, v)])).
Proof.
  intros Hk Hn. rewrite keys_app. apply NoDup_app. split; [done|]. split; [|apply NoDup_singleton].
  intros x Hx Hx'. apply list_elem_of_singleton in Hx' as ->. apply dict_has_keys in Hx. cbn in *. congruence.
Qed.

Lemma add_entity_wf s name t index g id g' : add_entity s name t index g = Ok (id, g') → graph_wf s g →
  graph_wf s g' ∧ id ∈ dict_keys (entities g') ∧ (∀ k, k ∈ dict_keys (entities g) → k ∈ dict_keys (entities g')).
Proof.
  unfold add_entity. intros Ha Hg. apply bind_Ok in Ha as (n & _ & Ha). cbv zeta in Ha.
  destruct (dict_has _ _) eqn:Eh; [injection Ha as <- <-; split_and!; [done|by apply dict_has_keys|done]|].
  apply bind_Ok in Ha as (r & Hr & Ha). injection Ha as <- <-.
  unfold entity_record in Hr. apply bind_Ok in Hr as (u1 & H1%text_bounds_Ok & Hr).
  apply bind_Ok in Hr as (u2 & H2%text_bounds_Ok & Hr). injection Hr as <-.
  destruct Hg as [G1 G2 G3 G4]. split_and!; cbn [entities relationships].
  - constructor; cbn [entities relationships]; [by apply keys_snoc_NoDup|done|..].
    + intros i r [Hin|Hin]%elem_of_app; [by apply G3|]. apply list_elem_of_singleton in Hin. injection Hin as -> ->.
      split; [apply record_dict_of|]. split; eexists; (split; [reflexivity|lia]).
    + intros i r Hin. destruct (G4 i r Hin) as (? & ? & ? & a & b & ? & Ha & ? & Hb).
      split_and!; try done. exists a, b. rewrite keys_app. split_and!; try done; apply elem_of_app; by left.
  - rewrite keys_app. apply elem_of_app. right. by apply list_elem_of_singleton.
  - intros k Hk. rewrite keys_app. apply elem_of_app. by left.
Qed.
Lemma add_relationship_wf s subject p object index st ot c g g' :
  add_relationship s subject p object index st ot c g = Ok g' → graph_wf s g → graph_wf s g'.
Proof.
  unfold add_relationship. intros Ha Hg. apply bind_Ok in Ha as ([a g1] & H1 & Ha).
  apply bind_Ok in Ha as ([b g2] & H2 & Ha). apply (add_entity_wf _ _ _ _ _ _ _ H1) in Hg as (Hg & Ha1 & _).
  apply (add_entity_wf _ _ _ _ _ _ _ H2) in Hg as (Hg & Hb2 & Hk). apply Hk in Ha1.
  apply bind_Ok in Ha as (ns & _ & Ha). apply bind_Ok in Ha as (no & _ & Ha). cbv zeta in Ha.
  destruct (dict_has _ _) eqn:Eh; [by injection Ha as <-|]. apply bind_Ok in Ha as (group & _ & Ha).
  apply bind_Ok in Ha as (r & Hr & Ha). injection Ha as <-.
  unfold relationship_record in Hr. apply bind_Ok in Hr as (u1 & H3%text_bounds_Ok & Hr).
  apply bind_Ok in Hr as (u2 & H4%text_bounds_Ok & Hr). injection Hr as <-.
  destruct Hg as [G1 G2 G3 G4]. constructor; cbn [entities relationships]; [done|by apply keys_snoc_NoDup|done|].
  intros i r [Hin|Hin]%elem_of_app; [by apply G4|]. apply list_elem_of_singleton in Hin. injection Hin as -> ->.
  split; [apply record_dict_of|]. split; [eexists; split; [reflexivity|lia]|]. split; [eexists; split; [reflexivity|lia]|].
  by exists a, b.
Qed.
Lemma each_match_wf s p text f g g' : (∀ m g g', f m g = Ok g' → graph_wf s g → graph_wf s g') →
  each_match p text f g = Ok g' → graph_wf s g → graph_wf s g'.
Proof. unfold each_match. intros Hf Hr Hg. eapply (fold_result_inv (graph_wf s)); [|exact Hg|exact Hr]. intros b x b1 Hb Hx. by apply (Hf x b b1). Qed.
Lemma names_wf s t index names g g' :
  fold_result (λ g name, '(_, g) ← add_entity s name t index g; Ok g) g names = Ok g' → graph_wf s g → graph_wf s g'.
Proof.
  intros Hr Hg. eapply (fold_result_inv (graph_wf s)); [|exact Hg|exact Hr]. intros b x b' Hb Hx.
  apply bind_Ok in Hx as (q & Hx & E). destruct q as [i g1]. cbn in E. injection E as E. subst g1. by destruct (add_entity_wf _ _ _ _ _ _ _ Hx Hb).
Qed.
(** one more family of matches in a run over a message *)
Local Ltac next_matches Hr Hg :=
  apply bind_Ok in Hr as (? & Hs & Hr);
  apply (each_match_wf _ _ _ _ _ _ (λ _ _ _, add_relationship_wf _ _ _ _ _ _ _ _ _ _)) in Hs as Hw; [|exact Hg];
  clear Hs Hg; rename Hw into Hg.
Lemma message_graph_wf s project text index g g' : message_graph s project text index g = Ok g' → graph_wf s g → graph_wf s g'.
Proof.
  unfold message_graph. cbv zeta. intros Hr Hg.
  do 2 (apply bind_Ok in Hr as (? & Hs & Hr); apply (names_wf s) in Hs as Hw; [|done]; clear Hs Hg; rename Hw into Hg).
  next_matches Hr Hg. apply bind_Ok in Hr as (? & Hs & Hr). apply (each_match_wf s) in Hs; [clear Hg; rename Hs into Hg| |done].
  2: { intros m h h' Hx Hh. apply bind_Ok in Hx as (? & _ & Hx).
       destruct (skipped_subject _); [injection Hx as <-; exact Hh|exact (add_relationship_wf _ _ _ _ _ _ _ _ _ _ Hx Hh)]. }
  do 4 next_matches Hr Hg. by apply (each_match_wf _ _ _ _ _ _ (λ _ _ _, add_relationship_wf _ _ _ _ _ _ _ _ _ _)) in Hr.
Qed.
Lemma messages_graph_wf s project messages : ∀ index g g', messages_graph s project index messages g = Ok g' →
  graph_wf s g → graph_wf s g'.
Proof.
  induction messages as [|m messages IH]; cbn [messages_graph]; intros index g g' Hr Hg; [injection Hr as <-; exact Hg|].
  destruct m; try exact (IH _ _ _ Hr Hg). apply bind_Ok in Hr as (g1 & H1 & Hr).
  exact (IH _ _ _ Hr (message_graph_wf _ _ _ _ _ _ H1 Hg)).
Qed.

Lemma graph_run conversation messages start es rs : extract_memory_graph conversation messages start = Ok (es, rs) →
  ∃ s g, g_owner_id s = _optional_str (vget "owner_id" conversation) ∧
    g_project_id s = _optional_str (vget "project_id" conversation) ∧
    graph_wf s g ∧ es = map snd (entities g) ∧ rs = map snd (relationships g).
Proof.
  unfold extract_memory_graph. cbv zeta. set (id := strip _). intros Hr.
  assert (Hnil : ∀ s, graph_wf s (mk_graph [] [])) by (intros s; constructor; cbn [entities relationships]; [apply NoDup_nil_2|apply NoDup_nil_2|..]; by intros ?? ?%elem_of_nil).
  set (s := mk_source id (_optional_str (vget "owner_id" conversation)) (_optional_str (vget "project_id" conversation))
              (_optional_str (vget "timestamp" conversation))) in *.
  destruct (String.eqb id "").
  - injection Hr as <- <-. by exists s, (mk_graph [] []).
  - apply bind_Ok in Hr as (u & _ & Hr). apply bind_Ok in Hr as (g & Hg & Hr). injection Hr as <- <-.
    exists s, g. split_and!; try done. exact (messages_graph_wf _ _ _ _ _ _ Hg (Hnil s)).
Qed.
Lemma record_ids s (l : list (string * dict)) : (∀ id r, (id, r) ∈ l → record_of s id r) →
  map (vget "id") (map snd l) = map VStr (dict_keys l).
Proof.
  induction l as [|[id r] l IH]; cbn [map snd dict_keys fst fmap list_fmap]; intros Hl; [done|].
  destruct (Hl id r) as [-> _]; [by left|]. f_equal. apply IH. intros i r' Hi. apply Hl. by right.
Qed.
Lemma elem_of_values {A} (l : list (string * A)) r : r ∈ map snd l → ∃ id, (id, r) ∈ l.
Proof. rewrite elem_of_map. intros ([id x] & Hx & ->). by exists id. Qed.
Lemma keys_value {A} (l : list (string * A)) k : k ∈ dict_keys l → ∃ r, (k, r) ∈ l.
Proof. unfold dict_keys. intros ([k' r] & -> & Hr)%list_elem_of_fmap. by exists r. Qed.
End graph.

(** The graph extracted from any conversation is well formed: the records
    of each kind have distinct identifiers, their names are within the bounds of
    their models, and both ends of every relationship are extracted entities. *)
Theorem extracted_graph_wellformed `{HashLib} conversation messages start es rs :
  extract_memory_graph conversation messages start = Ok (es, rs) →
  NoDup (map (vget "id") es) ∧ NoDup (map (vget "id") rs) ∧
  (∀ e, e ∈ es → named "name" 256 e ∧ named "normalized_name" 256 e) ∧
  ∀ r, r ∈ rs → named "subject" 256 r ∧ named "object" 512 r ∧
    ∃ a b, a ∈ es ∧ b ∈ es ∧ vget "subject_entity_id" r = vget "id" a ∧ vget "object_entity_id" r = vget "id" b.
Proof.
  intros (s & g & _ & _ & [G1 G2 G3 G4] & -> & ->)%graph_run.
  rewrite (record_ids s (entities g)) by (intros id r Hr; by apply G3 in Hr as (? & _)).
  rewrite (record_ids s (relationships g)) by (intros id r Hr; by apply G4 in Hr as (? & _)).
  assert (Hend : ∀ k, k ∈ dict_keys (entities g) → ∃ a, a ∈ map snd (entities g) ∧ VStr k = vget "id" a).
  { intros k (r & Hr)%keys_value. exists r. split; [apply elem_of_map; by exists (k, r)|]. by apply G3 in Hr as [[-> _] _]. }
  split_and!.
  - apply NoDup_fmap_2; [by intros ?? [= ->]|done].
  - apply NoDup_fmap_2; [by intros ?? [= ->]|done].
  - intros e (id & He)%elem_of_values. by apply G3 in He as (_ & ? & ?).
  - intros r (id & Hr)%elem_of_values. apply G4 in Hr as (_ & H1 & H2 & a & b & Ha & Hina & Hb & Hinb).
    split_and!; [done..|]. apply Hend in Hina as (x & ? & Ex). apply Hend in Hinb as (y & ? & Ey).
    exists x, y. rewrite Ha, Hb. by rewrite Ex, Ey.
Qed.

(** ** Records without a scope *)

Definition unscoped (d : FactDb) : Prop := Forall (λ r, re_project r = None) (FactStore.relationships d).

Lemma upsert_unscoped r : vget "project_id" r = VNone → moves (keeps unscoped) (upsert_relationship r).
Proof.
  intros Hr. unfold upsert_relationship. cbv zeta.
  do 5 (apply moves_bind; [apply _|apply moves_lift; apply _|intros ?]).
  apply moves_checked; [apply _|]. intros project Hp. unfold text_field in Hp. rewrite Hr in Hp. injection Hp as <-.
  walk. unfold keeps, unscoped, on_relationships. cbn [FactStore.relationships]. intros Hd. apply Forall_forall. intros x Hx.
  apply elem_of_tbl_upsert in Hx. rewrite Forall_forall in Hd. naive_solver.
Qed.
Lemma supersede_unscoped r : moves (keeps unscoped) (supersede_conflicting r).
Proof.
  unfold supersede_conflicting. cbv zeta. walk. unfold keeps, unscoped, on_relationships. cbn [FactStore.relationships].
  intros Hd. apply Forall_tbl_update; [done|]. by intros x Hx.
Qed.
Lemma entities_unscoped es : moves (keeps unscoped) (each_do upsert_entity es).
Proof.
  apply each_do_moves; [apply _|]. apply Forall_forall. intros e _. unfold upsert_entity. cbv zeta. walk.
  by unfold keeps, unscoped.
Qed.

Lemma select_none {R} (p : R → bool) t : (∀ x, x ∈ t → p x = false) → tbl_select p t = [].
Proof. intros Hp. apply elem_of_nil_inv. intros x [Hx Hc]%elem_of_filter_b. by rewrite Hp in Hc. Qed.

(** The graph of an ingested conversation, which has no owner and no project
    at its top level, carries no project, and no search of a project shows it;
    the conversations of every owner and project share one space of conflicts. *)
Theorem ingested_graph_not_found `{HashLib} conversation messages start es rs d d' :
  dict_get "project_id" conversation = None →
  extract_memory_graph conversation messages start = Ok (es, rs) →
  unscoped d → upsert_graph_records es rs d = (Ok tt, d') →
  unscoped d' ∧ ∀ subject predicate owner project all,
    search_graph_relationships subject predicate owner (Some project) all d' = (Ok [], d').
Proof.
  intros Hp (s & g & _ & Hs & [G1 G2 G3 G4] & -> & ->)%graph_run Hd Hr.
  unfold vget in Hs. rewrite Hp in Hs. cbn in Hs.
  assert (Hd' : unscoped d').
  { revert Hd. eapply (moves_run (keeps unscoped)); [|exact Hr]. unfold upsert_graph_records.
    apply moves_transaction; [apply _|].
    apply moves_bind; [apply _|apply entities_unscoped|intros _].
    apply moves_bind; [apply _|apply each_do_moves; [apply _|]|intros _].
    - apply Forall_forall. intros r (id & Hin)%elem_of_values. apply upsert_unscoped.
      apply G4 in Hin as [(_ & _ & -> & _) _]. by rewrite Hs.
    - apply each_do_moves; [apply _|]. apply Forall_forall. intros. apply supersede_unscoped. }
  split; [done|]. intros subject predicate owner project all. unfold search_graph_relationships.
  unfold mbind, M_bind, query. rewrite (select_none _ (FactStore.relationships d')); [done|].
  intros x Hx. unfold unscoped in Hd'. rewrite Forall_forall in Hd'. rewrite (Hd' x Hx).
  by destruct (given subject _), (given predicate _), (given owner _).
Qed.

(** ** A name that is only punctuation *)

Definition blank_text : string := "I have ??".
Lemma blank_matches : _names_in_text blank_text _KNOWN_TOOLS = [] ∧ _names_in_text blank_text _KNOWN_PROVIDERS = [] ∧
  re_finditer _CREATOR_RE blank_text = [] ∧ re_finditer _PROJECT_RE blank_text = [] ∧
  re_finditer _PREFERENCE_RE blank_text = [] ∧ re_finditer _OWN_RE blank_text = [mk_match 0 9 [("object", (7, 9)%nat)]].
Proof. vm_compute. done. Qed.
Lemma entity_keeps_relationships `{HashLib} s name t index g id g' :
  add_entity s name t index g = Ok (id, g') → relationships g' = relationships g.
Proof.
  unfold add_entity. intros Ha. apply bind_Ok in Ha as (n & _ & Ha). cbv zeta in Ha.
  destruct (dict_has _ _); [by injection Ha as <- <-|]. apply bind_Ok in Ha as (r & _ & Ha). by injection Ha as <- <-.
Qed.
Lemma blank_relationship `{HashLib} s index g g' : relationships g = [] →
  add_relationship s "user" OWNS "??" index PERSON OWNED_ITEM "0.85" g ≠ Ok g'.
Proof.
  intros Hg Hr. unfold add_relationship in Hr.
  apply bind_Ok in Hr as ([a g1] & H1 & Hr). apply bind_Ok in Hr as ([b g2] & H2 & Hr).
  apply entity_keeps_relationships in H1, H2. apply bind_Ok in Hr as (ns & _ & Hr). apply bind_Ok in Hr as (no & _ & Hr).
  cbv zeta in Hr. rewrite H2, H1, Hg in Hr. change (dict_has _ []) with false in Hr. cbv iota in Hr.
  apply bind_Ok in Hr as (group & _ & Hr). apply bind_Ok in Hr as (r & Hr & _).
  unfold relationship_record in Hr. apply bind_Ok in Hr as (u1 & _ & Hr). apply bind_Ok in Hr as (u2 & Hu & _).
  vm_compute in Hu. done.
Qed.

(** A first message that only punctuates what the user owns makes the
    extraction raise a validation error, whatever conversation it belongs to. *)
Theorem blank_name_raises `{HashLib} conversation m rest start id :
  text_of "text" m = blank_text → vget "id" conversation = VStr id → strip id ≠ "" →
  ∃ e, extract_memory_graph conversation (VDict m :: rest) start = Raise e.
Proof.
  intros Hm Hid Hne. destruct (extract_memory_graph _ _ _) as [[es rs]|e] eqn:Hr; [|by exists e]. exfalso.
  unfold extract_memory_graph in Hr. cbv zeta in Hr. rewrite Hid in Hr. cbn [truthy py_str] in Hr.
  destruct (String.eqb_spec id "") as [->|_]; [done|]. cbn [negb] in Hr.
  destruct (String.eqb_spec (strip id) "") as [E|_]; [done|].
  apply bind_Ok in Hr as (u & _ & Hr). apply bind_Ok in Hr as (g & Hg & _). cbn [messages_graph] in Hg.
  apply bind_Ok in Hg as (g1 & Hg & _). unfold message_graph in Hg. rewrite Hm in Hg. cbv zeta in Hg.
  destruct blank_matches as (B1 & B2 & B3 & B4 & B5 & B6). unfold each_match in Hg.
  rewrite B1, B2, B3, B4, B5, B6 in Hg. cbn [fold_result mbind result_bind] in Hg.
  apply bind_Ok in Hg as (g2 & Ha & _). apply bind_Ok in Ha as (g3 & Ha & _).
  by apply (blank_relationship _ start (mk_graph [] [])) in Ha.
Qed.

Module Graphs.
Definition said (text : string) : value := VDict [("role", VStr "user"); ("text", VStr text)].
Definition talk (id : string) (owner project : string) : dict :=
  [("id", VStr id); ("title", VStr "Hub");
   ("metadata", VDict [("owner_id", VStr owner); ("project_id", VStr project)])].
Definition records (id owner project text : string) : list dict * list dict :=
  match extract_memory_graph (talk id owner project) [said text] 0 with Ok g => g | Raise _ => ([], []) end.
Definition alice := records "c1" "alice" "p1" "Hub uses Postgres".
Definition bob := records "c2" "bob" "p2" "Hub uses Qdrant".
Definition after_alice : FactDb := (upsert_graph_records alice.1 alice.2 empty_facts).2.
Definition after_bob : FactDb := (upsert_graph_records bob.1 bob.2 after_alice).2.

Lemma extracted_graph_wellformed_witness :
  length alice.2 = 1%nat ∧ NoDup (map (vget "id") alice.1).
Proof.
  split; [vm_compute; reflexivity|].
  destruct (@extracted_graph_wellformed hashlib (talk "c1" "alice" "p1") [said "Hub uses Postgres"] 0 alice.1 alice.2
    ltac:(vm_compute; reflexivity)) as (H & _). exact H.
Defined.
(** the project of the conversation finds nothing *)
Lemma ingested_graph_not_found_witness :
  length (FactStore.relationships after_alice) = 1%nat ∧
  search_graph_relationships None None (Some "alice") (Some "p1") true after_alice = (Ok [], after_alice).
Proof.
  split; [vm_compute; reflexivity|].
  destruct (@ingested_graph_not_found hashlib (talk "c1" "alice" "p1") [said "Hub uses Postgres"] 0 alice.1 alice.2 empty_facts after_alice
    ltac:(reflexivity) ltac:(vm_compute; reflexivity) ltac:(constructor) ltac:(vm_compute; reflexivity)) as [_ H].
  exact (H None None (Some "alice") "p1" true).
Defined.
(** what another owner states in another project supersedes it *)
Example owners_conflict : map re_superseded_by (FactStore.relationships after_bob) ≠ map re_superseded_by (FactStore.relationships after_alice).
Proof. vm_compute. discriminate. Qed.
Lemma blank_name_raises_witness : ∃ e, extract_memory_graph (talk "c1" "alice" "p1") [said "I have ??"] 0 = Raise e.
Proof.
  exact (blank_name_raises (talk "c1" "alice" "p1") [("role", VStr "user"); ("text", VStr "I have ??")] [] 0 "c1"
    eq_refl eq_refl ltac:(discriminate)).
Defined.
End Graphs.
