(* ===== verification/Chunks.v ===== *)
(** * Tokens, chunks and their embedding ([memory/ingestion/tokenizer.py],
    [memory/ingestion/mvp_ingestion.py])

    The tiktoken encoding is third-party: it is an optional argument, and without
    it words and single signs are the tokens.  Chunking of messages into token
    windows, the chunk manifest in the metadata, the batches of texts given to an
    embedding provider, and the interface of the vector store with its in-memory
    implementation ([memory/backend/vector_store.py]). *)
From Stdlib Require Import ZArith Lia Ascii.
From S2P Require Import Prelude PyStr Json Identity Regex ConvStore FactValidation.
Local Open Scope Z_scope.

(** * Tokens and token windows *)

Record Tokenizer := mk_tokenizer { encode : string → list Z; decode : list Z → string }.

Definition _FALLBACK_PATTERN : pattern := re_compile "\w+|[^\w\s]".
Definition _fallback_token_matches (text : string) : list re_match := re_finditer _FALLBACK_PATTERN text.
Definition _fallback_tokens (text : string) : list string := map (group0 text) (_fallback_token_matches text).
(** [text.rstrip()] *)
Definition rstrip (s : string) : string := rstrip_by is_space s.

Section tokenizer.
(** [_get_encoding(encoding)] *)
Variable tokenizer : option Tokenizer.

Definition count_tokens (text : string) : Z :=
  match tokenizer with
  | Some t => Z.of_nat (length (encode t text))
  | None => Z.of_nat (length (_fallback_tokens text))
  end.
Definition truncate_to_tokens (text : string) (max_tokens : Z) : string :=
  if max_tokens <=? 0 then "" else
  match tokenizer with
  | Some t =>
      let token_ids := encode t text in
      if Z.of_nat (length token_ids) <=? max_tokens then text
      else rstrip (decode t (take (Z.to_nat max_tokens) token_ids))
  | None =>
      let matches := _fallback_token_matches text in
      if Z.of_nat (length matches) <=? max_tokens then text
      else rstrip (stake (default 0%nat (m_end <$> nth_error matches (Z.to_nat max_tokens - 1))) text)
  end.

(** The starts that the loop over [range(0, count, step)] reaches before it
    breaks at the first window that ends the text; a step is at least one, so
    [count] rounds are enough. *)
Fixpoint window_starts (fuel count max_tokens step start : nat) : list nat :=
  match fuel with
  | O => []
  | S n => if Nat.leb count start then []
           else start :: (if Nat.leb count (start + max_tokens) then []
                          else window_starts n count max_tokens step (start + step))
  end.
Definition match_window (text : string) (matches : list re_match) (max_tokens start : nat) : string :=
  let end_ := Nat.min (start + max_tokens) (length matches) in
  slice (default 0%nat (m_start <$> nth_error matches start)) (default 0%nat (m_end <$> nth_error matches (end_ - 1))) text.
Definition nonblank_windows (windows : list string) : list string :=
  List.filter (λ w, negb (String.eqb w "")) (map strip windows).
Definition split_token_windows (text : string) (max_tokens overlap_tokens : Z) : result (list string) :=
  _ ← guard_err (max_tokens <=? 0) (ValueError "max_tokens must be positive");
  _ ← guard_err (overlap_tokens <? 0) (ValueError "overlap_tokens must be non-negative");
  _ ← guard_err (max_tokens <=? overlap_tokens) (ValueError "overlap_tokens must be less than max_tokens");
  let max := Z.to_nat max_tokens in
  let step := Z.to_nat (max_tokens - overlap_tokens) in
  match tokenizer with
  | Some t =>
      let token_ids := encode t text in
      if Z.of_nat (length token_ids) <=? max_tokens then Ok [text] else
      Ok (nonblank_windows (map (λ start, decode t (take max (drop start token_ids)))
        (window_starts (length token_ids) (length token_ids) max step 0)))
  | None =>
      let matches := _fallback_token_matches text in
      if Z.of_nat (length matches) <=? max_tokens then Ok [text] else
      Ok (nonblank_windows (map (match_window text matches max)
        (window_starts (length matches) (length matches) max step 0)))
  end.
Definition tokenizer_used (encoding : string) : string :=
  match tokenizer with Some _ => "tiktoken:" +:+ encoding | None => "heuristic" end.
End tokenizer.

(** * Chunks of a conversation and their embedding *)

(** ** Chunking *)

Section chunking.
Variable tokenizer : option Tokenizer.
Variables (chunking_strategy : string) (chunking_max_tokens chunking_overlap_tokens : Z).

Definition _message_token_windows (text : string) : result (list string) :=
  if String.eqb chunking_strategy "message" then Ok [text] else
  _ ← guard_err (chunking_max_tokens <=? chunking_overlap_tokens)
        (ValueError "chunking.overlap_tokens must be less than chunking.max_tokens");
  split_token_windows tokenizer text chunking_max_tokens chunking_overlap_tokens.

Definition new_chunk (conversation_id : string) (chunk_index : Z) (message_hash : string) (message_index window_index : Z)
    (role text : string) : dict :=
  [("chunk_id", VStr (conversation_id +:+ ":" +:+ str_of_Z chunk_index +:+ ":" +:+ message_hash));
   ("chunk_index", VInt chunk_index); ("conversation_id", VStr conversation_id); ("message_hash", VStr message_hash);
   ("message_index", VInt message_index); ("token_window_index", VInt window_index); ("role", VStr role);
   ("text", VStr text); ("index_state", VStr (state_value PENDING))].
Definition message_chunks (conversation_id : string) (start_index : Z) (chunks : list dict) (im : Z * value) : result (list dict) :=
  '(message_hash, role, text) ← message_of im.2;
  windows ← _message_token_windows text;
  Ok (chunks ++ map (λ w, new_chunk conversation_id (start_index + Z.of_nat (length chunks) + w.1) message_hash
                            (start_index + im.1) w.1 role w.2) (enumerate 0 windows)).
Definition chunk_selected_messages (obj : dict) (messages : value) (start_index : Z) : result (list dict) :=
  match messages with
  | VList messages =>
      id ← item "id" obj;
      fold_result (message_chunks (py_str id) start_index) [] (enumerate 0 messages)
  | _ => Raise (ValueError "Missing or invalid 'messages' key in conversation object")
  end.
Definition chunk_messages (obj : dict) : result (list dict) :=
  chunk_selected_messages obj (vget_or "messages" (VList []) obj) 0.
End chunking.

(** ** The manifest *)

Definition int_item (k : string) (d : dict) : result Z :=
  v ← item k d;
  match v with
  | VNone | VList _ | VDict _ => Raise (TypeError "int() argument must be a string or a real number")
  | _ => from_option_err (ValueError "invalid literal for int()") (py_int v)
  end.
Definition manifest_entry (chunk : dict) : result dict :=
  id ← item "chunk_id" chunk;
  index ← int_item "chunk_index" chunk;
  h ← item "message_hash" chunk;
  r ← item "role" chunk;
  t ← item "text" chunk;
  Ok [("chunk_id", VStr (py_str id)); ("chunk_index", VInt index); ("message_hash", VStr (py_str h));
      ("role", VStr (py_str r)); ("text", VStr (py_str t));
      ("index_state", VStr (py_str (vget_or "index_state" (VStr (state_value PENDING)) chunk)))].
Definition set_manifest (entries : list value) (obj : dict) : dict :=
  let metadata := default [] (as_dict (vget "metadata" obj)) in
  dict_set "metadata" (VDict (dict_set "index_chunks" (VList entries) metadata)) obj.
Definition manifest_of (obj : dict) : value :=
  match vget "metadata" obj with VDict metadata => vget "index_chunks" metadata | _ => VNone end.
Definition _attach_index_chunks (obj : dict) (chunks : list dict) : result dict :=
  entries ← map_result manifest_entry chunks; Ok (set_manifest (map VDict entries) obj).
Definition _extend_index_chunks (obj : dict) (chunks : list dict) : result dict :=
  let existing := match manifest_of obj with VList l => l | _ => [] end in
  entries ← map_result manifest_entry chunks; Ok (set_manifest (existing ++ map VDict entries) obj).
Definition _index_chunk_manifest (conversation : dict) : list dict :=
  match manifest_of conversation with VList l => omap as_dict l | _ => [] end.
Definition _next_chunk_index (conversation : dict) (fallback_start_index : Z) : result Z :=
  let index_of chunk :=
    match vget_or "chunk_index" (VInt (-1)) chunk with
    | VNone | VList _ | VDict _ => Raise (TypeError "int() argument must be a string or a real number")
    | v => from_option_err (ValueError "invalid literal for int()") (py_int v)
    end in
  indexes ← map_result index_of (_index_chunk_manifest conversation);
  Ok (match indexes with [] => fallback_start_index | i :: rest => foldr Z.max i rest + 1 end).
Definition _has_pending_index_chunks (conversation : dict) : bool :=
  existsb (λ chunk, match vget "index_state" chunk with VStr s => String.eqb s (state_value PENDING) | _ => false end)
    (_index_chunk_manifest conversation).
Definition _manifest_chunk_index (item : dict) (fallback_index : Z) : option Z :=
  py_int (vget_or "chunk_index" (VInt fallback_index) item).

(** A chunk that matches the targets, with the chunk id and index it shows. *)
Definition mark_item (targets : IndexChunkIdentitySet) (chunk_id_by_index : list (Z * string)) (state : IndexState)
    (entry : value) : value * option (string * option Z) :=
  match entry with
  | VDict chunk =>
      if matches targets chunk then
        let chunk_id := text_of "chunk_id" chunk in
        let chunk_index := _manifest_chunk_index chunk (-1) in
        match (if String.eqb chunk_id "" then i ← chunk_index; zassoc i chunk_id_by_index else None) with
        | Some id => (VDict (dict_set "index_state" (VStr (state_value state)) (dict_set "chunk_id" (VStr id) chunk)),
                      Some (id, chunk_index))
        | None => (VDict (dict_set "index_state" (VStr (state_value state)) chunk), Some (chunk_id, chunk_index))
        end
      else (entry, None)
  | _ => (entry, None)
  end.
(** The conversation and the chunks after [state] is set on both. *)
Definition _set_index_chunks_state (conversation : dict) (chunks : list dict) (state : IndexState) : result (dict * list dict) :=
  let chunks := map (dict_set "index_state" (VStr (state_value state))) chunks in
  match manifest_of conversation with
  | VList existing =>
      ids ← map_result (λ c, i ← item "chunk_id" c; Ok (py_str i)) chunks;
      targets ← from_chunk_ids ids;
      chunk_id_by_index ← index_chunk_ids_by_chunk_index ids;
      let marked := map (mark_item targets chunk_id_by_index state) existing in
      let present := omap snd marked in
      let present_ids := List.filter (λ i, negb (String.eqb i "")) (map fst present) in
      let present_indexes := omap snd present in
      let conversation := set_manifest (map fst marked) conversation in
      missing ← map_result (λ c,
        i ← item "chunk_id" c;
        if existsb (String.eqb (py_str i)) present_ids then Ok [] else
        n ← int_item "chunk_index" c;
        Ok (if existsb (Z.eqb n) present_indexes then [] else [c])) chunks;
      match concat missing with
      | [] => Ok (conversation, chunks)
      | missing => conversation ← _extend_index_chunks conversation missing; Ok (conversation, chunks)
      end
  | _ => conversation ← _attach_index_chunks conversation chunks; Ok (conversation, chunks)
  end.

(** ** Repair of the manifest *)

Definition _legacy_manifest_chunk_id (memory_id : string) (chunk_index : Z) (item : dict) : string :=
  let message_hash := strip (text_of "message_hash" item) in
  if String.eqb message_hash "" then memory_id +:+ ":" +:+ str_of_Z chunk_index
  else memory_id +:+ ":" +:+ str_of_Z chunk_index +:+ ":" +:+ message_hash.
Definition _manifest_chunk_for_index_repair (memory_id : string) (item : dict) (fallback_index : Z)
    (indexed_by_chunk_index : list (Z * string)) : option dict :=
  chunk_index ← _manifest_chunk_index item fallback_index;
  let own := if truthy (vget "chunk_id" item) then py_str (vget "chunk_id" item) else "" in
  let known := default "" (zassoc chunk_index indexed_by_chunk_index) in
  let chunk_id := if negb (String.eqb own "") then own else if negb (String.eqb known "") then known
                  else _legacy_manifest_chunk_id memory_id chunk_index item in
  Some [("chunk_id", VStr chunk_id); ("chunk_index", VInt chunk_index); ("message_hash", VStr (text_of "message_hash" item));
        ("role", VStr (text_of "role" item)); ("text", VStr (text_of "text" item));
        ("index_state", VStr (py_str (vget_or "index_state" (VStr (state_value PENDING)) item)))].
(** [indexed_chunk_ids] is empty when none are given. *)
Definition _manifest_chunks_for_index_repair (conversation : dict) (indexed_chunk_ids : list string) : result (list dict) :=
  let chunk_ids := sorted_strs indexed_chunk_ids in
  targets ← from_chunk_ids chunk_ids;
  indexed_by_chunk_index ← index_chunk_ids_by_chunk_index chunk_ids;
  let memory_id := text_of "id" conversation in
  Ok (omap (λ im,
    if match indexed_chunk_ids with [] => false | _ => negb (matches targets im.2) end then None
    else _manifest_chunk_for_index_repair memory_id im.2 im.1 indexed_by_chunk_index)
    (enumerate 0 (_index_chunk_manifest conversation))).

(** ** Batches of texts *)

Definition json_bytes (text : string) : Z := utf8_len (json_dumps (VStr text)).
(** [_embedding_batch_input_bytes] *)
Definition _embedding_batch_input_bytes (texts : list string) : Z := utf8_len (json_dumps (VList (map VStr texts))).
Definition limit_of (v : value) : option Z := match v with VInt z => Some z | _ => None end.

(** The batches closed so far, the current one and its size in bytes. *)
Record batching := mk_batching { batches : list (list string); current : list string; current_bytes : Z }.
Definition add_text (size_limit : Z) (byte_limit : option Z) (b : batching) (text : string) : result batching :=
  let text_bytes := json_bytes text in
  let exceeds n := match byte_limit with Some l => l <? n | None => false end in
  _ ← guard_err (exceeds (2 + text_bytes)) (ValueError "Embedding input exceeds provider max_batch_input_bytes");
  match current b with
  | [] => Ok (mk_batching (batches b) [text] (current_bytes b + text_bytes))
  | _ =>
      if (size_limit <=? Z.of_nat (length (current b))) || exceeds (current_bytes b + 1 + text_bytes)
      then Ok (mk_batching (batches b ++ [current b]) [text] (2 + text_bytes))
      else Ok (mk_batching (batches b) (current b ++ [text]) (current_bytes b + 1 + text_bytes))
  end.
Definition _embedding_text_batches (texts : list string) (max_batch_size max_batch_input_bytes : value) : result (list (list string)) :=
  let size_limit := default (if Z.of_nat (length texts) =? 0 then 1 else Z.of_nat (length texts)) (limit_of max_batch_size) in
  let byte_limit := limit_of max_batch_input_bytes in
  _ ← guard_err ((size_limit <? 1) || match byte_limit with Some l => l <? 1 | None => false end)
        (ValueError "Embedding provider batch limits must be positive integers");
  b ← fold_result (add_text size_limit byte_limit) (mk_batching [] [] 2) texts;
  Ok (match current b with [] => batches b | c => batches b ++ [c] end).

(** ** Embedding *)

(** A vector is the list of the texts of its floats. *)
Notation vector := (list string).
(** The embedding provider: a third-party model behind [embed_texts]. *)
Class EmbeddingProvider := {
  embed_texts : list string → result (list vector);
  max_batch_size : value;
  max_batch_input_bytes : value;
}.
Definition embed_batch `{EmbeddingProvider} (text_batch : list string) : result (list vector) :=
  vectors ← embed_texts text_batch;
  _ ← guard_err (negb (Nat.eqb (length vectors) (length text_batch))) (ValueError "Embedding provider must return one vector per input");
  Ok vectors.
Definition chunk_embedding (project_id owner_id : option string) (cv : dict * vector) : result dict :=
  let chunk := cv.1 in
  index ← item "chunk_index" chunk;
  role ← item "role" chunk;
  text ← item "text" chunk;
  Ok [("chunk_id", vget "chunk_id" chunk); ("chunk_index", index); ("conversation_id", vget "conversation_id" chunk);
      ("project_id", opt_str project_id); ("owner_id", opt_str owner_id); ("message_hash", vget "message_hash" chunk);
      ("index_state", VStr (state_value INDEXED)); ("role", role); ("text", text);
      ("vector", VList (map VFloat cv.2))].
Definition embed_chunks `{EmbeddingProvider} (chunks : list dict) (project_id owner_id : option string) : result (list dict) :=
  texts ← map_result (λ c, t ← item "text" c; Ok (py_str t)) chunks;
  text_batches ← _embedding_text_batches texts max_batch_size max_batch_input_bytes;
  batches ← map_result embed_batch text_batches;
  let vectors := concat batches in
  _ ← guard_err (negb (Nat.eqb (length vectors) (length chunks))) (ValueError "Embedding provider must return one vector per chunk");
  map_result (chunk_embedding project_id owner_id) (zip chunks vectors).

(** ** Vector stores *)

(** What ingestion asks of a vector store. *)
Class VectorStore := {
  vectors : Type;
  vs_insert : string → list dict → bool → M vectors unit;
  vs_delete : list string → M vectors unit;
  get_indexed_chunk_ids : string → M vectors (list string);
}.

(** A row of the in-memory store. *)
Record vector_row := mk_vector_row {
  v_memory_id : string; v_project_id : string; v_owner_id : string; v_chunk_id : string; v_chunk_index : Z;
  v_message_hash : string; v_role : string; v_text : string; v_vector : vector;
}.
Definition vector_item (embedding : dict) : result vector :=
  v ← item "vector" embedding;
  match v with
  | VList l => map_result (λ x, match x with VFloat t => Ok t | _ => Raise OutsideModel end) l
  | _ => Raise (TypeError "object is not iterable")
  end.
Section memory_store.
(** [expected_dimensionality] *)
Variable dimension : Z.
Definition _validate_dimension (v : vector) : result unit :=
  guard_err (negb (Z.of_nat (length v) =? dimension)) (RuntimeError "Vector dimensionality mismatch").
Definition vector_row_of (metadata_id : string) (embedding : dict) : result vector_row :=
  v ← vector_item embedding;
  _ ← _validate_dimension v;
  index ← int_item "chunk_index" embedding;
  role ← item "role" embedding;
  text ← item "text" embedding;
  let own := vget "chunk_id" embedding in
  Ok (mk_vector_row metadata_id (text_of "project_id" embedding) (text_of "owner_id" embedding)
        (if truthy own then py_str own else metadata_id +:+ ":" +:+ str_of_Z index) index
        (text_of "message_hash" embedding) (py_str role) (py_str text) v).
Fixpoint append_rows (metadata_id : string) (embeddings : list dict) : M (list vector_row) unit :=
  match embeddings with
  | [] => mret tt
  | e :: rest =>
      row ← lift (vector_row_of metadata_id e);
      _ ← exec (λ rows, rows ++ [row]);
      append_rows metadata_id rest
  end.
Definition of_memory (id : string) (r : vector_row) : bool := String.eqb (v_memory_id r) id.
Definition memory_insert (metadata_id : string) (embeddings : list dict) (replace : bool) : M (list vector_row) unit :=
  _ ← exec (λ rows, if replace then tbl_delete (of_memory metadata_id) rows else rows);
  append_rows metadata_id embeddings.
Definition memory_delete (ids : list string) : M (list vector_row) unit :=
  exec (tbl_delete (λ r, existsb (String.eqb (v_memory_id r)) ids)).
Definition memory_chunk_ids (memory_id : string) : M (list vector_row) (list string) :=
  query (λ rows, map v_chunk_id (tbl_select (of_memory memory_id) rows)).
Definition InMemoryVectorStore : VectorStore :=
  Build_VectorStore (list vector_row) memory_insert memory_delete memory_chunk_ids.
End memory_store.
