(* ===== verification/ChunkFacts.v ===== *)
(** * Guarantees of chunking and embedding

    The token windows cover a text, the batches partition the texts within the
    limits of the provider, and the in-memory vector store keeps the promises
    of the interface. *)
From Stdlib Require Import ZArith Lia Ascii.
From S2P Require Import Prelude PyStr Json Identity Regex ConvStore Chunks FactValidation.
Local Open Scope Z_scope.

(** ** Batches *)

Lemma utf8_len_app a b : utf8_len (a +:+ b) = utf8_len a + utf8_len b.
Proof.
  unfold utf8_len, str_len. rewrite <-Nat2Z.inj_add. f_equal. induction a as [|c a IH]; cbn; [done|].
  rewrite !str_app_length, IH. lia.
Qed.
(** The bytes of the items of a JSON array with their separators. *)
Definition items_bytes (texts : list string) : Z := foldr (λ t n, json_bytes t + 1 + n) 0 texts.
Lemma items_bytes_app a b : items_bytes (a ++ b) = items_bytes a + items_bytes b.
Proof. unfold items_bytes. induction a as [|t a IH]; cbn; [done|]. rewrite IH. lia. Qed.
Lemma join_bytes texts : texts ≠ [] →
  utf8_len (join "," (map (λ t, json_dumps (VStr t)) texts)) = items_bytes texts - 1.
Proof.
  intros Hne. induction texts as [|t texts IH]; [done|]. destruct texts as [|u texts].
  { cbn [map items_bytes foldr]. change (join "," [json_dumps (VStr t)]) with (json_dumps (VStr t)). unfold json_bytes. lia. }
  cbn [map]. rewrite join_cons2. cbn [map] in IH. rewrite !utf8_len_app, IH by done. cbn [items_bytes foldr].
  change (utf8_len ",") with 1. unfold json_bytes. lia.
Qed.
Lemma batch_bytes texts : texts ≠ [] → _embedding_batch_input_bytes texts = 1 + items_bytes texts.
Proof.
  intros Hne. unfold _embedding_batch_input_bytes. change (json_dumps (VList (map VStr texts)))
    with ("[" +:+ (join "," (map json_dumps (map VStr texts)) +:+ "]")).
  rewrite map_map, !utf8_len_app, join_bytes by done. change (utf8_len "[") with 1. change (utf8_len "]") with 1. lia.
Qed.

Section batches.
Variables (size_limit : Z) (byte_limit : option Z).
Definition fits (n : Z) : Prop := match byte_limit with Some l => n ≤ l | None => True end.
Definition within (batch : list string) : Prop :=
  batch ≠ [] ∧ Z.of_nat (length batch) ≤ size_limit ∧ fits (_embedding_batch_input_bytes batch).
(** The text that opened the next batch would not have fitted in this one. *)
Definition full (batch : list string) (next : string) : Prop :=
  size_limit ≤ Z.of_nat (length batch) ∨ ¬ fits (_embedding_batch_input_bytes (batch ++ [next])).
Fixpoint closed_in_turn (bs : list (list string)) (last : list string) : Prop :=
  match bs with
  | [] => True
  | b :: rest => (∃ t, head (concat rest ++ last) = Some t ∧ full b t) ∧ closed_in_turn rest last
  end.
Record batching_ok (done_texts : list string) (b : batching) : Prop := mk_batching_ok {
  b_texts : concat (batches b) ++ current b = done_texts;
  b_within : Forall within (batches b);
  b_current : current b = [] ∧ batches b = [] ∧ current_bytes b = 2 ∨ within (current b) ∧ current_bytes b = 1 + items_bytes (current b);
  b_closed : closed_in_turn (batches b) (current b);
}.

Lemma exceeds_fits n : (match byte_limit with Some l => l <? n | None => false end) = false ↔ fits n.
Proof. unfold fits. destruct byte_limit; [|done]. rewrite Z.ltb_ge. done. Qed.
Lemma closed_snoc bs c t : c ≠ [] → closed_in_turn bs c → closed_in_turn bs (c ++ [t]).
Proof.
  intros Hc. induction bs as [|b bs IH]; cbn; [done|]. intros [(u & Hu & Hf) Hr]. split; [|by apply IH].
  exists u. split; [|done]. rewrite app_assoc. destruct (concat bs ++ c); [done|]. exact Hu.
Qed.
Lemma closed_new bs c t : c ≠ [] → full c t → closed_in_turn bs c → closed_in_turn (bs ++ [c]) [t].
Proof.
  intros Hc Hf. induction bs as [|b bs IH]; cbn; [intros _; split; [by exists t|done]|].
  intros [(u & Hu & Hfu) Hr]. split; [|by apply IH]. exists u. split; [|done].
  rewrite concat_app. cbn. rewrite app_nil_r. destruct (concat bs ++ c); [done|]. exact Hu.
Qed.

Lemma add_text_ok done_texts b t b' : 1 ≤ size_limit → batching_ok done_texts b → add_text size_limit byte_limit b t = Ok b' →
  batching_ok (done_texts ++ [t]) b'.
Proof.
  intros Hs [B1 B2 B3 B4] Ha. unfold add_text in Ha. cbv zeta in Ha. apply bind_Ok in Ha as (u & Hg & Ha).
  unfold guard_err in Hg. destruct (match byte_limit with Some l => l <? 2 + json_bytes t | None => false end) eqn:E1; [done|].
  clear Hg. apply exceeds_fits in E1.
  assert (Hone : within [t]).
  { unfold within. rewrite batch_bytes by done. cbn [items_bytes foldr length]. split; [done|]. split; [lia|].
    by replace (1 + (json_bytes t + 1 + 0)) with (2 + json_bytes t) by lia. }
  destruct (current b) as [|c0 cs] eqn:Ec.
  - injection Ha as <-. destruct B3 as [(_ & Eb & E2)|[[? _] _]]; [|done]. rewrite Eb in *.
    constructor; cbn [batches current current_bytes]; [by rewrite <-B1|constructor|right|done].
    split; [done|]. cbn [items_bytes foldr]. lia.
  - rewrite <-Ec in *. assert (Hc : current b ≠ []) by (by rewrite Ec). clear Ec.
    destruct B3 as [(? & _)|[Hw Ebytes]]; [done|].
    assert (Hnext : _embedding_batch_input_bytes (current b ++ [t]) = current_bytes b + 1 + json_bytes t).
    { rewrite batch_bytes, items_bytes_app, Ebytes by (by destruct (current b)). cbn [items_bytes foldr]. lia. }
    destruct ((size_limit <=? _) || _) eqn:E2; injection Ha as <-; constructor; cbn [batches current current_bytes].
    + rewrite concat_app. cbn [concat]. by rewrite app_nil_r, B1.
    + apply Forall_app. split; [done|]. by constructor.
    + right. split; [done|]. cbn [items_bytes foldr]. lia.
    + apply closed_new; [done| |done]. apply orb_true_iff in E2 as [E2%Z.leb_le|E2]; [by left|right].
      rewrite Hnext, <-exceeds_fits. by rewrite E2.
    + by rewrite app_assoc, B1.
    + done.
    + right. apply orb_false_iff in E2 as [E2%Z.leb_gt E3%exceeds_fits]. unfold within. rewrite Hnext.
      split; [split_and!; [by destruct (current b)| |done]|].
      * rewrite length_app. cbn. lia.
      * rewrite items_bytes_app. cbn [items_bytes foldr]. lia.
    + by apply closed_snoc.
Qed.
Lemma fold_add_text texts : ∀ done_texts b b', 1 ≤ size_limit → batching_ok done_texts b →
  fold_result (add_text size_limit byte_limit) b texts = Ok b' → batching_ok (done_texts ++ texts) b'.
Proof.
  induction texts as [|t texts IH]; cbn [fold_result]; intros dt b b' Hs Hb Hr; [injection Hr as <-; by rewrite app_nil_r|].
  apply bind_Ok in Hr as (b1 & H1 & Hr). apply (add_text_ok dt _ _ _ Hs Hb) in H1.
  apply (IH _ _ _ Hs H1) in Hr. by rewrite <-app_assoc in Hr.
Qed.
End batches.

(** The batches given to an embedding provider are the texts in order, each
    batch is non-empty and within the limits on inputs and on request bytes, and
    no batch is closed early: the next text would have exceeded a limit. *)
Theorem embedding_batches_partition texts max_size max_bytes bs :
  _embedding_text_batches texts max_size max_bytes = Ok bs →
  let size_limit := default (Z.max 1 (Z.of_nat (length texts))) (limit_of max_size) in
  concat bs = texts ∧ Forall (within size_limit (limit_of max_bytes)) bs ∧
  closed_in_turn size_limit (limit_of max_bytes) (removelast bs) (List.last bs []).
Proof.
  unfold _embedding_text_batches. cbv zeta. intros Hr.
  replace (if Z.of_nat (length texts) =? 0 then 1 else Z.of_nat (length texts))
    with (Z.max 1 (Z.of_nat (length texts))) in Hr by (destruct (Z.eqb_spec (Z.of_nat (length texts)) 0); lia).
  set (size_limit := default _ _) in *. apply bind_Ok in Hr as (u & Hg & Hr).
  unfold guard_err in Hg. destruct (_ || _) eqn:E; [done|]. apply orb_false_iff in E as [E%Z.ltb_ge _].
  apply bind_Ok in Hr as (b & Hb & Hr).
  assert (H0 : batching_ok size_limit (limit_of max_bytes) [] (mk_batching [] [] 2)) by (constructor; [done|constructor|by left|done]).
  apply (fold_add_text size_limit (limit_of max_bytes) texts [] _ _ E H0) in Hb.
  destruct Hb as [B1 B2 B3 B4]. cbn in B1. destruct (current b) as [|c cs] eqn:Ec.
  - injection Hr as <-. destruct B3 as [(_ & Eb & _)|[[? _] _]]; [|done]. rewrite Eb in *. cbn in *. by split_and!.
  - rewrite <-Ec in *. injection Hr as <-. rewrite removelast_last, last_last. destruct B3 as [(E' & _)|[Hw _]]; [congruence|].
    split_and!; [|apply Forall_app; split; [done|by apply Forall_singleton]|done]. rewrite concat_app. cbn. by rewrite app_nil_r.
Qed.

(** ** Token windows *)

Lemma window_starts_cover max step count : (1 ≤ step ≤ max)%nat → ∀ fuel start t, (count ≤ start + fuel)%nat →
  (start ≤ t < count)%nat → ∃ s, s ∈ window_starts fuel count max step start ∧ (s ≤ t < s + max)%nat.
Proof.
  intros Hs. induction fuel as [|n IH]; intros start t Hf Ht; [lia|]. cbn [window_starts].
  destruct (Nat.leb_spec count start); [lia|].
  destruct (decide (t < start + max)%nat); [exists start; split; [by left|lia]|].
  destruct (Nat.leb_spec count (start + max)); [lia|].
  destruct (IH (start + step)%nat t) as (s & Hin & Hst); [lia..|]. exists s. split; [by right|done].
Qed.
(** Consecutive starts are one step apart. *)
Fixpoint evenly (step : nat) (l : list nat) : Prop :=
  match l with
  | [] => True
  | a :: rest => (∀ b, head rest = Some b → b = (a + step)%nat) ∧ evenly step rest
  end.
Lemma window_starts_even max step count fuel : ∀ start, evenly step (window_starts fuel count max step start) ∧
  ∀ s, head (window_starts fuel count max step start) = Some s → s = start.
Proof.
  induction fuel as [|n IH]; intros start; cbn [window_starts]; [done|].
  destruct (Nat.leb count start); [done|].
  destruct (Nat.leb count (start + max)); (split; [|by intros s [= <-]]); [done|].
  destruct (IH (start + step)%nat) as [H1 H2]. split; [|done]. intros b Hb. by apply H2.
Qed.
Lemma window_starts_last max step count fuel : ∀ start s, s ∈ window_starts fuel count max step start → (s < count)%nat.
Proof.
  induction fuel as [|n IH]; intros start s; cbn [window_starts]; [by intros ?%elem_of_nil|].
  destruct (Nat.leb_spec count start); [by intros ?%elem_of_nil|]. intros [->|Hs]%elem_of_cons; [done|].
  destruct (Nat.leb count (start + max)); [by apply elem_of_nil in Hs|]. by eapply IH.
Qed.
(** The windows of a text, as texts, and the number of its tokens. *)
Definition window_text (tokenizer : option Tokenizer) (text : string) (max start : nat) : string :=
  match tokenizer with
  | Some t => decode t (take max (drop start (encode t text)))
  | None => match_window text (_fallback_token_matches text) max start
  end.

(** Whichever tokenizer is used, a text of at most [max_tokens] tokens is one
    window; a longer one is cut into the windows of [max_tokens] tokens that start
    at token 0 and then every [max_tokens - overlap_tokens] tokens: every token is
    in one of them, and the blank ones are left out. *)
Theorem token_windows_cover tokenizer text max_tokens overlap_tokens ws :
  split_token_windows tokenizer text max_tokens overlap_tokens = Ok ws →
  0 ≤ overlap_tokens < max_tokens ∧
  let count := Z.to_nat (count_tokens tokenizer text) in
  let max := Z.to_nat max_tokens in
  if (count <=? max)%nat then ws = [text] else
  ∃ starts, ws = nonblank_windows (map (window_text tokenizer text max) starts) ∧
    head starts = Some 0%nat ∧ evenly (max - Z.to_nat overlap_tokens) starts ∧
    ∀ t, (t < count)%nat → ∃ s, s ∈ starts ∧ (s ≤ t < s + max)%nat.
Proof.
  unfold split_token_windows. cbv zeta. intros Hr.
  apply bind_Ok in Hr as (u1 & H1 & Hr). apply bind_Ok in Hr as (u2 & H2 & Hr). apply bind_Ok in Hr as (u3 & H3 & Hr).
  unfold guard_err in H1, H2, H3.
  destruct (Z.leb_spec max_tokens 0); [done|]. destruct (Z.ltb_spec overlap_tokens 0); [done|].
  destruct (Z.leb_spec max_tokens overlap_tokens); [done|]. split; [lia|].
  set (n := match tokenizer with Some t => length (encode t text) | None => length (_fallback_token_matches text) end).
  assert (Hcount : Z.to_nat (count_tokens tokenizer text) = n).
  { unfold count_tokens, n, _fallback_tokens. destruct tokenizer; [lia|]. rewrite length_map. lia. }
  rewrite Hcount. set (max := Z.to_nat max_tokens).
  replace (max - Z.to_nat overlap_tokens)%nat with (Z.to_nat (max_tokens - overlap_tokens)) by (unfold max; lia).
  set (step := Z.to_nat (max_tokens - overlap_tokens)) in *.
  assert (Hb : (Z.of_nat n <=? max_tokens) = (n <=? max)%nat)
    by (unfold max; destruct (Z.leb_spec (Z.of_nat n) max_tokens), (Nat.leb_spec n (Z.to_nat max_tokens)); try done; lia).
  assert (Hr' : (if (n <=? max)%nat then Ok [text] else
    Ok (nonblank_windows (map (window_text tokenizer text max) (window_starts n n max step 0)))) = Ok ws)
    by (rewrite <-Hb; unfold n, window_text; destruct tokenizer; exact Hr).
  destruct (Nat.leb_spec n max); injection Hr' as <-; [done|].
  exists (window_starts n n max step 0). split_and!; [done| |apply window_starts_even|].
  - destruct n as [|n']; [lia|]. done.
  - intros t Ht. apply window_starts_cover; unfold step, max; lia.
Qed.

(** ** The in-memory vector store *)

(** What ingestion relies on: replacing the vectors of a memory leaves exactly
    the given ones under its id, and no operation touches another memory. *)
Definition embedding_id (memory_id : string) (e : dict) : string :=
  if truthy (vget "chunk_id" e) then py_str (vget "chunk_id" e)
  else memory_id +:+ ":" +:+ str_of_Z (default 0 (py_int (vget "chunk_index" e))).
Class VectorStoreLaws (V : VectorStore) : Prop := {
  indexed_reads : ∀ id s, ∃ ids, get_indexed_chunk_ids id s = (Ok ids, s);
  insert_indexed : ∀ id es (replace : bool) s s', vs_insert id es replace s = (Ok tt, s') →
    (get_indexed_chunk_ids id s').1 =
      (old ← (get_indexed_chunk_ids id s).1; Ok ((if replace then [] else old) ++ map (embedding_id id) es));
  insert_frame : ∀ id es replace s other, other ≠ id →
    (get_indexed_chunk_ids other (vs_insert id es replace s).2).1 = (get_indexed_chunk_ids other s).1;
}.

Lemma int_item_spec k d i : int_item k d = Ok i → py_int (vget k d) = Some i.
Proof.
  unfold int_item, item, vget. destruct (dict_get k d) as [v|]; [|done]. cbn [from_option_err default mbind result_bind].
  destruct v; try done; cbn [from_option_err]; destruct (py_int _) eqn:E; try done; cbn; by intros [= ->].
Qed.
Lemma append_rows_spec dimension id es : ∀ rows, ∃ added,
  (append_rows dimension id es rows).2 = rows ++ added ∧ Forall (λ r, v_memory_id r = id) added ∧
  ((append_rows dimension id es rows).1 = Ok tt → map v_chunk_id added = map (embedding_id id) es).
Proof.
  induction es as [|e es IH]; intros rows; cbn [append_rows].
  - exists []. rewrite app_nil_r. split_and!; [done|constructor|done].
  - unfold mbind, M_bind, lift. destruct (vector_row_of dimension id e) as [row|err] eqn:Er.
    2: { exists []. rewrite app_nil_r. split_and!; [done|constructor|done]. }
    unfold exec. cbn. destruct (IH (rows ++ [row])) as (added & H1 & H2 & H3).
    exists (row :: added). rewrite H1, <-app_assoc. split; [done|].
    unfold vector_row_of in Er. apply bind_Ok in Er as (v & _ & Er). apply bind_Ok in Er as (u & _ & Er).
    apply bind_Ok in Er as (i & Hi & Er). apply bind_Ok in Er as (r & _ & Er). apply bind_Ok in Er as (t & _ & Er).
    injection Er as <-. split; [by constructor|]. intros Hok. cbn [map v_chunk_id]. f_equal; [|by apply H3].
    unfold embedding_id. by destruct (truthy _); [|rewrite (int_item_spec _ _ _ Hi)].
Qed.
Lemma select_app {R} (p : R → bool) (l k : list R) : tbl_select p (l ++ k) = tbl_select p l ++ tbl_select p k.
Proof. apply List.filter_app. Qed.
Lemma select_delete {R} (p q : R → bool) (l : list R) : (∀ x, q x = true → p x = false) →
  tbl_select p (tbl_delete q l) = tbl_select p l.
Proof.
  intros Hpq. unfold tbl_select, tbl_delete. induction l as [|x l IH]; cbn; [done|].
  destruct (q x) eqn:E; cbn; [by rewrite (Hpq x E)|]. by rewrite IH.
Qed.
Lemma select_deleted {R} (p : R → bool) (l : list R) : tbl_select p (tbl_delete p l) = [].
Proof. unfold tbl_select, tbl_delete. induction l as [|x l IH]; cbn; [done|]. destruct (p x) eqn:E; cbn; [done|]. by rewrite E. Qed.
Lemma select_all {R} (p : R → bool) (l : list R) : Forall (λ x, p x = true) l → tbl_select p l = l.
Proof. unfold tbl_select. induction 1 as [|x l Hx _ IH]; cbn; [done|]. by rewrite Hx, IH. Qed.
Lemma select_none_of {R} (p : R → bool) (l : list R) : Forall (λ x, p x = false) l → tbl_select p l = [].
Proof. unfold tbl_select. induction 1 as [|x l Hx _ IH]; cbn; [done|]. by rewrite Hx. Qed.
Lemma of_memory_eq id r : of_memory id r = true ↔ v_memory_id r = id.
Proof. apply String.eqb_eq. Qed.

#[export] Instance memory_store_laws dimension : VectorStoreLaws (InMemoryVectorStore dimension).
Proof.
  constructor; cbn.
  - intros id s. by eexists.
  - intros id es replace s s' Hi. unfold memory_insert in Hi. apply (proj1 (bind_run _ _ _ _ _)) in Hi as (u & s1 & H1 & Hi).
    apply (proj1 (exec_run _ _ _ _)) in H1 as ->. set (base := if replace then _ else s) in Hi.
    destruct (append_rows_spec dimension id es base) as (added & E1 & E2 & E3). rewrite Hi in E1, E3. cbn in E1, E3. subst s'.
    rewrite select_app, map_app, (select_all _ added), E3; [|done|].
    2: { eapply Forall_impl; [exact E2|]. intros r Hr. by apply of_memory_eq. }
    do 2 f_equal. unfold base. destruct replace; [|done]. by rewrite select_deleted.
  - intros id es replace s other Hne. unfold memory_insert, mbind, M_bind, exec.
    set (base := if replace then _ else s). destruct (append_rows_spec dimension id es base) as (added & E1 & E2 & _).
    rewrite E1, select_app, map_app, (select_none_of _ added), app_nil_r.
    + do 2 f_equal. unfold base. destruct replace; [|done]. apply select_delete. intros x Hx%of_memory_eq.
      apply not_true_is_false. intros Ho%of_memory_eq. congruence.
    + eapply Forall_impl; [exact E2|]. intros r Hr. apply not_true_is_false. intros Ho%of_memory_eq. congruence.
Qed.

(** ** Examples *)

Module ChunkExamples.
Definition texts := ["a"; "bb"; "ccc"].
Lemma embedding_batches_partition_witness : ∃ bs, _embedding_text_batches texts (VInt 2) (VInt 12) = Ok bs ∧
  bs = [["a"; "bb"]; ["ccc"]] ∧ concat bs = texts.
Proof.
  assert (E : _embedding_text_batches texts (VInt 2) (VInt 12) = Ok [["a"; "bb"]; ["ccc"]]) by (vm_compute; reflexivity).
  eexists. split; [exact E|]. split; [reflexivity|]. exact (proj1 (embedding_batches_partition texts (VInt 2) (VInt 12) _ E)).
Defined.
Lemma token_windows_cover_witness : ∃ ws, split_token_windows None "one two, three" 3 1 = Ok ws ∧
  ws = ["one two,"; ", three"] ∧ 0 ≤ 1 < 3.
Proof.
  assert (E : split_token_windows None "one two, three" 3 1 = Ok ["one two,"; ", three"]) by (vm_compute; reflexivity).
  eexists. split; [exact E|]. split; [reflexivity|]. exact (proj1 (token_windows_cover None "one two, three" 3 1 _ E)).
Defined.
End ChunkExamples.
