(* ===== verification/Summaries.v ===== *)
(** * Generated summaries ([memory/ingestion/mvp_ingestion.py],
      [memory/ingestion/summary_models.py], [memory/backend/metadata_store.py])

    The summaries of a conversation, of its topics, of its project and of the
    profile of a subject, with the table that holds them. *)
From Stdlib Require Import ZArith Lia Ascii.
From S2P Require Import Prelude PyStr Json Hash Clock Identity Regex Scope Threads ConvStore FactValidation.
Local Open Scope Z_scope.

Inductive SummaryType := S_PROFILE | S_CONVERSATION | S_TOPIC | S_PROJECT.
Definition summary_type_value (t : SummaryType) : string :=
  match t with S_PROFILE => "profile" | S_CONVERSATION => "conversation" | S_TOPIC => "topic" | S_PROJECT => "project" end.
Inductive SummaryProvenanceStatus := FACT_IDS | CONVERSATION_IDS | MIXED | NONE.
Definition provenance_status_value (s : SummaryProvenanceStatus) : string :=
  match s with FACT_IDS => "fact_ids" | CONVERSATION_IDS => "conversation_ids" | MIXED => "mixed" | NONE => "none" end.
Inductive SummaryBasis := ACTIVE_FACTS | CONVERSATION_MESSAGES | TOPIC_CONVERSATIONS | PROJECT_CONVERSATIONS.
Definition basis_value (b : SummaryBasis) : string :=
  match b with
  | ACTIVE_FACTS => "active_facts" | CONVERSATION_MESSAGES => "conversation_messages"
  | TOPIC_CONVERSATIONS => "topic_conversations" | PROJECT_CONVERSATIONS => "project_conversations"
  end.

Record GeneratedSummaryProvenance := mk_provenance {
  pv_fact_id : option string; pv_conversation_id : option string; pv_predicate : option string; pv_source : option string;
  pv_title : option string; pv_source_conversation_id : option string; pv_source_message_indexes : list Z;
  pv_last_confirmed_at : option string;
}.
Record GeneratedSummary := mk_summary {
  gs_id : string; gs_type : SummaryType; gs_target_id : string; gs_project_id : option string; gs_owner_id : option string;
  gs_text : string; gs_basis : SummaryBasis; gs_provenance_status : SummaryProvenanceStatus; gs_fact_count : Z;
  gs_active_fact_count : Z; gs_freshest_at : option string; gs_source_quality_counts : list (string * Z);
  gs_confidence_counts : list (string * Z); gs_filters : list (string * string);
  gs_provenance : list GeneratedSummaryProvenance; gs_generated_at : string;
}.
Definition provenance_dump (p : GeneratedSummaryProvenance) : dict :=
  [("fact_id", opt_str (pv_fact_id p)); ("conversation_id", opt_str (pv_conversation_id p));
   ("predicate", opt_str (pv_predicate p)); ("source", opt_str (pv_source p)); ("title", opt_str (pv_title p));
   ("source_conversation_id", opt_str (pv_source_conversation_id p));
   ("source_message_indexes", VList (map VInt (pv_source_message_indexes p)));
   ("last_confirmed_at", opt_str (pv_last_confirmed_at p))].
Definition counts_dump (c : list (string * Z)) : value := VDict (map (λ kv, (kv.1, VInt kv.2)) c).
Definition filters_dump (f : list (string * string)) : value := VDict (map (λ kv, (kv.1, VStr kv.2)) f).
(** [summary.model_dump(mode="json")] *)
Definition model_dump (s : GeneratedSummary) : dict :=
  [("id", VStr (gs_id s)); ("type", VStr (summary_type_value (gs_type s))); ("target_id", VStr (gs_target_id s));
   ("project_id", opt_str (gs_project_id s)); ("owner_id", opt_str (gs_owner_id s)); ("text", VStr (gs_text s));
   ("basis", VStr (basis_value (gs_basis s))); ("provenance_status", VStr (provenance_status_value (gs_provenance_status s)));
   ("fact_count", VInt (gs_fact_count s)); ("active_fact_count", VInt (gs_active_fact_count s));
   ("freshest_at", opt_str (gs_freshest_at s)); ("source_quality_counts", counts_dump (gs_source_quality_counts s));
   ("confidence_counts", counts_dump (gs_confidence_counts s)); ("filters", filters_dump (gs_filters s));
   ("provenance", VList (map (λ p, VDict (provenance_dump p)) (gs_provenance s))); ("generated_at", VStr (gs_generated_at s))].

(** ** The table *)

Record summary_row := mk_summary_row {
  sr_id : string; sr_type : string; sr_target : string; sr_owner : option string; sr_project : option string; sr_text : string;
  sr_basis : string; sr_status : string; sr_filters : string; sr_provenance : string; sr_payload : string; sr_generated_at : string;
}.
(** the DO UPDATE of an insertion: neither key, type, target, owner nor project *)
Definition set_summary (new r : summary_row) : summary_row :=
  mk_summary_row (sr_id r) (sr_type r) (sr_target r) (sr_owner r) (sr_project r) (sr_text new) (sr_basis new) (sr_status new)
    (sr_filters new) (sr_provenance new) (sr_payload new) (sr_generated_at new).
Definition is_summary (id : string) (r : summary_row) : bool := String.eqb (sr_id r) id.
Definition upsert_generated_summary (s : GeneratedSummary) : M (list summary_row) string :=
  let d := model_dump s in
  let new := mk_summary_row (gs_id s) (summary_type_value (gs_type s)) (gs_target_id s) (gs_owner_id s) (gs_project_id s)
    (gs_text s) (basis_value (gs_basis s)) (provenance_status_value (gs_provenance_status s))
    (json_dumps (vget "filters" d)) (json_dumps (vget "provenance" d)) (json_dumps (VDict d)) (gs_generated_at s) in
  _ ← exec (tbl_upsert (is_summary (gs_id s)) new (set_summary new));
  mret (gs_id s).
Definition get_generated_summary (summary_id : string) : M (list summary_row) (option value) :=
  row ← query (tbl_find (is_summary summary_id));
  lift (match row with None => Ok None | Some r => v ← json_loads (sr_payload r); Ok (Some v) end).

(** ** Texts *)

Definition sentence_break : pattern := re_compile "(?<=[.!?])\s+".
Definition collapse (text : string) : string := join " " (split_ws (strip text)).
Definition _truncate_summary_text (text : string) (limit : Z) : string :=
  let v := collapse text in
  if str_len v <=? limit then v else rstrip_by is_space (stake (Z.to_nat (limit - 1)) v) +:+ "...".
Definition _compact_summary_text (text : string) : string :=
  let v := collapse text in
  if String.eqb v "" then "" else _truncate_summary_text (re_split_head sentence_break v) 220.
Definition _conversation_topics (conversation : dict) : list string :=
  match vget_or "metadata" (VDict []) conversation with
  | VDict metadata => match vget "topics" metadata with VList l => _unique_strings (omap as_str l) | _ => [] end
  | _ => []
  end.
Definition _message_indexes (conversation : dict) : list Z :=
  match vget_or "messages" (VList []) conversation with VList l => map Z.of_nat (seq 0 (length l)) | _ => [] end.
(** [str(d.get(k) or dflt).strip()] *)
Definition or_text (k dflt : string) (d : dict) : string := strip (if truthy (vget k d) then py_str (vget k d) else dflt).
Definition _conversation_summary_subject (conversation : dict) : string :=
  let title := or_text "title" "" conversation in
  if negb (String.eqb title "") then title else
  match _conversation_topics conversation with
  | [] => or_text "source" "conversation" conversation +:+ " conversation"
  | topics => "Conversation about " +:+ join ", " (take 4 topics)
  end.
(** The first three snippets of messages with a text. *)
Fixpoint snippets_from (snippets : list string) (messages : list value) : list string :=
  match messages with
  | [] => snippets
  | VDict m :: rest =>
      let role := strip (text_of "role" m) in
      let text := _compact_summary_text (text_of "text" m) in
      let snippets := if String.eqb text "" then snippets
                      else snippets ++ [(if String.eqb role "" then "message" else role) +:+ ": " +:+ text] in
      if Nat.leb 3 (length snippets) then snippets else snippets_from snippets rest
  | _ :: rest => snippets_from snippets rest
  end.
Definition _conversation_summary_text (conversation : dict) : string :=
  let snippets := match vget_or "messages" (VList []) conversation with VList l => snippets_from [] l | _ => [] end in
  let body := match snippets with [] => "No message text was available." | _ => join "; " snippets end in
  _truncate_summary_text (_conversation_summary_subject conversation +:+ ": " +:+ body) 600.
Definition _optional_string (v : value) : option string := match v with VNone => None | _ => Some (py_str v) end.
Definition _source_message_indexes (fact : dict) : list Z :=
  match vget_or "source_message_indexes" (VList []) fact with VList l => omap py_int l | _ => [] end.

(** ** Profiles *)

(** [str(value)] of the first true one of some fields *)
Definition first_true (keys : list string) (fact : dict) : option string :=
  match List.find (λ k, truthy (vget k fact)) keys with Some k => Some (py_str (vget k fact)) | None => None end.
Definition recency_fields : list string := ["stored_at"; "last_confirmed_at"; "updated_at"; "created_at"].
Definition _fact_recency_key (fact : dict) : string := default "" (first_true recency_fields fact).
(** Folding that keeps one letter whose folding is not among the characters:
    two texts fold alike exactly when these do. *)
Definition _canonical_fact_component (v : string) : string := casefold (collapse v).
Definition _profile_summary_fact_value (fact : dict) : string :=
  strip (if truthy (vget "object_normalized" fact) then py_str (vget "object_normalized" fact) else text_of "object" fact).
Definition _is_profile_fact (fact : dict) : bool :=
  let quality := if truthy (vget "source_quality" fact) then py_str (vget "source_quality" fact) else _source_quality_for_fact fact in
  existsb (String.eqb quality) ["direct_user_statement"; "corrected_by_user"].
(** The first element of each key. *)
Fixpoint first_of_key {A K} `{EqDecision K} (key : A → K) (seen : list K) (l : list A) : list A :=
  match l with
  | [] => []
  | x :: rest => if bool_decide (key x ∈ seen) then first_of_key key seen rest else x :: first_of_key key (key x :: seen) rest
  end.
Definition value_key (fact : dict) : string * string * string :=
  (_canonical_fact_component (text_of "subject" fact), _canonical_fact_component (text_of "predicate" fact),
   _canonical_fact_component (_profile_summary_fact_value fact)).
Definition _canonical_profile_facts (facts : list dict) : list dict :=
  first_of_key value_key [] (sort_by (λ a b, String.leb (_fact_recency_key b) (_fact_recency_key a)) facts).
Definition _profile_projection_facts (facts : list dict) (include_non_profile_facts : bool) : list dict :=
  let active := List.filter (λ f, negb (truthy (vget "superseded_by" f))) facts in
  _canonical_profile_facts (if include_non_profile_facts then active else List.filter _is_profile_fact active).
Definition summary_line (fact : dict) : string * string :=
  (py_str (vget_or "predicate" (VStr "fact") fact), _profile_summary_fact_value fact).
Definition _unique_profile_summary_lines (facts : list dict) : list (string * string) :=
  first_of_key (λ l, (_canonical_fact_component l.1, _canonical_fact_component l.2)) []
    (List.filter (λ l, negb (String.eqb l.2 "")) (map summary_line facts)).
Definition _PROFILE_SUMMARY_FACT_LIMIT : nat := 12.
Definition _PROFILE_SUMMARY_EMPTY_TEXT : string := "No active profile facts match the requested filters.".
Definition _profile_summary_text (facts : list dict) : string :=
  match _unique_profile_summary_lines facts with
  | [] => _PROFILE_SUMMARY_EMPTY_TEXT
  | lines =>
      let displayed := take _PROFILE_SUMMARY_FACT_LIMIT lines in
      let remaining := (length lines - length displayed)%nat in
      join "; " (map (λ l, l.1 +:+ ": " +:+ l.2) displayed
                 ++ (if Nat.leb 1 remaining then [str_of_Z (Z.of_nat remaining) +:+ " more active fact(s)."] else []))
  end.
Definition text_max (a b : string) : string := if String.ltb a b then b else a.
Definition _freshest_fact_timestamp (facts : list dict) : option string :=
  match omap (first_true recency_fields) facts with [] => None | t :: rest => Some (foldl text_max t rest) end.
Definition count_value (k : string) (counts : list (string * Z)) (fact : dict) : list (string * Z) :=
  match vget k fact with
  | VNone => counts
  | v => dict_set (py_str v) (default 0 (dict_get (py_str v) counts) + 1) counts
  end.
Definition _count_values (facts : list dict) (k : string) : list (string * Z) := foldl (count_value k) [] facts.

(** ** Summaries *)

Section summaries.
Context `{HashLib}.
Variable now : instant.

Definition _generated_summary_id (summary_type : SummaryType) (target_id : string) (project_id : option string)
    (filters : dict) : string :=
  let sorted := sort_by (λ a b, String.leb a.1 b.1) (List.filter (λ kv, negb (is_none kv.2)) filters) in
  "summary:" +:+ stake 32 (sha256_hex (utf8_encode (json_dumps (VDict
    [("type", VStr (summary_type_value summary_type)); ("target_id", VStr target_id); ("project_id", opt_str project_id);
     ("filters", VDict sorted)])))).
Definition conversation_provenance (conversation : dict) : GeneratedSummaryProvenance :=
  let id := text_of "id" conversation in
  mk_provenance None (Some id) None (_optional_string (vget "source" conversation)) (_optional_string (vget "title" conversation))
    (Some id) (_message_indexes conversation) None.
Definition of_conversation (t : SummaryType) (target_id : string) (project_id owner_id : option string) (id_filters : dict)
    (text : string) (basis : SummaryBasis) (filters : list (string * string)) (conversation : dict) : GeneratedSummary :=
  mk_summary (_generated_summary_id t target_id project_id id_filters) t target_id project_id owner_id text basis
    CONVERSATION_IDS 0 0 None [] [] filters [conversation_provenance conversation] (iso_z now).
Definition _conversation_summary (conversation : dict) (owner_id project_id : option string) : GeneratedSummary :=
  of_conversation S_CONVERSATION (text_of "id" conversation) project_id owner_id [] (_conversation_summary_text conversation)
    CONVERSATION_MESSAGES [] conversation.
Definition _topic_summary (topic : string) (conversation : dict) (summary_text : string) (owner_id project_id : option string)
    : GeneratedSummary :=
  let id := text_of "id" conversation in
  of_conversation S_TOPIC topic project_id owner_id [("conversation_id", VStr id)] (topic +:+ ": " +:+ summary_text)
    TOPIC_CONVERSATIONS [("topic", topic); ("conversation_id", id)] conversation.
Definition _project_summary (conversation : dict) (summary_text : string) (owner_id project_id : option string) : GeneratedSummary :=
  let target_id := match project_id with Some p => if String.eqb p "" then LOCAL_DEFAULT_PROJECT_ID else p
                   | None => LOCAL_DEFAULT_PROJECT_ID end in
  let id := text_of "id" conversation in
  of_conversation S_PROJECT target_id project_id owner_id [("conversation_id", VStr id)] (target_id +:+ ": " +:+ summary_text)
    PROJECT_CONVERSATIONS [("conversation_id", id)] conversation.
Definition fact_provenance (fact : dict) : GeneratedSummaryProvenance :=
  mk_provenance (_optional_string (vget "id" fact)) None (_optional_string (vget "predicate" fact)) None None
    (_optional_string (vget "source_conversation_id" fact)) (_source_message_indexes fact)
    (_optional_string (vget "last_confirmed_at" fact)).
Definition profile_summary (subject : string) (facts : list dict) (owner_id project_id : option string) (filters : dict) : GeneratedSummary :=
  let given k := negb (is_none (vget k filters)) in
  let active_facts := _profile_projection_facts facts (given "predicate" || given "source_quality") in
  mk_summary (_generated_summary_id S_PROFILE subject project_id filters) S_PROFILE subject project_id owner_id
    (_profile_summary_text active_facts) ACTIVE_FACTS FACT_IDS (Z.of_nat (length facts)) (Z.of_nat (length active_facts))
    (_freshest_fact_timestamp active_facts) (_count_values active_facts "source_quality") (_count_values active_facts "confidence")
    (omap (λ kv, match kv.2 with VNone => None | v => Some (kv.1, py_str v) end) filters)
    (map fact_provenance active_facts) (iso_z now).
Definition _store_generated_summary (s : GeneratedSummary) : M (list summary_row) unit :=
  _ ← upsert_generated_summary s; mret tt.
Definition _profile_summary (subject : string) (facts : list dict) (owner_id project_id : option string) (filters : dict)
    : M (list summary_row) dict :=
  let summary := profile_summary subject facts owner_id project_id filters in
  _ ← _store_generated_summary summary; mret (model_dump summary).

Fixpoint store_each (l : list GeneratedSummary) : M (list summary_row) unit :=
  match l with [] => mret tt | s :: rest => _ ← _store_generated_summary s; store_each rest end.
Definition summary_reference (s : GeneratedSummary) : dict :=
  [("id", VStr (gs_id s)); ("type", VStr (summary_type_value (gs_type s))); ("text", VStr (gs_text s));
   ("basis", VStr (basis_value (gs_basis s))); ("provenance_status", VStr (provenance_status_value (gs_provenance_status s)));
   ("generated_at", VStr (gs_generated_at s))].
(** The conversation with its references, its summaries stored. *)
Definition _attach_generated_summaries (conversation : dict) (owner_id project_id : option string) : M (list summary_row) dict :=
  let summary := _conversation_summary conversation owner_id project_id in
  let text := gs_text summary in
  _ ← _store_generated_summary summary;
  let metadata := default [] (as_dict (vget "metadata" conversation)) in
  let metadata := dict_set "generated_summary" (VDict (summary_reference summary)) metadata in
  let conversation := dict_set "metadata" (VDict metadata) conversation in
  let topics := map (λ t, _topic_summary t conversation text owner_id project_id) (_conversation_topics conversation) in
  _ ← store_each topics;
  let metadata := dict_set "generated_topic_summary_ids" (VList (map (λ s, VStr (gs_id s)) topics)) metadata in
  let project := _project_summary (dict_set "metadata" (VDict metadata) conversation) text owner_id project_id in
  _ ← _store_generated_summary project;
  mret (dict_set "metadata" (VDict (dict_set "generated_project_summary_id" (VStr (gs_id project)) metadata)) conversation).
Definition _get_conversation_summary (conversation : dict) : M (list summary_row) (option value) :=
  let recorded := match vget_or "metadata" (VDict []) conversation with
    | VDict metadata => match vget "generated_summary" metadata with
                        | VDict generated => as_str (vget "id" generated) | _ => None end
    | _ => None end in
  get_generated_summary (default (_generated_summary_id S_CONVERSATION (text_of "id" conversation)
    (_project_id_from_conversation (VDict conversation)) []) recorded).
Definition reference_keys : list string := ["id"; "type"; "text"; "basis"; "provenance_status"; "generated_at"].
Definition _with_generated_summary_metadata (conversation : dict) : M (list summary_row) dict :=
  metadata ← lift (match vget_or "metadata" (VDict []) conversation with
                   | VDict m => Ok m | _ => Raise OutsideModel end);
  metadata ← match vget "generated_summary" metadata with
    | VDict _ => mret metadata
    | _ =>
        summary ← _get_conversation_summary conversation;
        match summary with
        | Some (VDict s) =>
            fields ← lift (map_result (λ k, v ← from_option_err (KeyError k) (dict_get k s); Ok (k, v)) reference_keys);
            mret (dict_set "generated_summary" (VDict fields) metadata)
        | _ => mret metadata
        end
    end;
  mret (dict_set "metadata" (VDict metadata) conversation).
End summaries.
