(* ===== verification/Ingest.v ===== *)
(** * Ingestion ([memory/ingestion/mvp_ingestion.py],
      [memory/ingestion/imported_session.py])

    The pipeline from a payload to the stored, indexed and extracted memory: its
    normal form, the quarantine, duplicates, appends to a stored thread, the
    insertion of a new conversation, and the review of pending memories. *)
From Stdlib Require Import ZArith Lia Ascii.
From S2P Require Import Prelude PyStr Json Hash Clock Identity AuthDb AuthStore ConvStore Scope Threads Normalize Append AuditLog Sensitive Chunks FactValidation FactExtract Graph FactStore Summaries.
Local Open Scope Z_scope.

Definition _MAX_APPEND_ATTEMPTS : nat := 3.
Definition _REVIEWABLE_MEMORY_STATUSES : list string := ["pending_review"; "quarantined"].

(** ** Imported sessions *)

Section imported.
Context `{HashLib}.
(** a text that is not blank *)
Definition nonblank (v : value) : option string :=
  match v with VStr s => if String.eqb (strip s) "" then None else Some s | _ => None end.
Definition nul : string := char_str (chr 0).
Definition derive_imported_session_identity (source project_id : string) (metadata : dict) : result (option string) :=
  match nonblank (vget "import_parser" metadata), nonblank (vget "source_session_id" metadata) with
  | Some parser, Some session =>
      src ← casefolded (strip source);
      prs ← casefolded (strip parser);
      Ok (Some ("sha256:" +:+ sha256_hex (utf8_encode (join nul ["v1"; strip project_id; src; prs; strip session]))))
  | _, _ => Ok None
  end.
Definition stamp_imported_session_identity (conversation : dict) : result dict :=
  match vget "metadata" conversation with
  | VDict metadata =>
      match vget "project_id" metadata with
      | VStr project_id =>
          if String.eqb project_id "" then Ok conversation else
          identity ← derive_imported_session_identity (text_of "source" conversation) project_id metadata;
          Ok (dict_set "metadata" (VDict (match identity with
                | None => dict_pop "imported_session_identity" metadata
                | Some i => dict_set "imported_session_identity" (VStr i) metadata end)) conversation)
      | _ => Ok conversation
      end
  | _ => Ok conversation
  end.
End imported.

(** ** The world *)

(** The metadata store (conversations, facts, summaries) and the vector store. *)
Record World `{VectorStore} := mk_world {
  w_hub : HubDb; w_facts : FactDb; w_summaries : list summary_row; w_vectors : vectors }.

(** The runtime: its schema validator and fact extractor are third-party or
    configured code. *)
Record RuntimeDependencies := mk_runtime {
  conversation_validator : dict → result unit;
  fact_extractor : option (dict → list value → result value);
  rt_tokenizer : option Tokenizer;
  chunking_strategy : string; chunking_max_tokens : Z; chunking_overlap_tokens : Z;
  allow_trusted_appends : bool; graph_enabled : bool; vector_provider : string;
}.

Section ingest.
Context `{HashLib} `{Environ} `{EmbeddingProvider} `{V : VectorStore}.
Notation W := (M World).
Variable rt : RuntimeDependencies.
Variable now : instant.
Variable context : AuditContext.
(** [str(uuid4())] of the audit event and of a conversation without an id *)
Variables (event_id new_id : string).

(** Each component sees its own part of the world. *)
Definition in_hub {A} (m : M HubDb A) : W A := λ w,
  let (r, s) := m (w_hub w) in (r, mk_world _ s (w_facts w) (w_summaries w) (w_vectors w)).
Definition in_convs {A} (m : M ConvDb A) : W A := in_hub (on_conv m).
Definition in_facts {A} (m : M FactDb A) : W A := λ w,
  let (r, s) := m (w_facts w) in (r, mk_world _ (w_hub w) s (w_summaries w) (w_vectors w)).
Definition in_summaries {A} (m : M (list summary_row) A) : W A := λ w,
  let (r, s) := m (w_summaries w) in (r, mk_world _ (w_hub w) (w_facts w) s (w_vectors w)).
Definition in_vectors {A} (m : M vectors A) : W A := λ w,
  let (r, s) := m (w_vectors w) in (r, mk_world _ (w_hub w) (w_facts w) (w_summaries w) s).

Definition _ensure_metadata (conversation : dict) : dict := default [] (as_dict (vget "metadata" conversation)).
Definition put_metadata (metadata : dict) (conversation : dict) : dict := dict_set "metadata" (VDict metadata) conversation.
Definition audit (event_type : string) (owner_id : option string) (project_id memory_id : string) (outcome : string)
    (reason_code : option string) (metadata : dict) : W unit :=
  in_hub (_record_audit_event now context event_id event_type owner_id (Some project_id) (Some memory_id) None outcome
            reason_code metadata).
Definition store_get (id : string) : W (option value) := in_convs (get (VStr id)).

(** ** Facts and graph *)

Definition _store_facts (facts : list dict) : W unit :=
  match facts with [] => mret tt | _ => in_facts (insert_facts facts) end.
Definition _store_facts_for_messages (conversation : dict) (messages : list value) (start_message_index : Z) : W unit :=
  facts ← lift (extract_facts_from_messages now (fact_extractor rt) conversation messages start_message_index);
  _store_facts facts.
Definition _store_facts_for_conversation (conversation : dict) : W unit :=
  facts ← lift (extract_facts now (fact_extractor rt) conversation);
  _store_facts facts.
(** The numbers of entities and of relationships. *)
Definition _store_graph_for_messages (conversation : dict) (messages : list value) (start_message_index : Z) : W (Z * Z) :=
  if negb (graph_enabled rt) then mret (0, 0) else
  '(es, rs) ← lift (extract_memory_graph conversation messages start_message_index);
  match es, rs with
  | [], [] => mret (0, 0)
  | _, _ => _ ← in_facts (upsert_graph_records es rs);
            mret (Z.of_nat (length es), Z.of_nat (length rs))
  end.
Definition _store_graph_for_conversation (conversation : dict) : W (Z * Z) :=
  _store_graph_for_messages conversation (match vget_or "messages" (VList []) conversation with VList l => l | _ => [] end) 0.
Definition _with_graph_counts (result : dict) (counts : Z * Z) : dict :=
  if (counts.1 =? 0) && (counts.2 =? 0) then result
  else dict_set "graph" (VDict [("entities", VInt counts.1); ("relationships", VInt counts.2)]) result.

(** ** The index *)

Definition _is_fully_indexed (metadata_id : string) : W bool :=
  if String.eqb (vector_provider rt) "memory" then mret false
  else in_convs (is_fully_indexed (VStr metadata_id)).
(** An error while reading the index is logged and gives no ids. *)
Definition _vector_indexed_chunk_ids (memory_id : string) : W (list string) := λ w,
  match in_vectors (get_indexed_chunk_ids memory_id) w with
  | (Ok ids, w') => (Ok (dedup (List.filter (λ i, negb (String.eqb i "")) ids)), w')
  | (Raise _, w') => (Ok [], w')
  end.
Definition entry_id (chunk : dict) : string := if truthy (vget "chunk_id" chunk) then py_str (vget "chunk_id" chunk) else "".
Definition entry_indexed (chunk : dict) : bool :=
  match vget "index_state" chunk with VStr s => String.eqb s (state_value INDEXED) | _ => false end.
Definition _duplicate_index_is_complete (memory_id : string) (conversation : dict) : W bool :=
  match _index_chunk_manifest conversation with
  | [] => mret false
  | manifest =>
      if negb (forallb entry_indexed manifest) then mret false else
      let expected := map entry_id manifest in
      if existsb (String.eqb "") expected then _is_fully_indexed memory_id else
      ids ← _vector_indexed_chunk_ids memory_id;
      mret (forallb (λ i, existsb (String.eqb i) ids) expected)
  end.
Definition chunk_ids_of (chunks : list dict) : result (list string) :=
  map_result (λ c, i ← item "chunk_id" c; Ok (py_str i)) chunks.
Definition _mark_chunks_indexed (metadata_id : string) (chunks : list dict) (conversation : dict) : W dict :=
  '(conversation, chunks) ← lift (_set_index_chunks_state conversation chunks INDEXED);
  ids ← lift (chunk_ids_of chunks);
  _ ← in_convs (mark_chunks_indexed (VStr metadata_id) ids);
  mret conversation.
Definition _mark_chunks_indexing_failed (metadata_id : string) (chunks : list dict) (conversation : dict) : W unit :=
  '(_, chunks) ← lift (_set_index_chunks_state conversation chunks FAILED);
  ids ← lift (chunk_ids_of chunks);
  in_convs (mark_chunks_indexing_failed (VStr metadata_id) ids).
Definition _repair_retrieved_index_chunks (memory_id : string) (conversation : dict) : W dict :=
  if negb (_has_pending_index_chunks conversation) then mret conversation else
  ids ← _vector_indexed_chunk_ids memory_id;
  chunks ← lift (match ids with [] => Ok [] | _ => _manifest_chunks_for_index_repair conversation ids end);
  chunks ← match chunks with
    | [] => full ← _is_fully_indexed memory_id;
            if full : bool then lift (_manifest_chunks_for_index_repair conversation []) else mret []
    | _ => mret chunks
    end;
  match chunks with
  | [] => mret conversation
  | _ =>
      conversation ← _mark_chunks_indexed memory_id chunks conversation;
      refreshed ← store_get memory_id;
      mret (match refreshed with Some (VDict r) => r | _ => conversation end)
  end.

(** [try: body except Exception: handler; raise] *)
Definition on_failure {A} (body : W A) (handler : W unit) : W A := λ w,
  match body w with
  | (Ok a, w') => (Ok a, w')
  | (Raise e, w') => match handler w' with
                     | (Ok _, w'') => (Raise e, w'')
                     | (Raise e', w'') => (Raise e', w'')
                     end
  end.
(** Embedding, vectors and index state of the chunks of a stored conversation. *)
Definition index_chunks (metadata_id : string) (chunks : list dict) (conversation : dict) (project_id : string)
    (owner_id : option string) (replace : bool) : W dict :=
  on_failure
    (embeddings ← lift (embed_chunks chunks (Some project_id) owner_id);
     _ ← in_vectors (vs_insert metadata_id embeddings replace);
     _mark_chunks_indexed metadata_id chunks conversation)
    (_mark_chunks_indexing_failed metadata_id chunks conversation).
Definition chunked (obj : dict) (messages : value) (start_index : Z) : result (list dict) :=
  chunk_selected_messages (rt_tokenizer rt) (chunking_strategy rt) (chunking_max_tokens rt) (chunking_overlap_tokens rt)
    obj messages start_index.

(** ** Results *)

Definition ok_result (id : string) (deduplicated : bool) (appended chunks : Z) : dict :=
  [("status", VStr "ok"); ("id", VStr id); ("deduplicated", VBool deduplicated); ("appended_messages", VInt appended);
   ("embedded_chunks", VInt chunks); ("chunks", VInt chunks)].
Definition inserted_metadata (deduplicated : bool) (appended chunks : Z) (status : string) : dict :=
  [("deduplicated", VBool deduplicated); ("appended_messages", VInt appended); ("embedded_chunks", VInt chunks);
   ("memory_status", VStr status)].
Definition _deduplicated_ingestion_result (conversation : dict) (owner_id : option string) (project_id : string) : W dict :=
  id ← lift (item "id" conversation);
  _ ← audit "memory.inserted" owner_id project_id (py_str id) "ok" None
        (inserted_metadata true 0 0 (_memory_status (VDict conversation)));
  mret (ok_result (py_str id) true 0 0).
Definition _stale_snapshot_ingestion_result (conversation : dict) (owner_id : option string) (project_id : string) : W dict :=
  id ← lift (item "id" conversation);
  _ ← audit "memory.inserted" owner_id project_id (py_str id) "ok" None
        [("deduplicated", VBool false); ("stale", VBool true); ("appended_messages", VInt 0); ("embedded_chunks", VInt 0);
         ("memory_status", VStr (_memory_status (VDict conversation)))];
  mret [("status", VStr "ok"); ("id", VStr (py_str id)); ("deduplicated", VBool false); ("stale", VBool true);
        ("appended_messages", VInt 0); ("embedded_chunks", VInt 0); ("chunks", VInt 0); ("facts", VInt 0);
        ("graph_entities", VInt 0); ("graph_relationships", VInt 0)].

(** ** Review *)

Definition unauthorized_update : exc := ValueError "unauthorized_update: conversation id already exists".
Definition _store_review_memory (conversation_json : dict) (owner_id : option string) (project_id memory_status received_at_key
    return_status audit_event_type audit_outcome : string) (audit_reason_code : option string) (audit_metadata : dict) : W dict :=
  let metadata := dict_set received_at_key (VStr (iso_z now))
                    (dict_set "memory_status" (VStr memory_status) (_ensure_metadata conversation_json)) in
  let conversation_json := put_metadata metadata conversation_json in
  existing_by_id ← store_get (text_of "id" conversation_json);
  _ ← lift (guard_err (match existing_by_id with
                       | Some e => negb (_conversation_authorized e owner_id (Some project_id)) | None => false end)
              unauthorized_update);
  _ ← lift (match existing_by_id with
            | Some (VDict e) =>
                h ← item "conversation_hash" metadata;
                guard_err (negb (bool_decide (Scope._conversation_hash e = as_str h))) unauthorized_update
            | Some _ => Raise OutsideModel
            | None => Ok tt end);
  '(memory_id, inserted) ← in_convs (_insert_new_conversation now conversation_json);
  _ ← audit audit_event_type owner_id project_id memory_id audit_outcome audit_reason_code
        (dict_update [("memory_status", VStr memory_status); ("inserted", VBool inserted); ("embedded_chunks", VInt 0)] audit_metadata);
  mret [("status", VStr return_status); ("id", VStr memory_id); ("memory_status", VStr memory_status);
        ("inserted", VBool inserted); ("chunks", VInt 0)].
Definition _store_quarantined_memory (conversation_json : dict) (owner_id : option string) (project_id : string)
    (findings : list finding) : W dict :=
  let reason_codes := VList (map VStr (_unique_strings (map Sensitive.reason_code findings))) in
  let metadata := dict_set "quarantine_findings" (VList (map (λ f, VDict (finding_dict f)) findings))
                    (dict_set "quarantine_reason_codes" reason_codes (_ensure_metadata conversation_json)) in
  result ← _store_review_memory (put_metadata metadata conversation_json) owner_id project_id "quarantined"
             "quarantine_received_at" "quarantined" "memory.quarantined" "quarantined" (Some "sensitive_content")
             [("reason_codes", reason_codes); ("finding_count", VInt (Z.of_nat (length findings)))];
  mret (dict_set "quarantine_reason_codes" reason_codes result).

(** ** Ingestion *)

(** Steps 0 to 2: the payload in normal form, stamped and enriched. *)
Definition stamped_conversation (payload : value) (strict_transcript : bool) (owner_id : option string) (project_id : string) : result dict :=
  c ← normalize_conversation_json now new_id payload None strict_transcript;
  c ← _stamp_owner c owner_id;
  _stamp_project c project_id.
Definition enriched (c : dict) : result dict :=
  c ← enrich_topics c; enrich_auto_tags now (fact_extractor rt) c.

(** The conversation a duplicate is answered with, or its id for the repair path. *)
Definition duplicate_of (conversation_hash : string) (owner_id : option string) (project_id : string) : W (option (dict * bool)) :=
  duplicate ← in_convs (_lookup_by_conversation_hash (Some conversation_hash) (Some project_id));
  match duplicate with
  | Some (VDict d) =>
      if negb (_conversation_allowed (VDict d) owner_id (Some project_id)) then mret None else
      id ← lift (item "id" d);
      d ← _repair_retrieved_index_chunks (py_str id) d;
      complete ← _duplicate_index_is_complete (py_str id) d;
      mret (Some (dict_set "id" (VStr (py_str id)) d, complete))
  | _ => mret None
  end.

(** What the comparison with the stored thread comes to: a result, or a stored
    conversation with chunks to index, its new messages and the index of the
    first of them. *)
Inductive reconciled :=
| Settled (r : dict)
| Indexing (updated : dict) (chunks : list dict) (new_messages : list value) (start_index : Z).

(** Everything but the write: the updated conversation, its chunks. *)
Definition appended (same_thread incoming : dict) (delta : _AppendDelta) : result (dict * list dict * Z) :=
  let new_messages := delta_messages delta in
  let start_index := Z.of_nat (length (messages_of same_thread)) in
  updated ← _append_conversation same_thread incoming new_messages (incoming_covers_updated_history delta);
  updated ← enriched updated;
  chunk_start_index ← _next_chunk_index updated start_index;
  chunks ← chunked updated (VList new_messages) chunk_start_index;
  updated ← _extend_index_chunks updated chunks;
  Ok (updated, chunks, start_index).
(** An append that loses the race is retried on the refreshed conversation. *)
Definition on_conflict {A} (body handler : W A) : W A := λ w,
  match body w with
  | (Raise (ConcurrentAppendError _), w') => handler w'
  | r => r
  end.
Fixpoint reconcile (attempts : nat) (incoming : dict) (duplicate_metadata_id : option string) (owner_id : option string)
    (project_id : string) (same_thread : dict) : W reconciled :=
  delta ← lift (_detect_append_delta same_thread incoming);
  match relation delta with
  | STALE => r ← _stale_snapshot_ingestion_result same_thread owner_id project_id; mret (Settled r)
  | EQUAL =>
      match duplicate_metadata_id with
      | None => r ← _deduplicated_ingestion_result same_thread owner_id project_id; mret (Settled r)
      | Some _ =>
          chunks ← lift (chunked same_thread (vget_or "messages" (VList []) same_thread) 0);
          updated ← lift (_attach_index_chunks same_thread chunks);
          _ ← in_convs (insert now updated);
          mret (Indexing updated chunks [] 0)
      end
  | APPEND =>
      '(updated, chunks, start_index) ← lift (appended same_thread incoming delta);
      written ← on_conflict
        (_ ← in_convs (_persist_appended_conversation now same_thread updated); mret true) (mret false);
      if written : bool then
        updated ← in_summaries (_attach_generated_summaries now updated owner_id (Some project_id));
        _ ← on_conflict (in_convs (_persist_appended_conversation now updated updated)) (mret tt);
        mret (Indexing updated chunks (delta_messages delta) start_index)
      else
        match attempts with
        | S (S _ as left) =>
            refreshed ← in_convs (_lookup_same_thread (allow_trusted_appends rt) incoming owner_id (Some project_id));
            match refreshed with
            | None => raise (ValueError "concurrent_append_conflict: conversation no longer available")
            | Some same_thread => reconcile left incoming duplicate_metadata_id owner_id project_id same_thread
            end
        | _ => raise (ValueError "concurrent_append_conflict: retry import")
        end
  end.

(** The rest of an append: index, facts, graph, audit. *)
Definition finish_append (updated : dict) (chunks : list dict) (new_messages : list value) (start_index : Z)
    (owner_id : option string) (project_id : string) : W dict :=
  id ← lift (item "id" updated);
  let id := py_str id in
  updated ← index_chunks id chunks updated project_id owner_id (start_index =? 0);
  counts ← match new_messages with
    | [] => mret (0, 0)
    | _ => _ ← _store_facts_for_messages updated new_messages start_index;
           _store_graph_for_messages updated new_messages start_index
    end;
  let appended_count := Z.of_nat (length new_messages) in
  let n := Z.of_nat (length chunks) in
  let deduplicated := match new_messages with [] => true | _ => false end in
  _ ← audit "memory.inserted" owner_id project_id id "ok" None
        (inserted_metadata deduplicated appended_count n (_memory_status (VDict updated)));
  mret (_with_graph_counts (ok_result id deduplicated appended_count n) counts).
(** Steps 3 to 6 of a conversation of no stored thread. *)
Definition finish_insert (conversation_json : dict) (duplicate_metadata_id : option string) (owner_id : option string)
    (project_id : string) : W dict :=
  c ← in_summaries (_attach_generated_summaries now conversation_json owner_id (Some project_id));
  chunks ← lift (chunked c (vget_or "messages" (VList []) c) 0);
  c ← lift (_attach_index_chunks c chunks);
  '(metadata_id, inserted) ← match duplicate_metadata_id with
    | None => in_convs (_insert_new_conversation now c)
    | Some id => mret (id, false)
    end;
  c ← index_chunks metadata_id chunks c project_id owner_id (negb inserted);
  counts ← if inserted : bool then _ ← _store_facts_for_conversation c; _store_graph_for_conversation c else mret (0, 0);
  let n := Z.of_nat (length chunks) in
  _ ← audit "memory.inserted" owner_id project_id metadata_id "ok" None
        (inserted_metadata (negb inserted) 0 n (_memory_status (VDict c)));
  mret (_with_graph_counts (ok_result metadata_id (negb inserted) 0 n) counts).

(** After the quarantine: duplicates, the id, the thread. *)
Definition ingest_clean (c : dict) (owner_id : option string) (project_id : string) : W dict :=
  h ← lift (match vget "metadata" c with VDict m => h ← item "conversation_hash" m; Ok (py_str h) | _ => Raise (KeyError "metadata") end);
  duplicate ← duplicate_of h owner_id project_id;
  match duplicate with
  | Some (d, true) => _deduplicated_ingestion_result d owner_id project_id
  | _ =>
      let duplicate_metadata_id := d ← duplicate; Some (text_of "id" d.1) in
      let c := match duplicate_metadata_id with Some id => dict_set "id" (VStr id) c | None => c end in
      existing_by_id ← store_get (text_of "id" c);
      _ ← lift (match existing_by_id with
        | None => Ok tt
        | Some e =>
            _ ← guard_err (negb (_conversation_allowed e owner_id (Some project_id))) unauthorized_update;
            match e with
            | VDict e => guard_err (negb (allow_trusted_appends rt) && negb (bool_decide (Scope._conversation_hash e = Some h)))
                           unauthorized_update
            | _ => Raise OutsideModel
            end
        end);
      same_thread ← in_convs (_lookup_same_thread (allow_trusted_appends rt) c owner_id (Some project_id));
      match same_thread with
      | Some t =>
          r ← reconcile _MAX_APPEND_ATTEMPTS c duplicate_metadata_id owner_id project_id t;
          match r with
          | Settled result => mret result
          | Indexing updated chunks new_messages start_index =>
              finish_append updated chunks new_messages start_index owner_id project_id
          end
      | None => finish_insert c duplicate_metadata_id owner_id project_id
      end
  end.

Definition ingest_messages (payload : value) (strict_transcript : bool) (owner_id project_id : option string) : W dict :=
  project ← in_hub (_resolve_project now context event_id owner_id project_id "writer");
  c ← lift (stamped_conversation payload strict_transcript owner_id project);
  c ← lift (stamp_imported_session_identity c);
  let c := _scope_conversation_hash c (Some project) in
  _ ← lift (conversation_validator rt c);
  _ ← in_convs (_validate_lineage_parent owner_id project c);
  c ← lift (enriched c);
  match _detect_sensitive_content c with
  | [] => ingest_clean c owner_id project
  | findings => _store_quarantined_memory c owner_id project findings
  end.

Definition store_pending_review_memory (payload : value) (strict_transcript : bool) (owner_id project_id : option string) : W dict :=
  project ← in_hub (_resolve_project now context event_id owner_id project_id "writer");
  c ← lift (stamped_conversation payload strict_transcript owner_id project);
  let c := _scope_conversation_hash c (Some project) in
  _ ← lift (conversation_validator rt c);
  c ← lift (enriched c);
  match _detect_sensitive_content c with
  | [] => _store_review_memory c owner_id project "pending_review" "pending_review_received_at" "pending_review"
            "memory.inserted" "pending_review" None []
  | findings => _store_quarantined_memory c owner_id project findings
  end.
End ingest.

(** ** Decisions on pending memories *)

Section review.
Context `{HashLib} `{Environ} `{EmbeddingProvider} `{V : VectorStore}.
Variable rt : RuntimeDependencies.
Variable now : instant.
Variable context : AuditContext.
(** the ids of the event of the ingestion and of the decision *)
Variables (ingest_event_id event_id new_id : string).
Notation W := (M World).

Definition not_found (memory_id : string) : dict := [("status", VStr "not_found"); ("id", VStr memory_id)].
Definition not_pending (memory_id status : string) : dict :=
  [("status", VStr "error"); ("error_code", VStr "memory_not_pending_review"); ("error_message", VStr "memory is not pending review");
   ("id", VStr memory_id); ("memory_status", VStr status)].
(** The conversation of a decision, or the answer that refuses it. *)
Definition reviewable (event_type memory_id : string) (owner_id : option string) (project : string) : W (dict + dict) :=
  conversation ← store_get memory_id;
  let v := default VNone conversation in
  let refuse outcome reason metadata answer :=
    _ ← audit now context event_id event_type owner_id project memory_id outcome (Some reason) metadata; mret (inr answer) in
  if negb (_conversation_authorized v owner_id (Some project))
  then refuse "not_found" "not_visible" [] (not_found memory_id) else
  let status := _memory_status v in
  if negb (existsb (String.eqb status) _REVIEWABLE_MEMORY_STATUSES)
  then refuse "error" "memory_not_pending_review" [("memory_status", VStr status)] (not_pending memory_id status) else
  match v with VDict c => mret (inl c) | _ => raise OutsideModel end.
(** The metadata after a decision. *)
Definition decided (status at_key before_key decision : string) (metadata : dict) : dict :=
  let before := _memory_status (VDict [("metadata", VDict metadata)]) in
  let m := dict_set before_key (VStr before) (dict_set at_key (VStr (iso_z now)) (dict_set "memory_status" (VStr status) metadata)) in
  if truthy (vget "quarantine_reason_codes" m)
  then dict_set "quarantine_decision" (VStr decision) (dict_set "quarantine_reviewed_at" (VStr (iso_z now)) m) else m.

(** Ingestion normalises the metadata object of the stored conversation in
    place, so its stamps are on the conversation whose facts are stored last. *)
Definition approve_pending_memory (memory_id : string) (owner_id project_id : option string) : W dict :=
  project ← in_hub (_resolve_project now context event_id owner_id project_id "writer");
  found ← reviewable "memory.approved" memory_id owner_id project;
  match found with
  | inr answer => mret answer
  | inl conversation =>
      let before := _memory_status (VDict conversation) in
      let m := decided "active" "approved_at" "review_status_before_approval" "approved" (_ensure_metadata conversation) in
      let m := if truthy (vget "quarantine_reason_codes" m) then dict_set "sensitive_content_approved" (VBool true) m else m in
      let m := dict_setdefault "save_intent" (VStr "user_confirmed") m in
      let conversation := put_metadata m conversation in
      _ ← in_convs (insert now conversation);
      result ← ingest_messages rt now context ingest_event_id new_id (VDict (stamped conversation)) false owner_id (Some project);
      conversation ← lift (c ← _stamp_owner (stamped conversation) owner_id; _stamp_project c project);
      _ ← _store_facts_for_conversation rt now conversation;
      _ ← _store_graph_for_conversation rt conversation;
      _ ← audit now context event_id "memory.approved" owner_id project memory_id "ok" None
            [("memory_status", VStr "active"); ("review_status_before_approval", VStr before)];
      mret (dict_set "memory_status" (VStr "active") result)
  end.
Definition reject_pending_memory (memory_id : string) (owner_id project_id : option string) : W dict :=
  project ← in_hub (_resolve_project now context event_id owner_id project_id "writer");
  found ← reviewable "memory.rejected" memory_id owner_id project;
  match found with
  | inr answer => mret answer
  | inl conversation =>
      let m := decided "rejected" "rejected_at" "review_status_before_rejection" "rejected" (_ensure_metadata conversation) in
      _ ← in_convs (insert now (put_metadata m conversation));
      _ ← audit now context event_id "memory.rejected" owner_id project memory_id "ok" None [("memory_status", VStr "rejected")];
      mret [("status", VStr "ok"); ("id", VStr memory_id); ("memory_status", VStr "rejected")]
  end.

(** ** Reindexing *)

Record reindexing := mk_reindexing { reindexed : Z; chunks_reindexed : Z; skipped : Z; failures : list dict }.
(** An exception of one conversation marks its chunks and is reported. *)
Definition recorded {A} (body : W A) (handler : W unit) : W (option A) := λ w,
  match body w with
  | (Ok a, w') => (Ok (Some a), w')
  | (Raise _, w') => match handler w' with
                     | (Ok _, w'') => (Ok None, w'')
                     | (Raise e, w'') => (Raise e, w'')
                     end
  end.
Definition reindex_one (project_id : option string) (include_inactive replace_existing : bool) (conversation : dict)
    (acc : reindexing) : W reindexing :=
  let memory_id := text_of "id" conversation in
  let skip := mret (mk_reindexing (reindexed acc) (chunks_reindexed acc) (skipped acc + 1) (failures acc)) in
  let fail := mk_reindexing (reindexed acc) (chunks_reindexed acc) (skipped acc) (failures acc ++ [[("id", VStr memory_id)]]) in
  if negb include_inactive && negb (_conversation_is_active (VDict conversation)) then skip else
  if match project_id with Some _ => negb (_conversation_project_matches (VDict conversation) project_id) | None => false end
  then skip else
  match chunk_messages (rt_tokenizer rt) (chunking_strategy rt) (chunking_max_tokens rt) (chunking_overlap_tokens rt) conversation with
  | Raise _ => mret fail
  | Ok chunks =>
      outcome ← recorded
        (embeddings ← lift (embed_chunks chunks (_project_id_from_conversation (VDict conversation))
                              (_owner_id_from_conversation (VDict conversation)));
         _ ← in_vectors (vs_insert memory_id embeddings replace_existing);
         _mark_chunks_indexed memory_id chunks conversation)
        (match chunks with [] => mret tt | _ => _mark_chunks_indexing_failed memory_id chunks conversation end);
      mret (match outcome with
            | Some _ => mk_reindexing (reindexed acc + 1) (chunks_reindexed acc + Z.of_nat (length chunks)) (skipped acc) (failures acc)
            | None => fail
            end)
  end.
Fixpoint reindex_each (project_id : option string) (include_inactive replace_existing : bool) (l : list value)
    (acc : reindexing) : W reindexing :=
  match l with
  | [] => mret acc
  | VDict c :: rest => acc ← reindex_one project_id include_inactive replace_existing c acc;
                       reindex_each project_id include_inactive replace_existing rest acc
  | _ :: _ => raise OutsideModel
  end.
(** [replace_existing]: whether the vector store has rows; the texts of the
    failures are left out. *)
Definition reindex_stored_conversations (limit : option Z) (project_id : option string) (include_inactive replace_existing : bool)
    : W (Z * reindexing) :=
  _ ← lift (guard_err (match limit with Some n => n <? 1 | None => false end) (ValueError "limit must be a positive integer"));
  project ← lift (option_result _validate_project_id project_id);
  conversations ← in_convs (list_conversations limit project);
  r ← reindex_each project include_inactive replace_existing conversations (mk_reindexing 0 0 0 []);
  mret (Z.of_nat (length conversations), r).
End review.
