(* ===== verification/PipelineFacts.v ===== *)
(** * Guarantees of summaries and of the ingestion pipeline

    The profile keeps the newest fact of each value, a stored summary is read
    back, and the length of a truncated text.  What a payload can change: nothing
    derived from it is stored unless it is valid and clean, a conversation that is
    already stored is left as it is, a conversation is indexed with all its chunks
    or marked as failed, and a refused decision on a pending memory changes
    nothing. *)
From Stdlib Require Import ZArith Lia Ascii Sorted.
From S2P Require Import Prelude PyStr Json Hash Clock Config Identity AuthDb AuthStore OAuthStore AuthSystem Regex Samples Scope Threads Normalize ConvStore ConvFacts ConvTheorems Append AuditLog LineageFacts Sensitive FactValidation FactExtract Graph FactStore Chunks ChunkFacts Summaries Ingest.
Local Open Scope Z_scope.

(** * Guarantees of generated summaries *)

(** ** The profile *)

Section first_of_key.
Context {A K : Type} `{EqDecision K} (key : A → K) (R : A → A → Prop).

Lemma first_of_key_spec l : ∀ seen, NoDup (map key (first_of_key key seen l)) ∧
  (∀ x, x ∈ first_of_key key seen l → x ∈ l ∧ key x ∉ seen) ∧ sublist (first_of_key key seen l) l.
Proof.
  induction l as [|x l IH]; cbn [first_of_key map]; intros seen.
  - split_and!; [constructor|by intros ? ?%elem_of_nil|constructor].
  - case_bool_decide as Hx.
    + destruct (IH seen) as (H1 & H2 & H3). split_and!; [done| |by constructor].
      intros y [? ?]%H2. split; [by right|done].
    + destruct (IH (key x :: seen)) as (H1 & H2 & H3). cbn [map]. split_and!; [| |by constructor].
      * apply NoDup_cons. split; [|done]. intros (y & Hy & Ey)%elem_of_map. destruct (H2 y Hy) as [_ Hn].
        apply Hn. rewrite <-Ey. by left.
      * intros y [->|[? Hn]%H2]%elem_of_cons; [split; [by left|done]|]. split; [by right|].
        intros ?. apply Hn. by right.
Qed.
(** Every element left out comes after one with its key. *)
Lemma first_of_key_covers l : (∀ x, R x x) → StronglySorted R l → ∀ seen x, x ∈ l → key x ∉ seen →
  ∃ y, y ∈ first_of_key key seen l ∧ key y = key x ∧ R y x.
Proof.
  intros Hrefl. induction 1 as [|z l Hl IH Hz]; intros seen x Hx Hn; [by apply elem_of_nil in Hx|].
  rewrite List.Forall_forall in Hz. cbn [first_of_key]. apply elem_of_cons in Hx. case_bool_decide as Hd.
  - destruct Hx as [->|Hx]; [done|]. by apply IH.
  - destruct (decide (key z = key x)) as [Ez|Ez].
    + exists z. split; [by left|]. split; [done|]. destruct Hx as [->|Hx]; [apply Hrefl|].
      apply Hz. by rewrite <-list_elem_of_In.
    + destruct Hx as [->|Hx]; [done|]. destruct (IH (key z :: seen) x Hx) as (y & Hy & ? & ?).
      { intros [E|?]%elem_of_cons; congruence. }
      exists y. split; [by right|done].
Qed.
End first_of_key.

Lemma in_sublist {A} (l k : list A) x : sublist l k → x ∈ l → x ∈ k.
Proof. induction 1; rewrite ?elem_of_cons; naive_solver. Qed.

Definition newer (a b : dict) : Prop := String.leb (_fact_recency_key b) (_fact_recency_key a) = true.
Lemma leb_spec a b : String.leb a b = true ↔ String.compare a b ≠ Gt.
Proof. unfold String.leb. by destruct (String.compare a b). Qed.
Lemma ascii_compare_spec a b : Ascii.compare a b = N.compare (N_of_ascii a) (N_of_ascii b).
Proof. done. Qed.
Lemma leb_trans a : ∀ b c, String.leb a b = true → String.leb b c = true → String.leb a c = true.
Proof.
  setoid_rewrite leb_spec. induction a as [|x a IH]; intros [|y b] [|z c]; cbn; try done.
  rewrite !ascii_compare_spec. intros Hab Hbc.
  destruct (N.compare_spec (N_of_ascii x) (N_of_ascii y)) as [E1|E1|E1], (N.compare_spec (N_of_ascii y) (N_of_ascii z)) as [E2|E2|E2];
    try done; destruct (N.compare_spec (N_of_ascii x) (N_of_ascii z)) as [E3|E3|E3]; try done; try lia.
  by eapply IH.
Qed.
#[local] Instance newer_trans : Transitive newer.
Proof. intros a b c H1 H2. by eapply leb_trans. Qed.
Lemma newer_refl a : newer a a.
Proof. unfold newer. destruct (String.leb _ _) eqn:E; [done|]. by rewrite (leb_total _ _ E) in E. Qed.

(** The profile of a subject is made of its current facts, one per value: no
    superseded fact, no two facts of one subject, predicate and value, newest
    first, and every current fact that qualifies is represented by one of the same
    subject, predicate and value that is at least as recent. *)
Theorem profile_keeps_newest facts include_all :
  let profile := _profile_projection_facts facts include_all in
  let qualifies f := f ∈ facts ∧ truthy (vget "superseded_by" f) = false ∧ (include_all = true ∨ _is_profile_fact f = true) in
  Forall qualifies profile ∧ NoDup (map value_key profile) ∧ StronglySorted newer profile ∧
  ∀ f, qualifies f → ∃ g, g ∈ profile ∧ value_key g = value_key f ∧ newer g f.
Proof.
  intros profile qualifies. unfold profile, _profile_projection_facts, _canonical_profile_facts. cbv zeta.
  set (kept := if include_all then _ else _).
  assert (Hkept : ∀ f, f ∈ kept ↔ qualifies f).
  { intros f. unfold kept, qualifies. destruct include_all; rewrite ?elem_of_filter_b, ?negb_true_iff; naive_solver. }
  set (sorted := sort_by _ kept).
  assert (Hin : ∀ f, f ∈ sorted ↔ f ∈ kept) by (intros f; unfold sorted; by rewrite sort_by_perm).
  assert (Hs : StronglySorted newer sorted).
  { apply Sorted_StronglySorted; [exact newer_trans|]. unfold sorted, newer. apply sort_by_sorted. intros a b. apply leb_total. }
  destruct (first_of_key_spec value_key sorted []) as (H1 & H2 & H3). split_and!.
  - apply Forall_forall. intros f [Hf _]%H2. by apply Hkept, Hin.
  - done.
  - clear -Hs H3. induction H3 as [|x l k Hlk IH|x l k Hlk IH]; [constructor| |];
      apply StronglySorted_inv in Hs as [Hs Hx]; [|by apply IH].
    constructor; [by apply IH|]. rewrite List.Forall_forall in Hx |- *. intros y Hy. apply Hx.
    rewrite <-list_elem_of_In in Hy |- *. by eapply in_sublist.
  - intros f Hf%Hkept%Hin. apply (first_of_key_covers value_key newer sorted newer_refl Hs []); [done|].
    by intros ?%elem_of_nil.
Qed.

(** ** The table *)

Definition keys_unique (s : GeneratedSummary) : Prop :=
  NoDup (map fst (gs_filters s)) ∧ NoDup (map fst (gs_source_quality_counts s)) ∧ NoDup (map fst (gs_confidence_counts s)).

Lemma wf_entries {A} (f : string * A → string * value) l : (∀ kv, (f kv).1 = kv.1 ∧ wf_value (f kv).2) →
  NoDup (map fst l) → wf_value (VDict (map f l)).
Proof.
  intros Hf Hl. apply wf_dict. split.
  - unfold dict_keys. rewrite map_map. by rewrite (map_ext _ fst) by (intros; apply Hf).
  - apply Forall_forall. intros kv (x & _ & ->)%elem_of_map. apply Hf.
Qed.
Lemma model_dump_wf s : keys_unique s → wf_value (VDict (model_dump s)).
Proof.
  intros (Hf & Hq & Hc).
  assert (Ho : ∀ o, wf_value (opt_str o)) by by intros [].
  apply wf_dict. split; [apply (bool_decide_unpack _); vm_compute; exact I|].
  repeat (apply Forall_cons; split; [cbn [snd]; first [exact I|apply Ho|idtac]|]); [| | | |constructor].
  - by apply wf_entries.
  - by apply wf_entries.
  - by apply wf_entries.
  - apply wf_list, Forall_forall. intros v (p & _ & ->)%elem_of_map. apply wf_dict.
    split; [apply (bool_decide_unpack _); vm_compute; exact I|].
    repeat (apply Forall_cons; split; [cbn [snd]; first [exact I|apply Ho|idtac]|]); [|constructor].
    apply wf_list, Forall_forall. by intros v (z & _ & ->)%elem_of_map.
Qed.
(** A generated summary that is stored is read back: the store answers its id
    with the fields it was given, also when it replaces an earlier summary, and
    every other id as before. *)
Theorem stored_summary_read s rows : keys_unique s →
  ∃ rows', upsert_generated_summary s rows = (Ok (gs_id s), rows') ∧
    get_generated_summary (gs_id s) rows' = (Ok (Some (VDict (model_dump s))), rows') ∧
    ∀ other, other ≠ gs_id s → (get_generated_summary other rows').1 = (get_generated_summary other rows).1.
Proof.
  intros Hs. eexists. split; [reflexivity|]. split.
  - unfold get_generated_summary, mbind, M_bind, query, lift. rewrite tbl_find_upsert; [|done|apply String.eqb_refl].
    do 2 f_equal. destruct (tbl_find _ rows); cbn [sr_payload set_summary]; by rewrite loads_dumps by by apply model_dump_wf.
  - intros other Ho. unfold get_generated_summary, mbind, M_bind, query, lift. rewrite tbl_find_upsert_other; [done| |].
    + by apply String.eqb_neq.
    + intros r' E%String.eqb_eq. split; apply String.eqb_neq; cbn; congruence.
Qed.

(** ** Truncation *)

Lemma stake_length n s : String.length (stake n s) = Nat.min n (String.length s).
Proof. revert s. induction n as [|n IH]; intros [|c s]; cbn; try done. by rewrite IH. Qed.
(** A summary text that fits is kept, with its white space collapsed; a longer
    one is cut and marked with three dots.  The result is at most two characters
    longer than the limit, and it does exceed the limit: the cut leaves room for
    one character where three are added. *)
Theorem truncated_summary_length :
  (∀ text limit, 1 ≤ limit →
     (str_len (collapse text) ≤ limit → _truncate_summary_text text limit = collapse text) ∧
     str_len (_truncate_summary_text text limit) ≤ limit + 2) ∧
  ∃ text, str_len (_truncate_summary_text text 220) = 222.
Proof.
  split.
  - intros text limit Hl. unfold _truncate_summary_text. destruct (Z.leb_spec (str_len (collapse text)) limit) as [Hle|Hgt].
    + split; [done|lia].
    + split; [lia|]. pose proof (rstrip_by_length is_space (stake (Z.to_nat (limit - 1)) (collapse text))) as Hr.
      rewrite stake_length in Hr. unfold str_len in *. rewrite str_app_length. cbn. lia.
  - exists (join "" (replicate 221 "a")). vm_compute. reflexivity.
Qed.

(** ** Examples *)

Module SummaryExamples.
Definition lives (place stored_at : string) : dict :=
  [("subject", VStr "user"); ("predicate", VStr "lives_in"); ("object", VStr place);
   ("source_quality", VStr "direct_user_statement"); ("stored_at", VStr stored_at)].
Example newest_wins :
  _profile_projection_facts [lives "Paris" "2026-01-01"; lives "  paris" "2026-02-01"; lives "Rome" "2025-01-01"] false =
  [lives "  paris" "2026-02-01"; lives "Rome" "2025-01-01"].
Proof. vm_compute. reflexivity. Qed.
Definition summary : GeneratedSummary :=
  mk_summary "summary:1" S_TOPIC "rust" None None "rust: notes" TOPIC_CONVERSATIONS CONVERSATION_IDS 0 0 None [] []
    [("topic", "rust")] [] "2026-01-01T00:00:00Z".
Lemma stored_summary_read_witness : ∃ rows',
  get_generated_summary "summary:1" rows' = (Ok (Some (VDict (model_dump summary))), rows').
Proof.
  destruct (stored_summary_read summary []) as (rows' & _ & Hr & _); [|by exists rows'].
  repeat split; apply (bool_decide_unpack _); vm_compute; exact I.
Defined.
End SummaryExamples.

(** * Guarantees of the ingestion pipeline *)

Section facts.
Context `{HashLib} `{Environ} `{EmbeddingProvider} `{V : VectorStore}.
Variable rt : RuntimeDependencies.
Variable now : instant.
Variable context : AuditContext.
Variables (event_id new_id : string).
Implicit Types (w : World) (c : dict).

Notation convs w := (conversations (conv_db (w_hub w))).

(** ** Frames *)

(** What is derived from conversations: facts, graph, summaries, vectors. *)
Definition derived w := (w_facts w, w_summaries w, w_vectors w).
Definition convs_of w := convs w.

Lemma in_hub_moves {A} (R : World → World → Prop) (m : M HubDb A) :
  (∀ w, R w (mk_world _ (m (w_hub w)).2 (w_facts w) (w_summaries w) (w_vectors w))) → moves R (in_hub m).
Proof. intros Hm w. specialize (Hm w). unfold in_hub. by destruct (m (w_hub w)). Qed.
Lemma in_hub_derived {A} (m : M HubDb A) : moves (same derived) (in_hub m).
Proof. by apply in_hub_moves. Qed.
Lemma in_convs_same {T A} (f : World → T) (m : M ConvDb A) : moves eq m → moves (same f) (in_convs m).
Proof.
  intros Hm. apply in_hub_moves. intros w. specialize (Hm (conv_db (w_hub w))). unfold on_conv.
  destruct (m _) as [r d]. cbn in *. subst d. by destruct w as [[] ? ? ?].
Qed.

Lemma audit_convs_hub now' cx i ty o p m f oc r md (s : HubDb) :
  conv_db (_record_audit_event now' cx i ty o p m f oc r md s).2 = conv_db s.
Proof.
  unfold _record_audit_event. match goal with |- context [append_audit_event ?n i ?e s] => set (ev := e); set (n0 := n) end.
  assert (Ha : moves (same conv_db) (append_audit_event n0 i ev)).
  { unfold append_audit_event. walk. match goal with H : _ = Ok _ |- _ => apply bind_Ok in H as (? & ? & [= <-]) end. done. }
  specialize (Ha s). by destruct (append_audit_event _ _ _ s).
Qed.
Lemma resolve_project_convs o p role (s : HubDb) :
  conversations (conv_db (_resolve_project now context event_id o p role s).2) = conversations (conv_db s).
Proof.
  assert (Hc : ∀ A (m : M AuthDb A), moves (same (λ s : HubDb, conversations (conv_db s))) (on_conv (on_auth m))).
  { intros A m s'. unfold on_conv, on_auth. by destruct (m _). }
  assert (Ha : ∀ t o' p' m f oc r md, moves (same (λ s : HubDb, conversations (conv_db s)))
            (_record_audit_event now context event_id t o' p' m f oc r md)).
  { intros. intros s'. unfold same. by rewrite audit_convs_hub. }
  refine ((_ : moves (same (λ s : HubDb, conversations (conv_db s))) _) s). unfold _resolve_project, denied.
  walk; auto.
Qed.

(** ** What is held back *)

(** A row of a conversation that is not an active memory. *)
Definition inactive_row (r : conv_row) : Prop :=
  ∃ e, c_payload r = json_dumps (VDict e) ∧ _conversation_is_active (VDict e) = false.
(** Nothing is derived, and the conversations gain inactive ones only. *)
Definition held w w' : Prop :=
  derived w' = derived w ∧ ∃ rows, convs w' = convs w ++ rows ∧ Forall inactive_row rows.
#[local] Instance held_preorder : PreOrder held.
Proof.
  split.
  - intros w. split; [done|]. exists []. by rewrite app_nil_r.
  - intros w1 w2 w3 [D1 (r1 & E1 & F1)] [D2 (r2 & E2 & F2)]. split; [congruence|].
    exists (r1 ++ r2). rewrite E2, E1, app_assoc. split; [done|]. by apply Forall_app.
Qed.
Lemma in_hub_held {A} (m : M HubDb A) : (∀ s, conversations (conv_db (m s).2) = conversations (conv_db s)) →
  moves held (in_hub m).
Proof. intros Hm. apply in_hub_moves. intros w. split; [done|]. exists []. cbn. by rewrite Hm, app_nil_r. Qed.
Lemma in_convs_held {A} (m : M ConvDb A) : moves eq m → moves held (in_convs m).
Proof.
  intros Hm. apply in_hub_held. intros s. specialize (Hm (conv_db s)). unfold on_conv.
  destruct (m _) as [r d]. cbn in *. by subst d.
Qed.
Lemma audit_held t o p m oc r md : moves held (audit now context event_id t o p m oc r md).
Proof. apply in_hub_held. intros s. by rewrite audit_convs_hub. Qed.
Lemma store_get_held i : moves held (store_get i).
Proof. apply in_convs_held, get_moves, _. Qed.
Hint Resolve audit_held store_get_held : moves.

Lemma insert_new_rows now' c d r d' : insert_new now' c d = (r, d') →
  conversations d' = conversations d ∨
  ∃ new, conv_row_of now' c = Ok new ∧ conversations d' = conversations d ++ [new].
Proof.
  destruct r as [[id b]|e]; [|intros ->%insert_new_raise; by left].
  unfold insert_new. intros Hi. apply (proj1 (bind_run _ _ _ _ _)) in Hi as (new & s & Hn & Hi).
  apply lift_run in Hn as [Hn ->]. apply integrity_error_run in Hi as [Hi|(msg & d1 & Ht & Hi)].
  - apply (proj1 (transaction_run _ _ _ _)) in Hi.
    apply (proj1 (bind_run _ _ _ _ _)) in Hi as (? & d1 & He & Hi). apply ensure_project_run in He as (E1 & _ & _).
    apply (proj1 (bind_run _ _ _ _ _)) in Hi as ([] & d2 & Hw & Hi).
    apply (proj1 (bind_run _ _ _ _ _)) in Hi as ([] & d3 & Hch & Hi). apply ret_run in Hi as [_ ->].
    apply child_rows_keep in Hch. apply exec_r_run in Hw. apply bind_Ok in Hw as (t & Ht & Hw).
    apply tbl_insert_Ok in Ht as [_ ->]. destruct (convs_unique _); [|done]. injection Hw as <-.
    right. exists new. split; [done|]. rewrite Hch. cbn. by rewrite E1.
  - left. apply transaction_raise in Ht as ->. f_equal. symmetry.
    refine (moves_run eq _ _ _ _ (resolve_moves eq _ _ _ _) Hi).
Qed.
Lemma conv_row_of_payload now' c new : conv_row_of now' c = Ok new → c_payload new = json_dumps (VDict (stamped c)).
Proof.
  unfold conv_row_of, stamped. intros Hr. inv_ok. destruct x2 as [p s]. inv_ok. subst new.
  match goal with H : _ensure_payload_project _ = _ |- _ => by rewrite H end.
Qed.
Lemma stamped_status c : _memory_status (VDict (stamped c)) = _memory_status (VDict c).
Proof.
  unfold stamped. destruct (_ensure_payload_project c) as [[p s]|] eqn:E; [|done].
  apply ensure_payload_project_spec in E as [[-> _]| ->]; [done|].
  unfold _memory_status, metadata_field, metadata_of, _stamp_project_id, vget_or, vget. rewrite dict_get_set_eq. cbn.
  rewrite dict_get_set_ne by done. by destruct (dict_get "metadata" c) as [[]|].
Qed.
Lemma insert_inactive_held c : _conversation_is_active (VDict c) = false → moves held (in_convs (_insert_new_conversation now c)).
Proof.
  intros Hc. apply in_hub_moves. intros w. unfold on_conv. destruct (_insert_new_conversation now c (conv_db (w_hub w))) as [r d] eqn:E.
  apply insert_new_rows in E as [E|(new & Hn & E)]; (split; [done|]); cbn; rewrite E.
  - exists []. by rewrite app_nil_r.
  - exists [new]. split; [done|]. constructor; [|constructor]. exists (stamped c).
    split; [by eapply conv_row_of_payload|]. unfold _conversation_is_active. by rewrite stamped_status.
Qed.
Lemma put_metadata_status m c : _memory_status (VDict (put_metadata m c)) = default _MEMORY_STATUS_ACTIVE
  (match vget "memory_status" m with VNone => None | v => Some (py_str v) end).
Proof. unfold _memory_status, metadata_field, metadata_of, put_metadata, vget_or. by rewrite dict_get_set_eq. Qed.
Lemma review_memory_held c o p status key ret aev aout areason ameta : status ≠ _MEMORY_STATUS_ACTIVE → key ≠ "memory_status" →
  moves held (_store_review_memory now context event_id c o p status key ret aev aout areason ameta).
Proof.
  intros Hs Hk. unfold _store_review_memory. walk. apply insert_inactive_held. unfold _conversation_is_active.
  rewrite put_metadata_status. unfold vget. rewrite dict_get_set_ne, dict_get_set_eq by done. by apply String.eqb_neq.
Qed.
Lemma quarantined_held c o p fs : moves held (_store_quarantined_memory now context event_id c o p fs).
Proof. unfold _store_quarantined_memory. walk. by apply review_memory_held. Qed.
Lemma lineage_reads o p c : moves eq (_validate_lineage_parent o p c).
Proof.
  assert (Hst : ∀ i, moves eq (stored i)).
  { intros i. unfold stored. walk. apply get_moves, _. }
  assert (Hv : ∀ n visited v, moves eq (validate_from o p n visited v)).
  { induction n as [|n IH]; intros visited v; cbn; [walk|]. walk; auto. }
  unfold _validate_lineage_parent. walk; auto.
Qed.
Lemma lineage_held o p c : moves held (in_convs (_validate_lineage_parent o p c)).
Proof. apply in_convs_held, lineage_reads. Qed.
Hint Resolve quarantined_held lineage_held : moves.
Lemma resolve_held o p role : moves held (in_hub (_resolve_project now context event_id o p role)).
Proof. apply in_hub_held. intros s. apply resolve_project_convs. Qed.
Hint Resolve resolve_held : moves.

(** The conversation that ingestion examines for sensitive content. *)
Definition prepared (payload : value) (strict : bool) (owner : option string) (project : string) : result dict :=
  c ← stamped_conversation now new_id payload strict owner project;
  c ← stamp_imported_session_identity c;
  let c := _scope_conversation_hash c (Some project) in
  _ ← conversation_validator rt c;
  enriched rt now c.


(** ** Snapshots of stored threads *)

(** Only the audit trail may differ. *)
Definition stored_as w w' : Prop := derived w' = derived w ∧ conv_db (w_hub w') = conv_db (w_hub w).
#[local] Instance stored_preorder : PreOrder stored_as.
Proof. split; [by split|]. intros w1 w2 w3 [] []. split; congruence. Qed.
Lemma audit_stored_as t o p m oc r md : moves stored_as (audit now context event_id t o p m oc r md).
Proof. apply in_hub_moves. intros w. split; [done|]. apply audit_convs_hub. Qed.
Lemma in_convs_stored {A} (m : M ConvDb A) w r w' : in_convs m w = (r, w') →
  ∃ d, m (conv_db (w_hub w)) = (r, d) ∧ derived w' = derived w ∧ conv_db (w_hub w') = d.
Proof.
  unfold in_convs, in_hub, on_conv. destruct (m _) as [r0 d]. intros [= <- <-]. by exists d.
Qed.
Lemma in_convs_read {A} (m : M ConvDb A) w r w' : moves eq m → in_convs m w = (r, w') → stored_as w w'.
Proof.
  intros Hm (d & Hd & ? & <-)%in_convs_stored. split; [done|]. symmetry. exact (moves_run eq _ _ _ _ Hm Hd).
Qed.
Hint Resolve audit_stored_as : moves.
Lemma settled_results c o p w r w' :
  _stale_snapshot_ingestion_result now context event_id c o p w = (Ok r, w') ∨
  _deduplicated_ingestion_result now context event_id c o p w = (Ok r, w') →
  stored_as w w' ∧ vget "appended_messages" r = VInt 0 ∧ vget "embedded_chunks" r = VInt 0.
Proof.
  assert (Hm : moves stored_as (_stale_snapshot_ingestion_result now context event_id c o p) ∧
               moves stored_as (_deduplicated_ingestion_result now context event_id c o p)).
  { unfold _stale_snapshot_ingestion_result, _deduplicated_ingestion_result. split; walk. }
  destruct Hm as [Hm1 Hm2]. intros [Hr|Hr]; (split; [first [exact (moves_run _ _ _ _ _ Hm1 Hr)|exact (moves_run _ _ _ _ _ Hm2 Hr)]|]);
    unfold _stale_snapshot_ingestion_result, _deduplicated_ingestion_result in Hr; inv_run; done.
Qed.
Lemma insert_raise now' c d e d' : insert now' c d = (Raise e, d') → d' = d.
Proof.
  unfold insert, mbind at 1, M_bind at 1, lift. destruct (conv_row_of now' c); [apply transaction_raise|by intros [= _ <-]].
Qed.
Lemma persist_raise e1 c d e d' : _persist_appended_conversation now e1 c d = (Raise e, d') → d' = d.
Proof.
  unfold _persist_appended_conversation, mbind, M_bind. destruct (append_messages _ _ _ _) as [[i|e0] d0] eqn:E; [done|].
  intros [= -> ->]. destruct (Scope._conversation_hash e1); [by eapply append_raise|by eapply insert_raise].
Qed.
Lemma lookup_thread_read c o p : moves eq (_lookup_same_thread (allow_trusted_appends rt) c o p).
Proof.
  unfold _lookup_same_thread.
  walk; first [apply get_moves, _|apply get_by_session_moves, _|unfold get_by_upstream_thread; walk].
Qed.

Lemma stale_settled c o p w r w' :
  (r ← _stale_snapshot_ingestion_result now context event_id c o p; mret (Settled r)) w = (Ok (Settled r), w') →
  stored_as w w' ∧ vget "appended_messages" r = VInt 0 ∧ vget "embedded_chunks" r = VInt 0.
Proof.
  intros Hr. apply (proj1 (bind_run _ _ _ _ _)) in Hr as (r0 & s & Ha & Hb). apply ret_run in Hb as [[= ->] ->].
  eapply settled_results. eauto.
Qed.
Lemma equal_settled (c : dict) (dup : option string) o p w r w' :
  match dup with
  | None => r ← _deduplicated_ingestion_result now context event_id c o p; mret (Settled r)
  | Some _ =>
      chunks ← lift (chunked rt c (vget_or "messages" (VList []) c) 0);
      updated ← lift (_attach_index_chunks c chunks);
      _ ← in_convs (insert now updated);
      mret (Indexing updated chunks [] 0)
  end w = (Ok (Settled r), w') →
  stored_as w w' ∧ vget "appended_messages" r = VInt 0 ∧ vget "embedded_chunks" r = VInt 0.
Proof.
  intros Hr. destruct dup.
  - apply (proj1 (bind_run _ _ _ _ _)) in Hr as (? & ? & _ & Hr). apply (proj1 (bind_run _ _ _ _ _)) in Hr as (? & ? & _ & Hr).
    apply (proj1 (bind_run _ _ _ _ _)) in Hr as (? & ? & _ & Hr). by apply ret_run in Hr as [? _].
  - apply (proj1 (bind_run _ _ _ _ _)) in Hr as (r0 & s & Ha & Hb). apply ret_run in Hb as [[= ->] ->].
    eapply settled_results. eauto.
Qed.
(** An append that settles lost its race, and wrote nothing. *)
Lemma append_settled c new delta o p (retry : M World reconciled) w r w' :
  ('(updated, chunks, start_index) ← lift (appended rt now c new delta);
   written ← on_conflict (_ ← in_convs (_persist_appended_conversation now c updated); mret true) (mret false);
   if written : bool then
     updated ← in_summaries (_attach_generated_summaries now updated o (Some p));
     _ ← on_conflict (in_convs (_persist_appended_conversation now updated updated)) (mret tt);
     mret (Indexing updated chunks (delta_messages delta) start_index)
   else retry) w = (Ok (Settled r), w') →
  ∃ w1, stored_as w w1 ∧ retry w1 = (Ok (Settled r), w').
Proof.
  intros Hr. apply (proj1 (bind_run _ _ _ _ _)) in Hr as (q & s & Hq & Hr). apply lift_run in Hq as [_ ->].
  destruct q as [[updated chunks] start]. apply (proj1 (bind_run _ _ _ _ _)) in Hr as (b & w1 & Hb & Hr).
  destruct b.
  - apply (proj1 (bind_run _ _ _ _ _)) in Hr as (? & ? & _ & Hr). apply (proj1 (bind_run _ _ _ _ _)) in Hr as (? & ? & _ & Hr).
    by apply ret_run in Hr as [? _].
  - exists w1. split; [|done]. unfold on_conflict, mbind at 1, M_bind at 1 in Hb.
    destruct (in_convs _ w) as [[u|e] w2] eqn:E; [done|]. apply in_convs_stored in E as (d & Hd & ? & ?).
    apply persist_raise in Hd as ->. destruct e; try done. injection Hb as <-. split; done.
Qed.

(** A snapshot that brings nothing new changes nothing: when the comparison
    with the stored thread settles a payload as equal or stale, also after appends
    that lost their race against other writers, the conversations, facts, graph,
    summaries and index are as before (only the audit trail grows), and the answer
    reports no appended message and no embedded chunk. *)
Theorem settled_changes_nothing attempts : ∀ incoming duplicate owner project thread w r w',
  reconcile rt now context event_id attempts incoming duplicate owner project thread w = (Ok (Settled r), w') →
  stored_as w w' ∧ vget "appended_messages" r = VInt 0 ∧ vget "embedded_chunks" r = VInt 0.
Proof.
  induction attempts as [|n IH]; intros incoming duplicate owner project thread w r w' Hr;
    cbn [reconcile] in Hr; apply (proj1 (bind_run _ _ _ _ _)) in Hr as (delta & s & Hd & Hr);
    apply lift_run in Hd as [_ ->]; destruct (relation delta).
  - by apply equal_settled in Hr.
  - apply append_settled in Hr as (w1 & _ & Hr). done.
  - by apply stale_settled in Hr.
  - by apply equal_settled in Hr.
  - apply append_settled in Hr as (w1 & Hw1 & Hr). destruct n as [|n]; [done|].
    apply (proj1 (bind_run _ _ _ _ _)) in Hr as (t & w2 & Ht & Hr).
    apply in_convs_read in Ht; [|apply lookup_thread_read].
    destruct t as [t|]; [|done]. apply IH in Hr as [Hr ?]. split; [|done]. by etrans; [|etrans].
  - by apply stale_settled in Hr.
Qed.

(** ** The index *)

(** The ids of chunks. *)
Definition ids_of (l : list dict) : list string := map (λ c, py_str (vget "chunk_id" c)) l.
Definition chunk_rows w : list chunk_row := ConvStore.chunks (conv_db (w_hub w)).

Lemma chunk_ids_of_spec l ids : chunk_ids_of l = Ok ids → ids = ids_of l.
Proof.
  unfold chunk_ids_of, ids_of. intros Hl%map_result_Forall2. induction Hl as [|c i l ids Hc _ IH]; cbn; [done|].
  f_equal; [|done]. apply bind_Ok in Hc as (v & Hv & [= <-]). unfold item, vget in *. by destruct (dict_get _ c); simplify_eq/=.
Qed.
Lemma set_state_chunks c l st c' l' : _set_index_chunks_state c l st = Ok (c', l') →
  l' = map (dict_set "index_state" (VStr (state_value st))) l.
Proof.
  unfold _set_index_chunks_state. cbv zeta. destruct (manifest_of c).
  all: intros Hr; repeat (apply bind_Ok in Hr as (? & _ & Hr)); repeat case_match; repeat (apply bind_Ok in Hr as (? & _ & Hr));
    injection Hr as _ <-; done.
Qed.
Lemma ids_of_state st l : ids_of (map (dict_set "index_state" st) l) = ids_of l.
Proof. unfold ids_of. rewrite map_map. apply map_ext. intros c. unfold vget. by rewrite dict_get_set_ne. Qed.
(** Marking the chunks of a conversation, in the world. *)
Lemma mark_in_world id st l c w r w' : _validate_memory_id (VStr id) = Ok id →
  ('(c, l) ← lift (_set_index_chunks_state c l st);
   ids ← lift (chunk_ids_of l);
   _ ← in_convs (_mark_chunks_state (VStr id) ids st);
   mret c : M World dict) w = (r, w') →
  derived w' = derived w ∧
  match r with
  | Ok _ => chunk_rows w' = mark_chunks id (ids_of l) st (chunk_rows w)
  | Raise _ => conv_db (w_hub w') = conv_db (w_hub w)
  end.
Proof.
  intros Hid. unfold mbind at 1, M_bind at 1, lift at 1. destruct (_set_index_chunks_state c l st) as [[c' l']|e] eqn:Hs; [|by intros [= <- <-]].
  apply set_state_chunks in Hs as ->. unfold mbind at 1, M_bind at 1, lift at 1.
  destruct (chunk_ids_of _) as [ids|e] eqn:Hi; [|by intros [= <- <-]]. apply chunk_ids_of_spec in Hi as ->. rewrite ids_of_state.
  unfold mbind, M_bind. destruct (in_convs _ w) as [u w1] eqn:E. apply in_convs_stored in E as (d & Hd & E1 & E2).
  destruct u as [[]|e]; intros [= <- <-]; (split; [done|]).
  - destruct (mark_run _ _ _ _ _ _ Hd Hid) as (d1 & _ & Hc & Hc' & _). unfold chunk_rows. by rewrite E2, Hc', Hc.
  - rewrite E2. unfold _mark_chunks_state, mbind at 1, M_bind at 1, lift in Hd. rewrite Hid in Hd. by apply transaction_raise in Hd.
Qed.

Definition outcome_kept {A B} (r : result A) (r' : result B) : Prop :=
  match r, r' with Ok _, Ok _ => True | Raise e, Raise e' => e = e' | _, _ => False end.
Lemma failed_in_world id l c w r w' : _validate_memory_id (VStr id) = Ok id →
  _mark_chunks_indexing_failed id l c w = (r, w') →
  derived w' = derived w ∧
  match r with
  | Ok _ => chunk_rows w' = mark_chunks id (ids_of l) FAILED (chunk_rows w)
  | Raise _ => conv_db (w_hub w') = conv_db (w_hub w)
  end.
Proof.
  intros Hid Hr.
  destruct (('(c', l') ← lift (_set_index_chunks_state c l FAILED); ids ← lift (chunk_ids_of l');
    _ ← in_convs (_mark_chunks_state (VStr id) ids FAILED); mret c' : M World dict) w) as [r0 w0] eqn:E.
  assert (w0 = w' ∧ outcome_kept r r0) as [-> Ho].
  { revert Hr E. unfold _mark_chunks_indexing_failed, mark_chunks_indexing_failed, mbind, M_bind, lift.
    destruct (_set_index_chunks_state c l FAILED) as [[c' l']|e]; [|by intros [= <- <-] [= <- <-]].
    destruct (chunk_ids_of l') as [ids|e]; [|by intros [= <- <-] [= <- <-]].
    destruct (in_convs _ w) as [[u|e] w1]; by intros [= <- <-] [= <- <-]. }
  apply (mark_in_world _ _ _ _ _ _ _ Hid) in E. by destruct r, r0.
Qed.

Definition identified (c : dict) : Prop := ∃ s, vget "chunk_id" c = VStr s ∧ s ≠ "".
Lemma embed_chunks_ids id l p o es : embed_chunks l p o = Ok es → Forall identified l → map (embedding_id id) es = ids_of l.
Proof.
  unfold embed_chunks. intros He Hl. apply bind_Ok in He as (ts & _ & He). apply bind_Ok in He as (tbs & _ & He).
  apply bind_Ok in He as (vbs & _ & He). cbv zeta in He. apply bind_Ok in He as (u & Hlen & He).
  unfold guard_err in Hlen. destruct (Nat.eqb_spec (length (concat vbs)) (length l)) as [Hn|]; [clear Hlen|done].
  apply map_result_Forall2 in He. revert es He Hn. generalize (concat vbs) as vs.
  induction Hl as [|c l (s & Hs & Hne) _ IH]; intros vs es He Hn; cbn in He.
  - by apply Forall2_nil_inv_l in He as ->.
  - destruct vs as [|v vs]; [done|]. apply Forall2_cons_inv_l in He as (e & es' & He & Hes & ->).
    cbn. f_equal; [|by apply (IH vs); [|injection Hn]].
    unfold chunk_embedding in He. apply bind_Ok in He as (? & _ & He). apply bind_Ok in He as (? & _ & He).
    apply bind_Ok in He as (? & _ & He). injection He as <-. cbn in Hs |- *. unfold embedding_id. rewrite Hs.
    change (vget "chunk_id" (("chunk_id", VStr s) :: ?x)) with (VStr s). cbn [truthy py_str].
    by rewrite (proj2 (String.eqb_neq s "") Hne).
Qed.
Lemma chunked_identified obj ms start l : chunked rt obj ms start = Ok l → Forall identified l.
Proof.
  unfold chunked, chunk_selected_messages. destruct ms as [| | | | |ms|]; try done. intros Hl. apply bind_Ok in Hl as (v & _ & Hl).
  revert Hl. assert (Hacc : Forall identified ([] : list dict)) by constructor. revert Hacc.
  generalize ([] : list dict) as acc. generalize (enumerate 0 ms) as ims. induction ims as [|im ims IH]; cbn; intros acc Hacc Hl.
  - by injection Hl as <-.
  - apply bind_Ok in Hl as (acc' & Ha & Hl). apply IH in Hl; [done|]. unfold message_chunks in Ha.
    apply bind_Ok in Ha as ([[h r] t] & _ & Ha). apply bind_Ok in Ha as (ws & _ & Ha). injection Ha as <-.
    apply Forall_app. split; [done|]. apply Forall_forall. intros c (w & _ & ->)%elem_of_map.
    eexists. split; [reflexivity|]. by destruct (py_str v).
Qed.

Lemma in_vectors_run {A} (m : M vectors A) w r w' : in_vectors m w = (r, w') →
  ∃ v, m (w_vectors w) = (r, v) ∧ w_vectors w' = v ∧ w_hub w' = w_hub w ∧ w_facts w' = w_facts w ∧ w_summaries w' = w_summaries w.
Proof. unfold in_vectors. destruct (m _) as [r0 v]. intros [= <- <-]. by exists v. Qed.

(** The vectors of other memories, the facts and the summaries are the same. *)
Definition elsewhere id w w' : Prop :=
  (∀ other, other ≠ id → (get_indexed_chunk_ids other (w_vectors w')).1 = (get_indexed_chunk_ids other (w_vectors w)).1) ∧
  w_facts w' = w_facts w ∧ w_summaries w' = w_summaries w.
Lemma derived_elsewhere id w w1 w2 : elsewhere id w w1 → derived w2 = derived w1 → elsewhere id w w2.
Proof. unfold derived. intros Hw [= D1 D2 D3]. unfold elsewhere. by rewrite D1, D2, D3. Qed.
(** The handler of a failed indexing. *)
Lemma index_failed id l c w w1 e r w' : _validate_memory_id (VStr id) = Ok id →
  elsewhere id w w1 → conv_db (w_hub w1) = conv_db (w_hub w) →
  match _mark_chunks_indexing_failed id l c w1 with
  | (Ok _, w'') => (Raise (A:=dict) e, w'')
  | (Raise e', w'') => (Raise e', w'')
  end = (r, w') →
  (∃ e', r = Raise e') ∧
  (chunk_rows w' = mark_chunks id (ids_of l) FAILED (chunk_rows w) ∨ chunk_rows w' = chunk_rows w) ∧ elsewhere id w w'.
Proof.
  intros Hid Hw Ec Hm. destruct (_mark_chunks_indexing_failed id l c w1) as [u w2] eqn:Hf.
  apply (failed_in_world _ _ _ _ _ _ Hid) in Hf as [Hd Hf]. apply (derived_elsewhere id w) in Hd; [|done].
  destruct u as [u|e']; injection Hm as <- <-; (split; [by eexists|]); (split; [|done]); unfold chunk_rows in *;
    [left|right]; by rewrite Hf, Ec.
Qed.


(** ** Decisions on pending memories *)

(** Conversations and everything derived from them. *)
Definition content w := (derived w, convs w).
Lemma audit_content t o p m oc r md : moves (same content) (audit now context event_id t o p m oc r md).
Proof. intros w. destruct (audit_stored_as t o p m oc r md w) as [E1 E2]. unfold same, content. by rewrite E1, E2. Qed.
Lemma audit_run t o p m oc r md w : ∃ w', audit now context event_id t o p m oc r md w = (Ok tt, w').
Proof.
  unfold audit, in_hub, _record_audit_event. destruct (append_audit_event _ _ _ _) as [x s]. by eexists.
Qed.
Lemma refusal t o p m oc r md (answer : dict) w w1 : content w1 = content w →
  ∃ w', (_ ← audit now context event_id t o p m oc r md; mret (inr answer) : M World (dict + dict)) w1 = (Ok (inr answer), w') ∧
    content w' = content w.
Proof.
  intros Hc. destruct (audit_run t o p m oc r md w1) as [w2 Ha]. pose proof (audit_content t o p m oc r md w1) as Hm.
  unfold mbind, M_bind. rewrite Ha in Hm |- *. eexists. split; [done|]. cbn in Hm. unfold same in Hm. by rewrite Hm.
Qed.
(** A decision on a memory that the caller may not see, or that is not pending,
    is answered with an error. *)
Lemma reviewable_refused event memory owner p w v :
  (get (VStr memory) (conv_db (w_hub w))).1 = Ok v →
  _conversation_authorized (default VNone v) owner (Some p) = false ∨
    _memory_status (default VNone v) ∉ _REVIEWABLE_MEMORY_STATUSES →
  ∃ a w', reviewable now context event_id event memory owner p w = (Ok (inr a), w') ∧
    (vget "status" a = VStr "not_found" ∨ vget "status" a = VStr "error") ∧ content w' = content w.
Proof.
  intros Hg Hv. unfold reviewable. unfold mbind at 1, M_bind at 1.
  destruct (store_get memory w) as [g w1] eqn:E. pose proof E as Hr.
  apply in_convs_stored in E as (d & Hd & _ & _). rewrite Hd in Hg. cbn in Hg. subst g.
  apply in_convs_read in Hr as [E1 E2]; [|apply get_moves, _].
  assert (Hc : content w1 = content w) by (unfold content; by rewrite E1, E2). clear E1 E2 Hd. cbv zeta.
  destruct (_conversation_authorized _ _ _); cbn [negb].
  - destruct Hv as [|Hs]; [done|].
    assert (existsb (String.eqb (_memory_status (default VNone v))) _REVIEWABLE_MEMORY_STATUSES = false) as ->.
    { destruct (existsb _ _) eqn:Ex; [|done]. apply existsb_exists in Ex as (x & Hx & <-%String.eqb_eq).
      by rewrite <-list_elem_of_In in Hx. }
    cbn [negb]. eexists. destruct (refusal event owner p memory "error" (Some "memory_not_pending_review")
      [("memory_status", VStr (_memory_status (default VNone v)))] (not_pending memory (_memory_status (default VNone v))) w w1 Hc)
      as (w' & Hr & Hcw). exists w'. split; [exact Hr|]. split; [by right|done].
  - eexists. destruct (refusal event owner p memory "not_found" (Some "not_visible") [] (not_found memory) w w1 Hc)
      as (w' & Hr & Hcw). exists w'. split; [exact Hr|]. split; [by left|done].
Qed.
End facts.

(** ** A small hub *)

Module Pipeline.
Import Sample.
#[local] Instance embedder : EmbeddingProvider :=
  Build_EmbeddingProvider (λ l, Ok (map (λ _, ["0.5"; "0.25"]) l)) (VInt 2) VNone.
Definition index : VectorStore := InMemoryVectorStore 2.
Definition runtime : RuntimeDependencies := mk_runtime (λ _, Ok tt) None None "message" 100 10 true true "lancedb".
Definition service : AuditContext := mk_audit_context "service" None.
Definition empty_world : @World index := mk_world index (mk_hub (mk_conv_db empty_db [] [] []) []) (mk_fact_db [] [] []) [] [].
Definition said (r t : string) : value := VDict [("role", VStr r); ("text", VStr t)].
Definition memory_id := "11111111111141118111111111111111".
Definition event (c : string) := "2222222222224222822222222222222" +:+ c.
Definition talk : value := VDict [("title", VStr "Hub");
  ("messages", VList [said "user" "I live in Paris."; said "assistant" "The hub uses Postgres."])].
Definition secret : value := VDict [("title", VStr "Hub"); ("messages", VList [said "user" "key AKIA0123456789ABCDEF"])].
Definition ingest (c : string) (payload : value) (w : @World index) : result dict * @World index :=
  @ingest_messages sample_hashlib embedder index runtime noon service (event c) memory_id payload false None None w.
Definition status_of (r : result dict) : option value := match r with Ok d => Some (vget "status" d) | Raise _ => None end.
Definition sizes (w : @World index) : list nat :=
  [length (conversations (conv_db (w_hub w))); length (facts (w_facts w)); length (w_summaries w); length (w_vectors w : list vector_row)].
Definition talked : @World index := (ingest "2" talk empty_world).2.
Definition held_back : @World index := (ingest "2" secret empty_world).2.

(** A conversation is stored, indexed and summarised; one with a key is kept
    back; the first one again changes nothing. *)
Example ingest_talk : status_of (ingest "2" talk empty_world).1 = Some (VStr "ok") ∧ sizes talked = [1; 2; 3; 2]%nat.
Proof. vm_compute. done. Qed.
Example ingest_secret : status_of (ingest "2" secret empty_world).1 = Some (VStr "quarantined") ∧ sizes held_back = [1; 0; 0; 0]%nat.
Proof. vm_compute. done. Qed.
Example ingest_again : status_of (ingest "3" talk talked).1 = Some (VStr "ok") ∧ sizes (ingest "3" talk talked).2 = sizes talked.
Proof. vm_compute. done. Qed.

Definition dict_of (r : result (option value)) : dict := match r with Ok (Some (VDict c)) => c | _ => [] end.
Definition thread : dict := dict_of (get (VStr memory_id) (conv_db (w_hub talked))).1.
Notation settle :=
  (@reconcile sample_hashlib index runtime noon service (event "4") 3 thread None None "local-default" thread talked).
Definition is_settled (r : result reconciled) : bool := match r with Ok (Settled _) => true | _ => false end.
Lemma settled_changes_nothing_witness : ∃ r w', settle = (Ok (Settled r), w') ∧ conv_db (w_hub w') = conv_db (w_hub talked).
Proof.
  assert (Hs : is_settled settle.1 = true) by (vm_compute; reflexivity).
  destruct settle as [[[r|]|] w'] eqn:E; try discriminate Hs.
  exists r, w'. split; [reflexivity|]. exact (proj2 (proj1 (settled_changes_nothing _ _ _ _ _ _ _ _ _ _ _ _ _ E))).
Defined.

Definition list_of (r : result (list dict)) : list dict := match r with Ok l => l | Raise _ => [] end.
Definition cut : list dict := list_of (chunked runtime thread (vget "messages" thread) 0).
Notation indexing := (@index_chunks embedder index memory_id cut thread "local-default" None true empty_world).
Definition is_ok {A} (r : result A) : bool := match r with Ok _ => true | Raise _ => false end.

(** The memory is active, so there is nothing to decide. *)
Notation resolved := (_resolve_project noon service (event "6") None None "writer" (w_hub talked)).
Definition active_memory (s : HubDb) : bool :=
  match (get (VStr memory_id) (conv_db s)).1 with
  | Ok v => String.eqb (_memory_status (default VNone v)) "active"
  | Raise _ => false
  end.
Lemma active_not_reviewable : "active" ∉ _REVIEWABLE_MEMORY_STATUSES.
Proof. apply (bool_decide_eq_false_1 _). vm_compute. reflexivity. Qed.
End Pipeline.
