(* ===== verification/QueryPlan.v ===== *)
(** * Query planning ([memory/ingestion/query_planning.py])

    The filters, intent and terms read from the text of a query with the
    patterns of the source, the proposal of an optional external planner, and
    the filters a caller gives.  A validation error of pydantic is the
    [ValueError] of the validator that failed. *)
From Stdlib Require Import ZArith Lia Ascii.
From S2P Require Import Prelude PyStr Json Clock PyFloat Regex Scope.
Local Open Scope Z_scope.

Inductive RetrievalIntent := MEMORY | FACT | TIMELINE | HANDOFF.
Inductive TemporalPreference := LATEST | HISTORICAL | ANY.
#[export] Instance RetrievalIntent_eq_dec : EqDecision RetrievalIntent.
Proof. solve_decision. Defined.
#[export] Instance TemporalPreference_eq_dec : EqDecision TemporalPreference.
Proof. solve_decision. Defined.
Definition intent_value (i : RetrievalIntent) : string :=
  match i with MEMORY => "memory" | FACT => "fact" | TIMELINE => "timeline" | HANDOFF => "handoff" end.
Definition temporal_value (t : TemporalPreference) : string :=
  match t with LATEST => "latest" | HISTORICAL => "historical" | ANY => "any" end.

(** ** Filters *)

Record PlannedConversationFilters := mk_planned {
  p_source : option string; p_date_from : option string; p_date_to : option string; p_tags : list string;
  p_thread_id : option string; p_handoff_only : bool; p_source_client : option string; p_source_session_id : option string }.
Definition no_filters : PlannedConversationFilters := mk_planned None None None [] None false None None.

(** [value.isoformat().replace("+00:00", "Z")] of an instant in microseconds *)
Definition iso_us (us : Z) : string :=
  date_text (us / 1000000) +:+ "T" +:+ clock_text (us / 1000000)
  +:+ (if us mod 1000000 =? 0 then "" else "." +:+ pad 6 (us mod 1000000)) +:+ "Z".
Definition checked_us (us : Z) : result Z :=
  if (min_utc <=? us) && (us <? max_utc) then Ok us else Raise (OverflowError "date value out of range").
Definition _isoformat (us : Z) : result string := u ← checked_us us; Ok (iso_us u).

Definition _validate_optional_text (v : option string) : result (option string) :=
  match v with
  | None => Ok None
  | Some s =>
      let normalized := strip s in
      if String.eqb normalized "" || (256 <? str_len normalized)
      then Raise (ValueError "filter values must contain between 1 and 256 characters") else Ok (Some normalized)
  end.
Definition _validate_datetime (v : option string) : result (option string) :=
  match v with
  | None => Ok None
  | Some s =>
      parsed ← parse_iso (strip s) "date filters must be ISO-8601 datetimes";
      u ← _aware_utc parsed; Ok (Some (iso_us u))
  end.
(** [tuple(dict.fromkeys(str(x).strip() for x in values if str(x).strip()))] *)
Definition stripped_terms (values : list string) : list string :=
  dedup (List.filter (λ t, negb (String.eqb t "")) (map strip values)).
Definition _validate_tags (values : list string) : result (list string) :=
  let normalized := stripped_terms values in
  if (20 <? Z.of_nat (length normalized)) || existsb (λ t, 128 <? str_len t) normalized
  then Raise (ValueError "tags exceed query-planning limits") else Ok normalized.
(** pydantic validates every field and reports the [ValueError]s together; any
    other exception passes at once. *)
Definition collect {A B} (a : result A) (b : result B) : result (A * B) :=
  match a, b with
  | Ok x, Ok y => Ok (x, y)
  | Raise (ValueError m), Raise (ValueError _) => Raise (ValueError m)
  | Raise (ValueError m), Ok _ => Raise (ValueError m)
  | Raise (ValueError _), Raise e => Raise e
  | Raise e, _ => Raise e
  | Ok _, Raise e => Raise e
  end.
(** [PlannedConversationFilters.model_validate] of typed values *)
Definition planned_filters (f : PlannedConversationFilters) : result PlannedConversationFilters :=
  '(date_from, date_to) ← collect (_validate_datetime (p_date_from f)) (_validate_datetime (p_date_to f));
  source ← _validate_optional_text (p_source f);
  tags ← _validate_tags (p_tags f);
  thread_id ← _validate_optional_text (p_thread_id f);
  source_client ← _validate_optional_text (p_source_client f);
  source_session_id ← _validate_optional_text (p_source_session_id f);
  Ok (mk_planned source date_from date_to tags thread_id (p_handoff_only f) source_client source_session_id).

Record RetrievalQueryPlan := mk_plan {
  original_query : string; semantic_query : string; filters : PlannedConversationFilters; intent : RetrievalIntent;
  exact_terms : list string; preferred_fields : list string; temporal_preference : TemporalPreference;
  planning_mode : string }.

(** ** Patterns *)

Definition _SOURCE_ALIASES : list (string * string) :=
  [("chatgpt", "chatgpt"); ("claude", "claude-code"); ("claude code", "claude-code"); ("codex", "codex");
   ("codex cli", "codex-cli"); ("opencode", "opencode")].
Definition _SOURCE_PATTERN : pattern := re_compile_i ("\b(?:(?:from|in)\s+(?:my\s+)?|my\s+)"
  +:+ "(?P<source>chatgpt|claude(?:\s+code)?|codex(?:\s+cli)?|opencode)"
  +:+ "\s+(?:conversation|conversations|discussion|discussions|memory|memories|session|sessions)\b").
Definition _EXPLICIT_RANGE_PATTERN : pattern := re_compile_i
  "\bfrom\s+(?P<from>\d{4}-\d{2}-\d{2})(?:[T ][^\s]+)?\s+to\s+(?P<to>\d{4}-\d{2}-\d{2})(?:[T ][^\s]+)?\b".
Definition _SINCE_PATTERN : pattern := re_compile_i "\b(?:since|after)\s+(?P<date>\d{4}-\d{2}-\d{2})\b".
Definition _BEFORE_PATTERN : pattern := re_compile_i "\b(?:before|until)\s+(?P<date>\d{4}-\d{2}-\d{2})\b".
Definition _RELATIVE_PATTERN : pattern := re_compile_i
  "\b(?:in|from|during)?\s*(?P<period>today|yesterday|last\s+week|last\s+month|past\s+\d+\s+(?:days?|weeks?|months?))\b".
Definition _TAG_PATTERN : pattern := re_compile_i "(?<!\w)(?:tag:|tagged\s+|#)(?P<tag>[A-Za-z0-9][A-Za-z0-9_.-]{0,127})".
Definition _THREAD_PATTERN : pattern := re_compile_i
  "\bthread(?:\s+id)?\s*[:#]?\s*(?P<thread>[A-Za-z0-9][A-Za-z0-9_.:/-]{0,255})".
Definition _HANDOFF_FILTER_PATTERN : pattern := re_compile_i
  "\b(?:handoffs?\s+only|only\s+handoffs?|resume(?:\s+(?:the|my))?(?:\s+latest)?\s+handoff|unfinished\s+(?:work|task))\b".
Definition _LATEST_PATTERN : pattern := re_compile_i "\b(?:latest|current|newest|most\s+recent)\b".
Definition _HISTORICAL_PATTERN : pattern := re_compile_i "\b(?:historical|history|older|previous|formerly)\b".
Definition _TIMELINE_PATTERN : pattern := re_compile_i "\b(?:timeline|chronology|over\s+time|changed?)\b".
Definition _FACT_PATTERN : pattern := re_compile_i "\b(?:fact|facts|what\s+is|who\s+is|which\s+is)\b".
Definition quotes : string := char_str dquote +:+ "'".
Definition _QUOTED_PATTERN : pattern := re_compile
  ("[" +:+ quotes +:+ "](?P<1>[^" +:+ quotes +:+ "]{1,256})[" +:+ quotes +:+ "]").
Definition _COUNT_PATTERN : pattern := re_compile "(?P<1>\d+)\s+(?P<2>day|week|month)".
Definition _COMMAND_PATTERN : pattern := re_compile_i "\b(?:find|show|search(?:\s+for)?|look\s+for|retrieve)\b".
Definition _FILLER_PATTERN : pattern := re_compile_i
  "\b(?:my|me|please|about|memory|memories|conversation|conversations|discussion|discussions)\b".
Definition matches (p : pattern) (s : string) : bool := match re_search p s with Some _ => true | None => false end.

(** ** The plan of a text *)

Definition _remove_match (v : string) (m : re_match) : string := stake (m_start m) v +:+ " " +:+ sdrop (m_end m) v.
Definition _day_start (v : string) : string := v +:+ "T00:00:00Z".
Definition _day_end (v : string) : string := v +:+ "T23:59:59.999999Z".
Definition day_us : Z := 86400000000.
(** [int(digits)]; Python refuses more than 4300 digits *)
Definition int_of_digits (s : string) : result Z :=
  if 4300 <? str_len s then Raise (ValueError "Exceeds the limit for integer string conversion") else
  from_option_err (ValueError "invalid literal for int()") (int_of_str s).
(** The bounds of a period; [now] is in microseconds. *)
Definition _relative_range (period : string) (now : Z) : result (option string * option string) :=
  let normalized := join " " (split_ws (lower period)) in
  let today := now - now mod day_us in
  let range start stop := s ← _isoformat start; e ← _isoformat stop; Ok (Some s, Some e) in
  if String.eqb normalized "today" then (t ← checked_us (today + day_us); range today (t - 1)) else
  if String.eqb normalized "yesterday" then range (today - day_us) (today - 1) else
  if String.eqb normalized "last week" then
    this_week ← checked_us (today - day_us * ((today / day_us + 3) mod 7));
    range (this_week - day_us * 7) (this_week - 1)
  else if String.eqb normalized "last month" then
    let '(y, m, _) := civil_of_days (today / day_us) in
    let this_month := days_of_civil y m 1 * day_us in
    stop ← checked_us (this_month - 1);
    let '(y', m', _) := civil_of_days (stop / day_us) in
    range (days_of_civil y' m' 1 * day_us) stop
  else
    match re_search _COUNT_PATTERN normalized with
    | None => Ok (None, None)
    | Some m =>
        digits ← int_of_digits (group "1" normalized m);
        let unit := group "2" normalized m in
        let days := Z.min digits 3650 * (if String.eqb unit "day" then 1 else if String.eqb unit "week" then 7 else 30) in
        range (now - day_us * days) now
    end.
(** The dates of a text, and the text without them. *)
Definition planned_dates (working : string) (now : Z) : result (option string * option string * string) :=
  match re_search _EXPLICIT_RANGE_PATTERN working with
  | Some m => Ok (Some (_day_start (group "from" working m)), Some (_day_end (group "to" working m)), _remove_match working m)
  | None =>
      let since := re_search _SINCE_PATTERN working in
      let before := re_search _BEFORE_PATTERN working in
      let '(date_from, w1) := match since with
        | Some m => (Some (_day_start (group "date" working m)), _remove_match working m)
        | None => (None, working) end in
      let '(date_to, w2) := match before with
        | Some m => (Some (_day_end (group "date" working m)), _remove_match w1 m)
        | None => (None, w1) end in
      match re_search _RELATIVE_PATTERN w2 with
      | Some m => '(s, e) ← _relative_range (group "period" w2 m) now; Ok (s, e, _remove_match w2 m)
      | None => Ok (date_from, date_to, w2)
      end
  end.
Definition _strip_query_scaffolding (v : string) : string :=
  let v := re_sub _COMMAND_PATTERN " " v in
  let v := re_sub _FILLER_PATTERN " " v in
  let v := re_sub _LATEST_PATTERN " " v in
  let v := re_sub _HISTORICAL_PATTERN " " v in
  let v := re_sub _HANDOFF_FILTER_PATTERN " " v in
  join " " (split_ws (strip_by (in_chars " ,.:;!?-") v)).
Definition _preferred_fields (source : option string) (tags : list string) (thread_id : option string) (handoff_only : bool)
    (temporal : TemporalPreference) : list string :=
  ["text"] ++ match source with Some _ => ["source"] | None => [] end ++ match tags with [] => [] | _ => ["tags"] end
  ++ match thread_id with Some _ => ["thread_id"] | None => [] end ++ (if handoff_only then ["handoff"] else [])
  ++ (if bool_decide (temporal = ANY) then [] else ["timestamp"]).
Definition or_text (a b : string) : string := if String.eqb a "" then b else a.

(** The source named in a text; its alias is looked up after one replacement of
    double blanks. *)
Definition planned_source (query : string) : result (option string * string) :=
  match re_search _SOURCE_PATTERN query with
  | None => Ok (None, query)
  | Some m =>
      let name := replace "  " " " (lower (group "source" query m)) in
      source ← from_option_err (KeyError name) (dict_get name _SOURCE_ALIASES);
      Ok (Some source, _remove_match query m)
  end.
Definition _deterministic_plan (query : string) (now : Z) : result RetrievalQueryPlan :=
  '(source, working) ← planned_source query;
  '(date_from, date_to, working) ← planned_dates working now;
  let tags := dedup (map (group "tag" working) (re_finditer _TAG_PATTERN working)) in
  let working := re_sub _TAG_PATTERN " " working in
  let '(thread_id, working) := match re_search _THREAD_PATTERN working with
    | Some m => (Some (group "thread" working m), _remove_match working m)
    | None => (None, working) end in
  let handoff_only := matches _HANDOFF_FILTER_PATTERN query in
  let temporal := if matches _LATEST_PATTERN query then LATEST
    else if matches _HISTORICAL_PATTERN query || bool_decide (is_Some date_from) || bool_decide (is_Some date_to)
    then HISTORICAL else ANY in
  let intent := if handoff_only then HANDOFF else if matches _TIMELINE_PATTERN query then TIMELINE
    else if matches _FACT_PATTERN query then FACT else MEMORY in
  let exact_terms := dedup (map (λ m, strip (group "1" query m)) (re_finditer _QUOTED_PATTERN query)) in
  let working := _strip_query_scaffolding working in
  let semantic_query := or_text working (or_text (join " " exact_terms) query) in
  filters ← planned_filters (mk_planned source date_from date_to tags thread_id handoff_only None None);
  Ok (mk_plan query semantic_query filters intent exact_terms
        (_preferred_fields source tags thread_id handoff_only temporal) temporal "deterministic").

(** ** Proposals of a planner *)

Definition invalid {A} : result A := Raise (ValueError "validation error").
Definition only_keys (allowed : list string) (d : dict) : result unit :=
  guard_err (negb (forallb (λ k, existsb (String.eqb k) allowed) (dict_keys d))) (ValueError "Extra inputs are not permitted").
(** [str | None] *)
Definition optional_text (k : string) (d : dict) : result (option string) :=
  match vget k d with VNone => Ok None | VStr s => Ok (Some s) | _ => invalid end.
(** pydantic's [bool] of a JSON value *)
Definition lax_bool (v : value) : result bool :=
  match v with
  | VBool b => Ok b
  | VInt z => if z =? 0 then Ok false else if z =? 1 then Ok true else invalid
  | VFloat t => if String.eqb t "0.0" || String.eqb t "-0.0" then Ok false else if String.eqb t "1.0" then Ok true else invalid
  | VStr s =>
      if existsb (String.eqb (lower s)) ["0"; "off"; "f"; "false"; "n"; "no"] then Ok false
      else if existsb (String.eqb (lower s)) ["1"; "on"; "t"; "true"; "y"; "yes"] then Ok true else invalid
  | _ => invalid
  end.
Definition filter_fields : list string :=
  ["source"; "date_from"; "date_to"; "tags"; "thread_id"; "handoff_only"; "source_client"; "source_session_id"].
(** [PlannedConversationFilters.model_validate] of a mapping *)
Definition proposed_filters (d : dict) : result PlannedConversationFilters :=
  date_from ← optional_text "date_from" d;
  date_to ← optional_text "date_to" d;
  _ ← collect (_validate_datetime date_from) (_validate_datetime date_to);
  _ ← only_keys filter_fields d;
  source ← optional_text "source" d;
  tags ← match vget "tags" d with VNone => Ok [] | VList l => Ok (map py_str l)
         | _ => Raise (ValueError "tags must be a sequence of strings") end;
  thread_id ← optional_text "thread_id" d;
  handoff_only ← match dict_get "handoff_only" d with None => Ok false | Some v => lax_bool v end;
  source_client ← optional_text "source_client" d;
  source_session_id ← optional_text "source_session_id" d;
  planned_filters (mk_planned source date_from date_to tags thread_id handoff_only source_client source_session_id).

Definition _bounded_string_tuple (v : value) (allowed : option (list string)) (maximum : Z) : result (option (list string)) :=
  match v with
  | VNone => Ok None
  | VList l =>
      let normalized := stripped_terms (map py_str l) in
      _ ← guard_err ((maximum <? Z.of_nat (length normalized)) || existsb (λ t, 256 <? str_len t) normalized)
            (ValueError "planner output exceeds limits");
      _ ← guard_err (match allowed with Some a => negb (forallb (λ t, existsb (String.eqb t) a) normalized) | None => false end)
            (ValueError "planner output contains an unsupported field");
      Ok (Some normalized)
  | _ => Raise (ValueError "value must be a sequence of strings")
  end.
(** the member of an enumeration with a value *)
Definition optional_member {A} (value_of : A → string) (members : list A) (v : value) : result (option A) :=
  match v with
  | VNone => Ok None
  | VStr s => m ← from_option_err (ValueError "validation error") (List.find (λ m, String.eqb (value_of m) s) members); Ok (Some m)
  | _ => invalid
  end.
Record _PlannerProposal := mk_proposal {
  pr_semantic_query : option string; pr_filters : option PlannedConversationFilters; pr_intent : option RetrievalIntent;
  pr_exact_terms : option (list string); pr_preferred_fields : option (list string);
  pr_temporal_preference : option TemporalPreference }.
Definition _validate_semantic_query (v : option string) : result (option string) :=
  match v with
  | None => Ok None
  | Some s => if String.eqb (strip s) "" || (4096 <? str_len (strip s))
              then Raise (ValueError "semantic_query must be non-empty and bounded") else Ok (Some (strip s))
  end.
(** [_PlannerProposal.model_validate] *)
Definition planner_proposal (d : dict) : result _PlannerProposal :=
  filters ← match vget "filters" d with VNone => Ok None | VDict f => p ← proposed_filters f; Ok (Some p) | _ => invalid end;
  _ ← only_keys ["semantic_query"; "filters"; "intent"; "exact_terms"; "preferred_fields"; "temporal_preference"] d;
  text ← optional_text "semantic_query" d;
  semantic_query ← _validate_semantic_query text;
  intent ← optional_member intent_value [MEMORY; FACT; TIMELINE; HANDOFF] (vget "intent" d);
  exact_terms ← _bounded_string_tuple (vget "exact_terms" d) None 20;
  preferred_fields ← _bounded_string_tuple (vget "preferred_fields" d)
    (Some ["text"; "title"; "source"; "tags"; "thread_id"; "timestamp"; "handoff"]) 7;
  temporal ← optional_member temporal_value [LATEST; HISTORICAL; ANY] (vget "temporal_preference" d);
  Ok (mk_proposal semantic_query filters intent exact_terms preferred_fields temporal).

(** [a if a is not None else b] *)
Definition over {A} (a b : option A) : option A := match a with Some _ => a | None => b end.
(** The filters read from the text win over those proposed. *)
Definition overlay (base proposed : PlannedConversationFilters) : PlannedConversationFilters :=
  mk_planned (over (p_source base) (p_source proposed)) (over (p_date_from base) (p_date_from proposed))
    (over (p_date_to base) (p_date_to proposed)) (dedup (p_tags base ++ p_tags proposed))
    (over (p_thread_id base) (p_thread_id proposed)) (p_handoff_only base || p_handoff_only proposed)
    (over (p_source_client base) (p_source_client proposed)) (over (p_source_session_id base) (p_source_session_id proposed)).
Definition _apply_proposal (base : RetrievalQueryPlan) (proposal : _PlannerProposal) : result RetrievalQueryPlan :=
  f ← planned_filters (match pr_filters proposal with Some proposed => overlay (filters base) proposed | None => filters base end);
  Ok (mk_plan (original_query base) (default (semantic_query base) (pr_semantic_query proposal)) f
        (default (intent base) (pr_intent proposal)) (default (exact_terms base) (pr_exact_terms proposal))
        (default (preferred_fields base) (pr_preferred_fields proposal))
        (default (temporal_preference base) (pr_temporal_preference proposal)) "model_assisted").

(** What a planner answers within its time: nothing, an exception, something
    that is no mapping, [None], or a mapping. *)
Inductive planner_answer := PlannerLate | PlannerRaised | PlannerOther | PlannerNothing | PlannerMapping (d : dict).
Definition QueryPlanner : Type := string → RetrievalQueryPlan → planner_answer.
Definition _call_planner (planner : QueryPlanner) (query : string) (deterministic_plan : RetrievalQueryPlan)
    (timeout_seconds : float) : result (option dict) :=
  if fle timeout_seconds fzero then Raise (ValueError "planner_timeout_seconds must be positive") else
  match planner query deterministic_plan with
  | PlannerLate => Raise (RuntimeError "query planner timed out")
  | PlannerRaised => Raise (ValueError "query planner failed")
  | PlannerOther => Raise (TypeError "query planner must return a mapping or None")
  | PlannerNothing => Ok None
  | PlannerMapping d => Ok (Some d)
  end.
(** [except (TimeoutError, TypeError, ValueError, ValidationError)]; the
    [RuntimeError] of the model stands for the [TimeoutError]. *)
Definition planner_failure (e : exc) : bool :=
  match e with RuntimeError _ | TypeError _ | ValueError _ => true | _ => false end.
Definition assisted (deterministic : RetrievalQueryPlan) (planner : option QueryPlanner) (timeout_seconds : float)
    : result (RetrievalQueryPlan * bool) :=
  match planner with
  | None => Ok (deterministic, false)
  | Some p =>
      match (raw ← (_call_planner p (original_query deterministic) deterministic timeout_seconds : result (option dict));
             match raw with
             | None => Ok deterministic
             | Some d => proposal ← planner_proposal d; _apply_proposal deterministic proposal
             end) with
      | Ok plan => Ok (plan, false)
      | Raise e => if planner_failure e then Ok (deterministic, true) else Raise e
      end
  end.

(** ** Filters of the caller *)

(** [v is not None and str(v).strip()] *)
Definition given_text (v : option string) : option string :=
  match v with Some s => if String.eqb (strip s) "" then None else v | None => None end.
Definition _merge_explicit_filters (planned explicit : PlannedConversationFilters) : result PlannedConversationFilters :=
  planned_filters (mk_planned (over (given_text (p_source explicit)) (p_source planned))
    (over (given_text (p_date_from explicit)) (p_date_from planned)) (over (given_text (p_date_to explicit)) (p_date_to planned))
    (match p_tags explicit with
     | [] => p_tags planned
     | tags => dedup (p_tags planned ++ List.filter (λ t, negb (String.eqb t "")) tags) end)
    (over (given_text (p_thread_id explicit)) (p_thread_id planned)) (p_handoff_only explicit || p_handoff_only planned)
    (over (given_text (p_source_client explicit)) (p_source_client planned))
    (over (given_text (p_source_session_id explicit)) (p_source_session_id planned))).

(** [now] is the reference time in microseconds; the filters of the caller are
    those of [explicit_filters], absent ones [None]. *)
Definition plan_retrieval_query (query : string) (explicit_filters : PlannedConversationFilters) (planner : option QueryPlanner)
    (planner_timeout_seconds : float) (now : Z) : result RetrievalQueryPlan :=
  let original := strip query in
  if String.eqb original "" then Raise (ValueError "query must be a non-empty string") else
  deterministic ← _deterministic_plan original now;
  '(plan, model_failed) ← assisted deterministic planner planner_timeout_seconds;
  merged ← _merge_explicit_filters (filters plan) explicit_filters;
  Ok (mk_plan (original_query plan) (semantic_query plan) merged (intent plan) (exact_terms plan) (preferred_fields plan)
        (temporal_preference plan) (if (model_failed : bool) then "model_fallback" else planning_mode plan)).
(** [plan.diagnostics()] *)
Definition plan_diagnostics (p : RetrievalQueryPlan) : dict :=
  let f := filters p in
  [("original_query", VStr (original_query p)); ("semantic_query", VStr (semantic_query p));
   ("filters", VDict [("source", opt_str (p_source f)); ("date_from", opt_str (p_date_from f)); ("date_to", opt_str (p_date_to f));
      ("tags", VList (map VStr (p_tags f))); ("thread_id", opt_str (p_thread_id f)); ("handoff_only", VBool (p_handoff_only f));
      ("source_client", opt_str (p_source_client f)); ("source_session_id", opt_str (p_source_session_id f))]);
   ("intent", VStr (intent_value (intent p))); ("exact_terms", VList (map VStr (exact_terms p)));
   ("preferred_fields", VList (map VStr (preferred_fields p))); ("temporal_preference", VStr (temporal_value (temporal_preference p)));
   ("planning_mode", VStr (planning_mode p))].
