(* ===== verification/QueryPlanFacts.v ===== *)
(** * Facts about query planning

    The filters of the caller win over those read from the text, and these over
    those a planner proposes; a planner that fails changes nothing; every filter
    of a plan is bounded. *)
From Stdlib Require Import ZArith Lia Ascii.
From S2P Require Import Prelude PyStr Json Clock PyFloat Regex Scope QueryPlan.
Local Open Scope Z_scope.

(** ** Validated filters *)

(** A text that a validator returns. *)
Definition bounded_text (o : option string) : Prop :=
  match o with Some s => strip s = s ∧ s ≠ "" ∧ str_len s <= 256 | None => True end.
Definition bounded_tags (tags : list string) : Prop :=
  NoDup tags ∧ Z.of_nat (length tags) <= 20 ∧ Forall (λ t, strip t = t ∧ t ≠ "" ∧ str_len t <= 128) tags.
Definition bounded_filters (f : PlannedConversationFilters) : Prop :=
  bounded_text (p_source f) ∧ bounded_text (p_thread_id f) ∧ bounded_text (p_source_client f)
  ∧ bounded_text (p_source_session_id f) ∧ bounded_tags (p_tags f).

Lemma optional_text_spec v w : _validate_optional_text v = Ok w → w = strip <$> v ∧ bounded_text w.
Proof.
  destruct v as [s|]; cbn; [|intros [= <-]; done]. cbv zeta. destruct (String.eqb (strip s) "" || _) eqn:E; [done|].
  intros [= <-]. apply orb_false_iff in E as [He%String.eqb_neq Hl%Z.ltb_ge]. split; [done|]. cbn. by rewrite strip_idem.
Qed.
Lemma optional_text_same v w : bounded_text v → _validate_optional_text v = Ok w → w = v.
Proof. intros Hv [-> _]%optional_text_spec. destruct v as [s|]; [|done]. destruct Hv as [Hs _]. cbn. by rewrite Hs. Qed.
Lemma elem_of_stripped t l : t ∈ stripped_terms l ↔ t ≠ "" ∧ ∃ s, s ∈ l ∧ t = strip s.
Proof.
  unfold stripped_terms. rewrite elem_of_dedup, elem_of_filter_b, elem_of_map, negb_true_iff, String.eqb_neq. naive_solver.
Qed.
Lemma tags_spec l w : _validate_tags l = Ok w → w = stripped_terms l ∧ bounded_tags w.
Proof.
  unfold _validate_tags. cbv zeta. destruct (_ || _) eqn:E; [done|]. intros [= <-]. split; [done|].
  apply orb_false_iff in E as [Hl%Z.ltb_ge Ht]. split; [apply NoDup_dedup|]. split; [done|]. apply Forall_forall. intros t Hin.
  apply elem_of_stripped in Hin as Hs. destruct Hs as (Hne & s & _ & ->). rewrite strip_idem. split; [done|]. split; [done|].
  pose proof (existsb_false_elem _ _ _ Ht Hin) as Hf. by apply Z.ltb_ge in Hf.
Qed.
Lemma planned_filters_spec f g : planned_filters f = Ok g →
  _validate_datetime (p_date_from f) = Ok (p_date_from g) ∧ _validate_datetime (p_date_to f) = Ok (p_date_to g) ∧
  _validate_optional_text (p_source f) = Ok (p_source g) ∧ _validate_optional_text (p_thread_id f) = Ok (p_thread_id g) ∧
  _validate_optional_text (p_source_client f) = Ok (p_source_client g) ∧
  _validate_optional_text (p_source_session_id f) = Ok (p_source_session_id g) ∧
  _validate_tags (p_tags f) = Ok (p_tags g) ∧ p_handoff_only g = p_handoff_only f.
Proof.
  unfold planned_filters. intros Hr. apply bind_Ok in Hr as ([a b] & Hd & Hr).
  assert (_validate_datetime (p_date_from f) = Ok a ∧ _validate_datetime (p_date_to f) = Ok b) as [Ha Hb].
  { unfold collect in Hd. destruct (_validate_datetime (p_date_from f)) as [|[]], (_validate_datetime (p_date_to f)) as [|[]]; try discriminate Hd; by injection Hd as -> ->. }
  do 5 (apply bind_Ok in Hr as (? & ? & Hr)). injection Hr as <-. by rewrite Ha, Hb.
Qed.
Lemma planned_filters_bounded f g : planned_filters f = Ok g → bounded_filters g.
Proof.
  intros (_ & _ & [_ H1]%optional_text_spec & [_ H2]%optional_text_spec & [_ H3]%optional_text_spec & [_ H4]%optional_text_spec & [_ H5]%tags_spec & _)%planned_filters_spec.
  done.
Qed.

(** ** Plans *)

Lemma deterministic_run q now det : _deterministic_plan q now = Ok det → bounded_filters (filters det) ∧ original_query det = q.
Proof.
  unfold _deterministic_plan. intros Hr. apply bind_Ok in Hr as ([s w] & _ & Hr). apply bind_Ok in Hr as ([[f t] w'] & _ & Hr).
  cbv zeta in Hr. destruct (match re_search _THREAD_PATTERN _ with Some _ => _ | None => _ end) as [th w''].
  apply bind_Ok in Hr as (g & Hg & Hr). injection Hr as <-. split; [|done]. by eapply planned_filters_bounded.
Qed.
(** A value read from the text stays, whatever a planner proposes. *)
Definition kept (base final : option string) : Prop := ∀ v, base = Some v → final = Some v.
Definition keeps_filters (base final : PlannedConversationFilters) : Prop :=
  kept (p_source base) (p_source final) ∧ kept (p_thread_id base) (p_thread_id final) ∧
  kept (p_source_client base) (p_source_client final) ∧ kept (p_source_session_id base) (p_source_session_id final) ∧
  (∀ t, t ∈ p_tags base → t ∈ p_tags final) ∧ (p_handoff_only base = true → p_handoff_only final = true).
Lemma kept_over base proposed w : bounded_text base → _validate_optional_text (over base proposed) = Ok w → kept base w.
Proof. intros Hb Hv v ->. cbn [over] in Hv. by apply optional_text_same in Hv. Qed.
Lemma kept_tags base l w t : bounded_tags base → t ∈ base → t ∈ l → _validate_tags l = Ok w → t ∈ w.
Proof.
  intros (_ & _ & Hb) Ht Hl [-> _]%tags_spec. rewrite Forall_forall in Hb. apply Hb in Ht as (Hs & Hne & _).
  apply elem_of_stripped. split; [done|]. by exists t.
Qed.
Lemma proposal_keeps base p plan : bounded_filters (filters base) → _apply_proposal base p = Ok plan →
  keeps_filters (filters base) (filters plan) ∧ bounded_filters (filters plan) ∧ original_query plan = original_query base.
Proof.
  intros (Hs & Ht & Hc & Hi & Htags) Hr. apply bind_Ok in Hr as (g & Hg & Hr). injection Hr as <-. cbn [filters original_query].
  split; [|split; [by eapply planned_filters_bounded|done]]. apply planned_filters_spec in Hg as (_ & _ & H1 & H2 & H3 & H4 & H5 & H6).
  destruct (pr_filters p) as [proposed|]; cbn in *.
  - do 4 (split; [by eapply kept_over|]). split.
    + intros t Hin. apply (kept_tags (p_tags (filters base)) _ _ t Htags Hin) in H5; [done|]. apply elem_of_dedup. set_solver.
    + intros Hh. by rewrite H6, Hh.
  - apply optional_text_same in H1, H2, H3, H4; [|done..]. unfold keeps_filters; rewrite H1, H2, H3, H4, H6. do 4 (split; [by intros v|]). split; [|done].
    intros t Hin. by apply (kept_tags (p_tags (filters base)) _ _ t Htags Hin) in H5.
Qed.
Lemma keeps_filters_refl f : keeps_filters f f.
Proof. do 4 (split; [by intros v|]). done. Qed.
Lemma assisted_keeps det planner timeout plan failed : bounded_filters (filters det) → assisted det planner timeout = Ok (plan, failed) →
  keeps_filters (filters det) (filters plan) ∧ bounded_filters (filters plan) ∧ original_query plan = original_query det.
Proof.
  intros Hb Hr. assert (Hsame : keeps_filters (filters det) (filters det) ∧ bounded_filters (filters det) ∧ original_query det = original_query det)
    by (split; [apply keeps_filters_refl|done]).
  destruct planner as [p|]; cbn [assisted] in Hr; [|by simplify_eq].
  destruct (_ ≫= _) as [pl|e] eqn:E; [|destruct (planner_failure e); by simplify_eq]. injection Hr as <- <-.
  apply bind_Ok in E as ([d|] & _ & E); [|by simplify_eq]. apply bind_Ok in E as (prop & _ & E). by apply (proposal_keeps _ prop).
Qed.
Lemma merge_run planned explicit g : _merge_explicit_filters planned explicit = Ok g → bounded_filters planned →
  (∀ get, get = p_source ∨ get = p_thread_id ∨ get = p_source_client ∨ get = p_source_session_id →
     match given_text (get explicit) with Some v => get g = Some (strip v) | None => get g = get planned end) ∧
  (∀ get, get = p_date_from ∨ get = p_date_to → ∀ v, given_text (get explicit) = Some v → _validate_datetime (Some v) = Ok (get g)) ∧
  (∀ t, t ∈ p_tags planned ∨ (∃ s, s ∈ p_tags explicit ∧ t = strip s ∧ t ≠ "") → t ∈ p_tags g) ∧
  p_handoff_only g = p_handoff_only explicit || p_handoff_only planned.
Proof.
  intros (Hf & Ht & H1 & H2 & H3 & H4 & H5 & H6)%planned_filters_spec (B1 & B2 & B3 & B4 & B5). cbn in *.
  assert (Hmerge : ∀ e p w, bounded_text p → _validate_optional_text (over (given_text e) p) = Ok w →
    match given_text e with Some v => w = Some (strip v) | None => w = p end).
  { intros e p w Hp Hv. destruct (given_text e); cbn [over] in Hv; [by apply optional_text_spec in Hv as [-> _]|by apply optional_text_same in Hv]. }
  split; [intros get [-> |[-> |[-> | ->]]]; by apply Hmerge|].
  split; [intros get [-> | ->] v Hv; rewrite Hv in *; done|]. split; [|done].
  apply tags_spec in H5 as [-> _]. destruct B5 as (_ & _ & B5). rewrite Forall_forall in B5. intros t Hin. apply elem_of_stripped.
  destruct Hin as [Hin|(s & Hs & -> & Hne)].
  - destruct (B5 _ Hin) as (Hs & Hne & _). split; [done|]. exists t. split; [|done]. destruct (p_tags explicit); [done|].
    apply elem_of_dedup. set_solver.
  - split; [done|]. exists s. split; [|done]. destruct (p_tags explicit) as [|a l]; [by apply elem_of_nil in Hs|].
    assert (Hin : s ∈ List.filter (λ t, negb (String.eqb t "")) (a :: l)).
    { apply elem_of_filter_b. split; [done|]. apply negb_true_iff, String.eqb_neq. by intros ->. }
    apply elem_of_dedup, elem_of_app. right. exact Hin.
Qed.

Lemma plan_run q explicit planner timeout now plan : plan_retrieval_query q explicit planner timeout now = Ok plan →
  ∃ det assisted_plan failed merged, _deterministic_plan (strip q) now = Ok det ∧
  assisted det planner timeout = Ok (assisted_plan, failed) ∧ _merge_explicit_filters (filters assisted_plan) explicit = Ok merged ∧
  plan = mk_plan (original_query assisted_plan) (semantic_query assisted_plan) merged (intent assisted_plan) (exact_terms assisted_plan)
           (preferred_fields assisted_plan) (temporal_preference assisted_plan)
           (if failed then "model_fallback" else planning_mode assisted_plan).
Proof.
  unfold plan_retrieval_query. cbv zeta. destruct (String.eqb (strip q) ""); [done|]. intros Hr.
  apply bind_Ok in Hr as (det & Hd & Hr). apply bind_Ok in Hr as ([a f] & Ha & Hr). apply bind_Ok in Hr as (m & Hm & Hr).
  injection Hr as <-. by exists det, a, f, m.
Qed.

(** What wins for a text filter: the caller's value, then the one of the text. *)
Definition wins (explicit text final : option string) : Prop :=
  match given_text explicit with Some v => final = Some (strip v) | None => kept text final end.

(** Whatever a planner proposes, a filter the caller gives is the filter of the
    plan, a filter read from the text stays unless the caller gives another, tags
    are only added, a requested restriction to handoffs stays, and the query the
    plan records is the one that was asked. *)
Theorem filter_precedence q explicit planner timeout now plan : plan_retrieval_query q explicit planner timeout now = Ok plan →
  ∃ det, _deterministic_plan (strip q) now = Ok det ∧
  original_query plan = strip q ∧
  (∀ get, get = p_source ∨ get = p_thread_id ∨ get = p_source_client ∨ get = p_source_session_id →
     wins (get explicit) (get (filters det)) (get (filters plan))) ∧
  (∀ get, get = p_date_from ∨ get = p_date_to → ∀ v, given_text (get explicit) = Some v →
     _validate_datetime (Some v) = Ok (get (filters plan))) ∧
  (∀ t, t ∈ p_tags (filters det) ∨ (∃ s, s ∈ p_tags explicit ∧ t = strip s ∧ t ≠ "") → t ∈ p_tags (filters plan)) ∧
  (p_handoff_only explicit || p_handoff_only (filters det) = true → p_handoff_only (filters plan) = true).
Proof.
  intros (det & a & failed & merged & Hd & Ha & Hm & ->)%plan_run. exists det. split; [done|].
  destruct (deterministic_run _ _ _ Hd) as [Hb Hq].
  apply assisted_keeps in Ha as ((K1 & K2 & K3 & K4 & K5 & K6) & Hba & Hqa); [|done]. cbn [original_query filters].
  destruct (merge_run _ _ _ Hm Hba) as (M1 & M2 & M3 & M4). split; [congruence|]. split; [|split; [done|split]].
  - intros get Hget. unfold wins. specialize (M1 get Hget). destruct (given_text (get explicit)); [done|]. rewrite M1.
    by destruct Hget as [-> |[-> |[-> | ->]]].
  - intros t [Hin|Hin]; apply M3; [left; by apply K5|by right].
  - intros Hh. rewrite M4. apply orb_true_iff in Hh as [-> |Hh]; [done|]. by rewrite (K6 Hh), orb_true_r.
Qed.

(** Every filter of a plan is bounded: the texts are stripped, not blank and at
    most 256 characters, and there are at most 20 tags, no two equal, stripped,
    not blank and at most 128 characters. *)
Theorem planned_filters_are_bounded q explicit planner timeout now plan :
  plan_retrieval_query q explicit planner timeout now = Ok plan → bounded_filters (filters plan).
Proof. intros (det & a & failed & merged & _ & _ & Hm & ->)%plan_run. by apply planned_filters_bounded in Hm. Qed.

(** An answer that gives no plan: nothing in time, an exception, no mapping, or
    a mapping that the proposal model refuses. *)
Definition refused_answer (answer : planner_answer) : Prop :=
  match answer with
  | PlannerNothing => False
  | PlannerMapping d => ∃ m, planner_proposal d = Raise (ValueError m)
  | _ => True
  end.
(** A planner that fails, answers late or proposes anything its model refuses
    changes nothing: the plan is the one without a planner, but for the mode it
    reports. *)
Theorem refused_planner_ignored q explicit p timeout timeout' now :
  (∀ query det, refused_answer (p query det)) →
  match plan_retrieval_query q explicit None timeout' now with
  | Ok plan => plan_retrieval_query q explicit (Some p) timeout now =
      Ok (mk_plan (original_query plan) (semantic_query plan) (filters plan) (intent plan) (exact_terms plan) (preferred_fields plan)
            (temporal_preference plan) "model_fallback")
  | Raise e => plan_retrieval_query q explicit (Some p) timeout now = Raise e
  end.
Proof.
  intros Hp. unfold plan_retrieval_query. cbv zeta. destruct (String.eqb (strip q) ""); [done|].
  destruct (_deterministic_plan (strip q) now) as [det|e]; [|done]. cbn [mbind result_bind].
  assert (Ha : assisted det (Some p) timeout = Ok (det, true)).
  { cbn [assisted]. unfold _call_planner. destruct (fle timeout fzero); [done|]. specialize (Hp (original_query det) det).
    destruct (p _ _) as [| | | |d]; try done. destruct Hp as [m Hm]. cbn [mbind result_bind]. by rewrite Hm. }
  rewrite Ha. cbn [assisted mbind result_bind]. destruct (_merge_explicit_filters (filters det) explicit); reflexivity.
Qed.

(** ** Where the patterns read too much *)

(** A query that names Claude Code with an unusual gap between the two words
    cannot be planned at all: the alias is looked up after one replacement of
    double blanks, and the lookup raises whatever the caller and the planner
    say. *)
Theorem unusual_gap_raises explicit planner timeout now :
  plan_retrieval_query "from my claude   code sessions" explicit planner timeout now = Raise (KeyError "claude  code").
Proof. reflexivity. Qed.

(** The word [threads] is read as the thread [s]. *)
Example plural_is_a_thread : option_map (λ p, p_thread_id (filters p))
  (match plan_retrieval_query "find the threads about docker" no_filters None fzero 0 with Ok p => Some p | Raise _ => None end)
  = Some (Some "s").
Proof. vm_compute. reflexivity. Qed.
(** The place of the second date is the one before the first was removed. *)
Example second_date_left : option_map semantic_query
  (match plan_retrieval_query "docker notes since 2024-01-01 before 2024-06-01" no_filters None fzero 0 with Ok p => Some p | Raise _ => None end)
  = Some "docker notes before 2024-06".
Proof. vm_compute. reflexivity. Qed.
(** The word after a range is taken for a time of day. *)
Example word_after_range : option_map semantic_query
  (match plan_retrieval_query "from 2024-01-01 to 2024-02-01 docker logs" no_filters None fzero 0 with Ok p => Some p | Raise _ => None end)
  = Some "logs".
Proof. vm_compute. reflexivity. Qed.

Module PlanSamples.
Definition explicit : PlannedConversationFilters := mk_planned (Some " chatgpt ") None None ["a"] None false None None.
(** a planner that asks for another source and another thread *)
Definition eager : QueryPlanner := λ _ _, PlannerMapping
  [("semantic_query", VStr "logs"); ("filters", VDict [("source", VStr "codex"); ("thread_id", VStr "t2"); ("source_client", VStr "cli")])].
Definition bad : QueryPlanner := λ _ _, PlannerMapping [("owner_id", VStr "mallory")].
Notation planned p := (plan_retrieval_query "logs in thread t1 #ops" explicit p (decimal 5 1) 0).
Example precedence : option_map (λ plan, let f := filters plan in (p_source f, p_thread_id f, p_source_client f, p_tags f))
  (match planned (Some eager) with Ok p => Some p | Raise _ => None end)
  = Some (Some "chatgpt", Some "t1", Some "cli", ["ops"; "a"]).
Proof. vm_compute. reflexivity. Qed.
Lemma filter_precedence_witness : ∃ plan, planned (Some eager) = Ok plan ∧ original_query plan = "logs in thread t1 #ops".
Proof.
  destruct (planned (Some eager)) as [plan|e] eqn:E; [|vm_compute in E; discriminate]. exists plan. split; [reflexivity|].
  destruct (filter_precedence _ _ _ _ _ plan E) as (det & _ & H & _). exact H.
Defined.
Lemma planned_filters_are_bounded_witness : ∃ plan, planned (Some eager) = Ok plan ∧ bounded_filters (filters plan).
Proof.
  destruct (planned (Some eager)) as [plan|e] eqn:E; [|vm_compute in E; discriminate]. exists plan. split; [reflexivity|].
  exact (planned_filters_are_bounded _ _ _ _ _ plan E).
Defined.
Definition is_ok {A} (r : result A) : bool := match r with Ok _ => true | Raise _ => false end.
Lemma fallback_mode (r r' : result RetrievalQueryPlan) :
  match r with
  | Ok plan => r' = Ok (mk_plan (original_query plan) (semantic_query plan) (filters plan) (intent plan) (exact_terms plan)
                 (preferred_fields plan) (temporal_preference plan) "model_fallback")
  | Raise e => r' = Raise e
  end → is_ok r = true → ∃ plan, r' = Ok plan ∧ planning_mode plan = "model_fallback".
Proof. destruct r as [plan|e]; [|done]. intros -> _. eexists. split; reflexivity. Qed.
Lemma refused_planner_ignored_witness : ∃ plan, planned (Some bad) = Ok plan ∧ planning_mode plan = "model_fallback".
Proof.
  pose proof (refused_planner_ignored "logs in thread t1 #ops" explicit bad (decimal 5 1) (decimal 5 1) 0
    (λ _ _, ex_intro _ _ eq_refl)) as H.
  assert (Hok : is_ok (planned None) = true) by (vm_compute; reflexivity).
  exact (fallback_mode (planned None) (planned (Some bad)) H Hok).
Defined.
End PlanSamples.
