(* ===== verification/Ranking.v ===== *)
(** * Ranking of retrieval candidates ([memory/ingestion/retrieval_ranking.py],
    [memory/advanced_memory.py], [memory/backend/log_safety.py])

    The redaction of secrets, whose patterns are written as in the source except
    that a group the template refers to by number is named by that number; the
    boost a conversation gets for being pinned, important, recent or often read
    (a value that pydantic would have to parse from another type is outside the
    model); reciprocal rank fusion of the candidate lists, the priority of exact
    matches, and an optional external reranker.  The rows of the code are
    dictionaries that only [search] builds; here they are records, and the fields
    a ranking adds are those of [fused_row] and [ranked_row]. *)
From Stdlib Require Import ZArith Ascii Lia.
From S2P Require Import Prelude PyStr Json PyFloat Clock Regex Scope FactValidation QueryPlan.

(** * Redaction of secrets *)

Definition _URI_CREDENTIALS : pattern := re_compile_i "(?P<1>[a-z][a-z0-9+.-]*://[^:\s/@]*:)(?P<2>[^@\s/]+)(?P<3>@)".
Definition quote_class : string := "['" +:+ char_str dquote +:+ "]?".
Definition _KV_SECRETS : pattern := re_compile_i ("(?P<1>" +:+ quote_class
  +:+ "\b(?:password|pwd|token|api_key|apikey|api-key|openai_api_key|ollama_api_key|dsn|secret)\b"
  +:+ quote_class +:+ "\s*[:=]\s*)(?P<2>[^\s;,}]+)").
Definition _AUTHORIZATION_BEARER : pattern := re_compile_i "\b(?P<1>authorization\s*[:=]\s*bearer\s+)(?P<2>[^\s,;]+)".
Definition _QUERY_TOKENS : pattern := re_compile_i "(?P<1>[?&](?:access_token|token)=)(?P<2>[^&#\s]+)".
Definition _OPENAI_KEYS : pattern := re_compile "\bsk-(?:proj-)?[A-Za-z0-9_-]{10,}\b".

(** [pattern.sub(template, s)] with a template that refers to groups *)
Fixpoint sub_with_from (template : re_match → string) (s : string) (last : nat) (ms : list re_match) : string :=
  match ms with
  | [] => sdrop last s
  | m :: ms' => slice last (m_start m) s +:+ template m +:+ sub_with_from template s (m_end m) ms'
  end.
Definition re_sub_with (p : pattern) (template : string → re_match → string) (s : string) : string :=
  sub_with_from (template s) s 0 (re_finditer p s).

Definition redact_secrets (text : string) : string :=
  let redacted := re_sub_with _URI_CREDENTIALS (λ s m, group "1" s m +:+ "***" +:+ group "3" s m) text in
  let redacted := re_sub_with _KV_SECRETS (λ s m, group "1" s m +:+ "***") redacted in
  let redacted := re_sub_with _AUTHORIZATION_BEARER (λ s m, group "1" s m +:+ "***") redacted in
  let redacted := re_sub_with _QUERY_TOKENS (λ s m, group "1" s m +:+ "***") redacted in
  re_sub _OPENAI_KEYS "sk-***" redacted.

Example redact_url : redact_secrets "see postgres://hub:hunter2@db/x" = "see postgres://hub:***@db/x".
Proof. vm_compute. reflexivity. Qed.
Example redact_pair : redact_secrets "password = hunter2; token: abc" = "password = ***; token: ***".
Proof. vm_compute. reflexivity. Qed.
Example redact_header : redact_secrets "Authorization: Bearer abc.def, next" = "Authorization: Bearer ***, next".
Proof. vm_compute. reflexivity. Qed.
Example redact_key : redact_secrets "key sk-proj-0123456789abc." = "key sk-***.".
Proof. vm_compute. reflexivity. Qed.
Local Open Scope Z_scope.

(** * Relevance signals of a memory *)

Record MemoryScoringSignals := mk_signals {
  pinned : bool; importance : float; access_count : Z; confidence : float; updated_at : option string; contradicted : bool }.
Record MemoryScoringWeights := mk_weights {
  recency_weight : float; importance_weight : float; pin_weight : float; access_weight : float }.
(** The [signals] of a boost: [updated_at] is read as a recency, [access_count]
    as a share of twenty. *)
Record scoring_explanation := mk_explanation {
  x_pinned : bool; x_importance : float; x_recency : float; x_access : float; x_confidence : float; x_contradicted : bool }.

Definition fone : float := float_near 1.
(** a field between zero and one *)
Definition unit_float (k : string) (dflt : float) (d : dict) : result float :=
  f ← match dict_get k d with
      | None => Ok dflt
      | Some (VInt z) => float_of_int z
      | Some (VFloat t) => float_of_text t
      | Some (VNone | VList _ | VDict _) => invalid
      | Some (VBool _ | VStr _) => Raise OutsideModel
      end;
  if fle fzero f && fle f fone then Ok f else invalid.
Definition bool_field (k : string) (d : dict) : result bool :=
  match dict_get k d with None => Ok false | Some v => lax_bool v end.
(** [MemoryScoringSignals.model_validate] *)
Definition scoring_signals (raw : dict) : result MemoryScoringSignals :=
  _ ← only_keys ["pinned"; "importance"; "access_count"; "confidence"; "updated_at"; "contradicted"] raw;
  pinned ← bool_field "pinned" raw;
  importance ← unit_float "importance" fzero raw;
  access_count ← match dict_get "access_count" raw with
    | None => Ok 0
    | Some (VInt z) => if z <? 0 then invalid else Ok z
    | Some (VNone | VList _ | VDict _) => invalid
    | Some _ => Raise OutsideModel
    end;
  confidence ← unit_float "confidence" (decimal 5 1) raw;
  updated_at ← optional_text "updated_at" raw;
  contradicted ← bool_field "contradicted" raw;
  Ok (mk_signals pinned importance access_count confidence updated_at contradicted).

(** [now] is in microseconds. *)
Definition _recency_score (v : option string) (now : Z) : result float :=
  match v with
  | None => Ok fzero
  | Some text =>
      if String.eqb text "" then Ok fzero else
      match fromisoformat (replace "Z" "+00:00" text) with
      | Raise (ValueError _) => Ok fzero
      | Raise e => Raise e
      | Ok parsed =>
          u ← _aware_utc parsed;
          let age_days := Z.max ((now - u) / day_us) 0 in
          Ok (fmax fzero (fsub fone (fdiv (float_near (Z.min age_days 365)) (float_near 365))))
      end
  end.
Definition advanced_relevance_boost (signals : MemoryScoringSignals) (weights : MemoryScoringWeights) (now : Z)
    : result (float * scoring_explanation) :=
  recency ← _recency_score (updated_at signals) now;
  let access := fdiv (float_near (Z.min (access_count signals) 20)) (float_near 20) in
  let contradiction_penalty := if contradicted signals then decimal 15 2 else fzero in
  let boost :=
    fsub (fadd (fadd (fadd (fadd (if pinned signals then pin_weight weights else fzero)
                                 (fmul (importance signals) (importance_weight weights)))
                           (fmul recency (recency_weight weights)))
                     (fmul access (access_weight weights)))
               (fmul (confidence signals) (decimal 3 2))) contradiction_penalty in
  Ok (fmax (decimal (-2) 1) (fmin (decimal 6 1) boost),
      mk_explanation (pinned signals) (importance signals) recency access (confidence signals) (contradicted signals)).

(** A pinned memory of the default weights gets 0.3 + 0.5 * 0.03. *)
Example pinned_boost : fst <$> advanced_relevance_boost (mk_signals true fzero 0 (decimal 5 1) None false)
  (mk_weights (decimal 5 2) (decimal 15 2) (decimal 3 1) (decimal 5 2)) 0 = Ok (decimal 315 3).
Proof. vm_compute. reflexivity. Qed.

(** Whatever the signals and the weights, a boost stays between -0.2 and 0.6. *)
Lemma boost_bounded signals weights now b x : advanced_relevance_boost signals weights now = Ok (b, x) →
  flt b (decimal (-2) 1) = false ∧ (flt (decimal 6 1) b = false).
Proof.
  unfold advanced_relevance_boost. intros Hr. apply bind_Ok in Hr as (recency & _ & Hr). cbv zeta in Hr. injection Hr as <- _.
  apply clamped. vm_compute. reflexivity.
Qed.

(** * Ranking of retrieval candidates *)

(** A candidate; [c_marks] holds the keys that only some sources add,
    [c_explanation] the signals of its [ranking_explanation]. *)
Record candidate := mk_candidate {
  c_id : string; c_score : float; c_chunk_index : Z; c_role : string; c_text : string;
  c_conversation : value; c_marks : dict; c_explanation : option scoring_explanation;
}.
Record RerankCandidate := mk_rerank_candidate {
  rc_key : string; rc_memory_id : string; rc_chunk_index : Z; rc_role : string; rc_text : string;
  rc_source : string; rc_timestamp : string; rc_tags : list string;
}.

Definition _candidate_key (row : candidate) : string :=
  if String.eqb (c_id row) "" then "" else c_id row +:+ ":" +:+ str_of_Z (c_chunk_index row).
Definition _stable_row_key (row : candidate) : list key_item :=
  [KStr (c_id row); KInt (c_chunk_index row); KStr (c_text row)].

(** the tokens of a text, from two characters *)
Definition _tokens (v : string) : list string :=
  map casefold (List.filter (λ t, 2 <=? str_len t) (re_findall token_re v)).
Definition mem (t : string) (l : list string) : bool := existsb (String.eqb t) l.

(** ** External rerankers *)

(** What a reranker answers within its time: nothing, an exception, something
    that is no mapping, or scores, each a boolean or what [float] makes of it. *)
Inductive score := ScoreBool | ScoreOf (conversion : result float).
Inductive reranker_answer :=
| NoAnswer | Raised | NotAMapping
| Scores (raw : list (string * score)).
Definition SemanticReranker : Type := string → list RerankCandidate → reranker_answer.

(** [TokenOverlapReranker.rerank]; the tokens of a query are a set. *)
Definition token_overlap_rerank (query : string) (candidates : list RerankCandidate) : list (string * float) :=
  let query_tokens := dedup (_tokens query) in
  map (λ c, (rc_key c,
    match query_tokens with
    | [] => fzero
    | _ => fdiv (float_near (Z.of_nat (length (List.filter (λ t, mem t (_tokens (rc_text c))) query_tokens))))
                (float_near (Z.of_nat (length query_tokens)))
    end)) candidates.
(** [DeterministicRerankerFallback.rerank] *)
Definition fallback_rerank (candidates : list RerankCandidate) : list (string * float) :=
  map (λ c, (rc_key c, fzero)) candidates.
(** [dict(pairs)] *)
Definition dict_of {A} (l : list (string * A)) : list (string * A) := dict_update [] l.

(** The scores that pass, in order; [None] when one is invalid. *)
Fixpoint parse_scores (allowed : list string) (raw : list (string * score)) (parsed : list (string * float))
    : result (option (list (string * float))) :=
  match raw with
  | [] => Ok (Some parsed)
  | (key, value) :: rest =>
      if negb (mem key allowed) then Ok None else
      match value with
      | ScoreBool | ScoreOf (Raise (TypeError _)) | ScoreOf (Raise (ValueError _)) => Ok None
      | ScoreOf (Raise e) => Raise e
      | ScoreOf (Ok f) => if is_finite f then parse_scores allowed rest (dict_set key f parsed) else Ok None
      end
  end.
Definition _reranker_scores (query : string) (candidates : list RerankCandidate) (reranker : option SemanticReranker)
    (timeout_seconds : float) : result (list (string * float) * string) :=
  let fallback mode := Ok (dict_of (fallback_rerank candidates), mode) in
  match reranker with
  | None => fallback "deterministic_fallback"
  | Some rerank =>
      if fle timeout_seconds fzero then Raise (ValueError "reranker_timeout_seconds must be positive") else
      match rerank query candidates with
      | NoAnswer => fallback "timeout_fallback"
      | Raised | NotAMapping => fallback "error_fallback"
      | Scores raw =>
          parsed ← parse_scores (map rc_key candidates) raw [];
          match parsed with
          | Some scores => Ok (scores, "semantic")
          | None => fallback "invalid_output_fallback"
          end
      end
  end.

Definition _candidate_projection (text_limit : Z) (row : candidate) : RerankCandidate :=
  let conversation := default [] (as_dict (c_conversation row)) in
  let metadata := default [] (as_dict (vget "metadata" conversation)) in
  let tags := match vget "tags" metadata with
    | VList raw => take 20 (map (stake 128) (List.filter (λ t, negb (String.eqb t "")) (map py_str raw)))
    | _ => [] end in
  mk_rerank_candidate (_candidate_key row) (c_id row) (c_chunk_index row) (stake 32 (c_role row))
    (stake (Z.to_nat text_limit) (redact_secrets (c_text row)))
    (stake 128 (py_str (vget_or "source" (VStr "") conversation)))
    (stake 64 (py_str (vget_or "timestamp" (VStr "") conversation))) tags.

(** ** Fusion *)

Record fused_row := mk_fused { fu_row : candidate; _fusion_score : float; _candidate_sources : list string }.
Record fusion := mk_fusion {
  rows_by_key : list (string * candidate); scores : list (string * float); sources : list (string * list string) }.

(** One row of a list; [seen] holds the keys this list has shown. *)
Definition fuse_row (source : string) (weight : float) (fusion_k : Z) (st : fusion * list string) (rank_row : Z * candidate)
    : result (fusion * list string) :=
  let '(f, seen) := st in
  let '(rank, row) := rank_row in
  let key := _candidate_key row in
  if String.eqb key "" || mem key seen then Ok st else
  divisor ← float_of_int (fusion_k + rank);
  Ok (mk_fusion (dict_setdefault key row (rows_by_key f))
        (dict_set key (fadd (default fzero (dict_get key (scores f))) (fdiv weight divisor)) (scores f))
        (dict_set key (default [] (dict_get key (sources f)) ++ [source]) (sources f)), seen ++ [key]).
(** [enumerate(rows, start=1)] *)
Definition ranked_from {A} (start : Z) (rows : list A) : list (Z * A) :=
  imap (λ i row, (start + Z.of_nat i, row)) rows.
Definition source_weight (source_weights : list (string * float)) (source : string) : float :=
  fmax fzero (default (float_near 1) (dict_get source source_weights)).
Fixpoint fuse_lists (source_weights : list (string * float)) (fusion_k : Z) (candidate_lists : list (string * list candidate))
    (f : fusion) (counts : list (string * Z)) : result (fusion * list (string * Z)) :=
  match candidate_lists with
  | [] => Ok (f, counts)
  | (source, rows) :: rest =>
      '(f', seen) ← fold_result (fuse_row source (source_weight source_weights source) fusion_k) (f, []) (ranked_from 1 rows);
      fuse_lists source_weights fusion_k rest f' (dict_set source (Z.of_nat (length seen)) counts)
  end.
Definition fused_of (f : fusion) (kr : string * candidate) : fused_row :=
  mk_fused kr.2 (default fzero (dict_get kr.1 (scores f))) (default [] (dict_get kr.1 (sources f))).
Definition _reciprocal_rank_fusion (candidate_lists : list (string * list candidate)) (source_weights : list (string * float))
    (fusion_k : Z) : result (list fused_row * list (string * Z)) :=
  '(f, counts) ← fuse_lists source_weights fusion_k candidate_lists (mk_fusion [] [] []) [];
  Ok (sorted_on (λ row, KFloat (fneg (_fusion_score row)) :: _stable_row_key (fu_row row)) (map (fused_of f) (rows_by_key f)),
      counts).

(** ** Exact matches *)

Definition _rare_exact_terms (query : string) (rows : list candidate) : list string :=
  let frequency token := Z.of_nat (length (List.filter (λ row, mem token (_tokens (c_text row))) rows)) in
  let ceiling := Z.max 1 (Z.of_nat (length rows) / 4) in
  List.filter (λ token, (frequency token <=? ceiling)
    && ((12 <=? str_len token) || existsb is_digit_char (str_list token))) (dedup (_tokens query)).
Definition _exact_priority (query : string) (exact_terms : list string) (rows : list candidate) (row : candidate) : Z :=
  let query_folded := casefold query in
  let memory_id := casefold (c_id row) in
  if negb (String.eqb memory_id "") && contains memory_id query_folded then 0 else
  let text := casefold (c_text row) in
  if existsb (λ term, negb (String.eqb (strip term) "") && contains (casefold (strip term)) text) exact_terms then 1 else
  if existsb (λ term, mem term (_tokens text)) (_rare_exact_terms query rows) then 2 else 3.

(** ** Ranking *)

Record ranked_row := mk_ranked {
  rk_fused : fused_row; _exact : Z; _reranker_score : float; _deterministic_boost : float; _ranking_position : Z }.
Definition rk_row (r : ranked_row) : candidate := fu_row (rk_fused r).
Definition _ranking_score (r : ranked_row) : float := float_near (_ranking_position r).
Definition _ranking_boost (r : ranked_row) : float := _fusion_score (rk_fused r).
Record RankingResult := mk_ranking { rows : list ranked_row; diagnostics : dict }.

Section ranking.
Variables (query : string) (source_weights : list (string * float)) (fusion_k : Z) (exact_terms : list string)
  (reranker : option SemanticReranker) (reranker_timeout_seconds : float)
  (reranker_candidate_limit projection_text_limit : Z) (deterministic_boosts : list (string * float)).

(** The fused rows by exact priority, fusion score and key. *)
Definition exact_key (fused : list fused_row) (row : fused_row) : list key_item :=
  KInt (_exact_priority query exact_terms (map fu_row fused) (fu_row row)) :: KFloat (fneg (_fusion_score row))
  :: _stable_row_key (fu_row row).
Definition rerank_bounded (bounded_rows : list fused_row) : result (list RerankCandidate * list (string * float) * string) :=
  if (length bounded_rows <=? 1)%nat then Ok ([], [], "insufficient_candidates") else
  let projections := map (λ row, _candidate_projection projection_text_limit (fu_row row)) bounded_rows in
  '(scores, mode) ← _reranker_scores (stake (Z.to_nat projection_text_limit) (redact_secrets query)) projections
                      reranker reranker_timeout_seconds;
  Ok (projections, scores, mode).
Definition final_key (fused : list fused_row) (semantically_reranked : list string) (scores : list (string * float))
    (row : fused_row) : list key_item :=
  let key := _candidate_key (fu_row row) in
  [KInt (_exact_priority query exact_terms (map fu_row fused) (fu_row row)); KInt (if mem key semantically_reranked then 0 else 1);
   KFloat (fneg (default fzero (dict_get key scores))); KFloat (fneg (default fzero (dict_get key deterministic_boosts)));
   KFloat (fneg (_fusion_score row))] ++ _stable_row_key (fu_row row).
Definition numbered (fused : list fused_row) (scores : list (string * float)) (position : Z) (row : fused_row) : ranked_row :=
  let key := _candidate_key (fu_row row) in
  mk_ranked row (_exact_priority query exact_terms (map fu_row fused) (fu_row row)) (default fzero (dict_get key scores))
    (default fzero (dict_get key deterministic_boosts)) position.

Definition rank_candidate_lists (candidate_lists : list (string * list candidate)) : result RankingResult :=
  _ ← guard_err (fusion_k <? 1) (ValueError "fusion_k must be positive");
  _ ← guard_err (reranker_candidate_limit <? 1) (ValueError "reranker_candidate_limit must be positive");
  _ ← guard_err (projection_text_limit <? 1) (ValueError "projection_text_limit must be positive");
  '(fused, source_counts) ← _reciprocal_rank_fusion candidate_lists source_weights fusion_k;
  let exact_ordered := sorted_on (exact_key fused) fused in
  let bounded_rows := take (Z.to_nat reranker_candidate_limit) exact_ordered in
  '(projections, scores, reranker_mode) ← rerank_bounded bounded_rows;
  let semantically_reranked := if String.eqb reranker_mode "semantic" then map rc_key projections else [] in
  let ranked := sorted_on (final_key fused semantically_reranked scores) exact_ordered in
  Ok (mk_ranking (imap (λ i row, numbered fused scores (Z.of_nat i) row) ranked)
    [("method", VStr "reciprocal_rank_fusion"); ("fusion_k", VInt fusion_k);
     ("source_candidate_counts", VDict (map (λ kc, (kc.1, VInt kc.2)) source_counts));
     ("fused_candidate_count", VInt (Z.of_nat (length fused))); ("reranker", VStr reranker_mode);
     ("reranker_candidate_count", VInt (Z.of_nat (length bounded_rows)));
     ("reranker_candidate_limit", VInt reranker_candidate_limit); ("projection_text_limit", VInt projection_text_limit)]).
End ranking.
