(* ===== verification/RankingFacts.v ===== *)
(** * Facts about ranking

    Fusion adds one contribution per list, a ranking keeps every candidate once,
    and an external reranker only reorders candidates of one exact priority. *)
From Stdlib Require Import ZArith Lia Ascii Sorted.
From stdpp Require Import sorting.
From S2P Require Import Prelude PyStr Json PyFloat FactValidation Ranking.
Local Open Scope Z_scope.

(** ** Fusion *)

(** What one list adds for a key: its source, its share of the score and its
    first row with that key. *)
Fixpoint first_share (source : string) (weight : float) (fusion_k start : Z) (key : string) (rows : list candidate)
    : option (string * float * candidate) :=
  match rows with
  | [] => None
  | row :: rest =>
      if String.eqb (_candidate_key row) key then Some (source, fdiv weight (float_near (fusion_k + start)), row)
      else first_share source weight fusion_k (start + 1) key rest
  end.
(** What all lists add. *)
Definition shares (source_weights : list (string * float)) (fusion_k : Z) (key : string)
    (candidate_lists : list (string * list candidate)) : list (string * float * candidate) :=
  omap (λ sr, first_share sr.1 (source_weight source_weights sr.1) fusion_k 1 key sr.2) candidate_lists.

Definition add_share (key : string) (f f' : fusion) (c : option (string * float * candidate)) : Prop :=
  match c with
  | None => dict_get key (rows_by_key f') = dict_get key (rows_by_key f) ∧ dict_get key (scores f') = dict_get key (scores f)
            ∧ dict_get key (sources f') = dict_get key (sources f)
  | Some (s, x, row) =>
      dict_get key (rows_by_key f') = Some (default row (dict_get key (rows_by_key f)))
      ∧ dict_get key (scores f') = Some (fadd (default fzero (dict_get key (scores f))) x)
      ∧ dict_get key (sources f') = Some (default [] (dict_get key (sources f)) ++ [s])
  end.
(** every row stands under its own key, once *)
Definition keyed (f : fusion) : Prop :=
  NoDup (dict_keys (rows_by_key f)) ∧ ∀ k r, dict_get k (rows_by_key f) = Some r → _candidate_key r = k ∧ k ≠ "".

Lemma mem_spec t l : mem t l = true ↔ t ∈ l.
Proof.
  unfold mem. rewrite existsb_exists. setoid_rewrite <-list_elem_of_In. setoid_rewrite String.eqb_eq. naive_solver.
Qed.
Lemma mem_false t l : mem t l = false ↔ t ∉ l.
Proof. rewrite <-mem_spec. by destruct (mem t l). Qed.
Lemma float_of_int_near z d : float_of_int z = Ok d → d = float_near z.
Proof. unfold float_of_int. destruct (is_finite _); [congruence|done]. Qed.
Lemma setdefault_get {A} k (v : A) d k' : dict_get k' (dict_setdefault k v d) =
  if String.eqb k' k then Some (default v (dict_get k d)) else dict_get k' d.
Proof.
  unfold dict_setdefault, dict_has. destruct (dict_get k d) as [x|] eqn:E.
  - destruct (String.eqb k' k) eqn:Ek; [|done]. apply String.eqb_eq in Ek as ->. done.
  - apply dict_get_set.
Qed.
Lemma setdefault_NoDup {A} k (v : A) d : NoDup (dict_keys d) → NoDup (dict_keys (dict_setdefault k v d)).
Proof. unfold dict_setdefault. case_match; auto using dict_set_NoDup. Qed.

Lemma add_share_none key f : add_share key f f None.
Proof. done. Qed.
Lemma add_share_after key f g h c : add_share key f g None → add_share key g h c → add_share key f h c.
Proof. destruct c as [[[s x] r]|]; cbn; intros (H1 & H2 & H3); rewrite H1, H2, H3; done. Qed.
Lemma add_share_before key f g h c : add_share key f g c → add_share key g h None → add_share key f h c.
Proof. destruct c as [[[s x] r]|]; cbn; intros Hc (H1 & H2 & H3); rewrite H1, H2, H3; done. Qed.

Section fusing.
Variables (source : string) (weight : float) (fusion_k : Z).

Lemma ranked_from_cons {A} start (row : A) rest : ranked_from start (row :: rest) = (start, row) :: ranked_from (start + 1) rest.
Proof.
  unfold ranked_from. rewrite imap_cons. cbn. f_equal; [f_equal; lia|]. apply imap_ext. intros i x _. cbn. f_equal. lia.
Qed.
Lemma fuse_row_spec f seen rank row f' seen' : fuse_row source weight fusion_k (f, seen) (rank, row) = Ok (f', seen') →
  let key := _candidate_key row in
  (keyed f → keyed f') ∧
  if String.eqb key "" || mem key seen then f' = f ∧ seen' = seen
  else seen' = seen ++ [key] ∧ add_share key f f' (Some (source, fdiv weight (float_near (fusion_k + rank)), row))
       ∧ ∀ k, k ≠ key → add_share k f f' None.
Proof.
  unfold fuse_row. cbv zeta. destruct (String.eqb (_candidate_key row) "" || _) eqn:E; intros Hr; [by simplify_eq|].
  apply bind_Ok in Hr as (d & Hd & Hr). apply float_of_int_near in Hd as ->. injection Hr as <- <-.
  apply orb_false_iff in E as [Hk _]. apply String.eqb_neq in Hk. split.
  - intros [Hn Hkeys]. split; [by apply setdefault_NoDup|]. cbn [rows_by_key]. intros k r. rewrite setdefault_get.
    destruct (String.eqb k (_candidate_key row)) eqn:Ek; [|apply Hkeys]. apply String.eqb_eq in Ek as ->.
    destruct (dict_get (_candidate_key row) (rows_by_key f)) as [r0|] eqn:Er; cbn; intros [= <-]; [by apply Hkeys|done].
  - split; [done|]. split.
    + cbn. by rewrite setdefault_get, String.eqb_refl, !dict_get_set_eq.
    + intros k Hne. cbn. apply String.eqb_neq in Hne as Hb. by rewrite setdefault_get, Hb, !dict_get_set_ne.
Qed.
Lemma fuse_rows_spec rows : ∀ start f seen f' seen',
  fold_result (fuse_row source weight fusion_k) (f, seen) (ranked_from start rows) = Ok (f', seen') →
  (keyed f → keyed f') ∧ ∀ key,
  add_share key f f' (if String.eqb key "" || mem key seen then None else first_share source weight fusion_k start key rows).
Proof.
  induction rows as [|row rows IH]; intros start f seen f' seen' Hr.
  - cbn in Hr. injection Hr as <- <-. split; [done|]. intros key. by case_match.
  - rewrite ranked_from_cons in Hr. cbn [fold_result] in Hr. apply bind_Ok in Hr as ([g seen1] & H1 & Hr).
    apply fuse_row_spec in H1 as [Hk1 H1]. cbv zeta in H1. apply IH in Hr as [Hk Hr]. split; [auto|]. intros key. specialize (Hr key).
    cbn [first_share]. rewrite (String.eqb_sym (_candidate_key row) key).
    destruct (String.eqb key (_candidate_key row)) eqn:Ek.
    + apply String.eqb_eq in Ek as ->. destruct (String.eqb (_candidate_key row) "" || mem (_candidate_key row) seen) eqn:E.
      * destruct H1 as [-> ->]. by rewrite E in Hr.
      * destruct H1 as (-> & H1 & _). apply orb_false_iff in E as [E1 E2]. rewrite E1 in Hr. cbn [orb] in Hr.
        rewrite (proj2 (mem_spec _ (seen ++ [_candidate_key row]))) in Hr by set_solver. by apply (add_share_before _ _ g).
    + apply String.eqb_neq in Ek.
      destruct (String.eqb (_candidate_key row) "" || mem (_candidate_key row) seen); [by destruct H1 as [-> ->]|].
      destruct H1 as (-> & _ & H1). apply (add_share_after _ _ g); [by apply H1|].
      assert (mem key (seen ++ [_candidate_key row]) = mem key seen) as <-; [|done].
      unfold mem. rewrite existsb_app. cbn. apply String.eqb_neq in Ek. by rewrite Ek, !orb_false_r.
Qed.
End fusing.

Lemma fuse_lists_spec ws k lists : ∀ f counts f' counts', fuse_lists ws k lists f counts = Ok (f', counts') →
  (keyed f → keyed f') ∧ ∀ key, key ≠ "" → let c := shares ws k key lists in
  dict_get key (rows_by_key f') = foldl (λ acc c, Some (default c.2 acc)) (dict_get key (rows_by_key f)) c
  ∧ dict_get key (scores f') = foldl (λ acc c, Some (fadd (default fzero acc) c.1.2)) (dict_get key (scores f)) c
  ∧ dict_get key (sources f') = foldl (λ acc c, Some (default [] acc ++ [c.1.1])) (dict_get key (sources f)) c.
Proof.
  induction lists as [|[source rows] lists IH]; intros f counts f' counts' Hr; cbn in Hr; [by simplify_eq|].
  apply bind_Ok in Hr as ([g seen] & H1 & Hr). apply fuse_rows_spec in H1 as [Hk1 H1]. apply IH in Hr as [Hk Hr].
  split; [auto|]. intros key Hkey. specialize (Hr key Hkey). specialize (H1 key). cbv zeta in Hr |- *.
  apply String.eqb_neq in Hkey. rewrite Hkey in H1. cbn [orb mem existsb] in H1. destruct Hr as (Hr1 & Hr2 & Hr3).
  unfold shares in *. cbn [omap list_omap fst snd]. rewrite Hr1, Hr2, Hr3.
  destruct (first_share _ _ _ _ _ _) as [[[s x] row]|]; cbn in H1; destruct H1 as (-> & -> & ->); done.
Qed.
Lemma foldl_some {A B} (f : option B → A → option B) l : (∀ o x, is_Some (f o x)) → ∀ o, l ≠ [] → is_Some (foldl f o l).
Proof.
  intros Hf. induction l as [|x l IH]; [done|]. intros o _. cbn. destruct l as [|y l]; [apply Hf|by apply IH].
Qed.
Lemma fold_total (l : list (string * float * candidate)) : l ≠ [] →
  foldl (λ acc c, Some (fadd (default fzero acc) c.1.2)) None l = Some (foldl fadd fzero (map (λ c, c.1.2) l)).
Proof.
  destruct l as [|c l]; [done|]. intros _. cbn. generalize (fadd fzero c.1.2). induction l as [|d l IH]; intros x; [done|]. apply IH.
Qed.
Lemma fold_sources (l : list (string * float * candidate)) :
  foldl (λ acc c, Some (default [] acc ++ [c.1.1])) None l = match l with [] => None | _ => Some (map (λ c, c.1.1) l) end.
Proof.
  assert (Hs : ∀ x, foldl (λ acc c, Some (default [] acc ++ [c.1.1])) (Some x) l = Some (x ++ map (λ c, c.1.1) l)).
  { induction l as [|d l IH]; intros x; cbn; [by rewrite app_nil_r|]. rewrite IH. cbn. by rewrite <-app_assoc. }
  destruct l as [|c l]; [done|]. specialize (Hs []). exact Hs.
Qed.
Lemma fold_rows (l : list (string * float * candidate)) :
  foldl (λ acc c, Some (default c.2 acc)) None l = match l with [] => None | c :: _ => Some c.2 end.
Proof. destruct l as [|c l]; [done|]. cbn. induction l as [|d l IH]; [done|]. apply IH. Qed.

Definition key_of (row : fused_row) : string := _candidate_key (fu_row row).
(** The row of a key that fusion gives: the first candidate with the key, the
    sum of the shares in the order of the lists, and the sources. *)
Definition fused_from (c : list (string * float * candidate)) (row : fused_row) : Prop :=
  ∃ first, head c = Some first ∧ row = mk_fused first.2 (foldl fadd fzero (map (λ x, x.1.2) c)) (map (λ x, x.1.1) c).
Lemma fusion_spec ws k lists fused counts : _reciprocal_rank_fusion lists ws k = Ok (fused, counts) →
  NoDup (map key_of fused) ∧
  (∀ row, row ∈ fused → key_of row ≠ "" ∧ fused_from (shares ws k (key_of row) lists) row) ∧
  (∀ key, key ≠ "" → shares ws k key lists ≠ [] → key ∈ map key_of fused).
Proof.
  unfold _reciprocal_rank_fusion. intros Hr. apply bind_Ok in Hr as ([f c] & Hf & Hr). injection Hr as <- <-.
  apply fuse_lists_spec in Hf as [Hk Hf]. destruct Hk as [Hn Hk]; [by split; [constructor|]|].
  set (ordered := sorted_on _ _). assert (Hp : ordered ≡ₚ map (fused_of f) (rows_by_key f)) by apply sorted_on_perm.
  assert (Hkeys : map key_of (map (fused_of f) (rows_by_key f)) = dict_keys (rows_by_key f)).
  { rewrite map_map. unfold dict_keys. apply map_ext_in. intros [key r] Hin. apply list_elem_of_In in Hin.
    by apply Hk, (dict_get_elem _ _ _ Hn). }
  assert (Hall : map key_of ordered ≡ₚ dict_keys (rows_by_key f)).
  { rewrite <-Hkeys. exact (fmap_Permutation key_of _ _ Hp). }
  split; [by rewrite Hall|]. split.
  - intros row Hin. rewrite Hp in Hin. apply elem_of_map in Hin as ([key r] & Hin & ->).
    apply (dict_get_elem _ _ _ Hn) in Hin as Hg. destruct (Hk _ _ Hg) as [Hkey Hne].
    unfold key_of, fused_of. cbn. rewrite Hkey. split; [done|]. destruct (Hf key Hne) as (H1 & H2 & H3).
    cbn in H1, H2, H3. rewrite Hg, fold_rows in H1. destruct (shares ws k key lists) as [|c0 l] eqn:Es; [done|].
    injection H1 as H1. rewrite fold_total in H2 by done. rewrite fold_sources in H3. exists c0. rewrite H2, H3, H1. done.
  - intros key Hne Hs. rewrite Hall. destruct (Hf key Hne) as (H1 & _). cbn in H1. rewrite fold_rows in H1.
    destruct (shares ws k key lists) as [|c0 l]; [done|]. apply dict_get_in in H1.
    apply list_elem_of_fmap. by exists (key, c0.2).
Qed.

(** ** Ranking *)

Lemma first_share_some s w k key rows : ∀ start c, first_share s w k start key rows = Some c → ∃ row, row ∈ rows ∧ _candidate_key row = key.
Proof.
  induction rows as [|row rows IH]; intros start c; cbn; [done|]. destruct (String.eqb (_candidate_key row) key) eqn:E; prop_bool.
  - exists row. split; [by left|done].
  - intros (r & Hr & Hk)%IH. exists r. split; [by right|done].
Qed.
Lemma first_share_none s w k key rows : ∀ start, first_share s w k start key rows = None → ∀ row, row ∈ rows → _candidate_key row ≠ key.
Proof.
  induction rows as [|row rows IH]; intros start; cbn; [set_solver|].
  destruct (String.eqb (_candidate_key row) key) eqn:E; prop_bool; [done|]. intros Hn. specialize (IH _ Hn). set_solver.
Qed.
Lemma shares_spec ws k key lists : shares ws k key lists ≠ [] ↔ ∃ source l row, (source, l) ∈ lists ∧ row ∈ l ∧ _candidate_key row = key.
Proof.
  unfold shares. induction lists as [|[source rows] lists IH]; cbn [omap list_omap fst snd]; [set_solver|].
  destruct (first_share _ _ _ _ _ _) eqn:E.
  - apply first_share_some in E as (row & Hin & Hk). split; [|done]. intros _. exists source, rows, row. split; [by left|done].
  - rewrite IH. pose proof (first_share_none _ _ _ _ _ _ E) as Hf. split.
    + intros (s & l & row & Hl & Hr). exists s, l, row. split; [by right|done].
    + intros (s & l & row & [[= -> ->]|Hl]%elem_of_cons & Hr & Hk); [by destruct (Hf row)|by exists s, l, row].
Qed.

Section ranking.
Variables (query : string) (ws : list (string * float)) (fusion_k : Z) (exact_terms : list string)
  (limit text_limit : Z) (boosts : list (string * float)) (lists : list (string * list candidate)).
Notation rank reranker timeout :=
  (rank_candidate_lists query ws fusion_k exact_terms reranker timeout limit text_limit boosts lists).
Notation exact_of fused row := (_exact_priority query exact_terms (map fu_row fused) (fu_row row)).

Lemma rank_run reranker timeout r : rank reranker timeout = Ok r → ∃ fused counts sem sc,
  _reciprocal_rank_fusion lists ws fusion_k = Ok (fused, counts) ∧
  let ranked := sorted_on (final_key query exact_terms boosts fused sem sc)
                  (sorted_on (exact_key query exact_terms fused) fused) in
  rows r = imap (λ i row, numbered query exact_terms boosts fused sc (Z.of_nat i) row) ranked.
Proof.
  unfold rank_candidate_lists. intros Hr. do 3 apply bind_Ok in Hr as ([] & _ & Hr).
  apply bind_Ok in Hr as ([fused counts] & Hf & Hr). cbv zeta in Hr. apply bind_Ok in Hr as ([[projections sc] mode] & _ & Hr).
  injection Hr as <-. exists fused, counts. do 2 eexists. split; [done|]. cbn [rows]. reflexivity.
Qed.
Lemma map_numbered {A} (g : ranked_row → A) (f : nat → fused_row → ranked_row) h l :
  (∀ i row, g (f i row) = h row) → map g (imap f l) = map h l.
Proof.
  intros Hg. change (g <$> imap f l = h <$> l). rewrite fmap_imap. revert f Hg. induction l as [|x l IH]; intros f Hg; [done|].
  rewrite imap_cons. cbn. f_equal; [by apply Hg|]. apply IH. intros i row. cbn. apply Hg.
Qed.
Lemma final_key_exact fused sem sc a b :
  key_lt (final_key query exact_terms boosts fused sem sc b) (final_key query exact_terms boosts fused sem sc a) = false →
  exact_of fused a <= exact_of fused b.
Proof. cbn [key_lt final_key item_compare app]. destruct (Z.compare_spec (exact_of fused b) (exact_of fused a)); [lia|done|lia]. Qed.
Lemma rank_facts reranker timeout r : rank reranker timeout = Ok r → ∃ fused counts,
  _reciprocal_rank_fusion lists ws fusion_k = Ok (fused, counts) ∧ map rk_fused (rows r) ≡ₚ fused ∧
  map _exact (rows r) = map (λ row, exact_of fused row) (map rk_fused (rows r)) ∧ Sorted Z.le (map _exact (rows r)).
Proof.
  intros (fused & counts & sem & sc & Hf & Hr)%rank_run. cbv zeta in Hr. set (ranked := sorted_on (final_key _ _ _ _ _ _) _) in Hr.
  exists fused, counts. rewrite Hr, (map_numbered rk_fused _ id), (map_numbered _exact _ (λ row, exact_of fused row)), map_id by done.
  split; [done|]. split; [unfold ranked; by rewrite !sorted_on_perm|]. split; [done|].
  assert (Hs : Sorted (λ a b, key_lt (final_key query exact_terms boosts fused sem sc b) (final_key query exact_terms boosts fused sem sc a) = false) ranked)
    by apply sorted_on_sorted.
  clear Hr. induction Hs as [|x l Hs IH Hd]; cbn; [constructor|]. constructor; [done|].
  destruct Hd as [|y l' Hd]; constructor. by apply final_key_exact in Hd.
Qed.
End ranking.

(** C27: a ranking holds every candidate with an identifier exactly once, however
    many lists found it, with the data of the first row that names it; its
    fusion score is the sum, over the lists in order, of the weight of the list
    over the fusion constant plus the rank of the first row with that key, and
    its positions count up from zero. *)
Theorem ranking_fuses_lists query ws k exact_terms reranker timeout limit text_limit boosts lists r :
  rank_candidate_lists query ws k exact_terms reranker timeout limit text_limit boosts lists = Ok r →
  let keys := map (λ row, _candidate_key (rk_row row)) (rows r) in
  NoDup keys ∧
  (∀ key, key ∈ keys ↔ key ≠ "" ∧ ∃ source l row, (source, l) ∈ lists ∧ row ∈ l ∧ _candidate_key row = key) ∧
  (∀ row, row ∈ rows r → fused_from (shares ws k (_candidate_key (rk_row row)) lists) (rk_fused row)) ∧
  map _ranking_position (rows r) = map Z.of_nat (seq 0 (length (rows r))).
Proof.
  intros Hr keys. apply rank_facts in Hr as Hf. destruct Hf as (fused & counts & Hf & Hp & _).
  apply fusion_spec in Hf as (Hn & Hrow & Hkey).
  assert (Hk : keys ≡ₚ map key_of fused).
  { unfold keys. rewrite <-Hp, map_map. done. }
  split; [by rewrite Hk|]. split; [|split].
  - intros key. rewrite Hk. split.
    + intros (row & Hin & ->)%elem_of_map. destruct (Hrow row Hin) as [Hne (first & Hh & _)]. split; [done|].
      apply (shares_spec ws k). intros Hs. by rewrite Hs in Hh.
    + intros [Hne Hs]. apply Hkey; [done|]. by apply shares_spec.
  - intros row Hin. apply (Hrow (rk_fused row)). rewrite <-Hp. apply elem_of_map. by exists row.
  - apply rank_run in Hr as (f & c & sem & sc & _ & ->). cbv zeta. generalize (sorted_on (final_key query exact_terms boosts f sem sc)
      (sorted_on (exact_key query exact_terms f) f)). intros l.
    rewrite length_imap. change (_ranking_position <$> imap (λ i row, numbered query exact_terms boosts f sc (Z.of_nat i) row) l
      = Z.of_nat <$> seq 0 (length l)). rewrite fmap_imap.
    apply list_eq. intros i. rewrite list_lookup_imap, list_lookup_fmap.
    destruct (l !! i) eqn:E; cbn.
    + apply lookup_lt_Some in E. by rewrite lookup_seq_lt.
    + apply lookup_ge_None in E. by rewrite lookup_seq_ge.
Qed.

(** C24: whatever an external reranker answers, it neither adds, drops nor alters a
    candidate, and it cannot move one across exact-match priorities: the rows of
    two rankings of the same lists are permutations of each other, their
    priorities read the same, and they never decrease. *)
Theorem reranker_only_reorders query ws k exact_terms ra ta rb tb limit text_limit boosts lists a b :
  rank_candidate_lists query ws k exact_terms ra ta limit text_limit boosts lists = Ok a →
  rank_candidate_lists query ws k exact_terms rb tb limit text_limit boosts lists = Ok b →
  map rk_fused (rows a) ≡ₚ map rk_fused (rows b) ∧ map _exact (rows a) = map _exact (rows b) ∧ Sorted Z.le (map _exact (rows a)).
Proof.
  intros (fused & counts & Hf & Hpa & Hea & Hsa)%rank_facts (fused' & counts' & Hf' & Hpb & Heb & Hsb)%rank_facts.
  rewrite Hf in Hf'. injection Hf' as <- <-. assert (Hp : map rk_fused (rows a) ≡ₚ map rk_fused (rows b)) by by rewrite Hpa, Hpb.
  split; [done|]. split; [|done]. apply (Sorted_unique Z.le); [done..|]. rewrite Hea, Heb.
  exact (fmap_Permutation (λ row, _exact_priority query exact_terms (map fu_row fused) (fu_row row)) _ _ Hp).
Qed.

(** A reranker whose answer gives no valid scores: none, an exception, no
    mapping, or one that names another candidate or holds an invalid score. *)
Definition gives_no_scores (candidates : list RerankCandidate) (answer : reranker_answer) : Prop :=
  match answer with
  | Scores raw => parse_scores (map rc_key candidates) raw [] = Ok None
  | _ => True
  end.
(** A reranker that fails, answers late or answers with anything that is not a
    score for each of the candidates it was given changes nothing: the rows are
    those of a ranking without a reranker. *)
Theorem useless_reranker_ignored query ws k exact_terms rerank timeout timeout' limit text_limit boosts lists r :
  (∀ q cs, gives_no_scores cs (rerank q cs)) →
  rank_candidate_lists query ws k exact_terms (Some rerank) timeout limit text_limit boosts lists = Ok r →
  ∃ r', rank_candidate_lists query ws k exact_terms None timeout' limit text_limit boosts lists = Ok r' ∧ rows r = rows r'.
Proof.
  intros Hno. unfold rank_candidate_lists. intros Hr.
  do 3 (apply bind_Ok in Hr as ([] & Hg & Hr); rewrite Hg; clear Hg). apply bind_Ok in Hr as ([fused counts] & Hf & Hr). rewrite Hf.
  cbn [mbind result_bind] in *. cbv zeta in *. revert Hr. generalize (sorted_on (exact_key query exact_terms fused) fused). intros l.
  set (bounded := take (Z.to_nat limit) l). unfold rerank_bounded. destruct (length bounded <=? 1)%nat; [intros [= <-]; eauto|].
  cbv zeta. unfold _reranker_scores. destruct (fle timeout fzero); [done|].
  set (cs := map _ bounded). set (q := stake _ _). specialize (Hno q cs). destruct (rerank q cs) as [| | |raw]; cbn in Hno |- *.
  4: rewrite Hno.
  all: cbn; intros [= <-]; eauto.
Qed.

Module RankingSamples.
Definition row (id : string) (index : Z) (text : string) : candidate := mk_candidate id fzero index "user" text VNone [] None.
Definition lists : list (string * list candidate) :=
  [("dense", [row "m1" 0 "about cats"; row "m2" 1 "about dogs"]); ("lexical", [row "m2" 1 "about dogs"; row "m3" 0 "ticket x42"])].
(** the second source finds what the first one did: its row comes first *)
Definition keys_of (r : result RankingResult) : option (list string) :=
  match r with Ok x => Some (map (λ row, _candidate_key (rk_row row)) (rows x)) | Raise _ => None end.
Notation rank query reranker := (rank_candidate_lists query [] 60 [] reranker (decimal 5 1) 25 2000 [] lists).
(** an exact match is first, whatever a reranker says *)
Definition prefers_a : SemanticReranker := λ _ _, Scores [("m1:0", ScoreOf (Ok (float_near 9)))].
Definition broken : SemanticReranker := λ _ _, Scores [("m1:0", ScoreBool)].

Example fused_first : keys_of (rank "animals" None) = Some ["m2:1"; "m1:0"; "m3:0"].
Proof. vm_compute. reflexivity. Qed.
Example reranked : keys_of (rank "animals" (Some prefers_a)) = Some ["m1:0"; "m2:1"; "m3:0"].
Proof. vm_compute. reflexivity. Qed.
Example exact_first : keys_of (rank "see x42" (Some prefers_a)) = Some ["m3:0"; "m1:0"; "m2:1"].
Proof. vm_compute. reflexivity. Qed.

Lemma ranking_fuses_lists_witness : ∃ r, rank "animals" None = Ok r ∧ NoDup (map (λ row, _candidate_key (rk_row row)) (rows r)).
Proof.
  destruct (rank "animals" None) as [r|e] eqn:E; [|vm_compute in E; discriminate].
  exists r. split; [reflexivity|]. exact (proj1 (ranking_fuses_lists _ _ _ _ _ _ _ _ _ _ r E)).
Defined.
Lemma reranker_only_reorders_witness : ∃ a b, rank "animals" None = Ok a ∧ rank "animals" (Some prefers_a) = Ok b ∧
  map rk_fused (rows a) ≡ₚ map rk_fused (rows b).
Proof.
  destruct (rank "animals" None) as [a|e] eqn:Ea; [|vm_compute in Ea; discriminate].
  destruct (rank "animals" (Some prefers_a)) as [b|e] eqn:Eb; [|vm_compute in Eb; discriminate].
  exists a, b. split; [reflexivity|]. split; [reflexivity|]. exact (proj1 (reranker_only_reorders _ _ _ _ _ _ _ _ _ _ _ _ a b Ea Eb)).
Defined.
Lemma useless_reranker_ignored_witness : ∃ r r', rank "animals" (Some broken) = Ok r ∧ rank "animals" None = Ok r' ∧ rows r = rows r'.
Proof.
  destruct (rank "animals" (Some broken)) as [r|e] eqn:E; [|vm_compute in E; discriminate].
  destruct (useless_reranker_ignored "animals" [] 60 [] broken (decimal 5 1) (decimal 5 1) 25 2000 [] lists r) as (r' & H & H').
  - intros q cs. cbn. destruct (mem "m1:0" (map rc_key cs)); reflexivity.
  - exact E.
  - exists r, r'. split; [reflexivity|]. split; [exact H|exact H'].
Defined.
End RankingSamples.
