(* ===== verification/FactTimeline.v ===== *)
(** * The timeline of facts ([memory/ingestion/fact_timeline.py])

    When a fact was stored and by whom, read from its source conversation, and
    the projection of facts on a timeline with its latest entries. *)
From Stdlib Require Import ZArith Lia Ascii Sorted.
From S2P Require Import Prelude PyStr Json Clock PyFloat Scope FactValidation QueryPlan.
Local Open Scope Z_scope.

Definition UNKNOWN_AUTHOR : string := "unknown".

(** [str(value).strip() or None] *)
Definition _optional_text (v : value) : option string :=
  match v with
  | VNone => None
  | _ => let text := strip (py_str v) in if String.eqb text "" then None else Some text
  end.
(** [a or b] of optional texts *)
Definition or_else (a b : option string) : option string := match a with Some _ => a | None => b end.
Fixpoint first_field (keys : list string) (d : dict) : option string :=
  match keys with [] => None | k :: rest => or_else (_optional_text (vget k d)) (first_field rest d) end.
Definition _fact_timestamp : dict → option string := first_field ["last_confirmed_at"; "updated_at"; "created_at"].
Definition _fact_value (fact : dict) : string := default "" (first_field ["object_normalized"; "object"; "object_raw"] fact).
Definition _source_memory_timestamp (memory : option dict) : option string := m ← memory; _optional_text (vget "timestamp" m).
Definition _source_memory_author (memory : option dict) : option string := m ← memory; _optional_text (vget "source" m).

(** The instant in microseconds. *)
Definition parse_memory_timestamp (v : value) : result (option Z) :=
  match _optional_text v with
  | None => Ok None
  | Some text =>
      let n := String.length text in
      let normalized := if String.eqb (sdrop (n - 1) text) "Z" then stake (n - 1) text +:+ "+00:00" else text in
      match fromisoformat normalized with
      | Ok parsed => u ← _aware_utc parsed; Ok (Some u)
      | Raise (ValueError _) => Ok None
      | Raise e => Raise e
      end
  end.

Definition temporal_stored_at (fact : dict) (memory : option dict) : option string :=
  or_else (_source_memory_timestamp memory) (or_else (_optional_text (vget "stored_at" fact)) (_fact_timestamp fact)).
Definition temporal_author (fact : dict) (memory : option dict) : string :=
  default UNKNOWN_AUTHOR (or_else (_source_memory_author memory) (_optional_text (vget "author" fact))).
Definition temporal_fact_source_metadata (fact : dict) (memory : option dict) : dict :=
  [("stored_at", opt_str (temporal_stored_at fact memory)); ("author", VStr (temporal_author fact memory))].

(** ** Entries *)

Record FactTimelineEntry := mk_entry {
  te_fact : dict; te_value : string; te_stored_at : option string; te_author : string;
  te_source : option string; te_parsed : option Z }.

(** [parsed.isoformat()] in UTC *)
Definition isoformat_us (us : Z) : string :=
  date_text (us / 1000000) +:+ "T" +:+ clock_text (us / 1000000)
  +:+ (if us mod 1000000 =? 0 then "" else "." +:+ pad 6 (us mod 1000000)) +:+ "+00:00".
Definition latest_group_key (e : FactTimelineEntry) : string :=
  match te_parsed e with Some u => isoformat_us u | None => default "" (te_stored_at e) end.
Definition sort_key (e : FactTimelineEntry) : list key_item :=
  [KInt (match te_parsed e with Some _ => 1 | None => 0 end); KInt (default min_utc (te_parsed e));
   KStr (default "" (te_stored_at e)); KStr (text_of "id" (te_fact e))].
(** [{k: v for k, v in payload.items() if v is not None}] *)
Definition _drop_empty (payload : dict) : dict := List.filter (λ kv, negb (is_none kv.2)) payload.
Definition entry_payload (e : FactTimelineEntry) : dict :=
  _drop_empty [("value", VStr (te_value e)); ("stored_at", opt_str (te_stored_at e)); ("author", VStr (te_author e));
    ("fact_id", vget "id" (te_fact e)); ("subject", vget "subject" (te_fact e)); ("predicate", vget "predicate" (te_fact e));
    ("source_conversation_id", opt_str (te_source e))].
Definition entry_timeline_payload (e : FactTimelineEntry) : dict := dict_set "fact_id" (vget "id" (te_fact e)) (entry_payload e).

(** ** Projections *)

Definition latest_entries (entries : list FactTimelineEntry) : list FactTimelineEntry :=
  match entries with
  | [] => []
  | first :: _ => List.filter (λ e, String.eqb (latest_group_key e) (latest_group_key first)) entries
  end.
Fixpoint unique_values (seen : list string) (entries : list FactTimelineEntry) : list FactTimelineEntry :=
  match entries with
  | [] => []
  | e :: rest => if existsb (String.eqb (te_value e)) seen then unique_values seen rest
                 else e :: unique_values (te_value e :: seen) rest
  end.
Definition unique_latest_entries (entries : list FactTimelineEntry) : list FactTimelineEntry := unique_values [] (latest_entries entries).
Definition has_latest_conflict (entries : list FactTimelineEntry) : bool := (1 <? length (unique_latest_entries entries))%nat.
(** The entries that are not latest; the code compares the objects. *)
Definition historical_entries (entries : list FactTimelineEntry) : list FactTimelineEntry :=
  match entries with
  | [] => []
  | first :: _ => List.filter (λ e, negb (String.eqb (latest_group_key e) (latest_group_key first))) entries
  end.
Definition latest_payload (entries : list FactTimelineEntry) : option dict :=
  match unique_latest_entries entries with
  | [] => None
  | [e] => Some (entry_payload e)
  | first :: _ as latest =>
      Some (_drop_empty [("values", VList (map (λ e, VStr (te_value e)) latest)); ("stored_at", opt_str (te_stored_at first));
        ("authors", VList (map VStr (sorted_strs (dedup (map te_author latest)))));
        ("fact_ids", VList (map (λ e, vget "id" (te_fact e)) latest));
        ("subject", vget "subject" (te_fact first)); ("predicate", vget "predicate" (te_fact first))])
  end.
Definition timeline_payload (entries : list FactTimelineEntry) : list dict := map entry_timeline_payload entries.

(** [FactTimelineProjector(memory_lookup).project(facts)] *)
Section projector.
Variable memory_lookup : option (string → option dict).
Definition _source_memory (source_conversation_id : option string) : option dict :=
  lookup ← memory_lookup; id ← source_conversation_id; lookup id.
Definition _entry (fact : dict) : result FactTimelineEntry :=
  let source := _optional_text (vget "source_conversation_id" fact) in
  let temporal := temporal_fact_source_metadata fact (_source_memory source) in
  let stored_at := _optional_text (vget "stored_at" temporal) in
  let enriched := dict_update fact temporal in
  parsed ← parse_memory_timestamp (opt_str stored_at);
  Ok (mk_entry enriched (_fact_value enriched) stored_at (text_of "author" temporal) source parsed).
(** [entries.sort(key=..., reverse=True)], which keeps the order of equals *)
Definition project (facts : list dict) : result (list FactTimelineEntry) :=
  entries ← map_result _entry (List.filter (λ f, is_none (vget "deleted_at" f)) facts);
  Ok (sort_by (λ a b, negb (key_lt (sort_key a) (sort_key b))) entries).
End projector.

(** ** Facts *)

Lemma sort_key_le a b : key_lt (sort_key a) (sort_key b) = false →
  match te_parsed a, te_parsed b with Some x, Some y => y <= x | None, Some _ => False | _, None => True end.
Proof.
  unfold sort_key. cbn [key_lt item_compare]. destruct (te_parsed a) as [x|], (te_parsed b) as [y|]; cbn; try done.
  destruct (Z.compare_spec x y); [lia|done|lia].
Qed.
Definition newer_first (a b : FactTimelineEntry) : Prop :=
  match te_parsed a, te_parsed b with Some x, Some y => y <= x | None, Some _ => False | _, None => True end.
Lemma newer_first_trans a b c : newer_first a b → newer_first b c → newer_first a c.
Proof. unfold newer_first. destruct (te_parsed a), (te_parsed b), (te_parsed c); try done. lia. Qed.
Lemma sorted_newer l : Sorted (λ a b, negb (key_lt (sort_key a) (sort_key b)) = true) l → Sorted newer_first l.
Proof.
  induction 1 as [|a l Hs IH Hd]; [constructor|]. constructor; [done|]. destruct Hd as [|b l' Hd]; constructor.
  by apply negb_true_iff, sort_key_le in Hd.
Qed.
Lemma project_sorted lookup facts p : project lookup facts = Ok p →
  ∃ entries, map_result (_entry lookup) (List.filter (λ f, is_none (vget "deleted_at" f)) facts) = Ok entries ∧ p ≡ₚ entries ∧ Sorted newer_first p.
Proof.
  unfold project. intros Hr. apply bind_Ok in Hr as (entries & He & Hr). injection Hr as <-. exists entries.
  split; [done|]. split; [apply sort_by_perm|]. apply sorted_newer, sort_by_sorted. intros a b Hf. apply negb_false_iff in Hf.
  apply negb_true_iff. exact (key_lt_asym (sort_key a) (sort_key b) Hf).
Qed.

(** A timeline holds one entry for each fact that is not deleted, its latest
    and its historical entries divide it, no entry is newer than the first one,
    and the first one has a readable time if any entry has. *)
Theorem timeline_latest_is_newest lookup facts p : project lookup facts = Ok p →
  length p = length (List.filter (λ f, is_none (vget "deleted_at" f)) facts) ∧
  latest_entries p ++ historical_entries p ≡ₚ p ∧
  (∀ first rest e u, p = first :: rest → te_parsed first = Some u → e ∈ p → ∀ u', te_parsed e = Some u' → u' <= u) ∧
  (∀ first rest e u, p = first :: rest → e ∈ p → te_parsed e = Some u → ∃ u', te_parsed first = Some u').
Proof.
  intros (entries & He & Hp & Hs)%project_sorted. split; [|split].
  - by rewrite Hp, (map_result_length _ _ _ He).
  - destruct p as [|first rest]; [done|]. unfold latest_entries, historical_entries.
    generalize (first :: rest). intros l. induction l as [|e l IH]; [done|]. cbn. destruct (String.eqb _ _); cbn; [by rewrite IH|].
    by rewrite <-Permutation_middle, IH.
  - assert (Hall : ∀ first rest e, p = first :: rest → e ∈ p → newer_first first e ∨ e = first).
    { intros first rest e -> Hin. apply elem_of_cons in Hin as [-> |Hin]; [by right|left].
      apply Sorted_StronglySorted in Hs; [|intros a b c; apply newer_first_trans].
      apply StronglySorted_inv in Hs as [_ Hs]. rewrite Forall_forall in Hs. by apply Hs. }
    split.
    + intros first rest e u Hf Hu Hin u' Hu'. destruct (Hall _ _ _ Hf Hin) as [Hn | ->]; [|simplify_eq; lia].
      unfold newer_first in Hn. by rewrite Hu, Hu' in Hn.
    + intros first rest e u Hf Hin Hu. destruct (Hall _ _ _ Hf Hin) as [Hn | ->]; [|by exists u].
      unfold newer_first in Hn. rewrite Hu in Hn. destruct (te_parsed first); [by eexists|done].
Qed.

Module TimelineSamples.
Definition fact (id object at_time : string) : dict :=
  [("id", VStr id); ("object", VStr object); ("updated_at", VStr at_time); ("deleted_at", VNone)].
Notation facts := [fact "f1" "tea" "2024-01-01T00:00:00Z"; fact "f2" "coffee" "2024-03-01T00:00:00Z"; fact "f3" "milk" "2024-03-01T01:00:00+01:00"].
Lemma timeline_latest_is_newest_witness : ∃ p, project None facts = Ok p ∧ map te_value p = ["milk"; "coffee"; "tea"]
  ∧ has_latest_conflict p = true ∧ latest_entries p ++ historical_entries p ≡ₚ p.
Proof.
  destruct (project None facts) as [p|e] eqn:E; [|vm_compute in E; discriminate]. exists p. split; [reflexivity|].
  split; [vm_compute in E; injection E as <-; vm_compute; reflexivity|].
  split; [vm_compute in E; injection E as <-; vm_compute; reflexivity|].
  exact (proj1 (proj2 (timeline_latest_is_newest None facts p E))).
Defined.
End TimelineSamples.
