(* ===== verification/FactSearch.v ===== *)
(** * Search of facts and of the graph ([memory/ingestion/mvp_ingestion.py])

    Facts by their fields, by the text of their source conversation and by their
    dates, the public form of a fact, profiles, supersession, and the
    relationships of the graph. *)
From Stdlib Require Import ZArith Lia Ascii.
From S2P Require Import Prelude PyStr Json Hash Clock Identity AuthDb AuthStore ConvStore Scope AuditLog Chunks FactValidation FactExtract FactStore Summaries Ingest FactTimeline.
Local Open Scope Z_scope.

Definition _FACT_SOURCE_HYDRATION_BATCH_SIZE : nat := 500.
Definition _FACT_QUESTION_STOPWORDS : list string :=
  ["about"; "answer"; "did"; "discuss"; "do"; "does"; "favorite"; "favourite"; "for"; "from"; "handle"; "have"; "how"; "is"; "like";
   "likes"; "me"; "memory"; "my"; "own"; "prefer"; "preference"; "please"; "source"; "the"; "this"; "typo"; "what"; "when"; "where";
   "which"; "who"; "why"].

(** ** Filters *)

Record FactFilters := mk_fact_filters {
  ff_query : option string; ff_source : option string; ff_date_from : option string; ff_date_to : option string;
  ff_confidence : option string; ff_status : string; ff_source_quality : option string; ff_save_intent : option string;
  ff_save_intent_source : option string; ff_freshness_from : option string; ff_freshness_to : option string }.
(** [FactFilters.from_options]: the options of [o], its status possibly [None] *)
Definition fact_filters_from_options (o : FactFilters) (status : option string) : result FactFilters :=
  let normalized_status := lower (default "active" (nonempty status)) in
  _ ← guard_err (negb (existsb (String.eqb normalized_status) ["active"; "superseded"; "all"]))
        (ValueError "status must be one of: active, superseded, all");
  Ok (mk_fact_filters (nonempty (strip <$> ff_query o)) (nonempty (ff_source o)) (nonempty (ff_date_from o)) (nonempty (ff_date_to o))
        (nonempty (ff_confidence o)) normalized_status (nonempty (ff_source_quality o)) (nonempty (ff_save_intent o))
        (nonempty (ff_save_intent_source o)) (nonempty (ff_freshness_from o)) (nonempty (ff_freshness_to o))).
Definition include_superseded (f : FactFilters) : bool := String.eqb (ff_status f) "superseded" || String.eqb (ff_status f) "all".
Definition any_fact : FactFilters := mk_fact_filters None None None None None "active" None None None None None.

(** ** Texts *)

Definition _unique_strings (values : list string) : list string := dedup (List.filter (λ v, negb (String.eqb v "")) values).
Definition _metadata_search_values (metadata : dict) : list string :=
  flat_map (λ k, match vget k metadata with
    | VNone => []
    | VList l => map py_str l
    | VDict d => flat_map (λ kv, match kv.2 with VList l => map py_str l | VNone => [] | v => [py_str v] end) d
    | v => [py_str v]
    end) ["tags"; "auto_tags"; "tag_sources"; "topics"; "summary"; "generated_summary"].
Definition _conversation_search_text (conversation : dict) : string :=
  join " " ([text_of "id" conversation; text_of "source" conversation; text_of "title" conversation]
    ++ match vget_or "messages" (VList []) conversation with
       | VList messages => flat_map (λ m, match m with VDict d => [text_of "role" d; text_of "text" d] | _ => [] end) messages
       | _ => [] end
    ++ match vget_or "metadata" (VDict []) conversation with VDict metadata => _metadata_search_values metadata | _ => [] end).
Definition _source_conversation_for_fact (fact : dict) (source_conversations : list (string * dict)) : option dict :=
  match vget "source_conversation_id" fact with
  | VStr id => if String.eqb (strip id) "" then None else dict_get id source_conversations
  | _ => None
  end.
Definition _fact_search_text (fact : dict) (source_conversations : list (string * dict)) : string :=
  join " " ([text_of "subject" fact; replace "_" " " (text_of "predicate" fact); text_of "object" fact;
             text_of "object_normalized" fact; text_of "source_conversation_id" fact]
    ++ match _source_conversation_for_fact fact source_conversations with
       | Some conversation => [_conversation_search_text conversation] | None => [] end).

(** ** Ranking by text; the sets of tokens are lists without duplicates *)

Definition mem (t : string) (l : list string) : bool := existsb (String.eqb t) l.
Definition common (a b : list string) : Z := Z.of_nat (length (List.filter (λ t, mem t b) a)).
Definition _fact_text_query_tokens (query : string) : list string :=
  let tokens := dedup (_query_tokens query None) in
  match List.filter (λ t, negb (mem t _FACT_QUESTION_STOPWORDS)) tokens with [] => tokens | meaningful => meaningful end.
Definition _is_fact_identity_token (token : string) : bool :=
  existsb is_digit_char (str_list token) || contains "-" token || contains "_" token.
Definition _fact_identity_tokens (query : string) : list string :=
  dedup (List.filter _is_fact_identity_token (_query_tokens query None)).
Definition _minimum_fact_text_query_overlap (query_tokens : list string) : Z :=
  let n := Z.of_nat (length query_tokens) in if n <=? 2 then 1 else Z.max 2 ((n + 1) / 2).
(** The overlap with a fact, when it is enough. *)
Definition fact_score (query : string) (source_conversations : list (string * dict)) (fact : dict) : option Z :=
  let query_tokens := _fact_text_query_tokens query in
  let fact_tokens := _query_tokens (_fact_search_text fact source_conversations) None in
  if negb (forallb (λ t, mem t fact_tokens) (_fact_identity_tokens query)) then None else
  let overlap := common query_tokens fact_tokens in
  if overlap <? _minimum_fact_text_query_overlap query_tokens then None else Some overlap.
Definition _rank_facts_by_text_query (facts : list dict) (query : option string) (source_conversations : list (string * dict)) : list dict :=
  match query with
  | None => facts
  | Some q =>
      if String.eqb q "" then facts else
      match _fact_text_query_tokens q with
      | [] => facts
      | _ => map snd (sort_by (λ a b, b.1 <=? a.1)
               (omap (λ fact, score ← fact_score q source_conversations fact; Some (score, fact)) facts))
      end
  end.

(** ** Selection *)

Definition wanted_text (wanted : option string) (actual : string) : bool :=
  match wanted with Some w => String.eqb actual w | None => true end.
Definition wanted_qualifier (wanted : option string) (fact : dict) (key : string) : bool :=
  match wanted with Some w => bool_decide (_fact_qualifier_value fact key = Some w) | None => true end.
(** The filters of the source conversation of a fact. *)
Definition source_filters (conversation_filters : ConversationFilters) (source : option string) : ConversationFilters :=
  match source with
  | Some s =>
      if bool_decide (source = f_source conversation_filters) then conversation_filters else
      from_options source (f_date_from conversation_filters) (f_date_to conversation_filters) (f_tags conversation_filters)
        (f_thread_id conversation_filters) (f_handoff_only conversation_filters) None None
  | None => conversation_filters
  end.
Definition _fact_matches_filters (fact : dict) (conversation_filters : ConversationFilters) (fact_filters : FactFilters)
    (source_conversations : list (string * dict)) : result bool :=
  let superseded := truthy (vget "superseded_by" fact) in
  if String.eqb (ff_status fact_filters) "active" && superseded then Ok false else
  if String.eqb (ff_status fact_filters) "superseded" && negb superseded then Ok false else
  if negb (wanted_text (ff_confidence fact_filters) (py_str (vget "confidence" fact))) then Ok false else
  if negb (wanted_text (ff_source_quality fact_filters) (py_str (vget "source_quality" fact))) then Ok false else
  if negb (wanted_qualifier (ff_save_intent fact_filters) fact "save_intent") then Ok false else
  if negb (wanted_qualifier (ff_save_intent_source fact_filters) fact "save_intent_source") then Ok false else
  created ← _datetime_in_range (text_of "created_at" fact) (ff_date_from fact_filters) (ff_date_to fact_filters) "fact.created_at";
  if negb created then Ok false else
  let freshness := or_value (vget "last_confirmed_at" fact) (or_value (vget "updated_at" fact) (vget "created_at" fact)) in
  fresh ← _datetime_in_range (py_str (or_value freshness (VStr ""))) (ff_freshness_from fact_filters) (ff_freshness_to fact_filters)
    "fact.last_confirmed_at";
  if negb fresh then Ok false else
  if has_filters conversation_filters || bool_decide (is_Some (ff_source fact_filters)) then
    _conversation_matches_filters
      (match _source_conversation_for_fact fact source_conversations with Some c => VDict c | None => VNone end)
      (source_filters conversation_filters (ff_source fact_filters))
  else Ok true.
(** [[x for x in xs if p(x)]] with a test that may raise *)
Fixpoint filter_result {A} (p : A → result bool) (xs : list A) : result (list A) :=
  match xs with
  | [] => Ok []
  | x :: rest => keep ← p x; ys ← filter_result p rest; Ok (if (keep : bool) then x :: ys else ys)
  end.

(** ** The public form *)

(** [public[k] = v()] when the field is not true *)
Definition fill (k : string) (v : value) (public : dict) : dict := if truthy (vget k public) then public else dict_set k v public.
Definition _public_fact (fact : dict) (source_conversations : list (string * dict)) : result dict :=
  let computed := _source_quality_for_fact fact in
  let corrected := String.eqb computed "corrected_by_user" in
  let public := if corrected then dict_set "source_quality" (VStr computed) fact else fill "source_quality" (VStr computed) fact in
  let reason := VStr (_confidence_reason_for_fact public) in
  let public := if corrected then dict_set "confidence_reason" reason public else fill "confidence_reason" reason public in
  let public := fill "last_confirmed_at" (or_value (vget "updated_at" public) (vget "created_at" public)) public in
  let public := fill "object_raw" (vget "object" public) public in
  public ← (if truthy (vget "object_normalized" public) then Ok public
            else normalized ← _normalized_fact_object public; Ok (dict_set "object_normalized" (VStr normalized) public));
  let public := dict_update public (extraction_public_fields (vget "qualifiers" public)) in
  let public := dict_update public (_fact_save_intent_fields public) in
  let public := dict_update public (temporal_fact_source_metadata public (_source_conversation_for_fact public source_conversations)) in
  Ok (dict_setdefault "superseded_at" VNone public).

(** ** Operations *)

Section search.
Context `{HashLib} `{Environ} `{V : VectorStore}.
Notation W := (M World).
Variable now : instant.
Variable context : AuditContext.
(** [str(uuid4())] of the audit event *)
Variable event_id : string.

Definition resolve_project (owner_id project_id : option string) (required_role : string) : W string :=
  in_hub (_resolve_project now context event_id owner_id project_id required_role).
Fixpoint hydrate (fuel : nat) (ids : list string) (hydrated : list (string * dict)) : W (list (string * dict)) :=
  match fuel, ids with
  | S n, _ :: _ =>
      rows ← in_convs (get_many (map VStr (take _FACT_SOURCE_HYDRATION_BATCH_SIZE ids)));
      hydrate n (drop _FACT_SOURCE_HYDRATION_BATCH_SIZE ids)
        (dict_update hydrated (omap (λ kv : string * value, c ← as_dict kv.2; Some (kv.1, c)) rows))
  | _, _ => mret hydrated
  end.
Definition _source_conversations_for_facts (facts : list dict) : W (list (string * dict)) :=
  let ids := _unique_strings (map (λ f, strip (text_of "source_conversation_id" f)) facts) in
  hydrate (length ids) ids [].

Definition fact_search (options : FactFilters) (status : option string) (subject predicate : option string)
    (with_superseded : bool) (owner_id project_id : option string) : W (list dict) :=
  fact_filters ← lift (fact_filters_from_options options
    (Some (default (if with_superseded then "all" else "active") (nonempty status))));
  effective_project_id ← resolve_project owner_id project_id PROJECT_ROLE_READER;
  found ← in_facts (search_facts subject predicate (include_superseded fact_filters) (Some effective_project_id));
  let allowed := List.filter (λ f, _fact_allowed (VDict f) owner_id (Some effective_project_id)) found in
  source_conversations ← _source_conversations_for_facts allowed;
  matching ← lift (filter_result (λ f, _fact_matches_filters f (from_options None None None [] None false None None) fact_filters source_conversations) allowed);
  lift (map_result (λ f, _public_fact f source_conversations)
    (_rank_facts_by_text_query matching (ff_query fact_filters) source_conversations)).

Definition graph_relationship_search (subject predicate : option string) (owner_id project_id : option string)
    (include_superseded : bool) : W (list dict) :=
  effective_project_id ← resolve_project owner_id project_id PROJECT_ROLE_READER;
  in_facts (search_graph_relationships subject predicate owner_id (Some effective_project_id) include_superseded).

(** [profile_get]: the summary, the facts and those of the profile *)
Definition profile_get (subject : string) (options : FactFilters) (status predicate : option string)
    (owner_id project_id : option string) : W dict :=
  facts ← fact_search options status (Some subject) predicate false owner_id project_id;
  effective_project_id ← resolve_project owner_id project_id PROJECT_ROLE_READER;
  summary ← in_summaries (_profile_summary now subject facts owner_id (Some effective_project_id)
    [("predicate", opt_str predicate); ("source", opt_str (ff_source options)); ("date_from", opt_str (ff_date_from options));
     ("date_to", opt_str (ff_date_to options)); ("confidence", opt_str (ff_confidence options));
     ("status", VStr (default "active" (nonempty status))); ("source_quality", opt_str (ff_source_quality options));
     ("save_intent", opt_str (ff_save_intent options)); ("save_intent_source", opt_str (ff_save_intent_source options));
     ("freshness_from", opt_str (ff_freshness_from options)); ("freshness_to", opt_str (ff_freshness_to options))]);
  let all := bool_decide (is_Some predicate) || bool_decide (is_Some (ff_source_quality options)) in
  mret [("status", VStr "ok"); ("subject", VStr subject); ("summary", VDict summary); ("facts", VList (map VDict facts));
        ("profile_facts", VList (map VDict (_profile_projection_facts facts all)))].

Definition fact_supersede (fact_id superseded_by : string) (owner_id project_id : option string) : W dict :=
  effective_project_id ← resolve_project owner_id project_id PROJECT_ROLE_WRITER;
  existing ← fact_search any_fact None None None true owner_id (Some effective_project_id);
  let answer status := [("status", VStr status); ("id", VStr fact_id); ("superseded_by", VStr superseded_by)] in
  if negb (existsb (λ f, is_text fact_id (vget "id" f)) existing) then mret (answer "not_found") else
  updated ← (in_facts (supersede_fact now fact_id superseded_by (Some effective_project_id)) : W bool);
  _ ← in_hub (_record_audit_event now context event_id "fact.superseded" owner_id (Some effective_project_id) None (Some fact_id)
        (if (updated : bool) then "ok" else "not_found") (if (updated : bool) then None else Some "fact_not_found")
        [("superseded_by", VStr superseded_by)]);
  mret (answer (if (updated : bool) then "ok" else "not_found")).
End search.
