(* ===== verification/Search.v ===== *)
(** * Retrieval ([memory/ingestion/mvp_ingestion.py], [memory/backend/contracts.py],
    [memory/backend/vector_store.py])

    The provider-neutral filters of a vector search, what retrieval asks of a
    vector store, and the search of the in-memory store.  A search plans its
    query, collects candidates from the vectors, the texts, the facts and the
    graph, ranks them and shapes the results; a memory is retrieved with its
    summary and its lineage. *)
From Stdlib Require Import ZArith Lia Ascii.
From S2P Require Import Prelude PyStr Json PyFloat Hash Clock Identity AuthDb AuthStore Scope ConvStore Append AuditLog FactValidation FactExtract FactStore Chunks Summaries Ingest QueryPlan Ranking FactTimeline FactSearch.
Local Open Scope Z_scope.

(** * Search of the vector stores *)

(** ** Filters *)

Record VectorDateRange := mk_range { from_value : option string; to_value : option string }.
Record VectorSearchFilters := mk_vector_filters {
  equals : list (string * string); any_of : list (string * list string); booleans : list (string * bool);
  date_ranges : list (string * VectorDateRange) }.
Definition fields (f : VectorSearchFilters) : list string :=
  dedup (dict_keys (equals f) ++ dict_keys (any_of f) ++ dict_keys (booleans f) ++ dict_keys (date_ranges f)).
Definition is_empty (f : VectorSearchFilters) : bool := match fields f with [] => true | _ => false end.
Definition selected {A} (names : list string) (include : bool) (d : list (string * A)) : list (string * A) :=
  List.filter (λ kv, Bool.eqb (existsb (String.eqb kv.1) names) include) d.
Definition _select (names : list string) (include : bool) (f : VectorSearchFilters) : VectorSearchFilters :=
  mk_vector_filters (selected names include (equals f)) (selected names include (any_of f))
    (selected names include (booleans f)) (selected names include (date_ranges f)).
Definition only (names : list string) : VectorSearchFilters → VectorSearchFilters := _select names true.
Definition without (names : list string) : VectorSearchFilters → VectorSearchFilters := _select names false.

Definition is_str (s : string) (v : value) : bool := match v with VStr t => String.eqb t s | _ => false end.
Definition in_bounds (bounds : VectorDateRange) (v : value) : bool :=
  match v with
  | VNone => false
  | _ => let normalized := py_str v in
         negb match from_value bounds with Some b => String.ltb normalized b | None => false end
         && negb match to_value bounds with Some b => String.ltb b normalized | None => false end
  end.
(** [filters.matches(payload)] *)
Definition matches_payload (f : VectorSearchFilters) (payload : dict) : bool :=
  forallb (λ ke, is_str ke.2 (vget ke.1 payload)) (equals f)
  && forallb (λ ke, match vget ke.1 payload with
       | VList l => existsb (λ e, existsb (is_str e) l) ke.2
       | v => existsb (λ e, is_str e v) ke.2 end) (any_of f)
  && forallb (λ ke, Bool.eqb (truthy (vget ke.1 payload)) ke.2) (booleans f)
  && forallb (λ ke, in_bounds ke.2 (vget ke.1 payload)) (date_ranges f).

(** ** Searching *)

Record vector_match := mk_vector_match {
  h_memory_id : string; h_project_id : string; h_owner_id : string; h_chunk_id : string; h_chunk_index : Z;
  h_message_hash : string; h_role : string; h_text : string; h_score : float }.
(** What retrieval asks of a vector store: a search, and the payload fields that
    it can filter. *)
Class VectorSearch `{V : VectorStore} := {
  vs_search : vector → Z → VectorSearchFilters → M vectors (list vector_match);
  vector_filter_fields : list string;
}.

(** [xs[:n]] *)
Definition py_take {A} (n : Z) (xs : list A) : list A :=
  if n <? 0 then take (length xs - Z.to_nat (- n)) xs else take (Z.to_nat n) xs.

Record cosine_sums := mk_sums { dot : float; norm_a : float; norm_b : float }.
Definition _cosine_distance (a b : list float) : result float :=
  if negb (Nat.eqb (length a) (length b)) then Raise (ValueError "Vector dimensions must match") else
  match a with
  | [] => Ok (float_near 1)
  | _ =>
      let s := foldl (λ s ab, mk_sums (fadd (dot s) (fmul ab.1 ab.2)) (fadd (norm_a s) (fmul ab.1 ab.1)) (fadd (norm_b s) (fmul ab.2 ab.2)))
                 (mk_sums fzero fzero fzero) (zip a b) in
      if feq (norm_a s) fzero || feq (norm_b s) fzero then Ok (float_near 1) else
      Ok (fsub (float_near 1) (fdiv (dot s) (fmul (fsqrt (norm_a s)) (fsqrt (norm_b s)))))
  end.

Definition _NATIVE_SCOPE_FILTER_FIELDS : list string := ["owner_id"; "project_id"].
Section memory_store.
Variable dimension : Z.
Definition payload_of_row (r : vector_row) : dict :=
  [("memory_id", VStr (v_memory_id r)); ("project_id", VStr (v_project_id r)); ("owner_id", VStr (v_owner_id r));
   ("chunk_id", VStr (v_chunk_id r)); ("chunk_index", VInt (v_chunk_index r)); ("message_hash", VStr (v_message_hash r));
   ("role", VStr (v_role r)); ("text", VStr (v_text r)); ("vector", VList (map VFloat (v_vector r)))].
Definition match_of_row (sr : float * vector_row) : vector_match :=
  let r := sr.2 in
  mk_vector_match (v_memory_id r) (v_project_id r) (v_owner_id r) (v_chunk_id r) (v_chunk_index r) (v_message_hash r) (v_role r)
    (v_text r) sr.1.
Definition score_row (query_vector : list float) (r : vector_row) : result (float * vector_row) :=
  v ← map_result float_of_text (v_vector r); s ← _cosine_distance query_vector v; Ok (s, r).
Definition memory_search (query_vector : vector) (top_k : Z) (filters : VectorSearchFilters) : M (list vector_row) (list vector_match) :=
  _ ← lift (_validate_dimension dimension query_vector);
  q ← lift (map_result float_of_text query_vector);
  rows ← query (List.filter (λ r, matches_payload filters (payload_of_row r)));
  scored ← lift (map_result (score_row q) rows);
  mret (map match_of_row (py_take top_k (sorted_on (λ sr, [KFloat sr.1]) scored))).
Definition InMemorySearch : @VectorSearch (InMemoryVectorStore dimension) :=
  @Build_VectorSearch (InMemoryVectorStore dimension) memory_search _NATIVE_SCOPE_FILTER_FIELDS.
End memory_store.
Example orthogonal : _cosine_distance [float_near 1; fzero] [fzero; float_near 2] = Ok (float_near 1).
Proof. vm_compute. reflexivity. Qed.
Example same_direction : _cosine_distance [float_near 3; fzero] [float_near 2; fzero] = Ok (float_near 0).
Proof. vm_compute. reflexivity. Qed.

(** Selecting by the fields of a store splits a filter: together the two parts
    ask for what the whole asks for. *)
Lemma forallb_selected {A} (p : string * A → bool) names d :
  forallb p d = forallb p (selected names true d) && forallb p (selected names false d).
Proof.
  unfold selected. induction d as [|kv d IH]; [done|]. cbn. rewrite IH.
  destruct (existsb (String.eqb kv.1) names); cbn; destruct (p kv), (forallb p _); cbn; by rewrite ?andb_false_r.
Qed.
Lemma only_without names f payload :
  matches_payload f payload = matches_payload (only names f) payload && matches_payload (without names f) payload.
Proof.
  unfold matches_payload, only, without, _select. cbn [equals any_of booleans date_ranges].
  rewrite (forallb_selected _ names (equals f)), (forallb_selected _ names (any_of f)),
    (forallb_selected _ names (booleans f)), (forallb_selected _ names (date_ranges f)).
  repeat match goal with |- context [forallb ?p ?l] => generalize (forallb p l); intros [] end; reflexivity.
Qed.

(** * Retrieval *)

Definition _MAX_FILTER_FALLBACK_CANDIDATES : Z := 1000.
Definition CHUNKS : string := "chunks".
Definition COMPACT : string := "compact".
Definition CONVERSATIONS : string := "conversations".
Definition THREADS : string := "threads".
Definition HANDOFF_MODE : string := "handoff".
Definition _RESULT_MODES : list string := [CHUNKS; COMPACT; CONVERSATIONS; THREADS; HANDOFF_MODE].
Definition _validate_result_mode (result_mode : string) : result unit :=
  guard_err (negb (mem result_mode _RESULT_MODES)) (ValueError ("result_mode must be one of: " +:+ join ", " _RESULT_MODES)).

(** The settings of a retrieval; the reranker and the planner are configured
    code. *)
Record RetrievalRuntime := mk_retrieval {
  retrieval_candidate_multiplier : Z; retrieval_keyword_enabled : bool;
  retrieval_keyword_candidate_limit : Z; retrieval_fact_candidate_limit : Z;
  retrieval_vector_score_threshold : float;
  retrieval_dense_candidate_weight : float; retrieval_lexical_candidate_weight : float;
  retrieval_fact_candidate_weight : float; retrieval_graph_weight : float;
  retrieval_graph_enabled : bool; retrieval_graph_quality_gate_passed : bool;
  retrieval_rank_fusion_k : Z; semantic_reranker : option SemanticReranker; reranker_timeout_seconds : float;
  reranker_candidate_limit : Z; reranker_projection_text_limit : Z;
  query_planner : option QueryPlanner; query_planner_timeout_seconds : float;
  retrieval_advanced_scoring_enabled : bool; retrieval_weights : MemoryScoringWeights;
}.

(** ** Candidate limits and filters *)

Definition _adaptive_candidate_limit (configured_limit top_k candidate_multiplier : Z) (preserve_configured_limit : bool) : Z :=
  let hard_limit := Z.max 1 configured_limit in
  if preserve_configured_limit then hard_limit
  else Z.min hard_limit (Z.max 1 top_k * Z.max 1 candidate_multiplier).
Definition entry_if (k : string) (v : option string) : list (string * string) :=
  match nonempty v with Some s => [(k, s)] | None => [] end.
Definition _vector_search_filters (owner_id requested_project_id : option string) (effective_project_id memory_status : string)
    (filters : ConversationFilters) : VectorSearchFilters :=
  mk_vector_filters
    ([("project_id", effective_project_id); ("memory_status", memory_status)]
     ++ match owner_id, requested_project_id with Some o, None => [("owner_id", o)] | _, _ => [] end
     ++ entry_if "source" (f_source filters) ++ entry_if "thread_id" (f_thread_id filters)
     ++ entry_if "source_client" (f_source_client filters) ++ entry_if "source_session_id" (f_source_session_id filters))
    (match f_tags filters with [] => [] | tags => [("tags", tags)] end)
    (if f_handoff_only filters then [("handoff", true)] else [])
    (match nonempty (f_date_from filters), nonempty (f_date_to filters) with
     | None, None => []
     | _, _ => [("timestamp", mk_range (f_date_from filters) (f_date_to filters))] end).
(** The filters a plan hands to a search. *)
Definition conversation_filters (p : PlannedConversationFilters) : ConversationFilters :=
  from_options (p_source p) (p_date_from p) (p_date_to p) (p_tags p) (p_thread_id p) (p_handoff_only p) (p_source_client p)
    (p_source_session_id p).

(** ** Texts *)

(** [SELECT payload ... WHERE lower(payload) LIKE ... ORDER BY created_at DESC LIMIT ?] *)
Definition _keyword_tokens (query : string) : list string := _query_tokens query (Some 8%nat).
Definition newest_created (a b : conv_row) : bool := String.leb (ConvStore.c_created_at b) (ConvStore.c_created_at a).
Definition search_text (query : string) (limit : Z) (project_id : option string) : M ConvDb (list value) :=
  match _keyword_tokens query with
  | [] => mret []
  | tokens =>
      rows ← Prelude.query (λ d, sort_by newest_created (tbl_select (λ r,
        forallb (λ t, like ("%" +:+ t +:+ "%") (sql_lower (ConvStore.c_payload r))) tokens
        && match project_id with Some p => String.eqb (ConvStore.c_project r) p | None => true end) (conversations d)));
      lift (map_result (λ r, json_loads (ConvStore.c_payload r)) (if limit <? 0 then rows else take (Z.to_nat limit) rows))
  end.

(** [(index, message)] pairs, the one with most tokens of the query first, then
    the smallest index *)
Fixpoint best_message (overlap : dict → Z) (best : Z * dict) (l : list (Z * dict)) : Z * dict :=
  match l with
  | [] => best
  | im :: rest => best_message overlap (if overlap best.2 <? overlap im.2 then im else best) rest
  end.
Definition token_overlap (query_tokens : list string) (message : dict) : Z :=
  common query_tokens (_query_tokens (text_of "text" message) None).
Definition message_rows (conversation : dict) : list value :=
  match vget_or "messages" (VList []) conversation with VList l => l | _ => [] end.
Definition indexed_messages (conversation : dict) : list (Z * dict) :=
  omap (λ im : Z * value, m ← as_dict im.2; Some (im.1, m)) (enumerate 0 (message_rows conversation)).
Definition _keyword_result_row (conversation : dict) (score : float) (query : string) : result candidate :=
  let best := match indexed_messages conversation with
    | [] => (0, [])
    | first :: rest =>
        if String.eqb query "" then first else best_message (token_overlap (dedup (_query_tokens query None))) first rest
    end in
  id ← item "id" conversation;
  Ok (mk_candidate (py_str id) score best.1 (text_of "role" best.2) (text_of "text" best.2) (VDict conversation) [] None).
Definition _chunk_keyword_overlap (query : string) (text : string) : Z :=
  common (dedup (_query_tokens query (Some 8%nat))) (_query_tokens text None).
Definition _passes_retrieval_threshold (query : string) (row : candidate) (threshold : float) : bool :=
  fle (c_score row) threshold || (0 <? _chunk_keyword_overlap query (c_text row)).

(** ** Boosts *)

(** The boost of a row and the signals that explain it. *)
Definition _advanced_scoring_boost (sr : RetrievalRuntime) (now_us : Z) (row : candidate) : result (float * option scoring_explanation) :=
  if negb (retrieval_advanced_scoring_enabled sr) then Ok (fzero, None) else
  let raw := (c ← as_dict (c_conversation row); metadata ← as_dict (vget "metadata" c); as_dict (vget "advanced_memory" metadata)) : option dict in
  match raw with
  | None => Ok (fzero, None)
  | Some raw =>
      match scoring_signals raw with
      | Raise (ValueError _) => Ok (fzero, None)
      | Raise e => Raise e
      | Ok signals =>
          '(boost, explanation) ← advanced_relevance_boost signals (retrieval_weights sr) now_us;
          Ok (boost, Some explanation)
      end
  end.
Definition with_explanation (x : option scoring_explanation) (row : candidate) : candidate :=
  match x with
  | Some _ => mk_candidate (c_id row) (c_score row) (c_chunk_index row) (c_role row) (c_text row) (c_conversation row) (c_marks row) x
  | None => row
  end.
Definition boost_row (sr : RetrievalRuntime) (now_us : Z) (query : string) (acc : list (string * float) * list candidate) (row : candidate)
    : result (list (string * float) * list candidate) :=
  let key := c_id row +:+ ":" +:+ str_of_Z (c_chunk_index row) in
  let chunk_signal := if retrieval_keyword_enabled sr then float_near (Z.min (_chunk_keyword_overlap query (c_text row)) 3) else fzero in
  '(advanced, x) ← _advanced_scoring_boost sr now_us row;
  let boost := fadd chunk_signal advanced in
  Ok (dict_set key (fmax (default fzero (dict_get key acc.1)) boost) acc.1, acc.2 ++ [with_explanation x row]).
(** The boosts, and the lists with the rows that were explained. *)
Fixpoint _deterministic_ranking_boosts (sr : RetrievalRuntime) (now_us : Z) (query : string) (boosts : list (string * float))
    (candidate_lists : list (string * list candidate)) : result (list (string * float) * list (string * list candidate)) :=
  match candidate_lists with
  | [] => Ok (boosts, [])
  | (source, rows) :: rest =>
      '(boosts, rows) ← fold_result (boost_row sr now_us query) (boosts, []) rows;
      '(boosts, rest) ← _deterministic_ranking_boosts sr now_us query boosts rest;
      Ok (boosts, (source, rows) :: rest)
  end.

(** ** Results *)

(** A result; [rr_extra] holds the keys its result mode adds. *)
Record result_row := mk_result_row {
  rr_id : string; rr_score : float; rr_chunk_index : Z; rr_role : string; rr_text : string; rr_conversation : value;
  rr_explanation : option scoring_explanation; rr_conversation_score : float; rr_conversation_match_count : Z }.
(** [_citation_from_row] *)
Record citation := mk_citation { ci_id : string; ci_chunk_index : Z; ci_score : float; ci_text : string }.
Definition _citation_from_row (row : result_row) : citation :=
  mk_citation (rr_id row) (rr_chunk_index row) (rr_score row) (rr_text row).

(** The score and the position of the best row of each conversation, and the
    number of its rows. *)
Definition group_of (rows : list ranked_row) (memory_id : string) : list ranked_row :=
  List.filter (λ r, String.eqb (c_id (rk_row r)) memory_id) rows.
Definition best_position (rows : list ranked_row) (memory_id : string) : option Z :=
  foldl (λ acc r, Some (Z.min (_ranking_position r) (default (_ranking_position r) acc))) None (group_of rows memory_id).
Definition best_score (rows : list ranked_row) (memory_id : string) : option float :=
  foldl (λ acc r, Some (fmin (_ranking_score r) (default (_ranking_score r) acc))) None (group_of rows memory_id).
Record enriched_row := mk_enriched {
  er_row : ranked_row; er_conversation_score : float; er_match_count : Z; er_original_rank : Z; er_grouped_score : float }.
Definition enrich (rows : list ranked_row) (index : nat) (r : ranked_row) : enriched_row :=
  let memory_id := c_id (rk_row r) in
  let nonblank := negb (String.eqb memory_id "") in
  let conversation_score := default (_ranking_score r) (if nonblank then best_score rows memory_id else None) in
  let nearby := match (if nonblank then best_position rows memory_id else None) with
    | Some p => _ranking_position r - p <=? 2 | None => false end in
  mk_enriched r conversation_score (if nonblank then Z.of_nat (length (group_of rows memory_id)) else 1) (Z.of_nat index)
    (if nearby then conversation_score else _ranking_score r).
Definition grouped_key (e : enriched_row) : list key_item :=
  [KFloat (er_grouped_score e); KFloat (fneg (_ranking_boost (er_row e))); KStr (c_id (rk_row (er_row e))); KFloat fzero;
   KInt (c_chunk_index (rk_row (er_row e))); KInt (er_original_rank e)].
Definition result_of (e : enriched_row) : result_row :=
  let c := rk_row (er_row e) in
  mk_result_row (c_id c) (c_score c) (c_chunk_index c) (c_role c) (c_text c) (c_conversation c) (c_explanation c)
    (er_conversation_score e) (er_match_count e).
(** Every row of a ranking has a score and a position. *)
Definition group_conversation_results (rows : list ranked_row) : list result_row :=
  map result_of (sorted_on grouped_key (imap (enrich rows) rows)).

(** A row of a result mode: the best row of a group, with what the group adds. *)
Record shaped_row := mk_shaped {
  sh_row : result_row; sh_thread_id : option string; sh_thread_conversation_ids : list string;
  sh_matching_chunks : option Z; sh_evidence_chunks : list citation }.
Definition plain_row (row : result_row) : shaped_row := mk_shaped row None [] None [].
Definition with_text (row : result_row) (text : string) : result_row :=
  mk_result_row (rr_id row) (rr_score row) 0 "" text (rr_conversation row) (rr_explanation row) (rr_conversation_score row)
    (rr_conversation_match_count row).
(** Groups in the order of their first rows. *)
Definition grouped_by (key : result_row → string) (rows : list result_row) : list (string * list result_row) :=
  map (λ k, (k, List.filter (λ r, String.eqb (key r) k) rows)) (dedup (map key rows)).
Definition _conversation_result_text (conversation : value) (evidence : list citation) : string :=
  let chunks := str_of_Z (Z.of_nat (length evidence)) +:+ " matching chunk(s)" in
  match conversation with
  | VDict c => py_str (or_value (vget "title" c) (or_value (vget "source" c) (vget "id" c))) +:+ ": " +:+ chunks
  | _ => chunks
  end.
Definition compacted (result_mode : string) (group : list result_row) : option shaped_row :=
  best ← head group;
  let evidence := map _citation_from_row group in
  Some (mk_shaped (if String.eqb result_mode CONVERSATIONS then with_text best (_conversation_result_text (rr_conversation best) evidence) else best)
          None [] (Some (Z.of_nat (length group))) evidence).
Definition _thread_id_from_conversation (conversation : value) : string :=
  match conversation with
  | VDict c =>
      match vget "metadata" c with
      | VDict metadata => if truthy (vget THREAD_ID metadata) then py_str (vget THREAD_ID metadata)
                          else "conversation:" +:+ py_str (vget_or "id" (VStr "unknown") c)
      | _ => "conversation:" +:+ py_str (vget_or "id" (VStr "unknown") c)
      end
  | _ => "thread:unknown"
  end.
Definition _thread_result_text (thread_id : string) (conversation_ids : list string) (thread_matches : list result_row) : string :=
  thread_id +:+ ": " +:+ str_of_Z (Z.of_nat (length conversation_ids)) +:+ " conversation(s), "
  +:+ str_of_Z (Z.of_nat (length thread_matches)) +:+ " matching chunk(s)".
Definition thread_row (thread_id : string) (thread_matches : list result_row) : option shaped_row :=
  best ← head thread_matches;
  let conversation_ids := _unique_strings (map rr_id thread_matches) in
  Some (mk_shaped (with_text best (_thread_result_text thread_id conversation_ids thread_matches)) (Some thread_id) conversation_ids
          (Some (Z.of_nat (length thread_matches))) (map _citation_from_row thread_matches)).
Definition _thread_result_rows (rows : list result_row) : list shaped_row :=
  omap (λ kg, thread_row kg.1 kg.2) (grouped_by (λ r, _thread_id_from_conversation (rr_conversation r)) rows).
Definition _apply_result_mode (rows : list result_row) (result_mode : string) : list shaped_row :=
  if String.eqb result_mode CHUNKS || String.eqb result_mode HANDOFF_MODE then map plain_row rows
  else if String.eqb result_mode THREADS then _thread_result_rows rows
  else omap (λ kg, compacted result_mode kg.2) (grouped_by rr_id rows).

(** ** Candidates *)

Section retrieval.
Context `{HashLib} `{Environ} `{EmbeddingProvider} `{V : VectorStore} `{VS : !VectorSearch}.
Notation W := (M World).
Variable rt : RuntimeDependencies.
Variable sr : RetrievalRuntime.
(** the time, and the same in microseconds *)
Variables (now : instant) (now_us : Z).
Variable context : AuditContext.

(** [conversation] visible under the filters, as every list of candidates asks *)
Definition admitted (owner_id : option string) (project_id memory_status : string) (filters : ConversationFilters)
    (conversation : value) : result bool :=
  visible ← _conversation_visible conversation owner_id (Some project_id) (Some memory_status);
  if negb visible then Ok false else _conversation_matches_filters conversation filters.
Definition _matching_vector_candidate_count (matches : list vector_match) (owner_id : option string)
    (project_id memory_status : string) (filters : ConversationFilters) : W Z :=
  conversations ← in_convs (get_many (map VStr (_unique_strings (map h_memory_id matches))));
  admitted_matches ← lift (filter_result (λ m,
    admitted owner_id project_id memory_status filters (default VNone (dict_get (h_memory_id m) conversations))) matches);
  mret (Z.of_nat (length admitted_matches)).
(** The last answer, its limit and the number of attempts.  Each attempt but the
    last doubles a limit below [_MAX_FILTER_FALLBACK_CANDIDATES]. *)
Fixpoint candidates_from (fuel : nat) (query_vector : vector) (top_k candidate_k attempts : Z) (owner_id : option string)
    (project_id memory_status : string) (filters : ConversationFilters) (pushed residual : VectorSearchFilters)
    : W (list vector_match * Z * Z) :=
  match fuel with
  | O => raise (RuntimeError "fuel")
  | S n =>
      matches ← in_vectors (vs_search query_vector candidate_k pushed);
      let stop := mret (matches, candidate_k, attempts + 1) in
      if is_empty residual then stop else
      count ← _matching_vector_candidate_count matches owner_id project_id memory_status filters;
      if top_k <=? count then stop else
      if (Z.of_nat (length matches) <? candidate_k) || (_MAX_FILTER_FALLBACK_CANDIDATES <=? candidate_k) then stop else
      candidates_from n query_vector top_k (Z.min (candidate_k * 2) _MAX_FILTER_FALLBACK_CANDIDATES) (attempts + 1)
        owner_id project_id memory_status filters pushed residual
  end.
Definition first_limit (top_k candidate_multiplier : Z) (residual : VectorSearchFilters) : Z :=
  let candidate_k := Z.max top_k (top_k * candidate_multiplier) in
  if is_empty residual then candidate_k else Z.min candidate_k _MAX_FILTER_FALLBACK_CANDIDATES.
(** A limit doubles from at least one to at most 1000. *)
Definition candidate_fuel : nat := 12.
Definition _filtered_vector_candidates (query_vector : vector) (top_k candidate_multiplier : Z) (owner_id : option string)
    (project_id memory_status : string) (filters : ConversationFilters) (vector_filters : VectorSearchFilters)
    : W (list vector_match * dict) :=
  let pushed := only vector_filter_fields vector_filters in
  let residual := without vector_filter_fields vector_filters in
  '(matches, candidate_k, attempts) ← candidates_from candidate_fuel query_vector top_k
     (first_limit top_k candidate_multiplier residual) 0 owner_id project_id memory_status filters pushed residual;
  let names l := VList (map VStr (sorted_strs (dedup l))) in
  mret (matches, [("supported_fields", names vector_filter_fields); ("pushed_fields", names (fields pushed));
    ("residual_fields", names (fields residual)); ("fallback_active", VBool (negb (is_empty residual)));
    ("candidate_limit", VInt candidate_k); ("attempts", VInt attempts)]).

(** The admitted objects of a list. *)
Definition admitted_dicts (owner_id : option string) (project_id memory_status : string) (filters : ConversationFilters)
    (l : list value) : result (list dict) :=
  kept ← filter_result (admitted owner_id project_id memory_status filters) l;
  Ok (omap as_dict (kept : list value)).
Fixpoint expand_tokens (tokens : list string) (limit : Z) (owner_id : option string) (project_id memory_status : string)
    (filters : ConversationFilters) (expanded : list (string * dict)) : W (list (string * dict)) :=
  match tokens with
  | [] => mret expanded
  | token :: rest =>
      candidates ← in_convs (search_text token limit (Some project_id));
      items ← lift (admitted_dicts owner_id project_id memory_status filters candidates);
      expand_tokens rest limit owner_id project_id memory_status filters
        (foldl (λ acc c, dict_set (text_of "id" c) c acc) expanded items)
  end.
Definition token_hits (query_tokens : list string) (conversation : dict) : Z :=
  Z.of_nat (length (List.filter (λ t, contains t (casefold (_conversation_search_text conversation))) query_tokens)).
Definition _keyword_conversations (query : string) (limit : Z) (owner_id : option string) (project_id memory_status : string)
    (filters : ConversationFilters) : W (list dict) :=
  if negb (retrieval_keyword_enabled sr) then mret [] else
  status_filter ← lift (_validate_memory_status_filter (Some memory_status));
  candidates ← in_convs (search_text query limit (Some project_id));
  matches ← lift (admitted_dicts owner_id project_id status_filter filters candidates);
  let query_tokens := _query_tokens query (Some 8%nat) in
  match matches with
  | _ :: _ => mret matches
  | [] =>
      if (length query_tokens <? 2)%nat then mret [] else
      expanded ← expand_tokens query_tokens limit owner_id project_id status_filter filters [];
      mret (py_take limit (sorted_on (λ c, [KInt (- token_hits query_tokens c); KStr (text_of "id" c)]) (map snd expanded)))
  end.

Definition with_summary (conversation : value) : W value :=
  match conversation with
  | VDict c => enriched ← in_summaries (_with_generated_summary_metadata c); mret (VDict enriched)
  | v => mret v
  end.
Fixpoint with_summaries (rows : list (string * value)) : W (list (string * value)) :=
  match rows with
  | [] => mret []
  | (id, c) :: rest =>
      enriched ← with_summary c;
      others ← with_summaries rest;
      mret (if is_none enriched then others else (id, enriched) :: others)
  end.

(** The conversations found by their text stand in for those not read. *)
Fixpoint with_keyword (conversations : list (string * value)) (keyword : list dict) : W (list (string * value)) :=
  match keyword with
  | [] => mret conversations
  | c :: rest =>
      let memory_id := text_of "id" c in
      if String.eqb memory_id "" || dict_has memory_id conversations then with_keyword conversations rest else
      enriched ← with_summary (VDict c);
      with_keyword (dict_set memory_id enriched conversations) rest
  end.

(** *** Dense and lexical rows *)

Definition dense_row (m : vector_match) (conversation : value) : candidate :=
  mk_candidate (h_memory_id m) (h_score m) (h_chunk_index m) (h_role m) (h_text m) conversation [] None.
Fixpoint dense_rows (query : string) (owner_id : option string) (project_id memory_status : string) (filters : ConversationFilters)
    (conversations : list (string * value)) (matches : list vector_match) : result (list candidate) :=
  match matches with
  | [] => Ok []
  | m :: rest =>
      let conversation := default VNone (dict_get (h_memory_id m) conversations) in
      ok ← admitted owner_id project_id memory_status filters conversation;
      rows ← dense_rows query owner_id project_id memory_status filters conversations rest;
      let row := dense_row m conversation in
      Ok (if (ok : bool) && _passes_retrieval_threshold query row (retrieval_vector_score_threshold sr) then row :: rows else rows)
  end.
Definition lexical_rows (query : string) (owner_id : option string) (project_id memory_status : string) (filters : ConversationFilters)
    (keyword_conversations : list dict) : result (list candidate) :=
  kept ← filter_result (λ c, if String.eqb (text_of "id" c) "" then Ok false
                             else admitted owner_id project_id memory_status filters (VDict c)) keyword_conversations;
  map_result (λ c, _keyword_result_row c (retrieval_vector_score_threshold sr) query) kept.

(** *** Fact rows *)

Definition allowed_indexes (fact : dict) (messages : list value) : list Z :=
  match vget_or "source_message_indexes" (VList []) fact with
  | VList l => List.filter (λ i, (0 <=? i) && (i <? Z.of_nat (length messages)))
                 (omap (λ v, match v with VInt z => Some z | VBool b => Some (if b then 1 else 0) | _ => None end) l)
  | _ => []
  end.
Definition index_key (query : string) (messages : list value) (index : Z) : list key_item :=
  [KInt (match messages !! Z.to_nat index with
         | Some (VDict m) => - token_overlap (dedup (_query_tokens query None)) m
         | _ => 0 end); KInt index].
(** The conversation of a fact, its message and the index, when it makes a row. *)
Definition fact_row_of (query : string) (fact : dict) (memory_id : string) (conversation : value) : option candidate :=
  match conversation with
  | VDict c =>
      match vget_or "messages" (VList []) c with
      | VList ((_ :: _) as messages) =>
          let candidates := match allowed_indexes fact messages with
            | [] => map Z.of_nat (seq 0 (length messages)) | l => l end in
          index ← head (sorted_on (index_key query messages) candidates);
          match messages !! Z.to_nat index with
          | Some (VDict m) =>
              Some (mk_candidate memory_id (retrieval_vector_score_threshold sr) index (text_of "role" m) (text_of "text" m)
                      conversation [("_fact_id", vget "id" fact)] None)
          | _ => None
          end
      | _ => None
      end
  | _ => None
  end.
Definition seen_row (row : candidate) (rows : list candidate) : bool :=
  existsb (λ r, String.eqb (c_id r) (c_id row) && (c_chunk_index r =? c_chunk_index row)) rows.
Fixpoint fact_rows_from (query : string) (owner_id : option string) (project_id memory_status : string) (filters : ConversationFilters)
    (limit : Z) (source_conversations : list (string * dict)) (facts : list dict) (rows : list candidate) : W (list candidate) :=
  match facts with
  | [] => mret rows
  | fact :: rest =>
      let continue rows := fact_rows_from query owner_id project_id memory_status filters limit source_conversations rest rows in
      let memory_id := text_of "source_conversation_id" fact in
      if String.eqb memory_id "" then continue rows else
      conversation ← match dict_get memory_id source_conversations with
                     | Some c => with_summary (VDict c) | None => mret VNone end;
      ok ← lift (admitted owner_id project_id memory_status filters conversation);
      if negb ok then continue rows else
      match fact_row_of query fact memory_id conversation with
      | Some row =>
          if seen_row row rows then continue rows else
          if limit <=? Z.of_nat (length (rows ++ [row])) then mret (rows ++ [row]) else continue (rows ++ [row])
      | None => continue rows
      end
  end.
Definition _fact_candidate_rows (event_id query : string) (owner_id : option string) (project_id memory_status : string)
    (filters : ConversationFilters) (limit : Z) : W (list candidate) :=
  facts ← fact_search now context event_id
    (mk_fact_filters (Some query) (f_source filters) (f_date_from filters) (f_date_to filters) None "" None None None None None)
    None None None false owner_id (Some project_id);
  source_conversations ← _source_conversations_for_facts facts;
  fact_rows_from query owner_id project_id memory_status filters limit source_conversations facts [].

(** *** Retrieval of one memory *)

Definition lineage_value (v : lineage_view) : value :=
  VDict [("ancestors", VList (map (λ i, VDict [("id", VStr i)]) (lv_ancestors v))); ("max_depth", VInt _MAX_LINEAGE_DEPTH);
         ("truncated", VBool (lv_truncated v)); ("missing_history", VBool (lv_missing_history v)); ("cycle_detected", VBool (lv_cycle_detected v))].
Definition retrieve (event_id memory_id : string) (owner_id project_id : option string) (memory_status : string) : W (option dict) :=
  let record project outcome reason status :=
    in_hub (_record_audit_event now context event_id "memory.retrieved" owner_id (Some project) (Some memory_id) None outcome reason
              [("memory_status", VStr status)]) in
  project ← resolve_project now context event_id owner_id project_id PROJECT_ROLE_READER;
  status_filter ← lift (_validate_memory_status_filter (Some memory_status));
  found ← store_get memory_id;
  let conversation := default VNone found in
  visible ← lift (_conversation_visible conversation owner_id (Some project) (Some status_filter));
  if negb visible then (_ ← record project "not_found" (Some "not_visible") status_filter; mret None) else
  result ← match conversation with
    | VDict c =>
        c ← _repair_retrieved_index_chunks rt memory_id c;
        c ← in_summaries (_with_generated_summary_metadata c);
        view ← in_convs (_lineage_view owner_id project c);
        mret (Some (dict_set "lineage" (lineage_value view) c))
    | _ => mret None
    end;
  _ ← record project "ok" None status_filter;
  mret result.

(** *** Graph rows *)

Definition _relationship_search_text (relationship : dict) : string :=
  join " " [text_of "subject" relationship; text_of "predicate" relationship; text_of "object" relationship].
Definition _relationship_conversation_id (relationship : dict) : option string :=
  match vget "provenance" relationship with
  | VList (VDict first :: _) => let id := vget "conversation_id" first in if truthy id then Some (py_str id) else None
  | _ => None
  end.
Definition relationship_score (query : string) (relationship : dict) : Z :=
  common (dedup (_query_tokens query (Some 8%nat))) (_query_tokens (_relationship_search_text relationship) (Some 8%nat)).
Definition marked (relationship : dict) (row : candidate) : candidate :=
  mk_candidate (c_id row) (c_score row) (c_chunk_index row) (c_role row) (c_text row) (c_conversation row)
    [("_graph_relationship_id", vget "id" relationship); ("_graph_predicate", vget "predicate" relationship)] (c_explanation row).
Definition same_chunk (row r : candidate) : bool :=
  String.eqb (c_id r) (c_id row) && (c_chunk_index r =? c_chunk_index row) && String.eqb (c_text r) (c_text row).
(** The [i]-th memory is retrieved with the [i]-th event. *)
Fixpoint graph_rows_from (event_ids : nat → string) (i : nat) (query : string) (owner_id : option string) (project_id : string)
    (relationships : list dict) (rows : list candidate) : W (list candidate) :=
  match relationships with
  | [] => mret rows
  | relationship :: rest =>
      match _relationship_conversation_id relationship with
      | None => graph_rows_from event_ids i query owner_id project_id rest rows
      | Some id =>
          conversation ← retrieve (event_ids i) id owner_id (Some project_id) _MEMORY_STATUS_ACTIVE;
          match conversation with
          | None => graph_rows_from event_ids (S i) query owner_id project_id rest rows
          | Some c =>
              row ← lift (_keyword_result_row c (retrieval_vector_score_threshold sr) query);
              graph_rows_from event_ids (S i) query owner_id project_id rest
                (if existsb (same_chunk row) rows then rows else rows ++ [marked relationship row])
          end
      end
  end.
Definition graph_ready : bool := retrieval_graph_enabled sr && retrieval_graph_quality_gate_passed sr.
Definition _graph_candidate_rows (event_ids : nat → string) (query : string) (owner_id : option string) (project_id : string)
    (limit : Z) : W (list candidate) :=
  if negb graph_ready then mret [] else
  relationships ← graph_relationship_search now context (event_ids 0%nat) None None owner_id (Some project_id) false;
  let scored := List.filter (λ r, 0 <? relationship_score query r) relationships in
  graph_rows_from event_ids 1 query owner_id project_id
    (py_take limit (sorted_on (λ r, [KInt (- relationship_score query r); KStr (text_of "id" r)]) scored)) [].

(** ** Searching *)

Record SearchRequest := mk_request {
  q_query : string; q_top_k : Z; q_result_mode : string; q_owner_id : option string; q_project_id : option string;
  q_memory_status : string; q_filters : PlannedConversationFilters; q_include_query_plan : bool }.
(** The ranked rows of a search, and what its answer reports. *)
Record SearchOutcome := mk_outcome { so_results : list shaped_row; so_diagnostics : dict }.

Definition candidate_multiplier : Z := Z.max 1 (retrieval_candidate_multiplier sr).
(** The candidate lists of a planned query. *)
Definition collect_candidates (event_ids : nat → string) (request : SearchRequest) (semantic_query : string) (filters : ConversationFilters)
    (project_id status_filter : string) : W (list (string * list candidate) * dict) :=
  let owner_id := q_owner_id request in
  let top_k := q_top_k request in
  query_vectors ← lift (embed_texts [semantic_query]);
  query_vector ← lift (from_option_err (IndexError "list index out of range") (head query_vectors));
  '(matches, vector_diagnostics) ← _filtered_vector_candidates query_vector top_k candidate_multiplier owner_id project_id
     status_filter filters (_vector_search_filters owner_id (q_project_id request) project_id status_filter filters);
  let preserve := has_filters filters || negb (String.eqb status_filter _MEMORY_STATUS_ACTIVE) in
  let limit_of configured := _adaptive_candidate_limit configured top_k candidate_multiplier preserve in
  keyword ← _keyword_conversations semantic_query (limit_of (retrieval_keyword_candidate_limit sr)) owner_id project_id status_filter filters;
  let ids := _unique_strings (map h_memory_id matches ++ flat_map (λ c, match dict_get "id" c with Some v => [py_str v] | None => [] end) keyword) in
  stored ← in_convs (get_many (map VStr ids));
  enriched ← with_summaries stored;
  conversations ← with_keyword enriched keyword;
  dense ← lift (dense_rows semantic_query owner_id project_id status_filter filters conversations matches);
  lexical ← lift (lexical_rows semantic_query owner_id project_id status_filter filters keyword);
  graph ← _graph_candidate_rows event_ids semantic_query owner_id project_id top_k;
  fact ← _fact_candidate_rows (event_ids 0%nat) semantic_query owner_id project_id status_filter filters
           (limit_of (retrieval_fact_candidate_limit sr));
  mret ([("dense", dense); ("lexical", lexical); ("fact", fact); ("graph", graph)], vector_diagnostics).
Definition weights_of_sources : list (string * float) :=
  [("dense", retrieval_dense_candidate_weight sr); ("lexical", retrieval_lexical_candidate_weight sr);
   ("fact", retrieval_fact_candidate_weight sr); ("graph", retrieval_graph_weight sr)].
Definition attempts_of (diagnostics : dict) : Z := match vget "attempts" diagnostics with VInt z => z | _ => 0 end.
Definition graph_diagnostics (rows : list candidate) : dict :=
  [("enabled", VBool (retrieval_graph_enabled sr)); ("quality_gate_passed", VBool (retrieval_graph_quality_gate_passed sr));
   ("candidate_count", VInt (Z.of_nat (length rows))); ("influenced_ids", VList (map (λ r, VStr (c_id r)) rows))].
Definition searched_metadata (request : SearchRequest) (status_filter : string) (filters : ConversationFilters) (count : Z) : dict :=
  let set (o : option string) := VBool (match nonempty o with Some _ => true | None => false end) in
  [("query_hash", VStr (_audit_hash (q_query request))); ("top_k", VInt (q_top_k request)); ("result_count", VInt count);
   ("result_mode", VStr (q_result_mode request)); ("memory_status", VStr status_filter);
   ("filters", VDict [("source", set (f_source filters)); ("date_from", set (f_date_from filters)); ("date_to", set (f_date_to filters));
      ("tags", VInt (Z.of_nat (length (f_tags filters)))); ("thread_id", set (f_thread_id filters));
      ("source_client", set (f_source_client filters)); ("source_session_id", set (f_source_session_id filters))])].
(** [event_ids 0] is the event of the search and of a refused access. *)
Definition search (event_ids : nat → string) (request : SearchRequest) (planned : option RetrievalQueryPlan) : W SearchOutcome :=
  _ ← lift (_validate_result_mode (q_result_mode request));
  status_filter ← lift (_validate_memory_status_filter (Some (q_memory_status request)));
  plan ← lift (match planned with
    | Some p => Ok p
    | None => plan_retrieval_query (q_query request) (q_filters request) (query_planner sr) (query_planner_timeout_seconds sr) now_us
    end);
  let filters := conversation_filters (QueryPlan.filters plan) in
  project_id ← resolve_project now context (event_ids 0%nat) (q_owner_id request) (q_project_id request) PROJECT_ROLE_READER;
  '(candidate_lists, vector_diagnostics) ← collect_candidates event_ids request (semantic_query plan) filters project_id status_filter;
  '(boosts, candidate_lists) ← lift (_deterministic_ranking_boosts sr now_us (semantic_query plan) [] candidate_lists);
  ranking ← lift (rank_candidate_lists (semantic_query plan) weights_of_sources (retrieval_rank_fusion_k sr) (exact_terms plan)
    (semantic_reranker sr) (reranker_timeout_seconds sr) (reranker_candidate_limit sr) (reranker_projection_text_limit sr) boosts candidate_lists);
  let results := py_take (q_top_k request) (_apply_result_mode (group_conversation_results (rows ranking)) (q_result_mode request)) in
  let graph := default [] (dict_get "graph" candidate_lists) in
  let diagnostics :=
    (if has_filters filters || negb (String.eqb status_filter _MEMORY_STATUS_ACTIVE) || (1 <? attempts_of vector_diagnostics)
     then [("vector_filtering", VDict vector_diagnostics)] else [])
    ++ (if retrieval_graph_enabled sr && negb (Nat.eqb (length graph) 0) then [("graph", VDict (graph_diagnostics graph))] else [])
    ++ (if q_include_query_plan request || bool_decide (is_Some (semantic_reranker sr)) then [("ranking", VDict (Ranking.diagnostics ranking))] else [])
    ++ (if q_include_query_plan request then [("query_plan", VDict (plan_diagnostics plan))] else []) in
  _ ← in_hub (_record_audit_event now context (event_ids 0%nat) "memory.searched" (q_owner_id request) (Some project_id) None None "ok" None
        (searched_metadata request status_filter filters (Z.of_nat (length results))));
  mret (mk_outcome results diagnostics).
End retrieval.
