(* ===== verification/SearchFacts.v ===== *)
(** * Facts about retrieval

    What a search shows is visible to the caller and passes the filters; the
    widening of a vector search stops; result modes cite every matching chunk
    once; a hidden memory is not retrieved. *)
From Stdlib Require Import ZArith Lia Ascii.
From S2P Require Import Prelude PyStr Json Hash Clock PyFloat Identity AuthDb AuthStore ConvStore ConvFacts ConvTheorems Scope Append AuditLog LineageFacts Chunks Search FactValidation FactExtract FactStore Summaries Ingest QueryPlan Ranking RankingFacts FactTimeline FactSearch Samples PipelineFacts.
Local Open Scope Z_scope.

Lemma filter_result_elem {A} (p : A → result bool) xs ys : filter_result p xs = Ok ys → ∀ y, y ∈ ys → y ∈ xs ∧ p y = Ok true.
Proof.
  revert ys. induction xs as [|x xs IH]; cbn; intros ys Hr y Hy; [simplify_eq; by apply elem_of_nil in Hy|].
  apply bind_Ok in Hr as (b & Hb & Hr). apply bind_Ok in Hr as (zs & Hz & Hr). injection Hr as <-.
  destruct b; [apply elem_of_cons in Hy as [-> |Hy]|]; [split; [by left|done]|..];
    destruct (IH _ Hz _ Hy); (split; [by right|done]).
Qed.
Lemma py_take_sublist {A} n (xs : list A) x : x ∈ py_take n xs → x ∈ xs.
Proof. unfold py_take. case_match; apply elem_of_take_inv || (intros Hx; by apply elem_of_take in Hx as (i & Hi & _); apply list_elem_of_lookup_2 in Hi). Qed.
Lemma py_take_length {A} n (xs : list A) : 0 <= n → Z.of_nat (length (py_take n xs)) <= n.
Proof. intros Hn. unfold py_take. destruct (Z.ltb_spec n 0); [lia|]. rewrite length_take. lia. Qed.

(** ** Postconditions of runs *)

(** Every answer of a run, from any state, has a property. *)
Definition returns {S A} (m : M S A) (Q : A → Prop) : Prop := ∀ s a s', m s = (Ok a, s') → Q a.
Create HintDb returns discriminated.
Lemma returns_ret {S A} (a : A) (Q : A → Prop) : Q a → returns (S:=S) (mret a) Q.
Proof. intros Hq s b s' [-> _]%ret_run. done. Qed.
Lemma returns_raise {S A} e (Q : A → Prop) : returns (S:=S) (raise e) Q.
Proof. by intros s b s' [=]. Qed.
Lemma returns_lift {S A} (r : result A) (Q : A → Prop) : (∀ a, r = Ok a → Q a) → returns (S:=S) (lift r) Q.
Proof. intros Hq s b s' [Hb _]%lift_run. by apply Hq. Qed.
Lemma returns_bind {S A B} (m : M S A) (f : A → M S B) (P : A → Prop) (Q : B → Prop) :
  returns m P → (∀ a, P a → returns (f a) Q) → returns (m ≫= f) Q.
Proof. intros Hm Hf s b s' (a & s1 & Ha & Hb)%bind_run. exact (Hf a (Hm _ _ _ Ha) _ _ _ Hb). Qed.
Lemma returns_true {S A} (m : M S A) : returns m (λ _, True).
Proof. done. Qed.
(** a step whose answer does not matter *)
Lemma returns_then {S A B} (m : M S A) (f : A → M S B) (Q : B → Prop) : (∀ a, returns (f a) Q) → returns (m ≫= f) Q.
Proof. intros Hf. apply (returns_bind _ _ (λ _, True)); [apply returns_true|auto]. Qed.
(** a checked result *)
Lemma returns_checked {S A B} (r : result A) (f : A → M S B) (Q : B → Prop) :
  (∀ a, r = Ok a → returns (f a) Q) → returns (lift r ≫= f) Q.
Proof. intros Hf. apply (returns_bind _ _ (λ a, r = Ok a)); [by apply returns_lift|done]. Qed.
(** a step whose answers are remembered *)
Lemma returns_with {S A B} (m : M S A) (f : A → M S B) (Q : B → Prop) :
  (∀ a, (∃ s s', m s = (Ok a, s')) → returns (f a) Q) → returns (m ≫= f) Q.
Proof. intros Hf. apply (returns_bind _ _ (λ a, ∃ s s', m s = (Ok a, s'))); [by intros s a s' Hr; exists s, s'|done]. Qed.
#[export] Hint Resolve returns_raise returns_true : returns.

(** ** Candidates are admitted *)

Section candidates.
Context `{HashLib} `{Environ} `{EmbeddingProvider} `{V : VectorStore} `{VS : !VectorSearch}.
Variable rt : RuntimeDependencies.
Variable sr : RetrievalRuntime.
Variables (now : instant) (now_us : Z).
Variable context : AuditContext.
Variables (owner_id : option string) (project_id memory_status : string) (filters : ConversationFilters).
Notation ok := (admitted owner_id project_id memory_status filters).

(** A conversation that [retrieve] answers in this project. *)
Definition retrieved (conversation : value) : Prop :=
  ∃ event_id id w w' c, retrieve rt now context event_id id owner_id (Some project_id) _MEMORY_STATUS_ACTIVE w = (Ok (Some c), w')
    ∧ conversation = VDict c.
(** What a search may show: a conversation that passes, or one that the graph
    leads to. *)
Definition shown (conversation : value) : Prop :=
  (_conversation_visible conversation owner_id (Some project_id) (Some memory_status) = Ok true ∧
   _conversation_matches_filters conversation filters = Ok true) ∨ (graph_ready sr = true ∧ retrieved conversation).
Definition all_shown (rows : list candidate) : Prop := Forall (λ r, shown (c_conversation r)) rows.

Lemma admitted_shown conversation : ok conversation = Ok true → shown conversation.
Proof. unfold admitted. intros Hc. apply bind_Ok in Hc as (b & Hb & Hc). left. destruct b; [done|discriminate Hc]. Qed.
Lemma dense_rows_shown query conversations matches : ∀ rows,
  dense_rows sr query owner_id project_id memory_status filters conversations matches = Ok rows → all_shown rows.
Proof.
  induction matches as [|m matches IH]; cbn; intros rows Hr; [inv_ok; subst; constructor|].
  apply bind_Ok in Hr as (b & Hb & Hr). apply bind_Ok in Hr as (rows' & Hr' & Hr). injection Hr as <-.
  destruct b; cbn; [|by apply IH]. case_match; [constructor; [by apply admitted_shown|]|]; by apply IH.
Qed.
Lemma keyword_row_conversation c threshold query row : _keyword_result_row c threshold query = Ok row → c_conversation row = VDict c.
Proof. unfold _keyword_result_row. intros Hr. inv_ok. by subst. Qed.
Lemma lexical_rows_shown query keyword rows :
  lexical_rows sr query owner_id project_id memory_status filters keyword = Ok rows → all_shown rows.
Proof.
  unfold lexical_rows. intros Hr. apply bind_Ok in Hr as (kept & Hk & Hr). apply Forall_forall. intros row Hrow.
  apply (map_result_elem _ _ _ Hr) in Hrow as (c & Hc & Hrow). apply keyword_row_conversation in Hrow as ->.
  apply (filter_result_elem _ _ _ Hk) in Hc as [_ Hc]. apply admitted_shown. by case_match.
Qed.
Lemma fact_row_conversation query fact id conversation row : fact_row_of sr query fact id conversation = Some row → c_conversation row = conversation.
Proof.
  unfold fact_row_of. destruct conversation as [| | | | | |c]; try done. destruct (vget_or _ _ _) as [| | | | |l|]; try done.
  destruct l as [|m l]; [done|]. cbv zeta. intros (i & _ & Hr)%bind_Some. by repeat (case_match; simplify_eq/=).
Qed.
Lemma fact_rows_shown query limit sources facts : ∀ rows, all_shown rows →
  returns (fact_rows_from sr query owner_id project_id memory_status filters limit sources facts rows) all_shown.
Proof.
  induction facts as [|fact facts IH]; cbn [fact_rows_from]; intros rows Hrows; [by apply returns_ret|].
  cbv zeta. case_match; [by apply IH|]. apply returns_then. intros conversation. apply returns_checked. intros b Hb.
  destruct b; cbn [negb]; [|by apply IH]. destruct (fact_row_of _ _ _ _ _) as [row|] eqn:Er; [|by apply IH].
  assert (all_shown (rows ++ [row])).
  { apply Forall_app_2; [done|]. constructor; [|constructor]. apply admitted_shown. by rewrite (fact_row_conversation _ _ _ _ _ Er). }
  case_match; [by apply IH|]. case_match; [by apply returns_ret|by apply IH].
Qed.
Lemma graph_rows_shown event_ids query relationships : graph_ready sr = true → ∀ i rows, all_shown rows →
  returns (graph_rows_from rt sr now context event_ids i query owner_id project_id relationships rows) all_shown.
Proof.
  intros Hg. induction relationships as [|r relationships IH]; cbn [graph_rows_from]; intros i rows Hrows; [by apply returns_ret|].
  case_match; [|by apply IH]. apply returns_with. intros conversation (w & w' & Hc). destruct conversation as [c|]; [|by apply IH].
  apply returns_checked. intros row Hrow. apply IH. case_match; [done|]. apply Forall_app_2; [done|]. constructor; [|constructor].
  cbn. right. split; [done|]. rewrite (keyword_row_conversation _ _ _ _ Hrow). by repeat eexists.
Qed.
Lemma graph_candidates_shown event_ids query limit :
  returns (_graph_candidate_rows rt sr now context event_ids query owner_id project_id limit) all_shown.
Proof.
  unfold _graph_candidate_rows. destruct (graph_ready sr) eqn:Hg; cbn [negb]; [|by apply returns_ret; constructor].
  apply returns_then. intros relationships. by apply graph_rows_shown; [|constructor].
Qed.
Lemma fact_candidates_shown event_id query limit :
  returns (_fact_candidate_rows sr now context event_id query owner_id project_id memory_status filters limit) all_shown.
Proof.
  unfold _fact_candidate_rows. apply returns_then. intros facts. apply returns_then. intros sources.
  apply fact_rows_shown. constructor.
Qed.
Definition lists_shown (lists : list (string * list candidate)) : Prop := Forall (λ sl, all_shown sl.2) lists.
Lemma collect_shown event_ids request semantic_query : q_owner_id request = owner_id →
  returns (collect_candidates rt sr now context event_ids request semantic_query filters project_id memory_status) (λ r, lists_shown r.1).
Proof.
  intros Ho. unfold collect_candidates. cbv zeta. rewrite Ho. apply returns_checked; intros vectors _. apply returns_checked; intros qv _.
  apply returns_then; intros [matches d]. do 4 (apply returns_then; intros ?). apply returns_checked; intros dense Hd.
  apply returns_checked; intros lexical Hl. eapply returns_bind; [apply graph_candidates_shown|]; intros graph Hg.
  eapply returns_bind; [apply fact_candidates_shown|]; intros fact Hf. apply returns_ret.
  repeat constructor; cbn; [by eapply dense_rows_shown|by eapply lexical_rows_shown|done..].
Qed.
End candidates.

(** ** From candidates to results *)

Definition keeps_conversation (row row' : candidate) : Prop := c_conversation row' = c_conversation row.
Lemma boosts_keep sr now_us query lists : ∀ boosts boosts' lists',
  _deterministic_ranking_boosts sr now_us query boosts lists = Ok (boosts', lists') →
  Forall2 (λ sl sl', sl'.1 = sl.1 ∧ Forall2 keeps_conversation sl.2 sl'.2) lists lists'.
Proof.
  assert (Hrows : ∀ rows b out b' out', fold_result (boost_row sr now_us query) (b, out) rows = Ok (b', out') →
    ∃ added, out' = out ++ added ∧ Forall2 keeps_conversation rows added).
  { induction rows as [|row rows IH]; cbn [fold_result]; intros b out b' out' Hr.
    - injection Hr as <- <-. exists []. by rewrite app_nil_r.
    - apply bind_Ok in Hr as ([b1 out1] & Hb & Hr). unfold boost_row in Hb. cbv zeta in Hb.
      apply bind_Ok in Hb as ([advanced x] & _ & Hb). cbn in Hb. injection Hb as <- <-.
      apply IH in Hr as (added & -> & Ha). exists (with_explanation x row :: added). rewrite <-app_assoc. split; [done|].
      constructor; [by destruct x|done]. }
  induction lists as [|[source rows] lists IH]; cbn [_deterministic_ranking_boosts]; intros boosts boosts' lists' Hr.
  - inv_ok. simplify_eq. constructor.
  - apply bind_Ok in Hr as ([b1 rows1] & Hb & Hr). apply bind_Ok in Hr as ([b2 lists2] & Hl & Hr). cbn in Hr. injection Hr as <- <-.
    apply Hrows in Hb as (added & -> & Ha). constructor; [done|]. by eapply IH.
Qed.
Lemma first_share_row source weight k key rows : ∀ start c, first_share source weight k start key rows = Some c → c.2 ∈ rows.
Proof.
  induction rows as [|row rows IH]; intros start c; cbn; [done|]. case_match; [intros [= <-]; by left|].
  intros ?%IH. by right.
Qed.
(** every ranked row is a row of some list *)
Lemma ranked_from_lists query ws k exact_terms reranker timeout limit text_limit boosts lists r :
  rank_candidate_lists query ws k exact_terms reranker timeout limit text_limit boosts lists = Ok r →
  ∀ row, row ∈ rows r → ∃ source l, (source, l) ∈ lists ∧ rk_row row ∈ l.
Proof.
  intros (fused & counts & Hf & Hp & _)%rank_facts row Hin. apply fusion_spec in Hf as (_ & Hrow & _).
  destruct (Hrow (rk_fused row)) as [_ (c & Hc & He)]; [rewrite <-Hp; apply elem_of_map; by exists row|].
  unfold rk_row. rewrite He. cbn [fu_row]. unfold shares in Hc. revert Hc. generalize (key_of (rk_fused row)). intros key Hc.
  assert (Hin' : c ∈ omap (λ sl, first_share sl.1 (source_weight ws sl.1) k 1 key sl.2) lists).
  { destruct (omap _ _) as [|c0 l]; [done|]. injection Hc as ->. by left. }
  apply list_elem_of_omap in Hin' as ([source l] & Hl & Hs). exists source, l. split; [done|].
  by eapply first_share_row.
Qed.

Section results.
Variable P : value → Prop.
Definition result_shows (r : result_row) : Prop := P (rr_conversation r).
(** a row and all it cites *)
Definition shaped_shows (s : shaped_row) : Prop :=
  result_shows (sh_row s) ∧ Forall (λ e, ∃ r, result_shows r ∧ e = _citation_from_row r) (sh_evidence_chunks s).

Lemma grouped_shows ranked : Forall (λ r, P (c_conversation (rk_row r))) ranked → Forall result_shows (group_conversation_results ranked).
Proof.
  intros Hr. apply Forall_forall. intros r Hin. unfold group_conversation_results in Hin.
  apply elem_of_map in Hin as (e & Hin & ->). rewrite sorted_on_perm in Hin.
  apply elem_of_lookup_imap in Hin as (i & x & -> & Hx). exact (Forall_lookup_1 _ _ _ _ Hr Hx).
Qed.
Lemma citations_show rows : Forall result_shows rows → Forall (λ e, ∃ r, result_shows r ∧ e = _citation_from_row r) (map _citation_from_row rows).
Proof. intros Hr. apply Forall_map. eapply Forall_impl; [exact Hr|]. intros r Hs. by exists r. Qed.
Lemma group_shows key rows k group : Forall result_shows rows → (k, group) ∈ grouped_by key rows → Forall result_shows group.
Proof.
  intros Hr (k' & _ & [= <- ->])%elem_of_map. apply Forall_forall. intros r [Hin _]%elem_of_filter_b.
  revert r Hin. by apply Forall_forall.
Qed.
Lemma modes_show rows mode : Forall result_shows rows → Forall shaped_shows (_apply_result_mode rows mode).
Proof.
  intros Hr. unfold _apply_result_mode. case_match; [|case_match].
  - apply Forall_map. eapply Forall_impl; [exact Hr|]. intros r Hs. by repeat constructor.
  - apply Forall_forall. intros s ([k group] & Hin & Hs)%list_elem_of_omap. apply (group_shows _ _ _ _ Hr) in Hin.
    unfold thread_row in Hs. apply bind_Some in Hs as (best & Hb & [= <-]). split; [|by apply citations_show].
    destruct group; [done|]. injection Hb as ->. by apply Forall_cons_1 in Hin as [].
  - apply Forall_forall. intros s ([k group] & Hin & Hs)%list_elem_of_omap. apply (group_shows _ _ _ _ Hr) in Hin.
    unfold compacted in Hs. apply bind_Some in Hs as (best & Hb & [= <-]). split; [|by apply citations_show].
    destruct group; [done|]. injection Hb as ->. apply Forall_cons_1 in Hin as []. cbn. by case_match.
Qed.
Lemma py_take_Forall {A} (Q : A → Prop) n (xs : list A) : Forall Q xs → Forall Q (py_take n xs).
Proof. intros Hx. apply Forall_forall. intros x Hin%py_take_sublist. revert x Hin. by apply Forall_forall. Qed.
End results.

(** ** Searching *)

Section searching.
Context `{HashLib} `{Environ} `{EmbeddingProvider} `{V : VectorStore} `{VS : !VectorSearch}.
Variable rt : RuntimeDependencies.
Variable sr : RetrievalRuntime.
Variables (now : instant) (now_us : Z).
Variable context : AuditContext.

(** The ranked rows of a search come from lists that show only what they may. *)
Lemma search_run event_ids request planned w outcome w' :
  search rt sr now now_us context event_ids request planned w = (Ok outcome, w') →
  ∃ project_id status_filter plan ranking,
    _validate_memory_status_filter (Some (q_memory_status request)) = Ok status_filter ∧
    match planned with
    | Some p => plan = p
    | None => plan_retrieval_query (q_query request) (q_filters request) (query_planner sr) (query_planner_timeout_seconds sr) now_us = Ok plan
    end ∧
    (∃ w1, resolve_project now context (event_ids 0%nat) (q_owner_id request) (q_project_id request) PROJECT_ROLE_READER w = (Ok project_id, w1)) ∧
    Forall (λ r, shown rt sr now context (q_owner_id request) project_id status_filter (conversation_filters (QueryPlan.filters plan))
                   (c_conversation (rk_row r))) (rows ranking) ∧
    so_results outcome = py_take (q_top_k request) (_apply_result_mode (group_conversation_results (rows ranking)) (q_result_mode request)).
Proof.
  unfold search. intros Hr. apply bind_run in Hr as ([] & ? & [_ ->]%lift_run & Hr).
  apply bind_run in Hr as (status & ? & [Hstatus ->]%lift_run & Hr). apply bind_run in Hr as (plan & ? & [Hplan ->]%lift_run & Hr).
  cbv zeta in Hr. apply bind_run in Hr as (project & w1 & Hproject & Hr). apply bind_run in Hr as ([lists vd] & w2 & Hlists & Hr).
  apply bind_run in Hr as ([boosts lists'] & ? & [Hb ->]%lift_run & Hr). apply bind_run in Hr as (ranking & ? & [Hrank ->]%lift_run & Hr).
  apply bind_run in Hr as ([] & ? & _ & [<- _]%ret_run). cbn [so_results].
  exists project, status, plan, ranking. split; [done|]. split; [destruct planned; [by injection Hplan|done]|]. split; [by exists w1|]. split; [|done].
  apply (collect_shown rt sr now context _ _ _ _ _ _ _ eq_refl) in Hlists. cbn [fst] in Hlists. apply Forall_forall. intros row Hrow.
  destruct (ranked_from_lists _ _ _ _ _ _ _ _ _ _ _ Hrank row Hrow) as (source & l & Hl & Hin).
  apply boosts_keep in Hb. apply list_elem_of_lookup in Hl as [i Hi].
  destruct (Forall2_lookup_r _ _ _ _ _ Hb Hi) as ([source' l'] & Hi' & _ & Hkeep). cbn in Hkeep.
  apply list_elem_of_lookup in Hin as [j Hj]. destruct (Forall2_lookup_r _ _ _ _ _ Hkeep Hj) as (row' & Hj' & ->).
  assert (Hall := Forall_lookup_1 _ _ _ _ Hlists Hi'). exact (Forall_lookup_1 _ _ _ _ Hall Hj').
Qed.
Lemma results_show (P : value → Prop) top_k ranked mode : Forall (λ r, P (c_conversation (rk_row r))) ranked →
  Forall (shaped_shows P) (py_take top_k (_apply_result_mode (group_conversation_results ranked) mode)).
Proof. intros Hr. apply py_take_Forall, modes_show, grouped_shows, Hr. Qed.


Lemma resolve_project_keeps_convs event_id o p role (w : World) :
  conversations (conv_db (w_hub (resolve_project now context event_id o p role w).2)) = conversations (conv_db (w_hub w)).
Proof.
  unfold resolve_project, in_hub. pose proof (resolve_project_convs now context event_id o p role (w_hub w)) as Hc.
  by destruct (_resolve_project _ _ _ _ _ _ _).
Qed.
Lemma store_get_run id (w : World) v w' : store_get id w = (Ok v, w') → w' = w ∧ (get (VStr id) (conv_db (w_hub w))).1 = Ok v.
Proof.
  unfold store_get. intros Hr. pose proof (in_convs_same (λ w, w) _ (get_moves eq (VStr id)) w) as Hs. rewrite Hr in Hs.
  split; [exact Hs|]. revert Hr. unfold in_convs, in_hub, on_conv. destruct (get _ _) as [r d]. cbn. congruence.
Qed.

End searching.

(** ** Widening a vector search *)

Section widening.
Context `{V : VectorStore} `{VS : !VectorSearch}.
Variables (qv : vector) (top_k : Z) (owner_id : option string) (project_id memory_status : string) (filters : ConversationFilters)
  (pushed residual : VectorSearchFilters).
Notation count matches := (_matching_vector_candidate_count matches owner_id project_id memory_status filters).
Notation from n k a := (candidates_from n qv top_k k a owner_id project_id memory_status filters pushed residual).

Lemma bind_ext {S A B} (m : M S A) (f g : A → M S B) s :
  (∀ a s', m s = (Ok a, s') → f a s' = g a s') → (m ≫= f) s = (m ≫= g) s.
Proof. unfold mbind, M_bind. destruct (m s) as [[a|e] s']; [|done]. by intros Hf; apply Hf. Qed.
Lemma count_nonneg matches (w : World) c w' : count matches w = (Ok c, w') → 0 <= c.
Proof.
  unfold _matching_vector_candidate_count. intros Hr. apply bind_run in Hr as (x & ? & _ & Hr).
  apply bind_run in Hr as (y & ? & _ & Hr). apply ret_run in Hr as [<- _]. lia.
Qed.
Lemma candidates_from_S n k a : from (S n) k a = (matches ← in_vectors (vs_search qv k pushed);
  if is_empty residual then mret (matches, k, a + 1) else
  c ← count matches;
  if top_k <=? c then mret (matches, k, a + 1) else
  if (Z.of_nat (length matches) <? k) || (_MAX_FILTER_FALLBACK_CANDIDATES <=? k) then mret (matches, k, a + 1) else
  from n (Z.min (k * 2) _MAX_FILTER_FALLBACK_CANDIDATES) (a + 1)).
Proof. reflexivity. Qed.
(** [k] doubles: with [2 ^ j] steps of it past the last limit, [j + 1] attempts do *)
Lemma fuel_enough n : ∀ k a m w, (S n <= m)%nat → top_k <= 0 ∨ 1 <= k ∧ _MAX_FILTER_FALLBACK_CANDIDATES <= k * 2 ^ Z.of_nat n →
  from m k a w = from (S n) k a w.
Proof.
  induction n as [|n IH]; intros k a m w Hm Hk; (destruct m as [|m]; [lia|]); rewrite (candidates_from_S m).
  1: rewrite (candidates_from_S 0). 2: rewrite (candidates_from_S (S n)).
  all: apply bind_ext; intros matches w1 _.
  all: destruct (is_empty residual); [done|]; apply bind_ext; intros c w2 Hc%count_nonneg; case_match; [done|]; case_match; [done|].
  all: match goal with Hs : (_ <=? _) = false, He : (_ || _) = false |- _ => apply Z.leb_gt in Hs; apply orb_false_iff in He as [_ He%Z.leb_gt] end.
  - rewrite Z.pow_0_r in Hk. lia.
  - apply IH; [lia|]. unfold _MAX_FILTER_FALLBACK_CANDIDATES in *. right. destruct Hk as [?|[Hk Hp]]; [lia|]; rewrite Nat2Z.inj_succ, Z.pow_succ_r in Hp by lia.
    split; [lia|]. assert (1 <= 2 ^ Z.of_nat n) by (apply (Z.pow_le_mono_r 2 0); lia). nia.
Qed.
Lemma enough_or_all n : ∀ k a w matches k' a' w', from n k a w = (Ok (matches, k', a'), w') →
  a < a' <= a + Z.of_nat n ∧ k' <= Z.max k _MAX_FILTER_FALLBACK_CANDIDATES ∧
  (∃ v v', vs_search qv k' pushed v = (Ok matches, v')) ∧
  (is_empty residual = true ∨ (∃ w1 c w2, count matches w1 = (Ok c, w2) ∧ top_k <= c) ∨ Z.of_nat (length matches) < k' ∨
   _MAX_FILTER_FALLBACK_CANDIDATES <= k').
Proof.
  induction n as [|n IH]; intros k a w matches k' a' w' Hr; [done|rewrite candidates_from_S in Hr].
  apply bind_run in Hr as (found & w1 & Hf & Hr).
  assert (Hf' : ∃ v v', vs_search qv k pushed v = (Ok found, v')).
  { unfold in_vectors in Hf. exists (w_vectors w), (vs_search qv k pushed (w_vectors w)).2. destruct (vs_search _ _ _ _). cbn. congruence. }
  assert (Hstop : ∀ w'', (mret (found, k, a + 1) : M World _) w'' = (Ok (matches, k', a'), w') → found = matches ∧ k' = k ∧ a' = a + 1).
  { intros w'' [Hq _]%ret_run. by injection Hq as -> -> ->. }
  destruct (is_empty residual); [apply Hstop in Hr as (-> & -> & ->); repeat split; auto; lia|].
  apply bind_run in Hr as (c & w2 & Hc & Hr).
  destruct (Z.leb_spec top_k c); [apply Hstop in Hr as (-> & -> & ->); repeat split; eauto 10; lia|].
  destruct (_ || _) eqn:E; [apply Hstop in Hr as (-> & -> & ->); repeat split; auto; [lia..|]|].
  - right. right. apply orb_true_iff in E as [?%Z.ltb_lt|?%Z.leb_le]; [by left|by right].
  - apply IH in Hr as (Ha & Hk & Hs & Hw). split; [lia|]. split; [lia|]. by split.
Qed.

(** The widening of a filtered vector search stops: the fuel of the model is
    enough, as any more of it changes nothing; there are at most twelve
    attempts, the limit never exceeds the first one or 1000, and the candidates
    of the last attempt stand: either nothing was left to filter, or enough of
    them pass, or the store has no more, or the limit is reached. *)
Theorem widening_stops multiplier w : 1 <= multiplier →
  let first := first_limit top_k multiplier residual in
  (∀ fuel, (candidate_fuel <= fuel)%nat → from fuel first 0 w = from candidate_fuel first 0 w) ∧
  (∀ matches k a w', from candidate_fuel first 0 w = (Ok (matches, k, a), w') →
    1 <= a <= 12 ∧ k <= Z.max first _MAX_FILTER_FALLBACK_CANDIDATES ∧
    (∃ v v', vs_search qv k pushed v = (Ok matches, v')) ∧
    (is_empty residual = true ∨ (∃ w1 c w2, count matches w1 = (Ok c, w2) ∧ top_k <= c) ∨ Z.of_nat (length matches) < k ∨
     _MAX_FILTER_FALLBACK_CANDIDATES <= k)).
Proof.
  intros Hm first. split.
  - intros fuel Hf. apply (fuel_enough 11); [done|]. destruct (Z.le_gt_cases top_k 0) as [|Ht]; [by left|right].
    assert (1 <= first) by (unfold first, first_limit, _MAX_FILTER_FALLBACK_CANDIDATES; destruct (is_empty residual); nia).
    unfold _MAX_FILTER_FALLBACK_CANDIDATES. change (2 ^ Z.of_nat 11) with 2048. lia.
  - intros matches k a w' Hr. apply enough_or_all in Hr as (Ha & Hk & Hs & Hw). split; [unfold candidate_fuel in Ha; lia|]. by split.
Qed.
End widening.

Lemma residual_status `{V : VectorStore} owner_id requested project_id memory_status filters names : "memory_status" ∉ names →
  is_empty (without names (_vector_search_filters owner_id requested project_id memory_status filters)) = false.
Proof.
  intros Hn. assert (He : existsb (String.eqb "memory_status") names = false).
  { destruct (existsb _ _) eqn:E; [|done]. apply existsb_exists in E as (n & Hin & <-%String.eqb_eq). by apply list_elem_of_In in Hin. }
  match goal with |- is_empty ?f = false => assert (Hl : "memory_status" ∈ fields f) end.
  { apply elem_of_dedup, elem_of_app. left. apply elem_of_map. exists ("memory_status", memory_status). split; [|done].
    apply elem_of_filter_b. split; [right; left|cbv beta; cbn [fst]; by rewrite He]. }
  unfold is_empty. destruct (fields _); [by apply elem_of_nil in Hl|done].
Qed.

Section many.
Context `{V : VectorStore} `{VS : !VectorSearch}.
Lemma get_many_refused (ids : list value) (w : World) : _MAX_GET_MANY_IDS < Z.of_nat (length ids) →
  in_convs (get_many ids) w = (Raise (ValueError ("Too many ids requested: " +:+ str_of_Z (Z.of_nat (length ids)) +:+ " > 500")), w).
Proof.
  intros Hn. destruct w as [[d l] fs su vs]. unfold in_convs, in_hub, on_conv. cbn [w_hub conv_db].
  assert (Hg : get_many ids d = (Raise (ValueError ("Too many ids requested: " +:+ str_of_Z (Z.of_nat (length ids)) +:+ " > 500")), d)).
  { unfold get_many. destruct (Z.eqb_spec (Z.of_nat (length ids)) 0); [unfold _MAX_GET_MANY_IDS in Hn; lia|].
    apply Z.ltb_lt in Hn. unfold guard_err. by rewrite Hn. }
  by rewrite Hg.
Qed.

(** A defect: when an attempt of a vector search answers with chunks of more
    than 500 different memories, the search raises instead of showing the
    memories that pass: the fallback widens up to 1000 candidates, and every
    store that does not filter by status falls back, but the metadata store
    refuses to read more than 500 conversations at once. *)
Theorem many_candidates_raise fuel (qv : vector) top_k k attempts owner_id requested project_id memory_status filters (w : World) matches v :
  let vector_filters := _vector_search_filters owner_id requested project_id memory_status filters in
  let pushed := only vector_filter_fields vector_filters in
  let ids := _unique_strings (map h_memory_id matches) in
  "memory_status" ∉ vector_filter_fields →
  vs_search qv k pushed (w_vectors w) = (Ok matches, v) →
  _MAX_GET_MANY_IDS < Z.of_nat (length ids) →
  ∃ w', candidates_from (S fuel) qv top_k k attempts owner_id project_id memory_status filters pushed
          (without vector_filter_fields vector_filters) w =
    (Raise (ValueError ("Too many ids requested: " +:+ str_of_Z (Z.of_nat (length ids)) +:+ " > 500")), w').
Proof.
  intros vf pushed ids Hs Hm Hn. apply (residual_status owner_id requested project_id memory_status filters) in Hs. fold vf in Hs.
  set (w1 := mk_world _ (w_hub w) (w_facts w) (w_summaries w) v). exists w1.
  assert (Hr : in_vectors (vs_search qv k pushed) w = (Ok matches, w1)) by (unfold in_vectors; by rewrite Hm).
  assert (Hc : _matching_vector_candidate_count matches owner_id project_id memory_status filters w1 =
    (Raise (ValueError ("Too many ids requested: " +:+ str_of_Z (Z.of_nat (length ids)) +:+ " > 500")), w1)).
  { unfold _matching_vector_candidate_count. unfold mbind, M_bind at 1. fold ids. rewrite get_many_refused; rewrite length_map; done. }
  rewrite candidates_from_S. unfold mbind, M_bind. rewrite Hr, Hs, Hc. done.
Qed.
End many.

(** ** Result modes *)

Section modes.
Variable key : result_row → string.
Notation having k rows := (List.filter (λ r, String.eqb (key r) k) rows).
Lemma groups_other r rows ks : key r ∉ ks → flat_map (λ k, having k (r :: rows)) ks = flat_map (λ k, having k rows) ks.
Proof.
  induction ks as [|k ks IH]; [done|]. intros [Hk Hn]%not_elem_of_cons. cbn [flat_map]. rewrite IH by done.
  cbn [List.filter]. apply String.eqb_neq in Hk. by rewrite Hk.
Qed.
Lemma groups_cons r rows ks : NoDup ks → key r ∈ ks → flat_map (λ k, having k (r :: rows)) ks ≡ₚ r :: flat_map (λ k, having k rows) ks.
Proof.
  induction 1 as [|k ks Hk Hn IH]; [by intros ?%elem_of_nil|]. intros [<-|Hin]%elem_of_cons; cbn [flat_map].
  - rewrite groups_other by done. cbn [List.filter]. by rewrite String.eqb_refl.
  - rewrite IH by done. cbn [List.filter].
    assert (String.eqb (key r) k = false) as -> by (apply String.eqb_neq; set_solver). symmetry. apply Permutation_middle.
Qed.
Lemma groups_perm rows ks : NoDup ks → (∀ r, r ∈ rows → key r ∈ ks) → flat_map (λ k, having k rows) ks ≡ₚ rows.
Proof.
  intros Hn. induction rows as [|r rows IH]; intros Hin.
  - clear. induction ks; [done|]. exact IHks.
  - rewrite groups_cons by (try done; apply Hin; by left). constructor. apply IH. intros x Hx. apply Hin. by right.
Qed.
Lemma grouped_rows rows : flat_map snd (grouped_by key rows) ≡ₚ rows.
Proof.
  unfold grouped_by. rewrite flat_map_concat_map, map_map, <-flat_map_concat_map. apply groups_perm; [apply NoDup_dedup|].
  intros r Hr. apply elem_of_dedup, elem_of_map. by exists r.
Qed.
Lemma grouped_keys rows : map fst (grouped_by key rows) = dedup (map key rows).
Proof. unfold grouped_by. rewrite map_map. apply map_id. Qed.
(** groups are not empty, and hold rows of their key *)
Lemma group_head rows k group : (k, group) ∈ grouped_by key rows → ∃ best rest, group = best :: rest ∧ key best = k.
Proof.
  intros (k' & Hk & [= <- ->])%elem_of_map. apply elem_of_dedup, elem_of_map in Hk as (r & Hr & Hk).
  destruct (having k rows) as [|best rest] eqn:E.
  - assert (Hin : r ∈ having k rows) by (apply elem_of_filter_b; split; [done|by apply String.eqb_eq]). by rewrite E in Hin; apply elem_of_nil in Hin.
  - exists best, rest. split; [done|]. assert (Hin : best ∈ having k rows) by (rewrite E; by left).
    apply elem_of_filter_b in Hin as [_ Hin]. by apply String.eqb_eq.
Qed.

(** A result mode makes one row of each group. *)
Variable shape : string * list result_row → option shaped_row.
(** the row shows the best of its group and cites all of it *)
Definition shapes (key_of : shaped_row → string) : Prop := ∀ k best rest, key best = k → ∃ s, shape (k, best :: rest) = Some s ∧
  key_of s = k ∧ sh_evidence_chunks s = map _citation_from_row (best :: rest) ∧
  sh_matching_chunks s = Some (Z.of_nat (length (best :: rest))) ∧
  rr_id (sh_row s) = rr_id best ∧ rr_score (sh_row s) = rr_score best ∧ rr_conversation (sh_row s) = rr_conversation best.
Definition cites_all (key_of : shaped_row → string) (rows : list result_row) (out : list shaped_row) : Prop :=
  flat_map sh_evidence_chunks out ≡ₚ map _citation_from_row rows ∧
  map key_of out = dedup (map key rows) ∧
  Forall (λ s, sh_matching_chunks s = Some (Z.of_nat (length (sh_evidence_chunks s))) ∧
    ∃ best, best ∈ rows ∧ head (sh_evidence_chunks s) = Some (_citation_from_row best) ∧ rr_id (sh_row s) = rr_id best ∧
      rr_score (sh_row s) = rr_score best ∧ rr_conversation (sh_row s) = rr_conversation best) out.
Lemma shapes_cite key_of rows : shapes key_of → cites_all key_of rows (omap shape (grouped_by key rows)).
Proof.
  intros Hs. unfold cites_all. rewrite <-grouped_keys.
  assert (Hp : map _citation_from_row (flat_map snd (grouped_by key rows)) ≡ₚ map _citation_from_row rows).
  { exact (fmap_Permutation _citation_from_row _ _ (grouped_rows rows)). }
  rewrite <-Hp. clear Hp.
  assert (Hsub : ∀ kg, kg ∈ grouped_by key rows → ∀ r, r ∈ kg.2 → r ∈ rows).
  { intros kg Hkg r Hr. rewrite <-(grouped_rows rows). apply elem_of_flat_map. by exists kg. }
  assert (Hall : ∀ kg, kg ∈ grouped_by key rows → ∃ best rest, kg.2 = best :: rest ∧ key best = kg.1).
  { intros [k g]. apply group_head. }
  induction (grouped_by key rows) as [|[k g] l IH]; [by repeat constructor|].
  destruct (Hall (k, g)) as (best & rest & Hg & Hk); [by left|]. cbn in Hg, Hk. subst g.
  destruct (Hs k best rest Hk) as (s & Hshape & Hkey & Hev & Hm & Hid & Hscore & Hc).
  destruct IH as (IH1 & IH2 & IH3); [intros kg ?; apply Hsub; by right|intros kg ?; apply Hall; by right|].
  cbn [omap list_omap]. rewrite Hshape. cbn [flat_map map fst snd]. rewrite map_app, IH2, Hkey, Hev. split; [by apply Permutation_app|].
  split; [done|]. constructor; [|done]. rewrite Hm, Hev, length_map. split; [done|]. exists best. split; [|by rewrite Hid].
  apply (Hsub (k, best :: rest)); by left.
Qed.
End modes.

Definition thread_of (r : result_row) : string := _thread_id_from_conversation (rr_conversation r).
Lemma compacted_shapes mode : shapes rr_id (λ kg, compacted mode kg.2) (λ s, rr_id (sh_row s)).
Proof. intros k best rest Hk. eexists. split; [done|]. by case_match. Qed.
Lemma thread_shapes : shapes thread_of (λ kg, thread_row kg.1 kg.2) (λ s, default  EmptyString (sh_thread_id s)).
Proof. intros k best rest Hk. eexists. split; [done|]. done. Qed.

(** A result mode that groups chunks loses none and invents none: over all its
    rows, the citations are those of the ranked chunks, each exactly once; there
    is one row for each memory (or thread), in the order in which the ranking
    first names it; each row shows its best chunk's memory, score and
    conversation, and counts the chunks it cites. *)
Theorem modes_cite_every_chunk rows mode : mode ∈ [COMPACT; CONVERSATIONS; THREADS] →
  let out := _apply_result_mode rows mode in
  if String.eqb mode THREADS then cites_all thread_of (λ s, default EmptyString (sh_thread_id s)) rows out
  else cites_all rr_id (λ s, rr_id (sh_row s)) rows out.
Proof.
  intros Hm out. unfold out, _apply_result_mode, _thread_result_rows. clear out. repeat (apply elem_of_cons in Hm as [-> |Hm]); cbn [String.eqb].
  4: by apply elem_of_nil in Hm.
  1, 2: exact (shapes_cite rr_id _ _ rows (compacted_shapes _)).
  exact (shapes_cite thread_of _ _ rows thread_shapes).
Qed.

(** ** A search of the small hub *)

Module SearchSamples.
Import Sample Pipeline.
#[local] Existing Instance index.
#[local] Instance searched : @VectorSearch index := InMemorySearch 2.
Definition weights : MemoryScoringWeights := mk_weights (float_near 1) (float_near 1) (float_near 1) (float_near 1).
Definition retrieval : RetrievalRuntime := mk_retrieval 4 true 50 50 (decimal 6 1) (float_near 1) (float_near 1) (float_near 1) (float_near 1)
  false false 60 None (decimal 5 1) 25 2000 None (decimal 5 1) false weights.
Definition request (query : string) (mode : string) : SearchRequest :=
  mk_request query 5 mode None None "active" no_filters true.
Notation run query mode w :=
  (@search sample_hashlib embedder index searched runtime retrieval noon 0 service (λ i, event (str_of_Z (Z.of_nat i))) (request query mode) None w).
Definition shown_texts (r : result SearchOutcome) : list string :=
  match r with Ok o => map (λ s, rr_text (sh_row s)) (so_results o) | Raise _ => ["raised"] end.
Example two_chunks : shown_texts (run "Where do I live in Paris" CHUNKS talked).1 = ["I live in Paris."; "The hub uses Postgres."].
Proof. vm_compute. reflexivity. Qed.
Example one_memory : shown_texts (run "Postgres hub" CONVERSATIONS talked).1 = ["Hub: 2 matching chunk(s)"].
Proof. vm_compute. reflexivity. Qed.
Example nothing_yet : shown_texts (run "Postgres hub" CHUNKS empty_world).1 = [].
Proof. vm_compute. reflexivity. Qed.

Definition two_results (r : result SearchOutcome) : bool := match r with Ok o => Nat.eqb (length (so_results o)) 2 | Raise _ => false end.

Notation retrieving owner := (@retrieve sample_hashlib index runtime noon service (event "5") memory_id owner None "active" talked).
Definition found (r : result (option dict)) : bool := match r with Ok (Some _) => true | _ => false end.
Definition not_found (r : result (option dict)) : bool := match r with Ok None => true | _ => false end.
(** another caller, in a project of her own, is told that there is no such memory *)
Example hidden_from_others : not_found (retrieving (Some "mallory")).1 = true.
Proof. vm_compute. reflexivity. Qed.

Definition vector_filters : VectorSearchFilters := _vector_search_filters None None "local-default" "active" (conversation_filters no_filters).
Notation residual := (without vector_filter_fields vector_filters).
Notation widened fuel := (@candidates_from index searched fuel ["0.5"; "0.25"] 5 (first_limit 5 4 residual) 0 None "local-default" "active"
  (conversation_filters no_filters) (only vector_filter_fields vector_filters) residual talked).
Lemma widening_stops_witness : 1 <= 4 ∧ widened 50%nat = widened candidate_fuel.
Proof.
  split; [lia|]. refine (proj1 (@widening_stops index searched ["0.5"; "0.25"] 5 None "local-default" "active" (conversation_filters no_filters)
    (only vector_filter_fields vector_filters) residual 4 talked _) 50%nat _); [lia|unfold candidate_fuel; lia].
Defined.

(** chunks of 501 memories *)
Definition crowd : @World index := mk_world index (w_hub empty_world) (w_facts empty_world) (w_summaries empty_world)
  (map (λ i, mk_vector_row (str_of_Z (Z.of_nat i)) "local-default" "" ("c" +:+ str_of_Z (Z.of_nat i)) 0 "" "user" "hello" ["0.5"; "0.25"]) (seq 0 501)).
Notation crowded := (vs_search ["0.5"; "0.25"] 800 (only vector_filter_fields vector_filters) (w_vectors crowd)).
Notation attempt w := (candidates_from 11 ["0.5"; "0.25"] 100 800 1 None "local-default" "active" (conversation_filters no_filters)
  (only vector_filter_fields vector_filters) residual w).
Definition ids_of_matches (r : result (list vector_match)) : list string := match r with Ok l => _unique_strings (map h_memory_id l) | Raise _ => [] end.
(** the second attempt of the largest request a client can make *)
Lemma many_candidates_raise_witness : ∃ w', attempt crowd = (Raise (ValueError "Too many ids requested: 501 > 500"), w').
Proof.
  assert (Hs : length (ids_of_matches crowded.1) = 501%nat) by (vm_compute; reflexivity).
  destruct crowded as [[matches|e] v] eqn:E; [|discriminate Hs]. cbn [fst ids_of_matches] in Hs.
  destruct (many_candidates_raise 10 ["0.5"; "0.25"] 100 800 1 None None "local-default" "active" (conversation_filters no_filters) crowd matches v)
    as (w' & Hw).
  - apply (bool_decide_unpack _). vm_compute. exact I.
  - exact E.
  - rewrite Hs. reflexivity.
  - exists w'. rewrite Hs in Hw. exact Hw.
Defined.

Definition hit (id : string) (index : Z) (thread : string) : result_row :=
  mk_result_row id (float_near index) index "user" "text" (VDict [("id", VStr id); ("metadata", VDict [("thread_id", VStr thread)])]) None fzero 1.
Definition hits : list result_row := [hit "m2" 0 "a"; hit "m1" 3 "b"; hit "m2" 1 "a"; hit "m3" 0 "a"].
Example two_threads : map (λ s, (sh_thread_id s, sh_thread_conversation_ids s)) (_apply_result_mode hits THREADS) = [(Some "a", ["m2"; "m3"]); (Some "b", ["m1"])].
Proof. vm_compute. reflexivity. Qed.
Lemma modes_cite_every_chunk_witness : COMPACT ∈ [COMPACT; CONVERSATIONS; THREADS] ∧
  map (λ s, rr_id (sh_row s)) (_apply_result_mode hits COMPACT) = ["m2"; "m1"; "m3"].
Proof.
  assert (Hm : COMPACT ∈ [COMPACT; CONVERSATIONS; THREADS]) by left. split; [exact Hm|].
  exact (proj1 (proj2 (modes_cite_every_chunk hits COMPACT Hm))).
Defined.
End SearchSamples.
