(* ===== verification/Pydantic.v ===== *)
(** * Models read from JSON values

    How pydantic reads the fields of a model from a JSON value in its lax mode,
    and that what it wrote it reads as itself.  The models are in the files that
    use them. *)
From Stdlib Require Import ZArith Lia Ascii.
From S2P Require Import Prelude PyStr Json QueryPlan.
Local Open Scope Z_scope.

(** ** Readers *)

(** A [ValidationError], which is a [ValueError]. *)
Definition validation_error {A} : result A := Raise (ValueError "ValidationError").
Definition reader : Type := value → result value.
Definition read_text : reader := λ v, match v with VStr _ => Ok v | _ => validation_error end.
(** [Field(min_length=1)] *)
Definition read_text1 : reader := λ v, match v with VStr s => if String.eqb s "" then validation_error else Ok v | _ => validation_error end.
(** An enumeration, or a validator with a set of texts. *)
Definition read_choice (choices : list string) : reader := λ v,
  match v with VStr s => if existsb (String.eqb s) choices then Ok v else validation_error | _ => validation_error end.
(** [int] with [Field(ge=least)]; numbers in texts and floats are not modelled. *)
Definition read_int (least : Z) : reader := λ v,
  let checked (z : Z) := if z <? least then validation_error else Ok (VInt z) in
  match v with
  | VInt z => checked z
  | VBool b => checked (if b then 1 else 0)
  | VFloat _ | VStr _ => Raise OutsideModel
  | _ => validation_error
  end.
(** [int] without a bound *)
Definition read_any_int : reader := λ v,
  match v with
  | VInt z => Ok v
  | VBool b => Ok (VInt (if b then 1 else 0))
  | VFloat _ | VStr _ => Raise OutsideModel
  | _ => validation_error
  end.
Definition read_float : reader := λ v,
  let of_int (z : Z) := let t := str_of_Z z +:+ ".0" in if float_text t then Ok (VFloat t) else Raise OutsideModel in
  match v with
  | VFloat t => Ok v
  | VInt z => of_int z
  | VBool b => of_int (if b then 1 else 0)
  | VStr _ => Raise OutsideModel
  | _ => validation_error
  end.
Definition read_bool : reader := λ v, b ← lax_bool v; Ok (VBool b).
Definition optional (r : reader) : reader := λ v, match v with VNone => Ok VNone | _ => r v end.
Definition list_of (r : reader) : reader := λ v, match v with VList l => l ← map_result r l; Ok (VList l) | _ => validation_error end.

(** A field: its name, its default and its type. *)
Record model_field := mk_field { fd_name : string; fd_default : option value; fd_reader : reader }.
Definition required (k : string) (r : reader) : model_field := mk_field k None r.
Definition optional_text_field (k : string) : model_field := mk_field k (Some VNone) (optional read_text).
(** [str | list[Any]] *)
Definition read_text_or_list : reader := λ v, match v with VStr _ | VList _ => Ok v | _ => validation_error end.
Definition read_list : reader := λ v, match v with VList _ => Ok v | _ => validation_error end.
Definition read_field (d : dict) (f : model_field) : result (string * value) :=
  match dict_get (fd_name f) d, fd_default f with
  | Some v, _ => w ← fd_reader f v; Ok (fd_name f, w)
  | None, Some v => Ok (fd_name f, v)
  | None, None => validation_error
  end.
(** A model that ignores other keys. *)
Definition read_open_model (fields : list model_field) : reader := λ v,
  match v with VDict d => d ← map_result (read_field d) fields; Ok (VDict d) | _ => validation_error end.
(** [model_validate(v).model_dump(mode='json')] of a model with these fields that
    forbids others. *)
Definition read_model (fields : list model_field) : reader := λ v,
  match v with
  | VDict d =>
      if forallb (λ k, existsb (String.eqb k) (map fd_name fields)) (dict_keys d)
      then d ← map_result (read_field d) fields; Ok (VDict d) else validation_error
  | _ => validation_error
  end.


(** ** What a reader yields *)

(** What a reader yields it reads as itself, and it makes no ill-formed value. *)
Definition good (r : reader) : Prop := ∀ v w, r v = Ok w → r w = Ok w ∧ (wf_value v → wf_value w).
Definition good_field (f : model_field) : Prop :=
  good (fd_reader f) ∧ match fd_default f with Some v => fd_reader f v = Ok v ∧ wf_value v | None => True end.
Create HintDb reads discriminated.

Lemma good_text : good read_text.
Proof. intros [] w Hr; try discriminate. by injection Hr as <-. Qed.
Lemma good_text1 : good read_text1.
Proof. intros [] w Hr; try discriminate. cbn in *. destruct (String.eqb _ _) eqn:E; [discriminate|]. injection Hr as <-. cbn. by rewrite E. Qed.
Lemma good_choice l : good (read_choice l).
Proof. intros [] w Hr; try discriminate. cbn in *. destruct (existsb _ _) eqn:E; [|discriminate]. injection Hr as <-. cbn. by rewrite E. Qed.
Lemma good_int n : good (read_int n).
Proof.
  intros v w Hr. unfold read_int in *. destruct v; try discriminate; cbv zeta in *; destruct (_ <? _) eqn:E in Hr; try discriminate; injection Hr as <-; by rewrite E.
Qed.
Lemma good_float : good read_float.
Proof.
  intros v w Hr. unfold read_float in *. destruct v; try discriminate; cbv zeta in *.
  1, 2: destruct (float_text _) eqn:E in Hr; [|discriminate]; injection Hr as <-; by split.
  by injection Hr as <-.
Qed.
Lemma good_bool : good read_bool.
Proof. intros v w Hr. apply bind_Ok in Hr as (b & _ & [= <-]). by split. Qed.
Lemma good_optional r : good r → good (optional r).
Proof.
  intros Hg v w Hr. assert (Hv : v = VNone ∧ w = VNone ∨ r v = Ok w) by (destruct v; [left; by injection Hr as <-|right; exact Hr..]).
  destruct Hv as [[-> ->]|Hv]; [done|]. destruct (Hg _ _ Hv) as [Hs Hwf]. split; [|done]. by destruct w.
Qed.
Lemma map_result_of {A B} (f : A → result B) l ys : Forall2 (λ x y, f x = Ok y) l ys → map_result f l = Ok ys.
Proof. induction 1 as [|x y l ys Hx _ IH]; [done|]. cbn. rewrite Hx. cbn. by rewrite IH. Qed.
Lemma good_list r : good r → good (list_of r).
Proof.
  intros Hg v w Hr. destruct v as [| | | | |l|]; try discriminate. apply bind_Ok in Hr as (l' & Hl & [= <-]). apply map_result_Forall2 in Hl.
  cbn [list_of]. rewrite (map_result_of r l' l').
  - split; [done|]. rewrite !wf_list. intros Hw. induction Hl as [|x y l l' Hxy Hl IH]; constructor; apply Forall_cons in Hw as [Hx Hw]; [|auto].
    by apply (Hg x y Hxy).
  - clear -Hl Hg. induction Hl as [|x y l l' Hxy Hl IH]; constructor; [|done]. by apply (Hg x y).
Qed.
#[export] Hint Resolve good_text good_text1 good_choice good_int good_float good_bool good_optional good_list : reads.

(** ** What a model yields *)

Definition names (fields : list model_field) : list string := map fd_name fields.
(** An object as a model writes it: its fields in order, each read as itself. *)
Definition fixed (f : model_field) (kv : string * value) : Prop := kv.1 = fd_name f ∧ fd_reader f kv.2 = Ok kv.2.
Definition instance (fields : list model_field) (d : dict) : Prop := Forall2 fixed fields d.

Lemma instance_keys fields d : instance fields d → dict_keys d = names fields.
Proof. unfold dict_keys, names. by induction 1 as [|f [k v] fields d [Hk _] _ IH]; cbn in *; [|rewrite Hk, IH]. Qed.
Lemma instance_get fields d f : NoDup (names fields) → instance fields d → f ∈ fields →
  ∃ w, dict_get (fd_name f) d = Some w ∧ fd_reader f w = Ok w.
Proof.
  intros Hn Hi Hf. induction Hi as [|g [k v] fields d [Hk Hv] _ IH]; [by apply elem_of_nil in Hf|]. cbn in Hk, Hv. subst k.
  apply NoDup_cons in Hn as [Hg Hn]. cbn. apply elem_of_cons in Hf as [-> |Hf]; [rewrite String.eqb_refl; by exists v|].
  destruct (String.eqb (fd_name f) (fd_name g)) eqn:E; [|by apply IH]. apply String.eqb_eq in E. destruct Hg. rewrite <-E.
  apply elem_of_map. by exists f.
Qed.
Lemma instance_read fields d : NoDup (names fields) → instance fields d → read_model fields (VDict d) = Ok (VDict d).
Proof.
  intros Hn Hi. cbn. rewrite (instance_keys _ _ Hi).
  assert (Hk : forallb (λ k, existsb (String.eqb k) (map fd_name fields)) (names fields) = true).
  { apply forallb_forall. intros k Hk. apply existsb_exists. exists k. split; [exact Hk|apply String.eqb_refl]. }
  rewrite Hk. enough (Hm : map_result (read_field d) fields = Ok d) by by rewrite Hm.
  apply map_result_of. apply Forall2_same_length_lookup_2; [by eapply Forall2_length|]. intros i f [k v] Hf Hkv.
  destruct (Forall2_lookup_lr _ _ _ _ _ _ Hi Hf Hkv) as [Hkf Hv]. cbn in *. subst k. apply list_elem_of_lookup_2 in Hkv.
  unfold read_field. rewrite (dict_get_elem d (fd_name f) v) by (done || by rewrite (instance_keys _ _ Hi)). cbn. by rewrite Hv.
Qed.
Lemma read_instance fields d e : NoDup (names fields) → Forall good_field fields → read_model fields (VDict d) = Ok e →
  ∃ e', e = VDict e' ∧ instance fields e' ∧ (wf_value (VDict d) → wf_value e) ∧
    ∀ f v w, f ∈ fields → dict_get (fd_name f) d = Some v → fd_reader f v = Ok w → dict_get (fd_name f) e' = Some w.
Proof.
  intros Hn Hg Hr. cbn in Hr. destruct (forallb _ _) in Hr; [|discriminate]. apply bind_Ok in Hr as (e' & He & [= <-]). exists e'. split; [done|].
  apply map_result_Forall2 in He.
  assert (Hi : instance fields e').
  { clear Hn. induction He as [|f kv fields e' Hf _ IH]; constructor; apply Forall_cons in Hg as [[Hr Hdef] Hg]; [|by apply IH].
    unfold read_field in Hf. destruct (dict_get _ _) as [v|] eqn:Hd.
    - apply bind_Ok in Hf as (w & Hw & [= <-]). by split; [|apply (Hr v w)].
    - destruct (fd_default f) as [v|]; [|discriminate]. injection Hf as <-. split; [done|apply Hdef]. }
  split; [done|]. split.
  - rewrite !wf_dict, (instance_keys _ _ Hi). intros Hwf. split; [done|]. clear Hi Hn.
    induction He as [|f kv fields e' Hf _ IH]; constructor; apply Forall_cons in Hg as [[Hr Hdef] Hg]; [|by apply IH].
    unfold read_field in Hf. destruct (dict_get _ _) as [v|] eqn:Hd.
    + apply bind_Ok in Hf as (w & Hw & [= <-]). apply (Hr v w Hw). exact (wf_dict_get _ _ _ (proj2 (wf_dict d) Hwf) Hd).
    + destruct (fd_default f) as [v|]; [|discriminate]. injection Hf as <-. apply Hdef.
  - intros f v w Hf Hd Hw. destruct (list_elem_of_lookup_1 _ _ Hf) as [i Hi']. destruct (Forall2_lookup_l _ _ _ _ _ He Hi') as (kv & Hkv & Hrf).
    unfold read_field in Hrf. rewrite Hd in Hrf. cbn in Hrf. rewrite Hw in Hrf. injection Hrf as <-. apply dict_get_elem; [by rewrite (instance_keys _ _ Hi)|].
    by eapply list_elem_of_lookup_2.
Qed.
(** The field of a model that ignores other keys *)
Lemma read_open_get fields r v f : NoDup (names fields) → f ∈ fields → read_open_model fields (VDict r) = Ok v →
  ∃ d w, v = VDict d ∧ dict_get (fd_name f) d = Some w ∧
    match dict_get (fd_name f) r with Some x => fd_reader f x = Ok w | None => fd_default f = Some w end.
Proof.
  intros Hn Hf Hr. cbn in Hr. apply bind_Ok in Hr as (d & Hd & [= <-]). exists d. apply map_result_Forall2 in Hd.
  assert (Hk : dict_keys d = names fields).
  { clear -Hd. unfold dict_keys, names. induction Hd as [|g kv fields d Hg _ IH]; cbn; [done|]. f_equal; [|done].
    unfold read_field in Hg. destruct (dict_get _ _); [apply bind_Ok in Hg as (w & _ & [= <-])|destruct (fd_default g); [injection Hg as <-|discriminate]]; done. }
  destruct (list_elem_of_lookup_1 _ _ Hf) as [i Hi]. destruct (Forall2_lookup_l _ _ _ _ _ Hd Hi) as ([k w] & Hkv & Hrf). exists w. split; [done|].
  assert (Hkw : k = fd_name f ∧ match dict_get (fd_name f) r with Some x => fd_reader f x = Ok w | None => fd_default f = Some w end).
  { unfold read_field in Hrf. destruct (dict_get _ _) as [x|]; [apply bind_Ok in Hrf as (w' & Hw & [= <- <-])|destruct (fd_default f); [injection Hrf as <- <-|discriminate]]; done. }
  destruct Hkw as [-> Hw]. split; [|done]. apply dict_get_elem; [by rewrite Hk|]. by eapply list_elem_of_lookup_2.
Qed.
Lemma read_open_text fields r v k : NoDup (names fields) → required k read_text ∈ fields → read_open_model fields (VDict r) = Ok v →
  ∃ d s, v = VDict d ∧ dict_get k d = Some (VStr s) ∧ dict_get k r = Some (VStr s).
Proof.
  intros Hn Hf Hr. destruct (read_open_get _ _ _ _ Hn Hf Hr) as (d & w & -> & Hw & Hx). cbn in Hw, Hx. exists d.
  destruct (dict_get k r) as [[]|]; try discriminate. injection Hx as <-. by eexists.
Qed.
Lemma good_model fields : NoDup (names fields) → Forall good_field fields → good (read_model fields).
Proof.
  intros Hn Hg v w Hr. destruct v as [| | | | | |d]; try discriminate Hr.
  destruct (read_instance _ _ _ Hn Hg Hr) as (e & -> & Hi & Hwf & _). split; [by apply instance_read|done].
Qed.
Lemma instance_set fields d f w : NoDup (names fields) → instance fields d → f ∈ fields → fd_reader f w = Ok w →
  instance fields (dict_set (fd_name f) w d).
Proof.
  intros Hn Hi Hf Hw. induction Hi as [|g [k v] fields d [Hk Hv] Hi IH]; [by apply elem_of_nil in Hf|]. cbn in Hk, Hv. subst k.
  apply NoDup_cons in Hn as [Hg Hn]. cbn. apply elem_of_cons in Hf as [-> |Hf]; [rewrite String.eqb_refl; by constructor|].
  destruct (String.eqb (fd_name f) (fd_name g)) eqn:E; [apply String.eqb_eq in E; destruct Hg; rewrite <-E; apply elem_of_map; by exists f|].
  constructor; [done|by apply IH].
Qed.

Ltac fields_good := repeat (apply Forall_cons; split; [split; [cbn; auto 8 with reads|cbn; try (split; [reflexivity|]); done]|]); try exact (List.Forall_nil _).
