(* ===== verification/Context.v ===== *)
(** * The context of an answer ([memory/ingestion/mvp_ingestion.py])

    The selection of rows within a token budget, with the overlap of adjacent
    token windows removed once, and the answer read off the selected rows. *)
From Stdlib Require Import ZArith Lia Ascii.
From S2P Require Import Prelude PyStr Json PyFloat Regex ConvStore Chunks FactValidation FactExtract Summaries Search Ranking.
Local Open Scope Z_scope.

(** ** Overlaps *)

Definition char_is (l : list ascii) (i : nat) (c : ascii) : bool :=
  match l !! i with Some d => Ascii.eqb d c | None => false end.
(** [while matched and c != right[matched]: matched = prefix_lengths[matched - 1]];
    a prefix length is less than the length of its prefix, so [matched] rounds
    are enough. *)
Fixpoint fall (right : list ascii) (prefix_lengths : list nat) (c : ascii) (fuel matched : nat) : nat :=
  match fuel, matched with
  | S n, S m => if char_is right matched c then matched
                else fall right prefix_lengths c n (nth m prefix_lengths 0%nat)
  | _, _ => matched
  end.
Definition extend (right : list ascii) (prefix_lengths : list nat) (c : ascii) (matched : nat) : nat :=
  let m := fall right prefix_lengths c matched matched in
  if char_is right m c then S m else m.
(** One round of the loop that fills the prefix lengths. *)
Definition prefix_round (right : list ascii) (st : list nat * nat) (index : nat) : list nat * nat :=
  let '(prefix_lengths, matched) := st in
  match right !! index with
  | None => st
  | Some c =>
      let m := fall right prefix_lengths c matched matched in
      if char_is right m c then (<[index := S m]> prefix_lengths, S m) else (prefix_lengths, m)
  end.
Definition prefix_table (right : list ascii) : list nat :=
  fst (foldl (prefix_round right) (replicate (length right) 0%nat, 0%nat) (seq 1 (length right - 1))).
(** The loop over the characters of the left text; the last one ends it. *)
Fixpoint overlap_loop (right : list ascii) (prefix_lengths : list nat) (left : list ascii) (matched : nat) : nat :=
  match left with
  | [] => matched
  | c :: rest =>
      let m := extend right prefix_lengths c matched in
      let m := if Nat.eqb m (length right) && negb (Nat.eqb (length rest) 0)
               then nth (m - 1) prefix_lengths 0%nat else m in
      overlap_loop right prefix_lengths rest m
  end.
(** Both characters around a cut are alphanumeric. *)
Definition splits_token (l : list ascii) (cut : nat) : bool :=
  match cut with
  | O => false
  | S before => match l !! before, l !! cut with
                | Some a, Some b => is_alnum a && is_alnum b
                | _, _ => false
                end
  end.
Definition word_re : pattern := re_compile "\w".
Definition clean_overlap (left right : string) (matched : nat) : bool :=
  let overlap := stake matched right in
  negb (String.eqb (strip overlap) "") && searched word_re overlap
  && negb (Nat.ltb 0 matched && splits_token (str_list left) (String.length left - matched))
  && negb (Nat.ltb 0 matched && Nat.ltb matched (String.length right) && splits_token (str_list right) matched).
Definition _longest_exact_edge_overlap (left right : string) : nat :=
  if String.eqb left "" || String.eqb right "" then 0%nat else
  let matched := overlap_loop (str_list right) (prefix_table (str_list right)) (str_list left) 0%nat in
  if clean_overlap left right matched then matched else 0%nat.

Definition whole_or_none (overlap : nat) (text prior_text : string) : bool :=
  Nat.eqb overlap 0 || Nat.eqb overlap (String.length text) || Nat.eqb overlap (String.length prior_text).
Definition _trim_exact_prefix_overlap (text prior_text : string) : string :=
  let overlap := _longest_exact_edge_overlap prior_text text in
  if whole_or_none overlap text prior_text then text else lstrip_by is_space (sdrop overlap text).
Definition _trim_exact_suffix_overlap (text prior_text : string) : string :=
  let overlap := _longest_exact_edge_overlap text prior_text in
  if whole_or_none overlap text prior_text then text else rstrip (stake (String.length text - overlap) text).

(** ** Identities of chunks *)

Record chunk_identity := mk_chunk_identity {
  ki_memory_id : string; ki_chunk_index : Z; ki_message_hash : string; ki_window : option Z }.
(** The cache keeps the last identity set for a key. *)
Definition identity_cache : Type := list ((string * Z) * option chunk_identity).
Definition same_key (k : string * Z) (e : (string * Z) * option chunk_identity) : bool :=
  String.eqb k.1 e.1.1 && Z.eqb k.2 e.1.2.
Definition cache_find (k : string * Z) (cache : identity_cache) : option (option chunk_identity) :=
  snd <$> List.find (same_key k) cache.
Definition cache_set (k : string * Z) (v : option chunk_identity) (cache : identity_cache) : identity_cache := (k, v) :: cache.
(** [int(v)] *)
Definition int_of_value (v : value) : result Z :=
  match v with
  | VNone | VList _ | VDict _ => Raise (TypeError "int() argument must be a string or a real number")
  | _ => from_option_err (ValueError "invalid literal for int()") (py_int v)
  end.
Definition window_of (v : value) : option Z :=
  match v with VInt z => Some z | VBool b => Some (if b then 1 else 0) | _ => None end.
Definition cache_chunk (memory_id : string) (cache : identity_cache) (chunk : value) : result identity_cache :=
  match chunk with
  | VDict d =>
      manifest_index ← int_of_value (vget_or "chunk_index" (VInt (-1)) d);
      let message_hash := text_of "message_hash" d in
      if String.eqb message_hash "" then Ok cache else
      Ok (cache_set (memory_id, manifest_index)
            (Some (mk_chunk_identity memory_id manifest_index message_hash (window_of (vget "token_window_index" d)))) cache)
  | _ => Ok cache
  end.
(** The manifest of a conversation, when every level of it has its type. *)
Definition conversation_manifest (conversation : value) : option (list value) :=
  c ← as_dict conversation; metadata ← as_dict (vget "metadata" c); as_list (vget "index_chunks" metadata).
Definition _context_chunk_identity (row : result_row) (cache : identity_cache) : result (option chunk_identity * identity_cache) :=
  let memory_id := rr_id row in
  if String.eqb memory_id "" then Ok (None, cache) else
  let key := (memory_id, rr_chunk_index row) in
  match cache_find key cache with
  | Some identity => Ok (identity, cache)
  | None =>
      let cache := cache_set key None cache in
      match conversation_manifest (rr_conversation row) with
      | None => Ok (None, cache)
      | Some chunks =>
          cache ← fold_result (cache_chunk memory_id) cache chunks;
          Ok (default None (cache_find key cache), cache)
      end
  end.

(** ** Selection *)

(** Windows of one message that follow each other. *)
Definition adjacent (a b : chunk_identity) : bool :=
  String.eqb (ki_memory_id a) (ki_memory_id b) && String.eqb (ki_message_hash a) (ki_message_hash b)
  && (Z.abs (ki_chunk_index a - ki_chunk_index b) =? 1)
  && match ki_window a, ki_window b with Some x, Some y => Z.abs (x - y) =? 1 | _, _ => true end.
Definition trim_against (identity prior : chunk_identity) (text prior_text : string) : string :=
  if negb (adjacent identity prior) then text
  else if ki_chunk_index prior <? ki_chunk_index identity then _trim_exact_prefix_overlap text prior_text
  else _trim_exact_suffix_overlap text prior_text.
Fixpoint trim_priors (identity : chunk_identity) (priors : list result_row) (cache : identity_cache) (text : string)
    : result (string * identity_cache) :=
  match priors with
  | [] => Ok (text, cache)
  | prior :: rest =>
      '(prior_identity, cache) ← _context_chunk_identity prior cache;
      trim_priors identity rest cache
        match prior_identity with Some p => trim_against identity p text (rr_text prior) | None => text end
  end.
Definition _context_text_without_prior_overlap (row : result_row) (selected_matches : list result_row) (cache : identity_cache)
    : result (string * identity_cache) :=
  '(identity, cache) ← _context_chunk_identity row cache;
  match identity with
  | None => Ok (rr_text row, cache)
  | Some identity => trim_priors identity selected_matches cache (rr_text row)
  end.

(** [{**row, 'text': text}] *)
Definition retext (text : string) (row : result_row) : result_row :=
  mk_result_row (rr_id row) (rr_score row) (rr_chunk_index row) (rr_role row) text (rr_conversation row) (rr_explanation row)
    (rr_conversation_score row) (rr_conversation_match_count row).
Definition retext_shaped (text : string) (row : shaped_row) : shaped_row :=
  mk_shaped (retext text (sh_row row)) (sh_thread_id row) (sh_thread_conversation_ids row) (sh_matching_chunks row)
    (sh_evidence_chunks row).
Record context := mk_context {
  selected_matches : list shaped_row; citations : list citation; context_lines : list string;
  tokens_used : Z; chunks_dropped : Z; context_truncated : bool }.
Definition drop_chunk (c : context) : context :=
  mk_context (selected_matches c) (citations c) (context_lines c) (tokens_used c) (chunks_dropped c + 1) true.
Definition context_prefix (row : shaped_row) : string :=
  "- [" +:+ rr_id (sh_row row) +:+ "#" +:+ str_of_Z (rr_chunk_index (sh_row row)) +:+ "] ".

Section context.
Variable tokenizer : option Tokenizer.
Definition select_row (max_context_tokens : Z) (st : context * identity_cache) (row : shaped_row) : result (context * identity_cache) :=
  let '(c, cache) := st in
  let prefix := context_prefix row in
  let prefix_tokens := count_tokens tokenizer prefix in
  let remaining := max_context_tokens - tokens_used c - prefix_tokens in
  if remaining <=? 0 then Ok (drop_chunk c, cache) else
  '(text, cache) ← _context_text_without_prior_overlap (sh_row row) (map sh_row (selected_matches c)) cache;
  let over := remaining <? count_tokens tokenizer text in
  let selected_text := if over then truncate_to_tokens tokenizer text remaining else text in
  let text_tokens := count_tokens tokenizer selected_text in
  if String.eqb selected_text "" then Ok (drop_chunk c, cache) else
  let selected_row := retext_shaped selected_text row in
  Ok (mk_context (selected_matches c ++ [selected_row]) (citations c ++ [_citation_from_row (sh_row selected_row)])
        (context_lines c ++ [prefix +:+ selected_text]) (tokens_used c + (prefix_tokens + text_tokens))
        (chunks_dropped c) (context_truncated c || over), cache).
Definition _select_ask_context (matches : list shaped_row) (max_context_tokens : Z) : result context :=
  st ← fold_result (select_row max_context_tokens) (mk_context [] [] [] 0 0 false, []) matches;
  Ok st.1.
End context.

(** ** Confidence and provenance *)

Definition _confidence_from_matches (matches : list shaped_row) : string :=
  match map (λ r, rr_score (sh_row r)) matches with
  | [] => "none"
  | score :: rest =>
      let best := foldl fmin score rest in
      if fle best (decimal 1 0) then "high" else if fle best (decimal 4 0) then "medium" else "low"
  end.
Definition _confidence_from_context (matches : list shaped_row) (context_truncated : bool) : string :=
  match matches with
  | [] => "none"
  | _ => if context_truncated then "low" else _confidence_from_matches matches
  end.
Definition _confidence_reason_from_matches (matches : list shaped_row) (context_truncated : bool) : string :=
  if context_truncated then "Retrieved memory was truncated by the context budget." else
  match matches with
  | [] => "No retrieved chunks were used."
  | _ => "Answer built from ranked retrieved conversation chunks."
  end.

(** The save intents are those of facts. *)
Record provenance := mk_provenance {
  pv_conversation_id : string; pv_source : value; pv_title : value; pv_stored_at : value;
  pv_matching_chunks : Z; pv_used_in_answer : bool; pv_save_intents : option (list string * list string) }.
Definition conversation_field (k : string) (conversation : value) : value :=
  match conversation with VDict d => vget k d | _ => VNone end.
Definition fresh_provenance (row : result_row) : provenance :=
  mk_provenance (rr_id row) (conversation_field "source" (rr_conversation row)) (conversation_field "title" (rr_conversation row))
    (conversation_field "timestamp" (rr_conversation row)) 0 false None.
Definition cites (citations : list citation) (row : result_row) : bool :=
  existsb (λ c, String.eqb (ci_id c) (rr_id row) && Z.eqb (ci_chunk_index c) (rr_chunk_index row)) citations.
Definition provenance_row (used : list citation) (grouped : list (string * provenance)) (row : shaped_row) : list (string * provenance) :=
  let r := sh_row row in
  if String.eqb (rr_id r) "" then grouped else
  let item := default (fresh_provenance r) (dict_get (rr_id r) grouped) in
  dict_set (rr_id r)
    (mk_provenance (pv_conversation_id item) (pv_source item) (pv_title item) (pv_stored_at item)
       (pv_matching_chunks item + default 1 (sh_matching_chunks row)) (pv_used_in_answer item || cites used r) (pv_save_intents item)) grouped.
Definition _provenance_from_matches (matches : list shaped_row) (citations : list citation) : list provenance :=
  map snd (foldl (provenance_row citations) [] matches).

(** ** Answers from memory *)

Definition _direct_memory_answer_snippet (row : shaped_row) : string :=
  let text := collapse (rr_text (sh_row row)) in
  if String.eqb text "" then "" else _truncate_summary_text text 600.
Definition _normalized_question_echo_text (v : string) : string := join " " (_query_tokens v None).
Definition ends_with_question (s : string) : bool :=
  match rev (str_list (rstrip s)) with c :: _ => Ascii.eqb c "?"%char | [] => false end.
Definition _direct_memory_answer_snippet_is_question_echo (snippet : string) (question : option string) : bool :=
  match question with
  | Some q => String.eqb (_normalized_question_echo_text snippet) (_normalized_question_echo_text q)
  | None => false
  end || ends_with_question snippet.
Definition _direct_memory_answer_text (matches : list shaped_row) (question : option string) : string :=
  let snippets := List.filter (λ s, negb (String.eqb s "")) (map _direct_memory_answer_snippet matches) in
  match List.find (λ s, negb (_direct_memory_answer_snippet_is_question_echo s question)) snippets with
  | Some snippet => snippet
  | None => match snippets with
            | snippet :: _ => snippet
            | [] => "I found relevant memory, but it did not include usable text."
            end
  end.

(** ** Answers *)

(** An entry of the evidence of a chunk, always used in the answer. *)
Record chunk_evidence := mk_chunk_evidence {
  ce_conversation_id : string; ce_chunk_index : Z; ce_role : string; ce_text : string; ce_score : float }.
Definition _chunk_evidence_from_matches (matches : list shaped_row) : list chunk_evidence :=
  map (λ s, let r := sh_row s in mk_chunk_evidence (rr_id r) (rr_chunk_index r) (rr_role r) (rr_text r) (rr_score r)) matches.
(** Citations and evidence are those of facts or of chunks. *)
Inductive cited := OfFact (fact : dict) | OfChunk (chunk : citation).
Inductive evidence := FactEvidence (fact : dict) | ChunkEvidence (chunk : chunk_evidence).
Record budget_fields := mk_budget_fields {
  context_tokens_used : Z; chunks_selected : Z; bf_chunks_dropped : Z; bf_context_truncated : bool; bf_tokenizer_used : string }.
(** The fields that facts add to an answer. *)
Record fact_fields := mk_fact_fields { ff_facts : list dict; ff_latest : option dict; ff_timeline : list dict }.
(** A response of [ask]; its structured evidence has the rows of the results
    beside [an_fact_evidence]. *)
Record answer := mk_answer {
  an_results : list shaped_row; an_answer : string; an_citations : list cited; an_confidence : string;
  an_confidence_reason : string; an_answer_basis : string; an_provenance : list provenance; an_evidence : list evidence;
  an_fact_evidence : list evidence; an_facts : option fact_fields; an_budget : option budget_fields; an_query_plan : option dict }.
Definition DIRECT_MEMORY : string := "direct_memory".
Definition FACT_LAYER : string := "fact_layer".
Definition MIXED : string := "mixed".
Definition CONFLICT : string := "conflict".
Definition NOT_FOUND : string := "not_found".
Definition _direct_memory_ask_result (selected : list shaped_row) (citations : list citation) (text confidence confidence_reason : string)
    (extra_fields : option budget_fields) : answer :=
  mk_answer selected text (map OfChunk citations) confidence confidence_reason DIRECT_MEMORY
    (_provenance_from_matches selected citations) (map ChunkEvidence (_chunk_evidence_from_matches selected)) [] None extra_fields None.
Definition budget_of (tokenizer : option Tokenizer) (encoding : string) (c : context) : budget_fields :=
  mk_budget_fields (tokens_used c) (Z.of_nat (length (selected_matches c))) (chunks_dropped c) (context_truncated c)
    (tokenizer_used tokenizer encoding).
Definition _budgeted_direct_memory_ask_result (tokenizer : option Tokenizer) (encoding question : string) (c : context) : answer :=
  let selected := selected_matches c in
  _direct_memory_ask_result selected (citations c)
    (match context_lines c with
     | [] => "I could not fit relevant memory within the context budget."
     | _ => _direct_memory_answer_text selected (Some question) end)
    (_confidence_from_context selected (context_truncated c)) (_confidence_reason_from_matches selected (context_truncated c))
    (Some (budget_of tokenizer encoding c)).
Definition _ask_from_matches (matches : list shaped_row) (top_k : Z) (question : string) : answer :=
  let selected := py_take top_k matches in
  _direct_memory_ask_result selected (py_take top_k (map (λ r, _citation_from_row (sh_row r)) matches))
    (_direct_memory_answer_text selected (Some question)) (_confidence_from_matches selected)
    (_confidence_reason_from_matches selected false) None.
