(* ===== verification/ContextFacts.v ===== *)
(** * Facts about tokens and the context of an answer

    The fallback pattern cuts a text into runs of word characters and single
    signs, and a text truncated to a number of tokens holds no more.  The overlap
    of two windows is the longest one, a trimmed window loses only what the other
    one holds, and a selection keeps its token budget. *)
From Stdlib Require Import ZArith Lia Ascii.
From S2P Require Import Prelude PyStr Json PyFloat Regex RegexFacts ConvStore FactValidation FactExtract Chunks Summaries Ranking Search SearchFacts Context.
Local Open Scope nat_scope.

(** * The tokens of a text without an encoding *)

(** The word characters that start a text. *)
Fixpoint word_run (l : list ascii) : nat :=
  match l with c :: rest => if is_word c then S (word_run rest) else 0 | [] => 0 end.
(** The spans of the tokens of a text that starts at [at_]. *)
Fixpoint lex (fuel at_ : nat) (l : list ascii) : list re_match :=
  match fuel, l with
  | S n, c :: rest =>
      if is_word c then mk_match at_ (at_ + S (word_run rest)) [] :: lex n (at_ + S (word_run rest)) (drop (word_run rest) rest)
      else if is_space c then lex n (S at_) rest
      else mk_match at_ (S at_) [] :: lex n (S at_) rest
  | _, _ => []
  end.

Lemma fallback_regex : _FALLBACK_PATTERN =
  mk_pattern false (RAlt (RSeq (RRep true 1 None (RCls false [CWord true])) REps) (RSeq (RCls true [CWord true; CSpace true]) REps)).
Proof. vm_compute. reflexivity. Qed.
Lemma word_run_le l : word_run l ≤ length l.
Proof. induction l as [|c l IH]; cbn; [done|]. destruct (is_word c); lia. Qed.
Notation word_step := (outcomes false (RCls false [CWord true])).
Lemma word_step_cons b c rest : word_step (mk_place b (c :: rest) []) = if is_word c then [mk_place (c :: b) rest []] else [].
Proof. cbn. by destruct (is_word c). Qed.
Lemma sign_step_cons b c rest : outcomes false (RCls true [CWord true; CSpace true]) (mk_place b (c :: rest) []) =
  if negb (is_word c) && negb (is_space c) then [mk_place (c :: b) rest []] else [].
Proof. cbn. by destruct (is_word c), (is_space c). Qed.
Lemma repeats_first fuel s : repeats word_step true (S fuel) 1 None s = flat_map (repeats word_step true fuel 0 None) (word_step s).
Proof. reflexivity. Qed.
Lemma repeats_more fuel s : repeats word_step true (S fuel) 0 None s =
  flat_map (λ s', if Nat.eqb (pos s') (pos s) then [s'] else repeats word_step true fuel 0 None s') (word_step s) ++ [s].
Proof. reflexivity. Qed.
Lemma next_pos b c rest : Nat.eqb (pos (mk_place (c :: b) rest [])) (pos (mk_place b (c :: rest) [])) = false.
Proof. apply Nat.eqb_neq. unfold pos. cbn. lia. Qed.
(** A greedy repetition reaches the end of the run first. *)
Lemma run_outcomes fuel : ∀ b l, length l < fuel →
  head (repeats word_step true fuel 0 None (mk_place b l [])) = Some (mk_place (rev (take (word_run l) l) ++ b) (drop (word_run l) l) []).
Proof.
  induction fuel as [|fuel IH]; intros b l Hl; [lia|]. rewrite repeats_more. destruct l as [|c rest]; [done|].
  rewrite word_step_cons. cbn [word_run]. destruct (is_word c); [|done]. cbn [flat_map]. rewrite next_pos, app_nil_r.
  cbn [length] in Hl. specialize (IH (c :: b) rest ltac:(lia)).
  destruct (repeats word_step true fuel 0 None (mk_place (c :: b) rest [])) as [|e es]; [done|].
  cbn [head] in IH. injection IH as ->. cbn. by rewrite <-app_assoc.
Qed.

Lemma flat_map_one {A} (l : list A) : flat_map (λ x, [x]) l = l.
Proof. induction l; cbn; congruence. Qed.
(** The first match of the pattern at a place. *)
Lemma fallback_head b l : head (outcomes false (p_regex _FALLBACK_PATTERN) (mk_place b l [])) =
  match l with
  | [] => None
  | c :: rest => if is_word c then Some (mk_place (rev (take (S (word_run rest)) l) ++ b) (drop (word_run rest) rest) [])
                 else if is_space c then None else Some (mk_place (c :: b) rest [])
  end.
Proof.
  rewrite fallback_regex. cbn [p_regex].
  change (outcomes false _ (mk_place b l [])) with (flat_map (λ x, [x]) (repeats word_step true (S (S (length l))) 1 None (mk_place b l []))
    ++ flat_map (λ x, [x]) (outcomes false (RCls true [CWord true; CSpace true]) (mk_place b l []))).
  rewrite !flat_map_one, repeats_first. destruct l as [|c rest]; [done|]. rewrite word_step_cons.
  rewrite sign_step_cons. cbn [length]. destruct (is_word c).
  - cbn [flat_map]. rewrite !app_nil_r. pose proof (run_outcomes (S (S (length rest))) (c :: b) rest ltac:(lia)) as H.
    destruct (repeats word_step true _ 0 None (mk_place (c :: b) rest [])) as [|e es]; [done|].
    cbn [head] in H. injection H as ->. cbn. by rewrite <-app_assoc.
  - by destruct (is_space c).
Qed.
Lemma find_head {A} (l : list A) : List.find (λ _, true) l = head l.
Proof. by destruct l. Qed.
Lemma scan_fallback b l : scan_from _FALLBACK_PATTERN false b l =
  match head (outcomes false (p_regex _FALLBACK_PATTERN) (mk_place b l [])) with
  | Some e => Some (length b, e)
  | None => match l with [] => None | c :: rest => scan_from _FALLBACK_PATTERN false (c :: b) rest end
  end.
Proof. rewrite <-find_head. by destruct l. Qed.
Lemma lex_matches N : ∀ l n b, length l ≤ N → length l < n → matches_from n _FALLBACK_PATTERN false b l = lex N (length b) l.
Proof.
  induction N as [|N IH]; intros l n b Hl Hn; (destruct n as [|n]; [lia|]).
  { destruct l; [|cbn in Hl; lia]. cbn [matches_from]. by rewrite scan_fallback, fallback_head. }
  destruct l as [|c rest]; [cbn [matches_from lex]; by rewrite scan_fallback, fallback_head|]. cbn [length] in Hl, Hn.
  cbn [matches_from]. rewrite scan_fallback, fallback_head. cbn [lex]. pose proof (word_run_le rest) as Hw.
  destruct (is_word c); [|destruct (is_space c)].
  - assert (Hp : length (rev (take (S (word_run rest)) (c :: rest)) ++ b) = length b + S (word_run rest)).
    { rewrite length_app, length_rev, length_take. cbn [length]. lia. }
    unfold found, pos. cbn [before after Regex.groups]. rewrite Hp.
    destruct (Nat.eqb_spec (length b + S (word_run rest)) (length b)) as [|_]; [lia|]. f_equal.
    rewrite IH; [by rewrite Hp|rewrite length_drop; lia..].
  - transitivity (matches_from (S n) _FALLBACK_PATTERN false (c :: b) rest); [done|]. apply IH; lia.
  - unfold found, pos. cbn [before after Regex.groups length].
    destruct (Nat.eqb_spec (S (length b)) (length b)) as [|_]; [lia|]. f_equal. apply (IH rest n (c :: b)); lia.
Qed.
Lemma fallback_lex s : _fallback_token_matches s = lex (String.length s) 0 (str_list s).
Proof.
  unfold _fallback_token_matches, re_finditer. apply (lex_matches (String.length s) (str_list s) _ []); rewrite str_list_length; lia.
Qed.

(** ** Truncation *)

Lemma lex_fuel N : ∀ M l at_, length l ≤ N → length l ≤ M → lex N at_ l = lex M at_ l.
Proof.
  induction N as [|N IH]; intros M l at_ HN HM; (destruct l as [|c rest]; [by destruct M|]); [cbn in HN; lia|].
  destruct M as [|M]; [cbn in HM; lia|]. cbn [lex length] in *. pose proof (word_run_le rest).
  rewrite (IH M (drop (word_run rest) rest)), (IH M rest) by (try rewrite length_drop; lia). done.
Qed.
(** A match ends behind its start, within the text, and not behind a space. *)
Lemma lex_bounds N : ∀ l at_ n m, lex N at_ l !! n = Some m →
  at_ < m_end m ∧ m_end m ≤ at_ + length l ∧
  ∃ c, l !! (m_end m - at_ - 1) = Some c ∧ (is_word c = true ∨ is_space c = false).
Proof.
  induction N as [|N IH]; intros l at_ n m Hm; [done|]. destruct l as [|c rest]; [done|]. cbn [lex length] in *.
  pose proof (word_run_le rest) as Hw. destruct (is_word c) eqn:Hc; [|destruct (is_space c) eqn:Hs].
  - destruct n as [|n].
    + injection Hm as <-. cbn [m_end]. split_and!; [lia..|].
      replace (at_ + S (word_run rest) - at_ - 1) with (word_run rest) by lia.
      assert (Hr : ∀ l d, is_word d = true → ∃ e, (d :: l) !! word_run l = Some e ∧ is_word e = true).
      { clear. induction l as [|e l IHl]; intros d Hd; [by exists d|]. cbn [word_run].
        destruct (is_word e) eqn:He; [|by exists d]. apply (IHl e He). }
      destruct (Hr rest c Hc) as (e & He & Hwe). exists e. auto.
    + cbn in Hm. apply IH in Hm as (Hlo & Hhi & d & Hd & Hk). rewrite length_drop in Hhi. split_and!; [lia..|].
      exists d. split; [|done]. rewrite <-Hd, lookup_drop.
      replace (m_end m - at_ - 1) with (S (word_run rest + (m_end m - (at_ + S (word_run rest)) - 1))) by lia. done.
  - apply IH in Hm as (Hlo & Hhi & d & Hd & Hk). split_and!; [lia..|]. exists d. split; [|done]. rewrite <-Hd.
    replace (m_end m - at_ - 1) with (S (m_end m - S at_ - 1)) by lia. done.
  - destruct n as [|n].
    + injection Hm as <-. cbn [m_end]. split_and!; [lia..|]. exists c. replace (S at_ - at_ - 1) with 0 by lia. auto.
    + cbn in Hm. apply IH in Hm as (Hlo & Hhi & d & Hd & Hk). split_and!; [lia..|]. exists d. split; [|done]. rewrite <-Hd.
      replace (m_end m - at_ - 1) with (S (m_end m - S at_ - 1)) by lia. done.
Qed.
Lemma word_run_take l k : word_run l ≤ k → word_run (take k l) = word_run l.
Proof.
  revert k. induction l as [|c l IH]; intros k Hk; [by destruct k|]. cbn [word_run] in Hk. destruct k as [|k].
  - cbn. destruct (is_word c) eqn:Hc; [lia|done].
  - cbn. destruct (is_word c); [|done]. by rewrite IH by lia.
Qed.
(** A text cut behind its match [n] has the matches up to [n]. *)
Lemma lex_cut N : ∀ l at_ n m, lex N at_ l !! n = Some m → length (lex N at_ (take (m_end m - at_) l)) = S n.
Proof.
  induction N as [|N IH]; intros l at_ n m Hm; [done|]. destruct l as [|c rest]; [done|].
  pose proof (lex_bounds (S N) (c :: rest) at_ n m Hm) as (Hlo & _ & _).
  replace (m_end m - at_) with (S (m_end m - S at_)) by lia. cbn [take]. cbn [lex] in *.
  destruct (is_word c); [|destruct (is_space c)].
  - destruct n as [|n].
    + injection Hm as <-. cbn [m_end length]. replace (at_ + S (word_run rest) - S at_) with (word_run rest) by lia.
      rewrite word_run_take by done. rewrite drop_ge by (rewrite length_take; lia). by destruct N.
    + cbn in Hm. pose proof (lex_bounds _ _ _ _ _ Hm) as (Hlo' & _ & _). apply IH in Hm.
      rewrite word_run_take by lia. cbn [length]. f_equal. rewrite <-Hm. f_equal. f_equal.
      rewrite skipn_firstn_comm. f_equal. lia.
  - apply IH in Hm. by rewrite <-Hm.
  - destruct n as [|n].
    + injection Hm as <-. cbn [m_end length]. rewrite Nat.sub_diag, take_0. by destruct N.
    + cbn in Hm. apply IH in Hm. cbn [length]. by rewrite Hm.
Qed.

Lemma str_list_stake k s : str_list (stake k s) = take k (str_list s).
Proof. revert k. induction s as [|c s IH]; intros [|k]; cbn; [done..|]. by rewrite IH. Qed.
Lemma word_no_space c : is_word c = true → is_space c = false.
Proof. destruct c as [[] [] [] [] [] [] [] []]; vm_compute; congruence. Qed.
Lemma rstrip_no_space s n c : str_list s !! n = Some c → String.length s = S n → is_space c = false → rstrip s = s.
Proof.
  unfold rstrip. revert n. induction s as [|d s IH]; intros n Hn Hl Hc; [done|]. cbn in Hn, Hl |- *. destruct n as [|n].
  - destruct s; [|done]. cbn in *. by simplify_eq; rewrite Hc.
  - rewrite (IH n) by (done || lia). by destruct s.
Qed.
Lemma count_fallback s : count_tokens None s = Z.of_nat (length (lex (String.length s) 0 (str_list s))).
Proof. unfold count_tokens, _fallback_tokens. by rewrite length_map, fallback_lex. Qed.
(** A truncated text holds no more tokens than it may. *)
Lemma fallback_truncates s n : (0 < n)%Z → (count_tokens None (truncate_to_tokens None s n) ≤ n)%Z.
Proof.
  intros Hn. unfold truncate_to_tokens. destruct (Z.leb_spec n 0); [lia|].
  destruct (Z.leb_spec (Z.of_nat (length (_fallback_token_matches s))) n) as [|Hlt].
  { rewrite count_fallback, <-fallback_lex. done. }
  rewrite fallback_lex in *. destruct (nth_error _ (Z.to_nat n - 1)) as [m|] eqn:Em; [|apply nth_error_None in Em; lia].
  change (default 0 (m_end <$> Some m)) with (m_end m). set (l := lex _ _ _) in *.
  assert (Hm : l !! (Z.to_nat n - 1) = Some m).
  { revert Em. clear. generalize (Z.to_nat n - 1). induction l as [|x l IH]; intros [|k]; cbn; auto. }
  destruct (lex_bounds _ _ _ _ _ Hm) as (Hlo & Hhi & c & Hc & Hk). rewrite str_list_length in Hhi. rewrite Nat.sub_0_r in Hc.
  assert (Hlen : length (str_list (stake (m_end m) s)) = m_end m).
  { rewrite str_list_stake, length_take, str_list_length. lia. }
  rewrite (rstrip_no_space (stake (m_end m) s) (m_end m - 1) c).
  - rewrite count_fallback, (lex_fuel _ (String.length s)) by (rewrite <-?str_list_length in *; lia).
    rewrite str_list_stake. pose proof (lex_cut _ _ _ _ _ Hm) as Hcut. rewrite Nat.sub_0_r in Hcut. rewrite Hcut. lia.
  - rewrite str_list_stake, lookup_take_lt by lia. done.
  - rewrite <-str_list_length. lia.
  - destruct Hk as [?%word_no_space|]; done.
Qed.

(** * Facts about the context of an answer *)

(** ** Borders *)

(** The first [k] characters of [right] end [l]. *)
Definition overlaps (right l : list ascii) (k : nat) : Prop := take k right `suffix_of` l.
#[global] Instance overlaps_dec right l k : Decision (overlaps right l k) := decide_rel suffix (take k right) l.
(** The greatest overlap of at most [bound] characters. *)
Record greatest (right l : list ascii) (bound m : nat) : Prop := mk_greatest {
  gr_bound : m ≤ bound; gr_overlap : overlaps right l m;
  gr_most : ∀ k, k ≤ bound → overlaps right l k → k ≤ m }.

Lemma overlaps_0 right l : overlaps right l 0.
Proof. apply suffix_nil. Qed.
#[export] Hint Resolve overlaps_0 : core.
Lemma suffix_shorter {A} (a b l : list A) : a `suffix_of` l → b `suffix_of` l → length a ≤ length b → a `suffix_of` b.
Proof.
  intros [x ->] [y E] Hle. assert (Hx : length y ≤ length x).
  { apply (f_equal length) in E. rewrite !length_app in E. lia. }
  exists (drop (length y) x). apply (f_equal (drop (length y))) in E. rewrite drop_app_length in E. rewrite <-E.
  rewrite drop_app_le by done. done.
Qed.
Lemma overlaps_chain right l m k : m ≤ length right → k ≤ m → overlaps right l m →
  overlaps right l k ↔ overlaps right (take m right) k.
Proof.
  intros Hm Hk Hl. split; intros Hs.
  - apply (suffix_shorter _ _ l); [done..|]. rewrite !length_take. lia.
  - unfold overlaps in *. by transitivity (take m right).
Qed.
Lemma overlaps_tail right m k : m ≤ length right → k < m → overlaps right (take m right) k ↔ overlaps right (drop 1 (take m right)) k.
Proof.
  intros Hm Hk. split; intros Hs.
  - apply (suffix_shorter _ _ (take m right)); [done|apply suffix_drop|]. rewrite length_drop, !length_take. lia.
  - unfold overlaps in *. transitivity (drop 1 (take m right)); [done|apply suffix_drop].
Qed.
Lemma overlaps_length right l k : k ≤ length right → overlaps right l k → k ≤ length l.
Proof. intros Hk Hs%suffix_length. rewrite length_take in Hs. lia. Qed.
Lemma overlaps_snoc right l c k : overlaps right (l ++ [c]) (S k) → k < length right →
  overlaps right l k ∧ right !! k = Some c.
Proof.
  intros [x E] Hk. destruct (right !! k) as [d|] eqn:Hd; [|apply lookup_ge_None in Hd; lia].
  rewrite (take_S_r _ _ d) in E by done. rewrite app_assoc in E.
  apply app_inj_tail in E as [-> ->]. split; [by exists x|done].
Qed.
Lemma overlaps_extend right l c k : overlaps right l k → right !! k = Some c → overlaps right (l ++ [c]) (S k).
Proof.
  intros [x ->] Hd. exists x. rewrite (take_S_r _ _ c) by done. by rewrite app_assoc.
Qed.
Lemma char_is_spec l i c : char_is l i c = true ↔ l !! i = Some c.
Proof.
  unfold char_is. destruct (l !! i); [|done]. rewrite Ascii.eqb_eq. split; [by intros ->|by intros [=]].
Qed.

(** ** The table of prefix lengths *)

(** The lengths up to [n] are the greatest overlaps of the proper suffixes. *)
Definition table_ok (right : list ascii) (prefix_lengths : list nat) (n : nat) : Prop :=
  ∀ m, m < n → greatest right (drop 1 (take (S m) right)) m (nth m prefix_lengths 0).

Section kmp.
Context {right : list ascii} {prefix_lengths : list nat}.
Lemma table_ok_le n m : table_ok right prefix_lengths n → m ≤ n → table_ok right prefix_lengths m.
Proof. intros Ht Hle i Hi. apply Ht. lia. Qed.
(** The overlap below [m], of a text that [m] characters overlap. *)
Lemma table_overlap l m k : S m ≤ length right → table_ok right prefix_lengths (S m) → overlaps right l (S m) → k ≤ m →
  overlaps right l k → k ≤ nth m prefix_lengths 0.
Proof.
  intros Hm Ht Hl Hk Ho. apply (gr_most _ _ _ _ (Ht m ltac:(lia))); [done|].
  apply (proj1 (overlaps_tail right (S m) k Hm ltac:(lia))), (proj1 (overlaps_chain right l (S m) k Hm ltac:(lia) Hl)), Ho.
Qed.
Lemma table_entry l m : S m ≤ length right → table_ok right prefix_lengths (S m) → overlaps right l (S m) →
  nth m prefix_lengths 0 ≤ m ∧ overlaps right l (nth m prefix_lengths 0).
Proof.
  intros Hm Ht Hl. destruct (Ht m ltac:(lia)) as [Hb Ho _]. split; [done|].
  apply (proj2 (overlaps_chain right l (S m) (nth m prefix_lengths 0) Hm ltac:(lia) Hl)), (proj2 (overlaps_tail right (S m) (nth m prefix_lengths 0) Hm ltac:(lia))), Ho.
Qed.
Lemma fall_spec c l fuel : ∀ m, m ≤ fuel → m < length right → table_ok right prefix_lengths m → overlaps right l m →
  let f := fall right prefix_lengths c fuel m in
  f ≤ m ∧ overlaps right l f ∧ (f = 0 ∨ right !! f = Some c) ∧
  (∀ k, k ≤ m → overlaps right l k → right !! k = Some c → k ≤ f).
Proof.
  induction fuel as [|fuel IH]; intros [|m] Hfuel Hm Ht Hl; try lia.
  1,2: cbn; split_and!; auto; lia.
  cbn [fall]. destruct (char_is right (S m) c) eqn:Hc.
  { apply char_is_spec in Hc. split_and!; auto. }
  destruct (table_entry l m) as [Hb Ho]; [lia|done..|].
  destruct (IH (nth m prefix_lengths 0)) as (Hf & Hof & Hend & Hmost); [lia|lia|apply (table_ok_le (S m)); [done|lia]|done|].
  split_and!; [lia|done|done|]. intros k Hk Hok Hkc. apply Hmost; [|done..].
  destruct (decide (k = S m)) as [-> |Hne]; [by rewrite (proj2 (char_is_spec _ _ _) Hkc) in Hc|].
  apply (table_overlap l); [lia|done|done|lia|done].
Qed.
Lemma extend_spec c l m : greatest right l (length right - 1) m → right ≠ [] → table_ok right prefix_lengths m →
  greatest right (l ++ [c]) (length right) (extend right prefix_lengths c m).
Proof.
  intros [Hb Ho Hmost] Hr Ht. assert (Hlen : 0 < length right) by (destruct right; cbn; [done|lia]). unfold extend.
  destruct (fall_spec c l m m) as (Hf & Hof & Hend & Hfm); [lia|lia|done|done|].
  set (f := fall _ _ _ _ _) in *. destruct (char_is right f c) eqn:Hc.
  - apply char_is_spec in Hc as Hfc. split; [by apply lookup_lt_Some in Hfc|by apply overlaps_extend|].
    intros [|k] Hk Hok; [lia|]. apply overlaps_snoc in Hok as [Hok Hkc]; [|lia].
    apply le_n_S, Hfm; [|done..]. apply Hmost; [lia|done].
  - destruct Hend as [-> |Hfc]; [|by rewrite (proj2 (char_is_spec _ _ _) Hfc) in Hc].
    split; [lia|auto|]. intros [|k] Hk Hok; [lia|]. exfalso. apply overlaps_snoc in Hok as [Hok Hkc]; [|lia].
    assert (k ≤ 0) as Hk0 by (apply Hfm; [apply Hmost; [lia|done]|done..]).
    replace k with 0 in Hkc by lia. by rewrite (proj2 (char_is_spec _ _ _) Hkc) in Hc.
Qed.
End kmp.

(** The table is filled from the left. *)
Record table_inv (right : list ascii) (i : nat) (st : list nat * nat) : Prop := mk_table_inv {
  ti_length : length st.1 = length right; ti_table : table_ok right st.1 i;
  ti_matched : greatest right (drop 1 (take i right)) (length right - 1) st.2;
  ti_zero : ∀ j, i ≤ j → nth j st.1 0 = 0 }.
Lemma table_ok_insert right pl i v : table_ok right pl i → table_ok right (<[i := v]> pl) i.
Proof.
  intros Ht m Hm. specialize (Ht m Hm). rewrite nth_lookup, list_lookup_insert_ne by lia. by rewrite <-nth_lookup.
Qed.
Lemma table_ok_S right pl i : table_ok right pl i → greatest right (drop 1 (take (S i) right)) i (nth i pl 0) → table_ok right pl (S i).
Proof. intros Ht Hg m Hm. destruct (decide (m = i)) as [-> |]; [done|]. apply Ht. lia. Qed.
Lemma greatest_bound right l b b' m : greatest right l b m → b' ≤ b → (∀ k, k ≤ b → overlaps right l k → k ≤ b') → greatest right l b' m.
Proof. intros [Hb Ho Hm] Hle Hall. split; [by apply Hall|done|]. intros k Hk. apply Hm. lia. Qed.
Lemma prefix_round_inv right i st : 1 ≤ i < length right → table_inv right i st → table_inv right (S i) (prefix_round right st i).
Proof.
  intros [Hi Hlt] [Hlen Ht Hm Hz]. destruct st as [pl m]. cbn [fst snd] in *.
  destruct (lookup_lt_is_Some_2 right i Hlt) as [c Hc]. unfold prefix_round. rewrite Hc.
  assert (Htail : drop 1 (take (S i) right) = drop 1 (take i right) ++ [c]).
  { rewrite (take_S_r _ _ c) by done. rewrite drop_app_le; [done|]. rewrite length_take. lia. }
  assert (Hl : length (drop 1 (take i right)) = i - 1) by (rewrite length_drop, length_take; lia).
  assert (Hmi : m ≤ i - 1) by (rewrite <-Hl; eapply overlaps_length; [|apply Hm]; destruct Hm; lia).
  assert (Htm : table_ok right pl m) by (eapply table_ok_le; [done|lia]).
  pose proof (extend_spec c _ m Hm ltac:(by destruct right) Htm) as Hg.
  assert (Hgi : ∀ b, b = i ∨ b = length right - 1 → greatest right (drop 1 (take (S i) right)) b (extend right pl c m)).
  { intros b Hb. rewrite Htail. eapply greatest_bound; [done|lia|]. intros k Hk Hok%overlaps_length; [|done].
    rewrite length_app, Hl in Hok. cbn in Hok. lia. }
  assert (Hmr : m < length right) by (destruct Hm; lia).
  destruct (fall_spec c _ m m (le_n m) Hmr Htm (gr_overlap _ _ _ _ Hm)) as (_ & _ & Hend & _).
  unfold extend in Hgi. set (f := fall _ _ _ _ _) in *. destruct (char_is right f c) eqn:Hcf.
  - split; cbn [fst snd]; [by rewrite length_insert| |apply Hgi; by right|].
    + apply table_ok_S; [by apply table_ok_insert|]. rewrite nth_lookup, list_lookup_insert_eq by lia. apply Hgi. by left.
    + intros j Hj. rewrite nth_lookup, list_lookup_insert_ne by lia. rewrite <-nth_lookup. apply Hz. lia.
  - destruct Hend as [Hf |Hfc]; [|by rewrite (proj2 (char_is_spec _ _ _) Hfc) in Hcf].
    split; cbn [fst snd]; [done| |apply Hgi; by right|intros j Hj; apply Hz; lia].
    apply table_ok_S; [done|]. rewrite Hz by lia. clearbody f. subst f. apply Hgi. by left.
Qed.
Lemma prefix_rounds right k : ∀ i st, 1 ≤ i → i + k ≤ length right → table_inv right i st →
  table_inv right (i + k) (foldl (prefix_round right) st (seq i k)).
Proof.
  induction k as [|k IH]; intros i st Hi Hle Hinv; [by rewrite Nat.add_0_r|]. cbn [seq foldl].
  replace (i + S k) with (S i + k) by lia. apply IH; [lia..|]. apply prefix_round_inv; [lia|done].
Qed.
Lemma prefix_table_ok right : right ≠ [] → table_ok right (prefix_table right) (length right).
Proof.
  intros Hr. assert (Hlen : 1 ≤ length right) by (destruct right; cbn; [done|lia]).
  assert (Hinit : table_inv right 1 (replicate (length right) 0, 0)).
  { assert (Hz : ∀ j, nth j (replicate (length right) 0) 0 = 0).
    { intros j. rewrite nth_lookup. destruct (_ !! j) eqn:E; [|done]. by apply lookup_replicate in E as [-> _]. }
    split; cbn [fst snd]; [apply length_replicate| | |auto].
    - intros m Hm. replace m with 0 by lia. rewrite Hz. split; [done|auto|lia].
    - split; [lia|auto|]. intros k Hk Hok%overlaps_length; [|lia]. rewrite length_drop, length_take in Hok. lia. }
  unfold prefix_table. apply (prefix_rounds right (length right - 1)) in Hinit; [|lia..].
  replace (1 + (length right - 1)) with (length right) in Hinit by lia. apply Hinit.
Qed.
Lemma overlap_loop_greatest right pl : right ≠ [] → table_ok right pl (length right) → ∀ left seen m, left ≠ [] →
  greatest right seen (length right - 1) m → greatest right (seen ++ left) (length right) (overlap_loop right pl left m).
Proof.
  intros Hr Ht left. assert (Hlen : 1 ≤ length right) by (destruct right; cbn; [done|lia]).
  induction left as [|c rest IH]; intros seen m Hne Hg; [done|]. cbn [overlap_loop].
  assert (He : greatest right (seen ++ [c]) (length right) (extend right pl c m)).
  { apply extend_spec; [done..|]. eapply table_ok_le; [done|]. destruct Hg. lia. }
  destruct rest as [|d rest]; [by rewrite andb_false_r|].
  replace (seen ++ c :: d :: rest) with ((seen ++ [c]) ++ d :: rest) by by rewrite <-app_assoc.
  apply IH; [done|]. rewrite andb_true_r. destruct (Nat.eqb_spec (extend right pl c m) (length right)) as [E|E].
  - destruct He as [_ Ho _]. rewrite E in Ho |- *.
    destruct (length right) as [|n] eqn:El; [lia|]. replace (S n - 1) with n by lia.
    destruct (table_entry (right := right) (prefix_lengths := pl) (seen ++ [c]) n) as [Hb Hob]; [by rewrite El|done..|].
    split; [done|done|]. intros k Hk Hok. apply (@table_overlap right pl (seen ++ [c])); [by rewrite El|done..].
  - destruct He as [Hb Ho Hm]. split; [lia|done|]. intros k Hk. apply Hm. lia.
Qed.

(** ** Overlaps of texts *)

(** The longest overlap, found by trying every length. *)
Definition longest_overlap (left right : list ascii) : nat :=
  list_max (base.filter (overlaps right left) (seq 0 (S (length right)))).
Definition edge_overlap_reference (left right : string) : nat :=
  let matched := longest_overlap (str_list left) (str_list right) in
  if clean_overlap left right matched then matched else 0.
Lemma longest_overlap_greatest left right : greatest right left (length right) (longest_overlap left right).
Proof.
  unfold longest_overlap. set (ks := base.filter _ _).
  assert (Hin : ∀ k, k ∈ ks ↔ k ≤ length right ∧ overlaps right left k).
  { intros k. unfold ks. rewrite list_elem_of_filter, elem_of_seq. split; intros [? ?]; split; auto; lia. }
  assert (Hmax : ∀ l, l ≠ [] → list_max l ∈ l).
  { clear. induction l as [|x [|y l] IH]; [done|intros _; cbn; rewrite Nat.max_0_r; by left|]. intros _.
    specialize (IH ltac:(done)). change (list_max (x :: y :: l)) with (Nat.max x (list_max (y :: l))).
    destruct (Nat.max_spec x (list_max (y :: l))) as [[_ ->]|[_ ->]]; [by right|by left]. }
  assert (Hne : ks ≠ []) by (intros E; pose proof (proj2 (Hin 0) (conj (Nat.le_0_l _) (overlaps_0 right left))) as H0; rewrite E in H0; by apply elem_of_nil in H0).
  apply Hmax, Hin in Hne as [Hb Ho]. split; [done..|]. intros k Hk Hok.
  pose proof (proj1 (list_max_le ks (list_max ks)) (le_n _)) as Hall. rewrite List.Forall_forall in Hall.
  apply Hall, list_elem_of_In, Hin. done.
Qed.
Lemma greatest_unique right l b m m' : greatest right l b m → greatest right l b m' → m = m'.
Proof. intros [] []. apply Nat.le_antisymm; auto. Qed.
Lemma kmp_greatest left right : left ≠ [] → right ≠ [] →
  greatest right left (length right) (overlap_loop right (prefix_table right) left 0).
Proof.
  intros Hl Hr. apply (overlap_loop_greatest right (prefix_table right) Hr (prefix_table_ok right Hr) left [] 0 Hl).
  split; [lia|auto|]. intros k Hk Ho%overlaps_length; [done|lia].
Qed.
Lemma edge_overlap_longest left right : _longest_exact_edge_overlap left right = edge_overlap_reference left right.
Proof.
  unfold _longest_exact_edge_overlap, edge_overlap_reference.
  destruct (String.eqb_spec left "") as [-> |Hl]; [|destruct (String.eqb_spec right "") as [-> |Hr]].
  - cbn [orb]. replace (longest_overlap _ _) with 0; [by destruct right|].
    destruct (longest_overlap_greatest (str_list "") (str_list right)) as [Hb Ho _]. apply overlaps_length in Ho; [|done]. change (length (str_list "")) with 0 in Ho. lia.
  - by rewrite orb_true_r.
  - cbn [orb]. erewrite (greatest_unique _ _ _ (overlap_loop _ _ _ _)); [done|apply kmp_greatest|apply longest_overlap_greatest];
      [by destruct left|by destruct right].
Qed.

Lemma str_list_inj s t : str_list s = str_list t → s = t.
Proof. revert t. induction s as [|c s IH]; intros [|d t]; cbn; try done. intros [= -> E]. f_equal. by apply IH. Qed.
Lemma str_list_app s t : str_list (s +:+ t) = str_list s ++ str_list t.
Proof. induction s as [|c s IH]; cbn; [done|]. by rewrite <-IH. Qed.
Lemma stake_sdrop k s : stake k s +:+ sdrop k s = s.
Proof. revert k. induction s as [|c s IH]; intros [|k]; cbn; try done. by rewrite <-(IH k) at 3. Qed.
Lemma list_str_list l : str_list (list_str l) = l.
Proof. induction l; cbn; congruence. Qed.
Lemma edge_overlap_suffix left right : let k := _longest_exact_edge_overlap left right in
  k ≤ String.length right ∧ ∃ before, left = before +:+ stake k right.
Proof.
  cbn. rewrite edge_overlap_longest. unfold edge_overlap_reference.
  destruct (longest_overlap_greatest (str_list left) (str_list right)) as [Hb [x Hx] _]. rewrite str_list_length in Hb.
  destruct (clean_overlap _ _ _).
  - split; [done|]. exists (list_str x). apply str_list_inj. by rewrite str_list_app, list_str_list, str_list_stake.
  - split; [lia|]. exists left. assert (stake 0 right = "") as -> by by destruct right. apply str_list_inj.
    by rewrite str_list_app, app_nil_r.
Qed.
Lemma stake_app a b : stake (String.length a) (a +:+ b) = a.
Proof. induction a as [|c a IH]; cbn; [by destruct b|]. f_equal. exact IH. Qed.
Lemma length_append a b : String.length (a +:+ b) = String.length a + String.length b.
Proof. induction a as [|c a IH]; cbn; [done|]. by rewrite <-IH. Qed.
Lemma length_stake k s : k ≤ String.length s → String.length (stake k s) = k.
Proof. intros Hk. rewrite <-str_list_length, str_list_stake, length_take, str_list_length. lia. Qed.

(** C32: the overlap of two windows is the longest end of the left one that starts
    the right one, as trying every length finds it, unless it cuts a word or
    holds none; and what a trimmed window loses is held by the other one. *)
Theorem edge_overlap_is_longest left right :
  _longest_exact_edge_overlap left right = edge_overlap_reference left right ∧
  (_trim_exact_prefix_overlap right left = right ∨ ∃ before cut rest,
     left = before +:+ cut ∧ right = cut +:+ rest ∧ _trim_exact_prefix_overlap right left = lstrip_by is_space rest) ∧
  (_trim_exact_suffix_overlap left right = left ∨ ∃ rest cut behind,
     left = rest +:+ cut ∧ right = cut +:+ behind ∧ _trim_exact_suffix_overlap left right = rstrip rest).
Proof.
  split; [apply edge_overlap_longest|]. destruct (edge_overlap_suffix left right) as [Hk [before Hl]].
  unfold _trim_exact_prefix_overlap, _trim_exact_suffix_overlap. set (k := _longest_exact_edge_overlap left right) in *. split.
  - destruct (whole_or_none k right left); [by left|right]. exists before, (stake k right), (sdrop k right).
    by rewrite stake_sdrop.
  - destruct (whole_or_none k left right); [by left|right]. exists before, (stake k right), (sdrop k right).
    rewrite stake_sdrop. split_and!; [done..|]. f_equal. rewrite Hl at 2. rewrite Hl at 1.
    rewrite length_append, length_stake by done. replace (String.length before + k - k) with (String.length before) by lia. apply stake_app.
Qed.

(** ** Parts of a text *)

Definition part_of (part whole : string) : Prop := ∃ a b, whole = a +:+ part +:+ b.
Lemma app_assoc_str a b c : (a +:+ b) +:+ c = a +:+ b +:+ c.
Proof. induction a as [|x a IH]; cbn; [done|]. by rewrite <-IH. Qed.
Lemma app_nil_str a : a +:+ "" = a.
Proof. induction a as [|x a IH]; cbn; [done|]. by rewrite <-IH at 2. Qed.
#[global] Instance part_of_preorder : PreOrder part_of.
Proof.
  split.
  - intros s. exists "", "". by rewrite app_nil_str.
  - intros x y z (a & b & ->) (c & d & ->). exists (c +:+ a), (b +:+ d). by rewrite !app_assoc_str.
Qed.
Lemma stake_part k s : part_of (stake k s) s.
Proof. exists "", (sdrop k s). by rewrite <-(stake_sdrop k s) at 1. Qed.
Lemma sdrop_part k s : part_of (sdrop k s) s.
Proof. exists (stake k s), "". by rewrite app_nil_str, stake_sdrop. Qed.
Lemma lstrip_part p s : part_of (lstrip_by p s) s.
Proof.
  induction s as [|c s [a [b E]]]; cbn; [done|]. destruct (p c); [|done]. exists (String c a), b. by rewrite E at 1.
Qed.
Lemma rstrip_head p s : ∃ tail, s = rstrip_by p s +:+ tail.
Proof.
  induction s as [|c s [tail E]]; [by exists ""|]. cbn. destruct (rstrip_by p s) as [|d r].
  - destruct (p c); [by exists (String c s)|exists s; done].
  - exists tail. cbn in *. by rewrite E at 1.
Qed.
Lemma rstrip_part p s : part_of (rstrip_by p s) s.
Proof. destruct (rstrip_head p s) as [tail E]. exists "", tail. done. Qed.
Lemma truncate_part s n : part_of (truncate_to_tokens None s n) s.
Proof.
  unfold truncate_to_tokens. destruct (_ <=? _)%Z; [exists "", s; done|]. destruct (_ <=? _)%Z; [done|].
  etransitivity; [apply rstrip_part|apply stake_part].
Qed.
Lemma trim_against_part i p text prior : part_of (trim_against i p text prior) text.
Proof.
  unfold trim_against. destruct (negb _); [done|]. destruct (_ <? _)%Z.
  - unfold _trim_exact_prefix_overlap. destruct (whole_or_none _ _ _); [done|]. etransitivity; [apply lstrip_part|apply sdrop_part].
  - unfold _trim_exact_suffix_overlap. destruct (whole_or_none _ _ _); [done|]. etransitivity; [apply rstrip_part|apply stake_part].
Qed.
Lemma trim_priors_part i priors : ∀ cache text t cache', trim_priors i priors cache text = Ok (t, cache') → part_of t text.
Proof.
  induction priors as [|prior rest IH]; intros cache text t cache' Hr; [by injection Hr as <- _|].
  cbn [trim_priors] in Hr. apply bind_Ok in Hr as ([[p|] cache1] & _ & Hr); [|by eapply IH].
  etransitivity; [by eapply IH|apply trim_against_part].
Qed.
Lemma without_overlap_part row selected cache t cache' :
  _context_text_without_prior_overlap row selected cache = Ok (t, cache') → part_of t (rr_text row).
Proof.
  unfold _context_text_without_prior_overlap. intros Hr. apply bind_Ok in Hr as ([[i|] cache1] & _ & Hr); [by eapply trim_priors_part|].
  by injection Hr as <- _.
Qed.

(** ** The selection *)

Section selection.
Context (tokenizer : option Tokenizer) (budget : Z).
Definition line_tokens (row : shaped_row) : Z :=
  (count_tokens tokenizer (context_prefix row) + count_tokens tokenizer (rr_text (sh_row row)))%Z.
Definition context_tokens (rows : list shaped_row) : Z := foldr (λ r n, line_tokens r + n)%Z 0%Z rows.
(** A selected row is a match, its text a part that is not empty. *)
Definition shown_of (m s : shaped_row) : Prop :=
  s = retext_shaped (rr_text (sh_row s)) m ∧ rr_text (sh_row s) ≠ "" ∧
  (tokenizer = None → part_of (rr_text (sh_row s)) (rr_text (sh_row m))).
(** What a context is after the matches [seen]. *)
Record selection (seen : list shaped_row) (c : context) : Prop := mk_selection {
  se_rows : ∃ kept, kept `sublist_of` seen ∧ Forall2 shown_of kept (selected_matches c);
  se_citations : citations c = map (λ s, _citation_from_row (sh_row s)) (selected_matches c);
  se_lines : context_lines c = map (λ s, context_prefix s +:+ rr_text (sh_row s)) (selected_matches c);
  se_tokens : tokens_used c = context_tokens (selected_matches c);
  se_all : (Z.of_nat (length (selected_matches c)) + chunks_dropped c = Z.of_nat (length seen))%Z;
  se_dropped : (0 ≤ chunks_dropped c ∧ (context_truncated c = false → chunks_dropped c = 0))%Z;
  se_budget : tokenizer = None → (tokens_used c ≤ Z.max 0 budget)%Z }.
Lemma context_tokens_snoc rows r : context_tokens (rows ++ [r]) = (context_tokens rows + line_tokens r)%Z.
Proof. induction rows as [|x rows IH]; cbn; [lia|]. unfold context_tokens in IH. rewrite IH. lia. Qed.
Lemma selection_drop seen c row : selection seen c → selection (seen ++ [row]) (drop_chunk c).
Proof.
  intros [(kept & Hs & Hk) ? ? ? Hall Hd Hb]. split; cbn; auto.
  - exists kept. split; [by apply sublist_inserts_r|done].
  - rewrite length_app. cbn. lia.
  - split; [lia|done].
Qed.
Lemma selection_row seen c cache row c' cache' : selection seen c →
  select_row tokenizer budget (c, cache) row = Ok (c', cache') → selection (seen ++ [row]) c'.
Proof.
  intros Hsel. unfold select_row. destruct (Z.leb_spec (budget - tokens_used c - count_tokens tokenizer (context_prefix row)) 0) as [|Hrem].
  { intros [= <- _]. by apply selection_drop. }
  set (remaining := (budget - _ - _)%Z) in *. intros Hr. apply bind_Ok in Hr as ([text cache1] & Ht & Hr).
  apply without_overlap_part in Ht. set (over := (remaining <? _)%Z) in Hr.
  set (shown := if over then truncate_to_tokens tokenizer text remaining else text) in Hr.
  destruct (String.eqb_spec shown "") as [_|Hne]; injection Hr as <- _; [by apply selection_drop|].
  destruct Hsel as [(kept & Hs & Hk) Hc Hl Htok Hall [Hd Hd'] Hb]. split; cbn -[context_prefix].
  - exists (kept ++ [row]). split; [by apply sublist_app|]. apply Forall2_app; [done|]. constructor; [|done]. split_and!; [done..|].
    intros ->. cbn. transitivity text; [|done]. unfold shown. destruct over; [apply truncate_part|done].
  - by rewrite Hc, map_app.
  - rewrite Hl, map_app. done.
  - rewrite Htok, context_tokens_snoc. done.
  - rewrite !length_app. cbn. lia.
  - split; [done|]. by intros [? _]%orb_false_iff; auto.
  - intros ->. assert (count_tokens None shown ≤ remaining)%Z; [|unfold remaining in *; lia]. unfold shown, over.
    destruct (Z.ltb_spec remaining (count_tokens None text)); [by apply fallback_truncates|lia].
Qed.
Lemma selection_rows rows : ∀ seen c cache c' cache', selection seen c →
  fold_result (select_row tokenizer budget) (c, cache) rows = Ok (c', cache') → selection (seen ++ rows) c'.
Proof.
  induction rows as [|row rows IH]; cbn [fold_result]; intros seen c cache c' cache' Hs Hr.
  - injection Hr as <- _. by rewrite app_nil_r.
  - apply bind_Ok in Hr as ([c1 cache1] & H1 & Hr). replace (seen ++ row :: rows) with ((seen ++ [row]) ++ rows) by by rewrite <-app_assoc.
    eapply IH; [|done]. by eapply selection_row.
Qed.
Lemma selection_nil : selection [] (mk_context [] [] [] 0 0 false).
Proof. split; cbn; auto; try lia. exists []. split; constructor. Qed.
End selection.


Module ContextSamples.
Definition manifest_chunk (index : Z) : value :=
  VDict [("chunk_index", VInt index); ("message_hash", VStr "h"); ("token_window_index", VInt index)].
Definition conversation : value :=
  VDict [("id", VStr "m1"); ("metadata", VDict [("index_chunks", VList [manifest_chunk 0; manifest_chunk 1])])].
Definition window (index : Z) (text : string) : shaped_row :=
  plain_row (mk_result_row "m1" fzero index "user" text conversation None fzero 2).
Notation windows := [window 0 "alpha beta gamma"; window 1 "beta gamma delta"].
Example second_row_dropped : ∃ c, _select_ask_context None windows 15 = Ok c ∧
  (context_lines c, chunks_dropped c, context_truncated c) = (["- [m1#0] alpha beta gamma"], 1%Z, true).
Proof. eexists. split; vm_compute; reflexivity. Qed.
End ContextSamples.
