(* ===== verification/FactAnswer.v ===== *)
(** * Answers from facts ([memory/ingestion/mvp_ingestion.py])

    The queries that a question stands for, the facts that may answer it, their
    narrowing, and the answer built from the latest entries of their timeline. *)
From Stdlib Require Import ZArith Lia Ascii.
From S2P Require Import Prelude PyStr Json Clock Hash Identity AuthDb AuthStore ConvStore Scope AuditLog Chunks Regex FactValidation FactExtract FactStore Summaries Ingest FactTimeline FactSearch Search Context.
Local Open Scope Z_scope.

(** ** Queries *)

(** A query by fields, or the question as a text. *)
Inductive fact_query :=
| ByFields (subject : option string) (predicate : string)
| ByText (question : string).

Definition _GENERIC_ATTRIBUTE_QUESTION_RE : pattern := re_compile_i
  "\bwhat\s+is\s+(?:the\s+)?(?P<subject>[A-Za-z0-9][A-Za-z0-9 _-]{1,120})\??\s*$".
Definition _GENERIC_ATTRIBUTE_ARTICLE_RE : pattern := re_compile_i "^(?:the|a|an)\s+".
Definition _GENERIC_FACT_PROJECTION_QUESTION_PREFIXES : list string :=
  ["are "; "can "; "could "; "did "; "do "; "does "; "is "; "should "; "what "; "which "; "who "; "would "].
Definition owned_question : pattern := re_compile "\b(?:what|which)\b.*\b(?:do i own|do i have|is mine)\b".
Definition favorite_question : pattern := re_compile_i "favorite\s+(?P<name>[A-Za-z0-9 _-]+)".
Definition favorite_lowered : pattern := re_compile "favorite\s+(?P<name>[A-Za-z0-9 _-]+)".
Definition subject_patterns : list pattern :=
  [re_compile "\b(?:who created|creator of|for|about)\s+(?P<subject>[A-Z][A-Za-z0-9 _-]{1,80})";
   re_compile "\b(?P<subject>[A-Z][A-Za-z0-9 _-]{1,80})\?"].

(** [_query_tokens(v)] with its default limit *)
Definition first_tokens (v : string) : list string := dedup (_query_tokens v (Some 8%nat)).
Definition all_tokens (v : string) : list string := dedup (_query_tokens v None).
Definition meets (a b : list string) : bool := existsb (λ t, FactSearch.mem t b) a.
Definition within (a b : list string) : bool := forallb (λ t, FactSearch.mem t b) a.
Definition _question_project_subject (question : string) : option string :=
  match omap (λ p, m ← re_search p question; Some (group "subject" question m)) subject_patterns with
  | s :: _ => Some (strip_by (in_chars " ?.") s)
  | [] => None
  end.
Definition _clean_generic_attribute_subject (v : string) : string :=
  _clean_fact_object (re_sub _GENERIC_ATTRIBUTE_ARTICLE_RE "" (strip v)).
Definition _should_skip_generic_attribute_question_subject (subject : string) : bool :=
  String.eqb subject "" || existsb (String.eqb (lower subject)) ["i"; "my"; "the"; "this"]
  || meets (all_tokens subject) _NOISY_PROJECT_ATTRIBUTE_SUBJECT_TOKENS.
Definition _generic_attribute_query (question : string) : option fact_query :=
  m ← re_search _GENERIC_ATTRIBUTE_QUESTION_RE question;
  let subject := _clean_generic_attribute_subject (group "subject" question m) in
  if _should_skip_generic_attribute_question_subject subject then None else Some (ByFields (Some subject) "description").
Definition _fact_question_needs_context (question : string) : bool :=
  existsb (λ term, contains term (lower question)) ["context"; "source"; "why"; "when"; "where did"; "discuss"].
Definition _looks_like_fact_projection_question (question : string) : bool :=
  let normalized := lower (strip question) in
  if String.eqb normalized "" then false
  else contains "?" normalized || existsb (λ p, startswith p normalized) _GENERIC_FACT_PROJECTION_QUESTION_PREFIXES.
Definition _question_can_use_generic_fact_projection (question : string) : bool :=
  negb (_fact_question_needs_context question) && _looks_like_fact_projection_question question
  && match _fact_text_query_tokens question with [] => false | _ => true end.
Definition _generic_fact_projection_query (question : string) : option fact_query :=
  if _question_can_use_generic_fact_projection question then Some (ByText question) else None.
Definition _fact_query (question : string) : option fact_query :=
  let lowered := lower question in
  let subject := nonempty (_question_project_subject question) in
  let says (terms : list string) := existsb (λ t, contains t lowered) terms in
  let about_user predicate := Some (ByFields (Some "user") predicate) in
  let favorite (p : pattern) (text : string) (otherwise : option fact_query) := match re_search p text with
    | Some m => about_user ("favorite_" +:+ _normalize_predicate_part (group "name" text m))
    | None => otherwise end in
  if searched owned_question lowered then about_user "owns_item"
  else if says ["who am i"; "what do you know about me"] then about_user "profile_identity"
  else if says ["my name"; "what is my name"] then about_user "profile_name"
  else if says ["where do i live"] then about_user "profile_location"
  else if says ["what do i work as"; "my job"] then about_user "profile_role"
  else favorite favorite_question question
  (if says ["do i like"; "i like"; "prefer"; "preference"] then about_user "likes"
   else if says ["topic"; "recurring"] then about_user "recurring_topic"
   else if says ["command name"] then Some (ByFields subject "command_name")
   else if says ["indexing strategy"] then Some (ByFields subject "indexing_strategy")
   else favorite favorite_lowered lowered
   (if says ["creator"; "who created"] then Some (ByFields subject "creator")
    else _generic_attribute_query question)).
(** A query by fields differs from one by text. *)
Definition _fact_answer_queries (question : string) : list fact_query :=
  omap id [_fact_query question; _generic_fact_projection_query question].

(** ** Selection of facts *)

Definition query_subject (q : fact_query) : option string := match q with ByFields s _ => s | ByText _ => None end.
Definition query_predicate (q : fact_query) : option string := match q with ByFields _ p => Some p | ByText _ => None end.
Definition live_facts (facts : list dict) : list dict := List.filter (λ f, is_none (vget "deleted_at" f)) facts.
Definition subject_tokens (fact : dict) : list string := first_tokens (text_of "subject" fact).
Definition _filter_facts_for_question (facts : list dict) (question : string) (q : fact_query) : list dict :=
  match nonempty (query_subject q) with
  | None => facts
  | Some subject =>
      match first_tokens subject with
      | [] => facts
      | wanted =>
          match List.filter (λ f, within wanted (subject_tokens f)) facts with
          | [] => match _fact_identity_tokens subject with
                  | [] => match List.filter (λ f, meets (subject_tokens f) (first_tokens question)) facts with
                          | [] => facts | met => met end
                  | _ => []
                  end
          | filtered => filtered
          end
      end
  end.
Definition _specific_fact_question_tokens (question : string) (q : fact_query) : list string :=
  let ignored := _FACT_QUESTION_STOPWORDS ++ all_tokens (replace "_" " " (default "" (query_predicate q)))
                 ++ all_tokens (default "" (query_subject q)) in
  List.filter (λ t, negb (FactSearch.mem t ignored)) (all_tokens question).
Definition _fact_question_overlap_score (question_tokens : list string) (source_conversations : list (string * dict)) (fact : dict) : Z :=
  common question_tokens (all_tokens (_fact_search_text fact source_conversations)).
Definition best_of (scores : list Z) : Z := match scores with [] => 0 | s :: rest => foldl Z.max s rest end.
(** The facts with the best overlap. *)
Definition narrowed (question_tokens : list string) (source_conversations : list (string * dict)) (facts : list dict) : list dict :=
  let score := _fact_question_overlap_score question_tokens source_conversations in
  let best := best_of (map score facts) in
  if best <=? 0 then facts else List.filter (λ f, Z.eqb (score f) best) facts.
Definition facts_by_id (facts : list dict) : list (string * dict) :=
  dict_update [] (omap (λ f, if truthy (vget "id" f) then Some (py_str (vget "id" f), f) else None) facts).
(** One fact, with the facts put out so far and their ids. *)
Definition succeed (by_id : list (string * dict)) (st : list dict * list string) (fact : dict) : list dict * list string :=
  let '(output, seen) := st in
  let fact_id := text_of "id" fact in
  let '(output, seen) := if negb (String.eqb fact_id "") && negb (FactSearch.mem fact_id seen)
                         then (output ++ [fact], fact_id :: seen) else (output, seen) in
  let successor_id := py_str (or_value (vget "superseded_by" fact) (VStr "")) in
  match dict_get successor_id by_id with
  | Some successor => if FactSearch.mem successor_id seen then (output, seen) else (output ++ [successor], successor_id :: seen)
  | None => (output, seen)
  end.
Definition _with_supersession_successors (ranked facts : list dict) : list dict :=
  fst (foldl (succeed (facts_by_id facts)) ([], []) ranked).

(** A group: the subject and predicate of its facts, and the facts with their scores and places. *)
Definition fact_group : Type := (string * string) * list (Z * Z * dict).
Definition same_group (k : string * string) (g : fact_group) : bool := String.eqb k.1 g.1.1 && String.eqb k.2 g.1.2.
Fixpoint add_to_group (k : string * string) (row : Z * Z * dict) (groups : list fact_group) : list fact_group :=
  match groups with
  | [] => [(k, [row])]
  | g :: rest => if same_group k g then (g.1, g.2 ++ [row]) :: rest else g :: add_to_group k row rest
  end.
Definition group_score (g : fact_group) : Z := best_of (map (λ r, r.1.1) g.2).
Definition group_sum (g : fact_group) : Z := foldr Z.add 0 (map (λ r, r.1.1) g.2).
Definition group_first (g : fact_group) : Z := match map (λ r, r.1.2) g.2 with [] => 0 | i :: rest => foldl Z.min i rest end.
(** The comparison of the keys of two groups *)
Definition group_before (a b : fact_group) : bool :=
  if group_score b <? group_score a then true else if group_score a <? group_score b then false
  else if group_sum b <? group_sum a then true else if group_sum a <? group_sum b then false
  else group_first a <? group_first b.
Definition best_group (groups : list fact_group) : option fact_group :=
  match groups with [] => None | g :: rest => Some (foldl (λ b x, if group_before x b then x else b) g rest) end.
Definition fact_groups (query_tokens : list string) (facts : list dict) : list fact_group :=
  foldl (λ groups ix, add_to_group (text_of "subject" ix.2, text_of "predicate" ix.2)
           (common query_tokens (all_tokens (_fact_search_text ix.2 [])), ix.1, ix.2) groups) [] (enumerate 0 facts).
(** [_best_fact_projection_group] without the source memories *)
Definition _best_fact_projection_group (facts : list dict) (question : string) : list dict :=
  match best_group (fact_groups (_fact_text_query_tokens question) facts) with
  | None => []
  | Some g => if group_score g <=? 0 then [] else map snd g.2
  end.
Definition _generic_fact_projection_candidates (facts : list dict) (question : string) : list dict :=
  let active := live_facts facts in
  let ranked := _with_supersession_successors (_rank_facts_by_text_query active (Some question) []) active in
  if Z.of_nat (length ranked) <? 2 then ranked else _best_fact_projection_group ranked question.

(** ** Evidence, citations and provenance of facts *)

Definition _fact_evidence (used_in_answer : bool) (fact : dict) : dict :=
  let copy (keys : list string) := map (λ k, (k, vget k fact)) keys in
  let base := [("type", VStr "fact"); ("fact_id", vget "id" fact)] ++ copy ["subject"; "predicate"]
    ++ [("object_raw", vget_or "object_raw" (vget "object" fact) fact);
        ("object_normalized", vget_or "object_normalized" (vget "object" fact) fact)]
    ++ copy ["confidence"; "confidence_reason"; "source_quality"; "source_conversation_id"]
    ++ [("source_message_indexes", vget_or "source_message_indexes" (VList []) fact)]
    ++ copy ["created_at"; "updated_at"; "last_confirmed_at"; "stored_at"; "author"; "superseded_by"; "superseded_at"; "deleted_at"]
    ++ [("used_in_answer", VBool used_in_answer)] in
  dict_update (dict_update base (extraction_public_fields (vget "qualifiers" fact))) (_fact_save_intent_fields fact).
Definition _fact_citation (fact : dict) : dict :=
  let copy (keys : list string) := map (λ k, (k, vget k fact)) keys in
  dict_update ([("id", vget "source_conversation_id" fact); ("fact_id", vget "id" fact); ("predicate", vget "predicate" fact);
                ("text", vget_or "object_normalized" (vget "object" fact) fact)]
    ++ copy ["source_quality"; "confidence_reason"; "last_confirmed_at"; "stored_at"; "author"]) (_fact_save_intent_fields fact).
Definition add_intent (intent : option string) (intents : list string) : list string :=
  match nonempty intent with
  | Some i => if FactSearch.mem i intents then intents else intents ++ [i]
  | None => intents
  end.
Definition provenance_fact (source_conversations : list (string * dict)) (grouped : list (string * provenance)) (fact : dict)
    : list (string * provenance) :=
  let conversation_id := text_of "source_conversation_id" fact in
  let item := default (mk_provenance conversation_id (vget "author" fact) VNone (vget "stored_at" fact) 0 true (Some ([], [])))
                (dict_get conversation_id grouped) in
  let '(source, title, stored_at) := match _source_conversation_for_fact fact source_conversations with
    | Some c => (vget "source" c, vget "title" c, vget "timestamp" c)
    | None => (pv_source item, pv_title item, pv_stored_at item) end in
  let '(intents, sources) := default ([], []) (pv_save_intents item) in
  dict_set conversation_id
    (mk_provenance (pv_conversation_id item) source title stored_at (pv_matching_chunks item + 1) (pv_used_in_answer item)
       (Some (add_intent (_fact_qualifier_value fact "save_intent") intents,
              add_intent (_fact_qualifier_value fact "save_intent_source") sources))) grouped.
Definition _confidence_reason_for_facts (facts : list dict) (basis : string) : string :=
  if String.eqb basis CONFLICT then "Multiple latest facts match the question at the same timestamp but disagree." else
  match facts with
  | [] => "No matching facts were used."
  | _ => match FactSearch._unique_strings (map (text_of "confidence_reason") facts) with
         | [] => "Matching normalized facts were used."
         | reasons => join "; " reasons
         end
  end.
(** [facts] is not empty. *)
Definition _fact_answer_text (facts : list dict) (conflict : bool) : string :=
  let objects := map (λ f, py_str (or_value (vget "object_normalized" f) (vget_or "object" (VStr "") f))) facts in
  if conflict then "Stored facts disagree: " +:+ join "; " objects else join "; " objects.
Definition context_block (rows : list shaped_row) : string := join newline (map (λ r, context_prefix r +:+ rr_text (sh_row r)) rows).
Definition with_context (text : string) (rows : list shaped_row) : string :=
  text +:+ newline +:+ "Context from memory:" +:+ newline +:+ context_block rows.

(** ** Answers *)

Section answers.
Context `{HashLib} `{V : VectorStore}.
Notation W := (M World).
(** The rows that [_search_for_ask] finds for the question. *)
Variable search_operation : W (list shaped_row).

Definition _search_facts (subject predicate : option string) (owner_id project_id : option string)
    (conversation_filters : ConversationFilters) (fact_filters : FactFilters) : W (list dict) :=
  found ← in_facts (search_facts subject predicate (include_superseded fact_filters) project_id);
  let allowed := List.filter (λ f, _fact_allowed (VDict f) owner_id project_id) found in
  source_conversations ← (if has_filters conversation_filters || bool_decide (is_Some (ff_source fact_filters))
                          then _source_conversations_for_facts allowed else mret []);
  lift (filter_result (λ f, _fact_matches_filters f conversation_filters fact_filters source_conversations) allowed).
Definition _narrow_facts_for_question (facts : list dict) (question : string) (q : fact_query) : W (list dict) :=
  if Z.of_nat (length facts) <? 2 then mret facts else
  match _specific_fact_question_tokens question q with
  | [] => mret facts
  | tokens => source_conversations ← _source_conversations_for_facts facts; mret (narrowed tokens source_conversations facts)
  end.
Definition status_all (q : fact_query) : string := match q with ByText _ => "all" | ByFields _ _ => "active" end.
Definition _candidate_facts_for_question (question : string) (q : fact_query) (owner_id project_id : option string)
    (filters : ConversationFilters) : W (list dict) :=
  fact_filters ← lift (fact_filters_from_options any_fact (Some (status_all q)));
  let subject := if bool_decide (query_subject q = Some "user") then Some "user" else None in
  facts ← _search_facts subject (query_predicate q) owner_id project_id filters fact_filters;
  match q with
  | ByText text => mret (_generic_fact_projection_candidates facts text)
  | ByFields _ _ => _narrow_facts_for_question (live_facts (_filter_facts_for_question facts question q)) question q
  end.
Fixpoint first_candidates (question : string) (queries : list fact_query) (owner_id project_id : option string)
    (filters : ConversationFilters) : W (list dict) :=
  match queries with
  | [] => mret []
  | q :: rest =>
      candidates ← _candidate_facts_for_question question q owner_id project_id filters;
      match candidates with [] => first_candidates question rest owner_id project_id filters | _ => mret candidates end
  end.
Definition _provenance_from_facts (facts : list dict) : W (list provenance) :=
  source_conversations ← _source_conversations_for_facts facts;
  mret (map snd (foldl (provenance_fact source_conversations) [] facts)).
Definition _build_fact_answer (selected_entries projection : list FactTimelineEntry) (basis : string) (top_k : Z) : W answer :=
  let public_active := map te_fact selected_entries in
  let conflict := String.eqb basis CONFLICT in
  let confidence := if conflict then "low" else py_str (vget_or "confidence" (VStr "medium") (hd [] public_active)) in
  let fact_evidence := map (λ f, FactEvidence (_fact_evidence true f)) public_active
    ++ map (λ e, FactEvidence (_fact_evidence false (te_fact e))) (historical_entries projection) in
  let text := _fact_answer_text public_active conflict in
  results ← (if String.eqb basis MIXED then search_operation else mret []);
  let shown := py_take top_k results in
  provenance ← _provenance_from_facts public_active;
  mret (mk_answer results (match shown with [] => text | _ => with_context text shown end)
    (map (λ f, OfFact (_fact_citation f)) public_active ++ map (λ r, OfChunk (_citation_from_row (sh_row r))) shown)
    confidence (_confidence_reason_for_facts public_active basis) basis provenance fact_evidence fact_evidence
    (Some (mk_fact_fields public_active (latest_payload projection) (timeline_payload projection))) None None).
Definition fact_basis (question : string) (include_context : bool) (projection : list FactTimelineEntry) : string :=
  if has_latest_conflict projection then CONFLICT
  else if _fact_question_needs_context question && include_context then MIXED else FACT_LAYER.
Definition _answer_from_facts (question : string) (top_k : Z) (owner_id project_id : option string) (filters : ConversationFilters)
    (include_context : bool) : W (option answer) :=
  candidates ← first_candidates question (_fact_answer_queries question) owner_id project_id filters;
  match candidates with
  | [] => mret None
  | _ =>
      source_conversations ← _source_conversations_for_facts candidates;
      public_timeline ← lift (map_result (λ f, _public_fact f source_conversations) candidates);
      projection ← lift (project None public_timeline);
      match unique_latest_entries projection with
      | [] => mret None
      | selected_entries =>
          a ← _build_fact_answer selected_entries projection (fact_basis question include_context projection) top_k;
          mret (Some a)
      end
  end.
End answers.

(** A fact that the user stated or corrected. *)
Definition authoritative (fact : dict) : bool :=
  is_text "high" (vget "confidence" fact)
  && (is_text "direct_user_statement" (vget "source_quality" fact) || is_text "corrected_by_user" (vget "source_quality" fact)).
Definition _fact_answer_fast_path (fact_answer : answer) (question : string) : bool :=
  String.eqb (an_answer_basis fact_answer) FACT_LAYER && negb (_fact_question_needs_context question)
  && match an_facts fact_answer with
     | Some f => match ff_facts f with [] => false | facts => forallb authoritative facts end
     | None => false
     end.
