(* ===== verification/Handoff.v ===== *)
(** * Handoff packets ([memory/ingestion/mvp_ingestion.py], [memory/handoff_models.py])

    A packet is read off the selected rows of a search: its claims by the words
    they start with, its status, goal, age and notes, all redacted. *)
From Stdlib Require Import ZArith Lia Ascii.
From S2P Require Import Prelude PyStr Json Clock PyFloat Ranking Hash Identity AuthDb AuthStore ConvStore Scope Append AuditLog Chunks Regex FactValidation Summaries Ingest Pydantic Search Context.
Local Open Scope Z_scope.

(** ** Packets; fields that are always the same are left out *)

Inductive HandoffStatus := ACTIVE | BLOCKED | WAITING_FOR_REVIEW | COMPLETE | SUPERSEDED.
Record HandoffClaim := mk_claim { cl_text : string; cl_citations : list string }.
Record HandoffChangedFile := mk_changed_file { cf_claim : HandoffClaim; cf_path : string }.
Record HandoffCommand := mk_command { cm_claim : HandoffClaim; cm_command : string }.
Record HandoffResumeHint := mk_hint {
  objective : option HandoffClaim; rh_progress : list HandoffClaim; blocker : option HandoffClaim;
  immediate_next_action : option HandoffClaim; evidence_state : string; stale : bool; incomplete : bool }.
Record handoff_sections := mk_sections {
  confirmed_progress : list HandoffClaim; decisions : list HandoffClaim; changed_files : list HandoffChangedFile;
  commands_run : list HandoffCommand; validation : list HandoffClaim; blockers : list HandoffClaim; next_steps : list HandoffClaim }.
Record HandoffPacket := mk_packet {
  hp_id : string; hp_project_id : option string; hp_thread_id : option string; source_agent : option string;
  goal : HandoffClaim; hp_status : HandoffStatus; summary : list HandoffClaim; sections : handoff_sections;
  hp_citations : list citation; created_at : datetime; updated_at : datetime; hp_confidence : string;
  completeness_notes : list string; hp_tokens_used : Z; context_token_budget : Z; hp_truncated : bool;
  resume_hint : HandoffResumeHint }.
(** The constraints of the models that a packet of [ask] can violate. *)
Definition validated_citation (c : citation) : result citation :=
  if String.eqb (ci_id c) "" || (ci_chunk_index c <? 0) || String.eqb (ci_text c) "" then validation_error else Ok c.
Definition validated_packet (p : HandoffPacket) : result HandoffPacket :=
  if String.eqb (hp_id p) "" || (hp_tokens_used p <? 0) || (context_token_budget p <? 1)
     || negb (mem (hp_confidence p) ["none"; "low"; "medium"; "high"])
  then validation_error else Ok p.

(** ** Claims *)

Inductive section := PROGRESS | DECISIONS | CHANGED_FILES | COMMANDS_RUN | VALIDATION | BLOCKERS | NEXT_STEPS.
Definition _HANDOFF_SECTION_PREFIXES : list (string * section) :=
  [("confirmed progress:", PROGRESS); ("progress:", PROGRESS); ("decision:", DECISIONS); ("changed file:", CHANGED_FILES);
   ("changed files:", CHANGED_FILES); ("command:", COMMANDS_RUN); ("validation:", VALIDATION); ("validated:", VALIDATION);
   ("blocker:", BLOCKERS); ("blocked:", BLOCKERS); ("next step:", NEXT_STEPS); ("next steps:", NEXT_STEPS)].
Definition _HANDOFF_STALE_AFTER_DAYS : Z := 30.

(** [s.find(sub)] *)
Fixpoint find_in (sub s : string) : option nat :=
  if startswith sub s then Some 0%nat else
  match s with EmptyString => None | String _ rest => S <$> find_in sub rest end.
(** [text[text.casefold().find(prefix) + len(prefix):]] *)
Definition text_behind (prefix text : string) : option string :=
  position ← find_in prefix (casefold text); Some (sdrop (position + String.length prefix) text).
Definition add_claim (s : section) (value ref : string) (x : handoff_sections) : handoff_sections :=
  let claim := mk_claim value [ref] in
  let '(mk_sections progress dec files commands val blocks next) := x in
  match s with
  | PROGRESS => mk_sections (progress ++ [claim]) dec files commands val blocks next
  | DECISIONS => mk_sections progress (dec ++ [claim]) files commands val blocks next
  | CHANGED_FILES =>
      let paths := List.filter (λ p, negb (String.eqb p "")) (map strip (split_on "," value)) in
      mk_sections progress dec (files ++ map (mk_changed_file claim) paths) commands val blocks next
  | COMMANDS_RUN => mk_sections progress dec files (commands ++ [mk_command claim value]) val blocks next
  | VALIDATION => mk_sections progress dec files commands (val ++ [claim]) blocks next
  | BLOCKERS => mk_sections progress dec files commands val (blocks ++ [claim]) next
  | NEXT_STEPS => mk_sections progress dec files commands val blocks (next ++ [claim])
  end.
(** The first of the prefixes that the text holds decides. *)
Fixpoint classify (prefixes : list (string * section)) (text ref : string) (x : handoff_sections) : handoff_sections :=
  match prefixes with
  | [] => x
  | (prefix, s) :: rest =>
      match text_behind prefix text with
      | None => classify rest text ref x
      | Some behind => let value := strip_by (in_chars " -") behind in
                       if String.eqb value "" then x else add_claim s value ref x
      end
  end.
Definition _classify_handoff_claim (text ref : string) (x : handoff_sections) : handoff_sections :=
  classify _HANDOFF_SECTION_PREFIXES text ref x.
Definition reference (c : citation) : string := ci_id c +:+ "#" +:+ str_of_Z (ci_chunk_index c).
(** One pair of a row and a citation; a row without words is skipped. *)
Definition add_row (st : list HandoffClaim * handoff_sections) (rc : shaped_row * citation) : list HandoffClaim * handoff_sections :=
  let '(claims, x) := st in
  let text := redact_secrets (collapse (rr_text (sh_row rc.1))) in
  if String.eqb text "" then st else
  (claims ++ [mk_claim text [reference rc.2]], _classify_handoff_claim text (reference rc.2) x).
Definition no_sections : handoff_sections := mk_sections [] [] [] [] [] [] [].
(** [zip(selected, citations, strict=False)] *)
Definition read_rows (selected : list shaped_row) (citations : list citation) : list HandoffClaim * handoff_sections :=
  foldl add_row ([], no_sections) (combine selected citations).

Definition redact_citation (c : citation) : citation :=
  mk_citation (ci_id c) (ci_chunk_index c) (ci_score c) (redact_secrets (ci_text c)).
(** The citations with a text. *)
Definition handoff_citations (raw_citations : list citation) : result (list citation) :=
  map_result (λ c, validated_citation (redact_citation c)) (List.filter (λ c, negb (String.eqb (strip (ci_text c)) "")) raw_citations).

(** ** Times, goal and status *)

Definition conversation_of (row : shaped_row) : option dict := as_dict (rr_conversation (sh_row row)).
(** [now] is the time in microseconds. *)
Definition _parse_handoff_timestamp (now : Z) (v : string) : result datetime :=
  match fromisoformat (replace "Z" "+00:00" v) with
  | Ok d => Ok (match dt_offset d with Some _ => d | None => mk_datetime (dt_wall d) (Some 0) end)
  | Raise (ValueError _) => Ok (mk_datetime now (Some 0))
  | Raise e => Raise e
  end.
Definition row_timestamps (now : Z) (selected : list shaped_row) : result (list datetime) :=
  map_result (_parse_handoff_timestamp now)
    (omap (λ c, if truthy (vget "timestamp" c) then Some (py_str (vget "timestamp" c)) else None) (omap conversation_of selected)).
Definition latest_of (d : datetime) (l : list datetime) : datetime := foldl (λ a b, if utc_us a <? utc_us b then b else a) d l.
Definition earliest_of (d : datetime) (l : list datetime) : datetime := foldl (λ a b, if utc_us b <? utc_us a then b else a) d l.
Definition agent_of (selected : list shaped_row) : option string :=
  head (omap (λ c, if truthy (vget "source" c) then Some (py_str (vget "source" c)) else None) (omap conversation_of selected)).
Definition goal_of (claim : HandoffClaim) : option HandoffClaim :=
  behind ← text_behind "goal:" (cl_text claim);
  if String.eqb (strip behind) "" then None else Some (mk_claim (strip behind) (cl_citations claim)).
Definition explicit_goal (claims : list HandoffClaim) : option HandoffClaim := head (omap goal_of claims).
Definition empty {A} (l : list A) : bool := match l with [] => true | _ => false end.
Definition status_of (claims : list HandoffClaim) (x : handoff_sections) : HandoffStatus :=
  let status_text := join " " (map (λ c, casefold (cl_text c)) claims) in
  if contains "status: complete" status_text then COMPLETE
  else if contains "status: waiting_for_review" status_text || contains "status: waiting for review" status_text then WAITING_FOR_REVIEW
  else if empty (blockers x) then ACTIVE else BLOCKED.
Definition missing_notes (x : handoff_sections) : list string :=
  omap (λ p : string * bool, if p.2 then Some ("No explicit " +:+ p.1 +:+ " were found in the retrieved evidence.") else None)
    [("confirmed progress", empty (confirmed_progress x)); ("decisions", empty (decisions x)); ("changed files", empty (changed_files x));
     ("commands", empty (commands_run x)); ("validation", empty (validation x)); ("blockers", empty (blockers x));
     ("next steps", empty (next_steps x))].

(** ** Redaction *)

Fixpoint _redact_handoff_value (v : value) : value :=
  match v with
  | VStr s => VStr (redact_secrets s)
  | VDict d => VDict (map (λ kv, (kv.1, _redact_handoff_value kv.2)) d)
  | VList l => VList (map _redact_handoff_value l)
  | _ => v
  end.
Definition redact_row (row : shaped_row) : shaped_row :=
  let r := sh_row row in
  let red := redact_secrets in
  mk_shaped (mk_result_row (red (rr_id r)) (rr_score r) (rr_chunk_index r) (red (rr_role r)) (red (rr_text r))
               (_redact_handoff_value (rr_conversation r)) (rr_explanation r) (rr_conversation_score r) (rr_conversation_match_count r))
    (red <$> sh_thread_id row) (map red (sh_thread_conversation_ids row)) (sh_matching_chunks row)
    (map (λ c, mk_citation (red (ci_id c)) (ci_chunk_index c) (ci_score c) (red (ci_text c))) (sh_evidence_chunks row)).

(** ** The answer *)

Record handoff_answer := mk_handoff_answer {
  ha_results : list shaped_row; ha_confidence_reason : string; handoff : HandoffPacket; ha_lineage : lineage_view;
  ha_query_plan : option dict }.
Section handoff.
Context `{HashLib} `{V : VectorStore}.
Notation W := (M World).
(** [str(uuid5(NAMESPACE_URL, name))], and the time in microseconds *)
Variable uuid5_url : string → string.
Variable now : Z.
Definition handoff_notes (no_citations cut is_stale : bool) (x : handoff_sections) : list string :=
  (if no_citations then ["No authorized matching memory was found."] else [])
  ++ (if cut then ["The packet is incomplete because the context token budget was reached."] else [])
  ++ missing_notes x
  ++ (if is_stale then ["The newest cited evidence is older than " +:+ str_of_Z _HANDOFF_STALE_AFTER_DAYS +:+ " days."] else []).
Definition state_of (no_citations is_stale is_incomplete : bool) : string :=
  if no_citations then "unsupported" else if is_stale then "stale" else if is_incomplete then "incomplete" else "current".
Definition handoff_packet (question : string) (c : context) (project_id thread_id : option string) (token_budget : Z) : result HandoffPacket :=
  let selected := selected_matches c in
  cited ← handoff_citations (citations c);
  let '(claims, x) := read_rows selected cited in
  timestamps ← row_timestamps now selected;
  let at_now := mk_datetime now (Some 0) in
  let updated := match timestamps with d :: l => latest_of d l | [] => at_now end in
  let created := match timestamps with d :: l => earliest_of d l | [] => at_now end in
  let is_stale := negb (empty timestamps) && (_HANDOFF_STALE_AFTER_DAYS <? (now - utc_us updated) / 86400000000) in
  let cut := context_truncated c || negb (chunks_dropped c =? 0) in
  let objective := explicit_goal claims in
  let is_incomplete := cut || negb (bool_decide (is_Some objective)) || empty (next_steps x) in
  let hint := mk_hint objective (confirmed_progress x) (head (blockers x)) (head (next_steps x))
                (state_of (empty cited) is_stale is_incomplete) is_stale is_incomplete in
  validated_packet (mk_packet
    (uuid5_url (join "|" ([default "" project_id; default "" thread_id; strip question] ++ map reference cited)))
    project_id thread_id (agent_of selected) (default (mk_claim "Insufficient cited evidence to identify the objective." []) objective)
    (status_of claims x) claims x cited created updated (_confidence_from_context selected (context_truncated c))
    (handoff_notes (empty cited) cut is_stale x) (tokens_used c) token_budget (context_truncated c) hint).
Definition _handoff_ask_result (tokenizer : option Tokenizer) (question : string) (matches : list shaped_row)
    (project_id thread_id : option string) (token_budget : Z) : W handoff_answer :=
  c ← lift (_select_ask_context tokenizer matches token_budget);
  packet ← lift (handoff_packet question c project_id thread_id token_budget);
  lineage ← match head (omap conversation_of (selected_matches c)) with
    | Some source => in_convs (_lineage_view (_owner_id_from_conversation (VDict source))
                       (default LOCAL_DEFAULT_PROJECT_ID (nonempty project_id)) source)
    | None => mret (mk_view [] false false false)
    end;
  let notes := completeness_notes packet in
  mret (mk_handoff_answer (map redact_row (selected_matches c))
          (match notes with [] => "All explicit handoff sections were found." | _ => join "; " notes end) packet lineage None).
End handoff.
