(* ===== verification/Ask.v ===== *)
(** * Answers ([memory/ingestion/mvp_ingestion.py])

    [ask]: facts first, then the ranked chunks, the arbitration between both,
    and the direct answer within its context budget. *)
From Stdlib Require Import ZArith Lia Ascii.
From S2P Require Import Prelude PyStr Json Clock PyFloat Hash Identity AuthDb AuthStore ConvStore Scope AuditLog Chunks Regex FactValidation FactExtract Ingest FactSearch Search QueryPlan Ranking Context FactAnswer Handoff.
Local Open Scope Z_scope.

Definition _DEFAULT_HANDOFF_CONTEXT_TOKENS : Z := 512.

(** ** Arbitration *)

Inductive _EvidenceCandidateType := FACT | CHUNK.
Record _EvidenceCandidate := mk_evidence_candidate {
  kind : _EvidenceCandidateType; ec_fact : dict; ec_row : option shaped_row; relevance : float; source_quality : float;
  ec_confidence : float; freshness_at : string; correction_status : bool; direct_support : bool }.
Definition bool_float (b : bool) : float := float_near (if b then 1 else 0).
Definition rank_key (c : _EvidenceCandidate) : list key_item :=
  [KFloat (bool_float (direct_support c)); KFloat (bool_float (correction_status c)); KFloat (source_quality c);
   KFloat (ec_confidence c); KStr (freshness_at c); KFloat (relevance c)].
(** [float(v)]; the texts that [float] reads are not modelled. *)
Definition to_float (v : value) : result float :=
  match v with
  | VInt z => float_of_int z
  | VBool b => Ok (bool_float b)
  | VFloat t => float_of_text t
  | VStr _ => Raise OutsideModel
  | VNone | VList _ | VDict _ => Raise (TypeError "float() argument must be a string or a real number")
  end.
Definition relevance_at (index : Z) : float := fdiv (float_near 1) (float_near (index + 1)).
Definition corrects_re : pattern := re_compile_i "\b(?:actually|correction:)\b".
Definition fact_candidate (indexed : Z * dict) : result _EvidenceCandidate :=
  let '(index, fact) := indexed in
  let quality := text_of "source_quality" fact in
  let corrected := String.eqb quality "corrected_by_user" in
  let direct := String.eqb quality "direct_user_statement" in
  confidence ← to_float (vget_or "confidence_score" (VFloat "0.5") fact);
  Ok (mk_evidence_candidate FACT fact None (relevance_at index)
        (if corrected then float_near 1 else if direct then decimal 9 1 else decimal 5 1) confidence
        (text_of "last_confirmed_at" fact) corrected (corrected || direct)).
Definition chunk_candidate (indexed : Z * shaped_row) : _EvidenceCandidate :=
  let '(index, row) := indexed in
  let r := sh_row row in
  let user := String.eqb (rr_role r) "user" in
  mk_evidence_candidate CHUNK [] (Some row) (relevance_at index) (if user then decimal 95 2 else decimal 45 2)
    (if user then decimal 9 1 else decimal 5 1)
    (match rr_conversation r with VDict c => text_of "timestamp" c | _ => "" end) (searched corrects_re (rr_text r)) user.
(** [sorted(..., reverse=True)], which keeps the order of equals *)
Definition _rank_evidence_candidates (facts : list dict) (matches : list shaped_row) : result (list _EvidenceCandidate) :=
  fact_rows ← map_result fact_candidate (enumerate 0 facts);
  Ok (sort_by (λ a b, negb (key_lt (rank_key a) (rank_key b))) (fact_rows ++ map chunk_candidate (enumerate 0 matches))).

Definition folded_words (s : string) : string := join " " (split_ws (casefold s)).
Definition fact_object (fact : dict) : value := or_value (vget "object_normalized" fact) (vget_or "object" (VStr "") fact).
Definition _chunk_supports_facts (row : shaped_row) (facts : list dict) : bool :=
  existsb (λ f, contains (folded_words (py_str (fact_object f))) (folded_words (rr_text (sh_row row))))
    (List.filter (λ f, truthy (fact_object f)) facts).
(** [{**merged.get(id, {}), **item}]: the save intents are not in a chunk's item *)
Definition merge_item (merged : list (string * provenance)) (item : provenance) : list (string * provenance) :=
  let id := pv_conversation_id item in
  if String.eqb id "" then merged else
  let intents := match pv_save_intents item with
    | Some i => Some i | None => old ← dict_get id merged; pv_save_intents old end in
  dict_set id (mk_provenance id (pv_source item) (pv_title item) (pv_stored_at item) (pv_matching_chunks item)
                 (pv_used_in_answer item) intents) merged.
Definition _merge_provenance (facts chunks : list provenance) : list provenance :=
  map snd (foldl merge_item [] (facts ++ chunks)).

(** The settings of an answer. *)
Record AskRuntime := mk_ask_runtime {
  tokenizer_enabled : bool; ask_max_context_tokens : Z; tokenizer_encoding : string }.

Section arbitration.
Variable tokenizer : option Tokenizer.
Variable ar : AskRuntime.
Definition _arbitration_context (matches : list shaped_row) (max_context_tokens : option Z)
    : result (list shaped_row * list citation * option budget_fields) :=
  match max_context_tokens, tokenizer_enabled ar with
  | None, false => Ok (matches, map (λ r, _citation_from_row (sh_row r)) matches, None)
  | _, _ =>
      c ← _select_ask_context tokenizer matches (default (ask_max_context_tokens ar) max_context_tokens);
      Ok (selected_matches c, citations c, Some (budget_of tokenizer (tokenizer_encoding ar) c))
  end.
(** The rows of the user that do not only ask the question. *)
Definition direct_chunks (question : string) (rows : list shaped_row) : list shaped_row :=
  List.filter (λ r, String.eqb (rr_role (sh_row r)) "user"
    && negb (_direct_memory_answer_snippet_is_question_echo (rr_text (sh_row r)) (Some question))) rows.
Definition arbitration_basis (fact_conflict : bool) (direct : list shaped_row) (facts : list dict) : string :=
  let supported := existsb (λ r, _chunk_supports_facts r facts) direct in
  let corrected := existsb (λ f, is_text "corrected_by_user" (vget "source_quality" f)) facts in
  if fact_conflict || (negb (Nat.eqb (length direct) 0) && negb supported && negb corrected) then CONFLICT else MIXED.
Definition weak_fact (fact : dict) : bool :=
  negb (is_text "high" (vget "confidence" fact)) || is_text "assistant_statement" (vget "source_quality" fact).
Definition _arbitrate_fact_and_chunk_evidence (fact_answer : answer) (matches : list shaped_row) (question : string) (top_k : Z)
    (max_context_tokens : option Z) : result answer :=
  match matches with
  | [] => Ok fact_answer
  | _ =>
      let facts := default [] (ff_facts <$> an_facts fact_answer) in
      candidates ← _rank_evidence_candidates facts matches;
      let ranked_chunks := py_take top_k (omap ec_row candidates) in
      let direct := direct_chunks question ranked_chunks in
      let fact_conflict := String.eqb (an_answer_basis fact_answer) CONFLICT in
      let basis := arbitration_basis fact_conflict direct facts in
      '(selected, citations, budget) ← _arbitration_context ranked_chunks max_context_tokens;
      match selected with
      | [] => Ok fact_answer
      | _ =>
          let conflict := String.eqb basis CONFLICT in
          let supported := existsb (λ r, _chunk_supports_facts r facts) direct in
          let text := if conflict
            then "Evidence disagrees: normalized facts say " +:+ an_answer fact_answer +:+ "; direct memory says "
                 +:+ _direct_memory_answer_text selected (Some question)
            else with_context (an_answer fact_answer) selected in
          let reason := if conflict
            then (if fact_conflict then an_confidence_reason fact_answer
                  else "Normalized facts and direct conversation evidence disagree.")
            else if supported && existsb weak_fact facts
                 then "Weak normalized facts were corroborated by direct user conversation evidence."
                 else "Normalized facts were compared with ranked conversation evidence." in
          let fact_evidence := an_evidence fact_answer in
          Ok (mk_answer selected text (an_citations fact_answer ++ map OfChunk citations)
                (if conflict then "low" else an_confidence fact_answer) reason basis
                (_merge_provenance (an_provenance fact_answer) (_provenance_from_matches selected citations))
                (fact_evidence ++ map ChunkEvidence (_chunk_evidence_from_matches selected)) fact_evidence
                (an_facts fact_answer) (match budget with Some b => Some b | None => an_budget fact_answer end)
                (an_query_plan fact_answer))
      end
  end.
End arbitration.

Definition _with_query_plan_diagnostics (a : answer) (query_plan : RetrievalQueryPlan) (include : bool) : answer :=
  mk_answer (an_results a) (an_answer a) (an_citations a) (an_confidence a) (an_confidence_reason a) (an_answer_basis a)
    (an_provenance a) (an_evidence a) (an_fact_evidence a) (an_facts a) (an_budget a)
    (if include then Some (plan_diagnostics query_plan) else an_query_plan a).
Definition not_found_answer : answer :=
  mk_answer [] "I could not find relevant memory for that question." [] "none" "No matching memory or facts were found."
    NOT_FOUND [] [] [] None None None.

(** ** The operation *)

Section ask.
Context `{HashLib} `{EmbeddingProvider} `{V : VectorStore} `{VS : !VectorSearch}.
Notation W := (M World).
Variable rt : RuntimeDependencies.
Variable sr : RetrievalRuntime.
Variable ar : AskRuntime.
Variables (now : instant) (now_us : Z).
Variable context : AuditContext.
(** The events of the searches, and of the question; and [uuid5]. *)
Variable event_ids : nat → string.
Variable event_id : string.
Variable uuid5_url : string → string.

Definition filters_of (f : ConversationFilters) : PlannedConversationFilters :=
  mk_planned (f_source f) (f_date_from f) (f_date_to f) (f_tags f) (f_thread_id f) (f_handoff_only f) (f_source_client f)
    (f_source_session_id f).
Definition on_type_error {A} (m : W A) (handler : string → W A) : W A := λ w,
  match m w with (Raise (TypeError message), w') => handler message w' | other => other end.
(** The search that [ask] runs when no other is set. *)
Definition _search_for_ask (question : string) (top_k : Z) (result_mode : string) (owner_id project_id : option string)
    (memory_status : string) (filters : ConversationFilters) (query_plan : option RetrievalQueryPlan) : W (list shaped_row) :=
  on_type_error
    (outcome ← search rt sr now now_us context event_ids
       (mk_request question top_k result_mode owner_id project_id memory_status (filters_of filters) false) query_plan;
     mret (so_results outcome))
    (λ message, if negb (String.eqb result_mode CHUNKS) then raise (TypeError message) else
     outcome ← search rt sr now now_us context event_ids
       (mk_request question top_k CHUNKS None None _MEMORY_STATUS_ACTIVE no_filters false) None;
     mret (so_results outcome)).

Record AskRequest := mk_ask_request {
  k_question : string; k_top_k : Z; k_max_context_tokens : option Z; k_result_mode : string; k_owner_id : option string;
  k_project_id : option string; k_memory_status : string; k_filters : PlannedConversationFilters; k_include_query_plan : bool }.
Definition asked_metadata (request : AskRequest) (status_filter : string) (results : Z) (answer_basis : string) : dict :=
  [("question_hash", VStr (_audit_hash (k_question request))); ("top_k", VInt (k_top_k request)); ("result_count", VInt results);
   ("answer_basis", VStr answer_basis); ("memory_status", VStr status_filter)].
Definition record_asked (request : AskRequest) (project_id outcome : string) (metadata : dict) : W unit :=
  in_hub (_record_audit_event now context event_id "memory.asked" (k_owner_id request) (Some project_id) None None outcome None metadata).
(** A response: an answer, or a handoff packet. *)
Inductive response := Answered (a : answer) | HandedOff (h : handoff_answer).
Definition finish (request : AskRequest) (project_id status_filter outcome : string) (query_plan : RetrievalQueryPlan)
    (extra : dict) (a : answer) : W response :=
  _ ← record_asked request project_id outcome
        (asked_metadata request status_filter (Z.of_nat (length (an_results a))) (an_answer_basis a) ++ extra);
  mret (Answered (_with_query_plan_diagnostics a query_plan (k_include_query_plan request))).
Definition ask_handoff (request : AskRequest) (query_plan : RetrievalQueryPlan) (filters : ConversationFilters)
    (project_id status_filter : string) : W response :=
  matches ← _search_for_ask (k_question request) (k_top_k request) CHUNKS (k_owner_id request) (Some project_id) status_filter
              filters (Some query_plan);
  let token_budget := default (Z.min (ask_max_context_tokens ar) _DEFAULT_HANDOFF_CONTEXT_TOKENS) (k_max_context_tokens request) in
  result ← _handoff_ask_result uuid5_url now_us (rt_tokenizer rt) (k_question request) (py_take (k_top_k request) matches)
             (Some project_id) (f_thread_id filters) token_budget;
  _ ← record_asked request project_id "ok"
        (asked_metadata request status_filter (Z.of_nat (length (ha_results result))) "handoff");
  mret (HandedOff (if k_include_query_plan request
    then mk_handoff_answer (ha_results result) (ha_confidence_reason result) (handoff result) (ha_lineage result) (Some (plan_diagnostics query_plan))
    else result)).
(** The answer from the matches of the search alone. *)
Definition answer_from_matches (request : AskRequest) (query_plan : RetrievalQueryPlan) (project_id status_filter : string)
    (matches : list shaped_row) : W response :=
  let finish := finish request project_id status_filter in
  match matches with
  | [] => finish "not_found" query_plan [] not_found_answer
  | _ =>
      if negb (tokenizer_enabled ar) && negb (bool_decide (is_Some (k_max_context_tokens request)))
      then finish "ok" query_plan [] (_ask_from_matches matches (k_top_k request) (k_question request))
      else
        c ← lift (_select_ask_context (rt_tokenizer rt) (py_take (k_top_k request) matches)
                    (default (ask_max_context_tokens ar) (k_max_context_tokens request)));
        finish "ok" query_plan [("context_tokens_used", VInt (tokens_used c)); ("chunks_dropped", VInt (chunks_dropped c))]
          (_budgeted_direct_memory_ask_result (rt_tokenizer rt) (tokenizer_encoding ar) (k_question request) c)
  end.
Definition ask_memory (request : AskRequest) (query_plan : RetrievalQueryPlan) (filters : ConversationFilters)
    (project_id status_filter : string) : W response :=
  let question := k_question request in
  let top_k := k_top_k request in
  let search_with (status : string) (plan : option RetrievalQueryPlan) :=
    _search_for_ask question top_k (k_result_mode request) (k_owner_id request) (Some project_id) status filters plan in
  let active := String.eqb status_filter _MEMORY_STATUS_ACTIVE in
  let finish := finish request project_id status_filter in
  fact_answer ← _answer_from_facts (search_with _MEMORY_STATUS_ACTIVE None) question top_k (k_owner_id request) (Some project_id)
                  filters false;
  match (a ← fact_answer; if active && _fact_answer_fast_path a question then Some a else None) with
  | Some a => finish "ok" query_plan [] a
  | None =>
      matches ← search_with status_filter (Some query_plan);
      match (if active then fact_answer else None) with
      | Some a =>
          result ← lift (_arbitrate_fact_and_chunk_evidence (rt_tokenizer rt) ar a matches question top_k (k_max_context_tokens request));
          finish "ok" query_plan [] result
      | None => answer_from_matches request query_plan project_id status_filter matches
      end
  end.
Definition ask (request : AskRequest) : W response :=
  _ ← lift (_validate_result_mode (k_result_mode request));
  query_plan ← lift (plan_retrieval_query (k_question request) (k_filters request) (query_planner sr) (query_planner_timeout_seconds sr) now_us);
  let filters := conversation_filters (QueryPlan.filters query_plan) in
  project_id ← resolve_project now context (event_ids 0%nat) (k_owner_id request) (k_project_id request) PROJECT_ROLE_READER;
  status_filter ← lift (_validate_memory_status_filter (Some (k_memory_status request)));
  if String.eqb (k_result_mode request) HANDOFF_MODE
  then ask_handoff request query_plan filters project_id status_filter
  else ask_memory request query_plan filters project_id status_filter.
End ask.
