(* ===== verification/AskFacts.v ===== *)
(** * Facts about answers

    Whatever query finds them, the facts of an answer are stored facts that the
    caller may see, in the project of the question, that pass its filters and
    are not superseded unless the question itself is the query.  Every row an
    answer shows was found for the caller, and it cites what it shows, once. *)
From Stdlib Require Import ZArith Lia Ascii.
From S2P Require Import Prelude PyStr Json PyFloat Hash Clock Identity AuthDb AuthStore Regex Samples Scope ConvStore AuditLog FactValidation FactExtract FactStore FactFacts Chunks Summaries Ingest PipelineFacts QueryPlan Ranking FactTimeline FactSearch Search SearchFacts Context ContextFacts FactAnswer Handoff Ask.
Local Open Scope Z_scope.

(** * Facts about answers from facts *)

(** ** Selections select *)

Notation sub a b := (∀ x, x ∈ a → x ∈ b).
Lemma filter_sub {A} (p : A → bool) l : sub (List.filter p l) l.
Proof. by intros x [Hx _]%elem_of_filter_b. Qed.
Lemma question_filter_sub facts question q : sub (_filter_facts_for_question facts question q) facts.
Proof.
  unfold _filter_facts_for_question. destruct (nonempty _) as [s|]; [|by auto]. destruct (first_tokens s) as [|w ws]; [by auto|].
  destruct (List.filter _ facts) as [|x l] eqn:E; [clear E|rewrite <-E; apply filter_sub].
  destruct (_fact_identity_tokens s); [|by intros x ?%elem_of_nil].
  destruct (List.filter _ facts) as [|y m] eqn:E; [by auto|rewrite <-E; apply filter_sub].
Qed.
Lemma narrowed_sub tokens sources facts : sub (narrowed tokens sources facts) facts.
Proof. unfold narrowed. case_match; [by auto|apply filter_sub]. Qed.
Lemma rank_facts_sub facts query sources : sub (_rank_facts_by_text_query facts query sources) facts.
Proof.
  unfold _rank_facts_by_text_query. destruct query as [q|]; [|by auto]. case_match; [by auto|]. case_match; [by auto|].
  intros x ([score y] & Hin & ->)%elem_of_map. rewrite sort_by_perm in Hin.
  apply list_elem_of_omap in Hin as (f & Hf & He). apply bind_Some in He as (s' & _ & [= _ <-]). done.
Qed.
Lemma snoc_sub {A} (l : list A) (y : A) (m : list A) : sub l m → y ∈ m → sub (l ++ [y]) m.
Proof. intros Hl Hy x [Hx| ->%list_elem_of_singleton]%elem_of_app; auto. Qed.
Lemma succeed_step by_id (facts : list dict) f st : (∀ id g, dict_get id by_id = Some g → g ∈ facts) → f ∈ facts →
  sub st.1 facts → sub (succeed by_id st f).1 facts.
Proof.
  intros Hby Hf Ho. destruct st as [out seen]. unfold succeed. cbn [fst] in Ho.
  destruct (negb (String.eqb _ _) && _); cbv zeta; destruct (dict_get _ by_id) as [s|] eqn:Es; try case_match; cbn [fst];
    repeat apply snoc_sub; auto; by eapply Hby.
Qed.
Lemma succeed_sub by_id (facts : list dict) ranked : (∀ id g, dict_get id by_id = Some g → g ∈ facts) → sub ranked facts →
  ∀ st, sub st.1 facts → sub (foldl (succeed by_id) st ranked).1 facts.
Proof.
  intros Hby. induction ranked as [|f ranked IH]; intros Hr st Ho; [done|]. apply IH; [intros x Hx; apply Hr; by right|].
  apply succeed_step; [done| |done]. apply Hr. by left.
Qed.
Lemma dict_update_get {A} (e : list (string * A)) : ∀ d k v, dict_get k (dict_update d e) = Some v → dict_get k d = Some v ∨ (k, v) ∈ e.
Proof.
  induction e as [|[k' v'] e IH]; intros d k v Hk; [by left|]. change (dict_update d ((k', v') :: e)) with (dict_update (dict_set k' v' d) e) in Hk.
  apply IH in Hk as [Hk|Hk]; [|by right; right]. destruct (decide (k = k')) as [-> |Hne].
  - rewrite dict_get_set_eq in Hk. injection Hk as <-. right. by left.
  - rewrite dict_get_set_ne in Hk by done. by left.
Qed.
Lemma by_id_sub facts id f : dict_get id (facts_by_id facts) = Some f → f ∈ facts.
Proof.
  unfold facts_by_id. intros [Hn|(x & Hx & He)%list_elem_of_omap]%dict_update_get; [done|]. case_match; [|done]. by injection He as _ <-.
Qed.
Lemma successors_sub ranked facts : sub ranked facts → sub (_with_supersession_successors ranked facts) facts.
Proof. intros Hr. apply succeed_sub; [apply by_id_sub|done|by intros x ?%elem_of_nil]. Qed.

(** The facts of some groups *)
Definition members (groups : list fact_group) : list dict := flat_map (λ g, map snd g.2) groups.
Lemma add_to_group_members k row groups x : x ∈ members (add_to_group k row groups) → x ∈ members groups ∨ x = row.2.
Proof.
  induction groups as [|g groups IH]; cbn [add_to_group members flat_map].
  - cbn. intros ->%list_elem_of_singleton. by right.
  - case_match; cbn [members flat_map snd]; rewrite !elem_of_app.
    + rewrite map_app, elem_of_app. cbn. rewrite list_elem_of_singleton. naive_solver.
    + intros [Hx|Hx]; [by left; left|]. apply IH in Hx as [Hx| ->]; [by left; right|by right].
Qed.
Lemma enumerate_snd {A} (l : list A) : ∀ i ix, ix ∈ enumerate i l → ix.2 ∈ l.
Proof. induction l as [|x l IH]; cbn; intros i ix; [by intros ?%elem_of_nil|]. intros [-> |Hx]%elem_of_cons; [by left|right; by eapply IH]. Qed.
Lemma fact_groups_sub tokens facts : sub (members (fact_groups tokens facts)) facts.
Proof.
  unfold fact_groups. assert (Hgen : ∀ l groups, sub (map snd l) facts → sub (members groups) facts →
    sub (members (foldl (λ groups ix, add_to_group (text_of "subject" ix.2, text_of "predicate" ix.2)
           (common tokens (all_tokens (_fact_search_text ix.2 [])), ix.1, ix.2) groups) groups l)) facts).
  { induction l as [|[i f] l IH]; intros groups Hl Hg; [done|]. cbn [foldl]. apply IH; [intros x Hx; apply Hl; by right|].
    intros x [Hx| ->]%add_to_group_members; [by apply Hg|]. apply Hl. by left. }
  apply Hgen; [|by intros x ?%elem_of_nil]. intros x (ix & Hx & ->)%elem_of_map. by eapply enumerate_snd.
Qed.
Lemma best_group_elem groups g : best_group groups = Some g → g ∈ groups.
Proof.
  destruct groups as [|h rest]; [done|]. intros [= <-].
  assert (Hgen : ∀ l b, b ∈ h :: rest → sub l (h :: rest) → foldl (λ b x, if group_before x b then x else b) b l ∈ h :: rest).
  { induction l as [|x l IH]; intros b Hb Hl; [done|]. cbn. apply IH; [|intros y Hy; apply Hl; by right]. case_match; [apply Hl; by left|done]. }
  apply Hgen; [by left|intros y Hy; by right].
Qed.
Lemma projection_group_sub facts question : sub (_best_fact_projection_group facts question) facts.
Proof.
  unfold _best_fact_projection_group. destruct (best_group _) as [g|] eqn:E; [|by intros x ?%elem_of_nil].
  case_match; [by intros x ?%elem_of_nil|]. intros x Hx. apply best_group_elem in E. eapply (fact_groups_sub (_fact_text_query_tokens question)).
  unfold members. apply list_elem_of_In, in_flat_map. exists g. by rewrite <-!list_elem_of_In.
Qed.
Lemma projection_candidates_sub facts question : sub (_generic_fact_projection_candidates facts question) (live_facts facts).
Proof.
  unfold _generic_fact_projection_candidates. case_match.
  all: intros x Hx; try apply projection_group_sub in Hx; apply successors_sub in Hx; auto; apply rank_facts_sub.
Qed.

(** ** The public form keeps what names a fact *)

Definition written_keys : list string :=
  ["source_quality"; "confidence_reason"; "last_confirmed_at"; "object_raw"; "object_normalized"; "superseded_at"; "stored_at"; "author";
   "save_intent"; "save_intent_source"; "validation_status"] ++ public_extraction_keys.
Ltac written := unfold written_keys, public_extraction_keys; cbn [app]; repeat first [apply list_elem_of_here | apply list_elem_of_further].
Lemma set_kept {A} k k' (v : A) d (ks : list string) : k ∉ ks → k' ∈ ks → dict_get k (dict_set k' v d) = dict_get k d.
Proof. intros Hk Hk'. apply dict_get_set_ne. congruence. Qed.
Lemma fill_kept k k' v d (ks : list string) : k ∉ ks → k' ∈ ks → dict_get k (fill k' v d) = dict_get k d.
Proof. intros Hk Hk'. unfold fill. case_match; [done|by eapply set_kept]. Qed.
Lemma update_kept {A} k (e : list (string * A)) d (ks : list string) : k ∉ ks → (∀ x, x ∈ map fst e → x ∈ ks) → dict_get k (dict_update d e) = dict_get k d.
Proof. intros Hk He. apply dict_update_absent. auto. Qed.
Lemma setdefault_kept {A} k k' (v : A) d (ks : list string) : k ∉ ks → k' ∈ ks → dict_get k (dict_setdefault k' v d) = dict_get k d.
Proof. intros Hk Hk'. unfold dict_setdefault. case_match; [done|by eapply set_kept]. Qed.
Lemma extraction_keys_written q x : x ∈ map fst (extraction_public_fields q) → x ∈ written_keys.
Proof.
  unfold extraction_public_fields. intros Hx.
  repeat case_match; try (cbn in Hx; apply list_elem_of_singleton in Hx as ->; written).
  unfold written_keys. apply elem_of_app. right. apply elem_of_map in Hx as ([k v] & Hx & ->).
  apply list_elem_of_omap in Hx as (k' & Hk & Hv'). by apply bind_Some in Hv' as (v' & _ & [= <- _]).
Qed.
Lemma intent_keys_written f x : x ∈ map fst (_fact_save_intent_fields f) → x ∈ written_keys.
Proof.
  intros ([k v] & Hx & ->)%elem_of_map. apply list_elem_of_omap in Hx as (k' & Hk & Hv).
  apply bind_Some in Hv as (v' & _ & [= <- _]). cbn [fst]. repeat (apply elem_of_cons in Hk as [-> |Hk]; [written|]). by apply elem_of_nil in Hk.
Qed.
Lemma public_kept k f sources p : _public_fact f sources = Ok p → k ∉ written_keys → dict_get k p = dict_get k f.
Proof.
  unfold _public_fact. intros Hp Hk. apply bind_Ok in Hp as (public & Hn & [= <-]). cbv zeta in Hn |- *.
  rewrite (setdefault_kept _ _ _ _ _ Hk) by written.
  rewrite !(set_kept _ _ _ _ _ Hk) by written.
  rewrite (update_kept _ _ _ _ Hk) by apply intent_keys_written. rewrite (update_kept _ _ _ _ Hk) by apply extraction_keys_written.
  assert (Hbase : ∀ d, (if truthy (vget "object_normalized" d) then Ok d
     else normalized ← _normalized_fact_object d; Ok (dict_set "object_normalized" (VStr normalized) d)) = Ok public → dict_get k public = dict_get k d).
  { intros d. destruct (truthy (vget "object_normalized" d)); [intros Hd; by injection Hd as <-|]. intros Hd. apply bind_Ok in Hd as (n & _ & [= <-]).
    rewrite (set_kept _ _ _ _ _ Hk) by written. done. }
  apply Hbase in Hn as ->. rewrite !(fill_kept _ _ _ _ _ Hk) by written.
  destruct (String.eqb _ _); rewrite ?(set_kept _ _ _ _ _ Hk), ?(fill_kept _ _ _ _ _ Hk) by written; done.
Qed.
Lemma entry_kept f p k : _entry None f = Ok p → k ∉ written_keys → dict_get k (te_fact p) = dict_get k f.
Proof.
  unfold _entry. intros Hr Hk. apply bind_Ok in Hr as (parsed & _ & Hr). injection Hr as <-. cbn [te_fact].
  by rewrite !(set_kept _ _ _ _ _ Hk) by written.
Qed.
(** the same fact, but for the keys that its public form writes *)
Definition same_fact (f p : dict) : Prop := ∀ k, k ∉ written_keys → dict_get k p = dict_get k f.

(** ** The facts of an answer *)

Section answers.
Context `{HashLib} `{V : VectorStore}.
Variables (owner_id : option string) (project_id : string) (filters : ConversationFilters).
(** A stored fact that the caller may see, in the project, under the filters. *)
Record answerable (f : dict) : Prop := mk_answerable {
  aw_stored : ∃ subject predicate sup s found s', search_facts subject predicate sup (Some project_id) s = (Ok found, s') ∧ f ∈ found;
  aw_allowed : _fact_allowed (VDict f) owner_id (Some project_id) = true;
  aw_filters : ∃ fact_filters sources, _fact_matches_filters f filters fact_filters sources = Ok true ∧
    (ff_status fact_filters = "active" ∨ ff_status fact_filters = "all") }.
Lemma in_facts_run {A} (m : M FactDb A) (w : World) a w' : in_facts m w = (Ok a, w') → m (w_facts w) = (Ok a, w_facts w').
Proof. unfold in_facts. destruct (m (w_facts w)) as [r d]. by intros [= -> <-]. Qed.
Lemma searched_facts_answerable subject predicate fact_filters :
  ff_status fact_filters = "active" ∨ ff_status fact_filters = "all" →
  returns (_search_facts subject predicate owner_id (Some project_id) filters fact_filters) (Forall answerable).
Proof.
  intros Hs. unfold _search_facts. apply returns_with. intros found (w & w' & Hf%in_facts_run). cbv zeta. apply returns_then. intros sources.
  apply returns_lift. intros kept Hk. apply Forall_forall. intros f Hin. apply (filter_result_elem _ _ _ Hk) in Hin as [Hin Hm].
  apply elem_of_filter_b in Hin as [Hin Ha]. split; [by exists subject, predicate, (include_superseded fact_filters), (w_facts w), found, (w_facts w')|done|].
  by exists fact_filters, sources.
Qed.
Lemma sub_Forall {A} (Q : A → Prop) (a b : list A) : (∀ x, x ∈ a → x ∈ b) → Forall Q b → Forall Q a.
Proof. rewrite !Forall_forall. auto. Qed.
Lemma candidates_answerable question q :
  returns (_candidate_facts_for_question question q owner_id (Some project_id) filters) (λ l, Forall answerable l ∧ live_facts l = l).
Proof.
  assert (Hlive : ∀ a b, (∀ x, x ∈ a → x ∈ live_facts b) → live_facts a = a).
  { intros a b Hab. unfold live_facts. induction a as [|x a IH]; [done|]. cbn. assert (Hx : x ∈ live_facts b) by (apply Hab; by left).
    apply elem_of_filter_b in Hx as [_ ->]. f_equal. apply IH. intros y Hy. apply Hab. by right. }
  unfold _candidate_facts_for_question. apply returns_checked. intros fact_filters Hff.
  assert (Hs : ff_status fact_filters = "active" ∨ ff_status fact_filters = "all").
  { destruct q; vm_compute in Hff; injection Hff as <-; cbn; auto. }
  cbv zeta. eapply returns_bind; [by apply searched_facts_answerable|]. intros facts Hf. destruct q as [s p|text].
  - set (l := live_facts _). assert (Hl : ∀ x, x ∈ l → x ∈ facts) by (intros x [Hx _]%elem_of_filter_b; by apply question_filter_sub in Hx).
    unfold _narrow_facts_for_question. case_match; [|case_match; [|apply returns_then; intros sources]]; apply returns_ret.
    1, 2: split; [by eapply sub_Forall|by eapply (Hlive _ (_filter_facts_for_question facts question (ByFields s p)))].
    split; [eapply sub_Forall; [|done]; intros x Hx; apply narrowed_sub in Hx; auto|].
    eapply (Hlive _ (_filter_facts_for_question facts question (ByFields s p))). apply narrowed_sub.
  - apply returns_ret. split; [|eapply Hlive, projection_candidates_sub]. eapply sub_Forall; [|done].
    intros x Hx. apply projection_candidates_sub in Hx. by apply elem_of_filter_b in Hx as [Hx _].
Qed.
Lemma first_candidates_answerable question queries :
  returns (first_candidates question queries owner_id (Some project_id) filters) (λ l, Forall answerable l ∧ live_facts l = l).
Proof.
  induction queries as [|q queries IH]; cbn [first_candidates]; [by apply returns_ret|].
  eapply returns_bind; [apply candidates_answerable|]. intros [|f l] Hl; [done|by apply returns_ret].
Qed.

(** What an answer from facts is. *)
Record fact_answered (a : answer) : Prop := mk_fact_answered {
  fw_facts : ∃ fields, an_facts a = Some fields ∧ ff_facts fields ≠ [] ∧
    Forall (λ p, ∃ f, answerable f ∧ is_none (vget "deleted_at" f) = true ∧ same_fact f p) (ff_facts fields) ∧
    an_citations a = map (λ f, OfFact (_fact_citation f)) (ff_facts fields);
  fw_results : an_results a = [];
  fw_evidence : an_evidence a = an_fact_evidence a;
  fw_budget : an_budget a = None;
  fw_basis : an_answer_basis a = CONFLICT ∨ an_answer_basis a = FACT_LAYER;
  fw_low : an_answer_basis a = CONFLICT → an_confidence a = "low" }.
Lemma timeline_facts facts sources timeline projection :
  map_result (λ f, _public_fact f sources) facts = Ok timeline → project None timeline = Ok projection →
  ∀ e, e ∈ projection → ∃ f, f ∈ facts ∧ same_fact f (te_fact e).
Proof.
  intros Ht (entries & He & Hp & _)%project_sorted e Hin. rewrite Hp in Hin.
  apply (map_result_elem _ _ _ He) in Hin as (p & Hpin & Hent). apply elem_of_filter_b in Hpin as [Hpin _].
  apply (map_result_elem _ _ _ Ht) in Hpin as (f & Hf & Hpub). exists f. split; [done|]. intros k Hk.
  by rewrite (entry_kept _ _ _ Hent Hk), (public_kept _ _ _ _ Hpub Hk).
Qed.
Lemma unique_values_sub seen l : ∀ e, e ∈ unique_values seen l → e ∈ l.
Proof.
  revert seen. induction l as [|x l IH]; intros seen e; [done|]. cbn. case_match; [intros He; right; by eapply IH|].
  intros [-> |He]%elem_of_cons; [by left|right; by eapply IH].
Qed.
Lemma unique_latest_sub l e : e ∈ unique_latest_entries l → e ∈ l.
Proof. unfold unique_latest_entries, latest_entries. intros He%unique_values_sub. destruct l; [done|]. by apply elem_of_filter_b in He as [He _]. Qed.
Lemma answer_from_facts_spec search_operation question top_k :
  returns (_answer_from_facts search_operation question top_k owner_id (Some project_id) filters false)
    (λ o, ∀ a, o = Some a → fact_answered a).
Proof.
  unfold _answer_from_facts. eapply returns_bind; [apply first_candidates_answerable|]. intros candidates [Hc Hl].
  destruct candidates as [|c cs]; [by apply returns_ret|]. set (facts := c :: cs) in *. apply returns_then. intros sources.
  apply returns_checked. intros timeline Ht. apply returns_checked. intros projection Hp.
  destruct (unique_latest_entries projection) as [|e es] eqn:Eu; [by apply returns_ret|]. rewrite <-Eu.
  assert (Hb : fact_basis question false projection = CONFLICT ∨ fact_basis question false projection = FACT_LAYER).
  { unfold fact_basis. rewrite andb_false_r. case_match; auto. }
  apply (returns_bind _ _ fact_answered); [|intros a Ha; apply returns_ret; by intros a' [= <-]].
  unfold _build_fact_answer. cbv zeta. set (basis := fact_basis _ _ _) in *. clearbody basis.
  assert (String.eqb basis MIXED = false) as -> by (destruct Hb as [-> | ->]; done).
  eapply (returns_bind _ _ (λ r, r = [])); [by apply returns_ret|]. intros results ->. apply returns_then. intros provenance. apply returns_ret.
  split; cbn; auto.
  - eexists. split; [done|]. cbn. split; [by rewrite Eu|]. split; [|unfold py_take; destruct (top_k <? 0); by rewrite ?take_nil, app_nil_r].
    apply Forall_map, Forall_forall. intros x Hx%unique_latest_sub. destruct (timeline_facts _ _ _ _ Ht Hp x Hx) as (f & Hf & Hs).
    exists f. split; [by eapply Forall_forall|]. split; [|done]. rewrite <-Hl in Hf. by apply elem_of_filter_b in Hf as [_ Hf].
  - by intros ->.
Qed.
End answers.

(** * Facts about answers *)

(** ** Arbitration *)

Lemma py_take_map {A B} (f : A → B) n xs : py_take n (map f xs) = map f (py_take n xs).
Proof. unfold py_take. rewrite length_map. case_match; by rewrite firstn_map. Qed.
(** The rows of the candidates are the matches. *)
Lemma ranked_rows facts matches candidates : _rank_evidence_candidates facts matches = Ok candidates →
  omap ec_row candidates ≡ₚ matches.
Proof.
  unfold _rank_evidence_candidates. intros Hr. apply bind_Ok in Hr as (fact_rows & Hf & [= <-]). rewrite sort_by_perm, omap_app.
  assert (Hnone : omap ec_row fact_rows = []).
  { apply map_result_Forall2 in Hf. induction Hf as [|[i f] c l l' Hc Hf IH]; [done|]. cbn.
    unfold fact_candidate in Hc. apply bind_Ok in Hc as (confidence & _ & [= <-]). exact IH. }
  rewrite Hnone. cbn [app]. clear. generalize 0. induction matches as [|r l IH]; intros i; [done|]. cbn. by rewrite IH.
Qed.

(** The rows an answer shows, as some matches or parts of them. *)
Definition part_row (m s : shaped_row) : Prop := ∃ text, s = retext_shaped text m.
Definition rows_of (matches : list shaped_row) (rows : list shaped_row) : Prop := Forall (λ s, ∃ m, m ∈ matches ∧ (s = m ∨ part_row m s)) rows.
Lemma selection_rows_of tokenizer budget seen c : selection tokenizer budget seen c → rows_of seen (selected_matches c).
Proof.
  intros Hs. destruct (se_rows _ _ _ _ Hs) as (kept & Hk & Hf). apply Forall_forall. intros s (i & Hi)%list_elem_of_lookup.
  destruct (Forall2_lookup_r _ _ _ _ _ Hf Hi) as (m & Hm & He & _). exists m. split.
  - apply (elem_of_sublist kept); [by eapply list_elem_of_lookup_2|done].
  - right. by eexists.
Qed.
Lemma context_selected tokenizer matches budget c : _select_ask_context tokenizer matches budget = Ok c →
  selection tokenizer budget matches c.
Proof. intros ([c' cache] & Hr & [= <-])%bind_Ok. by apply (selection_rows tokenizer budget matches [] _ _ _ _ (selection_nil tokenizer budget)) in Hr. Qed.
Lemma take_rows_of n matches : rows_of matches (py_take n matches).
Proof. apply Forall_forall. intros s Hs%py_take_sublist. exists s. auto. Qed.
Lemma rows_of_sub a b rows : (∀ m, m ∈ a → m ∈ b) → rows_of a rows → rows_of b rows.
Proof. intros Hab Hr. eapply Forall_impl; [exact Hr|]. intros s (m & Hm & Hs). exists m. auto. Qed.

(** ** Citations *)

(** Every row with a memory is in the provenance, as used. *)
Definition credited (rows : list shaped_row) (ps : list provenance) : Prop :=
  ∀ s, s ∈ rows → rr_id (sh_row s) ≠ "" → ∃ p, p ∈ ps ∧ pv_conversation_id p = rr_id (sh_row s) ∧ pv_used_in_answer p = true.
(** What an answer owes its reader: the citations of its facts, then one for
    each row, in order; its evidence likewise; and a provenance with all rows. *)
Record well_cited (tokenizer : option Tokenizer) (a : answer) : Prop := mk_well_cited {
  wc_citations : an_citations a = map (λ f, OfFact (_fact_citation f)) (default [] (ff_facts <$> an_facts a))
    ++ map (λ s, OfChunk (_citation_from_row (sh_row s))) (an_results a);
  wc_evidence : an_evidence a = an_fact_evidence a ++ map ChunkEvidence (_chunk_evidence_from_matches (an_results a));
  wc_provenance : credited (an_results a) (an_provenance a);
  wc_budget : ∀ b, an_budget a = Some b → chunks_selected b = Z.of_nat (length (an_results a)) ∧
    context_tokens_used b = context_tokens tokenizer (an_results a);
  wc_conflict : an_answer_basis a = CONFLICT → an_confidence a = "low" }.

Definition keyed (grouped : list (string * provenance)) : Prop := ∀ k p, (k, p) ∈ grouped → pv_conversation_id p = k.
Lemma dict_set_elem {A} k (v : A) d k' v' : (k', v') ∈ dict_set k v d → (k', v') = (k, v) ∨ (k', v') ∈ d.
Proof.
  induction d as [|[j w] d IH]; cbn; [intros ->%list_elem_of_singleton; by left|]. case_match.
  - intros [E|Hd]%elem_of_cons; [|by right; right]. left. apply String.eqb_eq in H. congruence.
  - intros [-> |Hd]%elem_of_cons; [by right; left|]. apply IH in Hd as [-> |Hd]; [by left|by right; right].
Qed.
Definition used_in (grouped : list (string * provenance)) (id : string) : Prop :=
  ∃ p, dict_get id grouped = Some p ∧ pv_conversation_id p = id ∧ pv_used_in_answer p = true.
Lemma provenance_rows_used used rows : (∀ s, s ∈ rows → cites used (sh_row s) = true) → ∀ grouped, keyed grouped →
  let out := foldl (provenance_row used) grouped rows in
  keyed out ∧ (∀ id, used_in grouped id → used_in out id) ∧ (∀ s, s ∈ rows → rr_id (sh_row s) ≠ "" → used_in out (rr_id (sh_row s))).
Proof.
  induction rows as [|s rows IH]; intros Hc grouped Hk; [by split_and!; [|auto|intros s ?%elem_of_nil]|].
  cbn [foldl]. set (grouped' := provenance_row used grouped s).
  assert (Hstep : keyed grouped' ∧ (∀ id, used_in grouped id → used_in grouped' id) ∧ (rr_id (sh_row s) ≠ "" → used_in grouped' (rr_id (sh_row s)))).
  { unfold grouped', provenance_row. destruct (String.eqb_spec (rr_id (sh_row s)) "") as [E|E]; [by split_and!|].
    set (item := default _ _). assert (Hid : pv_conversation_id item = rr_id (sh_row s)).
    { unfold item. destruct (dict_get _ grouped) as [p|] eqn:Hg; [|done]. cbn. apply (Hk _ _ (dict_get_in _ _ _ Hg)). }
    split; [|split].
    - intros k p [[= -> ->]|Hd]%dict_set_elem; [exact Hid|by apply Hk].
    - intros id (p & Hp & Hpid & Hu). destruct (decide (id = rr_id (sh_row s))) as [-> |Hne].
      + eexists. rewrite dict_get_set_eq. split; [done|]. cbn. rewrite Hid. split; [done|]. unfold item. rewrite Hp. cbn. by rewrite Hu.
      + exists p. by rewrite dict_get_set_ne.
    - intros _. eexists. rewrite dict_get_set_eq. split; [done|]. cbn. rewrite Hid. split; [done|]. by rewrite (Hc s (list_elem_of_here _ _)), orb_true_r. }
  destruct Hstep as (Hk' & Hold & Hnew). destruct (IH (λ t Ht, Hc t (list_elem_of_further _ _ _ Ht)) grouped' Hk') as (Hko & Hoo & Hno). split_and!; [done|auto|].
  intros t [-> |Ht]%elem_of_cons Hne; auto.
Qed.
Lemma rows_cited rows s : s ∈ rows → cites (map (λ r, _citation_from_row (sh_row r)) rows) (sh_row s) = true.
Proof.
  intros Hs. unfold cites. apply existsb_exists. exists (_citation_from_row (sh_row s)). split.
  - apply in_map_iff. exists s. by rewrite <-list_elem_of_In.
  - cbn. by rewrite String.eqb_refl, Z.eqb_refl.
Qed.
Lemma matches_credited rows : credited rows (_provenance_from_matches rows (map (λ r, _citation_from_row (sh_row r)) rows)).
Proof.
  intros s Hs Hne. unfold _provenance_from_matches.
  destruct (provenance_rows_used _ rows (rows_cited rows) []) as (_ & _ & Hu); [by intros k p ?%elem_of_nil|].
  destruct (Hu s Hs Hne) as (p & Hp & Hid & Hused). exists p. split; [|done].
  apply elem_of_map. by exists (rr_id (sh_row s), p); split; [apply dict_get_in|].
Qed.
Lemma provenance_all_used used rows : (∀ s, s ∈ rows → cites used (sh_row s) = true) → ∀ grouped,
  Forall (λ kp, pv_used_in_answer kp.2 = true) grouped → Forall (λ kp, pv_used_in_answer kp.2 = true) (foldl (provenance_row used) grouped rows).
Proof.
  induction rows as [|s rows IH]; intros Hc grouped Hg; [done|]. cbn [foldl]. apply IH; [intros t Ht; apply Hc; by right|].
  unfold provenance_row. case_match; [done|]. apply Forall_forall. intros [k p] [[= -> ->]|Hd]%dict_set_elem.
  - cbn. by rewrite (Hc s (list_elem_of_here _ _)), orb_true_r.
  - by eapply (proj1 (Forall_forall _ _) Hg (k, p)).
Qed.
Lemma matches_all_used rows : Forall (λ p, pv_used_in_answer p = true)
  (_provenance_from_matches rows (map (λ r, _citation_from_row (sh_row r)) rows)).
Proof. apply Forall_map. eapply provenance_all_used; [apply rows_cited|constructor]. Qed.
Lemma merge_used items : Forall (λ p, pv_used_in_answer p = true) items → ∀ merged,
  let out := foldl merge_item merged items in
  (∀ id, used_in merged id → used_in out id) ∧ (∀ p, p ∈ items → pv_conversation_id p ≠ "" → used_in out (pv_conversation_id p)).
Proof.
  induction 1 as [|p items Hp Hi IH]; intros merged; [by split; [auto|intros p ?%elem_of_nil]|]. cbn [foldl].
  assert (Hold : ∀ id, used_in merged id → used_in (merge_item merged p) id).
  { intros id (q & Hq & Hid & Hu). unfold merge_item. case_match; [by exists q|]. destruct (decide (id = pv_conversation_id p)) as [-> |Hne].
    - eexists. rewrite dict_get_set_eq. by split.
    - exists q. by rewrite dict_get_set_ne. }
  assert (Hnew : pv_conversation_id p ≠ "" → used_in (merge_item merged p) (pv_conversation_id p)).
  { intros Hne. unfold merge_item. destruct (String.eqb_spec (pv_conversation_id p) ""); [done|]. eexists. rewrite dict_get_set_eq. by split. }
  destruct (IH (merge_item merged p)) as [Ho Hn]. split; [auto|]. intros q [-> |Hq]%elem_of_cons Hne; auto.
Qed.
Lemma merged_credited facts rows :
  credited rows (_merge_provenance facts (_provenance_from_matches rows (map (λ r, _citation_from_row (sh_row r)) rows))).
Proof.
  intros s Hs Hne. destruct (matches_credited rows s Hs Hne) as (p & Hp & Hid & _). unfold _merge_provenance. rewrite foldl_app.
  destruct (merge_used _ (matches_all_used rows) (foldl merge_item [] facts)) as [_ Hn]. destruct (Hn p Hp) as (q & Hq & Hqid & Hu); [by rewrite Hid|].
  exists q. split; [|by rewrite Hqid, Hid]. apply elem_of_map. exists (pv_conversation_id p, q). split; [by apply dict_get_in|done].
Qed.

Section answers.
Context (tokenizer : option Tokenizer) (ar : AskRuntime).
(** What an answer is made of: rows of the matches, all cited. *)
Definition sound_answer (matches : list shaped_row) (a : answer) : Prop := rows_of matches (an_results a) ∧ well_cited tokenizer a.
Lemma direct_sound selected text confidence reason matches extra : rows_of matches selected →
  (∀ b, extra = Some b → chunks_selected b = Z.of_nat (length selected) ∧ context_tokens_used b = context_tokens tokenizer selected) →
  sound_answer matches (_direct_memory_ask_result selected (map (λ r, _citation_from_row (sh_row r)) selected) text confidence reason extra).
Proof. intros Hr Hb. split; [done|]. split; cbn; [by rewrite map_map|done|apply matches_credited|done|done]. Qed.
Lemma ask_from_matches_sound matches top_k question : sound_answer matches (_ask_from_matches matches top_k question).
Proof. unfold _ask_from_matches. rewrite py_take_map. by apply direct_sound; [apply take_rows_of|]. Qed.
Lemma context_budget encoding budget seen c : selection tokenizer budget seen c → ∀ b, Some (budget_of tokenizer encoding c) = Some b →
  chunks_selected b = Z.of_nat (length (selected_matches c)) ∧ context_tokens_used b = context_tokens tokenizer (selected_matches c).
Proof. intros Hs b [= <-]. split; [done|]. apply (se_tokens _ _ _ _ Hs). Qed.
Lemma budgeted_sound encoding question matches top_k budget c : selection tokenizer budget (py_take top_k matches) c →
  sound_answer matches (_budgeted_direct_memory_ask_result tokenizer encoding question c).
Proof.
  intros Hs. unfold _budgeted_direct_memory_ask_result. rewrite (se_citations _ _ _ _ Hs). apply direct_sound; [|by eapply context_budget].
  eapply rows_of_sub; [apply (py_take_sublist top_k)|by eapply selection_rows_of].
Qed.
Lemma fact_answer_cited {HL : HashLib} {V : VectorStore} owner project filters a matches :
  fact_answered owner project filters a → sound_answer matches a.
Proof.
  intros [(fields & Hf & _ & _ & Hc) Hr He Hb _ Hl]. split; [rewrite Hr; constructor|].
  split; rewrite ?Hr, ?Hb, ?Hf; cbn; rewrite ?app_nil_r; try done. by intros s ?%elem_of_nil.
Qed.
End answers.

Section arbitration.
Context (tokenizer : option Tokenizer) (ar : AskRuntime).
Lemma arbitration_context_spec rows max_context_tokens selected cs budget :
  _arbitration_context tokenizer ar rows max_context_tokens = Ok (selected, cs, budget) →
  rows_of rows selected ∧ cs = map (λ r, _citation_from_row (sh_row r)) selected ∧
  (∀ b, budget = Some b → chunks_selected b = Z.of_nat (length selected) ∧ context_tokens_used b = context_tokens tokenizer selected).
Proof.
  assert (Hselect : ∀ limit, (c ← _select_ask_context tokenizer rows limit;
      Ok (selected_matches c, citations c, Some (budget_of tokenizer (tokenizer_encoding ar) c))) = Ok (selected, cs, budget) →
    rows_of rows selected ∧ cs = map (λ r, _citation_from_row (sh_row r)) selected ∧
    (∀ b, budget = Some b → chunks_selected b = Z.of_nat (length selected) ∧ context_tokens_used b = context_tokens tokenizer selected)).
  { intros limit Hr. apply bind_Ok in Hr as (c & Hc%context_selected & [= <- <- <-]).
    split; [by eapply selection_rows_of|]. split; [apply (se_citations _ _ _ _ Hc)|by eapply context_budget]. }
  unfold _arbitration_context. destruct max_context_tokens as [n|]; [apply Hselect|]. destruct (tokenizer_enabled ar); [apply Hselect|].
  intros [= <- <- <-]. split; [|by split]. apply Forall_forall. intros s Hs. exists s. auto.
Qed.
(** The result of an arbitration, for the facts of [fact_answer]. *)
Record arbitrated (fact_answer : answer) (matches : list shaped_row) (question : string) (top_k : Z) (a : answer) : Prop := mk_arbitrated {
  ab_facts : an_facts a = an_facts fact_answer;
  ab_sound : sound_answer tokenizer matches a;
  ab_basis : a = fact_answer ∨
    ∃ ranked_chunks, (∀ r, r ∈ ranked_chunks → r ∈ matches) ∧
      let facts := default [] (ff_facts <$> an_facts fact_answer) in
      let direct := direct_chunks question ranked_chunks in
      (an_answer_basis a = CONFLICT ↔ an_answer_basis fact_answer = CONFLICT ∨
         direct ≠ [] ∧ (∀ r, r ∈ direct → _chunk_supports_facts r facts = false) ∧
         (∀ f, f ∈ facts → is_text "corrected_by_user" (vget "source_quality" f) = false)) ∧
      (an_answer_basis a ≠ CONFLICT → an_answer_basis a = MIXED ∧ an_answer a = with_context (an_answer fact_answer) (an_results a)) }.
Lemma existsb_false_all {A} (p : A → bool) l : existsb p l = false ↔ ∀ x, x ∈ l → p x = false.
Proof.
  induction l as [|x l IH]; cbn; [split; [by intros _ y ?%elem_of_nil|done]|]. rewrite orb_false_iff, IH. split.
  - intros [Hx Hl] y [-> |Hy]%elem_of_cons; auto.
  - intros Hl. split; [apply Hl; by left|]. intros y Hy. apply Hl. by right.
Qed.
Lemma basis_spec fact_conflict direct facts : arbitration_basis fact_conflict direct facts = CONFLICT ↔
  fact_conflict = true ∨ direct ≠ [] ∧ (∀ r, r ∈ direct → _chunk_supports_facts r facts = false) ∧
    (∀ f, f ∈ facts → is_text "corrected_by_user" (vget "source_quality" f) = false).
Proof.
  unfold arbitration_basis. cbv zeta. rewrite <-(existsb_false_all (λ r, _chunk_supports_facts r facts)),
    <-(existsb_false_all (λ f, is_text "corrected_by_user" (vget "source_quality" f))).
  destruct fact_conflict, direct as [|r l], (existsb _ _), (existsb _ _); cbn; split; try done; naive_solver.
Qed.
Lemma arbitrate_spec {HL : HashLib} {V : VectorStore} owner project filters fact_answer matches question top_k max_context_tokens a :
  fact_answered owner project filters fact_answer →
  _arbitrate_fact_and_chunk_evidence tokenizer ar fact_answer matches question top_k max_context_tokens = Ok a →
  arbitrated fact_answer matches question top_k a.
Proof.
  intros Hf. pose proof (fact_answer_cited tokenizer owner project filters fact_answer matches Hf) as Hs.
  assert (Hsame : arbitrated fact_answer matches question top_k fact_answer) by (split; auto).
  unfold _arbitrate_fact_and_chunk_evidence. destruct matches as [|m ms]; [by intros [= <-]|]. set (matches := m :: ms) in *.
  intros Hr. apply bind_Ok in Hr as (candidates & Hc%ranked_rows & Hr). cbv zeta in Hr.
  set (ranked := py_take top_k _) in Hr. apply bind_Ok in Hr as ([[selected cs] budget] & Hctx & Hr).
  apply arbitration_context_spec in Hctx as (Hrows & -> & Hbudget). destruct selected as [|r rs]; [by injection Hr as <-|].
  set (selected := r :: rs) in *. injection Hr as <-.
  assert (Hsub : ∀ x, x ∈ ranked → x ∈ matches) by (intros x Hx%py_take_sublist; by rewrite Hc in Hx).
  destruct Hf as [(fields & Hfields & _ & _ & Hcite) Hres Hev Hnob _ Hlow]. split; cbn [an_facts]; [done| |right; exists ranked].
  - split; [cbn; by eapply rows_of_sub|]. split; cbn.
    + by rewrite Hfields, Hcite, map_map.
    + done.
    + apply merged_credited.
    + rewrite Hnob. intros b Hb. apply Hbudget. by destruct budget.
    + intros ->. done.
  - split; [done|]. cbn. set (basis := arbitration_basis _ _ _). split.
    + unfold basis. rewrite basis_spec. by rewrite String.eqb_eq.
    + intros Hb. split; [unfold basis, arbitration_basis in *; cbv zeta in *; by case_match|].
      apply String.eqb_neq in Hb. by rewrite Hb.
Qed.
End arbitration.

(** ** The rows of a question *)

Section asking.
Context `{HashLib} `{EmbeddingProvider} `{V : VectorStore} `{VS : !VectorSearch}.
Variable rt : RuntimeDependencies.
Variable sr : RetrievalRuntime.
Variable ar : AskRuntime.
Variables (now : instant) (now_us : Z).
Variable context : AuditContext.
Variable event_ids : nat → string.
Variable event_id : string.
Variable uuid5_url : string → string.

Definition resolves (owner_id project_id : option string) (project : string) : Prop :=
  ∃ w w', resolve_project now context (event_ids 0%nat) owner_id project_id PROJECT_ROLE_READER w = (Ok project, w').
(** A row found for a question: one that a search shows the caller in the
    project; or, after a search that failed with a type error, one that a search
    without caller, project, status and filters shows. *)
Inductive asked_row (question : string) (owner_id : option string) (asked_project mode status : string) (filters : ConversationFilters)
    (row : shaped_row) : Prop :=
| row_in_scope project : resolves owner_id (Some asked_project) project →
    shaped_shows (shown rt sr now context owner_id project status filters) row →
    asked_row question owner_id asked_project mode status filters row
| row_out_of_scope project plan request planned w message w' : mode = CHUNKS →
    search rt sr now now_us context event_ids request planned w = (Raise (TypeError message), w') →
    resolves None None project →
    plan_retrieval_query question no_filters (query_planner sr) (query_planner_timeout_seconds sr) now_us = Ok plan →
    shaped_shows (shown rt sr now context None project _MEMORY_STATUS_ACTIVE (conversation_filters (QueryPlan.filters plan))) row →
    asked_row question owner_id asked_project mode status filters row.
Lemma retext_shows (P : value → Prop) text m : shaped_shows P m → shaped_shows P (retext_shaped text m).
Proof. intros [Hr He]. split; [exact Hr|exact He]. Qed.
Lemma asked_retext question owner project mode status filters text m :
  asked_row question owner project mode status filters m → asked_row question owner project mode status filters (retext_shaped text m).
Proof.
  intros [p Hp Hs|p plan request planned w message w' Hm Hf Hp Hplan Hs]; [eapply row_in_scope|eapply row_out_of_scope]; try done; by apply retext_shows.
Qed.
Lemma asked_rows_of question owner project mode status filters matches rows : rows_of matches rows →
  Forall (asked_row question owner project mode status filters) matches → Forall (asked_row question owner project mode status filters) rows.
Proof.
  intros Hr Hm. eapply Forall_impl; [exact Hr|]. intros s (m & Hin & Hs). pose proof (proj1 (Forall_forall _ _) Hm m Hin) as Ha.
  destruct Hs as [-> |[text ->]]; [done|by apply asked_retext].
Qed.
Lemma searched_for_ask question top_k mode owner project status filters plan : 0 <= top_k →
  _validate_memory_status_filter (Some status) = Ok status → conversation_filters (QueryPlan.filters plan) = filters →
  returns (_search_for_ask rt sr now now_us context event_ids question top_k mode owner (Some project) status filters (Some plan))
    (Forall (asked_row question owner project mode status filters)).
Proof.
  intros Hk Hst Hfilters w rows_ w' Hr. unfold _search_for_ask, on_type_error in Hr.
  destruct (_ ≫= _) as [[found|e] w1] eqn:E in Hr.
  - injection Hr as <- <-. apply bind_run in E as (outcome & w2 & Hs & [<- _]%ret_run).
    destruct (search_run _ _ _ _ _ _ _ _ _ _ _ Hs) as (p & st & plan' & ranking & Hst' & -> & Hp & Hshown & ->). cbn in Hst', Hp, Hshown.
    rewrite Hst in Hst'. injection Hst' as <-. rewrite Hfilters in Hshown.
    apply results_show with (top_k := q_top_k (mk_request question top_k mode owner (Some project) status (filters_of filters) false)) (mode := mode) in Hshown.
    eapply Forall_impl; [exact Hshown|]. intros s Hsh. eapply row_in_scope; [|exact Hsh]. destruct Hp as [w3 Hp]. by exists w, w3.
  - destruct e; try discriminate Hr.
    match type of E with context [TypeError ?m] => rename m into message end. case_match eqn:Hmode; [discriminate Hr|]. apply negb_false_iff, String.eqb_eq in Hmode as ->.
    apply bind_run in Hr as (outcome & w2 & Hs & [<- _]%ret_run).
    assert (∃ w4, search rt sr now now_us context event_ids (mk_request question top_k CHUNKS owner (Some project) status (filters_of filters) false)
      (Some plan) w = (Raise (TypeError message), w4)) as [w4 Hfail].
    { unfold mbind, M_bind in E. destruct (search _ _ _ _ _ _ _ _ w) as [[o|e] w4]; [discriminate E|]. exists w4. congruence. }
    destruct (search_run _ _ _ _ _ _ _ _ _ _ _ Hs) as (p & st & plan' & ranking & Hst' & Hplan & Hp & Hshown & ->). cbn in Hst', Hp, Hshown, Hplan.
    vm_compute in Hst'. injection Hst' as <-. eapply results_show in Hshown. eapply Forall_impl; [exact Hshown|]. intros s Hsh.
    eapply row_out_of_scope; [done|exact Hfail| |exact Hplan|exact Hsh]. destruct Hp as [w3 Hp]. by exists w1, w3.
Qed.

(** *** Responses *)

Lemma status_idempotent s status : _validate_memory_status_filter s = Ok status → _validate_memory_status_filter (Some status) = Ok status.
Proof.
  unfold _validate_memory_status_filter at 1. cbv zeta. case_match eqn:E; [|done]. intros [= <-].
  apply existsb_exists in E as (v & Hv & ->%String.eqb_eq). cbn in Hv. by destruct_or! Hv; subst; vm_compute.
Qed.
Section scope.
Variables (request : AskRequest) (project status : string) (filters : ConversationFilters).
Definition search_mode : string := if String.eqb (k_result_mode request) HANDOFF_MODE then CHUNKS else k_result_mode request.
Notation row_ok := (asked_row (k_question request) (k_owner_id request) project search_mode status filters).
Notation fact_ok := (λ p : dict, ∃ f, answerable (k_owner_id request) project filters f ∧ same_fact f p).
(** What a response shows: rows found for the question and facts for the caller;
    a handoff shows its rows redacted. *)
Definition responds (r : response) : Prop :=
  match r with
  | Answered a => Forall row_ok (an_results a) ∧ well_cited (rt_tokenizer rt) a ∧
      ∀ fields, an_facts a = Some fields → Forall fact_ok (ff_facts fields)
  | HandedOff h => ∃ rows, ha_results h = map redact_row rows ∧ Forall row_ok rows
  end.
Lemma finish_responds outcome plan extra a matches : Forall row_ok matches → sound_answer (rt_tokenizer rt) matches a →
  (∀ fields, an_facts a = Some fields → Forall fact_ok (ff_facts fields)) →
  returns (finish now context event_id request project status outcome plan extra a) responds.
Proof.
  intros Hm [Hr Hc] Hf. unfold finish. apply returns_then. intros []. apply returns_ret. cbn.
  split; [by eapply asked_rows_of|]. split; [|done]. destruct Hc. by split.
Qed.
Lemma fact_answered_facts a : fact_answered (k_owner_id request) project filters a →
  ∀ fields, an_facts a = Some fields → Forall fact_ok (ff_facts fields).
Proof.
  intros [(fields & Hf & _ & Hall & _) _ _ _ _ _] fields' Hf'. rewrite Hf in Hf'. injection Hf' as <-.
  eapply Forall_impl; [exact Hall|]. intros p (f & Ha & _ & Hs). by exists f.
Qed.
Lemma direct_no_facts : ∀ selected cs text confidence reason extra fields,
  an_facts (_direct_memory_ask_result selected cs text confidence reason extra) = Some fields → Forall fact_ok (ff_facts fields).
Proof. done. Qed.
Lemma not_found_sound tokenizer : sound_answer tokenizer [] not_found_answer.
Proof. split; [constructor|]. split; cbn; try done. by intros s ?%elem_of_nil. Qed.
Lemma from_matches_responds plan matches : Forall row_ok matches →
  returns (answer_from_matches rt ar now context event_id request plan project status matches) responds.
Proof.
  intros Hm. unfold answer_from_matches. cbv zeta. destruct matches as [|m ms].
  { by eapply finish_responds; [|apply not_found_sound|]. }
  set (matches := m :: ms) in *. case_match.
  - eapply finish_responds; [done|apply ask_from_matches_sound|apply direct_no_facts].
  - apply returns_checked. intros c Hc%context_selected. eapply finish_responds; [done|by eapply budgeted_sound|apply direct_no_facts].
Qed.
Lemma memory_responds plan : 0 <= k_top_k request → k_result_mode request ≠ HANDOFF_MODE →
  _validate_memory_status_filter (Some status) = Ok status → conversation_filters (QueryPlan.filters plan) = filters →
  returns (ask_memory rt sr ar now now_us context event_ids event_id request plan filters project status) responds.
Proof.
  intros Hk Hmode Hst Hfilters. unfold ask_memory. cbv zeta. eapply returns_bind; [apply answer_from_facts_spec|]. intros fact_answer Hfact.
  assert (Hsearch : returns (_search_for_ask rt sr now now_us context event_ids (k_question request) (k_top_k request) (k_result_mode request)
    (k_owner_id request) (Some project) status filters (Some plan)) (Forall row_ok)).
  { unfold search_mode. apply String.eqb_neq in Hmode. rewrite Hmode. by apply searched_for_ask. }
  destruct (a ← fact_answer; _) as [a|] eqn:Ea.
  - apply bind_Some in Ea as (a' & -> & Ea). case_match; [|done]. injection Ea as ->. specialize (Hfact a eq_refl).
    eapply (finish_responds _ _ _ _ []); [constructor|by eapply fact_answer_cited|by apply fact_answered_facts].
  - eapply returns_bind; [exact Hsearch|]. intros matches Hm. case_match; [|by apply from_matches_responds].
    apply returns_checked. intros result Hr. destruct fact_answer as [a'|]; [|by case_match].
    assert (a' = a) as -> by (case_match; congruence). specialize (Hfact a eq_refl).
    destruct (arbitrate_spec _ _ _ _ _ _ _ _ _ _ _ Hfact Hr) as [Hf Hs _]. eapply finish_responds; [done|exact Hs|].
    rewrite Hf. by apply fact_answered_facts.
Qed.
Lemma handoff_responds plan : 0 <= k_top_k request → k_result_mode request = HANDOFF_MODE →
  _validate_memory_status_filter (Some status) = Ok status → conversation_filters (QueryPlan.filters plan) = filters →
  returns (ask_handoff rt sr ar now now_us context event_ids event_id uuid5_url request plan filters project status) responds.
Proof.
  intros Hk Hmode Hst Hfilters. unfold ask_handoff. cbv zeta. eapply returns_bind; [by apply searched_for_ask|]. intros matches Hm.
  assert (search_mode = CHUNKS) as Hchunks by (unfold search_mode; by rewrite Hmode).
  eapply (returns_bind _ _ (λ h, ∃ rows, ha_results h = map redact_row rows ∧ Forall row_ok rows)).
  - unfold _handoff_ask_result. apply returns_checked. intros c Hc%context_selected. apply returns_checked. intros packet _.
    apply returns_then. intros lineage. apply returns_ret. cbn. exists (selected_matches c). split; [done|]. rewrite Hchunks.
    eapply asked_rows_of; [|exact Hm]. eapply rows_of_sub; [apply (py_take_sublist (k_top_k request))|by eapply selection_rows_of].
  - intros h Hh. apply returns_then. intros []. apply returns_ret. by case_match.
Qed.
End scope.
(** The plan, the project and the status of a question, and its response. *)
Lemma ask_run request w response w' : 0 <= k_top_k request →
  ask rt sr ar now now_us context event_ids event_id uuid5_url request w = (Ok response, w') →
  ∃ plan project status,
    plan_retrieval_query (k_question request) (k_filters request) (query_planner sr) (query_planner_timeout_seconds sr) now_us = Ok plan ∧
    resolves (k_owner_id request) (k_project_id request) project ∧
    _validate_memory_status_filter (Some (k_memory_status request)) = Ok status ∧
    responds request project status (conversation_filters (QueryPlan.filters plan)) response.
Proof.
  intros Hk Hr. unfold ask in Hr. apply bind_run in Hr as ([] & ? & [_ ->]%lift_run & Hr).
  apply bind_run in Hr as (plan & ? & [Hplan ->]%lift_run & Hr). cbv zeta in Hr. apply bind_run in Hr as (project & w1 & Hproject & Hr).
  apply bind_run in Hr as (status & ? & [Hstatus ->]%lift_run & Hr). exists plan, project, status.
  split; [done|]. split; [by exists w, w1|]. split; [done|]. apply status_idempotent in Hstatus.
  destruct (String.eqb_spec (k_result_mode request) HANDOFF_MODE) as [E|E].
  - by eapply (handoff_responds request project status _ plan); [..|exact Hr].
  - by eapply (memory_responds request project status _ plan); [..|exact Hr].
Qed.
End asking.

Section properties.
Context `{HashLib} `{EmbeddingProvider} `{V : VectorStore} `{VS : !VectorSearch}.
Variable rt : RuntimeDependencies.
Variable sr : RetrievalRuntime.
Variable ar : AskRuntime.
Variables (now : instant) (now_us : Z).
Variable context : AuditContext.
Variable event_ids : nat → string.
Variable event_id : string.
Variable uuid5_url : string → string.



(** Facts that no fast path settles are weighed against the ranked rows: the
    facts stay, the rows are matches and are cited, and the evidence conflicts
    exactly when the facts do, or when some row of the user that is no question
    is among those ranked, none of them holds a fact's object and no fact was
    corrected by the user; otherwise the rows are appended to the facts' answer. *)
Theorem arbitration_weighs owner project filters fact_answer matches question top_k max_context_tokens a :
  fact_answered owner project filters fact_answer →
  _arbitrate_fact_and_chunk_evidence (rt_tokenizer rt) ar fact_answer matches question top_k max_context_tokens = Ok a →
  an_facts a = an_facts fact_answer ∧ sound_answer (rt_tokenizer rt) matches a ∧
  (a = fact_answer ∨ ∃ ranked_chunks, (∀ r, r ∈ ranked_chunks → r ∈ matches) ∧
      let facts := default [] (ff_facts <$> an_facts fact_answer) in
      let direct := direct_chunks question ranked_chunks in
      (an_answer_basis a = CONFLICT ↔ an_answer_basis fact_answer = CONFLICT ∨
         direct ≠ [] ∧ (∀ r, r ∈ direct → _chunk_supports_facts r facts = false) ∧
         (∀ f, f ∈ facts → is_text "corrected_by_user" (vget "source_quality" f) = false)) ∧
      (an_answer_basis a ≠ CONFLICT → an_answer_basis a = MIXED ∧ an_answer a = with_context (an_answer fact_answer) (an_results a))).
Proof.
  intros Hf Hr. destruct (arbitrate_spec _ _ _ _ _ _ _ _ _ _ _ Hf Hr) as [Hfacts Hsound Hbasis]. by split_and!.
Qed.
End properties.

(** ** Questions to the small hub *)

Module AskSamples.
Import Sample Pipeline SearchSamples.
#[local] Existing Instance index.
#[local] Existing Instance searched.
Definition settings : AskRuntime := mk_ask_runtime true 200 "cl100k_base".
Definition asking (question mode : string) : AskRequest := mk_ask_request question 5 None mode None None "active" no_filters false.
Notation answered question mode := (@ask sample_hashlib embedder index searched runtime retrieval settings noon 0 service
  (λ i, event (str_of_Z (Z.of_nat i))) (event "9") (λ s, s) (asking question mode) talked).
Definition brief (r : result response) : string * string * string :=
  match r with
  | Ok (Answered a) => (an_answer_basis a, an_confidence a, an_answer a)
  | Ok (HandedOff h) => ("handoff", evidence_state (resume_hint (handoff h)), cl_text (goal (handoff h)))
  | Raise _ => ("raised", "", "") end.
Example fact_answers : brief (answered "Where do I live?" CHUNKS).1 = ("fact_layer", "high", "Paris").
Proof. vm_compute. reflexivity. Qed.
Example chunk_answers : brief (answered "Tell of Postgres" CHUNKS).1 = ("direct_memory", "high", "The hub uses Postgres.").
Proof. vm_compute. reflexivity. Qed.
(** a message of the user about something else counts as disagreement *)
Example unrelated_message_conflicts : brief (answered "Is there a recurring topic?" CHUNKS).1 =
  ("conflict", "low", "Evidence disagrees: normalized facts say sql; direct memory says I live in Paris.").
Proof. vm_compute. reflexivity. Qed.
(** A boundary is asked for behind the colon. *)
Example correction_with_blank : map (FactValidation.searched corrects_re) ["Correction: it is SQL."; "correction:it is SQL."; "Actually, it is SQL."] =
  [false; true; true].
Proof. vm_compute. reflexivity. Qed.
Example handed_off : brief (answered "Tell of Postgres" HANDOFF_MODE).1 =
  ("handoff", "incomplete", "Insufficient cited evidence to identify the objective.").
Proof. vm_compute. reflexivity. Qed.

Definition two_rows (r : result response) : bool := match r with Ok (Answered a) => Nat.eqb (length (an_results a)) 2 | _ => false end.
Definition two_cited (r : result response) : bool := match r with Ok (Answered a) => Nat.eqb (length (an_citations a)) 2 | _ => false end.

(** the topic of the hub, weighed against a message that names it *)
Notation no_filter := (conversation_filters no_filters).
Notation topic := (@_answer_from_facts index (mret []) "Is there a recurring topic?" 5 None (Some "local-default") no_filter false talked).
Notation weighed a := (_arbitrate_fact_and_chunk_evidence None settings a [ContextSamples.window 0 "I like SQL."] "Is there a recurring topic?" 5 None).
Definition corroborated (r : result (option answer)) : bool :=
  match r with
  | Ok (Some a) => match weighed a with Ok b => String.eqb (an_answer_basis b) MIXED && String.eqb (an_confidence b) "medium" | Raise _ => false end
  | _ => false end.
Lemma arbitration_weighs_witness : ∃ a b, fact_answered None "local-default" no_filter a ∧ weighed a = Ok b ∧
  an_answer_basis b = MIXED ∧ an_facts b = an_facts a.
Proof.
  assert (Hs : corroborated topic.1 = true) by (vm_compute; reflexivity).
  destruct topic as [[[a|]|e] w'] eqn:E; [|discriminate Hs..]. unfold corroborated in Hs. cbn [fst] in Hs.
  pose proof (answer_from_facts_spec None "local-default" no_filter (mret []) "Is there a recurring topic?" 5 _ _ _ E a eq_refl) as Hf.
  destruct (weighed a) as [b|e] eqn:Eb; [|discriminate Hs]. exists a, b. split; [exact Hf|]. split; [exact Eb|].
  split; [by apply andb_true_iff in Hs as [->%String.eqb_eq _]|].
  exact (proj1 (arbitration_weighs runtime settings None "local-default" no_filter a _ _ _ _ b Hf Eb)).
Defined.
End AskSamples.
