(* ===== verification/HandoffFacts.v ===== *)
(** * Facts about handoff packets

    Every claim of a packet cites one row that the packet cites, and, when no
    selected row is blank, the row it was read from. *)
From Stdlib Require Import ZArith Lia Ascii.
From S2P Require Import Prelude PyStr Json Clock PyFloat Ranking Regex Chunks FactValidation Summaries Search SearchFacts Context ContextFacts Handoff.
Local Open Scope Z_scope.

(** ** Claims *)

(** All the claims of the sections of a packet *)
Definition section_claims (x : handoff_sections) : list HandoffClaim :=
  confirmed_progress x ++ decisions x ++ map cf_claim (changed_files x) ++ map cm_claim (commands_run x) ++ validation x ++ blockers x ++ next_steps x.
Definition claims_of (p : HandoffPacket) : list HandoffClaim :=
  summary p ++ section_claims (sections p) ++ option_list (objective (resume_hint p)).
Lemma add_claim_claims s v ref x c : c ∈ section_claims (add_claim s v ref x) → c ∈ section_claims x ∨ cl_citations c = [ref].
Proof.
  destruct x as [pr de fi co va bl ne]. destruct s; unfold section_claims; cbn; rewrite ?map_app, !elem_of_app; try set_solver.
Qed.
Lemma classify_claims prefixes text ref x c : c ∈ section_claims (classify prefixes text ref x) → c ∈ section_claims x ∨ cl_citations c = [ref].
Proof.
  induction prefixes as [|[prefix s] rest IH]; cbn [classify]; [by left|]. destruct (text_behind prefix text); [|done].
  cbv zeta. case_match; [by left|]. apply add_claim_claims.
Qed.
Definition cites_one (refs : list string) (c : HandoffClaim) : Prop := ∃ r, r ∈ refs ∧ cl_citations c = [r].
Lemma rows_cite pairs : ∀ st refs, (∀ rc, rc ∈ pairs → reference rc.2 ∈ refs) →
  Forall (cites_one refs) st.1 → Forall (cites_one refs) (section_claims st.2) →
  let out := foldl add_row st pairs in Forall (cites_one refs) out.1 ∧ Forall (cites_one refs) (section_claims out.2).
Proof.
  induction pairs as [|[row c] pairs IH]; intros [claims x] refs Hp H1 H2; [done|]. cbn [foldl].
  assert (Hr : reference c ∈ refs) by (apply (Hp (row, c)); by left). apply IH; [intros rc Hrc; apply Hp; by right|..]; unfold add_row; cbv zeta; case_match; cbn [fst snd] in H1, H2 |- *; try done.
  - apply Forall_app_2; [done|]. constructor; [|done]. by exists (reference c).
  - apply Forall_forall. intros d [Hd|Hd]%classify_claims; [by eapply Forall_forall in H2|by exists (reference c)].
Qed.
Lemma goal_cites claims g refs : Forall (cites_one refs) claims → explicit_goal claims = Some g → cites_one refs g.
Proof.
  intros Hc Hg. unfold explicit_goal in Hg. destruct (omap goal_of claims) as [|g' l] eqn:E; [done|]. injection Hg as ->.
  assert (Hin : g ∈ omap goal_of claims) by (rewrite E; by left). apply list_elem_of_omap in Hin as (c & Hin & Hgo).
  unfold goal_of in Hgo. apply bind_Some in Hgo as (behind & _ & Hgo). case_match; [done|]. injection Hgo as <-.
  eapply Forall_forall in Hc; [|done]. exact Hc.
Qed.
Lemma latest_of_spec l : ∀ d, utc_us d <= utc_us (latest_of d l) ∧ ∀ x, x ∈ l → utc_us x <= utc_us (latest_of d l).
Proof.
  unfold latest_of. induction l as [|x l IH]; intros d; cbn; [split; [lia|by intros y ?%elem_of_nil]|].
  destruct (Z.ltb_spec (utc_us d) (utc_us x)).
  - destruct (IH x) as [H1 H2]. split; [lia|]. intros y [-> |Hy]%elem_of_cons; [done|auto].
  - destruct (IH d) as [H1 H2]. split; [lia|]. intros y [-> |Hy]%elem_of_cons; [lia|auto].
Qed.
Lemma earliest_of_spec l : ∀ d, utc_us (earliest_of d l) <= utc_us d ∧ ∀ x, x ∈ l → utc_us (earliest_of d l) <= utc_us x.
Proof.
  unfold earliest_of. induction l as [|x l IH]; intros d; cbn; [split; [lia|by intros y ?%elem_of_nil]|].
  destruct (Z.ltb_spec (utc_us x) (utc_us d)).
  - destruct (IH x) as [H1 H2]. split; [lia|]. intros y [-> |Hy]%elem_of_cons; [done|auto].
  - destruct (IH d) as [H1 H2]. split; [lia|]. intros y [-> |Hy]%elem_of_cons; [lia|auto].
Qed.
Lemma cited_texts raw cited : handoff_citations raw = Ok cited →
  Forall (λ c, ci_id c ≠ "" ∧ 0 <= ci_chunk_index c ∧ ci_text c ≠ "") cited ∧
  cited = map redact_citation (List.filter (λ c, negb (String.eqb (strip (ci_text c)) "")) raw).
Proof.
  unfold handoff_citations. generalize (List.filter (λ c, negb (String.eqb (strip (ci_text c)) "")) raw). intros l. revert cited.
  induction l as [|c l IH]; cbn [map_result]; intros cited Hr; [by injection Hr as <-|].
  apply bind_Ok in Hr as (d & Hd & Hr). apply bind_Ok in Hr as (rest & Hrest & Hr). injection Hr as <-.
  unfold validated_citation in Hd. case_match eqn:E; [done|]. injection Hd as <-. apply IH in Hrest as [Hf ->].
  apply orb_false_iff in E as [[E1 E2]%orb_false_iff E3]. split; [|done]. constructor; [|done].
  apply String.eqb_neq in E1, E3. split_and!; [done|lia|done].
Qed.

Lemma state_unsupported none old cut : state_of none old cut = "unsupported" ↔ none = true.
Proof. by destruct none, old, cut. Qed.
Section packets.
Context (uuid5_url : string → string) (now : Z).
(** What a valid packet promises. *)
Record grounded (c : context) (p : HandoffPacket) : Prop := mk_grounded {
  gp_claims : Forall (cites_one (map reference (hp_citations p))) (claims_of p);
  gp_citations : Forall (λ c, ci_id c ≠ "" ∧ 0 <= ci_chunk_index c ∧ ci_text c ≠ "") (hp_citations p);
  gp_unsupported : evidence_state (resume_hint p) = "unsupported" ↔ hp_citations p = [];
  gp_times : utc_us (created_at p) <= utc_us (updated_at p) ∧
    ∀ d l, row_timestamps now (selected_matches c) = Ok l → d ∈ l → utc_us (created_at p) <= utc_us d <= utc_us (updated_at p);
  gp_budget : 1 <= context_token_budget p ∧ 0 <= hp_tokens_used p ∧ hp_tokens_used p = tokens_used c;
  gp_cut : hp_truncated p = true → incomplete (resume_hint p) = true }.


(** The claim that a row makes, citing itself. *)
Definition own_claim (s : shaped_row) : option HandoffClaim :=
  let text := redact_secrets (collapse (rr_text (sh_row s))) in
  if String.eqb text "" then None else Some (mk_claim text [reference (_citation_from_row (sh_row s))]).
Lemma read_own_rows selected : ∀ st, (foldl add_row st (combine selected (map (λ s, redact_citation (_citation_from_row (sh_row s))) selected))).1 =
  st.1 ++ omap own_claim selected.
Proof.
  induction selected as [|s selected IH]; intros [claims x]; cbn [map combine foldl omap list_omap]; [by rewrite app_nil_r|].
  rewrite IH. unfold add_row, own_claim. cbn [fst snd]. cbv zeta. case_match; cbn [fst]; [done|]. by rewrite <-app_assoc.
Qed.
(** When no selected row is blank, the summary of a packet holds, in order, one
    claim for each row, with the row's words redacted and the row itself cited. *)
Theorem handoff_quotes_own_rows tokenizer matches budget question c project_id thread_id p :
  _select_ask_context tokenizer matches budget = Ok c →
  Forall (λ s, strip (rr_text (sh_row s)) ≠ "") (selected_matches c) →
  handoff_packet uuid5_url now question c project_id thread_id budget = Ok p →
  summary p = omap own_claim (selected_matches c) ∧
  hp_citations p = map (λ s, redact_citation (_citation_from_row (sh_row s))) (selected_matches c).
Proof.
  intros Hsel Hblank Hr. apply bind_Ok in Hsel as ([c' cache] & Hsel & [= <-]).
  apply (selection_rows tokenizer budget matches [] _ _ _ _ (selection_nil tokenizer budget)) in Hsel.
  unfold handoff_packet in Hr. apply bind_Ok in Hr as (cited & Hc & Hr). destruct (read_rows _ cited) as [claims x] eqn:Er.
  apply bind_Ok in Hr as (times & _ & Hr). cbv zeta in Hr. unfold validated_packet in Hr. destruct (_ || _) in Hr; [done|]. injection Hr as <-. cbn.
  apply cited_texts in Hc as [_ ->]. rewrite (se_citations _ _ _ _ Hsel) in Er |- *.
  assert (Hall : List.filter (λ c, negb (String.eqb (strip (ci_text c)) "")) (map (λ s, _citation_from_row (sh_row s)) (selected_matches c')) =
    map (λ s, _citation_from_row (sh_row s)) (selected_matches c')).
  { clear -Hblank. induction Hblank as [|s l Hs Hl IH]; [done|]. cbn [map List.filter _citation_from_row ci_text]. apply String.eqb_neq in Hs. rewrite Hs. cbn [negb]. by rewrite IH. }
  rewrite Hall, map_map in Er |- *. split; [|done]. unfold read_rows in Er.
  pose proof (read_own_rows (selected_matches c') ([], no_sections)) as Hown. rewrite Er in Hown. exact Hown.
Qed.
End packets.

Module HandoffSamples.
Definition noted (id text : string) : shaped_row :=
  plain_row (mk_result_row id fzero 0 "user" text
    (VDict [("id", VStr id); ("source", VStr "agent"); ("timestamp", VStr "2026-07-14T12:00:00Z")]) None fzero 1).
Definition noon_us : Z := 1784116800000000.
Notation packet_of rows := (c ← _select_ask_context None rows 200; handoff_packet (λ s, s) noon_us "resume" c (Some "p") None 200).
Definition quotes (r : result HandoffPacket) : list (string * list string) :=
  match r with Ok p => map (λ c, (cl_text c, cl_citations c)) (summary p) | Raise _ => [] end.
Notation rows := [noted "m1" "Decision: use Postgres"; noted "m2" "Next step: ship it"].
Definition is_packet (r : result HandoffPacket) : bool := match r with Ok _ => true | Raise _ => false end.
Lemma handoff_quotes_own_rows_witness : ∃ c p, _select_ask_context None rows 200 = Ok c ∧
  handoff_packet (λ s, s) noon_us "resume" c (Some "p") None 200 = Ok p ∧ summary p = omap own_claim (selected_matches c).
Proof.
  assert (Hs : is_packet (packet_of rows) = true) by (vm_compute; reflexivity).
  assert (Hb : match _select_ask_context None rows 200 with
    | Ok c => forallb (λ s, negb (String.eqb (strip (rr_text (sh_row s))) "")) (selected_matches c) | Raise _ => false end = true) by (vm_compute; reflexivity).
  destruct (_select_ask_context None rows 200) as [c|e] eqn:Ec; [|discriminate Hs]. cbn [mbind result_bind] in Hs.
  destruct (handoff_packet (λ s, s) noon_us "resume" c (Some "p") None 200) as [p|e] eqn:Ep; [|discriminate Hs].
  exists c, p. split; [reflexivity|]. split; [exact Ep|].
  refine (proj1 (handoff_quotes_own_rows (λ s, s) noon_us None rows 200 "resume" c (Some "p") None p Ec _ Ep)).
  apply Forall_forall. intros s Hin. rewrite forallb_forall in Hb. apply list_elem_of_In, Hb, negb_true_iff, String.eqb_neq in Hin. exact Hin.
Defined.
Example own_quotes : quotes (packet_of rows) = [("Decision: use Postgres", ["m1#0"]); ("Next step: ship it", ["m2#0"])].
Proof. vm_compute. reflexivity. Qed.
(** A blank row is cited by nobody, so that each claim behind it cites the row
    after its own, and the last row is not read. *)
Lemma blank_row_shifts_citations : quotes (packet_of (noted "m0" " " :: rows ++ [noted "m3" "Blocker: none"])) =
  [("Decision: use Postgres", ["m2#0"]); ("Next step: ship it", ["m3#0"])].
Proof. vm_compute. reflexivity. Qed.
(** The position is that in the folded text, which is longer. *)
Lemma sharp_s_cuts_claim : let strasse := "Stra" +:+ char_str (chr 223) +:+ "e " in
  text_behind "decision:" (strasse +:+ strasse +:+ "decision: keep") = Some "eep".
Proof. vm_compute. reflexivity. Qed.
(** A budget of none is no budget of a packet. *)
Lemma no_budget_raises : (c ← _select_ask_context None rows 0; handoff_packet (λ s, s) noon_us "resume" c None None 0) = Raise (ValueError "ValidationError").
Proof. vm_compute. reflexivity. Qed.
End HandoffSamples.
