(* ===== verification/HandoffStore.v ===== *)
(** * Stored handoffs ([memory/backend/handoff_records.py], [memory/handoff_models.py],
    [memory/backend/metadata_store.py])

    A record is a JSON object that the pydantic models validate; the store keeps
    its text in one row and the supersession of one record by another in a table
    of pairs. *)
From Stdlib Require Import ZArith Lia Ascii.
From S2P Require Import Prelude PyStr Json Identity AuthDb AuditLog QueryPlan FactStore FactValidation Pydantic Handoff.
Local Open Scope Z_scope.

(** ** Dates *)

(** The dates that pydantic reads and the text that it writes for them. *)
Class JsonDatetime := {
  json_datetime : value → result string;
  json_datetime_stable v t : json_datetime v = Ok t → json_datetime (VStr t) = Ok t }.

Definition read_datetime `{JsonDatetime} : reader := λ v, t ← json_datetime v; Ok (VStr t).

(** ** The models *)

Definition status_values : list string := ["active"; "blocked"; "waiting_for_review"; "complete"; "superseded"].
Definition citation_fields : list model_field :=
  [required "memory_id" read_text1; required "chunk_index" (read_int 0); required "text" read_text1; required "score" read_float].
Definition claim_fields : list model_field :=
  [required "text" read_text1; mk_field "citations" (Some (VList [])) (list_of read_text)].
Definition changed_file_fields : list model_field :=
  claim_fields ++ [required "path" read_text1; mk_field "committed" (Some VNone) (optional read_bool)].
Definition command_fields : list model_field :=
  claim_fields ++ [required "command" read_text1; mk_field "result" (Some VNone) (optional read_text)].
Definition list_field (k : string) (fields : list model_field) : model_field :=
  mk_field k (Some (VList [])) (list_of (read_model fields)).
Definition claim_field (k : string) : model_field := mk_field k (Some VNone) (optional (read_model claim_fields)).
Definition flag (k : string) : model_field := mk_field k (Some (VBool false)) read_bool.
Definition resume_hint_fields : list model_field :=
  [claim_field "objective"; list_field "confirmed_progress" claim_fields; claim_field "blocker"; claim_field "immediate_next_action";
   required "evidence_state" (read_choice ["current"; "stale"; "incomplete"; "unsupported"]); flag "stale"; flag "incomplete";
   required "regeneration_hint" read_text].

Section store.
Context `{JsonDatetime}.

Definition packet_fields : list model_field :=
  [required "handoff_id" read_text1; optional_text_field "project_id"; optional_text_field "thread_id";
   optional_text_field "source_agent"; optional_text_field "target_agent"; required "goal" (read_model claim_fields);
   required "status" (read_choice status_values); required "summary" (list_of (read_model claim_fields));
   list_field "decisions" claim_fields; list_field "changed_files" changed_file_fields; list_field "commands_run" command_fields;
   list_field "validation" claim_fields; list_field "blockers" claim_fields; list_field "next_steps" claim_fields;
   required "citations" (list_of (read_model citation_fields)); required "created_at" read_datetime;
   required "updated_at" read_datetime; mk_field "expires_at" (Some VNone) (optional read_datetime);
   required "confidence" (read_choice ["none"; "low"; "medium"; "high"]);
   mk_field "completeness_notes" (Some (VList [])) (list_of read_text); required "context_tokens_used" (read_int 0);
   required "context_token_budget" (read_int 1); flag "context_truncated";
   mk_field "resume_hint" (Some VNone) (optional (read_model resume_hint_fields))].
Definition stored_fields : list model_field :=
  packet_fields ++ [optional_text_field "owner_id"; optional_text_field "supersedes_handoff_id";
                    optional_text_field "superseded_by_handoff_id"].
Definition StoredHandoffPacket (d : dict) : result dict :=
  v ← read_model stored_fields (VDict d); Ok (default [] (as_dict v)).

(** ** Records *)

Definition MAX_HANDOFF_ID_LENGTH : Z := 128.
Definition MAX_HANDOFF_SEARCH_LIMIT : Z := 100.
Definition redact_handoff_value (v : value) : value := _redact_handoff_value v.
Definition redacted (d : dict) : dict := map (λ kv, (kv.1, redact_handoff_value kv.2)) d.
Definition validate_handoff_id (v : string) : result string :=
  let handoff_id := strip v in
  if String.eqb handoff_id "" || (MAX_HANDOFF_ID_LENGTH <? Z.of_nat (String.length handoff_id))
  then Raise (ValueError "handoff_id must contain 1 to 128 characters") else Ok handoff_id.
Definition validate_handoff_limit (limit : Z) : result Z :=
  if (limit <? 1) || (MAX_HANDOFF_SEARCH_LIMIT <? limit) then Raise (ValueError "limit must be between 1 and 100") else Ok limit.
Definition prepare_handoff_record (record : dict) (owner_id : option string) (project_id : string)
    (supersedes_handoff_id : option string) : result dict :=
  let payload := redacted record in
  let payload := dict_set "owner_id" (opt_str owner_id) payload in
  let payload := dict_set "project_id" (VStr project_id) payload in
  let payload := dict_set "supersedes_handoff_id" (opt_str supersedes_handoff_id) payload in
  let payload := dict_set "superseded_by_handoff_id" VNone payload in
  let payload := dict_set "status" (VStr (py_str (or_value (vget "status" payload) (VStr "active")))) payload in
  normalized ← StoredHandoffPacket payload;
  _ ← validate_handoff_id (text_of "handoff_id" normalized);
  match supersedes_handoff_id with
  | None => Ok normalized
  | Some s =>
      _ ← validate_handoff_id s;
      if String.eqb s (text_of "handoff_id" normalized) then Raise (ValueError "a handoff cannot supersede itself") else Ok normalized
  end.
Definition public_handoff_record (payload : dict) (superseded_by_handoff_id : option string) : result dict :=
  let record := dict_set "superseded_by_handoff_id" (opt_str superseded_by_handoff_id) payload in
  StoredHandoffPacket (match superseded_by_handoff_id with Some _ => dict_set "status" (VStr "superseded") record | None => record end).

(** ** The tables *)

Record handoff_row := mk_handoff_row {
  hr_id : string; hr_owner_id : option string; hr_project_id : string; hr_status : string; hr_payload : string;
  hr_created_at : string; hr_updated_at : string }.
Record supersession_row := mk_supersession { sp_previous : string; sp_replacement : string }.
Record HandoffDb := mk_handoff_db { handoffs : list handoff_row; handoff_supersessions : list supersession_row }.
Notation DB := (M HandoffDb).

Definition handoff_row_of (normalized : dict) (owner_id : option string) (project_id : string) : handoff_row :=
  mk_handoff_row (text_of "handoff_id" normalized) owner_id project_id (text_of "status" normalized) (json_dumps (VDict normalized))
    (text_of "created_at" normalized) (text_of "updated_at" normalized).
Definition insert_handoff (r : handoff_row) : DB unit := exec_r (λ d,
  rows ← tbl_insert (λ x, String.eqb (hr_id x) (hr_id r)) r "UNIQUE constraint failed: handoffs.id" (handoffs d);
  Ok (mk_handoff_db rows (handoff_supersessions d))).
(** SQLite enforces the unique keys; foreign keys only where a connection asks for it. *)
Definition insert_supersession (r : supersession_row) : DB unit := exec_r (λ d,
  rows ← tbl_insert (λ x, String.eqb (sp_previous x) (sp_previous r) || String.eqb (sp_replacement x) (sp_replacement r)) r
           "UNIQUE constraint failed: handoff_supersessions" (handoff_supersessions d);
  Ok (mk_handoff_db (handoffs d) rows)).
(** [except sqlite3.IntegrityError] *)
Definition on_integrity_error {A} (e : exc) (m : DB A) : DB A := λ d,
  match m d with (Raise (IntegrityError _), d') => (Raise e, d') | other => other end.
Definition create_handoff (record : dict) (owner_id : option string) (project_id : string) (supersedes_handoff_id : option string)
    : DB dict :=
  project ← lift (_validate_project_id project_id);
  owner ← lift (match owner_id with Some o => o ← _validate_owner_id o; Ok (Some o) | None => Ok None end);
  normalized ← lift (prepare_handoff_record record owner project supersedes_handoff_id);
  _ ← on_integrity_error (ValueError "handoff_id already exists") (transaction (insert_handoff (handoff_row_of normalized owner project)));
  mret normalized.
(** [LEFT JOIN handoff_supersessions]: a record has at most one replacement. *)
Definition replacement_of (d : HandoffDb) (r : handoff_row) : option string :=
  sp_replacement <$> tbl_find (λ s, String.eqb (sp_previous s) (hr_id r)) (handoff_supersessions d).
Definition record_of_row (row : handoff_row * option string) : result dict :=
  v ← json_loads (hr_payload row.1);
  match v with VDict payload => public_handoff_record payload row.2 | _ => Raise OutsideModel end.
Definition get_handoff (handoff_id project_id : string) : DB (option dict) :=
  id ← lift (validate_handoff_id handoff_id);
  project ← lift (_validate_project_id project_id);
  row ← query (λ d, r ← tbl_find (λ r, String.eqb (hr_id r) id && String.eqb (hr_project_id r) project) (handoffs d);
                    Some (r, replacement_of d r));
  match row with
  | None => mret None
  | Some row => record ← lift (record_of_row row); mret (Some record)
  end.
Definition handoff_matches (project : string) (search_text status : option string) (include_superseded : bool)
    (row : handoff_row * option string) : bool :=
  let '(r, replacement) := row in
  String.eqb (hr_project_id r) project
  && match search_text with
     | Some q => String.eqb q "" || like ("%" +:+ strip q +:+ "%") (hr_payload r)
     | None => true
     end
  && (if bool_decide (status = Some "superseded") then bool_decide (is_Some replacement)
      else match status with Some s => String.eqb (hr_status r) s | None => true end
           && (include_superseded || negb (bool_decide (is_Some replacement)))).
Definition search_handoffs (project_id : string) (search_text status : option string) (include_superseded : bool) (limit : Z)
    : DB (list dict) :=
  project ← lift (_validate_project_id project_id);
  limit ← lift (validate_handoff_limit limit);
  rows ← query (λ d, take (Z.to_nat limit)
    (sort_by (λ a b, newest_first (λ x, Some (hr_updated_at x.1)) (λ x, hr_id x.1) a b)
       (List.filter (handoff_matches project search_text status include_superseded)
          (map (λ r, (r, replacement_of d r)) (handoffs d)))));
  lift (map_result record_of_row rows).
Definition supersede_handoff (handoff_id : string) (replacement : dict) (owner_id : option string) (project_id : string)
    : DB (option dict) :=
  existing_id ← lift (validate_handoff_id handoff_id);
  existing ← get_handoff existing_id project_id;
  match existing with
  | None => mret None
  | Some existing =>
      if negb (is_none (vget "superseded_by_handoff_id" existing)) then mret None else
      project ← lift (_validate_project_id project_id);
      normalized ← lift (prepare_handoff_record replacement owner_id project (Some existing_id));
      _ ← transaction (_ ← insert_handoff (handoff_row_of normalized owner_id project);
                       insert_supersession (mk_supersession existing_id (text_of "handoff_id" normalized)));
      mret (Some normalized)
  end.
End store.
