(* ===== verification/HandoffStoreFacts.v ===== *)
(** * Facts about stored handoffs

    Reading a record through the models again changes nothing; what is stored
    is read back; supersession is a forest of chains without branches. *)
From Stdlib Require Import ZArith Lia Ascii.
From S2P Require Import Prelude PyStr Json Identity AuthDb AuditLog QueryPlan FactStore FactValidation Pydantic Handoff HandoffStore.
Local Open Scope Z_scope.

(** ** The models *)

Lemma good_datetime `{JsonDatetime} : good read_datetime.
Proof. intros v w Hr. apply bind_Ok in Hr as (t & Ht & [= <-]). split; [|done]. unfold read_datetime. by rewrite (json_datetime_stable _ _ Ht). Qed.
#[export] Hint Resolve good_datetime : reads.
Lemma claim_good : good (read_model claim_fields).
Proof. apply good_model; [compute_done|]. unfold claim_fields. fields_good. Qed.
#[export] Hint Resolve claim_good : reads.
Lemma citation_good : good (read_model citation_fields).
Proof. apply good_model; [compute_done|]. unfold citation_fields. fields_good. Qed.
Lemma changed_file_good : good (read_model changed_file_fields).
Proof. apply good_model; [compute_done|]. unfold changed_file_fields, claim_fields. fields_good. Qed.
Lemma command_good : good (read_model command_fields).
Proof. apply good_model; [compute_done|]. unfold command_fields, claim_fields. fields_good. Qed.
Lemma hint_good : good (read_model resume_hint_fields).
Proof. apply good_model; [compute_done|]. unfold resume_hint_fields. fields_good. Qed.
#[export] Hint Resolve citation_good changed_file_good command_good hint_good : reads.

(** ** Records *)

Section records.
Context `{JsonDatetime}.

Lemma stored_names : NoDup (names stored_fields).
Proof. compute_done. Qed.
Lemma stored_good : Forall good_field stored_fields.
Proof. unfold stored_fields, packet_fields. cbn [app]. unfold optional_text_field, list_field, claim_field, flag, required. fields_good. Qed.
(** A record as the store keeps it. *)
Definition packet (d : dict) : Prop := instance stored_fields d.
Lemma stored_spec d n : StoredHandoffPacket d = Ok n → packet n ∧ (wf_value (VDict d) → wf_value (VDict n)) ∧
  ∀ f v w, f ∈ stored_fields → dict_get (fd_name f) d = Some v → fd_reader f v = Ok w → dict_get (fd_name f) n = Some w.
Proof.
  unfold StoredHandoffPacket. intros Hr. apply bind_Ok in Hr as (v & Hv & [= <-]).
  by destruct (read_instance _ _ _ stored_names stored_good Hv) as (e & -> & Hi & Hwf & Hget).
Qed.
Lemma packet_read n : packet n → StoredHandoffPacket n = Ok n.
Proof. intros Hp. unfold StoredHandoffPacket. by rewrite (instance_read _ _ stored_names Hp). Qed.

Definition field_named (k : string) : option model_field := List.find (λ f, String.eqb (fd_name f) k) stored_fields.
Lemma field_named_in k f : field_named k = Some f → f ∈ stored_fields ∧ fd_name f = k.
Proof. intros Hf. apply find_some in Hf as [Hin E]. apply String.eqb_eq in E. split; [by apply list_elem_of_In|done]. Qed.
Lemma packet_get n k f : packet n → field_named k = Some f → ∃ w, dict_get k n = Some w ∧ fd_reader f w = Ok w.
Proof. intros Hp [Hf <-]%field_named_in. exact (instance_get _ _ _ stored_names Hp Hf). Qed.
Lemma packet_set n k f w : packet n → field_named k = Some f → fd_reader f w = Ok w → packet (dict_set k w n).
Proof. intros Hp [Hf <-]%field_named_in Hw. exact (instance_set _ _ _ _ stored_names Hp Hf Hw). Qed.
Lemma packet_keys n : packet n → NoDup (dict_keys n).
Proof. intros Hp. rewrite (instance_keys _ _ Hp). exact stored_names. Qed.
Lemma packet_id n : packet n → ∃ id, dict_get "handoff_id" n = Some (VStr id) ∧ id ≠ "".
Proof.
  intros Hp. destruct (packet_get n "handoff_id" _ Hp eq_refl) as (w & Hw & Hr). destruct w as [| | | |id| |]; try discriminate Hr.
  exists id. split; [done|]. intros ->. discriminate Hr.
Qed.
Lemma text_of_get k n s : dict_get k n = Some (VStr s) → text_of k n = s.
Proof. unfold text_of, vget_or. by intros ->. Qed.
Lemma opt_value_read o : optional read_text (opt_str o) = Ok (opt_str o).
Proof. by destruct o. Qed.

Lemma wf_redact v : wf_value v → wf_value (redact_handoff_value v).
Proof.
  unfold redact_handoff_value. induction v as [|b|z|t|s|l IH|d IH] using value_ind; cbn [_redact_handoff_value]; try done.
  - rewrite !wf_list, !Forall_forall. intros Hl x Hx. apply elem_of_map in Hx as (y & Hy & ->). rewrite Forall_forall in IH. auto.
  - rewrite !wf_dict, !Forall_forall. intros [Hn Hd]. split.
    + unfold dict_keys in *. rewrite map_map. exact Hn.
    + intros x Hx. apply elem_of_map in Hx as (y & Hy & ->). rewrite Forall_forall in IH. cbn. auto.
Qed.
Lemma wf_redacted d : wf_value (VDict d) → wf_value (VDict (redacted d)).
Proof. exact (wf_redact (VDict d)). Qed.
Lemma wf_opt_value o : wf_value (opt_str o).
Proof. by destruct o. Qed.

(** What [prepare_handoff_record] makes of a record. *)
Record prepared (record : dict) (owner : option string) (project : string) (supersedes : option string) (n : dict) : Prop := mk_prepared {
  pr_packet : packet n;
  pr_wf : wf_value (VDict record) → wf_value (VDict n);
  pr_owner : dict_get "owner_id" n = Some (opt_str owner);
  pr_project : dict_get "project_id" n = Some (VStr project);
  pr_supersedes : dict_get "supersedes_handoff_id" n = Some (opt_str supersedes);
  pr_superseded : dict_get "superseded_by_handoff_id" n = Some VNone;
  pr_valid : validate_handoff_id (text_of "handoff_id" n) = Ok (strip (text_of "handoff_id" n));
  pr_other : supersedes ≠ Some (text_of "handoff_id" n) }.
Lemma validated_id v id : validate_handoff_id v = Ok id → id = strip v.
Proof. unfold validate_handoff_id. cbv zeta. case_match; [done|]. by intros [= <-]. Qed.
Lemma prepare_spec record owner project supersedes n :
  prepare_handoff_record record owner project supersedes = Ok n → prepared record owner project supersedes n.
Proof.
  unfold prepare_handoff_record. cbv zeta. intros Hr. apply bind_Ok in Hr as (n' & Hn & Hr). apply bind_Ok in Hr as (id & Hid & Hr).
  assert (Hsup : n' = n ∧ supersedes ≠ Some (text_of "handoff_id" n)).
  { destruct supersedes as [s|]; [|by injection Hr as <-]. apply bind_Ok in Hr as (s' & _ & Hr).
    destruct (String.eqb _ _) eqn:E in Hr; [discriminate|]. injection Hr as <-. split; [done|]. apply String.eqb_neq in E. congruence. }
  destruct Hsup as [-> Hsup]. pose proof (validated_id _ _ Hid) as ->. destruct (stored_spec _ _ Hn) as (Hp & Hwf & Hget).
  assert (Hset : ∀ k f v, field_named k = Some f → dict_get k _ = Some v → fd_reader f v = Ok v → dict_get k n = Some v)
    by (intros k f v [Hf <-]%field_named_in; apply Hget; exact Hf).
  split; [exact Hp| | | | | |exact Hid|exact Hsup].
  - intros Hw. apply Hwf. repeat (apply wf_dict_set; [|done || apply wf_opt_value]). by apply wf_redacted.
  - eapply Hset; [reflexivity| |apply opt_value_read]. by repeat (rewrite dict_get_set_ne by done); rewrite dict_get_set_eq.
  - eapply Hset; [reflexivity| |done]. by repeat (rewrite dict_get_set_ne by done); rewrite dict_get_set_eq.
  - eapply Hset; [reflexivity| |apply opt_value_read]. by repeat (rewrite dict_get_set_ne by done); rewrite dict_get_set_eq.
  - eapply Hset; [reflexivity| |done]. by repeat (rewrite dict_get_set_ne by done); rewrite dict_get_set_eq.
Qed.

(** A record as it is shown: with the one that replaced it. *)
Definition shown (replacement : option string) (n : dict) : dict :=
  match replacement with
  | Some r => dict_set "status" (VStr "superseded") (dict_set "superseded_by_handoff_id" (VStr r) n)
  | None => n
  end.
Lemma public_shown n replacement : packet n → dict_get "superseded_by_handoff_id" n = Some VNone →
  public_handoff_record n replacement = Ok (shown replacement n).
Proof.
  intros Hp Hnone. unfold public_handoff_record. cbv zeta. destruct replacement as [r|]; cbn [opt_str shown].
  - apply packet_read. eapply packet_set; [|reflexivity|reflexivity]. by eapply packet_set; [|reflexivity|].
  - rewrite (dict_set_same _ _ _ Hnone). by apply packet_read.
Qed.
End records.

(** ** The store *)

Section store.
Context `{JsonDatetime}.

(** A row and the record that it keeps. *)
Record keeps (r : handoff_row) (n : dict) : Prop := mk_keeps {
  kp_payload : hr_payload r = json_dumps (VDict n);
  kp_wf : wf_value (VDict n);
  kp_packet : packet n;
  kp_id : dict_get "handoff_id" n = Some (VStr (hr_id r));
  kp_owner : dict_get "owner_id" n = Some (opt_str (hr_owner_id r));
  kp_project : dict_get "project_id" n = Some (VStr (hr_project_id r));
  kp_status : dict_get "status" n = Some (VStr (hr_status r));
  kp_updated : dict_get "updated_at" n = Some (VStr (hr_updated_at r));
  kp_superseded : dict_get "superseded_by_handoff_id" n = Some VNone }.
(** A supersession names two records of one project, the later of which says so. *)
Definition linked (d : HandoffDb) (s : supersession_row) : Prop := ∃ i j a b n,
  handoffs d !! i = Some a ∧ handoffs d !! j = Some b ∧ (i < j)%nat ∧ hr_id a = sp_previous s ∧ hr_id b = sp_replacement s ∧
  hr_project_id a = hr_project_id b ∧ keeps b n ∧ dict_get "supersedes_handoff_id" n = Some (VStr (sp_previous s)).
Record handoffs_ok (d : HandoffDb) : Prop := mk_handoffs_ok {
  ho_ids : NoDup (map hr_id (handoffs d));
  ho_rows : Forall (λ r, ∃ n, keeps r n) (handoffs d);
  ho_linked : Forall (linked d) (handoff_supersessions d);
  ho_previous : NoDup (map sp_previous (handoff_supersessions d));
  ho_replacement : NoDup (map sp_replacement (handoff_supersessions d)) }.

Lemma prepared_kept record owner project supersedes n : wf_value (VDict record) → prepared record owner project supersedes n →
  keeps (handoff_row_of n owner project) n.
Proof.
  intros Hwf [Hp Hw Ho Hpr Hs Hn _ _]. specialize (Hw Hwf).
  assert (Htext : ∀ k f, field_named k = Some f → (∀ w, fd_reader f w = Ok w → ∃ t, w = VStr t) → dict_get k n = Some (VStr (text_of k n))).
  { intros k f Hf Ht. destruct (packet_get n k f Hp Hf) as (w & Hk & Hr). destruct (Ht w Hr) as [t ->]. by rewrite Hk, (text_of_get _ _ _ Hk). }
  split; cbn [handoff_row_of hr_payload hr_id hr_owner_id hr_project_id hr_status hr_updated_at]; try done.
  - eapply Htext; [reflexivity|]. intros w Hr. destruct w; try discriminate Hr. by eexists.
  - eapply Htext; [reflexivity|]. intros w Hr. destruct w; try discriminate Hr. by eexists.
  - eapply Htext; [reflexivity|]. intros w Hr. cbn in Hr. apply bind_Ok in Hr as (t & _ & [= <-]). by eexists.
Qed.
Lemma kept_shown r n replacement : keeps r n → record_of_row (r, replacement) = Ok (shown replacement n).
Proof.
  intros Hk. unfold record_of_row. cbn [fst snd]. rewrite (kp_payload _ _ Hk), (loads_dumps _ (kp_wf _ _ Hk)). cbn [mbind result_bind].
  apply public_shown; [apply (kp_packet _ _ Hk)|apply (kp_superseded _ _ Hk)].
Qed.

(** The row that a read finds. *)
Definition row_found (d : HandoffDb) (id project : string) : option handoff_row :=
  tbl_find (λ r, String.eqb (hr_id r) id && String.eqb (hr_project_id r) project) (handoffs d).
Lemma row_found_in d id project r : row_found d id project = Some r → r ∈ handoffs d ∧ hr_id r = id ∧ hr_project_id r = project.
Proof. intros [Hin [->%String.eqb_eq ->%String.eqb_eq]%andb_true_iff]%tbl_find_Some. done. Qed.
Lemma get_found handoff_id project_id d id project r n :
  validate_handoff_id handoff_id = Ok id → _validate_project_id project_id = Ok project → row_found d id project = Some r → keeps r n →
  get_handoff handoff_id project_id d = (Ok (Some (shown (replacement_of d r) n)), d).
Proof.
  intros Hid Hpr Hr Hk. unfold get_handoff. rewrite Hid, Hpr. unfold mbind, M_bind, lift, query. cbv beta iota.
  fold (row_found d id project). rewrite Hr. cbn -[record_of_row]. by rewrite (kept_shown _ _ _ Hk).
Qed.
Lemma get_none handoff_id project_id d id project :
  validate_handoff_id handoff_id = Ok id → _validate_project_id project_id = Ok project → row_found d id project = None →
  get_handoff handoff_id project_id d = (Ok None, d).
Proof.
  intros Hid Hpr Hr. unfold get_handoff. rewrite Hid, Hpr. unfold mbind, M_bind, lift, query. cbv beta iota.
  fold (row_found d id project). by rewrite Hr.
Qed.
Lemma get_unfolded handoff_id project_id d x d' : handoffs_ok d → get_handoff handoff_id project_id d = (Ok x, d') →
  d' = d ∧ ∃ id project, validate_handoff_id handoff_id = Ok id ∧ _validate_project_id project_id = Ok project ∧
  match row_found d id project with
  | Some r => ∃ n, keeps r n ∧ x = Some (shown (replacement_of d r) n)
  | None => x = None
  end.
Proof.
  intros Hd Hg. destruct (validate_handoff_id handoff_id) as [id|e] eqn:Hid; [|unfold get_handoff in Hg; rewrite Hid in Hg; discriminate Hg].
  destruct (_validate_project_id project_id) as [project|e] eqn:Hpr; [|unfold get_handoff in Hg; rewrite Hid, Hpr in Hg; discriminate Hg].
  destruct (row_found d id project) as [r|] eqn:Er.
  - destruct (proj1 (Forall_forall _ _) (ho_rows _ Hd) r) as [n Hk]; [by destruct (row_found_in _ _ _ _ Er)|].
    rewrite (get_found _ _ _ _ _ _ _ Hid Hpr Er Hk) in Hg. injection Hg as <- <-. split; [done|]. exists id, project. rewrite Er. split_and!; [done..|]. by exists n.
  - rewrite (get_none _ _ _ _ _ Hid Hpr Er) in Hg. injection Hg as <- <-. split; [done|]. exists id, project. by rewrite Er.
Qed.

(** What the two operations do when they succeed. *)
Lemma insert_record_run r d x d' : insert_handoff r d = (Ok x, d') →
  hr_id r ∉ map hr_id (handoffs d) ∧ d' = mk_handoff_db (handoffs d ++ [r]) (handoff_supersessions d).
Proof.
  unfold insert_handoff, exec_r, tbl_insert. intros Hr. destruct (existsb _ _) eqn:E in Hr; [discriminate|]. injection Hr as <- <-. split; [|done].
  intros (y & Hy & Hid)%elem_of_map. pose proof (existsb_false_elem _ _ _ E Hy) as Hn. cbn in Hn. apply String.eqb_neq in Hn. congruence.
Qed.
Lemma create_run record owner_id project_id supersedes d x d' : create_handoff record owner_id project_id supersedes d = (x, d') →
  match x with
  | Raise _ => d' = d
  | Ok n => ∃ owner project, _validate_project_id project_id = Ok project ∧ prepared record owner project supersedes n ∧
      text_of "handoff_id" n ∉ map hr_id (handoffs d) ∧
      d' = mk_handoff_db (handoffs d ++ [handoff_row_of n owner project]) (handoff_supersessions d)
  end.
Proof.
  unfold create_handoff. unfold mbind, M_bind, lift. cbv beta iota. intros Hr.
  destruct (_validate_project_id project_id) as [project|e] eqn:Hp; [|by injection Hr as <- <-]. cbv beta iota in Hr.
  destruct (match owner_id with Some o => _ | None => _ end) as [owner|e] in Hr; [|by injection Hr as <- <-]. cbv beta iota in Hr.
  destruct (prepare_handoff_record _ _ _ _) as [n|e] eqn:Hn in Hr; [|by injection Hr as <- <-]. cbv beta iota in Hr.
  unfold on_integrity_error, transaction in Hr. destruct (insert_handoff _ d) as [[u|e] d1] eqn:Hi in Hr.
  - injection Hr as <- <-. apply insert_record_run in Hi as [Hfresh ->]. exists owner, project. split_and!; [done|by apply prepare_spec|done|done].
  - destruct e; by injection Hr as <- <-.
Qed.
Lemma supersede_record_run handoff_id replacement owner_id project_id d x d' : handoffs_ok d →
  supersede_handoff handoff_id replacement owner_id project_id d = (x, d') →
  match x with
  | Ok (Some n) => ∃ id project r, validate_handoff_id handoff_id = Ok id ∧ _validate_project_id project_id = Ok project ∧
      row_found d id project = Some r ∧ replacement_of d r = None ∧ prepared replacement owner_id project (Some id) n ∧
      text_of "handoff_id" n ∉ map hr_id (handoffs d) ∧
      d' = mk_handoff_db (handoffs d ++ [handoff_row_of n owner_id project])
             (handoff_supersessions d ++ [mk_supersession id (text_of "handoff_id" n)])
  | _ => d' = d
  end.
Proof.
  intros Hd. unfold supersede_handoff. unfold mbind at 1, M_bind at 1, lift. intros Hr.
  destruct (validate_handoff_id handoff_id) as [id|e] eqn:Hid; [|by injection Hr as <- <-]. unfold mbind, M_bind in Hr. cbv beta iota in Hr.
  assert (Hid' : validate_handoff_id id = Ok id).
  { pose proof (validated_id _ _ Hid) as ->. revert Hid. unfold validate_handoff_id. by rewrite strip_idem. }
  destruct (get_handoff id project_id d) as [[old|e] d1] eqn:Hg; cbv beta iota in Hr.
  2:{ injection Hr as <- <-. revert Hg. unfold get_handoff, mbind, M_bind, lift, query. cbv beta iota. repeat case_match; intros; simplify_eq; done. }
  destruct (get_unfolded _ _ _ _ _ Hd Hg) as (-> & id' & project & E & Hpr & Hold). rewrite Hid' in E. injection E as <-.
  destruct (row_found d id project) as [r|] eqn:Er; [|subst old; by injection Hr as <- <-]. destruct Hold as (old_n & Hk & ->).
  destruct (negb _) eqn:En in Hr; [by injection Hr as <- <-|]. cbv beta iota in Hr. rewrite Hpr in Hr. cbv beta iota in Hr.
  destruct (prepare_handoff_record _ _ _ _) as [n|e] eqn:Hn in Hr; [|by injection Hr as <- <-]. cbv beta iota in Hr.
  unfold transaction in Hr. destruct (insert_handoff _ d) as [[u|e] d1] eqn:Hi in Hr; cbv beta iota in Hr; [|by injection Hr as <- <-].
  apply insert_record_run in Hi as [Hfresh ->]. unfold insert_supersession, exec_r, tbl_insert in Hr. cbn [handoff_supersessions handoffs] in Hr.
  destruct (existsb _ _) in Hr; [by injection Hr as <- <-|]. injection Hr as <- <-. exists id, project, r. split_and!; try done; [|by apply prepare_spec].
  destruct (replacement_of d r) as [q|] eqn:Eq; [|done]. exfalso. revert En. cbn [shown]. unfold vget.
  rewrite dict_get_set_ne, dict_get_set_eq by done. done.
Qed.
(** *** The invariant *)

Lemma linked_grows d r l s : linked d s → linked (mk_handoff_db (handoffs d ++ [r]) l) s.
Proof.
  intros (i & j & a & b & n & Hi & Hj & Hlt & Hrest). exists i, j, a, b, n. cbn. by rewrite !lookup_app_l by (by eapply lookup_lt_Some).
Qed.
Lemma rows_grow d r n : handoffs_ok d → hr_id r ∉ map hr_id (handoffs d) → keeps r n →
  NoDup (map hr_id (handoffs d ++ [r])) ∧ Forall (λ r, ∃ n, keeps r n) (handoffs d ++ [r]).
Proof.
  intros Hd Hfresh Hk. split.
  - rewrite map_app. apply NoDup_app. split; [apply (ho_ids _ Hd)|]. split; [|apply NoDup_singleton].
    cbn. intros x Hx ->%list_elem_of_singleton. by apply Hfresh.
  - apply Forall_app_2; [apply (ho_rows _ Hd)|]. apply Forall_singleton. by exists n.
Qed.
Lemma linked_in d s : linked d s → sp_replacement s ∈ map hr_id (handoffs d).
Proof. intros (i & j & a & b & n & _ & Hj & _ & _ & <- & _). apply elem_of_map. exists b. split; [by eapply list_elem_of_lookup_2|done]. Qed.
Lemma unreplaced d r : replacement_of d r = None → hr_id r ∉ map sp_previous (handoff_supersessions d).
Proof.
  unfold replacement_of, tbl_find. intros Hn (s & Hs & E)%elem_of_map. destruct (List.find _ _) eqn:Ef in Hn; [discriminate|].
  pose proof (find_none _ _ Ef s (proj1 (list_elem_of_In _ _) Hs)) as Hne. cbn in Hne. apply String.eqb_neq in Hne. by symmetry in E.
Qed.
Lemma create_keeps_ok record owner_id project_id supersedes d : wf_value (VDict record) → handoffs_ok d →
  handoffs_ok (create_handoff record owner_id project_id supersedes d).2.
Proof.
  intros Hwf Hd. destruct (create_handoff _ _ _ _ d) as [[n|e] d'] eqn:E; apply create_run in E; [|by subst d'].
  destruct E as (owner & project & _ & Hn & Hfresh & ->). cbn [snd].
  destruct (rows_grow d (handoff_row_of n owner project) n Hd Hfresh (prepared_kept _ _ _ _ _ Hwf Hn)) as [Hids Hrows]. destruct Hd as [_ _ Hl Hp Hr].
  split; cbn; try done. apply Forall_forall. intros s Hs. apply linked_grows. by apply (proj1 (Forall_forall _ _) Hl).
Qed.
Lemma supersede_keeps_ok handoff_id replacement owner_id project_id d : wf_value (VDict replacement) → handoffs_ok d →
  handoffs_ok (supersede_handoff handoff_id replacement owner_id project_id d).2.
Proof.
  intros Hwf Hd. destruct (supersede_handoff _ _ _ _ d) as [[[n|]|e] d'] eqn:E; apply (supersede_record_run _ _ _ _ _ _ _ Hd) in E; cbn in E; [|by subst d'..].
  destruct E as (id & project & r & _ & _ & Hr & Hnone & Hn & Hfresh & ->). cbn [snd]. pose proof (prepared_kept _ _ _ _ _ Hwf Hn) as Hk.
  destruct (rows_grow d (handoff_row_of n owner_id project) n Hd Hfresh Hk) as [Hids Hrows]. destruct (row_found_in _ _ _ _ Hr) as (Hin & Hid & Hproject).
  pose proof (unreplaced _ _ Hnone) as Hnew. rewrite Hid in Hnew. split; cbn; [done|done| | |].
  - apply Forall_app_2; [apply Forall_forall; intros s Hs; apply linked_grows; by apply (proj1 (Forall_forall _ _) (ho_linked _ Hd))|].
    apply Forall_singleton. destruct (list_elem_of_lookup_1 _ _ Hin) as [i Hi]. exists i, (length (handoffs d)), r, (handoff_row_of n owner_id project), n.
    cbn. split_and!; try done; [by rewrite lookup_app_l by (by eapply lookup_lt_Some)|by rewrite lookup_app_r, Nat.sub_diag|by eapply lookup_lt_Some|].
    exact (pr_supersedes _ _ _ _ _ Hn).
  - rewrite map_app. apply NoDup_app. split; [apply (ho_previous _ Hd)|]. split; [|apply NoDup_singleton]. cbn. by intros x Hx ->%list_elem_of_singleton.
  - rewrite map_app. apply NoDup_app. split; [apply (ho_replacement _ Hd)|]. split; [|apply NoDup_singleton]. cbn. intros x Hx ->%list_elem_of_singleton.
    apply elem_of_map in Hx as (s & Hs & E). apply Hfresh. rewrite E. apply linked_in. by apply (proj1 (Forall_forall _ _) (ho_linked _ Hd)).
Qed.

(** The operations that write, on any records of well-formed values. *)
Inductive handoff_step : HandoffDb → HandoffDb → Prop :=
| step_create record owner_id project_id supersedes d : wf_value (VDict record) →
    handoff_step d (create_handoff record owner_id project_id supersedes d).2
| step_supersede handoff_id replacement owner_id project_id d : wf_value (VDict replacement) →
    handoff_step d (supersede_handoff handoff_id replacement owner_id project_id d).2.

(** C40: in every reachable store the ids of handoffs are distinct, each row keeps
    the text of a record that the models read as itself and whose id, owner,
    project and status are its columns, a handoff has at most one replacement and
    replaces at most one other, and a replacement is a later record of the same
    project that names the one it replaces: supersession has no cycles. *)
Theorem handoff_store_consistent d : rtc handoff_step (mk_handoff_db [] []) d → handoffs_ok d.
Proof.
  assert (Hstep : ∀ x y, handoff_step x y → handoffs_ok x → handoffs_ok y).
  { intros x y [record owner project sup d' Hwf|id record owner project d' Hwf] Hx; [by apply create_keeps_ok|by apply supersede_keeps_ok]. }
  intros Hr. refine (rtc_ind_r handoffs_ok _ _ _ d Hr); [|intros y z _ Hs Hy; exact (Hstep _ _ Hs Hy)].
  split; constructor.
Qed.
(** *** Reading *)

Lemma find_app_none {A} (p : A → bool) l l' : (∀ x, x ∈ l → p x = false) → List.find p (l ++ l') = List.find p l'.
Proof. induction l as [|x l IH]; cbn; intros Hl; [done|]. rewrite Hl by (by left). apply IH. intros y Hy. apply Hl. by right. Qed.
Lemma find_app_other {A} (p : A → bool) l x : p x = false → List.find p (l ++ [x]) = List.find p l.
Proof. intros Hx. induction l as [|y l IH]; cbn; [by rewrite Hx|]. by rewrite IH. Qed.

Lemma found_other d r l id project : id ≠ hr_id r → row_found (mk_handoff_db (handoffs d ++ [r]) l) id project = row_found d id project.
Proof.
  intros Hne. unfold row_found, tbl_find. cbn. induction (handoffs d) as [|x t IH]; cbn.
  - apply not_eq_sym, String.eqb_neq in Hne. by rewrite Hne.
  - by case_match.
Qed.
Lemma found_new d r l : hr_id r ∉ map hr_id (handoffs d) →
  row_found (mk_handoff_db (handoffs d ++ [r]) l) (hr_id r) (hr_project_id r) = Some r.
Proof.
  unfold row_found, tbl_find. cbn. induction (handoffs d) as [|x t IH]; cbn; intros Hf; [by rewrite !String.eqb_refl|].
  apply not_elem_of_cons in Hf as [Hx Hf]. apply not_eq_sym, String.eqb_neq in Hx. rewrite Hx. by apply IH.
Qed.
Lemma get_same d d' handoff_id project_id : (∀ id project, validate_handoff_id handoff_id = Ok id →
    row_found d' id project = row_found d id project ∧ (∀ r, row_found d id project = Some r → replacement_of d' r = replacement_of d r)) →
  (get_handoff handoff_id project_id d').1 = (get_handoff handoff_id project_id d).1.
Proof.
  intros Hs. unfold get_handoff, mbind, M_bind, lift, query. cbv beta iota. destruct (validate_handoff_id handoff_id) as [id|e]; [|done]. cbv beta iota.
  destruct (_validate_project_id project_id) as [project|e]; [|done]. cbv beta iota. destruct (Hs id project eq_refl) as [Hf Hr].
  change (tbl_find _ (handoffs d')) with (row_found d' id project). change (tbl_find _ (handoffs d)) with (row_found d id project). rewrite Hf.
  destruct (row_found d id project) as [r|]; [|done]. cbn -[record_of_row]. rewrite (Hr r eq_refl). by destruct (record_of_row _).
Qed.
Lemma valid_stripped id : strip id = id → validate_handoff_id id = Ok (strip id) → validate_handoff_id id = Ok id.
Proof. by intros ->. Qed.
Lemma project_again t v : _validate_project_id t = Ok v → _validate_project_id v = Ok v.
Proof. apply _validate_project_id_idem. Qed.
Lemma not_previous d id : handoffs_ok d → id ∉ map hr_id (handoffs d) → id ∉ map sp_previous (handoff_supersessions d).
Proof.
  intros Hd Hf (s & Hs & ->)%elem_of_map. destruct (proj1 (Forall_forall _ _) (ho_linked _ Hd) _ Hs) as (i & j & a & b & n & Hi & _ & _ & Ha & _).
  apply Hf, elem_of_map. exists a. split; [by eapply list_elem_of_lookup_2|done].
Qed.
Lemma no_replacement d r : hr_id r ∉ map sp_previous (handoff_supersessions d) → replacement_of d r = None.
Proof.
  unfold replacement_of, tbl_find. intros Hn. destruct (List.find _ _) as [s|] eqn:Ef; [|done]. apply find_some in Ef as [Hs E%String.eqb_eq].
  exfalso. apply Hn, elem_of_map. exists s. split; [by apply list_elem_of_In|done].
Qed.

(** A handoff that is created is read back as it was returned, unless its id is
    padded with blanks, and it changes no other read; its id was free before. *)
Theorem created_handoff_read_back record owner_id project_id supersedes d n d' : handoffs_ok d → wf_value (VDict record) →
  create_handoff record owner_id project_id supersedes d = (Ok n, d') →
  let id := text_of "handoff_id" n in
  (strip id = id → get_handoff id project_id d = (Ok None, d) ∧ get_handoff id project_id d' = (Ok (Some n), d')) ∧
  (∀ other project, strip other ≠ id → (get_handoff other project d').1 = (get_handoff other project d).1).
Proof.
  intros Hd Hwf (owner & project & Hp & Hn & Hfresh & ->)%create_run. cbv zeta. pose proof (prepared_kept _ _ _ _ _ Hwf Hn) as Hk.
  split.
  - intros Hs. pose proof (valid_stripped _ Hs (pr_valid _ _ _ _ _ Hn)) as Hid. split.
    + apply (get_none _ _ _ _ _ Hid Hp). destruct (row_found d _ project) as [r|] eqn:Er; [|done]. apply row_found_in in Er as (Hin & Hr & _).
      destruct Hfresh. apply elem_of_map. by exists r.
    + rewrite (get_found _ _ _ _ _ (handoff_row_of n owner project) n Hid Hp); [|by apply (found_new d (handoff_row_of n owner project))|done].
      rewrite no_replacement; [done|]. by apply (not_previous d).
  - intros other project' Hne. apply get_same. intros id' project'' ->%validated_id. split; [by apply found_other|done].
Qed.

(** A handoff that is superseded is shown with its replacement from then on and
    is otherwise as it was; the replacement is read back as it was returned, no
    other read changes, and the handoff cannot be superseded again. *)
Theorem superseded_once handoff_id replacement owner_id project_id d n d' : handoffs_ok d → wf_value (VDict replacement) →
  supersede_handoff handoff_id replacement owner_id project_id d = (Ok (Some n), d') →
  let id := text_of "handoff_id" n in
  vget "supersedes_handoff_id" n = VStr (strip handoff_id) ∧
  (∃ old, get_handoff handoff_id project_id d = (Ok (Some old), d) ∧ vget "superseded_by_handoff_id" old = VNone ∧
     get_handoff handoff_id project_id d' = (Ok (Some (shown (Some id) old)), d')) ∧
  (strip id = id → get_handoff id project_id d' = (Ok (Some n), d')) ∧
  (∀ other project, strip other ≠ id → strip other ≠ strip handoff_id → (get_handoff other project d').1 = (get_handoff other project d).1) ∧
  (∀ again owner, supersede_handoff handoff_id again owner project_id d' = (Ok None, d')).
Proof.
  intros Hd Hwf Hr. pose proof (supersede_record_run _ _ _ _ _ _ _ Hd Hr) as (old_id & project & r & Hid & Hp & Hrow & Hnone & Hn & Hfresh & E).
  pose proof (supersede_keeps_ok handoff_id replacement owner_id project_id d Hwf Hd) as Hd'. rewrite Hr in Hd'. cbn in Hd'.
  pose proof (prepared_kept _ _ _ _ _ Hwf Hn) as Hk. pose proof (validated_id _ _ Hid) as ->. cbv zeta. set (id := text_of "handoff_id" n) in *.
  destruct (row_found_in _ _ _ _ Hrow) as (Hin & Hrid & Hrp). destruct (proj1 (Forall_forall _ _) (ho_rows _ Hd) _ Hin) as [old Hold].
  assert (Hne : strip handoff_id ≠ id). { intros Heq. apply Hfresh, elem_of_map. exists r. by rewrite Hrid. }
  assert (Hrow' : row_found d' (strip handoff_id) project = Some r) by (subst d'; by rewrite (found_other d (handoff_row_of n owner_id project))).
  pose proof (unreplaced _ _ Hnone) as Hnew.
  assert (Hrep : replacement_of d' r = Some id).
  { subst d'. unfold replacement_of, tbl_find. cbn. rewrite find_app_none.
    - cbn. by rewrite Hrid, String.eqb_refl.
    - intros s Hs. apply String.eqb_neq. intros Heq. apply Hnew, elem_of_map. by exists s. }
  split; [unfold vget; by rewrite (pr_supersedes _ _ _ _ _ Hn)|]. split; [|split; [|split]].
  - exists old. rewrite (get_found _ _ _ _ _ _ _ Hid Hp Hrow Hold), (get_found _ _ _ _ _ _ _ Hid Hp Hrow' Hold), Hnone, Hrep. split_and!; [done| |done].
    unfold vget. cbn. by rewrite (kp_superseded _ _ Hold).
  - intros Hs. pose proof (valid_stripped _ Hs (pr_valid _ _ _ _ _ Hn)) as Hvalid. subst d'.
    rewrite (get_found _ _ _ _ _ (handoff_row_of n owner_id project) n Hvalid Hp); [|by apply (found_new d (handoff_row_of n owner_id project))|done].
    rewrite no_replacement; [done|]. cbn. rewrite map_app. intros [Hs1|Hs1%list_elem_of_singleton]%elem_of_app; [|by apply Hne].
    by apply (not_previous d id Hd Hfresh).
  - intros other project' H1 H2. apply get_same. intros id' project'' ->%validated_id. subst d'. split; [by apply found_other|].
    intros x Hx. apply row_found_in in Hx as (_ & Hx & _). unfold replacement_of, tbl_find. cbn. f_equal. apply find_app_other. cbn.
    apply String.eqb_neq. congruence.
  - intros again owner. destruct (supersede_handoff handoff_id again owner project_id d') as [x d''] eqn:Ea.
    revert Ea. unfold supersede_handoff. unfold mbind at 1, M_bind at 1, lift. rewrite Hid. unfold mbind, M_bind. cbv beta iota.
    assert (Hid' : validate_handoff_id (strip handoff_id) = Ok (strip handoff_id)) by (revert Hid; unfold validate_handoff_id; by rewrite strip_idem).
    rewrite (get_found _ _ _ _ _ _ _ Hid' Hp Hrow' Hold), Hrep. cbv beta iota. cbn [shown]. unfold vget at 1.
    rewrite dict_get_set_ne, dict_get_set_eq by done. cbn. by intros [= <- <-].
Qed.
End store.

(** ** A small store *)

Module StoreSamples.
(** The dates of the form [YYYY-MM-DDTHH:MM:SSZ], which pydantic writes as it reads them. *)
Definition utc_text (v : value) : result string :=
  match v with VStr s => if Nat.eqb (String.length s) 20 && String.eqb (sdrop 19 s) "Z" then Ok s else Raise OutsideModel | _ => Raise OutsideModel end.
Lemma utc_text_stable v t : utc_text v = Ok t → utc_text (VStr t) = Ok t.
Proof. unfold utc_text. destruct v; try done. destruct (_ && _) eqn:E; [|done]. intros [= <-]. by rewrite E. Qed.
#[local] Instance utc_datetime : JsonDatetime := { json_datetime := utc_text; json_datetime_stable := utc_text_stable }.
Definition claim (t : string) : value := VDict [("text", VStr t); ("citations", VList [VStr "m1#0"])].
Definition record (id : string) : dict :=
  [("handoff_id", VStr id); ("goal", claim "ship it"); ("status", VStr "blocked"); ("summary", VList [claim "done: tests"]);
   ("citations", VList [VDict [("memory_id", VStr "m1"); ("chunk_index", VInt 0); ("text", VStr "done: tests"); ("score", VInt 1)]]);
   ("created_at", VStr "2026-01-01T00:00:00Z"); ("updated_at", VStr "2026-01-02T00:00:00Z"); ("confidence", VStr "high");
   ("context_tokens_used", VInt 3); ("context_token_budget", VInt 512)].
Definition nothing : HandoffDb := mk_handoff_db [] [].
Notation created id := (create_handoff (record id) (Some "ann") "hub" None).
Notation superseded id by_id := (supersede_handoff id (record by_id) (Some "ann") "hub").
Definition one : HandoffDb := (created "h1" nothing).2.
Definition two : HandoffDb := (superseded "h1" "h2" one).2.

Ltac well_formed := repeat first [exact I | compute_done | split].
Lemma record_wf id : wf_value (VDict (record id)).
Proof. cbn. well_formed. Qed.
Lemma nothing_ok : handoffs_ok nothing.
Proof. split; constructor. Qed.
Lemma one_ok : handoffs_ok one.
Proof. apply create_keeps_ok; [apply record_wf|apply nothing_ok]. Qed.

Definition field (k : string) (r : result (option dict)) : option value :=
  match r with Ok (Some d) => dict_get k d | _ => None end.
Example replaced_is_shown : map (λ k, field k (get_handoff "h1" "hub" two).1) ["status"; "superseded_by_handoff_id"] =
  [Some (VStr "superseded"); Some (VStr "h2")].
Proof. vm_compute. reflexivity. Qed.
(** An id with blanks around it is accepted and cannot be read. *)
Lemma padded_id_unreadable : (∃ n, (created " h1 " nothing).1 = Ok n) ∧ (get_handoff " h1 " "hub" (created " h1 " nothing).2).1 = Ok None.
Proof. split; [eexists; vm_compute; reflexivity|vm_compute; reflexivity]. Qed.
(** A handoff created in the place of another leaves the other one as it was. *)
Lemma created_replacement_not_linked : let d := (create_handoff (record "h2") (Some "ann") "hub" (Some "h1") one).2 in
  field "supersedes_handoff_id" (get_handoff "h2" "hub" d).1 = Some (VStr "h1") ∧
  field "superseded_by_handoff_id" (get_handoff "h1" "hub" d).1 = Some VNone.
Proof. split; vm_compute; reflexivity. Qed.
(** A used id is a [ValueError] of one operation and escapes from the other. *)
Lemma used_id_escapes : (created "h1" one).1 = Raise (ValueError "handoff_id already exists") ∧
  (superseded "h1" "h1b" one).1 ≠ Raise (IntegrityError "UNIQUE constraint failed: handoffs.id") ∧
  (supersede_handoff "h1" (record "h2") (Some "ann") "hub" (created "h2" one).2).1 = Raise (IntegrityError "UNIQUE constraint failed: handoffs.id").
Proof. split_and!; vm_compute; (reflexivity || discriminate). Qed.

Lemma handoff_store_consistent_witness : rtc handoff_step (mk_handoff_db [] []) two ∧ length (handoffs two) = 2%nat ∧ handoffs_ok two.
Proof.
  assert (Hr : rtc handoff_step (mk_handoff_db [] []) two).
  { eapply rtc_l; [exact (step_create (record "h1") (Some "ann") "hub" None nothing (record_wf _))|].
    eapply rtc_l; [exact (step_supersede "h1" (record "h2") (Some "ann") "hub" one (record_wf _))|]. apply rtc_refl. }
  split; [exact Hr|]. split; [vm_compute; reflexivity|exact (handoff_store_consistent two Hr)].
Defined.
Lemma created_handoff_read_back_witness : ∃ n, (created "h1" nothing).1 = Ok n ∧ get_handoff "h1" "hub" one = (Ok (Some n), one).
Proof.
  destruct (created "h1" nothing) as [[n|e] d'] eqn:E; [|vm_compute in E; discriminate E]. exists n. split; [reflexivity|].
  assert (Ed : one = d') by (unfold one; rewrite E; reflexivity).
  assert (Eid : text_of "handoff_id" n = "h1") by (vm_compute in E; injection E as <- _; reflexivity).
  destruct (created_handoff_read_back _ _ _ _ _ _ _ nothing_ok (record_wf "h1") E) as [Hread _]. rewrite Eid in Hread. rewrite Ed.
  exact (proj2 (Hread eq_refl)).
Defined.
Lemma superseded_once_witness : ∃ n, (superseded "h1" "h2" one).1 = Ok (Some n) ∧ get_handoff "h2" "hub" two = (Ok (Some n), two).
Proof.
  destruct (superseded "h1" "h2" one) as [[[n|]|e] d'] eqn:E; [|vm_compute in E; discriminate E..]. exists n. split; [reflexivity|].
  assert (Ed : two = d') by (unfold two; rewrite E; reflexivity).
  assert (Eid : text_of "handoff_id" n = "h2") by (vm_compute in E; injection E as <- _; reflexivity).
  destruct (superseded_once _ _ _ _ _ _ _ one_ok (record_wf "h2") E) as (_ & _ & Hread & _). rewrite Eid in Hread. rewrite Ed.
  exact (Hread eq_refl).
Defined.
End StoreSamples.
