(* ===== verification/ImportBase.v ===== *)
(** * Importers: what they share ([memory/importers/])

    An importer turns the text of another tool's session into payloads for
    ingestion.  Here: the numbered lines of a text, JSON lines, schemas, texts
    and times of messages, and the payload that is built from them. *)
From Stdlib Require Import ZArith Lia Ascii SpecFloat.
From S2P Require Import Prelude PyStr Json Clock PyFloat ConvStore Scope FactValidation FactTimeline QueryPlan Normalize.
Local Open Scope Z_scope.

(** ** Python values *)

(** [v in texts], a set: an unhashable value is a [TypeError]. *)
Definition unhashable {A} : result A := Raise (TypeError "unhashable type").
Definition in_texts (v : value) (texts : list string) : result bool :=
  match v with VStr s => Ok (existsb (String.eqb s) texts) | VList _ | VDict _ => unhashable | _ => Ok false end.
(** [v in {bool(z), z}] *)
Definition in_number (v : value) (z : Z) : result bool :=
  match v with VList _ | VDict _ => unhashable | _ => Ok (int_in z [v]) end.
(** [d[k]] of a value that is expected to be a dict *)
Definition subscript (k : string) (v : value) : result value :=
  match v with
  | VDict d => from_option_err (KeyError k) (dict_get k d)
  | _ => Raise (TypeError "object is not subscriptable")
  end.
(** [v.get] of a value that is not a dict *)
Definition dict_or_raise (v : value) : result dict :=
  from_option_err (AttributeError "object has no attribute 'get'") (as_dict v).
Definition _nonempty_string (v : value) : option string :=
  match v with VStr s => if String.eqb (strip s) "" then None else Some (strip s) | _ => None end.
Definition _copy_nonempty (v : value) (target : dict) (key : string) : dict :=
  match _nonempty_string v with Some s => dict_set key (VStr s) target | None => target end.
(** the same where the target has no such key yet *)
Definition _copy_value (v : value) (target : dict) (key : string) : dict :=
  match _nonempty_string v with Some s => dict_setdefault key (VStr s) target | None => target end.
(** [provider/model] *)
Definition model_name (model provider : option string) : option string :=
  m ← model; Some (match provider with Some p => p +:+ "/" +:+ m | None => m end).

(** ** Texts of a bounded size *)

Definition _MAX_INPUT_BYTES : Z := 20000000.
Definition bounded (limit : Z) (message text : string) : result unit := guard_err (limit <? utf8_len text) (ValueError message).
(** [json.loads(text)] with its [JSONDecodeError] replaced *)
Definition loads_or (message text : string) : result value :=
  match json_loads text with Raise (ValueError _) => Raise (ValueError message) | other => other end.
(** The lines that are not blank, numbered from 1. *)
Definition numbered_lines (text : string) : list (Z * string) :=
  List.filter (λ l, negb (String.eqb (strip l.2) "")) (enumerate 1 (splitlines text)).
(** A line as an object: [who] is the name of the input in the messages. *)
Definition parse_line (who : string) (line : Z * string) : result (dict * Z) :=
  let place := who +:+ " line " +:+ str_of_Z line.1 in
  v ← loads_or (place +:+ " must be valid JSON") line.2;
  match v with VDict d => Ok (d, line.1) | _ => Raise (ValueError (place +:+ " must be an object")) end.
Definition _parse_records (who empty_message text : string) : result (list (dict * Z)) :=
  records ← map_result (parse_line who) (numbered_lines text);
  match records with [] => Raise (ValueError empty_message) | _ => Ok records end.

(** ** Schemas *)

(** The first issue that a validator finds, [None] for a valid value: the path to
    the value and the message.  The name is that of the schema and of its
    definition. *)
Class SchemaValidator := { schema_issue : string → value → option (list string * string) }.
Definition is_valid `{SchemaValidator} (schema : string) (v : value) : bool := negb (bool_decide (is_Some (schema_issue schema v))).
Definition _schema_error (place : string) (issue : list string * string) : exc :=
  let path := join "." issue.1 in
  ValueError (place +:+ " does not match the importer schema" +:+ (if String.eqb path "" then "" else " at " +:+ path)
              +:+ ": " +:+ issue.2).
Definition _validate_record `{SchemaValidator} (schema place : string) (record : value) : result unit :=
  match schema_issue schema record with Some issue => Raise (_schema_error place issue) | None => Ok tt end.

(** ** Texts and times of messages *)

Record imported := mk_imported { im_role : string; im_text : string }.
Definition message_value (m : imported) : value := VDict [("role", VStr (im_role m)); ("text", VStr (im_text m))].
Definition join_parts (parts : list string) : option string :=
  match parts with [] => None | _ => Some (join (newline +:+ newline) parts) end.
Definition nonblank_text (s : string) : option string := if String.eqb (strip s) "" then None else Some s.
(** The text of a block, if it is one: a block of text without a text is an error. *)
Definition text_blocks (is_text_block : dict → result bool) (message : string) (content : list value) : result (option string) :=
  parts ← map_result (λ block,
    match block with
    | VDict d =>
        counts ← is_text_block d;
        if negb counts then Ok None else
        match vget "text" d with VStr s => Ok (nonblank_text s) | _ => Raise (ValueError message) end
    | _ => Ok None
    end) content;
  Ok (join_parts (omap id parts)).
Definition _timestamp (message : string) (v : value) : result (option datetime) :=
  match v with
  | VNone => Ok None
  | VStr s =>
      if String.eqb (strip s) "" then Raise (ValueError message) else
      match fromisoformat (replace "Z" "+00:00" s) with
      | Ok d => Ok (Some d)
      | Raise (ValueError _) => Raise (ValueError message)
      | Raise e => Raise e
      end
  | _ => Raise (ValueError message)
  end.

(** [d.isoformat()] *)
Definition us_text (us : Z) : string := if us mod 1000000 =? 0 then "" else "." +:+ pad 6 (us mod 1000000).
Definition offset_text (offset : Z) : string :=
  let us := Z.abs offset in
  let seconds := us / 1000000 in
  (if offset <? 0 then "-" else "+") +:+ pad 2 (seconds / 3600) +:+ ":" +:+ pad 2 (seconds / 60 mod 60)
  +:+ (if us mod 60000000 =? 0 then "" else ":" +:+ pad 2 (seconds mod 60) +:+ us_text us).
Definition datetime_text (d : datetime) : string :=
  date_text (dt_wall d / 1000000) +:+ "T" +:+ clock_text (dt_wall d / 1000000) +:+ us_text (dt_wall d)
  +:+ match dt_offset d with Some o => offset_text o | None => "" end.

(** [datetime.fromtimestamp(x, UTC)]: [modf], microseconds rounded half to even. *)
Definition int_part (x : float) : option Z :=
  match x with
  | S754_zero _ => Some 0
  | S754_finite s m e =>
      let n := if 0 <=? e then Zpos m * 2 ^ e else Zpos m / 2 ^ (- e) in Some (if s then - n else n)
  | _ => None
  end.
Definition round_half_even (x : float) : Z :=
  match x with
  | S754_finite s m e =>
      let n := if 0 <=? e then Zpos m * 2 ^ e else
        let unit := 2 ^ (- e) in
        let '(q, r) := (Zpos m / unit, Zpos m mod unit) in
        if 2 * r <? unit then q else if unit <? 2 * r then q + 1 else if Z.even q then q else q + 1 in
      if s then - n else n
  | _ => 0
  end.
Definition fromtimestamp (message : string) (x : float) : result datetime :=
  match int_part x with
  | None => Raise (ValueError message)
  | Some n =>
      let us := n * 1000000 + round_half_even (fmul (fsub x (float_near n)) (float_near 1000000)) in
      if (min_utc <=? us) && (us <? max_utc) then Ok (mk_datetime us (Some 0)) else Raise (ValueError message)
  end.

(** ** The payload *)

(** [title] sets the keys of the metadata and of the payload. *)
Definition with_title (title : option string) (d : dict) : dict :=
  match title with Some t => dict_set "title" (VStr t) d | None => d end.
Definition with_timestamp (time : option datetime) (d : dict) : dict :=
  match time with Some t => dict_set "timestamp" (VStr (datetime_text t)) d | None => d end.
Definition payload_of (source : string) (messages : list imported) (metadata : dict) (title : option string) (time : option datetime) : dict :=
  with_timestamp time (with_title title
    [("source", VStr source); ("messages", VList (map message_value messages)); ("metadata", VDict metadata)]).
Definition importer_metadata (name platform ingestion_method : string) : dict :=
  [("importer", VStr name); ("platform", VStr platform); ("ingestion_method", VStr ingestion_method)].
(** [a or b] of optional texts *)
Definition or_source (source : option string) (dflt : string) : string := default dflt (nonempty source).
(** [session_time or (message_times[0] if message_times else None)] *)
Definition first_time (session_time : option datetime) (message_times : list datetime) : option datetime :=
  match session_time with Some t => Some t | None => head message_times end.

Example epoch_float : fromtimestamp "" (decimal 17000000001235 4) = Ok (mk_datetime 1700000000123500 (Some 0)).
Proof. vm_compute. reflexivity. Qed.
Example written : map datetime_text [mk_datetime 0 None; mk_datetime 1700000000123500 (Some (-19800000000))] =
  ["1970-01-01T00:00:00"; "2023-11-14T22:13:20.123500-05:30"].
Proof. vm_compute. reflexivity. Qed.
