(* ===== verification/ImportJsonl.v ===== *)
(** * Importers of JSON lines ([memory/importers/claude_code_session_jsonl.py],
    [codex_rollout_jsonl.py], [copilot_cli_events_jsonl.py],
    [deepseek_harness_session_jsonl.py]) *)
From Stdlib Require Import ZArith Lia Ascii.
From S2P Require Import Prelude PyStr Json Clock PyFloat ConvStore Scope FactValidation Normalize Pydantic ImportBase.
Local Open Scope Z_scope.

Definition optional_text_of (k : string) (d : dict) : option string := as_str (vget k d).

(** ** Claude Code *)

Section claude_code.
Context `{SchemaValidator}.
Definition claude_envelope_fields : list model_field :=
  [required "role" read_text; required "content" read_text_or_list; optional_text_field "model"].
Definition claude_record_fields : list model_field :=
  [required "type" read_text; optional_text_field "uuid"; optional_text_field "timestamp";
   required "message" (read_open_model claude_envelope_fields)].
Definition claude_envelope (parsed : dict) : dict := default [] (as_dict (vget "message" parsed)).
(** Other records are not messages. *)
Definition claude_parse_message (line_number : Z) (record : dict) : result (option dict) :=
  if negb (is_valid "claude-code-session/messageCandidate" (VDict record)) then Ok None else
  _ ← _validate_record "claude-code-session/importableMessage" ("Claude Code message on line " +:+ str_of_Z line_number) (VDict record);
  v ← read_open_model claude_record_fields (VDict record);
  let parsed := default [] (as_dict v) in
  if String.eqb (text_of "type" parsed) (text_of "role" (claude_envelope parsed)) then Ok (Some parsed) else validation_error.
Definition claude_message_text (content : value) : option string :=
  match content with
  | VStr s => nonblank_text s
  | VList blocks => join_parts (omap (λ b, match b with
      | VDict d => match vget "type" d, vget "text" d with VStr "text", VStr s => nonblank_text s | _, _ => None end
      | _ => None end) blocks)
  | _ => None
  end.
Definition claude_capture_provenance (record target : dict) : dict :=
  foldl (λ t m, _copy_value (vget m.1 record) t m.2) target
    [("sessionId", "source_session_id"); ("cwd", "directory"); ("gitBranch", "git_branch"); ("model", "model")].
Record claude_state := mk_claude {
  cs_messages : list imported; cs_times : list datetime; cs_seen : list string; cs_provenance : dict }.
Definition claude_step (st : claude_state) (line : Z * string) : result claude_state :=
  '(record, line_number) ← parse_line "Claude Code session" line;
  let provenance := claude_capture_provenance record (cs_provenance st) in
  parsed ← claude_parse_message line_number record;
  let skip (seen : list string) := Ok (mk_claude (cs_messages st) (cs_times st) seen provenance) in
  match parsed with
  | None => skip (cs_seen st)
  | Some parsed =>
      match claude_message_text (vget "content" (claude_envelope parsed)) with
      | None => skip (cs_seen st)
      | Some content =>
          let uuid := optional_text_of "uuid" parsed in
          if match uuid with Some u => existsb (String.eqb u) (cs_seen st) | None => false end then skip (cs_seen st) else
          timestamp ← _timestamp ("Claude Code session timestamp on line " +:+ str_of_Z line_number +:+ " is invalid") (vget "timestamp" parsed);
          let provenance := match optional_text_of "model" (claude_envelope parsed) with
            | Some m => dict_setdefault "model" (VStr m) provenance | None => provenance end in
          Ok (mk_claude (cs_messages st ++ [mk_imported (text_of "type" parsed) content])
                (match timestamp with Some t => cs_times st ++ [t] | None => cs_times st end)
                (match uuid with Some u => cs_seen st ++ [u] | None => cs_seen st end) provenance)
      end
  end.
Definition claude_code_import (text : string) (source title : option string) : result (list dict) :=
  _ ← bounded _MAX_INPUT_BYTES "Claude Code session input exceeds 20000000 bytes" text;
  st ← fold_result claude_step (mk_claude [] [] [] []) (numbered_lines text);
  match cs_messages st with
  | [] => Raise (ValueError "Claude Code session contains no conversational text")
  | messages =>
      let metadata := dict_update (importer_metadata "claude-code-session-jsonl" "claude-code" "jsonl-import") (cs_provenance st) in
      Ok [payload_of (or_source source "claude-code") messages (with_title (nonempty title) metadata) (nonempty title) (head (cs_times st))]
  end.
End claude_code.

(** ** Codex *)

Definition codex_text_type (role : string) : string := if String.eqb role "user" then "input_text" else "output_text".
Definition codex_message_text (role : string) (line_number : Z) (content : list value) : result (option string) :=
  text_blocks (λ d, in_texts (vget "type" d) [codex_text_type role])
    ("Codex rollout message on line " +:+ str_of_Z line_number +:+ " has a non-text text block") content.
Definition _turn_id (payload : dict) : option string :=
  d ← as_dict (vget "internal_chat_message_metadata_passthrough" payload); _nonempty_string (vget "turn_id" d).
(** A message with its time and, for one of the user, its turn. *)
Record codex_candidate := mk_candidate { cc_message : imported; cc_time : option datetime; cc_turn : option string }.
Definition codex_candidate_of (record payload : dict) (line_number : Z) : result (option codex_candidate) :=
  known ← (if is_text "message" (vget "type" payload) then in_texts (vget "role" payload) ["user"; "assistant"] else Ok false);
  if negb known then Ok None else
  let role := text_of "role" payload in
  match vget "content" payload with
  | VList content =>
      message_text ← codex_message_text role line_number content;
      match message_text with
      | None => Ok None
      | Some t =>
          timestamp ← _timestamp ("Codex rollout timestamp on line " +:+ str_of_Z line_number +:+ " is invalid") (vget "timestamp" record);
          Ok (Some (mk_candidate (mk_imported role t) timestamp (if String.eqb role "user" then _turn_id payload else None)))
      end
  | _ => Raise (ValueError ("Codex rollout message on line " +:+ str_of_Z line_number +:+ " has invalid content"))
  end.
(** The first session metadata, and the candidates so far. *)
Definition codex_step (st : option dict * list codex_candidate) (line : Z * string) : result (option dict * list codex_candidate) :=
  let '(session_meta, candidates) := st in
  '(record, line_number) ← parse_line "Codex rollout" line;
  let payload := vget "payload" record in
  if is_text "session_meta" (vget "type" record) && negb (bool_decide (is_Some session_meta)) then
    match payload with
    | VDict d => Ok (Some d, candidates)
    | _ => Raise (ValueError ("Codex rollout line " +:+ str_of_Z line_number +:+ " has invalid session metadata"))
    end
  else if negb (is_text "response_item" (vget "type" record)) then Ok st else
  match payload with
  | VDict d => c ← codex_candidate_of record d line_number;
               Ok (session_meta, match c with Some c => candidates ++ [c] | None => candidates end)
  | _ => Ok st
  end.
Definition last_user_by_turn (candidates : list codex_candidate) : list (string * Z) :=
  foldl (λ d c, match cc_turn c.2 with Some t => dict_set t c.1 d | None => d end) [] (enumerate 0 candidates).
(** A turn that was edited has its last message. *)
Definition retained (candidates : list codex_candidate) : list codex_candidate :=
  map snd (List.filter (λ c, match cc_turn c.2 with
    | Some t => bool_decide (dict_get t (last_user_by_turn candidates) = Some c.1) | None => true end) (enumerate 0 candidates)).
Definition codex_metadata (session_meta : option dict) : dict :=
  let base := importer_metadata "codex-rollout-jsonl" "codex" "jsonl-import" in
  match session_meta with
  | None => base
  | Some d =>
      let copied := foldl (λ t m, _copy_nonempty (vget m.1 d) t m.2) base
        [("id", "source_session_id"); ("cwd", "directory"); ("source", "session_source"); ("originator", "originator");
         ("cli_version", "cli_version"); ("model_provider", "model_provider")] in
      match vget "git" d with
      | VDict git => _copy_nonempty (vget "commit_hash" git) (_copy_nonempty (vget "branch" git) copied "git_branch") "git_commit"
      | _ => copied
      end
  end.
Definition codex_rollout_import (text : string) (source title : option string) : result (list dict) :=
  _ ← bounded _MAX_INPUT_BYTES "Codex rollout input exceeds 20000000 bytes" text;
  '(session_meta, candidates) ← fold_result codex_step (None, []) (numbered_lines text);
  let kept := retained candidates in
  let messages := map cc_message kept in
  if negb (existsb (λ m, String.eqb (im_role m) "user") messages && existsb (λ m, String.eqb (im_role m) "assistant") messages)
  then Raise (ValueError "Codex rollout must contain user and assistant conversational text") else
  session_time ← match session_meta with
    | Some d => _timestamp "Codex rollout session timestamp is invalid" (vget "timestamp" d) | None => Ok None end;
  Ok [payload_of (or_source source "codex") messages (with_title (nonempty title) (codex_metadata session_meta)) (nonempty title)
        (first_time session_time (omap cc_time kept))].

(** ** Copilot CLI *)

Section copilot_cli.
Context `{SchemaValidator}.
Definition copilot_schema (definition : string) : string := "copilot-cli-events/" +:+ definition.
Definition copilot_data_fields : list model_field :=
  [required "content" read_text; optional_text_field "messageId"; optional_text_field "interactionId"; optional_text_field "model";
   optional_text_field "source"].
Definition copilot_event_fields : list model_field :=
  [required "type" read_text; required "data" (read_open_model copilot_data_fields); optional_text_field "id";
   optional_text_field "timestamp"; optional_text_field "agentId"].
Definition event_data (event : dict) : dict := default [] (as_dict (vget "data" event)).
(** [_validate_record] of this importer and of the next *)
Definition copilot_validate (definition record_name : string) (line_number : Z) (record : dict) : result unit :=
  match schema_issue (copilot_schema definition) (VDict record) with
  | Some issue => Raise (_schema_error ("Copilot CLI " +:+ record_name +:+ " on line " +:+ str_of_Z line_number) issue)
  | None => Ok tt
  end.
Definition copilot_parse_message (record : dict) (line_number : Z) : result (option dict) :=
  if negb (is_valid (copilot_schema "messageCandidate") (VDict record)) then Ok None else
  _ ← copilot_validate "importableMessage" "message" line_number record;
  match read_open_model copilot_event_fields (VDict record) with
  | Ok v => Ok (Some (default [] (as_dict v)))
  | Raise (ValueError _) => Raise (ValueError ("Copilot CLI message on line " +:+ str_of_Z line_number +:+ " is invalid"))
  | Raise e => Raise e
  end.
Definition _is_internal_message (event : dict) : bool :=
  bool_decide (is_Some (_nonempty_string (vget "agentId" event)))
  || String.eqb (text_of "type" event) "user.message"
     && match _nonempty_string (vget "source" (event_data event)) with Some s => negb (String.eqb (lower s) "user") | None => false end.
Definition _message_identity (event : dict) : option (string * string) :=
  match optional_text_of "messageId" (event_data event), optional_text_of "id" event, optional_text_of "interactionId" (event_data event) with
  | Some m, _, _ => Some ("messageId", m)
  | None, Some i, _ => Some ("id", i)
  | None, None, Some i => Some ("interactionId:" +:+ text_of "type" event, i)
  | None, None, None => None
  end.
Definition _capture_session_metadata (record target : dict) : result (option datetime * dict) :=
  data ← item "data" record;
  data ← dict_or_raise data;
  let copy (d : dict) (keys : list (string * string)) (t : dict) := foldl (λ t m, _copy_value (vget m.1 d) t m.2) t keys in
  let target := copy data [("sessionId", "source_session_id"); ("selectedModel", "model"); ("copilotVersion", "cli_version");
                           ("title", "_title")] target in
  let target := match vget "context" data with
    | VDict c => copy c [("cwd", "directory"); ("gitRoot", "git_root"); ("repository", "git_repository"); ("branch", "git_branch")] target
    | _ => target end in
  let start_time := if truthy (vget "startTime" data) then vget "startTime" data else vget "timestamp" record in
  t ← _timestamp "Copilot CLI session session start time is invalid" start_time;
  Ok (t, target).
Record copilot_state := mk_copilot {
  ps_messages : list imported; ps_times : list datetime; ps_seen : list (string * string); ps_provenance : dict;
  ps_title : option string; ps_session_time : option datetime }.
Definition copilot_message (st : copilot_state) (event : dict) (line_number : Z) : result copilot_state :=
  let content := text_of "content" (event_data event) in
  let identity := _message_identity event in
  if _is_internal_message event || String.eqb (strip content) "" || match identity with Some i => bool_decide (i ∈ ps_seen st) | None => false end
  then Ok st else
  let role := if String.eqb (text_of "type" event) "user.message" then "user" else "assistant" in
  timestamp ← _timestamp ("Copilot CLI session timestamp on line " +:+ str_of_Z line_number +:+ " is invalid") (vget "timestamp" event);
  Ok (mk_copilot (ps_messages st ++ [mk_imported role content])
        (match timestamp with Some t => ps_times st ++ [t] | None => ps_times st end)
        (match identity with Some i => ps_seen st ++ [i] | None => ps_seen st end)
        (if String.eqb role "assistant" then _copy_value (vget "model" (event_data event)) (ps_provenance st) "model" else ps_provenance st)
        (ps_title st) (ps_session_time st)).
Definition copilot_step (st : copilot_state) (numbered : dict * Z) : result copilot_state :=
  let '(record, line_number) := numbered in
  let st_with (provenance : dict) (title : option string) (time : option datetime) :=
    mk_copilot (ps_messages st) (ps_times st) (ps_seen st) provenance title time in
  if is_valid (copilot_schema "sessionCandidate") (VDict record) then
    _ ← copilot_validate "sessionMetadata" "session event" line_number record;
    '(captured, provenance) ← _capture_session_metadata record (ps_provenance st);
    Ok (st_with provenance (ps_title st) (match ps_session_time st with Some t => Some t | None => captured end))
  else if is_valid (copilot_schema "titleCandidate") (VDict record) then
    _ ← copilot_validate "titleEvent" "title event" line_number record;
    data ← item "data" record;
    data ← dict_or_raise data;
    Ok (st_with (ps_provenance st) (_nonempty_string (vget "title" data)) (ps_session_time st))
  else
    event ← copilot_parse_message record line_number;
    match event with Some e => copilot_message st e line_number | None => Ok st end.
(** [title or event_title or provenance.pop("_title", None)]: the key is taken out
    of the provenance only when the others are missing. *)
Definition copilot_title (title event_title : option string) (provenance : dict) : option string * dict :=
  match nonempty title, nonempty event_title with
  | Some t, _ => (Some t, provenance)
  | None, Some t => (Some t, provenance)
  | None, None => (optional_text_of "_title" provenance, dict_pop "_title" provenance)
  end.
Definition copilot_cli_import (text : string) (source title : option string) : result (list dict) :=
  _ ← bounded _MAX_INPUT_BYTES "Copilot CLI session input exceeds 20000000 bytes" text;
  records ← _parse_records "Copilot CLI session" "Copilot CLI session is empty" text;
  st ← fold_result copilot_step (mk_copilot [] [] [] [] None None) records;
  match ps_messages st with
  | [] => Raise (ValueError "Copilot CLI session contains no conversational text")
  | messages =>
      let '(resolved_title, provenance) := copilot_title title (ps_title st) (ps_provenance st) in
      let metadata := dict_update (importer_metadata "copilot-cli-events-jsonl" "copilot-cli" "jsonl-import") provenance in
      Ok [payload_of (or_source source "copilot-cli") messages (with_title resolved_title metadata) resolved_title (first_time (ps_session_time st) (ps_times st))]
  end.
End copilot_cli.

(** ** DeepSeek Harness *)

Section harness.
Context `{SchemaValidator}.
Definition harness_schema (definition : string) : string := "deepseek-harness-session/" +:+ definition.
Definition _INTERNAL_USER_SOURCE_KINDS : list string :=
  ["compact-checkpoint"; "plugin"; "runtime-context"; "subagent-settled"; "system-prompt"].
Definition harness_header_fields : list model_field :=
  [required "type" read_text; required "version" (read_any_int); required "id" read_text; required "createdAt" read_any_int;
   optional_text_field "cwd"; optional_text_field "parentSession"; optional_text_field "origin";
   mk_field "delegationDepth" (Some VNone) (optional read_any_int); optional_text_field "agentPreset"].
Definition harness_validate (definition record_name : string) (line_number : Z) (record : dict) : result unit :=
  match schema_issue (harness_schema definition) (VDict record) with
  | Some issue => Raise (_schema_error ("DeepSeek Harness " +:+ record_name +:+ " on line " +:+ str_of_Z line_number) issue)
  | None => Ok tt
  end.
(** [isinstance(version, int) and version not in {0, 1, 2, 3, 4}] *)
Definition unsupported_version (v : value) : bool :=
  match v with VInt z => (z <? 0) || (4 <? z) | _ => false end.
Definition harness_parse_header (record : dict) (line_number : Z) : result dict :=
  if negb (is_text "session" (vget "type" record))
  then Raise (ValueError ("DeepSeek Harness session line " +:+ str_of_Z line_number +:+ " must be the session header")) else
  if unsupported_version (vget "version" record)
  then Raise (ValueError ("DeepSeek Harness session version " +:+ py_str (vget "version" record) +:+ " is not supported")) else
  _ ← harness_validate "sessionHeader" "header" line_number record;
  match read_open_model harness_header_fields (VDict record) with
  | Ok v => Ok (default [] (as_dict v))
  | Raise (ValueError _) => Raise (ValueError "DeepSeek Harness session header is invalid")
  | Raise e => Raise e
  end.
(** The mode of the first event, and the next number of a coordinated one. *)
Definition order_step (st : option bool * Z) (numbered : dict * Z) : result (option bool * Z) :=
  let '(mode, expected_seq) := st in
  let '(record, line_number) := numbered in
  let place := "DeepSeek Harness session line " +:+ str_of_Z line_number in
  _ ← harness_validate "eventBase" "event" line_number record;
  let has_coordinates := dict_has "seq" record in
  if match mode with Some m => negb (Bool.eqb m has_coordinates) | None => false end
  then Raise (ValueError (place +:+ " mixes coordinated and physical-order events")) else
  let mode := Some (default has_coordinates mode) in
  if negb has_coordinates then Ok (mode, expected_seq) else
  if int_in expected_seq [vget "seq" record] then Ok (mode, expected_seq + 1) else
  Raise (ValueError (place +:+ " has non-monotonic sequence; expected " +:+ str_of_Z expected_seq +:+ ", got " +:+ py_str (vget "seq" record))).
Definition _validate_event_order (events : list (dict * Z)) : result unit :=
  _ ← fold_result order_step (None, 0) events; Ok tt.
(** Role, content, id and kind of source of a message. *)
Record harness_message := mk_harness { hm_role : string; hm_content : value; hm_id : option string; hm_source_kind : option string }.
Definition harness_parse_message (record : dict) (line_number : Z) : result (option harness_message) :=
  if negb (is_valid (harness_schema "messageCandidate") (VDict record)) then Ok None else
  _ ← harness_validate "importableMessage" "message" line_number record;
  data ← item "data" record;
  data ← dict_or_raise data;
  type ← item "type" record;
  let envelope := default data (as_dict (vget "message" data)) in
  let role := if is_text "user/message" type then "user" else "assistant" in
  if negb (is_none (vget "role" envelope)) && negb (is_text role (vget "role" envelope))
  then Raise (ValueError ("DeepSeek Harness message on line " +:+ str_of_Z line_number +:+ " has mismatched role")) else
  let message_id := match _nonempty_string (vget "id" envelope) with Some i => Some i | None => _nonempty_string (vget "id" record) end in
  let source_kind := s ← as_dict (vget "source" envelope); _nonempty_string (vget "kind" s) in
  content ← item "content" envelope;
  Ok (Some (mk_harness role content message_id source_kind)).
(** A list, or the text itself; the schema has refused everything else. *)
Definition harness_message_text (content : value) (line_number : Z) : result (option string) :=
  match content with
  | VStr s => Ok (nonblank_text s)
  | VList blocks => text_blocks (λ d, Ok (is_text "text" (vget "type" d)))
      ("DeepSeek Harness message on line " +:+ str_of_Z line_number +:+ " has a non-text text block") blocks
  | VDict d => Ok None
  | _ => Raise (TypeError "object is not iterable")
  end.
Definition _capture_model (record : dict) : result (option string) :=
  match vget "data" record with
  | VDict data =>
      request ← in_texts (vget "type" record) ["request/context"; "request/header"];
      let candidate : dict := default data (match vget "header" data with VDict h => as_dict (vget "config" h) | _ => None end) in
      let named (d : dict) := model_name (_nonempty_string (vget "model" d)) (_nonempty_string (vget "provider" d)) in
      match (if negb request then None else named candidate) with
      | Some m => Ok (Some m)
      | None => Ok (if is_text "assistant/message" (vget "type" record)
                    then match vget "message" data with VDict m => match vget "source" m with VDict s => named s | _ => None end | _ => None end else None)
      end
  | _ => Ok None
  end.
Record harness_state := mk_harness_state {
  hs_messages : list imported; hs_seen : list string; hs_title : option string; hs_model : option string }.
Definition harness_step (st : harness_state) (numbered : dict * Z) : result harness_state :=
  let '(record, line_number) := numbered in
  if is_text "session" (vget "type" record)
  then Raise (ValueError ("DeepSeek Harness session line " +:+ str_of_Z line_number +:+ " contains a duplicate header")) else
  if is_text "session/title" (vget "type" record) then
    _ ← harness_validate "titleEvent" "title event" line_number record;
    data ← item "data" record;
    data ← dict_or_raise data;
    Ok (mk_harness_state (hs_messages st) (hs_seen st) (_nonempty_string (vget "title" data)) (hs_model st))
  else
    model ← match nonempty (hs_model st) with Some m => Ok (Some m) | None => _capture_model record end;
    let skip := Ok (mk_harness_state (hs_messages st) (hs_seen st) (hs_title st) model) in
    parsed ← harness_parse_message record line_number;
    match parsed with
    | None => skip
    | Some m =>
        if String.eqb (hm_role m) "user" && match hm_source_kind m with Some k => existsb (String.eqb k) _INTERNAL_USER_SOURCE_KINDS | None => false end
        then skip else
        message_text ← harness_message_text (hm_content m) line_number;
        match message_text with
        | None => skip
        | Some t =>
            if match hm_id m with Some i => existsb (String.eqb i) (hs_seen st) | None => false end then skip else
            Ok (mk_harness_state (hs_messages st ++ [mk_imported (hm_role m) t])
                  (match hm_id m with Some i => hs_seen st ++ [i] | None => hs_seen st end) (hs_title st) model)
        end
    end.
Definition harness_metadata (header : dict) (model : option string) : dict :=
  let base := importer_metadata "deepseek-harness-session-jsonl" "deepseek-harness" "jsonl-import"
    ++ [("source_session_id", vget "id" header); ("session_format_version", vget "version" header);
        ("session_relationship", VStr (if is_none (vget "parentSession" header) then "root" else "descendant"))] in
  let copied := foldl (λ t m, _copy_nonempty (vget m.1 header) t m.2) base
    [("cwd", "directory"); ("parentSession", "parent_session_id"); ("origin", "session_origin"); ("agentPreset", "agent_preset")] in
  let with_depth := if is_none (vget "delegationDepth" header) then copied else dict_set "delegation_depth" (vget "delegationDepth" header) copied in
  match model with Some m => dict_set "model" (VStr m) with_depth | None => with_depth end.
(** [datetime.fromtimestamp(value / 1000, tz=timezone.utc)] *)
Definition _millisecond_timestamp (message : string) (v : value) : result datetime :=
  match v with
  | VInt z => match float_of_int z with Ok x => fromtimestamp message (fdiv x (float_near 1000)) | Raise _ => Raise (ValueError message) end
  | _ => Raise OutsideModel
  end.
Definition deepseek_harness_import (text : string) (source title : option string) : result (list dict) :=
  _ ← bounded _MAX_INPUT_BYTES "DeepSeek Harness session input exceeds 20000000 bytes" text;
  records ← _parse_records "DeepSeek Harness session" "DeepSeek Harness session is empty" text;
  match records with
  | [] => Raise OutsideModel
  | (first, first_line) :: events =>
      header ← harness_parse_header first first_line;
      _ ← _validate_event_order events;
      st ← fold_result harness_step (mk_harness_state [] [] None None) events;
      match hs_messages st with
      | [] => Raise (ValueError "DeepSeek Harness session contains no conversational text")
      | messages =>
          time ← _millisecond_timestamp "DeepSeek Harness session createdAt is invalid" (vget "createdAt" header);
          let resolved := match nonempty title with Some t => Some t | None => hs_title st end in
          Ok [with_title resolved (payload_of (or_source source "deepseek-harness") messages
                (with_title resolved (harness_metadata header (hs_model st))) None (Some time))]
      end
  end.
End harness.
