(* ===== verification/ImportPi.v ===== *)
(** * Session trees ([memory/importers/pi_session_jsonl.py])

    The entries of a session form a tree by their parents; the conversation is
    the path from a root to the last entry. *)
From Stdlib Require Import ZArith Lia Ascii.
From S2P Require Import Prelude PyStr Json Clock ConvStore Scope FactValidation Normalize Pydantic ImportBase ImportJsonl.
Local Open Scope Z_scope.

Definition _VARIANTS : list string := ["pi"; "oh-my-pi"; "openclaw"].
Definition _OMP_HEADER_FIELDS : list string := ["additionalDirectories"; "providerPromptCacheKey"; "titleSource"].
Definition _OMP_ENTRY_TYPES : list string :=
  ["credential_pin"; "mode_change"; "model_usage"; "reset_boundary"; "service_tier_change"; "session_init"; "title_change"; "ttsr_injection"].
(** An entry with its line. *)
Notation numbered := (dict * Z)%type.

(** ** The tree *)

Definition parent_of (record : dict) : option string := as_str (vget "parentId" record).
Definition cycle_error : exc := ValueError "Pi-family session entry graph contains a cycle".
(** The ids from [current] up to one that is known to have a path, after those of
    [path]; a path has no more ids than there are entries. *)
Fixpoint walk (entry_by_id : list (string * numbered)) (complete : list string) (fuel : nat) (current : option string) (path : list string)
    : result (list string) :=
  match current with
  | None => Ok path
  | Some id =>
      if existsb (String.eqb id) complete then Ok path else
      if existsb (String.eqb id) path then Raise cycle_error else
      match fuel, dict_get id entry_by_id with
      | S n, Some (record, _) => walk entry_by_id complete n (parent_of record) (path ++ [id])
      | _, None => Raise (KeyError id)
      | O, _ => Raise OutsideModel
      end
  end.
Definition walk_from (entry_by_id : list (string * numbered)) (complete : list string) (id : string) : result (list string) :=
  path ← walk entry_by_id complete (length entry_by_id) (Some id) [];
  Ok (complete ++ path).
Definition missing_parent (entry_by_id : list (string * numbered)) (entry : string * numbered) : result unit :=
  match parent_of entry.2.1 with
  | Some parent_id => guard_err (negb (dict_has parent_id entry_by_id))
      (ValueError ("Pi-family entry " +:+ repr_str entry.1 +:+ " references missing parent " +:+ repr_str parent_id))
  | None => Ok tt
  end.
(** The path up from an entry, the entry last; a path passes no entry twice. *)
Fixpoint path_up (entry_by_id : list (string * numbered)) (fuel : nat) (current_id : string) : result (list numbered) :=
  match fuel, dict_get current_id entry_by_id with
  | S n, Some entry =>
      match parent_of entry.1 with
      | None => Ok [entry]
      | Some parent_id => path ← path_up entry_by_id n parent_id; Ok (path ++ [entry])
      end
  | _, None => Raise (KeyError current_id)
  | O, _ => Raise OutsideModel
  end.
Definition _active_path (entries : list numbered) (entry_by_id : list (string * numbered)) : result (list numbered) :=
  match last entries with
  | None => Raise (ValueError "Pi-family session contains no entries")
  | Some e => id ← item "id" e.1; path_up entry_by_id (length entry_by_id) (py_str id)
  end.

Section pi.
Context `{SchemaValidator}.
Definition pi_schema (definition : string) : string := "pi-session/" +:+ definition.
Definition pi_validate (definition place : string) (record : dict) : result unit :=
  match schema_issue (pi_schema definition) (VDict record) with
  | Some issue => Raise (_schema_error ("Pi-family " +:+ place) issue)
  | None => Ok tt
  end.
(** [model_validate], with its [ValidationError] replaced *)
Definition pi_model (fields : list model_field) (message : string) (record : dict) : result dict :=
  match read_open_model fields (VDict record) with
  | Ok v => Ok (default [] (as_dict v))
  | Raise (ValueError _) => Raise (ValueError message)
  | Raise e => Raise e
  end.
Definition title_record_fields : list model_field := [required "type" read_text; required "title" read_text].
Definition pi_header_fields : list model_field :=
  [required "type" read_text; required "version" read_any_int; required "id" read_text; required "timestamp" read_text;
   required "cwd" read_text; optional_text_field "title"].
Definition entry_fields : list model_field :=
  [required "type" read_text; required "id" read_text; required "parentId" (optional read_text); required "timestamp" read_text].
Definition pi_envelope_fields : list model_field :=
  [required "role" read_text; required "content" read_text_or_list; optional_text_field "provider"; optional_text_field "model"].
Definition pi_message_fields : list model_field := entry_fields ++ [required "message" (read_open_model pi_envelope_fields)].

(** The header, the entries behind it and the title of a first title record. *)
Definition _split_header (records : list numbered) : result (dict * list numbered * option string) :=
  let header_of (title : option string) (records : list numbered) := match records with
    | [] => Raise (ValueError "Pi-family session has no session header")
    | (record, line) :: rest =>
        if is_text "session" (vget "type" record) then Ok (record, rest, title)
        else Raise (ValueError ("Pi-family session line " +:+ str_of_Z line +:+ " must be the session header"))
    end in
  match records with
  | [] => Raise (IndexError "list index out of range")
  | (record, line) :: rest =>
      if is_text "title" (vget "type" record) then
        _ ← pi_validate "titleRecord" ("title record on line " +:+ str_of_Z line) record;
        parsed ← pi_model title_record_fields ("Pi-family title record on line " +:+ str_of_Z line +:+ " is invalid") record;
        header_of (optional_text_of "title" parsed) rest
      else header_of None records
  end.
Definition _validate_header (header : dict) : result dict :=
  if negb (int_in 3 [vget "version" header]) then Raise (ValueError "Pi-family session header must use version 3") else
  _ ← pi_validate "sessionHeader" "session header" header;
  pi_model pi_header_fields "Pi-family session header is invalid" header.
Definition add_entry (entry_by_id : list (string * numbered)) (entry : numbered) : result (list (string * numbered)) :=
  let '(record, line) := entry in
  _ ← pi_validate "entryBase" ("entry on line " +:+ str_of_Z line) record;
  parsed ← pi_model entry_fields ("Pi-family entry on line " +:+ str_of_Z line +:+ " is invalid") record;
  let entry_id := text_of "id" parsed in
  if dict_has entry_id entry_by_id then Raise (ValueError ("Pi-family entry id " +:+ repr_str entry_id +:+ " is duplicated"))
  else Ok (dict_set entry_id entry entry_by_id).
Definition _validate_graph (entries : list numbered) : result (list (string * numbered)) :=
  entry_by_id ← fold_result add_entry [] entries;
  _ ← map_result (missing_parent entry_by_id) entry_by_id;
  _ ← fold_result (walk_from entry_by_id) [] (dict_keys entry_by_id);
  Ok entry_by_id.

(** ** Messages *)

Definition pi_parse_message (record : dict) (line_number : Z) : result (option dict) :=
  if negb (is_valid (pi_schema "messageCandidate") (VDict record)) then Ok None else
  _ ← pi_validate "importableMessage" ("message on line " +:+ str_of_Z line_number) record;
  parsed ← pi_model pi_message_fields ("Pi-family message on line " +:+ str_of_Z line_number +:+ " is invalid") record;
  Ok (Some parsed).
Definition pi_envelope (parsed : dict) : dict := default [] (as_dict (vget "message" parsed)).
Definition pi_message_text (content : value) (line_number : Z) : result (option string) :=
  let place := "Pi-family message on line " +:+ str_of_Z line_number in
  match content with
  | VStr s => Ok (nonblank_text s)
  | VList blocks => text_blocks (λ d, Ok (is_text "text" (vget "type" d))) (place +:+ " has a non-text text block") blocks
  | _ => Raise (ValueError (place +:+ " has invalid content"))
  end.
Record pi_state := mk_pi { pi_messages : list imported; pi_times : list datetime; pi_found_model : option string }.
Definition pi_step (st : pi_state) (entry : numbered) : result pi_state :=
  let '(record, line_number) := entry in
  parsed ← pi_parse_message record line_number;
  match parsed with
  | None => Ok st
  | Some parsed =>
      let envelope := pi_envelope parsed in
      let role := text_of "role" envelope in
      if negb (existsb (String.eqb role) ["user"; "assistant"]) then Ok st else
      message_text ← pi_message_text (vget "content" envelope) line_number;
      match message_text with
      | None => Ok st
      | Some t =>
          timestamp ← _timestamp ("Pi-family session timestamp on line " +:+ str_of_Z line_number +:+ " is invalid") (vget "timestamp" parsed);
          Ok (mk_pi (pi_messages st ++ [mk_imported role t])
                (match timestamp with Some t => pi_times st ++ [t] | None => pi_times st end)
                (match pi_found_model st with
                 | Some m => Some m
                 | None => if String.eqb role "assistant"
                           then model_name (_nonempty_string (vget "model" envelope)) (_nonempty_string (vget "provider" envelope)) else None
                 end))
      end
  end.
Definition has_openclaw (v : value) : bool :=
  match _nonempty_string v with Some s => contains "openclaw" (lower s) | None => false end.
Definition _looks_like_openclaw (record : dict) : bool :=
  has_openclaw (vget "customType" record)
  || match vget "message" record with
     | VDict m => existsb (λ field, has_openclaw (vget field m)) ["provider"; "source"; "client"]
     | _ => false
     end.
Definition _detect_variant (header : dict) (entries : list numbered) (source : option string) : string :=
  let detected :=
    (if existsb (λ e, _looks_like_openclaw e.1) entries then "openclaw"
     else if existsb (λ k, dict_has k header) _OMP_HEADER_FIELDS
             || existsb (λ e, existsb (λ t, is_text t (vget "type" e.1)) _OMP_ENTRY_TYPES) entries then "oh-my-pi" else "pi") in
  match source with
  | Some s => if existsb (String.eqb s) _VARIANTS then s else detected
  | None => detected
  end.
Definition _copy_git_metadata (header target : dict) : dict :=
  match vget "git" header with
  | VDict git => foldl (λ t m, _copy_value (vget m.1 git) t m.2) target
      [("branch", "git_branch"); ("commit", "git_commit"); ("commitHash", "git_commit")]
  | _ => target
  end.
Definition pi_metadata (header : dict) (variant : string) (model : option string) : dict :=
  let base := [("importer", VStr "pi-session-jsonl"); ("platform", VStr variant); ("detected_variant", VStr variant);
               ("ingestion_method", VStr "jsonl-import")] in
  let base := _copy_value (vget "cwd" header) (_copy_value (vget "id" header) base "source_session_id") "directory" in
  let base := _copy_git_metadata header base in
  match model with Some m => dict_set "model" (VStr m) base | None => base end.
(** [title or header_title or physical_title] *)
Definition pi_title (title header_title physical_title : option string) : option string :=
  match nonempty title, nonempty header_title with Some t, _ => Some t | None, Some t => Some t | None, None => physical_title end.
Definition pi_session_import (text : string) (source title : option string) : result (list dict) :=
  _ ← bounded _MAX_INPUT_BYTES "Pi-family session input exceeds 20000000 bytes" text;
  records ← _parse_records "Pi-family session" "Pi-family session is empty" text;
  '(header, entries, physical_title) ← _split_header records;
  parsed_header ← _validate_header header;
  entry_by_id ← _validate_graph entries;
  active_path ← _active_path entries entry_by_id;
  st ← fold_result pi_step (mk_pi [] [] None) active_path;
  match pi_messages st with
  | [] => Raise (ValueError "Pi-family session contains no conversational text")
  | messages =>
      let variant := _detect_variant header entries source in
      session_time ← _timestamp "Pi-family session session timestamp is invalid" (vget "timestamp" parsed_header);
      let resolved_title := pi_title title (optional_text_of "title" parsed_header) physical_title in
      Ok [payload_of (or_source source variant) messages (with_title resolved_title (pi_metadata header variant (pi_found_model st)))
            resolved_title (first_time session_time (pi_times st))]
  end.
End pi.
