(* ===== verification/ImportPiFacts.v ===== *)
(** * Session trees, proved

    A graph that the importer accepts is a forest: every entry has one path up to
    a root, no path passes an entry twice, and the bounds of the two walks are
    enough, so that the active path is always found. *)
From Stdlib Require Import ZArith Lia Ascii.
From S2P Require Import Prelude PyStr Json Clock ConvStore Scope FactValidation Normalize Pydantic ImportBase ImportJsonl ImportPi.
Local Open Scope Z_scope.

Section forest.
Context (t : list (string * numbered)).

(** The entries from a root down to the entry with this id. *)
Inductive rooted : string → list (string * numbered) → Prop :=
| rooted_root id e : dict_get id t = Some e → parent_of e.1 = None → rooted id [(id, e)]
| rooted_child id e parent path : dict_get id t = Some e → parent_of e.1 = Some parent → rooted parent path → rooted id (path ++ [(id, e)]).
Definition has_root (id : string) : Prop := ∃ path, rooted id path.

Lemma rooted_unique id path : rooted id path → ∀ path', rooted id path' → path = path'.
Proof.
  induction 1 as [id e Hg Hp|id e parent path Hg Hp _ IH]; intros path' Hr; inversion Hr; simplify_eq; [done|]. f_equal. by apply IH.
Qed.
Lemma rooted_member id path : rooted id path → ∀ x e, (x, e) ∈ path → dict_get x t = Some e.
Proof.
  induction 1 as [id e Hg Hp|id e parent path Hg Hp _ IH]; intros x y Hx.
  - apply list_elem_of_singleton in Hx as [= -> ->]. done.
  - apply elem_of_app in Hx as [Hx|Hx%list_elem_of_singleton]; [by apply IH|]. by injection Hx as -> ->.
Qed.
(** Every entry of a path has a path, which is no longer. *)
Lemma rooted_prefix id path : rooted id path → ∀ x e, (x, e) ∈ path → ∃ p, rooted x p ∧ (length p <= length path)%nat.
Proof.
  induction 1 as [id e Hg Hp|id e parent path Hg Hp Hr IH]; intros x y Hx.
  - apply list_elem_of_singleton in Hx as [= -> ->]. eexists. split; [by apply rooted_root|done].
  - rewrite length_app. apply elem_of_app in Hx as [Hx|Hx%list_elem_of_singleton].
    + destruct (IH _ _ Hx) as (p & Hp' & Hl). exists p. split; [done|lia].
    + injection Hx as -> ->. eexists. split; [by eapply rooted_child|]. by rewrite length_app.
Qed.
Lemma rooted_NoDup id path : rooted id path → NoDup path.*1.
Proof.
  induction 1 as [id e Hg Hp|id e parent path Hg Hp Hr IH]; [apply NoDup_singleton|].
  rewrite fmap_app. apply NoDup_app. split; [done|]. split; [|apply NoDup_singleton].
  intros x Hx Hid%list_elem_of_singleton. subst x. apply list_elem_of_fmap in Hx as ([x y] & Heq & Hx). cbn in Heq. subst x.
  destruct (rooted_prefix _ _ Hr _ _ Hx) as (p & Hp' & Hl). rewrite (rooted_unique _ _ Hp' _ (rooted_child _ _ _ _ Hg Hp Hr)), length_app in Hl.
  cbn in Hl. lia.
Qed.
Lemma rooted_bound id path : rooted id path → (length path <= length t)%nat.
Proof.
  intros Hr. rewrite <-(length_map fst path), <-(length_map fst t). apply submseteq_length, NoDup_submseteq; [exact (rooted_NoDup _ _ Hr)|].
  intros x Hx. apply list_elem_of_fmap in Hx as ([y e] & -> & Hx). apply (rooted_member _ _ Hr), dict_get_in in Hx. apply list_elem_of_fmap. by exists (y, e).
Qed.
Lemma rooted_last id path : rooted id path → ∃ e, last path = Some (id, e).
Proof. intros [i e _ _|i e parent p _ _ _]; exists e; [done|apply last_snoc]. Qed.
Lemma rooted_head id path : rooted id path → ∃ x e, head path = Some (x, e) ∧ parent_of e.1 = None.
Proof.
  induction 1 as [id e Hg Hp|id e parent path Hg Hp Hr IH]; [by exists id, e|]. destruct IH as (x & y & Hx & Hy). exists x, y. split; [|done].
  by destruct path.
Qed.
(** Behind each entry comes one whose parent it is. *)
Lemma rooted_linked id path : rooted id path → ∀ i a b, path !! i = Some a → path !! S i = Some b → parent_of b.2.1 = Some a.1.
Proof.
  induction 1 as [id e Hg Hp|id e parent path Hg Hp Hr IH]; intros i a b Ha Hb; [by destruct i|].
  destruct (decide (S i < length path)%nat) as [Hi|Hi]; [rewrite lookup_app_l in Ha, Hb by lia; by eapply IH|].
  pose proof (lookup_lt_Some _ _ _ Hb) as Hlt. rewrite length_app in Hlt. cbn in Hlt.
  destruct (rooted_last _ _ Hr) as [y Hl]. rewrite last_lookup in Hl. rewrite lookup_app_r in Hb by lia.
  replace (S i - length path)%nat with 0%nat in Hb by lia. injection Hb as <-.
  rewrite lookup_app_l in Ha by lia. replace i with (pred (length path)) in Ha by lia. rewrite Hl in Ha. by injection Ha as <-.
Qed.

(** ** The walk up *)

Lemma path_up_complete id path : rooted id path → ∀ fuel, (length path <= fuel)%nat → path_up t fuel id = Ok path.*2.
Proof.
  induction 1 as [id e Hg Hp|id e parent path Hg Hp Hr IH]; intros fuel Hf; (destruct fuel as [|n]; [rewrite ?length_app in Hf; cbn in Hf; lia|]); cbn; rewrite Hg, Hp; [done|].
  rewrite length_app in Hf. cbn in Hf. rewrite IH by lia. cbn. by rewrite fmap_app.
Qed.

(** ** The validation *)

Definition parents_present : Prop := ∀ id e parent, dict_get id t = Some e → parent_of e.1 = Some parent → dict_has parent t = true.
(** From [current] everything above is known to be rooted, or has still to be walked. *)
Lemma walk_sound complete : (∀ x, x ∈ complete → has_root x) → ∀ fuel current path out,
  walk t complete fuel current path = Ok out →
  (∀ x, x ∈ path → x ∈ out) ∧ (match current with Some id => has_root id | None => True end) ∧ (∀ x, x ∈ out → x ∈ path ∨ has_root x).
Proof.
  intros Hc. induction fuel as [|n IH]; intros current path out Hw; (destruct current as [id|]; [|cbn in Hw; injection Hw as <-; auto]); cbn in Hw;
    (destruct (existsb (String.eqb id) complete) eqn:Ecomp;
      [injection Hw as <-; apply existsb_eqb_elem in Ecomp; split; [done|]; split; [by apply Hc|auto]|]);
    (destruct (existsb (String.eqb id) path); [discriminate|]).
  - by destruct (dict_get id t) as [[]|].
  - destruct (dict_get id t) as [[record line]|] eqn:Hg; [|discriminate]. destruct (IH _ _ _ Hw) as (Hin & Hcur & Hout).
    assert (Hid : has_root id).
    { destruct (parent_of record) as [p|] eqn:Hp; [|by exists [(id, (record, line))]; apply rooted_root].
      destruct Hcur as [up Hup]. exists (up ++ [(id, (record, line))]). by eapply rooted_child. }
    split; [intros x Hx; apply Hin; set_solver|]. split; [done|]. intros x Hx. destruct (Hout x Hx) as [Hx'|]; [|auto].
    apply elem_of_app in Hx' as [|Hx'%list_elem_of_singleton]; [auto|]. subst x. auto.
Qed.
(** A walk ends: within its bound, and only a cycle stops it. *)
Lemma walk_ends complete : parents_present → ∀ fuel current path e,
  NoDup path → (∀ x, x ∈ path → x ∈ dict_keys t) → match current with Some id => dict_has id t = true | None => True end →
  (length t <= length path + fuel)%nat → walk t complete fuel current path = Raise e → e = cycle_error.
Proof.
  intros Hp. induction fuel as [|n IH]; intros current path e Hn Hk Hc Hl Hw; (destruct current as [id|]; [|discriminate Hw]); cbn in Hw;
    (destruct (existsb (String.eqb id) complete); [discriminate|]);
    (destruct (existsb (String.eqb id) path) eqn:Eq; [by injection Hw as <-|]); apply existsb_eqb_not_elem in Eq;
    unfold dict_has in Hc; destruct (dict_get id t) as [[record line]|] eqn:Hg; try discriminate.
  - assert (Hlt : (length (path ++ [id]) <= length (dict_keys t))%nat).
    { apply submseteq_length, NoDup_submseteq; [apply NoDup_app; split; [done|]; split; [set_solver|apply NoDup_singleton]|].
      intros x [Hx|Hx%list_elem_of_singleton]%elem_of_app; [by apply Hk|]. subst x. apply dict_get_in in Hg. apply list_elem_of_fmap. by eexists (id, _). }
    unfold dict_keys in Hlt. rewrite length_app, length_fmap in Hlt. cbn in Hlt. lia.
  - eapply (IH (parent_of record) (path ++ [id])); [..|exact Hw].
    + apply NoDup_app. split; [done|]. split; [set_solver|apply NoDup_singleton].
    + intros x [Hx|Hx%list_elem_of_singleton]%elem_of_app; [by apply Hk|]. subst x. apply dict_get_in in Hg. apply list_elem_of_fmap. by eexists (id, _).
    + destruct (parent_of record) as [p|] eqn:Epar; [|done]. exact (Hp id _ p Hg Epar).
    + rewrite length_app. cbn. lia.
Qed.
End forest.

Lemma walks_sound t keys : ∀ c c', fold_result (walk_from t) c keys = Ok c' → (∀ x, x ∈ c → has_root t x) → ∀ x, x ∈ c ++ keys → has_root t x.
Proof.
  induction keys as [|k keys IH]; intros c c' Hf Hc x Hx; cbn in Hf; [rewrite app_nil_r in Hx; auto|].
  apply bind_Ok in Hf as (c1 & Hk & Hf). unfold walk_from in Hk. apply bind_Ok in Hk as (path & Hw & [= <-]).
  destruct (walk_sound t c Hc _ _ _ _ Hw) as (_ & Hroot & Hout).
  apply elem_of_app in Hx as [Hx|Hx]; [auto|]. apply elem_of_cons in Hx as [-> |Hx]; [done|].
  apply (IH _ _ Hf); [|by apply elem_of_app; right]. intros y [Hy|Hy]%elem_of_app; [auto|]. by destruct (Hout y Hy) as [?%elem_of_nil|].
Qed.
Lemma walks_end t keys : parents_present t → (∀ k, k ∈ keys → dict_has k t = true) → ∀ c e, fold_result (walk_from t) c keys = Raise e → e = cycle_error.
Proof.
  intros Hp. induction keys as [|k keys IH]; intros Hk c e Hf; [discriminate Hf|]. cbn in Hf.
  destruct (walk_from t c k) as [c1|e1] eqn:Hw; cbn in Hf; [apply (IH ltac:(set_solver) _ _ Hf)|]. injection Hf as <-.
  unfold walk_from in Hw. destruct (walk t c _ _ _) as [path|e2] eqn:Hwk; [discriminate|]. injection Hw as ->.
  eapply (walk_ends t c Hp (length t) (Some k) []); [apply NoDup_nil_2|by intros ? ?%elem_of_nil|apply Hk; set_solver|cbn; lia|exact Hwk].
Qed.

Section graph.
Context `{SchemaValidator}.

(** The entries by their ids *)
Record indexed (entries : list numbered) (t : list (string * numbered)) : Prop := {
  ix_keys : NoDup (dict_keys t);
  ix_id : ∀ id e, dict_get id t = Some e → vget "id" e.1 = VStr id ∧ e ∈ entries;
  ix_entry : ∀ e, e ∈ entries → ∃ id, dict_get id t = Some e }.

Lemma entry_fields_distinct : NoDup (names entry_fields).
Proof. cbn. repeat constructor; set_solver. Qed.
Lemma pi_model_ok fields m r d : pi_model fields m r = Ok d → read_open_model fields (VDict r) = Ok (VDict d) ∨ d = [].
Proof.
  unfold pi_model. destruct (read_open_model _ _) as [v|[]] eqn:E; intros [= <-]. destruct v; auto.
Qed.
Lemma entry_id m r d : pi_model entry_fields m r = Ok d → vget "id" r = VStr (text_of "id" d).
Proof.
  unfold pi_model. destruct (read_open_model _ _) as [v|[]] eqn:E; intros [= <-].
  destruct (read_open_text _ _ _ "id" entry_fields_distinct ltac:(set_solver) E) as (d & s & -> & Hd & Hr). change (default [] (as_dict (VDict d))) with d. unfold text_of, vget_or, vget. by rewrite Hd, Hr.
Qed.
Lemma add_entry_indexed entries t e t' : indexed entries t → add_entry t e = Ok t' → indexed (entries ++ [e]) t'.
Proof.
  intros [Hk Hid He] Ha. destruct e as [record line]. cbn [add_entry] in Ha. apply bind_Ok in Ha as (u & _ & Ha).
  apply bind_Ok in Ha as (d & Hm & Ha). apply entry_id in Hm. revert Hm Ha. generalize (text_of "id" d). intros id Hm Ha. unfold dict_has in Ha.
  destruct (dict_get id t) as [x|] eqn:Hg; [discriminate|]. injection Ha as <-. split.
  - rewrite dict_keys_set. unfold dict_has. rewrite Hg. apply NoDup_app. split; [done|]. split; [|apply NoDup_singleton].
    intros y Hy Hyi%list_elem_of_singleton. subst y. apply list_elem_of_fmap in Hy as ([y e] & Heq & Hy). cbn in Heq. subst y. by rewrite (dict_get_elem _ _ _ Hk Hy) in Hg.
  - intros y e. rewrite dict_get_set. destruct (String.eqb y id) eqn:E.
    + apply String.eqb_eq in E as ->. intros [= <-]. split; [done|set_solver].
    + intros Hy. destruct (Hid _ _ Hy). split; [done|set_solver].
  - intros e [Hx|Hx%list_elem_of_singleton]%elem_of_app.
    + destruct (He e Hx) as [y Hy]. exists y. rewrite dict_get_set_ne; [done|]. intros ->. congruence.
    + subst e. exists id. apply dict_get_set_eq.
Qed.
Lemma entries_indexed l : ∀ entries t t', indexed entries t → fold_result add_entry t l = Ok t' → indexed (entries ++ l) t'.
Proof.
  induction l as [|e l IH]; intros entries t t' Hi Hf; cbn in Hf; [injection Hf as <-; by rewrite app_nil_r|].
  apply bind_Ok in Hf as (t1 & Ha & Hf). rewrite cons_middle, app_assoc. eapply IH; [by eapply add_entry_indexed|done].
Qed.
Lemma empty_indexed : indexed [] [].
Proof. split; [apply NoDup_nil_2|discriminate|by intros ? ?%elem_of_nil]. Qed.
Lemma parents_checked t us : NoDup (dict_keys t) → map_result (missing_parent t) t = Ok us → parents_present t.
Proof.
  intros Hn Hm id e parent Hg Hp. apply map_result_Forall2 in Hm. apply dict_get_in in Hg. destruct (list_elem_of_lookup_1 _ _ Hg) as [i Hi].
  destruct (Forall2_lookup_l _ _ _ _ _ Hm Hi) as (u & _ & Hu). unfold missing_parent in Hu. cbn in Hu. rewrite Hp in Hu.
  unfold guard_err in Hu. by destruct (dict_has parent t).
Qed.
Lemma graph_forest entries t : _validate_graph entries = Ok t → indexed entries t ∧ ∀ id e, dict_get id t = Some e → has_root t id.
Proof.
  unfold _validate_graph. intros Hv. apply bind_Ok in Hv as (t' & Hf & Hv). apply bind_Ok in Hv as (us & Hm & Hv). apply bind_Ok in Hv as (c & Hw & [= ->]).
  pose proof (entries_indexed _ _ _ _ empty_indexed Hf) as Hi. split; [done|]. intros id e Hg. eapply walks_sound; [exact Hw|by intros ? ?%elem_of_nil|].
  apply dict_get_in in Hg. apply list_elem_of_fmap. by exists (id, e).
Qed.

(** ** The errors of the validation *)

Definition value_error (e : exc) : Prop := ∃ m, e = ValueError m.
Lemma pi_validate_error definition place r e : pi_validate definition place r = Raise e → value_error e.
Proof. unfold pi_validate, _schema_error. case_match; intros [= <-]. by eexists. Qed.
Lemma entry_model_error m r e : pi_model entry_fields m r = Raise e → value_error e.
Proof.
  unfold pi_model, read_open_model, entry_fields. cbn [map_result]. unfold read_field. cbn [fd_name fd_default fd_reader required].
  repeat (destruct (dict_get _ r) as [[]|]; cbn; try (intros [= <-]; by eexists)).
Qed.
Lemma add_entry_error t e x : add_entry t e = Raise x → value_error x.
Proof.
  destruct e as [record line]. cbn [add_entry]. destruct (pi_validate _ _ _) as [u|] eqn:E1; cbn [mbind result_bind]; [|intros [= <-]; by eapply pi_validate_error].
  destruct (pi_model _ _ _) as [d|] eqn:E2; cbn [mbind result_bind]; [|intros [= <-]; by eapply entry_model_error].
  destruct (dict_has _ t); intros [= <-]. by eexists.
Qed.
End graph.

Section theorems.
Context `{SchemaValidator}.

Lemma last_in {A} (l : list A) x : last l = Some x → x ∈ l.
Proof. intros (l' & ->)%last_Some. set_solver. Qed.
(** C31: In a graph that the importer accepts the active path is found: it leads
    from an entry without a parent to the last entry of the file, each entry is
    the parent of the one behind it, and no entry is on it twice.  The bounds of
    the walks are enough. *)
Theorem active_path_found (entries : list numbered) t (Hne : entries ≠ []) (Hv : _validate_graph entries = Ok t) :
  ∃ path, _active_path entries t = Ok path ∧ last path = last entries ∧ NoDup path ∧ (∀ e, e ∈ path → e ∈ entries) ∧
    (∃ root, head path = Some root ∧ parent_of root.1 = None) ∧
    ∀ i a b, path !! i = Some a → path !! S i = Some b → opt_str (parent_of b.1) = vget "id" a.1.
Proof.
  destruct (graph_forest _ _ Hv) as [[Hk Hid He] Hroot]. destruct (last entries) as [e|] eqn:Hl; [|by apply last_None in Hl].
  destruct (He _ (last_in _ _ Hl)) as [id Hg]. destruct (Hid _ _ Hg) as [Hide _]. destruct (Hroot _ _ Hg) as [path Hr]. exists path.*2.
  pose proof (rooted_member _ _ _ Hr) as Hm. split.
  { unfold _active_path. rewrite Hl. unfold item. unfold vget in Hide. destruct (dict_get "id" e.1) as [v|]; [|discriminate]. cbn in Hide. subst v.
    cbn [from_option_err mbind result_bind py_str]. apply (path_up_complete _ _ _ Hr), (rooted_bound _ _ _ Hr). }
  assert (Hids : ∀ x y, (x, y) ∈ path → vget "id" y.1 = VStr x ∧ y ∈ entries) by (intros x y Hx; apply Hid; by eapply Hm).
  split; [|split; [|split; [|split]]].
  - destruct (rooted_last _ _ _ Hr) as [y Hy]. rewrite fmap_last, Hy. cbn. apply last_in, Hm in Hy. by rewrite <-Hg, <-Hy.
  - apply (NoDup_fmap_1 (λ y : numbered, py_str (vget "id" y.1))). rewrite <-list_fmap_compose. erewrite list_fmap_ext; [exact (rooted_NoDup _ _ _ Hr)|].
    intros i [x y] Hi%list_elem_of_lookup_2. cbn. by rewrite (proj1 (Hids _ _ Hi)).
  - intros y Hy. apply list_elem_of_fmap in Hy as ([x z] & -> & Hx). by apply (Hids x).
  - destruct (rooted_head _ _ _ Hr) as (x & y & Hx & Hy). exists y. split; [|done]. by destruct path; [|injection Hx as ->].
  - intros i a b Ha Hb. rewrite list_lookup_fmap in Ha, Hb. destruct (path !! i) as [[x y]|] eqn:Ea; [|discriminate]. destruct (path !! S i) as [[x' y']|] eqn:Eb; [|discriminate].
    injection Ha as <-. injection Hb as <-. pose proof (rooted_linked _ _ _ Hr _ _ _ Ea Eb) as Hlink. cbn in *. rewrite Hlink. cbn. symmetry. apply (Hids x). by eapply list_elem_of_lookup_2.
Qed.
(** Every other graph is refused with a message: a duplicate id, a parent that is
    missing, or a cycle; the walks end within their bounds. *)
Theorem graph_refusal (entries : list numbered) e (Hv : _validate_graph entries = Raise e) : value_error e.
Proof.
  unfold _validate_graph in Hv. destruct (fold_result add_entry [] entries) as [t|x] eqn:Hf; cbn [mbind result_bind] in Hv.
  - destruct (map_result (missing_parent t) t) as [us|x] eqn:Hm; cbn [mbind result_bind] in Hv.
    + destruct (fold_result (walk_from t) [] (dict_keys t)) as [c|x] eqn:Hw; cbn [mbind result_bind] in Hv; [discriminate|]. injection Hv as ->.
      destruct (entries_indexed _ _ _ _ empty_indexed Hf) as [Hk _ _]. exists "Pi-family session entry graph contains a cycle".
      eapply walks_end; [by eapply parents_checked| |exact Hw]. intros k Hkk. unfold dict_has. destruct (dict_get k t) eqn:Hg; [done|].
      by apply dict_get_None in Hg.
    + injection Hv as ->. destruct (map_result_fails _ _ _ Hm) as ([id r] & _ & Hr). unfold missing_parent in Hr. destruct (parent_of _) as [p|]; [|discriminate].
      unfold guard_err in Hr. destruct (negb _); [injection Hr as <-; by eexists|discriminate].
  - injection Hv as ->. destruct (fold_result_fails _ _ _ _ Hf) as (t & x & _ & Ha). by eapply add_entry_error.
Qed.
End theorems.

Module PiSamples.
(** A schema that refuses nothing *)
#[local] Instance permissive : SchemaValidator := {| schema_issue _ _ := None |}.
Definition entry (id : string) (parent : value) (line : Z) : numbered :=
  ([("type", VStr "message"); ("id", VStr id); ("parentId", parent); ("timestamp", VStr "2026-01-02T09:00:00Z")], line).
Definition branches : list numbered := [entry "a" VNone 2; entry "b" (VStr "a") 3; entry "c" (VStr "a") 4; entry "d" (VStr "c") 5].
Definition branch_map : list (string * numbered) := default [] (match _validate_graph branches with Ok t => Some t | Raise _ => None end).
Example active_path_found_witness : branches ≠ [] ∧ _validate_graph branches = Ok branch_map ∧
  ∃ path, _active_path branches branch_map = Ok path ∧ last path = last branches ∧ NoDup path ∧ (∀ e, e ∈ path → e ∈ branches) ∧
    (∃ root, head path = Some root ∧ parent_of root.1 = None) ∧
    ∀ i a b, path !! i = Some a → path !! S i = Some b → opt_str (parent_of b.1) = vget "id" a.1.
Proof.
  assert (Hv : _validate_graph branches = Ok branch_map) by (vm_compute; reflexivity).
  split; [discriminate|]. split; [exact Hv|]. apply (active_path_found branches branch_map); [discriminate|exact Hv].
Defined.
Example abandoned_branch : fmap (M := list) snd <$> (match _active_path branches branch_map with Ok p => Some p | Raise _ => None end) = Some [2; 4; 5].
Proof. vm_compute. reflexivity. Qed.
Example cycle_refused : _validate_graph [entry "a" (VStr "b") 2; entry "b" (VStr "a") 3] = Raise cycle_error.
Proof. vm_compute. reflexivity. Qed.
End PiSamples.
