(* ===== verification/ImportDocs.v ===== *)
(** * Importers of documents ([memory/importers/gemini_cli_session_json.py],
    [opencode_session_json.py], [deepseek_share_json.py], [droid_exec_json.py],
    [manual_paste.py], [copilot_activity_csv.py]) *)
From Stdlib Require Import ZArith Lia Ascii.
From S2P Require Import Prelude PyStr Json Clock PyFloat ConvStore Scope Regex FactValidation Normalize Pydantic ImportBase ImportJsonl.
Local Open Scope Z_scope.

(** [f(x)] for each element with its number, from 1 *)
Definition each_numbered {S} (step : S → Z → value → result S) (st : S) (xs : list value) : result S :=
  fold_result (λ st nx, step st nx.1 nx.2) st (enumerate 1 xs).

(** ** Gemini CLI *)

Definition _SESSION_CONTEXT_MARKER : string := "This is the Gemini CLI. We are setting up the context for our chat.".
Definition stored_role (v : value) : option string :=
  match v with VStr s => if String.eqb s "user" then Some "user" else if String.eqb s "gemini" then Some "assistant" else None | _ => None end.
Definition shared_role (v : value) : option string :=
  match v with VStr s => if String.eqb s "user" then Some "user" else if String.eqb s "model" then Some "assistant" else None | _ => None end.
Definition stored_message_fields : list model_field :=
  [required "type" read_text; required "content" read_text_or_list; optional_text_field "timestamp"; optional_text_field "model"].
Definition shared_item_fields : list model_field := [required "role" read_text; required "parts" read_list].
(** [model_validate], with its [ValidationError] replaced *)
Definition model_or (fields : list model_field) (message : string) (record : dict) : result dict :=
  match read_open_model fields (VDict record) with
  | Ok v => Ok (default [] (as_dict v))
  | Raise (ValueError _) => Raise (ValueError message)
  | Raise e => Raise e
  end.
Definition gemini_message_text (content : value) (index : Z) : result (option string) :=
  match content with
  | VStr s => Ok (nonblank_text s)
  | VList blocks => text_blocks (λ d, Ok (dict_has "text" d)) ("Gemini CLI message " +:+ str_of_Z index +:+ " has a non-text text block") blocks
  | _ => Raise OutsideModel
  end.
Definition _is_session_context (role content : string) : bool :=
  String.eqb role "user" && startswith "<session_context>" (strip content) && contains _SESSION_CONTEXT_MARKER (strip content).
Record gemini_state := mk_gemini { gs_messages : list imported; gs_times : list datetime; gs_model : option string }.
Definition gemini_stored_step (st : gemini_state) (index : Z) (raw_message : value) : result gemini_state :=
  let place := "Gemini CLI message " +:+ str_of_Z index in
  match raw_message with
  | VDict raw =>
      match stored_role (vget "type" raw) with
      | None => Ok st
      | Some role =>
          parsed ← model_or stored_message_fields (place +:+ " has invalid content") raw;
          content ← gemini_message_text (vget "content" parsed) index;
          match content with
          | None => Ok st
          | Some t =>
              if _is_session_context role t then Ok st else
              timestamp ← _timestamp ("Gemini CLI session message " +:+ str_of_Z index +:+ " timestamp is invalid") (vget "timestamp" parsed);
              Ok (mk_gemini (gs_messages st ++ [mk_imported role t])
                    (match timestamp with Some t => gs_times st ++ [t] | None => gs_times st end)
                    (match gs_model st with
                     | Some m => Some m
                     | None => if String.eqb role "assistant" then _nonempty_string (vget "model" parsed) else None
                     end))
          end
      end
  | _ => Raise (ValueError (place +:+ " must be an object"))
  end.
Definition gemini_metadata (export_format : string) : dict :=
  importer_metadata "gemini-cli-session-json" "gemini-cli" "json-import" ++ [("export_format", VStr export_format)].
Definition gemini_payload (messages : list imported) (metadata : dict) (source title : option string) (time : option datetime) : result dict :=
  match messages with
  | [] => Raise (ValueError "Gemini CLI session contains no conversational text")
  | _ => Ok (payload_of (or_source source "gemini-cli") messages (with_title (nonempty title) metadata) (nonempty title) time)
  end.
Definition gemini_session_metadata (document : dict) (model : option string) : dict :=
  let base := _copy_nonempty (vget "projectHash" document) (_copy_nonempty (vget "sessionId" document) (gemini_metadata "session") "source_session_id") "project_hash" in
  let base := match model with Some m => dict_set "model" (VStr m) base | None => base end in
  match vget "directories" document with
  | VList l => match omap _nonempty_string l with
               | [] => base | directories => dict_set "workspace_directories" (VList (map VStr directories)) base end
  | _ => base
  end.
Definition _import_session_document (document : dict) (source title : option string) : result dict :=
  match vget "messages" document with
  | VList raw_messages =>
      st ← each_numbered gemini_stored_step (mk_gemini [] [] None) raw_messages;
      session_time ← _timestamp "Gemini CLI session start time is invalid" (vget "startTime" document);
      gemini_payload (gs_messages st) (gemini_session_metadata document (gs_model st)) source title (first_time session_time (gs_times st))
  | _ => Raise (ValueError "Gemini CLI session JSON has no valid messages array")
  end.
Definition gemini_shared_step (messages : list imported) (index : Z) (raw_item : value) : result (list imported) :=
  let place := "Gemini CLI shared history item " +:+ str_of_Z index in
  match raw_item with
  | VDict raw =>
      match shared_role (vget "role" raw) with
      | None => Ok messages
      | Some role =>
          parsed ← model_or shared_item_fields (place +:+ " has invalid parts") raw;
          content ← gemini_message_text (vget "parts" parsed) index;
          Ok (match content with Some t => if _is_session_context role t then messages else messages ++ [mk_imported role t] | None => messages end)
      end
  | _ => Raise (ValueError (place +:+ " must be an object"))
  end.
Definition _import_shared_history (document : list value) (source title : option string) : result dict :=
  messages ← each_numbered gemini_shared_step [] document;
  gemini_payload messages (gemini_metadata "shared-history") source title None.
Definition gemini_cli_import `{SchemaValidator} (text : string) (source title : option string) : result (list dict) :=
  _ ← bounded _MAX_INPUT_BYTES "Gemini CLI session input exceeds 20000000 bytes" text;
  document ← loads_or "Gemini CLI session input must be valid JSON" text;
  if negb (is_valid "gemini-cli-session" document) then Raise (ValueError "Gemini CLI session JSON must be an object or array") else
  match document with
  | VDict d => payload ← _import_session_document d source title; Ok [payload]
  | VList l => payload ← _import_shared_history l source title; Ok [payload]
  | _ => Raise OutsideModel
  end.

(** ** OpenCode *)

Definition opencode_message_text (parts : list value) (index : Z) : result (option string) :=
  let is_true (v : value) := match v with VBool b => b | _ => false end in
  text_blocks (λ d, Ok (is_text "text" (vget "type" d) && negb (is_true (vget "ignored" d) || is_true (vget "synthetic" d))))
    ("OpenCode message " +:+ str_of_Z index +:+ " has a non-text text part") parts.
Definition _created_at (field : string) (v : value) : result (option datetime) :=
  let message := "OpenCode " +:+ field +:+ " has an invalid created timestamp" in
  let seconds (x : float) := d ← fromtimestamp message (fdiv x (float_near 1000)); Ok (Some d) in
  match v with
  | VDict d =>
      match dict_get "created" d with
      | None => Ok None
      | Some (VInt z) => match float_of_int z with Ok x => seconds x | Raise _ => Raise (ValueError message) end
      | Some (VFloat t) => x ← float_of_text t; seconds x
      | Some (VStr s) => match fromisoformat (replace "Z" "+00:00" s) with
                         | Ok t => Ok (Some t) | Raise (ValueError _) => Raise (ValueError message) | Raise e => Raise e end
      | Some _ => Raise (ValueError message)
      end
  | _ => Ok None
  end.
Definition _model_name (v : value) : option string :=
  match v with
  | VStr s => nonempty (Some (strip s))
  | VDict d => model_name (match _nonempty_string (vget "id" d) with Some m => Some m | None => _nonempty_string (vget "modelID" d) end)
                 (_nonempty_string (vget "providerID" d))
  | _ => None
  end.
(** [a < b]; a naive time and an aware one are not compared *)
Definition time_lt (a b : datetime) : result bool :=
  if Bool.eqb (bool_decide (is_Some (dt_offset a))) (bool_decide (is_Some (dt_offset b))) then Ok (utc_us a <? utc_us b)
  else Raise (TypeError "can't compare offset-naive and offset-aware datetimes").
(** [min(times) if times else None] *)
Definition earliest_time (times : list datetime) : result (option datetime) :=
  match times with
  | [] => Ok None
  | t :: rest => m ← fold_result (λ m t, before ← time_lt t m; Ok (if negb before then m else t)) t rest; Ok (Some m)
  end.
Definition opencode_step (st : gemini_state) (index : Z) (raw_message : value) : result gemini_state :=
  let place := "OpenCode message " +:+ str_of_Z index in
  match raw_message with
  | VDict raw =>
      match vget "info" raw with
      | VDict info =>
          known ← in_texts (vget "role" info) ["user"; "assistant"];
          if negb known then Raise (ValueError (place +:+ " has an unknown role")) else
          match vget "parts" raw with
          | VList parts =>
              content ← opencode_message_text parts index;
              match content with
              | None => Ok st
              | Some t =>
                  let role := text_of "role" info in
                  created ← _created_at ("message " +:+ str_of_Z index +:+ " time") (vget "time" info);
                  Ok (mk_gemini (gs_messages st ++ [mk_imported role t])
                        (match created with Some t => gs_times st ++ [t] | None => gs_times st end)
                        (match gs_model st with
                         | Some m => Some m
                         | None => if String.eqb role "assistant" then _model_name (VDict info) else None end))
              end
          | _ => Raise (ValueError (place +:+ " has invalid parts"))
          end
      | _ => Raise (ValueError (place +:+ " has no valid info object"))
      end
  | _ => Raise (ValueError (place +:+ " must be an object"))
  end.
Definition opencode_metadata (info : dict) (title model : option string) : dict :=
  let base := _copy_nonempty (vget "id" info) (importer_metadata "opencode-session-json" "cli" "json-import") "source_session_id" in
  let directory := match _nonempty_string (vget "directory" info) with Some d => Some d | None => _nonempty_string (vget "path" info) end in
  let set (k : string) (v : option string) (d : dict) : dict := match nonempty v with Some t => dict_set k (VStr t) d | None => d end in
  set "model" model (set "directory" directory (with_title title base)).
Definition opencode_session_import (text : string) (source title : option string) : result (list dict) :=
  _ ← bounded _MAX_INPUT_BYTES "OpenCode session input exceeds 20000000 bytes" text;
  document ← loads_or "OpenCode session input must be valid JSON" text;
  match document with
  | VDict d =>
      match vget "info" d, vget "messages" d with
      | VDict info, VList (first :: rest) =>
          st ← each_numbered opencode_step (mk_gemini [] [] (_model_name (vget "model" info))) (first :: rest);
          match gs_messages st with
          | [] => Raise (ValueError "OpenCode session JSON contains no conversational text")
          | messages =>
              let resolved_title := match nonempty title with Some t => Some t | None => _nonempty_string (vget "title" info) end in
              session_time ← _created_at "session time" (vget "time" info);
              time ← match session_time with Some t => Ok (Some t) | None => earliest_time (gs_times st) end;
              Ok [payload_of (or_source source "opencode") messages (opencode_metadata info resolved_title (gs_model st)) resolved_title time]
          end
      | VDict _, _ => Raise (ValueError "OpenCode session JSON contains no messages")
      | _, _ => Raise (ValueError "OpenCode session JSON has no valid info object")
      end
  | _ => Raise (ValueError "OpenCode session JSON must be an object")
  end.

(** ** DeepSeek shares *)

Definition _ACCOUNT_EXPORT_ERROR : string :=
  "DeepSeek account data exports are not supported by deepseek-share-json; use a public share-content response containing data.biz_data".
Definition _UNSUPPORTED_ENVELOPE_ERROR : string :=
  "DeepSeek share JSON has an unsupported envelope; use a public share-content response containing data.biz_data, while DeepSeek Harness and third-party JSON require their own importer".
(** [s.upper()], as far as the result may be a role *)
Definition upper_text (s : string) : string := sflat (λ c, if ord c =? 223 then "SS" else char_str (upper_char c)) s.
Definition deepseek_role (v : value) : option string :=
  let role := upper_text (py_str v) in
  if String.eqb role "USER" then Some "user" else if String.eqb role "ASSISTANT" then Some "assistant" else None.
Definition _is_account_data_export (document : value) : bool :=
  let exported (c : value) := match c with
    | VDict d => bool_decide (is_Some (as_dict (vget "mapping" d))) && dict_has "inserted_at" d && dict_has "updated_at" d
    | _ => false end in
  let conversations := match document with
    | VList l => l
    | VDict d => match vget "conversations" d with VList l => l | _ => [document] end
    | _ => [] end in
  match conversations with [] => false | l => forallb exported l end.
Definition _conversation_data (document : value) : result dict :=
  if _is_account_data_export document then Raise (ValueError _ACCOUNT_EXPORT_ERROR) else
  match document with
  | VDict d => match vget "data" d with
               | VDict e => match vget "biz_data" e with VDict data => Ok data | _ => Raise (ValueError _UNSUPPORTED_ENVELOPE_ERROR) end
               | _ => Raise (ValueError _UNSUPPORTED_ENVELOPE_ERROR)
               end
  | _ => Raise (ValueError _UNSUPPORTED_ENVELOPE_ERROR)
  end.
(** The texts of a fragment, and the names of the files attached. *)
Definition fragment_parts (st : list string * list string) (fragment : value) : list string * list string :=
  let '(parts, attachments) := st in
  match fragment with
  | VDict d =>
      let fragment_type := upper_text (text_of "type" d) in
      if String.eqb fragment_type "REQUEST" || String.eqb fragment_type "RESPONSE" then
        match vget "content" d with VStr s => (parts ++ option_list (nonblank_text s), attachments) | _ => st end
      else if String.eqb fragment_type "FILE" then
        match vget "files" d with
        | VList files => (parts, attachments ++ omap (λ f, match f with VDict g => _nonempty_string (vget "file_name" g) | _ => None end) files)
        | _ => st
        end
      else st
  | _ => st
  end.
Definition deepseek_message_text (fragments : value) (index : Z) : result string :=
  match fragments with
  | VList l =>
      let '(parts, attachments) := foldl fragment_parts ([], []) l in
      let parts := match attachments with [] => parts | _ => parts ++ ["Attachments: " +:+ join ", " attachments] end in
      let t := join (newline +:+ newline) parts in
      if String.eqb (strip t) "" then Raise (ValueError ("DeepSeek message " +:+ str_of_Z index +:+ " has no conversational content")) else Ok t
  | _ => Raise (ValueError ("DeepSeek message " +:+ str_of_Z index +:+ " has invalid fragments"))
  end.
(** A number that is not a time is passed over. *)
Definition inserted_time (v : value) : result (option datetime) :=
  let read (x : result float) := match x with
    | Ok x => match fromtimestamp "" x with Ok t => Ok (Some t) | Raise _ => Ok None end
    | Raise OutsideModel => Raise OutsideModel
    | Raise _ => Ok None end in
  match v with
  | VInt z => read (float_of_int z)
  | VBool b => read (float_of_int (Z.b2z b))
  | VFloat t => read (float_of_text t)
  | _ => Ok None
  end.
Definition deepseek_step (st : list imported * list datetime) (index : Z) (raw_message : value) : result (list imported * list datetime) :=
  let '(messages, timestamps) := st in
  match raw_message with
  | VDict raw =>
      match deepseek_role (vget_or "role" (VStr "") raw) with
      | None => Raise (ValueError ("DeepSeek message " +:+ str_of_Z index +:+ " has an unknown role"))
      | Some role =>
          t ← deepseek_message_text (vget "fragments" raw) index;
          time ← inserted_time (vget "inserted_at" raw);
          Ok (messages ++ [mk_imported role t], timestamps ++ option_list time)
      end
  | _ => Raise (ValueError ("DeepSeek message " +:+ str_of_Z index +:+ " must be an object"))
  end.
Definition deepseek_share_import (text : string) (source title : option string) : result (list dict) :=
  _ ← bounded _MAX_INPUT_BYTES "DeepSeek share input exceeds 20000000 bytes" text;
  document ← loads_or "DeepSeek share input must be valid JSON" text;
  data ← _conversation_data document;
  match vget "messages" data with
  | VList (first :: rest) =>
      '(messages, timestamps) ← each_numbered deepseek_step ([], []) (first :: rest);
      let base := importer_metadata "deepseek-share-json" "web" "json-import" in
      let metadata := match vget "model_type" data with
        | VStr m => if String.eqb (strip m) "" then base else dict_set "model" (VStr m) base | _ => base end in
      let resolved_title := _nonempty_string (match nonempty title with Some t => VStr t | None => vget "title" data end) in
      time ← earliest_time timestamps;
      Ok [payload_of (or_source source "deepseek") messages metadata resolved_title time]
  | _ => Raise (ValueError "DeepSeek share JSON contains no messages")
  end.

(** ** Droid Exec *)

(** The schema has the shape of what is subscripted without a test; another shape
    is not modelled. *)
Definition member (k : string) (d : dict) : result value := from_option_err (KeyError k) (dict_get k d).
Definition as_object (v : value) : result dict := from_option_err OutsideModel (as_dict v).
Definition droid_number (v : value) : bool := match v with VInt _ | VFloat _ => true | _ => false end.
Definition droid_int (v : value) : bool := match v with VInt _ => true | _ => false end.
Definition set_if (test : value → bool) (v : value) (key : string) (d : dict) : dict := if test v then dict_set key v d else d.
Definition _import_one_shot (document : dict) : result (list imported * dict) :=
  prompt ← member "prompt" document;
  match _nonempty_string prompt with
  | None => Raise (ValueError "Droid Exec one-shot capture must include the submitted prompt")
  | Some prompt =>
      result ← member "result" document;
      result ← as_object result;
      response ← member "result" result;
      is_error ← member "is_error" result;
      subtype ← member "subtype" result;
      match response with
      | VStr response =>
          if truthy is_error || negb (is_text "success" subtype) || String.eqb (strip response) ""
          then Raise (ValueError "Droid Exec one-shot capture does not contain a successful result") else
          Ok ([mk_imported "user" prompt; mk_imported "assistant" response],
              set_if droid_int (vget "num_turns" result) "reported_turn_count"
                (set_if droid_number (vget "duration_ms" result) "duration_ms" (_copy_nonempty (vget "session_id" result) [] "source_session_id")))
      | _ => Raise OutsideModel
      end
  end.
(** The blocks of a turn, in the order of their first pieces. *)
Definition assistant_blocks : Type := list ((string * Z) * list string).
Fixpoint add_delta (key : string * Z) (delta : string) (blocks : assistant_blocks) : assistant_blocks :=
  match blocks with
  | [] => [(key, [delta])]
  | (k, deltas) :: rest => if bool_decide (k = key) then (k, deltas ++ [delta]) :: rest else (k, deltas) :: add_delta key delta rest
  end.
Definition _coalesced_text (blocks : assistant_blocks) : option string :=
  join_parts (List.filter (λ t, negb (String.eqb (strip t) "")) (map (λ b, join "" b.2) blocks)).
Record droid_state := mk_droid {
  ds_messages : list imported; ds_provenance : dict; pending_user : option string; ds_blocks : assistant_blocks;
  initialize_request_ids : list value }.
Definition droid_params (message : dict) (index : Z) (method : string) : result dict :=
  from_option_err (ValueError ("Droid Exec frame " +:+ str_of_Z index +:+ " has invalid params for " +:+ method)) (as_dict (vget "params" message)).
Definition _notification (message : dict) (index : Z) : result (dict * string) :=
  params ← droid_params message index "droid.session_notification";
  match vget "notification" params with
  | VDict n => match vget "type" n with
               | VStr t => Ok (n, t)
               | _ => Raise (ValueError ("Droid Exec frame " +:+ str_of_Z index +:+ " has an invalid session notification"))
               end
  | _ => Raise (ValueError ("Droid Exec frame " +:+ str_of_Z index +:+ " has an invalid session notification"))
  end.
(** [v in ids] of texts and integers *)
Definition in_ids (v : value) (ids : list value) : result bool :=
  match v with
  | VList _ | VDict _ => unhashable
  | _ => Ok (existsb (λ i, match i, v with VStr a, VStr b => String.eqb a b | VInt z, _ => int_in z [v] | _, _ => false end) ids)
  end.
Definition droid_initialize (st : droid_state) (index : Z) (message : dict) : result droid_state :=
  params ← droid_params message index "droid.initialize_session";
  let ids := match vget "id" message with VStr _ | VInt _ => initialize_request_ids st ++ [vget "id" message] | _ => initialize_request_ids st end in
  let provenance := foldl (λ t m, _copy_nonempty (vget m.1 params) t m.2) (ds_provenance st)
    [("cwd", "directory"); ("modelId", "model"); ("sessionId", "source_session_id")] in
  Ok (mk_droid (ds_messages st) provenance (pending_user st) (ds_blocks st) ids).
Definition droid_user_message (st : droid_state) (index : Z) (message : dict) : result droid_state :=
  params ← droid_params message index "droid.add_user_message";
  match _nonempty_string (vget "text" params) with
  | Some t => Ok (mk_droid (ds_messages st) (ds_provenance st) (Some t) [] (initialize_request_ids st))
  | None => Raise (ValueError ("Droid Exec frame " +:+ str_of_Z index +:+ " has an invalid user message"))
  end.
(** The answer to an initialisation *)
Definition droid_initialized (st : droid_state) (message : dict) : result droid_state :=
  asked ← in_ids (vget "id" message) (initialize_request_ids st);
  match vget "result" message with
  | VDict result =>
      if negb asked then Ok st else
      let p := _copy_nonempty (vget "sessionId" result) (ds_provenance st) "source_session_id" in
      let p := match vget "settings" result with VDict s => _copy_nonempty (vget "modelId" s) p "model" | _ => p end in
      let p := if truthy (vget "directory" p) then p else _copy_nonempty (vget "cwd" result) p "directory" in
      Ok (mk_droid (ds_messages st) p (pending_user st) (ds_blocks st) (initialize_request_ids st))
  | _ => Ok st
  end.
Definition droid_delta (st : droid_state) (index : Z) (notification : dict) : result droid_state :=
  match pending_user st with
  | None => Ok st
  | Some _ =>
      match _nonempty_string (vget "messageId" notification), vget "blockIndex" notification, vget "textDelta" notification with
      | Some message_id, VInt block_index, VStr delta =>
          if block_index <? 0 then Raise (ValueError ("Droid Exec frame " +:+ str_of_Z index +:+ " has an invalid assistant text delta")) else
          Ok (mk_droid (ds_messages st) (ds_provenance st) (pending_user st) (add_delta (message_id, block_index) delta (ds_blocks st))
                (initialize_request_ids st))
      | _, _, _ => Raise (ValueError ("Droid Exec frame " +:+ str_of_Z index +:+ " has an invalid assistant text delta"))
      end
  end.
(** The end of a turn: only a completed one with an answer is taken over. *)
Definition droid_completed (st : droid_state) (index : Z) (notification : dict) : result droid_state :=
  match vget "reason" notification with
  | VStr reason =>
      let turn := match pending_user st, _coalesced_text (ds_blocks st) with
        | Some user, Some t => if String.eqb reason "completed" then [mk_imported "user" user; mk_imported "assistant" t] else []
        | _, _ => [] end in
      Ok (mk_droid (ds_messages st ++ turn) (ds_provenance st) None [] (initialize_request_ids st))
  | _ => Raise (ValueError ("Droid Exec frame " +:+ str_of_Z index +:+ " has an invalid turn completion"))
  end.
Definition droid_step (st : droid_state) (index : Z) (frame : value) : result droid_state :=
  frame ← as_object frame;
  direction ← member "direction" frame;
  message ← member "message" frame;
  message ← as_object message;
  let method := vget "method" message in
  let client := is_text "client-to-droid" direction in
  if client && is_text "droid.initialize_session" method then droid_initialize st index message
  else if client && is_text "droid.add_user_message" method then droid_user_message st index message
  else if negb (is_text "droid-to-client" direction) then Ok st else
  st ← droid_initialized st message;
  if negb (is_text "droid.session_notification" method) then Ok st else
  '(notification, type) ← _notification message index;
  if String.eqb type "assistant_text_delta" then droid_delta st index notification
  else if String.eqb type "agent_turn_completed" then droid_completed st index notification else Ok st.
Definition _import_stream (document : dict) : result (list imported * dict) :=
  frames ← member "frames" document;
  match frames with
  | VList l =>
      st ← each_numbered droid_step (mk_droid [] [] None [] []) l;
      match ds_messages st with
      | [] => Raise (ValueError "Droid Exec stream contains no completed conversational turns")
      | messages => Ok (messages, ds_provenance st)
      end
  | _ => Raise OutsideModel
  end.
Definition droid_metadata (kind : value) (provenance capture : dict) : dict :=
  let base := dict_update (importer_metadata "droid-exec-json" "droid" "json-import"
    ++ [("capture_format", VStr "ai-memory-hub.droid-exec-capture"); ("capture_version", VInt 1); ("capture_kind", kind)]) provenance in
  let base := _copy_nonempty (vget "model" capture) (_copy_nonempty (vget "cwd" capture) base "directory") "model" in
  set_if droid_number (vget "duration_ms" capture) "duration_ms" base.
Definition droid_exec_import `{SchemaValidator} (text : string) (source title : option string) : result (list dict) :=
  _ ← bounded _MAX_INPUT_BYTES "Droid Exec capture input exceeds 20000000 bytes" text;
  document ← loads_or "Droid Exec capture input must be valid JSON" text;
  if negb (is_valid "droid-exec-capture" document)
  then Raise (ValueError "Droid Exec capture must use the version 1 ai-memory-hub capture envelope") else
  document ← as_object document;
  kind ← member "kind" document;
  '(messages, provenance) ← (if is_text "one-shot" kind then _import_one_shot document else _import_stream document);
  let capture := default [] (as_dict (vget "metadata" document)) in
  let resolved_title := match nonempty title with Some t => Some t | None => _nonempty_string (vget "title" capture) end in
  time ← match vget "timestamp" capture with
    | VNone => Ok None
    | VStr s => match fromisoformat (replace "Z" "+00:00" s) with
                | Ok t => Ok (Some t) | Raise (ValueError _) => Raise (ValueError "Droid Exec capture timestamp is invalid") | Raise e => Raise e end
    | _ => Raise OutsideModel end;
  Ok [payload_of (or_source source "droid") messages (with_title resolved_title (droid_metadata kind provenance capture)) resolved_title time].

(** ** Pasted transcripts *)

Definition _SPEAKER_LINE_RE : pattern := re_compile_i
  "^(?P<speaker>User|You|Human|Assistant|AI|Bot|Copilot|Claude|Gemini|ChatGPT):\s?(?P<text>.*)$".
Definition _USER_SPEAKERS : list string := ["user"; "you"; "human"].
(** A line without a speaker goes on with the last message. *)
Definition paste_step (messages : list imported) (line : string) : result (list imported) :=
  match re_match_start _SPEAKER_LINE_RE line with
  | Some m =>
      let speaker := lower (group "speaker" line m) in
      Ok (messages ++ [mk_imported (if existsb (String.eqb speaker) _USER_SPEAKERS then "user" else "assistant") (group "text" line m)])
  | None =>
      match last messages with
      | None => if String.eqb (strip line) "" then Ok messages else Raise (ValueError "manual paste has text before the first speaker label")
      | Some current => Ok (removelast messages ++ [mk_imported (im_role current) (im_text current +:+ newline +:+ line)])
      end
  end.
Definition _parse_messages (text : string) : result (list imported) :=
  messages ← fold_result paste_step [] (splitlines text);
  match messages with
  | [] => Raise (ValueError "manual paste did not contain supported speaker labels")
  | _ => if existsb (λ m, String.eqb (strip (im_text m)) "") messages then Raise (ValueError "manual paste contains an empty message")
         else Ok messages
  end.
Definition manual_paste_import (text : string) (source title : option string) : result (list dict) :=
  _ ← bounded 5000000 "manual paste input exceeds 5000000 bytes" text;
  messages ← _parse_messages text;
  Ok [payload_of (or_source source "manual-paste") messages [("importer", VStr "manual")] (nonempty title) None].
