(* ===== verification/ImportHermes.v ===== *)
(** * Importers with overrides and exports ([memory/importers/hermes_session_jsonl.py],
    [qwen_code_session_export.py], [schema_override.py], [base.py], [registry.py]) *)
From Stdlib Require Import ZArith Lia Ascii.
From S2P Require Import Prelude PyStr Json Clock Hash PyFloat ConvStore Scope FactValidation Normalize Pydantic ImportBase ImportJsonl ImportPi ImportDocs.
Local Open Scope Z_scope.

(** ** Schema overrides *)

Definition MAX_SCHEMA_DEPTH : nat := 8.
Definition MAX_SCHEMA_PROPERTIES : Z := 64.
Definition MAX_SCHEMA_ARRAY_ITEMS : Z := 64.
Definition MAX_SCHEMA_STRING_LENGTH : Z := 512.
Definition _FORBIDDEN_KEYS : list string :=
  ["$ref"; "code"; "expression"; "file"; "filesystem"; "path"; "query"; "ref"; "regex"; "remote"; "script"; "template"; "uri"; "url"].
Definition forbidden_text (v : string) : bool :=
  contains "://" v || startswith "/" v || startswith "\" v || contains ".." v || contains "{{" v || contains "{%" v
  || contains "javascript:" (casefold v).
(** [depth] levels are left. *)
Fixpoint _validate_bounds (depth : nat) (v : value) : result unit :=
  let below (child : value) : result unit :=
    match depth with O => Raise (ValueError "schema nesting exceeds 8 levels") | S n => _validate_bounds n child end in
  match v with
  | VDict d =>
      if MAX_SCHEMA_PROPERTIES <? Z.of_nat (length d) then Raise (ValueError "schema object exceeds 64 properties") else
      _ ← map_result (λ kv, if existsb (String.eqb (casefold kv.1)) _FORBIDDEN_KEYS
                            then Raise (ValueError ("schema property " +:+ repr_str kv.1 +:+ " is not allowed")) else below kv.2) d;
      Ok tt
  | VList l =>
      if MAX_SCHEMA_ARRAY_ITEMS <? Z.of_nat (length l) then Raise (ValueError "schema array exceeds 64 items") else
      _ ← map_result below l; Ok tt
  | VStr s =>
      if MAX_SCHEMA_STRING_LENGTH <? str_len s then Raise (ValueError "schema string exceeds 512 characters") else
      if forbidden_text s then Raise (ValueError "schema contains a forbidden reference or template value") else Ok tt
  | _ => Ok tt
  end.
Definition validate_schema_override `{SchemaValidator} (schema : dict) (contract : option string) (parser : string) : result unit :=
  match contract with
  | None => Raise (ValueError (parser +:+ " does not support schema overrides"))
  | Some name =>
      match schema_issue name (VDict schema) with
      | None => Ok tt
      | Some (path, message) =>
          let at_path := if String.eqb (join "." path) "" then "" else " at " +:+ join "." path in
          Raise (ValueError ("schema is invalid for " +:+ parser +:+ at_path +:+ ": " +:+ message))
      end
  end.
(** Keys in the order of [sort_keys=True], at every level. *)
Fixpoint sort_keys (v : value) : value :=
  match v with
  | VDict d => VDict (sort_by (λ a b, String.leb a.1 b.1) (map (λ kv, (kv.1, sort_keys kv.2)) d))
  | VList l => VList (map sort_keys l)
  | _ => v
  end.
Definition schema_fingerprint `{HashLib} (schema : dict) : string :=
  "sha256:" +:+ sha256_hex (utf8_encode (json_dumps (sort_keys (VDict schema)))).
(** What the importer wrote about itself is replaced by the parser and the schema that were used. *)
Definition stamp_payload `{HashLib} (parser : string) (schema : option dict) (payload : dict) : dict :=
  let metadata := default [] (as_dict (vget "metadata" payload)) in
  let metadata := dict_set "import_schema_applied" (VBool (bool_decide (is_Some schema))) (dict_set "import_parser" (VStr parser) metadata) in
  let metadata := dict_pop "import_schema_version" (dict_pop "import_schema_fingerprint" metadata) in
  let metadata := match schema with
    | None => metadata
    | Some s =>
        let stamped := dict_set "import_schema_fingerprint" (VStr (schema_fingerprint s)) metadata in
        match vget "version" s with VInt _ | VBool _ => dict_set "import_schema_version" (vget "version" s) stamped | _ => stamped end
    end in
  dict_set "metadata" (VDict metadata) payload.
Definition stamp_import_provenance `{HashLib} (parser : string) (schema : option dict) (payloads : list dict) : list dict :=
  map (stamp_payload parser schema) payloads.

(** ** Hermes: overrides *)

(** [d.get(k)] and [k in d] of a key that may be any value *)
Definition key_in (k : value) (d : dict) : result bool := in_texts k (dict_keys d).
Definition copy_alias (source target : dict) (canonical : string) (alias : value) : dict :=
  match alias with
  | VStr a => match dict_get a source with Some v => dict_set canonical v target | None => target end
  | _ => target
  end.
Definition session_aliases : list (string * string) :=
  [("id", "session_id_field"); ("source", "source_field"); ("title", "title_field"); ("model", "model_field"); ("cwd", "cwd_field");
   ("git_repo_root", "git_repo_root_field"); ("git_branch", "git_branch_field"); ("parent_session_id", "parent_session_id_field")].
Definition value_at (k : value) (d : dict) : value := match k with VStr s => vget s d | _ => VNone end.
Definition _override_message (schema : dict) (message : value) : result value :=
  match message with
  | VDict m =>
      let role_field := vget_or "role_field" (VStr "role") schema in
      let content_field := vget_or "content_field" (VStr "content") schema in
      has_role ← key_in role_field m;
      normalized ← (if negb has_role then Ok m else
        let role := value_at role_field m in
        match vget_or "role_map" (VDict []) schema with
        | VDict role_map =>
            known ← key_in role role_map;
            Ok (dict_set "role" (if negb known then role else value_at role role_map) m)
        | _ => Ok (dict_set "role" role m)
        end);
      has_content ← key_in content_field m;
      Ok (VDict (if negb has_content then normalized else dict_set "content" (value_at content_field m) normalized))
  | _ => Ok message
  end.
(** The [repr] of the float nearest to [n / 10^k], of at most 15 digits. *)
Fixpoint trim_zeros (k : nat) (n : Z) : nat * Z :=
  match k with
  | S (S _ as k') => if n mod 10 =? 0 then trim_zeros k' (n / 10) else (k, n)
  | _ => (k, n)
  end.
Definition decimal_float (k : nat) (n : Z) : result value :=
  let '(k, m) := trim_zeros k (Z.abs n) in
  let t := (if n <? 0 then "-" else "") +:+ str_of_Z (m / 10 ^ Z.of_nat k) +:+ "." +:+ pad k (m mod 10 ^ Z.of_nat k) in
  if float_text t then Ok (VFloat t) else Raise OutsideModel.
(** A naive time is read in the zone of the host, which is not modelled. *)
Definition _override_timestamp (v format_name : value) (message : string) : result value :=
  let invalid_time := Raise (ValueError message) in
  if is_text "iso8601" format_name then
    match v with
    | VStr s => match fromisoformat (replace "Z" "+00:00" s) with
                | Ok t => if bool_decide (is_Some (dt_offset t)) then decimal_float 6 (utc_us t) else Raise OutsideModel
                | Raise (ValueError _) => invalid_time
                | Raise e => Raise e
                end
    | _ => invalid_time
    end
  else
    let milliseconds := is_text "unix_milliseconds" format_name in
    match v with
    | VInt z => if milliseconds then decimal_float 3 z else decimal_float 1 (10 * z)
    | VFloat t => if milliseconds then Raise OutsideModel else Ok v
    | _ => invalid_time
    end.
Definition _apply_override (schema : dict) (record : dict) (line_number : Z) : result dict :=
  let normalized := foldl (λ t a, copy_alias record t a.1 (vget a.2 schema)) record session_aliases in
  normalized ← match vget "timestamp" schema with
    | VDict timestamp =>
        field ← item "field" timestamp;
        has_field ← key_in field record;
        if negb has_field then Ok normalized else
        format_name ← item "format" timestamp;
        started_at ← _override_timestamp (value_at field record) format_name
          ("Hermes session timestamp override on line " +:+ str_of_Z line_number +:+ " is invalid");
        Ok (dict_set "started_at" started_at normalized)
    | _ => Ok normalized end;
  match value_at (vget_or "message_container" (VStr "messages") schema) record with
  | VNone => Ok normalized
  | VList raw_messages => messages ← map_result (_override_message schema) raw_messages; Ok (dict_set "messages" (VList messages) normalized)
  | _ => Raise (ValueError ("Hermes session message container on line " +:+ str_of_Z line_number +:+ " must be an array"))
  end.

(** ** Hermes: sessions *)

Section hermes.
Context `{SchemaValidator}.
Definition hermes_session_fields : list model_field :=
  [required "id" read_text; required "messages" read_list; optional_text_field "source"; optional_text_field "model";
   optional_text_field "title"; mk_field "started_at" (Some VNone) (optional read_float); optional_text_field "cwd";
   optional_text_field "git_repo_root"; optional_text_field "git_branch"; optional_text_field "parent_session_id"].
Definition hermes_validate (definition place : string) (line_number : Z) (record : dict) : result unit :=
  match schema_issue ("hermes-session-export/" +:+ definition) (VDict record) with
  | Some issue => Raise (_schema_error ("Hermes session " +:+ place +:+ " on line " +:+ str_of_Z line_number) issue)
  | None => Ok tt
  end.
Definition _is_visible (message : dict) : result bool :=
  inactive ← in_number (vget_or "active" (VBool true) message) 0;
  if negb inactive then Ok true else in_number (vget_or "compacted" (VBool false) message) 1.
(** The blocks may be texts; the schema has refused every other content. *)
Definition hermes_block_text (block : value) : result (option string) :=
  match block with
  | VStr s => Ok (nonblank_text s)
  | VDict d =>
      named ← in_texts (vget "type" d) ["text"];
      let v := if truthy (vget "text" d) then vget "text" d else vget "content" d in
      Ok (if is_none (vget "type" d) || named then match v with VStr s => nonblank_text s | _ => None end else None)
  | _ => Ok None
  end.
Definition hermes_message_text (content : value) : result (option string) :=
  match content with
  | VStr s => Ok (nonblank_text s)
  | VList blocks => parts ← map_result hermes_block_text blocks; Ok (join_parts (omap id parts))
  | _ => Raise OutsideModel
  end.
(** Messages and the identities seen. *)
Definition hermes_step (line_number : Z) (st : list imported * list string) (index : Z) (raw : value) : result (list imported * list string) :=
  let '(messages, seen) := st in
  match raw with
  | VDict message =>
      if negb (is_valid "hermes-session-export/messageCandidate" raw) then Ok st else
      _ ← hermes_validate "importableMessage" ("message " +:+ str_of_Z index) line_number message;
      visible ← _is_visible message;
      summary ← (if negb visible then Ok false else in_number (vget "_compressed_summary" message) 1);
      if negb visible || summary then Ok st else
      role ← item "role" message;
      known ← in_texts role ["user"; "assistant"];
      if negb known then Ok st else
      content ← item "content" message;
      message_text ← hermes_message_text content;
      match message_text with
      | None => Ok st
      | Some t =>
          match _nonempty_string (vget "message_uid" message) with
          | Some identity => if existsb (String.eqb identity) seen then Ok st else Ok (messages ++ [mk_imported (py_str role) t], seen ++ [identity])
          | None => Ok (messages ++ [mk_imported (py_str role) t], seen)
          end
      end
  | _ => Ok st
  end.
Definition hermes_metadata (session : dict) (title : option string) : dict :=
  with_title title (foldl (λ t m, _copy_nonempty (vget m.1 session) t m.2)
    (importer_metadata "hermes-session-jsonl" "hermes" "jsonl-import" ++ [("source_session_id", vget "id" session)])
    [("source", "hermes_source"); ("model", "model"); ("cwd", "directory"); ("git_repo_root", "git_repo_root"); ("git_branch", "git_branch");
     ("parent_session_id", "parent_session_id")]).
Definition started_at (session : dict) : result (option datetime) :=
  match vget "started_at" session with
  | VFloat t => x ← float_of_text t;
                time ← fromtimestamp ("Hermes session " +:+ repr_str (text_of "id" session) +:+ " started_at is invalid") x; Ok (Some time)
  | _ => Ok None
  end.
Definition hermes_payload (session : dict) (line_number : Z) (source title : option string) : result dict :=
  '(messages, _) ← each_numbered (hermes_step line_number) ([], []) (default [] (as_list (vget "messages" session)));
  match messages with
  | [] => Raise (ValueError ("Hermes session " +:+ repr_str (text_of "id" session) +:+ " on line " +:+ str_of_Z line_number
                             +:+ " contains no conversational text"))
  | _ =>
      let resolved_title := match nonempty title with Some t => Some t | None => _nonempty_string (vget "title" session) end in
      time ← started_at session;
      Ok (payload_of (or_source source "hermes") messages (hermes_metadata session resolved_title) resolved_title time)
  end.
(** Payloads and the ids of their sessions. *)
Definition hermes_record (source title : option string) (st : list dict * list string) (record : dict * Z) : result (list dict * list string) :=
  let '(payloads, seen) := st in
  _ ← hermes_validate "sessionRecord" "record" record.2 record.1;
  session ← model_or hermes_session_fields ("Hermes session on line " +:+ str_of_Z record.2 +:+ " is invalid") record.1;
  let id := text_of "id" session in
  if existsb (String.eqb id) seen
  then Raise (ValueError ("Hermes session line " +:+ str_of_Z record.2 +:+ " duplicates session id " +:+ repr_str id)) else
  payload ← hermes_payload session record.2 source title;
  Ok (payloads ++ [payload], seen ++ [id]).
Definition hermes_records (text : string) : result (list (dict * Z)) :=
  _ ← bounded _MAX_INPUT_BYTES "Hermes session input exceeds 20000000 bytes" text;
  _parse_records "Hermes session" "Hermes session input is empty" text.
Definition _import_records (records : list (dict * Z)) (source title : option string) : result (list dict) :=
  st ← fold_result (hermes_record source title) ([], []) records; Ok st.1.
Definition hermes_session_import (text : string) (source title : option string) : result (list dict) :=
  records ← hermes_records text; _import_records records source title.
Definition hermes_import_with_schema (text : string) (schema : option dict) (source title : option string) : result (list dict) :=
  match schema with
  | None => hermes_session_import text source title
  | Some s =>
      _ ← bounded _MAX_INPUT_BYTES "Hermes session input exceeds 20000000 bytes" text;
      _ ← validate_schema_override s (Some "hermes-session-import-override") "hermes-session-jsonl";
      records ← _parse_records "Hermes session" "Hermes session input is empty" text;
      records ← map_result (λ r, d ← _apply_override s r.1 r.2; Ok (d, r.2)) records;
      _import_records records source title
  end.
End hermes.
