(* ===== verification/Importers.v ===== *)
(** * Exports of Qwen Code and of Copilot, and the registry
    ([memory/importers/qwen_code_session_export.py], [copilot_activity_csv.py],
    [registry.py], [base.py])

    An export of Qwen Code is one document with its messages, or JSON lines behind
    an optional record of metadata.  The activity history of Copilot is CSV: a
    reader as Python's [csv] with the default dialect, the rows grouped by their
    conversation and put in the order of their times.  The importers by their
    names. *)
From Stdlib Require Import ZArith Lia Ascii.
From S2P Require Import Prelude PyStr Json Hash Clock Scope Normalize ConvStore FactValidation Pydantic ImportBase ImportJsonl ImportPi ImportDocs ImportHermes.
Local Open Scope Z_scope.

(** * Qwen Code sessions *)

Section qwen.
Context `{SchemaValidator}.
Definition qwen_validate (definition place : string) (record : dict) : result unit :=
  _validate_record ("qwen-code-session-export/" +:+ definition) ("Qwen Code session " +:+ place) (VDict record).
Definition read_dict : reader := λ v, match v with VDict _ => Ok v | _ => validation_error end.
Definition session_document_fields : list model_field :=
  [required "sessionId" read_text; required "startTime" read_text; required "messages" read_list; mk_field "metadata" (Some VNone) (optional read_dict)].
Definition session_metadata_fields : list model_field :=
  [required "type" read_text; required "sessionId" read_text; required "startTime" read_text; optional_text_field "exportTime";
   optional_text_field "cwd"; optional_text_field "gitRepo"; optional_text_field "gitBranch"; optional_text_field "model";
   optional_text_field "channel"].
Definition qwen_envelope_fields : list model_field :=
  [optional_text_field "role"; optional_text_field "content"; mk_field "parts" (Some VNone) (optional read_list)].
Definition export_message_fields : list model_field :=
  [required "uuid" read_text; optional_text_field "parentUuid"; optional_text_field "sessionId"; required "timestamp" read_text;
   required "type" read_text; required "message" (read_open_model qwen_envelope_fields); optional_text_field "model"].

(** ** Messages *)

(** Other records are not messages. *)
Definition qwen_parse_message (record : dict) (location : string) : result (option dict) :=
  if negb (is_valid "qwen-code-session-export/messageCandidate" (VDict record)) then Ok None else
  _ ← qwen_validate "importableMessage" ("message " +:+ location) record;
  parsed ← model_or export_message_fields ("Qwen Code session " +:+ location +:+ " is invalid") record;
  Ok (Some parsed).
Definition qwen_part (location : string) (part : value) : result (option string) :=
  match part with
  | VDict d =>
      match vget "text" d with
      | VStr s => Ok (nonblank_text s)
      | _ => Raise (ValueError ("Qwen Code session " +:+ location +:+ " has a non-text text part"))
      end
  | _ => Raise (ValueError ("Qwen Code session " +:+ location +:+ " has an invalid text part"))
  end.
Definition qwen_message_text (envelope : dict) (location : string) : result (option string) :=
  match _nonempty_string (vget "content" envelope) with
  | Some content => Ok (Some content)
  | None =>
      match vget "parts" envelope with
      | VList parts => texts ← map_result (qwen_part location) parts; Ok (join_parts (omap id texts))
      | _ => Ok None
      end
  end.
Record qwen_state := mk_qwen { qs_messages : list imported; qs_times : list datetime; qs_seen : list string; qs_model : option string }.
Definition qwen_step (st : qwen_state) (record : dict * string) : result qwen_state :=
  let '(record, location) := record in
  parsed ← qwen_parse_message record location;
  match parsed with
  | None => Ok st
  | Some parsed =>
      let uuid := text_of "uuid" parsed in
      if existsb (String.eqb uuid) (qs_seen st) then Ok st else
      content ← qwen_message_text (default [] (as_dict (vget "message" parsed))) location;
      match content with
      | None => Ok st
      | Some content =>
          let type := text_of "type" parsed in
          timestamp ← _timestamp ("Qwen Code session " +:+ location +:+ " timestamp is invalid") (vget "timestamp" parsed);
          Ok (mk_qwen (qs_messages st ++ [mk_imported type content]) (qs_times st ++ option_list timestamp) (qs_seen st ++ [uuid])
                (match qs_model st with
                 | Some m => Some m
                 | None => if String.eqb type "assistant" then _nonempty_string (vget "model" parsed) else None
                 end))
      end
  end.
Definition qwen_metadata (provenance : dict) (export_format : string) (model title : option string) : dict :=
  let base := importer_metadata "qwen-code-session-export" "qwen-code" (export_format +:+ "-import") ++ [("export_format", VStr export_format)] in
  let base := foldl (λ t m, _copy_nonempty (vget m.1 provenance) t m.2) base
    [("sessionId", "source_session_id"); ("cwd", "directory"); ("gitRepo", "git_repository"); ("gitBranch", "git_branch"); ("channel", "channel")] in
  with_title title (match model with Some m => dict_set "model" (VStr m) base | None => base end).
Definition qwen_payload (records : list (dict * string)) (provenance : dict) (export_format : string) (source title : option string) : result dict :=
  st ← fold_result qwen_step (mk_qwen [] [] [] (_nonempty_string (vget "model" provenance))) records;
  match qs_messages st with
  | [] => Raise (ValueError "Qwen Code session contains no conversational text")
  | messages =>
      session_time ← _timestamp "Qwen Code session start time is invalid" (vget "startTime" provenance);
      Ok (payload_of (or_source source "qwen-code") messages (qwen_metadata provenance export_format (qs_model st) (nonempty title))
            (nonempty title) (first_time session_time (qs_times st)))
  end.

(** ** A document *)

Definition _json_document (text : string) : result (option dict) :=
  match json_loads text with
  | Raise (ValueError _) => Ok None
  | Raise e => Raise e
  | Ok (VDict d) =>
      Ok (if dict_has "messages" d || dict_has "sessionId" d && dict_has "startTime" d && negb (dict_has "type" d) then Some d else None)
  | Ok _ => Raise (ValueError "Qwen Code session JSON must be an object")
  end.
Definition numbered_record (label : string) (nv : Z * value) : result (dict * string) :=
  let location := label +:+ " " +:+ str_of_Z nv.1 in
  match nv.2 with VDict d => Ok (d, location) | _ => Raise (ValueError ("Qwen Code session " +:+ location +:+ " must be an object")) end.
Definition _numbered_records (values : list value) (label : string) : result (list (dict * string)) :=
  map_result (numbered_record label) (enumerate 1 values).
Definition _import_json_document (document : dict) (source title : option string) : result dict :=
  _ ← qwen_validate "sessionDocument" "JSON document" document;
  parsed ← model_or session_document_fields "Qwen Code session JSON document is invalid" document;
  let metadata := default [] (as_dict (vget "metadata" parsed)) in
  let provenance := dict_set "startTime" (vget "startTime" parsed) (dict_set "sessionId" (vget "sessionId" parsed) metadata) in
  records ← _numbered_records (default [] (as_list (vget "messages" parsed))) "message";
  qwen_payload records provenance "json" source title.

(** ** JSON lines *)

(** [model_dump(exclude_none=True)] *)
Definition exclude_none (d : dict) : dict := List.filter (λ kv, negb (is_none kv.2)) d.
Definition _parse_metadata (record : dict) (line_number : Z) : result dict :=
  _ ← qwen_validate "sessionMetadata" ("metadata line " +:+ str_of_Z line_number) record;
  model_or session_metadata_fields ("Qwen Code session metadata on line " +:+ str_of_Z line_number +:+ " is invalid") record.
(** The records and the metadata, if it has been seen. *)
Definition qwen_line (st : list (dict * string) * option dict) (line : Z * string) : result (list (dict * string) * option dict) :=
  let '(records, metadata) := st in
  '(record, line_number) ← parse_line "Qwen Code session" line;
  if is_text "session_metadata" (vget "type" record) then
    if bool_decide (is_Some metadata) then Raise (ValueError "Qwen Code session metadata is duplicated") else
    match records with
    | [] => parsed ← _parse_metadata record line_number; Ok ([], Some (dict_pop "type" (exclude_none parsed)))
    | _ => Raise (ValueError "Qwen Code session metadata must be the first record")
    end
  else Ok (records ++ [(record, "line " +:+ str_of_Z line_number)], metadata).
Definition _import_jsonl (text : string) (source title : option string) : result dict :=
  '(records, metadata) ← fold_result qwen_line ([], None) (numbered_lines text);
  match records, metadata with
  | [], None => Raise (ValueError "Qwen Code session is empty")
  | _, _ => qwen_payload records (default [] metadata) "jsonl" source title
  end.
Definition qwen_code_import (text : string) (source title : option string) : result (list dict) :=
  _ ← bounded _MAX_INPUT_BYTES "Qwen Code session input exceeds 20000000 bytes" text;
  document ← _json_document text;
  payload ← match document with
    | Some d => _import_json_document d source title
    | None => _import_jsonl text source title end;
  Ok [payload].
End qwen.

(** * The activity history of Copilot *)

(** ** [csv.reader] *)

Inductive csv_mode := START_RECORD | START_FIELD | IN_FIELD | IN_QUOTED_FIELD | QUOTE_IN_QUOTED_FIELD | EAT_CRNL.
#[export] Instance csv_mode_eq_dec : EqDecision csv_mode.
Proof. solve_decision. Defined.
(** The mode, the characters of the field and the fields before it. *)
Record csv_state := mk_csv { csv_at : csv_mode; csv_field : list ascii; csv_fields : list string }.
Definition csv_start : csv_state := mk_csv START_RECORD [] [].
Definition field_size_limit : nat := Z.to_nat 131072.
Definition is_newline (c : ascii) : bool := Ascii.eqb c "010" || Ascii.eqb c "013".
Definition csv_error {A} (message : string) : result A := Raise (CsvError message).
Definition save_field (st : csv_state) (mode : csv_mode) : csv_state :=
  mk_csv mode [] (csv_fields st ++ [String.string_of_list_ascii (rev (csv_field st))]).
Definition add_char (st : csv_state) (mode : csv_mode) (c : ascii) : result csv_state :=
  if (field_size_limit <=? length (csv_field st))%nat then csv_error "field larger than field limit (131072)"
  else Ok (mk_csv mode (c :: csv_field st) (csv_fields st)).
Definition to_mode (st : csv_state) (mode : csv_mode) : csv_state := mk_csv mode (csv_field st) (csv_fields st).
Definition start_field (st : csv_state) (c : ascii) : result csv_state :=
  if is_newline c then Ok (save_field st EAT_CRNL)
  else if Ascii.eqb c dquote then Ok (to_mode st IN_QUOTED_FIELD)
  else if Ascii.eqb c "," then Ok (save_field st START_FIELD)
  else add_char st IN_FIELD c.
Definition csv_char (st : csv_state) (c : ascii) : result csv_state :=
  match csv_at st with
  | START_RECORD => if is_newline c then Ok (to_mode st EAT_CRNL) else start_field st c
  | START_FIELD => start_field st c
  | IN_FIELD =>
      if is_newline c then Ok (save_field st EAT_CRNL)
      else if Ascii.eqb c "," then Ok (save_field st START_FIELD) else add_char st IN_FIELD c
  | IN_QUOTED_FIELD =>
      if Ascii.eqb c dquote then Ok (to_mode st QUOTE_IN_QUOTED_FIELD) else add_char st IN_QUOTED_FIELD c
  | QUOTE_IN_QUOTED_FIELD =>
      if Ascii.eqb c dquote then add_char st IN_QUOTED_FIELD c
      else if Ascii.eqb c "," then Ok (save_field st START_FIELD)
      else if is_newline c then Ok (save_field st EAT_CRNL) else add_char st IN_FIELD c
  | EAT_CRNL =>
      if is_newline c then Ok st
      else csv_error "new-line character seen in unquoted field - do you need to open the file with newline=''?"
  end.
(** The end of a line *)
Definition csv_end_of_line (st : csv_state) : csv_state :=
  match csv_at st with
  | START_RECORD | EAT_CRNL => to_mode st START_RECORD
  | START_FIELD | IN_FIELD | QUOTE_IN_QUOTED_FIELD => save_field st START_RECORD
  | IN_QUOTED_FIELD => st
  end.
(** The lines of [io.StringIO(text, newline='')], with their ends. *)
Fixpoint raw_lines (line : list ascii) (s : list ascii) : list (list ascii) :=
  match s with
  | [] => match line with [] => [] | _ => [rev line] end
  | c :: s' =>
      let ends := Ascii.eqb c "010" || Ascii.eqb c "013" && negb (match s' with d :: _ => Ascii.eqb d "010" | [] => false end) in
      if ends then rev (c :: line) :: raw_lines [] s' else raw_lines (c :: line) s'
  end.
Definition csv_line (st : csv_state) (line : list ascii) : result csv_state := st ← fold_result csv_char st line; Ok (csv_end_of_line st).
(** The rows, and the error of the reader behind them. *)
Fixpoint csv_rows (st : csv_state) (lines : list (list ascii)) : list (list string) * option exc :=
  match lines with
  | [] => (match csv_at st with START_RECORD => [] | _ => [csv_fields (save_field st START_RECORD)] end, None)
  | line :: rest =>
      match csv_line st line with
      | Raise e => ([], Some e)
      | Ok st' =>
          match csv_at st' with
          | START_RECORD => let '(rows, e) := csv_rows csv_start rest in (csv_fields st' :: rows, e)
          | _ => csv_rows st' rest
          end
      end
  end.
Definition csv_reader (text : string) : list (list string) * option exc :=
  csv_rows csv_start (raw_lines [] (String.list_ascii_of_string text)).

(** ** Rows of an export *)

Definition _HEADERS : list string := ["Conversation"; "Time"; "Author"; "Message"].
Definition _ROLES : list (string * string) := [("Human", "user"); ("AI", "assistant")].
(** [row.get(header) or ''], for the header at this place *)
Definition column (i : nat) (row : list string) : string := default "" (row !! i).
Definition _parse_timestamp (v : string) (row : Z) : result datetime :=
  match fromisoformat (replace "Z" "+00:00" (strip v)) with
  | Ok t => Ok (match dt_offset t with Some _ => t | None => mk_datetime (dt_wall t) (Some 0) end)
  | Raise (ValueError _) => Raise (ValueError ("Copilot activity row " +:+ str_of_Z row +:+ " has an invalid time"))
  | Raise e => Raise e
  end.
(** A message with its time and its number. *)
Definition activity : Type := datetime * Z * imported.
Definition act_time (a : activity) : datetime := a.1.1.
Definition act_message (a : activity) : imported := a.2.
(** [item[:2]] compared, as [key] compares them *)
Definition activity_le (a b : activity) : bool :=
  (utc_us (act_time a) <? utc_us (act_time b)) || (utc_us (act_time a) =? utc_us (act_time b)) && (a.1.2 <=? b.1.2).
(** [grouped[conversation].append(entry)], the conversations in their order *)
Definition add_activity (conversation : string) (entry : activity) (grouped : list (string * list activity)) : list (string * list activity) :=
  dict_set conversation (default [] (dict_get conversation grouped) ++ [entry]) grouped.
Definition activity_row (grouped : list (string * list activity)) (nrow : Z * list string) : result (list (string * list activity)) :=
  let '(index, row) := nrow in
  let place := "Copilot activity row " +:+ str_of_Z (index + 2) in
  let conversation := strip (column 0 row) in
  let author := strip (column 2 row) in
  let message := column 3 row in
  if String.eqb conversation "" then Raise (ValueError (place +:+ " has no conversation")) else
  match dict_get author _ROLES with
  | None => Raise (ValueError (place +:+ " has unknown author: " +:+ author))
  | Some role =>
      if String.eqb (strip message) "" then Ok grouped else
      timestamp ← _parse_timestamp (column 1 row) (index + 2);
      Ok (add_activity conversation (timestamp, index, mk_imported role message) grouped)
  end.
Definition activity_payload (source title : option string) (group : string * list activity) : dict :=
  let '(conversation, rows) := group in
  let rows := sort_by activity_le rows in
  [("source", VStr (or_source source "microsoft-copilot")); ("title", VStr (or_source title conversation));
   ("timestamp", match rows with first :: _ => VStr (datetime_text (act_time first)) | [] => VNone end);
   ("messages", VList (map message_value (map act_message rows)));
   ("metadata", VDict (importer_metadata "copilot-activity-csv" "web" "csv-import"))].
(** [csv.DictReader] passes over empty rows behind the headers. *)
Definition data_rows (rows : list (list string)) : list (Z * list string) :=
  enumerate 0 (List.filter (λ row, negb (bool_decide (row = []))) rows).
Definition copilot_activity_import (text : string) (source title : option string) : result (list dict) :=
  _ ← bounded _MAX_INPUT_BYTES "Copilot activity input exceeds 20000000 bytes" text;
  let no_headers := Raise (ValueError ("Copilot activity CSV must have headers: " +:+ join ", " _HEADERS)) in
  match csv_reader text with
  | ([], Some e) => Raise e
  | ([], None) => no_headers
  | (headers :: rows, failure) =>
      if negb (bool_decide (headers = _HEADERS)) then no_headers else
      grouped ← fold_result activity_row [] (data_rows rows);
      match failure, grouped with
      | Some e, _ => Raise e
      | None, [] => Raise (ValueError "Copilot activity CSV contains no messages")
      | None, _ => Ok (map (activity_payload source title) grouped)
      end
  end.

Definition quoted (s : string) : string := char_str dquote +:+ s +:+ char_str dquote.
Definition crlf : string := char_str (chr 13) +:+ newline.
Example quoted_cells : csv_reader ("a," +:+ quoted ("b, " +:+ quoted (quoted "c") +:+ newline +:+ "d") +:+ ",e" +:+ crlf +:+ crlf +:+ "f") =
  ([["a"; "b, " +:+ quoted "c" +:+ newline +:+ "d"; "e"]; []; ["f"]], None).
Proof. vm_compute. reflexivity. Qed.
Definition sample_csv : string :=
  "Conversation,Time,Author,Message" +:+ crlf +:+ "Plan,2026-01-02T10:00:00Z,AI,Ship it" +:+ crlf +:+ "Plan,2026-01-02T09:00:00,Human,What next?" +:+ crlf
  +:+ "Plan,2026-01-02T11:00:00,Human," +:+ crlf.
Example sample_conversation : copilot_activity_import sample_csv None None =
  Ok [[("source", VStr "microsoft-copilot"); ("title", VStr "Plan"); ("timestamp", VStr "2026-01-02T09:00:00+00:00");
       ("messages", VList [message_value (mk_imported "user" "What next?"); message_value (mk_imported "assistant" "Ship it")]);
       ("metadata", VDict [("importer", VStr "copilot-activity-csv"); ("platform", VStr "web"); ("ingestion_method", VStr "csv-import")])]].
Proof. vm_compute. reflexivity. Qed.

(** * The importers by their names *)

(** Text, source and title to payloads; with a schema, for the importers that
    have a contract for one. *)
Definition import_function : Type := string → option string → option string → result (list dict).
Record ConversationImporter := mk_importer {
  im_name : string; import_text : import_function;
  schema_override_schema : option string;
  with_schema : option (string → option dict → option string → option string → result (list dict)) }.
Definition plain_importer (name : string) (f : import_function) : ConversationImporter := mk_importer name f None None.
Definition import_text_with_schema (i : ConversationImporter) (text : string) (schema : option dict) (source title : option string) : result (list dict) :=
  match with_schema i, schema with
  | Some f, _ => f text schema source title
  | None, Some _ => Raise (ValueError (im_name i +:+ " does not support schema overrides"))
  | None, None => import_text i text source title
  end.

Section registry.
Context `{SchemaValidator}.
Definition _IMPORTERS : list ConversationImporter :=
  [plain_importer "claude-code-session-jsonl" claude_code_import; plain_importer "codex-rollout-jsonl" codex_rollout_import;
   plain_importer "copilot-activity-csv" copilot_activity_import; plain_importer "copilot-cli-events-jsonl" copilot_cli_import;
   plain_importer "deepseek-harness-session-jsonl" deepseek_harness_import; plain_importer "deepseek-share-json" deepseek_share_import;
   plain_importer "droid-exec-json" droid_exec_import; plain_importer "gemini-cli-session-json" gemini_cli_import;
   mk_importer "hermes-session-jsonl" hermes_session_import (Some "hermes-session-import-override") (Some hermes_import_with_schema);
   plain_importer "manual" manual_paste_import; plain_importer "opencode-session-json" opencode_session_import;
   plain_importer "pi-session-jsonl" pi_session_import; plain_importer "qwen-code-session-export" qwen_code_import].
Definition importer_names : list string := sorted_strs (map im_name _IMPORTERS).
Definition get_importer (name : string) : result ConversationImporter :=
  from_option_err (ValueError ("unknown importer: " +:+ name +:+ "; supported importers: " +:+ join ", " importer_names))
    (List.find (λ i, String.eqb (im_name i) name) _IMPORTERS).
End registry.
