(* ===== verification/ImportFacts.v ===== *)
(** * Imported payloads, proved

    Every payload that an importer of the registry returns has messages, each of
    the user or of the assistant and none of them blank, a source, and the name of
    its importer in its metadata. *)
From Stdlib Require Import ZArith Lia Ascii Sorted.
From S2P Require Import Prelude PyStr Json Hash Clock PyFloat ConvStore Scope Regex FactValidation Normalize Pydantic ImportBase ImportJsonl ImportPi ImportDocs ImportHermes Importers.
Local Open Scope Z_scope.

(** ** Texts that are not blank *)

Definition blank (s : string) : Prop := strip s = "".
Lemma lstrip_all p s : sall p s = true → lstrip_by p s = "".
Proof. induction s as [|c s IH]; cbn; [done|]. intros [Hc Hs]%andb_true_iff. rewrite Hc. auto. Qed.
Lemma rstrip_nil p s : rstrip_by p s = "" → sall p s = true.
Proof.
  induction s as [|c s IH]; cbn; [done|]. destruct (rstrip_by p s); [|discriminate]. destruct (p c); [|discriminate]. intros _. by rewrite IH.
Qed.
Lemma lstrip_nil p s : sall p (lstrip_by p s) = true → sall p s = true.
Proof. induction s as [|c s IH]; cbn; [done|]. destruct (p c) eqn:E; [auto|]. cbn. by rewrite E. Qed.
Lemma blank_all s : blank s ↔ sall is_space s = true.
Proof.
  unfold blank, strip, strip_by. split; [intros H; by apply lstrip_nil, rstrip_nil|]. intros H. by rewrite (lstrip_all _ _ H).
Qed.
Lemma blank_app a b : blank (a +:+ b) ↔ blank a ∧ blank b.
Proof. by rewrite !blank_all, sall_app, andb_true_iff. Qed.
Lemma blank_join sep parts : blank (join sep parts) → Forall blank parts.
Proof.
  induction parts as [|x [|y l] IH]; intros H; [constructor|by constructor|]. change (blank (x +:+ sep +:+ join sep (y :: l))) in H.
  apply blank_app in H as [Hx [_ Hl]%blank_app]. constructor; auto.
Qed.
Lemma nonblank_text_spec s t : nonblank_text s = Some t → t = s ∧ ¬ blank t.
Proof. unfold nonblank_text. destruct (String.eqb _ _) eqn:E; intros [= <-]. by apply String.eqb_neq in E. Qed.
Lemma nonempty_string_spec v t : _nonempty_string v = Some t → ¬ blank t.
Proof.
  destruct v; try discriminate. cbn. destruct (String.eqb _ _) eqn:E; intros [= <-]. apply String.eqb_neq in E. unfold blank. by rewrite strip_idem.
Qed.
Lemma join_parts_spec parts t : (∀ s, s ∈ parts → ¬ blank s) → join_parts parts = Some t → ¬ blank t.
Proof.
  intros Hp Ht Hb. unfold join_parts in Ht. destruct parts as [|x l]; [discriminate|]. assert (Heq : t = join (newline +:+ newline) (x :: l)) by congruence. subst t.
  apply blank_join, Forall_cons in Hb as [Hx _]. apply (Hp x); [apply list_elem_of_here|done].
Qed.
Lemma elem_of_omap_id {A} (x : A) (l : list (option A)) : x ∈ omap id l → Some x ∈ l.
Proof. intros (y & Hy & Hx)%list_elem_of_omap. cbn in Hx. by subst y. Qed.
(** Parts that are read one by one *)
Lemma parts_spec {A} (f : A → result (option string)) l parts t : (∀ x s, f x = Ok (Some s) → ¬ blank s) →
  map_result f l = Ok parts → join_parts (omap id parts) = Some t → ¬ blank t.
Proof.
  intros Hf Hm. apply join_parts_spec. intros s Hs%elem_of_omap_id. apply map_result_Forall2 in Hm.
  destruct (list_elem_of_lookup_1 _ _ Hs) as [i Hi]. destruct (Forall2_lookup_r _ _ _ _ _ Hm Hi) as (x & _ & Hx). by eapply Hf.
Qed.
Lemma text_blocks_spec f m l t : text_blocks f m l = Ok (Some t) → ¬ blank t.
Proof.
  intros (parts & Hp & [= Ht])%bind_Ok. revert Hp Ht. apply parts_spec. intros b s Hb. destruct b as [| | | | | |d]; try discriminate Hb. revert Hb. cbn.
  destruct (f d) as [[]|]; cbn; try discriminate. destruct (vget "text" d); try discriminate. intros [= Hs]. by apply nonblank_text_spec in Hs as [_ ?].
Qed.

(** ** Payloads *)

Definition good_message (m : imported) : Prop := im_role m ∈ ["user"; "assistant"] ∧ ¬ blank (im_text m).
Definition good_messages (l : list imported) : Prop := l ≠ [] ∧ Forall good_message l.
(** What ingestion relies on. *)
Record good_payload (name : string) (p : dict) : Prop := {
  gp_messages : ∃ l, vget "messages" p = VList (map message_value l) ∧ good_messages l;
  gp_source : ∃ s, vget "source" p = VStr s ∧ s ≠ "";
  gp_importer : ∃ d, vget "metadata" p = VDict d ∧ vget "importer" d = VStr name }.

Lemma or_source_nonempty source dflt : dflt ≠ "" → or_source source dflt ≠ "".
Proof. unfold or_source, nonempty. destruct source as [s|]; [|done]. destruct (String.eqb s "") eqn:E; [done|]. by apply String.eqb_neq in E. Qed.
Lemma payload_get k source messages metadata title time : k ≠ "title" → k ≠ "timestamp" →
  dict_get k (payload_of source messages metadata title time) =
  dict_get k [("source", VStr source); ("messages", VList (map message_value messages)); ("metadata", VDict metadata)].
Proof.
  intros H1 H2. unfold payload_of, with_timestamp, with_title. destruct time, title; rewrite ?dict_get_set_ne by done; done.
Qed.
Lemma payload_good name source messages metadata title time :
  source ≠ "" → good_messages messages → vget "importer" metadata = VStr name → good_payload name (payload_of source messages metadata title time).
Proof.
  intros Hs Hm Hi. split; unfold vget; rewrite payload_get by done; cbn; eauto.
Qed.
Lemma titled_good name title p : good_payload name p → good_payload name (with_title title p).
Proof. intros [H1 H2 H3]. destruct title; [|done]. split; unfold vget, with_title; rewrite dict_get_set_ne by done; assumption. Qed.

(** The name of the importer is under a key that nothing else writes. *)
Lemma copy_nonempty_get k v t k' : k ≠ k' → dict_get k (_copy_nonempty v t k') = dict_get k t.
Proof. intros H. unfold _copy_nonempty. destruct (_nonempty_string v); [by apply dict_get_set_ne|done]. Qed.
Lemma setdefault_get_ne k k' v (d : dict) : k ≠ k' → dict_get k (dict_setdefault k' v d) = dict_get k d.
Proof. intros H. unfold dict_setdefault. case_match; [done|by apply dict_get_set_ne]. Qed.
Lemma copy_value_get k v t k' : k ≠ k' → dict_get k (_copy_value v t k') = dict_get k t.
Proof. intros H. unfold _copy_value. destruct (_nonempty_string v); [by apply setdefault_get_ne|done]. Qed.
Lemma title_get k title d : k ≠ "title" → dict_get k (with_title title d) = dict_get k d.
Proof. intros H. destruct title; [by apply dict_get_set_ne|done]. Qed.
Lemma update_get k (e d : dict) : dict_get k e = None → dict_get k (dict_update d e) = dict_get k d.
Proof. intros H%dict_get_None. by rewrite dict_update_absent. Qed.
Lemma copies_get k (copy : value → dict → string → dict) (l : list (string * string)) src :
  (∀ v t k', k ≠ k' → dict_get k (copy v t k') = dict_get k t) → k ∉ map snd l →
  ∀ t, dict_get k (foldl (λ t m, copy (vget m.1 src) t m.2) t l) = dict_get k t.
Proof.
  intros Hc. induction l as [|m l IH]; intros Hk t; [done|]. cbn in Hk |- *. apply not_elem_of_cons in Hk as [Hne Hk]. rewrite IH by done. by apply Hc.
Qed.
Create HintDb importer discriminated.
#[export] Hint Rewrite copy_nonempty_get copy_value_get title_get @dict_get_set_ne setdefault_get_ne using done : importer.

(** ** Importers of JSON lines *)

(** What the schemas of two importers say of the type of a message. *)
Class SchemaContract `{SchemaValidator} : Prop := {
  claude_type r : is_valid "claude-code-session/messageCandidate" (VDict r) = true → vget "type" r = VStr "user" ∨ vget "type" r = VStr "assistant";
  qwen_type r : is_valid "qwen-code-session-export/messageCandidate" (VDict r) = true → vget "type" r = VStr "user" ∨ vget "type" r = VStr "assistant" }.

Lemma snoc_good l r t : Forall good_message l → r ∈ ["user"; "assistant"] → ¬ blank t → Forall good_message (l ++ [mk_imported r t]).
Proof. intros Hl Hr Ht. apply Forall_app. split; [done|]. by constructor. Qed.
Lemma good_of l : Forall good_message l → match l with [] => False | _ => True end → good_messages l.
Proof. intros Hl Hn. split; [by destruct l|done]. Qed.
Lemma is_user_or_assistant r : existsb (String.eqb r) ["user"; "assistant"] = true → r ∈ ["user"; "assistant"].
Proof. apply existsb_eqb_elem. Qed.
(** The names of a model's fields differ, and a field is one of them. *)
Ltac distinct := apply (bool_decide_unpack _); vm_compute; exact I.
Ltac member := unfold entry_fields; cbn; repeat first [apply list_elem_of_here | apply list_elem_of_further].
Lemma Ok_inj {A} (a b : A) : Ok a = Ok b → a = b.
Proof. by intros [= ->]. Qed.
Section lines.
Context `{SchemaContract}.

Lemma claude_message_nonblank v t : claude_message_text v = Some t → ¬ blank t.
Proof.
  destruct v; try discriminate; cbn; [by intros [_ ?]%nonblank_text_spec|]. apply join_parts_spec.
  intros s (b & _ & Hs)%list_elem_of_omap. destruct b; try discriminate. repeat (case_match; try discriminate). by apply nonblank_text_spec in Hs as [_ ?].
Qed.
Lemma claude_role line r d : claude_parse_message line r = Ok (Some d) → text_of "type" d ∈ ["user"; "assistant"].
Proof.
  unfold claude_parse_message. destruct (is_valid _ _) eqn:Hv; [|discriminate]. cbn [negb]. intros Hr. apply bind_Ok in Hr as (u & _ & Hr).
  apply bind_Ok in Hr as (v & Hm & Hr). destruct (String.eqb _ _); [|discriminate]. injection Hr as <-.
  destruct (read_open_text claude_record_fields r v "type" ltac:(distinct) ltac:(member) Hm) as (d & s & -> & Hd & Hs).
  change (default [] (as_dict (VDict d))) with d. unfold text_of, vget_or. rewrite Hd. cbn. apply claude_type in Hv. unfold vget in Hv. rewrite Hs in Hv. cbn in Hv.
  destruct Hv as [[= ->]|[= ->]]; set_solver.
Qed.
Definition claude_inv (st : claude_state) : Prop := Forall good_message (cs_messages st) ∧ dict_get "importer" (cs_provenance st) = None.
Lemma claude_step_inv st line st' : claude_inv st → claude_step st line = Ok st' → claude_inv st'.
Proof.
  intros [Hm Hp] Hs. unfold claude_step in Hs. apply bind_Ok in Hs as ([record n] & _ & Hs). apply bind_Ok in Hs as (parsed & Hparsed & Hs).
  assert (Hp' : dict_get "importer" (claude_capture_provenance record (cs_provenance st)) = None).
  { unfold claude_capture_provenance. rewrite copies_get; [done|apply copy_value_get|cbn; set_solver]. }
  destruct parsed as [parsed|]; [|by injection Hs as <-]. destruct (claude_message_text _) as [content|] eqn:Hc; [|by injection Hs as <-].
  destruct (match optional_text_of "uuid" parsed with Some _ => _ | None => _ end); [by injection Hs as <-|].
  apply bind_Ok in Hs as (ts & _ & [= <-]). split; cbn.
  - apply snoc_good; [done|by eapply claude_role|by eapply claude_message_nonblank].
  - case_match; by autorewrite with importer.
Qed.
Lemma claude_good text source title ps : claude_code_import text source title = Ok ps → Forall (good_payload "claude-code-session-jsonl") ps.
Proof.
  unfold claude_code_import. intros Hr. apply bind_Ok in Hr as (u & _ & Hr). apply bind_Ok in Hr as (st & Hf & Hr).
  apply (fold_result_inv claude_inv) in Hf as [Hm Hp]; [|exact claude_step_inv|split; [constructor|done]].
  destruct (cs_messages st) as [|m l]; [discriminate|]. injection Hr as <-. constructor; [|constructor].
  apply payload_good; [by apply or_source_nonempty|by split|]. unfold vget. autorewrite with importer. by rewrite update_get.
Qed.

Lemma in_texts_role v l : in_texts v l = Ok true → ∃ s, v = VStr s ∧ s ∈ l.
Proof. destruct v as [| | | |s| |]; try discriminate. intros [= Hs]. exists s. split; [done|by apply existsb_eqb_elem]. Qed.
Lemma text_of_str k s d : vget k d = VStr s → text_of k d = s.
Proof. unfold vget, text_of, vget_or. destruct (dict_get k d); [|discriminate]. cbn. by intros ->. Qed.
Lemma codex_candidate_good r p n c : codex_candidate_of r p n = Ok (Some c) → good_message (cc_message c).
Proof.
  unfold codex_candidate_of. intros (known & Hk & Hr)%bind_Ok. destruct known; [|discriminate]. cbn [negb] in Hr.
  assert (Hrole : text_of "role" p ∈ ["user"; "assistant"]).
  { destruct (is_text "message" _); [|discriminate]. apply in_texts_role in Hk as (s & Hs & Hin). by rewrite (text_of_str _ _ _ Hs). }
  destruct (vget "content" p) as [| | | | |l|]; try discriminate. apply bind_Ok in Hr as ([t|] & Ht & Hr); [|discriminate].
  apply bind_Ok in Hr as (ts & _ & [= <-]). split; [done|]. by apply text_blocks_spec in Ht.
Qed.
Definition codex_inv (st : option dict * list codex_candidate) : Prop := Forall (λ c, good_message (cc_message c)) st.2.
Lemma codex_step_inv st line st' : codex_inv st → codex_step st line = Ok st' → codex_inv st'.
Proof.
  destruct st as [meta cs]. intros Hi Hs. unfold codex_step in Hs. apply bind_Ok in Hs as ([record n] & _ & Hs).
  destruct (is_text "session_meta" _ && _); [destruct (vget "payload" record); try discriminate; by injection Hs as <-|].
  destruct (negb _); [by injection Hs as <-|]. destruct (vget "payload" record); try (by injection Hs as <-).
  apply bind_Ok in Hs as (c & Hc & [= <-]). unfold codex_inv. cbn. destruct c as [c|]; [|done].
  apply Forall_app. split; [done|]. constructor; [by eapply codex_candidate_good|done].
Qed.
Lemma enumerate_in {A} (l : list A) : ∀ n x, x ∈ enumerate n l → x.2 ∈ l.
Proof. induction l as [|y l IH]; intros n x Hx; [by apply elem_of_nil in Hx|]. cbn in Hx. apply elem_of_cons in Hx as [-> |Hx]; [apply list_elem_of_here|apply list_elem_of_further; by eapply IH]. Qed.
Lemma retained_in cs c : c ∈ retained cs → c ∈ cs.
Proof.
  unfold retained. intros ([i x] & -> & Hx)%list_elem_of_fmap. apply list_elem_of_In, filter_In in Hx as [Hx _]. apply list_elem_of_In in Hx. by apply enumerate_in in Hx.
Qed.
Lemma codex_good text source title ps : codex_rollout_import text source title = Ok ps → Forall (good_payload "codex-rollout-jsonl") ps.
Proof.
  unfold codex_rollout_import. intros Hr. apply bind_Ok in Hr as (u & _ & Hr). apply bind_Ok in Hr as ([meta cs] & Hf & Hr).
  apply (fold_result_inv codex_inv) in Hf; [|exact codex_step_inv|constructor]. unfold codex_inv in Hf. cbn in Hf.
  destruct (negb _) eqn:Hb; [discriminate|]. apply bind_Ok in Hr as (t & _ & [= <-]). constructor; [|constructor].
  apply payload_good; [by apply or_source_nonempty| |].
  - apply negb_false_iff, andb_true_iff in Hb as [Hb _]. split; [by destruct (retained cs)|]. apply Forall_forall. intros m (c & -> & Hc)%list_elem_of_fmap.
    apply retained_in in Hc. rewrite Forall_forall in Hf. by apply Hf.
  - unfold vget. autorewrite with importer. unfold codex_metadata. destruct meta as [d|]; [|done].
    destruct (vget "git" d); autorewrite with importer; rewrite copies_get by first [exact (copy_nonempty_get "importer")|cbn; set_solver]; done.
Qed.

(** ** Copilot CLI *)

Definition copilot_inv (st : copilot_state) : Prop := Forall good_message (ps_messages st) ∧ dict_get "importer" (ps_provenance st) = None.
Lemma captured_provenance r t t' : _capture_session_metadata r t = Ok t' → dict_get "importer" t = None → dict_get "importer" t'.2 = None.
Proof.
  unfold _capture_session_metadata. cbv zeta. intros Hr Ht. apply bind_Ok in Hr as (x & _ & Hr). apply bind_Ok in Hr as (data & _ & Hr). apply bind_Ok in Hr as (time & _ & [= <-]). cbn [snd].
  destruct (vget "context" data); by autorewrite with importer.
Qed.
Lemma copilot_message_inv st event n st' : copilot_inv st → copilot_message st event n = Ok st' → copilot_inv st'.
Proof.
  intros [Hm Hp] Hs. unfold copilot_message in Hs. destruct (_ || String.eqb _ _ || _) eqn:Hb; [by injection Hs as <-|].
  apply orb_false_iff in Hb as [Hb _]. apply orb_false_iff in Hb as [_ Hb]. apply String.eqb_neq in Hb. apply bind_Ok in Hs as (ts & _ & [= <-]). split; cbn [ps_messages ps_provenance].
  - apply snoc_good; [done|case_match; set_solver|done].
  - case_match; by autorewrite with importer.
Qed.
Lemma copilot_step_inv st line st' : copilot_inv st → copilot_step st line = Ok st' → copilot_inv st'.
Proof.
  destruct line as [record n]. intros Hi Hs. unfold copilot_step in Hs. destruct (is_valid _ _).
  - apply bind_Ok in Hs as (u & _ & Hs). apply bind_Ok in Hs as ([c p] & Hc & [= <-]). destruct Hi as [Hm Hp]. split; [done|]. by apply captured_provenance in Hc.
  - destruct (is_valid _ _).
    + apply bind_Ok in Hs as (u & _ & Hs). apply bind_Ok in Hs as (x & _ & Hs). by apply bind_Ok in Hs as (y & _ & [= <-]).
    + apply bind_Ok in Hs as ([e|] & _ & Hs); [by eapply copilot_message_inv|by injection Hs as <-].
Qed.
Lemma copilot_good text source title ps : copilot_cli_import text source title = Ok ps → Forall (good_payload "copilot-cli-events-jsonl") ps.
Proof.
  unfold copilot_cli_import. intros Hr. apply bind_Ok in Hr as (u & _ & Hr). apply bind_Ok in Hr as (records & _ & Hr). apply bind_Ok in Hr as (st & Hf & Hr).
  apply (fold_result_inv copilot_inv) in Hf as [Hm Hp]; [|exact copilot_step_inv|split; [constructor|done]].
  destruct (ps_messages st) as [|m l]; [discriminate|]. destruct (copilot_title _ _ _) as [resolved p] eqn:Ht. injection Hr as <-. constructor; [|constructor].
  apply payload_good; [by apply or_source_nonempty|by split|]. unfold vget. autorewrite with importer. rewrite update_get; [done|].
  unfold copilot_title in Ht. repeat case_match; simplify_eq; try done. by rewrite dict_get_pop_ne.
Qed.

(** ** DeepSeek Harness *)

Definition harness_inv (st : harness_state) : Prop := Forall good_message (hs_messages st).
Lemma harness_role r n m : harness_parse_message r n = Ok (Some m) → hm_role m ∈ ["user"; "assistant"].
Proof.
  unfold harness_parse_message. destruct (negb (is_valid _ _)); [discriminate|]. intros Hr. repeat (apply bind_Ok in Hr as (? & _ & Hr)).
  destruct (negb _ && negb _) in Hr; [discriminate|]. repeat (apply bind_Ok in Hr as (? & _ & Hr)). injection Hr as <-. cbn. case_match; set_solver.
Qed.
Lemma harness_text v n t : harness_message_text v n = Ok (Some t) → ¬ blank t.
Proof. destruct v; try discriminate; cbn; [by intros [= [_ ?]%nonblank_text_spec]|apply text_blocks_spec]. Qed.
Lemma harness_step_inv st line st' : harness_inv st → harness_step st line = Ok st' → harness_inv st'.
Proof.
  destruct line as [record n]. intros Hi Hs. unfold harness_step in Hs. destruct (is_text "session" _); [discriminate|]. destruct (is_text "session/title" _).
  - apply bind_Ok in Hs as (u & _ & Hs). apply bind_Ok in Hs as (x & _ & Hs). by apply bind_Ok in Hs as (y & _ & [= <-]).
  - apply bind_Ok in Hs as (model & _ & Hs). apply bind_Ok in Hs as ([m|] & Hm & Hs); [|by injection Hs as <-].
    destruct (String.eqb _ _ && _); [by injection Hs as <-|]. apply bind_Ok in Hs as ([t|] & Ht & Hs); [|by injection Hs as <-].
    destruct (match hm_id m with Some _ => _ | None => _ end); injection Hs as <-; [done|].
    apply snoc_good; [done|by eapply harness_role|by eapply harness_text].
Qed.
Lemma harness_good text source title ps : deepseek_harness_import text source title = Ok ps → Forall (good_payload "deepseek-harness-session-jsonl") ps.
Proof.
  unfold deepseek_harness_import. intros Hr. apply bind_Ok in Hr as (u & _ & Hr). apply bind_Ok in Hr as (records & _ & Hr).
  destruct records as [|[first line] events]; [discriminate|]. apply bind_Ok in Hr as (header & _ & Hr). apply bind_Ok in Hr as (v & _ & Hr).
  apply bind_Ok in Hr as (st & Hf & Hr). apply (fold_result_inv harness_inv) in Hf; [|exact harness_step_inv|constructor]. unfold harness_inv in Hf.
  destruct (hs_messages st) as [|m l]; [discriminate|]. apply bind_Ok in Hr as (time & _ & <-%Ok_inj). constructor; [|constructor].
  apply titled_good, payload_good; [by apply or_source_nonempty|by split|]. unfold vget. autorewrite with importer. unfold harness_metadata. cbv zeta.
  destruct (hs_model st); autorewrite with importer; case_match; autorewrite with importer; rewrite copies_get by first [exact (copy_nonempty_get "importer")|cbn; set_solver]; done.
Qed.

(** ** Pi *)

Definition pi_inv (st : pi_state) : Prop := Forall good_message (pi_messages st).
Lemma pi_text v n t : pi_message_text v n = Ok (Some t) → ¬ blank t.
Proof. destruct v; try discriminate; cbn; [by intros [= [_ ?]%nonblank_text_spec]|apply text_blocks_spec]. Qed.
Lemma pi_step_inv st line st' : pi_inv st → pi_step st line = Ok st' → pi_inv st'.
Proof.
  destruct line as [record n]. intros Hi Hs. unfold pi_step in Hs. apply bind_Ok in Hs as ([parsed|] & _ & Hs); [|by injection Hs as <-].
  destruct (existsb _ _) eqn:Hrole; cbn [negb] in Hs; [|by injection Hs as <-]. apply bind_Ok in Hs as ([t|] & Ht & Hs); [|by injection Hs as <-].
  apply bind_Ok in Hs as (ts & _ & [= <-]). apply snoc_good; [done|by apply is_user_or_assistant|by eapply pi_text].
Qed.
Lemma pi_good text source title ps : pi_session_import text source title = Ok ps → Forall (good_payload "pi-session-jsonl") ps.
Proof.
  unfold pi_session_import. intros Hr. apply bind_Ok in Hr as (u & _ & Hr). apply bind_Ok in Hr as (records & _ & Hr).
  apply bind_Ok in Hr as ([[header entries] physical] & _ & Hr). apply bind_Ok in Hr as (parsed & _ & Hr). apply bind_Ok in Hr as (t & _ & Hr).
  apply bind_Ok in Hr as (path & _ & Hr). apply bind_Ok in Hr as (st & Hf & Hr). apply (fold_result_inv pi_inv) in Hf; [|exact pi_step_inv|constructor].
  unfold pi_inv in Hf. destruct (pi_messages st) as [|m l]; [discriminate|]. apply bind_Ok in Hr as (time & _ & [= <-]). constructor; [|constructor].
  apply payload_good; [|by split|].
  - apply or_source_nonempty. unfold _detect_variant. destruct source as [s|]; [destruct (existsb _ _) eqn:Hs|]; [|by repeat case_match..].
    apply existsb_eqb_elem in Hs. intros ->. unfold _VARIANTS in Hs. set_solver.
  - unfold vget. autorewrite with importer. unfold pi_metadata, _copy_git_metadata. cbv zeta.
    destruct (pi_found_model st); autorewrite with importer; destruct (vget "git" header); autorewrite with importer;
      rewrite ?copies_get by first [exact (copy_value_get "importer")|cbn; set_solver]; autorewrite with importer; done.
Qed.

(** ** Qwen *)

Lemma qwen_role r l d : qwen_parse_message r l = Ok (Some d) → text_of "type" d ∈ ["user"; "assistant"].
Proof.
  unfold qwen_parse_message. destruct (is_valid _ _) eqn:Hv; [|discriminate]. cbn [negb]. intros Hr. apply bind_Ok in Hr as (u & _ & Hr).
  apply bind_Ok in Hr as (v & Hm & [= <-]). unfold model_or in Hm. destruct (read_open_model _ _) as [w|[]] eqn:Hw; try discriminate. injection Hm as <-.
  destruct (read_open_text export_message_fields r w "type" ltac:(distinct) ltac:(member) Hw) as (d & s & -> & Hd & Hs).
  change (default [] (as_dict (VDict d))) with d. unfold text_of, vget_or. rewrite Hd. cbn. apply qwen_type in Hv. unfold vget in Hv. rewrite Hs in Hv. cbn in Hv.
  destruct Hv as [[= ->]|[= ->]]; set_solver.
Qed.
Lemma qwen_text d l t : qwen_message_text d l = Ok (Some t) → ¬ blank t.
Proof.
  unfold qwen_message_text. destruct (_nonempty_string _) eqn:E; [intros [= <-]; by eapply nonempty_string_spec|].
  destruct (vget "parts" d); try discriminate. intros (parts & Hp & [= Ht])%bind_Ok. revert Hp Ht. apply parts_spec. intros b s Hb.
  destruct b as [| | | | | |m]; try discriminate Hb. cbn in Hb. destruct (vget "text" m); try discriminate. injection Hb as Hb. by apply nonblank_text_spec in Hb as [_ ?].
Qed.
Definition qwen_inv (st : qwen_state) : Prop := Forall good_message (qs_messages st).
Lemma qwen_step_inv st record st' : qwen_inv st → qwen_step st record = Ok st' → qwen_inv st'.
Proof.
  destruct record as [record l]. intros Hi Hs. unfold qwen_step in Hs. apply bind_Ok in Hs as ([parsed|] & Hp & Hs); [|by injection Hs as <-].
  destruct (existsb _ _); [by injection Hs as <-|]. apply bind_Ok in Hs as ([t|] & Ht & Hs); [|by injection Hs as <-].
  apply bind_Ok in Hs as (ts & _ & [= <-]). apply snoc_good; [done|by eapply qwen_role|by eapply qwen_text].
Qed.
Lemma qwen_payload_good records provenance format source title p : qwen_payload records provenance format source title = Ok p → good_payload "qwen-code-session-export" p.
Proof.
  unfold qwen_payload. intros Hr. apply bind_Ok in Hr as (st & Hf & Hr). apply (fold_result_inv qwen_inv) in Hf; [|exact qwen_step_inv|constructor].
  unfold qwen_inv in Hf. destruct (qs_messages st) as [|m l]; [discriminate|]. apply bind_Ok in Hr as (time & _ & [= <-]).
  apply payload_good; [by apply or_source_nonempty|by split|]. unfold vget, qwen_metadata. cbv zeta. autorewrite with importer.
  destruct (qs_model st); autorewrite with importer; rewrite copies_get by first [exact (copy_nonempty_get "importer")|cbn; set_solver]; done.
Qed.
Lemma qwen_good text source title ps : qwen_code_import text source title = Ok ps → Forall (good_payload "qwen-code-session-export") ps.
Proof.
  unfold qwen_code_import. intros Hr. apply bind_Ok in Hr as (u & _ & Hr). apply bind_Ok in Hr as (document & _ & Hr). apply bind_Ok in Hr as (p & Hp & [= <-]).
  constructor; [|constructor]. destruct document as [d|].
  - unfold _import_json_document in Hp. apply bind_Ok in Hp as (v & _ & Hp). apply bind_Ok in Hp as (parsed & _ & Hp). apply bind_Ok in Hp as (records & _ & Hp).
    by eapply qwen_payload_good.
  - unfold _import_jsonl in Hp. apply bind_Ok in Hp as ([records metadata] & _ & Hp). destruct records, metadata; try discriminate; by eapply qwen_payload_good.
Qed.

(** ** Documents *)

Lemma each_numbered_inv {S} (P : S → Prop) step st l st' :
  (∀ st n x st', P st → step st n x = Ok st' → P st') → P st → each_numbered step st l = Ok st' → P st'.
Proof. intros Hs Hp Hf. unfold each_numbered in Hf. apply (fold_result_inv P) in Hf; [done| |done]. intros b [n x] b'. apply Hs. Qed.
Definition gemini_inv (st : gemini_state) : Prop := Forall good_message (gs_messages st).
Lemma gemini_text v n t : gemini_message_text v n = Ok (Some t) → ¬ blank t.
Proof. destruct v; try discriminate; cbn; [by intros [= [_ ?]%nonblank_text_spec]|apply text_blocks_spec]. Qed.
Lemma stored_role_known v r : stored_role v = Some r → r ∈ ["user"; "assistant"].
Proof. destruct v; try discriminate. cbn. repeat case_match; intros [= <-]; set_solver. Qed.
Lemma shared_role_known v r : shared_role v = Some r → r ∈ ["user"; "assistant"].
Proof. destruct v; try discriminate. cbn. repeat case_match; intros [= <-]; set_solver. Qed.
Lemma gemini_stored_inv st n x st' : gemini_inv st → gemini_stored_step st n x = Ok st' → gemini_inv st'.
Proof.
  intros Hi Hs. destruct x as [| | | | | |raw]; try discriminate. unfold gemini_stored_step in Hs. destruct (stored_role _) as [r|] eqn:Hr; [|by injection Hs as <-].
  apply bind_Ok in Hs as (parsed & _ & Hs). apply bind_Ok in Hs as ([t|] & Ht & Hs); [|by injection Hs as <-].
  destruct (_is_session_context r t); [by injection Hs as <-|]. apply bind_Ok in Hs as (ts & _ & [= <-]).
  apply snoc_good; [done|by eapply stored_role_known|by eapply gemini_text].
Qed.
Lemma gemini_shared_inv l n x l' : Forall good_message l → gemini_shared_step l n x = Ok l' → Forall good_message l'.
Proof.
  intros Hi Hs. destruct x as [| | | | | |raw]; try discriminate. unfold gemini_shared_step in Hs. destruct (shared_role _) as [r|] eqn:Hr; [|by injection Hs as <-].
  apply bind_Ok in Hs as (parsed & _ & Hs). apply bind_Ok in Hs as ([t|] & Ht & <-%Ok_inj); [|done].
  destruct (_is_session_context r t); [done|]. apply snoc_good; [done|by eapply shared_role_known|by eapply gemini_text].
Qed.
Lemma gemini_payload_good messages metadata source title time p : Forall good_message messages → dict_get "importer" metadata = Some (VStr "gemini-cli-session-json") →
  gemini_payload messages metadata source title time = Ok p → good_payload "gemini-cli-session-json" p.
Proof.
  intros Hm Hi Hp. unfold gemini_payload in Hp. destruct messages as [|m l]; [discriminate|]. apply Ok_inj in Hp as <-.
  apply payload_good; [by apply or_source_nonempty|by split|]. unfold vget. autorewrite with importer. by rewrite Hi.
Qed.
Lemma gemini_good text source title ps : gemini_cli_import text source title = Ok ps → Forall (good_payload "gemini-cli-session-json") ps.
Proof.
  unfold gemini_cli_import. intros Hr. apply bind_Ok in Hr as (u & _ & Hr). apply bind_Ok in Hr as (document & _ & Hr). destruct (negb _); [discriminate|].
  destruct document as [| | | | |l|d]; try discriminate; apply bind_Ok in Hr as (p & Hp & [= <-]); (constructor; [|constructor]).
  - unfold _import_shared_history in Hp. apply bind_Ok in Hp as (messages & Hf & Hp).
    apply (each_numbered_inv (Forall good_message)) in Hf; [|exact gemini_shared_inv|constructor]. by eapply gemini_payload_good; [exact Hf| |exact Hp].
  - unfold _import_session_document in Hp. destruct (vget "messages" d); try discriminate. apply bind_Ok in Hp as (st & Hf & Hp).
    apply (each_numbered_inv gemini_inv) in Hf; [|exact gemini_stored_inv|constructor]. apply bind_Ok in Hp as (time & _ & Hp).
    eapply gemini_payload_good; [exact Hf| |exact Hp]. unfold gemini_session_metadata. cbv zeta.
    destruct (gs_model st); repeat case_match; by repeat rewrite ?dict_get_set_ne, ?copy_nonempty_get by done.
Qed.

Lemma opencode_inv st n x st' : gemini_inv st → opencode_step st n x = Ok st' → gemini_inv st'.
Proof.
  intros Hi Hs. destruct x as [| | | | | |raw]; try discriminate. unfold opencode_step in Hs. destruct (vget "info" raw) as [| | | | | |info]; try discriminate.
  apply bind_Ok in Hs as (known & Hk & Hs). destruct known; [|discriminate]. cbn [negb] in Hs. apply in_texts_role in Hk as (r & Hr & Hin).
  destruct (vget "parts" raw); try discriminate. apply bind_Ok in Hs as ([t|] & Ht & Hs); [|by injection Hs as <-].
  apply bind_Ok in Hs as (created & _ & [= <-]). rewrite (text_of_str _ _ _ Hr). apply snoc_good; [done|done|]. by apply text_blocks_spec in Ht.
Qed.
Lemma opencode_good text source title ps : opencode_session_import text source title = Ok ps → Forall (good_payload "opencode-session-json") ps.
Proof.
  unfold opencode_session_import. intros Hr. apply bind_Ok in Hr as (u & _ & Hr). apply bind_Ok in Hr as (document & _ & Hr).
  destruct document as [| | | | | |d]; try discriminate. destruct (vget "info" d) as [| | | | | |info]; try discriminate.
  destruct (vget "messages" d) as [| | | | |[|first rest]|]; try discriminate. apply bind_Ok in Hr as (st & Hf & Hr).
  apply (each_numbered_inv gemini_inv) in Hf; [|exact opencode_inv|constructor]. unfold gemini_inv in Hf. destruct (gs_messages st) as [|m l]; [discriminate|].
  apply bind_Ok in Hr as (t1 & _ & Hr). apply bind_Ok in Hr as (t2 & _ & <-%Ok_inj). constructor; [|constructor].
  apply payload_good; [by apply or_source_nonempty|by split|]. unfold vget, opencode_metadata. cbv zeta.
  repeat case_match; autorewrite with importer; done.
Qed.

Lemma deepseek_text v n t : deepseek_message_text v n = Ok t → ¬ blank t.
Proof.
  destruct v; try discriminate. unfold deepseek_message_text. destruct (foldl _ _ _) as [parts attachments].
  destruct (String.eqb _ _) eqn:E; [discriminate|]. intros <-%Ok_inj. by apply String.eqb_neq in E.
Qed.
Lemma deepseek_role_known v r : deepseek_role v = Some r → r ∈ ["user"; "assistant"].
Proof. unfold deepseek_role. repeat case_match; intros [= <-]; set_solver. Qed.
Lemma deepseek_step_inv (st : list imported * list datetime) n x st' : Forall good_message st.1 → deepseek_step st n x = Ok st' → Forall good_message st'.1.
Proof.
  intros Hi Hs. destruct st as [l ts]. destruct x as [| | | | | |raw]; try discriminate. unfold deepseek_step in Hs. destruct (deepseek_role _) as [r|] eqn:Hr; [|discriminate].
  apply bind_Ok in Hs as (t & Ht & Hs). apply bind_Ok in Hs as (time & _ & [= <-]). apply snoc_good; [done|by eapply deepseek_role_known|by eapply deepseek_text].
Qed.
Lemma deepseek_step_adds (st : list imported * list datetime) n x st' : deepseek_step st n x = Ok st' → st'.1 ≠ [].
Proof.
  intros Hs. destruct st as [l ts]. destruct x as [| | | | | |raw]; try discriminate. unfold deepseek_step in Hs. destruct (deepseek_role _) as [r|] eqn:Hr; [|discriminate].
  apply bind_Ok in Hs as (t & Ht & Hs). apply bind_Ok in Hs as (time & _ & [= <-]). by destruct l.
Qed.
Lemma deepseek_share_good text source title ps : deepseek_share_import text source title = Ok ps → Forall (good_payload "deepseek-share-json") ps.
Proof.
  unfold deepseek_share_import. intros Hr. apply bind_Ok in Hr as (u & _ & Hr). apply bind_Ok in Hr as (document & _ & Hr). apply bind_Ok in Hr as (data & _ & Hr).
  destruct (vget "messages" data) as [| | | | |[|first rest]|]; try discriminate. apply bind_Ok in Hr as ([l ts] & Hf & Hr).
  assert (Hl : Forall good_message l ∧ l ≠ []).
  { split; [apply (each_numbered_inv (λ st, Forall good_message st.1)) in Hf; [done|exact deepseek_step_inv|constructor]|].
    unfold each_numbered in Hf. cbn [enumerate fold_result] in Hf. apply bind_Ok in Hf as (st & H1 & Hf). apply deepseek_step_adds in H1.
    apply (fold_result_inv (λ st, st.1 ≠ [])) in Hf; [done| |done]. intros b [k x] b' _ Hb. by apply deepseek_step_adds in Hb. }
  apply bind_Ok in Hr as (t & _ & <-%Ok_inj). constructor; [|constructor]. apply payload_good; [by apply or_source_nonempty|by split; apply Hl|].
  unfold vget at 1. autorewrite with importer. repeat case_match; by autorewrite with importer.
Qed.

(** ** Droid Exec *)

Definition droid_inv (st : droid_state) : Prop :=
  Forall good_message (ds_messages st) ∧ dict_get "importer" (ds_provenance st) = None ∧
  match pending_user st with Some t => ¬ blank t | None => True end.
Lemma coalesced_nonblank blocks t : _coalesced_text blocks = Some t → ¬ blank t.
Proof.
  apply join_parts_spec. intros s Hs. apply list_elem_of_In, filter_In in Hs as [_ Hs]. by apply negb_true_iff, String.eqb_neq in Hs.
Qed.
Ltac copies := repeat first [rewrite copies_get by first [exact (copy_nonempty_get "importer")|cbn; set_solver] | progress autorewrite with importer | case_match].
Lemma droid_initialize_inv st n m st' : droid_inv st → droid_initialize st n m = Ok st' → droid_inv st'.
Proof.
  intros (Hm & Hp & Hu) Hs. unfold droid_initialize in Hs. apply bind_Ok in Hs as (params & _ & <-%Ok_inj). split; [done|]. split; [|done].
  cbn [ds_provenance]. by rewrite copies_get by first [exact (copy_nonempty_get "importer")|cbn; set_solver].
Qed.
Lemma droid_user_inv st n m st' : droid_inv st → droid_user_message st n m = Ok st' → droid_inv st'.
Proof.
  intros (Hm & Hp & Hu) Hs. unfold droid_user_message in Hs. apply bind_Ok in Hs as (params & _ & Hs). destruct (_nonempty_string _) eqn:E; [|discriminate].
  apply Ok_inj in Hs as <-. split; [done|]. split; [done|]. by eapply nonempty_string_spec.
Qed.
Lemma droid_initialized_inv st m st' : droid_inv st → droid_initialized st m = Ok st' → droid_inv st'.
Proof.
  intros (Hm & Hp & Hu) Hs. unfold droid_initialized in Hs. apply bind_Ok in Hs as (asked & _ & Hs). destruct (vget "result" m); try (by apply Ok_inj in Hs as <-).
  destruct asked; cbn [negb] in Hs; apply Ok_inj in Hs as <-; [|done]. split; [done|]. split; [|done]. cbn [ds_provenance].
  repeat case_match; repeat rewrite copy_nonempty_get by done; done.
Qed.
Lemma droid_delta_inv st n m st' : droid_inv st → droid_delta st n m = Ok st' → droid_inv st'.
Proof.
  intros Hi Hs. unfold droid_delta in Hs. destruct (pending_user st) eqn:Hu; [|by apply Ok_inj in Hs as <-].
  destruct (_nonempty_string _), (vget "blockIndex" m), (vget "textDelta" m); try discriminate. destruct (_ <? 0); [discriminate|].
  apply Ok_inj in Hs as <-. unfold droid_inv in *. cbn. by rewrite Hu in *.
Qed.
Lemma droid_completed_inv st n m st' : droid_inv st → droid_completed st n m = Ok st' → droid_inv st'.
Proof.
  intros (Hm & Hp & Hu) Hs. unfold droid_completed in Hs. destruct (vget "reason" m); try discriminate. apply Ok_inj in Hs as <-. split; [|done]. cbn [ds_messages].
  apply Forall_app. split; [done|]. destruct (pending_user st); [|constructor]. destruct (_coalesced_text _) eqn:Ht; [|constructor]. case_match; [|constructor].
  constructor; [split; [set_solver|done]|]. constructor; [split; [set_solver|by eapply coalesced_nonblank]|constructor].
Qed.
Lemma droid_step_inv st n x st' : droid_inv st → droid_step st n x = Ok st' → droid_inv st'.
Proof.
  intros Hi Hs. unfold droid_step in Hs. apply bind_Ok in Hs as (frame & _ & Hs). apply bind_Ok in Hs as (direction & _ & Hs).
  apply bind_Ok in Hs as (message & _ & Hs). apply bind_Ok in Hs as (m & _ & Hs). cbv zeta in Hs.
  destruct (_ && _) in Hs; [by eapply droid_initialize_inv|]. destruct (_ && _) in Hs; [by eapply droid_user_inv|].
  destruct (negb _) in Hs; [by apply Ok_inj in Hs as <-|]. apply bind_Ok in Hs as (st1 & H1 & Hs). apply droid_initialized_inv in H1; [|done].
  destruct (negb _) in Hs; [by apply Ok_inj in Hs as <-|]. apply bind_Ok in Hs as ([notification type] & _ & Hs).
  destruct (String.eqb _ _) in Hs; [by eapply droid_delta_inv|]. destruct (String.eqb _ _) in Hs; [by eapply droid_completed_inv|by apply Ok_inj in Hs as <-].
Qed.
Lemma droid_messages_good document kind l p :
  (if is_text "one-shot" kind then _import_one_shot document else _import_stream document) = Ok (l, p) → good_messages l ∧ dict_get "importer" p = None.
Proof.
  destruct (is_text _ _); intros Hr.
  - unfold _import_one_shot in Hr. apply bind_Ok in Hr as (prompt & _ & Hr). destruct (_nonempty_string prompt) as [t|] eqn:Ht; [|discriminate].
    do 5 (apply bind_Ok in Hr as (? & _ & Hr)). case_match; try discriminate. destruct (_ || String.eqb _ _) eqn:Hb; [discriminate|].
    apply Ok_inj in Hr. injection Hr as <- <-. apply orb_false_iff in Hb as [_ Hb]. apply String.eqb_neq in Hb. split.
    + split; [done|]. constructor; [split; [set_solver|by eapply nonempty_string_spec]|]. constructor; [split; [set_solver|done]|constructor].
    + unfold set_if. repeat case_match; repeat rewrite ?dict_get_set_ne, ?copy_nonempty_get by done; done.
  - unfold _import_stream in Hr. apply bind_Ok in Hr as (frames & _ & Hr). destruct frames as [| | | | |fs|]; try discriminate. apply bind_Ok in Hr as (st & Hf & Hr).
    apply (each_numbered_inv droid_inv) in Hf as (Hm & Hp & _); [|exact droid_step_inv|by repeat split]. destruct (ds_messages st) as [|m ms] eqn:E; [discriminate|].
    apply Ok_inj in Hr. injection Hr as <- <-. by split.
Qed.
Lemma droid_good text source title ps : droid_exec_import text source title = Ok ps → Forall (good_payload "droid-exec-json") ps.
Proof.
  unfold droid_exec_import. intros Hr. apply bind_Ok in Hr as (u & _ & Hr). apply bind_Ok in Hr as (document & _ & Hr). destruct (negb _); [discriminate|].
  apply bind_Ok in Hr as (d & _ & Hr). apply bind_Ok in Hr as (kind & _ & Hr). apply bind_Ok in Hr as ([l p] & Hd & Hr). apply droid_messages_good in Hd as [Hl Hp].
  apply bind_Ok in Hr as (time & _ & <-%Ok_inj). constructor; [|constructor]. apply payload_good; [by apply or_source_nonempty|done|].
  unfold vget at 1. rewrite title_get by done. unfold droid_metadata, set_if. cbv zeta.
  case_match; repeat rewrite ?dict_get_set_ne, ?copy_nonempty_get by done; by rewrite update_get.
Qed.

(** ** Pasted transcripts *)

Lemma paste_step_roles l line l' : Forall (λ m, im_role m ∈ ["user"; "assistant"]) l → paste_step l line = Ok l' → Forall (λ m, im_role m ∈ ["user"; "assistant"]) l'.
Proof.
  intros Hl Hs. unfold paste_step in Hs. destruct (re_match_start _ _) as [m|].
  - apply Ok_inj in Hs as <-. apply Forall_app. split; [done|]. constructor; [cbn; case_match; set_solver|constructor].
  - destruct (last l) as [m|] eqn:Hm; [|destruct (String.eqb _ _) in Hs; [by apply Ok_inj in Hs as <-|discriminate]].
    apply Ok_inj in Hs as <-. apply last_Some in Hm as [l0 ->]. rewrite removelast_last. apply Forall_app in Hl as [Hl Hm%Forall_cons].
    apply Forall_app. split; [done|]. constructor; [apply Hm|constructor].
Qed.
Lemma manual_good text source title ps : manual_paste_import text source title = Ok ps → Forall (good_payload "manual") ps.
Proof.
  unfold manual_paste_import. intros Hr. apply bind_Ok in Hr as (u & _ & Hr). apply bind_Ok in Hr as (l & Hl & <-%Ok_inj).
  unfold _parse_messages in Hl. apply bind_Ok in Hl as (l0 & Hf & Hl). apply (fold_result_inv (Forall (λ m, im_role m ∈ ["user"; "assistant"]))) in Hf; [|exact paste_step_roles|constructor].
  destruct l0 as [|m ms]; [discriminate|]. destruct (existsb _ _) eqn:Hb; [discriminate|]. apply Ok_inj in Hl as <-. constructor; [|constructor].
  apply payload_good; [by apply or_source_nonempty| |done]. split; [done|]. rewrite Forall_forall in Hf |- *. intros x Hx. split; [by apply Hf|].
  pose proof (existsb_false_elem _ _ _ Hb Hx) as He. by apply String.eqb_neq in He.
Qed.

(** ** Hermes *)

Definition hermes_inv (st : list imported * list string) : Prop := Forall good_message st.1.
Lemma hermes_text v t : hermes_message_text v = Ok (Some t) → ¬ blank t.
Proof.
  destruct v as [| | | |s|l|]; try discriminate; cbn [hermes_message_text]; [by intros [= [_ ?]%nonblank_text_spec]|].
  intros (parts & Hp & [= Ht])%bind_Ok. revert Hp Ht. apply parts_spec. intros b s Hb. destruct b as [| | | |x| |d]; try discriminate Hb.
  - injection Hb as Hb. by apply nonblank_text_spec in Hb as [_ ?].
  - unfold hermes_block_text in Hb. apply bind_Ok in Hb as (named & _ & Hb). apply Ok_inj in Hb. destruct (_ || _); [|discriminate].
    destruct (if truthy _ then _ else _); try discriminate. by apply nonblank_text_spec in Hb as [_ ?].
Qed.
Lemma hermes_step_inv line st n x st' : hermes_inv st → hermes_step line st n x = Ok st' → hermes_inv st'.
Proof.
  intros Hi Hs. destruct st as [l seen]. destruct x as [| | | | | |message]; try (by apply Ok_inj in Hs as <-). unfold hermes_step in Hs.
  destruct (negb (is_valid _ _)); [by apply Ok_inj in Hs as <-|]. apply bind_Ok in Hs as (u & _ & Hs). apply bind_Ok in Hs as (visible & _ & Hs).
  apply bind_Ok in Hs as (summary & _ & Hs). destruct (_ || _); [by apply Ok_inj in Hs as <-|]. apply bind_Ok in Hs as (role & _ & Hs).
  apply bind_Ok in Hs as (known & Hk & Hs). destruct known; cbn [negb] in Hs; [|by apply Ok_inj in Hs as <-]. apply in_texts_role in Hk as (r & -> & Hr).
  apply bind_Ok in Hs as (content & _ & Hs). apply bind_Ok in Hs as ([t|] & Ht & Hs); [|by apply Ok_inj in Hs as <-]. apply hermes_text in Ht.
  destruct (_nonempty_string _); [destruct (existsb _ _)|]; apply Ok_inj in Hs as <-; [done|by apply snoc_good..].
Qed.
Lemma hermes_payload_good session n source title p : hermes_payload session n source title = Ok p → good_payload "hermes-session-jsonl" p.
Proof.
  unfold hermes_payload. intros Hr. apply bind_Ok in Hr as ([l seen] & Hf & Hr). apply (each_numbered_inv hermes_inv) in Hf; [|exact (hermes_step_inv n)|constructor].
  unfold hermes_inv in Hf. cbn [fst] in Hf. destruct l as [|m l]; [discriminate|]. apply bind_Ok in Hr as (time & _ & <-%Ok_inj).
  apply payload_good; [by apply or_source_nonempty|by split|]. unfold vget at 1, hermes_metadata. rewrite !title_get by done.
  by rewrite copies_get by first [exact (copy_nonempty_get "importer")|cbn; set_solver].
Qed.
Definition hermes_all (st : list dict * list string) : Prop := Forall (good_payload "hermes-session-jsonl") st.1.
Lemma hermes_record_inv source title st r st' : hermes_all st → hermes_record source title st r = Ok st' → hermes_all st'.
Proof.
  intros Hi Hs. destruct st as [ps seen]. unfold hermes_record in Hs. apply bind_Ok in Hs as (u & _ & Hs). apply bind_Ok in Hs as (session & _ & Hs). cbv zeta in Hs.
  destruct (existsb _ _) in Hs; [discriminate|]. apply bind_Ok in Hs as (p & Hp & <-%Ok_inj). apply Forall_app. split; [done|]. constructor; [by eapply hermes_payload_good|constructor].
Qed.
Lemma hermes_records_good records source title ps : _import_records records source title = Ok ps → Forall (good_payload "hermes-session-jsonl") ps.
Proof.
  unfold _import_records. intros (st & Hf & <-%Ok_inj)%bind_Ok. apply (fold_result_inv hermes_all) in Hf; [done|exact (hermes_record_inv source title)|constructor].
Qed.
Lemma hermes_good text schema source title ps : hermes_import_with_schema text schema source title = Ok ps → Forall (good_payload "hermes-session-jsonl") ps.
Proof.
  unfold hermes_import_with_schema, hermes_session_import. destruct schema; intros Hr; [do 4 apply bind_Ok in Hr as (? & _ & Hr)|apply bind_Ok in Hr as (? & _ & Hr)]; by eapply hermes_records_good.
Qed.

End lines.

(** ** The activity history *)

(** The conversations, each with the activities of good messages, in the order of the rows. *)
Definition grouped_inv (g : list (string * list activity)) : Prop :=
  NoDup (dict_keys g) ∧ Forall (λ c, c.1 ≠ "" ∧ c.2 ≠ [] ∧ Forall (λ a, good_message (act_message a)) c.2) g.
Lemma dict_set_Forall {A} (P : string * A → Prop) k v (d : list (string * A)) : Forall P d → P (k, v) → Forall P (dict_set k v d).
Proof.
  intros Hd Hv. induction Hd as [|[k' v'] d Hx Hd IH]; cbn; [by constructor|]. destruct (String.eqb k k') eqn:E; [|by constructor].
  apply String.eqb_eq in E as ->. by constructor.
Qed.
Lemma dict_get_Forall {A} (P : string * A → Prop) k v (d : list (string * A)) : Forall P d → dict_get k d = Some v → P (k, v).
Proof. intros Hd Hg. rewrite Forall_forall in Hd. by apply Hd, dict_get_in. Qed.
Lemma speaker_known author role : dict_get author _ROLES = Some role → role ∈ ["user"; "assistant"].
Proof. intros Hr%dict_get_in. unfold _ROLES in Hr. set_solver. Qed.
Lemma activity_row_inv g row g' : grouped_inv g → activity_row g row = Ok g' → grouped_inv g'.
Proof.
  intros [Hn Hg] Hr. destruct row as [n row]. unfold activity_row in Hr. destruct (String.eqb (strip (column 0 row)) "") eqn:Hc; [discriminate|].
  destruct (dict_get _ _ROLES) as [role|] eqn:Hrole; [|discriminate]. destruct (String.eqb (strip (column 3 row)) "") eqn:Hb; [by apply Ok_inj in Hr as <-|].
  apply bind_Ok in Hr as (time & _ & <-%Ok_inj). apply String.eqb_neq in Hc, Hb. unfold add_activity. split.
  - rewrite dict_keys_set. unfold dict_has. destruct (dict_get _ g) eqn:E; [done|]. apply dict_get_None in E. apply NoDup_app. split; [done|]. split; [set_solver|apply NoDup_singleton].
  - apply dict_set_Forall; [done|]. cbn. split; [done|]. split; [by destruct (default _ _)|]. apply Forall_app. split.
    + destruct (dict_get _ g) as [l|] eqn:E; [|constructor]. by destruct (dict_get_Forall _ _ _ _ Hg E) as (_ & _ & ?).
    + constructor; [split; [by eapply speaker_known|done]|constructor].
Qed.
Lemma activity_payload_good source title c : c.1 ≠ "" ∧ c.2 ≠ [] ∧ Forall (λ a, good_message (act_message a)) c.2 → good_payload "copilot-activity-csv" (activity_payload source title c).
Proof.
  destruct c as [conversation rows]. intros (Hc & Hn & Hr). cbn [fst snd] in *. unfold activity_payload.
  pose proof (sort_by_perm activity_le rows) as Hp. set (l := sort_by activity_le rows) in *. split; unfold vget; cbn [dict_get]; cbn.
  - exists (map act_message l). split; [done|]. split; [by intros El%map_eq_nil; rewrite El in Hp; apply Permutation_nil in Hp|].
    apply List.Forall_map. by rewrite Hp.
  - eexists. split; [done|by apply or_source_nonempty].
  - by eexists.
Qed.
Lemma activity_good text source title ps : copilot_activity_import text source title = Ok ps → Forall (good_payload "copilot-activity-csv") ps.
Proof.
  unfold copilot_activity_import. intros Hr. apply bind_Ok in Hr as (u & _ & Hr). destruct (csv_reader text) as [[|headers rows] failure]; [by destruct failure|].
  destruct (negb _); [discriminate|]. apply bind_Ok in Hr as (g & Hf & Hr). apply (fold_result_inv grouped_inv) in Hf as [_ Hg]; [|exact activity_row_inv|split; [apply NoDup_nil_2|constructor]].
  destruct failure; [discriminate|]. destruct g as [|c g]; [discriminate|]. apply Ok_inj in Hr as <-. apply List.Forall_map. eapply Forall_impl; [exact Hg|]. intros x. apply activity_payload_good.
Qed.

(** ** Every importer *)

Section registry.
Context `{SchemaContract}.

(** Whatever importer of the registry reads a text, with or without a schema
    override, each payload it returns has at least one message, all its messages
    are of the user or of the assistant and none is blank, its source is not
    empty, and its metadata names the importer. *)
Theorem registry_good (name text : string) (schema : option dict) (source title : option string) i ps
    (Hi : get_importer name = Ok i) (Hr : import_text_with_schema i text schema source title = Ok ps) : Forall (good_payload name) ps.
Proof.
  unfold get_importer in Hi. destruct (List.find _ _) as [i'|] eqn:Hf; [|discriminate]. apply Ok_inj in Hi as ->.
  apply List.find_some in Hf as [Hin Hn]. apply String.eqb_eq in Hn as <-. unfold _IMPORTERS in Hin. unfold import_text_with_schema in Hr.
  repeat destruct Hin as [<-|Hin]; cbn [with_schema plain_importer import_text im_name] in Hr |- *; [..|contradiction];
    first [by eapply hermes_good; exact Hr | destruct schema; [discriminate Hr|]];
    by eauto using claude_good, codex_good, activity_good, copilot_good, harness_good, deepseek_share_good, droid_good, gemini_good, manual_good,
      opencode_good, pi_good, qwen_good.
Qed.
End registry.

(** ** What the importers select *)

(** The message that a row adds to a conversation. *)
Definition activity_of (conversation : string) (nrow : Z * list string) : option activity :=
  let '(index, row) := nrow in
  if negb (String.eqb (strip (column 0 row)) conversation) || String.eqb (strip (column 3 row)) "" then None else
  match dict_get (strip (column 2 row)) _ROLES, _parse_timestamp (column 1 row) (index + 2) with
  | Some role, Ok time => Some (time, index, mk_imported role (column 3 row))
  | _, _ => None
  end.
Lemma activity_row_adds g nrow g' conversation : activity_row g nrow = Ok g' →
  default [] (dict_get conversation g') = default [] (dict_get conversation g) ++ option_list (activity_of conversation nrow).
Proof.
  destruct nrow as [n row]. unfold activity_row, activity_of. destruct (String.eqb (strip (column 0 row)) ""); [discriminate|].
  destruct (dict_get _ _ROLES) as [role|]; [|discriminate]. destruct (String.eqb (strip (column 3 row)) ""); [intros <-%Ok_inj; by rewrite orb_true_r, app_nil_r|].
  intros (time & Ht & <-%Ok_inj)%bind_Ok. rewrite Ht, orb_false_r. unfold add_activity. rewrite dict_get_set, String.eqb_sym.
  destruct (String.eqb _ _) eqn:E; cbn [negb]; [|by rewrite app_nil_r]. apply String.eqb_eq in E as ->. done.
Qed.
Lemma activity_rows_add rows : ∀ g g' conversation, fold_result activity_row g rows = Ok g' →
  default [] (dict_get conversation g') = default [] (dict_get conversation g) ++ omap (activity_of conversation) rows.
Proof.
  induction rows as [|row rows IH]; intros g g' c Hf; cbn in Hf; [injection Hf as <-; by rewrite app_nil_r|].
  apply bind_Ok in Hf as (g1 & Hr & Hf). rewrite (IH _ _ c Hf), (activity_row_adds _ _ _ c Hr), <-app_assoc. f_equal. cbn. by destruct (activity_of c row).
Qed.
Lemma activity_le_total a b : activity_le a b = false → activity_le b a = true.
Proof. unfold activity_le. intros H. apply orb_false_iff in H as [H1 H2]. apply andb_false_iff in H2. lia. Qed.

(** C7: An import of an activity history has one payload for each conversation
    that has a message; the messages of a payload are those of the rows of its
    conversation, all of them, and they are in the order of their times. *)
Theorem activity_complete_and_sorted (text : string) headers rows source title ps
    (Hc : csv_reader text = (headers :: rows, None)) (Hr : copilot_activity_import text source title = Ok ps) :
  ∃ groups, ps = map (activity_payload source title) groups ∧ NoDup groups.*1 ∧
    (∀ c l, (c, l) ∈ groups → l = omap (activity_of c) (data_rows rows) ∧ l ≠ []) ∧
    (∀ c nrow a, nrow ∈ data_rows rows → activity_of c nrow = Some a → c ∈ groups.*1) ∧
    ∀ c l, (c, l) ∈ groups → ∃ l', l' ≡ₚ l ∧ Sorted (λ a b, activity_le a b = true) l' ∧
      vget "messages" (activity_payload source title (c, l)) = VList (map message_value (map act_message l')).
Proof.
  unfold copilot_activity_import in Hr. apply bind_Ok in Hr as (u & _ & Hr). rewrite Hc in Hr. destruct (negb _); [discriminate|].
  apply bind_Ok in Hr as (g & Hf & Hr). destruct g as [|c0 g0] eqn:Eg; [discriminate|]. rewrite <-Eg in Hf, Hr. clear Eg c0 g0. apply Ok_inj in Hr as <-.
  pose proof Hf as Hi. apply (fold_result_inv grouped_inv) in Hi as [Hn Hg]; [|exact activity_row_inv|split; [apply NoDup_nil_2|constructor]].
  assert (Hall : ∀ c, default [] (dict_get c g) = omap (activity_of c) (data_rows rows)) by (intros c; exact (activity_rows_add _ _ _ c Hf)).
  exists g. split; [done|]. split; [done|]. split; [|split].
  - intros c l Hl. rewrite <-Hall, (dict_get_elem _ _ _ Hn Hl). split; [done|]. rewrite Forall_forall in Hg. by apply (Hg _ Hl).
  - intros c nrow a Hrow Ha. specialize (Hall c). destruct (dict_get c g) as [l|] eqn:E; [apply dict_get_in in E; apply list_elem_of_fmap; by exists (c, l)|].
    cbn in Hall. assert (Hin : a ∈ omap (activity_of c) (data_rows rows)) by (apply list_elem_of_omap; by exists nrow). rewrite <-Hall in Hin. by apply elem_of_nil in Hin.
  - intros c l _. exists (sort_by activity_le l). split; [apply sort_by_perm|]. split; [apply sort_by_sorted, activity_le_total|done].
Qed.

(** The messages that the last one of their turn does not replace. *)
Definition same_turn (t : string) (c : codex_candidate) : bool := match cc_turn c with Some t' => String.eqb t' t | None => false end.
Fixpoint latest_by_turn (candidates : list codex_candidate) : list codex_candidate :=
  match candidates with
  | [] => []
  | c :: rest =>
      if match cc_turn c with Some t => existsb (same_turn t) rest | None => false end then latest_by_turn rest else c :: latest_by_turn rest
  end.
Definition turn_step (d : list (string * Z)) (c : Z * codex_candidate) : list (string * Z) := match cc_turn c.2 with Some t => dict_set t c.1 d | None => d end.
Lemma last_turn t l : ∀ k d, (existsb (same_turn t) l = false → dict_get t (foldl turn_step d (enumerate k l)) = dict_get t d) ∧
  (existsb (same_turn t) l = true → ∃ j, k ≤ j ∧ dict_get t (foldl turn_step d (enumerate k l)) = Some j).
Proof.
  induction l as [|c l IH]; intros k d; [done|]. cbn [existsb enumerate foldl]. unfold same_turn at 1 3, turn_step at 2 4. cbn [fst snd].
  destruct (IH (k + 1) (match cc_turn c with Some t' => dict_set t' k d | None => d end)) as [IHn IHs].
  destruct (cc_turn c) as [t'|]; cbn [orb] in *.
  - destruct (String.eqb t' t) eqn:E; cbn [orb].
    + split; [discriminate|]. intros _. apply String.eqb_eq in E as ->. destruct (existsb (same_turn t) l) eqn:El.
      * destruct (IHs eq_refl) as (j & Hj & Hg). exists j. split; [lia|done].
      * exists k. split; [lia|]. by rewrite IHn, dict_get_set_eq.
    + split; [intros El; rewrite IHn by done; apply dict_get_set_ne; intros ->; by rewrite String.eqb_refl in E|].
      intros El. destruct (IHs El) as (j & Hj & Hg). exists j. split; [lia|done].
  - split; [done|]. intros El. destruct (IHs El) as (j & Hj & Hg). exists j. split; [lia|done].
Qed.
Lemma enumerate_app {A} (l1 l2 : list A) : ∀ k, enumerate k (l1 ++ l2) = enumerate k l1 ++ enumerate (k + Z.of_nat (length l1)) l2.
Proof.
  induction l1 as [|x l1 IH]; intros k; cbn [app enumerate length]; [by rewrite Z.add_0_r|].
  rewrite IH. by replace (k + 1 + Z.of_nat (length l1)) with (k + Z.of_nat (S (length l1))) by lia.
Qed.
Lemma retained_suffix all : ∀ l pre, all = pre ++ l →
  map snd (List.filter (λ c, match cc_turn c.2 with
    | Some t => bool_decide (dict_get t (last_user_by_turn all) = Some c.1) | None => true end) (enumerate (Z.of_nat (length pre)) l)) = latest_by_turn l.
Proof.
  induction l as [|c l IH]; intros pre ->; [done|]. cbn [enumerate List.filter latest_by_turn fst snd].
  specialize (IH (pre ++ [c]) ltac:(by rewrite <-app_assoc)). rewrite length_app in IH. cbn [length] in IH. rewrite Nat2Z.inj_add in IH.
  change (Z.of_nat 1) with 1 in IH.
  destruct (cc_turn c) as [t|] eqn:Ht; [|cbn [map]; by rewrite IH].
  assert (Hd : bool_decide (dict_get t (last_user_by_turn (pre ++ c :: l)) = Some (Z.of_nat (length pre))) = negb (existsb (same_turn t) l)).
  { set (at_c := Z.of_nat (length pre)). set (d := dict_set t at_c (foldl turn_step [] (enumerate 0 pre))).
    assert (HD : last_user_by_turn (pre ++ c :: l) = foldl turn_step d (enumerate (at_c + 1) l)).
    { unfold last_user_by_turn. change (λ d c0, _) with turn_step. rewrite enumerate_app, foldl_app. cbn [enumerate foldl]. rewrite Z.add_0_l. f_equal.
      unfold turn_step at 1. cbn [fst snd]. by rewrite Ht. }
    rewrite (bool_decide_ext _ (dict_get t (foldl turn_step d (enumerate (at_c + 1) l)) = Some at_c)) by (by rewrite HD).
    destruct (last_turn t l (at_c + 1) d) as [Hn Hs]. destruct (existsb (same_turn t) l); cbn [negb].
    - destruct (Hs eq_refl) as (j & Hj & Hg). apply bool_decide_eq_false. rewrite Hg. intros [= ->]. lia.
    - apply bool_decide_eq_true. rewrite Hn by done. apply dict_get_set_eq. }
  rewrite Hd. destruct (existsb (same_turn t) l); cbn [negb map]; by rewrite IH.
Qed.
(** Of an edited turn only its last message is imported, everything else in the
    order of the file. *)
Theorem retained_latest (candidates : list codex_candidate) : retained candidates = latest_by_turn candidates.
Proof. exact (retained_suffix candidates candidates [] eq_refl). Qed.

Module ImportSamples.
(** A validator that reads the types of records, as far as the importers rely on them *)
Definition types_of : list (string * list string) :=
  [("claude-code-session/messageCandidate", ["user"; "assistant"]); ("qwen-code-session-export/messageCandidate", ["user"; "assistant"]);
   ("copilot-cli-events/sessionCandidate", ["session.start"; "session.resume"]); ("copilot-cli-events/titleCandidate", ["session.title_changed"]);
   ("copilot-cli-events/messageCandidate", ["user.message"; "assistant.message"])].
Definition type_issue (schema : string) (v : value) : option (list string * string) :=
  match dict_get schema types_of, v with
  | None, _ => None
  | Some types, VDict d => if existsb (λ t, is_text t (vget "type" d)) types then None else Some ([], "is not one of the types")
  | Some _, _ => Some ([], "is not an object")
  end.
#[local] Instance typed : SchemaValidator := {| schema_issue := type_issue |}.
Lemma typed_types schema r : dict_get schema types_of = Some ["user"; "assistant"] → is_valid schema (VDict r) = true →
  vget "type" r = VStr "user" ∨ vget "type" r = VStr "assistant".
Proof.
  intros Hs. unfold is_valid, schema_issue, typed, type_issue. rewrite Hs. cbn [existsb]. rewrite orb_false_r.
  destruct (vget "type" r) as [| | | |s| |]; try done. cbn. destruct (String.eqb s "user") eqn:E1; [apply String.eqb_eq in E1 as ->; auto|].
  destruct (String.eqb s "assistant") eqn:E2; [apply String.eqb_eq in E2 as ->; auto|done].
Qed.
#[local] Instance typed_contract : SchemaContract.
Proof. split; intros r; apply typed_types; reflexivity. Qed.
Definition json_line (d : dict) : string := json_dumps (VDict d) +:+ newline.
Definition claude_text : string :=
  json_line [("type", VStr "user"); ("sessionId", VStr "s1"); ("message", VDict [("role", VStr "user"); ("content", VStr "Ship it?")])]
  +:+ json_line [("type", VStr "summary")].
Definition claude_importer : ConversationImporter := plain_importer "claude-code-session-jsonl" claude_code_import.
Definition claude_payloads : list dict := match claude_code_import claude_text None None with Ok ps => ps | Raise _ => [] end.
Example registry_good_witness : get_importer "claude-code-session-jsonl" = Ok claude_importer ∧
  import_text_with_schema claude_importer claude_text None None None = Ok claude_payloads ∧
  length claude_payloads = 1%nat ∧ Forall (good_payload "claude-code-session-jsonl") claude_payloads.
Proof.
  assert (Hr : import_text_with_schema claude_importer claude_text None None None = Ok claude_payloads) by (vm_compute; reflexivity).
  split; [reflexivity|]. split; [exact Hr|]. split; [vm_compute; reflexivity|].
  exact (registry_good "claude-code-session-jsonl" claude_text None None None claude_importer claude_payloads eq_refl Hr).
Defined.

Definition history : list (list string) := match csv_reader sample_csv with (_ :: rows, _) => rows | _ => [] end.
Definition history_payloads : list dict := match copilot_activity_import sample_csv None None with Ok ps => ps | Raise _ => [] end.
Example activity_complete_and_sorted_witness : csv_reader sample_csv = (_HEADERS :: history, None) ∧
  copilot_activity_import sample_csv None None = Ok history_payloads ∧
  ∃ groups, history_payloads = map (activity_payload None None) groups ∧ NoDup groups.*1 ∧
    (∀ c l, (c, l) ∈ groups → l = omap (activity_of c) (data_rows history) ∧ l ≠ []) ∧
    (∀ c nrow a, nrow ∈ data_rows history → activity_of c nrow = Some a → c ∈ groups.*1) ∧
    ∀ c l, (c, l) ∈ groups → ∃ l', l' ≡ₚ l ∧ Sorted (λ a b, activity_le a b = true) l' ∧
      vget "messages" (activity_payload None None (c, l)) = VList (map message_value (map act_message l')).
Proof.
  assert (Hc : csv_reader sample_csv = (_HEADERS :: history, None)) by (vm_compute; reflexivity).
  assert (Hr : copilot_activity_import sample_csv None None = Ok history_payloads) by (vm_compute; reflexivity).
  split; [exact Hc|]. split; [exact Hr|]. exact (activity_complete_and_sorted sample_csv _HEADERS history None None history_payloads Hc Hr).
Defined.

(** The title of a session is popped from the provenance only when no other title
    is there: with one, the private key reaches the metadata. *)
Definition copilot_text : string :=
  json_line [("type", VStr "session.start"); ("data", VDict [("sessionId", VStr "s1"); ("title", VStr "Old title")])]
  +:+ json_line [("type", VStr "user.message"); ("data", VDict [("content", VStr "Ship it?")])].
Example private_title_in_metadata :
  map (λ p, vget "_title" (default [] (as_dict (vget "metadata" p)))) (match copilot_cli_import copilot_text None (Some "New title") with Ok ps => ps | Raise _ => [] end)
  = [VStr "Old title"].
Proof. vm_compute. reflexivity. Qed.
(** A role that is not a text is looked up in a set: a list raises a [TypeError]
    where the other malformed messages are refused with a [ValueError]. *)
Definition codex_line (role : value) : string :=
  json_line [("type", VStr "response_item"); ("payload", VDict [("type", VStr "message"); ("role", role); ("content", VList [])])].
Example list_role_is_a_type_error : codex_rollout_import (codex_line (VList [])) None None = unhashable ∧
  codex_rollout_import (codex_line (VStr "user")) None None = Raise (ValueError "Codex rollout must contain user and assistant conversational text").
Proof. split; vm_compute; reflexivity. Qed.
End ImportSamples.
