(* ===== verification/ImportService.v ===== *)
(** * Imports over HTTP ([memory/api/import_service.py], [memory/import_outcomes.py],
    [memory/ingestion/save_intent.py], the insert and import routes of
    [memory/api/server.py])

    A request with a file and the name of a parser becomes payloads; each payload
    is prepared and validated before the first is inserted, and each insertion
    leaves a receipt. *)
From Stdlib Require Import ZArith Lia Ascii.
From S2P Require Import Prelude PyStr Json Hash Clock PyFloat Identity AuthDb AuthStore ConvStore Scope Threads Normalize Append AuditLog Sensitive Chunks FactValidation FactExtract Graph FactStore Summaries Ingest ImportBase ImportHermes Importers.
Local Open Scope Z_scope.

(** ** Errors of a route *)

(** [ImportRequestError(400, ...)] and with another status *)
Definition refused {A} (status_code : Z) (message : string) : result A := Raise (ImportRequestError status_code message).
Definition bad_request {A} (message : string) : result A := refused 400 message.
(** [except ValueError as exc: raise ImportRequestError(400, str(exc))] *)
Definition or_bad_request {A} (r : result A) : result A :=
  match r with Raise (ValueError m) => bad_request m | other => other end.

(** ** The fields of a request *)

Definition MAX_IMPORT_FILE_BYTES : Z := 20000000.
Definition MAX_IMPORT_REQUEST_BYTES : Z := 20250000.
Definition MAX_IMPORT_CONVERSATIONS : Z := 100.
Definition MAX_IMPORT_SOURCE_LENGTH : Z := 128.
Definition MAX_IMPORT_TITLE_LENGTH : Z := 512.
Definition _ALLOWED_FIELDS : list string := ["file"; "parser"; "schema"; "source"; "title"].
Definition _SUPPORTED_FILE_MEDIA_TYPES : list string :=
  ["application/csv"; "application/json"; "application/jsonl"; "application/octet-stream"; "application/x-ndjson"; "text/csv"; "text/plain"].
(** A field of text, or a file with its content type and its bytes. *)
Inductive form_value := Form_text (s : string) | UploadFile (content_type : option string) (data : string).
Definition form_fields : Type := list (string * form_value).

(** [value.split(';', 1)[0].strip().lower()] *)
Definition media_type_of (header : string) : string := lower (strip (default "" (head (split_on ";" header)))).
Definition _require_multipart (content_type content_length : option string) : result unit :=
  if negb (String.eqb (media_type_of (default "" content_type)) "multipart/form-data")
  then refused 415 "content type must be multipart/form-data" else
  match content_length with
  | None => Ok tt
  | Some t =>
      match int_of_str t with
      | None => bad_request "content-length must be an integer"
      | Some parsed =>
          if parsed <? 0 then bad_request "content-length must be non-negative" else
          if MAX_IMPORT_REQUEST_BYTES <? parsed then refused 413 "request exceeds 20250000 bytes" else Ok tt
      end
  end.
(** The chunks of the body as they arrive, and the bytes read so far. *)
Fixpoint _read_bounded_body (body : string) (chunks : list string) : result string :=
  match chunks with
  | [] => Ok body
  | chunk :: rest =>
      let body := body +:+ chunk in
      if MAX_IMPORT_REQUEST_BYTES <? str_len body then refused 413 "request exceeds 20250000 bytes" else _read_bounded_body body rest
  end.
Fixpoint unique_fields (fields : form_fields) (items : form_fields) : result form_fields :=
  match items with
  | [] => Ok fields
  | (key, v) :: rest =>
      if negb (existsb (String.eqb key) _ALLOWED_FIELDS) then bad_request ("unknown multipart field: " +:+ key) else
      if dict_has key fields then bad_request ("duplicate multipart field: " +:+ key) else unique_fields (dict_set key v fields) rest
  end.
Definition _unique_fields (items : form_fields) : result form_fields := unique_fields [] items.
Definition _required_text_field (fields : form_fields) (name : string) (max_length : Z) : result string :=
  match dict_get name fields with
  | Some (Form_text v) =>
      if String.eqb (strip v) "" then bad_request (name +:+ " is required") else
      if max_length <? str_len (strip v) then bad_request (name +:+ " exceeds " +:+ str_of_Z max_length +:+ " characters") else Ok (strip v)
  | _ => bad_request (name +:+ " is required")
  end.
Definition _optional_text_field (fields : form_fields) (name : string) (max_length : Z) : result (option string) :=
  match dict_get name fields with
  | None => Ok None
  | Some (Form_text v) =>
      if String.eqb (strip v) "" then bad_request (name +:+ " must not be empty") else
      if max_length <? str_len (strip v) then bad_request (name +:+ " exceeds " +:+ str_of_Z max_length +:+ " characters") else Ok (Some (strip v))
  | Some (UploadFile _ _) => bad_request (name +:+ " must be a text form field")
  end.
Definition _validate_media_type (content_type : option string) (allowed : list string) (field : string) : result unit :=
  let media_type := media_type_of (default "application/octet-stream" (nonempty content_type)) in
  if existsb (String.eqb media_type) allowed then Ok tt else
  refused 415 ("unsupported " +:+ field +:+ " media type: " +:+ default "missing" (nonempty (Some media_type))).

(** [raw.decode('utf-8-sig')]: [None] for bytes that are not UTF-8; characters
    behind U+00FF are outside the model of texts. *)
Definition is_continuation (c : ascii) : bool := (128 <=? ord c) && (ord c <? 192).
Fixpoint utf8_decode (s : string) : result (option string) :=
  match s with
  | EmptyString => Ok (Some "")
  | String c s' =>
      let behind (d : ascii) (r : result (option string)) := t ← r; Ok (option_map (String d) t) in
      if ord c <? 128 then behind c (utf8_decode s') else
      if (ord c <? 194) || (244 <? ord c) then Ok None else
      if 195 <? ord c then Raise OutsideModel else
      match s' with
      | String d rest =>
          if is_continuation d then behind (chr (Z.shiftl (Z.land (ord c) 3) 6 + Z.land (ord d) 63)) (utf8_decode rest) else Ok None
      | EmptyString => Ok None
      end
  end.
Definition byte_order_mark : string := char_str (chr 239) +:+ char_str (chr 187) +:+ char_str (chr 191).
Definition decode_file (raw : string) : result string :=
  match utf8_decode (if startswith byte_order_mark raw then sdrop 3 raw else raw) with
  | Ok (Some t) => Ok t
  | Ok None => bad_request "file must be valid UTF-8 text"
  | Raise e => Raise e
  end.

(** ** From the file to payloads *)

Record PreparedImport := mk_prepared_import {
  pi_parser : string; pi_payloads : list dict; pi_schema_applied : bool; pi_schema_version : value; pi_schema_fingerprint : option string }.

Section service.
Context `{HashLib} `{SchemaValidator}.
(** The payloads of the importer, stamped. *)
Definition parsed_payloads (parser_name text : string) (schema : option dict) (source title : option string) : result (list dict) :=
  importer ← or_bad_request (get_importer parser_name);
  _ ← match schema, schema_override_schema importer with
    | Some _, None => bad_request (parser_name +:+ " does not support schema overrides")
    | Some s, contract =>
        match validate_schema_override s contract parser_name with
        | Ok _ => Ok tt
        | Raise (ValueError _) => bad_request "schema is invalid for the selected parser"
        | Raise e => Raise e
        end
    | None, _ => Ok tt end;
  or_bad_request (import_text_with_schema importer text schema source title).
Definition prepared_import (parser_name : string) (schema : option dict) (payloads : list dict) : PreparedImport :=
  let payloads := stamp_import_provenance parser_name schema payloads in
  let version := match schema with Some s => vget "version" s | None => VNone end in
  let fingerprint := match payloads with
    | payload :: _ => vget "import_schema_fingerprint" (default [] (as_dict (vget "metadata" payload))) | [] => VNone end in
  mk_prepared_import parser_name payloads (bool_decide (is_Some schema))
    (match version with VInt _ | VBool _ => version | _ => VNone end) (if is_none fingerprint then None else Some (py_str fingerprint)).
Definition prepare_import (parser_name text : string) (schema : option dict) (source title : option string) : result PreparedImport :=
  payloads ← parsed_payloads parser_name text schema source title;
  match payloads with
  | [] => bad_request (parser_name +:+ " importer returned no conversations")
  | _ =>
      if MAX_IMPORT_CONVERSATIONS <? Z.of_nat (length payloads) then bad_request "import exceeds 100 conversations"
      else Ok (prepared_import parser_name schema payloads)
  end.
(** The multipart parser is third-party; the schema is the field's parsed value. *)
Definition prepare_import_request (parse_form : string → option form_fields) (read_schema : option form_value → result (option dict))
    (content_type content_length : option string) (chunks : list string) : result PreparedImport :=
  _ ← _require_multipart content_type content_length;
  body ← _read_bounded_body "" chunks;
  form ← match parse_form body with Some items => Ok items | None => bad_request "malformed multipart body" end;
  fields ← _unique_fields form;
  parser_name ← _required_text_field fields "parser" 128;
  source ← _optional_text_field fields "source" MAX_IMPORT_SOURCE_LENGTH;
  title ← _optional_text_field fields "title" MAX_IMPORT_TITLE_LENGTH;
  match dict_get "file" fields with
  | Some (UploadFile file_type data) =>
      _ ← _validate_media_type file_type _SUPPORTED_FILE_MEDIA_TYPES "file";
      if MAX_IMPORT_FILE_BYTES <? str_len data then refused 413 "file exceeds 20000000 bytes" else
      if String.eqb data "" then bad_request "file must not be empty" else
      text ← decode_file data;
      schema ← read_schema (dict_get "schema" fields);
      prepare_import parser_name text schema source title
  | _ => bad_request "file must be supplied as a multipart file part"
  end.
End service.

(** ** Saving with intent *)

Definition SAVE_INTENT_REQUIRED_MESSAGE : string :=
  "memory_insert requires metadata.save_intent when memory.insert_policy is require_save_intent".
Definition SaveIntent : list string := ["explicit_user_request"; "user_confirmed"; "client_auto_save"].
Inductive InsertDisposition := ACTIVE | PENDING_REVIEW.
#[export] Instance disposition_eq_dec : EqDecision InsertDisposition.
Proof. solve_decision. Defined.
Definition _metadata_value (conversation : dict) (key : string) : value :=
  match vget "metadata" conversation with VDict m => vget key m | _ => VNone end.
Definition validate_insert_save_intent (conversation : dict) (insert_policy : string) : result InsertDisposition :=
  if String.eqb insert_policy "permissive" then Ok ACTIVE else
  if negb (existsb (String.eqb insert_policy) ["require_save_intent"; "review_pending"])
  then Raise (SaveIntentError "unknown memory.insert_policy" "invalid_input") else
  match _metadata_value conversation "save_intent" with
  | VNone => if String.eqb insert_policy "review_pending" then Ok PENDING_REVIEW
             else Raise (SaveIntentError SAVE_INTENT_REQUIRED_MESSAGE "save_intent_required")
  | save_intent =>
      if existsb (String.eqb (py_str save_intent)) SaveIntent then Ok ACTIVE
      else Raise (SaveIntentError ("metadata.save_intent must be one of: " +:+ join ", " SaveIntent) "invalid_save_intent")
  end.

(** ** Payloads *)

Definition RAW_CAPTURE_ARTIFACT_KEYS : list string :=
  ["raw_html"; "html_snapshot"; "dom_snapshot"; "screenshot"; "screenshot_data"; "selector_evidence"].
Fixpoint _raw_capture_artifact_paths (path : string) (v : value) : list string :=
  match v with
  | VDict d => mjoin (map (λ kv,
      let child_path := path +:+ "." +:+ kv.1 in
      if existsb (String.eqb kv.1) RAW_CAPTURE_ARTIFACT_KEYS then [child_path] else _raw_capture_artifact_paths child_path kv.2) d)
  | VList l => (fix each (i : Z) (l : list value) : list string := match l with
      | [] => []
      | x :: rest => _raw_capture_artifact_paths (path +:+ "[" +:+ str_of_Z i +:+ "]") x ++ each (i + 1) rest end) 0 l
  | _ => []
  end.
Definition _reject_raw_capture_artifacts (payload : dict) : result unit :=
  match _raw_capture_artifact_paths "$" (VDict payload) with
  | [] => Ok tt
  | found => Raise (ValueError ("raw browser capture artifacts are not accepted by /memory/insert: " +:+ join ", " found))
  end.
(** The project of the payload, and the payload with it in its metadata. *)
Definition _pop_insert_project_id (payload : dict) : dict * option string :=
  let rest := dict_pop "project_id" payload in
  match vget "project_id" payload with
  | VNone => (rest, None)
  | v => let metadata := default [] (as_dict (vget "metadata" rest)) in
         (dict_set "metadata" (VDict (dict_set "project_id" (VStr (py_str v)) metadata)) rest, Some (py_str v))
  end.
Definition prepared_payload : Type := dict * option string * InsertDisposition.
Definition prepare_insert_payload (insert_policy : string) (payload : dict) : result prepared_payload :=
  _ ← _reject_raw_capture_artifacts payload;
  let '(payload, project_id) := _pop_insert_project_id payload in
  let project_id := match vget "metadata" payload with
    | VDict metadata => match vget "project_id" metadata with VNone => project_id | v => Some (py_str v) end
    | _ => project_id end in
  disposition ← validate_insert_save_intent payload insert_policy;
  Ok (payload, project_id, disposition).

(** ** Receipts *)

Definition _REDACTED_HASH_KEYS : list string :=
  ["chunk_id"; "conversation_hash"; "hash"; "imported_session_identity"; "message_hash"; "message_hashes"].
Fixpoint redact_content_hashes (v : value) : value :=
  match v with
  | VDict d => VDict (List.filter (λ kv, negb (existsb (String.eqb kv.1) _REDACTED_HASH_KEYS)) (map (λ kv, (kv.1, redact_content_hashes kv.2)) d))
  | VList l => VList (map redact_content_hashes l)
  | _ => v
  end.
Definition _nonnegative_int (v : value) : Z :=
  Z.max 0 match v with
  | VInt z => z
  | VStr s => default 0 (int_of_str s)
  | VFloat t => match float_of_text t with Ok x => default 0 (int_part x) | Raise _ => 0 end
  | _ => 0
  end.
Definition classify_ingestion_result (res : dict) : string :=
  let status := if truthy (vget "status" res) then py_str (vget "status" res) else "ok" in
  if negb (String.eqb status "ok") then status else
  if truthy (vget "stale" res) then "stale" else
  if 0 <? _nonnegative_int (vget "appended_messages" res) then "appended" else
  if truthy (vget "deduplicated" res) then "deduplicated" else "inserted".
Definition ingestion_receipt (index : Z) (res : dict) : dict :=
  let outcome := classify_ingestion_result res in
  [("index", VInt index); ("id", vget "id" res); ("status", VStr outcome); ("deduplicated", VBool (String.eqb outcome "deduplicated"))]
  ++ (if String.eqb outcome "appended" then [("appended_messages", VInt (_nonnegative_int (vget "appended_messages" res)))] else []).
Definition conflict_receipt (index : Z) (retryable : bool) : dict :=
  [("index", VInt index); ("status", VStr "conflict");
   ("error_code", VStr (if retryable then "concurrent_append_conflict" else "duplicate_conflict")); ("retryable", VBool retryable)].
(** The counters of a list of receipts *)
Definition count_of (status : string) (receipts : list dict) : Z :=
  Z.of_nat (length (List.filter (λ r, String.eqb (if truthy (vget "status" r) then py_str (vget "status" r) else "") status) receipts)).
Definition import_counts (receipts : list dict) : dict :=
  [("processed", VInt (Z.of_nat (length receipts))); ("inserted", VInt (count_of "inserted" receipts));
   ("deduplicated", VInt (count_of "deduplicated" receipts)); ("appended", VInt (count_of "appended" receipts));
   ("stale", VInt (count_of "stale" receipts)); ("conflicted", VInt (count_of "conflict" receipts)); ("failed", VInt (count_of "error" receipts))].
Definition is_value_error (e : exc) : bool :=
  match e with ValueError _ | SaveIntentError _ _ | ImportRequestError _ _ => true | _ => false end.
(** [str(exc)] of a [ValueError] *)
Definition error_text (e : exc) : string := match e with ValueError m | SaveIntentError m _ | ImportRequestError _ m => m | _ => "" end.
Definition is_conflict_error (e : exc) : bool :=
  startswith "duplicate_conflict" (error_text e) || startswith "concurrent_append_conflict" (error_text e).
Definition is_retryable_conflict (e : exc) : bool := startswith "concurrent_append_conflict" (error_text e).
Definition _import_error_receipt (index : Z) (e : exc) : dict :=
  let error_code := match e with
    | PermissionError _ => "permission_denied"
    | ValueError _ | SaveIntentError _ _ | ImportRequestError _ _ | JsonSchemaError _ => "validation_failed"
    | _ => "insert_failed" end in
  [("index", VInt index); ("status", VStr "error"); ("error_code", VStr error_code)].
Definition _import_response (imported : PreparedImport) (results : list dict) (status : string) : dict :=
  let response := [("status", VStr status); ("parser", VStr (pi_parser imported)); ("schema_applied", VBool (pi_schema_applied imported));
    ("conversation_count", VInt (Z.of_nat (length (pi_payloads imported)))); ("results", VList (map VDict results))] ++ import_counts results in
  let response := if is_none (pi_schema_version imported) then response else dict_set "schema_version" (pi_schema_version imported) response in
  match pi_schema_fingerprint imported with Some f => dict_set "schema_fingerprint" (VStr f) response | None => response end.

(** ** The routes *)

(** What the routes ask of an ingestion agent, over a state [S]. *)
Class IngestionAgent (S : Type) := {
  agent_validate : dict → option string → option string → M S unit;
  agent_ingest : dict → option string → option string → M S dict;
  agent_store_pending : dict → option string → option string → M S dict }.
Section routes.
Context {S : Type} `{IngestionAgent S}.
Definition execute_insert (owner_id : option string) (prepared : prepared_payload) : M S dict :=
  let '(payload, project_id, disposition) := prepared in
  res ← match disposition with
    | PENDING_REVIEW => agent_store_pending payload owner_id project_id
    | ACTIVE => agent_ingest payload owner_id project_id end;
  mret (default [] (as_dict (redact_content_hashes (VDict res)))).
Definition memory_insert (insert_policy : string) (owner_id : option string) (payload : dict) : M S dict :=
  prepared ← lift (prepare_insert_payload insert_policy payload);
  execute_insert owner_id prepared.
Fixpoint validate_each (owner_id : option string) (payloads : list prepared_payload) : M S unit :=
  match payloads with
  | [] => mret tt
  | (payload, project_id, _) :: rest => _ ← agent_validate payload owner_id project_id; validate_each owner_id rest
  end.
(** The receipts in order, and whether an insertion failed: the rest is not
    inserted then.  The first insertion's failure is an error of the request. *)
Fixpoint insert_each (owner_id : option string) (index : Z) (results : list dict) (payloads : list prepared_payload) : M S (list dict * bool) :=
  match payloads with
  | [] => mret (results, false)
  | prepared :: rest => λ s,
      match execute_insert owner_id prepared s with
      | (Ok res, s') => insert_each owner_id (index + 1) (results ++ [ingestion_receipt index res]) rest s'
      | (Raise e, s') =>
          if is_value_error e && is_conflict_error e
          then insert_each owner_id (index + 1) (results ++ [conflict_receipt index (is_retryable_conflict e)]) rest s'
          else match results with
               | [] => (Raise e, s')
               | _ => (Ok (results ++ [_import_error_receipt index e], true), s')
               end
      end
  end.
Definition partial_result (results : list dict) : bool :=
  existsb (λ r, existsb (λ t, is_text t (vget "status" r)) ["conflict"; "error"]) results.
Definition import_payloads (insert_policy : string) (owner_id : option string) (imported : PreparedImport) : M S dict :=
  prepared ← lift (map_result (prepare_insert_payload insert_policy) (pi_payloads imported));
  _ ← validate_each owner_id prepared;
  '(results, stopped) ← insert_each owner_id 0 [] prepared;
  mret (_import_response imported results (if stopped || partial_result results then "partial" else "ok")).
(** The request of the import route, its fields read. *)
Definition memory_import `{HashLib} `{SchemaValidator} (insert_policy : string) (owner_id : option string)
    (parser_name text : string) (schema : option dict) (source title : option string) : M S dict :=
  imported ← lift (prepare_import parser_name text schema source title);
  import_payloads insert_policy owner_id imported.
End routes.
(** The status and the detail of the error that a route answers with; the redacted
    text of an unexpected error is left out. *)
Definition import_http_error (e : exc) : Z * value :=
  match e with
  | ImportRequestError status m => (status, VStr m)
  | JsonSchemaError _ => (400, VStr "imported conversation failed canonical validation")
  | SaveIntentError m code => (400, VDict [("error_code", VStr code); ("error_message", VStr m)])
  | PermissionError m => (403, VStr m)
  | ValueError _ => (400, VStr "imported conversation failed validation")
  | _ => (503, VDict [("error_code", VStr "import_failed")])
  end.
Definition insert_http_error (e : exc) : Z * value :=
  match e with
  | JsonSchemaError m => (400, VStr m)
  | SaveIntentError m code => (400, VDict [("error_code", VStr code); ("error_message", VStr m)])
  | PermissionError m => (403, VStr m)
  | ValueError m => (if startswith "concurrent_append_conflict" m then 409 else 400, VStr m)
  | ImportRequestError _ m => (400, VStr m)
  | _ => (503, VDict [("error_code", VStr "insert_failed")])
  end.

(** ** The agent of the pipeline *)

Section pipeline.
Context `{HashLib} `{Environ} `{EmbeddingProvider} `{V : VectorStore}.
Variable rt : RuntimeDependencies.
Variable now : instant.
Variable context : AuditContext.
Variables (event_id new_id : string).
Definition validate_messages (payload : value) (strict_transcript : bool) (owner_id project_id : option string) : M World unit :=
  project ← in_hub (_resolve_project now context event_id owner_id project_id "writer");
  c ← lift (stamped_conversation now new_id payload strict_transcript owner_id project);
  c ← lift (stamp_imported_session_identity c);
  let c := _scope_conversation_hash c (Some project) in
  _ ← lift (conversation_validator rt c);
  in_convs (_validate_lineage_parent owner_id project c).
(** One identifier and one time for a request are a simplification of fresh ones
    for each call; the clients of the interface do not rely on it. *)
#[export] Instance pipeline_agent : IngestionAgent World := {|
  agent_validate payload owner_id project_id := validate_messages (VDict payload) false owner_id project_id;
  agent_ingest payload owner_id project_id := ingest_messages rt now context event_id new_id (VDict payload) false owner_id project_id;
  agent_store_pending payload owner_id project_id := store_pending_review_memory rt now context event_id new_id (VDict payload) false owner_id project_id |}.
End pipeline.
