(* ===== verification/ImportServiceFacts.v ===== *)
(** * Imports over HTTP, proved

    An answered import accounts for its conversations one by one; an import that
    is refused has inserted nothing; what validation refuses, ingestion refuses;
    and a payload without an intent is not stored as active where one is asked
    for. *)
From Stdlib Require Import ZArith Lia Ascii.
From S2P Require Import Prelude PyStr Json Hash Clock Identity AuthDb AuthStore Samples ConvStore Scope Threads Normalize Append AuditLog Chunks FactValidation FactExtract FactStore Summaries Ingest PipelineFacts ImportBase ImportHermes Importers ImportFacts ImportService.
Local Open Scope Z_scope.

(** ** Counting receipts *)

Definition counted_statuses : list string := ["inserted"; "deduplicated"; "appended"; "stale"; "conflict"; "error"].
Definition receipt_status (r : dict) : string := if truthy (vget "status" r) then py_str (vget "status" r) else "".
(** Receipts with the status of an agent's answer that has no counter. *)
Definition other_statuses (receipts : list dict) : Z :=
  Z.of_nat (length (List.filter (λ r, negb (existsb (String.eqb (receipt_status r)) counted_statuses)) receipts)).
Lemma count_cons status r l : count_of status (r :: l) = (if String.eqb (receipt_status r) status then 1 else 0) + count_of status l.
Proof. unfold count_of. cbn [List.filter]. unfold receipt_status. destruct (String.eqb _ status); cbn [length]; lia. Qed.
Ltac compare_texts :=
  match goal with H : String.eqb ?t ?x = true |- _ => apply String.eqb_eq in H; subst t end;
  repeat match goal with |- context [String.eqb ?a ?b] => let v := eval vm_compute in (String.eqb a b) in change (String.eqb a b) with v end.
Lemma counts_sum l :
  count_of "inserted" l + count_of "deduplicated" l + count_of "appended" l + count_of "stale" l + count_of "conflict" l + count_of "error" l
  + other_statuses l = Z.of_nat (length l).
Proof.
  induction l as [|r l IH]; [done|]. rewrite !count_cons. unfold other_statuses in *. cbn [List.filter length]. generalize (receipt_status r). intros t.
  change (existsb (String.eqb t) counted_statuses) with (String.eqb t "inserted" || (String.eqb t "deduplicated" || (String.eqb t "appended"
    || (String.eqb t "stale" || (String.eqb t "conflict" || (String.eqb t "error" || false)))))).
  repeat match goal with |- context [String.eqb t ?x] => destruct (String.eqb t x) eqn:?; [compare_texts; cbn [orb negb length]; lia|] end.
  cbn [orb negb length]. lia.
Qed.

(** ** The insertions *)

Section routes.
Context {S : Type} `{IngestionAgent S}.

Definition error_receipt (r : dict) : Prop := vget "status" r = VStr "error".
Lemma receipt_index i res : vget "index" (ingestion_receipt i res) = VInt i.
Proof. done. Qed.
Lemma insert_each_spec owner payloads : ∀ index results s r stopped s', insert_each owner index results payloads s = (Ok (r, stopped), s') →
  ∃ new, r = results ++ new ∧ (∀ i x, new !! i = Some x → vget "index" x = VInt (index + Z.of_nat i)) ∧
    (length new <= length payloads)%nat ∧
    (if stopped then ∃ x, last new = Some x ∧ error_receipt x else length new = length payloads).
Proof.
  induction payloads as [|p rest IH]; intros index results s r stopped s' Hr; [injection Hr as <- <- <-; exists []; by rewrite app_nil_r|].
  cbn [insert_each] in Hr. destruct (execute_insert owner p s) as [[res|e] s1] eqn:He.
  all: assert (Hnext : ∀ x, vget "index" x = VInt index → insert_each owner (index + 1) (results ++ [x]) rest s1 = (Ok (r, stopped), s') →
    ∃ new, r = results ++ new ∧ (∀ i y, new !! i = Some y → vget "index" y = VInt (index + Z.of_nat i)) ∧ (length new <= length (p :: rest))%nat ∧
      (if stopped then ∃ x, last new = Some x ∧ error_receipt x else length new = length (p :: rest))).
  1, 3: intros x Hx Hn; destruct (IH _ _ _ _ _ _ Hn) as (new & -> & Hi & Hl & Hs); exists (x :: new); rewrite <-app_assoc; split; [done|]; split;
    [intros [|i] y Hy; [injection Hy as <-; by rewrite Z.add_0_r|]; rewrite (Hi _ _ Hy); f_equal; lia|]; split; [cbn; lia|];
    (destruct stopped; [destruct Hs as (z & Hz & He'); exists z; split; [by destruct new|done]|cbn; by rewrite Hs]).
  - by apply Hnext in Hr.
  - destruct (_ && _); [by apply Hnext in Hr|]. destruct results; [discriminate|]. injection Hr as <- <- <-. eexists [_]. split; [done|].
    split; [intros [|i] y Hy; [injection Hy as <-; cbn; by rewrite Z.add_0_r|by destruct i]|]. split; [cbn; lia|]. by eexists.
Qed.
(** The first insertion is the only one whose failure is an error of the request. *)
Lemma insert_each_fails owner payloads : ∀ index results s e s', insert_each owner index results payloads s = (Raise e, s') →
  results = [] ∧ ∃ first rest, payloads = first :: rest ∧ execute_insert owner first s = (Raise e, s') ∧ is_value_error e && is_conflict_error e = false.
Proof.
  assert (Hgen : ∀ payloads index results s e s', insert_each owner index results payloads s = (Raise e, s') → results = []).
  { clear. induction payloads as [|p rest IH]; intros index results s e s' Hr; [discriminate|]. cbn [insert_each] in Hr.
    destruct (execute_insert owner p s) as [[res|x] s1]; [apply IH in Hr; by destruct results|]. destruct (_ && _); [apply IH in Hr; by destruct results|]. by destruct results. }
  intros index results s e s' Hr. split; [by eapply Hgen|]. destruct payloads as [|p rest]; [discriminate|]. cbn [insert_each] in Hr.
  destruct (execute_insert owner p s) as [[res|x] s1] eqn:He; [apply Hgen in Hr; by destruct results|]. destruct (_ && _) eqn:Hc; [apply Hgen in Hr; by destruct results|].
  destruct results; [|discriminate]. injection Hr as <- <-. by exists p, rest.
Qed.

Lemma response_get k imported results status : k ≠ "schema_version" → k ≠ "schema_fingerprint" →
  vget k (_import_response imported results status) =
  vget k ([("status", VStr status); ("parser", VStr (pi_parser imported)); ("schema_applied", VBool (pi_schema_applied imported));
    ("conversation_count", VInt (Z.of_nat (length (pi_payloads imported)))); ("results", VList (map VDict results))] ++ import_counts results).
Proof.
  intros H1 H2. unfold _import_response, vget. cbv zeta. destruct (pi_schema_fingerprint imported), (is_none _); rewrite ?dict_get_set_ne by done; done.
Qed.
Lemma partial_false results : partial_result results = false → ∀ r, r ∈ results → vget "status" r ≠ VStr "conflict" ∧ vget "status" r ≠ VStr "error".
Proof.
  intros Hp r Hr. pose proof (existsb_false_elem _ _ _ Hp Hr) as Hx. cbn in Hx. split; intros E; by rewrite E in Hx.
Qed.


(** An import that ends with an error has inserted nothing: a payload could
    not be prepared, the store being as it was; or the validation of the payloads
    ended with the error; or the insertion of the first conversation did, and it
    was not a conflict. *)
Theorem refused_import_inserts_nothing policy owner imported s e s' (Hr : import_payloads policy owner imported s = (Raise e, s')) :
  (s' = s ∧ ∃ p, p ∈ pi_payloads imported ∧ prepare_insert_payload policy p = Raise e) ∨
  ∃ prepared, map_result (prepare_insert_payload policy) (pi_payloads imported) = Ok prepared ∧
    (validate_each owner prepared s = (Raise e, s') ∨
     ∃ s1 first rest, validate_each owner prepared s = (Ok tt, s1) ∧ prepared = first :: rest ∧ execute_insert owner first s1 = (Raise e, s') ∧
       is_value_error e && is_conflict_error e = false).
Proof.
  unfold import_payloads in Hr. unfold mbind, M_bind, lift in Hr. destruct (map_result _ _) as [prepared|x] eqn:Hp.
  - right. exists prepared. split; [done|]. destruct (validate_each owner prepared s) as [[[]|x] s1] eqn:Hv; [|injection Hr as <- <-; by left].
    right. destruct (insert_each owner 0 [] prepared s1) as [[[results stopped]|x] s2] eqn:Hi; [discriminate|]. injection Hr as <- <-.
    destruct (insert_each_fails _ _ _ _ _ _ _ Hi) as (_ & first & rest & -> & He & Hc). by exists s1, first, rest.
  - left. injection Hr as <- <-. split; [done|]. destruct (map_result_fails _ _ _ Hp) as (p & Hin & Hf). by exists p.
Qed.

(** A conflict does not stop an import: when insertions fail only by conflicts,
    every conversation has its receipt. *)
Lemma insert_each_goes_on owner payloads : ∀ index results s,
  (∀ p s e s', p ∈ payloads → execute_insert owner p s = (Raise e, s') → is_value_error e && is_conflict_error e = true) →
  ∃ r s', insert_each owner index results payloads s = (Ok (r, false), s').
Proof.
  induction payloads as [|p rest IH]; intros index results s Hc; [by eexists _, _|]. cbn [insert_each]. destruct (execute_insert owner p s) as [[res|e] s1] eqn:He.
  - apply IH. intros q s2 e s3 Hq. apply Hc. set_solver.
  - rewrite (Hc p s e s1 ltac:(set_solver) He). apply IH. intros q s2 e2 s3 Hq. apply Hc. set_solver.
Qed.
End routes.

(** ** The pipeline behind the routes *)

Section pipeline.
Context `{HashLib} `{Environ} `{EmbeddingProvider} `{V : VectorStore}.
Variable rt : RuntimeDependencies.
Variable now : instant.
Variable context : AuditContext.
Variables (event_id new_id : string).
Notation validate := (validate_messages rt now context event_id new_id).
Notation ingest := (ingest_messages rt now context event_id new_id).

(** What is stored and derived; the audit trail is not. *)
Definition contents (w : World) := (derived w, conversations (conv_db (w_hub w))).
Lemma resolve_stored o p role : moves (same contents) (in_hub (_resolve_project now context event_id o p role)).
Proof. apply in_hub_moves. intros w. unfold same, contents, derived. cbn. by rewrite resolve_project_convs. Qed.
Lemma lineage_stored o p c : moves (same contents) (in_convs (_validate_lineage_parent o p c)).
Proof. apply in_convs_same. apply lineage_reads. Qed.
Lemma validate_stored payload strict o p : moves (same contents) (validate payload strict o p).
Proof.
  unfold validate_messages. walk; first [apply resolve_stored|apply lineage_stored].
Qed.

(** Validation is what ingestion starts with and it stores nothing: a payload
    that validation refuses leaves conversations, facts, summaries and vectors as
    they are, and its ingestion ends with the same error in the same state. *)
Theorem refused_payload_not_ingested payload strict o p w e w' (Hv : validate payload strict o p w = (Raise e, w')) :
  contents w' = contents w ∧ ingest payload strict o p w = (Raise e, w').
Proof.
  split; [exact (moves_run (same contents) _ _ _ _ (validate_stored payload strict o p) Hv)|].
  revert Hv. unfold validate_messages, ingest_messages. unfold mbind, M_bind, lift.
  destruct (in_hub _ w) as [[project|x] w1]; [|by intros [= -> ->]]. destruct (stamped_conversation _ _ _ _ _ _) as [c|x]; [|by intros [= -> ->]].
  destruct (stamp_imported_session_identity c) as [c1|x]; [|by intros [= -> ->]]. destruct (conversation_validator rt _) as [u|x]; [|by intros [= -> ->]].
  destruct (in_convs _ w1) as [[u1|x] w2]; [done|by intros [= -> ->]].
Qed.
End pipeline.

(** ** Prepared imports *)

Section prepared.
Context `{HashLib} `{SchemaContract}.
(** The stamp of the parser and of the schema that were used. *)
Definition stamped_by (name : string) (schema : option dict) (p : dict) : Prop :=
  ∃ d, vget "metadata" p = VDict d ∧ vget "import_parser" d = VStr name ∧ vget "import_schema_applied" d = VBool (bool_decide (is_Some schema)) ∧
    match schema with Some s => vget "import_schema_fingerprint" d = VStr (schema_fingerprint s) | None => True end.
Lemma stamped_metadata name schema p d : vget "metadata" p = VDict d →
  ∃ e, stamp_payload name schema p = dict_set "metadata" (VDict e) p ∧ vget "import_parser" e = VStr name ∧
    vget "import_schema_applied" e = VBool (bool_decide (is_Some schema)) ∧ vget "importer" e = vget "importer" d ∧
    match schema with Some s => vget "import_schema_fingerprint" e = VStr (schema_fingerprint s) | None => True end.
Proof.
  intros Hd. unfold stamp_payload. rewrite Hd. cbv zeta. change (default [] (as_dict (VDict d))) with d. eexists. split; [reflexivity|]. unfold vget.
  destruct schema as [s|]; [destruct (default VNone (dict_get "version" s))|]; repeat rewrite ?dict_get_set_ne, ?dict_get_set_eq, ?dict_get_pop_ne by done; done.
Qed.
Lemma stamp_good name importer schema p : good_payload importer p → good_payload importer (stamp_payload name schema p) ∧ stamped_by name schema (stamp_payload name schema p).
Proof.
  intros [(l & Hl & Hg) (src & Hs & Hne) (d & Hd & Hi)]. destruct (stamped_metadata name schema p d Hd) as (e & -> & Hp & Ha & Himp & Hf). split.
  - split; unfold vget.
    + rewrite dict_get_set_ne by done. by exists l.
    + rewrite dict_get_set_ne by done. by exists src.
    + rewrite dict_get_set_eq. exists e. split; [done|]. unfold vget in Himp, Hi |- *. by rewrite Himp.
  - exists e. unfold vget at 1. by rewrite dict_get_set_eq.
Qed.

(** C8: What the import route prepares is fit for ingestion: from one to a hundred
    conversations, each with messages of the user and of the assistant only, none
    of them blank, a source, and metadata that names the importer, the parser
    that was asked for, whether a schema was applied, and its fingerprint. *)
Theorem prepared_import_good (parser_name text : string) (schema : option dict) (source title : option string) imported
    (Hr : prepare_import parser_name text schema source title = Ok imported) :
  (1 <= length (pi_payloads imported) <= 100)%nat ∧ Forall (λ p, good_payload parser_name p ∧ stamped_by parser_name schema p) (pi_payloads imported).
Proof.
  unfold prepare_import in Hr. apply bind_Ok in Hr as (ps & Hp & Hr). destruct ps as [|p0 ps0] eqn:Eps; [discriminate|]. rewrite <-Eps in *.
  assert (Hn : ps ≠ []) by (by rewrite Eps). clear Eps p0 ps0. destruct (_ <? _) eqn:Hmax; [discriminate|]. apply Ok_inj in Hr as <-.
  unfold prepared_import, stamp_import_provenance. cbn [pi_payloads]. rewrite length_map. split; [apply Z.ltb_ge in Hmax; unfold MAX_IMPORT_CONVERSATIONS in Hmax; destruct (length ps) eqn:El; [by apply length_zero_iff_nil in El|lia]|].
  unfold parsed_payloads in Hp. apply bind_Ok in Hp as (i & Hi & Hp). apply bind_Ok in Hp as (u & _ & Hp).
  assert (Hgi : get_importer parser_name = Ok i) by (destruct (get_importer parser_name) as [|[]]; try discriminate; by injection Hi as ->).
  assert (Hps : import_text_with_schema i text schema source title = Ok ps) by (destruct (import_text_with_schema _ _ _ _ _) as [|[]]; try discriminate; by injection Hp as ->).
  pose proof (registry_good _ _ _ _ _ _ _ Hgi Hps) as Hall. apply List.Forall_map. eapply Forall_impl; [exact Hall|]. intros p. apply stamp_good.
Qed.
End prepared.

(** ** Intents *)

Definition intended (p : dict) : Prop := existsb (String.eqb (py_str (_metadata_value p "save_intent"))) SaveIntent = true ∧ _metadata_value p "save_intent" ≠ VNone.
(** Under the policies that ask for an intent, a payload is active only with one of
    the known intents; without one it is pending where the policy says so. *)
Theorem active_needs_intent policy p q project d (Hp : policy ≠ "permissive") (Hr : prepare_insert_payload policy p = Ok (q, project, d)) :
  match d with ACTIVE => intended q | PENDING_REVIEW => policy = "review_pending" ∧ _metadata_value q "save_intent" = VNone end.
Proof.
  unfold prepare_insert_payload in Hr. apply bind_Ok in Hr as (u & _ & Hr). destruct (_pop_insert_project_id p) as [p1 proj]. cbv zeta in Hr.
  apply bind_Ok in Hr as (d' & Hv & Hr). apply Ok_inj in Hr. injection Hr as <- _ <-. unfold validate_insert_save_intent in Hv. apply String.eqb_neq in Hp. rewrite Hp in Hv.
  destruct (negb _); [discriminate|]. unfold intended. destruct (_metadata_value p1 "save_intent");
    [destruct (String.eqb policy "review_pending") eqn:E; [|discriminate]; apply Ok_inj in Hv as <-; by apply String.eqb_eq in E as ->|..];
    (destruct (existsb _ _) eqn:E in Hv; [|discriminate]; apply Ok_inj in Hv as <-; by split).
Qed.

(** ** A small import *)

Module ServiceSamples.
Import Sample Pipeline ImportSamples.
#[local] Existing Instance typed.
#[local] Existing Instance typed_contract.
#[local] Instance agent : IngestionAgent (@World index) :=
  @pipeline_agent sample_hashlib embedder index runtime noon service (event "2") memory_id.
Definition prepared_sample : result PreparedImport := @prepare_import sample_hashlib typed "copilot-activity-csv" sample_csv None None None.
Definition imported : PreparedImport :=
  match prepared_sample with Ok i => i | Raise _ => mk_prepared_import "" [] false VNone None end.
Definition body_of (r : result dict) : dict := match r with Ok d => d | Raise _ => [] end.
Definition error_of {A} (r : result A) : exc := match r with Ok _ => OutsideModel | Raise e => e end.

Lemma prepared_import_good_witness : prepared_sample = Ok imported ∧ length (pi_payloads imported) = 1%nat ∧
  Forall (λ p, good_payload "copilot-activity-csv" p ∧ stamped_by "copilot-activity-csv" None p) (pi_payloads imported).
Proof.
  assert (Hp : prepared_sample = Ok imported) by (vm_compute; reflexivity). split; [exact Hp|]. split; [vm_compute; reflexivity|].
  exact (proj2 (@prepared_import_good sample_hashlib typed typed_contract "copilot-activity-csv" sample_csv None None None imported Hp)).
Defined.

(** The conversation is inserted; a second import of it is answered as a duplicate. *)
Notation first_import := (import_payloads "permissive" None imported empty_world).
Definition again : list value := map (λ k, vget k (body_of (import_payloads "permissive" None imported first_import.2).1)) ["status"; "inserted"; "deduplicated"].
Example imported_again : again = [VStr "ok"; VInt 0; VInt 1].
Proof. vm_compute. reflexivity. Qed.

(** A payload without messages *)
Notation refused_validation := (@validate_messages sample_hashlib index runtime noon service (event "2") memory_id (VDict []) false None None empty_world).
Lemma refused_payload_not_ingested_witness : ∃ e w', refused_validation = (Raise e, w') ∧ contents w' = contents empty_world ∧ ingest "2" (VDict []) empty_world = (Raise e, w').
Proof.
  assert (Hs : is_ok refused_validation.1 = false) by (vm_compute; reflexivity). destruct refused_validation as [[u|e] w'] eqn:E; [discriminate Hs|].
  exists e, w'. split; [reflexivity|].
  exact (@refused_payload_not_ingested sample_hashlib embedder index runtime noon service (event "2") memory_id (VDict []) false None None empty_world e w' E).
Defined.

(** A shelf of titles that refuses a second conversation of a title. *)
Module Shelf.
Definition title_of (p : dict) : string := text_of "title" p.
Definition put (p : dict) (owner project : option string) : M (list string) dict := λ s,
  if existsb (String.eqb (title_of p)) s then (Raise (ValueError "duplicate_conflict: the title is taken"), s) else (Ok [("id", VStr (title_of p))], title_of p :: s).
#[local] Instance shelf : IngestionAgent (list string) :=
  {| agent_validate _ _ _ := mret tt; agent_ingest := put; agent_store_pending := put |}.
Definition two : PreparedImport := mk_prepared_import "manual" [[("title", VStr "Plan")]; [("title", VStr "Plan")]; [("title", VStr "Notes")]] false VNone None.
Definition three : list prepared_payload := match map_result (prepare_insert_payload "permissive") (pi_payloads two) with Ok l => l | Raise _ => [] end.
Lemma conflicts_only : ∀ p s e s', p ∈ three → execute_insert None p s = (Raise e, s') → is_value_error e && is_conflict_error e = true.
Proof.
  intros [[p project] d] s e s' _. unfold execute_insert, mbind, M_bind. cbn [agent_ingest agent_store_pending shelf]. unfold put.
  destruct d; destruct (existsb _ s); intros [= <- _]; reflexivity.
Qed.
Example one_conflict : map (λ k, vget k (body_of (import_payloads "permissive" None two []).1)) ["status"; "processed"; "inserted"; "conflicted"; "failed"]
  = [VStr "partial"; VInt 3; VInt 2; VInt 1; VInt 0].
Proof. vm_compute. reflexivity. Qed.
(** An import without an intent is refused where one is required. *)
Definition taken : list string := ["Plan"].
Notation unintended := (import_payloads "require_save_intent" None two taken).
Definition no_intent : exc := SaveIntentError SAVE_INTENT_REQUIRED_MESSAGE "save_intent_required".
Lemma refused_import_inserts_nothing_witness : unintended = (Raise no_intent, taken) ∧
  ((taken = taken ∧ ∃ p, p ∈ pi_payloads two ∧ prepare_insert_payload "require_save_intent" p = Raise no_intent) ∨
  ∃ prepared, map_result (prepare_insert_payload "require_save_intent") (pi_payloads two) = Ok prepared ∧
    (validate_each None prepared taken = (Raise no_intent, taken) ∨
     ∃ s1 first rest, validate_each None prepared taken = (Ok tt, s1) ∧ prepared = first :: rest ∧ execute_insert None first s1 = (Raise no_intent, taken) ∧
       is_value_error no_intent && is_conflict_error no_intent = false)).
Proof.
  assert (He : unintended = (Raise no_intent, taken)) by (vm_compute; reflexivity). split; [exact He|].
  exact (@refused_import_inserts_nothing (list string) shelf "require_save_intent" None two taken no_intent taken He).
Defined.

End Shelf.
End ServiceSamples.
