(* ===== verification/ConnectOAuth.v ===== *)
(** * Sign-in and the browser side of the OAuth flow
    ([memory/api/oauth_authorization.py], [memory/api/connect_oauth.py],
    [memory/api/connect_service.py], [memory/api/connect_ui.py])

    Registration of clients, the authorization endpoint with the approval and the
    denial of a request, the sign-in at a provider and its callback, sign-out.
    The state is the identity database, the session of the browser that the
    signed cookie holds, and the two caches of provider documents.  The session
    middleware is always installed with these routes, so that a session is never
    missing.  The pages themselves are left out: a page is its identity and its
    tokens. *)
From Stdlib Require Import ZArith Lia Ascii.
From S2P Require Import Prelude PyStr Json Hash Clock Url Config Identity AuthDb AuthStore OAuthStore OAuthEndpoint AuthGate FactValidation ImportBase ImportService.
Local Open Scope Z_scope.

Definition OAUTH_CLIENT_MAX_RECORDS : Z := 128.
Definition OAUTH_CLIENT_NAME_MAX_LENGTH : Z := 100.
Definition OAUTH_REDIRECT_URI_MAX_COUNT : Z := 10.
Definition OAUTH_REDIRECT_URI_MAX_LENGTH : Z := 2048.
Definition OAUTH_STATE_TTL_SECONDS : Z := 600.
Definition OAUTH_STATE_MAX_RECORDS : Z := 8.
Definition OAUTH_STATE_GLOBAL_MAX_RECORDS : Z := 512.
Definition OIDC_CACHE_TTL_SECONDS : Z := 300.
Definition OIDC_CLOCK_SKEW_SECONDS : Z := 60.
Definition LOGOUT_FORM_MAX_BYTES : Z := 4096.
Definition LOCALHOST_NAMES : list string := ["localhost"].
Definition REDIRECT_URI_SCHEMES : list string := ["http"; "https"].

(** ** State and responses *)

Definition cache : Type := list (string * (Z * dict)).
Record ConnectState := mk_connect_state {
  cs_db : AuthDb; cs_session : dict; _oidc_metadata_cache : cache; _jwks_cache : cache }.
Notation Routes := (M ConnectState).
Definition in_auth {A} (m : M AuthDb A) : Routes A := λ s,
  let '(r, d) := m (cs_db s) in (r, mk_connect_state d (cs_session s) (_oidc_metadata_cache s) (_jwks_cache s)).
Definition on_session (f : dict → dict) : Routes unit :=
  exec (λ s, mk_connect_state (cs_db s) (f (cs_session s)) (_oidc_metadata_cache s) (_jwks_cache s)).
Definition on_metadata (f : cache → cache) : Routes unit :=
  exec (λ s, mk_connect_state (cs_db s) (cs_session s) (f (_oidc_metadata_cache s)) (_jwks_cache s)).
Definition on_jwks (f : cache → cache) : Routes unit :=
  exec (λ s, mk_connect_state (cs_db s) (cs_session s) (_oidc_metadata_cache s) (f (_jwks_cache s))).

Record cookie := mk_cookie { ck_name : string; ck_value : string; ck_httponly : bool; ck_secure : bool; ck_max_age : Z }.
Inductive web_response :=
| JSONReply (status_code : Z) (body : dict)
| RedirectResponse (url : string) (status_code : Z) (cookies : list cookie)
| ConnectPage (identity : oauth_identity) (issued_token csrf_token : string) (cookies : list cookie).

Definition http_error {A} (status_code : Z) (detail : string) : result A := Raise (HTTPException status_code detail).
Definition oauth_error {A} (error description : string) : result A := Raise (OAuthError error description).
(** [str(d.get(key) or "")] *)
Definition text_or_blank (key : string) (d : dict) : string := if truthy (vget key d) then py_str (vget key d) else "".
(** [except E as exc: raise other] *)
Definition rethrow {A} (to : exc → option exc) (m : Routes A) : Routes A := λ s,
  match m s with
  | (Raise e, s') => (Raise (default e (to e)), s')
  | r => r
  end.

(** ** Registration of clients *)

Definition _is_loopback_host (hostname : string) : bool :=
  let normalized := lower (rstrip_by (Ascii.eqb "."%char) hostname) in
  existsb (String.eqb normalized) LOCALHOST_NAMES || match ip_address normalized with Some a => is_loopback a | None => false end.
Definition invalid_uris {A} : result A := oauth_error "invalid_client_metadata" "redirect_uris contains invalid values".
Definition loopback_url (u : SplitResult) : bool :=
  existsb (String.eqb (url_scheme u)) REDIRECT_URI_SCHEMES && negb (String.eqb (url_netloc u) "") && String.eqb (url_fragment u) ""
  && String.eqb (url_username u) "" && String.eqb (url_password u) "" && negb (String.eqb (url_hostname u) "")
  && _is_loopback_host (url_hostname u).
Definition _validated_redirect_uri (value : value) : result string :=
  match value with
  | VStr s =>
      if String.eqb s "" || negb (String.eqb (strip s) s) then invalid_uris else
      if has_char (chr 13) s || has_char (chr 10) s then invalid_uris else
      if OAUTH_REDIRECT_URI_MAX_LENGTH <? str_len s then oauth_error "invalid_client_metadata" "redirect_uri is too long" else
      match (parsed ← urlsplit s; _ ← url_port parsed; Ok parsed) with
      | Ok parsed => if loopback_url parsed then Ok s else invalid_uris
      | Raise (ValueError _) => invalid_uris
      | Raise e => Raise e
      end
  | _ => invalid_uris
  end.
Definition _redirect_uris_from_payload (payload : value) : result (dict * list string) :=
  match payload with
  | VDict d =>
      match vget "redirect_uris" d with
      | VList (v :: vs) =>
          if OAUTH_REDIRECT_URI_MAX_COUNT <? Z.of_nat (length (v :: vs)) then oauth_error "invalid_client_metadata" "too many redirect_uris" else
          uris ← map_result _validated_redirect_uri (v :: vs);
          Ok (d, uris)
      | _ => oauth_error "invalid_client_metadata" "redirect_uris is required"
      end
  | _ => oauth_error "invalid_client_metadata" "Request body must be a JSON object"
  end.
Definition registration_body (client_id : string) (issued_at ttl_seconds : Z) (redirect_uris : list string) : dict :=
  [("client_id", VStr client_id); ("client_id_issued_at", VInt issued_at); ("client_id_expires_at", VInt (issued_at + ttl_seconds));
   ("redirect_uris", VList (map VStr redirect_uris)); ("token_endpoint_auth_method", VStr "none");
   ("grant_types", VList [VStr "authorization_code"; VStr "refresh_token"]); ("response_types", VList [VStr "code"])].

Section connect.
Context `{HashLib} `{Environ}.
Variable now : instant.
Variable config : HubConfig.

Definition oauth_register (secret body : string) : Routes web_response :=
  payload ← lift (match json_loads_bytes body with
    | Raise (ValueError _) => oauth_error "invalid_client_metadata" "Request body must be a JSON object"
    | r => r end);
  '(d, redirect_uris) ← lift (_redirect_uris_from_payload payload);
  let client_name := if truthy (vget "client_name" d) then py_str (vget "client_name" d) else "MCP client" in
  _ ← lift (guard_err (OAUTH_CLIENT_NAME_MAX_LENGTH <? str_len client_name) (OAuthError "invalid_client_metadata" "client_name is too long"));
  let client_id := "amh_client_" +:+ secret in
  let ttl_seconds := client_registration_ttl_seconds (oauth config) in
  _ ← rethrow (λ e, match e with
        | OAuthClientQuotaExceeded _ => Some (OAuthError "invalid_client_metadata" "Active OAuth client quota is exhausted")
        | _ => None end)
      (in_auth (create_oauth_client now client_id client_name redirect_uris (utc_after now ttl_seconds) OAUTH_CLIENT_MAX_RECORDS));
  mret (JSONReply 201 (registration_body client_id now ttl_seconds redirect_uris)).

(** ** Authorization requests *)

Definition _oauth_client_for_request (client_id : string) : Routes (option client_info) :=
  if String.eqb client_id "" then mret None else in_auth (oauth_client now client_id).
(** [uri in client["redirect_uris"]], whatever the column holds *)
Definition value_has (s : string) (v : value) : result bool :=
  match v with
  | VList l => Ok (existsb (λ x, match x with VStr t => String.eqb s t | _ => false end) l)
  | VStr t => Ok (contains s t)
  | VDict d => Ok (dict_has s d)
  | _ => Raise (TypeError "argument is not iterable")
  end.
Definition request_field (key : string) (params : list (string * string)) : string := default "" (dict_get key params).
Definition requested_client (client_id redirect_uri : string) : Routes client_info :=
  client ← _oauth_client_for_request client_id;
  match client with
  | None => raise (OAuthError "invalid_client" "Unknown OAuth client_id")
  | Some c =>
      registered ← lift (value_has redirect_uri (ci_redirect_uris c));
      if (registered : bool) then mret c else raise (OAuthError "invalid_request" "redirect_uri is not registered")
  end.
Definition _validated_authorization_request (params : list (string * string)) : Routes dict :=
  let client_id := request_field "client_id" params in
  let redirect_uri := request_field "redirect_uri" params in
  _ ← requested_client client_id redirect_uri;
  _ ← lift (guard_err (negb (String.eqb (request_field "response_type" params) "code"))
              (OAuthError "unsupported_response_type" "Only response_type=code is supported"));
  _ ← lift (guard_err (negb (String.eqb (request_field "code_challenge_method" params) "S256")) (OAuthError "invalid_request" "PKCE S256 is required"));
  let code_challenge := request_field "code_challenge" params in
  _ ← lift (guard_err (negb (PKCE_CHALLENGE_PATTERN code_challenge))
              (OAuthError "invalid_request" "code_challenge must be 43 base64url characters"));
  let scope := request_field "scope" params in
  _ ← lift (_validate_requested_scopes scope config);
  mret [("client_id", VStr client_id); ("redirect_uri", VStr redirect_uri); ("code_challenge", VStr code_challenge);
        ("code_challenge_method", VStr "S256"); ("resource", VStr (request_field "resource" params)); ("scope", VStr scope);
        ("state", VStr (request_field "state" params))].
Definition _AUTH_REQUEST_FIELDS : list string :=
  ["client_id"; "redirect_uri"; "code_challenge"; "code_challenge_method"; "resource"; "scope"; "state"].
Definition _validated_pending_authorization_request (pending : value) : Routes (list (string * string)) :=
  match pending with
  | VDict d =>
      let values := map (λ key, (key, text_or_blank key d)) _AUTH_REQUEST_FIELDS in
      let field key := request_field key values in
      _ ← requested_client (field "client_id") (field "redirect_uri");
      _ ← lift (guard_err (negb (String.eqb (field "code_challenge_method") "S256") || negb (PKCE_CHALLENGE_PATTERN (field "code_challenge")))
                  (OAuthError "invalid_request" "PKCE S256 is required"));
      _ ← lift (_validate_requested_scopes (field "scope") config);
      mret values
  | _ => raise (OAuthError "invalid_request" "No pending authorization request")
  end.
Definition _trusted_authorization_redirect_uri (params : list (string * string)) : Routes (option string) :=
  let redirect_uri := request_field "redirect_uri" params in
  client ← _oauth_client_for_request (request_field "client_id" params);
  match client with
  | None => mret None
  | Some c => registered ← lift (value_has redirect_uri (ci_redirect_uris c)); mret (if (registered : bool) then Some redirect_uri else None)
  end.

(** ** Redirects *)

Definition with_query (url : string) (query : list (string * string)) : string :=
  url +:+ (if contains "?" url then "&" else "?") +:+ urlencode query.
Definition state_field (state : string) : list (string * string) := if String.eqb state "" then [] else [("state", state)].
Definition error_fields (e : exc) : list (string * string) :=
  match e with
  | OAuthError error description => [("error", or_str error "invalid_request"); ("error_description", or_str description "Authorization failed")]
  | _ => [("error", "invalid_request"); ("error_description", "Authorization failed")]
  end.
Definition _authorization_error_redirect (redirect_uri : string) (e : exc) (state : string) : web_response :=
  RedirectResponse (with_query redirect_uri (error_fields e ++ state_field state)) 303 [].
Definition _authorization_code_redirect (secret : string) (auth_request : list (string * string)) (owner_id : string) : Routes web_response :=
  let code := "amh_code_" +:+ secret in
  let field key := request_field key auth_request in
  _ ← in_auth (create_oauth_authorization_code now code (field "client_id") owner_id (field "redirect_uri") (field "code_challenge")
        (field "resource") (field "scope") (utc_after now AUTHORIZATION_CODE_TTL_SECONDS));
  mret (RedirectResponse (with_query (field "redirect_uri") (("code", code) :: state_field (field "state"))) 303 []).

(** ** Sign-in at a provider *)

(** The random texts of a redirect to a provider. *)
Record nonces := mk_nonces { fresh_state : string; fresh_nonce : string; fresh_verifier : string; fresh_browser : string }.
Definition env_secret (env_name : string) : string := strip (environ_get env_name config).
Definition normalize_passport_provider (provider : string) : result string :=
  let value := lower (strip provider) in
  if existsb (String.eqb value) ["google"; "meta"; "x"] then Ok value else http_error 404 "OAuth provider is not supported".
Definition provider_named (provider : string) : option PassportProviderConfig :=
  let p := passport (connect config) in
  dict_get provider [("google", provider_google p); ("meta", provider_meta p); ("x", provider_x p)].
Definition passport_provider_config (provider : string) : option PassportProviderConfig :=
  if existsb (String.eqb provider) (pp_providers (passport (connect config))) then provider_named provider else None.
Definition known_provider (provider : string) : result PassportProviderConfig :=
  from_option_err (HTTPException 404 "OAuth provider is not supported") (passport_provider_config provider).
Definition provider_callback_url (provider : string) : result string :=
  provider_config ← known_provider provider;
  Ok (or_str (callback_url provider_config) (rstrip_slash (public_base_url config) +:+ "/auth/" +:+ provider +:+ "/callback")).
Definition _first_enabled_provider : result string :=
  from_option_err (HTTPException 503 "No OAuth identity provider is enabled")
    (List.find (λ p, match provider_named p with Some c => pp_enabled c | None => false end) (pp_providers (passport (connect config)))).
Definition _browser_session_id (fresh : option string) : Routes string :=
  s ← get_state;
  match vget "oauth_browser_session_id" (cs_session s), fresh with
  | VStr (String _ _ as value), _ => mret value
  | _, Some value => _ ← on_session (dict_set "oauth_browser_session_id" (VStr value)); mret value
  | _, None => mret ""
  end.
Definition authorize_redirect (f : nonces) (provider : string) (state_data : dict) : Routes web_response :=
  provider_name ← lift (normalize_passport_provider provider);
  provider_config ← lift (known_provider provider_name);
  let client_id := env_secret (client_id_env provider_config) in
  _ ← lift (guard_err (String.eqb client_id "") (HTTPException 503 "OAuth client id is not configured"));
  browser_session_id ← _browser_session_id (Some (fresh_browser f));
  _ ← rethrow (λ e, match e with
        | OAuthProviderStateQuotaExceeded _ => Some (HTTPException 429 "Too many pending OAuth authorizations")
        | _ => None end)
      (in_auth (create_oauth_provider_state now (fresh_state f) provider_name browser_session_id (fresh_nonce f) (fresh_verifier f) state_data
        (utc_after now OAUTH_STATE_TTL_SECONDS) OAUTH_STATE_MAX_RECORDS OAUTH_STATE_GLOBAL_MAX_RECORDS));
  redirect_uri ← lift (provider_callback_url provider_name);
  let query := urlencode [("response_type", "code"); ("client_id", client_id); ("redirect_uri", redirect_uri);
    ("scope", join " " (pp_scopes provider_config)); ("state", fresh_state f); ("nonce", fresh_nonce f);
    ("code_challenge", _pkce_challenge (fresh_verifier f)); ("code_challenge_method", "S256"); ("access_type", "offline"); ("prompt", "select_account")] in
  mret (RedirectResponse (authorization_url provider_config +:+ "?" +:+ query) 303 []).

Definition oauth_authorize (f : nonces) (params : list (string * string)) : Routes web_response := λ s,
  match _validated_authorization_request params s with
  | (Ok auth_request, s') =>
      (_ ← on_session (dict_set "pending_oauth_authorization" (VDict auth_request));
       provider ← lift _first_enabled_provider;
       authorize_redirect f provider [("pending_oauth_authorization", VDict auth_request)]) s'
  | (Raise ((OAuthError _ _ | HTTPException _ _) as e), s') =>
      (redirect_uri ← _trusted_authorization_redirect_uri params;
       match redirect_uri with
       | None => raise e
       | Some uri => mret (_authorization_error_redirect uri e (request_field "state" params))
       end) s'
  | (Raise e, s') => (Raise e, s')
  end.

(** ** Approval and denial *)

Definition session_from_request (cookies : list (string * string)) : Routes (option web_session) :=
  match dict_get (session_cookie_name (connect config)) cookies with
  | Some (String _ _ as session_id) => in_auth (web_session_for_hash now (hash_secret config session_id "connect-session"))
  | _ => mret None
  end.
(** The session of the browser and the request that waits for a decision; the
    request is taken out of the session before it is looked at. *)
Definition decided_request (cookies form : list (string * string)) : Routes (web_session * list (string * string)) :=
  session ← session_from_request cookies;
  match session with
  | None => raise (HTTPException 403 "Connect session is required")
  | Some session =>
      if negb (csrf_matches config session (request_field "csrf_token" form)) then raise (HTTPException 403 "Invalid CSRF token") else
      s ← get_state;
      let pending := vget "pending_oauth_authorization" (cs_session s) in
      _ ← on_session (dict_pop "pending_oauth_authorization");
      auth_request ← _validated_pending_authorization_request pending;
      mret (session, auth_request)
  end.
Definition oauth_authorize_approve (secret : string) (cookies form : list (string * string)) : Routes web_response :=
  '(session, auth_request) ← decided_request cookies form;
  _authorization_code_redirect secret auth_request (ws_user_id session).
Definition oauth_authorize_deny (cookies form : list (string * string)) : Routes web_response :=
  '(_, auth_request) ← decided_request cookies form;
  mret (_authorization_error_redirect (request_field "redirect_uri" auth_request)
          (OAuthError "access_denied" "The resource owner denied the request") (request_field "state" auth_request)).

Definition pending_authorization_model (session : dict) : Routes (option (list (string * string))) :=
  match vget "pending_oauth_authorization" session with
  | VDict _ as pending => λ s,
      match _validated_pending_authorization_request pending s with
      | (Raise (OAuthError _ _ | HTTPException _ _), s') => (Ok None, s')
      | (Raise e, s') => (Raise e, s')
      | (Ok auth_request, s') =>
          let field key := request_field key auth_request in
          (client ← _oauth_client_for_request (field "client_id");
           let client_name := match client with Some c => or_str (ci_client_name c) "MCP client" | None => "MCP client" end in
           mret (Some [("client_name", client_name); ("redirect_uri", field "redirect_uri");
             ("scope", or_str (field "scope") (READ_SCOPE +:+ " " +:+ WRITE_SCOPE)); ("resource", field "resource")])) s'
      end
  | _ => mret None
  end.
End connect.

(** ** The claims of a provider *)

(** What the third-party clients answer: a response of an HTTP request, [None]
    when it fails, with its body read as JSON; the claims of a signed token. *)
Record HttpResponse := mk_http_response { status_code : Z; response_json : result value }.
Class WebClient := {
  http_post : string → list (string * string) → option HttpResponse;
  http_get : string → option HttpResponse;
  jwt_decode : dict → list string → string → option value }.

(** [isinstance(v, int)] *)
Definition int_claim (v : value) : option Z := match v with VInt z => Some z | VBool b => Some (if b then 1 else 0) | _ => None end.
Definition is_subject (v : value) : bool := match v with VStr s => negb (String.eqb (strip s) "") | _ => false end.
Definition invalid_identity {A} : result A := http_error 403 "Invalid OAuth identity token".
Definition _safe_oidc_url (url : string) : result bool :=
  parsed ← urlsplit url;
  Ok (String.eqb (url_scheme parsed) "https"
      || String.eqb (url_scheme parsed) "http" && existsb (String.eqb (url_hostname parsed)) ["127.0.0.1"; "localhost"; "::1"]).
Definition _provider_uses_oidc (provider_config : PassportProviderConfig) : bool :=
  existsb (λ s, String.eqb (lower s) "openid") (pp_scopes provider_config) && negb (String.eqb (pp_issuer provider_config) "")
  && negb (String.eqb (discovery_url provider_config) "" && String.eqb (jwks_url provider_config) "").
Definition _validate_oidc_nonce (claims : dict) (provider_config : option PassportProviderConfig) (nonce : string) : result unit :=
  match provider_config with
  | Some c =>
      if negb (_provider_uses_oidc c) then Ok tt else
      if String.eqb nonce "" || negb (is_text nonce (vget "nonce" claims)) then invalid_identity else Ok tt
  | None => Ok tt
  end.
Definition _jwt_payload (token : string) : result (option dict) :=
  match split_on "."%char token with
  | [_; part; _] =>
      match (b ← urlsafe_b64decode (part +:+ list_str (replicate (Z.to_nat ((- str_len part) mod 4)) "="%char)); json_loads_bytes b) with
      | Ok (VDict payload) => Ok (Some payload)
      | Ok _ | Raise (ValueError _) => Ok None
      | Raise e => Raise e
      end
  | _ => Ok None
  end.
(** [_Sentinel] and its like: what a test may put in place of the exchange. *)
Definition exchange_override : Type := option (string → string → result value).

Section claims.
Context `{HashLib} `{Environ} `{JwtLib} `{WebClient}.
Variable now : instant.
Variable config : HubConfig.

Definition _fetch_json (url : string) : result dict :=
  match http_get url with
  | None => http_error 502 "OAuth provider metadata request failed"
  | Some r =>
      if 400 <=? status_code r then http_error 502 "OAuth provider metadata request failed" else
      payload ← response_json r;
      from_option_err (HTTPException 502 "OAuth provider metadata response was invalid") (as_dict payload)
  end.
(** A document of a cache that is still fresh. *)
Definition fresh_entry (key : string) (c : cache) : option dict :=
  '(expires, payload) ← dict_get key c; if now <? expires then Some payload else None.
Definition _metadata_for_provider (provider : string) (provider_config : PassportProviderConfig) : Routes dict :=
  let url := discovery_url provider_config in
  _ ← lift (guard_err (String.eqb url "") (HTTPException 503 "OAuth discovery URL is not configured"));
  safe ← lift (_safe_oidc_url url);
  _ ← lift (guard_err (negb safe) (HTTPException 503 "OAuth discovery URL is not allowed"));
  s ← get_state;
  match fresh_entry provider (_oidc_metadata_cache s) with
  | Some payload => mret payload
  | None =>
      payload ← lift (_fetch_json url);
      _ ← on_metadata (dict_set provider (now + OIDC_CACHE_TTL_SECONDS, payload));
      mret payload
  end.
Definition provider_jwks_url (provider : string) (provider_config : PassportProviderConfig) : Routes string :=
  if negb (String.eqb (jwks_url provider_config) "") then mret (jwks_url provider_config) else
  metadata ← _metadata_for_provider provider provider_config;
  let issuer := pp_issuer provider_config in
  _ ← lift (guard_err (negb (String.eqb issuer "") && negb (is_text issuer (vget "issuer" metadata)))
              (HTTPException 502 "OAuth provider metadata was invalid"));
  match _nonempty_string (vget "jwks_uri" metadata) with
  | Some url => mret url
  | None => raise (HTTPException 502 "OAuth provider metadata was invalid")
  end.
Definition _jwks_for_provider (provider : string) (provider_config : PassportProviderConfig) : Routes dict :=
  url ← provider_jwks_url provider provider_config;
  safe ← lift (_safe_oidc_url url);
  _ ← lift (guard_err (negb safe) (HTTPException 503 "OAuth JWKS URL is not allowed"));
  s ← get_state;
  match fresh_entry url (_jwks_cache s) with
  | Some payload => mret payload
  | None =>
      payload ← lift (_fetch_json url);
      _ ← lift (guard_err (match vget "keys" payload with VList _ => false | _ => true end) (HTTPException 502 "OAuth JWKS response was invalid"));
      _ ← on_jwks (dict_set url (now + OIDC_CACHE_TTL_SECONDS, payload));
      mret payload
  end.
Definition _validate_oidc_time_claims (claims : dict) : result unit :=
  _ ← match int_claim (vget "exp" claims) with
      | Some exp => guard_err (exp <=? now - OIDC_CLOCK_SKEW_SECONDS) (HTTPException 403 "Invalid OAuth identity token")
      | None => invalid_identity end;
  _ ← match int_claim (vget "iat" claims) with
      | Some iat => guard_err (now + OIDC_CLOCK_SKEW_SECONDS <? iat) (HTTPException 403 "Invalid OAuth identity token")
      | None => invalid_identity end;
  guard_err (negb (is_subject (vget "sub" claims))) (HTTPException 403 "Invalid OAuth identity token").
Definition _verified_id_token_claims (provider : string) (provider_config : option PassportProviderConfig) (id_token : string) : Routes dict :=
  match provider_config with
  | None => raise (HTTPException 404 "OAuth provider is not supported")
  | Some c =>
      if negb (_provider_uses_oidc c) then
        claims ← lift (_jwt_payload id_token);
        lift (from_option_err (HTTPException 403 "Invalid OAuth identity token") claims)
      else
      jwks ← _jwks_for_provider provider c;
      match jwt_decode jwks (oidc_algorithms c) id_token with
      | Some (VDict claims) => _ ← lift (_validate_oidc_time_claims claims); mret claims
      | _ => raise (HTTPException 403 "Invalid OAuth identity token")
      end
  end.
Definition _claims_from_token (token : dict) (provider nonce : string) : Routes (option dict) :=
  let provider_config := passport_provider_config config provider in
  let checked claims := _ ← lift (_validate_oidc_nonce claims provider_config nonce); mret (Some claims) in
  match vget "userinfo" token, vget "id_token" token with
  | VDict userinfo, _ => mret (Some userinfo)
  | _, VDict claims => checked claims
  | _, VStr id_token => claims ← _verified_id_token_claims provider provider_config id_token; checked claims
  | _, _ => if dict_has "sub" token then checked token else mret None
  end.
Definition _exchange_code_for_token (provider code nonce code_verifier : string) : result dict :=
  provider_config ← known_provider config provider;
  let client_id := env_secret config (client_id_env provider_config) in
  _ ← guard_err (String.eqb client_id "") (HTTPException 503 "OAuth client id is not configured");
  _ ← guard_err (String.eqb (token_url provider_config) "") (HTTPException 503 "OAuth token URL is not configured");
  redirect_uri ← provider_callback_url config provider;
  match http_post (token_url provider_config)
      ([("grant_type", "authorization_code"); ("code", code); ("redirect_uri", redirect_uri); ("client_id", client_id);
        ("client_secret", env_secret config (client_secret_env provider_config))]
       ++ (if String.eqb code_verifier "" then [] else [("code_verifier", code_verifier)])) with
  | None => http_error 502 "OAuth token exchange failed"
  | Some r =>
      if 400 <=? status_code r then http_error 400 "OAuth token exchange was rejected" else
      payload ← response_json r;
      match payload with
      | VDict d => Ok (dict_set "nonce" (VStr nonce) d)
      | _ => http_error 502 "OAuth token response was invalid"
      end
  end.
Definition _state_data (query : list (string * string)) (provider : string) : Routes dict :=
  let state := request_field "state" query in
  _ ← lift (guard_err (String.eqb state "") (HTTPException 400 "Invalid OAuth state"));
  browser_session_id ← _browser_session_id None;
  _ ← lift (guard_err (String.eqb browser_session_id "") (HTTPException 400 "Invalid OAuth state"));
  data ← in_auth (consume_oauth_provider_state now state provider browser_session_id);
  lift (from_option_err (HTTPException 400 "Invalid OAuth state") data).
(** The claims, and the data of the state for what follows in the request. *)
Definition callback_claims (override : exchange_override) (query : list (string * string)) (provider : string) : Routes (dict * dict) :=
  provider_name ← lift (normalize_passport_provider provider);
  state_data ← _state_data query provider_name;
  let code := request_field "code" query in
  let nonce := text_or_blank "nonce" state_data in
  _ ← lift (guard_err (String.eqb code "") (HTTPException 400 "Missing OAuth code"));
  match override with
  | Some exchange =>
      claims ← lift (exchange code nonce);
      match claims with
      | VDict claims => _ ← lift (_validate_oidc_nonce claims (passport_provider_config config provider_name) nonce); mret (claims, state_data)
      | _ => raise (HTTPException 502 "OAuth test exchange returned invalid claims")
      end
  | None =>
      token ← lift (_exchange_code_for_token provider_name code nonce (text_or_blank "code_verifier" state_data));
      claims ← _claims_from_token token provider_name nonce;
      match claims with
      | Some claims => mret (claims, state_data)
      | None => raise (HTTPException 502 "OAuth provider response did not include a supported identity payload")
      end
  end.

(** ** Sign-in and sign-out *)

(** [claims.get("iss") not in issuer_values], unless there are none *)
Definition accepted_issuer (provider : string) (provider_config : PassportProviderConfig) (claims : dict) : result bool :=
  let issuer_values := if String.eqb provider "google" then ["https://accounts.google.com"; "accounts.google.com"]
    else if String.eqb (pp_issuer provider_config) "" then [] else [pp_issuer provider_config] in
  match issuer_values with [] => Ok true | _ => in_texts (vget "iss" claims) issuer_values end.
Definition validate_provider_claims (claims : dict) (provider : string) : result unit :=
  provider_config ← known_provider config provider;
  issuer_ok ← accepted_issuer provider provider_config claims;
  _ ← guard_err (negb issuer_ok) (HTTPException 403 "Invalid OAuth issuer");
  _ ← guard_err (negb (is_text (env_secret config (client_id_env provider_config)) (vget "aud" claims))) (HTTPException 403 "Invalid OAuth audience");
  _ ← guard_err (match int_claim (vget "exp" claims) with Some exp => exp <=? now | None => true end) (HTTPException 403 "Expired OAuth identity token");
  _ ← guard_err (negb (is_subject (vget "sub" claims))) (HTTPException 403 "OAuth identity token is missing subject");
  let listed value allowed := match allowed with [] => true | _ => existsb (String.eqb value) allowed end in
  _ ← guard_err (negb (listed (lower (text_or_blank "hd" claims)) (pp_allowed_domains provider_config)))
        (HTTPException 403 "OAuth hosted domain is not allowed");
  guard_err (negb (listed (lower (text_or_blank "email" claims)) (pp_allowed_emails provider_config))) (HTTPException 403 "OAuth email is not allowed").

Record login_secrets := mk_login_secrets { fresh_session : string; fresh_csrf : string; fresh_jti : string; fresh_token : string }.
Record ConnectLoginResult := mk_login {
  lg_identity : oauth_identity; lg_session_id : string; lg_csrf_token : string; lg_issued_token : string; lg_issued_token_id : string }.
(** [text.title()] of the name of a provider *)
Definition provider_title (s : string) : string :=
  match s with String c r => String (if is_lower_ascii c then chr (ord c - 32) else c) r | EmptyString => EmptyString end.
Definition complete_login (f : login_secrets) (provider : string) (claims : dict) (issue_token : bool) : Routes ConnectLoginResult :=
  _ ← lift (validate_provider_claims claims provider);
  let email := text_or_blank "email" claims in
  identity ← in_auth (find_or_create_oauth_identity now provider (py_str (vget "sub" claims)) None None (Some email)
    (Some (if truthy (vget "name" claims) then py_str (vget "name" claims) else email)));
  let user_id := oi_user_id identity in
  _ ← in_auth (create_web_session now (hash_secret config (fresh_session f) "connect-session") user_id
        (hash_secret config (fresh_csrf f) "connect-csrf") (utc_after now (session_ttl_seconds (connect config))));
  let scopes := [READ_SCOPE; WRITE_SCOPE] in
  let issued_token := if issue_token then issue_hub_token now config user_id scopes (fresh_jti f) else "" in
  _ ← (if issue_token then
         _ ← in_auth (create_auth_token now user_id issued_token None (Some (provider_title provider +:+ " Connect UI"))
               (Some (utc_after now (token_ttl_seconds (connect config)))) (Some scopes) (fresh_token f)); mret tt
       else mret tt);
  payload ← lift (jwt_payload issued_token);
  mret (mk_login identity (fresh_session f) (fresh_csrf f) issued_token (text_or_blank "jti" payload)).

Definition secure_cookie : bool :=
  let base := public_base_url config in
  startswith "https://" base && negb (contains "localhost" base) && negb (contains "127.0.0.1" base).
Definition session_cookie (name value : string) (httponly : bool) : cookie :=
  mk_cookie name value httponly secure_cookie (session_ttl_seconds (connect config)).
Definition login_cookies (login : ConnectLoginResult) : list cookie :=
  [session_cookie (session_cookie_name (connect config)) (lg_session_id login) true].
Definition csrf_cookies (login : ConnectLoginResult) : list cookie := [session_cookie "amh_csrf" (lg_csrf_token login) false].
Definition token_cookies (login : ConnectLoginResult) : list cookie :=
  if String.eqb (lg_issued_token_id login) "" then []
  else [mk_cookie "amh_token_id" (lg_issued_token_id login) true secure_cookie (token_ttl_seconds (connect config))].
Definition waiting (data : dict) : option value :=
  match vget "pending_oauth_authorization" data with VDict d => Some (VDict d) | _ => None end.
Definition _has_pending_mcp_authorization (state_data session : dict) : bool :=
  match waiting state_data with Some _ => true | None => match waiting session with Some _ => true | None => false end end.
(** The request of the state comes before that of the session. *)
Definition pending_authorization_redirect (state_data : dict) (cookies : list cookie) : Routes (option web_response) :=
  s ← get_state;
  match (match waiting state_data with Some p => Some p | None => waiting (cs_session s) end) with
  | Some pending =>
      _ ← on_session (dict_set "pending_oauth_authorization" pending);
      mret (Some (RedirectResponse "/connect" 303 cookies))
  | None => mret None
  end.
Definition auth_provider_callback (f : login_secrets) (override : exchange_override) (query : list (string * string)) (provider : string) : Routes web_response :=
  _ ← lift (guard_err (negb (String.eqb (request_field "error" query) "")) (HTTPException 403 "OAuth login was denied"));
  '(claims, state_data) ← callback_claims override query provider;
  s ← get_state;
  login ← complete_login f provider claims (negb (_has_pending_mcp_authorization state_data (cs_session s)));
  redirect ← pending_authorization_redirect state_data (login_cookies login ++ csrf_cookies login);
  match redirect with
  | Some response => mret response
  | None => mret (ConnectPage (lg_identity login) (lg_issued_token login) (lg_csrf_token login)
                    (login_cookies login ++ token_cookies login ++ csrf_cookies login))
  end.

Definition logout (cookies : list (string * string)) (csrf_token : string) : Routes unit :=
  session ← session_from_request now config cookies;
  _ ← lift (match session with
            | Some s => guard_err (negb (csrf_matches config s csrf_token)) (HTTPException 403 "Invalid CSRF token")
            | None => Ok tt end);
  _ ← match dict_get (session_cookie_name (connect config)) cookies with
      | Some (String _ _ as session_id) => _ ← in_auth (revoke_web_session now (hash_secret config session_id "connect-session")); mret tt
      | _ => mret tt end;
  match dict_get "amh_token_id" cookies with
  | Some (String _ _ as token_id) => _ ← in_auth (revoke_auth_token now token_id); mret tt
  | _ => mret tt
  end.
(** The form of a sign-out: its size, its text and the field of the token.  A
    text that is not UTF-8 is refused; a field with an escape that is not, which
    the library replaces by a mark, is outside the model. *)
Definition _bounded_logout_body (content_length : option string) (chunks : list string) : result string :=
  _ ← match content_length with
      | Some length => match int_of_str length with
          | Some declared => guard_err (LOGOUT_FORM_MAX_BYTES <? declared) (HTTPException 413 "Logout form is too large")
          | None => http_error 400 "Invalid logout form length" end
      | None => Ok tt end;
  fold_result (λ body chunk, if LOGOUT_FORM_MAX_BYTES <? str_len (body +:+ chunk) then http_error 413 "Logout form is too large" else Ok (body +:+ chunk))
    "" chunks.
Definition _logout_form_text (body : string) : result string :=
  text ← utf8_decode body; from_option_err (HTTPException 400 "Invalid logout form encoding") text.
Fixpoint unquote_bytes (s : string) : string :=
  match s with
  | String c ((String a (String b r)) as rest) =>
      if Ascii.eqb c "%"%char && is_hex_digit a && is_hex_digit b
      then String (chr (default 0 (int_digits 16 0 false (String a (char_str b))))) (unquote_bytes r)
      else String c (unquote_bytes rest)
  | _ => s
  end.
Definition unquote_plus (s : string) : result string :=
  if negb (sall (λ c, ord c <? 128) s) then Raise OutsideModel else
  text ← utf8_decode (unquote_bytes (replace "+" " " s));
  from_option_err OutsideModel text.
(** [parse_qs(text).get(key, [""])[0]] *)
Definition form_field (key text : string) : result string :=
  fields ← map_result (λ kv, name ← unquote_plus kv.1; value ← unquote_plus kv.2; Ok (name, value))
    (List.filter (λ kv, negb (String.eqb kv.2 "")) (map (partition "="%char) (split_on "&"%char text)));
  Ok (default "" (dict_get key fields)).
Definition removed_cookie (name : string) : cookie := mk_cookie name "" false false 0.
Definition auth_logout (cookies : list (string * string)) (content_length : option string) (chunks : list string) : Routes web_response :=
  body ← lift (_bounded_logout_body content_length chunks);
  text ← lift (_logout_form_text body);
  csrf_token ← lift (form_field "csrf_token" text);
  _ ← logout cookies csrf_token;
  mret (RedirectResponse "/connect" 303 (map removed_cookie [session_cookie_name (connect config); "amh_csrf"; "amh_token_id"])).
End claims.
