(* ===== verification/ConnectFacts.v ===== *)
(** * Facts about sign-in and the browser side of the OAuth flow

    What the routes leave alone, the history of the routes of all browsers, where
    they redirect to, where authorization codes come from, and what a sign-in
    leaves behind. *)
From Stdlib Require Import ZArith Lia Ascii.
From S2P Require Import Prelude PyStr Json Hash Clock Url Config Identity AuthDb AuthStore OAuthStore AuthSystem Samples OAuthFacts AuthFacts OAuthEndpoint AuthGate FactValidation ImportBase ConnectOAuth.

(** ** What operations leave alone *)

(** Clients are the same, and every code was there with the same grant. *)
Definition still (d d' : AuthDb) : Prop :=
  oauth_clients d' = oauth_clients d ∧
  ∀ c', c' ∈ oauth_authorization_codes d' → ∃ c, c ∈ oauth_authorization_codes d ∧ ac_hash c = ac_hash c' ∧ grant c = grant c'.
#[export] Instance still_preorder : PreOrder still.
Proof.
  split; [split; [done|by eauto]|]. intros d1 d2 d3 [E1 H1] [E2 H2]. split; [congruence|].
  intros c Hc. destruct (H2 _ Hc) as (c2 & Hc2 & Eh2 & Eg2). destruct (H1 _ Hc2) as (c1 & Hc1 & Eh1 & Eg1).
  exists c1. split_and!; [done|congruence..].
Qed.
Lemma still_same d d' : oauth_clients d' = oauth_clients d → oauth_authorization_codes d' = oauth_authorization_codes d → still d d'.
Proof. intros E Ec. split; [done|]. rewrite Ec. eauto. Qed.
Lemma still_frame {A} (m : M AuthDb A) : moves (same oauth_tables) m → moves still m.
Proof. intros Hm d. specialize (Hm d). injection Hm as _ _ _ Hc _ Hl _ _. by apply still_same. Qed.
Lemma still_consumed p ts d : still d (on_codes (tbl_update p (set_code_consumed ts)) d).
Proof.
  split; [by destruct d|]. destruct d; cbn. intros c (c0 & Hc & ->)%elem_of_tbl_update. exists c0. split; [done|]. by destruct (p c0).
Qed.
#[export] Hint Resolve still_frame ensure_user_frame upsert_user_frame ensure_default_frame : moves.

(** Such a sequence of statements of the store. *)
Definition quiet (d d' : AuthDb) : Prop := statements d d' ∧ still d d'.
#[export] Instance quiet_preorder : PreOrder quiet.
Proof. split; [by split|]. intros d1 d2 d3 [H1 S1] [H2 S2]. split; [by transitivity d2|by transitivity d2]. Qed.
Lemma moves_quiet {A} (m : M AuthDb A) : moves statements m → moves still m → moves quiet m.
Proof. intros H1 H2 d. split; [apply H1|apply H2]. Qed.

(** The writes that are left: on other tables, or the redemption of codes. *)
Ltac still_write :=
  match goal with
  | |- still _ (on_codes (tbl_update _ (set_code_consumed _)) _) => apply still_consumed
  | |- still ?d _ => apply still_same; destruct d; repeat (case_match; simplify_eq); reflexivity
  end.
Ltac quietly st := apply moves_quiet; [apply st|]; unfold AuthStore.written, write_tokens; walk; repeat (cbn beta iota in *; inv_ok); try (subst; still_write).

Section frames.
Context `{HashLib} `{Environ}.
Variable now : instant.
Lemma oauth_client_quiet c : moves quiet (oauth_client now c).
Proof. unfold oauth_client. walk. Qed.
Lemma create_state_quiet a b c e g h i j k : moves quiet (create_oauth_provider_state now a b c e g h i j k).
Proof. unfold create_oauth_provider_state. quietly create_state_st. Qed.
Lemma consume_state_quiet a b c : moves quiet (consume_oauth_provider_state now a b c).
Proof. unfold consume_oauth_provider_state. quietly consume_state_st. Qed.
Lemma session_quiet h : moves quiet (web_session_for_hash now h).
Proof. unfold web_session_for_hash. quietly use_session_st. Qed.
Lemma create_session_quiet a b c e : moves quiet (create_web_session now a b c e).
Proof. unfold create_web_session. quietly create_session_st. Qed.
Lemma revoke_session_quiet h : moves quiet (revoke_web_session now h).
Proof. unfold revoke_web_session. quietly revoke_session_st. Qed.
Lemma identity_quiet a b c e g h : moves quiet (find_or_create_oauth_identity now a b c e g h).
Proof. unfold find_or_create_oauth_identity. quietly identity_st. Qed.
Lemma create_token_quiet a b c e g h i : moves quiet (create_auth_token now a b c e g h i).
Proof. unfold create_auth_token. quietly create_auth_token_st. Qed.
Lemma revoke_token_quiet a : moves quiet (revoke_auth_token now a).
Proof. unfold revoke_auth_token. quietly revoke_auth_token_st. Qed.
Lemma consume_code_quiet a b c e : moves quiet (consume_oauth_authorization_code now a b c e).
Proof. unfold consume_oauth_authorization_code. quietly consume_code_st. Qed.
Lemma create_refresh_quiet a b c e g h i j : moves quiet (create_oauth_refresh_token now a b c e g h i j).
Proof. unfold create_oauth_refresh_token. quietly create_refresh_st. Qed.
Lemma oauth_refresh_quiet a : moves quiet (oauth_refresh_token a).
Proof. unfold oauth_refresh_token. quietly oauth_refresh_token_st. Qed.
Lemma consume_refresh_quiet a : moves quiet (consume_oauth_refresh_token now a).
Proof. unfold consume_oauth_refresh_token. quietly consume_refresh_st. Qed.
Lemma revoke_family_quiet a : moves quiet (revoke_oauth_refresh_token_family now a).
Proof. unfold revoke_oauth_refresh_token_family. quietly revoke_family_st. Qed.
#[local] Hint Resolve revoke_family_quiet oauth_refresh_quiet : moves.
Lemma revoke_refresh_quiet a : moves quiet (revoke_oauth_refresh_token now a).
Proof. unfold revoke_oauth_refresh_token. walk. Qed.
Lemma revoke_authorization_quiet a : moves quiet (revoke_oauth_authorization_for_access_token now a).
Proof. unfold revoke_oauth_authorization_for_access_token. quietly revoke_authorization_st. Qed.
End frames.
#[export] Hint Resolve oauth_client_quiet create_state_quiet consume_state_quiet session_quiet create_session_quiet revoke_session_quiet
  identity_quiet create_token_quiet revoke_token_quiet consume_code_quiet create_refresh_quiet oauth_refresh_quiet consume_refresh_quiet
  revoke_family_quiet revoke_refresh_quiet revoke_authorization_quiet : moves.

Section token_endpoint.
Context `{HashLib} `{Environ} `{JwtLib}.
Variable now : instant.
Variable config : HubConfig.
Lemma on_exception_quiet {A} (m : M AuthDb A) handler : moves quiet m → moves quiet handler → moves quiet (on_exception m handler).
Proof.
  intros Hm Hh d. specialize (Hm d). unfold on_exception. destruct (m d) as [[a|e] d']; cbn in *; [done|]. etrans; [exact Hm|apply Hh].
Qed.
Lemma compensation_quiet token_id : moves quiet (_revoke_failed_access_token now token_id).
Proof. intros d. apply (revoke_token_quiet now token_id d). Qed.
#[local] Hint Resolve on_exception_quiet compensation_quiet : moves.
Lemma issue_quiet f c o r sc fam : moves quiet (_issue_access_and_refresh_tokens now config f c o r sc fam).
Proof. unfold _issue_access_and_refresh_tokens. walk. Qed.
Lemma error_response_quiet m : moves quiet m → moves quiet (_oauth_error_response m).
Proof. intros Hm d. specialize (Hm d). unfold _oauth_error_response. destruct (m d) as [[a|[]] d']; exact Hm. Qed.
#[local] Hint Resolve issue_quiet : moves.
Lemma oauth_token_quiet f form : moves quiet (oauth_token now config f form).
Proof. unfold oauth_token. apply error_response_quiet. unfold _refresh_token_response, authorization_code_response, invalid_refresh. walk. Qed.
Lemma oauth_revoke_quiet form : moves quiet (oauth_revoke now form).
Proof. unfold oauth_revoke. walk. Qed.
End token_endpoint.
#[export] Hint Resolve oauth_token_quiet oauth_revoke_quiet : moves.

(** ** The routes that neither register nor approve *)

Definition in_db (R : AuthDb → AuthDb → Prop) (s s' : ConnectState) : Prop := R (cs_db s) (cs_db s').
#[export] Instance in_db_preorder R `{!PreOrder R} : PreOrder (in_db R).
Proof. unfold in_db. split; [by intros s|intros a b c]. intros. by etrans. Qed.
Lemma moves_in_auth R {A} (m : M AuthDb A) : moves R m → moves (in_db R) (in_auth m).
Proof. intros Hm s. specialize (Hm (cs_db s)). unfold in_auth, in_db. by destruct (m (cs_db s)). Qed.
Lemma moves_on_session R `{!PreOrder R} f : moves (in_db R) (on_session f).
Proof. intros s. by unfold in_db. Qed.
Lemma moves_on_metadata R `{!PreOrder R} f : moves (in_db R) (on_metadata f).
Proof. intros s. by unfold in_db. Qed.
Lemma moves_on_jwks R `{!PreOrder R} f : moves (in_db R) (on_jwks f).
Proof. intros s. by unfold in_db. Qed.
Lemma moves_rethrow {R : ConnectState → ConnectState → Prop} {A} to (m : Routes A) : moves R m → moves R (rethrow to m).
Proof. intros Hm s. specialize (Hm s). unfold rethrow. by destruct (m s) as [[a|e] s']. Qed.
Lemma moves_get_state {S} (R : S → S → Prop) `{!PreOrder R} : moves R get_state.
Proof. by intros s. Qed.
Ltac routes := walk; repeat first
  [ apply moves_in_auth; solve [auto with moves nocore] | apply moves_rethrow; walk | apply moves_on_session; apply _ | apply moves_on_metadata; apply _
  | apply moves_on_jwks; apply _ | apply moves_get_state; apply _ | progress walk ].

Section routes.
Context `{HashLib} `{Environ} `{JwtLib} `{WebClient}.
Variable now : instant.
Variable config : HubConfig.
Notation Q := (in_db quiet).
Lemma requested_client_quiet c u : moves Q (requested_client now c u).
Proof. unfold requested_client, _oauth_client_for_request. routes. Qed.
Lemma browser_session_quiet f : moves Q (_browser_session_id f).
Proof. unfold _browser_session_id. routes. Qed.
Lemma session_from_request_quiet c : moves Q (session_from_request now config c).
Proof. unfold session_from_request. routes. Qed.
#[local] Hint Resolve requested_client_quiet browser_session_quiet session_from_request_quiet : moves.
Lemma authorize_redirect_quiet f p d : moves Q (authorize_redirect now config f p d).
Proof. unfold authorize_redirect. routes. Qed.
Lemma pending_request_quiet v : moves Q (_validated_pending_authorization_request now config v).
Proof. unfold _validated_pending_authorization_request. routes. Qed.
#[local] Hint Resolve authorize_redirect_quiet pending_request_quiet : moves.
Lemma decided_request_quiet c f : moves Q (decided_request now config c f).
Proof. unfold decided_request. routes. Qed.
#[local] Hint Resolve decided_request_quiet : moves.
Lemma deny_quiet c f : moves Q (oauth_authorize_deny now config c f).
Proof. unfold oauth_authorize_deny. routes. Qed.
Lemma authorize_quiet f params : moves Q (oauth_authorize now config f params).
Proof.
  intros s. unfold oauth_authorize. assert (Hv : moves Q (_validated_authorization_request now config params)) by (unfold _validated_authorization_request; routes).
  specialize (Hv s). destruct (_validated_authorization_request _ _ _ _) as [[r|e] s']; cbn in Hv.
  - etrans; [exact Hv|]. match goal with |- Q _ ((?m) _).2 => assert (Hm : moves Q m) by routes end. apply Hm.
  - assert (Hm : moves Q (redirect_uri ← _trusted_authorization_redirect_uri now params;
       match redirect_uri with None => raise e | Some uri => mret (_authorization_error_redirect uri e (request_field "state" params)) end))
      by (unfold _trusted_authorization_redirect_uri, _oauth_client_for_request; routes).
    destruct e; try exact Hv; (etrans; [exact Hv|apply Hm]).
Qed.
Lemma claims_quiet token p n : moves Q (_claims_from_token now config token p n).
Proof.
  unfold _claims_from_token, _verified_id_token_claims, _jwks_for_provider, provider_jwks_url, _metadata_for_provider. routes.
Qed.
#[local] Hint Resolve claims_quiet : moves.
Lemma callback_quiet f o q p : moves Q (auth_provider_callback now config f o q p).
Proof. unfold auth_provider_callback, callback_claims, _state_data, complete_login, pending_authorization_redirect. routes. Qed.
Lemma logout_quiet c l chunks : moves Q (auth_logout now config c l chunks).
Proof. unfold auth_logout, logout. routes. Qed.
End routes.

(** ** Clients redirect to this machine only *)

(** A redirect of a registered client leads to a web server on this machine and
    carries no credentials, no fragment and no line break. *)
Definition loopback_host (host : string) : Prop := host = "localhost" ∨ ∃ a, ip_address host = Some a ∧ is_loopback a = true.
Definition loopback_redirect (uri : string) : Prop :=
  has_char (chr 13) uri = false ∧ has_char (chr 10) uri = false ∧
  ∃ u, urlsplit uri = Ok u ∧ (url_scheme u = "http" ∨ url_scheme u = "https") ∧
    url_username u = "" ∧ url_password u = "" ∧ url_fragment u = "" ∧
    loopback_host (lower (rstrip_by (Ascii.eqb "."%char) (url_hostname u))).
Lemma loopback_url_spec u : loopback_url u = true → (url_scheme u = "http" ∨ url_scheme u = "https") ∧
  url_username u = "" ∧ url_password u = "" ∧ url_fragment u = "" ∧ loopback_host (lower (rstrip_by (Ascii.eqb "."%char) (url_hostname u))).
Proof.
  unfold loopback_url, _is_loopback_host, loopback_host. cbn [existsb REDIRECT_URI_SCHEMES LOCALHOST_NAMES]. intros Hl. prop_bool.
  split. { match goal with Hs : (_ || (_ || _)) = true |- _ => rewrite !orb_true_iff, !String.eqb_eq in Hs; naive_solver end. }
  split_and!; [done..|]. match goal with Hs : (_ || _ || _) = true |- _ => rewrite !orb_true_iff, String.eqb_eq in Hs; destruct Hs as [[?|?]|Hs] end;
    [by left|discriminate|right]. destruct (ip_address _); [eauto|discriminate].
Qed.
Lemma validated_redirect v s : _validated_redirect_uri v = Ok s → loopback_redirect s.
Proof.
  unfold _validated_redirect_uri. destruct v as [| | | |t| |]; try discriminate. destruct (_ || negb (String.eqb (strip t) t)); [discriminate|].
  destruct (has_char _ t || _) eqn:Hc; [discriminate|]. destruct (_ <? _)%Z; [discriminate|].
  destruct (parsed ← urlsplit t; _) as [u|[]] eqn:Hu; try discriminate. destruct (loopback_url u) eqn:Hl; [|discriminate].
  intros [= <-]. apply bind_Ok in Hu as (u' & Hu & Hp). apply bind_Ok in Hp as (port & _ & [= <-]). prop_bool.
  split; [done|]. split; [done|]. exists u'. split; [done|by apply loopback_url_spec].
Qed.

Definition client_uris (c : oauth_client_row) (uris : list string) : Prop := oc_redirect_uris c = json_dumps_ascii (VList (map VStr uris)).
Definition loopback_clients (d : AuthDb) : Prop :=
  ∀ c, c ∈ oauth_clients d → ∃ uris, client_uris c uris ∧ Forall loopback_redirect uris.
Lemma quiet_clients d d' : quiet d d' → keeps loopback_clients d d'.
Proof. intros [_ [E _]] Hd. unfold loopback_clients. by rewrite E. Qed.

Section history.
Context `{HashLib} `{Environ} `{JwtLib}.
Variable config : HubConfig.

Lemma create_client_loopback now id name uris e q : Forall loopback_redirect uris →
  moves (keeps loopback_clients) (create_oauth_client now id name uris e q).
Proof.
  intros Hu. unfold create_oauth_client, AuthStore.written. walk. intros Hs c Hc.
  match goal with d : AuthDb |- _ => destruct d end. cbn in Hc, Hs.
  apply elem_of_tbl_upsert in Hc as [->|[[Hc _]|(c1 & Hc & _ & ->)]]; [by exists uris|by apply Hs|by exists uris].
Qed.
Lemma register_loopback now secret body : moves (in_db (keeps loopback_clients)) (oauth_register now config secret body).
Proof.
  unfold oauth_register. apply moves_bind; [apply _|walk|intros payload]. apply moves_checked; [apply _|intros [d uris] Hu].
  assert (Hl : Forall loopback_redirect uris).
  { unfold _redirect_uris_from_payload in Hu. destruct payload as [| | | | | |p]; try discriminate. destruct (vget _ p) as [| | | | |[|v vs]|]; try discriminate.
    destruct (_ <? _)%Z; [discriminate|]. apply bind_Ok in Hu as (us & Hm & [= _ <-]). apply Forall_forall. intros u Hin.
    apply (proj1 (map_result_elem _ _ _ Hm u)) in Hin as (w & _ & Hw). by apply validated_redirect in Hw. }
  routes. by apply moves_in_auth, create_client_loopback.
Qed.

(** ** The history of the routes *)

Inductive connect_op :=
| Register (secret body : string)
| Authorize (f : nonces) (params : list (string * string))
| Approve (secret : string) (cookies form : list (string * string))
| Deny (cookies form : list (string * string))
| Token (f : fresh) (form : list (string * string))
| Revoke (form : list (string * string))
| SignIn (f : nonces) (provider : string)
| Callback (f : login_secrets) (override : exchange_override) (query : list (string * string)) (provider : string)
| SignOut (cookies : list (string * string)) (content_length : option string) (chunks : list string).
Definition json_reply (m : M AuthDb response) : Routes web_response :=
  r ← in_auth m; match r with JSONResponse status body => mret (JSONReply status (default [] (as_dict body))) end.
Definition connect_run `{WebClient} (now : instant) (op : connect_op) : Routes web_response :=
  match op with
  | Register secret body => oauth_register now config secret body
  | Authorize f params => oauth_authorize now config f params
  | Approve secret cookies form => oauth_authorize_approve now config secret cookies form
  | Deny cookies form => oauth_authorize_deny now config cookies form
  | Token f form => json_reply (oauth_token now config f form)
  | Revoke form => json_reply (oauth_revoke now form)
  | SignIn f provider => authorize_redirect now config f provider []
  | Callback f override query provider => auth_provider_callback now config f override query provider
  | SignOut cookies l chunks => auth_logout now config cookies l chunks
  end.
(** A request at any time, with any answers of the providers; or the turn of
    another browser, whose session may be any. *)
Definition with_session (session : dict) (s : ConnectState) : ConnectState :=
  mk_connect_state (cs_db s) session (_oidc_metadata_cache s) (_jwks_cache s).
Inductive connect_step : ConnectState → ConnectState → Prop :=
| step_request (W : WebClient) now op s : connect_step s (connect_run now op s).2
| step_browser session s : connect_step s (with_session session s).
Definition no_requests : ConnectState := mk_connect_state empty_db [] [] [].
Definition connected (s : ConnectState) : Prop := rtc connect_step no_requests s.

Definition approves (op : connect_op) : bool := match op with Approve _ _ _ => true | _ => false end.
Definition registers (op : connect_op) : bool := match op with Register _ _ => true | _ => false end.
Lemma op_quiet `{WebClient} now op s : approves op = false → registers op = false → in_db quiet s (connect_run now op s).2.
Proof.
  intros Ha Hr. destruct op; try discriminate; cbn [connect_run].
  - apply authorize_quiet.
  - apply deny_quiet.
  - unfold json_reply. assert (Hm : moves (in_db quiet) (json_reply (oauth_token now config f form))) by (unfold json_reply; routes). apply Hm.
  - assert (Hm : moves (in_db quiet) (json_reply (oauth_revoke now form))) by (unfold json_reply; routes). apply Hm.
  - apply authorize_redirect_quiet.
  - apply callback_quiet.
  - apply logout_quiet.
Qed.

(** ** What a decision reads *)

Lemma in_auth_run {A} (m : M AuthDb A) s r s' : in_auth m s = (r, s') →
  ∃ d, m (cs_db s) = (r, d) ∧ s' = mk_connect_state d (cs_session s) (_oidc_metadata_cache s) (_jwks_cache s).
Proof. unfold in_auth. destruct (m (cs_db s)) as [r' d] eqn:E. intros [= <- <-]. eauto. Qed.

(** A client that is registered for a redirect. *)
Definition registered_for (now : instant) (d : AuthDb) (client_id uri : string) (c : oauth_client_row) : Prop :=
  c ∈ oauth_clients d ∧ client_active now c = true ∧ _validate_token_lookup client_id = Ok (oc_client_id c) ∧
  ∃ uris, client_uris c uris ∧ uri ∈ uris.
Lemma oauth_client_run now id d info d' : oauth_client now id d = (Ok (Some info), d') →
  d' = d ∧ ∃ c, c ∈ oauth_clients d ∧ client_active now c = true ∧ _validate_token_lookup id = Ok (oc_client_id c) ∧ _oauth_client_from_row c = Ok info.
Proof.
  unfold oauth_client. intros Hr. inv_run. split; [done|]. apply one_row_Ok in Hr as (c & Hf & Hi). exists c.
  apply tbl_find_Some in Hf as [Hc Hp]. unfold is_client in Hp. prop_bool. by subst.
Qed.
Lemma registered_redirect now id uri d info d' : loopback_clients d → oauth_client now id d = (Ok (Some info), d') →
  value_has uri (ci_redirect_uris info) = Ok true → ∃ c, registered_for now d id uri c ∧ loopback_redirect uri.
Proof.
  intros Hd (-> & c & Hc & Ha & Hid & Hi)%oauth_client_run Hv. destruct (Hd _ Hc) as (uris & Hu & Hl). exists c.
  unfold _oauth_client_from_row in Hi. rewrite Hu, loads_dumps_ascii in Hi by apply wf_str_list. injection Hi as <-. cbn in Hv. injection Hv as Hv.
  assert (Hin : uri ∈ uris).
  { apply existsb_elem in Hv as (v & Hin & Hv). apply list_elem_of_fmap in Hin as (u & -> & Hin). apply String.eqb_eq in Hv as ->. done. }
  split; [|by eapply Forall_forall in Hl]. split_and!; eauto.
Qed.
Lemma requested_client_run now id uri s info s' : loopback_clients (cs_db s) → requested_client now id uri s = (Ok info, s') →
  s' = s ∧ ∃ c, registered_for now (cs_db s) id uri c ∧ loopback_redirect uri.
Proof.
  intros Hd. unfold requested_client, _oauth_client_for_request. intros Hr.
  apply (proj1 (bind_run _ _ _ _ _)) in Hr as (client & s1 & Hc & Hr). destruct client as [info'|]; [|discriminate].
  destruct (String.eqb id ""); [discriminate|]. apply in_auth_run in Hc as (d & Hc & ->).
  apply (proj1 (bind_run _ _ _ _ _)) in Hr as (has & s2 & Hv & Hr). apply (proj1 (lift_run _ _ _ _)) in Hv as [Hv ->].
  destruct has; [|discriminate]. injection Hr as <- <-. split; [|by eapply registered_redirect].
  apply oauth_client_run in Hc as [-> _]. by destruct s.
Qed.
Lemma pending_request_run now d s values s' : loopback_clients (cs_db s) →
  _validated_pending_authorization_request now config (VDict d) s = (Ok values, s') →
  s' = s ∧ values = map (λ key, (key, text_or_blank key d)) _AUTH_REQUEST_FIELDS ∧
  PKCE_CHALLENGE_PATTERN (text_or_blank "code_challenge" d) = true ∧ _validate_requested_scopes (text_or_blank "scope" d) config = Ok tt ∧
  ∃ c, registered_for now (cs_db s) (text_or_blank "client_id" d) (text_or_blank "redirect_uri" d) c ∧ loopback_redirect (text_or_blank "redirect_uri" d).
Proof.
  intros Hd. unfold _validated_pending_authorization_request. cbn zeta. intros Hr. apply (proj1 (bind_run _ _ _ _ _)) in Hr as (info & s1 & Hc & Hr).
  apply (requested_client_run _ _ _ _ _ _ Hd) in Hc as [-> Hc].
  apply (proj1 (bind_run _ _ _ _ _)) in Hr as (u & s1 & Hg & Hr). apply (proj1 (lift_run _ _ _ _)) in Hg as [Hg ->].
  apply (proj1 (bind_run _ _ _ _ _)) in Hr as (u' & s1 & Hs & Hr). apply (proj1 (lift_run _ _ _ _)) in Hs as [Hs ->]. injection Hr as <- <-.
  unfold guard_err in Hg. destruct (_ || _) eqn:Eg in Hg; [discriminate|]. prop_bool. destruct u'. split_and!; done.
Qed.

(** The session that a cookie and a token of a form prove. *)
Definition signed_in (now : instant) (cookies form : list (string * string)) (d : AuthDb) (ws : web_session) : Prop :=
  ∃ session_id, dict_get (session_cookie_name (connect config)) cookies = Some session_id ∧ ws ∈ web_sessions d ∧
    _validate_secret_hash (hash_secret config session_id "connect-session") "session_id_hash" = Ok (ws_session_id_hash ws) ∧
    ws_revoked_at ws = None ∧ unexpired now (ws_expires_at ws) = true ∧ csrf_matches config ws (request_field "csrf_token" form) = true.
Lemma decided_request_run now cookies form s ws values s' : loopback_clients (cs_db s) →
  decided_request now config cookies form s = (Ok (ws, values), s') →
  signed_in now cookies form (cs_db s) ws ∧ in_db quiet s s' ∧ cs_session s' = dict_pop "pending_oauth_authorization" (cs_session s) ∧
  ∃ d, vget "pending_oauth_authorization" (cs_session s) = VDict d ∧ values = map (λ key, (key, text_or_blank key d)) _AUTH_REQUEST_FIELDS ∧
    PKCE_CHALLENGE_PATTERN (text_or_blank "code_challenge" d) = true ∧ _validate_requested_scopes (text_or_blank "scope" d) config = Ok tt ∧
    ∃ c, registered_for now (cs_db s) (text_or_blank "client_id" d) (text_or_blank "redirect_uri" d) c ∧ loopback_redirect (text_or_blank "redirect_uri" d).
Proof.
  intros Hd Hr. pose proof (decided_request_quiet now config cookies form s) as Hq. rewrite Hr in Hq. cbn in Hq.
  unfold decided_request in Hr. apply (proj1 (bind_run _ _ _ _ _)) in Hr as (session & s1 & Hs & Hr). destruct session as [ws'|]; [|discriminate].
  unfold session_from_request in Hs. destruct (dict_get _ cookies) as [[|a sid]|] eqn:Hck; [discriminate| |discriminate].
  apply in_auth_run in Hs as (d1 & Hs & ->). destruct (csrf_matches _ _ _) eqn:Hcsrf; [cbn [negb] in Hr|discriminate].
  apply (proj1 (bind_run _ _ _ _ _)) in Hr as (s2 & s2' & [= <- <-] & Hr). cbn [cs_session] in Hr.
  apply (proj1 (bind_run _ _ _ _ _)) in Hr as (u & s3 & [= _ <-] & Hr).
  apply (proj1 (bind_run _ _ _ _ _)) in Hr as (vs & s4 & Hv & Hr). injection Hr as <- <- <-.
  assert (E : oauth_clients d1 = oauth_clients (cs_db s)) by (pose proof (session_quiet now (hash_secret config (String a sid) "connect-session") (cs_db s)) as [_ [E _]]; by rewrite Hs in E).
  destruct (vget "pending_oauth_authorization" (cs_session s)) as [| | | | | |d] eqn:Hp; try discriminate.
  apply pending_request_run in Hv; [|unfold loopback_clients in *; cbn; by rewrite E]. cbn [cs_db] in Hv. destruct Hv as (-> & -> & Hk & Hsc & c & Hc & Hl).
  split; [|split; [done|split; [done|]]].
  - destruct (_validate_secret_hash (hash_secret config (String a sid) "connect-session") "session_id_hash") as [h|] eqn:Hh.
    2:{ unfold web_session_for_hash in Hs. by rewrite Hh in Hs. }
    rewrite (session_run _ _ _ _ Hh) in Hs. destruct (tbl_find _ _) as [w|] eqn:Hf; [|discriminate]. injection Hs as -> _.
    apply tbl_find_Some in Hf as [Hin Hf]. unfold is_session in Hf. prop_bool. exists (String a sid). split_and!; try done; [congruence|]. by destruct (ws_revoked_at ws').
  - exists d. split_and!; try done. exists c. split; [|done]. unfold registered_for in *. by rewrite E in Hc.
Qed.

(** ** Approval *)

(** What an approval writes: the code of a request that waits in the session of
    the browser, for a client that is registered with the redirect, with a
    challenge and with supported scopes, to the user of the signed-in session,
    for five minutes. *)
Definition approved (now : instant) (cookies form : list (string * string)) (s : ConnectState) (c : auth_code) : Prop :=
  ∃ ws request client, signed_in now cookies form (cs_db s) ws ∧
    vget "pending_oauth_authorization" (cs_session s) = VDict request ∧
    registered_for now (cs_db s) (text_or_blank "client_id" request) (ac_redirect_uri c) client ∧
    ac_client_id c = oc_client_id client ∧ _validate_owner_id (ws_user_id ws) = Ok (ac_owner_id c) ∧
    ac_redirect_uri c = text_or_blank "redirect_uri" request ∧ loopback_redirect (ac_redirect_uri c) ∧
    ac_challenge c = text_or_blank "code_challenge" request ∧ PKCE_CHALLENGE_PATTERN (ac_challenge c) = true ∧
    ac_resource c = text_or_blank "resource" request ∧
    ac_scope c = text_or_blank "scope" request ∧ _validate_requested_scopes (ac_scope c) config = Ok tt ∧
    ac_expires_at c = utc_after now AUTHORIZATION_CODE_TTL_SECONDS ∧ ac_consumed_at c = None.
Lemma approve_run now secret cookies form s resp s' : loopback_clients (cs_db s) →
  oauth_authorize_approve now config secret cookies form s = (Ok resp, s') →
  ∃ d c request, in_db quiet s (mk_connect_state d [] [] []) ∧ cs_db s' = on_codes (λ t, t ++ [c]) d ∧
    _hash_bearer_token ("amh_code_" +:+ secret) = Ok (ac_hash c) ∧ existsb (is_code (ac_hash c)) (oauth_authorization_codes d) = false ∧
    approved now cookies form s c ∧ vget "pending_oauth_authorization" (cs_session s) = VDict request ∧
    cs_session s' = dict_pop "pending_oauth_authorization" (cs_session s) ∧
    resp = RedirectResponse (with_query (ac_redirect_uri c) (("code", "amh_code_" +:+ secret) :: state_field (text_or_blank "state" request))) 303 [].
Proof.
  intros Hd. unfold oauth_authorize_approve. intros Hr. apply (proj1 (bind_run _ _ _ _ _)) in Hr as ([ws values] & s1 & Hq & Hr).
  apply (decided_request_run _ _ _ _ _ _ _ Hd) in Hq as (Hin & Hq & Hses & request & Hp & -> & Hk & Hsc & client & Hc & Hl).
  unfold _authorization_code_redirect in Hr. apply (proj1 (bind_run _ _ _ _ _)) in Hr as ([] & s2 & Hn & Hr). injection Hr as <- <-.
  apply in_auth_run in Hn as (d & Hn & ->). apply create_code_run in Hn as (h & cl & o & Hh & Hcl & Ho & Hnew & ->).
  pose proof Hc as (_ & _ & Hid & _). change (_validate_token_lookup (text_or_blank "client_id" request) = Ok cl) in Hcl.
  rewrite Hid in Hcl. injection Hcl as <-.
  eexists (cs_db s1), _, request. split; [done|]. split; [reflexivity|]. split; [exact Hh|]. split; [exact Hnew|].
  split; [|split; [done|split; [done|reflexivity]]]. exists ws, request, client. split; [exact Hin|]. split; [exact Hp|]. split; [exact Hc|]. split_and!; try done.
Qed.
Lemma approve_fails now secret cookies form s e s' : oauth_authorize_approve now config secret cookies form s = (Raise e, s') → in_db quiet s s'.
Proof.
  unfold oauth_authorize_approve, _authorization_code_redirect, create_oauth_authorization_code, in_auth, mbind, M_bind, lift, transaction, mret, M_ret. intros Hr.
  pose proof (decided_request_quiet now config cookies form s) as Hq. destruct (decided_request _ _ _ _ _) as [[[ws vs]|x] s1]; cbn in Hq; [|by injection Hr as _ <-].
  repeat case_match; simplify_eq; exact Hq.
Qed.
Lemma step_clients s s' : connect_step s s' → loopback_clients (cs_db s) → loopback_clients (cs_db s').
Proof.
  intros [W now op s0|session s0] Hd; [|done]. destruct (approves op) eqn:Ha; [|destruct (registers op) eqn:Hr].
  - destruct op; try discriminate. cbn [connect_run]. destruct (oauth_authorize_approve _ _ _ _ _ _) as [[resp|e] s1] eqn:E; cbn [snd].
    + destruct (approve_run _ _ _ _ _ _ _ Hd E) as (d & c & _ & Hq & -> & _). apply (quiet_clients _ _ Hq) in Hd. by destruct d.
    + by apply (quiet_clients _ _ (approve_fails _ _ _ _ _ _ _ E)).
  - destruct op; try discriminate. by apply (register_loopback now secret body s0).
  - by apply (quiet_clients _ _ (op_quiet now op s0 Ha Hr)).
Qed.
Lemma connected_clients s : connected s → loopback_clients (cs_db s).
Proof.
  intros Hs. assert (Hg : loopback_clients (cs_db no_requests)) by (intros c Hc; by apply elem_of_nil in Hc).
  revert Hg. induction Hs as [|s1 s2 s3 Hst _ IH]; [done|]. eauto using step_clients.
Qed.
Lemma register_codes now secret body : moves (in_db (same oauth_authorization_codes)) (oauth_register now config secret body).
Proof.
  unfold oauth_register. routes. apply moves_in_auth. unfold create_oauth_client, AuthStore.written. walk. match goal with d : AuthDb |- _ => by destruct d end.
Qed.
(** A step makes no code but the one of an approval. *)
Lemma step_codes s s' c' : loopback_clients (cs_db s) → connect_step s s' → c' ∈ oauth_authorization_codes (cs_db s') →
  (∃ c, c ∈ oauth_authorization_codes (cs_db s) ∧ ac_hash c = ac_hash c' ∧ grant c = grant c') ∨
  ∃ W now secret cookies form resp, @connect_run W now (Approve secret cookies form) s = (Ok resp, s') ∧ approved now cookies form s c'.
Proof.
  intros Hd Hst. revert Hd. destruct Hst as [W now op s0|session s0]; intros Hd Hc; [|left; eauto]. destruct (approves op) eqn:Ha; [|left; destruct (registers op) eqn:Hr].
  - destruct op; try discriminate. cbn [connect_run] in *. destruct (oauth_authorize_approve _ _ _ _ _ _) as [[resp|e] s1] eqn:E; cbn in Hc.
    + destruct (approve_run _ _ _ _ _ _ _ Hd E) as (d & c & _ & [_ [_ Hq]] & Hdb & _ & _ & Hap & _). rewrite Hdb in Hc.
      assert (Hc2 : c' ∈ oauth_authorization_codes d ++ [c]) by (by destruct d). apply elem_of_app in Hc2 as [Hc2| ->%list_elem_of_singleton]; [left; by apply Hq|].
      right. by exists W, now, secret, cookies, form, resp.
    + left. by apply (approve_fails _ _ _ _ _ _ _ E).
  - destruct op; try discriminate. cbn [connect_run] in Hc. rewrite (register_codes now secret body s0) in Hc. eauto.
  - by apply (op_quiet now op s0 Ha Hr).
Qed.

(** C10: Every authorization code in the store was approved: in every history of
    requests to the routes, by whatever browsers and with whatever answers of the
    providers, a code goes back to an approval of a user who was signed in in that
    browser and held its token, of a request that was waiting in its session, for
    a client that was registered with the redirect of the code; the client, the
    redirect, the challenge and the scopes of the code are those of the request,
    and its owner is that user. *)
Theorem codes_are_approved s c' : connected s → c' ∈ oauth_authorization_codes (cs_db s) →
  ∃ c s1 s2 W now secret cookies form resp, connected s1 ∧
    @connect_run W now (Approve secret cookies form) s1 = (Ok resp, s2) ∧ rtc connect_step s2 s ∧
    approved now cookies form s1 c ∧ ac_hash c = ac_hash c' ∧ grant c = grant c'.
Proof.
  intros Hs. revert c'. pattern s. revert s Hs. apply rtc_ind_r; [intros c' Hc; by apply elem_of_nil in Hc|]. intros sa sb Hsa Hstep IH c' Hc.
  destruct (step_codes _ _ _ (connected_clients _ Hsa) Hstep Hc) as [(c & Hin & Eh & Eg)|(W & now & secret & cookies & form & resp & Hrun & Hap)].
  - destruct (IH _ Hin) as (c0 & s1 & s2 & W & now & secret & cookies & form & resp & Hs1 & Hrun & Hs2 & Hap & Eh0 & Eg0).
    exists c0, s1, s2, W, now, secret, cookies, form, resp. split_and!; try done; first [by eapply rtc_r|congruence].
  - exists c', sa, sb, W, now, secret, cookies, form, resp. split_and!; try done.
Qed.

(** ** Where the routes redirect to *)

(** The page of the hub, the sign-in page of a configured provider, or a redirect
    of a client on this machine, with fields behind it. *)
Definition harmless (url : string) : Prop :=
  url = "/connect" ∨
  (∃ provider c query, passport_provider_config config provider = Some c ∧ url = authorization_url c +:+ "?" +:+ query) ∨
  ∃ uri fields, url = with_query uri fields ∧ loopback_redirect uri.
Definition redirects (P : string → Prop) (resp : web_response) : Prop :=
  match resp with RedirectResponse url _ _ => P url | _ => True end.
Lemma authorize_redirect_run now f provider d s resp s' : authorize_redirect now config f provider d s = (Ok resp, s') → redirects harmless resp.
Proof.
  unfold authorize_redirect. intros Hr. inv_run. right. left.
  match goal with Hk : known_provider _ ?p = Ok ?c |- _ => exists p, c; unfold known_provider in Hk; destruct (passport_provider_config config p); [injection Hk as ->|discriminate] end.
  eexists. split; reflexivity.
Qed.
Lemma authorize_run now f params s resp s' : loopback_clients (cs_db s) → oauth_authorize now config f params s = (Ok resp, s') → redirects harmless resp.
Proof.
  intros Hd. unfold oauth_authorize.
  assert (Hq : moves (in_db quiet) (_validated_authorization_request now config params)).
  { unfold _validated_authorization_request. pose proof (requested_client_quiet now). routes. }
  specialize (Hq s). destruct (_validated_authorization_request _ _ _ _) as [[request|e] s1]; cbn in Hq; intros Hr.
  - inv_run. by eapply authorize_redirect_run.
  - assert (Hd1 : loopback_clients (cs_db s1)) by by apply (quiet_clients _ _ Hq).
    assert (Ht : ∀ e, (redirect_uri ← _trusted_authorization_redirect_uri now params;
       match redirect_uri with None => raise e | Some uri => mret (_authorization_error_redirect uri e (request_field "state" params)) end) s1 = (Ok resp, s') →
       redirects harmless resp); [|by destruct e; first [discriminate|by apply Ht in Hr]].
    clear Hr. intros e' Hr. apply (proj1 (bind_run _ _ _ _ _)) in Hr as ([uri|] & s2 & Ht & Hr); [|discriminate]. injection Hr as <- <-.
    right. right. exists uri. eexists. split; [reflexivity|]. unfold _trusted_authorization_redirect_uri, _oauth_client_for_request in Ht.
    apply (proj1 (bind_run _ _ _ _ _)) in Ht as ([info|] & s3 & Hc & Ht); [|discriminate].
    destruct (String.eqb _ ""); [discriminate|]. apply in_auth_run in Hc as (d & Hc & ->).
    apply (proj1 (bind_run _ _ _ _ _)) in Ht as (has & s4 & Hv & Ht). apply (proj1 (lift_run _ _ _ _)) in Hv as [Hv ->].
    destruct has; [|discriminate]. injection Ht as <- _. by destruct (registered_redirect _ _ _ _ _ _ Hd1 Hc Hv) as (c & _ & Hl).
Qed.


(** ** What an approval is good for *)


(** ** Sign-in *)

Lemma strip_clean s : sall (λ c, negb (is_space c)) s = true → strip s = s.
Proof.
  intros Hs. unfold strip, strip_by. rewrite lstrip_lclean by (destruct s; [done|cbn in *; by apply andb_true_iff in Hs as [? _]]).
  induction s as [|c s IH]; cbn in *; [done|]. prop_bool. rewrite IH by done. destruct s; [|done]. by destruct (is_space c).
Qed.
Lemma hash_secret_clean v p : _validate_secret_hash (hash_secret config v p) "session_id_hash" = Ok (hash_secret config v p) ∧
  _validate_secret_hash (hash_secret config v p) "csrf_token_hash" = Ok (hash_secret config v p).
Proof.
  unfold hash_secret. set (d := pbkdf2_hex _ _ _). assert (Hd : is_hex_digest d = true) by apply pbkdf2_hex_digest.
  assert (Hc : sall (λ c, negb (is_space c)) ("pbkdf2-sha256:" +:+ d) = true).
  { rewrite sall_app. unfold is_hex_digest in Hd. prop_bool. match goal with Hh : sall is_hex_char d = true |- _ => revert Hh end. clear.
    assert (E : sall (λ c, negb (is_space c)) "pbkdf2-sha256:" = true) by reflexivity. rewrite E. cbn [andb].
    induction d as [|c d IH]; cbn; [done|]. intros Hh. prop_bool. rewrite IH by done. rewrite andb_true_r.
    match goal with Hx : is_hex_char c = true |- _ => destruct c as [[] [] [] [] [] [] [] []]; try discriminate Hx; reflexivity end. }
  unfold _validate_secret_hash. rewrite (strip_clean _ Hc). change (String.eqb ("pbkdf2-sha256:" +:+ d) "") with false. cbv iota.
  assert (Hl : (255 <? str_len ("pbkdf2-sha256:" +:+ d))%Z = false).
  { unfold is_hex_digest in Hd. prop_bool. match goal with Hn : (str_len d =? 64)%Z = true |- _ => apply Z.eqb_eq in Hn; unfold str_len in *; rewrite str_app_length; cbn [String.length]; apply Z.ltb_ge; lia end. }
  rewrite Hl. assert (Hi : is_secret_hash ("pbkdf2-sha256:" +:+ d) = true) by (unfold is_secret_hash; cbn; by rewrite Hd).
  by rewrite Hi.
Qed.
Lemma create_session_run now h u c e d w d' : create_web_session now h u c e d = (Ok w, d') →
  ∃ h' c' o, _validate_secret_hash h "session_id_hash" = Ok h' ∧ _validate_secret_hash c "csrf_token_hash" = Ok c' ∧ _validate_owner_id u = Ok o ∧
    ∃ ws, ws ∈ web_sessions d' ∧ ws_session_id_hash ws = h' ∧ ws_csrf_token_hash ws = c' ∧ ws_user_id ws = o ∧ ws_revoked_at ws = None ∧ ws_expires_at ws = e.
Proof.
  unfold create_web_session, AuthStore.written. intros Hr. inv_run.
  match goal with Hw : from_option_err _ ?o = Ok _ |- _ => destruct o as [ws|] eqn:Hf; [clear Hw|discriminate] end.
  match goal with H1 : _validate_secret_hash h _ = Ok ?a, H2 : _validate_secret_hash c _ = Ok ?b, H3 : _validate_owner_id u = Ok ?o |- _ => exists a, b, o end.
  do 3 (split; [assumption|]). exists ws. pose proof (tbl_find_Some _ _ _ Hf) as [Hin Hp]. split; [exact Hin|].
  match goal with d0 : AuthDb |- _ => destruct d0 end. cbn in Hin, Hf. unfold is_session in Hp. prop_bool.
  apply elem_of_tbl_upsert in Hin as [->|[[_ Hx]|(w1 & _ & _ & ->)]]; [done| |done]. unfold is_session in Hx. prop_bool. congruence.
Qed.
Definition response_cookies (resp : web_response) : list cookie :=
  match resp with RedirectResponse _ _ cookies => cookies | ConnectPage _ _ _ cookies => cookies | JSONReply _ _ => [] end.
Definition sets_cookie (resp : web_response) (name value : string) : Prop := ∃ ck, ck ∈ response_cookies resp ∧ ck_name ck = name ∧ ck_value ck = value.

Definition sign_in_tables (d : AuthDb) := (web_sessions d, oauth_identities d).
Lemma create_token_tables now a b c e g h i : moves (same sign_in_tables) (create_auth_token now a b c e g h i).
Proof.
  assert (Hu : ∀ o n, moves (same sign_in_tables) (upsert_user now o n)) by (intros o n d; exact (f_equal (λ x, (x.1.2, x.2)) (upsert_user_frame now o n d))).
  assert (Hd : ∀ o, moves (same sign_in_tables) (_ensure_default_project now o)) by (intros o d; exact (f_equal (λ x, (x.1.2, x.2)) (ensure_default_frame now o d))).
  unfold create_auth_token, AuthStore.written, write_tokens. walk; try apply Hu; try apply Hd; repeat (cbn beta iota in *; inv_ok);
    match goal with |- same _ ?d _ => destruct d; repeat (case_match; simplify_eq); reflexivity end.
Qed.
Lemma create_session_identities now a b c e : moves (same oauth_identities) (create_web_session now a b c e).
Proof. unfold create_web_session, AuthStore.written. walk. by match goal with d : AuthDb |- _ => destruct d end. Qed.
Lemma complete_login_run `{WebClient} now f provider claims issue s login s' :
  complete_login now config f provider claims issue s = (Ok login, s') →
  validate_provider_claims now config claims provider = Ok tt ∧ lg_session_id login = fresh_session f ∧ lg_csrf_token login = fresh_csrf f ∧
  cs_session s' = cs_session s ∧ lg_identity login ∈ oauth_identities (cs_db s') ∧
  _validate_oauth_provider provider = Ok (oi_provider (lg_identity login)) ∧
  _validate_oauth_subject (py_str (vget "sub" claims)) = Ok (oi_provider_subject (lg_identity login)) ∧
  ∃ ws, ws ∈ web_sessions (cs_db s') ∧ ws_session_id_hash ws = hash_secret config (fresh_session f) "connect-session" ∧
    ws_csrf_token_hash ws = hash_secret config (fresh_csrf f) "connect-csrf" ∧ _validate_owner_id (oi_user_id (lg_identity login)) = Ok (ws_user_id ws) ∧
    ws_revoked_at ws = None ∧ ws_expires_at ws = utc_after now (session_ttl_seconds (connect config)).
Proof.
  unfold complete_login. intros Hr. apply (proj1 (bind_run _ _ _ _ _)) in Hr as ([] & s1 & Hv & Hr). apply (proj1 (lift_run _ _ _ _)) in Hv as [Hv ->].
  apply (proj1 (bind_run _ _ _ _ _)) in Hr as (i & s2 & Hi & Hr). apply in_auth_run in Hi as (d1 & Hi & ->).
  apply identity_run in Hi as (pr & su & o & Hp & Hs & _ & _ & Hfi). apply tbl_find_Some in Hfi as [Hin Hki].
  apply (proj1 (bind_run _ _ _ _ _)) in Hr as (w & s3 & Hw & Hr). apply in_auth_run in Hw as (d2 & Hw & ->). cbn [cs_db] in Hw.
  pose proof (create_session_identities now (hash_secret config (fresh_session f) "connect-session") (oi_user_id i) (hash_secret config (fresh_csrf f) "connect-csrf")
    (utc_after now (session_ttl_seconds (connect config))) d1) as Hsame. rewrite Hw in Hsame. cbn in Hsame.
  apply create_session_run in Hw as (h & c & ow & Hh & Hc & Ho & ws & Hws & Eh & Ec & Eo & Erev & Eexp).
  rewrite (proj1 (hash_secret_clean _ _)) in Hh. injection Hh as <-. rewrite (proj2 (hash_secret_clean _ _)) in Hc. injection Hc as <-.
  apply (proj1 (bind_run _ _ _ _ _)) in Hr as (u & s4 & Ht & Hr).
  assert (Et : sign_in_tables (cs_db s4) = sign_in_tables d2 ∧ cs_session s4 = cs_session s).
  { destruct issue; [|injection Ht as _ <-; done]. apply (proj1 (bind_run _ _ _ _ _)) in Ht as (ti & s5 & Ht & Hu). injection Hu as _ <-.
    apply in_auth_run in Ht as (d3 & Ht & ->). split; [|done]. cbn [cs_db] in *. by apply (moves_run _ _ _ _ _ (create_token_tables _ _ _ _ _ _ _ _)) in Ht. }
  destruct Et as [Et Eses]. pose proof (f_equal fst Et) as Etw. pose proof (f_equal snd Et) as Eti. cbn in Etw, Eti.
  apply (proj1 (bind_run _ _ _ _ _)) in Hr as (pl & s5 & Hpl & Hr). apply (proj1 (lift_run _ _ _ _)) in Hpl as [_ ->]. injection Hr as <- <-.
  unfold is_identity in Hki. prop_bool. cbn [lg_identity lg_session_id lg_csrf_token].
  split; [done|]. do 3 (split; [done|]). split; [by rewrite Eti, Hsame|]. split; [congruence|]. split; [congruence|].
  exists ws. rewrite Etw. split_and!; try done. congruence.
Qed.


(** ** The state of a sign-in *)

Lemma step_statements s s' : loopback_clients (cs_db s) → connect_step s s' → statements (cs_db s) (cs_db s').
Proof.
  intros Hd Hst. revert Hd. destruct Hst as [W now op s0|session s0]; intros Hd; [|reflexivity].
  destruct (approves op) eqn:Ha; [|destruct (registers op) eqn:Hr; [|by apply (op_quiet now op s0 Ha Hr)]].
  - destruct op; try discriminate. cbn [connect_run]. destruct (oauth_authorize_approve _ _ _ _ _ _) as [[resp|e] s1] eqn:E; cbn [snd].
    + destruct (approve_run _ _ _ _ _ _ _ Hd E) as (d & c & _ & [Hq _] & -> & _ & Hnew & _). etrans; [exact Hq|]. by apply statement_run, st_code_insert.
    + by apply (approve_fails _ _ _ _ _ _ _ E).
  - destruct op; try discriminate. cbn [connect_run].
    assert (Hm : moves (in_db statements) (oauth_register now config secret body)); [|apply Hm]. unfold oauth_register. routes. apply moves_in_auth, create_client_st.
Qed.
Lemma connected_inv s : connected s → auth_inv (cs_db s).
Proof.
  intros Hs. pattern s. revert s Hs. apply rtc_ind_r; [exact empty_inv|]. intros sa sb Hsa Hstep IH.
  eapply statements_keep; [apply statement_inv|by eapply step_statements; [apply connected_clients|]|done].
Qed.
Definition state_spent (h : string) (d : AuthDb) : Prop := ∀ r, r ∈ oauth_provider_states d → is_state h r = true → null (ps_consumed_at r) = false.
Lemma consume_state_run now state provider browser d data d' : auth_inv d → consume_oauth_provider_state now state provider browser d = (Ok (Some data), d') →
  ∃ h, _hash_oauth_ephemeral_secret state "state" = Ok h ∧ state_spent h d'.
Proof.
  intros Hi. unfold consume_oauth_provider_state. intros Hr. inv_run.
  match goal with Hh : _hash_oauth_ephemeral_secret state _ = Ok ?h, Hb : _hash_oauth_ephemeral_secret browser _ = Ok ?b |- _ => exists h; split; [exact Hh|]; rename h into hs; rename b into hb end.
  destruct (tbl_find _ _) as [row|] eqn:Hf; [|discriminate]. apply tbl_find_Some in Hf as [Hin Hm].
  assert (Ed : d' = on_states (tbl_update (state_matches now hs provider hb) (set_state_consumed (sql_timestamp now))) d) by (inv_run; by repeat case_match; inv_run).
  subst d'. destruct d. cbn in *. intros r (r0 & Hr0 & ->)%elem_of_tbl_update. destruct (state_matches _ _ _ _ r0) eqn:E; [done|]. intros Hh. exfalso.
  assert (r0 = row) as ->; [|congruence]. eapply (unique_eq ps_hash); [apply Hi|done..|]. unfold state_matches, is_state in *. prop_bool. congruence.
Qed.
Lemma consume_spent now state provider browser h d : _hash_oauth_ephemeral_secret state "state" = Ok h → state_spent h d → browser ≠ "" →
  consume_oauth_provider_state now state provider browser d = (Ok None, d).
Proof.
  intros Hh Hs Hb. unfold consume_oauth_provider_state. rewrite Hh. unfold _hash_oauth_ephemeral_secret. apply String.eqb_neq in Hb. rewrite Hb.
  assert (Hno : ∀ r, r ∈ oauth_provider_states d → ∀ b, state_matches now h provider b r = false).
  { intros r Hr b. unfold state_matches, state_active. destruct (is_state h r) eqn:E; [|done]. rewrite (Hs _ Hr E). by rewrite !andb_false_r. }
  unfold transaction, mbind, M_bind, lift, query, exec, mret, M_ret. cbv beta iota zeta. rewrite tbl_find_is_None by (intros; by apply Hno). f_equal.
  destruct d. cbn in *. f_equal. apply tbl_update_none. rewrite tbl_find_existsb. rewrite tbl_find_is_None; [done|]. intros r Hr. by apply Hno.
Qed.
Lemma same_frame {A T} (f : AuthDb → T) (g : _ → T) (m : M AuthDb A) : (∀ d, f d = g (oauth_tables d)) → moves (same oauth_tables) m → moves (same f) m.
Proof. intros Hg Hm d. specialize (Hm d). unfold same in *. by rewrite !Hg, Hm. Qed.
Lemma login_states `{WebClient} now f provider claims issue : moves (in_db (same oauth_provider_states)) (complete_login now config f provider claims issue).
Proof.
  assert (Hu : ∀ o n, moves (same oauth_provider_states) (upsert_user now o n)) by (intros o n d; exact (f_equal (λ x, x.1.1.1.2) (upsert_user_frame now o n d))).
  assert (Hd : ∀ o, moves (same oauth_provider_states) (_ensure_default_project now o)) by (intros o d; exact (f_equal (λ x, x.1.1.1.2) (ensure_default_frame now o d))).
  unfold complete_login. routes; apply moves_in_auth; unfold find_or_create_oauth_identity, create_web_session, create_auth_token, AuthStore.written, write_tokens;
    walk; try apply Hu; try apply Hd; repeat (cbn beta iota in *; inv_ok); match goal with |- same _ ?d _ => destruct d; repeat (case_match; simplify_eq); reflexivity end.
Qed.
(** C35: A callback of a provider is answered once: the state that it carries is
    taken with it, so that the same callback, in the same browser or in another
    one, under another provider, at any time, is refused and changes nothing. *)
Theorem callback_answered_once `{WebClient} now f override query provider s resp s' (Hc : connected s)
    (Hr : auth_provider_callback now config f override query provider s = (Ok resp, s')) :
  ∀ now2 f2 override2 provider2 session,
  ∃ e, auth_provider_callback now2 config f2 override2 query provider2 (with_session session s') = (Raise e, with_session session s').
Proof.
  apply connected_inv in Hc. unfold auth_provider_callback in Hr. apply (proj1 (bind_run _ _ _ _ _)) in Hr as (u & s1 & Hq & Hr).
  apply (proj1 (lift_run _ _ _ _)) in Hq as [Hq ->]. apply (proj1 (bind_run _ _ _ _ _)) in Hr as ([claims data] & s2 & Hcl & Hr).
  assert (Hsp : ∃ h, String.eqb (request_field "state" query) "" = false ∧ _hash_oauth_ephemeral_secret (request_field "state" query) "state" = Ok h ∧ state_spent h (cs_db s2)).
  { unfold callback_claims, _state_data in Hcl. apply (proj1 (bind_run _ _ _ _ _)) in Hcl as (pn & s3 & Hpn & Hcl). apply (proj1 (lift_run _ _ _ _)) in Hpn as [_ ->].
    apply (proj1 (bind_run _ _ _ _ _)) in Hcl as (sd & s3 & Hsd & Hcl). apply (proj1 (bind_run _ _ _ _ _)) in Hsd as (u1 & s4 & Hg & Hsd).
    apply (proj1 (lift_run _ _ _ _)) in Hg as [Hg ->]. unfold guard_err in Hg. destruct (String.eqb _ "") eqn:Eb in Hg; [discriminate|].
    apply (proj1 (bind_run _ _ _ _ _)) in Hsd as (b & s4 & Hb & Hsd). apply (proj1 (bind_run _ _ _ _ _)) in Hsd as (u2 & s5 & Hg2 & Hsd). apply (proj1 (lift_run _ _ _ _)) in Hg2 as [_ ->].
    apply (proj1 (bind_run _ _ _ _ _)) in Hsd as (od & s6 & Hcons & Hsd). apply in_auth_run in Hcons as (d & Hcons & ->).
    apply (proj1 (lift_run _ _ _ _)) in Hsd as [Hsd ->]. destruct od as [od|]; [|discriminate].
    assert (Edb : cs_db s4 = cs_db s) by (unfold _browser_session_id, get_state, mbind, M_bind, mret, M_ret in Hb; repeat case_match; simplify_eq; done).
    rewrite Edb in Hcons. destruct (consume_state_run _ _ _ _ _ _ _ Hc Hcons) as (h & Hh & Hspent). exists h. split; [done|]. split; [done|].
    match type of Hcl with ?m ?st = _ => assert (Hm : moves (in_db (same oauth_provider_states)) m) end.
    { unfold _claims_from_token, _verified_id_token_claims, _jwks_for_provider, provider_jwks_url, _metadata_for_provider. routes. }
    apply (moves_run _ _ _ _ _ Hm) in Hcl. cbn in Hcl. unfold state_spent. by rewrite Hcl. }
  destruct Hsp as (h & Eb & Hh & Hspent).
  assert (Hspent' : state_spent h (cs_db s')).
  { match type of Hr with ?m ?st = _ => assert (Hm : moves (in_db (same oauth_provider_states)) m) end.
    { pose proof login_states. unfold pending_authorization_redirect. routes. }
    apply (moves_run _ _ _ _ _ Hm) in Hr. unfold state_spent. by rewrite Hr. }
  intros now2 f2 override2 provider2 session. unfold auth_provider_callback, callback_claims, _state_data. unfold mbind, M_bind, lift. rewrite Hq.
  destruct (normalize_passport_provider provider2) as [pn|]; [|by eexists]. cbn [guard_err]. unfold guard_err. rewrite Eb.
  unfold _browser_session_id, get_state, mbind, M_bind, mret, M_ret. cbn [cs_session with_session].
  destruct (vget "oauth_browser_session_id" session) as [| | | |[|a b]| |]; cbn [String.eqb]; try by eexists.
  unfold in_auth. cbn [cs_db with_session]. rewrite (consume_spent _ _ _ _ _ _ Hh Hspent'); [|discriminate]. by eexists.
Qed.
End history.

(** ** A whole flow *)

Module Flow.
Import Sample.
(** A client of the JWT library that writes the identifier only, and a provider
    that answers with the claims of Alice. *)
#[local] Instance flow_jwt : JwtLib := {| jwt_encode := λ p _, "h.p." +:+ py_str (vget "jti" p) |}.
Definition alice_claims : dict :=
  [("iss", VStr "https://accounts.google.com"); ("aud", VStr "hub-client"); ("exp", VInt (noon + 600)); ("iat", VInt noon);
   ("sub", VStr "alice"); ("email", VStr "alice@example.org"); ("nonce", VStr "nonce-1")].
#[local] Instance flow_web : WebClient := {|
  http_post := λ _ _, Some (mk_http_response 200 (Ok (VDict [("id_token", VStr "h.p.s")])));
  http_get := λ _, Some (mk_http_response 200 (Ok (VDict [("keys", VList [])])));
  jwt_decode := λ _ _ _, Some (VDict alice_claims) |}.
Notation run := (connect_run sample_config).
Definition request_after (op : connect_op) (s : ConnectState) : ConnectState := (run noon op s).2.
Lemma connected_after op s : connected sample_config s → connected sample_config (request_after op s).
Proof. intros Hs. eapply rtc_r; [exact Hs|]. apply (step_request sample_config flow_web noon op s). Qed.

Definition redirect : string := "http://127.0.0.1:8787/cb".
Definition verifier : string := "0123456789012345678901234567890123456789abc".
Definition registration : string := json_dumps (VDict [("redirect_uris", VList [VStr redirect])]).
Definition request_params : list (string * string) :=
  [("client_id", "amh_client_c1"); ("redirect_uri", redirect); ("response_type", "code"); ("code_challenge_method", "S256");
   ("code_challenge", _pkce_challenge verifier); ("scope", "memory:read"); ("state", "xyz")].
Definition callback_query : list (string * string) := [("state", "state-1"); ("code", "provider-code")].
Definition secrets : login_secrets := mk_login_secrets "session-1" "csrf-1" "00" "tok_1".
Definition cookies : list (string * string) := [("amh_session", "session-1")].
Definition form : list (string * string) := [("csrf_token", "csrf-1")].

Definition registered : ConnectState := request_after (Register "c1" registration) no_requests.
Definition authorizing : ConnectState := request_after (Authorize (mk_nonces "state-1" "nonce-1" "verifier-1" "browser-1") request_params) registered.
Definition alice_in : ConnectState := request_after (Callback secrets None callback_query "google") authorizing.
Definition done_by_alice : ConnectState := request_after (Approve "k1" cookies form) alice_in.

Lemma start : connected sample_config no_requests.
Proof. apply rtc_refl. Qed.
Lemma authorizing_connected : connected sample_config authorizing.
Proof. by do 2 apply connected_after; apply start. Qed.
Lemma alice_in_connected : connected sample_config alice_in.
Proof. apply connected_after, authorizing_connected. Qed.
Lemma done_connected : connected sample_config done_by_alice.
Proof. apply connected_after, alice_in_connected. Qed.

Example flow_redirect : match (run noon (Approve "k1" cookies form) alice_in).1 with Ok (RedirectResponse url _ _) => url | _ => "" end
  = "http://127.0.0.1:8787/cb?code=amh_code_k1&state=xyz".
Proof. vm_compute. reflexivity. Qed.
Lemma codes_are_approved_witness : ∃ c c0 s1 now ck fm, c ∈ oauth_authorization_codes (cs_db done_by_alice) ∧ connected sample_config s1 ∧
  approved sample_config now ck fm s1 c0 ∧ grant c0 = grant c.
Proof.
  destruct (oauth_authorization_codes (cs_db done_by_alice)) as [|c t] eqn:E; [vm_compute in E; discriminate E|].
  assert (Hc : c ∈ oauth_authorization_codes (cs_db done_by_alice)) by (rewrite E; apply list_elem_of_here).
  destruct (codes_are_approved sample_config done_by_alice c done_connected Hc) as (c0 & s1 & s2 & W & now & secret & ck & fm & resp & Hs1 & _ & _ & Hap & _ & Hg).
  exists c, c0, s1, now, ck, fm. split; [apply list_elem_of_here|]. split; [exact Hs1|]. split; [exact Hap|exact Hg].
Defined.
Lemma callback_answered_once_witness : ∃ resp s' e, auth_provider_callback noon sample_config secrets None callback_query "google" authorizing = (Ok resp, s') ∧
  auth_provider_callback (noon + 5)%Z sample_config secrets None callback_query "google" s' = (Raise e, s').
Proof.
  destruct (auth_provider_callback noon sample_config secrets None callback_query "google" authorizing) as [[resp|e] s'] eqn:E; [|vm_compute in E; discriminate E].
  destruct (callback_answered_once sample_config noon secrets None callback_query "google" authorizing resp s' authorizing_connected E
    (noon + 5)%Z secrets None "google" (cs_session s')) as (e & He).
  exists resp, s', e. split; [reflexivity|]. destruct s'. exact He.
Defined.

(** Redirects that are accepted and refused. *)
Definition accepted (uri : string) : bool := match _validated_redirect_uri (VStr uri) with Ok _ => true | Raise _ => false end.
Example accepted_uris : map accepted ["http://localhost/cb"; "https://LOCALHOST.:8080/cb?x=1"; "http://127.1.2.3:99/"; "http://[::1]:8080/cb"; "http://[::ffff:127.0.0.1]/"]
  = [true; true; true; true; true].
Proof. vm_compute. reflexivity. Qed.
Example refused_uris : map accepted ["http://example.org/cb"; "http://localhost@example.org/"; "http://user@localhost/"; "ftp://localhost/"; "http://localhost:99999/";
    "http://localhost/#x"; "http://127.1/"; "http://0127.0.0.1/"; "http://[::2]/"; "http://[127.0.0.1]/"; "localhost/cb"; " http://localhost/"; "http://localhost.example.org/"]
  = replicate 13 false.
Proof. vm_compute. reflexivity. Qed.
(** A redirect with an empty fragment is accepted, and then the fields of the
    answer are part of the fragment, which a browser does not send. *)
Example empty_fragment_swallows_code : accepted "http://localhost/cb#" = true ∧
  with_query "http://localhost/cb#" [("code", "k1")] = "http://localhost/cb#?code=k1".
Proof. vm_compute. split; reflexivity. Qed.
(** The identifier of a client is not checked before it is looked up: a blank one
    is an internal error of the authorization endpoint. *)
Example blank_client_escapes : (run noon (Authorize (mk_nonces "s" "n" "v" "b") [("client_id", " ")]) no_requests).1
  = Raise (ValueError "token_id must be non-empty").
Proof. vm_compute. reflexivity. Qed.
End Flow.
