(* ===== verification/Mcp.v ===== *)
(** * The MCP server ([memory/interfaces/mcp_server.py],
    [memory/interfaces/mcp_response_format.py])

    The tools that an assistant calls, with the checks of their arguments, the
    scope that the writing ones need, the errors they answer with and the log
    notifications they send; the concise form of their answers; the resources;
    and the registration of the tools with their policies.  The tools call an
    ingestion agent through the interface [HubAgent].  The arguments of a call are
    a dictionary, as a client sends them.  Metrics, spans and the server's own log
    are left out, and so are the texts of descriptions and prompts. *)
From Stdlib Require Import ZArith Lia Ascii.
From S2P Require Import Prelude PyStr Json PyFloat Hash Clock Identity AuthDb AuthStore AuthGate ConvStore Scope Normalize Append FactValidation AuditLog Chunks FactStore Summaries Ingest QueryPlan Ranking FactTimeline FactSearch Search Context FactAnswer Handoff Ask ImportService ConnectOAuth.
Local Open Scope Z_scope.

(** ** Concise answers *)

Definition DETAILED : string := "detailed".
Definition CONCISE : string := "concise".
Definition _SEARCH_ROW_KEYS : list string :=
  ["id"; "score"; "text"; "role"; "chunk_index"; "matching_chunks"; "evidence_chunks"; "used_in_answer"].
Definition _THREAD_ROW_KEYS : list string :=
  ["thread_id"; "thread_conversation_ids"; "thread_conversation_count"; "matching_conversations"].
Definition _FACT_KEYS : list string :=
  ["id"; "subject"; "predicate"; "object"; "object_normalized"; "confidence"; "source_quality"; "last_confirmed_at";
   "stored_at"; "author"; "source_conversation_id"].
Definition _PROFILE_SUMMARY_KEYS : list string :=
  ["text"; "active_fact_count"; "freshest_at"; "confidence_counts"; "source_quality_counts"].
Definition _CITATION_KEYS : list string :=
  ["id"; "chunk_index"; "score"; "text"; "fact_id"; "predicate"; "source_quality"; "confidence_reason"; "last_confirmed_at";
   "stored_at"; "author"; "save_intent"; "save_intent_source"].
Definition DEFAULT_CONCISE_FACT_LIMIT : Z := 10.
Definition _CONCISE_SEARCH_TEXT_LIMIT : Z := 800.
Definition _CONCISE_SEARCH_EVIDENCE_TEXT_LIMIT : Z := 500.
Definition _CONCISE_SEARCH_KEYS : list string := ["status"; "cursor"; "total"; "unique"; "returned"; "omitted"; "limit"].
Definition _CONCISE_ASK_KEYS : list string :=
  ["status"; "answer"; "confidence"; "confidence_reason"; "answer_basis"; "latest"].
Definition _CONCISE_RETRIEVE_MESSAGE_LIMIT : nat := 6.
Definition _CONCISE_RETRIEVE_MESSAGE_TEXT_LIMIT : Z := 800.
Definition _CONCISE_RETRIEVE_METADATA_KEYS : list string := ["memory_status"].

Definition _compact_mapping (d : dict) (keys : list string) : dict :=
  omap (λ k, v ← dict_get k d; if is_none v then None else Some (k, v)) keys.
Definition _drop_empty_values (payload : dict) : dict := List.filter (λ kv, negb (is_none kv.2)) payload.
Definition _truncate_text (text : string) (limit : Z) : string :=
  let v := collapse text in
  if str_len v <=? limit then v else rstrip_by is_space (stake (Z.to_nat (limit - 3)) v) +:+ "...".
Definition _list_count (v : value) : Z := match v with VList l => Z.of_nat (length l) | _ => 0 end.
(** [x for x in v if isinstance(x, dict)] of a list *)
Definition dicts_of (v : value) : list dict := match v with VList l => omap as_dict l | _ => [] end.
(** The text of a row, cut. *)
Definition with_cut_text (limit : Z) (d : dict) : dict :=
  match vget "text" d with VNone => d | t => dict_set "text" (VStr (_truncate_text (py_str t) limit)) d end.

Definition _conversation_summary_text (metadata : dict) : option string :=
  match vget "generated_summary" metadata with
  | VDict g => if truthy (vget "text" g) then Some (py_str (vget "text" g))
               else if truthy (vget "summary" metadata) then Some (py_str (vget "summary" metadata)) else None
  | _ => if truthy (vget "summary" metadata) then Some (py_str (vget "summary" metadata)) else None
  end.
Definition _conversation_citation (conversation : value) (fallback_id : value) : dict :=
  match conversation with
  | VDict c =>
      let metadata := default [] (as_dict (vget "metadata" c)) in
      let citation := [("id", vget_or "id" fallback_id c); ("source", vget "source" c); ("title", vget "title" c);
                       ("timestamp", vget "timestamp" c); ("thread_id", vget "thread_id" metadata)] in
      _drop_empty_values (match _conversation_summary_text metadata with
        | Some t => if String.eqb t "" then citation else citation ++ [("summary", VStr t)] | None => citation end)
  | _ => [("id", fallback_id)]
  end.
Definition _concise_search_evidence_chunks (evidence_chunks : list value) : list dict :=
  map (λ chunk, with_cut_text _CONCISE_SEARCH_EVIDENCE_TEXT_LIMIT (_compact_mapping chunk _CITATION_KEYS)) (omap as_dict evidence_chunks).
Definition _concise_search_row (row : dict) : dict :=
  let concise := with_cut_text _CONCISE_SEARCH_TEXT_LIMIT (_compact_mapping row (_SEARCH_ROW_KEYS ++ _THREAD_ROW_KEYS)) in
  let concise := if negb (dict_has "matching_chunks" concise) && dict_has "conversation_match_count" row
                 then dict_set "matching_chunks" (vget "conversation_match_count" row) concise else concise in
  let concise := match vget "evidence_chunks" concise with
    | VList l => dict_set "evidence_chunks" (VList (map VDict (_concise_search_evidence_chunks l))) concise
    | _ => concise end in
  dict_set "citation" (VDict (_conversation_citation (vget "conversation" row) (vget "id" row))) concise.
Definition _concise_message (message : dict) : dict :=
  let concise := _compact_mapping message ["role"] in
  match vget "text" message with
  | VNone => concise
  | t => dict_set "text" (VStr (_truncate_text (py_str t) _CONCISE_RETRIEVE_MESSAGE_TEXT_LIMIT)) concise
  end.
Definition _concise_retrieved_memory (memory : dict) : dict :=
  let concise := _conversation_citation (VDict memory) (vget "id" memory) in
  let concise := match vget "metadata" memory with
    | VDict metadata => dict_update concise (_compact_mapping metadata _CONCISE_RETRIEVE_METADATA_KEYS) | _ => concise end in
  let concise := dict_setdefault "memory_status" (VStr "active") concise in
  match vget "messages" memory with
  | VList messages =>
      let compact := map _concise_message (omap as_dict messages) in
      let shown := firstn _CONCISE_RETRIEVE_MESSAGE_LIMIT compact in
      let omitted := Z.of_nat (length compact) - Z.of_nat (length shown) in
      let concise := dict_set "message_count" (VInt (Z.of_nat (length compact))) concise in
      let concise := dict_set "messages" (VList (map VDict shown)) concise in
      if 0 <? omitted then dict_set "omitted_messages" (VInt omitted) concise else concise
  | _ => concise
  end.

(** *** Facts *)

(** [if fact.get(source) is not None: concise[k] = fact[source]] *)
Definition copy_field (source k : string) (fact concise : dict) : dict :=
  match vget source fact with VNone => concise | v => dict_set k v concise end.
Definition _concise_fact (fact : dict) : dict :=
  let concise := _compact_mapping fact _FACT_KEYS in
  let concise := if dict_has "id" concise then concise else copy_field "fact_id" "id" fact concise in
  let concise := if dict_has "object" concise then concise else copy_field "object_raw" "object" fact concise in
  let concise := if dict_has "object_normalized" concise then concise else copy_field "object" "object_normalized" concise concise in
  let concise := dict_set "superseded" (VBool (truthy (vget "superseded_by" fact) || truthy (vget "superseded_at" fact))) concise in
  copy_field "deleted_at" "deleted_at" fact (copy_field "superseded_at" "superseded_at" fact (copy_field "superseded_by" "superseded_by" fact concise)).
Definition _canonical_fact_component (v : value) : string := Summaries._canonical_fact_component (py_str v).
Definition fact_key (fact : dict) : string * string * string :=
  (_canonical_fact_component (VStr (py_str (vget_or "subject" (VStr "") fact))),
   _canonical_fact_component (VStr (py_str (vget_or "predicate" (VStr "") fact))),
   _canonical_fact_component (or_value (vget "object_normalized" fact) (vget_or "object" (VStr "") fact))).
Fixpoint dedupe_from (seen : list (string * string * string)) (facts : list dict) : list dict :=
  match facts with
  | [] => []
  | fact :: rest => if bool_decide (fact_key fact ∈ seen) then dedupe_from seen rest else fact :: dedupe_from (fact_key fact :: seen) rest
  end.
Definition _dedupe_concise_facts (facts : list dict) : list dict := dedupe_from [] facts.
Record fact_counts := mk_counts { total : Z; unique : Z; returned : Z; omitted : Z; fact_limit : Z }.
Definition _limited_concise_facts (facts : value) (limit : option Z) : list dict * fact_counts :=
  let compact := map _concise_fact (dicts_of facts) in
  let deduped := _dedupe_concise_facts compact in
  let effective_limit := default DEFAULT_CONCISE_FACT_LIMIT limit in
  let limited := py_take effective_limit deduped in
  let len {A} (l : list A) := Z.of_nat (length l) in
  (limited, mk_counts (len compact) (len deduped) (len limited) (Z.max 0 (len deduped - len limited)) effective_limit).
Definition counts_as (kind : string) (limit_key : string) (c : fact_counts) : dict :=
  [("total_" +:+ kind, VInt (total c)); ("unique_" +:+ kind, VInt (unique c)); ("returned_" +:+ kind, VInt (returned c));
   ("omitted_" +:+ kind, VInt (omitted c)); (limit_key, VInt (fact_limit c))].

(** *** The five answers *)

Section formats.
Variable payload : dict.
Variable response_format : string.
Definition format_search_response : dict :=
  if String.eqb response_format DETAILED then payload else
  dict_set "results" (VList (map (λ row, VDict (_concise_search_row row)) (dicts_of (vget_or "results" (VList []) payload))))
    (_compact_mapping payload _CONCISE_SEARCH_KEYS).
Definition format_retrieve_response : dict :=
  if String.eqb response_format DETAILED then payload else
  let formatted := _compact_mapping payload ["status"; "id"] in
  match vget "memory" payload with
  | VDict memory => dict_set "memory" (VDict (_concise_retrieved_memory memory)) formatted
  | _ => formatted
  end.
Definition format_ask_response : dict :=
  if String.eqb response_format DETAILED then payload else
  let formatted := _compact_mapping payload _CONCISE_ASK_KEYS in
  let formatted := dict_setdefault "status" (vget_or "status" (VStr "ok") payload) formatted in
  let formatted := dict_set "memory_result_count" (VInt (_list_count (vget "results" payload))) formatted in
  let formatted := dict_set "fact_count" (VInt (_list_count (vget "facts" payload))) formatted in
  let formatted := dict_set "citation_count" (VInt (_list_count (vget "citations" payload))) formatted in
  match vget "handoff" payload with VDict h => dict_set "handoff" (VDict h) formatted | _ => formatted end.
Definition format_fact_search_response (limit : option Z) : dict :=
  if String.eqb response_format DETAILED then payload else
  let '(results, counts) := _limited_concise_facts (vget "results" payload) limit in
  [("status", vget_or "status" (VStr "ok") payload); ("results", VList (map VDict results))] ++ counts_as "results" "result_limit" counts.
Definition format_profile_response (limit : option Z) : dict :=
  if String.eqb response_format DETAILED then payload else
  let formatted := [("status", vget_or "status" (VStr "ok") payload); ("subject", vget "subject" payload)] in
  let formatted := match vget "summary" payload with
    | VDict summary => formatted ++ [("summary", VDict (_compact_mapping summary _PROFILE_SUMMARY_KEYS))] | _ => formatted end in
  let fact_source := match vget "profile_facts" payload with VList l => VList l | _ => vget "facts" payload end in
  let '(facts, counts) := _limited_concise_facts fact_source limit in
  formatted ++ [("facts", VList (map VDict facts))] ++ counts_as "facts" "fact_limit" counts.
End formats.

(** ** Tool policies *)

Record MCPToolPolicy := mk_policy {
  read_only : bool; required_scopes : list string; destructive : bool; idempotent : bool; open_world : bool;
  memory_effect : string; internal_side_effects : option string; retry_behavior : option string }.
Definition annotations (p : MCPToolPolicy) : dict :=
  [("readOnlyHint", VBool (read_only p)); ("destructiveHint", VBool (destructive p)); ("idempotentHint", VBool (idempotent p));
   ("openWorldHint", VBool (open_world p))].
Definition texts (l : list string) : value := VList (map VStr l).
Definition auth_meta (auth_mode : option string) (p : MCPToolPolicy) : dict :=
  let authenticated := match auth_mode with Some m => negb (String.eqb m "none") | None => false end in
  [("auth_mode", VStr (match auth_mode with Some m => if String.eqb m "" then "unknown" else m | None => "unknown" end));
   ("required_scopes", texts (if authenticated then required_scopes p else []));
   ("scopes_when_authenticated", texts (required_scopes p)); ("memory_effect", VStr (memory_effect p));
   ("config_path", VStr AUTH_CONFIG_PATH); ("configuration_hint", VStr AUTH_RECONNECT_HINT); ("approval_hint", VStr MCP_CLIENT_APPROVAL_HINT)]
  ++ (if authenticated && mem WRITE_SCOPE (required_scopes p) then [("write_scope", VStr WRITE_SCOPE)] else [])
  ++ match internal_side_effects p with Some t => [("internal_side_effects", VStr t)] | None => [] end
  ++ match retry_behavior p with Some t => [("retry_behavior", VStr t)] | None => [] end.

Definition READ_ONLY_TOOL_POLICY : MCPToolPolicy :=
  mk_policy true [READ_SCOPE] false true false "reads local memory state" None None.
Definition READ_ONLY_WITH_INTERNAL_WRITES_POLICY : MCPToolPolicy :=
  mk_policy true [READ_SCOPE] false true false "reads local memory state"
    (Some "May refresh server-owned derived summaries or initialize default project metadata; does not store user conversation memory.") None.
Definition MEMORY_INSERT_POLICY : MCPToolPolicy :=
  mk_policy false [READ_SCOPE; WRITE_SCOPE] false false false "writes local conversation memory" None
    (Some "Exact repeated inserts are deduplicated; changed same-thread payloads may append or create memory.").
Definition NON_DESTRUCTIVE_WRITE_POLICY : MCPToolPolicy :=
  mk_policy false [READ_SCOPE; WRITE_SCOPE] false false false "writes local memory state" None None.
Definition MCP_TOOL_POLICIES : list (string * MCPToolPolicy) :=
  [("memory_validate", READ_ONLY_TOOL_POLICY); ("memory_insert", MEMORY_INSERT_POLICY); ("memory_save", MEMORY_INSERT_POLICY);
   ("memory_search", READ_ONLY_TOOL_POLICY); ("memory_retrieve", READ_ONLY_WITH_INTERNAL_WRITES_POLICY);
   ("memory_ask", READ_ONLY_TOOL_POLICY); ("memory_fact_search", READ_ONLY_TOOL_POLICY);
   ("memory_profile_get", READ_ONLY_WITH_INTERNAL_WRITES_POLICY); ("memory_lookup", READ_ONLY_WITH_INTERNAL_WRITES_POLICY);
   ("memory_fact_supersede", NON_DESTRUCTIVE_WRITE_POLICY); ("memory_pending_approve", NON_DESTRUCTIVE_WRITE_POLICY);
   ("memory_pending_reject", NON_DESTRUCTIVE_WRITE_POLICY); ("memory_project_list", READ_ONLY_WITH_INTERNAL_WRITES_POLICY);
   ("memory_project_default_get", READ_ONLY_WITH_INTERNAL_WRITES_POLICY); ("memory_project_get", READ_ONLY_WITH_INTERNAL_WRITES_POLICY)].
Definition _tool_policy (tool_name : string) : result MCPToolPolicy :=
  from_option_err (ValueError ("MCP tool policy missing for " +:+ tool_name)) (dict_get tool_name MCP_TOOL_POLICIES).
(** The names that have a description. *)
Definition TOOL_DESCRIPTIONS : list string :=
  ["memory_validate"; "memory_insert"; "memory_save"; "memory_search"; "memory_retrieve"; "memory_ask"; "memory_fact_search";
   "memory_profile_get"; "memory_lookup"; "memory_fact_supersede"; "memory_pending_approve"; "memory_pending_reject";
   "memory_project_list"; "memory_project_default_get"; "memory_project_get"].
Definition _SIMPLE_TOOL_ALIASES : list (string * string) := [("memory_save", "memory_insert"); ("memory_ask", "memory_ask")].

(** ** Envelopes *)

Definition _envelope (status : string) (id : value) (results : list value) (cursor : value) (error_code error_message : option string)
    (extra : dict) : dict :=
  dict_update [("status", VStr status); ("id", id); ("results", VList results); ("cursor", cursor);
               ("error_code", opt_str error_code); ("error_message", opt_str error_message)] extra.
Definition error_envelope (error_code error_message : string) : dict :=
  _envelope "error" VNone [] VNone (Some error_code) (Some error_message) [].
Definition invalid_input (message : string) : dict := error_envelope "invalid_input" message.
(** [payload[k] = redact_content_hashes(data[k])] when [k] is in [data] *)
Definition redact_field (k : string) (data payload : dict) : dict :=
  match dict_get k data with Some v => dict_set k (redact_content_hashes v) payload | None => payload end.
Definition _with_envelope_defaults (data : dict) : dict :=
  let payload := _envelope (py_str (vget_or "status" (VStr "ok") data)) VNone [] VNone None None [] in
  let payload := dict_update payload (List.filter (λ kv, negb (mem kv.1 ["conversation"; "memory"])) data) in
  let payload := redact_field "conversation" data (redact_field "memory" data payload) in
  redact_field "results" payload payload.
Definition _insufficient_scope_error (scope auth_mode : string) (granted_scopes : scope_set) : dict :=
  _envelope "error" VNone [] VNone (Some "insufficient_scope")
    (Some (scope +:+ " scope is required for this MCP tool. " +:+ MCP_CLIENT_APPROVAL_HINT +:+ " " +:+ AUTH_RECONNECT_HINT))
    [("required_scope", VStr scope); ("required_scopes", texts [scope]); ("granted_scopes", texts (sorted_strs granted_scopes));
     ("auth_mode", VStr auth_mode); ("auth_config_path", VStr AUTH_CONFIG_PATH); ("auth_config_hint", VStr AUTH_RECONNECT_HINT);
     ("approval_hint", VStr MCP_CLIENT_APPROVAL_HINT)].

(** ** Arguments *)

Definition unwrap_array (v : value) : value :=
  match v with VDict d => match dict_get "item" d with Some x => x | None => v end | _ => v end.
Definition _validate_optional_uuid (v : value) (field_name : string) : result (option string) :=
  match v with
  | VNone => Ok None
  | _ => let text := strip (py_str v) in
         if String.eqb text "" then Ok None else
         if is_uuid text then Ok (Some text) else Raise (ValueError (field_name +:+ " must be a valid UUID"))
  end.
Definition _validate_result_mode (result_mode : string) : result string :=
  _ ← Search._validate_result_mode result_mode; Ok result_mode.
Definition _validate_response_format (response_format : value) : result string :=
  match unwrap_array response_format with
  | VNone => Ok CONCISE
  | v => if mem (py_str v) [CONCISE; DETAILED] then Ok (py_str v)
         else Raise (ValueError ("response_format must be one of: " +:+ join ", " [CONCISE; DETAILED]))
  end.
(** [isinstance(v, int)] and its number; [True] and [False] are integers. *)
Definition in_range (lo hi : Z) (v : value) : option Z :=
  z ← int_claim v; if (z <? lo) || (hi <? z) then None else Some z.
Definition _validate_optional_limit (limit : value) (field_name : string) : result (option Z) :=
  let bounded v := match v with
    | VBool _ => Raise (ValueError (field_name +:+ " must be an integer between 1 and 100"))
    | _ => z ← from_option_err (ValueError (field_name +:+ " must be an integer between 1 and 100")) (in_range 1 100 v); Ok (Some z)
    end in
  match unwrap_array limit with
  | VNone => Ok None
  | VStr s => z ← from_option_err (ValueError (field_name +:+ " must be an integer")) (int_of_str s); bounded (VInt z)
  | v => bounded v
  end.
Definition _ingest_value_error_code (message : string) : string :=
  if startswith "concurrent_append_conflict" message then "concurrent_append_conflict" else
  if startswith "duplicate_conflict" message then "duplicate_conflict" else
  if startswith "unauthorized_update" message then "unauthorized_update" else "invalid_input".
(** A conversation argument with its messages, or what is wrong with it. *)
Definition conversation_argument (v : value) : string + dict :=
  match v with
  | VDict d =>
      match _validate_optional_uuid (vget "id" d) "id" with
      | Raise e => inl (error_text e)
      | Ok _ =>
          let moved := if dict_has "messages" d then Some d else
            conversation ← dict_get "conversation" d; Some (dict_set "messages" conversation (dict_pop "conversation" d)) in
          match moved with
          | None => inl "messages must be an array"
          | Some d => inr (match vget "messages" d with VNone => d | msgs => dict_set "messages" (unwrap_array msgs) d end)
          end
      end
  | _ => inl "conversation_json must be an object"
  end.
Definition _format_schema_error (path : list string) (message : string) : string :=
  let path := join "." path in
  if String.eqb path "" then "schema validation failed: " +:+ message
  else "schema validation failed at `" +:+ path +:+ "`: " +:+ message.
(** The early returns with a message. *)
#[local] Instance message_bind : MBind (sum string) := λ A B f m, match m with inl e => inl e | inr a => f a end.
Definition nonblank_text (v : value) : option string :=
  match v with VStr s => if String.eqb (strip s) "" then None else Some s | _ => None end.

(** *** Order and pages of the rows *)

Definition row_key (row : dict) : result (list key_item) :=
  conversation_score ← to_float (vget_or "conversation_score" (vget_or "score" (VFloat "0.0") row) row);
  score ← to_float (vget_or "score" (VFloat "0.0") row);
  chunk_index ← int_of_value (vget_or "chunk_index" (VInt 0) row);
  Ok [KFloat conversation_score; KStr (py_str (vget_or "id" (VStr "") row)); KFloat score; KInt chunk_index;
      KStr (py_str (vget_or "text" (VStr "") row))].
(** The keys are computed once, before the rows are compared. *)
Definition _deterministic_sort (rows : list dict) : result (list dict) :=
  keyed ← map_result (λ row, key ← row_key row; Ok (key, row)) rows;
  Ok (map snd (sorted_on fst keyed)).
Definition MAX_INT_DIGITS : Z := 4300.
Definition page_offset (cursor : value) : result Z :=
  match cursor with
  | VNone => Ok 0
  | VStr s =>
      if negb (isdigit s) then Raise (ValueError "cursor must be a numeric offset string") else
      if MAX_INT_DIGITS <? str_len s then Raise (ValueError ("Exceeds the limit (4300 digits) for integer string conversion: value has " +:+ str_of_Z (str_len s)
        +:+ " digits; use sys.set_int_max_str_digits() to increase the limit")) else
      from_option_err (ValueError ("invalid literal for int() with base 10: " +:+ repr_str s)) (int_of_str s)
  | _ => Raise (AttributeError "object has no attribute 'isdigit'")
  end.
Definition _paginate {A} (rows : list A) (limit : Z) (cursor : value) : result (list A * option string) :=
  offset ← page_offset cursor;
  let page := firstn (Z.to_nat limit) (skipn (Z.to_nat (Z.min offset (Z.of_nat (length rows)))) rows) in
  let next_offset := offset + Z.of_nat (length page) in
  Ok (page, if next_offset <? Z.of_nat (length rows) then Some (str_of_Z next_offset) else None).

(** ** The agent and the context of a call *)

(** What the tools ask of an ingestion agent, over a state [S]: the audit context
    of the call and the caller come first; the options of a search, a question or
    a search of facts are its keyword arguments. *)
Class HubAgent (S : Type) := {
  hub_ingest : AuditContext → option string → value → dict → M S dict;
  hub_store_pending : AuditContext → option string → value → dict → M S dict;
  hub_search : AuditContext → option string → value → dict → M S dict;
  hub_retrieve : AuditContext → option string → value → string → value → M S (option dict);
  hub_ask : AuditContext → option string → value → dict → M S dict;
  hub_fact_search : AuditContext → option string → value → dict → M S dict;
  hub_profile_get : AuditContext → option string → value → dict → M S dict;
  hub_fact_supersede : AuditContext → option string → value → string → string → M S dict;
  hub_approve : AuditContext → option string → value → string → M S dict;
  hub_reject : AuditContext → option string → value → string → M S dict;
  hub_project_list : AuditContext → option string → M S dict;
  hub_project_default_get : AuditContext → option string → M S dict;
  hub_project_get : AuditContext → option string → string → M S dict }.

(** The context that the server framework hands to a tool: its attributes and
    those of its request context, the count of notifications, and the
    notifications handed to the client; a failing delivery is ignored. *)
Record notification := mk_notification { nt_message : string; nt_level : string; nt_extra : dict }.
Record FastMCPContext := mk_ctx {
  ctx_attributes : dict; ctx_request : option dict; ctx_count : Z; ctx_log : list notification }.
Record McpState (S : Type) := mk_mcp { hub : S; ctx : option FastMCPContext }.
Arguments mk_mcp {S} hub ctx.
Arguments hub {S} m.
Arguments ctx {S} m.
Definition MCP_LOG_NOTIFICATION_LIMIT : Z := 100.

Definition _safe_correlation_id (v : value) : string :=
  let text := strip (py_str v) in
  if contains (char_str (chr 13)) text || contains (char_str (chr 10)) text then "invalid" else stake 128 text.
Definition call_id_in (d : dict) (attributes : list string) : option string :=
  head (omap (λ attr, match vget attr d with
    | (VStr _ | VInt _ | VBool _) as v => if String.eqb (strip (py_str v)) "" then None else Some (_safe_correlation_id v)
    | _ => None end) attributes).
Definition _mcp_tool_call_id (c : FastMCPContext) : option string :=
  match call_id_in (ctx_attributes c) ["tool_call_id"; "request_id"; "message_id"; "id"] with
  | Some id => Some id
  | None => request ← ctx_request c; call_id_in request ["request_id"; "message_id"; "id"]
  end.
Definition logged (tool_name status : string) (error_code : option string) (c : FastMCPContext) : FastMCPContext :=
  if MCP_LOG_NOTIFICATION_LIMIT <=? ctx_count c then c else
  let entry :=
    if ctx_count c =? MCP_LOG_NOTIFICATION_LIMIT - 1
    then mk_notification "mcp log notifications rate limited" "warning"
           [("event", VStr "mcp_log_notifications_rate_limited"); ("limit", VInt MCP_LOG_NOTIFICATION_LIMIT)]
    else mk_notification "mcp tool completed" (if String.eqb status "error" then "error" else "info")
           ([("tool", VStr tool_name); ("status", VStr status)]
            ++ match _mcp_tool_call_id c with Some id => [("mcp_tool_call_id", VStr id)] | None => [] end
            ++ match error_code with Some e => if String.eqb e "" then [] else [("error_code", VStr e)] | None => [] end) in
  mk_ctx (ctx_attributes c) (ctx_request c) (ctx_count c + 1) (ctx_log c ++ [entry]).

(** [str(exc)]; that of an error of the JSON schema prints more than its message. *)
Definition exception_text (e : exc) : option string :=
  match e with
  | ValueError m | TypeError m | RuntimeError m | OverflowError m | AttributeError m | PermissionError m | IntegrityError m
  | ConcurrentAppendError m | NotSupportedError m | IndexError m | OAuthClientQuotaExceeded m | OAuthProviderStateQuotaExceeded m
  | CsvError m | SaveIntentError m _ | ImportRequestError _ m => Some m
  | KeyError k => Some (repr_str k)
  | OAuthError _ _ | HTTPException _ _ | JsonSchemaError _ | OutsideModel => None
  end.

Section tools.
Context {S : Type} `{HashLib} `{HubAgent S}.
Notation T := (M (McpState S)).
(** The authentication context of the request, [None] without authentication. *)
Variable auth : option AuthContext.
Variable now : instant.
Variable new_id : string.
(** The validation against the schema: the path and the message of an error. *)
Variable validate_json : dict → option (list string * string).
(** [config.memory.insert_policy], [None] without a configuration *)
Variable insert_policy : option string.

Definition in_agent {A} (m : M S A) : T A := λ s, let (r, h) := m (hub s) in (r, mk_mcp h (ctx s)).
Definition _emit_mcp_tool_log (tool_name status : string) (error_code : option string) : T unit :=
  λ s, (Ok tt, mk_mcp (hub s) (logged tool_name status error_code <$> ctx s)).
(** [try: m except ...: handler]; what the model does not cover is not caught. *)
Definition try_except {A} (m : T A) (handler : exc → T A) : T A := λ s,
  match m s with
  | (Raise OutsideModel, s') => (Raise OutsideModel, s')
  | (Raise e, s') => handler e s'
  | r => r
  end.
Definition current_owner_id : option string := auth ≫= AuthGate.owner_id.
Definition require_scope (scope : string) : option dict :=
  match auth with
  | Some a => if mem scope (scopes a) then None else Some (_insufficient_scope_error scope (auth_mode a) (scopes a))
  | None => None
  end.
Definition _mcp_permission_denied_response (tool_name : string) : T dict :=
  _ ← _emit_mcp_tool_log tool_name "error" (Some "permission_denied");
  mret (error_envelope "permission_denied" "Access to the requested project was denied").
(** [_is_permission_denied_exception] of an error that is not a [PermissionError] *)
Definition says_denied (e : exc) : bool := bool_decide (exception_text e = Some "project access denied").
Definition is_permission_error (e : exc) : bool := match e with PermissionError _ => true | _ => false end.

(** The three shapes of error handling: [PermissionError] and [ValueError]; also
    any error whose text is that of a refused access; also any error. *)
Definition on_access (tool_name : string) (other : exc → T dict) (e : exc) : T dict :=
  if is_permission_error e then _mcp_permission_denied_response tool_name else
  if is_value_error e then mret (invalid_input (error_text e)) else other e.
Definition on_denied (tool_name : string) (other : exc → T dict) : exc → T dict :=
  on_access tool_name (λ e, if says_denied e then _mcp_permission_denied_response tool_name else other e).
Definition failed (tool_name error_code : string) (e : exc) : T dict :=
  match exception_text e with
  | None => raise OutsideModel
  | Some m =>
      _ ← _emit_mcp_tool_log tool_name "error" (Some error_code);
      mret (error_envelope error_code (redact_secrets m))
  end.

(** The scope that a writing tool needs, before anything else. *)
Definition writing (tool_name : string) (body : T dict) : T dict :=
  match require_scope WRITE_SCOPE with
  | Some refusal => _ ← _emit_mcp_tool_log tool_name "error" (Some "insufficient_scope"); mret refusal
  | None => body
  end.
(** The keyword arguments of a call. *)
Definition arg (k : string) (dflt : value) (kwargs : dict) : value := vget_or k dflt kwargs.
Definition option_arg (k : string) (kwargs : dict) : string * value := (k, unwrap_array (arg k VNone kwargs)).
Definition status_arg (kwargs : dict) : value := or_value (unwrap_array (arg "memory_status" (VStr "active") kwargs)) (VStr "active").
Definition project_arg (kwargs : dict) : value := arg "project_id" VNone kwargs.
(** The filters of a search and of a question. *)
Definition search_options (kwargs : dict) : dict :=
  [("memory_status", status_arg kwargs)] ++ map (λ k, option_arg k kwargs) ["source"; "date_from"; "date_to"; "tags"; "thread_id"]
  ++ [("handoff_only", arg "handoff_only" (VBool false) kwargs)] ++ map (λ k, option_arg k kwargs) ["source_client"; "source_session_id"]
  ++ [("include_query_plan", arg "include_query_plan" (VBool false) kwargs)].
Definition fact_options (kwargs : dict) : dict :=
  map (λ k, option_arg k kwargs) ["predicate"; "source"; "date_from"; "date_to"; "confidence"; "status"; "source_quality";
    "save_intent"; "save_intent_source"; "freshness_from"; "freshness_to"].
(** [result.get("diagnostics", {}).get("query_plan")] *)
Definition query_plan_of (res : dict) : result value :=
  match vget_or "diagnostics" (VDict []) res with
  | VDict d => Ok (vget "query_plan" d)
  | _ => Raise (AttributeError "object has no attribute 'get'")
  end.
Definition with_query_plan (include_query_plan plan : value) (res : dict) : dict :=
  if truthy include_query_plan && negb (is_none plan)
  then dict_set "diagnostics" (VDict (dict_set "query_plan" plan (default [] (as_dict (vget "diagnostics" res))))) res else res.

(** *** The tools *)

Definition validation_refused (message : string) : dict :=
  _envelope "error" VNone [] VNone (Some "invalid_input") (Some message) [("valid", VBool false)].
(** [normalize_conversation_json(..., source="mcp")]; other errors escape. *)
Definition caught_value_error {A} (r : result A) (refused : exc → T dict) (body : A → T dict) : T dict :=
  match r with
  | Ok a => body a
  | Raise e => if is_value_error e then refused e else raise e
  end.
Definition memory_validate (context : AuditContext) (kwargs : dict) : T dict :=
  match conversation_argument (arg "conversation_json" VNone kwargs) with
  | inl m => mret (validation_refused m)
  | inr d =>
      caught_value_error (normalize_conversation_json now new_id (VDict d) (Some "mcp") false) (λ e, mret (validation_refused (error_text e)))
        (λ normalized, mret match validate_json normalized with
          | Some (path, m) => validation_refused (_format_schema_error path m)
          | None => _envelope "ok" VNone [] VNone None None [("valid", VBool true)]
          end)
  end.
Definition save_refused (e : exc) : dict :=
  match e with SaveIntentError m code => error_envelope code m | _ => invalid_input (error_text e) end.
Definition inserted (context : AuditContext) (project : value) (normalized : dict) (disposition : InsertDisposition) : T dict :=
  try_except
    (res ← in_agent (match disposition with
       | PENDING_REVIEW => hub_store_pending context current_owner_id project normalized
       | ACTIVE => hub_ingest context current_owner_id project normalized end);
     mret (_with_envelope_defaults res))
    (λ e, if is_value_error e
          then let error_code := _ingest_value_error_code (error_text e) in
               _ ← _emit_mcp_tool_log "memory_insert" "error" (Some error_code);
               mret (error_envelope error_code (error_text e))
          else on_denied "memory_insert" (failed "memory_insert" "insert_failed") e).
Definition memory_insert (context : AuditContext) (kwargs : dict) : T dict :=
  writing "memory_insert"
    match conversation_argument (arg "conversation_json" VNone kwargs) with
    | inl m => mret (invalid_input m)
    | inr d =>
        caught_value_error
          (normalized ← normalize_conversation_json now new_id (VDict d) (Some "mcp") false;
           disposition ← validate_insert_save_intent normalized (default "permissive" insert_policy);
           Ok (normalized, disposition))
          (λ e, mret (save_refused e))
          (λ '(normalized, disposition), match validate_json normalized with
            | Some (path, m) => mret (invalid_input (_format_schema_error path m))
            | None => inserted context (project_arg kwargs) normalized disposition
            end)
    end.

(** The rows of a result in a fixed order, one page of them. *)
Definition searched_page (res : dict) (limit : Z) (cursor : value) : result dict :=
  sorted_rows ← _deterministic_sort (dicts_of (vget_or "results" (VList []) res));
  '(paged_rows, next_cursor) ← _paginate sorted_rows limit cursor;
  Ok (dict_set "cursor" (opt_str next_cursor) (dict_set "results" (VList (map VDict paged_rows)) res)).
Definition memory_search (context : AuditContext) (kwargs : dict) : T dict :=
  match nonblank_text (arg "query" VNone kwargs) with
  | None => mret (invalid_input "query must be a non-empty string")
  | Some query =>
  match in_range 1 100 (arg "top_k" (VInt 5) kwargs) with
  | None => mret (invalid_input "top_k must be an integer between 1 and 100")
  | Some top_k =>
  match match arg "limit" VNone kwargs with VNone => Some top_k | v => in_range 1 100 v end with
  | None => mret (invalid_input "limit must be an integer between 1 and 100")
  | Some limit =>
  caught_value_error
    (result_mode ← _validate_result_mode (py_str (arg "result_mode" (VStr "chunks") kwargs));
     response_format ← _validate_response_format (arg "response_format" (VStr CONCISE) kwargs);
     Ok (result_mode, response_format))
    (λ e, mret (invalid_input (error_text e)))
    (λ '(result_mode, response_format),
      try_except
        (res ← in_agent (hub_search context current_owner_id (project_arg kwargs)
                 ([("query", VStr query); ("top_k", VInt 100); ("result_mode", VStr result_mode)] ++ search_options kwargs));
         res ← lift (searched_page res limit (arg "cursor" VNone kwargs));
         plan ← lift (query_plan_of res);
         mret (_with_envelope_defaults (with_query_plan (arg "include_query_plan" (VBool false) kwargs) plan
                 (format_search_response res response_format))))
        (on_denied "memory_search" (failed "memory_search" "search_failed")))
  end end end.
Definition memory_retrieve (context : AuditContext) (kwargs : dict) : T dict :=
  match nonblank_text (arg "id" VNone kwargs) with
  | None => mret (invalid_input "id must be a non-empty string")
  | Some id =>
  caught_value_error (_validate_response_format (arg "response_format" (VStr CONCISE) kwargs))
    (λ e, mret (invalid_input (error_text e)))
    (λ response_format,
      try_except
        (memory ← in_agent (hub_retrieve context current_owner_id (project_arg kwargs) id (status_arg kwargs));
         mret match memory with
         | None => _envelope "not_found" (VStr id) [] VNone (Some "not_found") (Some "memory not found") []
         | Some m => _with_envelope_defaults (format_retrieve_response
             (_envelope "ok" (VStr id) [] VNone None None [("memory", redact_content_hashes (VDict m))]) response_format)
         end)
        (on_access "memory_retrieve" raise))
  end.

(** A number that may be written as a text, or what is wrong with it. *)
Definition number_arg (name : string) (v : value) : string + value :=
  match v with
  | VStr s => match int_of_str s with Some z => inr (VInt z) | None => inl (name +:+ " must be an integer") end
  | _ => inr v
  end.
Definition ask_top_k (v : value) : string + Z :=
  v ← number_arg "top_k" (match v with VNone => VInt 5 | _ => v end);
  match in_range 1 100 v with Some z => inr z | None => inl "top_k must be an integer between 1 and 100" end.
Definition ask_max_context_tokens (v : value) : string + value :=
  match v with
  | VNone => inr VNone
  | _ =>
      v ← number_arg "max_context_tokens" v;
      match int_claim v with
      | Some z => if z <? 1 then inl "max_context_tokens must be a positive integer" else inr v
      | None => inl "max_context_tokens must be a positive integer"
      end
  end.
Definition memory_ask (context : AuditContext) (kwargs : dict) : T dict :=
  match nonblank_text (arg "question" VNone kwargs) with
  | None => mret (invalid_input "question must be a non-empty string")
  | Some question =>
  match (top_k ← ask_top_k (arg "top_k" (VInt 5) kwargs); tokens ← ask_max_context_tokens (arg "max_context_tokens" VNone kwargs);
         inr (top_k, tokens)) with
  | inl m => mret (invalid_input m)
  | inr (top_k, max_context_tokens) =>
  caught_value_error
    (result_mode ← _validate_result_mode (py_str (arg "result_mode" (VStr "chunks") kwargs));
     response_format ← _validate_response_format (arg "response_format" (VStr CONCISE) kwargs);
     Ok (result_mode, response_format))
    (λ e, mret (invalid_input (error_text e)))
    (λ '(result_mode, response_format),
      asked ← try_except
        (res ← in_agent (hub_ask context current_owner_id (project_arg kwargs)
                 ([("question", VStr question); ("top_k", VInt top_k); ("max_context_tokens", max_context_tokens);
                   ("result_mode", VStr result_mode)] ++ search_options kwargs));
         mret (inr res))
        (λ e, answer ← on_denied "memory_ask" (failed "memory_ask" "ask_failed") e; mret (inl answer));
      match asked with
      | inl answer => mret answer
      | inr res =>
          plan ← lift (query_plan_of res);
          let formatted := with_query_plan (arg "include_query_plan" (VBool false) kwargs) plan (format_ask_response res response_format) in
          let response := _with_envelope_defaults formatted in
          mret (if String.eqb response_format CONCISE && negb (dict_has "results" formatted) then dict_pop "results" response else response)
      end)
  end end.
(** The format and the limit of a reading tool. *)
Definition fact_arguments (kwargs : dict) : result (string * option Z) :=
  response_format ← _validate_response_format (arg "response_format" (VStr CONCISE) kwargs);
  limit ← _validate_optional_limit (arg "limit" VNone kwargs) "limit";
  Ok (response_format, limit).
Definition memory_fact_search (context : AuditContext) (kwargs : dict) : T dict :=
  caught_value_error (fact_arguments kwargs) (λ e, mret (invalid_input (error_text e)))
    (λ '(response_format, limit),
      try_except
        (res ← in_agent (hub_fact_search context current_owner_id (project_arg kwargs)
                 ([option_arg "query" kwargs; option_arg "subject" kwargs;
                   ("include_superseded", VBool (truthy (arg "include_superseded" (VBool false) kwargs)))] ++ fact_options kwargs));
         mret (_with_envelope_defaults (format_fact_search_response res response_format limit)))
        (on_denied "memory_fact_search" raise)).
Definition memory_profile_get (context : AuditContext) (kwargs : dict) : T dict :=
  caught_value_error (fact_arguments kwargs) (λ e, mret (invalid_input (error_text e)))
    (λ '(response_format, limit),
      try_except
        (res ← in_agent (hub_profile_get context current_owner_id (project_arg kwargs)
                 (("subject", VStr (py_str (or_value (unwrap_array (arg "subject" (VStr "user") kwargs)) (VStr "user")))) :: fact_options kwargs));
         mret (_with_envelope_defaults (format_profile_response res response_format limit)))
        (on_denied "memory_profile_get" raise)).
Definition memory_lookup (context : AuditContext) (kwargs : dict) : T dict :=
  match nonblank_text (arg "query" VNone kwargs) with
  | None => mret (invalid_input "query must be a non-empty string")
  | Some query =>
      let top_k := arg "top_k" (VInt 5) kwargs in
      let project := project_arg kwargs in
      try_except
        (ask_result ← in_agent (hub_ask context current_owner_id project [("question", VStr query); ("top_k", top_k)]);
         search_result ← in_agent (hub_search context current_owner_id project [("query", VStr query); ("top_k", top_k)]);
         fact_result ← in_agent (hub_fact_search context current_owner_id project [("query", VStr query)]);
         profile_result ← in_agent (hub_profile_get context current_owner_id project [("subject", arg "subject" (VStr "user") kwargs)]);
         mret (_with_envelope_defaults
           [("status", VStr "ok"); ("query", VStr query); ("answer", VDict (format_ask_response ask_result CONCISE));
            ("memories", VDict (format_search_response search_result CONCISE));
            ("facts", VDict (format_fact_search_response fact_result CONCISE None));
            ("profile", VDict (format_profile_response profile_result CONCISE None))]))
        (on_access "memory_lookup" raise)
  end.
Definition memory_fact_supersede (context : AuditContext) (kwargs : dict) : T dict :=
  writing "memory_fact_supersede"
    match nonblank_text (arg "fact_id" VNone kwargs), nonblank_text (arg "superseded_by" VNone kwargs) with
    | None, _ => mret (invalid_input "fact_id must be a non-empty string")
    | _, None => mret (invalid_input "superseded_by must be a non-empty string")
    | Some fact_id, Some superseded_by =>
        try_except (res ← in_agent (hub_fact_supersede context current_owner_id (project_arg kwargs) fact_id superseded_by);
                    mret (_with_envelope_defaults res))
          (on_denied "memory_fact_supersede" raise)
    end.
(** [memory_pending_approve] and [memory_pending_reject] *)
Definition decision (tool_name : string) (decide : AuditContext → option string → value → string → M S dict)
    (context : AuditContext) (kwargs : dict) : T dict :=
  writing tool_name
    match nonblank_text (arg "id" VNone kwargs) with
    | None => mret (invalid_input "id must be a non-empty string")
    | Some id =>
        try_except (res ← in_agent (decide context current_owner_id (project_arg kwargs) id); mret (_with_envelope_defaults res))
          (on_denied tool_name raise)
    end.
Definition memory_pending_approve : AuditContext → dict → T dict := decision "memory_pending_approve" hub_approve.
Definition memory_pending_reject : AuditContext → dict → T dict := decision "memory_pending_reject" hub_reject.
Definition memory_project_list (context : AuditContext) (kwargs : dict) : T dict :=
  res ← in_agent (hub_project_list context current_owner_id); mret (_with_envelope_defaults res).
Definition memory_project_default_get (context : AuditContext) (kwargs : dict) : T dict :=
  res ← in_agent (hub_project_default_get context current_owner_id); mret (_with_envelope_defaults res).
Definition memory_project_get (context : AuditContext) (kwargs : dict) : T dict :=
  match nonblank_text (arg "project_id" VNone kwargs) with
  | None => mret (invalid_input "project_id must be a non-empty string")
  | Some project_id =>
      try_except (res ← in_agent (hub_project_get context current_owner_id project_id); mret (_with_envelope_defaults res))
        (on_denied "memory_project_get" raise)
  end.

(** *** Registration *)

(** A handler of the server: the arguments of a call to its answer. *)
Definition ToolFn : Type := dict → T dict.
Definition _instrument_mcp_tool (tool_fn : AuditContext → dict → T dict) : ToolFn := λ kwargs s,
  tool_fn (mk_audit_context "mcp" (c ← ctx s; _mcp_tool_call_id c)) kwargs s.
Definition build_tool_handlers : list (string * ToolFn) :=
  map (λ t, (t.1, _instrument_mcp_tool t.2))
    [("memory_validate", memory_validate); ("memory_insert", memory_insert); ("memory_search", memory_search);
     ("memory_retrieve", memory_retrieve); ("memory_ask", memory_ask); ("memory_fact_search", memory_fact_search);
     ("memory_profile_get", memory_profile_get); ("memory_lookup", memory_lookup); ("memory_fact_supersede", memory_fact_supersede);
     ("memory_pending_approve", memory_pending_approve); ("memory_pending_reject", memory_pending_reject);
     ("memory_project_list", memory_project_list); ("memory_project_default_get", memory_project_default_get);
     ("memory_project_get", memory_project_get)].
Inductive MCPToolProfile := ADVANCED | SIMPLE.
Definition _tool_handlers_for_profile (handlers : list (string * ToolFn)) (profile : MCPToolProfile) : result (list (string * ToolFn)) :=
  match profile with
  | ADVANCED => Ok handlers
  | SIMPLE => map_result (λ alias, h ← from_option_err (KeyError alias.2) (dict_get alias.2 handlers); Ok (alias.1, h)) _SIMPLE_TOOL_ALIASES
  end.
Definition _validate_tool_registration (handlers : list (string * ToolFn)) : result unit :=
  let names := map fst handlers in
  let missing_descriptions := set_minus names TOOL_DESCRIPTIONS in
  let missing_policies := set_minus names (map fst MCP_TOOL_POLICIES) in
  let problem (what : string) (missing : list string) := match missing with
    | [] => [] | _ => [what +:+ " missing for " +:+ py_repr (VList (map VStr (sorted_set missing)))] end in
  match problem "descriptions" missing_descriptions ++ problem "policies" missing_policies with
  | [] => Ok tt
  | problems => Raise (ValueError ("MCP tool registration is incomplete: " +:+ join "; " problems))
  end.
Record registered_tool := mk_tool { tool_name : string; tool_annotations : dict; tool_auth_meta : dict; tool_fn : ToolFn }.
(** The tools of [create_mcp_server], with the metadata of [_tool_meta] that
    concerns authorization. *)
Definition create_mcp_server (interfaces_mcp : bool) (api_auth : string) (profile : MCPToolProfile) : result (list registered_tool) :=
  _ ← guard_err (negb interfaces_mcp) (ValueError "config.interfaces.mcp must be enabled to create MCP server");
  handlers ← _tool_handlers_for_profile build_tool_handlers profile;
  _ ← _validate_tool_registration handlers;
  map_result (λ h, policy ← _tool_policy h.1; Ok (mk_tool h.1 (annotations policy) (auth_meta (Some api_auth) policy) h.2)) handlers.

(** *** Resources *)

Definition resource_error (error_code error_message : string) : dict :=
  [("status", VStr "error"); ("error_code", VStr error_code); ("error_message", VStr error_message)].
Definition _resource_metadata (item : dict) : dict :=
  let metadata := vget_or "metadata" (VDict []) item in
  let tags := match metadata with VDict m => vget_or "tags" (VList []) m | _ => VList [] end in
  let updated_at := match metadata with VDict m => vget "updated_at" m | _ => VNone end in
  [("id", vget "id" item); ("source", vget "source" item); ("timestamp", vget "timestamp" item);
   ("tags", match tags with VList l => VList l | _ => VList [] end); ("updated_at", or_value updated_at (vget "timestamp" item))].
(** A resource is read outside a tool: the audit context is the default one. *)
Definition no_audit_context : AuditContext := mk_audit_context "service" None.
Definition conversation_resource (id : string) : M S dict :=
  if String.eqb (strip id) "" then mret (resource_error "invalid_input" "id must be non-empty") else
  memory ← hub_retrieve no_audit_context current_owner_id VNone id (VStr "active");
  mret match memory with
  | None => [("status", VStr "not_found"); ("id", VStr id); ("error_code", VStr "not_found"); ("error_message", VStr "memory not found")]
  | Some m => [("status", VStr "ok"); ("id", VStr id); ("memory", redact_content_hashes (VDict m)); ("metadata", VDict (_resource_metadata m))]
  end.
(** [urllib.parse.unquote] of ASCII text whose escapes are UTF-8 *)
Definition unquote (s : string) : result string :=
  if negb (sall (λ c, ord c <? 128) s) then Raise OutsideModel else
  text ← utf8_decode (unquote_bytes s);
  from_option_err OutsideModel text.
(** The rows with a conversation of a source. *)
Definition from_source (source : string) (row : value) : bool :=
  match row with
  | VDict r => match vget "conversation" r with VDict c => is_text source (vget "source" c) | _ => false end
  | _ => false
  end.
(** [for row in v] of what [search] answers, keeping the rows that are dictionaries *)
Definition rows_of (v : value) : result (list value) :=
  match v with
  | VList l => Ok l
  | VDict _ | VStr _ => Ok []
  | _ => Raise (TypeError "object is not iterable")
  end.
Definition search_answer (id : string) (results : value) (metadata : dict) : dict :=
  [("status", VStr "ok"); ("id", VStr id); ("results", redact_content_hashes results); ("cursor", VNone); ("metadata", VDict metadata)].
Definition search_resource (query : string) (top_k : Z) (source : option string) : M S dict :=
  if String.eqb (strip query) "" then mret (resource_error "invalid_input" "query must be non-empty") else
  text ← lift (unquote query);
  res ← hub_search no_audit_context current_owner_id VNone [("query", VStr text); ("top_k", VInt top_k)];
  let matches := vget_or "results" (VList []) res in
  matches ← (match nonempty source with
    | Some t => l ← lift (rows_of matches); mret (VList (List.filter (from_source t) l)) | None => mret matches end);
  mret (search_answer ("search:" +:+ query) matches [("query", VStr query); ("top_k", VInt top_k); ("source", opt_str source)]).
Definition digits_of (s : string) : bool := sall is_decimal s && negb (String.eqb s "").
(** [datetime.strptime(day, "%Y-%m-%d")] succeeds: a year of four digits, a month
    and a day of one or two, a space allowed before a day of one. *)
Definition is_day (day : string) : bool :=
  match split_on "-" day with
  | [y; m; d] =>
      let d := match d with String c r => if Ascii.eqb c " "%char && Nat.eqb (String.length r) 1 then r else d | _ => d end in
      digits_of y && Nat.eqb (String.length y) 4 && digits_of m && Nat.leb (String.length m) 2 && digits_of d && Nat.leb (String.length d) 2
      && match int_of_str y, int_of_str m, int_of_str d with
         | Some y, Some m, Some d => (1 <=? y) && (1 <=? m) && (m <=? 12) && (1 <=? d) && (d <=? days_in_month y m)
         | _, _, _ => false
         end
  | _ => false
  end.
Definition on_day (day : string) (source : option string) (row : value) : bool :=
  match row with
  | VDict r => match vget "conversation" r with
      | VDict c => startswith day (py_str (vget_or "timestamp" (VStr "") c)) && match nonempty source with Some t => is_text t (vget "source" c) | None => true end
      | _ => false end
  | _ => false
  end.
Definition timeline_resource (day : string) (top_k : Z) (source : option string) : M S dict :=
  if negb (is_day day) then mret (resource_error "invalid_input" "day must be YYYY-MM-DD") else
  res ← hub_search no_audit_context current_owner_id VNone [("query", VStr day); ("top_k", VInt top_k)];
  l ← lift (rows_of (vget_or "results" (VList []) res));
  mret (search_answer ("timeline:" +:+ day) (VList (List.filter (on_day day source) l))
          [("day", VStr day); ("top_k", VInt top_k); ("source", opt_str source)]).
End tools.

(** ** The agent of the hub *)

(** The records of a search and of an answer as the dictionaries of the code; a
    float is written with all its digits. *)
Definition float_value (f : float) : value := VFloat (exact_text f).
Definition citation_dict (c : citation) : dict :=
  [("id", VStr (ci_id c)); ("chunk_index", VInt (ci_chunk_index c)); ("score", float_value (ci_score c)); ("text", VStr (ci_text c))].
Definition explanation_dict (x : scoring_explanation) : dict :=
  [("advanced_memory", VDict [("pinned", VBool (x_pinned x)); ("importance", float_value (x_importance x)); ("recency", float_value (x_recency x));
     ("access", float_value (x_access x)); ("confidence", float_value (x_confidence x)); ("contradicted", VBool (x_contradicted x))])].
Definition row_dict (row : shaped_row) : dict :=
  let r := sh_row row in
  let thread_fields := match sh_thread_id row with
    | Some t => let ids := sh_thread_conversation_ids row in let count := VInt (Z.of_nat (length ids)) in
                [("thread_id", VStr t); ("thread_conversation_ids", texts ids); ("thread_conversation_count", count); ("matching_conversations", count)]
    | None => [] end in
  let group_fields := match sh_matching_chunks row with
    | Some n => [("matching_chunks", VInt n); ("evidence_chunks", VList (map (λ c, VDict (citation_dict c)) (sh_evidence_chunks row)));
                 ("used_in_answer", VBool false)]
    | None => [] end in
  [("id", VStr (rr_id r)); ("score", float_value (rr_score r)); ("chunk_index", VInt (rr_chunk_index r)); ("role", VStr (rr_role r));
   ("text", VStr (rr_text r)); ("conversation", rr_conversation r)]
  ++ match rr_explanation r with Some x => [("ranking_explanation", VDict (explanation_dict x))] | None => [] end
  ++ [("conversation_score", float_value (rr_conversation_score r)); ("conversation_match_count", VInt (rr_conversation_match_count r))]
  ++ thread_fields ++ group_fields.
Definition row_values (rows : list shaped_row) : value := VList (map (λ r, VDict (row_dict r)) rows).
Definition outcome_dict (o : SearchOutcome) : dict :=
  [("status", VStr "ok"); ("results", row_values (so_results o))]
  ++ match so_diagnostics o with [] => [] | d => [("diagnostics", VDict d)] end.
Definition provenance_dict (p : provenance) : dict :=
  [("conversation_id", VStr (pv_conversation_id p)); ("source", pv_source p); ("title", pv_title p); ("stored_at", pv_stored_at p);
   ("matching_chunks", VInt (pv_matching_chunks p)); ("used_in_answer", VBool (pv_used_in_answer p))]
  ++ match pv_save_intents p with Some (intents, sources) => [("save_intents", texts intents); ("save_intent_sources", texts sources)] | None => [] end.
Definition evidence_dict (e : evidence) : dict :=
  match e with
  | FactEvidence fact => fact
  | ChunkEvidence c => [("type", VStr "chunk"); ("conversation_id", VStr (ce_conversation_id c)); ("chunk_index", VInt (ce_chunk_index c));
      ("role", VStr (ce_role c)); ("text", VStr (ce_text c)); ("score", float_value (ce_score c)); ("used_in_answer", VBool true)]
  end.
Definition cited_dict (c : cited) : dict := match c with OfFact fact => fact | OfChunk c => citation_dict c end.
Definition dict_values {A} (f : A → dict) (l : list A) : value := VList (map (λ x, VDict (f x)) l).
Definition answer_dict (a : answer) : dict :=
  [("status", VStr "ok"); ("results", row_values (an_results a)); ("answer", VStr (an_answer a));
   ("citations", dict_values cited_dict (an_citations a)); ("confidence", VStr (an_confidence a));
   ("confidence_reason", VStr (an_confidence_reason a)); ("answer_basis", VStr (an_answer_basis a));
   ("provenance", dict_values provenance_dict (an_provenance a))]
  ++ match an_facts a with
     | Some f => [("facts", dict_values id (ff_facts f)); ("latest", match ff_latest f with Some d => VDict d | None => VNone end);
                  ("fact_timeline", dict_values id (ff_timeline f))]
     | None => [] end
  ++ [("evidence", dict_values evidence_dict (an_evidence a));
      ("structured_evidence", VDict [("facts", dict_values evidence_dict (an_fact_evidence a)); ("results", row_values (an_results a))])]
  ++ match an_budget a with
     | Some b => [("context_tokens_used", VInt (context_tokens_used b)); ("chunks_selected", VInt (chunks_selected b));
                  ("chunks_dropped", VInt (bf_chunks_dropped b)); ("context_truncated", VBool (bf_context_truncated b));
                  ("tokenizer_used", VStr (bf_tokenizer_used b))]
     | None => [] end
  ++ match an_query_plan a with Some plan => [("diagnostics", VDict [("query_plan", VDict plan)])] | None => [] end.

(** *** Keyword arguments read as the operations take them *)

Definition text_option (k : string) (options : dict) : result (option string) :=
  match vget k options with VNone => Ok None | VStr s => Ok (Some s) | _ => Raise OutsideModel end.
Definition texts_option (k : string) (options : dict) : result (list string) :=
  match vget k options with
  | VNone => Ok []
  | VList l => map_result (λ v, match v with VStr s => Ok s | _ => Raise OutsideModel end) l
  | _ => Raise OutsideModel
  end.
Definition required_text (k dflt : string) (options : dict) : result string :=
  match vget_or k (VStr dflt) options with VStr s => Ok s | _ => Raise OutsideModel end.
Definition integer_option (k : string) (dflt : Z) (options : dict) : result Z :=
  from_option_err OutsideModel (int_claim (vget_or k (VInt dflt) options)).
Definition project_option (project : value) : result (option string) := text_option "project_id" [("project_id", project)].
Definition explicit_filters (options : dict) : result PlannedConversationFilters :=
  source ← text_option "source" options; date_from ← text_option "date_from" options; date_to ← text_option "date_to" options;
  tags ← texts_option "tags" options; thread_id ← text_option "thread_id" options;
  handoff_only ← match vget_or "handoff_only" (VBool false) options with VBool b => Ok b | _ => Raise OutsideModel end;
  source_client ← text_option "source_client" options; source_session_id ← text_option "source_session_id" options;
  Ok (mk_planned source date_from date_to tags thread_id handoff_only source_client source_session_id).
Definition search_request (owner_id : option string) (project : value) (options : dict) : result SearchRequest :=
  query ← required_text "query" "" options; top_k ← integer_option "top_k" 5 options;
  result_mode ← required_text "result_mode" CHUNKS options; project_id ← project_option project;
  memory_status ← required_text "memory_status" "active" options; filters ← explicit_filters options;
  Ok (Search.mk_request query top_k result_mode owner_id project_id memory_status filters (truthy (vget "include_query_plan" options))).
Definition ask_request (owner_id : option string) (project : value) (options : dict) : result AskRequest :=
  question ← required_text "question" "" options; top_k ← integer_option "top_k" 5 options;
  tokens ← match vget "max_context_tokens" options with VNone => Ok None | _ => n ← integer_option "max_context_tokens" 0 options; Ok (Some n) end;
  result_mode ← required_text "result_mode" CHUNKS options; project_id ← project_option project;
  memory_status ← required_text "memory_status" "active" options; filters ← explicit_filters options;
  Ok (mk_ask_request question top_k tokens result_mode owner_id project_id memory_status filters (truthy (vget "include_query_plan" options))).
Definition fact_filter_options (options : dict) : result FactFilters :=
  query ← text_option "query" options; source ← text_option "source" options; date_from ← text_option "date_from" options;
  date_to ← text_option "date_to" options; confidence ← text_option "confidence" options;
  source_quality ← text_option "source_quality" options; save_intent ← text_option "save_intent" options;
  save_intent_source ← text_option "save_intent_source" options; freshness_from ← text_option "freshness_from" options;
  freshness_to ← text_option "freshness_to" options;
  Ok (mk_fact_filters query source date_from date_to confidence "active" source_quality save_intent save_intent_source freshness_from freshness_to).

(** *** Projects *)

Section projects.
Context `{HashLib} `{Environ} `{V : VectorStore}.
Notation W := (M World).
Variable now : instant.
Variable context : AuditContext.
Variable event_id : string.
Definition _project_from_row (p : AuthDb.project) (role : option string) : dict :=
  [("id", VStr (p_id p)); ("owner_id", opt_str (p_owner_id p)); ("name", VStr (p_name p)); ("description", opt_str (p_description p));
   ("is_default", VBool (p_is_default p)); ("created_at", VStr (p_created_at p)); ("updated_at", VStr (p_updated_at p));
   ("archived_at", opt_str (p_archived_at p)); ("role", opt_str role)].
Definition in_accounts {A} (m : M AuthDb A) : W A := in_convs (on_auth m).
Definition visible_projects (owner_id : option string) : W (list dict) :=
  _ ← in_accounts (ensure_default_project now owner_id);
  rows ← in_accounts (list_projects owner_id);
  mret (map (λ r, _project_from_row r.1 r.2) rows).
Definition project_list (owner_id : option string) : W dict :=
  visible ← visible_projects owner_id; mret [("status", VStr "ok"); ("results", dict_values id visible)].
Definition project_default_get (owner_id : option string) : W dict :=
  p ← in_accounts (ensure_default_project now owner_id);
  mret [("status", VStr "ok"); ("project", VDict (_project_from_row p None))].
Definition project_get (project_id : string) (owner_id : option string) : W dict :=
  project ← lift (_validate_project_id project_id);
  _ ← resolve_project now context event_id owner_id (Some project) PROJECT_ROLE_READER;
  visible ← visible_projects owner_id;
  mret match List.find (λ d, is_text project (vget "id" d)) visible with
  | Some d => [("status", VStr "ok"); ("project", VDict d)]
  | None => [("status", VStr "not_found"); ("id", VStr project)]
  end.
End projects.

(** *** The instance *)

Section hub.
Context `{HashLib} `{Environ} `{EmbeddingProvider} `{V : VectorStore} `{VS : !VectorSearch}.
Variable rt : RuntimeDependencies.
Variable sr : RetrievalRuntime.
Variable ar : AskRuntime.
Variables (now : instant) (now_us : Z).
Variable event_ids : nat → string.
Variables (ingest_event_id event_id new_id : string).
Variable uuid5_url : string → string.
Notation W := (M World).
(** A request has one time and one identifier for each kind of record; a handoff
    packet is not written as a dictionary. *)
Definition service_ask (context : AuditContext) (owner_id : option string) (project : value) (options : dict) : W dict :=
  request ← lift (ask_request owner_id project options);
  answered ← ask rt sr ar now now_us context event_ids event_id uuid5_url request;
  match answered with Answered a => mret (answer_dict a) | HandedOff _ => raise OutsideModel end.
Definition service_search (context : AuditContext) (owner_id : option string) (project : value) (options : dict) : W dict :=
  request ← lift (search_request owner_id project options);
  outcome ← search rt sr now now_us context event_ids request None;
  mret (outcome_dict outcome).
Definition service_retrieve (context : AuditContext) (owner_id : option string) (project : value) (id : string) (memory_status : value) : W (option dict) :=
  project_id ← lift (project_option project);
  status ← lift (required_text "memory_status" "active" [("memory_status", memory_status)]);
  retrieve rt now context event_id id owner_id project_id status.
Definition service_fact_search (context : AuditContext) (owner_id : option string) (project : value) (options : dict) : W dict :=
  filters ← lift (fact_filter_options options); status ← lift (text_option "status" options);
  subject ← lift (text_option "subject" options); predicate ← lift (text_option "predicate" options);
  project_id ← lift (project_option project);
  facts ← fact_search now context event_id filters status subject predicate (truthy (vget "include_superseded" options)) owner_id project_id;
  mret [("status", VStr "ok"); ("results", dict_values id facts)].
Definition service_profile_get (context : AuditContext) (owner_id : option string) (project : value) (options : dict) : W dict :=
  filters ← lift (fact_filter_options options); status ← lift (text_option "status" options);
  subject ← lift (required_text "subject" "user" options); predicate ← lift (text_option "predicate" options);
  project_id ← lift (project_option project);
  FactSearch.profile_get now context event_id subject filters status predicate owner_id project_id.
#[export] Instance hub_agent : HubAgent World := {|
  hub_ingest context owner_id project payload :=
    project_id ← lift (project_option project);
    ingest_messages rt now context event_id new_id (VDict payload) false owner_id project_id;
  hub_store_pending context owner_id project payload :=
    project_id ← lift (project_option project);
    store_pending_review_memory rt now context event_id new_id (VDict payload) false owner_id project_id;
  hub_search := service_search; hub_retrieve := service_retrieve; hub_ask := service_ask;
  hub_fact_search := service_fact_search; hub_profile_get := service_profile_get;
  hub_fact_supersede context owner_id project fact_id superseded_by :=
    project_id ← lift (project_option project); fact_supersede now context event_id fact_id superseded_by owner_id project_id;
  hub_approve context owner_id project id :=
    project_id ← lift (project_option project); approve_pending_memory rt now context ingest_event_id event_id new_id id owner_id project_id;
  hub_reject context owner_id project id :=
    project_id ← lift (project_option project); reject_pending_memory now context event_id id owner_id project_id;
  hub_project_list context owner_id := project_list now owner_id;
  hub_project_default_get context owner_id := project_default_get now owner_id;
  hub_project_get context owner_id project_id := project_get now context event_id project_id owner_id |}.
End hub.
