(* ===== verification/McpFacts.v ===== *)
(** * Guarantees of the MCP server

    A tool that is announced as writing refuses a caller without the write scope
    and changes nothing; one announced as read-only does what the reading
    operations of the agent do, so that over the hub it leaves conversations,
    facts and graph as they are.  The pages of a search cover its rows in a fixed
    order; concise answers are bounded and account for what they leave out;
    every answer is an envelope without content hashes; and a search shows only
    what the hub admits. *)
From Stdlib Require Import ZArith Lia Ascii Sorted.
From S2P Require Import Prelude PyStr Json PyFloat Hash Clock Config Identity AuthDb AuthStore AuthGate ConvStore ConvFacts Scope Normalize Append FactValidation AuditLog Chunks FactStore Summaries Ingest QueryPlan Ranking FactTimeline FactSearch Search Context FactAnswer Handoff Ask ImportService ConnectOAuth LineageFacts PipelineFacts ConvTheorems SearchFacts AskFacts Samples Mcp.
Local Open Scope Z_scope.

(** ** The registered tools *)

Section registration.
Context {S : Type} `{HashLib} `{HubAgent S}.
Variable auth : option AuthContext.
Variable now : instant.
Variable new_id : string.
Variable validate_json : dict → option (list string * string).
Variable insert_policy : option string.
Notation tools_of := (create_mcp_server auth now new_id validate_json insert_policy).
Notation handlers := (build_tool_handlers auth now new_id validate_json insert_policy).

Lemma map_result_in {A B} (f : A → result B) l l' y : map_result f l = Ok l' → y ∈ l' → ∃ x, x ∈ l ∧ f x = Ok y.
Proof.
  revert l'. induction l as [|x l IH]; intros l' Hm Hy; cbn in Hm; [injection Hm as <-; by apply elem_of_nil in Hy|].
  apply bind_Ok in Hm as (b & Hb & Hm). apply bind_Ok in Hm as (bs & Hbs & Hm). injection Hm as <-.
  apply elem_of_cons in Hy as [->|Hy]; [by exists x; split; [left|]|]. destruct (IH _ Hbs Hy) as (z & Hz & Ez). exists z. split; [by right|done].
Qed.
(** The tool behind a name: [memory_save] is [memory_insert]. *)
Definition handler_name (name : string) : string := if String.eqb name "memory_save" then "memory_insert" else name.
Lemma registered_tool_spec mcp api profile tools t : tools_of mcp api profile = Ok tools → t ∈ tools →
  ∃ policy, dict_get (tool_name t) MCP_TOOL_POLICIES = Some policy ∧ tool_annotations t = annotations policy ∧
    (handler_name (tool_name t), tool_fn t) ∈ handlers.
Proof.
  unfold create_mcp_server. intros Hc Ht. apply bind_Ok in Hc as (u & _ & Hc). apply bind_Ok in Hc as (hs & Hh & Hc).
  apply bind_Ok in Hc as (u' & _ & Hc). destruct (map_result_in _ _ _ _ Hc Ht) as ([name fn] & Hin & Hp).
  apply bind_Ok in Hp as (policy & Hp & [= <-]). exists policy. cbn [tool_name tool_annotations tool_fn fst snd].
  split; [unfold _tool_policy in Hp; cbn [fst] in Hp; destruct (dict_get name MCP_TOOL_POLICIES); cbn in Hp; [by injection Hp as ->|discriminate]|].
  split; [done|]. destruct profile; cbn [_tool_handlers_for_profile] in Hh.
  - injection Hh as <-. assert (Hn : handler_name name = name); [|by rewrite Hn].
    unfold build_tool_handlers in Hin. cbn [map] in Hin.
    repeat (apply elem_of_cons in Hin as [[= -> _]|Hin]; [reflexivity|]). by apply elem_of_nil in Hin.
  - destruct (map_result_in _ _ _ _ Hh Hin) as ([exposed handler] & Ha & Hf). cbn [fst snd] in Hf.
    apply bind_Ok in Hf as (h & Hf & [= -> ->]). unfold from_option_err in Hf. destruct (dict_get handler handlers) eqn:E; [|discriminate].
    injection Hf as ->. apply dict_get_in in E. unfold _SIMPLE_TOOL_ALIASES in Ha.
    repeat (apply elem_of_cons in Ha as [[= -> ->]|Ha]; [exact E|]). by apply elem_of_nil in Ha.
Qed.
(** A refused call: the error names the scope, and the agent is not called. *)
Lemma writing_refused tool body (a : AuthContext) (s : McpState S) : auth = Some a → WRITE_SCOPE ∉ scopes a →
  ∃ answer s', writing auth tool body s = (Ok answer, s') ∧ hub s' = hub s ∧
    answer = _insufficient_scope_error WRITE_SCOPE (auth_mode a) (scopes a).
Proof.
  intros -> Hs. unfold writing, require_scope. assert (Hm : mem WRITE_SCOPE (scopes a) = false).
  { apply not_true_iff_false. intros Hm. unfold mem in Hm. apply existsb_exists in Hm as (x & Hx & E).
    apply String.eqb_eq in E as <-. apply Hs. by apply list_elem_of_In. }
  rewrite Hm. do 2 eexists. split; [reflexivity|]. by split.
Qed.

(** C13: A tool that a client is told is not read-only refuses a caller whose token
    lacks the write scope: in both profiles, whatever the arguments, the answer is
    the error [insufficient_scope] that names the scope, and the agent is not
    called, so nothing is stored. *)
Theorem writing_tools_need_write_scope mcp api profile tools t (a : AuthContext) kwargs (s : McpState S) :
  auth = Some a → WRITE_SCOPE ∉ scopes a → tools_of mcp api profile = Ok tools → t ∈ tools →
  vget "readOnlyHint" (tool_annotations t) = VBool false →
  ∃ answer s', tool_fn t kwargs s = (Ok answer, s') ∧ hub s' = hub s ∧
    vget "status" answer = VStr "error" ∧ vget "error_code" answer = VStr "insufficient_scope" ∧
    vget "required_scope" answer = VStr WRITE_SCOPE.
Proof.
  intros Ha Hs Hc Ht Hr. destruct (registered_tool_spec _ _ _ _ _ Hc Ht) as (policy & Hp & Han & Hin).
  rewrite Han in Hr. cbn in Hr. injection Hr as Hr.
  assert (Hw : ∃ tool body, ∀ s, tool_fn t kwargs s = writing auth tool (body s) s).
  { destruct t as [name an am fn]. cbn [tool_name tool_fn] in *. revert Hp Hr Hin. clear -H. unfold build_tool_handlers. cbn [map fst snd].
    intros Hp Hr Hin.
    repeat (apply elem_of_cons in Hin as [[= En ->]|Hin];
      [unfold handler_name in En; destruct (String.eqb name "memory_save") eqn:E;
        [apply String.eqb_eq in E; subst name|subst name]; try discriminate; cbn in Hp; injection Hp as <-; try discriminate Hr;
        try (eexists _, (λ s, _); intros s; reflexivity)|]). by apply elem_of_nil in Hin. }
  destruct Hw as (tool & body & Hw). rewrite Hw. destruct (writing_refused tool (body s) a s Ha Hs) as (answer & s' & -> & Hh & ->).
  exists (_insufficient_scope_error WRITE_SCOPE (auth_mode a) (scopes a)), s'. by split_and!.
Qed.

(** ** What a reading tool does *)

Section reading.
Variable R : S → S → Prop.
Context `{!PreOrder R}.
(** The reading operations of the agent take its state along [R]. *)
Record agent_reads : Prop := {
  ar_search : ∀ c o p k, moves R (hub_search c o p k);
  ar_retrieve : ∀ c o p i m, moves R (hub_retrieve c o p i m);
  ar_ask : ∀ c o p k, moves R (hub_ask c o p k);
  ar_fact_search : ∀ c o p k, moves R (hub_fact_search c o p k);
  ar_profile_get : ∀ c o p k, moves R (hub_profile_get c o p k);
  ar_project_list : ∀ c o, moves R (hub_project_list c o);
  ar_project_default_get : ∀ c o, moves R (hub_project_default_get c o);
  ar_project_get : ∀ c o p, moves R (hub_project_get c o p) }.
Definition on_hub (s s' : McpState S) : Prop := R (hub s) (hub s').
#[export] Instance on_hub_preorder : PreOrder on_hub.
Proof. split; unfold on_hub; [by intros ?|intros ???; by etransitivity]. Qed.
Lemma in_agent_moves {A} (m : M S A) : moves R m → moves on_hub (in_agent m).
Proof. intros Hm s. specialize (Hm (hub s)). unfold in_agent. by destruct (m (hub s)). Qed.
Lemma emit_moves t st e : moves on_hub (_emit_mcp_tool_log t st e).
Proof. intros s. unfold on_hub. reflexivity. Qed.
Lemma try_except_moves {A} (m : M (McpState S) A) h : moves on_hub m → (∀ e, moves on_hub (h e)) → moves on_hub (try_except m h).
Proof.
  intros Hm Hh s. specialize (Hm s). unfold try_except. destruct (m s) as [[a|e] s']; [done|]. cbn in Hm.
  destruct e; try done; (etransitivity; [exact Hm|apply Hh]).
Qed.
Lemma caught_moves {A} (r : result A) refused body : (∀ e, moves on_hub (refused e)) → (∀ a, moves on_hub (body a)) →
  moves on_hub (caught_value_error (S:=S) r refused body).
Proof. intros Hr Hb. unfold caught_value_error. destruct r; [apply Hb|]. destruct (is_value_error e); [apply Hr|walk]. Qed.
Lemma denied_moves t : moves on_hub (_mcp_permission_denied_response (S:=S) t).
Proof. unfold _mcp_permission_denied_response. walk. apply emit_moves. Qed.
Lemma on_access_moves t other e : (∀ e, moves on_hub (other e)) → moves on_hub (on_access (S:=S) t other e).
Proof. intros Ho. unfold on_access. walk; auto using denied_moves. Qed.
Lemma on_denied_moves t other e : (∀ e, moves on_hub (other e)) → moves on_hub (on_denied (S:=S) t other e).
Proof. intros Ho. apply on_access_moves. intros e'. walk; auto using denied_moves. Qed.
Lemma failed_moves t c e : moves on_hub (failed (S:=S) t c e).
Proof. unfold failed. walk. apply emit_moves. Qed.
Lemma raise_moves {A} e : moves on_hub (raise (A:=A) e).
Proof. walk. Qed.

Ltac reads Ha := repeat first
  [ apply try_except_moves; [|intros ?] | apply caught_moves; intros ? | apply on_denied_moves; intros ?
  | apply on_access_moves; intros ? | apply failed_moves | apply raise_moves | apply in_agent_moves | apply Ha | moves_step ].
(** A read-only tool only reads: however it is called and whatever it answers, it
    leaves the agent where the reading operations of the agent lead. *)
Lemma read_only_tools_only_read mcp api profile tools t kwargs (Ha : agent_reads) :
  tools_of mcp api profile = Ok tools → t ∈ tools → vget "readOnlyHint" (tool_annotations t) = VBool true →
  moves on_hub (tool_fn t kwargs).
Proof.
  intros Hc Ht Hr. destruct (registered_tool_spec _ _ _ _ _ Hc Ht) as (policy & Hp & Han & Hin).
  rewrite Han in Hr. cbn in Hr. injection Hr as Hr. destruct t as [name an am fn]. cbn [tool_name tool_fn] in *.
  clear Hc Ht Han. unfold build_tool_handlers in Hin. cbn [map fst snd] in Hin.
  repeat (apply elem_of_cons in Hin as [[= En ->]|Hin];
    [unfold handler_name in En; destruct (String.eqb name "memory_save") eqn:E;
      [apply String.eqb_eq in E; subst name|subst name]; try discriminate; cbn in Hp; injection Hp as <-; try discriminate Hr;
      intros s; unfold _instrument_mcp_tool; generalize (mk_audit_context "mcp" (c ← ctx s; _mcp_tool_call_id c)); intros cx; revert s;
      match goal with |- ∀ s, on_hub s (?m s).2 => change (moves on_hub m) end;
      unfold memory_validate, memory_search, memory_retrieve, memory_ask, memory_fact_search, memory_profile_get, memory_lookup,
        memory_project_list, memory_project_default_get, memory_project_get;
      solve [reads Ha]|]). by apply elem_of_nil in Hin.
Qed.
End reading.
End registration.

(** ** Reading leaves the hub as it is *)

Section hub_reads.
Context `{HashLib} `{Environ} `{EmbeddingProvider} `{V : VectorStore} `{VS : !VectorSearch}.
Variable rt : RuntimeDependencies.
Variable sr : RetrievalRuntime.
Variable ar : AskRuntime.
Variables (now : instant) (now_us : Z).
Variable event_ids : nat → string.
Variables (ingest_event_id event_id new_id : string).
Variable uuid5_url : string → string.
(** A stored conversation without the record of its index, its messages, its
    chunks without their index state, the facts and the graph. *)
Definition content (e : dict) : dict * dict :=
  (dict_set "metadata" VNone e, dict_pop "index_chunks" (default [] (as_dict (vget "metadata" e)))).
Definition row_content (r : conv_row) : conv_row * option (dict * dict) :=
  (set_payload "" r, match json_loads (c_payload r) with Ok (VDict e) => Some (content e) | _ => None end).
Definition memory_of (w : World) :=
  (map row_content (conversations (conv_db (w_hub w))), messages (conv_db (w_hub w)),
   map (set_chunk_state PENDING) (chunks (conv_db (w_hub w))), w_facts w).
Definition keeps_memory (w w' : World) : Prop :=
  conv_inv (conv_db (w_hub w)) → conv_inv (conv_db (w_hub w')) ∧ memory_of w' = memory_of w.
#[export] Instance keeps_memory_preorder : PreOrder keeps_memory.
Proof. split; unfold keeps_memory; [by intros ?|]. intros a b c Hab Hbc Ha. destruct (Hab Ha) as [Hb E]. destruct (Hbc Hb) as [Hc E']. by rewrite E'. Qed.
Notation reads m := (moves keeps_memory m).

Definition tables (d : ConvDb) := (conversations d, messages d, chunks d).
Lemma conv_inv_tables d d' : tables d' = tables d → conv_inv d → conv_inv d'.
Proof. destruct d, d'. cbn. intros [= -> -> ->] []. by constructor. Qed.
Lemma same_tables w w' : tables (conv_db (w_hub w')) = tables (conv_db (w_hub w)) → w_facts w' = w_facts w → keeps_memory w w'.
Proof.
  intros Ht Hf Hi. split; [by eapply conv_inv_tables|]. unfold memory_of. injection Ht as -> -> ->. by rewrite Hf.
Qed.
Lemma hub_reads {A} (m : M HubDb A) : moves (same (λ s, tables (conv_db s))) m → reads (in_hub m).
Proof. intros Hm. apply in_hub_moves. intros w. by apply same_tables; [apply Hm|]. Qed.
Lemma on_accounts_same {A} (m : M AuthDb A) : moves (same (λ s, tables (conv_db s))) (on_conv (on_auth m)).
Proof. intros s. unfold on_conv, on_auth, same. by destruct (m _). Qed.
Lemma accounts_read {A} (m : M AuthDb A) : reads (in_accounts m).
Proof. apply hub_reads, on_accounts_same. Qed.
Lemma audit_same cx i ty o p m f oc r md : moves (same (λ s, tables (conv_db s))) (_record_audit_event now cx i ty o p m f oc r md).
Proof. intros s. unfold same. by rewrite audit_convs_hub. Qed.
Lemma audit_read cx i ty o p m f oc r md : reads (in_hub (_record_audit_event now cx i ty o p m f oc r md)).
Proof. apply hub_reads, audit_same. Qed.
Lemma resolve_read cx i o p role : reads (resolve_project now cx i o p role).
Proof. apply hub_reads. unfold _resolve_project, denied. walk; first [apply on_accounts_same|apply audit_same]. Qed.
Lemma summaries_read {A} (m : M (list summary_row) A) : reads (in_summaries m).
Proof. intros w. unfold in_summaries. destruct (m _). by apply same_tables. Qed.
Lemma vectors_read {A} (m : M vectors A) : reads (in_vectors m).
Proof. intros w. unfold in_vectors. destruct (m _). by apply same_tables. Qed.
Lemma facts_read {A} (m : M FactDb A) : moves eq m → reads (in_facts m).
Proof. intros Hm w. specialize (Hm (w_facts w)). unfold in_facts. destruct (m _). cbn in Hm. subst. by apply same_tables. Qed.
Lemma convs_read {A} (m : M ConvDb A) : moves eq m → reads (in_convs m).
Proof. intros Hm. apply hub_reads. intros s. specialize (Hm (conv_db s)). unfold on_conv, same. destruct (m _). cbn in *. by subst. Qed.

(** *** Marking chunks *)

Lemma dict_set_set (k : string) (u v : value) (d : dict) : dict_set k u (dict_set k v d) = dict_set k u d.
Proof.
  induction d as [|[k' x] d IH]; cbn; [by rewrite String.eqb_refl|]. destruct (String.eqb k k') eqn:E; cbn; rewrite E; [done|by rewrite IH].
Qed.
Lemma dict_pop_set (k : string) (v : value) (d : dict) : dict_has k d = true → dict_pop k (dict_set k v d) = dict_pop k d.
Proof.
  unfold dict_has. induction d as [|[k' x] d IH]; cbn; [done|]. destruct (String.eqb k k') eqn:E; cbn; rewrite E; [done|]. intros Hd. by rewrite IH.
Qed.
Lemma update_payload_content e ids st e' : update_index_chunks_payload e ids st = Ok e' → content e' = content e.
Proof.
  unfold update_index_chunks_payload. set (m := default [] (as_dict (vget "metadata" e))). intros Hu.
  assert (Hc : ∀ m', dict_pop "index_chunks" m' = dict_pop "index_chunks" m → content (dict_set "metadata" (VDict m') e) = content e).
  { intros m' Hm. unfold content. rewrite dict_set_set. unfold vget at 1. rewrite dict_get_set_eq. f_equal. exact Hm. }
  destruct (vget "index_chunks" m) eqn:Ei; try (injection Hu as <-; by apply Hc).
  inv_ok. subst e'. apply Hc, dict_pop_set. unfold dict_has. unfold vget in Ei. by destruct (dict_get _ m).
Qed.
Lemma sync_memory i ids st d : conv_inv d →
  map row_content (conversations (_sync_index_chunk_payload_state i ids st d).2) = map row_content (conversations d).
Proof.
  intros Hi. unfold _sync_index_chunk_payload_state, mbind, M_bind, query. cbn [fst snd].
  destruct (tbl_find _ _) as [r|] eqn:Hr; [|done]. apply tbl_find_Some in Hr as [Hr Er].
  pose proof (inv_rows d Hi) as Hrows. rewrite Forall_forall in Hrows. destruct (Hrows r Hr) as [e He].
  pose proof (ConvFacts.row_payload _ _ He) as row_payload0. pose proof (ConvFacts.row_wf _ _ He) as row_wf0. unfold lift. rewrite row_payload0, (loads_dumps _ row_wf0).
  destruct (update_index_chunks_payload e ids st) as [e'|] eqn:Hu; [|done]. unfold exec, on_convs. cbn [snd conversations].
  unfold tbl_update. rewrite map_map. apply map_ext_in. intros r' Hr'%list_elem_of_In. destruct (is_conv i r') eqn:E'; [|done].
  assert (r' = r) as -> by (by eapply conv_unique_row). unfold row_content. cbn [set_payload c_payload]. f_equal.
  rewrite row_payload0, (loads_dumps _ row_wf0), loads_dumps; [by rewrite (update_payload_content _ _ _ _ Hu)|by eapply update_payload_wf].
Qed.
(** The tables without what marking chunks changes. *)
Definition unmarked (d : ConvDb) := (map row_content (conversations d), messages d, map (set_chunk_state PENDING) (chunks d)).
Definition keeps_unmarked (d d' : ConvDb) : Prop := conv_inv d → conv_inv d' ∧ unmarked d' = unmarked d.
#[local] Instance keeps_unmarked_preorder : PreOrder keeps_unmarked.
Proof. split; unfold keeps_unmarked; [by intros ?|]. intros a b c Hab Hbc Ha. destruct (Hab Ha) as [Hb E]. destruct (Hbc Hb) as [Hc E']. by rewrite E'. Qed.
Lemma mark_unmarked v ids st : moves keeps_unmarked (_mark_chunks_state v ids st).
Proof.
  unfold _mark_chunks_state. walk.
  - apply each_moves; [apply _|]. intros x d Hi. split; [by apply set_chunk_state_inv|]. unfold unmarked. cbn. f_equal.
    unfold tbl_update. rewrite map_map. apply map_ext. intros k. by destruct (_ && _).
  - intros d Hi. split; [by apply sync_payload_inv|]. unfold unmarked. rewrite (sync_memory _ _ _ _ Hi).
    assert (Ht : moves (same (λ d, (messages d, chunks d))) (_sync_index_chunk_payload_state a ids st)).
    { unfold _sync_index_chunk_payload_state. walk; done. }
    specialize (Ht d). unfold same in Ht. by injection Ht as -> ->.
Qed.
Lemma mark_read v ids st : reads (in_convs (_mark_chunks_state v ids st)).
Proof.
  apply in_hub_moves. intros w Hi. destruct (mark_unmarked v ids st _ Hi) as [Hk Hm]. unfold memory_of, on_conv. cbn [w_hub w_facts].
  destruct (_mark_chunks_state v ids st _) as [r d]. cbn in *. split; [done|]. by injection Hm as -> -> ->.
Qed.
Lemma get_many_reads ids : moves eq (get_many ids).
Proof. unfold get_many. walk. Qed.
Lemma search_text_reads q l p : moves eq (search_text q l p).
Proof. unfold search_text. walk. Qed.
Lemma search_facts_reads s p i j : moves eq (search_facts s p i j).
Proof. unfold search_facts. walk. Qed.
Lemma search_relationships_reads s p o j i : moves eq (search_graph_relationships s p o j i).
Proof. unfold search_graph_relationships. walk. Qed.
Lemma stored_reads id : moves eq (Append.stored id).
Proof. unfold Append.stored. walk. apply get_moves, _. Qed.
Lemma view_reads o p n ids vs c : moves eq (view_from o p n ids vs c).
Proof. revert ids vs c. induction n; intros ids vs c; cbn [view_from]; walk; auto using stored_reads. Qed.
Ltac read_step := first
  [ apply audit_read | apply resolve_read | apply summaries_read | apply vectors_read | apply accounts_read
  | apply facts_read; first [apply search_facts_reads|apply search_relationships_reads]
  | apply convs_read; first [apply get_many_reads|apply search_text_reads|apply get_moves, _|apply view_reads] | moves_step ].

Lemma hydrate_read n ids h : reads (hydrate n ids h).
Proof. revert ids h. induction n; intros ids h; cbn [hydrate]; repeat read_step; apply IHn. Qed.
Lemma sources_read fs : reads (_source_conversations_for_facts fs).
Proof. apply hydrate_read. Qed.
Lemma fact_search_read cx ev o st su pr b ow p : reads (fact_search now cx ev o st su pr b ow p).
Proof. unfold fact_search. repeat first [apply sources_read|read_step]. Qed.
Lemma with_summary_read v : reads (with_summary v).
Proof. unfold with_summary. repeat read_step. Qed.
Lemma with_summaries_read rows : reads (with_summaries rows).
Proof. induction rows as [|[i c] rows IH]; cbn [with_summaries]; repeat first [apply with_summary_read|apply IH|read_step]. Qed.
Lemma with_keyword_read ks : ∀ cs, reads (with_keyword cs ks).
Proof. induction ks as [|c ks IH]; intros cs; cbn [with_keyword]; repeat first [apply with_summary_read|apply IH|read_step]. Qed.
Lemma expand_read ts l o p m f : ∀ e, reads (expand_tokens ts l o p m f e).
Proof. induction ts as [|t ts IH]; intros e; cbn [expand_tokens]; repeat first [apply IH|read_step]. Qed.
Lemma keyword_read q l o p m f : reads (_keyword_conversations sr q l o p m f).
Proof. unfold _keyword_conversations. repeat first [apply expand_read|read_step]. Qed.
Lemma candidates_read n q k o p m f pu re : ∀ c a, reads (candidates_from n q k c a o p m f pu re).
Proof.
  induction n as [|n IH]; intros c a; cbn [candidates_from]; [repeat read_step|].
  repeat first [apply IH|progress unfold _matching_vector_candidate_count|read_step].
Qed.
Lemma fact_rows_read q o p m f l sc fs : ∀ rows, reads (fact_rows_from sr q o p m f l sc fs rows).
Proof. induction fs as [|x fs IH]; intros rows; cbn [fact_rows_from]; repeat first [apply with_summary_read|apply IH|read_step]. Qed.
Lemma indexed_ids_read i : reads (_vector_indexed_chunk_ids i).
Proof. intros w. unfold _vector_indexed_chunk_ids. pose proof (vectors_read (get_indexed_chunk_ids i) w) as Hv. by destruct (in_vectors _ w) as [[]]. Qed.
Lemma fully_indexed_reads v : moves eq (is_fully_indexed v).
Proof. unfold is_fully_indexed. walk. Qed.
Lemma repair_read i d : reads (_repair_retrieved_index_chunks rt i d).
Proof.
  unfold _repair_retrieved_index_chunks, _is_fully_indexed, _mark_chunks_indexed, mark_chunks_indexed, store_get.
  repeat first [apply indexed_ids_read|apply mark_read|apply convs_read, fully_indexed_reads|read_step].
Qed.
Lemma retrieve_read cx i id o p m : reads (retrieve rt now cx i id o p m).
Proof. unfold retrieve, store_get, _lineage_view. repeat first [apply repair_read|read_step]. Qed.
Lemma graph_rows_read cx ids q o p rs : ∀ i rows, reads (graph_rows_from rt sr now cx ids i q o p rs rows).
Proof. induction rs as [|r rs IH]; intros i rows; cbn [graph_rows_from]; repeat first [apply retrieve_read|apply IH|read_step]. Qed.
Lemma search_read cx ids request planned : reads (search rt sr now now_us cx ids request planned).
Proof.
  unfold search, collect_candidates, _filtered_vector_candidates, _graph_candidate_rows, _fact_candidate_rows, graph_relationship_search.
  repeat first [apply keyword_read|apply candidates_read|apply with_summaries_read|apply with_keyword_read|apply fact_rows_read|apply graph_rows_read
               |apply sources_read|apply fact_search_read|read_step].
Qed.

Notation ask_search := (_search_for_ask rt sr now now_us).
Lemma on_type_error_read {A} (m : M World A) h : reads m → (∀ t, reads (h t)) → reads (on_type_error m h).
Proof.
  intros Hm Hh w. specialize (Hm w). unfold on_type_error. destruct (m w) as [[a|e] w']; [done|].
  destruct e; try done. etransitivity; [exact Hm|apply Hh].
Qed.
Lemma ask_search_read cx q k m o p st f pl : reads (ask_search cx event_ids q k m o p st f pl).
Proof. unfold _search_for_ask. apply on_type_error_read; [|intros t]; repeat first [apply search_read|read_step]. Qed.
Lemma search_facts_read s p o j cf ff : reads (FactAnswer._search_facts s p o j cf ff).
Proof. unfold FactAnswer._search_facts. repeat first [apply sources_read|read_step]. Qed.
Lemma first_candidates_read q qs o p f : reads (first_candidates q qs o p f).
Proof.
  induction qs as [|x qs IH]; cbn [first_candidates]; [repeat read_step|].
  unfold _candidate_facts_for_question, _narrow_facts_for_question.
  repeat first [apply search_facts_read|apply sources_read|apply IH|read_step].
Qed.
Lemma answer_from_facts_read so q k o p f b : reads so → reads (_answer_from_facts so q k o p f b).
Proof.
  intros Hs. unfold _answer_from_facts, _build_fact_answer, _provenance_from_facts.
  repeat first [apply first_candidates_read|apply sources_read|apply Hs|read_step].
Qed.
Lemma ask_read cx request : reads (ask rt sr ar now now_us cx event_ids event_id uuid5_url request).
Proof.
  unfold ask, ask_handoff, ask_memory, answer_from_matches, finish, record_asked, _handoff_ask_result, _lineage_view.
  repeat first [apply answer_from_facts_read|apply ask_search_read|read_step].
Qed.
Notation agent := (hub_agent rt sr ar now now_us event_ids ingest_event_id event_id new_id uuid5_url).
Lemma visible_projects_read o : reads (visible_projects now o).
Proof. unfold visible_projects. repeat read_step. Qed.
Lemma hub_reads_only : @agent_reads World agent keeps_memory.
Proof.
  constructor; intros; unfold hub_agent; cbn [hub_search hub_retrieve hub_ask hub_fact_search hub_profile_get hub_project_list hub_project_default_get hub_project_get];
    unfold service_search, service_retrieve, service_ask, service_fact_search, service_profile_get, FactSearch.profile_get, project_list,
      project_default_get, project_get;
    repeat first [apply search_read|apply retrieve_read|apply ask_read|apply fact_search_read|apply visible_projects_read|read_step].
Qed.
(** C14: Over the hub, a tool that a client is told is read-only leaves the memory
    as it is, whoever calls it, with whatever arguments, answered or not: no
    conversation is added, removed or changed but for the record of its index, and
    neither its messages, its chunks, the facts nor the graph change. *)
Theorem read_only_tools_keep_memory auth new_id' validate_json insert_policy mcp api profile tools t kwargs w c r s' :
  @create_mcp_server World _ agent auth now new_id' validate_json insert_policy mcp api profile = Ok tools → t ∈ tools →
  vget "readOnlyHint" (tool_annotations t) = VBool true → conv_inv (conv_db (w_hub w)) →
  tool_fn t kwargs (mk_mcp w c) = (r, s') →
  conv_inv (conv_db (w_hub (hub s'))) ∧ memory_of (hub s') = memory_of w.
Proof.
  intros Hc Ht Ha Hi Hr. pose proof (read_only_tools_only_read _ _ _ _ _ keeps_memory _ _ _ _ _ kwargs hub_reads_only Hc Ht Ha (mk_mcp w c)) as Hm.
  rewrite Hr in Hm. by apply Hm.
Qed.
End hub_reads.

(** ** The pages of a search *)

(** Following the cursors from one on: the pages until there is none. *)
Inductive turns {A} (page_at : value → result (list A * option string)) : value → list (list A) → Prop :=
| last_page cursor page : page_at cursor = Ok (page, None) → turns page_at cursor [page]
| next_page cursor page next pages : page_at cursor = Ok (page, Some next) → turns page_at (VStr next) pages →
    turns page_at cursor (page :: pages).
(** The rows and the cursor of an answer *)
Definition page_of (res : dict) (limit : Z) (cursor : value) : result (list dict * option string) :=
  r ← searched_page res limit cursor;
  Ok (dicts_of (vget "results" r), match vget "cursor" r with VStr s => Some s | _ => None end).

Lemma offset_texts n : (n <= 100)%nat → page_offset (VStr (str_of_Z (Z.of_nat n))) = Ok (Z.of_nat n).
Proof.
  intros Hn. assert (Hall : forallb (λ n, bool_decide (page_offset (VStr (str_of_Z (Z.of_nat n))) = Ok (Z.of_nat n))) (seq 0 101) = true)
    by (vm_compute; reflexivity).
  rewrite forallb_forall in Hall. specialize (Hall n). rewrite bool_decide_eq_true in Hall. apply Hall, in_seq. lia.
Qed.
Lemma paginate_at {A} (rows : list A) limit cursor n : 1 <= limit → page_offset cursor = Ok (Z.of_nat n) → (n <= length rows)%nat →
  _paginate rows limit cursor = Ok (firstn (Z.to_nat limit) (skipn n rows),
    if decide (n + Z.to_nat limit < length rows)%nat then Some (str_of_Z (Z.of_nat (n + Z.to_nat limit))) else None).
Proof.
  intros Hl Hc Hn. unfold _paginate. rewrite Hc. cbn [mbind result_bind]. rewrite Z.min_l, Nat2Z.id by lia. do 2 f_equal.
  rewrite length_firstn, length_skipn. destruct (decide _) as [Hd|Hd].
  - rewrite (proj2 (Z.ltb_lt _ _)) by lia. do 2 f_equal. lia.
  - rewrite (proj2 (Z.ltb_ge _ _)) by lia. done.
Qed.
Lemma pages_from {A} (rows : list A) limit : 1 <= limit → (length rows <= 100)%nat → ∀ k n cursor,
  (length rows - n <= k)%nat → page_offset cursor = Ok (Z.of_nat n) → (n <= length rows)%nat →
  ∃ pages, turns (_paginate rows limit) cursor pages ∧ concat pages = skipn n rows ∧
    Forall (λ page, Z.of_nat (length page) <= limit) pages.
Proof.
  intros Hl Hr. induction k as [|k IH]; intros n cursor Hk Hc Hn.
  all: pose proof (paginate_at rows limit cursor n Hl Hc Hn) as Hp; set (page := firstn (Z.to_nat limit) (skipn n rows)) in *;
    assert (Hlen : Z.of_nat (length page) <= limit) by (subst page; rewrite length_firstn; lia);
    destruct (decide _) as [Hd|Hd]; try lia;
    try (exists [page]; split; [by apply last_page|]; split; [|by repeat constructor]; cbn; rewrite app_nil_r; subst page;
         apply take_ge; rewrite length_skipn; lia).
  destruct (IH (n + Z.to_nat limit)%nat (VStr (str_of_Z (Z.of_nat (n + Z.to_nat limit))))) as (pages & Ht & Hcat & Hf).
  { lia. } { apply offset_texts. lia. } { lia. }
  exists (page :: pages). split; [by eapply next_page|]. split; [|by constructor]. cbn [concat]. rewrite Hcat. subst page.
  rewrite <-drop_drop. apply take_drop.
Qed.
Lemma keyed_rows rows keyed : map_result (λ row, key ← row_key row; Ok (key, row)) rows = Ok keyed → map snd keyed = rows.
Proof.
  revert keyed. induction rows as [|r rows IH]; intros keyed Hk; cbn in Hk; [by injection Hk as <-|].
  inv_ok. subst. cbn. f_equal. by apply IH.
Qed.
Lemma sort_permutes rows l : _deterministic_sort rows = Ok l → l ≡ₚ rows.
Proof.
  unfold _deterministic_sort. intros Hs. inv_ok. subst. rewrite <-(keyed_rows _ _ H). apply fmap_Permutation, sorted_on_perm.
Qed.
Lemma dicts_of_dicts l : dicts_of (VList (map VDict l)) = l.
Proof. cbn. induction l as [|d l IH]; [done|]. cbn. by f_equal. Qed.
Lemma page_of_paginate res limit cursor l : _deterministic_sort (dicts_of (vget_or "results" (VList []) res)) = Ok l →
  page_of res limit cursor = _paginate l limit cursor.
Proof.
  intros Hs. unfold page_of, searched_page. rewrite Hs. cbn [mbind result_bind]. destruct (_paginate l limit cursor) as [[page next]|e]; [|done].
  cbn [mbind result_bind]. unfold vget. rewrite dict_get_set_ne, dict_get_set_eq, dict_get_set_eq by done.
  change (default VNone (Some ?x)) with x. rewrite dicts_of_dicts. by destruct next.
Qed.

(** C15: The pages of a search cover its rows: for rows that can be ordered (an
    agent is asked for a hundred at most), following the cursors from the first
    page ends, and the pages put together are the rows in one fixed order, each
    exactly once, with at most [limit] rows on a page. *)
Theorem search_pages_cover_rows res limit l : 1 <= limit → (length (dicts_of (vget_or "results" (VList []) res)) <= 100)%nat →
  _deterministic_sort (dicts_of (vget_or "results" (VList []) res)) = Ok l →
  l ≡ₚ dicts_of (vget_or "results" (VList []) res) ∧
  ∃ pages, turns (page_of res limit) VNone pages ∧ concat pages = l ∧ Forall (λ page, Z.of_nat (length page) <= limit) pages.
Proof.
  intros Hl Hn Hs. pose proof (sort_permutes _ _ Hs) as Hp. split; [done|].
  destruct (pages_from l limit Hl ltac:(by rewrite Hp) (length l) 0 VNone ltac:(lia) eq_refl ltac:(lia)) as (pages & Ht & Hc & Hf).
  exists pages. split; [|by split]. clear Hc Hf. induction Ht; [apply last_page|eapply next_page; [|done]]; by rewrite (page_of_paginate _ _ _ _ Hs).
Qed.

(** ** Concise answers *)

(** The text of a row, if any, is a string within a limit. *)
Definition text_within (limit : Z) (d : dict) : Prop := ∀ v, dict_get "text" d = Some v → ∃ t, v = VStr t ∧ str_len t <= limit.
Lemma truncate_within text limit : 3 <= limit → str_len (_truncate_text text limit) <= limit.
Proof.
  intros Hl. unfold _truncate_text. destruct (_ <=? _) eqn:E; [lia|]. unfold str_len. rewrite str_app_length. cbn [String.length].
  pose proof (rstrip_by_length is_space (stake (Z.to_nat (limit - 3)) (collapse text))).
  pose proof (stake_length (Z.to_nat (limit - 3)) (collapse text)). lia.
Qed.
Lemma compact_get k d keys : dict_get k (_compact_mapping d keys) =
  if existsb (String.eqb k) keys then match dict_get k d with Some VNone => None | o => o end else None.
Proof.
  unfold _compact_mapping. induction keys as [|k' keys IH]; [done|]. cbn [existsb]. cbn [omap list_omap].
  destruct (String.eqb k k') eqn:E; cbn [orb].
  - apply String.eqb_eq in E as <-. destruct (dict_get k d) as [v|] eqn:Ed; cbn.
    + destruct v; cbn; rewrite ?String.eqb_refl; try done. rewrite IH. by destruct (existsb _ _); rewrite ?Ed.
    + rewrite IH. by destruct (existsb _ _); rewrite ?Ed.
  - destruct (dict_get k' d) as [v|]; cbn; [|exact IH]. destruct (is_none v); [exact IH|]. cbn. by rewrite E.
Qed.
Lemma compact_not_none k d keys : dict_get k (_compact_mapping d keys) ≠ Some VNone.
Proof. rewrite compact_get. destruct (existsb _ _); [|done]. by destruct (dict_get k d) as [[]|]. Qed.
Lemma cut_get limit k d : k ≠ "text" → dict_get k (with_cut_text limit d) = dict_get k d.
Proof. intros Hk. unfold with_cut_text. destruct (vget "text" d); by rewrite ?dict_get_set_ne. Qed.
Lemma cut_within limit d : 3 <= limit → dict_get "text" d ≠ Some VNone → text_within limit (with_cut_text limit d).
Proof.
  intros Hl Hd v. unfold with_cut_text, vget. destruct (dict_get "text" d) as [[]|] eqn:E; try done;
    cbn [default from_option id]; try (rewrite dict_get_set_eq; intros [= <-]; eexists; split; [done|by apply truncate_within]).
  by rewrite E.
Qed.
Lemma compact_within limit d keys : 3 <= limit → text_within limit (with_cut_text limit (_compact_mapping d keys)).
Proof. intros Hl. apply cut_within; [done|apply compact_not_none]. Qed.
Lemma dicts_in d v : d ∈ dicts_of v → ∃ l, v = VList l ∧ VDict d ∈ l.
Proof.
  destruct v; cbn; try (by intros ?%elem_of_nil). intros (x & Hx & Hd)%list_elem_of_omap. exists l. split; [done|].
  destruct x; try discriminate. by injection Hd as <-.
Qed.

(** A concise row: no conversation, and texts within the limits. *)
Record concise_row (row r : dict) : Prop := {
  cr_no_conversation : dict_get "conversation" r = None;
  cr_id : vget "id" r = vget "id" row;
  cr_text : text_within _CONCISE_SEARCH_TEXT_LIMIT r;
  cr_evidence : Forall (λ e, dict_get "conversation" e = None ∧ text_within _CONCISE_SEARCH_EVIDENCE_TEXT_LIMIT e) (dicts_of (vget "evidence_chunks" r)) }.
Lemma concise_row_bounded row : concise_row row (_concise_search_row row).
Proof.
  unfold _concise_search_row. set (c0 := with_cut_text _ _). set (c1 := if _ && _ then _ else c0).
  set (c2 := match vget "evidence_chunks" c1 with VList _ => _ | _ => _ end).
  assert (H0 : ∀ k, k ≠ "text" → dict_get k c0 = dict_get k (_compact_mapping row (_SEARCH_ROW_KEYS ++ _THREAD_ROW_KEYS))).
  { intros k Hk. by apply cut_get. }
  assert (H1 : ∀ k, k ≠ "matching_chunks" → dict_get k c1 = dict_get k c0).
  { intros k Hk. subst c1. destruct (_ && _); by rewrite ?dict_get_set_ne. }
  assert (H2 : ∀ k, k ≠ "evidence_chunks" → dict_get k c2 = dict_get k c1).
  { intros k Hk. subst c2. destruct (vget "evidence_chunks" c1); by rewrite ?dict_get_set_ne. }
  split.
  - rewrite dict_get_set_ne, H2, H1, H0, compact_get by done. reflexivity.
  - unfold vget at 1. rewrite dict_get_set_ne, H2, H1, H0, compact_get by done. cbn [existsb _SEARCH_ROW_KEYS _THREAD_ROW_KEYS app orb String.eqb].
    unfold vget. by destruct (dict_get "id" row) as [[]|].
  - intros v. rewrite dict_get_set_ne, H2, H1 by done. by apply compact_within.
  - unfold vget at 1. rewrite dict_get_set_ne by done. subst c2. destruct (vget "evidence_chunks" c1) eqn:E; unfold vget in E |- *;
      try (destruct (dict_get "evidence_chunks" c1); cbn in E |- *; subst; by constructor).
    rewrite dict_get_set_eq. cbn [default from_option id]. apply Forall_forall. intros e (l' & Hl' & He)%dicts_in. apply (f_equal (λ v, match v with VList l => l | _ => [] end)) in Hl'. cbn beta iota in Hl'. subst l'.
    unfold _concise_search_evidence_chunks in He. rewrite map_map in He. apply list_elem_of_In, in_map_iff in He as (chunk & He & _). apply (f_equal (λ v, default [] (as_dict v))) in He. cbn beta iota delta [as_dict from_option id] in He. subst e.
    split; [|by apply compact_within]. rewrite cut_get, compact_get by done. reflexivity.
Qed.
(** A concise answer to a search is bounded: one row for each row of the
    result, in order and under its identifier, without the conversation, with a
    text of at most 800 characters and cited chunks of at most 500 each. *)
Theorem concise_search_bounded payload :
  Forall2 concise_row (dicts_of (vget_or "results" (VList []) payload)) (dicts_of (vget "results" (format_search_response payload CONCISE))).
Proof.
  unfold format_search_response. change (String.eqb CONCISE DETAILED) with false. cbn [negb]. unfold vget. rewrite dict_get_set_eq.
  change (default VNone (Some ?x)) with x. rewrite <-map_map with (g := VDict), dicts_of_dicts.
  induction (dicts_of _) as [|row rows IH]; constructor; [apply concise_row_bounded|exact IH].
Qed.

(** ** Concise facts *)

Lemma dedupe_spec facts : ∀ seen,
  NoDup (map fact_key (dedupe_from seen facts)) ∧
  (∀ k, k ∈ map fact_key (dedupe_from seen facts) ↔ k ∈ map fact_key facts ∧ k ∉ seen) ∧
  sublist (dedupe_from seen facts) facts.
Proof.
  induction facts as [|f facts IH]; intros seen; cbn [dedupe_from]; [split_and!; [constructor|set_solver|constructor]|].
  case_bool_decide as Hin.
  - destruct (IH seen) as (Hn & Hk & Hs). split_and!; [done| |by constructor]. intros k. rewrite Hk. cbn. set_solver.
  - destruct (IH (fact_key f :: seen)) as (Hn & Hk & Hs). cbn. split_and!; [constructor; [rewrite Hk; set_solver|done]| |by constructor].
    intros k. rewrite !elem_of_cons, Hk. destruct (decide (k = fact_key f)); set_solver.
Qed.
(** A concise answer about facts accounts for every fact: facts that say the
    same are shown once, under their first wording; the count of the distinct
    ones is exact, what is shown is the first of them up to the limit, and what is
    shown and what is left out add up to the distinct ones. *)
Theorem concise_facts_accounted v limit facts counts :
  _limited_concise_facts v limit = (facts, counts) → 0 <= default DEFAULT_CONCISE_FACT_LIMIT limit →
  let all := map _concise_fact (dicts_of v) in
  let distinct := _dedupe_concise_facts all in
  sublist distinct all ∧ NoDup (map fact_key distinct) ∧ (∀ k, k ∈ map fact_key distinct ↔ k ∈ map fact_key all) ∧
  facts `prefix_of` distinct ∧ total counts = Z.of_nat (length all) ∧
  unique counts = Z.of_nat (length (remove_dups (map fact_key all))) ∧
  returned counts = Z.of_nat (length facts) ∧ returned counts = Z.min (unique counts) (fact_limit counts) ∧
  returned counts + omitted counts = unique counts.
Proof.
  intros Hl Hlim all distinct. unfold _limited_concise_facts in Hl. fold all in Hl. cbv zeta in Hl. fold distinct in Hl. injection Hl as <- <-.
  destruct (dedupe_spec all []) as (Hn & Hk & Hs). change (dedupe_from [] all) with distinct in Hn, Hk, Hs. cbn [total unique returned omitted fact_limit].
  set (n := default DEFAULT_CONCISE_FACT_LIMIT limit) in *.
  assert (Ht : py_take n distinct = take (Z.to_nat n) distinct) by (unfold py_take; by rewrite (proj2 (Z.ltb_ge _ _))).
  assert (Hu : length (remove_dups (map fact_key all)) = length distinct).
  { rewrite <-(length_map fact_key distinct). apply Permutation_length, NoDup_Permutation; [apply NoDup_remove_dups|done|].
    intros k. rewrite elem_of_remove_dups, Hk. set_solver. }
  split; [done|]. split; [done|]. split; [intros k; rewrite Hk; set_solver|]. rewrite Ht. split; [apply prefix_take|].
  rewrite Hu, length_take. split_and!; lia.
Qed.

(** ** Envelopes *)

(** No dictionary in a value has a key that is redacted. *)
Fixpoint hash_free (v : value) : bool :=
  match v with
  | VDict d => forallb (λ kv, negb (existsb (String.eqb kv.1) _REDACTED_HASH_KEYS) && hash_free kv.2) d
  | VList l => forallb hash_free l
  | _ => true
  end.
Lemma redact_hash_free v : hash_free (redact_content_hashes v) = true.
Proof.
  induction v as [| | | | |l IH|d IH] using value_ind; try done; cbn.
  - rewrite forallb_forall. intros x Hx. apply in_map_iff in Hx as (y & <- & Hy). rewrite Forall_forall in IH. apply IH. by apply list_elem_of_In.
  - rewrite forallb_forall. intros kv Hx. apply filter_In in Hx as [Hx Hk]. rewrite Hk. apply in_map_iff in Hx as (y & <- & Hy). cbn in Hk |- *.
    rewrite Forall_forall in IH. apply (IH y). by apply list_elem_of_In.
Qed.
(** The fields that every answer has; of the results and the stored memory, no
    hashes of contents. *)
Record enveloped (answer : dict) : Prop := {
  env_fields : Forall (λ k, dict_has k answer = true) ["status"; "id"; "cursor"; "error_code"; "error_message"];
  env_redacted : Forall (λ k, ∀ v, dict_get k answer = Some v → hash_free v = true) ["results"; "memory"; "conversation"] }.
Lemma has_set (k k' : string) (v : value) (d : dict) : dict_has k (dict_set k' v d) = String.eqb k k' || dict_has k d.
Proof. unfold dict_has. rewrite dict_get_set. by destruct (String.eqb k k'). Qed.
Lemma has_update k (e : dict) : ∀ d, dict_has k d = true → dict_has k (dict_update d e) = true.
Proof.
  induction e as [|kv e IH]; intros d Hd; [done|]. change (dict_update d (kv :: e)) with (dict_update (dict_set kv.1 kv.2 d) e).
  apply IH. rewrite has_set, Hd. apply orb_true_r.
Qed.
Lemma redact_field_get k k' data payload : dict_get k (redact_field k' data payload) =
  if String.eqb k k' then match dict_get k' data with Some v => Some (redact_content_hashes v) | None => dict_get k payload end else dict_get k payload.
Proof.
  unfold redact_field. destruct (dict_get k' data) as [v|]; [|by destruct (String.eqb k k')]. by rewrite dict_get_set.
Qed.
Lemma envelope_fields st id rs c e m x : Forall (λ k, dict_has k (_envelope st id rs c e m x) = true) ["status"; "id"; "cursor"; "error_code"; "error_message"].
Proof. unfold _envelope. repeat constructor; apply has_update; reflexivity. Qed.
Lemma error_enveloped c m : enveloped (error_envelope c m).
Proof. split; [apply envelope_fields|]. repeat constructor; cbn; intros v; try discriminate. by intros [= <-]. Qed.
Lemma has_redact k k' data payload : dict_has k payload = true → dict_has k (redact_field k' data payload) = true.
Proof. unfold redact_field. intros Hp. destruct (dict_get k' data); [|done]. rewrite has_set, Hp. apply orb_true_r. Qed.
Lemma update_keeps_absent k (e : dict) d : k ∉ map fst e → dict_get k (dict_update d e) = dict_get k d.
Proof. intros Hk. by apply dict_update_absent. Qed.
Lemma defaults_enveloped data : enveloped (_with_envelope_defaults data).
Proof.
  unfold _with_envelope_defaults. set (p0 := _envelope _ _ _ _ _ _ _). set (rest := List.filter _ data). set (p1 := dict_update p0 rest).
  assert (Hr : ∀ k, mem k ["conversation"; "memory"] = true → dict_get k p1 = dict_get k p0).
  { intros k Hk. apply update_keeps_absent. intros Hin. apply list_elem_of_In, in_map_iff in Hin as (kv & <- & Hkv).
    apply filter_In in Hkv as [_ Hkv]. rewrite Hk in Hkv. discriminate. }
  set (p2 := redact_field "conversation" data (redact_field "memory" data p1)). split.
  - pose proof (envelope_fields (py_str (vget_or "status" (VStr "ok") data)) VNone [] VNone None None []) as Hf. fold p0 in Hf.
    eapply Forall_impl; [exact Hf|]. intros k Hk. cbn beta in *. unfold p2. do 3 apply has_redact. by apply has_update.
  - repeat constructor; intros v; rewrite redact_field_get; cbn [String.eqb].
    + destruct (dict_get "results" p2) as [x|]; [|discriminate]. cbn. intros [= <-]. apply redact_hash_free.
    + cbn. unfold p2. rewrite !redact_field_get. cbn. destruct (dict_get "memory" data) as [x|]; [intros [= <-]; apply redact_hash_free|].
      rewrite (Hr "memory" eq_refl). discriminate.
    + cbn. unfold p2. rewrite !redact_field_get. cbn. destruct (dict_get "conversation" data) as [x|]; [intros [= <-]; apply redact_hash_free|].
      rewrite (Hr "conversation" eq_refl). discriminate.
Qed.

(** What holds of every answer of a computation. *)
Definition answers {S A} (P : A → Prop) (m : M S A) : Prop := ∀ s a s', m s = (Ok a, s') → P a.
Section answers.
Context {S : Type} `{HashLib} `{HubAgent S}.
Variable auth : option AuthContext.
Variable now : instant.
Variable new_id : string.
Variable validate_json : dict → option (list string * string).
Variable insert_policy : option string.
Notation T := (M (McpState S)).
Implicit Types A B : Type.

Lemma answers_ret {A} (P : A → Prop) a : P a → answers P (mret a : T A).
Proof. intros Ha s x s' Hr. by injection Hr as <- _. Qed.
Lemma answers_raise {A} (P : A → Prop) e : answers P (raise e : T A).
Proof. intros s x s' Hr. discriminate. Qed.
Lemma answers_bind {A B} (P : B → Prop) (m : T A) (f : A → T B) : (∀ a, answers P (f a)) → answers P (m ≫= f).
Proof. intros Hf s b s' Hr. apply bind_run in Hr as (a & s1 & _ & Hr). by eapply Hf. Qed.
Lemma answers_after {A B} (Q : A → Prop) (P : B → Prop) (m : T A) (f : A → T B) : answers Q m → (∀ a, Q a → answers P (f a)) → answers P (m ≫= f).
Proof. intros Hm Hf s b s' Hr. apply bind_run in Hr as (a & s1 & Ha & Hr). eapply Hf; [by eapply Hm|done]. Qed.
Lemma answers_try {A} (P : A → Prop) (m : T A) h : answers P m → (∀ e, answers P (h e)) → answers P (try_except m h).
Proof.
  intros Hm Hh s a s' Hr. unfold try_except in Hr. destruct (m s) as [[x|e] s1] eqn:Em; [injection Hr as -> ->; by eapply Hm|].
  destruct e; first [discriminate Hr|exact (Hh _ _ _ _ Hr)].
Qed.
Lemma answers_caught {A} (P : dict → Prop) (r : result A) refused body : (∀ e, answers P (refused e)) → (∀ a, answers P (body a)) →
  answers P (caught_value_error (S:=S) r refused body).
Proof. intros Hr Hb. unfold caught_value_error. destruct r; [apply Hb|]. destruct (is_value_error e); [apply Hr|apply answers_raise]. Qed.
Notation fine := (answers (S := McpState S) enveloped).
Lemma denied_fine t : fine (_mcp_permission_denied_response t).
Proof. unfold _mcp_permission_denied_response. apply answers_bind. intros _. apply answers_ret, error_enveloped. Qed.
Lemma access_fine t other e : (∀ e, fine (other e)) → fine (on_access t other e).
Proof.
  intros Ho. unfold on_access. destruct (is_permission_error e); [apply denied_fine|]. destruct (is_value_error e); [|apply Ho].
  apply answers_ret, error_enveloped.
Qed.
Lemma on_denied_fine t other e : (∀ e, fine (other e)) → fine (on_denied t other e).
Proof. intros Ho. apply access_fine. intros e'. destruct (says_denied e'); [apply denied_fine|apply Ho]. Qed.
Lemma failed_fine t c e : fine (failed t c e).
Proof. unfold failed. destruct (exception_text e); [|apply answers_raise]. apply answers_bind. intros _. apply answers_ret, error_enveloped. Qed.
Lemma scope_enveloped sc m gr : enveloped (_insufficient_scope_error sc m gr).
Proof. split; [apply envelope_fields|]. repeat constructor; cbn; intros v; try discriminate. by intros [= <-]. Qed.
Lemma writing_fine t body : fine body → fine (writing auth t body).
Proof.
  intros Hb. unfold writing, require_scope. destruct auth as [a|]; [|done]. destruct (mem _ _); [done|].
  apply answers_bind. intros _. apply answers_ret, scope_enveloped.
Qed.
Lemma valid_enveloped st c m b : enveloped (_envelope st VNone [] VNone c m [("valid", VBool b)]).
Proof. split; [apply envelope_fields|]. repeat constructor; cbn; intros v; try discriminate. by intros [= <-]. Qed.
Lemma not_found_enveloped st i c m : enveloped (_envelope st i [] VNone c m []).
Proof. split; [apply envelope_fields|]. repeat constructor; cbn; intros v; try discriminate. by intros [= <-]. Qed.
Lemma update_keys (e : dict) : ∀ d, NoDup (dict_keys d) → NoDup (dict_keys (dict_update d e)).
Proof.
  induction e as [|kv e IH]; intros d Hd; [done|]. change (dict_update d (kv :: e)) with (dict_update (dict_set kv.1 kv.2 d) e).
  by apply IH, dict_set_NoDup.
Qed.
Lemma redact_field_keys k data payload : NoDup (dict_keys payload) → NoDup (dict_keys (redact_field k data payload)).
Proof. unfold redact_field. destruct (dict_get k data); [apply dict_set_NoDup|done]. Qed.
Lemma defaults_keys data : NoDup (dict_keys (_with_envelope_defaults data)).
Proof.
  unfold _with_envelope_defaults. do 3 apply redact_field_keys. apply update_keys, update_keys. by apply (bool_decide_unpack _).
Qed.
Lemma pop_enveloped d : NoDup (dict_keys d) → enveloped d → enveloped (dict_pop "results" d).
Proof.
  intros Hn [Hf Hr]. split.
  - unfold dict_has in *. repeat (apply Forall_cons in Hf as [?Hk Hf]). repeat constructor; by rewrite dict_get_pop_ne.
  - rewrite Forall_forall in Hr |- *. intros k Hk v. rewrite (dict_get_pop _ _ _ Hn). destruct (String.eqb k "results"); [discriminate|by apply Hr].
Qed.
Ltac fine_steps := repeat first
  [ apply answers_caught; intros ? | apply answers_try; [|intros ?] | apply on_denied_fine; intros ? | apply access_fine; intros ?
  | apply failed_fine | apply answers_raise | apply writing_fine | apply answers_bind; intros ?
  | apply answers_ret; first [apply error_enveloped|apply valid_enveloped|apply not_found_enveloped|apply defaults_enveloped]
  | match goal with |- fine (mret (match ?x with _ => _ end)) => destruct x | |- fine (match ?x with _ => _ end) => destruct x | |- fine (let _ := _ in _) => cbv zeta end ].
Lemma ask_fine cx kwargs : fine (memory_ask auth cx kwargs).
Proof.
  unfold memory_ask. destruct (nonblank_text _); [|fine_steps]. destruct (_ ≫= _) as [m|[top_k tokens]]; [fine_steps|].
  apply answers_caught; [intros e; fine_steps|]. intros [mode form].
  apply (answers_after (λ asked : dict + dict, match asked with inl a => enveloped a | inr _ => True end)).
  - apply answers_try; [apply answers_bind; intros res; by apply answers_ret|]. intros e.
    apply (answers_after enveloped); [apply on_denied_fine; intros e'; apply failed_fine|]. intros a Ha. by apply answers_ret.
  - intros [a|res] Ha; [by apply answers_ret|]. apply answers_bind. intros plan. cbv zeta. apply answers_ret.
    destruct (_ && _); [apply pop_enveloped; [apply defaults_keys|]|]; apply defaults_enveloped.
Qed.

End answers.

(** ** A search over the hub *)

Section hub_search.
Context `{HashLib} `{Environ} `{EmbeddingProvider} `{V : VectorStore} `{VS : !VectorSearch}.
Variable rt : RuntimeDependencies.
Variable sr : RetrievalRuntime.
Variable ar : AskRuntime.
Variables (now : instant) (now_us : Z).
Variable event_ids : nat → string.
Variables (ingest_event_id event_id new_id : string).
Variable uuid5_url : string → string.
Variable auth : option AuthContext.
Notation agent := (hub_agent rt sr ar now now_us event_ids ingest_event_id event_id new_id uuid5_url).
Notation T := (M (McpState World)).

Lemma elem_of_dict_set k x k' (v : value) d : (k, x) ∈ dict_set k' v d → (k = k' ∧ x = v) ∨ (k, x) ∈ d.
Proof.
  induction d as [|[k0 v0] d IH]; cbn; [intros Hin%list_elem_of_singleton; left; by injection Hin|].
  destruct (String.eqb k' k0) eqn:E; intros [Heq|Hin]%elem_of_cons.
  - injection Heq as -> ->. apply String.eqb_eq in E as ->. by left.
  - right. by right.
  - injection Heq as -> ->. right. left.
  - destruct (IH Hin) as [?|?]; [by left|right; by right].
Qed.
Lemma defaults_results data : ∃ x, dict_get "results" (_with_envelope_defaults data) = Some (redact_content_hashes x) ∧
  (x = VList [] ∨ ("results", x) ∈ data).
Proof.
  unfold _with_envelope_defaults. set (p0 := _envelope _ _ _ _ _ _ _). set (rest := List.filter _ data). set (p1 := dict_update p0 rest).
  rewrite redact_field_get. cbn [String.eqb Ascii.eqb Bool.eqb]. rewrite !redact_field_get. cbn [String.eqb Ascii.eqb Bool.eqb].
  destruct (dict_get "results" p1) as [x|] eqn:E.
  - exists x. split; [done|]. destruct (dict_update_get _ _ _ _ E) as [E0|Hin].
    + left. unfold p0 in E0. cbn in E0. by injection E0.
    + right. subst rest. apply list_elem_of_In, filter_In in Hin as [Hin _]. by apply list_elem_of_In.
  - exfalso. assert (Hh : dict_has "results" p1 = true) by by apply has_update. unfold dict_has in Hh. by rewrite E in Hh.
Qed.
Lemma paginate_sub {A} (rows : list A) limit cursor page next : _paginate rows limit cursor = Ok (page, next) → ∀ x, x ∈ page → x ∈ rows.
Proof.
  unfold _paginate. intros (offset & _ & [= <- _])%bind_Ok y (i & Hi)%list_elem_of_lookup. apply lookup_take_Some in Hi as [Hi _].
  rewrite lookup_drop in Hi. by eapply list_elem_of_lookup_2.
Qed.
Notation search_of := (@memory_search World agent auth).
(** What the answer of a page shows: rows of the outcome of the search. *)
Definition answered_rows (outcome : SearchOutcome) (form : dict → dict) (l : list value) : Prop :=
  (form = id ∨ form = _concise_search_row) ∧ (length l <= 100)%nat ∧
  Forall (λ v, ∃ r, r ∈ so_results outcome ∧ v = redact_content_hashes (VDict (form (row_dict r)))) l.
Lemma page_rows outcome limit cursor res form inc plan : 1 <= limit <= 100 →
  searched_page (outcome_dict outcome) limit cursor = Ok res → mem form [CONCISE; DETAILED] = true →
  ∃ l f, dict_get "results" (_with_envelope_defaults (with_query_plan inc plan (format_search_response res form))) = Some (VList l) ∧
    (l = [] ∨ answered_rows outcome f l).
Proof.
  intros Hl Hp Hf. unfold searched_page in Hp. apply bind_Ok in Hp as (sorted & Hs & Hp). apply bind_Ok in Hp as ([page next] & Hpg & Hp).
  assert (Eres : res = dict_set "cursor" (opt_str next) (dict_set "results" (VList (map VDict page)) (outcome_dict outcome))) by (by injection Hp).
  clear Hp. assert (Hrows : ∀ d, d ∈ page → ∃ r, r ∈ so_results outcome ∧ d = row_dict r).
  { intros d Hd. eapply paginate_sub in Hd; [|done]. apply sort_permutes in Hs. rewrite Hs in Hd. unfold outcome_dict in Hd.
    change (vget_or "results" _ _) with (row_values (so_results outcome)) in Hd. unfold row_values in Hd.
    rewrite <-map_map with (g := VDict), dicts_of_dicts in Hd. apply elem_of_map in Hd as (r & Hr & ->). by exists r. }
  assert (Hlen : (length page <= 100)%nat).
  { unfold _paginate in Hpg. apply bind_Ok in Hpg as (offset & _ & [= <- _]). rewrite length_firstn. lia. }
  destruct (defaults_results (with_query_plan inc plan (format_search_response res form))) as (x & Hx & Hin).
  rewrite Hx. destruct Hin as [->|Hin]; [exists [], id; split; [done|by left]|].
  assert (Hin' : ("results", x) ∈ format_search_response res form).
  { unfold with_query_plan in Hin. destruct (_ && _); [|done]. by destruct (elem_of_dict_set _ _ _ _ _ Hin) as [[? _]|?]. }
  clear Hin Hx. unfold format_search_response in Hin'.
  assert (Hres : dict_get "results" res = Some (VList (map VDict page))) by (rewrite Eres; by rewrite dict_get_set_ne, dict_get_set_eq).
  destruct (String.eqb form DETAILED) eqn:Ed.
  - rewrite Eres in Hin'. apply elem_of_dict_set in Hin' as [[? _]|Hin']; [done|]. unfold outcome_dict in Hin'. cbn [app dict_set String.eqb Ascii.eqb Bool.eqb] in Hin'.
    apply elem_of_cons in Hin' as [[=]|Hin']. apply elem_of_cons in Hin' as [[= ->]|Hin'];
      [|destruct (so_diagnostics outcome); [by apply elem_of_nil in Hin'|by apply list_elem_of_singleton in Hin' as [=]]].
    exists (map redact_content_hashes (map VDict page)), id. split; [done|]. right. split; [by left|]. split; [by rewrite !length_map|].
    rewrite !Forall_map. apply Forall_forall. intros d (r & Hr & ->)%Hrows. by exists r.
  - apply elem_of_dict_set in Hin' as [[_ ->]|Hin'].
    + exists (map redact_content_hashes (map (λ row, VDict (_concise_search_row row)) page)), _concise_search_row.
      unfold vget_or. rewrite Hres. cbn [default from_option id]. rewrite dicts_of_dicts. split; [done|]. right. split; [by right|].
      split; [by rewrite !length_map|]. rewrite !Forall_map. apply Forall_forall. intros d (r & Hr & ->)%Hrows. by exists r.
    + exfalso. unfold _compact_mapping in Hin'. apply list_elem_of_omap in Hin' as (k & Hk & Hv). destruct (dict_get k res); [|discriminate].
      cbn in Hv. destruct (is_none v); [discriminate|]. injection Hv as -> _. unfold _CONCISE_SEARCH_KEYS in Hk.
      repeat (apply elem_of_cons in Hk as [[=]|Hk]). by apply elem_of_nil in Hk.
Qed.
Definition refused_rows (answer : dict) : Prop := dict_get "results" answer = Some (VList []).
Lemma search_refused_rows e : answers refused_rows (on_denied "memory_search" (failed "memory_search" "search_failed") e : T dict).
Proof.
  assert (Hd : answers refused_rows (_mcp_permission_denied_response "memory_search" : T dict)).
  { apply answers_bind. intros _. by apply answers_ret. }
  unfold on_denied, on_access. destruct (is_permission_error e); [exact Hd|]. destruct (is_value_error e); [by apply answers_ret|].
  destruct (says_denied e); [exact Hd|]. unfold failed. destruct (exception_text e); [|apply answers_raise].
  apply answers_bind. intros _. by apply answers_ret.
Qed.
(** The options that the tool hands to the search of the hub. *)
Definition tool_search_options (query result_mode : string) (kwargs : dict) : dict :=
  [("query", VStr query); ("top_k", VInt 100); ("result_mode", VStr result_mode)] ++ search_options kwargs.
(** An answer shows nothing, or a page of the rows of a search of the hub. *)
Lemma search_answer_rows cx kwargs w c answer s' : search_of cx kwargs (mk_mcp w c) = (Ok answer, s') →
  refused_rows answer ∨ ∃ query mode request outcome w' l f,
    search_request (current_owner_id auth) (project_arg kwargs) (tool_search_options query mode kwargs) = Ok request ∧
    search rt sr now now_us cx event_ids request None w = (Ok outcome, w') ∧
    dict_get "results" answer = Some (VList l) ∧ (l = [] ∨ answered_rows outcome f l).
Proof.
  unfold memory_search. destruct (nonblank_text _) as [query|]; [|intros [= <- _]; by left].
  destruct (in_range 1 100 (arg "top_k" _ _)) as [top_k|] eqn:Ek; [|intros [= <- _]; by left].
  destruct (match arg "limit" VNone kwargs with VNone => Some top_k | v => in_range 1 100 v end) as [limit|] eqn:El; [|intros [= <- _]; by left].
  assert (Hl : 1 <= limit <= 100).
  { assert (Hr : ∀ v z, in_range 1 100 v = Some z → 1 <= z <= 100).
    { intros v z. unfold in_range. destruct (int_claim v) as [x|]; cbn; [|done]. destruct ((x <? 1) || (100 <? x)) eqn:E; [done|].
      intros [= <-]. apply orb_false_iff in E as [?%Z.ltb_ge ?%Z.ltb_ge]. done. }
    destruct (arg "limit" VNone kwargs); try (by eapply Hr). injection El as <-. by eapply Hr. }
  unfold caught_value_error. destruct (mbind _ (_validate_result_mode _)) as [[mode form]|e] eqn:Ev;
    [|destruct (is_value_error e); [intros [= <- _]; by left|discriminate]].
  apply bind_Ok in Ev as (mode' & _ & Ev). apply bind_Ok in Ev as (form' & Hform & Ev). injection Ev as -> ->.
  assert (Hf : mem form [CONCISE; DETAILED] = true).
  { unfold _validate_response_format in Hform. destruct (unwrap_array _); try (by injection Hform as <-);
    destruct (mem _ _) eqn:Em; try discriminate; by injection Hform as <-. }
  unfold try_except. destruct (mbind _ (in_agent _) _) as [[a|e] s1] eqn:Er.
  - intros [= <- _]. right. apply bind_run in Er as (res & s2 & Ha & Er). unfold in_agent in Ha. cbn [hub ctx hub_search] in Ha.
    destruct (hub_search _ _ _ _ w) as [r w2] eqn:Es. injection Ha as -> _.
    unfold hub_search, hub_agent, service_search in Es. apply bind_run in Es as (request & ? & [Hq ->]%lift_run & Es).
    apply bind_run in Es as (outcome & w3 & Ho & [<- _]%ret_run).
    apply bind_run in Er as (page & ? & [Hp ->]%lift_run & Er). apply bind_run in Er as (plan & ? & _ & [<- _]%ret_run).
    destruct (page_rows _ _ _ _ _ (arg "include_query_plan" (VBool false) kwargs) plan Hl Hp Hf) as (l & f & Hg & Hrows).
    by exists query, mode, request, outcome, w3, l, f.
  - intros Hr. left. destruct e; try discriminate Hr; by eapply search_refused_rows.
Qed.

End hub_search.

(** ** A small server *)

Module McpSamples.
Import Sample Pipeline SearchSamples AskSamples.
#[local] Existing Instance index.
#[local] Existing Instance searched.
#[local] Existing Instance embedder.
Definition numbered (i : nat) : string := event (str_of_Z (Z.of_nat i)).
#[local] Instance sample_agent : HubAgent World :=
  hub_agent runtime retrieval settings noon 0 numbered (event "7") (event "8") memory_id (λ s, s).
Definition caller (granted : scope_set) : AuthContext := mk_AuthContext None None granted "personal_token".
Notation server granted := (create_mcp_server (Some (caller granted)) noon memory_id (λ _, None) (Some "permissive") true "personal_token" ADVANCED).
Definition tools (granted : scope_set) : list (registered_tool (S := World)) := match server granted with Ok l => l | Raise _ => [] end.
Lemma served granted : server granted = Ok (tools granted).
Proof. reflexivity. Defined.
(** The tools in their order; the eleventh and later ones are those of decisions and projects. *)
Notation tool granted i := (nth i (tools granted) (mk_tool "" [] [] (λ _ s, (Raise OutsideModel, s)))).
Definition session (w : @World index) : McpState World := mk_mcp w (Some (mk_ctx [("request_id", VStr "r1")] None 0 [])).
Notation called granted i kwargs w := (tool_fn (tool granted i) kwargs (session w)).
Definition reader : scope_set := [READ_SCOPE].
Definition rows_of_answer (r : result dict) : list string :=
  match r with Ok d => map (λ row, py_str (vget "text" row)) (dicts_of (vget "results" d)) | Raise _ => ["raised"] end.
Definition code_of (r : result dict) : value := match r with Ok d => vget "error_code" d | Raise _ => VStr "raised" end.

Example tool_names : map tool_name (tools reader) =
  ["memory_validate"; "memory_insert"; "memory_search"; "memory_retrieve"; "memory_ask"; "memory_fact_search"; "memory_profile_get";
   "memory_lookup"; "memory_fact_supersede"; "memory_pending_approve"; "memory_pending_reject"; "memory_project_list";
   "memory_project_default_get"; "memory_project_get"].
Proof. reflexivity. Qed.

Definition saving : dict := [("conversation_json", talk)].
Lemma writing_tools_need_write_scope_witness :
  tool_name (tool reader 1) = "memory_insert" ∧ vget "readOnlyHint" (tool_annotations (tool reader 1)) = VBool false ∧
  ∃ answer s', called reader 1 saving empty_world = (Ok answer, s') ∧ hub s' = empty_world ∧
    vget "error_code" answer = VStr "insufficient_scope".
Proof.
  split; [reflexivity|]. split; [reflexivity|].
  destruct (writing_tools_need_write_scope (Some (caller reader)) noon memory_id (λ _, None) (Some "permissive") true "personal_token" ADVANCED
    (tools reader) (tool reader 1) (caller reader) saving (session empty_world) eq_refl) as (answer & s' & Hr & Hh & _ & Hc & _).
  - apply (bool_decide_unpack _). vm_compute. exact I.
  - reflexivity.
  - right. left.
  - reflexivity.
  - exists answer, s'. split; [exact Hr|]. split; [exact Hh|exact Hc].
Defined.
(** with the scope, the same call stores the conversation *)
Example saved : match called [READ_SCOPE; WRITE_SCOPE] 1 saving empty_world with
  | (Ok d, s) => (vget "status" d, sizes (hub s)) | _ => (VNone, []) end = (VStr "ok", [1; 2; 3; 2]%nat).
Proof. vm_compute. reflexivity. Qed.

(** A stored conversation that is not yet in the index. *)
Definition unindexed : @World index :=
  mk_world index (mk_hub (conv_step noon (OpMark (VStr Conv.id1) ["c1"] INDEXED) Conv.stored) []) (mk_fact_db [] [] []) [] [].
Lemma read_only_tools_keep_memory_witness : ∃ r s', called reader 3 [("id", VStr Conv.id1)] unindexed = (r, s') ∧
  code_of r = VNone ∧ conv_inv (conv_db (w_hub (hub s'))) ∧ memory_of (hub s') = memory_of unindexed.
Proof.
  assert (Hs : code_of (called reader 3 [("id", VStr Conv.id1)] unindexed).1 = VNone) by (vm_compute; reflexivity).
  destruct (called reader 3 [("id", VStr Conv.id1)] unindexed) as [r s'] eqn:E. exists r, s'. split; [reflexivity|]. split; [exact Hs|].
  refine (read_only_tools_keep_memory runtime retrieval settings noon 0 numbered (event "7") (event "8") memory_id (λ s, s) (Some (caller reader))
    memory_id (λ _, None) (Some "permissive") true "personal_token" ADVANCED (tools reader) (tool reader 3) [("id", VStr Conv.id1)]
    unindexed (Some (mk_ctx [("request_id", VStr "r1")] None 0 [])) r s' _ _ _ _ E); [reflexivity|do 3 right; left|reflexivity|].
  apply conv_reachable_inv. constructor; [exact I|exact Conv.stored_reachable].
Defined.

(** three rows on pages of two *)
Definition three : dict := [("results", VList (map (λ t, VDict [("id", VStr t); ("score", VFloat "0.5")]) ["b"; "a"; "c"]))].
Definition three_sorted : list dict := map (λ t, [("id", VStr t); ("score", VFloat "0.5")]) ["a"; "b"; "c"].
Lemma search_pages_cover_rows_witness : ∃ pages, turns (page_of three 2) VNone pages ∧ concat pages = three_sorted.
Proof.
  destruct (search_pages_cover_rows three 2 three_sorted ltac:(lia) ltac:(vm_compute; lia) ltac:(vm_compute; reflexivity)) as (_ & pages & Ht & Hc & _).
  exists pages. split; [exact Ht|exact Hc].
Defined.

(** the same fact in two wordings *)
Definition wordings : value := VList (map (λ t, VDict [("subject", VStr "user"); ("predicate", VStr "likes"); ("object", VStr t)]) ["SQL"; "sql"; "Rocq"]).
Lemma concise_facts_accounted_witness : ∃ facts counts, _limited_concise_facts wordings (Some 1) = (facts, counts) ∧
  unique counts = 2 ∧ returned counts + omitted counts = unique counts.
Proof.
  destruct (_limited_concise_facts wordings (Some 1)) as [facts counts] eqn:E. exists facts, counts. split; [reflexivity|].
  split; [exact (f_equal (λ x, unique x.2) (eq_sym E))|].
  refine (proj2 (proj2 (proj2 (proj2 (proj2 (proj2 (proj2 (proj2 (concise_facts_accounted wordings (Some 1) facts counts E _))))))))). cbn. lia.
Defined.

Definition looking : dict := [("query", VStr "Where do I live in Paris"); ("limit", VInt 1)].
Lemma search_tool granted kwargs w : called granted 2 kwargs w =
  memory_search (Some (caller granted)) (mk_audit_context "mcp" (Some "r1")) kwargs (session w).
Proof. reflexivity. Qed.
(** the next page, and a refused cursor *)
Example second_page : rows_of_answer (called reader 2 (("cursor", VStr "1") :: looking) talked).1 = ["The hub uses Postgres."].
Proof. vm_compute. reflexivity. Qed.
Example odd_cursor : code_of (called reader 2 (("cursor", VStr "one") :: looking) talked).1 = VStr "invalid_input".
Proof. vm_compute. reflexivity. Qed.

(** A detailed answer to a question repeats its rows as structured evidence, where
    the hashes of the stored messages and conversation are kept. *)
Definition field (k : string) (r : result dict) : value := match r with Ok d => vget k d | Raise _ => VStr "raised" end.
Definition detailed_question : dict := [("question", VStr "Tell of Postgres"); ("response_format", VStr DETAILED)].
Example detailed_answer_keeps_hashes : (let r := (called reader 4 detailed_question talked).1 in
  (field "status" r, hash_free (field "results" r), hash_free (field "structured_evidence" r))) = (VStr "ok", true, false).
Proof. vm_compute. reflexivity. Qed.
(** A tool announced as read-only records what it finds in the index. *)
Definition lagging : @World index :=
  mk_world index (mk_hub (conv_step noon (OpMark (VStr memory_id) (map k_id (chunks (conv_db (w_hub talked)))) PENDING) (conv_db (w_hub talked))) [])
    (w_facts talked) (w_summaries talked) (w_vectors talked).
Definition index_states (w : @World index) : list string := map k_state (chunks (conv_db (w_hub w))).
Example retrieve_repairs_index :
  index_states lagging = ["pending_index"; "pending_index"] ∧
  vget "readOnlyHint" (tool_annotations (tool reader 3)) = VBool true ∧
  index_states (hub (called reader 3 [("id", VStr memory_id)] lagging).2) = ["indexed"; "indexed"].
Proof. vm_compute. done. Qed.
End McpSamples.
