(* ===== verification/ExternalOidc.v ===== *)
(** * The validator of external tokens ([memory/api/external_oidc.py])

    The access tokens of an external OIDC provider: the keys of the provider with
    their caches and the discovery document that names them, one more look at the
    keys when a token was signed with an unknown one, the checks of the claims,
    and the scopes, roles and identity read from them.  The HTTP client and the
    library that checks signatures are the class [OidcClient]; a request may be
    answered differently each time it is made, so the state counts requests. *)
From Stdlib Require Import ZArith Lia Ascii.
From S2P Require Import Prelude PyStr Json Hash Clock Url Config Identity AuthGate FactValidation ConnectOAuth Samples.
Local Open Scope Z_scope.

Definition _MAX_PROVIDER_SUBJECT_LENGTH : Z := 255.
Definition _MAX_USERNAME_LENGTH : Z := 255.
Definition _MAX_EMAIL_LENGTH : Z := 320.
Definition _MAX_DISPLAY_NAME_LENGTH : Z := 1024.

(** What the third-party libraries answer: the response to the n-th request,
    [None] when it fails; the claims of a token signed with one of the keys. *)
Class OidcClient := {
  oidc_get : nat → string → option HttpResponse;
  oidc_decode : dict → list string → string → option value }.

(** The fields of [OIDCResourceServerConfig], with those that the gate does not
    read. *)
Record OidcProvider := mk_oidc_provider {
  claim_config : OIDCResourceServerConfig;
  oidc_discovery_url : string; oidc_jwks_url : string; algorithms : list string; cache_ttl_seconds : Z }.
(** The caches of [ExternalOIDCValidator], and the count of HTTP requests. *)
Record Validator := mk_validator {
  _metadata_cache : option (Z * dict); _jwks_cache : option (Z * dict); _readiness_cache : option (Z * bool); requests : nat }.
Definition new_validator : Validator := mk_validator None None None 0.

(** ** Claims *)

Definition _safe_oidc_url (url : string) : result bool :=
  parsed ← urlsplit url;
  Ok (if String.eqb (url_scheme parsed) "https" then negb (String.eqb (url_hostname parsed) "")
      else String.eqb (url_scheme parsed) "http" && existsb (String.eqb (url_hostname parsed)) ["127.0.0.1"; "localhost"; "::1"]).
Definition _audience_matches (v : value) (expected : string) : bool :=
  match v with
  | VStr s => String.eqb s expected
  | VList items => existsb (λ item, String.eqb (py_str item) expected) items
  | _ => false
  end.
(** [{str(item) for item in v if str(item).strip()}] *)
Definition nonblank_items (items : list value) : list string :=
  List.filter (λ s, negb (String.eqb (strip s) "")) (map py_str items).
Definition _scopes_from_claims (claims : dict) : scope_set :=
  dedup (flat_map (λ claim_name, match vget claim_name claims with
    | VStr s => split_ws s | VList items => nonblank_items items | _ => [] end) ["scope"; "scp"]).
Fixpoint claim_at (v : value) (path : list string) : value :=
  match path with
  | [] => v
  | part :: rest => match v with VDict d => claim_at (vget part d) rest | _ => VNone end
  end.
Definition _claim_value (claims : dict) (path : string) : value := claim_at (VDict claims) (split_on "."%char path).
Definition _string_set (v : value) : list string :=
  match v with
  | VStr s => if String.eqb s "" then [] else [s]
  | VList items => nonblank_items items
  | _ => []
  end.
Definition _optional_string_claim (claims : dict) (path : string) (max_length : Z) : option string :=
  match _claim_value claims path with
  | VStr s => let normalized := strip s in
              if negb (String.eqb normalized "") && (str_len normalized <=? max_length) then Some normalized else None
  | _ => None
  end.
(** [any(isinstance(key, dict) and key.get("kid") == kid for key in keys)] *)
Definition names_key (kid : string) (keys : list value) : bool :=
  existsb (λ key, match key with VDict d => is_text kid (vget "kid" d) | _ => false end) keys.
Definition _jwks_contains_token_key (access_token : string) (jwks : dict) : result bool :=
  match split_on "."%char access_token with
  | [part; _; _] =>
      match (b ← urlsafe_b64decode (part +:+ list_str (replicate (Z.to_nat ((- str_len part) mod 4)) "="%char)); json_loads_bytes b) with
      | Ok (VDict header) =>
          Ok match vget "kid" header, vget "keys" jwks with
             | VStr kid, VList keys => names_key kid keys
             | _, _ => true
             end
      | Ok _ | Raise (ValueError _) => Ok true
      | Raise e => Raise e
      end
  | _ => Ok true
  end.
Definition disjoint (a b : list string) : bool := negb (existsb (λ x, mem x b) a).

Section validator.
Context `{HashLib} `{OidcClient}.
Variable config : OidcProvider.
Notation claim_settings := (claim_config config).
Notation issuer := (oidc_issuer (claim_config config)).

Definition _qualified_provider_id : string := "oidc_" +:+ stake 32 (sha256_hex (utf8_encode issuer)).
Definition _qualified_owner_id (subject : string) : string :=
  "oidc:" +:+ sha256_hex (utf8_encode (issuer +:+ char_str (chr 0) +:+ subject)).
Definition _roles_from_claims (claims : dict) : list string :=
  let client_id := oidc_client_id claim_settings in
  _string_set (_claim_value claims (roles_claim claim_settings))
  ++ match vget "realm_access" claims with VDict realm => _string_set (vget "roles" realm) | _ => [] end
  ++ match vget "resource_access" claims with
     | VDict resource_access =>
         if String.eqb client_id "" then [] else
         match vget client_id resource_access with VDict client_access => _string_set (vget "roles" client_access) | _ => [] end
     | _ => []
     end.
Definition _expected_audience : string := or_str (oidc_audience claim_settings) (oidc_client_id claim_settings).
(** The test of the e-mail domain. *)
Definition domain_allowed (claims : dict) : bool :=
  match _claim_value claims (email_claim claim_settings) with
  | VStr email =>
      has_char "@"%char email && match vget "email_verified" claims with VBool true => true | _ => false end
      && mem (lower (after_last "@"%char email)) (allowed_domains claim_settings)
  | _ => false
  end.
Definition restricted_to (allowed values : list string) : bool :=
  match allowed with [] => true | _ => negb (disjoint values allowed) end.
Definition _validate_claims (now : Z) (claims : dict) : bool :=
  let skew := clock_skew_seconds claim_settings in
  let client_id := oidc_client_id claim_settings in
  match int_claim (vget "exp" claims) with Some exp => negb (exp <=? now - skew) | None => false end
  && match int_claim (vget "nbf" claims) with Some nbf => negb (now + skew <? nbf) | None => true end
  && match int_claim (vget "iat" claims) with Some iat => negb (now + skew <? iat) | None => true end
  && is_text issuer (vget "iss" claims)
  && _audience_matches (vget "aud" claims) _expected_audience
  && (String.eqb client_id "" || is_none (vget "azp" claims) || is_text client_id (vget "azp" claims))
  && match vget "sub" claims with
     | VStr s => negb (String.eqb (strip s) "") && (str_len (strip s) <=? _MAX_PROVIDER_SUBJECT_LENGTH) | _ => false end
  && restricted_to (allowed_groups claim_settings) (_string_set (_claim_value claims (groups_claim claim_settings)))
  && restricted_to (allowed_roles claim_settings) (_roles_from_claims claims)
  && match allowed_domains claim_settings with [] => true | _ => domain_allowed claims end.
(** The identity and the scopes of accepted claims. *)
Definition identity_of (claims : dict) : ExternalOIDCClaims :=
  let subject := strip (py_str (vget "sub" claims)) in
  let username := _optional_string_claim claims (username_claim claim_settings) _MAX_USERNAME_LENGTH in
  let email := match vget "email_verified" claims with
               | VBool false => None | _ => _optional_string_claim claims (email_claim claim_settings) _MAX_EMAIL_LENGTH end in
  let display_name := _optional_string_claim claims (display_name_claim claim_settings) _MAX_DISPLAY_NAME_LENGTH in
  mk_oidc_claims (_qualified_owner_id subject) _qualified_provider_id subject (str_opt (vget "jti" claims))
    (dedup (_scopes_from_claims claims ++ flat_map (λ role, default [] (dict_get role (role_scopes claim_settings))) (_roles_from_claims claims)))
    username email (match display_name with Some d => Some d | None => username end).

(** ** The provider *)

Notation V := (M Validator).
Definition set_metadata (c : option (Z * dict)) : V unit := exec (λ s, mk_validator c (_jwks_cache s) (_readiness_cache s) (requests s)).
Definition set_jwks (c : option (Z * dict)) : V unit := exec (λ s, mk_validator (_metadata_cache s) c (_readiness_cache s) (requests s)).
Definition set_readiness (c : option (Z * bool)) : V unit := exec (λ s, mk_validator (_metadata_cache s) (_jwks_cache s) c (requests s)).
Definition next_request : V nat := λ s,
  (Ok (requests s), mk_validator (_metadata_cache s) (_jwks_cache s) (_readiness_cache s) (S (requests s))).
Definition fresh {A} (now : Z) (c : option (Z * A)) : option A := '(expires, a) ← c; if now <? expires then Some a else None.
(** The object that the n-th request answers. *)
Definition answered (n : nat) (url : string) : option dict :=
  r ← oidc_get n url;
  if 400 <=? status_code r then None else
  match response_json r with Ok (VDict payload) => Some payload | _ => None end.
Definition _fetch_json (url : string) : V (option dict) :=
  safe ← lift (_safe_oidc_url url);
  if negb safe then mret None else
  n ← next_request;
  mret (answered n url).
Definition _metadata (now : Z) : V (option dict) :=
  s ← get_state;
  match fresh now (_metadata_cache s) with
  | Some payload => mret (Some payload)
  | None =>
      payload ← _fetch_json (oidc_discovery_url config);
      match payload with
      | None => mret None
      | Some d => _ ← set_metadata (Some (now + cache_ttl_seconds config, d)); mret (Some d)
      end
  end.
(** The address of the keys: the configured one, or that of a discovery document
    that names the issuer. *)
Definition jwks_address (now : Z) : V (option string) :=
  if negb (String.eqb (oidc_jwks_url config) "") then mret (Some (oidc_jwks_url config)) else
  metadata ← _metadata now;
  match metadata with
  | None => mret None
  | Some d =>
      if negb (is_text issuer (vget "issuer" d)) then mret None else
      match vget "jwks_uri" d with
      | VStr discovered => safe ← lift (_safe_oidc_url discovered); mret (if safe : bool then Some discovered else None)
      | _ => mret None
      end
  end.
Definition is_list (v : value) : bool := match v with VList _ => true | _ => false end.
Definition _jwks (now : Z) : V (option dict) :=
  s ← get_state;
  match fresh now (_jwks_cache s) with
  | Some payload => mret (Some payload)
  | None =>
      url ← jwks_address now;
      match url with
      | None => mret None
      | Some url =>
          payload ← _fetch_json url;
          match payload with
          | None => mret None
          | Some d =>
              if negb (is_list (vget "keys" d)) then mret None else
              _ ← set_jwks (Some (now + cache_ttl_seconds config, d));
              mret (Some d)
          end
      end
  end.
Definition _cache_readiness (now : Z) (provider_ready : bool) : V unit :=
  set_readiness (Some (now + (if provider_ready then cache_ttl_seconds config else 30), provider_ready)).
Definition readiness (now : Z) : V bool :=
  s ← get_state;
  match fresh now (_readiness_cache s) with
  | Some ready => mret ready
  | None =>
      keys ← _jwks now;
      let provider_ready := bool_decide (is_Some keys) in
      _ ← _cache_readiness now provider_ready;
      mret provider_ready
  end.
Definition _decode_token (access_token : string) (jwks : dict) : option dict :=
  oidc_decode jwks (algorithms config) access_token ≫= as_dict.
(** The claims, after one more look at the keys when the token names an unknown
    one. *)
Definition decoded_claims (now : Z) (access_token : string) (jwks : dict) : V (option dict) :=
  match _decode_token access_token jwks with
  | Some claims => mret (Some claims)
  | None =>
      known ← lift (_jwks_contains_token_key access_token jwks);
      if known : bool then mret None else
      _ ← set_jwks None;
      jwks ← _jwks now;
      mret (keys ← jwks; _decode_token access_token keys)
  end.
Definition validate (now : Z) (access_token : string) : V (option ExternalOIDCClaims) :=
  jwks ← _jwks now;
  match jwks with
  | None => mret None
  | Some jwks =>
      _ ← _cache_readiness now true;
      claims ← decoded_claims now access_token jwks;
      mret (claims ← claims; if _validate_claims now claims then Some (identity_of claims) else None)
  end.
End validator.

(** ** Accepted tokens *)

Section facts.
Context `{HashLib} `{OidcClient}.
Variable config : OidcProvider.
Notation claim_settings := (claim_config config).
Notation issuer := (oidc_issuer (claim_config config)).

(** An address of the provider's keys, as the first [k] requests show it. *)
Definition key_address (k : nat) (url : string) : Prop :=
  (oidc_jwks_url config ≠ "" ∧ url = oidc_jwks_url config) ∨
  (oidc_jwks_url config = "" ∧ ∃ m d, (m < k)%nat ∧ answered m (oidc_discovery_url config) = Some d ∧
     vget "issuer" d = VStr issuer ∧ vget "jwks_uri" d = VStr url).
(** Keys that one of the first [k] requests answered at such an address, over
    https or from this machine. *)
Definition provider_keys (k : nat) (keys : dict) : Prop :=
  ∃ n url, (n < k)%nat ∧ key_address k url ∧ _safe_oidc_url url = Ok true ∧ answered n url = Some keys ∧ is_list (vget "keys" keys) = true.
Record caches_ok (s : Validator) : Prop := {
  metadata_ok : ∀ t d, _metadata_cache s = Some (t, d) → ∃ m, (m < requests s)%nat ∧ answered m (oidc_discovery_url config) = Some d;
  jwks_ok : ∀ t d, _jwks_cache s = Some (t, d) → provider_keys (requests s) d }.

Inductive validator_step : Validator → Validator → Prop :=
| step_validate now token s r s' : validate config now token s = (r, s') → validator_step s s'
| step_readiness now s r s' : readiness config now s = (r, s') → validator_step s s'.
Definition validator_reachable (s : Validator) : Prop := rtc validator_step new_validator s.

(** What the checks of the claims mean. *)
Record accepted (now : Z) (claims : dict) : Prop := {
  acc_unexpired : ∃ exp, int_claim (vget "exp" claims) = Some exp ∧ now < exp + clock_skew_seconds claim_settings;
  acc_begun : ∀ k z, k ∈ ["nbf"; "iat"] → int_claim (vget k claims) = Some z → z <= now + clock_skew_seconds claim_settings;
  acc_issuer : vget "iss" claims = VStr issuer;
  acc_audience : vget "aud" claims = VStr (_expected_audience config) ∨
    ∃ items, vget "aud" claims = VList items ∧ _expected_audience config ∈ map py_str items;
  acc_party : oidc_client_id claim_settings = "" ∨ vget "azp" claims = VNone ∨ vget "azp" claims = VStr (oidc_client_id claim_settings);
  acc_subject : ∃ sub, vget "sub" claims = VStr sub ∧ strip sub ≠ "" ∧ str_len (strip sub) <= 255;
  acc_groups : allowed_groups claim_settings = [] ∨
    ∃ g, g ∈ allowed_groups claim_settings ∧ g ∈ _string_set (_claim_value claims (groups_claim claim_settings));
  acc_roles : allowed_roles claim_settings = [] ∨ ∃ r, r ∈ allowed_roles claim_settings ∧ r ∈ _roles_from_claims config claims;
  acc_domain : allowed_domains claim_settings = [] ∨ ∃ email, _claim_value claims (email_claim claim_settings) = VStr email ∧
    vget "email_verified" claims = VBool true ∧ lower (after_last "@"%char email) ∈ allowed_domains claim_settings }.

Lemma mem_elem x l : mem x l = true → x ∈ l.
Proof. unfold mem. intros (y & Hy & ->%String.eqb_eq)%existsb_exists. by apply list_elem_of_In. Qed.
Lemma is_text_eq s v : is_text s v = true → v = VStr s.
Proof. unfold is_text. destruct v; try discriminate. by intros ->%String.eqb_eq. Qed.
Lemma restricted_spec allowed values : restricted_to allowed values = true → allowed = [] ∨ ∃ x, x ∈ allowed ∧ x ∈ values.
Proof.
  unfold restricted_to, disjoint. destruct allowed as [|a allowed]; [by left|]. intros Hd. right. rewrite negb_involutive in Hd.
  apply existsb_exists in Hd as (x & Hx & Hm). exists x. split; [by apply mem_elem|by apply list_elem_of_In].
Qed.
Lemma validated_accepted now claims : _validate_claims config now claims = true → accepted now claims.
Proof.
  unfold _validate_claims. intros Hv. repeat (apply andb_true_iff in Hv as [Hv ?Hc]). split.
  - destruct (int_claim (vget "exp" claims)) as [z|]; [|discriminate]. exists z. split; [done|]. apply negb_true_iff, Z.leb_gt in Hv. lia.
  - intros k z Hk Hz. repeat (apply elem_of_cons in Hk as [->|Hk]); [rewrite Hz in Hc7|rewrite Hz in Hc6|by apply elem_of_nil in Hk];
      match goal with Hn : negb (_ <? _) = true |- _ => apply negb_true_iff, Z.ltb_ge in Hn; lia end.
  - by apply is_text_eq.
  - unfold _audience_matches in Hc4. destruct (vget "aud" claims) as [| | | |s|items|]; try discriminate; [left; by apply String.eqb_eq in Hc4 as ->|].
    right. exists items. split; [done|]. apply existsb_exists in Hc4 as (x & Hx & <-%String.eqb_eq). apply elem_of_map. exists x.
    split; [by apply list_elem_of_In|done].
  - apply orb_true_iff in Hc3 as [Ha|Ha]; [apply orb_true_iff in Ha as [Ha|Ha]|].
    + left. by apply String.eqb_eq.
    + right. left. by destruct (vget "azp" claims).
    + right. right. by apply is_text_eq.
  - destruct (vget "sub" claims) as [| | | |s| |]; try discriminate. exists s. apply andb_true_iff in Hc2 as [Hs Hl].
    split; [done|]. split; [by apply negb_true_iff, String.eqb_neq in Hs|]. by apply Z.leb_le.
  - by apply restricted_spec.
  - by apply restricted_spec.
  - destruct (allowed_domains claim_settings) as [|a l] eqn:E; [by left|]. right. unfold domain_allowed in Hc. rewrite E in Hc.
    destruct (_claim_value claims (email_claim claim_settings)) as [| | | |email| |]; try discriminate. exists email. split; [done|].
    apply andb_true_iff in Hc as [Hc Hd]. apply andb_true_iff in Hc as [_ He]. split; [|by apply mem_elem].
    destruct (vget "email_verified" claims) as [|[]| | | | |]; done.
Qed.

(** *** The keys *)

Lemma provider_keys_mono k k' keys : (k <= k')%nat → provider_keys k keys → provider_keys k' keys.
Proof.
  intros Hk (n & url & Hn & Ha & Hs & Hr & Hl). exists n, url. split_and!; try done; [lia|].
  destruct Ha as [Ha|(He & m & d & Hm & Hd)]; [by left|]. right. split; [done|]. exists m, d. split; [lia|done].
Qed.
Lemma fetch_run url s r s' : _fetch_json url s = (r, s') →
  _metadata_cache s' = _metadata_cache s ∧ _jwks_cache s' = _jwks_cache s ∧ (requests s <= requests s' <= S (requests s))%nat ∧
  (∀ d, r = Ok (Some d) → _safe_oidc_url url = Ok true ∧ ∃ n, (n < requests s')%nat ∧ answered n url = Some d).
Proof.
  unfold _fetch_json. unfold mbind at 1, M_bind, lift. destruct (_safe_oidc_url url) as [[]|e]; cbn; intros [= <- <-]; cbn; split_and!; try done; try lia.
  intros d [= Hd]. split; [done|]. exists (requests s). split; [lia|done].
Qed.
(** What the steps of the provider keep, and what they answer. *)
Definition found {A} (Q : nat → A → Prop) (m : M Validator (option A)) : Prop := ∀ s r s', m s = (r, s') → caches_ok s →
  caches_ok s' ∧ (requests s <= requests s')%nat ∧ (∀ a, r = Ok (Some a) → Q (requests s') a).
Lemma caches_later s s' : caches_ok s → _metadata_cache s' = _metadata_cache s → _jwks_cache s' = _jwks_cache s →
  (requests s <= requests s')%nat → caches_ok s'.
Proof.
  intros [Hm Hj] Em Ej Hk. split; rewrite ?Em, ?Ej; [|by intros t d Hd; eapply provider_keys_mono, Hj].
  intros t d Hd. destruct (Hm t d Hd) as (m & Hlt & Hd'). exists m. split; [lia|done].
Qed.
Lemma fresh_in {A} now (c : option (Z * A)) a : fresh now c = Some a → ∃ t, c = Some (t, a).
Proof. unfold fresh. destruct c as [[t x]|]; [|done]. cbn. destruct (now <? t); [|done]. intros [= <-]. by exists t. Qed.
Lemma metadata_found now : found (λ k d, ∃ m, (m < k)%nat ∧ answered m (oidc_discovery_url config) = Some d) (_metadata config now).
Proof.
  intros s r s' Hr Hi. unfold _metadata in Hr. unfold mbind, M_bind, get_state in Hr. destruct (fresh now (_metadata_cache s)) as [d|] eqn:Ef.
  - injection Hr as <- <-. split; [done|]. split; [lia|]. intros d' [= <-]. apply fresh_in in Ef as [t Ht]. by eapply metadata_ok.
  - destruct (_fetch_json _ s) as [r1 s1] eqn:E1. apply fetch_run in E1 as (Em & Ej & Hk & Hd).
    pose proof (caches_later _ _ Hi Em Ej ltac:(lia)) as Hi1.
    destruct r1 as [[d|]|e]; cbn in Hr; injection Hr as <- <-; [|split; [done|split; [lia|done]]..].
    destruct (Hd d eq_refl) as (_ & n & Hn & Ha). split; [|split; [cbn; lia|intros d' [= <-]; by exists n]].
    split; cbn; [|by apply Hi1]. intros t d' [= _ <-]. by exists n.
Qed.
Lemma address_found now : found key_address (jwks_address config now).
Proof.
  intros s r s' Hr Hi. unfold jwks_address in Hr. destruct (String.eqb (oidc_jwks_url config) "") eqn:Eu; cbn in Hr.
  - apply String.eqb_eq in Eu. unfold mbind, M_bind in Hr. destruct (_metadata config now s) as [r1 s1] eqn:E1.
    destruct (metadata_found now _ _ _ E1 Hi) as (Hi1 & Hk & Hd).
    destruct r1 as [[d|]|e]; [|injection Hr as <- <-; by split_and!..].
    destruct (is_text issuer (vget "issuer" d)) eqn:Ei; cbn in Hr; [|injection Hr as <- <-; by split_and!].
    destruct (vget "jwks_uri" d) as [| | | |u| |] eqn:Eu'; try (injection Hr as <- <-; by split_and!).
    unfold lift in Hr. destruct (_safe_oidc_url u) as [[]|e]; injection Hr as <- <-; [|by split_and!..].
    split_and!; try done. intros url [= <-]. right. split; [done|]. destruct (Hd d eq_refl) as (m & Hm & Ha). exists m, d.
    split_and!; try done. by apply is_text_eq.
  - injection Hr as <- <-. split; [done|]. split; [lia|]. intros url [= <-]. left. split; [by apply String.eqb_neq|done].
Qed.
Lemma jwks_found now : found provider_keys (_jwks config now).
Proof.
  intros s r s' Hr Hi. unfold _jwks in Hr. unfold mbind, M_bind, get_state in Hr. destruct (fresh now (_jwks_cache s)) as [d|] eqn:Ef.
  { injection Hr as <- <-. split; [done|]. split; [lia|]. intros d' [= <-]. apply fresh_in in Ef as [t Ht]. by eapply jwks_ok. }
  destruct (jwks_address config now s) as [r1 s1] eqn:E1. destruct (address_found now _ _ _ E1 Hi) as (Hi1 & Hk1 & Ha).
  destruct r1 as [[url|]|e]; [|injection Hr as <- <-; by split_and!..].
  destruct (_fetch_json url s1) as [r2 s2] eqn:E2. apply fetch_run in E2 as (Em & Ej & Hk2 & Hd).
  pose proof (caches_later _ _ Hi1 Em Ej ltac:(lia)) as Hi2.
  destruct r2 as [[d|]|e]; [|injection Hr as <- <-; split_and!; [done|lia|done]..].
  destruct (is_list (vget "keys" d)) eqn:El; cbn in Hr; injection Hr as <- <-; [|split_and!; [done|lia|done]].
  assert (Hp : provider_keys (requests s2) d).
  { destruct (Hd d eq_refl) as (Hs & n & Hn & Hd'). exists n, url. split_and!; try done. destruct (Ha url eq_refl) as [?|(He & m & m' & Hm & Hd'')]; [by left|].
    right. split; [done|]. exists m, m'. split; [lia|done]. }
  split; [|split; [cbn; lia|intros d' [= <-]; done]]. split; cbn; [apply Hi2|]. by intros t d' [= _ <-].
Qed.
Lemma decoded_found now token jwks : (∀ s, caches_ok s → provider_keys (requests s) jwks →
  ∀ r s', decoded_claims config now token jwks s = (r, s') → caches_ok s' ∧ (requests s <= requests s')%nat ∧
    (∀ claims, r = Ok (Some claims) → ∃ keys, provider_keys (requests s') keys ∧ oidc_decode keys (algorithms config) token = Some (VDict claims))).
Proof.
  assert (Hd : ∀ keys claims, _decode_token config token keys = Some claims → oidc_decode keys (algorithms config) token = Some (VDict claims)).
  { intros keys claims. unfold _decode_token. destruct (oidc_decode _ _ _) as [[]|]; cbn; try discriminate. by intros [= <-]. }
  intros s Hi Hp r s' Hr. unfold decoded_claims in Hr. destruct (_decode_token config token jwks) as [c|] eqn:Ec.
  { injection Hr as <- <-. split_and!; [done|lia|]. intros c' [= <-]. exists jwks. split; [done|by apply Hd]. }
  unfold lift, mbind at 1, M_bind at 1 in Hr. destruct (_jwks_contains_token_key token jwks) as [[]|e]; [injection Hr as <- <-; by split_and!| |injection Hr as <- <-; by split_and!].
  unfold mbind, M_bind, set_jwks, exec in Hr. set (s1 := mk_validator _ _ _ _) in Hr.
  assert (Hi1 : caches_ok s1) by (split; cbn; [apply Hi|done]).
  destruct (_jwks config now s1) as [r2 s2] eqn:E2. destruct (jwks_found now _ _ _ E2 Hi1) as (Hi2 & Hk & Hf). cbn in Hk.
  destruct r2 as [keys|e]; injection Hr as <- <-; split_and!; try done. intros c Hc. destruct keys as [keys|]; [|discriminate].
  cbn in Hc. injection Hc as Hc. exists keys. split; [by apply Hf|by apply Hd].
Qed.
Lemma validate_run now token s r s' : validate config now token s = (r, s') → caches_ok s → caches_ok s' ∧
  (∀ c, r = Ok (Some c) → ∃ keys claims, provider_keys (requests s') keys ∧
    oidc_decode keys (algorithms config) token = Some (VDict claims) ∧ _validate_claims config now claims = true ∧ c = identity_of config claims).
Proof.
  unfold validate. unfold mbind, M_bind at 1. intros Hr Hi. destruct (_jwks config now s) as [r1 s1] eqn:E1.
  destruct (jwks_found now _ _ _ E1 Hi) as (Hi1 & Hk & Hf). destruct r1 as [[jwks|]|e]; [|injection Hr as <- <-; by split_and!..].
  specialize (Hf jwks eq_refl). unfold M_bind, _cache_readiness, set_readiness, exec in Hr. set (s2 := mk_validator _ _ _ _) in Hr.
  assert (Hi2 : caches_ok s2) by (split; cbn; apply Hi1).
  destruct (decoded_claims config now token jwks s2) as [r3 s3] eqn:E3. destruct (decoded_found now token jwks s2 Hi2 Hf _ _ E3) as (Hi3 & _ & Hd).
  destruct r3 as [claims|e]; injection Hr as <- <-; split; try done. intros c Hc. destruct claims as [claims|]; [|discriminate]. cbn in Hc.
  destruct (_validate_claims config now claims) eqn:Ev; [|discriminate]. injection Hc as <-. destruct (Hd claims eq_refl) as (keys & Hp & Hk').
  by exists keys, claims.
Qed.
Lemma readiness_keeps now s r s' : readiness config now s = (r, s') → caches_ok s → caches_ok s'.
Proof.
  unfold readiness. unfold mbind, M_bind, get_state. intros Hr Hi. destruct (fresh now (_readiness_cache s)); [by injection Hr as _ <-|].
  destruct (_jwks config now s) as [r1 s1] eqn:E1. destruct (jwks_found now _ _ _ E1 Hi) as (Hi1 & _).
  destruct r1 as [keys|e]; injection Hr as _ <-; [split; cbn; apply Hi1|done].
Qed.
Lemma reachable_caches s : validator_reachable s → caches_ok s.
Proof.
  unfold validator_reachable. intros Hs. assert (H0' : caches_ok new_validator) by (split; discriminate). revert H0'.
  induction Hs as [s|s s1 s2 Hst _ IH]; [done|]. intros Hi. apply IH.
  destruct Hst as [now token s r s1 Hv|now s r s1 Hv]; [by eapply validate_run|by eapply readiness_keeps].
Qed.

(** C17: An external token is accepted only as one of the provider's: in every
    state that validations and readiness probes lead to, the token of an accepted
    identity was verified, with the configured algorithms, under keys that the
    provider answered over https (or from this machine) at the configured address
    or at the one of a discovery document that names the issuer; its claims are
    in time, of the issuer, for this audience and party, and within the allowed
    groups, roles and verified e-mail domains; the owner is the digest of issuer
    and subject, and every scope is claimed or granted by a role of the token. *)
Theorem external_tokens_trusted now token s c s' : validator_reachable s → validate config now token s = (Ok (Some c), s') →
  ∃ keys claims, provider_keys (requests s') keys ∧ oidc_decode keys (algorithms config) token = Some (VDict claims) ∧ accepted now claims ∧
    vget "sub" claims ≠ VNone ∧ ext_subject c = strip (py_str (vget "sub" claims)) ∧
    ext_owner_id c = "oidc:" +:+ sha256_hex (utf8_encode (issuer +:+ char_str (chr 0) +:+ ext_subject c)) ∧
    (∀ scope, scope ∈ ext_scopes c → scope ∈ _scopes_from_claims claims ∨
       ∃ role, role ∈ _roles_from_claims config claims ∧ scope ∈ default [] (dict_get role (role_scopes claim_settings))).
Proof.
  intros Hs Hv. destruct (validate_run _ _ _ _ _ Hv (reachable_caches s Hs)) as (_ & Hc). destruct (Hc c eq_refl) as (keys & claims & Hp & Hk & Ha & ->).
  apply validated_accepted in Ha. exists keys, claims. split_and!; try done.
  - destruct Ha as [_ _ _ _ _ (sub & -> & _) _ _ _]. discriminate.
  - intros scope. cbn [identity_of ext_scopes]. rewrite elem_of_dedup, elem_of_app, elem_of_flat_map. intros [?|(role & ? & ?)]; [by left|right; by exists role].
Qed.

(** *** Requests *)

(** The discovery document is not asked for again. *)
Definition discovered (now : Z) (s : Validator) : Prop := oidc_jwks_url config ≠ "" ∨ is_Some (fresh now (_metadata_cache s)).
Lemma fetch_cost url s : (requests (_fetch_json url s).2 <= S (requests s))%nat ∧ _metadata_cache (_fetch_json url s).2 = _metadata_cache s.
Proof. destruct (_fetch_json url s) as [r s'] eqn:E. apply fetch_run in E as (Em & _ & Hk & _). split; [cbn; lia|done]. Qed.
Lemma metadata_cost now s : 0 < cache_ttl_seconds config → let '(r, s') := _metadata config now s in
  (requests s' <= S (requests s))%nat ∧ (is_Some (fresh now (_metadata_cache s)) → s' = s) ∧
  (∀ d, r = Ok (Some d) → is_Some (fresh now (_metadata_cache s'))).
Proof.
  intros Ht. unfold _metadata. unfold mbind, M_bind, get_state. destruct (fresh now (_metadata_cache s)) as [d|] eqn:Ef.
  - cbn. split_and!; [lia|done|]. intros d' _. rewrite Ef. by eexists.
  - destruct (fetch_cost (oidc_discovery_url config) s) as [Hk Hm]. destruct (_fetch_json _ s) as [r1 s1]. cbn [fst snd] in *.
    destruct r1 as [[d|]|e]; cbn; (split; [lia|]; split; [intros [x Hx]; discriminate Hx|]); try discriminate.
    intros d' _. rewrite (proj2 (Z.ltb_lt _ _)) by lia. by eexists.
Qed.
Lemma address_cost now s : 0 < cache_ttl_seconds config → let '(r, s') := jwks_address config now s in
  (requests s' <= S (requests s))%nat ∧ (discovered now s → requests s' = requests s) ∧ (∀ url, r = Ok (Some url) → discovered now s').
Proof.
  intros Ht. unfold jwks_address. destruct (String.eqb (oidc_jwks_url config) "") eqn:Eu; cbn [negb].
  2:{ apply String.eqb_neq in Eu. cbn. split_and!; [lia|done|intros; by left]. }
  apply String.eqb_eq in Eu. pose proof (metadata_cost now s Ht) as Hm. unfold mbind, M_bind. destruct (_metadata config now s) as [r1 s1].
  destruct Hm as (Hk & He & Hd).
  assert (Hall : (requests s1 <= S (requests s))%nat ∧ (discovered now s → requests s1 = requests s)) by (split; [done|intros [?|Hf]; [congruence|by rewrite He]]).
  destruct r1 as [[d|]|e]; [|split_and!; [apply Hall..|discriminate]..]. specialize (Hd d eq_refl).
  destruct (is_text issuer (vget "issuer" d)); cbn [negb]; [|split_and!; [apply Hall..|discriminate]].
  destruct (vget "jwks_uri" d) as [| | | |u| |]; try (split_and!; [apply Hall..|discriminate]). unfold lift.
  destruct (_safe_oidc_url u) as [b|e]; (split_and!; [apply Hall..|]); try discriminate. intros url _. by right.
Qed.
Lemma jwks_cost now s : 0 < cache_ttl_seconds config → let '(r, s') := _jwks config now s in
  (requests s' <= 2 + requests s)%nat ∧ (discovered now s → (requests s' <= 1 + requests s)%nat) ∧
  (is_Some (fresh now (_jwks_cache s)) → s' = s) ∧
  (∀ keys, r = Ok (Some keys) → s' = s ∨ discovered now s').
Proof.
  intros Ht. unfold _jwks. unfold mbind, M_bind, get_state. destruct (fresh now (_jwks_cache s)) as [d|] eqn:Ef.
  { split_and!; [lia|lia|done|]. intros; by left. }
  pose proof (address_cost now s Ht) as Ha. destruct (jwks_address config now s) as [r1 s1]. destruct Ha as (Hk & He & Hd).
  assert (Hn : is_Some (None (A:=dict)) → ∀ x : Validator, x = s) by by intros [x Hx].
  destruct r1 as [[url|]|e]; [|split_and!; [lia|intros Hx; rewrite He by done; lia|by intros|discriminate]..].
  specialize (Hd url eq_refl). destruct (fetch_cost url s1) as [Hk2 Hm]. destruct (_fetch_json url s1) as [r2 s2]. cbn [fst snd] in *.
  assert (Hd2 : discovered now s2) by (destruct Hd as [?|Hf]; [by left|right; by rewrite Hm]).
  assert (Hb : (requests s2 <= 2 + requests s)%nat ∧ (discovered now s → (requests s2 <= 1 + requests s)%nat)).
  { split; [lia|]. intros Hx. rewrite <-(He Hx). lia. }
  destruct r2 as [[d|]|e]; [|split_and!; [apply Hb..|by intros|discriminate]..].
  destruct (is_list (vget "keys" d)); (split_and!; [apply Hb..|by intros|]); try discriminate. intros keys _. by right.
Qed.
Lemma decoded_cost now token jwks s : 0 < cache_ttl_seconds config → let '(_, s') := decoded_claims config now token jwks s in
  (requests s' <= 2 + requests s)%nat ∧ (discovered now s → (requests s' <= 1 + requests s)%nat) ∧
  (is_Some (_decode_token config token jwks) ∨ _jwks_contains_token_key token jwks = Ok true → s' = s).
Proof.
  intros Ht. unfold decoded_claims. destruct (_decode_token config token jwks) as [c|]; [cbn; split_and!; [lia|lia|done]|].
  unfold mbind at 1, M_bind at 1, lift. destruct (_jwks_contains_token_key token jwks) as [[]|e]; [cbn; split_and!; [lia|lia|done]| |cbn; split_and!; [lia|lia|done]].
  unfold mbind, M_bind, set_jwks, exec. pose proof (jwks_cost now (mk_validator (_metadata_cache s) None (_readiness_cache s) (requests s)) Ht) as Hc.
  set (s1 := mk_validator _ _ _ _) in *. destruct (_jwks config now s1) as [r2 s2]. destruct Hc as (Hk & Hd & _). cbn [requests] in *.
  destruct r2 as [keys|e]; (split_and!; [exact Hk|intros Hx; by apply Hd|]); intros [[x Hx]|Hx]; discriminate Hx.
Qed.
(** C18: A validation costs the provider three requests at most, whatever the token
    and whatever is answered: the discovery document once, the keys at most
    twice.  A token that verifies under the cached keys, or does not name a key
    beside them, costs none while the cache is fresh. *)
Theorem validation_requests_bounded now token s : 0 < cache_ttl_seconds config →
  let s' := (validate config now token s).2 in
  (requests s' <= 3 + requests s)%nat ∧
  (∀ keys, fresh now (_jwks_cache s) = Some keys →
     is_Some (_decode_token config token keys) ∨ _jwks_contains_token_key token keys = Ok true → requests s' = requests s).
Proof.
  intros Ht. cbv zeta. destruct (validate config now token s) as [r s'] eqn:Ev. cbn [snd]. unfold validate in Ev.
  unfold mbind at 1, M_bind at 1 in Ev. pose proof (jwks_cost now s Ht) as Hj.
  assert (Hf : ∀ keys, fresh now (_jwks_cache s) = Some keys → _jwks config now s = (Ok (Some keys), s)).
  { intros keys Hf. unfold _jwks, mbind, M_bind, get_state. by rewrite Hf. }
  destruct (_jwks config now s) as [r1 s1]. destruct Hj as (Hk & _ & _ & Hd).
  destruct r1 as [[jwks|]|e]; [|injection Ev as <- <-; split; [lia|intros keys Hx; by specialize (Hf keys Hx)]..].
  specialize (Hd jwks eq_refl). unfold mbind, M_bind, _cache_readiness, set_readiness, exec in Ev.
  set (s2 := mk_validator _ _ _ _) in Ev. pose proof (decoded_cost now token jwks s2 Ht) as Hc.
  destruct (decoded_claims config now token jwks s2) as [r3 s3]. destruct Hc as (Hk3 & Hd3 & He3).
  assert (s' = s3) as -> by (by destruct r3; injection Ev). clear Ev. subst s2. cbn [requests] in *. split.
  - destruct Hd as [->|Hd]; [|specialize (Hd3 Hd)]; cbn in *; lia.
  - intros keys Hx Hy. specialize (Hf keys Hx). injection Hf as -> ->. by rewrite (He3 Hy).
Qed.
End facts.

(** ** A small provider *)

Module OidcSamples.
Import Sample.
Definition reply (d : dict) : option HttpResponse := Some (mk_http_response 200 (Ok (VDict d))).
Definition claimed : dict :=
  [("iss", VStr "https://id.example"); ("aud", VList [VStr "hub"]); ("sub", VStr " alice "); ("exp", VInt 2000);
   ("scope", VStr "memory:read"); ("roles", VList [VStr "editor"]); ("email", VStr "alice@Example.org"); ("email_verified", VBool true)].
(** a provider with one key, and two tokens: one that it signed, one that names another key *)
Definition good : string := "eyJraWQiOiJrMSJ9.e30.s".
Definition stranger : string := "eyJraWQiOiJ6eiJ9.e30.s".
#[local] Instance provider : OidcClient := {|
  oidc_get := λ n url,
    if String.eqb url "https://id.example/.well-known/openid-configuration"
    then reply [("issuer", VStr "https://id.example"); ("jwks_uri", VStr "https://id.example/keys")]
    else if String.eqb url "https://id.example/keys" then reply [("keys", VList [VDict [("kid", VStr "k1")]])] else None;
  oidc_decode := λ keys algs token, if String.eqb token good then Some (VDict claimed) else None |}.
Definition settings : OidcProvider :=
  mk_oidc_provider (mk_oidc_config "https://id.example" "hub" "" "preferred_username" "email" "name" "groups" "roles"
      ["example.org"] [] ["editor"] [("editor", ["memory:write"])] ["memory:read"; "memory:write"] 60)
    "https://id.example/.well-known/openid-configuration" "" ["RS256"] 300.
Notation validated now token s := (@validate sample_hashlib provider settings now token s).
Definition warm : Validator := (validated 1000 good new_validator).2.
Definition scopes_of (r : result (option ExternalOIDCClaims)) : list string := match r with Ok (Some c) => ext_scopes c | _ => ["refused"] end.
Example signed_in : (scopes_of (validated 1000 good new_validator).1, requests warm) = (["memory:read"; "memory:write"], 2%nat).
Proof. vm_compute. reflexivity. Qed.
Example expired_token : scopes_of (validated 2060 good warm).1 = ["refused"].
Proof. vm_compute. reflexivity. Qed.
(** Every token that names an unknown key drops the cached keys and asks the
    provider for them again. *)
Example strangers_cost_requests : let s1 := (validated 1001 stranger warm).2 in let s2 := (validated 1002 stranger s1).2 in
  (requests warm, requests s1, requests s2, requests (validated 1003 good s2).2) = (2, 3, 4, 4)%nat.
Proof. vm_compute. reflexivity. Qed.

Lemma warm_reachable : validator_reachable settings warm.
Proof. apply rtc_once. eapply (step_validate settings 1000 good new_validator (validated 1000 good new_validator).1). apply surjective_pairing. Defined.
Definition known (r : result (option ExternalOIDCClaims)) : bool := match r with Ok (Some _) => true | _ => false end.
Lemma external_tokens_trusted_witness : ∃ c s' keys, validated 1001 good warm = (Ok (Some c), s') ∧ ext_subject c = "alice" ∧
  provider_keys settings (requests s') keys.
Proof.
  assert (Hs : known (validated 1001 good warm).1 = true) by (vm_compute; reflexivity).
  assert (Hn : (λ r : result (option ExternalOIDCClaims), match r with Ok (Some c) => ext_subject c | _ => "" end) (validated 1001 good warm).1 = "alice")
    by (vm_compute; reflexivity).
  destruct (validated 1001 good warm) as [[[c|]|e] s'] eqn:E; [|discriminate Hs..].
  destruct (@external_tokens_trusted sample_hashlib provider settings 1001 good warm c s' warm_reachable E) as (keys & claims & Hp & _).
  exists c, s', keys. split; [reflexivity|]. split; [exact Hn|exact Hp].
Defined.
Lemma validation_requests_bounded_witness : (requests (validated 1000 stranger new_validator).2 <= 3)%nat ∧
  requests (validated 1001 good warm).2 = requests warm.
Proof.
  split; [exact (proj1 (@validation_requests_bounded sample_hashlib provider settings 1000 stranger new_validator ltac:(reflexivity)))|].
  refine (proj2 (@validation_requests_bounded sample_hashlib provider settings 1001 good warm ltac:(reflexivity)) [("keys", VList [VDict [("kid", VStr "k1")]])] _ _);
    [vm_compute; reflexivity|right; vm_compute; reflexivity].
Defined.
End OidcSamples.
